(* ===== verification/_CoqProject ===== *)
-Q . S2P
Prelude.v
Encoding.v
Cid.v
CidNumber.v
Types.v
TrackTypes.v
BusinessTypes.v
State.v
Interfaces.v
Runtime.v
Ids.v
Locks.v
Data.v
Cleanup.v
Lifecycle.v
Execution.v
Expiry.v
Maintenance.v
Engine.v
Invariant.v
Safety.v
Outcomes.v
Clients.v
Tally.v
Ballots.v
InternalVote.v
InternalSafety.v
InternalBallots.v
JointVote.v
ElectionVote.v
ElectionCount.v
LegislationVote.v
LegislationRules.v
JointSafety.v
LegislationSafety.v
JointBallots.v
ElectionSafety.v
ElectionBallots.v
LegislationBallots.v
Chain.v
Results.v
LegislationLimits.v
FeePolicy.v
Ledger.v
FullnodeIssuance.v
ProvincialBank.v
CitizenIssuance.v
PowDifficulty.v
Business.v
ResolutionIssuance.v
RuntimeUpgrade.v
JointBusiness.v
BusinessExamples.v
OnchainFee.v
Clearing.v
ClearingSafety.v
CidFormat.v
AreaData.v
AreaFacts.v
