(* ===== verification/Prelude.v ===== *)
(** * A verification library for the citizen chain runtime

    The repository holds a Substrate blockchain ([src/citizenchain]), its
    clients and its services. This library models the core of the chain's
    runtime, the voting engine every public decision goes through, and proves
    what makes it correct.

    ** The program

    [runtime/votingengine] owns proposals: their identifiers, their open
    slots, their locks, their frozen voters, their status, the execution of
    the passed ones and the removal of the finished ones. Voting types are
    separate pallets ("tracks") that create proposals and decide when a vote
    ends: [internal-vote] (one institution or one personal multi-signature
    account), [joint-vote] (the 87 founding institutions, then a referendum),
    [election-vote] (elections by citizens or inside an institution) and
    [legislation-vote] (bills, appointments and budgets in the representative
    bodies, then referendum, signature or guards). Business modules are called
    back when a vote ends. Every operation is deterministic code over storage; an
    extrinsic that fails is rolled back.

    ** How it is modelled

    A pallet's storage is a record with one field per storage item, named
    after the item ([State.v]); [rt] is the whole runtime: block number and
    time, events, the pallets' storage, and the storage [W] of all other
    pallets. Code is a function in one of two monads of this file: [St] for
    code that cannot fail, [M] for code that returns a [Result]. As in Rust, a
    function that returns an error keeps the writes it made before; only
    [transact], the model of [with_transaction] and of the dispatch of an
    extrinsic, undoes them. A Rust unsigned integer is a [Z], and every
    addition, subtraction and multiplication of the source is written with the
    saturating or checked operation it uses at its width. Byte strings are
    [string], bounded vectors are lists with the capacity checked where the
    code checks it, storage maps are [gmap], maps to the unit are [gset].

    What is not under [src/] is a parameter: block weights ([Weights]), the
    enumeration order of a hashed storage map ([StorageOrder], any permutation
    of the keys), the hash function. What belongs to pallets that are not
    modelled is a parameter too: the read-only queries of
    [traits/providers.rs] ([Providers]) and the business callbacks
    ([Callbacks]), with one law: they leave the storage of the voting engine
    and the clock alone ([CallbackLaws]; the engine's storage is private to
    its pallet). [Runtime.v] instantiates every parameter, and the witnesses
    evaluate there. A storage iteration with a limit ([clear_prefix]) removes
    that many keys, as for keys already in the backend.

    ** The files

    - [Prelude]: machine integers, results, monads with the [run] rewriting
      database, [preserves] (an invariant carried through a run), bounded
      lists. Everything below builds on it.
    - [Cid] ([primitives/cid], [primitives/src/count_const.rs]): institution
      codes and their classification, founding institutions, vote weights.
    - [Types], [State], [Interfaces], [Runtime] ([votingengine/src/types.rs],
      [lib.rs], [traits], [tracks.rs], [runtime/src/configs.rs]).
    - [Ids] ([id.rs]), [Locks] ([limit.rs], [mutex.rs]), [Data] ([data.rs],
      [index.rs], [snapshot.rs]), [Cleanup] ([cleanup.rs]), [Lifecycle]
      ([lifecycle.rs]), [Execution] ([execution.rs]), [Expiry] ([expiry.rs]),
      [Maintenance] ([maintenance.rs]), [Engine] ([lib.rs]: the block hook and
      the extrinsics). Operations keep the names of the Rust functions.
    - [Invariant], [Safety]: the invariant [engine_inv] of the engine's
      storage, the relation [evolves] between two states of it, and the proof
      that every operation keeps both. [Clients] states the same of the
      operations a track builds proposals from, in the form tracks use.
    - [Outcomes]: what ends a vote and what follows, branch by branch.
    - [Tally], [Ballots]: what a ballot box promises: a proposal that has been
      decided keeps its ballots, one that is open only receives ballots of
      frozen voters; the interface [TrackBallots] states it for any track.
      [InternalBallots], [JointBallots], [ElectionBallots] prove it for the tracks, and
      [Results] draws the conclusions for the whole chain.
    - [ElectionVote], [ElectionCount], [ElectionSafety]
      ([votingengine/election-vote]): elections and their count.
    - [FeePolicy] ([primitives/src/fee_policy.rs]), [Ledger] (the balances
      pallet as an interface, with its documented laws and one instance),
      [OnchainFee] ([transaction/onchain]): fees and where they go.
    - [FullnodeIssuance], [ProvincialBank], [CitizenIssuance] ([issuance]):
      the three schemes that create money by a fixed rule.
    - [PowDifficulty] ([misc/pow-difficulty]): the difficulty of mining.
    - [BusinessTypes], [Business], [ResolutionIssuance]
      ([issuance/resolution-issuance]), [RuntimeUpgrade]
      ([governance/runtime-upgrade], the phase of the chain of [genesis]): the
      two modules that propose joint votes and are called back by the engine.
      [JointBusiness] is the composition: the callback of the runtime tells
      them apart, and blocks, votes and proposals are steps of one chain.
      [BusinessExamples] holds encodings and whole runs.
    - [CidNumber], [CidFormat] ([primitives/cid/number.rs], [generator.rs]):
      the format of CID numbers, their parser and generator; [AreaData],
      [AreaFacts] ([area.rs], [official_derive.rs]): the table of areas and the
      institutions of the genesis block.
    - [Clearing], [ClearingSafety] ([transaction/offchain]): deposits at the
      clearing banks and the settlement of payments in batches.
    - [InternalVote], [InternalSafety] ([internal-vote/src]) and [JointVote],
      [JointSafety] ([joint-vote/src]): the two tracks, and the proof that
      they keep the engine's invariant.
    - [LegislationVote], [LegislationRules], [LegislationSafety],
      [LegislationBallots] ([legislation-vote/src]): the votes of the
      legislature with their thresholds, invariant and ballots;
      [LegislationLimits] runs three cases the comments of the code exclude.
    - [Chain]: blocks, calls and changes of other pallets as steps of the
      chain; the engine's theorems about reachable states.

    ** What the theorems show

    - The chain: in every reachable state quotas, locks, indexes, identifiers,
      queues and snapshots are consistent ([reachable_consistent]); proposals
      keep their identity, move only along the allowed statuses, never leave a
      final status and are never overwritten ([proposals_evolve]).
    - The engine: a vote ends once and only as passed or rejected, with
      exactly these effects ([vote_passed], [vote_rejected]); one execution
      attempt commits or is undone, and failures are counted up to a dead
      letter ([automatic_execution]).
    - The components: exclusion of proposals that change administrators, the
      quota of open proposals, frozen voters and their tickets, data written
      once, indexes complete and completely removed, identifiers fresh and
      display numbers on the Gregorian year, the delay queue in order.
    - The results: along any chain a proposal that ended by a vote ended as its
      stored ballots say, each ballot cast by a frozen voter, once
      ([internal_results_reflect_votes], [joint_results_reflect_votes],
      [election_results_reflect_ballots], [laws_pass_lawfully]); a body decides
      exactly when its outcome is settled ([representative_decided_exact]); the
      count of an election always ends
      and agrees with a stable ranking ([election_count_reference]).
    - Money: every settlement succeeds and pays the amounts the rules give, in
      closed form ([bank_interest_schedule], [fullnode_issuance_exact],
      [citizen_issuance_total]); queue and payment of the citizen rewards
      refine one list judged at once ([citizen_rewards_refine]); a fee is
      shared out without loss ([fee_shared_out]), and its formula is exact
      ([onchain_fee_reference]).
    - Business: along any chain, money created by resolution is the sum of the
      passed proposals, each executed once as its stored data say and carried
      by the institutions or the citizens ([issuance_lawful]); the running code
      is the one a passed proposal or a developer in the genesis phase brought
      in ([running_code_lawful]). One module at a time: what a proposal records
      ([issuance_proposal_recorded], [upgrade_proposal_recorded]), what its
      execution does on every branch ([issuance_executes],
      [upgrade_executes]), and who may use the direct path
      ([developer_path_guarded]).
    - Clearing: the banks can always pay out what they owe
      ([clearing_banks_solvent]), no payment is settled twice
      ([payments_settled_once]) and a batch is settled as a whole
      ([batch_settlement]); [fee_rate_cap_ignored] and
      [settlement_needs_surplus] state two checks that are not what they are
      documented to be.
    - Numbers: the parser accepts exactly the texts of well-formed parts
      ([parse_accepts_exactly]), what the generator issues is read back
      ([generated_number_parses]), the area table too
      ([area_table_roundtrip]), and the genesis derivation never panics
      ([derived_institutions_valid]).
    - Mining: the difficulty hook never stops the chain, adjusts on schedule
      and within its bounds ([difficulty_never_stalls],
      [adjustments_on_schedule]).

    ** Bounds and fuel

    Loops of the source with a bound become structural recursion on it. The
    year loop runs inside one 400-year cycle: [YEAR_FUEL] is 401, and
    [unix_seconds_to_year_gregorian] shows the fuel is never exhausted, as the
    result is the Gregorian year or the overflow error.
    Runs of blocks ([bank_run], [citizen_run], [fullnode_run], [pow_run]) are
    recursion over the list or the number of blocks. Block numbers stay within
    32 bits where a theorem says so.

    ** Not modelled

    The other business modules (transfers of institutions, administrators,
    registries, the contents of laws, the remaining issuance) are parameters:
    each is a component of its own, reached only through the callbacks
    ([OtherCallbacks] of [JointBusiness], under the law that they leave the
    storage of the modelled pallets alone). Identity and role registries are
    read through [Providers] and [OtherPallets]; [set_code] of the system
    pallet and the SCALE encodings are parameters too, the latter with the law
    that decoding undoes encoding. The balances pallet is the
    interface [Currency]. The map from runtime calls to fee routes, weights,
    benchmarks, genesis, node, clients and services are outside the library.
    Helpers compiled only for tests or benchmarks are left out. *)
From stdpp Require Export prelude relations gmap strings list fin_maps.
From Stdlib Require Export ZArith Lia Ascii.

#[global] Open Scope list_scope.
#[global] Open Scope Z_scope.
#[export] Set Default Goal Selector "!".
#[export] Set Warnings "-clear-no-such-hyp".

(** ** Machine integers

    A Rust unsigned integer is a [Z]; the width is passed to the operation. *)

Definition u8_max : Z := 2 ^ 8 - 1.
Definition u16_max : Z := 2 ^ 16 - 1.
Definition u32_max : Z := 2 ^ 32 - 1.
Definition u64_max : Z := 2 ^ 64 - 1.
Definition u128_max : Z := 2 ^ 128 - 1.

Definition saturating_add (m a b : Z) : Z := Z.min m (a + b).
Definition saturating_sub (a b : Z) : Z := Z.max 0 (a - b).
Definition saturating_mul (m a b : Z) : Z := Z.min m (a * b).
Definition saturated_into (m a : Z) : Z := Z.min m a.
(** [uN::try_from]. *)
Definition bounded_uint (m a : Z) : option Z :=
  if decide (a <= m) then Some a else None.
Definition checked_add (m a b : Z) : option Z :=
  if decide (a + b <= m) then Some (a + b) else None.
Definition checked_mul (m a b : Z) : option Z :=
  if decide (a * b <= m) then Some (a * b) else None.
Definition in_range (m a : Z) : Prop := 0 <= a <= m.

Lemma checked_add_Some m a b c : checked_add m a b = Some c <-> c = a + b /\ a + b <= m.
Proof. unfold checked_add. case_decide; naive_solver. Qed.

Lemma bounded_uint_Some m a c : bounded_uint m a = Some c <-> c = a /\ a <= m.
Proof. unfold bounded_uint. case_decide; naive_solver. Qed.

(** ** Results and the two storage monads

    [St S A] is code that cannot fail; [M S E A] is code returning a
    [Result]: an error keeps the writes made before it, as a Rust function
    that returns [Err] does, and only [transact] discards them. *)

Inductive result (E A : Type) : Type :=
| Ok (a : A)
| Err (e : E).
Arguments Ok {E A} a.
Arguments Err {E A} e.

Definition is_ok {E A} (r : result E A) : bool :=
  match r with Ok _ => true | Err _ => false end.

#[export] Instance result_ret {E} : MRet (result E) := fun A a => Ok a.
#[export] Instance result_bind {E} : MBind (result E) := fun A B f r =>
  match r with Ok a => f a | Err e => Err e end.

(** [Option::ok_or] and a boolean guard, in code that reads no storage. *)
Definition opt_ok {E A} (o : option A) (e : E) : result E A :=
  match o with Some a => Ok a | None => Err e end.
Definition guard_ok {E} (b : bool) (e : E) : result E unit :=
  if b then Ok tt else Err e.

Definition St (S A : Type) : Type := S -> A * S.
Definition M (S E A : Type) : Type := S -> result E A * S.

#[export] Instance St_ret {S} : MRet (St S) := fun A a s => (a, s).
#[export] Instance St_bind {S} : MBind (St S) := fun A B f m s =>
  let '(a, s1) := m s in f a s1.
#[export] Instance M_ret {S E} : MRet (M S E) := fun A a s => (Ok a, s).
#[export] Instance M_bind {S E} : MBind (M S E) := fun A B f m s =>
  match m s with
  | (Ok a, s1) => f a s1
  | (Err e, s1) => (Err e, s1)
  end.
#[global] Typeclasses Opaque St M.

Section Ops.
Context {S E : Type}.

Definition throw {A} (e : E) : M S E A := fun s => (Err e, s).
Definition gets {A} (f : S -> A) : M S E A := fun s => (Ok (f s), s).
Definition modify (f : S -> S) : M S E unit := fun s => (Ok tt, f s).

Definition ensure (b : bool) (e : E) : M S E unit :=
  if b then mret tt else throw e.

Definition ok_or {A} (o : option A) (e : E) : M S E A :=
  match o with Some a => mret a | None => throw e end.

Definition from_result {A} (r : result E A) : M S E A :=
  match r with Ok a => mret a | Err e => throw e end.

(** Code that cannot fail, run inside code that can. *)
Definition lift {A} (m : St S A) : M S E A := fun s =>
  let '(a, s1) := m s in (Ok a, s1).

(** The result of a fallible step, observed by code that goes on after it. *)
Definition attempt {A} (m : M S E A) : St S (result E A) := m.

(** [frame_support::storage::with_transaction]: commit on [Ok], roll the
    whole storage back on [Err]. *)
Definition transact {A} (m : M S E A) : M S E A := fun s =>
  match m s with
  | (Ok a, s1) => (Ok a, s1)
  | (Err e, _) => (Err e, s)
  end.

Fixpoint for_each {A} (f : A -> M S E unit) (l : list A) : M S E unit :=
  match l with
  | [] => mret tt
  | x :: l => f x ;; for_each f l
  end.

Definition sgets {A} (f : S -> A) : St S A := fun s => (f s, s).
Definition smodify (f : S -> S) : St S unit := fun s => (tt, f s).

(** A loop that threads an accumulator through its body. *)
Fixpoint sfold {A B} (f : B -> A -> St S B) (b : B) (l : list A) : St S B :=
  match l with
  | [] => mret b
  | x :: l => b ← f b x; sfold f b l
  end.

Fixpoint sfor_each {A} (f : A -> St S unit) (l : list A) : St S unit :=
  match l with
  | [] => mret tt
  | x :: l => f x ;; sfor_each f l
  end.
End Ops.

(** ** Inversion of runs *)

Section Runs.
Context {S E : Type}.
Implicit Types (s : S) (e : E).

Lemma bind_Ok {A B} (m : M S E A) (f : A -> M S E B) s b s' :
  (m ≫= f) s = (Ok b, s') <-> exists a s1, m s = (Ok a, s1) /\ f a s1 = (Ok b, s').
Proof.
  unfold mbind, M_bind. destruct (m s) as [[a|e] s1]; naive_solver.
Qed.

Lemma bind_Err {A B} (m : M S E A) (f : A -> M S E B) s e s' :
  (m ≫= f) s = (Err e, s') <->
  m s = (Err e, s') \/ exists a s1, m s = (Ok a, s1) /\ f a s1 = (Err e, s').
Proof.
  unfold mbind, M_bind. destruct (m s) as [[a|e'] s1]; naive_solver.
Qed.

Lemma ensure_Ok b e s u s' :
  @ensure S E b e s = (Ok u, s') <-> b = true /\ s' = s.
Proof. destruct b, u; unfold ensure, mret, M_ret, throw; naive_solver. Qed.

Lemma ok_or_Ok {A} (o : option A) e s a s' :
  @ok_or S E A o e s = (Ok a, s') <-> o = Some a /\ s' = s.
Proof. destruct o; unfold ok_or, mret, M_ret, throw; naive_solver. Qed.

Lemma ret_Ok {A} (a b : A) s s' :
  (mret a : M S E A) s = (Ok b, s') <-> a = b /\ s' = s.
Proof. unfold mret, M_ret. naive_solver. Qed.

Lemma gets_Ok {A} (f : S -> A) s a s' :
  @gets S E A f s = (Ok a, s') <-> f s = a /\ s' = s.
Proof. unfold gets. naive_solver. Qed.

Lemma modify_Ok (f : S -> S) s u s' :
  @modify S E f s = (Ok u, s') <-> s' = f s.
Proof. destruct u. unfold modify. naive_solver. Qed.

Lemma from_result_Ok {A} (r : result E A) s a s' :
  @from_result S E A r s = (Ok a, s') <-> r = Ok a /\ s' = s.
Proof. destruct r; unfold from_result, mret, M_ret, throw; naive_solver. Qed.

Lemma throw_Ok {A} e s (a : A) s' : @throw S E A e s = (Ok a, s') <-> False.
Proof. unfold throw. naive_solver. Qed.

Lemma transact_Ok {A} (m : M S E A) s a s' :
  transact m s = (Ok a, s') <-> m s = (Ok a, s').
Proof. unfold transact. destruct (m s) as [[]]; naive_solver. Qed.

(** A transaction that fails leaves the storage as it found it. *)
Lemma transact_Err {A} (m : M S E A) s e s' :
  transact m s = (Err e, s') -> s' = s.
Proof. unfold transact. destruct (m s) as [[]]; naive_solver. Qed.

Lemma lift_Ok {A} (m : St S A) s a s' :
  (lift m : M S E A) s = (Ok a, s') <-> m s = (a, s').
Proof. unfold lift. destruct (m s). naive_solver. Qed.

(** Forward evaluation of one step. *)
Lemma bind_ret {A B} (a : A) (f : A -> M S E B) s :
  ((mret a : M S E A) ≫= f) s = f a s.
Proof. done. Qed.
Lemma bind_gets {A B} (g : S -> A) (f : A -> M S E B) s :
  (gets g ≫= f) s = f (g s) s.
Proof. done. Qed.
Lemma bind_modify {B} (g : S -> S) (f : unit -> M S E B) s :
  (modify g ≫= f) s = f tt (g s).
Proof. done. Qed.
Lemma bind_throw {A B} e (f : A -> M S E B) s :
  (throw e ≫= f) s = (Err e, s).
Proof. done. Qed.
Lemma bind_ensure_true {B} e (f : unit -> M S E B) s :
  (ensure true e ≫= f) s = f tt s.
Proof. done. Qed.
Lemma bind_ensure_false {B} e (f : unit -> M S E B) s :
  (ensure false e ≫= f) s = (Err e, s).
Proof. done. Qed.
Lemma bind_ok_or_Some {A B} (a : A) e (f : A -> M S E B) s :
  (ok_or (Some a) e ≫= f) s = f a s.
Proof. done. Qed.
Lemma bind_ok_or_None {A B} e (f : A -> M S E B) s :
  (ok_or None e ≫= f) s = (Err e, s).
Proof. done. Qed.
Lemma bind_run {A B} (m : M S E A) (f : A -> M S E B) s a s1 :
  m s = (Ok a, s1) -> (m ≫= f) s = f a s1.
Proof. intros H. unfold mbind, M_bind. by rewrite H. Qed.
Lemma bind_run_Err {A B} (m : M S E A) (f : A -> M S E B) s e s1 :
  m s = (Err e, s1) -> (m ≫= f) s = (Err e, s1).
Proof. intros H. unfold mbind, M_bind. by rewrite H. Qed.
Lemma bind_assoc {A B C} (m : M S E A) (f : A -> M S E B) (g : B -> M S E C) s :
  ((m ≫= f) ≫= g) s = (m ≫= (fun a => f a ≫= g)) s.
Proof. unfold mbind, M_bind. by destruct (m s) as [[]]. Qed.

Lemma sbind_run {A B} (m : St S A) (f : A -> St S B) s :
  (m ≫= f) s = f (m s).1 (m s).2.
Proof. unfold mbind, St_bind. by destruct (m s). Qed.
End Runs.

Create HintDb run.
#[export] Hint Rewrite @bind_ret @bind_gets @bind_modify @bind_throw @bind_ensure_true
  @bind_ensure_false @bind_ok_or_Some @bind_ok_or_None : run.

(** [run_inv] takes a successful run apart into the runs of its steps. *)
Ltac run_inv_step :=
  match goal with
  | u : unit |- _ => destruct u
  | H : mbind _ _ _ = (Ok _, _) |- _ =>
      apply bind_Ok in H; destruct H as (? & ? & ? & ?)
  | H : ensure _ _ _ = (Ok _, _) |- _ => apply ensure_Ok in H; destruct H as [? ->]
  | H : ok_or _ _ _ = (Ok _, _) |- _ => apply ok_or_Ok in H; destruct H as [? ->]
  | H : from_result _ _ = (Ok _, _) |- _ => apply from_result_Ok in H; destruct H as [? ->]
  | H : gets _ _ = (Ok _, _) |- _ => apply gets_Ok in H; destruct H as [? ->]
  | H : mret _ _ = (Ok _, _) |- _ => apply ret_Ok in H; destruct H as [? ->]
  | H : modify _ _ = (Ok _, _) |- _ => apply modify_Ok in H
  | H : throw _ _ = (Ok _, _) |- _ => apply throw_Ok in H; destruct H
  | H : transact _ _ = (Ok _, _) |- _ => apply (proj1 (transact_Ok _ _ _ _)) in H
  | H : lift _ _ = (Ok _, _) |- _ => apply (proj1 (lift_Ok _ _ _ _)) in H
  | H : bool_decide _ = true |- _ => apply bool_decide_eq_true in H
  | H : checked_add _ _ _ = Some _ |- _ => apply checked_add_Some in H; destruct H as [-> ?]
  | H : bounded_uint _ _ = Some _ |- _ => apply bounded_uint_Some in H; destruct H as [-> ?]
  | H : negb _ = true |- _ => apply negb_true_iff in H
  | H : (_ && _)%bool = true |- _ => apply andb_true_iff in H; destruct H
  | H : bool_decide _ = false |- _ => apply bool_decide_eq_false in H
  end.
Ltac run_inv := repeat (run_inv_step; simplify_eq/=).

(** ** Invariants of runs

    [preserves I m]: whether [m] succeeds or fails, [I] still holds after. *)

Definition preserves {S A} (I : S -> Prop) (m : S -> A * S) : Prop :=
  forall s, I s -> I (m s).2.

Section Preserves.
Context {S E : Type} (I : S -> Prop).

Lemma preserves_ret {A} (a : A) : preserves I (mret a : M S E A).
Proof. by intros s Hs. Qed.
Lemma preserves_throw {A} (e : E) : preserves I (throw e : M S E A).
Proof. by intros s Hs. Qed.
Lemma preserves_gets {A} (f : S -> A) : preserves I (gets f : M S E A).
Proof. by intros s Hs. Qed.
Lemma preserves_ensure b (e : E) : preserves I (ensure b e : M S E unit).
Proof. destruct b; by intros s Hs. Qed.
Lemma preserves_ok_or {A} (o : option A) (e : E) : preserves I (ok_or o e : M S E A).
Proof. destruct o; by intros s Hs. Qed.
Lemma preserves_from_result {A} (r : result E A) : preserves I (from_result r : M S E A).
Proof. destruct r; by intros s Hs. Qed.
Lemma preserves_modify f : (forall s, I s -> I (f s)) -> preserves I (modify f : M S E unit).
Proof. intros Hf s Hs. by apply Hf. Qed.
Lemma preserves_bind {A B} (m : M S E A) (f : A -> M S E B) :
  preserves I m -> (forall a, preserves I (f a)) -> preserves I (m ≫= f).
Proof.
  intros Hm Hf s Hs. specialize (Hm s Hs). unfold mbind, M_bind.
  destruct (m s) as [[a|e] s1]; [by apply Hf|done].
Qed.
(** A first step that establishes more than the invariant for the rest. *)
Lemma preserves_bind_post {A B} (J : A -> S -> Prop) (m : M S E A) (f : A -> M S E B) :
  (forall s, I s -> match m s with (Ok a, s1) => J a s1 | (Err _, s1) => I s1 end) ->
  (forall a s, J a s -> I (f a s).2) -> preserves I (m ≫= f).
Proof.
  intros Hm Hf s Hs. specialize (Hm s Hs). unfold mbind, M_bind.
  destruct (m s) as [[a|e] s1]; [by apply Hf|done].
Qed.
Lemma preserves_gets_bind {A B} (g : S -> A) (f : A -> M S E B) :
  (forall s, I s -> I (f (g s) s).2) -> preserves I (gets g ≫= f).
Proof. intros Hf s Hs. by apply Hf. Qed.
Lemma preserves_transact {A} (m : M S E A) : preserves I m -> preserves I (transact m).
Proof.
  intros Hm s Hs. specialize (Hm s Hs). unfold transact.
  by destruct (m s) as [[a|e] s1].
Qed.
Lemma preserves_lift {A} (m : St S A) : preserves I m -> preserves I (lift m : M S E A).
Proof. intros Hm s Hs. specialize (Hm s Hs). unfold lift. by destruct (m s). Qed.
Lemma preserves_for_each {A} (f : A -> M S E unit) l :
  (forall x, preserves I (f x)) -> preserves I (for_each f l).
Proof.
  intros Hf. induction l as [|x l IH]; [apply preserves_ret|].
  by apply preserves_bind.
Qed.

Lemma preserves_sret {A} (a : A) : preserves I (mret a : St S A).
Proof. by intros s Hs. Qed.
Lemma preserves_sgets {A} (f : S -> A) : preserves I (sgets f : St S A).
Proof. by intros s Hs. Qed.
Lemma preserves_smodify f : (forall s, I s -> I (f s)) -> preserves I (smodify f : St S unit).
Proof. intros Hf s Hs. by apply Hf. Qed.
Lemma preserves_sbind {A B} (m : St S A) (f : A -> St S B) :
  preserves I m -> (forall a, preserves I (f a)) -> preserves I (m ≫= f).
Proof.
  intros Hm Hf s Hs. rewrite sbind_run. by apply Hf, Hm.
Qed.
Lemma preserves_sfor_each {A} (f : A -> St S unit) l :
  (forall x, preserves I (f x)) -> preserves I (sfor_each f l).
Proof.
  intros Hf. induction l as [|x l IH]; [apply preserves_sret|].
  by apply preserves_sbind.
Qed.
Lemma preserves_sfold {A B} (f : B -> A -> St S B) b l :
  (forall b x, preserves I (f b x)) -> preserves I (sfold f b l).
Proof.
  intros Hf. revert b. induction l as [|x l IH]; intros b; [apply preserves_sret|].
  by apply preserves_sbind.
Qed.
Lemma preserves_attempt {A} (m : M S E A) : preserves I m -> preserves I (attempt m).
Proof. done. Qed.
End Preserves.

Create HintDb preserves.
#[export] Hint Resolve preserves_ret preserves_throw preserves_gets preserves_ensure
  preserves_ok_or preserves_from_result preserves_bind preserves_transact preserves_lift preserves_for_each
  preserves_sret preserves_sgets preserves_sbind preserves_sfor_each preserves_sfold : preserves.

(** [solve_preserves] walks through the steps of a run; [tac] closes the
    obligations left by the writes. *)
Ltac solve_preserves_step tac :=
  match goal with
  | |- preserves _ (mret _) => first [apply preserves_ret | apply preserves_sret]
  | |- preserves _ (throw _) => apply preserves_throw
  | |- preserves _ (gets _) => apply preserves_gets
  | |- preserves _ (sgets _) => apply preserves_sgets
  | |- preserves _ (ensure _ _) => apply preserves_ensure
  | |- preserves _ (ok_or _ _) => apply preserves_ok_or
  | |- preserves _ (from_result _) => apply preserves_from_result
  | |- preserves _ (mbind _ _) => first [apply preserves_bind | apply preserves_sbind]
  | |- preserves _ (transact _) => apply preserves_transact
  | |- preserves _ (lift _) => apply preserves_lift
  | |- preserves _ (attempt _) => apply preserves_attempt
  | |- preserves _ (for_each _ _) => apply preserves_for_each
  | |- preserves _ (sfor_each _ _) => apply preserves_sfor_each
  | |- preserves _ (sfold _ _ _) => apply preserves_sfold
  | |- preserves _ (modify _) => apply preserves_modify; tac
  | |- preserves _ (smodify _) => apply preserves_smodify; tac
  | |- preserves _ _ => solve [eauto with preserves]
  | |- preserves _ (match _ with _ => _ end) => case_match
  end.
Ltac solve_preserves_with tac := repeat (intros; solve_preserves_step tac).

(** ** Bounded vectors: [BoundedVec<T, Max>] *)

(** [BoundedVec::try_push]: the pushed vector, or [None] when it is full. *)
Definition try_push {A} (max : Z) (x : A) (l : list A) : option (list A) :=
  if decide (Z.of_nat (length l) < max) then Some (l ++ [x]) else None.

(** [BoundedVec::try_from(Vec)]. *)
Definition bounded_list {A} (max : Z) (l : list A) : option (list A) :=
  if decide (Z.of_nat (length l) <= max) then Some l else None.

(** A byte string as a bounded vector of bytes. *)
Definition bounded_bytes (max : Z) (b : string) : option string :=
  if decide (Z.of_nat (String.length b) <= max) then Some b else None.

Lemma try_push_Some {A} max (x : A) l l' :
  try_push max x l = Some l' <-> Z.of_nat (length l) < max /\ l' = l ++ [x].
Proof. unfold try_push. case_decide; naive_solver. Qed.

Lemma saturating_sub_bounds a b : 0 <= a -> 0 <= b -> 0 <= saturating_sub a b <= a.
Proof. unfold saturating_sub. lia. Qed.

Lemma saturating_add_small m a b : a + b <= m -> saturating_add m a b = a + b.
Proof. unfold saturating_add. lia. Qed.

Lemma checked_mul_Some m a b c : checked_mul m a b = Some c <-> c = a * b /\ a * b <= m.
Proof. unfold checked_mul. case_decide; naive_solver. Qed.

(** An invariant of every step is an invariant of every run. *)
Lemma rtc_preserves {A} (R : A -> A -> Prop) (I : A -> Prop) :
  (forall x y, R x y -> I x -> I y) -> forall x y, rtc R x y -> I x -> I y.
Proof. intros HR x y Hxy. induction Hxy; eauto. Qed.

(** ** Updating one field of a record *)

(** [field_setter eta f g r] is [eta r] with [g] applied to its field [f]. *)
Ltac field_setter eta f g r :=
  let body := eval cbv beta delta [eta] in (eta r) in
  let abstracted := eval pattern (f r) in body in
  match abstracted with
  | ?h _ => let updated := eval cbv beta in (h (g (f r))) in exact updated
  end.
