(* ===== verification/Encoding.v ===== *)
(** * Encoded data and signed messages

    [parity-scale-codec] is not part of the repository: the modules rely on a
    value being read back from what was written, with the bytes after it
    ([Codec], [CodecLaws]). Signatures are over the hash of the encoded value
    behind a tag of the operation ([primitives/src/sign.rs]); the hash function
    is an argument. *)
From S2P Require Import Prelude.

(** ** Encodings *)

Class Codec (A : Type) : Type := {
  scale_encode : A -> string;
  scale_decode : string -> option (A * string);
}.

Class CodecLaws (A : Type) `{!Codec A} : Prop :=
  scale_round_trip : forall (a : A) rest, scale_decode (scale_encode a ++ rest) = Some (a, rest).

(** [input.is_empty().then_some(decoded)]. *)
Definition decode_all `{Codec A} (raw : string) : option A :=
  '(a, rest) ← scale_decode raw;
  if bool_decide (rest = EmptyString) then Some a else None.

Lemma string_app_cons c (s t : string) : (String c s ++ t = String c (s ++ t))%string.
Proof. done. Qed.

Lemma string_app_nil (s : string) : (s ++ "")%string = s.
Proof. induction s as [|c s IH]; [done|]. by rewrite string_app_cons, IH. Qed.

Lemma string_app_assoc (s t u : string) : ((s ++ t) ++ u = s ++ (t ++ u))%string.
Proof. induction s as [|c s IH]; [done|]. by rewrite !string_app_cons, IH. Qed.

Lemma string_length_app (s t : string) :
  String.length (s ++ t) = (String.length s + String.length t)%nat.
Proof. induction s as [|c s IH]; [done|]. rewrite string_app_cons. simpl. by rewrite IH. Qed.

Lemma decode_all_encode `{CodecLaws A} (a : A) : decode_all (scale_encode a) = Some a.
Proof.
  unfold decode_all. rewrite <- (string_app_nil (scale_encode a)), scale_round_trip. done.
Qed.

(** [raw[..tag.len()] == tag], and the bytes after the tag. *)
Fixpoint strip_tag (tag raw : string) : option string :=
  match tag, raw with
  | EmptyString, _ => Some raw
  | String a tag, String b raw => if bool_decide (a = b) then strip_tag tag raw else None
  | String _ _, EmptyString => None
  end.

Lemma strip_tag_app tag raw : strip_tag tag (tag ++ raw) = Some raw.
Proof. induction tag as [|c tag IH]; [done|]. simpl. by rewrite bool_decide_true. Qed.

(** Encodings built from parts: the fields one after the other, a list after
    its length. *)
Section Parts.
Context {A B : Type} `{!Codec A} `{!Codec B} `{!CodecLaws A} `{!CodecLaws B}.

Definition pair_codec : Codec (A * B) := {|
  scale_encode := fun p => (scale_encode p.1 ++ scale_encode p.2)%string;
  scale_decode := fun s => '(a, s) ← scale_decode s; '(b, s) ← scale_decode s; Some ((a, b), s);
|}.

Lemma pair_codec_laws : @CodecLaws (A * B) pair_codec.
Proof.
  intros [a b] rest. simpl. rewrite string_app_assoc, scale_round_trip. simpl.
  by rewrite scale_round_trip.
Qed.

Definition iso_codec {C} (f : C -> A) (g : A -> C) : Codec C := {|
  scale_encode := fun c => scale_encode (f c);
  scale_decode := fun s => '(a, s) ← scale_decode s; Some (g a, s);
|}.

Lemma iso_codec_laws {C} (f : C -> A) (g : A -> C) :
  (forall c, g (f c) = c) -> @CodecLaws C (iso_codec f g).
Proof. intros Hgf c rest. simpl. rewrite scale_round_trip. simpl. by rewrite Hgf. Qed.
End Parts.

(** Every countable type by the bits of its code, closed by a full stop. *)
Fixpoint bits_of (p : positive) : string :=
  match p with
  | xH => "."
  | xO p => String "0" (bits_of p)
  | xI p => String "1" (bits_of p)
  end.

Fixpoint read_bits (s : string) : option (positive * string) :=
  match s with
  | String c s =>
      if bool_decide (c = "."%char) then Some (xH, s)
      else '(p, rest) ← read_bits s;
        Some (if bool_decide (c = "0"%char) then xO p else xI p, rest)
  | EmptyString => None
  end.

Definition countable_codec {A} `{Countable A} : Codec A := {|
  scale_encode := fun a => bits_of (encode a);
  scale_decode := fun s => '(p, rest) ← read_bits s; a ← decode p; Some (a, rest);
|}.

Lemma read_bits_of p rest : read_bits (bits_of p ++ rest) = Some (p, rest).
Proof. induction p as [p IH|p IH|]; simpl; [by rewrite IH..|done]. Qed.

Lemma countable_codec_laws {A} `{Countable A} : @CodecLaws A countable_codec.
Proof. intros a rest. simpl. rewrite read_bits_of. simpl. by rewrite decode_encode. Qed.

Section Lists.
Context {A : Type} `{!Codec A} `{!CodecLaws A}.

Fixpoint encode_items (l : list A) : string :=
  match l with
  | [] => "]"
  | a :: l => String "," (scale_encode a ++ encode_items l)
  end.

(** Every item takes at least the comma, so the length is enough fuel. *)
Fixpoint decode_items (fuel : nat) (s : string) : option (list A * string) :=
  match fuel, s with
  | S fuel, String c s =>
      if bool_decide (c = "]"%char) then Some ([], s)
      else '(a, s) ← scale_decode s; '(l, s) ← decode_items fuel s; Some (a :: l, s)
  | _, _ => None
  end.

Definition list_codec : Codec (list A) := {|
  scale_encode := encode_items;
  scale_decode := fun s => decode_items (String.length s) s;
|}.

Lemma decode_items_encode l fuel rest :
  (length l < fuel)%nat -> decode_items fuel (encode_items l ++ rest) = Some (l, rest).
Proof.
  revert fuel. induction l as [|a l IH]; intros [|fuel] Hf; simpl in *; try lia; [done|].
  rewrite ?string_app_cons. simpl. rewrite string_app_assoc, scale_round_trip. simpl.
  rewrite IH by lia. done.
Qed.

Lemma encode_items_length l : (length l < String.length (encode_items l))%nat.
Proof. induction l as [|a l IH]; simpl; [lia|]. rewrite string_length_app. lia. Qed.

Lemma list_codec_laws : @CodecLaws (list A) list_codec.
Proof.
  intros l rest. simpl. apply decode_items_encode. rewrite string_length_app.
  pose proof (encode_items_length l). lia.
Qed.
End Lists.

(** ** Signed messages *)

Definition GMB : string := "GMB".

(** [primitives::sign::signing_message]: the tag keeps the signatures of one
    operation from being used for another. *)
Definition signing_message (blake2_256 : string -> string) (op_tag : ascii) (scale_payload : string)
    : string := blake2_256 (GMB ++ String op_tag scale_payload)%string.
