(* ===== verification/Cid.v ===== *)
(** * CID institution codes and the founding institutions

    [primitives/cid/code.rs], [primitives/cid/china/china_cb.rs],
    [primitives/cid/china/china_ch.rs] and [primitives/src/count_const.rs]:
    the 104 institution codes with their classification, the parser of the
    code inside a CID number, the 44 reserve committees and the 43 reserve
    banks, and the vote weights and thresholds that refer to them. *)
From S2P Require Import Prelude.

(** Rust byte arrays and byte strings are [string]s of 8-bit characters. *)
Definition InstitutionCode : Type := string.

#[export] Instance InstitutionCode_eq_dec : EqDecision InstitutionCode := String.eq_dec.
#[export] Instance InstitutionCode_countable : Countable InstitutionCode := String.countable.

Definition zero_char : Ascii.ascii := Ascii.ascii_of_nat 0.

(** [code_bytes]: the first four bytes of the text, padded with zeros. *)
Definition code_bytes (s : string) : InstitutionCode :=
  String.substring 0 4
    (String.append s (String.string_of_list_ascii (replicate 4 zero_char))).

Record InstitutionCodeInfo : Type := {
  institution_code : InstitutionCode;
  institution_code_text_of : string;
  institution_code_label_of : string;
}.

Definition code_info (text label : string) : InstitutionCodeInfo :=
  {| institution_code := code_bytes text;
     institution_code_text_of := text;
     institution_code_label_of := label |}.

Definition NRC : InstitutionCode := code_bytes "NRC".
Definition PRC : InstitutionCode := code_bytes "PRC".
Definition PRB : InstitutionCode := code_bytes "PRB".
Definition FRG : InstitutionCode := code_bytes "FRG".
Definition NJD : InstitutionCode := code_bytes "NJD".
Definition PMUL : InstitutionCode := code_bytes "PMUL".

Definition INSTITUTION_CODE_INFOS : list InstitutionCodeInfo :=
  [
   code_info "PRS" "总统府";
   code_info "FSC" "联邦安全局";
   code_info "FIB" "联邦情报局";
   code_info "FSS" "联邦特勤局";
   code_info "FPR" "联邦人事局";
   code_info "FRG" "联邦注册局";
   code_info "MFA" "外交部";
   code_info "MDF" "国防部";
   code_info "ARM" "陆军部";
   code_info "NAV" "海军部";
   code_info "AIR" "空军部";
   code_info "SPF" "天军部";
   code_info "JOS" "联合作战参谋部";
   code_info "ARC" "陆军司令部";
   code_info "NVC" "海军司令部";
   code_info "AFC" "空军司令部";
   code_info "SFC" "天军司令部";
   code_info "MHS" "国安部";
   code_info "NGB" "国民警卫局";
   code_info "NGC" "国民警卫队司令部";
   code_info "MCW" "民生部";
   code_info "FDA" "食品药品监管局";
   code_info "MHU" "住建部";
   code_info "MAG" "农业部";
   code_info "MCM" "商贸部";
   code_info "MFT" "财税部";
   code_info "MEN" "能源部";
   code_info "MTR" "交通部";
   code_info "NLG" "国家立法院";
   code_info "NSN" "国家参议会";
   code_info "NRP" "国家众议会";
   code_info "NJD" "国家司法院";
   code_info "NSP" "国家监察院";
   code_info "FAC" "联邦廉政署";
   code_info "FAU" "联邦审计署";
   code_info "FIV" "联邦调查署";
   code_info "NED" "国家教委会";
   code_info "NRC" "国家储委会";
   code_info "PGV" "省政府";
   code_info "PLG" "省立法院";
   code_info "PSN" "省参议会";
   code_info "PRP" "省众议会";
   code_info "PJD" "省司法院";
   code_info "PSP" "省监察院";
   code_info "PRC" "省储委会";
   code_info "PRB" "省储行";
   code_info "PDF" "省国防厅";
   code_info "PHS" "省国安厅";
   code_info "PCW" "省民生厅";
   code_info "PHU" "省住建厅";
   code_info "PAG" "省农业厅";
   code_info "PCM" "省商贸厅";
   code_info "PFT" "省财税厅";
   code_info "PEN" "省能源厅";
   code_info "PTR" "省交通厅";
   code_info "CGOV" "市政府";
   code_info "CLEG" "市立法会";
   code_info "CSUP" "市监察院";
   code_info "CJUD" "市司法院";
   code_info "CEDU" "市教委会";
   code_info "CSLF" "市自治会";
   code_info "CDEF" "市国防局";
   code_info "CHSC" "市国安局";
   code_info "CCWF" "市民生局";
   code_info "CHUD" "市住建局";
   code_info "CAGR" "市农业局";
   code_info "CCOM" "市商贸局";
   code_info "CFIN" "市财税局";
   code_info "CENR" "市能源局";
   code_info "CTRN" "市交通局";
   code_info "CREG" "市注册局";
   code_info "CPOL" "市公安局";
   code_info "TGOV" "镇政府";
   code_info "TCWF" "镇民生科";
   code_info "THUD" "镇住建科";
   code_info "TAGR" "镇农业科";
   code_info "TFIN" "镇财税科";
   code_info "TDEF" "镇国防科";
   code_info "THSC" "镇国安科";
   code_info "TCOM" "镇商贸科";
   code_info "TENR" "镇能源科";
   code_info "TTRN" "镇交通科";
   code_info "TPOL" "镇公安科";
   code_info "TSLF" "镇自治会";
   code_info "TSUP" "镇监察院";
   code_info "TJUD" "镇司法院";
   code_info "SFGT" "个体经营";
   code_info "SFGP" "无限合伙";
   code_info "SFLP" "有限合伙";
   code_info "SFGQ" "股权公司";
   code_info "SFGF" "股份公司";
   code_info "SFGY" "公益组织";
   code_info "SFAS" "注册协会";
   code_info "GUN" "公立大学";
   code_info "SUN" "私立大学";
   code_info "JUN" "教会大学";
   code_info "GSCH" "公立学校";
   code_info "SFSC" "私立学校";
   code_info "JSCH" "教会学校";
   code_info "CTZN" "公民人";
   code_info "NATP" "自然人";
   code_info "SMTP" "智能人";
   code_info "UNIN" "非法人组织";
   code_info "PMUL" "个人多签"
  ].

Definition ALL_CODES : list InstitutionCode := institution_code <$> INSTITUTION_CODE_INFOS.

Definition institution_info (code : InstitutionCode) : option InstitutionCodeInfo :=
  List.find (fun info => bool_decide (institution_code info = code)) INSTITUTION_CODE_INFOS.

Definition institution_code_text (code : InstitutionCode) : option string :=
  institution_code_text_of <$> institution_info code.

Definition text_matches (code : InstitutionCode) (values : list string) : bool :=
  match institution_code_text code with
  | None => false
  | Some text => bool_decide (text ∈ values)
  end.

Inductive AdminLevel : Type := National | Province | City | Town.
Inductive ProfitPolicy : Type := NonProfit | Profit | Variable_ | InheritParent.

Definition profit_policy (code : InstitutionCode) : option ProfitPolicy :=
  text ← institution_code_text code;
  Some (if decide (text ∈ ["SFGT"; "SFGP"; "SFLP"; "SFGQ"; "SFGF"; "CTZN"; "NATP"]) then Profit
        else if decide (text ∈ ["SFAS"; "SMTP"; "SUN"; "SFSC"; "JUN"; "JSCH"]) then Variable_
        else if decide (text = "UNIN") then InheritParent
        else NonProfit).

Definition is_person_code (code : InstitutionCode) : bool :=
  text_matches code ["CTZN"; "NATP"; "SMTP"].

Definition is_unincorporated_code (code : InstitutionCode) : bool :=
  text_matches code ["SFGT"; "SFGP"; "UNIN"].

Definition is_private_legal_code (code : InstitutionCode) : bool :=
  text_matches code
    ["SFLP"; "SFGQ"; "SFGF"; "SFGY"; "SFAS"; "SUN"; "JUN"; "SFSC"; "JSCH"].

Definition admin_level (code : InstitutionCode) : option AdminLevel :=
  text ← institution_code_text code;
  if decide (text ∈
    ["PRS"; "FSC"; "FIB"; "FSS"; "FPR"; "FRG"; "MFA"; "MDF"; "ARM"; "NAV"; "AIR";
     "SPF"; "JOS"; "ARC"; "NVC"; "AFC"; "SFC"; "MHS"; "NGB"; "NGC"; "MCW"; "FDA";
     "MHU"; "MAG"; "MCM"; "MFT"; "MEN"; "MTR"; "NLG"; "NSN"; "NRP"; "NJD"; "NSP";
     "FAC"; "FAU"; "FIV"; "NED"; "NRC"]) then Some National
  else if decide (text ∈
    ["PGV"; "PLG"; "PSN"; "PRP"; "PJD"; "PSP"; "PRC"; "PRB"; "PDF"; "PHS"; "PCW";
     "PHU"; "PAG"; "PCM"; "PFT"; "PEN"; "PTR"]) then Some Province
  else if decide (text ∈
    ["CGOV"; "CLEG"; "CSUP"; "CJUD"; "CEDU"; "CSLF"; "CDEF"; "CHSC"; "CCWF"; "CHUD";
     "CAGR"; "CCOM"; "CFIN"; "CENR"; "CTRN"; "CREG"; "CPOL"]) then Some City
  else if decide (text ∈
    ["TGOV"; "TCWF"; "THUD"; "TAGR"; "TFIN"; "TDEF"; "THSC"; "TCOM"; "TENR"; "TTRN";
     "TPOL"; "TSLF"; "TSUP"; "TJUD"]) then Some Town
  else None.

Definition is_public_legal_code (code : InstitutionCode) : bool :=
  bool_decide (is_Some (admin_level code)) || text_matches code ["GUN"; "GSCH"].

Definition is_education_institution_code (code : InstitutionCode) : bool :=
  text_matches code ["GUN"; "SUN"; "JUN"; "GSCH"; "SFSC"; "JSCH"].

Definition requires_education_level (code : InstitutionCode) : bool :=
  text_matches code ["GSCH"; "SFSC"; "JSCH"].

Definition is_fixed_governance_code (code : InstitutionCode) : bool :=
  bool_decide (code ∈ [NRC; PRC; PRB; FRG; NJD]).

Definition is_personal_code (code : InstitutionCode) : bool := bool_decide (code = PMUL).

Definition is_institution_code (code : InstitutionCode) : bool :=
  negb (is_fixed_governance_code code)
  && (is_public_legal_code code || is_private_legal_code code
      || is_unincorporated_code code).

Definition is_registered_multisig_code (code : InstitutionCode) : bool :=
  is_personal_code code || is_institution_code code.

Definition is_valid_governance_code (code : InstitutionCode) : bool :=
  is_fixed_governance_code code || is_registered_multisig_code code.

(** ** Counts, weights and thresholds ([count_const.rs]) *)

Definition NRC_INTERNAL_THRESHOLD : Z := 13.
Definition PRC_INTERNAL_THRESHOLD : Z := 6.
Definition PRB_INTERNAL_THRESHOLD : Z := 6.
Definition FRG_INTERNAL_THRESHOLD : Z := 3.
Definition NJD_INTERNAL_THRESHOLD : Z := 8.

Definition fixed_governance_pass_threshold (code : InstitutionCode) : option Z :=
  if decide (code = NRC) then Some NRC_INTERNAL_THRESHOLD
  else if decide (code = PRC) then Some PRC_INTERNAL_THRESHOLD
  else if decide (code = PRB) then Some PRB_INTERNAL_THRESHOLD
  else if decide (code = FRG) then Some FRG_INTERNAL_THRESHOLD
  else if decide (code = NJD) then Some NJD_INTERNAL_THRESHOLD
  else None.

Definition NRC_JOINT_VOTE_WEIGHT : Z := 19.
Definition PRC_JOINT_VOTE_WEIGHT : Z := 1.
Definition PRB_JOINT_VOTE_WEIGHT : Z := 1.
Definition JOINT_VOTE_PASS_THRESHOLD : Z := 105.

Definition BLOCKS_PER_HOUR : Z := 3600 / 360.
Definition BLOCKS_PER_DAY : Z := BLOCKS_PER_HOUR * 24.
Definition VOTING_DURATION_DAYS : Z := 30.
Definition VOTING_DURATION_BLOCKS : Z := BLOCKS_PER_DAY * VOTING_DURATION_DAYS.

Definition CID_NUMBER_MAX_BYTES : Z := 32.
Definition INSTITUTION_ROLE_CODE_MAX_BYTES : Z := 64.
Definition BUSINESS_MODULE_TAG_MAX_BYTES : Z := 32.

(** ** The code inside a CID number *)

(** [char::is_ascii_alphabetic]. *)
Definition is_ascii_alphabetic (c : Ascii.ascii) : bool :=
  let n := Ascii.nat_of_ascii c in
  ((65 <=? n) && (n <=? 90) || (97 <=? n) && (n <=? 122))%nat.

(** [str::split]: the segments between the separators. *)
Fixpoint split_on (sep : Ascii.ascii) (s : string) : list string :=
  match s with
  | EmptyString => [EmptyString]
  | String c s =>
      match split_on sep s with
      | [] => []
      | seg :: segs =>
          if bool_decide (c = sep) then EmptyString :: seg :: segs
          else String c seg :: segs
      end
  end.

Definition institution_code_from_cid_number (cid_number : string) : option InstitutionCode :=
  seg2 ← split_on "-"%char cid_number !! 1%nat;
  match seg2 with
  | String b0 (String b1 (String b2 (String b3 _))) =>
      let b3 := if is_ascii_alphabetic b3 then b3 else zero_char in
      Some (String b0 (String b1 (String b2 (String b3 EmptyString))))
  | _ => None
  end.

(** [core::str::from_utf8(..).is_ok()]: well-formed UTF-8 (no overlong
    forms, no surrogates, nothing above U+10FFFF). *)
Definition utf8_tail (lo hi b : nat) : bool := ((lo <=? b) && (b <=? hi))%nat.

Fixpoint utf8_valid_bytes (fuel : nat) (l : list nat) : bool :=
  match fuel with
  | O => true
  | S fuel =>
      let t := utf8_tail 128 191 in
      match l with
      | [] => true
      | a :: l1 =>
        if (a <=? 127)%nat then utf8_valid_bytes fuel l1
        else match l1 with
        | [] => false
        | b :: l2 =>
          if utf8_tail 194 223 a then t b && utf8_valid_bytes fuel l2
          else match l2 with
          | [] => false
          | c :: l3 =>
            if utf8_tail 224 239 a then
              utf8_tail (if (a =? 224)%nat then 160 else 128)
                        (if (a =? 237)%nat then 159 else 191) b
              && t c && utf8_valid_bytes fuel l3
            else match l3 with
            | [] => false
            | d :: l4 =>
              utf8_tail 240 244 a
              && utf8_tail (if (a =? 240)%nat then 144 else 128)
                           (if (a =? 244)%nat then 143 else 191) b
              && t c && t d && utf8_valid_bytes fuel l4
            end
          end
        end
      end
  end.

Definition utf8_valid (s : string) : bool :=
  let l := Ascii.nat_of_ascii <$> String.list_ascii_of_string s in
  utf8_valid_bytes (length l) l.

(** [core::str::from_utf8(b).unwrap_or_default()]. *)
Definition utf8_or_default (s : string) : string := if utf8_valid s then s else "".

(** ** The founding institutions *)

(** The fields of [ChinaCb] the voting and issuance code read; a 32-byte
    account id is the integer its bytes spell. *)
Record ChinaCb : Type := { cb_cid_number : string; cb_main_account : Z }.

Definition CHINA_CB : list ChinaCb :=
  [
   {| cb_cid_number := "LN001-NRC0G-944805165-2026";
      cb_main_account := 0x7c0c099ee4df10c5bd3f618ddf132b6d15390fa27d2c1369f70aeb6b5f3907e5 |};
   {| cb_cid_number := "ZS001-PRC0E-016974075-2026";
      cb_main_account := 0x54bad80b12cedbf7a1569fb96d18d90c4793949a356eb16c6304841af81001dd |};
   {| cb_cid_number := "LN001-PRC05-773405642-2026";
      cb_main_account := 0xd9ef67d0e814fa3a927b9e6a0ebb7dbf6c15d669fc3067600adcab0016ea1cdb |};
   {| cb_cid_number := "GD001-PRC0V-067440774-2026";
      cb_main_account := 0x9d19ff83985b2bd8d30b2845d9d4c7ab90083f98cfe127a0e2297cb30cbc0085 |};
   {| cb_cid_number := "GX001-PRC0C-663454043-2026";
      cb_main_account := 0xf6d5db67d791d8a7f2b35d00cf2e1f72ce1277d18bcb1addf04c8e97a9bb452b |};
   {| cb_cid_number := "FJ001-PRC0I-389570546-2026";
      cb_main_account := 0x1431de61e3e80e5c7830d475cb6587cb7dde89c050c90aa1b40672a8e39b0c36 |};
   {| cb_cid_number := "HN001-PRC0S-545676096-2026";
      cb_main_account := 0xcd5f16df4e71f6bf5cf9080d0576730f8f3a17f7a7e4a291214f6ad3ac656941 |};
   {| cb_cid_number := "YN001-PRC0W-145427171-2026";
      cb_main_account := 0x96b5f59842dffd1ca7f27cf004cbaff3be5afd02cf1935fe52670d0c858f0d57 |};
   {| cb_cid_number := "GZ001-PRC02-969970096-2026";
      cb_main_account := 0xc25d8cf44c827852777ee62f5ea0ecccb539b2cac04628c2277aa0ab17101002 |};
   {| cb_cid_number := "HU001-PRC0P-400319700-2026";
      cb_main_account := 0x0de24adffa51d31085f41f30c96ef92aa979181e6abd22ea53567a26048e4d40 |};
   {| cb_cid_number := "JX001-PRC0J-458681566-2026";
      cb_main_account := 0x26ce33ca747e1e51d102c1c70708a6e73b9ab57d1edfa2889e923eff06575592 |};
   {| cb_cid_number := "ZJ001-PRC08-471270801-2026";
      cb_main_account := 0xb8eb8e8b5df07eb15c9bb5f7b0bb371683ef263646f8a5cd4f6637ee38b4fea3 |};
   {| cb_cid_number := "JS001-PRC0O-358467174-2026";
      cb_main_account := 0x1de52f16c1be56a716209b1e3f6c79deeb00652b4afe16d0cb24725b9b274b4d |};
   {| cb_cid_number := "SD001-PRC07-027328848-2026";
      cb_main_account := 0xb83a2219f9b5ca85685cfb7392ecda03ac443592d73d6d56241f719baf3b561f |};
   {| cb_cid_number := "SX001-PRC0O-104465679-2026";
      cb_main_account := 0xb30c88f3752ed770d120acc2481f0357f9b4bb052058fea819cdd3eff36e5526 |};
   {| cb_cid_number := "HE001-PRC0S-849245626-2026";
      cb_main_account := 0x0df1ae8648f0617c96f42a108803622a319ce3e150efecc50c8e5d57d560e22a |};
   {| cb_cid_number := "HB001-PRC0W-499533387-2026";
      cb_main_account := 0xbe5e60c9c96cdc7e65a570172a7f2a9467e0b85e2790fdc411af12c89d71aebf |};
   {| cb_cid_number := "HI001-PRC0D-659443961-2026";
      cb_main_account := 0x7ff4742a43efa3fd02d94006d4ce838c7eb380a10423eee040b84531603b9614 |};
   {| cb_cid_number := "SI001-PRC0T-711309909-2026";
      cb_main_account := 0x00d09d3a723fb14c435ff3c474fbe333ca247efea81b84f765f45558c950063c |};
   {| cb_cid_number := "CQ001-PRC06-478472058-2026";
      cb_main_account := 0x9c1a3f35ec63f61cc350e431895c307c3c4b251abffc511d5524916816963e72 |};
   {| cb_cid_number := "SC001-PRC0Y-935659021-2026";
      cb_main_account := 0x0267991ba2e7345703c28470cf721522ca1f38fe83e6452303efaa137517c71e |};
   {| cb_cid_number := "GS001-PRC0L-679051155-2026";
      cb_main_account := 0x49e3f7a807f2ff0cababe59d1c31279e4c50687b81485c025b78550f00ff83b4 |};
   {| cb_cid_number := "BP001-PRC0R-189323546-2026";
      cb_main_account := 0xf43653d988585331dbe53e654c0b12e00ba67561f858945e99f27fbfb5c961a3 |};
   {| cb_cid_number := "HA001-PRC0Y-214178517-2026";
      cb_main_account := 0x4e78cc42842740c058a589b75ad9c5710d4026524371eb786514f50f50d45339 |};
   {| cb_cid_number := "SJ001-PRC09-044490898-2026";
      cb_main_account := 0x679104bd5edef4032d11cab381c94ac9ad89df4f365e8d309a965b30daba368d |};
   {| cb_cid_number := "LJ001-PRC08-279890045-2026";
      cb_main_account := 0x849442bed3bc17e958af1612cb560d4594755324df3e56b81245bf65f4076558 |};
   {| cb_cid_number := "JL001-PRC05-850461124-2026";
      cb_main_account := 0x91822638bcd0a5028d470bac69c8d7a9f3a10d995b291b79ef2febac76ce81a6 |};
   {| cb_cid_number := "LI001-PRC0T-978545133-2026";
      cb_main_account := 0xe9e22ea860eef168eaa319245d40fa255d5a3a722ae34823e66590d0bdc92684 |};
   {| cb_cid_number := "NX001-PRC0J-389752794-2026";
      cb_main_account := 0xa4095a3a388044d7a6ff154d4bcfb35cec384eefe8382d9e1d59710f1b16b347 |};
   {| cb_cid_number := "QH001-PRC0C-882026762-2026";
      cb_main_account := 0x972fd76274a5aa2a5781ebc1f78996b89716f2a43806469641888cc8bab628fb |};
   {| cb_cid_number := "AH001-PRC00-589856828-2026";
      cb_main_account := 0x6ed62e6ed8d66b93ce7de191b31d46a4645314830ec254498c9d8e72d03a8b17 |};
   {| cb_cid_number := "TW001-PRC07-265218823-2026";
      cb_main_account := 0xee3adae7d737c734a0c167fdd553d085451f5391cafeb2baed289f11be422076 |};
   {| cb_cid_number := "XZ001-PRC02-435616961-2026";
      cb_main_account := 0x7e57913cbe8fb3f5e7731a041c72a62caf210124823dd368323f0c2927070fae |};
   {| cb_cid_number := "XJ001-PRC02-671044381-2026";
      cb_main_account := 0x603fd39b08aa180ce23131902b6617937c1e0458f2ddd8d9fede9b91f9d5c955 |};
   {| cb_cid_number := "XK001-PRC0P-695945392-2026";
      cb_main_account := 0x937e6a8d5e08e283141ea99c3ee4864922fc153ed1d60a6c959a9139abba32ad |};
   {| cb_cid_number := "AL001-PRC0D-487847725-2026";
      cb_main_account := 0x9179901438d3fa33d76f7fe8578c054754954eeba2a8257df37db761265a129c |};
   {| cb_cid_number := "CL001-PRC0J-771698743-2026";
      cb_main_account := 0x45939c77d7c4a02b91777a7d5577d3934a12ac8803f66cbc2ebd4dcb83147a5a |};
   {| cb_cid_number := "YL001-PRC0Q-293160581-2026";
      cb_main_account := 0x19e8cac822cc520209a1f02789732c4320eb55e319bb9ef1852d0ff3bd0306ad |};
   {| cb_cid_number := "HX001-PRC0D-475713213-2026";
      cb_main_account := 0xa31f30cbb854362a6de74a6e67b2602caa019e71cb661715edd348a2e30078a3 |};
   {| cb_cid_number := "KL001-PRC0O-091969119-2026";
      cb_main_account := 0xc97a3d8e211609b7aa55c7f75c9e1d44c161287c69609840f3b7f296bd82d8b4 |};
   {| cb_cid_number := "HT001-PRC00-481172908-2026";
      cb_main_account := 0xeb4cbfe90cbc0ec9f46b5a77c697e0462bde29b546d65b17e0e6fff2541c20c2 |};
   {| cb_cid_number := "RH001-PRC0F-697831866-2026";
      cb_main_account := 0xa68904edd0892ddb585b31bdb13711f9919f1e1bdb8a2b243ed8462295ff0787 |};
   {| cb_cid_number := "XA001-PRC0H-384161601-2026";
      cb_main_account := 0x38b95239084a4d72f46899781fb9fa619e901e39e1f3d225fd37c3165d4a9409 |};
   {| cb_cid_number := "HJ001-PRC0V-963948997-2026";
      cb_main_account := 0x13695b601d837128635740439d81e8ffb955abd2edde9efc34b870d5745f1f64 |}
  ].

(** The fields of [ChinaCh] the voting and interest code read. *)
Record ChinaCh : Type := {
  ch_cid_number : string;
  citizens_number : Z;
  stake_amount : Z;
  main_account : Z;
}.

Definition CHINA_CH : list ChinaCh :=
  [
   {| ch_cid_number := "ZS001-PRB08-233384677-2026"; citizens_number := 10913902; stake_amount := 109139020000;
      main_account := 0xaf881a7feb5ea6653fcfc1e801308b4cc0aeedf85bd0674c992830a4e2ccfc46 |};
   {| ch_cid_number := "LN001-PRB0K-703127075-2026"; citizens_number := 28157064; stake_amount := 281570640000;
      main_account := 0x86f1e88c787286ab371cef9ca4ada192f6d98e950cba5586de3280a0ad748c33 |};
   {| ch_cid_number := "GD001-PRB0T-239565809-2026"; citizens_number := 106012864; stake_amount := 1060128640000;
      main_account := 0x46fb2dfc71054c9d5187772dd69f4097636454a679a14c73ff20409c000de1c8 |};
   {| ch_cid_number := "GX001-PRB01-025559630-2026"; citizens_number := 50126804; stake_amount := 501268040000;
      main_account := 0xaece89d4edcbc584933fc22f306dd855de67fbeb9bd13223bc7c9c4d8be490f8 |};
   {| ch_cid_number := "FJ001-PRB0V-504679612-2026"; citizens_number := 41540086; stake_amount := 415400860000;
      main_account := 0x329e53e43c1a68a6a31aa88705c576963e4ff230abbcea9a09be369f60af599e |};
   {| ch_cid_number := "HN001-PRB0P-723623074-2026"; citizens_number := 10081232; stake_amount := 100812320000;
      main_account := 0xe5fbc89f5366aeb575380066fc4df33f3938d1376087108787f2549cbec4a779 |};
   {| ch_cid_number := "YN001-PRB08-692525950-2026"; citizens_number := 46821766; stake_amount := 468217660000;
      main_account := 0x5b2b6206e34cd3e0540b90fe44818c52ed4361e3425186889c29f186574b55aa |};
   {| ch_cid_number := "GZ001-PRB00-490015860-2026"; citizens_number := 38562148; stake_amount := 385621480000;
      main_account := 0x155dcbfa1fe28f6a085db3373c5a30e2bfb796713feb8e624d4e63d229f8e079 |};
   {| ch_cid_number := "HU001-PRB0F-084835673-2026"; citizens_number := 66444864; stake_amount := 664448640000;
      main_account := 0xd6b3115e4b1aae55f1c3601a7b0612c304b8d9699cc7a9993fd182382e77ad0c |};
   {| ch_cid_number := "JX001-PRB09-243765987-2026"; citizens_number := 45188635; stake_amount := 451886350000;
      main_account := 0xde3584a03bd971117b22a746b5ce1dcea73828d76e079882bd6e0b54db126bca |};
   {| ch_cid_number := "ZJ001-PRB0R-296232973-2026"; citizens_number := 64567588; stake_amount := 645675880000;
      main_account := 0x4b05f4fd4e07fe55084d26a64ca7fa787681e5130dd02344851d5f1ea93e95e0 |};
   {| ch_cid_number := "JS001-PRB01-890774605-2026"; citizens_number := 84748016; stake_amount := 847480160000;
      main_account := 0x3f75ec35139fe076e006ebc8c0352dfbba3d1a7d484a0ff33a3984426932dd4e |};
   {| ch_cid_number := "SD001-PRB0G-114256751-2026"; citizens_number := 101527453; stake_amount := 1015274530000;
      main_account := 0x85f850faf1f4ace6c3169a61fbe129e2486878dae1d6380a698c2a0fcd70a564 |};
   {| ch_cid_number := "SX001-PRB0K-520132196-2026"; citizens_number := 34915616; stake_amount := 349156160000;
      main_account := 0x7cb015e5de047a799f66b33bef38f2ec28505d87ffa083e741dd498677cdf5d2 |};
   {| ch_cid_number := "HE001-PRB03-158889343-2026"; citizens_number := 99365519; stake_amount := 993655190000;
      main_account := 0x6efbdece0985faa711ad64f07bcce5e706bac2d127aedf413f8c8f577441d397 |};
   {| ch_cid_number := "HB001-PRB0Z-484022741-2026"; citizens_number := 56282021; stake_amount := 562820210000;
      main_account := 0x8794b9837ea3ea84b68af195ff5815bf260fc8f085dd8eec0646d3dd17a3eac4 |};
   {| ch_cid_number := "HI001-PRB0V-514948302-2026"; citizens_number := 54543553; stake_amount := 545435530000;
      main_account := 0x0405200fc6a67d2b4a5b1602ccc55009bfa0148c7f4d7e4552a7ec6b8c561f96 |};
   {| ch_cid_number := "SI001-PRB0N-245618374-2026"; citizens_number := 33824101; stake_amount := 338241010000;
      main_account := 0xd3d8e94d9dc2eb0457ebb871d551e46ba749cdfaae97e295ca20356add922fda |};
   {| ch_cid_number := "CQ001-PRB0C-694162045-2026"; citizens_number := 32054159; stake_amount := 320541590000;
      main_account := 0x8e7397e21e3c7d345b68fbeb3e479936bec8f697cb83cf90b81382d6ac5f7cab |};
   {| ch_cid_number := "SC001-PRB0Q-764253139-2026"; citizens_number := 80310245; stake_amount := 803102450000;
      main_account := 0x445832e057237b6c0ca00d9ed474e9fc01d28e3f6f4c7d8cc7c4a3d61785ae69 |};
   {| ch_cid_number := "GS001-PRB08-005784877-2026"; citizens_number := 20617465; stake_amount := 206174650000;
      main_account := 0xd36f42f0b356092a5bee8d0df2d8c44fef5e4130b543aeedb4b0a4171a0ebe10 |};
   {| ch_cid_number := "BP001-PRB0Q-434307982-2026"; citizens_number := 21893095; stake_amount := 218930950000;
      main_account := 0x5ecefffbb5c631d39618f08c952ad6bc34e0365c80ff3f73221e28bd4d6cdddf |};
   {| ch_cid_number := "HA001-PRB08-969179618-2026"; citizens_number := 24720871; stake_amount := 247208710000;
      main_account := 0x21723c4ffbdedfe3dc03f8f99f2be69d38974cefb8baaa5ae0dccb2aa19a2894 |};
   {| ch_cid_number := "SJ001-PRB03-644104544-2026"; citizens_number := 24870895; stake_amount := 248708950000;
      main_account := 0x3e32836b01771c6e78ca0352f272a1c9a6f94a48c2fe43eb404ed12a28b0556f |};
   {| ch_cid_number := "LJ001-PRB0T-280510636-2026"; citizens_number := 22780354; stake_amount := 227803540000;
      main_account := 0x880a95a01195ecab49863ac2941da1b3e24d1498b975d8bf17fb658e27f7d355 |};
   {| ch_cid_number := "JL001-PRB07-129935340-2026"; citizens_number := 24073453; stake_amount := 240734530000;
      main_account := 0xcfd73254a825eda01cf08614205b4175d682613604e795982af1507a40b768af |};
   {| ch_cid_number := "LI001-PRB0J-249814963-2026"; citizens_number := 42591407; stake_amount := 425914070000;
      main_account := 0xfe9782b1cb4961ee45717105db51d7f9dca16d87c3399125778a9140ee71b9b1 |};
   {| ch_cid_number := "NX001-PRB0F-292327153-2026"; citizens_number := 7202654; stake_amount := 72026540000;
      main_account := 0x7e802a3dc6982cacc75bfa02e46bc8f1d074eb55f92acba831e5fbfdfa656627 |};
   {| ch_cid_number := "QH001-PRB0V-075657014-2026"; citizens_number := 5030542; stake_amount := 50305420000;
      main_account := 0xe52d727901162c6e4cf6e03f2066e057399ad9292001820d436dabdec2ed0679 |};
   {| ch_cid_number := "AH001-PRB0M-388477914-2026"; citizens_number := 61027171; stake_amount := 610271710000;
      main_account := 0x0003751d234a7a8afd21b2f5ec07f7bfc8232b20e38a7cd3f7b2c261bf164a7f |};
   {| ch_cid_number := "TW001-PRB0S-266238196-2026"; citizens_number := 23561236; stake_amount := 235612360000;
      main_account := 0x6e52e744891abe902a42b039276cbf0593989d4ed4806fda54d19c69a73cda14 |};
   {| ch_cid_number := "XZ001-PRB06-210788637-2026"; citizens_number := 2763853; stake_amount := 27638530000;
      main_account := 0xe84daa85a070ae64eb1b7f18f75223158039349276df7e697737ee19086fe34b |};
   {| ch_cid_number := "XJ001-PRB0V-233325633-2026"; citizens_number := 9880442; stake_amount := 98804420000;
      main_account := 0xe3e528582c58cb319c0941bef1354b8303d2c1a9865b18f73b107e2354cee5e6 |};
   {| ch_cid_number := "XK001-PRB0Q-300401625-2026"; citizens_number := 4513098; stake_amount := 45130980000;
      main_account := 0x0016695ce634d377fc5348f6e31bac12f89c275112bbf0683783a026e7d6e1bb |};
   {| ch_cid_number := "AL001-PRB0S-527686065-2026"; citizens_number := 2627999; stake_amount := 26279990000;
      main_account := 0xcd15753c666a0604b68cf9a2af1626e17f0a259da8db94c3c54d4a092fbeac9c |};
   {| ch_cid_number := "CL001-PRB0Q-951267669-2026"; citizens_number := 7833021; stake_amount := 78330210000;
      main_account := 0x9f5bd94ff37a8d3f04c8e90560782f5c6f20477bf813059e4d8bb3c17ae2bcc6 |};
   {| ch_cid_number := "YL001-PRB0A-142800261-2026"; citizens_number := 5634164; stake_amount := 56341640000;
      main_account := 0x0da105fd6917c7703b6f357eeb7e05c445c63200eaab80efa93a66b1b286f9b6 |};
   {| ch_cid_number := "HX001-PRB0F-215310265-2026"; citizens_number := 4664727; stake_amount := 46647270000;
      main_account := 0x219a983e60a6e9f684632e0783374f4fec3325f46d5c7de3cb1d05dde7599193 |};
   {| ch_cid_number := "KL001-PRB08-682838027-2026"; citizens_number := 893415; stake_amount := 8934150000;
      main_account := 0xd2f1ca163d87fcc96546ebd5891c2487f21b6fd1702de8a1182da79651cc89a7 |};
   {| ch_cid_number := "HT001-PRB0L-210616196-2026"; citizens_number := 12110780; stake_amount := 121107800000;
      main_account := 0x6c59fa9059358d7bf95f83b0c4eaaf6f2e4837a7151174e128ffd2acc8f23f39 |};
   {| ch_cid_number := "RH001-PRB0C-380830938-2026"; citizens_number := 15489562; stake_amount := 154895620000;
      main_account := 0x8d59d4a31ab0cb729ce80b42d1d82f50d87a8557b1008a960a30892772a7d296 |};
   {| ch_cid_number := "XA001-PRB0Q-928028839-2026"; citizens_number := 3991080; stake_amount := 39910800000;
      main_account := 0x4123d536f6277e041f1b983274fa77ecb004e698e8195bf81263277a3e92a750 |};
   {| ch_cid_number := "HJ001-PRB0I-089279108-2026"; citizens_number := 8738458; stake_amount := 87384580000;
      main_account := 0xa2f41e35019070029a4fc5a56b379973d51c48a5dab940a010bdd8e28c4ec434 |}
  ].

Definition PRC_COUNT : Z := Z.of_nat (length CHINA_CB) - 1.
Definition PRB_COUNT : Z := Z.of_nat (length CHINA_CH).

Definition JOINT_VOTE_TOTAL : Z :=
  NRC_JOINT_VOTE_WEIGHT + PRC_COUNT * PRC_JOINT_VOTE_WEIGHT
  + PRB_COUNT * PRB_JOINT_VOTE_WEIGHT.

(** ** Facts about the tables *)

(** How many of the four classes a code falls in. *)
Definition class_count (code : InstitutionCode) : nat :=
  length (filter (fun b => b = true)
    [is_fixed_governance_code code; is_personal_code code;
     is_institution_code code; is_person_code code]).
