(* ===== verification/CidNumber.v ===== *)
(** * CID numbers

    [primitives/cid/number.rs], [primitives/cid/generator.rs] and the rest of
    [primitives/cid/code.rs]: the format [R5-K5-N9-D4] of a CID number with its
    checksum, the parser that every pallet trusts, and the generator that
    issues the numbers. *)
From S2P Require Import Prelude Cid.

(** ** Text *)

Fixpoint string_forallb (f : ascii -> bool) (s : string) : bool :=
  match s with EmptyString => true | String c s => f c && string_forallb f s end.

Definition byte_in (lo hi : nat) (c : ascii) : bool :=
  ((lo <=? nat_of_ascii c) && (nat_of_ascii c <=? hi))%nat.
Definition is_ascii (c : ascii) : bool := byte_in 0 127 c.
Definition is_ascii_digit (c : ascii) : bool := byte_in 48 57 c.
Definition is_ascii_uppercase (c : ascii) : bool := byte_in 65 90 c.
Definition upper_or_digit (c : ascii) : bool := is_ascii_uppercase c || is_ascii_digit c.

(** The characters [char::is_whitespace] accepts, in UTF-8. *)
Definition whitespace : list (list nat) :=
  [[9]; [10]; [11]; [12]; [13]; [32]; [194; 133]; [194; 160]; [225; 154; 128];
   [226; 128; 128]; [226; 128; 129]; [226; 128; 130]; [226; 128; 131]; [226; 128; 132];
   [226; 128; 133]; [226; 128; 134]; [226; 128; 135]; [226; 128; 136]; [226; 128; 137];
   [226; 128; 138]; [226; 128; 168]; [226; 128; 169]; [226; 128; 175]; [226; 129; 159];
   [227; 128; 128]]%nat.

Fixpoint strip_prefix (p : list nat) (l : list ascii) : option (list ascii) :=
  match p, l with
  | [], _ => Some l
  | n :: p, c :: l => if (n =? nat_of_ascii c)%nat then strip_prefix p l else None
  | _ :: _, [] => None
  end.

(** The first of the given encodings taken off, as often as one is there. *)
Fixpoint strip_all (ws : list (list nat)) (fuel : nat) (l : list ascii) : list ascii :=
  match fuel with
  | O => l
  | S fuel =>
      match omap (fun w => strip_prefix w l) ws with
      | l' :: _ => strip_all ws fuel l'
      | [] => l
      end
  end.

(** [str::trim] of a string in UTF-8: no encoding of a character is a proper
    part of another, so the end may be read backwards. *)
Definition trim (s : string) : string :=
  let l := String.list_ascii_of_string s in
  let l := strip_all whitespace (length l) l in
  let l := reverse (strip_all (reverse <$> whitespace) (length l) (reverse l)) in
  String.string_of_list_ascii l.

(** [format!("{n:0w}")] of a number below [10^w]: its [w] decimal digits. *)
Definition digit (d : Z) : ascii := ascii_of_nat (48 + Z.to_nat d).
Fixpoint decimal (w : nat) (n : Z) : string :=
  match w with
  | O => ""
  | S w => String (digit (n / 10 ^ Z.of_nat w mod 10)) (decimal w n)
  end.

(** [u32::from_le_bytes] and [u64::from_le_bytes] of the bytes given. *)
Fixpoint from_le_bytes (l : list ascii) : Z :=
  match l with [] => 0 | c :: l => Z.of_nat (nat_of_ascii c) + 256 * from_le_bytes l end.

(** ** The rest of the code tables ([code.rs]) *)

Record CountryCodeInfo : Type := {
  country_code : string;
  country_full_name : string;
  country_full_name_en : string;
  country_short_name : string;
  country_short_name_en : string;
}.
Record ProvinceCodeInfo : Type := { province_code : string; province_name : string }.

Definition COUNTRY_CN : string := "CN".
Definition COUNTRY_CN_INFO : CountryCodeInfo := {|
  country_code := COUNTRY_CN;
  country_full_name := "中华民族联邦共和国";
  country_full_name_en := "Federal Republic of the Chinese Nation";
  country_short_name := "中华联邦";
  country_short_name_en := "Chinese Federation" |}.

Definition PROVINCE_CODE_INFOS : list ProvinceCodeInfo :=
  [{| province_code := "ZS"; province_name := "中枢省" |};
   {| province_code := "LN"; province_name := "岭南省" |};
   {| province_code := "GD"; province_name := "广东省" |};
   {| province_code := "GX"; province_name := "广西省" |};
   {| province_code := "FJ"; province_name := "福建省" |};
   {| province_code := "HN"; province_name := "海南省" |};
   {| province_code := "YN"; province_name := "云南省" |};
   {| province_code := "GZ"; province_name := "贵州省" |};
   {| province_code := "HU"; province_name := "湖南省" |};
   {| province_code := "JX"; province_name := "江西省" |};
   {| province_code := "ZJ"; province_name := "浙江省" |};
   {| province_code := "JS"; province_name := "江苏省" |};
   {| province_code := "SD"; province_name := "山东省" |};
   {| province_code := "SX"; province_name := "山西省" |};
   {| province_code := "HE"; province_name := "河南省" |};
   {| province_code := "HB"; province_name := "河北省" |};
   {| province_code := "HI"; province_name := "湖北省" |};
   {| province_code := "SI"; province_name := "陕西省" |};
   {| province_code := "CQ"; province_name := "重庆省" |};
   {| province_code := "SC"; province_name := "四川省" |};
   {| province_code := "GS"; province_name := "甘肃省" |};
   {| province_code := "BP"; province_name := "北平省" |};
   {| province_code := "HA"; province_name := "海滨省" |};
   {| province_code := "SJ"; province_name := "松江省" |};
   {| province_code := "LJ"; province_name := "龙江省" |};
   {| province_code := "JL"; province_name := "吉林省" |};
   {| province_code := "LI"; province_name := "辽宁省" |};
   {| province_code := "NX"; province_name := "宁夏省" |};
   {| province_code := "QH"; province_name := "青海省" |};
   {| province_code := "AH"; province_name := "安徽省" |};
   {| province_code := "TW"; province_name := "台湾省" |};
   {| province_code := "XZ"; province_name := "西藏省" |};
   {| province_code := "XJ"; province_name := "新疆省" |};
   {| province_code := "XK"; province_name := "西康省" |};
   {| province_code := "AL"; province_name := "阿里省" |};
   {| province_code := "CL"; province_name := "葱岭省" |};
   {| province_code := "YL"; province_name := "伊犁省" |};
   {| province_code := "HX"; province_name := "河西省" |};
   {| province_code := "KL"; province_name := "昆仑省" |};
   {| province_code := "HT"; province_name := "河套省" |};
   {| province_code := "RH"; province_name := "热河省" |};
   {| province_code := "XA"; province_name := "兴安省" |};
   {| province_code := "HJ"; province_name := "合江省" |}].

Definition PROVINCE_CODES : list string := province_code <$> PROVINCE_CODE_INFOS.

Definition to_lower (c : ascii) : ascii :=
  if is_ascii_uppercase c then ascii_of_nat (nat_of_ascii c + 32) else c.
Fixpoint lowercase (s : string) : string :=
  match s with EmptyString => "" | String c s => String (to_lower c) (lowercase s) end.
Definition eq_ignore_ascii_case (a b : string) : bool := bool_decide (lowercase a = lowercase b).

Definition country_code_text (code : string) : option string :=
  if utf8_valid code then Some code else None.
Definition province_code_text (code : string) : option string :=
  province_code <$> List.find (fun info => eq_ignore_ascii_case (province_code info) code)
    PROVINCE_CODE_INFOS.
Definition province_code_by_name (name : string) : option string :=
  province_code <$> List.find (fun info => bool_decide (province_name info = trim name))
    PROVINCE_CODE_INFOS.
Definition province_name_by_code (code : string) : option string :=
  province_name <$> List.find (fun info => eq_ignore_ascii_case (province_code info) code)
    PROVINCE_CODE_INFOS.

Definition institution_code_label (code : InstitutionCode) : option string :=
  institution_code_label_of <$> institution_info code.
Definition institution_code_from_str (value : string) : option InstitutionCode :=
  let v := trim value in
  institution_code <$> List.find (fun info => bool_decide (institution_code_text_of info = v)
      || bool_decide (institution_code_label_of info = v)) INSTITUTION_CODE_INFOS.
Definition institution_code_len (code : InstitutionCode) : option nat :=
  String.length <$> institution_code_text code.
Definition is_three_char_code (code : InstitutionCode) : bool :=
  bool_decide (institution_code_len code = Some 3%nat).

(** ** The checksum ([number.rs]) *)

Definition CHECKSUM_ALPHABET : string := "0123456789ABCDEFGHIJKLMNOPQRSTUVWXYZ".

Definition CID_NUMBER_SEGMENT_COUNT : nat := 4.
Definition CID_NUMBER_SEGMENT_R5_LEN : nat := 5.
Definition CID_NUMBER_SEGMENT_K3P1C1_LEN : nat := 5.
Definition CID_NUMBER_SEGMENT_N9_LEN : nat := 9.
Definition CID_NUMBER_SEGMENT_D4_LEN : nat := 4.

Fixpoint position (c : ascii) (s : string) : option nat :=
  match s with
  | EmptyString => None
  | String d s => if decide (c = d) then Some O else S <$> position c s
  end.

(** The sum wraps at the width of [usize], 32 bits in the runtime. *)
Fixpoint checksum_from (idx : Z) (total : Z) (payload : string) : Z :=
  match payload with
  | EmptyString => total
  | String c payload =>
      let pos := Z.of_nat (default O (position c CHECKSUM_ALPHABET)) in
      checksum_from (idx + 1) ((total + (idx + 1) * pos) mod (u32_max + 1)) payload
  end.
Definition checksum_acc (payload : string) : Z := checksum_from 0 0 payload.

Definition checksum_char_mod36 (payload : string) : ascii :=
  default "0"%char (String.get (Z.to_nat (checksum_acc payload mod 36)) CHECKSUM_ALPHABET).
Definition checksum_char_m1 (payload : string) (profit : bool) : ascii :=
  if profit then ascii_of_nat (48 + Z.to_nat (checksum_acc payload mod 10))
  else ascii_of_nat (65 + Z.to_nat (checksum_acc payload mod 26)).

(** ** The parser ([number.rs]) *)

Record CidNumberParts : Type := {
  r5 : string;
  institution : InstitutionCode;
  institution_code_text_part : string;
  profit : bool;
  checksum : ascii;
  n9 : string;
  d4 : string;
}.

Abbreviation parsed := (result string).

Definition segment_ok (len : nat) (ok : ascii -> bool) (seg : string) : bool :=
  bool_decide (String.length seg = len) && string_forallb ok seg.

(** A fixed policy of the code decides the profit mark. *)
Definition check_profit_policy (code : InstitutionCode) (profit : bool) : parsed unit :=
  match profit_policy code with
  | Some NonProfit => guard_ok (negb profit) "cid_number profit conflicts with code policy"
  | Some Profit => guard_ok profit "cid_number profit conflicts with code policy"
  | None => Err "cid_number profit policy missing"
  | _ => Ok tt
  end.

(** Layout A: a code of three characters, the profit mark, the checksum. *)
Definition parse_three_char (s0 s1 s2 s3 : string)
    : parsed (InstitutionCode * string * bool * ascii) :=
  let code := String.substring 0 3 s1 in
  let profit_char := String.substring 3 1 s1 in
  let checksum := default zero_char (String.get 4 s1) in
  institution ← opt_ok (institution_code_from_str code) "cid_number institution code invalid";
  guard_ok (is_three_char_code institution) "cid_number 3-char layout code mismatch" ;;
  profit ← (if decide (profit_char = "0") then Ok false
            else if decide (profit_char = "1") then Ok true
            else Err "cid_number 3-char layout profit must be 0/1");
  check_profit_policy institution profit ;;
  guard_ok (bool_decide (checksum_char_mod36 (s0 +:+ code +:+ profit_char +:+ s2 +:+ s3) = checksum))
    "cid_number checksum invalid" ;;
  Ok (institution, code, profit, checksum).

(** Layout B: a code of four characters and the mark [M1], both checksum and
    profit mark. *)
Definition parse_four_char (s0 s1 s2 s3 : string)
    : parsed (InstitutionCode * string * bool * ascii) :=
  let code := String.substring 0 4 s1 in
  let m1 := default zero_char (String.get 4 s1) in
  institution ← opt_ok (institution_code_from_str code) "cid_number institution code invalid";
  guard_ok (negb (is_three_char_code institution)) "cid_number 4-char layout code mismatch" ;;
  let profit := is_ascii_digit m1 in
  check_profit_policy institution profit ;;
  guard_ok (bool_decide (checksum_char_m1 (s0 +:+ code +:+ s2 +:+ s3) profit = m1))
    "cid_number checksum invalid" ;;
  Ok (institution, code, profit, m1).

Definition parse_segments (s0 s1 s2 s3 : string) : parsed CidNumberParts :=
  guard_ok (segment_ok CID_NUMBER_SEGMENT_R5_LEN upper_or_digit s0)
    "cid_number r5 segment invalid" ;;
  guard_ok (segment_ok CID_NUMBER_SEGMENT_K3P1C1_LEN upper_or_digit s1)
    "cid_number core segment invalid" ;;
  guard_ok (segment_ok CID_NUMBER_SEGMENT_N9_LEN is_ascii_digit s2)
    "cid_number n9 segment invalid" ;;
  guard_ok (segment_ok CID_NUMBER_SEGMENT_D4_LEN is_ascii_digit s3)
    "cid_number date segment invalid" ;;
  let index3 := default zero_char (String.get 3 s1) in
  '(institution, code, profit, checksum) ←
    (if is_ascii_digit index3 then parse_three_char s0 s1 s2 s3 else parse_four_char s0 s1 s2 s3);
  Ok {| r5 := s0; institution := institution; institution_code_text_part := code;
        profit := profit; checksum := checksum; n9 := s2; d4 := s3 |}.

Definition parse_cid_number_parts (raw : string) : parsed CidNumberParts :=
  let normalized := trim raw in
  guard_ok (negb (bool_decide (normalized = ""))) "cid_number is required" ;;
  guard_ok (string_forallb is_ascii normalized) "cid_number must be ascii" ;;
  guard_ok (bool_decide (Z.of_nat (String.length normalized) <= CID_NUMBER_MAX_BYTES))
    "cid_number length exceeds chain max" ;;
  guard_ok (string_forallb (fun c => upper_or_digit c || bool_decide (c = "-"%char)) normalized)
    "cid_number charset invalid" ;;
  match split_on "-" normalized with
  | [s0; s1; s2; s3] => parse_segments s0 s1 s2 s3
  | _ => Err "cid_number format invalid"
  end.

Definition validate_cid_number_format (raw : string) : parsed string :=
  parse_cid_number_parts raw ;; Ok (trim raw).

Definition parse_cid_number_parts_bytes (raw : string) : parsed CidNumberParts :=
  guard_ok (utf8_valid raw) "cid_number must be utf-8" ;;
  parse_cid_number_parts raw.

(** The province and the city of an institution; a person has none. *)
Definition cid_scope_codes (raw : string) : parsed (string * string) :=
  parts ← parse_cid_number_parts_bytes raw;
  guard_ok (negb (is_person_code (institution parts))) "person cid has no province/city scope" ;;
  guard_ok (bool_decide (String.length (r5 parts) = CID_NUMBER_SEGMENT_R5_LEN))
    "cid_number r5 segment invalid" ;;
  Ok (String.substring 0 2 (r5 parts), String.substring 2 3 (r5 parts)).

(** ** The generator ([generator.rs]) *)

Definition RESERVED_PROVINCE_CITY_CODE : string := "000".

Record GenerateCidNumberInput : Type := {
  public_key : string;
  p1 : string;
  in_province_code : string;
  in_province_name : string;
  in_city_code : string;
  in_city_name : string;
  year : string;
  in_institution : string;
}.

Definition resolve_profit (p1 : string) : parsed bool :=
  if decide (trim p1 ∈ ["0"; "非盈利"]) then Ok false
  else if decide (trim p1 ∈ ["1"; "盈利"]) then Ok true
  else Err "p1 must be 0/1 for variable/inherit institution code".

Definition valid_ascii_code (value : string) (len : nat) : bool :=
  bool_decide (String.length value = len) && string_forallb upper_or_digit value.

Definition generated_profit (code : InstitutionCode) (p1 : string) : parsed bool :=
  match profit_policy code with
  | Some NonProfit => Ok false
  | Some Profit => Ok true
  | Some (Variable_ | InheritParent) => resolve_profit p1
  | None => Err "institution profit policy missing"
  end.

Section Generator.
(** [sp_crypto_hashing::blake2_256]. *)
Variable blake2_256 : string -> string.

Definition hash_text (input : string) : Z :=
  from_le_bytes (take 4 (String.list_ascii_of_string (blake2_256 input))).
Definition hash_u64 (input : string) : Z :=
  from_le_bytes (take 8 (String.list_ascii_of_string (blake2_256 input))).

(** The first and the third segment: a number of twelve digits for a person,
    the area and a number of nine digits for an institution. *)
Definition generated_segments (input : GenerateCidNumberInput) (code : InstitutionCode)
    (code_str : string) : parsed (string * string) :=
  if is_person_code code then
    let number := hash_u64 (public_key input +:+ "|" +:+ code_str +:+ "|" +:+ year input)
      mod 1000000000000 in
    let high3 := number / 1000000000 in
    let low9 := number mod 1000000000 in
    Ok ("CN" +:+ decimal 3 high3, decimal 9 low9)
  else
    guard_ok (negb (bool_decide (trim (in_province_code input) = ""
        \/ trim (in_province_name input) = "" \/ trim (in_city_name input) = "")))
      "province_code, province_name, city_name are required" ;;
    guard_ok (valid_ascii_code (in_province_code input) 2)
      "province_code must be 2 uppercase ascii chars" ;;
    guard_ok (valid_ascii_code (in_city_code input) 3)
      "city_code must be 3 uppercase ascii chars" ;;
    let n9 := decimal 9 (hash_text (public_key input +:+ "|" +:+ code_str +:+ "|"
      +:+ in_province_name input +:+ "|" +:+ in_city_name input +:+ "|" +:+ year input)
      mod 1000000000) in
    Ok (in_province_code input +:+ in_city_code input, n9).

Definition generate_cid_number (input : GenerateCidNumberInput) : parsed string :=
  guard_ok (negb (bool_decide (trim (public_key input) = "" \/ trim (year input) = ""
      \/ trim (in_institution input) = "")))
    "public_key, year, institution are required" ;;
  guard_ok (bool_decide (String.length (year input) = 4%nat)
      && string_forallb is_ascii_digit (year input)) "year must be YYYY" ;;
  institution_code ← opt_ok (institution_code_from_str (in_institution input))
    "institution must be a registered CID institution code";
  guard_ok (negb (bool_decide (institution_code = PMUL)))
    "personal multisig (PMUL) has no cid number" ;;
  profit ← generated_profit institution_code (p1 input);
  code_str ← opt_ok (institution_code_text institution_code) "institution code text missing";
  '(r5, n9) ← generated_segments input institution_code code_str;
  if is_three_char_code institution_code then
    let profit_char := if (profit : bool) then "1" else "0" in
    let payload := r5 +:+ code_str +:+ profit_char +:+ n9 +:+ year input in
    let c := checksum_char_mod36 payload in
    Ok (r5 +:+ "-" +:+ code_str +:+ profit_char +:+ String c ("-" +:+ n9 +:+ "-" +:+ year input))
  else
    let payload := r5 +:+ code_str +:+ n9 +:+ year input in
    let m1 := checksum_char_m1 payload profit in
    Ok (r5 +:+ "-" +:+ code_str +:+ String m1 ("-" +:+ n9 +:+ "-" +:+ year input)).
End Generator.
