(* ===== verification/Types.v ===== *)
(** * Voting engine data ([votingengine/src/types.rs])

    Constants, tagged unions and records of the voting engine, with the
    subjects of [entity-primitives] and [citizen-identity] they mention, and
    the validating constructor of a vote plan. *)
From S2P Require Import Prelude Cid.

(** [BlockNumber] is [u32] in [runtime/src/lib.rs]; an account id is the
    integer its 32 bytes spell. *)
Definition BlockNumber_max : Z := u32_max.
Definition AccountId : Type := Z.
Definition CidNumber : Type := string.
Definition RoleCode : Type := string.

#[export] Instance AccountId_eq_dec : EqDecision AccountId := Z.eq_dec.
#[export] Instance AccountId_countable : Countable AccountId := Z_countable.
#[export] Instance CidNumber_eq_dec : EqDecision CidNumber := String.eq_dec.
#[export] Instance CidNumber_countable : Countable CidNumber := String.countable.
#[export] Instance RoleCode_eq_dec : EqDecision RoleCode := String.eq_dec.
#[export] Instance RoleCode_countable : Countable RoleCode := String.countable.

(** [BlockNumber::saturating_add]. *)
Definition block_add (a b : Z) : Z := saturating_add BlockNumber_max a b.

Definition PROPOSAL_KIND_INTERNAL : Z := 0.
Definition PROPOSAL_KIND_JOINT : Z := 1.
Definition PROPOSAL_KIND_LEGISLATION : Z := 2.
Definition PROPOSAL_KIND_ELECTION : Z := 3.

Definition STAGE_INTERNAL : Z := 0.
Definition STAGE_JOINT : Z := 1.
Definition STAGE_REFERENDUM : Z := 2.

Definition STATUS_VOTING : Z := 0.
Definition STATUS_PASSED : Z := 1.
Definition STATUS_REJECTED : Z := 2.
Definition STATUS_EXECUTED : Z := 3.
Definition STATUS_EXECUTION_FAILED : Z := 4.

(** [primitives::core_const]: the bound of [CidNumber]. *)
Definition CID_NUMBER_MAX_BYTES : Z := 32.

Definition MAX_PROPOSAL_SUBJECT_CIDS : Z := 256.
Definition MAX_VOTE_PLAN_SUBJECTS : Z := MAX_PROPOSAL_SUBJECT_CIDS.

(** ** Subjects *)

Record RoleSubject : Type := {
  role_cid_number : CidNumber;
  role_code : RoleCode;
}.

Inductive AuthorizationSubject : Type :=
| Institution (role_subject : RoleSubject)
| PersonalMultisig (account : AccountId).

Record BusinessActionId : Type := {
  module_tag : string;
  action_code : Z;
}.

Record InstitutionVoteTicket : Type := {
  ticket_role_subject : RoleSubject;
  voter_account_id : AccountId;
}.

Inductive ProposalSubject : Type :=
| InstitutionCid (cid_number : CidNumber)
| PersonalAccount (account : AccountId).

Record CitizenSubject : Type := {
  citizen_cid_number : CidNumber;
  citizen_account_id : AccountId;
}.

Inductive PopulationScope : Type :=
| ScopeCountry
| ScopeProvince (province : string)
| ScopeCity (province city : string)
| ScopeTown (province city town : string).

Record PopulationData : Type := {
  scope : PopulationScope;
  eligible_total : Z;
  eligibility_revision : Z;
  eligibility_date : Z;
}.

Record CitizenReferendumTicket : Type := {
  voter_subject : CitizenSubject;
  ticket_approve : bool;
}.

#[export] Instance RoleSubject_eq_dec : EqDecision RoleSubject.
Proof. solve_decision. Defined.
#[export] Instance AuthorizationSubject_eq_dec : EqDecision AuthorizationSubject.
Proof. solve_decision. Defined.
#[export] Instance BusinessActionId_eq_dec : EqDecision BusinessActionId.
Proof. solve_decision. Defined.
#[export] Instance InstitutionVoteTicket_eq_dec : EqDecision InstitutionVoteTicket.
Proof. solve_decision. Defined.
#[export] Instance ProposalSubject_eq_dec : EqDecision ProposalSubject.
Proof. solve_decision. Defined.
#[export] Instance CitizenSubject_eq_dec : EqDecision CitizenSubject.
Proof. solve_decision. Defined.

#[export] Program Instance RoleSubject_countable : Countable RoleSubject :=
  inj_countable' (fun r => (role_cid_number r, role_code r))
    (fun p => {| role_cid_number := p.1; role_code := p.2 |}) _.
Next Obligation. by intros []. Qed.
#[export] Program Instance AuthorizationSubject_countable : Countable AuthorizationSubject :=
  inj_countable'
    (fun s => match s with Institution r => inl r | PersonalMultisig a => inr a end)
    (fun p => match p with inl r => Institution r | inr a => PersonalMultisig a end) _.
Next Obligation. by intros []. Qed.
#[export] Program Instance InstitutionVoteTicket_countable : Countable InstitutionVoteTicket :=
  inj_countable' (fun t => (ticket_role_subject t, voter_account_id t))
    (fun p => {| ticket_role_subject := p.1; voter_account_id := p.2 |}) _.
Next Obligation. by intros []. Qed.
#[export] Program Instance ProposalSubject_countable : Countable ProposalSubject :=
  inj_countable'
    (fun s => match s with InstitutionCid c => inl c | PersonalAccount a => inr a end)
    (fun p => match p with inl c => InstitutionCid c | inr a => PersonalAccount a end) _.
Next Obligation. by intros []. Qed.

(** ** Vote plans *)

Inductive VotingEngineKind : Type := Internal | Joint | Election | Legislation.

#[export] Instance VotingEngineKind_eq_dec : EqDecision VotingEngineKind.
Proof. solve_decision. Defined.

Inductive VotePlanValidationError : Type :=
| PlanOwnerMismatch
| VoterSubjectsEmpty
| TooManyVoterSubjects
| DuplicateVoterSubject
| AuthorizationSubjectMismatch.

Record VotePlan : Type := {
  business_action_id : BusinessActionId;
  plan_owner : string;
  proposer_subject : AuthorizationSubject;
  voter_subjects : list AuthorizationSubject;
  voting_engine : VotingEngineKind;
  business_object_hash : string;
}.

Definition is_institution (s : AuthorizationSubject) : bool :=
  match s with Institution _ => true | PersonalMultisig _ => false end.

(** The [for (index, subject)] loop: does a subject occur again among the
    ones before it? *)
Fixpoint has_duplicate (seen rest : list AuthorizationSubject) : bool :=
  match rest with
  | [] => false
  | s :: rest => bool_decide (s ∈ seen) || has_duplicate (seen ++ [s]) rest
  end.

(** [VotePlan::try_new]. *)
Definition try_new (action : BusinessActionId) (owner : string)
    (proposer : AuthorizationSubject) (voters : list AuthorizationSubject)
    (engine : VotingEngineKind) (object_hash : string)
    : result VotePlanValidationError VotePlan :=
  if negb (bool_decide (module_tag action = owner)) then Err PlanOwnerMismatch
  else if bool_decide (voters = []) && negb (bool_decide (engine = Election))
  then Err VoterSubjectsEmpty
  else if has_duplicate [] voters then Err DuplicateVoterSubject
  else if
    match proposer with
    | Institution _ => existsb (fun s => negb (is_institution s)) voters
    | PersonalMultisig account =>
        negb (bool_decide (length voters = 1%nat)
              && bool_decide (head voters = Some (PersonalMultisig account)))
    end
  then Err AuthorizationSubjectMismatch
  else match bounded_list MAX_VOTE_PLAN_SUBJECTS voters with
  | None => Err TooManyVoterSubjects
  | Some voters =>
      Ok {| business_action_id := action; plan_owner := owner;
            proposer_subject := proposer; voter_subjects := voters;
            voting_engine := engine; business_object_hash := object_hash |}
  end.

(** ** Proposals and their auxiliary records *)

Inductive ProposalExecutionOutcome : Type :=
| Ignored | Executed | RetryableFailed | FatalFailed.

Inductive ProposalCancelDecision : Type := CancelIgnored | CancelAllow.

#[export] Instance ProposalExecutionOutcome_eq_dec : EqDecision ProposalExecutionOutcome.
Proof. solve_decision. Defined.
#[export] Instance ProposalCancelDecision_eq_dec : EqDecision ProposalCancelDecision.
Proof. solve_decision. Defined.

Inductive InternalProposalMutexKind : Type := Regular | AdminSetMutationExclusive.

#[export] Instance InternalProposalMutexKind_eq_dec : EqDecision InternalProposalMutexKind.
Proof. solve_decision. Defined.

Record InternalProposalMutexState : Type := {
  admin_set_mutation_proposal : option Z;
  regular_active_count : Z;
}.

Definition mutex_state_default : InternalProposalMutexState :=
  {| admin_set_mutation_proposal := None; regular_active_count := 0 |}.

(** [InternalProposalMutexState::is_empty]. *)
Definition mutex_is_empty (st : InternalProposalMutexState) : bool :=
  bool_decide (admin_set_mutation_proposal st = None)
  && bool_decide (regular_active_count st = 0).

Record InternalProposalMutexBinding : Type := {
  binding_subject : ProposalSubject;
  binding_kind : InternalProposalMutexKind;
}.

#[export] Instance InternalProposalMutexBinding_eq_dec : EqDecision InternalProposalMutexBinding.
Proof. solve_decision. Defined.

Record ExecutionRetryState : Type := {
  manual_attempts : Z;
  first_auto_failed_at : Z;
  retry_deadline : Z;
  last_attempt_at : option Z;
}.

Record PendingExecutionState : Type := {
  attempts : Z;
  next_attempt_at : Z;
}.

Record Proposal : Type := {
  kind : Z;
  stage : Z;
  status : Z;
  internal_code : option InstitutionCode;
  actor_cid_number : option CidNumber;
  execution_account_id : option AccountId;
  subject_cid_numbers : list CidNumber;
  start_block : Z;
  end_block : Z;
}.

Definition set_status (st : Z) (p : Proposal) : Proposal :=
  {| kind := kind p; stage := stage p; status := st;
     internal_code := internal_code p; actor_cid_number := actor_cid_number p;
     execution_account_id := execution_account_id p;
     subject_cid_numbers := subject_cid_numbers p;
     start_block := start_block p; end_block := end_block p |}.

(** [Proposal::subject_keys]. *)
Definition subject_keys (p : Proposal) : list ProposalSubject :=
  match actor_cid_number p with
  | Some cid => [InstitutionCid cid]
  | None =>
      if decide (internal_code p = Some PMUL) then
        match execution_account_id p with
        | Some account => [PersonalAccount account]
        | None => []
        end
      else []
  end.

Record VoteCount : Type := { yes : Z; no : Z }.
Definition vote_count_zero : VoteCount := {| yes := 0; no := 0 |}.

(** The [mutate] closure of every tally: one more vote on the chosen side,
    saturating at the counter's width. *)
Definition add_votes (max weight : Z) (approve : bool) (t : VoteCount) : VoteCount :=
  if approve then {| yes := saturating_add max (yes t) weight; no := no t |}
  else {| yes := yes t; no := saturating_add max (no t) weight |}.

Inductive PendingCleanupStage : Type :=
| AdminSnapshots
| VoterSnapshots
| InstitutionTicketCounts
| TrackData
| ProposalObjectStage
| FinalCleanup.

#[export] Instance PendingCleanupStage_eq_dec : EqDecision PendingCleanupStage.
Proof. solve_decision. Defined.

Record ScheduledCleanup : Type := {
  cleanup_at : Z;
  cleanup_proposal_id : Z;
}.

Record ProposalMetadata : Type := {
  created_at : Z;
  passed_at : option Z;
}.

Record ProposalObjectMetadata : Type := {
  object_kind : Z;
  object_len : Z;
  object_hash : string;
}.

Record ProposalDisplayMeta : Type := {
  year : Z;
  seq_in_year : Z;
}.

Record ProposalPopulationSnapshot : Type := {
  population_data : PopulationData;
  snapshot_created_at : Z;
}.

(** ** Facts *)

Lemma has_duplicate_spec seen rest :
  NoDup seen -> has_duplicate seen rest = false <-> NoDup (seen ++ rest).
Proof.
  revert seen. induction rest as [|s rest IH]; intros seen Hseen; simpl.
  { by rewrite app_nil_r. }
  destruct (decide (s ∈ seen)) as [Hin|Hout].
  - rewrite bool_decide_true by done. simpl. split; [done|].
    intros [_ [Hd _]]%NoDup_app. exfalso. apply (Hd s Hin). set_solver.
  - rewrite bool_decide_false by done. simpl. rewrite IH.
    + by rewrite <- (assoc_L (++)).
    + apply NoDup_app. repeat split; [done| |apply NoDup_singleton].
      intros x Hx ->%list_elem_of_singleton. done.
Qed.

(** The shape every accepted plan has. *)
Record plan_wf (p : VotePlan) : Prop := {
  plan_wf_owner : module_tag (business_action_id p) = plan_owner p;
  plan_wf_nodup : NoDup (voter_subjects p);
  plan_wf_nonempty : voter_subjects p = [] -> voting_engine p = Election;
  plan_wf_bound : Z.of_nat (length (voter_subjects p)) <= MAX_VOTE_PLAN_SUBJECTS;
  plan_wf_subjects :
    match proposer_subject p with
    | Institution _ => Forall (fun s => is_institution s = true) (voter_subjects p)
    | PersonalMultisig a => voter_subjects p = [PersonalMultisig a]
    end;
}.

Lemma existsb_not_institution l :
  existsb (fun s => negb (is_institution s)) l = false <->
  Forall (fun s => is_institution s = true) l.
Proof.
  induction l as [|[]]; simpl; [by split| |].
  - rewrite IHl, Forall_cons. naive_solver.
  - rewrite Forall_cons. naive_solver.
Qed.

Lemma personal_voters_check a l :
  negb (bool_decide (length l = 1%nat) && bool_decide (head l = Some (PersonalMultisig a)))
  = false <-> l = [PersonalMultisig a].
Proof.
  rewrite negb_false_iff, andb_true_iff, !bool_decide_eq_true. split.
  - intros [Hl Hh]. destruct l as [|x [|]]; naive_solver.
  - by intros ->.
Qed.
