(* ===== verification/TrackTypes.v ===== *)
(** * Data of the election and legislation votes

    [election-vote/src/types.rs], [legislation-vote/src/types.rs] and the
    metadata records of [legislation-vote/src/lib.rs]. *)
From S2P Require Import Prelude Cid Types.

(** ** Elections *)

Definition STAGE_ELECTION_POPULAR : Z := 20.
Definition STAGE_ELECTION_MUTUAL : Z := 21.

Inductive ElectionMode : Type := Popular | Mutual.

#[export] Instance ElectionMode_eq_dec : EqDecision ElectionMode.
Proof. solve_decision. Defined.

(** [ElectionMode::stage]. *)
Definition mode_stage (m : ElectionMode) : Z :=
  match m with Popular => STAGE_ELECTION_POPULAR | Mutual => STAGE_ELECTION_MUTUAL end.

Record ElectionMeta : Type := {
  election_mode : ElectionMode;
  election_scope : option PopulationScope;
  election_actor : CidNumber;
  election_role : RoleCode;
  seat_count : Z;
  term_start : Z;
  term_end : Z;
}.

Record PopularElectionVote : Type := {
  ballot_voter : CitizenSubject;
  ballot_candidate : CitizenSubject;
}.

Inductive ElectionVoter : Type :=
| VoterCitizen (subject : CitizenSubject)
| VoterInstitution (ticket : InstitutionVoteTicket).

Record ElectionTally : Type := { casted : Z }.
Definition election_tally_default : ElectionTally := {| casted := 0 |}.

Record ElectionWinner : Type := {
  winner_subject : CitizenSubject;
  winner_votes : Z;
  seat_index : Z;
}.

(** ** Votes of the legislature *)

Definition STAGE_LEG_REPRESENTATIVE : Z := 10.
Definition STAGE_LEG_REFERENDUM : Z := 11.
Definition STAGE_LEG_SIGN : Z := 12.
Definition STAGE_LEG_OVERRIDE : Z := 13.
Definition STAGE_LEG_CONSTITUTION_GUARD : Z := 14.

Definition RepresentativeBody : Type := RoleSubject.

Inductive RepresentativeRoute : Type :=
| Single (body : RepresentativeBody)
| Sequential (bodies : list RepresentativeBody).

Inductive RepresentativeVoteRule : Type := RegularRule | MajorRule | SpecialRule.

Inductive VoteProcedure : Type := RepresentativeOnly | LegislationProcedure.

#[export] Instance RepresentativeVoteRule_eq_dec : EqDecision RepresentativeVoteRule.
Proof. solve_decision. Defined.
#[export] Instance VoteProcedure_eq_dec : EqDecision VoteProcedure.
Proof. solve_decision. Defined.

(** [RepresentativeRoute::bodies], [len], [is_empty] and [body]. *)
Definition route_bodies (r : RepresentativeRoute) : list RepresentativeBody :=
  match r with Single b => [b] | Sequential bs => bs end.

Definition route_len (r : RepresentativeRoute) : nat :=
  match r with Single _ => 1%nat | Sequential bs => length bs end.

Definition route_body (r : RepresentativeRoute) (index : Z) : option RepresentativeBody :=
  match r with
  | Single b => if decide (index = 0) then Some b else None
  | Sequential bs => bs !! Z.to_nat index
  end.

Record LegislationProcedureConfig : Type := {
  cfg_executive : option RepresentativeBody;
  cfg_override_signers : list RepresentativeBody;
  cfg_needs_guard : bool;
  cfg_guard : option RepresentativeBody;
}.

Record RepresentativeMeta : Type := {
  meta_route : RepresentativeRoute;
  current_body : Z;
  meta_rule : RepresentativeVoteRule;
  meta_procedure : VoteProcedure;
}.

Record LegislationMeta : Type := {
  meta_executive : option RepresentativeBody;
  override_signers : list RepresentativeBody;
  needs_guard : bool;
  meta_guard : option RepresentativeBody;
}.
