(* ===== verification/BusinessTypes.v ===== *)
(** * Types of the business modules

    Data, events and errors of the modules that act when a joint vote ends:
    [issuance/resolution-issuance/src] and [governance/runtime-upgrade/src].
    They stand before the storage because the events and errors of the
    runtime mention them. *)
From S2P Require Import Prelude Cid Types.

(** ** Resolution issuance *)

Record RecipientAmount : Type := { recipient_account_id : AccountId; amount : Z }.

Record IssuanceProposalData : Type := {
  issuance_actor : CidNumber;
  issuance_role_code : RoleCode;
  issuance_proposer : AccountId;
  reason : string;
  total_amount : Z;
  allocations : list RecipientAmount;
}.

Inductive IssuanceEvent : Type :=
| ResolutionIssuanceProposed (proposal_id : Z) (actor_cid_number : CidNumber)
    (proposer_role_code : RoleCode) (proposer_account_id : AccountId)
    (total_amount allocation_count : Z)
| IssuanceVoteFinalized (proposal_id : Z) (approved : bool)
| IssuanceExecutionTriggered (proposal_id total_amount : Z)
| IssuanceExecutionFailed (proposal_id : Z)
| ResolutionIssuanceExecuted (proposal_id total_amount recipient_count : Z)
    (reason_hash allocations_hash : string).

Inductive IssuanceError : Type :=
| EmptyReason | EmptyAllocations | InvalidAllocationCount | DuplicateRecipient
| InvalidRecipientSet | ZeroAmount | AllocationOverflow | TotalMismatch
| IssuanceProposalNotFound | JointVoteCreateFailed | RecipientsNotConfigured
| DuplicateAllowedRecipient | VotingProposalCountOverflow | VotingProposalCountUnderflow
| ProposalDataStoreFailed | RecipientNotInChinaCb | AlreadyExecuted | TotalIssuedOverflow
| ReasonTooLong | BelowExistentialDeposit | DepositFailed | ExceedsTotalIssuanceCap
| ExceedsSingleIssuanceCap | ProposalNotFinalizable | InvalidActorCid | UnauthorizedActorRole.

(** ** Runtime upgrade *)

Inductive UpgradeExecutionPath : Type := JointVotePath | DeveloperDirect.

Record RuntimeUpgradeAudit : Type := {
  audit_proposal_id : option Z;
  execution_path : UpgradeExecutionPath;
  audit_code_hash : string;
  old_pow_params_hash : string;
  new_pow_params_hash : string;
  executed_at : Z;
  audit_activate_at : Z;
  developer : option AccountId;
}.

Inductive UpgradeEvent : Type :=
| RuntimeUpgradeProposed (proposal_id : Z) (actor_cid_number : CidNumber)
    (actor_role_code : RoleCode) (proposer_account_id : AccountId)
    (code_hash pow_params_hash : string)
| UpgradeVoteFinalized (proposal_id : Z) (approved : bool)
| RuntimeUpgradeExecuted (proposal_id : Z) (code_hash : string)
| RuntimeUpgradeExecutionFailed (proposal_id : Z) (code_hash : string)
| DeveloperDirectUpgradeExecuted (who : AccountId) (code_hash : string).

Inductive UpgradeError : Type :=
| UpgradeEmptyReason | EmptyRuntimeCode | UpgradeInvalidActorCid | UnauthorizedActorAdmin
| UpgradeUnauthorizedActorRole | UpgradeProposalNotFound | ProposalNotVoting
| UpgradeJointVoteCreateFailed | RuntimeCodeMissing | DeveloperUpgradeDisabled.

Inductive BusinessEvent : Type :=
| IssuanceEv (e : IssuanceEvent)
| UpgradeEv (e : UpgradeEvent).

Inductive BusinessError : Type :=
| IssuanceErr (e : IssuanceError)
| UpgradeErr (e : UpgradeError).

#[export] Instance IssuanceError_eq_dec : EqDecision IssuanceError.
Proof. solve_decision. Defined.
#[export] Instance UpgradeError_eq_dec : EqDecision UpgradeError.
Proof. solve_decision. Defined.
#[export] Instance BusinessError_eq_dec : EqDecision BusinessError.
Proof. solve_decision. Defined.
