(* ===== verification/State.v ===== *)
(** * The runtime storage

    Every storage item of the voting engine ([votingengine/src/lib.rs]), of
    internal-vote, joint-vote, legislation-vote and election-vote, as the field of a record with the item's
    name; a [StorageDoubleMap] is keyed by the pair of its keys, and a map to
    [()] is a set. [rt] adds the block context, the deposited events and the
    storage [W] of every other pallet. [set_<item>] updates one item. *)
From S2P Require Import Prelude Cid Types TrackTypes BusinessTypes.

(** ** Data of internal-vote *)

Inductive InternalProposalRole : Type :=
| General | PersonalCreate | PersonalClose | PersonalAdminChange | InstitutionAdminChange.

#[export] Instance InternalProposalRole_eq_dec : EqDecision InternalProposalRole.
Proof. solve_decision. Defined.

Inductive InternalVoteTicketClaim : Type :=
| ClaimPersonal
| ClaimInstitutionRole (role : RoleCode).

Inductive InternalVoteTicket : Type :=
| TicketPersonal (account : AccountId)
| TicketInstitution (ticket : InstitutionVoteTicket).

#[export] Instance InternalVoteTicket_eq_dec : EqDecision InternalVoteTicket.
Proof. solve_decision. Defined.
#[export] Program Instance InternalVoteTicket_countable : Countable InternalVoteTicket :=
  inj_countable'
    (fun t => match t with TicketPersonal a => inl a | TicketInstitution i => inr i end)
    (fun p => match p with inl a => TicketPersonal a | inr i => TicketInstitution i end) _.
Next Obligation. by intros []. Qed.

Record PendingPersonalAdminChangeThreshold : Type := {
  personal_account_id : AccountId;
  new_admins_len : Z;
  new_threshold : Z;
}.

(** ** Events *)

Inductive Event : Type :=
| ProposalCreated (proposal_id kind stage end_ : Z)
| ProposalAdvancedToReferendum (proposal_id referendum_end eligible_total : Z)
| ProposalFinalized (proposal_id status : Z)
| ProposalExecutionRetryScheduled (proposal_id retry_deadline : Z)
| ProposalExecutionRetried (proposal_id manual_attempts outcome : Z)
| ProposalExecutionRetryExpired (proposal_id : Z)
| ProposalExecutionRetryExpirationQueued (proposal_id retry_deadline : Z)
| ProposalTerminalCleanupQueued (proposal_id : Z)
| ProposalTerminalCleanupCompleted (proposal_id : Z)
| ProposalExecutionCancelled (proposal_id : Z)
| ProposalExecutionQueued (proposal_id : Z)
| ProposalExecutionDeferred (proposal_id attempts next_attempt_at : Z)
| ProposalExecutionDeadLettered (proposal_id attempts : Z)
| ProposalTerminalFinalizationDeferred (proposal_id attempts next_attempt_at : Z)
| ProposalTerminalFinalizationDeadLettered (proposal_id attempts : Z)
| ProposalAutoFinalizeDeferred (proposal_id attempts next_attempt_at : Z)
| ProposalAutoFinalizeDeadLettered (proposal_id attempts : Z)
| InternalVoteCast (proposal_id : Z) (who : AccountId)
    (voter_role_code : option RoleCode) (approve : bool)
| JointInstitutionTicketVoteCast (proposal_id : Z) (cid_number : CidNumber)
    (who : AccountId) (voter_role_code : RoleCode) (approve : bool)
| JointInstitutionVoteFinalized (proposal_id : Z) (cid_number : CidNumber) (approved : bool)
| ReferendumVoteCast (proposal_id : Z) (voter : CitizenSubject) (approve : bool)
| RepresentativeProposalCreated (proposal_id : Z) (rule : RepresentativeVoteRule)
    (bodies : Z) (procedure : VoteProcedure)
| RepresentativeVoteCast (proposal_id body_index : Z) (who : AccountId)
    (voter_role_code : RoleCode) (approve : bool)
| RepresentativeBodyAdvanced (proposal_id next_body : Z)
| LegislationAdvancedToReferendum (proposal_id eligible_total : Z)
| LegislationReferendumVoteCast (proposal_id : Z) (voter : CitizenSubject) (approve : bool)
| LegislationAdvancedToSign (proposal_id : Z)
| LegislationExecutiveSigned (proposal_id : Z) (who : AccountId) (approve : bool)
| LegislationAdvancedToOverride (proposal_id : Z)
| LegislationOverrideSigned (proposal_id : Z) (who : AccountId) (approve : bool)
| LegislationAdvancedToGuard (proposal_id : Z)
| LegislationGuardVoted (proposal_id : Z) (who : AccountId) (approve : bool)
| ElectionCreated (proposal_id : Z) (mode : ElectionMode) (actor_cid_number : CidNumber)
    (role_code : RoleCode) (seat_count : Z)
| ElectionVoteCast (proposal_id : Z) (voter : ElectionVoter) (candidate_subject : CitizenSubject)
| ElectionResultReady (proposal_id : Z)
| ElectionRejectedByTieOrNoVotes (proposal_id : Z)
| Business (e : BusinessEvent).

(** ** Errors *)

Inductive VotingError : Type :=
| ProposalNotFound | InvalidProposalKind | InvalidProposalStage | InvalidProposalStatus
| MissingAdminSnapshot | MissingVoterSnapshot | VotePlanAlreadyBound | InvalidVotePlan
| InvalidInstitution | NoPermission | VoteClosed | VoteNotExpired | AlreadyVoted
| ProposalAlreadyFinalized | ProposalIdOverflow | YearCounterOverflow
| TooManyProposalsAtExpiry | ActiveProposalLimitReached | AdminSetMutationProposalActive
| RegularInternalProposalActive | InternalProposalMutexOverflow
| TooManyInternalProposalMutexBindings | InternalProposalMutexOwnerMismatch
| ProposalOwnerMissing | ProposalOwnerMismatch | ProposalDataAlreadyRegistered
| ProposalNotRetryable | ManualExecutionAttemptsExceeded | ExecutionRetryDeadlinePassed
| TooManyExecutionRetryDeadlines | ProposalCancellationNotAllowed
| CleanupQueueSequenceExhausted | PopulationDataNotReady.

Inductive InternalVoteError : Type :=
| InvalidInternalCode | MissingThresholdSnapshot | InvalidThresholdSnapshot
| InvalidDynamicThreshold | MissingDynamicThreshold.

Inductive JointVoteError : Type :=
| CitizenEligibleTotalNotSet | CitizenNotEligible | ReferendumSnapshotExhausted.

Inductive LegislationVoteError : Type :=
| InvalidRepresentativeRoute | InvalidRepresentativeRule | ProposalMetaMissing
| LegCitizenEligibleTotalNotSet | LegCitizenNotEligible | LegReferendumSnapshotExhausted
| NotInExpectedStage | NotLegalRepresentative | NotOverrideSigner | AlreadySigned
| NotConstitutionGuard | InvalidGuardMembersLen | LegInvalidInstitutionCid.

Inductive ElectionVoteError : Type :=
| EmptyRoleCode | EmptyCandidateSnapshot | EmptyVoterSnapshot | TooManyCandidates
| DuplicateCandidateCid | InvalidSeatCount | InvalidTerm | ElectionMetaMissing
| NotOrganizerAdmin | VoterNotInSnapshot | CandidateNotInSnapshot | VoterNotEligible
| CandidateSubjectInvalid | ElectionScopeMissing | ElectionInvalidVotePlan
| InvalidInstitutionCid.

(** [DispatchError]: a bad origin, a module error of one of the pallets, or
    [Other]. *)
Inductive DispatchError : Type :=
| BadOrigin
| VotingErr (e : VotingError)
| InternalErr (e : InternalVoteError)
| JointErr (e : JointVoteError)
| LegErr (e : LegislationVoteError)
| ElectionErr (e : ElectionVoteError)
| BusinessErr (e : BusinessError)
| Other (msg : string).

#[export] Instance VotingError_eq_dec : EqDecision VotingError.
Proof. solve_decision. Defined.
#[export] Instance InternalVoteError_eq_dec : EqDecision InternalVoteError.
Proof. solve_decision. Defined.
#[export] Instance JointVoteError_eq_dec : EqDecision JointVoteError.
Proof. solve_decision. Defined.
#[export] Instance LegislationVoteError_eq_dec : EqDecision LegislationVoteError.
Proof. solve_decision. Defined.
#[export] Instance ElectionVoteError_eq_dec : EqDecision ElectionVoteError.
Proof. solve_decision. Defined.
#[export] Instance DispatchError_eq_dec : EqDecision DispatchError.
Proof. solve_decision. Defined.

(** ** Storage records *)

(** Storage of the voting engine. *)
Record engine : Type := {
  CurrentProposalYear : Z;
  YearProposalCounter : Z;
  NextProposalId : Z;
  Proposals : gmap Z Proposal;
  CallbackExecutionScopes : gset Z;
  ProposalsByExpiry : gmap Z (list Z);
  PendingExpiryBucket : option Z;
  PendingProposalCleanups : gmap Z PendingCleanupStage;
  AdminSnapshot : gmap (Z * ProposalSubject) (list AccountId);
  ProposalVotePlans : gmap Z VotePlan;
  VoterSnapshot : gmap (Z * AuthorizationSubject) (list AccountId);
  InstitutionTicketCountSnapshot : gmap (Z * CidNumber) Z;
  ProposalData : gmap Z string;
  ProposalOwner : gmap Z string;
  ProposalPopulationSnapshots : gmap Z ProposalPopulationSnapshot;
  ProposalExecutionRetryStates : gmap Z ExecutionRetryState;
  PendingProposalExecutions : gmap Z PendingExecutionState;
  PendingTerminalFinalizations : gmap Z PendingExecutionState;
  TerminalFinalizationDeadLetters : gmap Z Z;
  AutoFinalizeRetryStates : gmap Z PendingExecutionState;
  AutoFinalizeDeadLetters : gmap Z Z;
  PendingExecutionRetryExpirations : gmap Z Z;
  PendingTerminalCleanups : gset Z;
  ExecutionRetryDeadlines : gmap Z (list Z);
  ProposalObjectMeta : gmap Z ProposalObjectMetadata;
  ProposalObject : gmap Z string;
  ProposalMeta : gmap Z ProposalMetadata;
  ScheduledCleanups : gmap Z ScheduledCleanup;
  ScheduledCleanupHead : Z;
  ScheduledCleanupTail : Z;
  PendingCleanupQueue : gmap Z Z;
  PendingCleanupQueueHead : Z;
  PendingCleanupQueueTail : Z;
  ActiveProposalsBySubject : gmap ProposalSubject (list Z);
  InternalProposalMutexes : gmap ProposalSubject InternalProposalMutexState;
  ProposalMutexBindings : gmap Z (list InternalProposalMutexBinding);
  ProposalDisplayId : gmap Z ProposalDisplayMeta;
  ProposalsByCode : gset (InstitutionCode * Z);
  ProposalsByCid : gset (CidNumber * Z);
  ProposalsByOwner : gset (string * Z);
  ProposalsByYear : gset (Z * Z);
}.

Definition engine_eta (r : engine) : engine :=
  Build_engine (r.(CurrentProposalYear)) (r.(YearProposalCounter)) (r.(NextProposalId)) (r.(Proposals)) (r.(CallbackExecutionScopes)) (r.(ProposalsByExpiry)) (r.(PendingExpiryBucket)) (r.(PendingProposalCleanups)) (r.(AdminSnapshot)) (r.(ProposalVotePlans)) (r.(VoterSnapshot)) (r.(InstitutionTicketCountSnapshot)) (r.(ProposalData)) (r.(ProposalOwner)) (r.(ProposalPopulationSnapshots)) (r.(ProposalExecutionRetryStates)) (r.(PendingProposalExecutions)) (r.(PendingTerminalFinalizations)) (r.(TerminalFinalizationDeadLetters)) (r.(AutoFinalizeRetryStates)) (r.(AutoFinalizeDeadLetters)) (r.(PendingExecutionRetryExpirations)) (r.(PendingTerminalCleanups)) (r.(ExecutionRetryDeadlines)) (r.(ProposalObjectMeta)) (r.(ProposalObject)) (r.(ProposalMeta)) (r.(ScheduledCleanups)) (r.(ScheduledCleanupHead)) (r.(ScheduledCleanupTail)) (r.(PendingCleanupQueue)) (r.(PendingCleanupQueueHead)) (r.(PendingCleanupQueueTail)) (r.(ActiveProposalsBySubject)) (r.(InternalProposalMutexes)) (r.(ProposalMutexBindings)) (r.(ProposalDisplayId)) (r.(ProposalsByCode)) (r.(ProposalsByCid)) (r.(ProposalsByOwner)) (r.(ProposalsByYear)).

Definition set_CurrentProposalYear (g : Z -> Z) (r : engine) : engine :=
  ltac:(field_setter engine_eta CurrentProposalYear g r).
Definition set_YearProposalCounter (g : Z -> Z) (r : engine) : engine :=
  ltac:(field_setter engine_eta YearProposalCounter g r).
Definition set_NextProposalId (g : Z -> Z) (r : engine) : engine :=
  ltac:(field_setter engine_eta NextProposalId g r).
Definition set_Proposals (g : gmap Z Proposal -> gmap Z Proposal) (r : engine) : engine :=
  ltac:(field_setter engine_eta Proposals g r).
Definition set_CallbackExecutionScopes (g : gset Z -> gset Z) (r : engine) : engine :=
  ltac:(field_setter engine_eta CallbackExecutionScopes g r).
Definition set_ProposalsByExpiry (g : gmap Z (list Z) -> gmap Z (list Z)) (r : engine) : engine :=
  ltac:(field_setter engine_eta ProposalsByExpiry g r).
Definition set_PendingExpiryBucket (g : option Z -> option Z) (r : engine) : engine :=
  ltac:(field_setter engine_eta PendingExpiryBucket g r).
Definition set_PendingProposalCleanups (g : gmap Z PendingCleanupStage -> gmap Z PendingCleanupStage) (r : engine) : engine :=
  ltac:(field_setter engine_eta PendingProposalCleanups g r).
Definition set_AdminSnapshot (g : gmap (Z * ProposalSubject) (list AccountId) -> gmap (Z * ProposalSubject) (list AccountId)) (r : engine) : engine :=
  ltac:(field_setter engine_eta AdminSnapshot g r).
Definition set_ProposalVotePlans (g : gmap Z VotePlan -> gmap Z VotePlan) (r : engine) : engine :=
  ltac:(field_setter engine_eta ProposalVotePlans g r).
Definition set_VoterSnapshot (g : gmap (Z * AuthorizationSubject) (list AccountId) -> gmap (Z * AuthorizationSubject) (list AccountId)) (r : engine) : engine :=
  ltac:(field_setter engine_eta VoterSnapshot g r).
Definition set_InstitutionTicketCountSnapshot (g : gmap (Z * CidNumber) Z -> gmap (Z * CidNumber) Z) (r : engine) : engine :=
  ltac:(field_setter engine_eta InstitutionTicketCountSnapshot g r).
Definition set_ProposalData (g : gmap Z string -> gmap Z string) (r : engine) : engine :=
  ltac:(field_setter engine_eta ProposalData g r).
Definition set_ProposalOwner (g : gmap Z string -> gmap Z string) (r : engine) : engine :=
  ltac:(field_setter engine_eta ProposalOwner g r).
Definition set_ProposalPopulationSnapshots (g : gmap Z ProposalPopulationSnapshot -> gmap Z ProposalPopulationSnapshot) (r : engine) : engine :=
  ltac:(field_setter engine_eta ProposalPopulationSnapshots g r).
Definition set_ProposalExecutionRetryStates (g : gmap Z ExecutionRetryState -> gmap Z ExecutionRetryState) (r : engine) : engine :=
  ltac:(field_setter engine_eta ProposalExecutionRetryStates g r).
Definition set_PendingProposalExecutions (g : gmap Z PendingExecutionState -> gmap Z PendingExecutionState) (r : engine) : engine :=
  ltac:(field_setter engine_eta PendingProposalExecutions g r).
Definition set_PendingTerminalFinalizations (g : gmap Z PendingExecutionState -> gmap Z PendingExecutionState) (r : engine) : engine :=
  ltac:(field_setter engine_eta PendingTerminalFinalizations g r).
Definition set_TerminalFinalizationDeadLetters (g : gmap Z Z -> gmap Z Z) (r : engine) : engine :=
  ltac:(field_setter engine_eta TerminalFinalizationDeadLetters g r).
Definition set_AutoFinalizeRetryStates (g : gmap Z PendingExecutionState -> gmap Z PendingExecutionState) (r : engine) : engine :=
  ltac:(field_setter engine_eta AutoFinalizeRetryStates g r).
Definition set_AutoFinalizeDeadLetters (g : gmap Z Z -> gmap Z Z) (r : engine) : engine :=
  ltac:(field_setter engine_eta AutoFinalizeDeadLetters g r).
Definition set_PendingExecutionRetryExpirations (g : gmap Z Z -> gmap Z Z) (r : engine) : engine :=
  ltac:(field_setter engine_eta PendingExecutionRetryExpirations g r).
Definition set_PendingTerminalCleanups (g : gset Z -> gset Z) (r : engine) : engine :=
  ltac:(field_setter engine_eta PendingTerminalCleanups g r).
Definition set_ExecutionRetryDeadlines (g : gmap Z (list Z) -> gmap Z (list Z)) (r : engine) : engine :=
  ltac:(field_setter engine_eta ExecutionRetryDeadlines g r).
Definition set_ProposalObjectMeta (g : gmap Z ProposalObjectMetadata -> gmap Z ProposalObjectMetadata) (r : engine) : engine :=
  ltac:(field_setter engine_eta ProposalObjectMeta g r).
Definition set_ProposalObject (g : gmap Z string -> gmap Z string) (r : engine) : engine :=
  ltac:(field_setter engine_eta ProposalObject g r).
Definition set_ProposalMeta (g : gmap Z ProposalMetadata -> gmap Z ProposalMetadata) (r : engine) : engine :=
  ltac:(field_setter engine_eta ProposalMeta g r).
Definition set_ScheduledCleanups (g : gmap Z ScheduledCleanup -> gmap Z ScheduledCleanup) (r : engine) : engine :=
  ltac:(field_setter engine_eta ScheduledCleanups g r).
Definition set_ScheduledCleanupHead (g : Z -> Z) (r : engine) : engine :=
  ltac:(field_setter engine_eta ScheduledCleanupHead g r).
Definition set_ScheduledCleanupTail (g : Z -> Z) (r : engine) : engine :=
  ltac:(field_setter engine_eta ScheduledCleanupTail g r).
Definition set_PendingCleanupQueue (g : gmap Z Z -> gmap Z Z) (r : engine) : engine :=
  ltac:(field_setter engine_eta PendingCleanupQueue g r).
Definition set_PendingCleanupQueueHead (g : Z -> Z) (r : engine) : engine :=
  ltac:(field_setter engine_eta PendingCleanupQueueHead g r).
Definition set_PendingCleanupQueueTail (g : Z -> Z) (r : engine) : engine :=
  ltac:(field_setter engine_eta PendingCleanupQueueTail g r).
Definition set_ActiveProposalsBySubject (g : gmap ProposalSubject (list Z) -> gmap ProposalSubject (list Z)) (r : engine) : engine :=
  ltac:(field_setter engine_eta ActiveProposalsBySubject g r).
Definition set_InternalProposalMutexes (g : gmap ProposalSubject InternalProposalMutexState -> gmap ProposalSubject InternalProposalMutexState) (r : engine) : engine :=
  ltac:(field_setter engine_eta InternalProposalMutexes g r).
Definition set_ProposalMutexBindings (g : gmap Z (list InternalProposalMutexBinding) -> gmap Z (list InternalProposalMutexBinding)) (r : engine) : engine :=
  ltac:(field_setter engine_eta ProposalMutexBindings g r).
Definition set_ProposalDisplayId (g : gmap Z ProposalDisplayMeta -> gmap Z ProposalDisplayMeta) (r : engine) : engine :=
  ltac:(field_setter engine_eta ProposalDisplayId g r).
Definition set_ProposalsByCode (g : gset (InstitutionCode * Z) -> gset (InstitutionCode * Z)) (r : engine) : engine :=
  ltac:(field_setter engine_eta ProposalsByCode g r).
Definition set_ProposalsByCid (g : gset (CidNumber * Z) -> gset (CidNumber * Z)) (r : engine) : engine :=
  ltac:(field_setter engine_eta ProposalsByCid g r).
Definition set_ProposalsByOwner (g : gset (string * Z) -> gset (string * Z)) (r : engine) : engine :=
  ltac:(field_setter engine_eta ProposalsByOwner g r).
Definition set_ProposalsByYear (g : gset (Z * Z) -> gset (Z * Z)) (r : engine) : engine :=
  ltac:(field_setter engine_eta ProposalsByYear g r).

Definition engine_empty : engine :=
  Build_engine 0 0 0 ∅ ∅ ∅ None ∅ ∅ ∅ ∅ ∅ ∅ ∅ ∅ ∅ ∅ ∅ ∅ ∅ ∅ ∅ ∅ ∅ ∅ ∅ ∅ ∅ 0 0 ∅ 0 0 ∅ ∅ ∅ ∅ ∅ ∅ ∅ ∅.

(** Storage of internal-vote. *)
Record internal_store : Type := {
  InternalVotesByTicket : gmap (Z * InternalVoteTicket) bool;
  InternalTallies : gmap Z VoteCount;
  InternalThresholdSnapshot : gmap Z Z;
  PendingPersonalThresholds : gmap Z Z;
  ActivePersonalThresholds : gmap AccountId Z;
  PendingPersonalAdminChangeThresholds : gmap Z PendingPersonalAdminChangeThreshold;
  InternalProposalRoles : gmap Z InternalProposalRole;
}.

Definition internal_store_eta (r : internal_store) : internal_store :=
  Build_internal_store (r.(InternalVotesByTicket)) (r.(InternalTallies)) (r.(InternalThresholdSnapshot)) (r.(PendingPersonalThresholds)) (r.(ActivePersonalThresholds)) (r.(PendingPersonalAdminChangeThresholds)) (r.(InternalProposalRoles)).

Definition set_InternalVotesByTicket (g : gmap (Z * InternalVoteTicket) bool -> gmap (Z * InternalVoteTicket) bool) (r : internal_store) : internal_store :=
  ltac:(field_setter internal_store_eta InternalVotesByTicket g r).
Definition set_InternalTallies (g : gmap Z VoteCount -> gmap Z VoteCount) (r : internal_store) : internal_store :=
  ltac:(field_setter internal_store_eta InternalTallies g r).
Definition set_InternalThresholdSnapshot (g : gmap Z Z -> gmap Z Z) (r : internal_store) : internal_store :=
  ltac:(field_setter internal_store_eta InternalThresholdSnapshot g r).
Definition set_PendingPersonalThresholds (g : gmap Z Z -> gmap Z Z) (r : internal_store) : internal_store :=
  ltac:(field_setter internal_store_eta PendingPersonalThresholds g r).
Definition set_ActivePersonalThresholds (g : gmap AccountId Z -> gmap AccountId Z) (r : internal_store) : internal_store :=
  ltac:(field_setter internal_store_eta ActivePersonalThresholds g r).
Definition set_PendingPersonalAdminChangeThresholds (g : gmap Z PendingPersonalAdminChangeThreshold -> gmap Z PendingPersonalAdminChangeThreshold) (r : internal_store) : internal_store :=
  ltac:(field_setter internal_store_eta PendingPersonalAdminChangeThresholds g r).
Definition set_InternalProposalRoles (g : gmap Z InternalProposalRole -> gmap Z InternalProposalRole) (r : internal_store) : internal_store :=
  ltac:(field_setter internal_store_eta InternalProposalRoles g r).

Definition internal_store_empty : internal_store :=
  Build_internal_store ∅ ∅ ∅ ∅ ∅ ∅ ∅.

(** Storage of joint-vote. *)
Record joint_store : Type := {
  JointVotesByTicket : gmap (Z * InstitutionVoteTicket) bool;
  JointInstitutionTallies : gmap (Z * CidNumber) VoteCount;
  JointVotesByInstitution : gmap (Z * CidNumber) bool;
  JointTallies : gmap Z VoteCount;
  ReferendumVotesByCid : gmap (Z * CidNumber) CitizenReferendumTicket;
  ReferendumTallies : gmap Z VoteCount;
}.

Definition joint_store_eta (r : joint_store) : joint_store :=
  Build_joint_store (r.(JointVotesByTicket)) (r.(JointInstitutionTallies)) (r.(JointVotesByInstitution)) (r.(JointTallies)) (r.(ReferendumVotesByCid)) (r.(ReferendumTallies)).

Definition set_JointVotesByTicket (g : gmap (Z * InstitutionVoteTicket) bool -> gmap (Z * InstitutionVoteTicket) bool) (r : joint_store) : joint_store :=
  ltac:(field_setter joint_store_eta JointVotesByTicket g r).
Definition set_JointInstitutionTallies (g : gmap (Z * CidNumber) VoteCount -> gmap (Z * CidNumber) VoteCount) (r : joint_store) : joint_store :=
  ltac:(field_setter joint_store_eta JointInstitutionTallies g r).
Definition set_JointVotesByInstitution (g : gmap (Z * CidNumber) bool -> gmap (Z * CidNumber) bool) (r : joint_store) : joint_store :=
  ltac:(field_setter joint_store_eta JointVotesByInstitution g r).
Definition set_JointTallies (g : gmap Z VoteCount -> gmap Z VoteCount) (r : joint_store) : joint_store :=
  ltac:(field_setter joint_store_eta JointTallies g r).
Definition set_ReferendumVotesByCid (g : gmap (Z * CidNumber) CitizenReferendumTicket -> gmap (Z * CidNumber) CitizenReferendumTicket) (r : joint_store) : joint_store :=
  ltac:(field_setter joint_store_eta ReferendumVotesByCid g r).
Definition set_ReferendumTallies (g : gmap Z VoteCount -> gmap Z VoteCount) (r : joint_store) : joint_store :=
  ltac:(field_setter joint_store_eta ReferendumTallies g r).

Definition joint_store_empty : joint_store :=
  Build_joint_store ∅ ∅ ∅ ∅ ∅ ∅.

(** Storage of legislation-vote. *)
Record legislation_store : Type := {
  RepresentativeMetas : gmap Z RepresentativeMeta;
  LegislationMetas : gmap Z LegislationMeta;
  RepresentativeTallies : gmap (Z * Z) VoteCount;
  RepresentativeVotesByTicket : gmap (Z * (Z * InstitutionVoteTicket)) bool;
  LegReferendumTally : gmap Z VoteCount;
  LegReferendumVotesByCid : gmap (Z * CidNumber) CitizenReferendumTicket;
  LegOverrideSigns : gmap Z (list (AccountId * bool));
  LegGuardSigns : gmap Z (list (AccountId * bool));
}.

Definition legislation_store_eta (r : legislation_store) : legislation_store :=
  Build_legislation_store (r.(RepresentativeMetas)) (r.(LegislationMetas)) (r.(RepresentativeTallies)) (r.(RepresentativeVotesByTicket)) (r.(LegReferendumTally)) (r.(LegReferendumVotesByCid)) (r.(LegOverrideSigns)) (r.(LegGuardSigns)).

Definition set_RepresentativeMetas (g : gmap Z RepresentativeMeta -> gmap Z RepresentativeMeta) (r : legislation_store) :
    legislation_store := ltac:(field_setter legislation_store_eta RepresentativeMetas g r).
Definition set_LegislationMetas (g : gmap Z LegislationMeta -> gmap Z LegislationMeta) (r : legislation_store) :
    legislation_store := ltac:(field_setter legislation_store_eta LegislationMetas g r).
Definition set_RepresentativeTallies (g : gmap (Z * Z) VoteCount -> gmap (Z * Z) VoteCount) (r : legislation_store) :
    legislation_store := ltac:(field_setter legislation_store_eta RepresentativeTallies g r).
Definition set_RepresentativeVotesByTicket (g : gmap (Z * (Z * InstitutionVoteTicket)) bool -> gmap (Z * (Z * InstitutionVoteTicket)) bool) (r : legislation_store) :
    legislation_store := ltac:(field_setter legislation_store_eta RepresentativeVotesByTicket g r).
Definition set_LegReferendumTally (g : gmap Z VoteCount -> gmap Z VoteCount) (r : legislation_store) :
    legislation_store := ltac:(field_setter legislation_store_eta LegReferendumTally g r).
Definition set_LegReferendumVotesByCid (g : gmap (Z * CidNumber) CitizenReferendumTicket -> gmap (Z * CidNumber) CitizenReferendumTicket) (r : legislation_store) :
    legislation_store := ltac:(field_setter legislation_store_eta LegReferendumVotesByCid g r).
Definition set_LegOverrideSigns (g : gmap Z (list (AccountId * bool)) -> gmap Z (list (AccountId * bool))) (r : legislation_store) :
    legislation_store := ltac:(field_setter legislation_store_eta LegOverrideSigns g r).
Definition set_LegGuardSigns (g : gmap Z (list (AccountId * bool)) -> gmap Z (list (AccountId * bool))) (r : legislation_store) :
    legislation_store := ltac:(field_setter legislation_store_eta LegGuardSigns g r).

Definition legislation_store_empty : legislation_store :=
  Build_legislation_store ∅ ∅ ∅ ∅ ∅ ∅ ∅ ∅.

(** Storage of election-vote. *)
Record election_store : Type := {
  ElectionMetaStore : gmap Z ElectionMeta;
  ElectionCandidates : gmap Z (list CitizenSubject);
  PopularElectionVotesByCid : gmap (Z * CidNumber) PopularElectionVote;
  MutualElectionVotesByTicket : gmap (Z * InstitutionVoteTicket) CitizenSubject;
  ElectionCandidateTallies : gmap (Z * CidNumber) Z;
  ElectionTallyStore : gmap Z ElectionTally;
  ElectionResults : gmap Z (list ElectionWinner);
}.

Definition election_store_eta (r : election_store) : election_store :=
  Build_election_store (r.(ElectionMetaStore)) (r.(ElectionCandidates)) (r.(PopularElectionVotesByCid)) (r.(MutualElectionVotesByTicket)) (r.(ElectionCandidateTallies)) (r.(ElectionTallyStore)) (r.(ElectionResults)).

Definition set_ElectionMetaStore (g : gmap Z ElectionMeta -> gmap Z ElectionMeta) (r : election_store) :
    election_store := ltac:(field_setter election_store_eta ElectionMetaStore g r).
Definition set_ElectionCandidates (g : gmap Z (list CitizenSubject) -> gmap Z (list CitizenSubject)) (r : election_store) :
    election_store := ltac:(field_setter election_store_eta ElectionCandidates g r).
Definition set_PopularElectionVotesByCid (g : gmap (Z * CidNumber) PopularElectionVote -> gmap (Z * CidNumber) PopularElectionVote) (r : election_store) :
    election_store := ltac:(field_setter election_store_eta PopularElectionVotesByCid g r).
Definition set_MutualElectionVotesByTicket (g : gmap (Z * InstitutionVoteTicket) CitizenSubject -> gmap (Z * InstitutionVoteTicket) CitizenSubject) (r : election_store) :
    election_store := ltac:(field_setter election_store_eta MutualElectionVotesByTicket g r).
Definition set_ElectionCandidateTallies (g : gmap (Z * CidNumber) Z -> gmap (Z * CidNumber) Z) (r : election_store) :
    election_store := ltac:(field_setter election_store_eta ElectionCandidateTallies g r).
Definition set_ElectionTallyStore (g : gmap Z ElectionTally -> gmap Z ElectionTally) (r : election_store) :
    election_store := ltac:(field_setter election_store_eta ElectionTallyStore g r).
Definition set_ElectionResults (g : gmap Z (list ElectionWinner) -> gmap Z (list ElectionWinner)) (r : election_store) :
    election_store := ltac:(field_setter election_store_eta ElectionResults g r).

Definition election_store_empty : election_store :=
  Build_election_store ∅ ∅ ∅ ∅ ∅ ∅ ∅.

(** The runtime: block context, events, the voting pallets and the rest of the world. *)
Record rt (W : Type) : Type := {
  block_number : Z;
  now_ms : Z;
  events : list Event;
  ve : engine;
  iv : internal_store;
  jv : joint_store;
  lv : legislation_store;
  el : election_store;
  world : W;
}.

Arguments block_number {W} _.
Arguments now_ms {W} _.
Arguments events {W} _.
Arguments ve {W} _.
Arguments iv {W} _.
Arguments jv {W} _.
Arguments lv {W} _.
Arguments el {W} _.
Arguments world {W} _.
Arguments Build_rt {W} _ _ _ _ _ _ _ _ _.

Definition set_block_number {W} (g : Z -> Z) (r : rt W) : rt W :=
  Build_rt (g r.(block_number)) r.(now_ms) r.(events) r.(ve) r.(iv) r.(jv) r.(lv) r.(el) r.(world).
Definition set_now_ms {W} (g : Z -> Z) (r : rt W) : rt W :=
  Build_rt r.(block_number) (g r.(now_ms)) r.(events) r.(ve) r.(iv) r.(jv) r.(lv) r.(el) r.(world).
Definition set_events {W} (g : list Event -> list Event) (r : rt W) : rt W :=
  Build_rt r.(block_number) r.(now_ms) (g r.(events)) r.(ve) r.(iv) r.(jv) r.(lv) r.(el) r.(world).
Definition set_ve {W} (g : engine -> engine) (r : rt W) : rt W :=
  Build_rt r.(block_number) r.(now_ms) r.(events) (g r.(ve)) r.(iv) r.(jv) r.(lv) r.(el) r.(world).
Definition set_iv {W} (g : internal_store -> internal_store) (r : rt W) : rt W :=
  Build_rt r.(block_number) r.(now_ms) r.(events) r.(ve) (g r.(iv)) r.(jv) r.(lv) r.(el) r.(world).
Definition set_jv {W} (g : joint_store -> joint_store) (r : rt W) : rt W :=
  Build_rt r.(block_number) r.(now_ms) r.(events) r.(ve) r.(iv) (g r.(jv)) r.(lv) r.(el) r.(world).
Definition set_lv {W} (g : legislation_store -> legislation_store) (r : rt W) : rt W :=
  Build_rt r.(block_number) r.(now_ms) r.(events) r.(ve) r.(iv) r.(jv) (g r.(lv)) r.(el) r.(world).
Definition set_el {W} (g : election_store -> election_store) (r : rt W) : rt W :=
  Build_rt r.(block_number) r.(now_ms) r.(events) r.(ve) r.(iv) r.(jv) r.(lv) (g r.(el)) r.(world).
Definition set_world {W} (g : W -> W) (r : rt W) : rt W :=
  Build_rt r.(block_number) r.(now_ms) r.(events) r.(ve) r.(iv) r.(jv) r.(lv) r.(el) (g r.(world)).

(** The block number and the time of the block: what a block fixes. *)
Definition clock {W} (s : rt W) : Z * Z := (block_number s, now_ms s).

#[global] Arguments clock {W} _ : simpl never.

Lemma clock_set_ve {W} f (s : rt W) : clock (set_ve f s) = clock s.
Proof. done. Qed.

Definition deposit_event {W} (e : Event) (s : rt W) : rt W :=
  set_events (fun l => l ++ [e]) s.

(** Evaluates nested updates of the engine down to the fields. *)
Ltac norm_engine :=
  cbv beta iota zeta delta [
      CurrentProposalYear YearProposalCounter NextProposalId Proposals CallbackExecutionScopes
      ProposalsByExpiry PendingExpiryBucket PendingProposalCleanups AdminSnapshot
      ProposalVotePlans VoterSnapshot InstitutionTicketCountSnapshot ProposalData ProposalOwner
      ProposalPopulationSnapshots ProposalExecutionRetryStates PendingProposalExecutions
      PendingTerminalFinalizations TerminalFinalizationDeadLetters AutoFinalizeRetryStates
      AutoFinalizeDeadLetters PendingExecutionRetryExpirations PendingTerminalCleanups
      ExecutionRetryDeadlines ProposalObjectMeta ProposalObject ProposalMeta ScheduledCleanups
      ScheduledCleanupHead ScheduledCleanupTail PendingCleanupQueue PendingCleanupQueueHead
      PendingCleanupQueueTail ActiveProposalsBySubject InternalProposalMutexes
      ProposalMutexBindings ProposalDisplayId ProposalsByCode ProposalsByCid ProposalsByOwner
      ProposalsByYear set_CurrentProposalYear set_YearProposalCounter set_NextProposalId
      set_Proposals set_CallbackExecutionScopes set_ProposalsByExpiry set_PendingExpiryBucket
      set_PendingProposalCleanups set_AdminSnapshot set_ProposalVotePlans set_VoterSnapshot
      set_InstitutionTicketCountSnapshot set_ProposalData set_ProposalOwner
      set_ProposalPopulationSnapshots set_ProposalExecutionRetryStates
      set_PendingProposalExecutions set_PendingTerminalFinalizations
      set_TerminalFinalizationDeadLetters set_AutoFinalizeRetryStates
      set_AutoFinalizeDeadLetters set_PendingExecutionRetryExpirations
      set_PendingTerminalCleanups set_ExecutionRetryDeadlines set_ProposalObjectMeta
      set_ProposalObject set_ProposalMeta set_ScheduledCleanups set_ScheduledCleanupHead
      set_ScheduledCleanupTail set_PendingCleanupQueue set_PendingCleanupQueueHead
      set_PendingCleanupQueueTail set_ActiveProposalsBySubject set_InternalProposalMutexes
      set_ProposalMutexBindings set_ProposalDisplayId set_ProposalsByCode set_ProposalsByCid
      set_ProposalsByOwner set_ProposalsByYear
      set_ve ve block_number ].
Ltac norm_engine_all :=
  cbv beta iota zeta delta [
      CurrentProposalYear YearProposalCounter NextProposalId Proposals CallbackExecutionScopes
      ProposalsByExpiry PendingExpiryBucket PendingProposalCleanups AdminSnapshot
      ProposalVotePlans VoterSnapshot InstitutionTicketCountSnapshot ProposalData ProposalOwner
      ProposalPopulationSnapshots ProposalExecutionRetryStates PendingProposalExecutions
      PendingTerminalFinalizations TerminalFinalizationDeadLetters AutoFinalizeRetryStates
      AutoFinalizeDeadLetters PendingExecutionRetryExpirations PendingTerminalCleanups
      ExecutionRetryDeadlines ProposalObjectMeta ProposalObject ProposalMeta ScheduledCleanups
      ScheduledCleanupHead ScheduledCleanupTail PendingCleanupQueue PendingCleanupQueueHead
      PendingCleanupQueueTail ActiveProposalsBySubject InternalProposalMutexes
      ProposalMutexBindings ProposalDisplayId ProposalsByCode ProposalsByCid ProposalsByOwner
      ProposalsByYear set_CurrentProposalYear set_YearProposalCounter set_NextProposalId
      set_Proposals set_CallbackExecutionScopes set_ProposalsByExpiry set_PendingExpiryBucket
      set_PendingProposalCleanups set_AdminSnapshot set_ProposalVotePlans set_VoterSnapshot
      set_InstitutionTicketCountSnapshot set_ProposalData set_ProposalOwner
      set_ProposalPopulationSnapshots set_ProposalExecutionRetryStates
      set_PendingProposalExecutions set_PendingTerminalFinalizations
      set_TerminalFinalizationDeadLetters set_AutoFinalizeRetryStates
      set_AutoFinalizeDeadLetters set_PendingExecutionRetryExpirations
      set_PendingTerminalCleanups set_ExecutionRetryDeadlines set_ProposalObjectMeta
      set_ProposalObject set_ProposalMeta set_ScheduledCleanups set_ScheduledCleanupHead
      set_ScheduledCleanupTail set_PendingCleanupQueue set_PendingCleanupQueueHead
      set_PendingCleanupQueueTail set_ActiveProposalsBySubject set_InternalProposalMutexes
      set_ProposalMutexBindings set_ProposalDisplayId set_ProposalsByCode set_ProposalsByCid
      set_ProposalsByOwner set_ProposalsByYear
      set_ve ve block_number ] in *.
