(* ===== verification/Interfaces.v ===== *)
(** * Interfaces of the voting engine

    What the engine is configured with and what it asks of other code:
    - [Weights] / [Config]: block weights (a parameter: they belong to the
      framework) and the constants of [votingengine::Config];
    - [StorageOrder]: the order in which the storage backend enumerates keys;
    - [Providers]: the read-only queries of [traits/providers.rs];
    - [ResultCallback] / [Callbacks]: [traits/callbacks.rs], with the tuple
      combinators that merge several business modules into one callback;
    - [TrackHandler] / [ProposalTracks]: [tracks.rs], with the recursive tuple
      that dispatches a proposal kind to its sub-pallet. *)
From S2P Require Import Prelude Cid Types State.

(** ** Weights and configuration *)

Class Weights : Type := {
  weight : Type;
  w_zero : weight;
  w_add : weight -> weight -> weight;
  w_sub : weight -> weight -> weight;
  w_max : weight -> weight -> weight;
  w_mul : weight -> Z -> weight;
  any_gt : weight -> weight -> bool;
  from_parts : Z -> Z -> weight;
}.

Class Config `{Weights} : Type := {
  MaxAutoFinalizePerBlock : Z;
  MaxAutoFinalizeWeightPerBlock : weight;
  MaxExecutionWeightPerBlock : weight;
  MaxCleanupWeightPerBlock : weight;
  MaxProposalsPerExpiry : Z;
  MaxInternalProposalMutexBindings : Z;
  MaxActiveProposals : Z;
  MaxCleanupStepsPerBlock : Z;
  MaxCleanupActivationsPerBlock : Z;
  CleanupKeysPerStep : Z;
  MaxProposalDataLen : Z;
  MaxProposalObjectLen : Z;
  MaxModuleTagLen : Z;
  MaxManualExecutionAttempts : Z;
  ExecutionRetryGraceBlocks : Z;
  MaxExecutionRetryDeadlinesPerBlock : Z;
  MaxPendingRetryExpirationsPerBlock : Z;
  MaxAdminsPerInstitution : Z;
  db_reads_writes : Z -> Z -> weight;
  wi_finalize_proposal : weight;
  wi_process_pending_execution : weight;
  wi_set_code : weight;
  wi_finalize_internal_timeout : weight;
  wi_finalize_joint_timeout : weight;
  wi_finalize_referendum_timeout : weight;
}.

Definition db_reads `{Config} (n : Z) : weight := db_reads_writes n 0.
Definition db_writes `{Config} (n : Z) : weight := db_reads_writes 0 n.

(** Keys are hashed, so a storage iteration visits them in an order the
    pallets do not choose; all they rely on is that it visits each once. *)
Class StorageOrder : Type := {
  hash_order : forall K : Type, list K -> list K;
  hash_order_perm : forall K (l : list K), hash_order K l ≡ₚ l;
}.

(** [StorageMap::iter]. *)
Definition storage_iter `{StorageOrder} {A} (m : gmap Z A) : list (Z * A) :=
  hash_order _ (map_to_list m).

(** [StorageDoubleMap::clear_prefix(k1, limit, None)]: the keys removed and
    whether a cursor is left because more remain. *)
Definition prefix_keys `{StorageOrder} `{Countable K} {A} (pid : Z) (m : gmap (Z * K) A)
    : list (Z * K) :=
  hash_order _ (filter (fun k => k.1 = pid) (map_to_list m).*1).

Definition clear_prefix `{StorageOrder} `{Countable K} {A} (pid limit : Z)
    (m : gmap (Z * K) A) : gmap (Z * K) A * (Z * bool) :=
  let keys := prefix_keys pid m in
  let removed := take (Z.to_nat limit) keys in
  (foldr delete m removed,
   (Z.of_nat (length removed), bool_decide (Z.to_nat limit < length keys)%nat)).

(** ** Read-only providers ([traits/providers.rs]) *)

Class Providers (W : Type) : Type := {
  resolve_institution_voter : W -> CidNumber -> AccountId -> option AccountId;
  institution_threshold : W -> InstitutionCode -> CidNumber -> option Z;
  is_personal_admin : W -> AccountId -> AccountId -> bool;
  get_personal_admins : W -> AccountId -> option (list AccountId);
  get_pending_personal_admins : W -> AccountId -> option (list AccountId);
  population_data_of : W -> PopulationScope -> option PopulationData;
  voting_subject_at : W -> AccountId -> PopulationData -> option CitizenSubject;
  candidate_subject : W -> AccountId -> PopulationScope -> option CitizenSubject;
  is_active_assignment : W -> CidNumber -> AccountId -> RoleCode -> bool;
  active_accounts_for_role : W -> CidNumber -> RoleCode -> list AccountId;
  hash_256 : string -> string;
}.

(** ** Runs *)

Abbreviation RM W A := (M (rt W) DispatchError A).
Abbreviation RS W A := (St (rt W) A).

(** ** Business callbacks ([traits/callbacks.rs]) *)

Record ResultCallback (W : Type) : Type := {
  on_vote_finalized : Z -> bool -> RM W ProposalExecutionOutcome;
  can_cancel_passed_proposal : Z -> RM W ProposalCancelDecision;
  on_execution_failed_terminal : Z -> RM W unit;
}.
Arguments on_vote_finalized {W}.
Arguments can_cancel_passed_proposal {W}.
Arguments on_execution_failed_terminal {W}.

(** The implementation for [()]. *)
Definition callback_unit {W} : ResultCallback W := {|
  on_vote_finalized := fun _ _ => mret Ignored;
  can_cancel_passed_proposal := fun _ => mret CancelIgnored;
  on_execution_failed_terminal := fun _ => mret tt;
|}.

Definition merge_execution_outcome (current next : ProposalExecutionOutcome)
    : ProposalExecutionOutcome :=
  match current, next with
  | Ignored, outcome => outcome
  | outcome, Ignored => outcome
  | FatalFailed, _ | _, FatalFailed => FatalFailed
  | RetryableFailed, _ | _, RetryableFailed => RetryableFailed
  | Executed, Executed => Executed
  end.

Definition merge_cancel_decision (current next : ProposalCancelDecision)
    : ProposalCancelDecision :=
  match current, next with
  | CancelAllow, _ | _, CancelAllow => CancelAllow
  | CancelIgnored, CancelIgnored => CancelIgnored
  end.

(** The remaining members of a tuple, called in order after the accumulated
    result of the ones before; an error stops the calls. *)
Fixpoint merge_calls {W A} (merge : A -> A -> A) (calls : list (RM W A)) (acc : A) : RM W A :=
  match calls with
  | [] => mret acc
  | call :: calls => next ← call; merge_calls merge calls (merge acc next)
  end.

(** The implementations for [(A,)], [(A, B)], ... [(A, B, C, D, E, F)]. *)
Definition callback_tuple {W} (a : ResultCallback W) (rest : list (ResultCallback W))
    : ResultCallback W := {|
  on_vote_finalized := fun pid approved =>
    outcome ← on_vote_finalized a pid approved;
    merge_calls merge_execution_outcome
      ((fun c => on_vote_finalized c pid approved) <$> rest) outcome;
  can_cancel_passed_proposal := fun pid =>
    decision ← can_cancel_passed_proposal a pid;
    merge_calls merge_cancel_decision
      ((fun c => can_cancel_passed_proposal c pid) <$> rest) decision;
  on_execution_failed_terminal := fun pid =>
    on_execution_failed_terminal a pid ;;
    for_each (fun c => on_execution_failed_terminal c pid) rest;
|}.

Class Callbacks (W : Type) : Type := {
  InternalVoteResultCallback : ResultCallback W;
  JointVoteResultCallback : ResultCallback W;
  LegislationVoteResultCallback : ResultCallback W;
  ElectionVoteResultCallback : ResultCallback W;
}.

(** ** Tracks ([tracks.rs]) *)

(** One voting type: everything but [finalize_timeout], which calls back into
    the engine and is a parameter of the automatic finalisation instead. *)
Record TrackHandler `{Weights} (W : Type) : Type := {
  handles : Z -> bool;
  cleanup_chunk_of : Z -> Z -> Z -> RS W (option (Z * bool));
  cleanup_terminal_of : Z -> Z -> RS W (option unit);
  timeout_weight_of : Z -> option weight;
  cleanup_chunk_weight_of : Z -> Z -> option weight;
  cleanup_terminal_weight_of : Z -> option weight;
  on_proposal_executed_of : Z -> Z -> RS W (option (result DispatchError unit));
  on_proposal_terminal_of : Z -> Z -> Z -> RS W (option (result DispatchError unit));
}.
Arguments handles {_ W}.
Arguments cleanup_chunk_of {_ W}.
Arguments cleanup_terminal_of {_ W}.
Arguments timeout_weight_of {_ W}.
Arguments cleanup_chunk_weight_of {_ W}.
Arguments cleanup_terminal_weight_of {_ W}.
Arguments on_proposal_executed_of {_ W}.
Arguments on_proposal_terminal_of {_ W}.

(** The tuple a runtime registers. *)
Class ProposalTracks `{Weights} (W : Type) : Type := {
  cleanup_chunk : Z -> Z -> Z -> RS W (option (Z * bool));
  cleanup_terminal : Z -> Z -> RS W bool;
  timeout_weight : Z -> Z -> option weight;
  max_timeout_weight : weight;
  cleanup_chunk_weight : Z -> Z -> option weight;
  max_cleanup_chunk_weight : Z -> weight;
  cleanup_terminal_weight : Z -> option weight;
  max_cleanup_terminal_weight : weight;
  on_proposal_executed : Z -> Z -> RS W (option (result DispatchError unit));
  on_proposal_terminal : Z -> Z -> Z -> RS W (option (result DispatchError unit));
}.

(** [Head::f().or_else(|| Tail::f())]. *)
Definition or_else {W A} (head tail : RS W (option A)) : RS W (option A) :=
  o ← head;
  match o with Some a => mret (Some a) | None => tail end.

(** [impl ProposalTracks for ()]. *)
Definition tracks_unit `{Weights} {W} : ProposalTracks W := {|
  cleanup_chunk := fun _ _ _ => mret None;
  cleanup_terminal := fun _ _ => mret false;
  timeout_weight := fun _ _ => None;
  max_timeout_weight := w_zero;
  cleanup_chunk_weight := fun _ _ => None;
  max_cleanup_chunk_weight := fun _ => w_zero;
  cleanup_terminal_weight := fun _ => None;
  max_cleanup_terminal_weight := w_zero;
  on_proposal_executed := fun _ _ => mret None;
  on_proposal_terminal := fun _ _ _ => mret None;
|}.

(** [impl ProposalTracks for (Head, Tail)]. *)
Definition tracks_cons `{Weights} {W} (head : TrackHandler W) (tail : ProposalTracks W)
    : ProposalTracks W := {|
  cleanup_chunk := fun kind pid limit =>
    or_else (cleanup_chunk_of head kind pid limit) (cleanup_chunk kind pid limit);
  cleanup_terminal := fun kind pid =>
    o ← cleanup_terminal_of head kind pid;
    match o with Some _ => mret true | None => cleanup_terminal kind pid end;
  timeout_weight := fun kind stage =>
    if handles head kind then timeout_weight_of head stage else timeout_weight kind stage;
  max_timeout_weight :=
    w_max (default w_zero (timeout_weight_of head u8_max)) max_timeout_weight;
  cleanup_chunk_weight := fun kind limit =>
    if handles head kind then cleanup_chunk_weight_of head kind limit
    else cleanup_chunk_weight kind limit;
  max_cleanup_chunk_weight := fun limit =>
    w_max (default w_zero (cleanup_chunk_weight_of head u8_max limit))
      (max_cleanup_chunk_weight limit);
  cleanup_terminal_weight := fun kind =>
    if handles head kind then cleanup_terminal_weight_of head kind
    else cleanup_terminal_weight kind;
  max_cleanup_terminal_weight :=
    w_max (default w_zero (cleanup_terminal_weight_of head u8_max))
      max_cleanup_terminal_weight;
  on_proposal_executed := fun kind pid =>
    or_else (on_proposal_executed_of head kind pid) (on_proposal_executed kind pid);
  on_proposal_terminal := fun kind pid status =>
    or_else (on_proposal_terminal_of head kind pid status)
      (on_proposal_terminal kind pid status);
|}.

(** ** Laws the engine's theorems rely on *)

(** A run that leaves a part of the state alone. *)
Definition frame {W X A} (part : rt W -> X) (m : rt W -> A * rt W) : Prop :=
  forall s, part (m s).2 = part s.

(** What a business module may do from inside a callback: anything but to
    the engine's storage and the clock. *)
Definition engine_part {W} (s : rt W) : engine * (Z * Z) := (ve s, clock s).
Abbreviation engine_frame := (frame engine_part).

(** A hook of a track leaves the other pallets alone as well. *)
Definition outer_part {W} (s : rt W) : engine * (Z * Z) * W := (ve s, clock s, world s).
Abbreviation track_frame := (frame outer_part).

Lemma engine_frame_eq {W A} (m : rt W -> A * rt W) s :
  engine_frame m -> ve (m s).2 = ve s /\ clock (m s).2 = clock s.
Proof. intros Hm. exact (conj (f_equal fst (Hm s)) (f_equal snd (Hm s))). Qed.

Lemma track_frame_eq {W A} (m : rt W -> A * rt W) s :
  track_frame m -> ve (m s).2 = ve s /\ clock (m s).2 = clock s /\ world (m s).2 = world s.
Proof.
  intros Hm. exact (conj (f_equal (fun x => x.1.1) (Hm s))
    (conj (f_equal (fun x => x.1.2) (Hm s)) (f_equal snd (Hm s)))).
Qed.

Lemma track_frame_engine {W A} (m : rt W -> A * rt W) : track_frame m -> engine_frame m.
Proof. intros Hm s. exact (f_equal fst (Hm s)). Qed.

Record callback_framed {W} (c : ResultCallback W) : Prop := {
  cf_finalized : forall pid b, engine_frame (on_vote_finalized c pid b);
  cf_cancel : forall pid, engine_frame (can_cancel_passed_proposal c pid);
  cf_terminal : forall pid, engine_frame (on_execution_failed_terminal c pid);
}.

Class CallbackLaws {W} (C : Callbacks W) : Prop := {
  internal_framed : callback_framed InternalVoteResultCallback;
  joint_framed : callback_framed JointVoteResultCallback;
  legislation_framed : callback_framed LegislationVoteResultCallback;
  election_framed : callback_framed ElectionVoteResultCallback;
}.

Class TrackLaws `{Weights} {W} (T : ProposalTracks W) : Prop := {
  chunk_framed : forall kind pid limit, track_frame (cleanup_chunk kind pid limit);
  cleanup_terminal_framed : forall kind pid, track_frame (cleanup_terminal kind pid);
  executed_framed : forall kind pid, track_frame (on_proposal_executed kind pid);
  terminal_framed : forall kind pid st, track_frame (on_proposal_terminal kind pid st);
}.

Section Frames.
Context {W X : Type} (part : rt W -> X).
#[local] Abbreviation framed m := (frame part m).

Lemma frame_ret {A} (a : A) : framed (mret a : RM W A).
Proof. done. Qed.
Lemma frame_sret {A} (a : A) : framed (mret a : RS W A).
Proof. done. Qed.
Lemma frame_gets {A} (f : rt W -> A) : framed (gets f : RM W A).
Proof. done. Qed.
Lemma frame_ok_or {A} (o : option A) e : framed (ok_or o e : RM W A).
Proof. by destruct o. Qed.
Lemma frame_ensure b e : framed (ensure b e : RM W unit).
Proof. by destruct b. Qed.
Lemma frame_from_result {A} (r : result DispatchError A) : framed (from_result r : RM W A).
Proof. by destruct r. Qed.
Lemma frame_throw {A} e : framed (throw e : RM W A).
Proof. done. Qed.
Lemma frame_transact {A} (m : RM W A) : framed m -> framed (transact m).
Proof.
  intros Hm s. specialize (Hm s). unfold transact. by destruct (m s) as [[] ?].
Qed.
Lemma frame_bind {A B} (m : RM W A) (f : A -> RM W B) :
  framed m -> (forall a, framed (f a)) -> framed (m ≫= f).
Proof.
  intros Hm Hf s. specialize (Hm s). unfold mbind, M_bind.
  destruct (m s) as [[a|e] s1]; [|done]. simpl in *. by rewrite Hf.
Qed.
Lemma frame_sbind {A B} (m : RS W A) (f : A -> RS W B) :
  framed m -> (forall a, framed (f a)) -> framed (m ≫= f).
Proof.
  intros Hm Hf s. rewrite sbind_run. by rewrite Hf, Hm.
Qed.
Lemma frame_for_each {A} (f : A -> RM W unit) l :
  (forall x, framed (f x)) -> framed (for_each f l).
Proof. intros Hf. induction l; [apply frame_ret|by apply frame_bind]. Qed.
Lemma frame_merge_calls {A} (merge : A -> A -> A) calls acc :
  Forall (fun c : RM W A => framed c) calls ->
  framed (merge_calls merge calls acc).
Proof.
  intros Hc. revert acc. induction Hc; intros acc; [apply frame_ret|].
  by apply frame_bind.
Qed.
Lemma frame_or_else {A} (head tail : RS W (option A)) :
  framed head -> framed tail -> framed (or_else head tail).
Proof. intros Hh Ht. apply frame_sbind; [done|]. intros []; [apply frame_sret|done]. Qed.

End Frames.

(** A tuple of modules that respect the engine's storage respects it. *)
Lemma callback_tuple_framed {W} (a : ResultCallback W) rest :
  callback_framed a -> Forall callback_framed rest ->
  callback_framed (callback_tuple a rest).
Proof.
  intros Ha Hr. destruct Ha. split; intros; simpl.
  - apply frame_bind; [done|intros]. apply frame_merge_calls, Forall_fmap.
    eapply Forall_impl; [done|]. intros c Hc. apply Hc.
  - apply frame_bind; [done|intros]. apply frame_merge_calls, Forall_fmap.
    eapply Forall_impl; [done|]. intros c Hc. apply Hc.
  - apply frame_bind; [done|intros _]. induction Hr as [|c rest [] _ IH]; [apply frame_ret|].
    apply frame_bind; [done|by intros _].
Qed.
