(* ===== verification/Runtime.v ===== *)
(** * Runtime configuration and a sample environment

    [runtime_config] holds the voting-engine constants of
    [runtime/src/configs.rs]. The rest instantiates the parameters of the
    model with small concrete functions (weights as pairs of 64-bit numbers,
    keys visited in the order of the map, a world that is a list of role
    assignments, personal accounts and citizens): the witnesses run there. *)
From S2P Require Import Prelude Cid Types State Interfaces.

(** ** Weights: reference time and proof size *)

Definition weight_pair_add (a b : Z * Z) : Z * Z :=
  (saturating_add u64_max a.1 b.1, saturating_add u64_max a.2 b.2).

#[export] Instance sample_weights : Weights := {|
  weight := Z * Z;
  w_zero := (0, 0);
  w_add := weight_pair_add;
  w_sub := fun a b => (saturating_sub a.1 b.1, saturating_sub a.2 b.2);
  w_max := fun a b => (Z.max a.1 b.1, Z.max a.2 b.2);
  w_mul := fun a n => (saturating_mul u64_max a.1 n, saturating_mul u64_max a.2 n);
  any_gt := fun a b => (b.1 <? a.1) || (b.2 <? a.2);
  from_parts := fun a b => (a, b);
|}.

(** [BlockWeightFraction<Runtime, N>] of a block of two seconds. *)
Definition block_weight_fraction (n : Z) : Z * Z := (2000000000000 / n, u64_max / n).

#[export] Instance runtime_config : Config := {|
  MaxAutoFinalizePerBlock := 2048;
  MaxAutoFinalizeWeightPerBlock := (block_weight_fraction 4 : weight);
  MaxExecutionWeightPerBlock := (block_weight_fraction 4 : weight);
  MaxCleanupWeightPerBlock := (block_weight_fraction 8 : weight);
  MaxProposalsPerExpiry := 2048;
  MaxInternalProposalMutexBindings := 256;
  MaxActiveProposals := 10;
  MaxCleanupStepsPerBlock := 8;
  MaxCleanupActivationsPerBlock := 64;
  CleanupKeysPerStep := 256;
  MaxProposalDataLen := 100 * 1024;
  MaxProposalObjectLen := 10 * 1024 * 1024;
  MaxModuleTagLen := 32;
  MaxManualExecutionAttempts := 3;
  ExecutionRetryGraceBlocks := 21600;
  MaxExecutionRetryDeadlinesPerBlock := 2048;
  MaxPendingRetryExpirationsPerBlock := 256;
  MaxAdminsPerInstitution := 1989;
  db_reads_writes := fun r w => ((25000000 * r + 100000000 * w, 0) : weight);
  wi_finalize_proposal := ((36000000, 105893) : weight);
  wi_process_pending_execution := ((26000000, 105893) : weight);
  wi_set_code := ((170000000000, 67035) : weight);
  wi_finalize_internal_timeout := ((36000000, 105893) : weight);
  wi_finalize_joint_timeout := ((36000000, 105893) : weight);
  wi_finalize_referendum_timeout := ((36000000, 105893) : weight);
|}.

#[export] Instance map_order : StorageOrder := {|
  hash_order := fun K l => l;
  hash_order_perm := fun K l => Permutation_refl l;
|}.

(** ** A sample world *)

Record sample_world : Type := {
  sw_roles : list (CidNumber * RoleCode * AccountId);
  sw_personal : list (AccountId * list AccountId);
  sw_population : option PopulationData;
  sw_citizens : list CitizenSubject;
}.

Definition empty_world : sample_world :=
  {| sw_roles := []; sw_personal := []; sw_population := None; sw_citizens := [] |}.

#[export] Instance sample_providers : Providers sample_world := {|
  resolve_institution_voter := fun w cid who =>
    if existsb (fun r => bool_decide (r.1.1 = cid /\ r.2 = who)) (sw_roles w) then Some who
    else None;
  institution_threshold := fun w code cid =>
    Some (Z.of_nat (length (filter (fun r => r.1.1 = cid) (sw_roles w))) / 2 + 1);
  is_personal_admin := fun w account who =>
    existsb (fun p => bool_decide (p.1 = account) && existsb (fun a => bool_decide (a = who)) p.2)
      (sw_personal w);
  get_personal_admins := fun w account =>
    snd <$> find (fun p => bool_decide (p.1 = account)) (sw_personal w);
  get_pending_personal_admins := fun w account =>
    snd <$> find (fun p => bool_decide (p.1 = account)) (sw_personal w);
  population_data_of := fun w _ =>
    d ← sw_population w;
    if decide (0 <= eligible_total d <= u64_max) then Some d else None;
  voting_subject_at := fun w who _ =>
    find (fun c => bool_decide (citizen_account_id c = who)) (sw_citizens w);
  candidate_subject := fun w who _ =>
    find (fun c => bool_decide (citizen_account_id c = who)) (sw_citizens w);
  is_active_assignment := fun w cid who role =>
    existsb (fun r => bool_decide (r = (cid, role, who))) (sw_roles w);
  active_accounts_for_role := fun w cid role =>
    snd <$> filter (fun r => r.1 = (cid, role)) (sw_roles w);
  hash_256 := fun s => s;
|}.

(** Empty storage at block [n], [ms] milliseconds after the epoch. *)
Definition genesis_at {W} (n ms : Z) (w : W) : rt W :=
  Build_rt n ms [] engine_empty internal_store_empty joint_store_empty legislation_store_empty
    election_store_empty w.

(** ** Sample callbacks and tracks *)

Definition always_executed {W} : ResultCallback W := {|
  on_vote_finalized := fun _ approved => mret (if approved then Executed else Ignored);
  can_cancel_passed_proposal := fun _ => mret CancelAllow;
  on_execution_failed_terminal := fun _ => mret tt;
|}.

#[export] Instance sample_callbacks {W} : Callbacks W := {|
  InternalVoteResultCallback := always_executed;
  JointVoteResultCallback := always_executed;
  LegislationVoteResultCallback := callback_unit;
  ElectionVoteResultCallback := callback_unit;
|}.

#[export] Instance sample_callback_laws {W} : CallbackLaws (@sample_callbacks W).
Proof. by split; split. Qed.

(** A track that accepts every kind and keeps no storage. *)
Definition accepting_track {W} : TrackHandler W := {|
  handles := fun _ => true;
  cleanup_chunk_of := fun _ _ _ => mret (Some (0, false));
  cleanup_terminal_of := fun _ _ => mret (Some tt);
  timeout_weight_of := fun _ => None;
  cleanup_chunk_weight_of := fun _ _ => None;
  cleanup_terminal_weight_of := fun _ => None;
  on_proposal_executed_of := fun _ _ => mret (Some (Ok tt));
  on_proposal_terminal_of := fun _ _ _ => mret (Some (Ok tt));
|}.

#[export] Instance sample_tracks : ProposalTracks sample_world :=
  tracks_cons accepting_track tracks_unit.

#[export] Instance sample_tracks_laws : TrackLaws sample_tracks.
Proof. by split. Qed.

(** Storage at block 5 with one proposal, of which nothing else is stored. *)
Definition one_proposal (pid : Z) (p : Proposal) : rt sample_world :=
  set_ve (set_Proposals (insert pid p)) (genesis_at 5 0 empty_world).

Definition internal_proposal (st : Z) : Proposal := {|
  kind := PROPOSAL_KIND_INTERNAL; stage := STAGE_INTERNAL; status := st;
  internal_code := Some PMUL; actor_cid_number := None; execution_account_id := Some 7;
  subject_cid_numbers := []; start_block := 1; end_block := 7201 |}.
