(* ===== verification/Ids.v ===== *)
(** * Proposal identifiers ([votingengine/src/id.rs])

    A proposal has a primary key that grows by one for ever and a display
    number [(year, seq_in_year)]. The year is the UTC Gregorian year of the
    block time, found by 400-year cycles and a loop over years. *)
From S2P Require Import Prelude Cid Types State Interfaces Runtime.

Definition SECS_PER_DAY : Z := 86400.
Definition DAYS_PER_400_YEARS : Z := 146097.

Definition is_leap_year (year : Z) : bool :=
  bool_decide (year mod 4 = 0)
  && (negb (bool_decide (year mod 100 = 0)) || bool_decide (year mod 400 = 0)).

Definition days_in_year (year : Z) : Z := if is_leap_year year then 366 else 365.

(** The [while days >= days_in_year(year)] loop; [None] is out of fuel. *)
Fixpoint year_loop (fuel : nat) (days year : Z) : option (result DispatchError Z) :=
  match fuel with
  | O => None
  | S fuel =>
      if decide (days_in_year year <= days) then
        match checked_add u32_max year 1 with
        | None => Some (Err (VotingErr ProposalIdOverflow))
        | Some next => year_loop fuel (days - days_in_year year) next
        end
      else Some (Ok year)
  end.

(** Under 146097 days are left when the loop starts, so it runs at most 401
    times. *)
Definition YEAR_FUEL : nat := 402.

Definition unix_seconds_to_year (secs : Z) : result DispatchError Z :=
  let days := secs / SECS_PER_DAY in
  let cycles := days / DAYS_PER_400_YEARS in
  cycles ← opt_ok (bounded_uint u32_max cycles) (VotingErr ProposalIdOverflow);
  cycle_years ← opt_ok (checked_mul u32_max cycles 400) (VotingErr ProposalIdOverflow);
  year ← opt_ok (checked_add u32_max 1970 cycle_years) (VotingErr ProposalIdOverflow);
  year ← default (Err (Other "out of fuel"))
           (year_loop YEAR_FUEL (days mod DAYS_PER_400_YEARS) year);
  opt_ok (bounded_uint u16_max year) (VotingErr ProposalIdOverflow).

Section Allocate.
Context {W : Type}.

Definition allocate_proposal_id : RM W Z :=
  now ← gets now_ms;
  secs ← ok_or (bounded_uint u64_max (now / 1000)) (VotingErr ProposalIdOverflow);
  year ← from_result (unix_seconds_to_year secs);
  id ← gets (fun s => NextProposalId (ve s));
  next ← ok_or (checked_add u64_max id 1) (VotingErr ProposalIdOverflow);
  modify (set_ve (set_NextProposalId (fun _ => next))) ;;
  stored_year ← gets (fun s => CurrentProposalYear (ve s));
  seq_in_year ←
    (if decide (stored_year = year) then
       c ← gets (fun s => YearProposalCounter (ve s));
       c' ← ok_or (checked_add u32_max c 1) (VotingErr YearCounterOverflow);
       modify (set_ve (set_YearProposalCounter (fun _ => c'))) ;;
       mret c
     else
       modify (set_ve (set_CurrentProposalYear (fun _ => year))) ;;
       modify (set_ve (set_YearProposalCounter (fun _ => 1))) ;;
       mret 0);
  modify (set_ve (set_ProposalDisplayId
    (insert id {| year := year; seq_in_year := seq_in_year |}))) ;;
  mret id.
End Allocate.

(** ** The year is the Gregorian year *)

(** Days from 1970-01-01 to the first of January of [y]. *)
Definition days_before (y : Z) : Z :=
  365 * (y - 1970) + ((y - 1) / 4 - (y - 1) / 100 + (y - 1) / 400) - 477.

Definition gregorian_year (secs y : Z) : Prop :=
  days_before y <= secs / SECS_PER_DAY < days_before (y + 1).

Lemma days_before_succ y : days_before (y + 1) = days_before y + days_in_year y.
Proof.
  unfold days_before, days_in_year, is_leap_year. replace (y + 1 - 1) with y by lia.
  repeat (case_bool_decide; simpl); Z.to_euclidean_division_equations; lia.
Qed.

Lemma days_before_cycle y k : days_before (y + 400 * k) = days_before y + DAYS_PER_400_YEARS * k.
Proof.
  unfold days_before, DAYS_PER_400_YEARS.
  replace (y + 400 * k - 1) with (y - 1 + k * 4 * 100) by lia.
  rewrite Z.div_add by lia.
  replace (y - 1 + k * 4 * 100) with (y - 1 + k * 100 * 4) by lia.
  rewrite Z.div_add by lia.
  replace (y - 1 + k * 100 * 4) with (y - 1 + k * 400) by lia.
  rewrite Z.div_add by lia. lia.
Qed.

Lemma days_in_year_bounds y : 365 <= days_in_year y <= 366.
Proof. unfold days_in_year. case_match; lia. Qed.

Lemma gregorian_exists y total :
  days_before y <= total -> exists z, y <= z /\ days_before z <= total < days_before (z + 1).
Proof.
  remember (Z.to_nat (total - days_before y)) as n eqn:Hn.
  revert y Hn. induction n as [n IH] using lt_wf_ind. intros y -> Hy.
  pose proof (days_before_succ y). pose proof (days_in_year_bounds y).
  destruct (decide (total < days_before (y + 1))); [by exists y|].
  destruct (IH (Z.to_nat (total - days_before (y + 1)))) with (y + 1) as (z & ? & ?);
    [lia..|]. exists z. lia.
Qed.

Lemma days_before_mono y z : y <= z -> days_before y <= days_before z.
Proof.
  intros H. replace z with (y + Z.of_nat (Z.to_nat (z - y))) by lia.
  generalize (Z.to_nat (z - y)) as n. induction n as [|n IH]; [by rewrite Z.add_0_r|].
  replace (y + Z.of_nat (S n)) with (y + Z.of_nat n + 1) by lia.
  rewrite days_before_succ. pose proof (days_in_year_bounds (y + Z.of_nat n)). lia.
Qed.

Lemma gregorian_year_unique secs y z : gregorian_year secs y -> gregorian_year secs z -> y = z.
Proof.
  unfold gregorian_year. intros ??.
  destruct (decide (y < z)) as [|]; [pose proof (days_before_mono (y + 1) z); lia|].
  destruct (decide (z < y)) as [|]; [pose proof (days_before_mono (z + 1) y); lia|lia].
Qed.

(** The loop stops at the year the day falls in, or past the last [u32]. *)
Lemma year_loop_spec fuel days year y :
  0 <= days < 365 * Z.of_nat fuel -> year <= y -> year <= u32_max ->
  days_before y <= days_before year + days < days_before (y + 1) ->
  year_loop fuel days year =
    Some (if decide (y <= u32_max) then Ok y else Err (VotingErr ProposalIdOverflow)).
Proof.
  revert days year. induction fuel as [|fuel IH]; intros days year Hd Hy Hm Ht; [lia|].
  pose proof (days_in_year_bounds year). pose proof (days_before_succ year). simpl.
  destruct (decide (year = y)) as [->|Hne].
  - rewrite !decide_False, decide_True by lia. done.
  - pose proof (days_before_mono (year + 1) y). rewrite decide_True by lia.
    unfold checked_add. destruct (decide (year + 1 <= u32_max)).
    + apply IH; lia.
    + by rewrite decide_False by lia.
Qed.

#[local] Arguments year_loop : simpl never.

Lemma unix_seconds_to_year_at secs y :
  0 <= secs -> gregorian_year secs y ->
  unix_seconds_to_year secs =
    if decide (y <= u16_max) then Ok y else Err (VotingErr ProposalIdOverflow).
Proof.
  intros Hs Hy. unfold gregorian_year, unix_seconds_to_year in *.
  set (days := secs / SECS_PER_DAY) in *.
  assert (0 <= days) by (apply Z.div_pos; unfold SECS_PER_DAY; lia).
  set (cycles := days / DAYS_PER_400_YEARS). set (rest := days mod DAYS_PER_400_YEARS).
  assert (0 <= cycles) by (apply Z.div_pos; unfold DAYS_PER_400_YEARS; lia).
  assert (Hrest : 0 <= rest < DAYS_PER_400_YEARS) by (apply Z.mod_pos_bound; done).
  assert (Hdays : days = DAYS_PER_400_YEARS * cycles + rest) by (apply Z.div_mod; done).
  assert (Hstart : days_before (1970 + 400 * cycles) + rest = days).
  { rewrite days_before_cycle. change (days_before 1970) with 0. lia. }
  assert (Hle : 1970 + 400 * cycles <= y).
  { destruct (decide (y < 1970 + 400 * cycles)); [|lia].
    pose proof (days_before_mono (y + 1) (1970 + 400 * cycles)). lia. }
  assert (Hm : u16_max < u32_max) by done.
  unfold bounded_uint, checked_mul, checked_add.
  destruct (decide (cycles <= u32_max)); simpl; [|by rewrite decide_False by lia].
  destruct (decide (cycles * 400 <= u32_max)); simpl; [|by rewrite decide_False by lia].
  destruct (decide (1970 + cycles * 400 <= u32_max)); simpl; [|by rewrite decide_False by lia].
  replace (cycles * 400) with (400 * cycles) by lia.
  rewrite (year_loop_spec _ _ _ y); [| |lia..].
  - simpl. destruct (decide (y <= u32_max)); simpl; [by case_decide|].
    by rewrite decide_False by lia.
  - change (365 * Z.of_nat YEAR_FUEL) with 146730. unfold DAYS_PER_400_YEARS in Hrest. lia.
Qed.

(** C22: the year of a proposal is the UTC Gregorian year of the block
    time, and the loop that finds it ends within its fuel: the only failure is
    a year that does not fit the [u16] of the display number. *)
Theorem unix_seconds_to_year_gregorian (secs : Z) (Hs : 0 <= secs) :
  exists y, gregorian_year secs y /\ (forall z, gregorian_year secs z -> z = y) /\
    unix_seconds_to_year secs =
      if decide (y <= u16_max) then Ok y else Err (VotingErr ProposalIdOverflow).
Proof.
  destruct (gregorian_exists 1970 (secs / SECS_PER_DAY)) as (y & _ & Hy).
  { apply Z.div_pos; unfold SECS_PER_DAY; lia. }
  exists y. split; [done|]. split; [|by apply unix_seconds_to_year_at].
  intros z Hz. by apply (gregorian_year_unique secs).
Qed.

Lemma unix_seconds_to_year_mono secs secs' y' :
  0 <= secs <= secs' -> unix_seconds_to_year secs' = Ok y' ->
  exists y, unix_seconds_to_year secs = Ok y /\ y <= y'.
Proof.
  intros Hs Hy'.
  assert (Hd : forall x, 0 <= x -> days_before 1970 <= x / SECS_PER_DAY).
  { intros x Hx. change (days_before 1970) with 0. apply Z.div_pos; unfold SECS_PER_DAY; lia. }
  destruct (gregorian_exists 1970 (secs / SECS_PER_DAY)) as (y & _ & Hy); [apply Hd; lia|].
  destruct (gregorian_exists 1970 (secs' / SECS_PER_DAY)) as (z & _ & Hz); [apply Hd; lia|].
  rewrite (unix_seconds_to_year_at secs' z) in Hy' by (done || lia).
  case_decide; [|done]. injection Hy' as <-.
  assert (y <= z).
  { destruct (decide (y <= z)); [done|]. pose proof (days_before_mono (z + 1) y).
    assert (secs / SECS_PER_DAY <= secs' / SECS_PER_DAY)
      by (apply Z.div_le_mono; unfold SECS_PER_DAY; lia). lia. }
  exists y. rewrite (unix_seconds_to_year_at secs y) by (done || lia).
  rewrite decide_True by lia. done.
Qed.

Lemma unix_seconds_to_year_gregorian_witness :
  exists y, gregorian_year 1798761599 y /\ (forall z, gregorian_year 1798761599 z -> z = y) /\
    unix_seconds_to_year 1798761599 =
      if decide (y <= u16_max) then Ok y else Err (VotingErr ProposalIdOverflow).
Proof. apply (unix_seconds_to_year_gregorian 1798761599). lia. Defined.

(** The last second of 2026 and the first of 2027. *)
Example new_year_boundary :
  unix_seconds_to_year 1798761599 = Ok 2026 /\ unix_seconds_to_year 1798761600 = Ok 2027.
Proof. by vm_compute. Qed.

(** ** Identifiers are never reused *)

(** Keys below the counter, and the numbers of the current year below the
    year's counter; two proposals never share a display number. *)
Record ids_wf (g : engine) : Prop := {
  ids_below : forall id m, ProposalDisplayId g !! id = Some m -> 0 <= id < NextProposalId g;
  ids_year : forall id m, ProposalDisplayId g !! id = Some m ->
    year m <= CurrentProposalYear g /\ 0 <= seq_in_year m /\
    (year m = CurrentProposalYear g -> seq_in_year m < YearProposalCounter g);
  ids_inj : forall id1 id2 m, ProposalDisplayId g !! id1 = Some m ->
    ProposalDisplayId g !! id2 = Some m -> id1 = id2;
  ids_next : 0 <= NextProposalId g;
  ids_counter : 0 <= YearProposalCounter g;
}.

Section Unique.
Context {W : Type}.
Implicit Types s : rt W.

(** What a successful allocation did. *)
Lemma allocate_Ok s id s' :
  allocate_proposal_id s = (Ok id, s') ->
  exists y, unix_seconds_to_year (now_ms s / 1000) = Ok y /\
    id = NextProposalId (ve s) /\ NextProposalId (ve s') = id + 1 /\ id + 1 <= u64_max /\
    CurrentProposalYear (ve s') = y /\
    (let seq := if decide (CurrentProposalYear (ve s) = y)
                then YearProposalCounter (ve s) else 0 in
     YearProposalCounter (ve s') = seq + 1 /\
     ProposalDisplayId (ve s') =
       <[id := {| year := y; seq_in_year := seq |}]> (ProposalDisplayId (ve s))) /\
    Proposals (ve s') = Proposals (ve s).
Proof.
  unfold allocate_proposal_id. intros H. run_inv.
  case_decide; run_inv; eexists; (split; [eassumption|]);
    rewrite ?decide_True, ?decide_False by done; split_and!; done.
Qed.

(** The outcomes of an allocation on the identifier storage. *)
Lemma allocate_Err s e s' :
  allocate_proposal_id s = (Err e, s') ->
  exists n, ve s' = set_NextProposalId (fun _ => n) (ve s) /\ NextProposalId (ve s) <= n.
Proof.
  unfold allocate_proposal_id, bounded_uint, checked_add. autorewrite with run.
  assert (Hrefl : ve s = set_NextProposalId (fun _ => NextProposalId (ve s)) (ve s)).
  { by destruct s as [? ? ? []]. }
  destruct (decide (now_ms s / 1000 <= u64_max)); autorewrite with run.
  2: { intros [= _ <-]. by eexists. }
  destruct (unix_seconds_to_year _); simpl; autorewrite with run.
  2: { intros [= _ <-]. by eexists. }
  destruct (decide (NextProposalId (ve s) + 1 <= u64_max)); autorewrite with run.
  2: { intros [= _ <-]. by eexists. }
  case_decide; [|done]. rewrite bind_assoc. autorewrite with run.
  case_decide; autorewrite with run; [done|]. intros [= _ <-]. simpl.
  eexists. split; [done|lia].
Qed.

Lemma ids_wf_next (g : engine) n :
  NextProposalId g <= n -> ids_wf g -> ids_wf (set_NextProposalId (fun _ => n) g).
Proof.
  intros Hn []. split; simpl; eauto; [|lia].
  intros id m Hm. specialize (ids_below0 id m Hm). lia.
Qed.

Lemma allocate_wf s :
  ids_wf (ve s) ->
  (forall y, unix_seconds_to_year (now_ms s / 1000) = Ok y -> CurrentProposalYear (ve s) <= y) ->
  ids_wf (ve (allocate_proposal_id s).2) /\
  forall id s', allocate_proposal_id s = (Ok id, s') ->
    id = NextProposalId (ve s) /\ NextProposalId (ve s') = id + 1 /\
    ProposalDisplayId (ve s) !! id = None /\
    exists m, ProposalDisplayId (ve s') = <[id := m]> (ProposalDisplayId (ve s)) /\
      unix_seconds_to_year (now_ms s / 1000) = Ok (year m) /\
      forall id', ProposalDisplayId (ve s) !! id' <> Some m.
Proof.
  intros Hwf Hclock. pose proof Hwf as [Hb Hy Hi Hn Hc].
  destruct (allocate_proposal_id s) as [[id|e] s'] eqn:Hrun; simpl.
  2: { apply allocate_Err in Hrun as (n & -> & Hle). split; [|done]. by apply ids_wf_next. }
  apply allocate_Ok in Hrun as (y & Hyear & -> & Hnext & Hmax & Hcur & [Hcnt Hdisp] & _).
  specialize (Hclock y Hyear).
  set (seq := if decide _ then _ else _) in *. assert (0 <= seq) by (unfold seq; case_decide; lia).
  set (m := {| year := y; seq_in_year := seq |}) in *.
  assert (Hnone : ProposalDisplayId (ve s) !! NextProposalId (ve s) = None).
  { destruct (_ !! _) as [m'|] eqn:Hl; [|done]. apply Hb in Hl. lia. }
  assert (Hnew : forall id', ProposalDisplayId (ve s) !! id' <> Some m).
  { intros id' Hl. destruct (Hy _ _ Hl) as (H1 & H2 & H3). simpl in *.
    unfold seq in *. case_decide; lia. }
  split.
  - simpl. split; rewrite ?Hdisp, ?Hnext, ?Hcur, ?Hcnt; [| | |lia|lia].
    + intros id m' [[<- <-]|[_ Hl]]%lookup_insert_Some; [lia|]. apply Hb in Hl. lia.
    + intros id m' [[<- <-]|[_ Hl]]%lookup_insert_Some; [simpl; lia|].
      destruct (Hy _ _ Hl) as (? & ? & ?). unfold seq. case_decide; lia.
    + intros id1 id2 m'. rewrite !lookup_insert_Some. naive_solver.
  - intros id s'' [= <- <-]. split_and!; [done..|]. by exists m.
Qed.

(** As long as the clock does not fall back to an earlier year,
    allocation keeps the identifiers well formed whether it succeeds or
    fails; a new proposal gets the next primary key, one no proposal had,
    and a display number no other proposal carries. *)
Theorem allocate_proposal_id_fresh (s : rt W) (Hwf : ids_wf (ve s))
    (Hclock : forall y, unix_seconds_to_year (now_ms s / 1000) = Ok y ->
      CurrentProposalYear (ve s) <= y) :
  ids_wf (ve (allocate_proposal_id s).2) /\
  forall id s', allocate_proposal_id s = (Ok id, s') ->
    id = NextProposalId (ve s) /\ NextProposalId (ve s') = id + 1 /\
    ProposalDisplayId (ve s) !! id = None /\
    exists m, ProposalDisplayId (ve s') = <[id := m]> (ProposalDisplayId (ve s)) /\
      unix_seconds_to_year (now_ms s / 1000) = Ok (year m) /\
      forall id', ProposalDisplayId (ve s) !! id' <> Some m.
Proof. by apply allocate_wf. Qed.
End Unique.

Lemma ids_wf_empty : ids_wf engine_empty.
Proof. split; simpl; [intros ??; by rewrite lookup_empty..|done|done]. Qed.

Lemma allocate_proposal_id_fresh_witness :
  let s := genesis_at 1 1798761599000 tt in
  ids_wf (ve (allocate_proposal_id s).2) /\
  forall id s', allocate_proposal_id s = (Ok id, s') ->
    id = NextProposalId (ve s) /\ NextProposalId (ve s') = id + 1 /\
    ProposalDisplayId (ve s) !! id = None /\
    exists m, ProposalDisplayId (ve s') = <[id := m]> (ProposalDisplayId (ve s)) /\
      unix_seconds_to_year (now_ms s / 1000) = Ok (year m) /\
      forall id', ProposalDisplayId (ve s) !! id' <> Some m.
Proof.
  apply (allocate_proposal_id_fresh (genesis_at 1 1798761599000 tt)); [apply ids_wf_empty|].
  intros y H. vm_compute in H. by injection H as <-.
Defined.
