(* ===== verification/Locks.v ===== *)
(** * Active-proposal quota and proposal mutexes
      ([votingengine/src/limit.rs], [votingengine/src/mutex.rs])

    A subject holds at most [MaxActiveProposals] active proposals. On the same
    subject regular proposals may run side by side, while a proposal that
    changes the set of administrators must be alone. Each lock is counted in
    the subject's mutex and recorded in the bindings of the proposal. *)
From S2P Require Import Prelude Cid Types State Interfaces Runtime.

Section Locks.
Context `{Wt : Weights} `{Cfg : !Config} {W : Type}.
Implicit Types s : rt W.

(** ** Quota of active proposals *)

Definition active_proposals (g : engine) (subject : ProposalSubject) : list Z :=
  default [] (ActiveProposalsBySubject g !! subject).

Definition try_add_active_proposal (subject : ProposalSubject) (proposal_id : Z) : RM W unit :=
  ids ← gets (fun s => active_proposals (ve s) subject);
  ensure (bool_decide (Z.of_nat (length ids) < MaxActiveProposals))
    (VotingErr ActiveProposalLimitReached) ;;
  ids ← ok_or (try_push MaxActiveProposals proposal_id ids)
    (VotingErr ActiveProposalLimitReached);
  modify (set_ve (set_ActiveProposalsBySubject (insert subject ids))).

Definition try_add_active_proposals (subjects : list ProposalSubject) (proposal_id : Z)
    : RM W unit :=
  for_each (fun subject => try_add_active_proposal subject proposal_id) subjects.

Definition remove_active_proposal (subject : ProposalSubject) (proposal_id : Z)
    (g : engine) : engine :=
  set_ActiveProposalsBySubject
    (insert subject (filter (fun id => id <> proposal_id) (active_proposals g subject))) g.

Definition remove_active_proposals (subjects : list ProposalSubject) (proposal_id : Z)
    (g : engine) : engine :=
  fold_left (fun g subject => remove_active_proposal subject proposal_id g) subjects g.

Definition active_proposal_count (g : engine) (subject : ProposalSubject) : Z :=
  Z.of_nat (length (active_proposals g subject)).

(** ** Mutexes *)

(** The closure that takes the lock in the state of the subject's mutex. *)
Definition lock_mutex (proposal_id : Z) (kind : InternalProposalMutexKind)
    (state : InternalProposalMutexState) : result DispatchError InternalProposalMutexState :=
  match kind with
  | Regular =>
      guard_ok (bool_decide (admin_set_mutation_proposal state = None))
        (VotingErr AdminSetMutationProposalActive) ;;
      count ← opt_ok (checked_add u32_max (regular_active_count state) 1)
        (VotingErr InternalProposalMutexOverflow);
      Ok {| admin_set_mutation_proposal := admin_set_mutation_proposal state;
            regular_active_count := count |}
  | AdminSetMutationExclusive =>
      guard_ok (bool_decide (admin_set_mutation_proposal state = None))
        (VotingErr AdminSetMutationProposalActive) ;;
      guard_ok (bool_decide (regular_active_count state = 0))
        (VotingErr RegularInternalProposalActive) ;;
      Ok {| admin_set_mutation_proposal := Some proposal_id;
            regular_active_count := regular_active_count state |}
  end.

Definition mutex_bindings (g : engine) (proposal_id : Z) : list InternalProposalMutexBinding :=
  default [] (ProposalMutexBindings g !! proposal_id).

Definition acquire_internal_proposal_mutex (proposal_id : Z) (subject : ProposalSubject)
    (kind : InternalProposalMutexKind) : RM W unit :=
  state ← gets (fun s => default mutex_state_default
    (InternalProposalMutexes (ve s) !! subject));
  state ← from_result (lock_mutex proposal_id kind state);
  modify (set_ve (set_InternalProposalMutexes (insert subject state))) ;;
  bindings ← gets (fun s => mutex_bindings (ve s) proposal_id);
  bindings ← ok_or
    (try_push MaxInternalProposalMutexBindings
      {| binding_subject := subject; binding_kind := kind |} bindings)
    (VotingErr TooManyInternalProposalMutexBindings);
  modify (set_ve (set_ProposalMutexBindings (insert proposal_id bindings))).

(** One binding given back: the [mutate_exists] closure. *)
Definition release_binding (proposal_id : Z)
    (m : gmap ProposalSubject InternalProposalMutexState)
    (binding : InternalProposalMutexBinding) : gmap ProposalSubject InternalProposalMutexState :=
  match m !! binding_subject binding with
  | None => m
  | Some state =>
      let state :=
        match binding_kind binding with
        | Regular =>
            {| admin_set_mutation_proposal := admin_set_mutation_proposal state;
               regular_active_count := saturating_sub (regular_active_count state) 1 |}
        | AdminSetMutationExclusive =>
            if decide (admin_set_mutation_proposal state = Some proposal_id) then
              {| admin_set_mutation_proposal := None;
                 regular_active_count := regular_active_count state |}
            else state
        end in
      if mutex_is_empty state then delete (binding_subject binding) m
      else <[binding_subject binding := state]> m
  end.

Definition release_internal_proposal_mutexes (proposal_id : Z) (g : engine) : engine :=
  let bindings := mutex_bindings g proposal_id in
  set_InternalProposalMutexes (fun m => fold_left (release_binding proposal_id) bindings m)
    (set_ProposalMutexBindings (delete proposal_id) g).

Definition ensure_admin_set_mutation_lock_owner (subject : ProposalSubject)
    (proposal_id : Z) : RM W unit :=
  state ← gets (fun s => InternalProposalMutexes (ve s) !! subject);
  state ← ok_or state (VotingErr InternalProposalMutexOwnerMismatch);
  ensure (bool_decide (admin_set_mutation_proposal state = Some proposal_id))
    (VotingErr InternalProposalMutexOwnerMismatch).
End Locks.

(** ** Well-formed quotas *)

Definition active_wf `{Config} (g : engine) : Prop :=
  forall subject, active_proposal_count g subject <= MaxActiveProposals.

(** ** Well-formed mutexes *)

(** What the mutex of a subject says; an absent mutex is the default one. *)
Definition admin_lock (m : gmap ProposalSubject InternalProposalMutexState)
    (subject : ProposalSubject) : option Z :=
  admin_set_mutation_proposal (default mutex_state_default (m !! subject)).
Definition regular_locks (m : gmap ProposalSubject InternalProposalMutexState)
    (subject : ProposalSubject) : Z :=
  regular_active_count (default mutex_state_default (m !! subject)).

(** How many bindings of one kind on one subject a list holds, and all
    proposals together. *)
Definition count_in (kind : InternalProposalMutexKind) (subject : ProposalSubject)
    (l : list InternalProposalMutexBinding) : Z :=
  Z.of_nat (length (filter
    (fun b => b = {| binding_subject := subject; binding_kind := kind |}) l)).

Definition held (kind : InternalProposalMutexKind) (subject : ProposalSubject)
    (bindings : gmap Z (list InternalProposalMutexBinding)) : Z :=
  map_fold (fun _ l acc => count_in kind subject l + acc) 0 bindings.

(** The mutexes are exactly the bindings, counted: a regular count is the
    number of regular bindings, an administrator lock is the one exclusive
    binding there is, the two exclude each other, and no empty mutex stays. *)
Record mutex_wf (g : engine) : Prop := {
  mutex_regular : forall subject,
    regular_locks (InternalProposalMutexes g) subject =
    held Regular subject (ProposalMutexBindings g);
  mutex_admin : forall subject,
    held AdminSetMutationExclusive subject (ProposalMutexBindings g) =
    match admin_lock (InternalProposalMutexes g) subject with Some _ => 1 | None => 0 end;
  mutex_owner : forall subject p,
    admin_lock (InternalProposalMutexes g) subject = Some p ->
    {| binding_subject := subject; binding_kind := AdminSetMutationExclusive |}
      ∈ mutex_bindings g p;
  mutex_exclusive : forall subject,
    admin_lock (InternalProposalMutexes g) subject <> None ->
    regular_locks (InternalProposalMutexes g) subject = 0;
  mutex_nonempty : forall subject st,
    InternalProposalMutexes g !! subject = Some st -> mutex_is_empty st = false;
}.

(** ** Counting bindings *)

Section Counting.
Implicit Types (k : InternalProposalMutexKind) (subject : ProposalSubject)
  (bs : gmap Z (list InternalProposalMutexBinding)).

Lemma count_in_nonneg k subject l : 0 <= count_in k subject l.
Proof. unfold count_in. lia. Qed.

Lemma count_in_nil k subject : count_in k subject [] = 0.
Proof. done. Qed.

Lemma count_in_app k subject l1 l2 :
  count_in k subject (l1 ++ l2) = count_in k subject l1 + count_in k subject l2.
Proof. unfold count_in. rewrite filter_app, length_app. lia. Qed.

Lemma count_in_cons k subject b l :
  count_in k subject (b :: l) =
  (if decide (b = {| binding_subject := subject; binding_kind := k |}) then 1 else 0)
  + count_in k subject l.
Proof. unfold count_in. rewrite filter_cons. case_decide; simpl; lia. Qed.

Lemma count_in_pos k subject l :
  0 < count_in k subject l <-> {| binding_subject := subject; binding_kind := k |} ∈ l.
Proof.
  induction l as [|b l IH]; [by split; [|intros ?%elem_of_nil]|].
  rewrite count_in_cons, elem_of_cons. pose proof (count_in_nonneg k subject l).
  case_decide; naive_solver lia.
Qed.

Lemma held_empty k subject : held k subject ∅ = 0.
Proof. apply map_fold_empty. Qed.

Lemma held_delete k subject bs p :
  held k subject bs = count_in k subject (default [] (bs !! p)) + held k subject (delete p bs).
Proof.
  unfold held. destruct (bs !! p) as [l|] eqn:Hp; simpl.
  - apply (map_fold_delete_L (fun _ l acc => count_in k subject l + acc)); [|done].
    intros; lia.
  - by rewrite delete_id.
Qed.

Lemma held_insert k subject bs p l :
  held k subject (<[p := l]> bs) = count_in k subject l + held k subject (delete p bs).
Proof. rewrite (held_delete _ _ _ p), lookup_insert_eq, delete_insert_eq. done. Qed.

Lemma held_nonneg k subject bs : 0 <= held k subject bs.
Proof.
  unfold held. apply (map_fold_weak_ind (fun r _ => 0 <= r)); [done|].
  intros p l m r _ Hr. pose proof (count_in_nonneg k subject l). lia.
Qed.

(** Two holders of the same lock are counted twice. *)
Lemma held_two k subject bs p q :
  p <> q -> 0 < count_in k subject (default [] (bs !! p)) ->
  0 < count_in k subject (default [] (bs !! q)) -> 2 <= held k subject bs.
Proof.
  intros Hpq Hp Hq. rewrite (held_delete _ _ bs p), (held_delete _ _ (delete p bs) q).
  rewrite lookup_delete_ne by done. pose proof (held_nonneg k subject (delete q (delete p bs))).
  lia.
Qed.
End Counting.

(** ** Giving bindings back *)

Section Release.
Implicit Types (m : gmap ProposalSubject InternalProposalMutexState) (p : Z).

Definition no_empty m : Prop :=
  forall subject st, m !! subject = Some st -> mutex_is_empty st = false.

Lemma mutex_is_empty_true st :
  mutex_is_empty st = true <-> st = mutex_state_default.
Proof.
  unfold mutex_is_empty, mutex_state_default. destruct st as [a c]; simpl.
  rewrite andb_true_iff, !bool_decide_eq_true. naive_solver.
Qed.

(** Storing a state, or removing the entry when it is empty, reads back as
    the state. *)
Lemma store_or_remove m subject st subject' :
  default mutex_state_default
    ((if mutex_is_empty st then delete subject m else <[subject := st]> m) !! subject') =
  if decide (subject' = subject) then st else default mutex_state_default (m !! subject').
Proof.
  destruct (mutex_is_empty st) eqn:He; case_decide; subst.
  - rewrite lookup_delete_eq. apply mutex_is_empty_true in He. by subst.
  - by rewrite lookup_delete_ne.
  - by rewrite lookup_insert_eq.
  - by rewrite lookup_insert_ne.
Qed.

Lemma release_binding_no_empty p m b : no_empty m -> no_empty (release_binding p m b).
Proof.
  unfold release_binding. intros Hm. destruct (m !! _) as [st|]; [|done].
  match goal with |- no_empty (if mutex_is_empty ?x then _ else _) => set (st' := x) end.
  destruct (mutex_is_empty st') eqn:He; intros subject' st''.
  - rewrite lookup_delete_Some. naive_solver.
  - rewrite lookup_insert_Some. naive_solver.
Qed.

Lemma release_binding_regular p m b subject :
  regular_locks (release_binding p m b) subject =
  if decide (b = {| binding_subject := subject; binding_kind := Regular |})
  then saturating_sub (regular_locks m subject) 1 else regular_locks m subject.
Proof.
  unfold regular_locks, release_binding. destruct b as [bs []]; simpl;
    destruct (m !! bs) as [st|] eqn:Hm; rewrite ?store_or_remove; repeat case_decide;
    simplify_eq/=; rewrite ?Hm; simpl; try done; by case_decide.
Qed.

Lemma release_binding_admin p m b subject :
  admin_lock (release_binding p m b) subject =
  if decide (b = {| binding_subject := subject; binding_kind := AdminSetMutationExclusive |}
             /\ admin_lock m subject = Some p)
  then None else admin_lock m subject.
Proof.
  unfold admin_lock, release_binding. destruct b as [bs []]; simpl;
    destruct (m !! bs) as [st|] eqn:Hm; rewrite ?store_or_remove; repeat case_decide;
    destruct_and?; simplify_eq/=; rewrite ?Hm in *; simpl in *; try done; naive_solver.
Qed.

Lemma release_all_spec p l m :
  no_empty m ->
  no_empty (fold_left (release_binding p) l m) /\
  forall subject,
    (0 <= regular_locks m subject ->
     regular_locks (fold_left (release_binding p) l m) subject =
     Z.max 0 (regular_locks m subject - count_in Regular subject l)) /\
    admin_lock (fold_left (release_binding p) l m) subject =
    if decide (0 < count_in AdminSetMutationExclusive subject l
               /\ admin_lock m subject = Some p)
    then None else admin_lock m subject.
Proof.
  revert m. induction l as [|b l IH]; intros m Hm; cbn [fold_left].
  { split; [done|]. intros subject. split; [unfold count_in; simpl; lia|].
    case_decide as Hd; [destruct Hd as [Hd _]; by unfold count_in in Hd|done]. }
  destruct (IH (release_binding p m b)) as [H1 H2]; [by apply release_binding_no_empty|].
  split; [done|]. intros subject. destruct (H2 subject) as [Hr Ha].
  rewrite !count_in_cons. split.
  - intros H0. pose proof (count_in_nonneg Regular subject l).
    rewrite Hr; rewrite release_binding_regular; unfold saturating_sub; repeat case_decide; simplify_eq; lia.
  - rewrite Ha, release_binding_admin.
    pose proof (count_in_nonneg AdminSetMutationExclusive subject l).
    repeat case_decide; naive_solver lia.
Qed.
End Release.

(** ** Invariants of the operations *)

Section Invariants.
Context `{Wt : Weights} `{Cfg : !Config} {W : Type}.
Implicit Types s : rt W.

Lemma active_proposals_insert (g : engine) subject ids subject' :
  active_proposals (set_ActiveProposalsBySubject (insert subject ids) g) subject' =
  if decide (subject' = subject) then ids else active_proposals g subject'.
Proof.
  unfold active_proposals; simpl. case_decide; subst.
  - by rewrite lookup_insert_eq.
  - by rewrite lookup_insert_ne.
Qed.

Lemma remove_active_proposal_spec (g : engine) subject p subject' :
  active_proposals (remove_active_proposal subject p g) subject' =
  if decide (subject' = subject) then filter (fun id => id <> p) (active_proposals g subject')
  else active_proposals g subject'.
Proof.
  unfold remove_active_proposal. rewrite active_proposals_insert.
  repeat case_decide; by subst.
Qed.

Lemma remove_active_proposals_spec (g : engine) subjects p subject' :
  active_proposals (remove_active_proposals subjects p g) subject' =
  if decide (subject' ∈ subjects) then filter (fun id => id <> p) (active_proposals g subject')
  else active_proposals g subject'.
Proof.
  unfold remove_active_proposals. revert g.
  induction subjects as [|x l IH]; intros g; cbn [fold_left].
  { by rewrite decide_False by apply not_elem_of_nil. }
  rewrite IH, remove_active_proposal_spec.
  destruct (decide (subject' = x)) as [->|Hne].
  - rewrite (decide_True (P := x ∈ x :: l)) by set_solver. case_decide; [|done].
    rewrite list_filter_filter. apply list_filter_iff. naive_solver.
  - destruct (decide (subject' ∈ l)); [rewrite decide_True by set_solver; done|].
    rewrite decide_False by set_solver. done.
Qed.

Lemma remove_active_proposals_wf (g : engine) subjects p :
  active_wf g -> active_wf (remove_active_proposals subjects p g).
Proof.
  intros Hwf x. specialize (Hwf x). unfold active_proposal_count in *.
  rewrite remove_active_proposals_spec. case_decide; [|done].
  pose proof (length_filter (fun id => id <> p) (active_proposals g x)). lia.
Qed.

(** C20: the quota bounds what a subject may have open: adding a
    proposal keeps every subject within the limit and fails, without a
    write, exactly at the limit; removing keeps the bound and takes out the
    proposal and nothing else. *)
Theorem active_proposal_quota s subject p (Hwf : active_wf (ve s)) :
  (let '(r, s') := try_add_active_proposal subject p s in
   active_wf (ve s') /\
   (active_proposal_count (ve s) subject = MaxActiveProposals ->
    r = Err (VotingErr ActiveProposalLimitReached) /\ s' = s) /\
   (active_proposal_count (ve s) subject < MaxActiveProposals ->
    r = Ok tt /\
    active_proposals (ve s') subject = active_proposals (ve s) subject ++ [p] /\
    forall x, x <> subject -> active_proposals (ve s') x = active_proposals (ve s) x)) /\
  active_wf (remove_active_proposal subject p (ve s)) /\
  (forall q x, q ∈ active_proposals (remove_active_proposal subject p (ve s)) x <->
    q ∈ active_proposals (ve s) x /\ (x = subject -> q <> p)).
Proof.
  split; [|split].
  - unfold try_add_active_proposal, try_push. autorewrite with run.
    unfold active_proposal_count in *.
    destruct (decide (Z.of_nat (length (active_proposals (ve s) subject)) < MaxActiveProposals))
      as [Hlt|Hge].
    + rewrite bool_decide_true by done. autorewrite with run.
      simpl.
      split_and!; [|lia|].
      * intros x. unfold active_proposal_count. rewrite active_proposals_insert.
        case_decide; [|apply Hwf]. rewrite length_app. simpl. lia.
      * intros _. split; [done|]. rewrite active_proposals_insert, decide_True by done.
        split; [done|]. intros x Hx. by rewrite active_proposals_insert, decide_False.
    + rewrite bool_decide_false by done. autorewrite with run.
      split_and!; [done|done|lia].
  - intros x. specialize (Hwf x). unfold active_proposal_count in *.
    rewrite remove_active_proposal_spec. case_decide; [|done].
    pose proof (length_filter (fun id => id <> p) (active_proposals (ve s) x)). lia.
  - intros q x. rewrite remove_active_proposal_spec. case_decide.
    + rewrite list_elem_of_filter. naive_solver.
    + naive_solver.
Qed.

Lemma admin_lock_insert m subject st subject' :
  admin_lock (<[subject := st]> m) subject' =
  if decide (subject' = subject) then admin_set_mutation_proposal st
  else admin_lock m subject'.
Proof.
  unfold admin_lock. case_decide; subst; [by rewrite lookup_insert_eq|].
  by rewrite lookup_insert_ne.
Qed.

Lemma regular_locks_insert m subject st subject' :
  regular_locks (<[subject := st]> m) subject' =
  if decide (subject' = subject) then regular_active_count st else regular_locks m subject'.
Proof.
  unfold regular_locks. case_decide; subst; [by rewrite lookup_insert_eq|].
  by rewrite lookup_insert_ne.
Qed.

Lemma lock_mutex_Ok p kind st st' :
  lock_mutex p kind st = Ok st' ->
  admin_set_mutation_proposal st = None /\
  match kind with
  | Regular => st' = {| admin_set_mutation_proposal := None;
                        regular_active_count := regular_active_count st + 1 |}
               /\ regular_active_count st + 1 <= u32_max
  | AdminSetMutationExclusive =>
      regular_active_count st = 0 /\
      st' = {| admin_set_mutation_proposal := Some p; regular_active_count := 0 |}
  end.
Proof.
  unfold lock_mutex, guard_ok, checked_add. destruct kind;
    repeat (case_bool_decide || case_decide; simpl; try done); intros [= <-];
    repeat split; congruence.
Qed.

Lemma held_push k subject bs p b :
  held k subject (<[p := default [] (bs !! p) ++ [b]]> bs) =
  held k subject bs +
  if decide (b = {| binding_subject := subject; binding_kind := k |}) then 1 else 0.
Proof.
  rewrite held_insert, count_in_app, count_in_cons, (held_delete k subject bs p).
  rewrite count_in_nil. lia.
Qed.

Lemma acquire_mutex_wf s p subject kind s' :
  mutex_wf (ve s) ->
  acquire_internal_proposal_mutex p subject kind s = (Ok tt, s') -> mutex_wf (ve s').
Proof.
  intros [Hr Ha Ho Hx Hn]. unfold acquire_internal_proposal_mutex. intros H. run_inv.
  match goal with H : lock_mutex _ _ _ = _ |- _ => apply lock_mutex_Ok in H as [Hnone Hst] end.
  match goal with H : try_push _ _ _ = _ |- _ => apply try_push_Some in H as [_ ->] end.
  change (admin_lock (InternalProposalMutexes (ve s)) subject = None) in Hnone.
  change (regular_active_count (default mutex_state_default
    (InternalProposalMutexes (ve s) !! subject)))
    with (regular_locks (InternalProposalMutexes (ve s)) subject) in Hst.
  unfold mutex_bindings in *.
  split; simpl; intros x; unfold mutex_bindings; simpl;
    rewrite ?admin_lock_insert, ?regular_locks_insert, ?held_push.
  - destruct kind; destruct_and!; subst; repeat case_decide; simplify_eq/=;
      rewrite <- ?Hr; lia || congruence.
  - pose proof (Ha x). destruct kind; destruct_and!; subst; repeat case_decide; simplify_eq/=;
      rewrite ?Hnone in *; done || lia || congruence.
  - intros q Hq. destruct (decide (p = q)) as [<-|Hpq].
    + rewrite lookup_insert_eq; simpl. apply elem_of_app.
      destruct kind; destruct_and!; subst; case_decide; simplify_eq/=; eauto.
      right. by apply list_elem_of_singleton.
    + rewrite lookup_insert_ne by done. destruct kind; destruct_and!; subst; case_decide;
        simplify_eq/=; by apply Ho.
  - destruct kind; destruct_and!; subst; case_decide; simplify_eq/=; naive_solver.
  - intros st [[<- <-]|[_ Hl]]%lookup_insert_Some; [|by eapply Hn].
    destruct kind; destruct_and!; subst; apply not_true_is_false;
      rewrite mutex_is_empty_true; intros [=]. 
    pose proof (held_nonneg Regular subject (ProposalMutexBindings (ve s))) as Hh.
    rewrite <- Hr in Hh. lia.
Qed.

Lemma mutex_bindings_delete (g : engine) p q m :
  mutex_bindings (set_InternalProposalMutexes m
    (set_ProposalMutexBindings (delete p) g)) q =
  if decide (q = p) then [] else mutex_bindings g q.
Proof.
  unfold mutex_bindings; simpl. case_decide; subst.
  - by rewrite lookup_delete_eq.
  - by rewrite lookup_delete_ne.
Qed.

Lemma release_mutex_spec (g : engine) p :
  mutex_wf g ->
  let g' := release_internal_proposal_mutexes p g in
  no_empty (InternalProposalMutexes g') /\
  forall subject,
    regular_locks (InternalProposalMutexes g') subject =
      held Regular subject (delete p (ProposalMutexBindings g)) /\
    admin_lock (InternalProposalMutexes g') subject =
      if decide (admin_lock (InternalProposalMutexes g) subject = Some p) then None
      else admin_lock (InternalProposalMutexes g) subject.
Proof.
  intros [Hr Ha Ho Hx Hn] g'. unfold g', release_internal_proposal_mutexes; simpl.
  destruct (release_all_spec p (mutex_bindings g p) (InternalProposalMutexes g) Hn) as [H1 H2].
  split; [done|]. intros subject. destruct (H2 subject) as [H3 H4]. split.
  - pose proof (held_nonneg Regular subject (ProposalMutexBindings g)).
    rewrite H3, Hr by (rewrite Hr; done). rewrite (held_delete _ _ _ p).
    pose proof (held_nonneg Regular subject (delete p (ProposalMutexBindings g))).
    unfold mutex_bindings. lia.
  - rewrite H4. destruct (decide (admin_lock (InternalProposalMutexes g) subject = Some p)) as [Hl|].
    + rewrite decide_True; [done|]. split; [|done]. apply count_in_pos. by apply Ho.
    + rewrite decide_False; [done|]. naive_solver.
Qed.

Lemma release_mutex_wf (g : engine) p :
  mutex_wf g -> mutex_wf (release_internal_proposal_mutexes p g).
Proof.
  intros Hwf. destruct (release_mutex_spec g p Hwf) as [H1 H2].
  pose proof Hwf as [Hr Ha Ho Hx Hn].
  assert (Hcount : forall x, admin_lock (InternalProposalMutexes g) x = Some p ->
    held AdminSetMutationExclusive x (delete p (ProposalMutexBindings g)) = 0).
  { intros x Hp. pose proof (Ha x) as Hx1. rewrite Hp, (held_delete _ _ _ p) in Hx1.
    pose proof (held_nonneg AdminSetMutationExclusive x (delete p (ProposalMutexBindings g))).
    pose proof (proj2 (count_in_pos _ _ _) (Ho _ _ Hp)) as Hpos.
    unfold mutex_bindings in Hpos. lia. }
  assert (Hother : forall x, admin_lock (InternalProposalMutexes g) x <> Some p ->
    held AdminSetMutationExclusive x (delete p (ProposalMutexBindings g)) =
    held AdminSetMutationExclusive x (ProposalMutexBindings g)).
  { intros x Hp. pose proof (held_delete AdminSetMutationExclusive x
      (ProposalMutexBindings g) p) as Hd.
    pose proof (count_in_nonneg AdminSetMutationExclusive x
      (default [] (ProposalMutexBindings g !! p))) as Hc.
    destruct (decide (0 < count_in AdminSetMutationExclusive x
      (default [] (ProposalMutexBindings g !! p)))) as [Hpos|]; [|lia]. exfalso.
    pose proof (Ha x) as Hx1. destruct (admin_lock _ x) as [q|] eqn:Hq.
    - assert (2 <= held AdminSetMutationExclusive x (ProposalMutexBindings g)); [|lia].
      apply (held_two _ _ _ p q); [congruence|done|]. apply count_in_pos. by apply Ho.
    - pose proof (held_nonneg AdminSetMutationExclusive x (delete p (ProposalMutexBindings g))).
      lia. }
  split; [| | | |done]; intros x; destruct (H2 x) as [H3 H4]; rewrite ?H3, ?H4.
  - done.
  - simpl. case_decide; [by apply Hcount|]. rewrite Hother by done. apply Ha.
  - intros q Hq. case_decide as Hp; [done|]. unfold release_internal_proposal_mutexes.
    rewrite mutex_bindings_delete, decide_False by congruence. by apply Ho.
  - case_decide; [done|]. intros Hnn. specialize (Hx x Hnn). rewrite Hr in Hx.
    rewrite (held_delete _ _ _ p) in Hx.
    pose proof (count_in_nonneg Regular x (default [] (ProposalMutexBindings g !! p))).
    pose proof (held_nonneg Regular x (delete p (ProposalMutexBindings g))). lia.
Qed.
End Invariants.

(** ** Mutual exclusion *)

Section Exclusion.
Context `{Wt : Weights} `{Cfg : !Config} {W : Type}.
Implicit Types s : rt W.

(** Calls run as storage transactions: an acquisition that fails writes
    nothing. *)
Inductive lock_step : rt W -> rt W -> Prop :=
| step_acquire p subject kind r s s' :
    transact (acquire_internal_proposal_mutex p subject kind) s = (r, s') -> lock_step s s'
| step_release p s : lock_step s (set_ve (release_internal_proposal_mutexes p) s).

Lemma lock_step_wf s s' : lock_step s s' -> mutex_wf (ve s) -> mutex_wf (ve s').
Proof.
  intros [p subject kind [[]|e] s1 s2 Hr|p s1] Hwf.
  - apply (proj1 (transact_Ok _ _ _ _)) in Hr. exact (acquire_mutex_wf _ _ _ _ _ Hwf Hr).
  - apply transact_Err in Hr. by subst.
  - by apply release_mutex_wf.
Qed.

Lemma mutex_wf_none (g : engine) :
  InternalProposalMutexes g = ∅ -> ProposalMutexBindings g = ∅ -> mutex_wf g.
Proof.
  intros Hm Hb. split; intros x; rewrite ?Hm, ?Hb, ?held_empty;
    unfold admin_lock, regular_locks; rewrite ?lookup_empty; simpl; naive_solver.
Qed.

Lemma mutex_wf_conflict (g : engine) p q subject k :
  mutex_wf g ->
  {| binding_subject := subject; binding_kind := AdminSetMutationExclusive |}
    ∈ mutex_bindings g p ->
  {| binding_subject := subject; binding_kind := k |} ∈ mutex_bindings g q ->
  p = q /\ k = AdminSetMutationExclusive /\ admin_lock (InternalProposalMutexes g) subject = Some p.
Proof.
  intros [Hr Ha Ho Hx _] Hp Hq.
  apply count_in_pos in Hp, Hq. unfold mutex_bindings in *.
  pose proof (Ha subject) as Hs. pose proof Hs as Hs'.
  rewrite (held_delete _ _ _ p) in Hs'.
  pose proof (held_nonneg AdminSetMutationExclusive subject
    (delete p (ProposalMutexBindings g))).
  destruct (admin_lock _ subject) as [o|] eqn:Hl; [|lia].
  assert (o = p) as ->.
  { destruct (decide (o = p)) as [|Hne]; [done|].
    pose proof (proj2 (count_in_pos _ _ _) (Ho _ _ Hl)) as Hpos.
    pose proof (held_two _ _ _ o p Hne Hpos Hp). lia. }
  destruct k.
  - exfalso. pose proof (Hx subject) as H0. rewrite Hl, Hr, (held_delete _ _ _ q) in H0.
    pose proof (held_nonneg Regular subject (delete q (ProposalMutexBindings g))).
    specialize (H0 ltac:(done)). lia.
  - split; [|done]. destruct (decide (p = q)) as [|Hne]; [done|].
    pose proof (held_two _ _ _ p q Hne Hp Hq). lia.
Qed.

(** C19: from storage without mutexes, after any sequence of
    acquisitions (successful or not) and releases, a proposal that holds the
    administrator lock of a subject is the only holder of any lock on it,
    and the mutex names it as the owner. *)
Theorem mutex_exclusion s0 s p q subject k
    (Hmutexes : InternalProposalMutexes (ve s0) = ∅)
    (Hbindings : ProposalMutexBindings (ve s0) = ∅)
    (Hsteps : rtc lock_step s0 s)
    (Hp : {| binding_subject := subject; binding_kind := AdminSetMutationExclusive |}
      ∈ mutex_bindings (ve s) p)
    (Hq : {| binding_subject := subject; binding_kind := k |} ∈ mutex_bindings (ve s) q) :
  p = q /\ k = AdminSetMutationExclusive /\
  ensure_admin_set_mutation_lock_owner subject p s = (Ok tt, s).
Proof.
  assert (Hwf : mutex_wf (ve s)).
  { apply (rtc_preserves lock_step (fun s => mutex_wf (ve s)) lock_step_wf s0 s Hsteps).
    by apply mutex_wf_none. }
  destruct (mutex_wf_conflict _ _ _ _ _ Hwf Hp Hq) as (-> & -> & Hl).
  split_and!; [done..|]. unfold ensure_admin_set_mutation_lock_owner, admin_lock in *.
  autorewrite with run. destruct (_ !! subject) as [st|]; simpl in Hl; [|done].
  autorewrite with run. by rewrite bool_decide_true.
Qed.

(** On well-formed mutexes, taking a lock succeeds exactly when
    nothing conflicting is held (and the counters have room), failing with
    the error of the conflict; releasing a proposal gives back all its locks
    and only those, and frees the administrator locks it owned. *)
Theorem mutex_operations s p subject (Hwf : mutex_wf (ve s))
    (Hroom : Z.of_nat (length (mutex_bindings (ve s) p)) < MaxInternalProposalMutexBindings)
    (Hcount : held Regular subject (ProposalMutexBindings (ve s)) < u32_max) :
  let admin := admin_lock (InternalProposalMutexes (ve s)) subject in
  let regular := held Regular subject (ProposalMutexBindings (ve s)) in
  (acquire_internal_proposal_mutex p subject Regular s).1 =
    (if decide (admin = None) then Ok tt else Err (VotingErr AdminSetMutationProposalActive)) /\
  (acquire_internal_proposal_mutex p subject AdminSetMutationExclusive s).1 =
    (if decide (admin = None)
     then if decide (regular = 0) then Ok tt
          else Err (VotingErr RegularInternalProposalActive)
     else Err (VotingErr AdminSetMutationProposalActive)) /\
  (let g' := release_internal_proposal_mutexes p (ve s) in
   mutex_wf g' /\ mutex_bindings g' p = [] /\
   (forall q, q <> p -> mutex_bindings g' q = mutex_bindings (ve s) q) /\
   forall x, admin_lock (InternalProposalMutexes g') x =
     if decide (admin_lock (InternalProposalMutexes (ve s)) x = Some p) then None
     else admin_lock (InternalProposalMutexes (ve s)) x).
Proof.
  intros admin regular.
  assert (Hpush : forall b, try_push MaxInternalProposalMutexBindings b
    (mutex_bindings (ve s) p) = Some (mutex_bindings (ve s) p ++ [b])).
  { intros b. by apply try_push_Some. }
  pose proof (mutex_regular _ Hwf subject) as Hreg. unfold regular_locks in Hreg.
  assert (Hacq : forall k, (acquire_internal_proposal_mutex p subject k s).1 =
    match lock_mutex p k (default mutex_state_default
      (InternalProposalMutexes (ve s) !! subject)) with
    | Ok _ => Ok tt | Err e => Err e end).
  { intros k. unfold acquire_internal_proposal_mutex. autorewrite with run.
    destruct (lock_mutex _ _ _); simpl; autorewrite with run; [|done].
    unfold mutex_bindings in *. simpl. by rewrite Hpush. }
  split_and!.
  - rewrite Hacq. unfold lock_mutex, guard_ok, checked_add. simpl.
    unfold admin, admin_lock. case_bool_decide as Hd.
    + rewrite (decide_True (P := _ = None)) by done. simpl. rewrite Hreg.
      by rewrite decide_True by lia.
    + by rewrite (decide_False (P := _ = None)).
  - rewrite Hacq. unfold lock_mutex, guard_ok. simpl.
    unfold admin, admin_lock, regular. rewrite <- Hreg.
    repeat (case_bool_decide || case_decide); done.
  - split_and!; [by apply release_mutex_wf| | |intros x; by apply release_mutex_spec];
      unfold release_internal_proposal_mutexes; [|intros q Hq];
      rewrite mutex_bindings_delete; [by rewrite decide_True|by rewrite decide_False].
Qed.
End Exclusion.

(** ** Concrete runs *)

Definition with_active (subject : ProposalSubject) (ids : list Z) : rt unit :=
  set_ve (set_ActiveProposalsBySubject (insert subject ids)) (genesis_at 5 0 tt).

(** Ten open proposals are the limit of a personal account. *)
Lemma active_proposal_quota_witness :
  (try_add_active_proposal (PersonalAccount 7) 99
    (with_active (PersonalAccount 7) [0;1;2;3;4;5;6;7;8;9])).1
  = Err (VotingErr ActiveProposalLimitReached).
Proof.
  set (s := with_active (PersonalAccount 7) [0;1;2;3;4;5;6;7;8;9]).
  assert (Hwf : active_wf (ve s)).
  { intros x. unfold active_proposal_count, s, with_active. simpl.
    rewrite active_proposals_insert. by case_decide. }
  destruct (active_proposal_quota s (PersonalAccount 7) 99 Hwf) as [H _]. revert H.
  destruct (try_add_active_proposal _ _ s) as [r s'] eqn:E. intros (_ & H & _). simpl.
  by destruct H as [-> _].
Defined.

(** A run that takes the administrator lock for proposal 3. *)
Definition locked_by_3 : rt unit :=
  (acquire_internal_proposal_mutex 3 (PersonalAccount 7) AdminSetMutationExclusive
    (genesis_at 5 0 tt)).2.

Lemma mutex_exclusion_witness :
  3 = 3 /\ AdminSetMutationExclusive = AdminSetMutationExclusive /\
  ensure_admin_set_mutation_lock_owner (PersonalAccount 7) 3 locked_by_3 = (Ok tt, locked_by_3).
Proof.
  apply (mutex_exclusion (genesis_at 5 0 tt) locked_by_3 3 3 (PersonalAccount 7)).
  - reflexivity.
  - reflexivity.
  - apply rtc_once.
    apply (step_acquire 3 (PersonalAccount 7) AdminSetMutationExclusive (Ok tt)). reflexivity.
  - change (mutex_bindings (ve locked_by_3) 3) with
      [{| binding_subject := PersonalAccount 7; binding_kind := AdminSetMutationExclusive |}].
    by apply list_elem_of_singleton.
  - change (mutex_bindings (ve locked_by_3) 3) with
      [{| binding_subject := PersonalAccount 7; binding_kind := AdminSetMutationExclusive |}].
    by apply list_elem_of_singleton.
Defined.

Lemma mutex_operations_witness :
  (acquire_internal_proposal_mutex 4 (PersonalAccount 7) Regular locked_by_3).1
  = Err (VotingErr AdminSetMutationProposalActive).
Proof.
  assert (Hwf : mutex_wf (ve locked_by_3)).
  { apply (acquire_mutex_wf (genesis_at 5 0 tt) 3 (PersonalAccount 7)
      AdminSetMutationExclusive); [by apply mutex_wf_none|reflexivity]. }
  destruct (mutex_operations locked_by_3 4 (PersonalAccount 7) Hwf) as (H & _);
    [reflexivity|reflexivity|exact H].
Defined.
