(* ===== verification/Data.v ===== *)
(** * Proposal data, indexes and snapshots
      ([votingengine/src/data.rs], [index.rs], [snapshot.rs])

    Binding of the vote plan, of the owner and the business data (once, at
    creation), the four reverse indexes, the object store, and the frozen
    lists of voters: one per role subject of the plan, with the number of
    tickets per institution, and one per personal account. *)
From S2P Require Import Prelude Cid Types State Interfaces Runtime.

(** No two equal entries in a list: the nested index loops. *)
Fixpoint no_repeats {A} `{EqDecision A} (l : list A) : bool :=
  match l with
  | [] => true
  | x :: l => forallb (fun y => negb (bool_decide (x = y))) l && no_repeats l
  end.

Section Data.
Context `{Wt : Weights} `{Cfg : !Config} {W : Type} `{Prov : !Providers W}.
Implicit Types s : rt W.

(** ** Binding plan and data *)

Definition bind_vote_plan (proposal_id : Z) (vote_plan : VotePlan) : RM W unit :=
  found ← gets (fun s => bool_decide (is_Some (Proposals (ve s) !! proposal_id)));
  ensure found (VotingErr ProposalNotFound) ;;
  bound ← gets (fun s => bool_decide (is_Some (ProposalVotePlans (ve s) !! proposal_id)));
  ensure (negb bound) (VotingErr VotePlanAlreadyBound) ;;
  owned ← gets (fun s => bool_decide (is_Some (ProposalOwner (ve s) !! proposal_id)));
  ensure (negb owned) (VotingErr ProposalDataAlreadyRegistered) ;;
  modify (set_ve (set_ProposalVotePlans (insert proposal_id vote_plan))).

Definition bounded_module_tag (module_tag : string) : result DispatchError string :=
  opt_ok (bounded_bytes MaxModuleTagLen module_tag) (Other "ModuleTagTooLarge").

Definition register_proposal_indexes (proposal_id : Z)
    (institution_code : option InstitutionCode) (actor_cid_number : option CidNumber)
    (subject_cid_numbers : list CidNumber) (module_tag : string) (year : Z)
    (g : engine) : engine :=
  let g := match institution_code with
           | Some code => set_ProposalsByCode (union {[ (code, proposal_id) ]}) g
           | None => g
           end in
  let g := match actor_cid_number with
           | Some cid => set_ProposalsByCid (union {[ (cid, proposal_id) ]}) g
           | None => g
           end in
  let g := set_ProposalsByCid
    (fun m => fold_left (fun m cid => {[ (cid, proposal_id) ]} ∪ m) subject_cid_numbers m) g in
  let g := set_ProposalsByOwner (union {[ (module_tag, proposal_id) ]}) g in
  set_ProposalsByYear (union {[ (year, proposal_id) ]}) g.

Definition cleanup_proposal_indexes (proposal_id : Z) (g : engine) : engine :=
  let g := match Proposals g !! proposal_id with
    | Some proposal =>
        let g := match internal_code proposal with
                 | Some code => set_ProposalsByCode (fun m => m ∖ {[ (code, proposal_id) ]}) g
                 | None => g
                 end in
        let g := match actor_cid_number proposal with
                 | Some cid => set_ProposalsByCid (fun m => m ∖ {[ (cid, proposal_id) ]}) g
                 | None => g
                 end in
        set_ProposalsByCid
          (fun m => fold_left (fun m cid => m ∖ {[ (cid, proposal_id) ]})
                      (subject_cid_numbers proposal) m) g
    | None => g
    end in
  let g := match ProposalOwner g !! proposal_id with
    | Some owner => set_ProposalsByOwner (fun m => m ∖ {[ (owner, proposal_id) ]}) g
    | None => g
    end in
  let g := match ProposalDisplayId g !! proposal_id with
    | Some meta => set_ProposalsByYear (fun m => m ∖ {[ (year meta, proposal_id) ]}) g
    | None => g
    end in
  set_ProposalDisplayId (delete proposal_id) g.

Definition register_proposal_data (proposal_id : Z) (module_tag data : string)
    (created_at : Z) : RM W unit :=
  found ← gets (fun s => bool_decide (is_Some (Proposals (ve s) !! proposal_id)));
  ensure found (VotingErr ProposalNotFound) ;;
  registered ← gets (fun s =>
    bool_decide (is_Some (ProposalOwner (ve s) !! proposal_id))
    || bool_decide (is_Some (ProposalData (ve s) !! proposal_id)));
  ensure (negb registered) (VotingErr ProposalDataAlreadyRegistered) ;;
  owner ← from_result (bounded_module_tag module_tag);
  plan ← gets (fun s => ProposalVotePlans (ve s) !! proposal_id);
  match plan with
  | Some vote_plan =>
      ensure (bool_decide (plan_owner vote_plan = owner)) (VotingErr ProposalOwnerMismatch)
  | None => mret tt
  end ;;
  bounded ← ok_or (bounded_bytes MaxProposalDataLen data) (Other "ProposalDataTooLarge");
  modify (set_ve (set_ProposalOwner (insert proposal_id owner))) ;;
  modify (set_ve (set_ProposalData (insert proposal_id bounded))) ;;
  modify (set_ve (set_ProposalMeta
    (insert proposal_id {| created_at := created_at; passed_at := None |}))) ;;
  proposal ← gets (fun s => Proposals (ve s) !! proposal_id);
  proposal ← ok_or proposal (VotingErr ProposalNotFound);
  display ← gets (fun s => ProposalDisplayId (ve s) !! proposal_id);
  display ← ok_or display (VotingErr ProposalNotFound);
  modify (set_ve (register_proposal_indexes proposal_id (internal_code proposal)
    (actor_cid_number proposal) (subject_cid_numbers proposal) owner (year display))).

Definition get_proposal_data (g : engine) (proposal_id : Z) : option string :=
  ProposalData g !! proposal_id.

Definition is_proposal_owner (g : engine) (proposal_id : Z) (module_tag : string) : bool :=
  match ProposalOwner g !! proposal_id with
  | None => false
  | Some owner =>
      match bounded_module_tag module_tag with
      | Ok expected => bool_decide (owner = expected)
      | Err _ => false
      end
  end.

Definition store_proposal_object (proposal_id kind : Z) (data : string) : RM W unit :=
  object_len ← ok_or (bounded_uint u32_max (Z.of_nat (String.length data)))
    (Other "ProposalObjectTooLarge");
  bounded ← ok_or (bounded_bytes MaxProposalObjectLen data) (Other "ProposalObjectTooLarge");
  modify (set_ve (set_ProposalObject (insert proposal_id bounded))) ;;
  modify (set_ve (set_ProposalObjectMeta (insert proposal_id
    {| object_kind := kind; object_len := object_len; object_hash := hash_256 data |}))).

Definition get_proposal_object (g : engine) (proposal_id : Z) : option string :=
  ProposalObject g !! proposal_id.
Definition get_proposal_object_meta (g : engine) (proposal_id : Z)
    : option ProposalObjectMetadata := ProposalObjectMeta g !! proposal_id.

(** ** Snapshots of voters *)

Definition resolve_subject_voter (w : W) (subject : AuthorizationSubject) (who : AccountId)
    : option AccountId :=
  match subject with
  | Institution role_subject => resolve_institution_voter w (role_cid_number role_subject) who
  | PersonalMultisig _ => Some who
  end.

Definition is_subject_voter_in_snapshot (s : rt W) (proposal_id : Z)
    (subject : AuthorizationSubject) (who : AccountId) : bool :=
  match VoterSnapshot (ve s) !! (proposal_id, subject) with
  | None => false
  | Some voters =>
      match resolve_subject_voter (world s) subject who with
      | None => false
      | Some canonical => existsb (fun account => bool_decide (account = canonical)) voters
      end
  end.

Definition subject_voters_len (g : engine) (proposal_id : Z) (subject : AuthorizationSubject)
    : option Z := (fun l => Z.of_nat (length l)) <$> VoterSnapshot g !! (proposal_id, subject).

Definition institution_ticket_count (g : engine) (proposal_id : Z) (cid : CidNumber)
    : option Z := InstitutionTicketCountSnapshot g !! (proposal_id, cid).

Definition is_any_institution_voter_in_snapshot (s : rt W) (proposal_id : Z)
    (who : AccountId) : bool :=
  match ProposalVotePlans (ve s) !! proposal_id with
  | None => false
  | Some plan =>
      existsb (fun subject => is_institution subject
                 && is_subject_voter_in_snapshot s proposal_id subject who)
        (voter_subjects plan)
  end.

Definition ensure_valid_voter_snapshot (voters : list AccountId) : result DispatchError unit :=
  guard_ok (negb (bool_decide (voters = []))) (VotingErr MissingVoterSnapshot) ;;
  guard_ok (no_repeats voters) (VotingErr InvalidInstitution).

Definition ensure_valid_admin_snapshot (admins : list AccountId) : result DispatchError unit :=
  guard_ok (negb (bool_decide (admins = []))) (VotingErr MissingAdminSnapshot) ;;
  guard_ok (no_repeats admins) (VotingErr InvalidInstitution).

Definition snapshot_role_voters (proposal_id : Z) (subject : AuthorizationSubject)
    (voters : list AccountId) : RM W unit :=
  institution_cid ← (match subject with
    | Institution role_subject => mret (role_cid_number role_subject)
    | PersonalMultisig _ => throw (VotingErr InvalidVotePlan)
    end : RM W CidNumber);
  bound ← gets (fun s =>
    bool_decide (is_Some (VoterSnapshot (ve s) !! (proposal_id, subject))));
  ensure (negb bound) (VotingErr VotePlanAlreadyBound) ;;
  from_result (ensure_valid_voter_snapshot voters) ;;
  bounded ← ok_or (bounded_list MaxAdminsPerInstitution voters)
    (VotingErr InvalidInstitution);
  current ← gets (fun s => default 0
    (InstitutionTicketCountSnapshot (ve s) !! (proposal_id, institution_cid)));
  updated ← ok_or (checked_add u32_max current (Z.of_nat (length bounded)))
    (VotingErr InvalidInstitution);
  modify (set_ve (set_VoterSnapshot (insert (proposal_id, subject) bounded))) ;;
  modify (set_ve (set_InstitutionTicketCountSnapshot
    (insert (proposal_id, institution_cid) updated))).

Definition is_admin_in_snapshot (g : engine) (proposal_id : Z) (subject : ProposalSubject)
    (who : AccountId) : bool :=
  match AdminSnapshot g !! (proposal_id, subject) with
  | Some admins => existsb (fun a => bool_decide (a = who)) admins
  | None => false
  end.

Definition snapshot_admins_len (g : engine) (proposal_id : Z) (subject : ProposalSubject)
    : option Z := (fun l => Z.of_nat (length l)) <$> AdminSnapshot g !! (proposal_id, subject).

Definition write_admin_snapshot (proposal_id : Z) (subject : ProposalSubject)
    (admins : list AccountId) : RM W unit :=
  from_result (ensure_valid_admin_snapshot admins) ;;
  match bounded_list MaxAdminsPerInstitution admins with
  | Some bounded => modify (set_ve (set_AdminSnapshot (insert (proposal_id, subject) bounded)))
  | None => throw (VotingErr InvalidInstitution)
  end.

Definition snapshot_personal_admins (proposal_id : Z) (personal_account_id : AccountId)
    (pending_account : bool) : RM W unit :=
  admins ← gets (fun s =>
    if pending_account then get_pending_personal_admins (world s) personal_account_id
    else get_personal_admins (world s) personal_account_id);
  admins ← ok_or admins (VotingErr InvalidInstitution);
  write_admin_snapshot proposal_id (PersonalAccount personal_account_id) admins.
End Data.

(** ** Facts about snapshots *)

Lemma no_repeats_spec {A} `{EqDecision A} (l : list A) : no_repeats l = true <-> NoDup l.
Proof.
  induction l as [|x l IH]; simpl; [split; [constructor|done]|].
  rewrite andb_true_iff, IH, forallb_forall, NoDup_cons.
  split; intros [H ?]; split; [|done| |done].
  - intros Hin. apply list_elem_of_In, H in Hin. by rewrite bool_decide_true in Hin.
  - intros y Hy%list_elem_of_In. rewrite bool_decide_false; [done|]. naive_solver.
Qed.

(** The tickets of an institution, counted from the frozen role subjects. *)
Definition ticket_weight (pid : Z) (cid : CidNumber) (key : Z * AuthorizationSubject)
    (voters : list AccountId) : Z :=
  match key.2 with
  | Institution r =>
      if decide (key.1 = pid /\ role_cid_number r = cid) then Z.of_nat (length voters) else 0
  | PersonalMultisig _ => 0
  end.

Definition tickets_of (pid : Z) (cid : CidNumber)
    (m : gmap (Z * AuthorizationSubject) (list AccountId)) : Z :=
  map_fold (fun key voters acc => ticket_weight pid cid key voters + acc) 0 m.

(** Every frozen list is a non-empty list of distinct accounts, and the stored
    count of an institution is the number of its tickets. *)
Record snapshots_wf `{Config} (g : engine) : Prop := {
  voters_wf : forall k l, VoterSnapshot g !! k = Some l ->
    l <> [] /\ NoDup l /\ Z.of_nat (length l) <= MaxAdminsPerInstitution;
  admins_wf : forall k l, AdminSnapshot g !! k = Some l ->
    l <> [] /\ NoDup l /\ Z.of_nat (length l) <= MaxAdminsPerInstitution;
  tickets_wf : forall pid cid,
    default 0 (InstitutionTicketCountSnapshot g !! (pid, cid)) =
    tickets_of pid cid (VoterSnapshot g);
}.

Lemma tickets_of_insert pid cid k l m :
  m !! k = None -> tickets_of pid cid (<[k := l]> m) = ticket_weight pid cid k l + tickets_of pid cid m.
Proof.
  intros Hk. unfold tickets_of.
  apply (map_fold_insert_L (fun key voters acc => ticket_weight pid cid key voters + acc));
    [intros; lia|done].
Qed.

Section SnapshotTheorems.
Context `{Wt : Weights} `{Cfg : !Config} {W : Type} `{Prov : !Providers W}.
Implicit Types s : rt W.

Lemma ensure_valid_voter_snapshot_Ok l u :
  ensure_valid_voter_snapshot l = Ok u <-> l <> [] /\ NoDup l.
Proof.
  unfold ensure_valid_voter_snapshot, guard_ok. rewrite <- no_repeats_spec.
  destruct u. case_bool_decide; simpl; [naive_solver|].
  destruct (no_repeats l); naive_solver.
Qed.

Lemma ensure_valid_admin_snapshot_Ok l u :
  ensure_valid_admin_snapshot l = Ok u <-> l <> [] /\ NoDup l.
Proof.
  unfold ensure_valid_admin_snapshot, guard_ok. rewrite <- no_repeats_spec.
  destruct u. case_bool_decide; simpl; [naive_solver|].
  destruct (no_repeats l); naive_solver.
Qed.

Lemma bounded_list_Some {A} max (l l' : list A) :
  bounded_list max l = Some l' <-> l' = l /\ Z.of_nat (length l) <= max.
Proof. unfold bounded_list. case_decide; naive_solver. Qed.

Lemma snapshot_role_voters_Ok s pid subject l s' :
  snapshot_role_voters pid subject l s = (Ok tt, s') ->
  exists r, subject = Institution r /\ VoterSnapshot (ve s) !! (pid, subject) = None /\
    l <> [] /\ NoDup l /\ Z.of_nat (length l) <= MaxAdminsPerInstitution /\
    s' = set_ve (fun g =>
      set_InstitutionTicketCountSnapshot
        (insert (pid, role_cid_number r)
          (default 0 (InstitutionTicketCountSnapshot g !! (pid, role_cid_number r))
           + Z.of_nat (length l)))
        (set_VoterSnapshot (insert (pid, subject) l) g)) s.
Proof.
  unfold snapshot_role_voters. destruct subject as [r|]; [|by intros ?; run_inv].
  intros H. run_inv.
  match goal with H : ensure_valid_voter_snapshot _ = _ |- _ =>
    apply ensure_valid_voter_snapshot_Ok in H as [??] end.
  match goal with H : bounded_list _ _ = _ |- _ => apply bounded_list_Some in H as [-> ?] end.
  exists r. split_and!; try done. by apply eq_None_not_Some.
Qed.

Lemma ticket_weight_role pid cid pid' r l :
  ticket_weight pid cid (pid', Institution r) l =
  if decide ((pid', role_cid_number r) = (pid, cid)) then Z.of_nat (length l) else 0.
Proof. unfold ticket_weight; simpl. repeat case_decide; naive_solver. Qed.

Lemma snapshot_role_voters_wf s pid subject l s' :
  snapshots_wf (ve s) -> snapshot_role_voters pid subject l s = (Ok tt, s') ->
  snapshots_wf (ve s').
Proof.
  intros [Hv Ha Ht] (r & -> & Hn & H1 & H2 & H3 & ->)%snapshot_role_voters_Ok.
  split; simpl; [|done|].
  - intros k l' [[<- <-]|[_ Hl]]%lookup_insert_Some; [done|by eapply Hv].
  - intros pid' cid'. rewrite tickets_of_insert, ticket_weight_role, <- Ht by done.
    case_decide as Hd; [rewrite <- Hd, lookup_insert_eq; simpl; lia|].
    by rewrite lookup_insert_ne.
Qed.

Lemma snapshot_personal_admins_Ok s pid a pending s' :
  snapshot_personal_admins pid a pending s = (Ok tt, s') ->
  exists l, (if pending then get_pending_personal_admins (world s) a
             else get_personal_admins (world s) a) = Some l /\
    l <> [] /\ NoDup l /\ Z.of_nat (length l) <= MaxAdminsPerInstitution /\
    s' = set_ve (set_AdminSnapshot (insert (pid, PersonalAccount a) l)) s.
Proof.
  unfold snapshot_personal_admins, write_admin_snapshot. intros H. run_inv.
  match goal with H : ensure_valid_admin_snapshot _ = _ |- _ =>
    apply ensure_valid_admin_snapshot_Ok in H as [??] end.
  destruct (bounded_list _ _) as [b|] eqn:Hb; [|by run_inv].
  apply bounded_list_Some in Hb as [-> ?]. run_inv. eexists. split_and!; done.
Qed.

(** C21: freezing the voters of a role or the administrators of a
    personal account keeps every frozen list a non-empty, duplicate-free,
    bounded list and the ticket count of every institution equal to the
    number of tickets frozen for it, and never rewrites a frozen role. *)
Theorem snapshots_consistent s pid subject voters account pending
    (Hwf : snapshots_wf (ve s)) :
  (let '(r, s') := snapshot_role_voters pid subject voters s in
   snapshots_wf (ve s') /\
   (is_ok r = false -> s' = s) /\
   (is_ok r = true -> VoterSnapshot (ve s') =
      <[(pid, subject) := voters]> (VoterSnapshot (ve s)) /\
      VoterSnapshot (ve s) !! (pid, subject) = None) /\
   (is_Some (VoterSnapshot (ve s) !! (pid, subject)) -> is_institution subject = true ->
      r = Err (VotingErr VotePlanAlreadyBound))) /\
  (let '(r, s') := snapshot_personal_admins pid account pending s in
   snapshots_wf (ve s') /\ (is_ok r = false -> s' = s)).
Proof.
  split.
  - destruct (snapshot_role_voters pid subject voters s) as [r s'] eqn:Hrun.
    assert (Herr : is_ok r = false -> s' = s).
    { destruct r; [done|]. intros _. revert Hrun. unfold snapshot_role_voters.
      destruct subject; autorewrite with run; [|by intros [= _ <-]].
      destruct (negb _); autorewrite with run; [|by intros [= _ <-]].
      destruct (ensure_valid_voter_snapshot _); simpl; autorewrite with run; [|by intros [= _ <-]].
      destruct (bounded_list _ _); autorewrite with run; [|by intros [= _ <-]].
      destruct (checked_add _ _ _); autorewrite with run; [done|by intros [= _ <-]]. }
    split_and!; [|done| |].
    + destruct r as [[]|]; [by eapply snapshot_role_voters_wf|by rewrite Herr].
    + intros Hok. destruct r as [[]|]; [|done].
      apply snapshot_role_voters_Ok in Hrun as (r & -> & ? & _ & _ & _ & ->). done.
    + intros Hb Hi. destruct subject as [role|]; [|done]. revert Hrun.
      unfold snapshot_role_voters. autorewrite with run.
      rewrite bool_decide_true by done. simpl. autorewrite with run. by intros [= <- _].
  - destruct (snapshot_personal_admins pid account pending s) as [r s'] eqn:Hrun.
    destruct r as [[]|].
    + split; [|done]. apply snapshot_personal_admins_Ok in Hrun as (l & _ & ? & ? & ? & ->).
      destruct Hwf as [Hv Ha Ht]. split; simpl; [done| |done].
      intros k l' [[<- <-]|[_ Hl]]%lookup_insert_Some; [done|by eapply Ha].
    + assert (s' = s) as ->; [|done]. revert Hrun.
      unfold snapshot_personal_admins, write_admin_snapshot. autorewrite with run.
      destruct (if pending then _ else _); autorewrite with run; [|by intros [= _ <-]].
      destruct (ensure_valid_admin_snapshot _); simpl; autorewrite with run; [|by intros [= _ <-]].
      by destruct (bounded_list _ _); [|intros [= _ <-]].
Qed.
End SnapshotTheorems.

(** ** Facts about the indexes *)

(** Every index entry is justified by the record it was derived from, so the
    entries of a proposal can be found again when it is removed; but for the
    code of a legislation proposal, which the votes of its bodies rewrite. *)
Record index_wf (g : engine) : Prop := {
  code_wf : forall c p, (c, p) ∈ ProposalsByCode g -> p < NextProposalId g /\
    forall x, Proposals g !! p = Some x -> kind x <> PROPOSAL_KIND_LEGISLATION ->
      internal_code x = Some c;
  cid_wf : forall c p, (c, p) ∈ ProposalsByCid g ->
    exists x, Proposals g !! p = Some x /\
      (actor_cid_number x = Some c \/ c ∈ subject_cid_numbers x);
  owner_wf : forall o p, (o, p) ∈ ProposalsByOwner g -> ProposalOwner g !! p = Some o;
  year_wf : forall y p, (y, p) ∈ ProposalsByYear g ->
    exists m, ProposalDisplayId g !! p = Some m /\ year m = y;
}.

Definition indexed (g : engine) (p : Z) : Prop :=
  (exists c, (c, p) ∈ ProposalsByCode g) \/ (exists c, (c, p) ∈ ProposalsByCid g) \/
  (exists o, (o, p) ∈ ProposalsByOwner g) \/ (exists y, (y, p) ∈ ProposalsByYear g).

Section IndexTheorems.
Context `{Wt : Weights} `{Cfg : !Config} {W : Type}.
Implicit Types s : rt W.

Lemma elem_of_add_cids (p : Z) (l : list CidNumber) (m : gset (CidNumber * Z)) (c : CidNumber) (q : Z) :
  (c, q) ∈ fold_left (fun m cid => {[ (cid, p) ]} ∪ m) l m <->
  (c, q) ∈ m \/ (c ∈ l /\ q = p).
Proof.
  revert m. induction l as [|x l IH]; intros m; simpl; [set_solver|].
  rewrite IH. set_solver.
Qed.

Lemma elem_of_del_cids (p : Z) (l : list CidNumber) (m : gset (CidNumber * Z)) (c : CidNumber) (q : Z) :
  (c, q) ∈ fold_left (fun m cid => m ∖ {[ (cid, p) ]}) l m <->
  (c, q) ∈ m /\ ~ (c ∈ l /\ q = p).
Proof.
  revert m. induction l as [|x l IH]; intros m; simpl; [set_solver|].
  rewrite IH. set_solver.
Qed.

Lemma registered_wf (g : engine) p x owner data meta m :
  Proposals g !! p = Some x -> ProposalDisplayId g !! p = Some m ->
  ProposalOwner g !! p = None -> p < NextProposalId g -> index_wf g ->
  index_wf (register_proposal_indexes p (internal_code x) (actor_cid_number x)
    (subject_cid_numbers x) owner (year m)
    (set_ProposalMeta meta (set_ProposalData data
      (set_ProposalOwner (insert p owner) g)))).
Proof.
  intros Hx Hm Ho Hlt [H1 H2 H3 H4].
  assert (Hold : forall o q, (o, q) ∈ ProposalsByOwner g -> p <> q).
  { intros o q Hq ->. apply H3 in Hq. congruence. }
  unfold register_proposal_indexes.
  split; destruct (internal_code x) as [code|] eqn:Hc, (actor_cid_number x) as [a|] eqn:Ha;
    simpl; intros c q; rewrite ?elem_of_add_cids, ?elem_of_union, ?elem_of_singleton;
    intros Hin; destruct_or?; destruct_and?; simplify_eq; eauto;
    try (split; [done|]; intros; congruence);
    try (rewrite lookup_insert_ne by (by eapply Hold); eauto);
    try (by rewrite lookup_insert_eq); eauto 6.
Qed.

(** Business data, owner and creation time are bound to a
    proposal at most once, under the owner its vote plan names, and the
    proposal is then found through all four indexes; a failed binding of an
    already registered proposal changes nothing. *)
Theorem register_proposal_data_once s pid tag data now
    (Hwf : index_wf (ve s)) (Hid : pid < NextProposalId (ve s)) :
  (let '(r, s') := register_proposal_data pid tag data now s in
   is_ok r = true ->
     index_wf (ve s') /\ is_proposal_owner (ve s') pid tag = true /\
     get_proposal_data (ve s') pid = Some data /\ indexed (ve s') pid /\
     (forall p, ProposalVotePlans (ve s) !! pid = Some p -> plan_owner p = tag) /\
     (forall tag' data' now',
        register_proposal_data pid tag' data' now' s' =
        (Err (VotingErr ProposalDataAlreadyRegistered), s'))).
Proof.
  destruct (register_proposal_data pid tag data now s) as [r s'] eqn:Hrun.
  destruct r as [[]|]; [|done]. intros _.
  unfold register_proposal_data in Hrun. run_inv.
  match goal with H : _ || _ = false |- _ => apply orb_false_iff in H as [Hn1 Hn2] end.
  run_inv. apply eq_None_not_Some in Hn1, Hn2.
  match goal with H : bounded_module_tag _ = Ok ?o |- _ =>
    pose proof H as Htag; unfold bounded_module_tag, bounded_bytes in H; case_decide; [|done];
    injection H as <- end.
  match goal with H : bounded_bytes _ _ = Some _ |- _ => unfold bounded_bytes in H;
    case_decide; [|done]; injection H as <- end.
  match goal with H : match ProposalVotePlans (ve s) !! pid with _ => _ end _ = _ |- _ =>
    rename H into Hplan end.
  assert (Hp : forall p, ProposalVotePlans (ve s) !! pid = Some p -> plan_owner p = tag).
  { intros p Hp. rewrite Hp in Hplan. by run_inv. }
  assert (Hs : forall x, match ProposalVotePlans (ve s) !! pid with
    | Some vote_plan => ensure (bool_decide (plan_owner vote_plan = tag))
        (VotingErr ProposalOwnerMismatch)
    | None => mret tt end s = (Ok tt, x) -> x = s).
  { intros x Hx. destruct (ProposalVotePlans (ve s) !! pid); by run_inv. }
  apply Hs in Hplan. subst. simpl in *.
  split_and!; [by apply registered_wf| | | |done|].
  - unfold is_proposal_owner, register_proposal_indexes.
    repeat case_match; simplify_eq/=; try done; rewrite lookup_insert_eq in *; simplify_eq;
      try done; by apply bool_decide_eq_true.
  - unfold get_proposal_data, register_proposal_indexes.
    repeat case_match; simpl; by rewrite lookup_insert_eq.
  - right; right; left. exists tag. unfold register_proposal_indexes.
    repeat case_match; simpl; set_solver.
  - intros. unfold register_proposal_data, register_proposal_indexes.
    autorewrite with run.
    repeat case_match; simpl; rewrite (bool_decide_true (is_Some (Proposals _ !! _))) by eauto;
    autorewrite with run; simpl; rewrite lookup_insert_eq; rewrite bool_decide_true by eauto; done.
Qed.

Lemma cleanup_code_spec (g : engine) pid c q :
  (c, q) ∈ ProposalsByCode (cleanup_proposal_indexes pid g) <->
  (c, q) ∈ ProposalsByCode g /\
  ~ (q = pid /\ exists x, Proposals g !! pid = Some x /\ internal_code x = Some c).
Proof.
  assert (Heq : ProposalsByCode (cleanup_proposal_indexes pid g) =
    match x ← Proposals g !! pid; internal_code x with
    | Some c => ProposalsByCode g ∖ {[ (c, pid) ]}
    | None => ProposalsByCode g
    end).
  { unfold cleanup_proposal_indexes. by repeat (case_match; simplify_eq/=). }
  rewrite Heq. destruct (Proposals g !! pid) as [x|]; simpl; [|naive_solver].
  destruct (internal_code x) as [c'|] eqn:Hc; [|naive_solver].
  rewrite elem_of_difference, elem_of_singleton. naive_solver.
Qed.

Lemma cleanup_indexes_spec (g : engine) pid :
  index_wf g ->
  let g' := cleanup_proposal_indexes pid g in
  (forall c q, (c, q) ∈ ProposalsByCode g' <-> (c, q) ∈ ProposalsByCode g /\
     ~ (q = pid /\ exists x, Proposals g !! pid = Some x /\ internal_code x = Some c)) /\
  (forall c q, (c, q) ∈ ProposalsByCid g' <-> (c, q) ∈ ProposalsByCid g /\ q <> pid) /\
  (forall c q, (c, q) ∈ ProposalsByOwner g' <-> (c, q) ∈ ProposalsByOwner g /\ q <> pid) /\
  (forall c q, (c, q) ∈ ProposalsByYear g' <-> (c, q) ∈ ProposalsByYear g /\ q <> pid) /\
  ProposalDisplayId g' = delete pid (ProposalDisplayId g).
Proof.
  intros [H1 H2 H3 H4]. unfold cleanup_proposal_indexes.
  split_and!; [apply cleanup_code_spec|intros c q; specialize (H2 c q)
    |intros c q; specialize (H3 c q)|intros c q; specialize (H4 c q)|];
    repeat (case_match; simplify_eq/=); try done;
    rewrite ?elem_of_del_cids, ?elem_of_difference, ?elem_of_singleton;
    (split; [intros ?; destruct_and?; split; [done|]; intros ->;
             destruct_and?; naive_solver|]);
    intros [? ?]; repeat split; naive_solver.
Qed.

(** Removing the index entries of a proposal (not of the
    legislature) leaves none of its entries behind and keeps those of every
    other proposal. *)
Theorem cleanup_proposal_indexes_complete (g : engine) pid p (Hwf : index_wf g)
    (Hp : Proposals g !! pid = Some p) (Hk : kind p <> PROPOSAL_KIND_LEGISLATION) :
  let g' := cleanup_proposal_indexes pid g in
  ~ indexed g' pid /\ ProposalDisplayId g' !! pid = None /\
  forall q, q <> pid ->
    (indexed g' q <-> indexed g q) /\ ProposalDisplayId g' !! q = ProposalDisplayId g !! q.
Proof.
  intros g'; subst g'. destruct (cleanup_indexes_spec g pid Hwf) as (H1 & H2 & H3 & H4 & ->).
  unfold indexed. split_and!.
  - intros [[c [Hc Hn]%H1]|[[c [_ ?]%H2]|[[c [_ ?]%H3]|[c [_ ?]%H4]]]]; [|done..].
    apply Hn. split; [done|]. exists p. split; [done|]. by apply (code_wf _ Hwf c pid).
  - by rewrite lookup_delete_eq.
  - intros q Hq. rewrite lookup_delete_ne by done. split; [|done]. split.
    + intros [[c [? _]%H1]|[[c [? _]%H2]|[[c [? _]%H3]|[c [? _]%H4]]]]; eauto.
    + intros [[c Hc]|[[c Hc]|[[c Hc]|[c Hc]]]].
      * left. exists c. apply H1. split; [done|]. by intros [].
      * right; left. exists c. by apply H2.
      * right; right; left. exists c. by apply H3.
      * right; right; right. exists c. by apply H4.
Qed.
End IndexTheorems.

(** ** Concrete runs *)

Lemma snapshots_wf_empty : snapshots_wf engine_empty.
Proof. split; simpl; [intros ??; by rewrite lookup_empty..|]. done. Qed.

Definition chair : AuthorizationSubject :=
  Institution {| role_cid_number := "cid"; role_code := "chair" |}.

Lemma snapshots_consistent_witness :
  snapshots_wf (ve (snapshot_role_voters 1 chair [10; 11] (genesis_at 5 0 empty_world)).2).
Proof.
  destruct (snapshots_consistent (genesis_at 5 0 empty_world) 1 chair [10; 11] 7 false
    snapshots_wf_empty) as [H _].
  destruct (snapshot_role_voters _ _ _ _) as [r s'] eqn:E. exact (proj1 H).
Defined.

Definition sample_proposal : Proposal := {|
  kind := PROPOSAL_KIND_INTERNAL; stage := STAGE_INTERNAL; status := STATUS_VOTING;
  internal_code := Some NRC; actor_cid_number := Some "cid";
  execution_account_id := None; subject_cid_numbers := ["cid"; "other"];
  start_block := 5; end_block := 7205 |}.

(** A proposal as creation leaves it before its data is bound. *)
Definition created (s : rt sample_world) : rt sample_world :=
  set_ve (set_NextProposalId (fun _ => 2))
    (set_ve (set_ProposalDisplayId (insert 1 {| year := 2026; seq_in_year := 0 |}))
      (set_ve (set_Proposals (insert 1 sample_proposal)) s)).

Lemma index_wf_created : index_wf (ve (created (genesis_at 5 0 empty_world))).
Proof. split; simpl; set_solver. Qed.

Lemma register_proposal_data_once_witness :
  let s := created (genesis_at 5 0 empty_world) in
  (register_proposal_data 1 "tag" "data" 5 s).1 = Ok tt /\
  register_proposal_data 1 "other" "more" 6 (register_proposal_data 1 "tag" "data" 5 s).2
  = (Err (VotingErr ProposalDataAlreadyRegistered), (register_proposal_data 1 "tag" "data" 5 s).2).
Proof.
  intros s. split; [reflexivity|].
  pose proof (register_proposal_data_once s 1 "tag" "data" 5 index_wf_created eq_refl) as H.
  destruct (register_proposal_data 1 "tag" "data" 5 s) as [r s'] eqn:E.
  assert (Hr : is_ok r = true).
  { change r with ((r, s').1). rewrite <- E. reflexivity. }
  destruct (H Hr) as (_ & _ & _ & _ & _ & H'). apply H'.
Defined.

Lemma cleanup_proposal_indexes_complete_witness :
  ~ indexed (cleanup_proposal_indexes 1 (ve (created (genesis_at 5 0 empty_world)))) 1.
Proof.
  refine (proj1 (cleanup_proposal_indexes_complete
    (ve (created (genesis_at 5 0 empty_world))) 1 sample_proposal index_wf_created eq_refl _)).
  discriminate.
Defined.
