(* ===== verification/Cleanup.v ===== *)
(** * Delayed cleanup queues ([votingengine/src/cleanup.rs])

    A proposal that reached a final status is registered in a FIFO queue with
    the block its 90 days of retention end at. Due entries are moved to a
    second, fair queue that removes the proposal in bounded steps
    ([Maintenance.v]). *)
From S2P Require Import Prelude Cid Types State Interfaces Runtime Locks.

Definition RETENTION_DAYS : Z := 90.
Definition retention_blocks : Z :=
  saturating_mul BlockNumber_max BLOCKS_PER_DAY RETENTION_DAYS.

Section Cleanup.
Context `{Wt : Weights} `{Cfg : !Config} {W : Type}.

(** The engine part of a step: the operations below touch no other storage. *)
Definition schedule_cleanup (proposal_id current_block : Z) : M engine DispatchError unit :=
  sequence ← gets ScheduledCleanupTail;
  next ← ok_or (checked_add u64_max sequence 1) (VotingErr CleanupQueueSequenceExhausted);
  modify (set_ScheduledCleanups (insert sequence
    {| cleanup_at := block_add current_block retention_blocks;
       cleanup_proposal_id := proposal_id |})) ;;
  modify (set_ScheduledCleanupTail (fun _ => next)).

Definition enqueue_pending_cleanup (proposal_id : Z) : M engine DispatchError unit :=
  sequence ← gets PendingCleanupQueueTail;
  next ← ok_or (checked_add u64_max sequence 1) (VotingErr CleanupQueueSequenceExhausted);
  modify (set_PendingCleanupQueue (insert sequence proposal_id)) ;;
  modify (set_PendingCleanupQueueTail (fun _ => next)).

(** [weight.saturating_add(db.reads_writes(1, 1))] for each subject. *)
Definition trigger_weight (subjects : list ProposalSubject) : weight :=
  fold_left (fun w _ => w_add w (db_reads_writes 1 1)) subjects (db_reads 1).

Definition trigger_cleanup (proposal_id : Z) : M engine DispatchError weight :=
  proposal ← gets (fun g => Proposals g !! proposal_id);
  let subjects := match proposal with Some p => subject_keys p | None => [] end in
  modify (remove_active_proposals subjects proposal_id) ;;
  let weight := w_add (trigger_weight subjects) (db_reads 1) in
  pending ← gets (fun g => bool_decide (is_Some (PendingProposalCleanups g !! proposal_id)));
  (if negb pending then
     enqueue_pending_cleanup proposal_id ;;
     modify (set_PendingProposalCleanups (insert proposal_id AdminSnapshots)) ;;
     mret (w_add weight (db_reads_writes 1 3))
   else mret weight).

(** The [for _ in 0..max] loop of [process_scheduled_cleanups]: the weight,
    the head it stops at, and the engine. *)
Fixpoint scheduled_loop (n : nat) (now tail : Z) (item_weight max_weight : weight)
    (w : weight) (head : Z) (g : engine) : weight * Z * engine :=
  match n with
  | O => (w, head, g)
  | S n =>
      if any_gt (w_add w item_weight) max_weight then (w, head, g)
      else if bool_decide (tail <= head) then (w, head, g)
      else
        let w := w_add w (db_reads 1) in
        match ScheduledCleanups g !! head with
        | None =>
            scheduled_loop n now tail item_weight max_weight w
              (saturating_add u64_max head 1) g
        | Some task =>
            if bool_decide (now < cleanup_at task) then (w, head, g)
            else match trigger_cleanup (cleanup_proposal_id task) g with
                 | (Err _, g) => (w, head, g)
                 | (Ok trigger_weight, g) =>
                     scheduled_loop n now tail item_weight max_weight
                       (w_add (w_add w trigger_weight) (db_writes 1))
                       (saturating_add u64_max head 1)
                       (set_ScheduledCleanups (delete head) g)
                 end
        end
  end.

Definition process_scheduled_cleanups (now : Z) (max_weight : weight) : St engine weight :=
  fun g =>
    let item_weight := db_reads_writes (MAX_PROPOSAL_SUBJECT_CIDS + 5)
                         (MAX_PROPOSAL_SUBJECT_CIDS + 5) in
    let '(w, head, g) :=
      scheduled_loop (Z.to_nat MaxCleanupActivationsPerBlock) now (ScheduledCleanupTail g)
        item_weight max_weight (db_reads 2) (ScheduledCleanupHead g) g in
    (w_add w (db_writes 1), set_ScheduledCleanupHead (fun _ => head) g).
End Cleanup.

(** ** Well-formed queues *)

(** The delay queue holds the sequence numbers from head to tail, in order of
    the block they are due, none due later than a retention from [now]. *)
Record scheduled_wf (now : Z) (g : engine) : Prop := {
  sched_range : 0 <= ScheduledCleanupHead g <= ScheduledCleanupTail g;
  sched_dom : forall i, is_Some (ScheduledCleanups g !! i) <->
    ScheduledCleanupHead g <= i < ScheduledCleanupTail g;
  sched_sorted : forall i j x y, i <= j -> ScheduledCleanups g !! i = Some x ->
    ScheduledCleanups g !! j = Some y -> cleanup_at x <= cleanup_at y;
  sched_bound : forall i x, ScheduledCleanups g !! i = Some x ->
    cleanup_at x <= block_add now retention_blocks;
  sched_tail : ScheduledCleanupTail g <= u64_max;
}.

(** The ready queue holds each proposal under cleanup exactly once (until the
    64-bit sequence numbers run out, when a proposal may be left without an
    entry). *)
Record pending_wf (g : engine) : Prop := {
  pend_range : 0 <= PendingCleanupQueueHead g <= PendingCleanupQueueTail g;
  pend_dom : forall i, is_Some (PendingCleanupQueue g !! i) <->
    PendingCleanupQueueHead g <= i < PendingCleanupQueueTail g;
  pend_inj : forall i j p, PendingCleanupQueue g !! i = Some p ->
    PendingCleanupQueue g !! j = Some p -> i = j;
  pend_stage : forall i p, PendingCleanupQueue g !! i = Some p ->
    is_Some (PendingProposalCleanups g !! p);
  pend_queued : forall p, is_Some (PendingProposalCleanups g !! p) ->
    (exists i, PendingCleanupQueue g !! i = Some p) \/ PendingCleanupQueueTail g = u64_max;
  pend_tail : PendingCleanupQueueTail g <= u64_max;
}.

Section CleanupFacts.
Context `{Wt : Weights} `{Cfg : !Config}.
Implicit Types g : engine.

Lemma block_add_mono a b c : a <= b -> block_add a c <= block_add b c.
Proof. unfold block_add, saturating_add. lia. Qed.

Lemma scheduled_wf_later now now' g :
  now <= now' -> scheduled_wf now g -> scheduled_wf now' g.
Proof.
  intros Hn [? ? ? Hb ?]. split; [done..| |done]. intros i x Hx.
  pose proof (block_add_mono now now' retention_blocks Hn). specialize (Hb i x Hx). lia.
Qed.

Lemma enqueue_Ok p g g' :
  enqueue_pending_cleanup p g = (Ok tt, g') <->
  PendingCleanupQueueTail g + 1 <= u64_max /\
  g' = set_PendingCleanupQueueTail (fun _ => PendingCleanupQueueTail g + 1)
         (set_PendingCleanupQueue (insert (PendingCleanupQueueTail g) p) g).
Proof.
  unfold enqueue_pending_cleanup. autorewrite with run. unfold checked_add.
  case_decide; autorewrite with run; [|naive_solver]. unfold modify; simpl. naive_solver.
Qed.

Lemma enqueue_Err p g e g' :
  enqueue_pending_cleanup p g = (Err e, g') ->
  g' = g /\ u64_max < PendingCleanupQueueTail g + 1 /\
  e = VotingErr CleanupQueueSequenceExhausted.
Proof.
  unfold enqueue_pending_cleanup. autorewrite with run. unfold checked_add.
  case_decide; autorewrite with run; [done|]. intros [= <- <-]. split_and!; [done|lia|done].
Qed.

(** Adding a proposal that is not under cleanup keeps the ready queue. *)
Lemma pending_wf_push p st g :
  PendingProposalCleanups g !! p = None -> PendingCleanupQueueTail g + 1 <= u64_max ->
  pending_wf g ->
  pending_wf (set_PendingProposalCleanups (insert p st)
    (set_PendingCleanupQueueTail (fun _ => PendingCleanupQueueTail g + 1)
      (set_PendingCleanupQueue (insert (PendingCleanupQueueTail g) p) g))).
Proof.
  intros Hp Hmax [Hr Hd Hi Hs Hq Ht].
  assert (Hout : forall i, PendingCleanupQueue g !! i <> Some p).
  { intros i Hi'. apply Hs in Hi' as [? ?]. congruence. }
  split; simpl; [lia| | | | |lia].
  - intros i. rewrite lookup_insert_is_Some, Hd.
    destruct (decide (PendingCleanupQueueTail g = i)); naive_solver lia.
  - intros i j q. rewrite !lookup_insert_Some. naive_solver.
  - intros i q. rewrite lookup_insert_Some, lookup_insert_is_Some. intros [[_ ->]|[? H]].
    + by left.
    + destruct (decide (p = q)); [by left|]. right. split; [done|]. by eapply Hs.
  - intros q. rewrite lookup_insert_is_Some. left. destruct (decide (p = q)) as [->|Hne].
    + exists (PendingCleanupQueueTail g). by rewrite lookup_insert_eq.
    + destruct H as [?|[_ Hst]]; [done|]. destruct (Hq q Hst) as [[i Hi']|]; [|lia].
      exists i. rewrite lookup_insert_ne; [done|]. intros <-.
      assert (PendingCleanupQueueHead g <= PendingCleanupQueueTail g
        < PendingCleanupQueueTail g); [apply Hd; eauto|lia].
Qed.

Lemma remove_active_frames subjects p g :
  let g' := remove_active_proposals subjects p g in
  exists m, g' = set_ActiveProposalsBySubject (fun _ => m) g.
Proof.
  unfold remove_active_proposals. revert g. induction subjects as [|x l IH]; intros g; simpl.
  - exists (ActiveProposalsBySubject g). by destruct g.
  - destruct (IH (remove_active_proposal x p g)) as [m Hm]. exists m. by rewrite Hm.
Qed.

(** What [trigger_cleanup] does to a proposal. *)
Lemma trigger_cleanup_spec p g r g' :
  trigger_cleanup p g = (r, g') ->
  exists m, let g1 := set_ActiveProposalsBySubject (fun _ => m) g in
  (active_wf g -> active_wf g1) /\
  match r with
  | Ok _ =>
      (is_Some (PendingProposalCleanups g !! p) /\ g' = g1) \/
      (PendingProposalCleanups g !! p = None /\ PendingCleanupQueueTail g + 1 <= u64_max /\
       g' = set_PendingProposalCleanups (insert p AdminSnapshots)
        (set_PendingCleanupQueueTail (fun _ => PendingCleanupQueueTail g + 1)
          (set_PendingCleanupQueue (insert (PendingCleanupQueueTail g) p) g1)))
  | Err _ => g' = g1 /\ u64_max < PendingCleanupQueueTail g + 1
  end.
Proof.
  unfold trigger_cleanup. autorewrite with run.
  destruct (remove_active_frames
    match Proposals g !! p with Some p0 => subject_keys p0 | None => [] end p g) as [m Hm].
  intros H. exists m. split.
  { intros Hwf. rewrite <- Hm. by apply remove_active_proposals_wf. }
  rewrite Hm in H. simpl in *. destruct (PendingProposalCleanups g !! p) eqn:Hp; simpl in H.
  - injection H as <- <-. left. eauto.
  - simpl in H.
    destruct (enqueue_pending_cleanup p (set_ActiveProposalsBySubject (fun _ => m) g))
      as [[[]|e] g1] eqn:He.
    + rewrite (bind_run _ _ _ _ _ He) in H. autorewrite with run in H.
      apply enqueue_Ok in He as [? ->]. simpl in *. injection H as <- <-. right. eauto.
    + rewrite (bind_run_Err _ _ _ _ _ He) in H. injection H as <- <-.
      apply enqueue_Err in He as (-> & ? & _). done.
Qed.

Lemma trigger_cleanup_wf p g r g' :
  trigger_cleanup p g = (r, g') -> pending_wf g ->
  pending_wf g' /\ (is_ok r = true -> is_Some (PendingProposalCleanups g' !! p)) /\
  ScheduledCleanups g' = ScheduledCleanups g /\
  (PendingCleanupQueueTail g < u64_max -> is_ok r = true) /\
  PendingCleanupQueueTail g' <= PendingCleanupQueueTail g + 1 /\
  (forall q, is_Some (PendingProposalCleanups g !! q) ->
    PendingProposalCleanups g' !! q = PendingProposalCleanups g !! q) /\
  (forall q, is_Some (PendingProposalCleanups g' !! q) ->
    is_Some (PendingProposalCleanups g !! q) \/ q = p).
Proof.
  intros (m & _ & H)%trigger_cleanup_spec Hwf.
  assert (Hm : pending_wf (set_ActiveProposalsBySubject (fun _ => m) g))
    by (by destruct Hwf; split).
  destruct r as [w|e]; simpl in H.
  - destruct H as [[? ->]|(Hn & ? & ->)]; split_and!; simpl; try done; try lia.
    + by left.
    + exact (pending_wf_push p AdminSnapshots
        (set_ActiveProposalsBySubject (fun _ => m) g) Hn ltac:(done) Hm).
    + rewrite lookup_insert_eq. eauto.
    + intros q [? Hq]. rewrite lookup_insert_ne; [done|]. congruence.
    + intros q. rewrite lookup_insert_is_Some. naive_solver.
  - destruct H as [-> ?]. split_and!; simpl; try done; try lia. by left.
Qed.
End CleanupFacts.

(** ** The delay queue *)

Section DelayQueue.
Context `{Wt : Weights} `{Cfg : !Config}.
Implicit Types g : engine.

Lemma saturating_succ head tail : head < tail -> tail <= u64_max ->
  saturating_add u64_max head 1 = head + 1.
Proof. unfold saturating_add. lia. Qed.

(** What one run of the loop leaves: [head'] is how far it came. *)
Record loop_post (n : nat) (now : Z) (item_weight max_weight : weight)
    (head : Z) (g : engine) (w' : weight) (head' : Z) (g' : engine) : Prop := {
  lp_head : head <= head' <= ScheduledCleanupTail g;
  lp_pending : pending_wf g';
  lp_tail : ScheduledCleanupTail g' = ScheduledCleanupTail g;
  lp_entries : forall i, ScheduledCleanups g' !! i =
    if decide (head <= i < head') then None else ScheduledCleanups g !! i;
  lp_due : forall i x, head <= i < head' -> ScheduledCleanups g !! i = Some x ->
    cleanup_at x <= now /\ is_Some (PendingProposalCleanups g' !! cleanup_proposal_id x);
  lp_kept : forall p, is_Some (PendingProposalCleanups g !! p) ->
    PendingProposalCleanups g' !! p = PendingProposalCleanups g !! p;
  lp_new : forall p, is_Some (PendingProposalCleanups g' !! p) ->
    is_Some (PendingProposalCleanups g !! p) \/
    exists i x, ScheduledCleanups g !! i = Some x /\ cleanup_proposal_id x = p;
  lp_active : active_wf g -> active_wf g';
  lp_frame : exists q h t c a sc, g' = set_PendingCleanupQueue (fun _ => q)
    (set_PendingCleanupQueueHead (fun _ => h) (set_PendingCleanupQueueTail (fun _ => t)
      (set_PendingProposalCleanups (fun _ => c) (set_ActiveProposalsBySubject (fun _ => a)
        (set_ScheduledCleanups (fun _ => sc) g)))));
  lp_stop : head' = ScheduledCleanupTail g \/ Z.of_nat n <= head' - head \/
    (exists x, ScheduledCleanups g !! head' = Some x /\ now < cleanup_at x) \/
    any_gt (w_add w' item_weight) max_weight = true \/
    u64_max <= PendingCleanupQueueTail g';
}.

Lemma loop_post_refl n now iw mw head g w :
  head <= ScheduledCleanupTail g -> pending_wf g ->
  (head = ScheduledCleanupTail g \/ Z.of_nat n <= 0 \/
    (exists x, ScheduledCleanups g !! head = Some x /\ now < cleanup_at x) \/
    any_gt (w_add w iw) mw = true \/ u64_max <= PendingCleanupQueueTail g) ->
  loop_post n now iw mw head g w head g.
Proof.
  intros. split; try done.
  - intros i. by rewrite decide_False by lia.
  - intros; lia.
  - by left.
  - exists (PendingCleanupQueue g), (PendingCleanupQueueHead g), (PendingCleanupQueueTail g),
      (PendingProposalCleanups g), (ActiveProposalsBySubject g), (ScheduledCleanups g).
    by destruct g.
  - by rewrite Z.sub_diag.
Qed.

Lemma scheduled_loop_spec n now iw mw w head g w' head' g' :
  scheduled_loop n now (ScheduledCleanupTail g) iw mw w head g = (w', head', g') ->
  head <= ScheduledCleanupTail g <= u64_max ->
  (forall i, head <= i < ScheduledCleanupTail g -> is_Some (ScheduledCleanups g !! i)) ->
  pending_wf g -> loop_post n now iw mw head g w' head' g'.
Proof.
  revert w head g. induction n as [|n IH]; intros w head g Hrun Hb Hd Hwf; cbn [scheduled_loop] in Hrun.
  { injection Hrun as <- <- <-. apply loop_post_refl; [lia|done|]. right; left. lia. }
  destruct (any_gt (w_add w iw) mw) eqn:Hw.
  { injection Hrun as <- <- <-. apply loop_post_refl; [lia|done|]. tauto. }
  case_bool_decide as Hend.
  { injection Hrun as <- <- <-. apply loop_post_refl; [lia|done|]. left. lia. }
  destruct (Hd head) as [x Hx]; [lia|]. rewrite Hx in Hrun. case_bool_decide as Hnow.
  { injection Hrun as <- <- <-. apply loop_post_refl; [lia|done|]. right; right; left; eauto. }
  destruct (trigger_cleanup _ g) as [r g1] eqn:Ht.
  pose proof (trigger_cleanup_spec _ _ _ _ Ht) as (m & Hact & Hspec).
  pose proof (trigger_cleanup_wf _ _ _ _ Ht Hwf) as (Hwf1 & Hp1 & Hs1 & Hok & Htl & Hk1 & Hnew1).
  assert (Hframe : exists q h t c a sc, g1 = set_PendingCleanupQueue (fun _ => q)
    (set_PendingCleanupQueueHead (fun _ => h) (set_PendingCleanupQueueTail (fun _ => t)
      (set_PendingProposalCleanups (fun _ => c) (set_ActiveProposalsBySubject (fun _ => a)
        (set_ScheduledCleanups (fun _ => sc) g)))))).
  { exists (PendingCleanupQueue g1), (PendingCleanupQueueHead g1), (PendingCleanupQueueTail g1),
      (PendingProposalCleanups g1), (ActiveProposalsBySubject g1), (ScheduledCleanups g1).
    destruct r; simpl in Hspec; [destruct Hspec as [[_ ->]|(_ & _ & ->)]|destruct Hspec as [-> _]];
      by destruct g. }
  assert (Hact1 : active_wf g -> active_wf g1).
  { intros Ha. specialize (Hact Ha). unfold active_wf, active_proposal_count, active_proposals in *.
    destruct r; simpl in Hspec; [destruct Hspec as [[_ ->]|(_ & _ & ->)]|destruct Hspec as [-> _]];
      done. }
  assert (Htail : ScheduledCleanupTail g1 = ScheduledCleanupTail g).
  { destruct r; simpl in Hspec; [destruct Hspec as [[_ ->]|(_ & _ & ->)]|destruct Hspec as [-> _]];
      done. }
  destruct r as [tw|e].
  2: { injection Hrun as <- <- <-. split; rewrite ?Hs1, ?Htail; try done; try lia.
    - intros i. by rewrite decide_False by lia.
    - intros q [?| ->]%Hnew1; [by left|]. right; eauto.
    - right; right; right; right. destruct Hspec as [-> ?]. simpl. lia. }
  rewrite (saturating_succ _ (ScheduledCleanupTail g)) in Hrun by lia.
  set (g2 := set_ScheduledCleanups (delete head) g1) in *.
  assert (Hpost : loop_post n now iw mw (head + 1) g2 w' head' g').
  { eapply IH.
    - change (ScheduledCleanupTail g2) with (ScheduledCleanupTail g1). by rewrite Htail.
    - change (ScheduledCleanupTail g2) with (ScheduledCleanupTail g1). rewrite Htail. lia.
    - intros i. change (ScheduledCleanupTail g2) with (ScheduledCleanupTail g1).
      rewrite Htail. intros Hi. simpl. rewrite lookup_delete_ne by lia. rewrite Hs1.
      apply Hd. lia.
    - by destruct Hwf1. }
  destruct Hpost as [H1 H2 H3 H4 H5 H6 Hn2 Ha2 Hf2 H7]. simpl in *. rewrite Htail in *.
  split; try done.
  - lia.
  - intros i. rewrite H4. destruct (decide (i = head)) as [->|].
    + rewrite lookup_delete_eq, (decide_True (P := head <= head < head')) by lia. by case_decide.
    + rewrite lookup_delete_ne, Hs1 by done. repeat case_decide; done || lia.
  - intros i y Hi Hy. destruct (decide (i = head)) as [->|].
    + simplify_eq. split; [lia|]. rewrite H6; [|auto]. auto.
    + apply (H5 i); [lia|]. by rewrite lookup_delete_ne, Hs1 by done.
  - intros p Hp. rewrite H6; [by apply Hk1|]. rewrite Hk1 by done. done.
  - intros p [[?| ->]%Hnew1|(i & y & Hy & Hp)]%Hn2; [by left|right; eauto|].
    right. exists i, y. rewrite lookup_delete_Some, Hs1 in Hy. naive_solver.
  - intros Ha. apply Ha2. by apply Hact1.
  - destruct Hframe as (? & ? & ? & ? & ? & ? & ->).
    destruct Hf2 as (q & h & t & c & a & sc & ->). exists q, h, t, c, a, sc. by destruct g.
  - destruct H7 as [?|[?|[(y & Hy & ?)|?]]]; [tauto|right; left; lia| |tauto].
    right; right; left. exists y. rewrite lookup_delete_Some, Hs1 in Hy. tauto.
Qed.

Lemma schedule_cleanup_spec g now p :
  scheduled_wf now g -> ScheduledCleanupTail g < u64_max ->
  exists g', schedule_cleanup p now g = (Ok tt, g') /\ scheduled_wf now g' /\
    g' = set_ScheduledCleanupTail (fun _ => ScheduledCleanupTail g + 1)
      (set_ScheduledCleanups (insert (ScheduledCleanupTail g)
        {| cleanup_at := block_add now retention_blocks; cleanup_proposal_id := p |}) g).
Proof.
  intros [Hr Hd Hs Hb Ht] Hmax. unfold schedule_cleanup, checked_add. autorewrite with run.
  rewrite decide_True by lia. autorewrite with run. eexists. split; [done|]. split; [|done].
  split; simpl; [lia| | | |lia].
  - intros i. rewrite lookup_insert_is_Some, Hd.
    destruct (decide (ScheduledCleanupTail g = i)); naive_solver lia.
  - intros i j x y Hij [[<- <-]|[? Hx]]%lookup_insert_Some [[<- <-]|[? Hy]]%lookup_insert_Some;
      simpl; [lia| |by eapply Hb|by eapply Hs].
    assert (ScheduledCleanupHead g <= j < ScheduledCleanupTail g); [apply Hd; eauto|lia].
  - intros i x [[<- <-]|[? Hx]]%lookup_insert_Some; simpl; [lia|by eapply Hb].
Qed.

Lemma schedule_cleanup_full g now p :
  scheduled_wf now g -> u64_max <= ScheduledCleanupTail g ->
  schedule_cleanup p now g = (Err (VotingErr CleanupQueueSequenceExhausted), g).
Proof.
  intros [_ _ _ _ Ht] Hmax. unfold schedule_cleanup, checked_add. autorewrite with run.
  by rewrite decide_False by lia.
Qed.

Lemma process_scheduled_post g now max_weight w g' :
  scheduled_wf now g -> pending_wf g ->
  process_scheduled_cleanups now max_weight g = (w, g') ->
  exists w' g1, g' = set_ScheduledCleanupHead (fun _ => ScheduledCleanupHead g') g1 /\
    loop_post (Z.to_nat MaxCleanupActivationsPerBlock) now
      (db_reads_writes (MAX_PROPOSAL_SUBJECT_CIDS + 5) (MAX_PROPOSAL_SUBJECT_CIDS + 5))
      max_weight (ScheduledCleanupHead g) g w' (ScheduledCleanupHead g') g1.
Proof.
  intros [Hr Hd Hs Hb Ht] Hp. unfold process_scheduled_cleanups.
  destruct (scheduled_loop _ _ _ _ _ _ _ g) as [[w' head'] g1] eqn:Hrun.
  apply scheduled_loop_spec in Hrun; [|lia|by intros; apply Hd|done].
  intros [= _ <-]. by exists w', g1.
Qed.

Lemma process_scheduled_wf g now max_weight w g' :
  scheduled_wf now g -> pending_wf g ->
  process_scheduled_cleanups now max_weight g = (w, g') ->
  scheduled_wf now g' /\ pending_wf g'.
Proof.
  intros Hsched Hpend Hrun. pose proof Hsched as [Hr Hd Hs Hb Ht].
  destruct (process_scheduled_post _ _ _ _ _ Hsched Hpend Hrun) as (w' & g1 & Hg & Hpost).
  destruct Hpost as [H1 H2 H3 H4 H5 H6 _ _ _ H7].
  assert (Hsub : forall i x, ScheduledCleanups g1 !! i = Some x ->
    ScheduledCleanups g !! i = Some x).
  { intros i x. rewrite H4. by case_decide. }
  rewrite Hg. split; [|by destruct H2]. split; simpl; [lia| | | |lia].
  - intros i. rewrite H4, H3. specialize (Hd i). case_decide.
    + split; [by intros []|lia].
    + rewrite Hd. lia.
  - intros. eapply Hs; eauto.
  - intros. eapply Hb; eauto.
Qed.

(** C23: the delay queue keeps its order and its bounds when a proposal
    is registered (at the tail, due 90 days after the block) and when a block
    processes it; processing moves a prefix of the queue, only entries whose
    retention is over, to the ready queue, loses none, and stops early only
    on the number or weight budget of the block. *)
Theorem delayed_cleanup_fifo g now p max_weight
    (Hsched : scheduled_wf now g) (Hpend : pending_wf g)
    (Hroom : ScheduledCleanupTail g < u64_max) :
  (let '(r, g') := schedule_cleanup p now g in
   r = Ok tt /\ scheduled_wf now g' /\
   ScheduledCleanups g' = <[ScheduledCleanupTail g :=
     {| cleanup_at := block_add now (90 * 240); cleanup_proposal_id := p |}]>
     (ScheduledCleanups g)) /\
  (let '(w, g') := process_scheduled_cleanups now max_weight g in
   scheduled_wf now g' /\ pending_wf g' /\
   (forall i x, ScheduledCleanups g !! i = Some x ->
     (i < ScheduledCleanupHead g' -> cleanup_at x <= now /\
        is_Some (PendingProposalCleanups g' !! cleanup_proposal_id x)) /\
     (ScheduledCleanupHead g' <= i -> ScheduledCleanups g' !! i = Some x)) /\
   ((forall w', any_gt w' max_weight = false) -> PendingCleanupQueueTail g' < u64_max ->
    ScheduledCleanupHead g' - ScheduledCleanupHead g < MaxCleanupActivationsPerBlock ->
    forall i x, ScheduledCleanups g' !! i = Some x -> now < cleanup_at x)).
Proof.
  split.
  - destruct (schedule_cleanup_spec g now p Hsched Hroom) as (g' & -> & ? & ->). done.
  - destruct (process_scheduled_cleanups now max_weight g) as [w g'] eqn:Hrun.
    destruct (process_scheduled_wf _ _ _ _ _ Hsched Hpend Hrun) as [Hs' Hp'].
    destruct (process_scheduled_post _ _ _ _ _ Hsched Hpend Hrun) as (w' & g1 & Hg & Hpost).
    pose proof (sched_dom _ _ Hsched) as Hd. pose proof (sched_dom _ _ Hs') as Hd'.
    destruct Hpost as [H1 H2 H3 H4 H5 H6 _ _ _ H7].
    assert (Hsc : ScheduledCleanups g' = ScheduledCleanups g1) by (by rewrite Hg).
    assert (Hpc : PendingProposalCleanups g' = PendingProposalCleanups g1) by (by rewrite Hg).
    assert (Hqt : PendingCleanupQueueTail g' = PendingCleanupQueueTail g1) by (by rewrite Hg).
    split_and!; [done..| |].
    + intros i x Hx. assert (ScheduledCleanupHead g <= i < ScheduledCleanupTail g)
        by (apply Hd; eauto). rewrite Hpc, Hsc.
      split; intros ?; [apply (H5 i); [lia|done]|]. by rewrite H4, decide_False by lia.
    + intros Hbudget Htail Hnum i x Hx.
      assert (Hi : ScheduledCleanupHead g' <= i < ScheduledCleanupTail g') by (apply Hd'; eauto).
      assert (ScheduledCleanupTail g' = ScheduledCleanupTail g1) as Ht by (by rewrite Hg).
      rewrite Hsc, H4 in Hx. case_decide; [done|].
      destruct H7 as [?|[?|[(y & Hy & ?)|[Hw|?]]]]; [lia|lia| |by rewrite Hbudget in Hw|lia].
      assert (cleanup_at y <= cleanup_at x); [|lia].
      eapply (sched_sorted _ _ Hsched (ScheduledCleanupHead g') i); eauto. lia.
Qed.
End DelayQueue.

(** ** A concrete run *)

Definition one_scheduled : engine := (schedule_cleanup 3 10 engine_empty).2.

Lemma scheduled_wf_empty now : scheduled_wf now engine_empty.
Proof.
  split; simpl; try done. intros i. rewrite lookup_empty. split; [by intros []|lia].
Qed.

Lemma pending_wf_empty : pending_wf engine_empty.
Proof.
  split; simpl; try done.
  - intros i. rewrite lookup_empty. split; [by intros []|lia].
  - intros p. rewrite lookup_empty. by intros [].
Qed.

(** Due at block 21610, still there at 21609, gone to the ready queue after. *)
Lemma delayed_cleanup_fifo_witness :
  (schedule_cleanup 3 10 engine_empty).1 = Ok tt /\
  PendingProposalCleanups (process_scheduled_cleanups 21609
    MaxCleanupWeightPerBlock one_scheduled).2 !! 3 = None /\
  PendingProposalCleanups (process_scheduled_cleanups 21610
    MaxCleanupWeightPerBlock one_scheduled).2 !! 3 = Some AdminSnapshots.
Proof.
  destruct (delayed_cleanup_fifo engine_empty 10 3 MaxCleanupWeightPerBlock
    (scheduled_wf_empty 10) pending_wf_empty) as [H _]; [reflexivity|].
  destruct (schedule_cleanup 3 10 engine_empty) as [r g] eqn:E. destruct H as [-> _].
  split; [done|]. split; reflexivity.
Defined.
