(* ===== verification/Lifecycle.v ===== *)
(** * Proposal lifecycle ([votingengine/src/lifecycle.rs])

    Status transitions, the side effects of a final status, the scope in which
    business callbacks run, and the retry deadlines. [set_status_and_emit] is
    the one gate through which voting ends. *)
From S2P Require Import Prelude Cid Types State Interfaces Runtime Locks Data Cleanup.

Definition should_release_internal_proposal_mutexes (kind stage final_status : Z) : bool :=
  bool_decide (final_status = STATUS_REJECTED) || bool_decide (final_status = STATUS_EXECUTED)
  || bool_decide (final_status = STATUS_EXECUTION_FAILED)
  || (bool_decide (kind = PROPOSAL_KIND_JOINT) && bool_decide (stage = STAGE_JOINT)
      && bool_decide (final_status = STATUS_PASSED)).

Definition valid_status_transition (old_status new_status : Z) : bool :=
  bool_decide ((old_status, new_status) ∈
    [ (STATUS_VOTING, STATUS_PASSED); (STATUS_VOTING, STATUS_REJECTED);
      (STATUS_PASSED, STATUS_EXECUTED); (STATUS_PASSED, STATUS_EXECUTION_FAILED) ]).

Definition ensure_valid_status_transition (old_status new_status : Z)
    : result DispatchError unit :=
  guard_ok (valid_status_transition old_status new_status) (VotingErr InvalidProposalStatus).

Definition is_terminal_status (status : Z) : bool :=
  bool_decide (status = STATUS_REJECTED) || bool_decide (status = STATUS_EXECUTED)
  || bool_decide (status = STATUS_EXECUTION_FAILED).

Section Lifecycle.
Context `{Wt : Weights} `{Cfg : !Config} `{Ord : StorageOrder} {W : Type}
  `{Prov : !Providers W} `{Cb : !Callbacks W} `{Tr : !ProposalTracks W}.

(** A step of the engine's own storage. *)
Definition on_ve {A} (m : M engine DispatchError A) : RM W A := fun s =>
  let '(r, g) := m (ve s) in (r, set_ve (fun _ => g) s).

Definition upd (f : engine -> engine) : RM W unit := modify (set_ve f).
Definition emit (e : Event) : RM W unit := modify (deposit_event e).

(** ** Population snapshots and open proposals *)

Definition create_population_snapshot (proposal_id : Z) (scope : PopulationScope) : RM W Z :=
  found ← gets (fun s => bool_decide (is_Some (Proposals (ve s) !! proposal_id)));
  ensure found (VotingErr ProposalNotFound) ;;
  taken ← gets (fun s =>
    bool_decide (is_Some (ProposalPopulationSnapshots (ve s) !! proposal_id)));
  ensure (negb taken) (VotingErr InvalidProposalStatus) ;;
  data ← gets (fun s => population_data_of (world s) scope);
  data ← ok_or data (VotingErr PopulationDataNotReady);
  now ← gets block_number;
  upd (set_ProposalPopulationSnapshots (insert proposal_id
    {| population_data := data; snapshot_created_at := now |})) ;;
  mret (eligible_total data).

Definition voting_subject_at_population_snapshot (s : rt W) (proposal_id : Z)
    (who : AccountId) : option CitizenSubject :=
  snapshot ← ProposalPopulationSnapshots (ve s) !! proposal_id;
  voting_subject_at (world s) who (population_data snapshot).

Definition population_eligible_total_of (g : engine) (proposal_id : Z) : option Z :=
  (fun snapshot => eligible_total (population_data snapshot)) <$>
    ProposalPopulationSnapshots g !! proposal_id.

Definition ensure_open_proposal (proposal_id : Z) : RM W Proposal :=
  proposal ← gets (fun s => Proposals (ve s) !! proposal_id);
  proposal ← ok_or proposal (VotingErr ProposalNotFound);
  ensure (bool_decide (status proposal = STATUS_VOTING)) (VotingErr InvalidProposalStatus) ;;
  now ← gets block_number;
  ensure (bool_decide (now <= end_block proposal)) (VotingErr VoteClosed) ;;
  mret proposal.

(** ** Status *)

Definition mark_proposal_passed_at (proposal_id block : Z) (g : engine) : engine :=
  match ProposalMeta g !! proposal_id with
  | Some m =>
      match passed_at m with
      | None => set_ProposalMeta (insert proposal_id
                  {| created_at := created_at m; passed_at := Some block |}) g
      | Some _ => g
      end
  | None => g
  end.

Definition set_proposal_status (proposal_id status' : Z) : RM W unit :=
  proposal ← gets (fun s => Proposals (ve s) !! proposal_id);
  proposal ← ok_or proposal (VotingErr ProposalNotFound);
  from_result (ensure_valid_status_transition (status proposal) status') ;;
  upd (set_Proposals (insert proposal_id (set_status status' proposal))).

(** ** Business callbacks *)

Definition with_callback_execution_scope {A} (proposal_id : Z) (callback : RM W A) : RM W A :=
  upd (set_CallbackExecutionScopes (union {[ proposal_id ]})) ;;
  result ← lift (attempt callback);
  upd (set_CallbackExecutionScopes (fun m => m ∖ {[ proposal_id ]})) ;;
  from_result result.

Definition callback_of_kind (kind : Z) : option (ResultCallback W) :=
  if decide (kind = PROPOSAL_KIND_INTERNAL) then Some InternalVoteResultCallback
  else if decide (kind = PROPOSAL_KIND_JOINT) then Some JointVoteResultCallback
  else if decide (kind = PROPOSAL_KIND_LEGISLATION) then Some LegislationVoteResultCallback
  else if decide (kind = PROPOSAL_KIND_ELECTION) then Some ElectionVoteResultCallback
  else None.

Definition invoke_execution_callback (proposal_id kind : Z) (approved : bool)
    : RM W ProposalExecutionOutcome :=
  callback ← ok_or (callback_of_kind kind) (VotingErr InvalidProposalKind);
  on_vote_finalized callback proposal_id approved.

Definition can_cancel_passed_proposal_by_owner (proposal_id kind : Z) : RM W unit :=
  callback ← ok_or (callback_of_kind kind) (VotingErr InvalidProposalKind);
  decision ← can_cancel_passed_proposal callback proposal_id;
  ensure (bool_decide (decision = CancelAllow)) (VotingErr ProposalCancellationNotAllowed).

Definition notify_execution_failed_terminal (proposal_id kind : Z) : RM W unit :=
  callback ← ok_or (callback_of_kind kind) (VotingErr InvalidProposalKind);
  on_execution_failed_terminal callback proposal_id.

Definition queue_terminal_cleanup (proposal_id : Z) : RM W unit :=
  already_pending ← gets (fun s => bool_decide (proposal_id ∈ PendingTerminalCleanups (ve s)));
  upd (set_PendingTerminalCleanups (union {[ proposal_id ]})) ;;
  (if negb already_pending then emit (ProposalTerminalCleanupQueued proposal_id) else mret tt).

Definition drop_terminal_cleanup (proposal_id : Z) : RM W unit :=
  upd (set_PendingTerminalCleanups (fun m => m ∖ {[ proposal_id ]})).

Definition notify_execution_failed_terminal_or_queue (proposal_id kind : Z) : RM W unit :=
  result ← lift (attempt (with_callback_execution_scope proposal_id
    (notify_execution_failed_terminal proposal_id kind)));
  if is_ok result then drop_terminal_cleanup proposal_id
  else queue_terminal_cleanup proposal_id.

(** ** Side effects of a final status *)

(** [T::TrackHandlers::hook(..).ok_or(InvalidProposalStage)??]. *)
Definition run_track_hook (hook : RS W (option (result DispatchError unit))) : RM W unit :=
  handled ← lift hook;
  handled ← ok_or handled (VotingErr InvalidProposalStage);
  from_result handled.

Definition apply_terminal_side_effects (proposal_id status : Z) : RM W unit :=
  ensure (is_terminal_status status) (VotingErr InvalidProposalStatus) ;;
  now ← gets block_number;
  on_ve (schedule_cleanup proposal_id now) ;;
  upd (set_ProposalExecutionRetryStates (delete proposal_id)) ;;
  upd (set_PendingExecutionRetryExpirations (delete proposal_id)) ;;
  drop_terminal_cleanup proposal_id ;;
  (if decide (status = STATUS_EXECUTION_FAILED) then
     proposal ← gets (fun s => Proposals (ve s) !! proposal_id);
     match proposal with
     | Some proposal => notify_execution_failed_terminal_or_queue proposal_id (kind proposal)
     | None => mret tt
     end
   else mret tt) ;;
  proposal ← gets (fun s => Proposals (ve s) !! proposal_id);
  match proposal with
  | Some proposal =>
      run_track_hook (on_proposal_terminal (kind proposal) proposal_id status) ;;
      if should_release_internal_proposal_mutexes (kind proposal) (stage proposal) status
      then upd (release_internal_proposal_mutexes proposal_id)
      else mret tt
  | None => mret tt
  end.

Definition finish_terminal_status (proposal_id status : Z) : RM W unit :=
  apply_terminal_side_effects proposal_id status ;;
  emit (ProposalFinalized proposal_id status).

(** ** Retry deadlines *)

Definition queue_execution_retry_deadline (proposal_id target : Z) : RM W unit :=
  ids ← gets (fun s => default [] (ExecutionRetryDeadlines (ve s) !! target));
  ids ← ok_or (try_push MaxExecutionRetryDeadlinesPerBlock proposal_id ids)
    (VotingErr TooManyExecutionRetryDeadlines);
  upd (set_ExecutionRetryDeadlines (insert target ids)).

Fixpoint reschedule_loop (n : nat) (proposal_id target : Z) : RM W unit :=
  match n with
  | O => throw (VotingErr TooManyExecutionRetryDeadlines)
  | S n =>
      queued ← lift (attempt (queue_execution_retry_deadline proposal_id target));
      if is_ok queued then mret tt else reschedule_loop n proposal_id (block_add target 1)
  end.

Definition reschedule_execution_retry_deadline (proposal_id from : Z) : RM W unit :=
  reschedule_loop 100 proposal_id from.

Definition queue_pending_retry_expiration (proposal_id retry_deadline : Z) : RM W unit :=
  upd (set_PendingExecutionRetryExpirations (insert proposal_id retry_deadline)) ;;
  emit (ProposalExecutionRetryExpirationQueued proposal_id retry_deadline).

(** Reschedule, or queue an expiration when the buckets are full. *)
Definition reschedule_or_queue (proposal_id from retry_deadline : Z) : RM W unit :=
  rescheduled ← lift (attempt (reschedule_execution_retry_deadline proposal_id from));
  if is_ok rescheduled then mret tt
  else queue_pending_retry_expiration proposal_id retry_deadline.

Definition schedule_execution_retry (proposal_id : Z) : RM W unit :=
  exists_ ← gets (fun s =>
    bool_decide (is_Some (ProposalExecutionRetryStates (ve s) !! proposal_id)));
  if (exists_ : bool) then mret tt
  else
    now ← gets block_number;
    let retry_deadline := block_add now ExecutionRetryGraceBlocks in
    reschedule_or_queue proposal_id retry_deadline retry_deadline ;;
    upd (set_ProposalExecutionRetryStates (insert proposal_id
      {| manual_attempts := 0; first_auto_failed_at := now;
         retry_deadline := retry_deadline; last_attempt_at := None |})) ;;
    emit (ProposalExecutionRetryScheduled proposal_id retry_deadline).

Definition ensure_retry_admin (who : AccountId) (proposal_id : Z) : RM W unit :=
  proposal ← gets (fun s => Proposals (ve s) !! proposal_id);
  proposal ← ok_or proposal (VotingErr ProposalNotFound);
  authorized ←
    (if bool_decide (kind proposal = PROPOSAL_KIND_JOINT)
        || (bool_decide (kind proposal = PROPOSAL_KIND_INTERNAL)
            && bool_decide (actor_cid_number proposal <> None))
     then gets (fun s => is_any_institution_voter_in_snapshot s proposal_id who)
     else
       subject ← ok_or (head (subject_keys proposal)) (VotingErr InvalidInstitution);
       gets (fun s => is_admin_in_snapshot (ve s) proposal_id subject who));
  ensure authorized (VotingErr NoPermission).

(** ** Failed terminal notifications *)

Definition pending_terminal_cleanup_step (w : weight) (proposal_id : Z) : RS W weight :=
  let w := w_add w (db_reads_writes 2 3) in
  proposal ← sgets (fun s => Proposals (ve s) !! proposal_id);
  match proposal with
  | Some proposal =>
      if decide (status proposal = STATUS_EXECUTION_FAILED) then
        result ← attempt (with_callback_execution_scope proposal_id
          (notify_execution_failed_terminal proposal_id (kind proposal)));
        (if is_ok result then
           attempt (drop_terminal_cleanup proposal_id) ;;
           attempt (emit (ProposalTerminalCleanupCompleted proposal_id)) ;;
           mret w
         else mret w)
      else attempt (drop_terminal_cleanup proposal_id) ;; mret w
  | None => attempt (drop_terminal_cleanup proposal_id) ;; mret w
  end.

Definition process_pending_terminal_cleanups : RS W weight :=
  if decide (MaxPendingRetryExpirationsPerBlock = 0) then mret (db_reads 1)
  else
    pending ← sgets (fun s => take (Z.to_nat MaxPendingRetryExpirationsPerBlock)
      (hash_order _ (elements (PendingTerminalCleanups (ve s)))));
    sfold pending_terminal_cleanup_step (db_reads 1) pending.

(** ** The end of a vote *)

Definition set_status_and_emit (proposal_id status' : Z) : RM W unit :=
  transact (
    proposal ← gets (fun s => Proposals (ve s) !! proposal_id);
    proposal ← ok_or proposal (VotingErr ProposalNotFound);
    from_result (ensure_valid_status_transition (status proposal) status') ;;
    (if decide (status proposal = STATUS_VOTING /\ status' = STATUS_PASSED) then
       now ← gets block_number;
       upd (mark_proposal_passed_at proposal_id now)
     else mret tt) ;;
    upd (set_Proposals (insert proposal_id (set_status status' proposal))) ;;
    let should_run_callback := bool_decide (status proposal = STATUS_VOTING)
      && (bool_decide (status' = STATUS_PASSED) || bool_decide (status' = STATUS_REJECTED)) in
    (if negb (bool_decide (status' = STATUS_VOTING)) then
       upd (remove_active_proposals (subject_keys proposal) proposal_id) ;;
       upd (set_AutoFinalizeRetryStates (delete proposal_id)) ;;
       upd (set_AutoFinalizeDeadLetters (delete proposal_id))
     else mret tt) ;;
    (if should_run_callback && bool_decide (status' = STATUS_REJECTED) then
       with_callback_execution_scope proposal_id
         (invoke_execution_callback proposal_id (kind proposal)
           (bool_decide (status' = STATUS_PASSED))) ;;
       mret tt
     else if should_run_callback && bool_decide (status' = STATUS_PASSED) then
       now ← gets block_number;
       upd (set_PendingProposalExecutions
         (insert proposal_id {| attempts := 0; next_attempt_at := now |})) ;;
       emit (ProposalExecutionQueued proposal_id)
     else mret tt) ;;
    after ← gets (fun s => Proposals (ve s) !! proposal_id);
    after ← ok_or after (VotingErr ProposalNotFound);
    (if is_terminal_status (status after) then
       apply_terminal_side_effects proposal_id (status after)
     else if should_release_internal_proposal_mutexes (kind proposal) (stage proposal)
               (status after)
     then upd (release_internal_proposal_mutexes proposal_id)
     else mret tt) ;;
    emit (ProposalFinalized proposal_id (status after))).
End Lifecycle.

Section LifecycleRuns.
Context {W : Type}.

Lemma bind_upd {B} f (k : unit -> RM W B) s : (upd f ≫= k) s = k tt (set_ve f s).
Proof. done. Qed.
Lemma bind_emit {B} e (k : unit -> RM W B) s : (emit e ≫= k) s = k tt (deposit_event e s).
Proof. done. Qed.
End LifecycleRuns.

#[export] Hint Rewrite @bind_upd @bind_emit : run.
