(* ===== verification/Execution.v ===== *)
(** * Execution of passed proposals ([votingengine/src/execution.rs])

    Passed proposals wait in a queue; each block runs some of them within a
    weight budget, every run in its own transaction. A failure is counted and
    put off; after [MaxManualExecutionAttempts] failures the proposal is
    declared failed and the business callback is never run again. A retryable
    failure of an internal proposal opens a period in which its voters may
    retry or cancel it. *)
From S2P Require Import Prelude Cid Types State Interfaces Runtime Locks Data Cleanup.
From S2P Require Import Lifecycle.

(** The retry delay after [attempts] failures: [1 << min(attempts, 6)]. *)
Definition backoff_delay (attempts : Z) : Z :=
  saturated_into BlockNumber_max (Z.shiftl 1 (Z.min attempts 6)).

Section Execution.
Context `{Wt : Weights} `{Cfg : !Config} `{Ord : StorageOrder} {W : Type}
  `{Prov : !Providers W} `{Cb : !Callbacks W} `{Tr : !ProposalTracks W}.

Definition apply_automatic_execution_outcome (proposal_id kind : Z)
    (outcome : ProposalExecutionOutcome) : RM W unit :=
  match outcome with
  | Ignored => throw (VotingErr ProposalOwnerMissing)
  | Executed =>
      set_proposal_status proposal_id STATUS_EXECUTED ;;
      run_track_hook (on_proposal_executed kind proposal_id)
  | RetryableFailed =>
      if decide (kind = PROPOSAL_KIND_INTERNAL) then schedule_execution_retry proposal_id
      else set_proposal_status proposal_id STATUS_EXECUTION_FAILED
  | FatalFailed => set_proposal_status proposal_id STATUS_EXECUTION_FAILED
  end.

Definition drop_pending_execution (proposal_id : Z) : RM W unit :=
  upd (set_PendingProposalExecutions (delete proposal_id)).

(** The transaction that runs one queued proposal. *)
Definition execute_pending (proposal_id : Z) : RM W unit :=
  transact (
    proposal ← gets (fun s => Proposals (ve s) !! proposal_id);
    proposal ← ok_or proposal (VotingErr ProposalNotFound);
    if negb (bool_decide (status proposal = STATUS_PASSED)) then
      drop_pending_execution proposal_id
    else
      outcome ← with_callback_execution_scope proposal_id
        (invoke_execution_callback proposal_id (kind proposal) true);
      drop_pending_execution proposal_id ;;
      apply_automatic_execution_outcome proposal_id (kind proposal) outcome ;;
      after ← gets (fun s => Proposals (ve s) !! proposal_id);
      after ← ok_or after (VotingErr ProposalNotFound);
      if is_terminal_status (status after) then
        finish_terminal_status proposal_id (status after)
      else mret tt).

(** The transaction that declares a proposal failed after its last attempt. *)
Definition dead_letter_execution (proposal_id attempts now : Z) : RM W unit :=
  transact (
    set_proposal_status proposal_id STATUS_EXECUTION_FAILED ;;
    drop_pending_execution proposal_id ;;
    upd (set_PendingTerminalFinalizations
      (insert proposal_id {| attempts := 0; next_attempt_at := now |})) ;;
    emit (ProposalExecutionDeadLettered proposal_id attempts)).

Definition handle_automatic_execution_failure (proposal_id : Z)
    (state : PendingExecutionState) (now : Z) : RM W unit :=
  proposal ← gets (fun s => Proposals (ve s) !! proposal_id);
  match proposal with
  | None => drop_pending_execution proposal_id
  | Some proposal =>
      if negb (bool_decide (status proposal = STATUS_PASSED)) then
        drop_pending_execution proposal_id
      else
        let attempts := saturating_add u8_max (attempts state) 1 in
        terminalized ←
          (if decide (MaxManualExecutionAttempts <= attempts) then
             r ← lift (attempt (dead_letter_execution proposal_id attempts now));
             mret (is_ok r)
           else mret false);
        if (terminalized : bool) then mret tt
        else
          let next := block_add now (backoff_delay attempts) in
          upd (set_PendingProposalExecutions
            (insert proposal_id {| attempts := attempts; next_attempt_at := next |})) ;;
          emit (ProposalExecutionDeferred proposal_id attempts next)
  end.

(** The selection loop: entries due, within the weight budget and [max]. *)
Fixpoint select_executions (entries : list (Z * PendingExecutionState)) (now : Z)
    (max : nat) (item_weight : weight) (w : weight) (pending : list (Z * PendingExecutionState))
    : list (Z * PendingExecutionState) * weight :=
  match entries with
  | [] => (pending, w)
  | (proposal_id, state) :: entries =>
      let after_scan := w_add w (db_reads 1) in
      if any_gt after_scan MaxExecutionWeightPerBlock then (pending, w)
      else if bool_decide (now < next_attempt_at state) then
        select_executions entries now max item_weight after_scan pending
      else
        let after_item := w_add after_scan item_weight in
        if any_gt after_item MaxExecutionWeightPerBlock then (pending, after_scan)
        else
          let pending := pending ++ [(proposal_id, state)] in
          if bool_decide (max <= length pending)%nat then (pending, after_item)
          else select_executions entries now max item_weight after_item pending
  end.

Definition execution_step (now : Z) (entry : Z * PendingExecutionState) : RS W unit :=
  result ← attempt (execute_pending entry.1);
  if is_ok result then mret tt
  else
    _ ← attempt (handle_automatic_execution_failure entry.1 entry.2 now);
    mret tt.

Definition process_pending_proposal_executions (now : Z) : RS W weight :=
  if decide (MaxAutoFinalizePerBlock = 0) then mret w_zero
  else
    entries ← sgets (fun s => storage_iter (PendingProposalExecutions (ve s)));
    let item_weight :=
      w_add (w_add wi_process_pending_execution wi_finalize_proposal) wi_set_code in
    let '(pending, w) :=
      select_executions entries now (Z.to_nat MaxAutoFinalizePerBlock) item_weight
        (db_reads 1) [] in
    sfor_each (execution_step now) pending ;;
    mret w.

(** ** Completing the side effects of failed proposals *)

Definition drop_terminal_finalization (proposal_id : Z) : RM W unit :=
  upd (set_PendingTerminalFinalizations (delete proposal_id)).

(** What follows a failed completion: dead letter or another attempt. *)
Definition defer_terminal_finalization (proposal_id : Z) (state : PendingExecutionState)
    (now : Z) : RM W unit :=
  let attempts := saturating_add u8_max (attempts state) 1 in
  if decide (MaxManualExecutionAttempts <= attempts) then
    drop_terminal_finalization proposal_id ;;
    upd (set_TerminalFinalizationDeadLetters (insert proposal_id attempts)) ;;
    emit (ProposalTerminalFinalizationDeadLettered proposal_id attempts)
  else
    let next := block_add now (backoff_delay attempts) in
    upd (set_PendingTerminalFinalizations
      (insert proposal_id {| attempts := attempts; next_attempt_at := next |})) ;;
    emit (ProposalTerminalFinalizationDeferred proposal_id attempts next).

Definition terminal_finalization_step (now : Z) (w : weight)
    (entry : Z * PendingExecutionState) : RS W weight :=
  let w := w_add w (db_reads_writes 2 3) in
  proposal ← sgets (fun s => Proposals (ve s) !! entry.1);
  if negb (bool_decide (status <$> proposal = Some STATUS_EXECUTION_FAILED)) then
    _ ← attempt (drop_terminal_finalization entry.1); mret w
  else
    result ← attempt (transact (finish_terminal_status entry.1 STATUS_EXECUTION_FAILED));
    _ ← attempt
      (if is_ok result then
         drop_terminal_finalization entry.1 ;;
         upd (set_TerminalFinalizationDeadLetters (delete entry.1))
       else defer_terminal_finalization entry.1 entry.2 now);
    mret w.

Definition process_pending_terminal_finalizations (now : Z) : RS W weight :=
  if decide (MaxPendingRetryExpirationsPerBlock = 0) then mret (db_reads 1)
  else
    pending ← sgets (fun s => take (Z.to_nat MaxPendingRetryExpirationsPerBlock)
      (filter (fun e => next_attempt_at e.2 <= now)
        (storage_iter (PendingTerminalFinalizations (ve s)))));
    sfold (terminal_finalization_step now) (db_reads 1) pending.

(** ** Retry deadlines *)

Definition drop_retry_state (proposal_id : Z) : RM W unit :=
  upd (set_ProposalExecutionRetryStates (delete proposal_id)).
Definition drop_retry_expiration (proposal_id : Z) : RM W unit :=
  upd (set_PendingExecutionRetryExpirations (delete proposal_id)).

(** The transaction that ends the retry period. *)
Definition expire_retry (proposal_id : Z) : RM W unit :=
  transact (
    set_proposal_status proposal_id STATUS_EXECUTION_FAILED ;;
    emit (ProposalExecutionRetryExpired proposal_id) ;;
    finish_terminal_status proposal_id STATUS_EXECUTION_FAILED).

Definition retry_deadline_step (now : Z) (w : weight) (proposal_id : Z) : RS W weight :=
  let w := w_add w (db_reads_writes 2 3) in
  state ← sgets (fun s => ProposalExecutionRetryStates (ve s) !! proposal_id);
  match state with
  | None => mret w
  | Some state =>
      if bool_decide (now < retry_deadline state) then
        _ ← attempt (reschedule_or_queue proposal_id (retry_deadline state)
          (retry_deadline state));
        mret w
      else
        proposal ← sgets (fun s => Proposals (ve s) !! proposal_id);
        if negb (bool_decide (status <$> proposal = Some STATUS_PASSED)) then
          _ ← attempt (drop_retry_state proposal_id); mret w
        else
          result ← attempt (expire_retry proposal_id);
          if is_ok result then mret w
          else
            _ ← attempt (reschedule_or_queue proposal_id (block_add now 1)
              (retry_deadline state));
            mret w
  end.

Definition process_execution_retry_deadlines (now : Z) : RS W weight :=
  queue ← sgets (fun s => default [] (ExecutionRetryDeadlines (ve s) !! now));
  smodify (set_ve (set_ExecutionRetryDeadlines (delete now))) ;;
  sfold (retry_deadline_step now) (db_reads_writes 1 1) queue.

Definition retry_expiration_step (now : Z) (w : weight) (entry : Z * Z) : RS W weight :=
  let '(proposal_id, retry_deadline') := entry in
  let w := w_add w (db_reads_writes 3 4) in
  state ← sgets (fun s => ProposalExecutionRetryStates (ve s) !! proposal_id);
  match state with
  | None => _ ← attempt (drop_retry_expiration proposal_id); mret w
  | Some state =>
      if bool_decide (now < retry_deadline state) then
        rescheduled ← attempt (reschedule_execution_retry_deadline proposal_id
          (retry_deadline state));
        _ ← attempt
          (if is_ok rescheduled then drop_retry_expiration proposal_id
           else upd (set_PendingExecutionRetryExpirations
                  (insert proposal_id (retry_deadline state))));
        mret w
      else
        proposal ← sgets (fun s => Proposals (ve s) !! proposal_id);
        if negb (bool_decide (status <$> proposal = Some STATUS_PASSED)) then
          _ ← attempt (drop_retry_state proposal_id ;; drop_retry_expiration proposal_id);
          mret w
        else
          result ← attempt (expire_retry proposal_id);
          _ ← attempt
            (if is_ok result then drop_retry_expiration proposal_id
             else upd (set_PendingExecutionRetryExpirations
                    (insert proposal_id retry_deadline')));
          mret w
  end.

Definition process_pending_execution_retry_expirations (now : Z) : RS W weight :=
  if decide (MaxPendingRetryExpirationsPerBlock = 0) then mret (db_reads 1)
  else
    pending ← sgets (fun s => take (Z.to_nat MaxPendingRetryExpirationsPerBlock)
      (storage_iter (PendingExecutionRetryExpirations (ve s))));
    sfold (retry_expiration_step now) (db_reads 1) pending.

(** ** Manual retry and cancellation *)

Definition retry_passed_proposal_inner (who : AccountId) (proposal_id : Z) : RM W unit :=
  transact (
    ensure_retry_admin who proposal_id ;;
    proposal ← gets (fun s => Proposals (ve s) !! proposal_id);
    proposal ← ok_or proposal (VotingErr ProposalNotFound);
    ensure (bool_decide (status proposal = STATUS_PASSED)) (VotingErr ProposalNotRetryable) ;;
    state ← gets (fun s => ProposalExecutionRetryStates (ve s) !! proposal_id);
    state ← ok_or state (VotingErr ProposalNotRetryable);
    now ← gets block_number;
    ensure (bool_decide (now <= retry_deadline state))
      (VotingErr ExecutionRetryDeadlinePassed) ;;
    ensure (bool_decide (manual_attempts state < MaxManualExecutionAttempts))
      (VotingErr ManualExecutionAttemptsExceeded) ;;
    outcome ← with_callback_execution_scope proposal_id
      (invoke_execution_callback proposal_id (kind proposal) true);
    match outcome with
    | Executed =>
        set_proposal_status proposal_id STATUS_EXECUTED ;;
        run_track_hook (on_proposal_executed (kind proposal) proposal_id) ;;
        emit (ProposalExecutionRetried proposal_id (manual_attempts state) STATUS_EXECUTED) ;;
        finish_terminal_status proposal_id STATUS_EXECUTED
    | RetryableFailed =>
        let attempts := saturating_add u8_max (manual_attempts state) 1 in
        if decide (MaxManualExecutionAttempts <= attempts) then
          set_proposal_status proposal_id STATUS_EXECUTION_FAILED ;;
          emit (ProposalExecutionRetried proposal_id attempts STATUS_EXECUTION_FAILED) ;;
          finish_terminal_status proposal_id STATUS_EXECUTION_FAILED
        else
          emit (ProposalExecutionRetried proposal_id attempts STATUS_PASSED) ;;
          upd (set_ProposalExecutionRetryStates (insert proposal_id
            {| manual_attempts := attempts;
               first_auto_failed_at := first_auto_failed_at state;
               retry_deadline := retry_deadline state;
               last_attempt_at := Some now |}))
    | FatalFailed =>
        set_proposal_status proposal_id STATUS_EXECUTION_FAILED ;;
        emit (ProposalExecutionRetried proposal_id (manual_attempts state)
          STATUS_EXECUTION_FAILED) ;;
        finish_terminal_status proposal_id STATUS_EXECUTION_FAILED
    | Ignored => throw (VotingErr ProposalOwnerMissing)
    end).

Definition cancel_passed_proposal_inner (who : AccountId) (proposal_id : Z) : RM W unit :=
  transact (
    ensure_retry_admin who proposal_id ;;
    proposal ← gets (fun s => Proposals (ve s) !! proposal_id);
    proposal ← ok_or proposal (VotingErr ProposalNotFound);
    ensure (bool_decide (status proposal = STATUS_PASSED)) (VotingErr ProposalNotRetryable) ;;
    can_cancel_passed_proposal_by_owner proposal_id (kind proposal) ;;
    set_proposal_status proposal_id STATUS_EXECUTION_FAILED ;;
    emit (ProposalExecutionCancelled proposal_id) ;;
    finish_terminal_status proposal_id STATUS_EXECUTION_FAILED).
End Execution.
