(* ===== verification/Expiry.v ===== *)
(** * Expiry of open proposals ([votingengine/src/expiry.rs])

    A proposal is entered in the bucket of the block after its last voting
    block. A block finalises the entries of a bucket within a number and a
    weight budget; a finalisation that fails is entered again in a later
    bucket and, after [MaxManualExecutionAttempts] failures, set aside. *)
From S2P Require Import Prelude Cid Types State Interfaces Runtime Locks Data Cleanup.
From S2P Require Import Lifecycle Execution.

(** [finalize_timeout] of the registered tracks: it calls back into the
    engine, so the sub-pallets define it after the engine. *)
Class FinalizeTimeout (W : Type) : Type :=
  finalize_timeout : Proposal -> Z -> RS W (option (result DispatchError unit)).

Section Expiry.
Context `{Wt : Weights} `{Cfg : !Config} {W : Type}
  `{Prov : !Providers W} `{Cb : !Callbacks W} `{Tr : !ProposalTracks W} `{FT : !FinalizeTimeout W}.

Definition track_timeout_weight (g : engine) (proposal_id : Z) : weight :=
  match Proposals g !! proposal_id with
  | None => w_zero
  | Some proposal => default w_zero (timeout_weight (kind proposal) (stage proposal))
  end.

Fixpoint bound_subject_loop (raw : list string) (out : list CidNumber)
    : result DispatchError (list CidNumber) :=
  match raw with
  | [] => Ok out
  | r :: raw =>
      guard_ok (negb (bool_decide (String.length r = 0%nat))) (VotingErr InvalidInstitution) ;;
      cid ← opt_ok (bounded_bytes CID_NUMBER_MAX_BYTES r) (VotingErr InvalidInstitution);
      if existsb (fun existing => bool_decide (existing = cid)) out then
        bound_subject_loop raw out
      else
        out ← opt_ok (try_push MAX_PROPOSAL_SUBJECT_CIDS cid out)
          (VotingErr InvalidInstitution);
        bound_subject_loop raw out
  end.

Definition bound_subject_cid_numbers (raw : list string)
    : result DispatchError (list CidNumber) :=
  bound_subject_loop raw [].

Definition emit_proposal_created (proposal_id kind stage end_ : Z) : RM W unit :=
  emit (ProposalCreated proposal_id kind stage end_).
Definition emit_proposal_advanced_to_referendum (proposal_id referendum_end eligible : Z)
    : RM W unit :=
  emit (ProposalAdvancedToReferendum proposal_id referendum_end eligible).

(** [ProposalsByExpiry::try_mutate(block, |ids| ids.try_push(id))]. *)
Definition push_expiry (proposal_id block : Z) : RM W unit :=
  ids ← gets (fun s => default [] (ProposalsByExpiry (ve s) !! block));
  ids ← ok_or (try_push MaxProposalsPerExpiry proposal_id ids)
    (VotingErr TooManyProposalsAtExpiry);
  upd (set_ProposalsByExpiry (insert block ids)).

Definition schedule_proposal_expiry (proposal_id end_ : Z) : RM W unit :=
  push_expiry proposal_id (block_add end_ 1).

Definition clear_auto_finalize (proposal_id : Z) : RM W unit :=
  upd (set_AutoFinalizeRetryStates (delete proposal_id)) ;;
  upd (set_AutoFinalizeDeadLetters (delete proposal_id)).

Definition defer_auto_finalize (now proposal_id : Z) : RM W unit :=
  state ← gets (fun s => default {| attempts := 0; next_attempt_at := now |}
    (AutoFinalizeRetryStates (ve s) !! proposal_id));
  let attempts := saturating_add u8_max (attempts state) 1 in
  let next := block_add now (backoff_delay attempts) in
  scheduled ←
    (if decide (attempts < MaxManualExecutionAttempts) then
       r ← lift (attempt (push_expiry proposal_id next)); mret (is_ok r)
     else mret false);
  if (scheduled : bool) then
    upd (set_AutoFinalizeRetryStates
      (insert proposal_id {| attempts := attempts; next_attempt_at := next |})) ;;
    emit (ProposalAutoFinalizeDeferred proposal_id attempts next)
  else
    upd (set_AutoFinalizeRetryStates (delete proposal_id)) ;;
    upd (set_AutoFinalizeDeadLetters (insert proposal_id attempts)) ;;
    emit (ProposalAutoFinalizeDeadLettered proposal_id attempts).

(** How many entries the weight budget admits: the reservation loop. *)
Fixpoint reserve_items (max_items : nat) (item_weight max_weight reserved : weight) : nat :=
  match max_items with
  | O => O
  | S max_items =>
      let next := w_add reserved item_weight in
      if any_gt next max_weight then O
      else S (reserve_items max_items item_weight max_weight next)
  end.

Definition auto_finalize_step (now : Z) (w : weight) (proposal_id : Z) : RS W weight :=
  let w := w_add w (db_reads 1) in
  proposal ← sgets (fun s => Proposals (ve s) !! proposal_id);
  match proposal with
  | None => _ ← attempt (clear_auto_finalize proposal_id); mret w
  | Some proposal =>
      if negb (bool_decide (status proposal = STATUS_VOTING))
         || bool_decide (now <= end_block proposal) then
        _ ← attempt (clear_auto_finalize proposal_id); mret w
      else
        let w := w_add w (default w_zero (timeout_weight (kind proposal) (stage proposal))) in
        result ← finalize_timeout proposal proposal_id;
        if is_ok (default (Err (Other "ProposalTrackNotConfigured")) result) then
          _ ← attempt (clear_auto_finalize proposal_id);
          mret (w_add w (db_writes 2))
        else
          _ ← attempt (defer_auto_finalize now proposal_id);
          mret (w_add w (db_reads_writes 2 3))
  end.

(** The number processed, whether entries remain, and the weight. *)
Definition auto_finalize_expiry_bucket (expiry now : Z) (max_count : nat) (max_weight : weight)
    : RS W (nat * bool * weight) :=
  let w := db_reads_writes 1 1 in
  proposal_ids ← sgets (fun s => default [] (ProposalsByExpiry (ve s) !! expiry));
  smodify (set_ve (set_ProposalsByExpiry (delete expiry))) ;;
  if decide (proposal_ids = []) then mret (O, false, w)
  else
    let max_items := Nat.min max_count (length proposal_ids) in
    let item_weight :=
      w_add (w_add wi_finalize_proposal max_timeout_weight) (db_reads_writes 4 5) in
    let process_count := reserve_items max_items item_weight max_weight w in
    w ← sfold (auto_finalize_step now) w (take process_count proposal_ids);
    let rest := drop process_count proposal_ids in
    let has_remaining := negb (bool_decide (rest = [])) in
    w ← (if has_remaining then
           smodify (set_ve (set_ProposalsByExpiry (insert expiry rest))) ;;
           mret (w_add w (db_writes 1))
         else mret w);
    let w := w_add w (w_mul wi_finalize_proposal (Z.of_nat process_count)) in
    mret (process_count, has_remaining, w).
End Expiry.
