(* ===== verification/Maintenance.v ===== *)
(** * Removal of finished proposals ([votingengine/src/maintenance.rs])

    The ready queue is served round robin: one bounded step of a proposal's
    cleanup, then the proposal goes to the back of the queue, until its last
    step has removed it. *)
From S2P Require Import Prelude Cid Types State Interfaces Runtime Locks Data Cleanup.
From S2P Require Import Lifecycle.

Section Maintenance.
Context `{Wt : Weights} `{Cfg : !Config} `{Ord : StorageOrder} {W : Type}
  `{Tr : !ProposalTracks W}.

(** The storage of a proposal taken out by its last step. *)
Definition remove_proposal (proposal_id : Z) (g : engine) : engine :=
  let g := release_internal_proposal_mutexes proposal_id g in
  let g := cleanup_proposal_indexes proposal_id g in
  let g := set_Proposals (delete proposal_id) g in
  let g := set_ProposalData (delete proposal_id) g in
  let g := set_ProposalOwner (delete proposal_id) g in
  let g := set_ProposalVotePlans (delete proposal_id) g in
  let g := set_ProposalMeta (delete proposal_id) g in
  let g := set_ProposalPopulationSnapshots (delete proposal_id) g in
  let g := set_ProposalExecutionRetryStates (delete proposal_id) g in
  let g := set_PendingProposalExecutions (delete proposal_id) g in
  let g := set_PendingTerminalFinalizations (delete proposal_id) g in
  let g := set_TerminalFinalizationDeadLetters (delete proposal_id) g in
  let g := set_AutoFinalizeRetryStates (delete proposal_id) g in
  set_AutoFinalizeDeadLetters (delete proposal_id) g.

(** The queue entries of a proposal that is gone already. *)
Definition remove_orphan (proposal_id : Z) (g : engine) : engine :=
  let g := set_PendingProposalExecutions (delete proposal_id) g in
  let g := set_PendingTerminalFinalizations (delete proposal_id) g in
  let g := set_TerminalFinalizationDeadLetters (delete proposal_id) g in
  let g := set_AutoFinalizeRetryStates (delete proposal_id) g in
  set_AutoFinalizeDeadLetters (delete proposal_id) g.

(** A [clear_prefix] of one snapshot map: the stage that follows. *)
Definition clear_snapshot {K} `{Countable K} {A} (proposal_id limit : Z)
    (field : engine -> gmap (Z * K) A)
    (set_field : (gmap (Z * K) A -> gmap (Z * K) A) -> engine -> engine)
    (same next : PendingCleanupStage) : RS W (option PendingCleanupStage * weight) :=
  cleared ← sgets (fun s => clear_prefix proposal_id limit (field (ve s)));
  let '(m, (removed, maybe_cursor)) := cleared in
  smodify (set_ve (set_field (fun _ => m))) ;;
  mret (Some (if (maybe_cursor : bool) then same else next), db_reads_writes removed removed).

Definition process_pending_cleanup_step (proposal_id : Z) (stage : PendingCleanupStage)
    (cleanup_limit : Z) : RS W (option PendingCleanupStage * weight) :=
  match stage with
  | AdminSnapshots =>
      clear_snapshot proposal_id cleanup_limit AdminSnapshot set_AdminSnapshot
        AdminSnapshots VoterSnapshots
  | VoterSnapshots =>
      clear_snapshot proposal_id cleanup_limit VoterSnapshot set_VoterSnapshot
        VoterSnapshots InstitutionTicketCounts
  | InstitutionTicketCounts =>
      clear_snapshot proposal_id cleanup_limit InstitutionTicketCountSnapshot
        set_InstitutionTicketCountSnapshot InstitutionTicketCounts TrackData
  | TrackData =>
      proposal ← sgets (fun s => Proposals (ve s) !! proposal_id);
      match proposal with
      | None => mret (Some ProposalObjectStage, db_reads 1)
      | Some proposal =>
          chunk ← cleanup_chunk (kind proposal) proposal_id cleanup_limit;
          match chunk with
          | None => mret (Some TrackData, db_reads 1)
          | Some (removed, has_remaining) =>
              let next := if (has_remaining : bool) then TrackData else ProposalObjectStage in
              let track_weight :=
                default w_zero (cleanup_chunk_weight (kind proposal) cleanup_limit) in
              mret (Some next, w_add track_weight (db_reads_writes (removed + 1) removed))
          end
      end
  | ProposalObjectStage =>
      smodify (set_ve (set_ProposalObject (delete proposal_id))) ;;
      smodify (set_ve (set_ProposalObjectMeta (delete proposal_id))) ;;
      mret (Some FinalCleanup, db_writes 2)
  | FinalCleanup =>
      proposal ← sgets (fun s => Proposals (ve s) !! proposal_id);
      match proposal with
      | None =>
          smodify (set_ve (remove_orphan proposal_id)) ;;
          mret (None, db_reads_writes 1 5)
      | Some proposal =>
          handled ← cleanup_terminal (kind proposal) proposal_id;
          if negb handled then mret (Some FinalCleanup, db_reads 1)
          else
            let track_weight := default w_zero (cleanup_terminal_weight (kind proposal)) in
            smodify (set_ve (remove_proposal proposal_id)) ;;
            mret (None, w_add track_weight (db_reads_writes 2 19))
      end
  end.

(** What follows a step: back of the queue, or done. [true] ends the block. *)
Definition cleanup_requeue (proposal_id : Z) (next : option PendingCleanupStage)
    (w : weight) : RS W (weight * bool) :=
  match next with
  | Some next =>
      smodify (set_ve (set_PendingProposalCleanups (insert proposal_id next))) ;;
      queued ← attempt (on_ve (enqueue_pending_cleanup proposal_id));
      if is_ok queued then mret (w_add w (db_reads_writes 2 3), false) else mret (w, true)
  | None =>
      smodify (set_ve (set_PendingProposalCleanups (delete proposal_id))) ;;
      mret (w_add w (db_writes 1), false)
  end.

(** The head of the queue taken off. *)
Definition pop_cleanup_queue : RS W (option Z) :=
  head ← sgets (fun s => PendingCleanupQueueHead (ve s));
  proposal_id ← sgets (fun s => PendingCleanupQueue (ve s) !! head);
  smodify (set_ve (set_PendingCleanupQueue (delete head))) ;;
  smodify (set_ve (set_PendingCleanupQueueHead (fun _ => saturating_add u64_max head 1))) ;;
  mret proposal_id.

Fixpoint cleanup_steps_loop (n : nat) (cleanup_limit : Z) (step_upper_bound max_weight w : weight)
    : RS W weight :=
  match n with
  | O => mret w
  | S n =>
      if any_gt (w_add w step_upper_bound) max_weight then mret w
      else
        empty ← sgets (fun s =>
          bool_decide (PendingCleanupQueueTail (ve s) <= PendingCleanupQueueHead (ve s)));
        if (empty : bool) then mret w
        else
          popped ← pop_cleanup_queue;
          let w := w_add w (db_reads_writes 3 2) in
          match popped with
          | None => cleanup_steps_loop n cleanup_limit step_upper_bound max_weight w
          | Some proposal_id =>
              stage ← sgets (fun s => PendingProposalCleanups (ve s) !! proposal_id);
              match stage with
              | None => cleanup_steps_loop n cleanup_limit step_upper_bound max_weight w
              | Some stage =>
                  '(next, step_weight) ←
                    process_pending_cleanup_step proposal_id stage cleanup_limit;
                  '(w, stop) ← cleanup_requeue proposal_id next (w_add w step_weight);
                  if (stop : bool) then mret w
                  else cleanup_steps_loop n cleanup_limit step_upper_bound max_weight w
              end
          end
  end.

Definition process_pending_cleanup_steps (max_weight : weight) : RS W weight :=
  if decide (MaxCleanupStepsPerBlock = 0) then mret w_zero
  else
    let cleanup_limit := Z.max CleanupKeysPerStep 1 in
    let track_upper_bound :=
      w_max (max_cleanup_chunk_weight cleanup_limit) max_cleanup_terminal_weight in
    let step_upper_bound :=
      w_add track_upper_bound (db_reads_writes (cleanup_limit + 8) (cleanup_limit + 20)) in
    cleanup_steps_loop (Z.to_nat MaxCleanupStepsPerBlock) cleanup_limit step_upper_bound
      max_weight (db_reads 2).
End Maintenance.
