(* ===== verification/Engine.v ===== *)
(** * The voting engine pallet ([votingengine/src/lib.rs])

    [on_initialize], which runs at the start of every block, and the three
    calls a user can make: finalise an expired proposal, retry the execution
    of a passed one, or cancel it. *)
From S2P Require Import Prelude Cid Types State Interfaces Runtime Locks Data Cleanup.
From S2P Require Import Lifecycle Execution Expiry Maintenance.

Section Engine.
Context `{Wt : Weights} `{Cfg : !Config} `{Ord : StorageOrder} {W : Type}
  `{Prov : !Providers W} `{Cb : !Callbacks W} `{Tr : !ProposalTracks W}
  `{FT : !FinalizeTimeout W}.

(** The expired buckets: first the one left over from an earlier block. *)
Definition process_expiry_buckets (n : Z) : RS W weight :=
  if decide (MaxAutoFinalizePerBlock <= 0) then mret w_zero
  else
    let w := db_reads 1 in
    let budget := Z.to_nat MaxAutoFinalizePerBlock in
    pending ← sgets (fun s => PendingExpiryBucket (ve s));
    '(w, budget, weight_budget, pending_has_remaining) ←
      (match pending with
       | Some expiry =>
           if decide (expiry <= n) then
             '(processed, has_remaining, pw) ←
               auto_finalize_expiry_bucket expiry n budget MaxAutoFinalizeWeightPerBlock;
             let w := w_add w pw in
             smodify (set_ve (set_PendingExpiryBucket
               (fun _ => if (has_remaining : bool) then Some expiry else None))) ;;
             mret (w_add w (db_writes 1), (budget - processed)%nat,
                   w_sub MaxAutoFinalizeWeightPerBlock pw, has_remaining)
           else mret (w, budget, MaxAutoFinalizeWeightPerBlock, false)
       | None => mret (w, budget, MaxAutoFinalizeWeightPerBlock, false)
       end);
    if (negb (budget =? 0)%nat && negb pending_has_remaining : bool) then
      '(_, has_remaining, pw) ← auto_finalize_expiry_bucket n n budget weight_budget;
      let w := w_add w pw in
      (if (has_remaining : bool) then
         smodify (set_ve (set_PendingExpiryBucket (fun _ => Some n))) ;;
         mret (w_add w (db_writes 1))
       else mret w)
    else mret w.

(** A step of the engine's own storage that cannot fail. *)
Definition son_ve {A} (m : St engine A) : RS W A := fun s =>
  let '(a, g) := m (ve s) in (a, set_ve (fun _ => g) s).

Definition on_initialize (n : Z) : RS W weight :=
  w ← process_expiry_buckets n;
  w1 ← process_pending_proposal_executions n;
  w2 ← process_pending_terminal_finalizations n;
  w3 ← process_pending_execution_retry_expirations n;
  w4 ← process_execution_retry_deadlines n;
  w5 ← process_pending_terminal_cleanups;
  let w := w_add (w_add (w_add (w_add (w_add w w1) w2) w3) w4) w5 in
  scheduled_weight ← son_ve (process_scheduled_cleanups n MaxCleanupWeightPerBlock);
  w6 ← process_pending_cleanup_steps (w_sub MaxCleanupWeightPerBlock scheduled_weight);
  mret (w_add (w_add w scheduled_weight) w6).

(** ** Calls *)

Definition finalize_proposal (who : AccountId) (proposal_id : Z) : RM W unit :=
  proposal ← gets (fun s => Proposals (ve s) !! proposal_id);
  proposal ← ok_or proposal (VotingErr ProposalNotFound);
  result ← lift (finalize_timeout proposal proposal_id);
  result ← ok_or result (VotingErr InvalidProposalStage);
  from_result result.

Definition retry_passed_proposal (who : AccountId) (proposal_id : Z) : RM W unit :=
  retry_passed_proposal_inner who proposal_id.

Definition cancel_passed_proposal (who : AccountId) (proposal_id : Z) (reason : string)
    : RM W unit :=
  cancel_passed_proposal_inner who proposal_id.
End Engine.
