(* ===== verification/Invariant.v ===== *)
(** * The invariant of the engine

    [engine_inv] gathers the well-formedness of every part of the engine's
    storage; [evolves] says how proposals may change: their status only moves
    along the allowed transitions, what they are about never changes, they
    disappear only after a final status, and their identifiers are never used
    again. A relation between the engine and the other pallets that follows
    proposals as they evolve and that the callbacks keep is [business].
    [good s0 s] is all of it, for a run that started at [s0]: the invariant,
    the evolution, and every such relation kept; the lemmas of this file carry
    it through the primitive writes. *)
From S2P Require Import Prelude Cid Types TrackTypes State Interfaces Runtime Ids Locks Data.
From S2P Require Import Cleanup Lifecycle.

(** ** How proposals evolve *)

Definition status_step (a b : Z) : Prop := valid_status_transition a b = true.

(** The stages of a legislation proposal in their order: the bodies, then the
    referendum or the signature, the joint signatures, the guards. *)
Inductive leg_stage_step : Z -> Z -> Prop :=
| leg_to_referendum : leg_stage_step STAGE_LEG_REPRESENTATIVE STAGE_LEG_REFERENDUM
| leg_to_sign : leg_stage_step STAGE_LEG_REPRESENTATIVE STAGE_LEG_SIGN
| leg_to_override : leg_stage_step STAGE_LEG_SIGN STAGE_LEG_OVERRIDE
| leg_referendum_to_guard : leg_stage_step STAGE_LEG_REFERENDUM STAGE_LEG_CONSTITUTION_GUARD
| leg_sign_to_guard : leg_stage_step STAGE_LEG_SIGN STAGE_LEG_CONSTITUTION_GUARD
| leg_override_to_guard : leg_stage_step STAGE_LEG_OVERRIDE STAGE_LEG_CONSTITUTION_GUARD.

(** A legislation proposal passes from body to body, whose code it carries,
    and from stage to stage; each has its own window. *)
Record same_identity (p p' : Proposal) : Prop := {
  same_kind : kind p' = kind p;
  same_code : internal_code p' = internal_code p \/ kind p = PROPOSAL_KIND_LEGISLATION;
  same_actor : actor_cid_number p' = actor_cid_number p;
  same_account : execution_account_id p' = execution_account_id p;
  same_subjects : subject_cid_numbers p' = subject_cid_numbers p;
  same_window :
    (stage p' = stage p /\ start_block p' = start_block p /\ end_block p' = end_block p) \/
    (kind p = PROPOSAL_KIND_JOINT /\ stage p = STAGE_JOINT /\ stage p' = STAGE_REFERENDUM) \/
    (kind p = PROPOSAL_KIND_LEGISLATION /\ rtc leg_stage_step (stage p) (stage p'));
}.

(** What was registered for a proposal stays. *)
Definition same_data (pid : Z) (g g' : engine) : Prop :=
  (forall d, ProposalData g !! pid = Some d -> ProposalData g' !! pid = Some d) /\
  (forall o, ProposalOwner g !! pid = Some o -> ProposalOwner g' !! pid = Some o).

Record evolves (g g' : engine) : Prop := {
  evolves_proposals : forall pid p, Proposals g !! pid = Some p ->
    match Proposals g' !! pid with
    | Some p' => same_identity p p' /\ rtc status_step (status p) (status p') /\
        same_data pid g g'
    | None => exists st, rtc status_step (status p) st /\ is_terminal_status st = true
    end;
  evolves_ids : NextProposalId g <= NextProposalId g';
  evolves_gone : forall pid, pid < NextProposalId g ->
    Proposals g !! pid = None -> Proposals g' !! pid = None;
}.

(** ** The invariant *)

(** The stages a kind of proposal goes through. *)
Definition stage_of_kind (p : Proposal) : Prop :=
  (kind p = PROPOSAL_KIND_INTERNAL /\ stage p = STAGE_INTERNAL) \/
  (kind p = PROPOSAL_KIND_JOINT /\ (stage p = STAGE_JOINT \/ stage p = STAGE_REFERENDUM)) \/
  (kind p = PROPOSAL_KIND_ELECTION /\
    (stage p = STAGE_ELECTION_POPULAR \/ stage p = STAGE_ELECTION_MUTUAL)) \/
  (kind p = PROPOSAL_KIND_LEGISLATION /\
    STAGE_LEG_REPRESENTATIVE <= stage p <= STAGE_LEG_CONSTITUTION_GUARD).

Definition under_cleanup (g : engine) (pid : Z) : Prop :=
  is_Some (PendingProposalCleanups g !! pid) \/
  exists i x, ScheduledCleanups g !! i = Some x /\ cleanup_proposal_id x = pid.

Record engine_inv `{Config} {W} (s : rt W) : Prop := {
  inv_sched : scheduled_wf (block_number s) (ve s);
  inv_pending : pending_wf (ve s);
  inv_mutex : mutex_wf (ve s);
  inv_index : index_wf (ve s);
  inv_active : active_wf (ve s);
  inv_ids : ids_wf (ve s);
  inv_below : forall pid p, Proposals (ve s) !! pid = Some p -> 0 <= pid < NextProposalId (ve s);
  inv_cleanup : forall pid, under_cleanup (ve s) pid -> pid < NextProposalId (ve s) /\
    forall p, Proposals (ve s) !! pid = Some p -> is_terminal_status (status p) = true;
  inv_stage : forall pid p, Proposals (ve s) !! pid = Some p -> stage_of_kind p;
}.

(** The run stays in the block it started in, and the year of the last
    proposal is the one it found or the current one. *)
Definition in_block {W} (s0 s : rt W) : Prop :=
  clock s = clock s0 /\
  (CurrentProposalYear (ve s) = CurrentProposalYear (ve s0) \/
   unix_seconds_to_year (now_ms s / 1000) = Ok (CurrentProposalYear (ve s))).

Definition sound `{Config} {W} (s0 s : rt W) : Prop :=
  engine_inv s /\ evolves (ve s0) (ve s) /\ in_block s0 s.

(** ** What the business modules rely on *)

(** A module reached by a callback may relate its storage to the proposals:
    the relation must bear that they evolve, and the callbacks must keep it. *)
Definition called_keeps `{Config} {W} (J : engine -> W -> Prop) (c : ResultCallback W) : Prop :=
  forall s, engine_inv s -> J (ve s) (world s) ->
  (forall pid b, J (ve s) (world (on_vote_finalized c pid b s).2)) /\
  (forall pid, J (ve s) (world (can_cancel_passed_proposal c pid s).2)) /\
  (forall pid, J (ve s) (world (on_execution_failed_terminal c pid s).2)).

Record business `{Config} {W} `{Callbacks W} (J : engine -> W -> Prop) : Prop := {
  biz_evolves : forall g g' w, evolves g g' -> J g w -> J g' w;
  biz_called : forall k c, callback_of_kind k = Some c -> called_keeps J c;
}.

Definition good `{Config} {W} `{Callbacks W} (s0 s : rt W) : Prop :=
  sound s0 s /\
  forall J, business J -> J (ve s0) (world s0) -> J (ve s) (world s).

(** ** Transitions *)

Lemma status_step_terminal a b : is_terminal_status a = true -> ~ status_step a b.
Proof.
  unfold is_terminal_status, status_step, valid_status_transition.
  rewrite !orb_true_iff, !bool_decide_eq_true. intros Ha [Hb|[Hb|[Hb|[Hb|Hb]%elem_of_cons]%elem_of_cons]%elem_of_cons]%elem_of_cons;
    [..|by apply elem_of_nil in Hb];
    injection Hb as -> _; unfold STATUS_VOTING, STATUS_PASSED, STATUS_REJECTED,
      STATUS_EXECUTED, STATUS_EXECUTION_FAILED in Ha; lia.
Qed.

(** A final status stays what it is. *)
Lemma status_reach_terminal a b :
  rtc status_step a b -> is_terminal_status a = true -> b = a.
Proof.
  intros Hr Ha. inversion Hr as [|? ? ? Hs]; subst; [done|].
  by apply status_step_terminal in Hs.
Qed.

Lemma same_identity_refl p : same_identity p p.
Proof. split; auto. Qed.

Lemma same_identity_trans p1 p2 p3 :
  same_identity p1 p2 -> same_identity p2 p3 -> same_identity p1 p3.
Proof.
  intros [Hk1 C1 ? ? ? H1] [? C2 ? ? ? H2]. rewrite Hk1 in *.
  assert (Hd : PROPOSAL_KIND_JOINT <> PROPOSAL_KIND_LEGISLATION) by done.
  assert (Hj : STAGE_JOINT <> STAGE_REFERENDUM) by done.
  split; [congruence| |congruence..|].
  - destruct C1, C2; [left; congruence|by right..].
  - destruct H1 as [(E1 & E2 & E3)|[(? & ? & ?)|(? & H1)]],
      H2 as [(F1 & F2 & F3)|[(? & F1 & ?)|(? & H2)]]; try congruence.
    + left. split_and!; congruence.
    + right; left. split_and!; congruence.
    + right; right. split; [done|]. by rewrite <- E1.
    + right; left. split_and!; congruence.
    + right; right. split; [done|]. by rewrite F1.
    + right; right. split; [done|]. by etrans.
Qed.

Lemma leg_stage_step_range a b :
  leg_stage_step a b ->
  STAGE_LEG_REPRESENTATIVE <= a < b /\ b <= STAGE_LEG_CONSTITUTION_GUARD.
Proof. by destruct 1. Qed.

Lemma leg_stage_step_rtc a b :
  rtc leg_stage_step a b -> a = b \/
  (STAGE_LEG_REPRESENTATIVE <= a < b /\ b <= STAGE_LEG_CONSTITUTION_GUARD).
Proof.
  induction 1 as [|a b c H%leg_stage_step_range _ [->|IH]]; [by left|by right|right; lia].
Qed.

Lemma same_identity_stage p p' : same_identity p p' -> stage_of_kind p -> stage_of_kind p'.
Proof.
  intros [Hk _ _ _ _ Hw] Hs. unfold stage_of_kind in *. rewrite Hk.
  destruct Hw as [(-> & _)|[(Hj & Hs1 & Hs2)|(Hl & Hr)]]; [done| |].
  - right; left. rewrite Hs2. by split; [|right].
  - destruct Hs as [[? _]|[[? _]|[[? _]|[_ Hs]]]]; try (by rewrite Hl in *).
    right; right; right. split; [done|].
    apply leg_stage_step_rtc in Hr as [<-|?]; [done|lia].
Qed.

Lemma evolves_refl g : evolves g g.
Proof.
  split; [|lia|done]. intros pid p ->. split; [apply same_identity_refl|by repeat split].
Qed.

Lemma evolves_trans g1 g2 g3 :
  (forall pid p, Proposals g1 !! pid = Some p -> pid < NextProposalId g1) ->
  evolves g1 g2 -> evolves g2 g3 -> evolves g1 g3.
Proof.
  intros Hb [H1 H2 H3] [K1 K2 K3]. split; [|lia|].
  - intros pid p Hp. specialize (H1 pid p Hp). specialize (Hb pid p Hp).
    destruct (Proposals g2 !! pid) as [p2|] eqn:Hp2.
    + destruct H1 as (Hi & Hr & Hd1 & Hd2). specialize (K1 pid p2 Hp2).
      destruct (Proposals g3 !! pid) as [p3|].
      * destruct K1 as (Hi' & Hr' & Hd1' & Hd2'). split; [by eapply same_identity_trans|].
        split; [by etrans|]. split; auto.
      * destruct K1 as (st & Hr' & Ht). exists st. split; [by etrans|done].
    + rewrite K3; [done|lia|done].
  - intros pid Hlt Hp. apply K3; [lia|]. by apply H3.
Qed.

(** ** Writes outside the core *)

(** The storage the invariant speaks of. *)
Definition core (g : engine) :=
  (Proposals g, NextProposalId g, CurrentProposalYear g, YearProposalCounter g,
   ProposalDisplayId g, (ScheduledCleanups g, ScheduledCleanupHead g, ScheduledCleanupTail g),
   (PendingCleanupQueue g, PendingCleanupQueueHead g, PendingCleanupQueueTail g,
    PendingProposalCleanups g),
   (InternalProposalMutexes g, ProposalMutexBindings g),
   (ProposalsByCode g, ProposalsByCid g, ProposalsByOwner g, ProposalsByYear g),
   ProposalOwner g, ActiveProposalsBySubject g, ProposalData g).

Section Good.
Context `{Wt : Weights} `{Cfg : !Config} {W : Type} `{Cb : !Callbacks W}.
Implicit Types s : rt W.

Lemma sound_refl s : engine_inv s -> sound s s.
Proof. intros H. split; [done|]. split; [apply evolves_refl|split; auto]. Qed.

Lemma good_inv s0 s : good s0 s -> engine_inv s.
Proof. by intros [[? _] _]. Qed.

(** A write that leaves the other pallets alone. *)
Lemma good_quiet s0 s s' :
  (forall r, sound r s -> sound r s') -> world s' = world s -> good s0 s -> good s0 s'.
Proof.
  intros Hs Hw [H1 H2]. split; [by apply Hs|]. intros J HJ H0. rewrite Hw.
  assert (He : evolves (ve s) (ve s')) by apply Hs, sound_refl, H1.
  apply (biz_evolves J HJ (ve s)); [done|]. by apply H2.
Qed.

Lemma engine_inv_core s s' :
  core (ve s') = core (ve s) -> clock s' = clock s ->
  engine_inv s -> engine_inv s'.
Proof.
  unfold core. intros [=] [= Hb _] [[] [] [] [] ? [] ? Hc ?].
  split; [split|split|split|split| |split| |intros pid Hu|];
    unfold active_wf, active_proposal_count, active_proposals, mutex_bindings,
      under_cleanup in *; rewrite ?Hb;
    repeat match goal with
    | H : _ (ve s') = _ (ve s) |- _ => rewrite ?H in *; clear H
    end; try assumption; auto.
Qed.

Lemma evolves_core g g1 g2 : core g2 = core g1 -> evolves g g1 -> evolves g g2.
Proof.
  unfold core. intros [=] [K1 K2 K3]. split; [|lia|]; intros pid; unfold same_data in *;
    repeat match goal with H : _ g2 = _ g1 |- _ => rewrite ?H; clear H end; [apply K1|apply K3].
Qed.

Lemma sound_core s0 s s' :
  core (ve s') = core (ve s) -> clock s' = clock s -> sound s0 s -> sound s0 s'.
Proof.
  intros Hc Hb (Hi & He & Hn & Hy).
  split_and!; [by eapply engine_inv_core|by eapply evolves_core|split; [by rewrite Hb|]].
  unfold core in Hc. injection Hc as _ _ Hyear. injection Hb as _ Hnow.
  by rewrite Hyear, Hnow.
Qed.

Lemma good_core s0 s s' :
  core (ve s') = core (ve s) -> clock s' = clock s -> world s' = world s ->
  good s0 s -> good s0 s'.
Proof. intros Hc Hb. apply good_quiet. intros r. by apply sound_core. Qed.

Lemma good_upd s0 f :
  (forall g, core (f g) = core g) -> preserves (good s0) (upd f : RM W unit).
Proof. intros Hf s Hs. by apply (good_core s0 s); [apply Hf|..]. Qed.

Lemma good_emit s0 e : preserves (good s0) (emit e : RM W unit).
Proof. intros s Hs. by apply (good_core s0 s). Qed.

Lemma good_framed s0 {A} (m : rt W -> A * rt W) : track_frame m -> preserves (good s0) m.
Proof.
  intros Hm s Hs. destruct (track_frame_eq m s Hm) as (H1 & H2 & H3).
  apply (good_core s0 s); [by rewrite H1|done..].
Qed.

Lemma good_upd_mutex s0 pid :
  preserves (good s0) (upd (release_internal_proposal_mutexes pid) : RM W unit).
Proof.
  intros s. apply good_quiet; [|done]. clear s0.
  intros s0 ([? ? Hm ? ? ? ? ? ?] & He & Hn). split; [|split; [by destruct He|done]].
  split; try done; simpl.
  - by destruct inv_sched0.
  - by destruct inv_pending0.
  - by apply release_mutex_wf.
  - by destruct inv_index0.
  - by destruct inv_ids0.
Qed.

Lemma good_upd_active s0 subjects pid :
  preserves (good s0) (upd (remove_active_proposals subjects pid) : RM W unit).
Proof.
  intros s. apply good_quiet; [|done]. clear s0.
  intros s0 Hs. destruct (remove_active_frames subjects pid (ve s)) as [m Hm].
  assert (Ha : active_wf (remove_active_proposals subjects pid (ve s))).
  { apply remove_active_proposals_wf, Hs. }
  unfold upd, modify, set_ve; simpl. destruct Hs as ([] & He & Hn).
  rewrite Hm in Ha |- *. split; [|split; [by destruct He|done]]. split; try done; simpl.
  - by destruct inv_sched0.
  - by destruct inv_pending0.
  - by destruct inv_mutex0.
  - by destruct inv_index0.
  - by destruct inv_ids0.
Qed.

(** ** Status changes *)

Lemma good_set_status s0 s pid p st :
  Proposals (ve s) !! pid = Some p -> status_step (status p) st -> good s0 s ->
  good s0 (set_ve (set_Proposals (insert pid (set_status st p))) s).
Proof.
  intros Hp Hst. apply good_quiet; [|done]. clear s0.
  intros s0 ([Hsc Hpe Hmu Hix Hac Hid Hbe Hcl Hks] & [He1 He2 He3] & Hn).
  split; [split|split; [split|]]; try done; simpl.
  - by destruct Hsc.
  - by destruct Hpe.
  - by destruct Hmu.
  - destruct Hix as [H1 H2 H3 H4]. split; simpl; try done.
    + intros c q [Hlt Hc]%H1. split; [done|].
      intros x [[<- <-]|[_ Hx]]%lookup_insert_Some; [by apply (Hc p Hp)|by apply Hc].
    + intros c q (x & Hx & Hc)%H2. destruct (decide (q = pid)) as [->|].
      * rewrite lookup_insert_eq. eexists. split; [done|]. simpl.
        replace p with x by congruence. done.
      * rewrite lookup_insert_ne by done. eauto.
  - by destruct Hid.
  - intros q x [[<- <-]|[_ Hx]]%lookup_insert_Some; by eapply Hbe.
  - intros q Hq. destruct (Hcl q Hq) as [Hlt Ht]. split; [done|].
    intros x [[<- <-]|[_ Hx]]%lookup_insert_Some; [|by eapply Ht].
    exfalso. by eapply status_step_terminal; [apply (Ht p)|].
  - intros q x [[<- <-]|[_ Hx]]%lookup_insert_Some; [exact (Hks pid p Hp)|by eapply Hks].
  - intros q x Hx. specialize (He1 q x Hx). destruct (decide (q = pid)) as [->|].
    + rewrite lookup_insert_eq, Hp in *. destruct He1 as (Hi & Hr & Hd).
      split; [by destruct Hi; split|]. split; [by eapply rtc_r|done].
    + by rewrite lookup_insert_ne.
  - intros q Hq Hq0. destruct (decide (q = pid)) as [->|].
    + rewrite (He3 pid Hq Hq0) in Hp. done.
    + rewrite lookup_insert_ne by done. by apply He3.
Qed.

Lemma set_proposal_status_Ok pid st s s' :
  set_proposal_status pid st s = (Ok tt, s') ->
  exists p, Proposals (ve s) !! pid = Some p /\ status_step (status p) st /\
    s' = set_ve (set_Proposals (insert pid (set_status st p))) s.
Proof.
  unfold set_proposal_status, ensure_valid_status_transition, guard_ok, upd. intros H.
  run_inv. eexists. split_and!; [done| |done]. unfold status_step.
  by destruct (valid_status_transition _ _).
Qed.

Lemma set_proposal_status_Err pid st s e s' :
  set_proposal_status pid st s = (Err e, s') -> s' = s.
Proof.
  unfold set_proposal_status, ensure_valid_status_transition, guard_ok, upd.
  autorewrite with run. destruct (Proposals (ve s) !! pid); autorewrite with run;
    [|by intros [= _ <-]].
  destruct (valid_status_transition _ _); simpl; autorewrite with run; [done|].
  by intros [= _ <-].
Qed.

Lemma good_set_proposal_status s0 pid st :
  preserves (good s0) (set_proposal_status pid st : RM W unit).
Proof.
  intros s Hs. destruct (set_proposal_status pid st s) as [[[]|e] s'] eqn:Hr; simpl.
  - apply set_proposal_status_Ok in Hr as (p & ? & ? & ->). by apply good_set_status.
  - by apply set_proposal_status_Err in Hr as ->.
Qed.
End Good.

(** ** Operations of the lifecycle *)

#[export] Hint Resolve good_emit good_upd_mutex good_upd_active good_set_proposal_status
  : preserves.
#[export] Hint Extern 1 (preserves (good _) (upd _)) =>
  apply good_upd; intros; reflexivity : preserves.

(** Takes a run apart; the writes are closed by the lemmas above. *)
Ltac solve_good := solve_preserves_with fail.

Section GoodOps.
Context `{Wt : Weights} `{Cfg : !Config} `{Ord : StorageOrder} {W : Type}
  `{Prov : !Providers W} `{Cb : !Callbacks W} `{Tr : !ProposalTracks W}
  `{CbL : !CallbackLaws Cb} `{TrL : !TrackLaws Tr}.
Implicit Types s : rt W.

Lemma good_called s0 s s' :
  ve s' = ve s -> clock s' = clock s ->
  (forall J, business J -> engine_inv s -> J (ve s) (world s) -> J (ve s) (world s')) ->
  good s0 s -> good s0 s'.
Proof.
  intros Hv Hk HJ [(Hi & He & Hn) Hb].
  assert (Hi' : engine_inv s') by (apply (engine_inv_core s); [by rewrite Hv|done..]).
  split; [split; [done|split; [by rewrite Hv|]]|].
  - destruct Hn as [Hn1 Hn2]. split; [by etrans|]. injection Hk as _ Hk.
    rewrite Hv, Hk. exact Hn2.
  - intros J HJ' H0. rewrite Hv. by apply HJ, Hb.
Qed.

Lemma callback_of_kind_framed k c : callback_of_kind k = Some c -> callback_framed c.
Proof.
  unfold callback_of_kind. destruct CbL. intros H.
  repeat case_decide; simplify_eq; done.
Qed.

Lemma good_scope s0 {A} pid (m : RM W A) :
  preserves (good s0) m -> preserves (good s0) (with_callback_execution_scope pid m).
Proof. intros Hm. unfold with_callback_execution_scope. solve_good. Qed.

Lemma good_callback s0 {A} k (f : ResultCallback W -> RM W A) e :
  (forall c, callback_framed c -> engine_frame (f c)) ->
  (forall J c s, called_keeps J c -> engine_inv s -> J (ve s) (world s) ->
    J (ve s) (world (f c s).2)) ->
  preserves (good s0) (c ← ok_or (callback_of_kind k) e; f c).
Proof.
  intros Hf HJ s Hs. destruct (callback_of_kind k) as [c|] eqn:Hk; autorewrite with run; [|done].
  destruct (engine_frame_eq (f c) s) as [Hv Hc]; [by eapply Hf, callback_of_kind_framed|].
  apply (good_called s0 s); [done..| |done]. intros J HB. apply HJ. by eapply biz_called.
Qed.

Lemma good_invoke s0 pid k b : preserves (good s0) (invoke_execution_callback pid k b).
Proof.
  apply good_callback; [intros c Hc; apply Hc|]. intros J c s Hc Hi HJ. by apply (Hc s Hi HJ).
Qed.

Lemma good_notify s0 pid k : preserves (good s0) (notify_execution_failed_terminal pid k).
Proof.
  apply good_callback; [intros c Hc; apply Hc|]. intros J c s Hc Hi HJ. by apply (Hc s Hi HJ).
Qed.

Lemma good_can_cancel s0 pid k : preserves (good s0) (can_cancel_passed_proposal_by_owner pid k).
Proof.
  apply good_callback.
  - intros c Hc. apply frame_bind; [apply Hc|]. intros d. by destruct (bool_decide _).
  - intros J c s Hc Hi HJ. destruct (Hc s Hi HJ) as (_ & H & _). specialize (H pid).
    unfold mbind, M_bind. destruct (can_cancel_passed_proposal c pid s) as [[d|e] s1]; [|done].
    by destruct (bool_decide _).
Qed.

Hint Resolve good_scope good_invoke good_notify good_can_cancel : preserves.

Lemma good_notify_or_queue s0 pid k :
  preserves (good s0) (notify_execution_failed_terminal_or_queue pid k).
Proof.
  unfold notify_execution_failed_terminal_or_queue, drop_terminal_cleanup,
    queue_terminal_cleanup. solve_good.
Qed.

Lemma good_hook s0 (h : RS W (option (result DispatchError unit))) :
  track_frame h -> preserves (good s0) (run_track_hook h).
Proof.
  intros Hh. unfold run_track_hook. repeat (apply preserves_bind; [|intros]).
  - apply preserves_lift. by apply good_framed.
  - apply preserves_ok_or.
  - apply preserves_from_result.
Qed.

Lemma good_hook_terminal s0 k pid st :
  preserves (good s0) (run_track_hook (on_proposal_terminal k pid st)).
Proof. apply good_hook. apply terminal_framed. Qed.

Lemma good_hook_executed s0 k pid :
  preserves (good s0) (run_track_hook (on_proposal_executed k pid)).
Proof. apply good_hook. apply executed_framed. Qed.

Hint Resolve good_notify_or_queue good_hook_terminal good_hook_executed : preserves.

Lemma good_scheduled s0 s pid p :
  Proposals (ve s) !! pid = Some p -> is_terminal_status (status p) = true -> good s0 s ->
  good s0 (on_ve (schedule_cleanup pid (block_number s)) s).2.
Proof.
  intros Hp Ht. apply good_quiet; [|unfold on_ve; by destruct (schedule_cleanup _ _ _)].
  clear s0. intros s0 ([Hsc Hpe Hmu Hix Hac Hid Hbe Hcl Hks] & He & Hn). unfold on_ve.
  destruct (decide (ScheduledCleanupTail (ve s) < u64_max)) as [Hlt|Hfull].
  - destruct (schedule_cleanup_spec (ve s) (block_number s) pid Hsc Hlt) as (g' & -> & Hwf & Hg).
    subst g'. split; [split|split; [|done]]; simpl; try done.
    + by destruct Hpe.
    + by destruct Hmu.
    + by destruct Hix.
    + by destruct Hid.
    + intros q [Hq|(i & x & Hx & Hq)].
      * apply Hcl. by left.
      * simpl in Hx. apply lookup_insert_Some in Hx as [[_ <-]|[_ Hx]]; simpl in *.
        -- subst q. split; [by eapply Hbe|]. intros y Hy. by simplify_eq.
        -- apply Hcl. right. eauto.
    + by destruct He.
  - rewrite schedule_cleanup_full by (done || lia). by apply (sound_core s0 s).
Qed.

(** The final side effects, on a proposal whose status is final. *)
Lemma good_apply_terminal s0 s pid p st :
  Proposals (ve s) !! pid = Some p -> is_terminal_status (status p) = true -> good s0 s ->
  good s0 (apply_terminal_side_effects pid st s).2.
Proof.
  intros Hp Ht Hs. unfold apply_terminal_side_effects.
  destruct (is_terminal_status st); autorewrite with run; [|done].
  pose proof (good_scheduled s0 s pid p Hp Ht Hs) as Hs1.
  destruct (on_ve _ s) as [[[]|e] s1] eqn:Hr; simpl in Hs1.
  - rewrite (bind_run _ _ _ _ _ Hr).
    match goal with |- good s0 (?m s1).2 =>
      assert (Hm : preserves (good s0) m); [|by apply Hm] end.
    unfold drop_terminal_cleanup. solve_good.
  - by rewrite (bind_run_Err _ _ _ _ _ Hr).
Qed.

(** [finish_terminal_status] after the write of a final status. *)
Definition finished s0 pid s : Prop :=
  good s0 s /\ exists p, Proposals (ve s) !! pid = Some p /\ is_terminal_status (status p) = true.

Lemma good_finish s0 pid st s : finished s0 pid s -> good s0 (finish_terminal_status pid st s).2.
Proof.
  intros (Hs & p & Hp & Ht). unfold finish_terminal_status.
  pose proof (good_apply_terminal s0 s pid p st Hp Ht Hs) as Hs1.
  destruct (apply_terminal_side_effects pid st s) as [[[]|e] s1] eqn:Hr; simpl in Hs1.
  - rewrite (bind_run _ _ _ _ _ Hr). by apply good_emit.
  - by rewrite (bind_run_Err _ _ _ _ _ Hr).
Qed.

Lemma finished_framed s0 pid {A} (m : rt W -> A * rt W) :
  track_frame m -> preserves (finished s0 pid) m.
Proof.
  intros Hm s (Hs & p & Hp & Ht). split; [by apply good_framed|].
  destruct (track_frame_eq m s Hm) as (-> & _). eauto.
Qed.

Lemma finished_emit s0 pid e : preserves (finished s0 pid) (emit e : RM W unit).
Proof. by apply finished_framed. Qed.

Lemma finished_hook s0 pid (h : RS W (option (result DispatchError unit))) :
  track_frame h -> preserves (finished s0 pid) (run_track_hook h).
Proof.
  intros Hh. unfold run_track_hook. repeat (apply preserves_bind; [|intros]).
  - apply preserves_lift. by apply finished_framed.
  - apply preserves_ok_or.
  - apply preserves_from_result.
Qed.

(** Runs that, once the status is final, leave a good state. *)
Definition finishes s0 pid (m : RM W unit) : Prop :=
  forall s, finished s0 pid s -> good s0 (m s).2.

Lemma finishes_finish s0 pid st : finishes s0 pid (finish_terminal_status pid st).
Proof. intros s. apply good_finish. Qed.

Lemma finishes_bind s0 pid (m : RM W unit) (f : unit -> RM W unit) :
  preserves (finished s0 pid) m -> finishes s0 pid (f tt) -> finishes s0 pid (m ≫= f).
Proof.
  intros Hm Hf s Hs. specialize (Hm s Hs).
  destruct (m s) as [[[]|e] s1] eqn:Hr; simpl in Hm.
  - rewrite (bind_run _ _ _ _ _ Hr). by apply Hf.
  - rewrite (bind_run_Err _ _ _ _ _ Hr). by destruct Hm.
Qed.

(** A final status written, then a run that completes it. *)
Lemma good_status_then s0 pid st (f : unit -> RM W unit) :
  is_terminal_status st = true -> finishes s0 pid (f tt) ->
  preserves (good s0) (set_proposal_status pid st ≫= f).
Proof.
  intros Ht Hm. apply (preserves_bind_post _ (fun _ => finished s0 pid)).
  - intros s Hs. pose proof (good_set_proposal_status s0 pid st s Hs) as Hg.
    destruct (set_proposal_status pid st s) as [[[]|e] s1] eqn:Hr; simpl in Hg; [|done].
    split; [done|]. apply set_proposal_status_Ok in Hr as (p & _ & _ & ->). simpl.
    rewrite lookup_insert_eq. by eexists.
  - intros [] s Hs. by apply Hm.
Qed.

Lemma good_queue_deadline s0 pid t : preserves (good s0) (queue_execution_retry_deadline pid t).
Proof. unfold queue_execution_retry_deadline. solve_good. Qed.
Hint Resolve good_queue_deadline : preserves.

Lemma good_reschedule s0 pid from :
  preserves (good s0) (reschedule_execution_retry_deadline pid from).
Proof.
  unfold reschedule_execution_retry_deadline. generalize 100%nat as n.
  intros n. revert from. induction n as [|n IH]; intros from; simpl; solve_good.
Qed.
Hint Resolve good_reschedule : preserves.

Lemma good_reschedule_or_queue s0 pid from d :
  preserves (good s0) (reschedule_or_queue pid from d).
Proof. unfold reschedule_or_queue, queue_pending_retry_expiration. solve_good. Qed.
Hint Resolve good_reschedule_or_queue : preserves.

Lemma good_schedule_retry s0 pid : preserves (good s0) (schedule_execution_retry pid).
Proof. unfold schedule_execution_retry. solve_good. Qed.

Lemma good_ensure_retry_admin s0 who pid : preserves (good s0) (ensure_retry_admin who pid).
Proof. unfold ensure_retry_admin. solve_good. Qed.

Lemma good_terminal_cleanups s0 : preserves (good s0) process_pending_terminal_cleanups.
Proof.
  unfold process_pending_terminal_cleanups, pending_terminal_cleanup_step,
    drop_terminal_cleanup. solve_good.
Qed.

Lemma good_mark s0 pid n : preserves (good s0) (upd (mark_proposal_passed_at pid n) : RM W unit).
Proof.
  apply good_upd. intros g. unfold mark_proposal_passed_at. by repeat case_match.
Qed.
Hint Resolve good_mark : preserves.

(** The end of a vote. *)
Lemma good_set_status_and_emit s0 pid st : preserves (good s0) (set_status_and_emit pid st).
Proof.
  unfold set_status_and_emit. apply preserves_transact, preserves_gets_bind. intros s Hs.
  destruct (Proposals (ve s) !! pid) as [p|] eqn:Hp; autorewrite with run; [|done].
  unfold ensure_valid_status_transition, guard_ok.
  destruct (valid_status_transition (status p) st) eqn:Hv; simpl; [|done].
  autorewrite with run.
  match goal with |- good s0 ((?m ≫= _) s).2 => set (mark := m) end.
  assert (Hm : exists s1, mark s = (Ok tt, s1) /\ good s0 s1 /\
    Proposals (ve s1) !! pid = Some p).
  { unfold mark. case_decide.
    - eexists. split; [reflexivity|]. split; [by apply good_mark|].
      simpl. unfold mark_proposal_passed_at. by repeat case_match.
    - by exists s. }
  destruct Hm as (s1 & Hr & Hs1 & Hp1). rewrite (bind_run _ _ _ _ _ Hr). clear Hr mark.
  rewrite bind_upd.
  pose proof (good_set_status s0 s1 pid p st Hp1 Hv Hs1) as Hs2.
  match goal with |- good s0 (?m ?s2).2 =>
    assert (Hm : preserves (good s0) m); [|by apply Hm] end. clear -CbL TrL.
  apply preserves_bind; [solve_good|intros _].
  apply preserves_bind; [solve_good|intros _].
  apply preserves_gets_bind. intros s Hs.
  destruct (Proposals (ve s) !! pid) as [q|] eqn:Hq; autorewrite with run; [|done].
  destruct (is_terminal_status (status q)) eqn:Ht.
  - pose proof (good_apply_terminal s0 s pid q (status q) Hq Ht Hs) as Hs1.
    destruct (apply_terminal_side_effects pid (status q) s) as [[[]|e] s1] eqn:Hr; simpl in Hs1.
    + rewrite (bind_run _ _ _ _ _ Hr). by apply good_emit.
    + by rewrite (bind_run_Err _ _ _ _ _ Hr).
  - match goal with |- good s0 (?m s).2 =>
      assert (Hm : preserves (good s0) m); [|by apply Hm] end. solve_good.
Qed.
End GoodOps.

#[export] Hint Resolve good_scope good_invoke good_notify good_can_cancel good_notify_or_queue
  good_hook_terminal good_hook_executed good_queue_deadline good_reschedule
  good_reschedule_or_queue good_schedule_retry good_ensure_retry_admin good_mark
  good_set_status_and_emit good_terminal_cleanups : preserves.
