(* ===== verification/Safety.v ===== *)
(** * Safety of the engine

    Every block hook and every call keeps the engine's invariant and lets
    proposals evolve only along the allowed transitions. The sub-pallets owe
    the engine one law, [TimeoutLaws]: their timeout handlers do so too. *)
From S2P Require Import Prelude Cid Types State Interfaces Runtime Ids Locks Data.
From S2P Require Import Cleanup Lifecycle Execution Expiry Maintenance Engine Invariant.

Class TimeoutLaws `{Config} {W} `{Callbacks W} (FT : FinalizeTimeout W) : Prop :=
  timeout_good : forall s0 p pid s, Proposals (ve s) !! pid = Some p -> good s0 s ->
    good s0 (finalize_timeout p pid s).2.

Section Execution.
Context `{Wt : Weights} `{Cfg : !Config} `{Ord : StorageOrder} {W : Type}
  `{Prov : !Providers W} `{Cb : !Callbacks W} `{Tr : !ProposalTracks W}
  `{CbL : !CallbackLaws Cb} `{TrL : !TrackLaws Tr}.
Implicit Types s : rt W.

Lemma good_outcome s0 pid k o : preserves (good s0) (apply_automatic_execution_outcome pid k o).
Proof. unfold apply_automatic_execution_outcome. destruct o; solve_good. Qed.

Lemma good_drop_execution s0 pid : preserves (good s0) (drop_pending_execution pid : RM W unit).
Proof. unfold drop_pending_execution. solve_good. Qed.
Hint Resolve good_outcome good_drop_execution : preserves.

(** A final status read back, then the end. *)
Lemma good_finish_read s0 pid :
  preserves (good s0)
    (after ← gets (fun s => Proposals (ve s) !! pid);
     after ← ok_or after (VotingErr ProposalNotFound);
     if is_terminal_status (status after) then finish_terminal_status pid (status after)
     else mret tt).
Proof.
  apply preserves_gets_bind. intros s Hs.
  destruct (Proposals (ve s) !! pid) as [p|] eqn:Hp; autorewrite with run; [|done].
  destruct (is_terminal_status (status p)) eqn:Ht; [|done].
  apply good_finish. split; [done|]. by exists p.
Qed.
Hint Resolve good_finish_read : preserves.

Lemma good_execute_pending s0 pid : preserves (good s0) (execute_pending pid).
Proof.
  unfold execute_pending. apply preserves_transact.
  do 2 (apply preserves_bind; [solve_good|intros]). case_match; [solve_good|].
  do 3 (apply preserves_bind; [solve_good|intros]). apply good_finish_read.
Qed.

Lemma good_handle_failure s0 pid st now :
  preserves (good s0) (handle_automatic_execution_failure pid st now).
Proof. unfold handle_automatic_execution_failure, dead_letter_execution. solve_good. Qed.
Hint Resolve good_execute_pending good_handle_failure : preserves.

Lemma good_process_executions s0 now :
  preserves (good s0) (process_pending_proposal_executions now).
Proof.
  unfold process_pending_proposal_executions, execution_step. case_match; [solve_good|].
  apply preserves_sbind; [solve_good|intros]. destruct (select_executions _ _ _ _ _ _).
  solve_good.
Qed.

(** The end of a proposal found in the failed state. *)
Lemma good_refinish s0 pid s :
  status <$> Proposals (ve s) !! pid = Some STATUS_EXECUTION_FAILED -> good s0 s ->
  good s0 (transact (finish_terminal_status pid STATUS_EXECUTION_FAILED) s).2.
Proof.
  intros Hp Hs. destruct (Proposals (ve s) !! pid) as [p|] eqn:Hl; [|done].
  injection Hp as Hp.
  pose proof (good_finish s0 pid STATUS_EXECUTION_FAILED s) as Hf. unfold transact.
  destruct (finish_terminal_status _ _ s) as [[[]|e] s1]; [|done].
  apply Hf. split; [done|]. exists p. split; [done|]. by rewrite Hp.
Qed.

Lemma good_finalization_step s0 now w entry :
  preserves (good s0) (terminal_finalization_step now w entry).
Proof.
  unfold terminal_finalization_step, defer_terminal_finalization, drop_terminal_finalization.
  intros s Hs. rewrite sbind_run. cbn [sgets fst snd].
  destruct (bool_decide (status <$> Proposals (ve s) !! entry.1 = Some STATUS_EXECUTION_FAILED))
    eqn:Hb; cbn [negb].
  - apply bool_decide_eq_true in Hb. rewrite sbind_run. unfold attempt at 1 3.
    pose proof (good_refinish s0 entry.1 s Hb Hs) as Hs1.
    destruct (transact _ s) as [r s1]; simpl in *.
    match goal with |- good s0 (?m s1).2 =>
      assert (Hm : preserves (good s0) m); [|by apply Hm] end. solve_good.
  - match goal with |- good s0 (?m s).2 =>
      assert (Hm : preserves (good s0) m); [|by apply Hm] end. solve_good.
Qed.
Hint Resolve good_finalization_step : preserves.

Lemma good_process_finalizations s0 now :
  preserves (good s0) (process_pending_terminal_finalizations now).
Proof. unfold process_pending_terminal_finalizations. solve_good. Qed.

Lemma good_expire_retry s0 pid : preserves (good s0) (expire_retry pid).
Proof.
  unfold expire_retry. apply preserves_transact. apply good_status_then; [done|].
  apply finishes_bind; [apply finished_emit|apply finishes_finish].
Qed.
Hint Resolve good_expire_retry : preserves.

Lemma good_process_deadlines s0 now :
  preserves (good s0) (process_execution_retry_deadlines now).
Proof.
  unfold process_execution_retry_deadlines, retry_deadline_step, drop_retry_state.
  apply preserves_sbind; [solve_good|intros]. apply preserves_sbind; [|solve_good].
  intros s Hs. by apply (good_core s0 s).
Qed.

Lemma good_process_expirations s0 now :
  preserves (good s0) (process_pending_execution_retry_expirations now).
Proof.
  unfold process_pending_execution_retry_expirations, retry_expiration_step, drop_retry_state,
    drop_retry_expiration. solve_good.
Qed.

Lemma good_retry s0 who pid : preserves (good s0) (retry_passed_proposal_inner who pid).
Proof.
  unfold retry_passed_proposal_inner. apply preserves_transact.
  do 10 (apply preserves_bind; [solve_good|intros]).
  match goal with o : ProposalExecutionOutcome |- _ => destruct o end.
  - solve_good.
  - apply good_status_then; [done|].
    apply finishes_bind; [apply finished_hook, executed_framed|].
    apply finishes_bind; [apply finished_emit|apply finishes_finish].
  - case_match; [|solve_good]. apply good_status_then; [done|].
    apply finishes_bind; [apply finished_emit|apply finishes_finish].
  - apply good_status_then; [done|].
    apply finishes_bind; [apply finished_emit|apply finishes_finish].
Qed.

Lemma good_cancel s0 who pid : preserves (good s0) (cancel_passed_proposal_inner who pid).
Proof.
  unfold cancel_passed_proposal_inner. apply preserves_transact.
  do 5 (apply preserves_bind; [solve_good|intros]). apply good_status_then; [done|].
  apply finishes_bind; [apply finished_emit|apply finishes_finish].
Qed.
End Execution.

#[export] Hint Resolve good_execute_pending good_handle_failure good_process_executions
  good_process_finalizations good_process_deadlines good_process_expirations : preserves.

(** ** Expiry *)

Section Expiry.
Context `{Wt : Weights} `{Cfg : !Config} {W : Type} `{Cb : !Callbacks W} `{Tr : !ProposalTracks W}
  `{FT : !FinalizeTimeout W} `{FTL : !TimeoutLaws FT}.
Implicit Types s : rt W.

Lemma good_push_expiry s0 pid b : preserves (good s0) (push_expiry pid b : RM W unit).
Proof. unfold push_expiry. solve_good. Qed.
Hint Resolve good_push_expiry : preserves.

Lemma good_defer_finalize s0 now pid : preserves (good s0) (defer_auto_finalize now pid : RM W unit).
Proof. unfold defer_auto_finalize. solve_good. Qed.

Lemma good_finalize_step s0 now w pid : preserves (good s0) (auto_finalize_step now w pid).
Proof.
  unfold auto_finalize_step, clear_auto_finalize.
  intros s Hs. rewrite sbind_run. cbn [sgets fst snd].
  destruct (Proposals (ve s) !! pid) as [p|] eqn:Hp.
  2: { match goal with |- good s0 (?m s).2 => assert (Hm : preserves (good s0) m);
         [solve_good|by apply Hm] end. }
  case_match.
  { match goal with |- good s0 (?m s).2 => assert (Hm : preserves (good s0) m);
      [solve_good|by apply Hm] end. }
  rewrite sbind_run. pose proof (timeout_good s0 p pid s Hp Hs) as Hs1.
  destruct (finalize_timeout p pid s) as [r s1]. cbn [fst snd] in *.
  match goal with |- good s0 (?m s1).2 => assert (Hm : preserves (good s0) m);
    [|by apply Hm] end.
  case_match; [solve_good|].
  apply preserves_sbind; [apply preserves_attempt, good_defer_finalize|solve_good].
Qed.
Hint Resolve good_finalize_step : preserves.

Lemma good_sset s0 f : (forall g, core (f g) = core g) ->
  preserves (good s0) (smodify (set_ve f) : RS W unit).
Proof. intros Hf s Hs. apply (good_core s0 s); [apply Hf|done..]. Qed.

Lemma good_bucket s0 expiry now max mw :
  preserves (good s0) (auto_finalize_expiry_bucket expiry now max mw).
Proof.
  unfold auto_finalize_expiry_bucket.
  apply preserves_sbind; [solve_good|intros].
  apply preserves_sbind; [by apply good_sset|intros]. case_match; [solve_good|].
  apply preserves_sbind; [solve_good|intros].
  apply preserves_sbind; [|solve_good]. case_match; [|solve_good].
  apply preserves_sbind; [by apply good_sset|solve_good].
Qed.

Lemma good_expiry_buckets s0 n : preserves (good s0) (process_expiry_buckets n).
Proof.
  unfold process_expiry_buckets. case_match; [solve_good|].
  apply preserves_sbind; [solve_good|intros pending].
  apply preserves_sbind.
  - destruct pending; [|solve_good]. case_match; [|solve_good].
    apply preserves_sbind; [apply good_bucket|intros [[? ?] ?]].
    apply preserves_sbind; [by apply good_sset|solve_good].
  - intros [[[? ?] ?] ?]. case_match; [|solve_good].
    apply preserves_sbind; [apply good_bucket|intros [[? []] ?]; [|solve_good]].
    apply preserves_sbind; [by apply good_sset|solve_good].
Qed.
End Expiry.

(** ** Cleanup *)

Section CleanupSafety.
Context `{Wt : Weights} `{Cfg : !Config} `{Ord : StorageOrder} {W : Type} `{Cb : !Callbacks W}
  `{Tr : !ProposalTracks W} `{TrL : !TrackLaws Tr}.
Implicit Types s : rt W.

Lemma good_process_scheduled s0 s mw :
  good s0 s ->
  good s0 (son_ve (process_scheduled_cleanups (block_number s0) mw) s).2.
Proof.
  intros Hs. assert (block_number s = block_number s0) as <-.
  { destruct Hs as [(_ & _ & [=] & _) _]. done. }
  revert Hs. apply good_quiet; [|unfold son_ve; by destruct (process_scheduled_cleanups _ _ _)].
  clear s0. intros s0 ([Hsc Hpe Hmu Hix Hac Hid Hbe Hcl Hks] & He & Hn). unfold son_ve. destruct (process_scheduled_cleanups _ _ _) as [w g'] eqn:Hrun.
  destruct (process_scheduled_wf _ _ _ _ _ Hsc Hpe Hrun) as [Hsc' Hpe'].
  destruct (process_scheduled_post _ _ _ _ _ Hsc Hpe Hrun) as (w' & g1 & Hg & Hpost).
  pose proof (lp_new _ _ _ _ _ _ _ _ _ Hpost) as Hnew.
  pose proof (lp_active _ _ _ _ _ _ _ _ _ Hpost Hac) as Hact.
  pose proof (lp_entries _ _ _ _ _ _ _ _ _ Hpost) as Hent.
  destruct (lp_frame _ _ _ _ _ _ _ _ _ Hpost) as (q & h & t & c & a & sc & Hf).
  assert (Hstate : exists q h h' t c a sc, g' = set_ScheduledCleanupHead (fun _ => h')
    (set_PendingCleanupQueue (fun _ => q)
    (set_PendingCleanupQueueHead (fun _ => h) (set_PendingCleanupQueueTail (fun _ => t)
      (set_PendingProposalCleanups (fun _ => c) (set_ActiveProposalsBySubject (fun _ => a)
        (set_ScheduledCleanups (fun _ => sc) (ve s)))))))).
  { exists q, h, (ScheduledCleanupHead g'), t, c, a, sc. rewrite <- Hf. exact Hg. }
  assert (Hcl' : forall pid, under_cleanup g' pid -> under_cleanup (ve s) pid).
  { intros pid [Hp|(i & x & Hx & Hp)].
    - replace (PendingProposalCleanups g') with (PendingProposalCleanups g1) in Hp by (by rewrite Hg).
      destruct (Hnew pid Hp) as [?|?]; [by left|by right].
    - replace (ScheduledCleanups g') with (ScheduledCleanups g1) in Hx by (by rewrite Hg).
      rewrite Hent in Hx. case_decide; [done|]. right. eauto. }
  assert (Hact' : active_wf g') by (by rewrite Hg).
  clear Hg Hf Hpost Hrun.
  split; [split|split]; simpl; try done;
    destruct Hstate as (q' & h1 & h2 & t' & c' & a' & sc' & ->).
  - by destruct Hmu.
  - by destruct Hix.
  - by destruct Hid.
  - exact Hbe.
  - intros pid Hp%Hcl'. by apply Hcl.
  - exact Hks.
  - by destruct He.
  - exact Hn.
Qed.

(** The ready queue with its head taken off and the proposal put back. *)
Definition requeued (p : Z) (next : PendingCleanupStage) (g : engine) : engine :=
  let g1 := set_PendingCleanupQueueHead (fun _ => PendingCleanupQueueHead g + 1)
              (set_PendingCleanupQueue (delete (PendingCleanupQueueHead g)) g) in
  let g2 := set_PendingProposalCleanups (insert p next) g1 in
  if decide (PendingCleanupQueueTail g + 1 <= u64_max) then
    set_PendingCleanupQueueTail (fun _ => PendingCleanupQueueTail g + 1)
      (set_PendingCleanupQueue (insert (PendingCleanupQueueTail g) p) g2)
  else g2.

(** ... or removed. *)
Definition removed (p : Z) (g : engine) : engine :=
  set_PendingProposalCleanups (delete p)
    (set_PendingCleanupQueueHead (fun _ => PendingCleanupQueueHead g + 1)
      (set_PendingCleanupQueue (delete (PendingCleanupQueueHead g)) g)).

Lemma pending_wf_requeued p next g :
  PendingCleanupQueueHead g < PendingCleanupQueueTail g ->
  PendingCleanupQueue g !! PendingCleanupQueueHead g = Some p -> pending_wf g ->
  pending_wf (requeued p next g).
Proof.
  intros Hlt Hh [Hr Hd Hi Hs Hq Ht]. unfold requeued. case_decide; split; simpl; try lia.
  - intros i. rewrite lookup_insert_is_Some, lookup_delete_is_Some, Hd.
    destruct (decide (PendingCleanupQueueTail g = i)); naive_solver lia.
  - intros i j q. rewrite !lookup_insert_Some, !lookup_delete_Some.
    intros [[? ?]|[? [? Hi1]]] [[? ?]|[? [? Hi2]]]; subst; try done.
    + exfalso. eauto.
    + exfalso. eauto.
    + by eapply Hi.
  - intros i q. rewrite lookup_insert_Some, lookup_delete_Some, lookup_insert_is_Some.
    destruct (decide (p = q)); [by left|]. intros [[_ ?]|(? & ? & ?)]; [done|].
    right. split; [done|]. by eapply Hs.
  - intros q Hst. left. destruct (decide (p = q)) as [<-|Hne].
    + exists (PendingCleanupQueueTail g). by rewrite lookup_insert_eq.
    + rewrite lookup_insert_is_Some in Hst. destruct Hst as [?|[_ Hst]]; [done|].
      destruct (Hq q Hst) as [[i Hi']|]; [|lia]. exists i.
      assert (PendingCleanupQueueHead g <= i < PendingCleanupQueueTail g) by (apply Hd; eauto).
      rewrite lookup_insert_ne by lia. rewrite lookup_delete_ne; [done|]. congruence.
  - intros i. rewrite lookup_delete_is_Some, Hd. lia.
  - intros i j q. rewrite !lookup_delete_Some. naive_solver.
  - intros i q. rewrite lookup_delete_Some, lookup_insert_is_Some.
    destruct (decide (p = q)); [by left|]. intros (? & ?). right. split; [done|]. by eapply Hs.
Qed.

Lemma pending_wf_removed p g :
  PendingCleanupQueueHead g < PendingCleanupQueueTail g ->
  PendingCleanupQueue g !! PendingCleanupQueueHead g = Some p -> pending_wf g ->
  pending_wf (removed p g).
Proof.
  intros Hlt Hh [Hr Hd Hi Hs Hq Ht]. unfold removed. split; simpl; try lia.
  - intros i. rewrite lookup_delete_is_Some, Hd. lia.
  - intros i j q. rewrite !lookup_delete_Some. naive_solver.
  - intros i q. rewrite lookup_delete_Some, lookup_delete_is_Some. intros [Hne Hiq].
    split; [|by eapply Hs]. intros <-. by apply Hne, (Hi _ _ p).
  - intros q. rewrite lookup_delete_is_Some. intros [Hne Hst].
    destruct (Hq q Hst) as [[i Hi']|]; [|by right]. left. exists i.
    rewrite lookup_delete_ne; [done|]. congruence.
Qed.
End CleanupSafety.

(** Takes a write outside the core off [core (set_X f g)]. *)
Ltac strip_core :=
  repeat match goal with
  | |- core (?f ?g) = _ =>
      let H := fresh in
      assert (H : forall g', core (f g') = core g') by reflexivity; rewrite (H g); clear H
  end.

Section Removal.
Context `{Wt : Weights} `{Cfg : !Config} `{Ord : StorageOrder} {W : Type} `{Cb : !Callbacks W}
  `{Tr : !ProposalTracks W} `{TrL : !TrackLaws Tr}.
Implicit Types s : rt W.

Lemma cleanup_indexes_frame p g :
  exists a b c d, cleanup_proposal_indexes p g =
    set_ProposalsByCode (fun _ => a) (set_ProposalsByCid (fun _ => b)
      (set_ProposalsByOwner (fun _ => c) (set_ProposalsByYear (fun _ => d)
        (set_ProposalDisplayId (delete p) g)))).
Proof.
  exists (ProposalsByCode (cleanup_proposal_indexes p g)),
    (ProposalsByCid (cleanup_proposal_indexes p g)),
    (ProposalsByOwner (cleanup_proposal_indexes p g)),
    (ProposalsByYear (cleanup_proposal_indexes p g)).
  unfold cleanup_proposal_indexes. by repeat case_match.
Qed.

(** What removing a proposal does to the core of the storage. *)
Lemma remove_proposal_core p g :
  core (remove_proposal p g) =
  core (set_Proposals (delete p) (set_ProposalOwner (delete p) (set_ProposalData (delete p)
    (cleanup_proposal_indexes p (release_internal_proposal_mutexes p g))))).
Proof.
  unfold remove_proposal. cbv zeta.
  generalize (cleanup_proposal_indexes p (release_internal_proposal_mutexes p g)) as h.
  intros h. strip_core. reflexivity.
Qed.

Lemma release_mutex_frame p g :
  exists a b, release_internal_proposal_mutexes p g =
    set_InternalProposalMutexes (fun _ => a) (set_ProposalMutexBindings (fun _ => b) g).
Proof. unfold release_internal_proposal_mutexes. eexists _, _. reflexivity. Qed.

Lemma index_wf_remove p g :
  index_wf g ->
  index_wf (set_Proposals (delete p) (set_ProposalOwner (delete p)
    (cleanup_proposal_indexes p g))).
Proof.
  intros Hwf. destruct (cleanup_indexes_spec g p Hwf) as (H1 & H2 & H3 & H4 & H5).
  destruct Hwf as [K1 K2 K3 K4].
  assert (Hp : Proposals (cleanup_proposal_indexes p g) = Proposals g).
  { by destruct (cleanup_indexes_frame p g) as (a & b & c & d & ->). }
  assert (Hn : NextProposalId (cleanup_proposal_indexes p g) = NextProposalId g).
  { by destruct (cleanup_indexes_frame p g) as (a & b & c & d & ->). }
  assert (Ho : ProposalOwner (cleanup_proposal_indexes p g) = ProposalOwner g).
  { by destruct (cleanup_indexes_frame p g) as (a & b & c & d & ->). }
  generalize dependent (cleanup_proposal_indexes p g). intros h **.
  split; simpl; intros x q; rewrite ?Hp, ?Ho, ?H5.
  - intros [Hin _]%H1. destruct (K1 _ _ Hin) as [Hlt Hc]. rewrite Hn. split; [done|].
    intros y [_ Hy]%lookup_delete_Some. by apply Hc.
  - intros [Hin Hq]%H2. rewrite lookup_delete_ne by done. by apply K2.
  - intros [Hin Hq]%H3. rewrite lookup_delete_ne by done. by apply K3.
  - intros [Hin Hq]%H4. rewrite lookup_delete_ne by done. by apply K4.
Qed.

Lemma ids_wf_delete p g : ids_wf g -> ids_wf (set_ProposalDisplayId (delete p) g).
Proof.
  intros [H1 H2 H3 H4 H5]. split; simpl; try done.
  - intros q m [_ ?]%lookup_delete_Some. by eapply H1.
  - intros q m [_ ?]%lookup_delete_Some. by eapply H2.
  - intros i j m [_ ?]%lookup_delete_Some [_ ?]%lookup_delete_Some. by eapply H3.
Qed.

Lemma core_removed p g g' : core g = core g' -> core (removed p g) = core (removed p g').
Proof. unfold core, removed. simpl. congruence. Qed.

Lemma core_drop_stage p g g' : core g = core g' ->
  core (set_PendingProposalCleanups (delete p) g) =
  core (set_PendingProposalCleanups (delete p) g').
Proof. unfold core. simpl. congruence. Qed.

(** Removing the proposal and taking the head off the queue commute. *)
Lemma cleanup_indexes_queue p h d g :
  cleanup_proposal_indexes p (set_PendingCleanupQueueHead h (set_PendingCleanupQueue d g)) =
  set_PendingCleanupQueueHead h (set_PendingCleanupQueue d (cleanup_proposal_indexes p g)).
Proof.
  unfold cleanup_proposal_indexes. destruct g as [? ? ? ps ? ? ? ? ? ? ? ? ? ow ? ? ? ? ? ? ? ?
    ? ? ? ? ? ? ? ? ? ? ? ? ? ? di ? ? ? ?]. simpl.
  destruct (ps !! p) as [[? ? ? [] [] ? ? ? ?]|]; simpl;
    destruct (ow !! p); simpl; destruct (di !! p); reflexivity.
Qed.

Lemma core_popped_removed p g :
  core (set_PendingProposalCleanups (delete p) (remove_proposal p
    (set_PendingCleanupQueueHead (fun _ => PendingCleanupQueueHead g + 1)
      (set_PendingCleanupQueue (delete (PendingCleanupQueueHead g)) g)))) =
  core (removed p (remove_proposal p g)).
Proof.
  rewrite (core_removed p _ _ (remove_proposal_core p g)).
  set (g1 := set_PendingCleanupQueueHead _ _).
  rewrite (core_drop_stage p _ _ (remove_proposal_core p g1)). unfold g1.
  assert (Hq : release_internal_proposal_mutexes p
      (set_PendingCleanupQueueHead (fun _ => PendingCleanupQueueHead g + 1)
        (set_PendingCleanupQueue (delete (PendingCleanupQueueHead g)) g)) =
    set_PendingCleanupQueueHead (fun _ => PendingCleanupQueueHead g + 1)
      (set_PendingCleanupQueue (delete (PendingCleanupQueueHead g))
        (release_internal_proposal_mutexes p g))) by (by destruct g).
  assert (Hh : PendingCleanupQueueHead (set_Proposals (delete p) (set_ProposalOwner (delete p)
    (set_ProposalData (delete p)
      (cleanup_proposal_indexes p (release_internal_proposal_mutexes p g))))) =
    PendingCleanupQueueHead g).
  { by destruct (cleanup_indexes_frame p (release_internal_proposal_mutexes p g))
      as (? & ? & ? & ? & ->). }
  unfold removed. rewrite Hh, Hq, cleanup_indexes_queue. clear.
  generalize (cleanup_proposal_indexes p (release_internal_proposal_mutexes p g)).
  intros h. unfold core. simpl. reflexivity.
Qed.

Lemma good_remove s0 s p :
  good s0 s -> PendingCleanupQueueHead (ve s) < PendingCleanupQueueTail (ve s) ->
  PendingCleanupQueue (ve s) !! PendingCleanupQueueHead (ve s) = Some p ->
  good s0 (set_ve (fun g => removed p (remove_proposal p g)) s).
Proof.
  intros Hs Hlt Hh. revert Hs. apply good_quiet; [|done]. clear s0.
  intros s0 ([Hsc Hpe Hmu Hix Hac Hid Hbe Hcl Hks] & [He1 He2 He3] & Hn).
  set (g3 := removed p (set_Proposals (delete p) (set_ProposalOwner (delete p)
    (set_ProposalData (delete p)
      (cleanup_proposal_indexes p (release_internal_proposal_mutexes p (ve s))))))).
  assert (Hcore : core (ve (set_ve (fun g => removed p (remove_proposal p g)) s)) =
    core (ve (set_ve (fun _ => g3) s))).
  { cbn [ve set_ve]. unfold g3. apply core_removed. apply remove_proposal_core. }
  apply (sound_core s0 (set_ve (fun _ => g3) s)); [exact Hcore|by rewrite !clock_set_ve|]. clear Hcore.
  assert (Hund : under_cleanup (ve s) p).
  { left. by eapply (pend_stage _ Hpe). }
  pose proof (pending_wf_removed p (ve s) Hlt Hh Hpe) as Hpe'.
  pose proof (release_mutex_wf (ve s) p Hmu) as Hmu'.
  assert (Hix0 : index_wf (release_internal_proposal_mutexes p (ve s)))
    by (by destruct Hix; split).
  pose proof (index_wf_remove p _ Hix0) as Hix'.
  pose proof (ids_wf_delete p _ Hid) as Hid'.
  destruct (cleanup_indexes_frame p (release_internal_proposal_mutexes p (ve s)))
    as (a & b & c & d & Hf).
  destruct (release_mutex_frame p (ve s)) as (a' & b' & Hf').
  unfold g3, removed. rewrite Hf in Hix' |- *. rewrite Hf' in Hix', Hmu' |- *. clear Hf Hf' g3 Hix0.
  unfold removed in Hpe'. destruct s as [n ms ev g i j w]. destruct g. norm_engine_all.
  split; [split|split; [split|]].
  - by destruct Hsc.
  - by destruct Hpe'.
  - by destruct Hmu'.
  - by destruct Hix'.
  - exact Hac.
  - by destruct Hid'.
  - simpl. intros q x [_ Hx]%lookup_delete_Some. by eapply Hbe.
  - simpl. intros q Hq. destruct (Hcl q) as [? Ht].
    { destruct Hq as [Hq|Hq]; [|by right]. simpl in Hq.
      apply lookup_delete_is_Some in Hq as [_ Hq]. by left. }
    split; [done|]. intros x [_ Hx]%lookup_delete_Some. by apply Ht.
  - simpl. intros q x [_ Hx]%lookup_delete_Some. by eapply Hks.
  - simpl. intros q x Hx. specialize (He1 q x Hx). destruct (decide (q = p)) as [->|].
    + rewrite lookup_delete_eq. destruct (_ !! p) as [x'|] eqn:Hp in He1; [|done].
      exists (status x'). split; [by destruct He1 as (_ & ? & _)|]. by apply (Hcl p Hund).
    + rewrite lookup_delete_ne by done. destruct (_ !! q) in He1 |- *; [|done].
      destruct He1 as (? & ? & Hd). split_and!; [done..|]. unfold same_data in *. simpl.
      by rewrite !lookup_delete_ne.
  - done.
  - simpl. intros q Hq Hnone. apply lookup_delete_None. right. by apply He3.
  - done.
Qed.

Lemma good_requeue s0 s p next :
  good s0 s -> PendingCleanupQueueHead (ve s) < PendingCleanupQueueTail (ve s) ->
  PendingCleanupQueue (ve s) !! PendingCleanupQueueHead (ve s) = Some p ->
  good s0 (set_ve (requeued p next) s).
Proof.
  intros Hs Hlt Hh. revert Hs. apply good_quiet; [|done]. clear s0.
  intros s0 ([Hsc Hpe Hmu Hix Hac Hid Hbe Hcl Hks] & He & Hn).
  pose proof (pending_wf_requeued p next (ve s) Hlt Hh Hpe) as Hpe'.
  pose proof (pend_stage _ Hpe _ _ Hh) as Hst.
  assert (Hn' : in_block s0 (set_ve (requeued p next) s)).
  { destruct Hn as [Hn1 Hn2]. split; [done|]. unfold requeued. simpl. by case_decide. }
  split; [split|split; [|done]]; simpl; try done; unfold requeued;
    destruct (decide (PendingCleanupQueueTail (ve s) + 1 <= u64_max)); try done;
    try (by destruct Hsc); try (by destruct Hmu); try (by destruct Hix); try (by destruct Hid);
    try (by destruct He);
    intros q [Hq|Hq]; simpl in *; try (by apply Hcl; right);
    apply lookup_insert_is_Some in Hq as [<-|[_ Hq]]; apply Hcl; by left.
Qed.

Lemma good_drop s0 s p :
  good s0 s -> PendingCleanupQueueHead (ve s) < PendingCleanupQueueTail (ve s) ->
  PendingCleanupQueue (ve s) !! PendingCleanupQueueHead (ve s) = Some p ->
  good s0 (set_ve (removed p) s).
Proof.
  intros Hs Hlt Hh. revert Hs. apply good_quiet; [|done]. clear s0.
  intros s0 ([Hsc Hpe Hmu Hix Hac Hid Hbe Hcl Hks] & He & Hn).
  pose proof (pending_wf_removed p (ve s) Hlt Hh Hpe) as Hpe'.
  split; [split|split; [|done]]; simpl; try done.
  - by destruct Hsc.
  - by destruct Hmu.
  - by destruct Hix.
  - by destruct Hid.
  - intros q [Hq|Hq]; apply Hcl; [left|by right]. simpl in Hq.
    by apply lookup_delete_is_Some in Hq as [_ Hq].
  - by destruct He.
Qed.

(** One step either leaves the core alone or removes the proposal. *)
Lemma cleanup_step_core pid st limit s :
  let '((next, w), s') := process_pending_cleanup_step pid st limit s in
  clock s' = clock s /\ world s' = world s /\
  (core (ve s') = core (ve s) \/ (next = None /\ ve s' = remove_proposal pid (ve s))).
Proof.
  destruct st; cbn [process_pending_cleanup_step].
  - unfold clear_snapshot. rewrite sbind_run; simpl.
    destruct (clear_prefix pid limit (AdminSnapshot (ve s))) as [m [r c]]. simpl. auto.
  - unfold clear_snapshot. rewrite sbind_run; simpl.
    destruct (clear_prefix pid limit (VoterSnapshot (ve s))) as [m [r c]]. simpl. auto.
  - unfold clear_snapshot. rewrite sbind_run; simpl.
    destruct (clear_prefix pid limit (InstitutionTicketCountSnapshot (ve s))) as [m [r c]]. simpl. auto.
  - rewrite sbind_run; simpl. destruct (Proposals (ve s) !! pid) as [p|]; [|by simpl; auto].
    rewrite sbind_run.
    destruct (track_frame_eq _ s (chunk_framed (kind p) pid limit)) as (H1 & H2 & H3).
    destruct (cleanup_chunk _ _ _ s) as [[[r []]|] s1]; simpl in *; rewrite H1; auto.
  - cbv beta iota zeta delta [smodify mbind mret St_bind St_ret]. auto.
  - rewrite sbind_run; simpl. destruct (Proposals (ve s) !! pid) as [p|]; [|by simpl; auto].
    rewrite sbind_run.
    destruct (track_frame_eq _ s (cleanup_terminal_framed (kind p) pid)) as (H1 & H2 & H3).
    destruct (cleanup_terminal _ _ s) as [[] s1]; simpl in *; rewrite H1; auto.
Qed.

Lemma pop_cleanup_run s :
  pop_cleanup_queue s =
  (PendingCleanupQueue (ve s) !! PendingCleanupQueueHead (ve s),
   set_ve (fun g => set_PendingCleanupQueueHead
     (fun _ => saturating_add u64_max (PendingCleanupQueueHead (ve s)) 1)
     (set_PendingCleanupQueue (delete (PendingCleanupQueueHead (ve s))) g)) s).
Proof. reflexivity. Qed.

Lemma enqueue_run p g :
  enqueue_pending_cleanup p g =
  if decide (PendingCleanupQueueTail g + 1 <= u64_max) then
    (Ok tt, set_PendingCleanupQueueTail (fun _ => PendingCleanupQueueTail g + 1)
              (set_PendingCleanupQueue (insert (PendingCleanupQueueTail g) p) g))
  else (Err (VotingErr CleanupQueueSequenceExhausted), g).
Proof.
  unfold enqueue_pending_cleanup, checked_add. autorewrite with run.
  case_decide; autorewrite with run; done.
Qed.

Lemma requeue_run p next w s :
  ve (cleanup_requeue p (Some next) w s).2 =
  (let g := set_PendingProposalCleanups (insert p next) (ve s) in
   if decide (PendingCleanupQueueTail (ve s) + 1 <= u64_max) then
     set_PendingCleanupQueueTail (fun _ => PendingCleanupQueueTail (ve s) + 1)
       (set_PendingCleanupQueue (insert (PendingCleanupQueueTail (ve s)) p) g)
   else g) /\
  clock (cleanup_requeue p (Some next) w s).2 = clock s /\
  world (cleanup_requeue p (Some next) w s).2 = world s.
Proof.
  unfold cleanup_requeue. rewrite !sbind_run. cbn [smodify snd fst].
  unfold attempt, on_ve. rewrite enqueue_run. simpl. by case_decide.
Qed.

(** A proposal taken off the queue, stepped and put back. *)
Lemma good_cleanup_iteration s0 s p st limit w :
  good s0 s -> PendingCleanupQueueHead (ve s) < PendingCleanupQueueTail (ve s) ->
  PendingCleanupQueue (ve s) !! PendingCleanupQueueHead (ve s) = Some p ->
  let '((next, sw), s2) := process_pending_cleanup_step p st limit (pop_cleanup_queue s).2 in
  good s0 (cleanup_requeue p next (w_add w sw) s2).2.
Proof.
  intros Hs Hlt Hh. rewrite pop_cleanup_run. simpl.
  assert (Ht : PendingCleanupQueueTail (ve s) <= u64_max) by apply Hs.
  rewrite (saturating_succ _ (PendingCleanupQueueTail (ve s))) by lia.
  set (s1 := set_ve _ s).
  pose proof (cleanup_step_core p st limit s1) as Hstep.
  destruct (process_pending_cleanup_step p st limit s1) as [[next sw] s2].
  destruct Hstep as (Hb & Hw & Hc). change (clock s2 = clock s) in Hb.
  change (world s2 = world s) in Hw.
  assert (Hrem : ve s2 = remove_proposal p (ve s1) ->
    good s0 (set_ve (set_PendingProposalCleanups (delete p)) s2)).
  { intros Hg. apply (good_core s0 (set_ve (fun g => removed p (remove_proposal p g)) s));
      [|exact Hb|exact Hw|by apply good_remove].
    cbn [ve set_ve]. rewrite Hg. apply core_popped_removed. }
  destruct next as [next|].
  - destruct Hc as [Hc|[? _]]; [|done].
    destruct (requeue_run p next (w_add w sw) s2) as (Hv & Hb2 & Hw2).
    apply (good_core s0 (set_ve (requeued p next) s));
      [|by rewrite Hb2|by rewrite Hw2|by apply good_requeue].
    rewrite Hv. clear - Hc. unfold core in *. simpl in Hc.
    injection Hc as E1 E2 E3 E4 E5 E6 E7 E8 E9 E10 E11 E12 E13 E14 E15 E16 E17 E18 E19 E20 E21.
    rewrite E11. unfold requeued. cbn [ve set_ve].
    destruct (decide (PendingCleanupQueueTail (ve s) + 1 <= u64_max)); simpl; congruence.
  - destruct Hc as [Hc|[_ Hg]]; unfold cleanup_requeue; [|by apply Hrem].
    apply (good_core s0 (set_ve (removed p) s)); [|exact Hb|exact Hw|by apply good_drop].
    unfold core in *. simpl in *. congruence.
Qed.

Lemma good_cleanup_loop s0 n limit ub mw w s :
  good s0 s -> good s0 (cleanup_steps_loop n limit ub mw w s).2.
Proof.
  revert w s. induction n as [|n IH]; intros w s Hs; cbn [cleanup_steps_loop]; [done|].
  case_match; [done|]. rewrite sbind_run. cbn [sgets fst snd]. case_bool_decide as Hlt; [done|].
  rewrite sbind_run.
  destruct (proj2 (pend_dom _ (inv_pending _ (good_inv _ _ Hs)) (PendingCleanupQueueHead (ve s))))
    as [p Hp]; [lia|].
  assert (Hpop : (pop_cleanup_queue s).1 = Some p) by (by rewrite pop_cleanup_run).
  rewrite Hpop. rewrite sbind_run. cbn [sgets fst snd].
  destruct (pend_stage _ (inv_pending _ (good_inv _ _ Hs)) _ _ Hp) as [st Hst].
  assert (Hst' : PendingProposalCleanups (ve (pop_cleanup_queue s).2) !! p = Some st) by done.
  rewrite Hst'. rewrite sbind_run.
  pose proof (good_cleanup_iteration s0 s p st limit (w_add w (db_reads_writes 3 2)) Hs) as Hit.
  destruct (process_pending_cleanup_step p st limit (pop_cleanup_queue s).2) as [[next sw] s2].
  cbn [fst snd]. rewrite sbind_run.
  assert (Hg : good s0 (cleanup_requeue p next (w_add (w_add w (db_reads_writes 3 2)) sw) s2).2)
    by (apply Hit; [lia|done]).
  destruct (cleanup_requeue _ _ _ s2) as [[w' stop] s3]. cbn [fst snd] in *.
  destruct stop; [done|]. by apply IH.
Qed.

Lemma good_cleanup_steps s0 mw : preserves (good s0) (process_pending_cleanup_steps mw).
Proof.
  unfold process_pending_cleanup_steps. case_match; [solve_good|].
  intros s Hs. by apply good_cleanup_loop.
Qed.
End Removal.

(** ** The block hook and the calls *)

Section EngineSafety.
Context `{Wt : Weights} `{Cfg : !Config} `{Ord : StorageOrder} {W : Type}
  `{Prov : !Providers W} `{Cb : !Callbacks W} `{Tr : !ProposalTracks W}
  `{FT : !FinalizeTimeout W}
  `{CbL : !CallbackLaws Cb} `{TrL : !TrackLaws Tr} `{FTL : !TimeoutLaws FT}.
Implicit Types s : rt W.

Lemma good_on_initialize s0 : preserves (good s0) (on_initialize (block_number s0)).
Proof.
  unfold on_initialize.
  apply preserves_sbind; [apply good_expiry_buckets|intros].
  do 5 (apply preserves_sbind; [solve_good|intros]).
  apply preserves_sbind; [intros s Hs; by apply good_process_scheduled|intros].
  apply preserves_sbind; [apply good_cleanup_steps|solve_good].
Qed.

Lemma good_finalize_proposal s0 who pid : preserves (good s0) (finalize_proposal who pid).
Proof.
  unfold finalize_proposal. apply preserves_gets_bind. intros s Hs.
  destruct (Proposals (ve s) !! pid) as [p|] eqn:Hp; autorewrite with run; [|done].
  pose proof (timeout_good s0 p pid s Hp Hs) as Hs1.
  match goal with |- good s0 ((?m ≫= ?f) s).2 =>
    change (good s0 ((lift (finalize_timeout p pid) ≫= f) s).2) end.
  unfold mbind, M_bind. unfold lift.
  destruct (finalize_timeout p pid s) as [r s1]. cbn [fst snd] in *.
  destruct r as [[]|]; done.
Qed.

Lemma good_refl s : engine_inv s -> good s s.
Proof. intros H. split; [by apply sound_refl|]. by intros J _ HJ. Qed.

(** A new block: its number is larger. *)
Lemma engine_inv_later s n :
  block_number s <= n -> engine_inv s -> engine_inv (set_block_number (fun _ => n) s).
Proof.
  intros Hn [Hsc ? ? ? ? ? ? ? ?]. split; try done. by apply (scheduled_wf_later (block_number s)).
Qed.

Lemma engine_inv_bounds s :
  engine_inv s -> forall pid p, Proposals (ve s) !! pid = Some p -> pid < NextProposalId (ve s).
Proof. intros Hi pid p Hp. by eapply (inv_below _ Hi). Qed.

Lemma evolves_terminal g g' pid p :
  evolves g g' -> Proposals g !! pid = Some p -> is_terminal_status (status p) = true ->
  match Proposals g' !! pid with
  | Some p' => status p' = status p /\ same_identity p p'
  | None => True
  end.
Proof.
  intros [H _ _] Hp Ht. specialize (H pid p Hp). destruct (Proposals g' !! pid); [|done].
  destruct H as (? & Hr & _). split; [|done]. by apply status_reach_terminal.
Qed.
End EngineSafety.

Lemma engine_inv_genesis `{Cfg : Config} {W} n ms (w : W) :
  0 <= MaxActiveProposals -> engine_inv (genesis_at n ms w).
Proof.
  intros Hmax. split; simpl.
  - apply scheduled_wf_empty.
  - apply pending_wf_empty.
  - by apply mutex_wf_none.
  - split; simpl; set_solver.
  - intros x. unfold active_proposal_count, active_proposals. simpl. done.
  - apply ids_wf_empty.
  - intros ??. by rewrite lookup_empty.
  - intros pid [Hp|(i & x & Hx & _)]; exfalso.
    + simpl in Hp. rewrite lookup_empty in Hp. by destruct Hp.
    + simpl in Hx. by rewrite lookup_empty in Hx.
  - intros ??. by rewrite lookup_empty.
Qed.
