(* ===== verification/Outcomes.v ===== *)
(** * How votes and executions end

    The branches of [set_status_and_emit] (a vote passes, a vote is rejected,
    anything else is refused), of the execution of a passed proposal, and of
    the retry period, with the storage each of them writes. *)
From S2P Require Import Prelude Cid Types State Interfaces Runtime Ids Locks Data.
From S2P Require Import Cleanup Lifecycle Execution Expiry Maintenance Engine Invariant.
From S2P Require Import Safety.

(** ** A field of the engine that a run leaves alone *)

Definition keeps {W X A} (f : engine -> X) (m : rt W -> A * rt W) : Prop :=
  forall s, f (ve (m s).2) = f (ve s).

Section Keeps.
Context {W X : Type} (f : engine -> X).

Lemma keeps_preserves {A} (m : rt W -> A * rt W) :
  (forall x, preserves (fun s => f (ve s) = x) m) -> keeps f m.
Proof. intros H s. by apply (H (f (ve s)) s). Qed.

Lemma preserves_keeps {A} (m : rt W -> A * rt W) x :
  keeps f m -> preserves (fun s => f (ve s) = x) m.
Proof. intros H s Hs. by rewrite H. Qed.

Lemma keeps_framed {A} (m : rt W -> A * rt W) : engine_frame m -> keeps f m.
Proof. intros Hm s. by destruct (engine_frame_eq m s Hm) as [-> _]. Qed.

Lemma keeps_upd g : (forall e, f (g e) = f e) -> keeps f (upd g : RM W unit).
Proof. intros H s. apply H. Qed.

Lemma keeps_emit e : keeps f (emit e : RM W unit).
Proof. by intros s. Qed.

Lemma keeps_Ok {A} (m : RM W A) s a s' : keeps f m -> m s = (Ok a, s') -> f (ve s') = f (ve s).
Proof. intros H Hr. specialize (H s). by rewrite Hr in H. Qed.
End Keeps.

(** [solve_keeps]: a run whose writes are all to other fields. *)
Ltac solve_keeps :=
  apply keeps_preserves; intros;
  solve_preserves_with ltac:(intros ? <-; reflexivity).

#[export] Hint Extern 2 (preserves (fun s => _ (ve s) = _) _) =>
  apply preserves_keeps; solve [eauto with keeps] : preserves.
Create HintDb keeps.
#[export] Hint Resolve keeps_emit : keeps.
#[export] Hint Extern 1 (keeps _ (upd _)) => apply keeps_upd; intros; reflexivity : keeps.

Section Outcomes.
Context `{Wt : Weights} `{Cfg : !Config} `{Ord : StorageOrder} {W : Type}
  `{Prov : !Providers W} `{Cb : !Callbacks W} `{Tr : !ProposalTracks W}
  `{CbL : !CallbackLaws Cb} `{TrL : !TrackLaws Tr}.
Implicit Types s : rt W.

Lemma keeps_callback {X A} (f : engine -> X) k (h : ResultCallback W -> RM W A) e :
  (forall c, callback_framed c -> engine_frame (h c)) ->
  keeps f (c ← ok_or (callback_of_kind k) e; h c).
Proof.
  intros Hh s. destruct (callback_of_kind k) eqn:Hk; autorewrite with run; [|done].
  apply keeps_framed. by eapply Hh, callback_of_kind_framed.
Qed.

Lemma keeps_invoke {X} (f : engine -> X) pid k b : keeps f (invoke_execution_callback pid k b).
Proof. apply keeps_callback. intros c Hc. apply Hc. Qed.

Lemma keeps_notify {X} (f : engine -> X) pid k :
  keeps f (notify_execution_failed_terminal pid k).
Proof. apply keeps_callback. intros c Hc. apply Hc. Qed.

(** The fields a callback scope does not write. *)
Definition scope_free {X} (f : engine -> X) : Prop :=
  forall g e, f (set_CallbackExecutionScopes g e) = f e.

Lemma keeps_scope {X A} (f : engine -> X) pid (m : RM W A) :
  scope_free f -> keeps f m -> keeps f (with_callback_execution_scope pid m).
Proof.
  intros Hf Hm. apply keeps_preserves. intros x. unfold with_callback_execution_scope.
  solve_preserves_with fail;
    first [by apply preserves_keeps|apply preserves_keeps, keeps_upd; intros; apply Hf].
Qed.

Lemma keeps_hook {X} (f : engine -> X) (h : RS W (option (result DispatchError unit))) :
  engine_frame h -> keeps f (run_track_hook h).
Proof.
  intros Hh. apply keeps_preserves. intros x. unfold run_track_hook.
  apply preserves_bind; [by apply preserves_lift, preserves_keeps, keeps_framed|intros].
  solve_preserves_with fail.
Qed.

(** ** A vote passes *)

Lemma mark_passed_frame pid n (g : engine) :
  exists m, mark_proposal_passed_at pid n g = set_ProposalMeta (fun _ => m) g.
Proof.
  assert (Hid : g = set_ProposalMeta (fun _ => ProposalMeta g) g) by (by destruct g).
  unfold mark_proposal_passed_at. repeat case_match; eauto.
Qed.

(** The engine after a vote that passed. *)
Definition passed_engine pid p now (g : engine) : engine :=
  let g := mark_proposal_passed_at pid now g in
  let g := set_Proposals (insert pid (set_status STATUS_PASSED p)) g in
  let g := remove_active_proposals (subject_keys p) pid g in
  let g := set_AutoFinalizeDeadLetters (delete pid) (set_AutoFinalizeRetryStates (delete pid) g) in
  let g := set_PendingProposalExecutions
    (insert pid {| attempts := 0; next_attempt_at := now |}) g in
  if should_release_internal_proposal_mutexes (kind p) (stage p) STATUS_PASSED
  then release_internal_proposal_mutexes pid g else g.

Lemma set_status_passed_run s pid p :
  Proposals (ve s) !! pid = Some p -> status p = STATUS_VOTING ->
  set_status_and_emit pid STATUS_PASSED s =
  (Ok tt, set_events (fun l => l ++ [ProposalExecutionQueued pid; ProposalFinalized pid STATUS_PASSED])
    (set_ve (passed_engine pid p (block_number s)) s)).
Proof.
  intros Hp Hst. unfold set_status_and_emit, transact. autorewrite with run.
  rewrite Hp. autorewrite with run. unfold ensure_valid_status_transition. rewrite Hst.
  change (guard_ok (valid_status_transition STATUS_VOTING STATUS_PASSED) (VotingErr InvalidProposalStatus))
    with (Ok tt : result DispatchError unit).
  rewrite decide_True by done. simpl from_result. autorewrite with run.
  change (negb (bool_decide (STATUS_PASSED = STATUS_VOTING))) with true.
  change (bool_decide (STATUS_PASSED = STATUS_PASSED)) with true.
  change (bool_decide (STATUS_PASSED = STATUS_REJECTED)) with false.
  change (bool_decide (STATUS_VOTING = STATUS_VOTING)) with true. cbn [andb orb].
  repeat (rewrite bind_assoc; autorewrite with run).
  match goal with |- context [ok_or (Proposals (ve ?x) !! pid)] => set (s1 := x) end.
  assert (Hp1 : Proposals (ve s1) !! pid = Some (set_status STATUS_PASSED p)).
  { unfold s1. cbn [ve set_ve set_events deposit_event].
    match goal with |- context [remove_active_proposals ?l ?q ?g] =>
      destruct (remove_active_frames l q g) as [m ->] end.
    simpl. by rewrite lookup_insert_eq. }
  rewrite Hp1. autorewrite with run. cbn [status set_status].
  change (is_terminal_status STATUS_PASSED) with false. cbv iota.
  unfold passed_engine. subst s1. clear Hp1.
  destruct (should_release_internal_proposal_mutexes _ _ _); autorewrite with run;
    unfold emit, modify, mret, M_ret, deposit_event, set_events;
    cbn [block_number now_ms events ve iv jv world set_ve];
    by rewrite <- (assoc_L (++)).
Qed.

(** C11: a vote that passes never runs the business callback: it records
    when it passed, frees the slots of its subjects, drops what the
    automatic finalisation kept, and queues the execution for this block;
    its mutexes are kept, unless it is a joint vote still in the vote of the
    institutions. Nothing outside the engine changes. *)
Theorem vote_passed s pid p
    (Hp : Proposals (ve s) !! pid = Some p) (Hst : status p = STATUS_VOTING) :
  exists g', set_status_and_emit pid STATUS_PASSED s =
    (Ok tt, set_events
      (fun l => l ++ [ProposalExecutionQueued pid; ProposalFinalized pid STATUS_PASSED])
      (set_ve (fun _ => g') s)) /\
    Proposals g' = <[pid := set_status STATUS_PASSED p]> (Proposals (ve s)) /\
    PendingProposalExecutions g' =
      <[pid := {| attempts := 0; next_attempt_at := block_number s |}]>
        (PendingProposalExecutions (ve s)) /\
    (forall x, active_proposals g' x =
      if decide (x ∈ subject_keys p) then filter (fun q => q <> pid) (active_proposals (ve s) x)
      else active_proposals (ve s) x) /\
    (forall m, ProposalMeta (ve s) !! pid = Some m -> passed_at m = None ->
      ProposalMeta g' !! pid = Some {| created_at := created_at m;
                                       passed_at := Some (block_number s) |}) /\
    AutoFinalizeRetryStates g' !! pid = None /\
    (if decide (kind p = PROPOSAL_KIND_JOINT /\ stage p = STAGE_JOINT)
     then mutex_bindings g' pid = []
     else InternalProposalMutexes g' = InternalProposalMutexes (ve s) /\
          ProposalMutexBindings g' = ProposalMutexBindings (ve s)).
Proof.
  rewrite (set_status_passed_run s pid p Hp Hst).
  exists (passed_engine pid p (block_number s) (ve s)). split; [done|]. unfold passed_engine.
  match goal with |- context [remove_active_proposals ?l ?q ?g] =>
    pose proof (remove_active_proposals_spec g l q) as Hact;
    destruct (remove_active_frames l q g) as [m Hm]; rewrite Hm in Hact |- *; clear Hm end.
  assert (Hrel : should_release_internal_proposal_mutexes (kind p) (stage p) STATUS_PASSED =
    bool_decide (kind p = PROPOSAL_KIND_JOINT /\ stage p = STAGE_JOINT)).
  { unfold should_release_internal_proposal_mutexes. simpl.
    repeat case_bool_decide; naive_solver. }
  rewrite Hrel. clear Hrel.
  destruct (mark_passed_frame pid (block_number s) (ve s)) as [m' Hmeta].
  assert (Hpassed : forall x, ProposalMeta (ve s) !! pid = Some x -> passed_at x = None ->
    m' !! pid = Some {| created_at := created_at x; passed_at := Some (block_number s) |}).
  { intros x Hx Hn. change m' with (ProposalMeta (set_ProposalMeta (fun _ => m') (ve s))).
    rewrite <- Hmeta. unfold mark_proposal_passed_at. rewrite Hx, Hn. simpl.
    by rewrite lookup_insert_eq. }
  rewrite Hmeta in Hact |- *. clear Hmeta.
  case_bool_decide as Hd; [rewrite decide_True by done|rewrite decide_False by done];
    unfold release_internal_proposal_mutexes; simpl;
    (split_and!; [done|done|exact Hact|done|by rewrite lookup_delete_eq|..]); try done.
  unfold mutex_bindings. simpl. by rewrite lookup_delete_eq.
Qed.

(** ** The side effects of a final status *)

Definition scheduled_engine pid now (g : engine) : engine :=
  set_ScheduledCleanupTail (fun _ => ScheduledCleanupTail g + 1)
    (set_ScheduledCleanups (insert (ScheduledCleanupTail g)
      {| cleanup_at := block_add now retention_blocks; cleanup_proposal_id := pid |}) g).

Lemma on_ve_schedule_Ok pid now s s' :
  on_ve (schedule_cleanup pid now) s = (Ok tt, s') ->
  ScheduledCleanupTail (ve s) + 1 <= u64_max /\
  s' = set_ve (fun _ => scheduled_engine pid now (ve s)) s.
Proof.
  unfold on_ve. destruct (schedule_cleanup pid now (ve s)) as [r g] eqn:Hr.
  intros [= -> <-]. unfold schedule_cleanup in Hr. by run_inv.
Qed.

Lemma scope_Ok {A} pid (m : RM W A) s a s' :
  with_callback_execution_scope pid m s = (Ok a, s') ->
  exists s1, m (set_ve (set_CallbackExecutionScopes (union {[ pid ]})) s) = (Ok a, s1) /\
    s' = set_ve (set_CallbackExecutionScopes (fun m => m ∖ {[ pid ]})) s1.
Proof.
  unfold with_callback_execution_scope, upd, attempt. intros H. run_inv. eauto.
Qed.

Lemma hook_Ok (h : RS W (option (result DispatchError unit))) s s' :
  engine_frame h -> run_track_hook h s = (Ok tt, s') ->
  ve s' = ve s /\ clock s' = clock s.
Proof.
  unfold run_track_hook. intros Hh H. run_inv.
  apply engine_frame_eq with (s := s) in Hh.
  match goal with H : h s = (_, ?x) |- _ => rewrite H in Hh end. exact Hh.
Qed.

(** The notification of a failed proposal only touches the scopes and the
    queue of notifications to repeat. *)
Lemma notify_or_queue_engine pid k s s' :
  notify_execution_failed_terminal_or_queue pid k s = (Ok tt, s') ->
  exists sc tc, ve s' = set_PendingTerminalCleanups (fun _ => tc)
    (set_CallbackExecutionScopes (fun _ => sc) (ve s)) /\ clock s' = clock s /\
    (pid ∈ tc <-> is_ok (with_callback_execution_scope pid
       (notify_execution_failed_terminal pid k) s).1 = false).
Proof.
  unfold notify_execution_failed_terminal_or_queue, attempt. intros H.
  apply bind_Ok in H as (r & s1 & H1 & H2). apply (proj1 (lift_Ok _ _ _ _)) in H1.
  rewrite H1. cbn [fst].
  assert (Hs1 : exists sc, ve s1 = set_CallbackExecutionScopes (fun _ => sc) (ve s) /\
    clock s1 = clock s).
  { revert H1. unfold with_callback_execution_scope. rewrite bind_upd.
    set (s2 := set_ve _ s).
    destruct (notify_execution_failed_terminal pid k s2) as [r2 s3] eqn:Hn.
    assert (Hf : ve s3 = ve s2 /\ clock s3 = clock s2).
    { revert Hn. unfold notify_execution_failed_terminal.
      destruct (callback_of_kind k) as [c|] eqn:Hc; autorewrite with run; [|by intros [= _ <-]].
      apply callback_of_kind_framed in Hc as [_ _ Hc]. pose proof (engine_frame_eq _ s2 (Hc pid)) as Hc'.
      clear Hc. rename Hc' into Hc.
      intros Hn. rewrite Hn in Hc. exact Hc. }
    assert (Hl : (lift (attempt (notify_execution_failed_terminal pid k)) : RM W _) s2 = (Ok r2, s3)).
    { unfold lift, attempt. by rewrite Hn. }
    rewrite (bind_run _ _ _ _ _ Hl), bind_upd. destruct Hf as [Hf1 Hf2].
    assert (exists sc, ve (set_ve (set_CallbackExecutionScopes (fun m => m ∖ {[pid]})) s3) =
      set_CallbackExecutionScopes (fun _ => sc) (ve s) /\
      clock (set_ve (set_CallbackExecutionScopes (fun m => m ∖ {[pid]})) s3) = clock s).
    { cbn [ve set_ve]. rewrite Hf1. unfold s2. eexists. split; [reflexivity|].
      rewrite clock_set_ve, Hf2. done. }
    by destruct r2; intros [= _ <-]. }
  destruct (is_ok r).
  - unfold drop_terminal_cleanup, upd in H2. run_inv. destruct Hs1 as (sc & Hv & Hk).
    eexists sc, _.
    split; [cbn [ve set_ve]; rewrite Hv; reflexivity|]. split; [by rewrite clock_set_ve|].
    split; [|done]. intros [_ Hx]%elem_of_difference. by destruct Hx; apply elem_of_singleton.
  - unfold queue_terminal_cleanup, upd, emit in H2. run_inv. destruct Hs1 as (sc & Hv & Hk).
    assert (exists x, s' = set_events x
      (set_ve (set_PendingTerminalCleanups (union {[pid]})) s1)) as (x & ->).
    { destruct (bool_decide (pid ∈ PendingTerminalCleanups (ve s1))); simpl in *; run_inv.
      - exists (fun l => l). by destruct s1.
      - by exists (fun l => l ++ [ProposalTerminalCleanupQueued pid]). }
    eexists sc, _. split; [cbn [ve set_ve set_events]; rewrite Hv; reflexivity|].
    split; [exact Hk|]. split; [done|].
    intros _. apply elem_of_union. left. by apply elem_of_singleton.
Qed.

(** The engine once the side effects of a final status are done. *)
Definition final_engine pid now sc tc (g : engine) : engine :=
  release_internal_proposal_mutexes pid
    (set_PendingTerminalCleanups (fun _ => tc) (set_CallbackExecutionScopes (fun _ => sc)
      (set_PendingExecutionRetryExpirations (delete pid)
        (set_ProposalExecutionRetryStates (delete pid) (scheduled_engine pid now g))))).

Lemma terminal_effects_Ok pid st p s s' :
  is_terminal_status st = true -> Proposals (ve s) !! pid = Some p ->
  apply_terminal_side_effects pid st s = (Ok tt, s') ->
  ScheduledCleanupTail (ve s) + 1 <= u64_max /\ clock s' = clock s /\
  exists sc tc, ve s' = final_engine pid (block_number s) sc tc (ve s) /\
    (st <> STATUS_EXECUTION_FAILED -> sc = CallbackExecutionScopes (ve s) /\ pid ∉ tc).
Proof.
  intros Hst Hp. unfold apply_terminal_side_effects. rewrite Hst. autorewrite with run.
  intros (u & s1 & H1 & H)%bind_Ok. destruct u.
  apply on_ve_schedule_Ok in H1 as [Hroom ->]. split; [done|].
  unfold drop_terminal_cleanup in H. autorewrite with run in H.
  apply bind_Ok in H as (u & s2 & H2 & H). destruct u. autorewrite with run in H.
  set (s1 := set_ve (set_PendingTerminalCleanups (fun m => m ∖ {[pid]})) _) in H2.
  assert (Hs2 : clock s2 = clock s /\ exists sc tc, ve s2 =
    set_PendingTerminalCleanups (fun _ => tc) (set_CallbackExecutionScopes (fun _ => sc)
      (set_PendingExecutionRetryExpirations (delete pid)
        (set_ProposalExecutionRetryStates (delete pid)
          (scheduled_engine pid (block_number s) (ve s))))) /\
    (st <> STATUS_EXECUTION_FAILED -> sc = CallbackExecutionScopes (ve s) /\ pid ∉ tc)).
  { revert H2. case_decide as Hd.
    - autorewrite with run. change (Proposals (ve s1)) with (Proposals (ve s)). rewrite Hp.
      intros (sc & tc & Hv & Hk & _)%notify_or_queue_engine. split; [by rewrite Hk|].
      exists sc, tc. split; [|done]. rewrite Hv. reflexivity.
    - intros [_ ->]%ret_Ok. split; [done|].
      exists (CallbackExecutionScopes (ve s)), (PendingTerminalCleanups (ve s) ∖ {[pid]}).
      split; [|split; [done|set_solver]]. unfold s1, scheduled_engine. simpl. by destruct (ve s). }
  destruct Hs2 as (Hk & sc & tc & Hv & Hsc).
  assert (Hp2 : Proposals (ve s2) !! pid = Some p) by (rewrite Hv; exact Hp).
  rewrite Hp2 in H. apply bind_Ok in H as (u & s3 & H3 & H). destruct u.
  apply hook_Ok in H3 as [Hv3 Hk3]; [|apply track_frame_engine, terminal_framed].
  assert (Hrel : should_release_internal_proposal_mutexes (kind p) (stage p) st = true).
  { revert Hst. unfold is_terminal_status, should_release_internal_proposal_mutexes.
    intros ->. done. }
  rewrite Hrel in H. unfold upd in H. apply modify_Ok in H as ->.
  split; [by rewrite clock_set_ve, Hk3|]. exists sc, tc. split; [|done].
  unfold final_engine. cbn [ve set_ve]. by rewrite Hv3, Hv.
Qed.

(** ** A vote is rejected *)

Lemma remove_active_proposals_field {X} (f : engine -> X) subjects pid (g : engine) :
  (forall m e, f (set_ActiveProposalsBySubject m e) = f e) ->
  f (remove_active_proposals subjects pid g) = f g.
Proof. intros Hf. destruct (remove_active_frames subjects pid g) as [m ->]. apply Hf. Qed.

Lemma invoke_framed pid k b s r s' :
  invoke_execution_callback pid k b s = (r, s') -> ve s' = ve s /\ clock s' = clock s.
Proof.
  unfold invoke_execution_callback. intros H.
  destruct (callback_of_kind k) as [c|] eqn:Hc; autorewrite with run in H;
    [|by injection H as _ <-].
  apply callback_of_kind_framed in Hc as [Hc _ _].
  pose proof (engine_frame_eq _ s (Hc pid b)) as Hf. by rewrite H in Hf.
Qed.

(** The engine after a vote that was rejected, with the callback's scope
    and the repeated notifications as they end up. *)
Definition rejected_engine pid p now sc tc (g : engine) : engine :=
  final_engine pid now sc tc
    (set_CallbackExecutionScopes (fun m => ({[ pid ]} ∪ m) ∖ {[ pid ]})
      (set_AutoFinalizeDeadLetters (delete pid) (set_AutoFinalizeRetryStates (delete pid)
        (remove_active_proposals (subject_keys p) pid
          (set_Proposals (insert pid (set_status STATUS_REJECTED p)) g))))).

Lemma set_status_rejected_Ok s pid p s' :
  Proposals (ve s) !! pid = Some p -> status p = STATUS_VOTING ->
  set_status_and_emit pid STATUS_REJECTED s = (Ok tt, s') ->
  ScheduledCleanupTail (ve s) + 1 <= u64_max /\
  (exists sc tc, ve s' = rejected_engine pid p (block_number s) sc tc (ve s) /\
    pid ∉ tc /\ pid ∉ sc) /\
  exists outcome s1 s2,
    invoke_execution_callback pid (kind p) false s1 = (Ok outcome, s2) /\
    pid ∈ CallbackExecutionScopes (ve s1) /\
    Proposals (ve s1) = <[pid := set_status STATUS_REJECTED p]> (Proposals (ve s)).
Proof.
  intros Hp Hst H. unfold set_status_and_emit in H.
  apply (proj1 (transact_Ok _ _ _ _)) in H. autorewrite with run in H.
  rewrite Hp in H. autorewrite with run in H. unfold ensure_valid_status_transition in H.
  rewrite Hst in H.
  change (guard_ok (valid_status_transition STATUS_VOTING STATUS_REJECTED)
    (VotingErr InvalidProposalStatus)) with (Ok tt : result DispatchError unit) in H.
  rewrite decide_False in H by (intros [_ ?]; done). simpl from_result in H.
  autorewrite with run in H.
  change (negb (bool_decide (STATUS_REJECTED = STATUS_VOTING))) with true in H.
  change (bool_decide (STATUS_REJECTED = STATUS_PASSED)) with false in H.
  change (bool_decide (STATUS_REJECTED = STATUS_REJECTED)) with true in H.
  change (bool_decide (STATUS_VOTING = STATUS_VOTING)) with true in H. cbn [andb orb] in H.
  rewrite bind_assoc in H. autorewrite with run in H. rewrite bind_assoc in H.
  autorewrite with run in H. rewrite bind_assoc in H.
  apply bind_Ok in H as (o & s2 & H1 & H). autorewrite with run in H.
  apply scope_Ok in H1 as (s3 & H1 & ->).
  pose proof (invoke_framed _ _ _ _ _ _ H1) as [Hv3 Hk3].
  match type of H1 with _ ?x = _ => set (s1 := x) in * end.
  assert (Hp1 : Proposals (ve s1) = <[pid := set_status STATUS_REJECTED p]> (Proposals (ve s))).
  { unfold s1. cbn [ve set_ve]. simpl.
    by rewrite (remove_active_proposals_field Proposals). }
  assert (Hp3 : Proposals (ve (set_ve (set_CallbackExecutionScopes (fun m => m ∖ {[pid]})) s3))
    !! pid = Some (set_status STATUS_REJECTED p)).
  { simpl. rewrite Hv3, Hp1. by rewrite lookup_insert_eq. }
  rewrite Hp3 in H. autorewrite with run in H. cbn [status set_status] in H.
  change (is_terminal_status STATUS_REJECTED) with true in H. cbv iota in H.
  apply bind_Ok in H as (u & s4 & H4 & H). destruct u. unfold emit in H.
  apply modify_Ok in H as ->.
  apply (terminal_effects_Ok pid STATUS_REJECTED _ _ _ (eq_refl true) Hp3) in H4 as (Hroom & Hk4 & sc & tc & Hv4 & Htc).
  destruct Htc as [Hsc Htc]; [done|].
  assert (Hblk : block_number (set_ve (set_CallbackExecutionScopes (fun m => m ∖ {[pid]})) s3)
    = block_number s).
  { change (block_number s3 = block_number s). injection Hk3 as -> _. done. }
  assert (Hve : ve (set_ve (set_CallbackExecutionScopes (fun m => m ∖ {[pid]})) s3) =
    set_CallbackExecutionScopes (fun m => ({[ pid ]} ∪ m) ∖ {[ pid ]})
      (set_AutoFinalizeDeadLetters (delete pid) (set_AutoFinalizeRetryStates (delete pid)
        (remove_active_proposals (subject_keys p) pid
          (set_Proposals (insert pid (set_status STATUS_REJECTED p)) (ve s)))))).
  { cbn [ve set_ve]. rewrite Hv3. unfold s1. cbn [ve set_ve]. reflexivity. }
  rewrite Hve in Hroom, Hv4. rewrite Hblk in Hv4.
  split; [|split].
  - simpl in Hroom. by rewrite (remove_active_proposals_field ScheduledCleanupTail) in Hroom.
  - exists sc, tc. split; [exact Hv4|]. split; [done|]. rewrite Hsc.
    intros [_ []]%elem_of_difference. by apply elem_of_singleton.
  - exists o, s1, s3. split; [done|]. split; [|done]. unfold s1. simpl.
    apply elem_of_union. left. by apply elem_of_singleton.
Qed.

Lemma release_field {X} (f : engine -> X) pid (g : engine) :
  (forall m b e, f (set_InternalProposalMutexes m (set_ProposalMutexBindings b e)) = f e) ->
  f (release_internal_proposal_mutexes pid g) = f g.
Proof. intros Hf. apply Hf. Qed.

(** C12: the rejection of a vote either changes nothing (the business
    callback, a track hook or the cleanup queue refused, and everything is
    rolled back) or the callback was told, inside its scope and with the
    proposal already rejected, and then: no execution is queued, the
    subjects' slots and the mutexes are free, and the proposal is scheduled
    for removal after the retention period. *)
Theorem vote_rejected s pid p r s'
    (Hp : Proposals (ve s) !! pid = Some p) (Hst : status p = STATUS_VOTING)
    (Hrun : set_status_and_emit pid STATUS_REJECTED s = (r, s')) :
  match r with
  | Err _ => s' = s
  | Ok _ =>
      Proposals (ve s') = <[pid := set_status STATUS_REJECTED p]> (Proposals (ve s)) /\
      (exists outcome s1 s2,
        invoke_execution_callback pid (kind p) false s1 = (Ok outcome, s2) /\
        pid ∈ CallbackExecutionScopes (ve s1) /\ Proposals (ve s1) = Proposals (ve s')) /\
      PendingProposalExecutions (ve s') = PendingProposalExecutions (ve s) /\
      (forall x, active_proposals (ve s') x =
        if decide (x ∈ subject_keys p) then filter (fun q => q <> pid) (active_proposals (ve s) x)
        else active_proposals (ve s) x) /\
      mutex_bindings (ve s') pid = [] /\
      pid ∉ CallbackExecutionScopes (ve s') /\
      ScheduledCleanups (ve s') !! ScheduledCleanupTail (ve s) =
        Some {| cleanup_at := block_add (block_number s) retention_blocks;
                cleanup_proposal_id := pid |} /\
      ScheduledCleanupTail (ve s') = ScheduledCleanupTail (ve s) + 1
  end.
Proof.
  destruct r as [[]|e]; [|unfold set_status_and_emit in Hrun; by apply transact_Err in Hrun].
  pose proof (set_status_rejected_Ok s pid p s' Hp Hst Hrun)
    as (Hroom & (sc & tc & Hv & _ & Hnsc) & o & s1 & s2 & Hc & Hs & Hp1).
  unfold rejected_engine in Hv.
  match type of Hv with context [remove_active_proposals ?l ?q ?g] =>
    pose proof (remove_active_proposals_spec g l q) as Hact;
    destruct (remove_active_frames l q g) as [m Hm]; rewrite Hm in Hact, Hv; clear Hm end.
  assert (Hprops : Proposals (ve s') = <[pid := set_status STATUS_REJECTED p]> (Proposals (ve s)))
    by (rewrite Hv; reflexivity).
  split_and!; [done| | | | | | |].
  - exists o, s1, s2. split_and!; [done..|]. by rewrite Hp1, Hprops.
  - by rewrite Hv.
  - intros x. rewrite Hv. exact (Hact x).
  - rewrite Hv. unfold final_engine, release_internal_proposal_mutexes, mutex_bindings. simpl.
    by rewrite lookup_delete_eq.
  - by rewrite Hv.
  - rewrite Hv. unfold final_engine, scheduled_engine. simpl. by rewrite lookup_insert_eq.
  - by rewrite Hv.
Qed.

(** A vote ends only as passed or rejected and only once:
    every other status change is refused and leaves the storage as it was. *)
Theorem set_status_refused s pid p st
    (Hp : Proposals (ve s) !! pid = Some p)
    (Hbad : ~ (status p = STATUS_VOTING /\ (st = STATUS_PASSED \/ st = STATUS_REJECTED)) /\
            ~ (status p = STATUS_PASSED /\
               (st = STATUS_EXECUTED \/ st = STATUS_EXECUTION_FAILED))) :
  set_status_and_emit pid st s = (Err (VotingErr InvalidProposalStatus), s).
Proof.
  unfold set_status_and_emit, transact. autorewrite with run. rewrite Hp. autorewrite with run.
  assert (Hv : valid_status_transition (status p) st = false).
  { apply not_true_is_false. unfold valid_status_transition. rewrite bool_decide_eq_true.
    rewrite !elem_of_cons, elem_of_nil. naive_solver. }
  unfold ensure_valid_status_transition. rewrite Hv. reflexivity.
Qed.

(** ** Execution *)

Lemma finish_terminal_Ok pid st p s s' :
  is_terminal_status st = true -> Proposals (ve s) !! pid = Some p ->
  finish_terminal_status pid st s = (Ok tt, s') ->
  ScheduledCleanupTail (ve s) + 1 <= u64_max /\
  exists sc tc, ve s' = final_engine pid (block_number s) sc tc (ve s).
Proof.
  unfold finish_terminal_status. intros Hst Hp (u & s1 & H1 & H)%bind_Ok. destruct u.
  apply (terminal_effects_Ok _ _ _ _ _ Hst Hp) in H1 as (? & _ & sc & tc & Hv & _).
  unfold emit in H. apply modify_Ok in H as ->. split; [done|]. by exists sc, tc.
Qed.

(** What a final status leaves of a proposal in the engine. *)
Record ended (pid st : Z) (s s' : rt W) : Prop := {
  ended_status : status <$> Proposals (ve s') !! pid = Some st;
  ended_others : forall q, q <> pid -> Proposals (ve s') !! q = Proposals (ve s) !! q;
  ended_queue : PendingProposalExecutions (ve s') !! pid = None;
  ended_retry : ProposalExecutionRetryStates (ve s') !! pid = None;
  ended_mutex : mutex_bindings (ve s') pid = [];
  ended_cleanup : ScheduledCleanups (ve s') !! ScheduledCleanupTail (ve s) =
    Some {| cleanup_at := block_add (block_number s) retention_blocks;
            cleanup_proposal_id := pid |};
}.

(** A final status written on a proposal that is no longer queued, then
    the end. *)
Lemma ended_run pid st p s0 s1 s2 s3 :
  is_terminal_status st = true -> Proposals (ve s0) !! pid = Some p ->
  ScheduledCleanupTail (ve s1) = ScheduledCleanupTail (ve s0) ->
  Proposals (ve s1) = Proposals (ve s0) -> block_number s2 = block_number s0 ->
  PendingProposalExecutions (ve s1) !! pid = None ->
  ve s2 = set_Proposals (insert pid (set_status st p)) (ve s1) ->
  finish_terminal_status pid st s2 = (Ok tt, s3) -> ended pid st s0 s3.
Proof.
  intros Hst Hp Ht Hpr Hb Hq Hv H.
  assert (Hp2 : Proposals (ve s2) !! pid = Some (set_status st p)).
  { rewrite Hv. simpl. by rewrite lookup_insert_eq. }
  destruct (finish_terminal_Ok _ _ _ _ _ Hst Hp2 H) as (_ & sc & tc & Hv3).
  rewrite Hb, Hv in Hv3. unfold final_engine, scheduled_engine in Hv3. simpl in Hv3.
  rewrite Ht in Hv3.
  split; rewrite Hv3; simpl; rewrite ?Hpr.
  - by rewrite lookup_insert_eq.
  - intros q Hne. by rewrite lookup_insert_ne.
  - done.
  - by rewrite lookup_delete_eq.
  - unfold mutex_bindings, release_internal_proposal_mutexes. simpl. by rewrite lookup_delete_eq.
  - by rewrite lookup_insert_eq.
Qed.

(** Fields that the retry deadlines do not concern. *)
Definition deadline_free {X} (f : engine -> X) : Prop :=
  (forall m g, f (set_ExecutionRetryDeadlines m g) = f g) /\
  (forall m g, f (set_PendingExecutionRetryExpirations m g) = f g).

Lemma keeps_reschedule_or_queue {X} (f : engine -> X) pid from d :
  deadline_free f -> keeps f (reschedule_or_queue pid from d : RM W unit).
Proof.
  intros [Hf1 Hf2]. apply keeps_preserves. intros x.
  assert (Hr : forall n t, preserves (fun s : rt W => f (ve s) = x) (reschedule_loop n pid t)).
  { intros n. induction n as [|n IH]; intros t; simpl; [apply preserves_throw|].
    apply preserves_bind; [|intros; case_match; [apply preserves_ret|apply IH]].
    unfold queue_execution_retry_deadline.
    solve_preserves_with fail. intros. apply preserves_keeps. by apply keeps_upd. }
  unfold reschedule_or_queue, reschedule_execution_retry_deadline, queue_pending_retry_expiration.
  apply preserves_bind; [by apply preserves_lift, preserves_attempt|].
  solve_preserves_with fail. intros. apply preserves_keeps. by apply keeps_upd.
Qed.

Lemma schedule_retry_Ok pid s s' :
  schedule_execution_retry pid s = (Ok tt, s') ->
  Proposals (ve s') = Proposals (ve s) /\
  PendingProposalExecutions (ve s') = PendingProposalExecutions (ve s) /\
  (ProposalExecutionRetryStates (ve s) !! pid = None ->
   ProposalExecutionRetryStates (ve s') !! pid =
     Some {| manual_attempts := 0; first_auto_failed_at := block_number s;
             retry_deadline := block_add (block_number s) ExecutionRetryGraceBlocks;
             last_attempt_at := None |}).
Proof.
  unfold schedule_execution_retry. autorewrite with run.
  case_bool_decide as Hb.
  { intros [_ ->]%ret_Ok. split_and!; [done|done|]. intros Hn. rewrite Hn in Hb.
    by destruct Hb. }
  autorewrite with run. intros (u & s1 & H1 & H)%bind_Ok. destruct u.
  set (d := block_add (block_number s) ExecutionRetryGraceBlocks) in *.
  pose proof (keeps_Ok Proposals _ _ _ _ (keeps_reschedule_or_queue Proposals pid d d
    (conj (fun _ _ => eq_refl) (fun _ _ => eq_refl))) H1) as Hk1.
  pose proof (keeps_Ok PendingProposalExecutions _ _ _ _ (keeps_reschedule_or_queue
    PendingProposalExecutions pid d d
    (conj (fun _ _ => eq_refl) (fun _ _ => eq_refl))) H1) as Hk2.
  autorewrite with run in H. unfold emit in H. apply modify_Ok in H as ->. simpl.
  split_and!; [done|done|]. intros _. by rewrite lookup_insert_eq.
Qed.

(** [execute_pending] when the callback answered. *)
Lemma execute_pending_Ok s pid p s' :
  Proposals (ve s) !! pid = Some p -> status p = STATUS_PASSED ->
  execute_pending pid s = (Ok tt, s') ->
  exists outcome s1 s2,
    invoke_execution_callback pid (kind p) true s1 = (Ok outcome, s2) /\
    pid ∈ CallbackExecutionScopes (ve s1) /\
    match outcome with
    | Ignored => False
    | Executed => ended pid STATUS_EXECUTED s s'
    | RetryableFailed =>
        if decide (kind p = PROPOSAL_KIND_INTERNAL) then
          Proposals (ve s') = Proposals (ve s) /\
          PendingProposalExecutions (ve s') !! pid = None /\
          (ProposalExecutionRetryStates (ve s) !! pid = None ->
           ProposalExecutionRetryStates (ve s') !! pid =
            Some {| manual_attempts := 0; first_auto_failed_at := block_number s;
                    retry_deadline := block_add (block_number s) ExecutionRetryGraceBlocks;
                    last_attempt_at := None |})
        else ended pid STATUS_EXECUTION_FAILED s s'
    | FatalFailed => ended pid STATUS_EXECUTION_FAILED s s'
    end.
Proof.
  intros Hp Hst H. unfold execute_pending in H. apply (proj1 (transact_Ok _ _ _ _)) in H.
  autorewrite with run in H. rewrite Hp in H. autorewrite with run in H.
  rewrite (bool_decide_true (status p = STATUS_PASSED)) in H by done. cbn [negb] in H.
  apply bind_Ok in H as (o & s2 & H1 & H). apply scope_Ok in H1 as (s1 & H1 & ->).
  pose proof (invoke_framed _ _ _ _ _ _ H1) as [Hv1 Hk1].
  match type of H1 with _ ?x = _ => set (s0 := x) in * end.
  exists o, s0, s1. split; [done|]. split.
  { unfold s0. simpl. apply elem_of_union. left. by apply elem_of_singleton. }
  unfold drop_pending_execution in H. autorewrite with run in H.
  match type of H with (_ ?x) = _ => set (s2 := x) in * end.
  assert (Hv2 : ve s2 = set_PendingProposalExecutions (delete pid)
    (set_CallbackExecutionScopes (fun m => ({[pid]} ∪ m) ∖ {[pid]}) (ve s))).
  { unfold s2. cbn [ve set_ve]. rewrite Hv1. reflexivity. }
  assert (Hb2 : block_number s2 = block_number s).
  { change (block_number s1 = block_number s). injection Hk1 as -> _. done. }
  clearbody s2. clear Hv1 Hk1 H1 s0 s1.
  assert (Hend : forall st s5 s6, is_terminal_status st = true ->
    ve s5 = set_Proposals (insert pid (set_status st p)) (ve s2) ->
    clock s5 = clock s2 ->
    (after ← gets (fun s => Proposals (ve s) !! pid);
     after ← ok_or after (VotingErr ProposalNotFound);
     if is_terminal_status (status after) then finish_terminal_status pid (status after)
     else mret tt) s5 = (Ok tt, s6) -> ended pid st s s6).
  { intros st s5 s6 Ht Hv5 Hk5 H5. autorewrite with run in H5. rewrite Hv5 in H5.
    cbn [Proposals set_Proposals] in H5. rewrite lookup_insert_eq in H5.
    autorewrite with run in H5. cbn [status set_status] in H5. rewrite Ht in H5.
    apply (ended_run pid st p s s2 s5 s6);
      [done|done|by rewrite Hv2|by rewrite Hv2| |by rewrite Hv2; simpl; rewrite lookup_delete_eq
      |done|done]. rewrite <- Hb2. by injection Hk5. }
  apply bind_Ok in H as (u & s5 & H5 & H). destruct u.
  assert (Hp2 : Proposals (ve s2) !! pid = Some p) by (by rewrite Hv2).
  assert (Hset : forall st s5, set_proposal_status pid st s2 = (Ok tt, s5) ->
    ve s5 = set_Proposals (insert pid (set_status st p)) (ve s2) /\ clock s5 = clock s2).
  { intros st x (q & Hq & _ & ->)%set_proposal_status_Ok. by simplify_eq. }
  destruct o; simpl in H5.
  - by apply throw_Ok in H5.
  - apply bind_Ok in H5 as (u & s6 & H6 & H5). destruct u. apply Hset in H6 as [Hv6 Hk6].
    apply hook_Ok in H5 as [Hv5 Hk5]; [|apply track_frame_engine, executed_framed].
    apply (Hend STATUS_EXECUTED s5 s'); [done|by rewrite Hv5|by rewrite Hk5|done].
  - case_decide as Hk.
    + apply schedule_retry_Ok in H5 as (Hpr & Hpe & Hrs). autorewrite with run in H.
      rewrite Hpr, Hp2 in H. autorewrite with run in H. rewrite Hst in H.
      change (is_terminal_status STATUS_PASSED) with false in H. cbv iota in H.
      apply ret_Ok in H as [_ ->]. rewrite Hpr, Hpe, Hb2 in *. rewrite Hv2 in Hrs |- *.
      simpl in *. rewrite lookup_delete_eq. split_and!; auto.
    + apply Hset in H5 as [Hv5 Hk5]. by apply (Hend STATUS_EXECUTION_FAILED s5 s').
  - apply Hset in H5 as [Hv5 Hk5]. by apply (Hend STATUS_EXECUTION_FAILED s5 s').
Qed.

(** What the answer of a callback does to the proposal it executed. *)
Definition execution_effect pid p (s s' : rt W) (outcome : ProposalExecutionOutcome) : Prop :=
  match outcome with
  | Ignored => False
  | Executed => ended pid STATUS_EXECUTED s s'
  | RetryableFailed =>
      if decide (kind p = PROPOSAL_KIND_INTERNAL) then
        Proposals (ve s') = Proposals (ve s) /\
        PendingProposalExecutions (ve s') !! pid = None /\
        (ProposalExecutionRetryStates (ve s) !! pid = None ->
         ProposalExecutionRetryStates (ve s') !! pid =
          Some {| manual_attempts := 0; first_auto_failed_at := block_number s;
                  retry_deadline := block_add (block_number s) ExecutionRetryGraceBlocks;
                  last_attempt_at := None |})
      else ended pid STATUS_EXECUTION_FAILED s s'
  | FatalFailed => ended pid STATUS_EXECUTION_FAILED s s'
  end.

(** The state after the last automatic attempt failed: the proposal is declared
    failed and queued for its terminal clean-up, and nothing else changes. *)
Definition dead_lettered pid p n now (s s' : rt W) : Prop :=
  s' = set_events (fun l => l ++ [ProposalExecutionDeadLettered pid n])
    (set_ve (fun g => set_PendingTerminalFinalizations
        (insert pid {| attempts := 0; next_attempt_at := now |})
      (set_PendingProposalExecutions (delete pid)
        (set_Proposals (insert pid (set_status STATUS_EXECUTION_FAILED p)) g))) s).

Lemma dead_letter_run pid p n now s :
  Proposals (ve s) !! pid = Some p -> status p = STATUS_PASSED ->
  exists s', dead_letter_execution pid n now s = (Ok tt, s') /\ dead_lettered pid p n now s s'.
Proof.
  intros Hp Hst. unfold dead_letter_execution, transact, set_proposal_status.
  rewrite bind_assoc. autorewrite with run. rewrite Hp. rewrite bind_assoc. autorewrite with run.
  unfold ensure_valid_status_transition. rewrite Hst.
  change (guard_ok (valid_status_transition STATUS_PASSED STATUS_EXECUTION_FAILED)
    (VotingErr InvalidProposalStatus)) with (Ok tt : result DispatchError unit).
  simpl from_result. rewrite bind_assoc. unfold drop_pending_execution. autorewrite with run.
  eexists. by split; [reflexivity|].
Qed.

(** C13: one automatic attempt to execute a queued proposal. If the
    business callback answers, its answer decides: executed (the final
    effects are complete), failed, or, for an internal proposal, a retry
    period; if anything fails, the attempt is rolled back and counted: below
    the limit the proposal waits for [2^attempts] blocks; at the limit it is
    declared failed and leaves the queue of executions, and nothing else
    happens in this attempt but that its terminal clean-up is queued (which
    reports the failure to the business module in a callback of its own). A
    queued proposal that is no longer passed is dropped without a callback. *)
Theorem automatic_execution s pid p st now
    (Hp : Proposals (ve s) !! pid = Some p) :
  let s' := (execution_step now (pid, st) s).2 in
  let n := saturating_add u8_max (attempts st) 1 in
  (status p <> STATUS_PASSED ->
     s' = set_ve (set_PendingProposalExecutions (delete pid)) s) /\
  (status p = STATUS_PASSED ->
     match execute_pending pid s with
     | (Ok _, s1) => s' = s1 /\ exists outcome s2 s3,
         invoke_execution_callback pid (kind p) true s2 = (Ok outcome, s3) /\
         pid ∈ CallbackExecutionScopes (ve s2) /\ execution_effect pid p s s' outcome
     | (Err _, s1) => s1 = s /\
         if decide (MaxManualExecutionAttempts <= n) then dead_lettered pid p n now s s'
         else s' = set_events (fun l => l ++
                [ProposalExecutionDeferred pid n (block_add now (backoff_delay n))])
              (set_ve (set_PendingProposalExecutions (insert pid
                {| attempts := n; next_attempt_at := block_add now (backoff_delay n) |})) s)
     end).
Proof.
  intros s' n. subst s'. unfold execution_step. rewrite sbind_run. cbn [fst snd].
  change (attempt (execute_pending pid) s) with (execute_pending pid s).
  destruct (execute_pending pid s) as [r s1] eqn:Hr. cbn [fst snd]. split.
  - intros Hst. unfold execute_pending, transact in Hr. autorewrite with run in Hr.
    rewrite Hp in Hr. autorewrite with run in Hr.
    rewrite (bool_decide_false (status p = STATUS_PASSED)) in Hr by done.
    injection Hr as <- <-. done.
  - intros Hst. destruct r as [[]|e]; cbn [is_ok].
    + split; [done|].
      destruct (execute_pending_Ok s pid p s1 Hp Hst Hr) as (o & s2 & s3 & H1 & H2 & H3).
      exists o, s2, s3. by repeat split.
    + assert (s1 = s) as -> by (unfold execute_pending in Hr; by apply transact_Err in Hr).
      split; [done|]. rewrite sbind_run.
      unfold mret at 1, St_ret, attempt, handle_automatic_execution_failure. autorewrite with run. rewrite Hp.
      rewrite (bool_decide_true (status p = STATUS_PASSED)) by done. cbn [negb].
      cbn [snd]. change (saturating_add u8_max (attempts st) 1) with n. case_decide as Hd.
      * destruct (dead_letter_run pid p n now s Hp Hst) as (s2 & H2 & Hdead).
        rewrite bind_assoc. unfold lift, attempt. unfold mbind, M_bind. rewrite H2. exact Hdead.
      * autorewrite with run. reflexivity.
Qed.
End Outcomes.

(** ** Concrete runs *)

Lemma vote_passed_witness :
  let p := internal_proposal STATUS_VOTING in
  exists g', set_status_and_emit 3 STATUS_PASSED (one_proposal 3 p) =
      (Ok tt, set_events
        (fun l => l ++ [ProposalExecutionQueued 3; ProposalFinalized 3 STATUS_PASSED])
        (set_ve (fun _ => g') (one_proposal 3 p))) /\
    PendingProposalExecutions g' !! 3 = Some {| attempts := 0; next_attempt_at := 5 |}.
Proof.
  intros p. destruct (vote_passed (one_proposal 3 p) 3 p) as (g' & H1 & _ & H2 & _);
    [reflexivity|reflexivity|].
  exists g'. split; [exact H1|]. rewrite H2. reflexivity.
Defined.

Lemma vote_rejected_witness :
  let s := one_proposal 3 (internal_proposal STATUS_VOTING) in
  let '(r, s') := set_status_and_emit 3 STATUS_REJECTED s in
  r = Ok tt /\ mutex_bindings (ve s') 3 = [] /\ ScheduledCleanupTail (ve s') = 1.
Proof.
  intros s. destruct (set_status_and_emit 3 STATUS_REJECTED s) as [r s'] eqn:H.
  pose proof (vote_rejected s 3 _ r s' eq_refl eq_refl H) as Hv.
  assert (Hr : r = Ok tt).
  { change r with ((r, s').1). rewrite <- H. vm_compute. reflexivity. }
  subst r. destruct Hv as (_ & _ & _ & _ & H1 & _ & _ & H2). split; [reflexivity|].
  split; [exact H1|exact H2].
Defined.

Lemma set_status_refused_witness :
  let s := one_proposal 3 (internal_proposal STATUS_REJECTED) in
  set_status_and_emit 3 STATUS_PASSED s = (Err (VotingErr InvalidProposalStatus), s).
Proof.
  intros s. apply (set_status_refused s 3 (internal_proposal STATUS_REJECTED)); [reflexivity|].
  split; intros [H _]; discriminate H.
Defined.

Lemma automatic_execution_witness :
  let s := one_proposal 3 (internal_proposal STATUS_PASSED) in
  ended 3 STATUS_EXECUTED s (execution_step 5 (3, {| attempts := 0; next_attempt_at := 5 |}) s).2.
Proof.
  intros s. set (st := {| attempts := 0; next_attempt_at := 5 |}).
  destruct (automatic_execution s 3 (internal_proposal STATUS_PASSED) st 5 eq_refl) as [_ H].
  specialize (H eq_refl). destruct (execute_pending 3 s) as [r s1] eqn:Hr.
  assert (Hok : r = Ok tt).
  { change r with ((r, s1).1). rewrite <- Hr. vm_compute. reflexivity. }
  subst r. destruct H as (_ & o & s2 & s3 & Hc & _ & Hf).
  assert (Ho : o = Executed) by (cbv in Hc; congruence). subst o. exact Hf.
Defined.
