(* ===== verification/Clients.v ===== *)
(** * What the engine promises the voting pallets

    The operations the sub-pallets build proposals from (identifier, quota,
    mutex, snapshots, the proposal itself, its expiry, its plan and its data)
    keep the engine's invariant, provided they run inside a storage
    transaction: [holds] speaks of the runs that succeed, and [good_transact]
    turns such a fact into one about the transaction. *)
From S2P Require Import Prelude Cid Types State Interfaces Runtime Ids Locks Data.
From S2P Require Import Cleanup Lifecycle Execution Expiry Maintenance Engine Invariant.
From S2P Require Import Safety.

(** ** Successful runs *)

Definition holds {W A} (P : rt W -> Prop) (m : RM W A) (Q : A -> rt W -> Prop) : Prop :=
  forall s a s', P s -> m s = (Ok a, s') -> Q a s'.

Section Holds.
Context {W : Type}.
Implicit Types P : rt W -> Prop.

Lemma holds_bind {A B} P (m : RM W A) (f : A -> RM W B) Q R :
  holds P m Q -> (forall a, holds (Q a) (f a) R) -> holds P (m ≫= f) R.
Proof. intros Hm Hf s b s' Hs (a & s1 & H1 & H2)%bind_Ok. eapply Hf; eauto. Qed.

Lemma holds_weaken {A} P' P (m : RM W A) Q :
  (forall s, P s -> P' s) -> holds P' m Q -> holds P m Q.
Proof. intros HP Hm s a s' Hs Hr. eapply Hm; eauto. Qed.

Lemma holds_keep {A B} P (m : RM W A) (f : A -> RM W B) R :
  preserves P m -> (forall a, holds P (f a) R) -> holds P (m ≫= f) R.
Proof.
  intros Hm Hf. apply (holds_bind P m f (fun _ => P)); [|done].
  intros s a s' Hs Hr. specialize (Hm s Hs). by rewrite Hr in Hm.
Qed.

Lemma holds_ret {A} P (a : A) (Q : A -> rt W -> Prop) :
  (forall s, P s -> Q a s) -> holds P (mret a) Q.
Proof. intros H s b s' Hs Hr. run_inv. auto. Qed.

Lemma holds_preserves {A} P (m : RM W A) : preserves P m -> holds P m (fun _ => P).
Proof. intros Hm s a s' Hs Hr. specialize (Hm s Hs). by rewrite Hr in Hm. Qed.

Lemma holds_throw {A} P e (Q : A -> rt W -> Prop) : holds P (throw e) Q.
Proof. intros s a s' Hs Hr. by run_inv. Qed.

Lemma holds_for_each {A} P (f : A -> RM W unit) l :
  (forall x, holds P (f x) (fun _ => P)) -> holds P (for_each f l) (fun _ => P).
Proof.
  intros Hf. induction l; simpl; [by apply holds_ret|].
  eapply holds_bind; [apply Hf|done].
Qed.

Lemma holds_transact {A} P (m : RM W A) Q : holds P m Q -> holds P (transact m) Q.
Proof.
  intros Hm s a s' Hs Hr. apply (proj1 (transact_Ok _ _ _ _)) in Hr. by eapply Hm.
Qed.

(** A transaction keeps what its successful runs keep. *)
Lemma preserves_transact_holds {A} P (m : RM W A) :
  holds P m (fun _ => P) -> preserves P (transact m).
Proof.
  intros Hm s Hs. destruct (transact m s) as [[a|e] s'] eqn:Hr; simpl.
  - apply (proj1 (transact_Ok _ _ _ _)) in Hr. by eapply Hm.
  - apply transact_Err in Hr. by subst.
Qed.
End Holds.

(** ** A fresh identifier *)

(** [id] was handed out in this run and is not used yet. *)
Record fresh `{Config} {W} `{Callbacks W} (s0 : rt W) (id : Z) (s : rt W) : Prop := {
  fresh_good : good s0 s;
  fresh_base : exists r, good s0 r /\ sound r s /\ world s = world r /\
    NextProposalId (ve r) <= id;
  fresh_unused : Proposals (ve s) !! id = None;
  fresh_range : NextProposalId (ve s0) <= id < NextProposalId (ve s);
  fresh_low : 0 <= id;
  fresh_new : Proposals (ve s0) !! id = None;
  fresh_clean : ~ under_cleanup (ve s) id;
  fresh_unlisted : forall code, (code, id) ∉ ProposalsByCode (ve s);
}.

(** The clock of the block has not fallen behind the year of the last proposal. *)
Definition clock_ok {W} (s : rt W) : Prop :=
  forall y, unix_seconds_to_year (now_ms s / 1000) = Ok y -> CurrentProposalYear (ve s) <= y.

Lemma clock_ok_good `{Config} {W} `{Callbacks W} (s0 s : rt W) :
  clock_ok s0 -> good s0 s -> clock_ok s.
Proof.
  intros Hc [(_ & _ & Hn & Hy) _] y Hr. injection Hn as _ Hn. rewrite Hn in *.
  destruct Hy as [->|Hy]; [by apply Hc|].
  rewrite Hr in Hy. by injection Hy as ->.
Qed.

Section Creation.
Context `{Wt : Weights} `{Cfg : !Config} {W : Type} `{Prov : !Providers W} `{Cb : !Callbacks W}.
Implicit Types s : rt W.

(** The allocation changes the identifier storage and nothing else. *)
Lemma allocate_frame s :
  exists n y c d, ve (allocate_proposal_id s).2 =
    set_ProposalDisplayId (fun _ => d) (set_YearProposalCounter (fun _ => c)
      (set_CurrentProposalYear (fun _ => y) (set_NextProposalId (fun _ => n) (ve s)))) /\
    clock (allocate_proposal_id s).2 = clock s /\ NextProposalId (ve s) <= n /\
    world (allocate_proposal_id s).2 = world s.
Proof.
  destruct (allocate_proposal_id s) as [[id|e] s'] eqn:Hr; simpl.
  - unfold allocate_proposal_id in Hr. run_inv.
    match goal with H : (if decide ?P then _ else _) _ = _ |- _ => destruct (decide P) end;
      run_inv; do 4 eexists; (split; [reflexivity|]);
      split_and!; first [done|exact (Z.le_succ_diag_r _)].
  - destruct (allocate_Err _ _ _ Hr) as (n & Hn & Hle).
    assert (Hc : clock s' = clock s /\ world s' = world s).
    { clear Hn. revert Hr. unfold allocate_proposal_id, bounded_uint, checked_add.
      autorewrite with run.
      destruct (decide (now_ms s / 1000 <= u64_max)); autorewrite with run;
        [|by intros [= _ <-]].
      destruct (unix_seconds_to_year _); simpl; autorewrite with run; [|by intros [= _ <-]].
      destruct (decide (NextProposalId (ve s) + 1 <= u64_max)); autorewrite with run;
        [|by intros [= _ <-]].
      case_decide; [|done]. rewrite bind_assoc. autorewrite with run.
      case_decide; autorewrite with run; [done|]. by intros [= _ <-]. }
    exists n, (CurrentProposalYear (ve s)), (YearProposalCounter (ve s)), (ProposalDisplayId (ve s)).
    destruct Hc as [Hc Hw]. rewrite Hn, Hc, Hw. by destruct (ve s).
Qed.

(** The allocation seen from any earlier state. *)
Lemma sound_allocate r s id s' :
  clock_ok s -> allocate_proposal_id s = (Ok id, s') -> sound r s ->
  sound r s' /\ id = NextProposalId (ve s) /\ NextProposalId (ve s') = id + 1 /\ 0 <= id /\
  Proposals (ve s') = Proposals (ve s) /\
  ProposalsByCode (ve s') = ProposalsByCode (ve s) /\ world s' = world s /\
  (forall q, under_cleanup (ve s') q -> under_cleanup (ve s) q).
Proof.
  intros Hc Hr ([Hsc Hpe Hmu Hix Hac Hid Hbe Hcl Hks] & He & Hn & Hy).
  destruct (allocate_wf s Hid Hc) as [Hid' Hnew]. rewrite Hr in Hid'.
  destruct (Hnew _ _ Hr) as (-> & Hnext & Hnone & m & Hd & Hyear & _). clear Hnew.
  destruct (allocate_Ok _ _ _ Hr) as (y & Hy1 & _ & _ & _ & Hcur & _ & Hprops).
  destruct (allocate_frame s) as (n & y' & c & d & Hve & Hclock & Hle & Hworld). rewrite Hr in *.
  simpl in Hve, Hclock, Hid', Hworld. pose proof (ids_next _ Hid) as Hpos.
  assert (Hix' : index_wf (ve s')).
  { destruct Hix as [H1 H2 H3 H4]. rewrite Hve in *. simpl in Hd. subst d.
    split; simpl; [|done..|].
    { intros code q Hq. destruct (H1 _ _ Hq) as [? ?]. split; [lia|done]. }
    intros yr q Hq. destruct (H4 _ _ Hq) as (x & Hx & ?).
    exists x. split; [|done]. rewrite lookup_insert_ne; [done|]. congruence. }
  split; [split; [|split; [|split]]|]; rewrite ?Hprops, ?Hnext.
  - split; rewrite ?Hclock; try done.
    + injection Hclock as -> _. rewrite Hve. by destruct Hsc.
    + rewrite Hve. by destruct Hpe.
    + rewrite Hve. by destruct Hmu.
    + rewrite Hve. done.
    + rewrite Hprops, Hnext. intros pid p Hp%Hbe. lia.
    + rewrite Hprops, Hnext. intros pid Hu. rewrite Hve in Hu.
      destruct (Hcl pid Hu) as [? ?]. split; [lia|done].
    + by rewrite Hprops.
  - destruct He as [He1 He2 He3]. split; rewrite ?Hprops, ?Hnext; [|lia|done].
    unfold same_data in *. rewrite Hve. exact He1.
  - by rewrite Hclock.
  - right. injection Hclock as _ Hk. by rewrite Hk, Hcur.
  - split_and!; [done|lia|done|done| |done|]; rewrite Hve; done.
Qed.

Lemma holds_allocate s0 :
  engine_inv s0 -> clock_ok s0 ->
  holds (good s0) allocate_proposal_id (fun id => fresh s0 id).
Proof.
  intros Hi0 Hc s id s' Hs Hr. pose proof (clock_ok_good _ _ Hc Hs) as Hcs.
  pose proof (good_inv _ _ Hs) as [_ _ _ Hix _ _ Hbe Hcl _].
  pose proof Hs as [[_ [He _]] _].
  destruct (sound_allocate s s id s' Hcs Hr (sound_refl s (good_inv _ _ Hs)))
    as (Hss & -> & Hnext & Hlow & Hprops & Hcode & Hw & Hu).
  assert (Hg : good s0 s').
  { apply (good_quiet s0 s); [|done|done]. intros r Hsr.
    by apply (sound_allocate r s (NextProposalId (ve s)) s'). }
  split; rewrite ?Hprops, ?Hnext, ?Hcode; try done.
  - exists s. split_and!; [done..|lia].
  - destruct (Proposals (ve s) !! NextProposalId (ve s)) as [p|] eqn:Hp; [|done].
    apply Hbe in Hp. lia.
  - destruct He as [_ He _]. lia.
  - destruct (Proposals (ve s0) !! NextProposalId (ve s)) as [p|] eqn:Hp; [|done].
    apply (inv_below _ Hi0) in Hp. destruct He as [_ He _]. lia.
  - intros [Hlt _]%Hu%Hcl. lia.
  - intros code Hq. destruct (code_wf _ Hix _ _ Hq). lia.
Qed.

(** Writes outside the proposals, their codes and the cleanup queues. *)
Lemma fresh_step s0 id s s' :
  (forall r, sound r s -> sound r s') -> world s' = world s ->
  Proposals (ve s') = Proposals (ve s) ->
  NextProposalId (ve s') = NextProposalId (ve s) ->
  ProposalsByCode (ve s') = ProposalsByCode (ve s) ->
  (forall q, under_cleanup (ve s') q -> under_cleanup (ve s) q) ->
  fresh s0 id s -> fresh s0 id s'.
Proof.
  intros Hg Hw Hp Hn Hb Hu [? (r & ? & ? & Hr & ?)]. split; rewrite ?Hp, ?Hn, ?Hb; auto.
  - by apply (good_quiet s0 s).
  - exists r. split_and!; [done|by apply Hg|by rewrite Hw|done].
Qed.

Lemma fresh_core s0 id s s' :
  core (ve s') = core (ve s) -> clock s' = clock s -> world s' = world s ->
  fresh s0 id s -> fresh s0 id s'.
Proof.
  intros Hc Hk Hw. apply fresh_step; [intros r; by apply sound_core|..]; unfold core in Hc; injection Hc;
    intros; [done..|]. unfold under_cleanup in *.
  repeat match goal with H : _ (ve s') = _ (ve s) |- _ => rewrite H in *; clear H end.
  assumption.
Qed.

Lemma fresh_upd s0 id f :
  (forall g, core (f g) = core g) -> preserves (fresh s0 id) (upd f : RM W unit).
Proof. intros Hf s Hs. by apply (fresh_core s0 id s); [apply Hf|..]. Qed.

Lemma good_modify s0 f s :
  (forall g, core (f g) = core g) -> good s0 s -> good s0 (set_ve f s).
Proof. intros Hf. apply (good_upd s0 f Hf s). Qed.

Lemma fresh_modify s0 id f s :
  (forall g, core (f g) = core g) -> fresh s0 id s -> fresh s0 id (set_ve f s).
Proof. intros Hf. apply (fresh_upd s0 id f Hf s). Qed.

Lemma fresh_framed s0 id {A} (m : rt W -> A * rt W) :
  track_frame m -> preserves (fresh s0 id) m.
Proof.
  intros Hm s Hs. destruct (track_frame_eq m s Hm) as (H1 & H2 & H3).
  apply (fresh_core s0 id s); [by rewrite H1|done..].
Qed.

(** ** Quota and mutex *)

Lemma holds_try_add s0 id subject :
  holds (fresh s0 id) (try_add_active_proposal subject id) (fun _ => fresh s0 id).
Proof.
  unfold try_add_active_proposal. intros s [] s' Hs Hr. run_inv.
  match goal with H : try_push _ _ _ = _ |- _ => apply try_push_Some in H as [Hlt ->] end.
  apply (fresh_step s0 id s); [|done..|exact Hs]. clear s0 Hs.
  intros s0 ([Hsc Hpe Hmu Hix Hac Hid Hbe Hcl Hks] & He & Hn).
  split; [split|split; [by destruct He|done]]; simpl; try done.
  - by destruct Hsc.
  - by destruct Hpe.
  - by destruct Hmu.
  - by destruct Hix.
  - intros x. specialize (Hac x). unfold active_proposal_count in *.
    rewrite active_proposals_insert. case_decide; [|done]. rewrite length_app. simpl. lia.
  - by destruct Hid.
Qed.

Lemma acquire_frame s p subject kind s' :
  acquire_internal_proposal_mutex p subject kind s = (Ok tt, s') ->
  exists m b, s' = set_ve (fun g => set_ProposalMutexBindings (fun _ => b)
    (set_InternalProposalMutexes (fun _ => m) g)) s.
Proof.
  unfold acquire_internal_proposal_mutex. intros Hr. run_inv.
  do 2 eexists. unfold set_ve. simpl. reflexivity.
Qed.

Lemma holds_acquire s0 id subject kind :
  holds (fresh s0 id) (acquire_internal_proposal_mutex id subject kind)
    (fun _ => fresh s0 id).
Proof.
  intros s [] s' Hs Hr. pose proof (acquire_mutex_wf s id subject kind s') as Hwf.
  specialize (Hwf (inv_mutex _ (good_inv _ _ (fresh_good _ _ _ Hs))) Hr).
  destruct (acquire_frame _ _ _ _ _ Hr) as (m & b & ->). clear Hr.
  apply (fresh_step s0 id s); [|done..|exact Hs]. clear s0 Hs.
  intros s0 ([Hsc Hpe Hmu Hix Hac Hid Hbe Hcl Hks] & He & Hn).
  split; [split|split; [by destruct He|done]]; simpl; try done.
  - by destruct Hsc.
  - by destruct Hpe.
  - by destruct Hix.
  - by destruct Hid.
Qed.

(** ** The proposal itself *)

(** A proposal as it is created: open, in a stage of its kind. *)
Definition newborn (p : Proposal) : Prop := status p = STATUS_VOTING /\ stage_of_kind p.

Lemma sound_new_proposal s0 r s id p :
  fresh s0 id s -> newborn p -> NextProposalId (ve r) <= id ->
  Proposals (ve r) !! id = None -> sound r s ->
  sound r (set_ve (set_Proposals (insert id p)) s).
Proof.
  intros [Hg _ Hu Hr Hlow _ Hc Hul] [Hst Hstage] Hlt Hnew
    ([Hsc Hpe Hmu Hix Hac Hid Hbe Hcl Hks] & [He1 He2 He3] & Hn).
  assert (Hold : forall q x, Proposals (ve s) !! q = Some x -> <[id := p]> (Proposals (ve s)) !! q
    = Some x).
  { intros q x Hq. rewrite lookup_insert_ne; [done|]. congruence. }
  split; [split|split; [split|done]]; simpl; try done.
  - by destruct Hsc.
  - by destruct Hpe.
  - by destruct Hmu.
  - destruct Hix as [H1 H2 H3 H4]. split; simpl; try done;
      [intros c q Hq; destruct (H1 c q Hq) as [? ?]; split; [done|]
      |intros c q (x & Hx & ?)%H2; by eauto].
    intros x [[<- <-]|[_ Hx]]%lookup_insert_Some; [by destruct (Hul c)|eauto].
  - by destruct Hid.
  - intros q x [[<- <-]|[_ Hx]]%lookup_insert_Some; [lia|]. by eapply Hbe.
  - intros q Hq. destruct (Hcl q Hq) as [? Ht]. split; [done|].
    intros x [[<- <-]|[_ Hx]]%lookup_insert_Some; [by destruct Hc|by apply Ht].
  - intros q x [[<- <-]|[_ Hx]]%lookup_insert_Some; [done|by eapply Hks].
  - intros q x Hx. specialize (He1 q x Hx). destruct (decide (q = id)) as [->|].
    + congruence.
    + by rewrite lookup_insert_ne.
  - intros q Hq Hnone. rewrite lookup_insert_ne by lia. by apply He3.
Qed.

Lemma good_new_proposal s0 s id p :
  fresh s0 id s -> newborn p ->
  good s0 (set_ve (set_Proposals (insert id p)) s).
Proof.
  intros Hf Hp. pose proof Hf as [[Hs _] (r & [Hr HJ] & Hrs & Hw & Hlt) _ Hr0 _ Hnew _ _].
  split; [eapply sound_new_proposal; [done..|apply Hr0|done|done]|].
  intros J HB H0. cbn [world set_ve]. rewrite Hw.
  apply (biz_evolves J HB (ve r)); [|by apply HJ].
  assert (Hn : Proposals (ve r) !! id = None).
  { destruct (Proposals (ve r) !! id) as [x|] eqn:Hx; [|done].
    destruct Hr as [Hr _]. apply (inv_below _ Hr) in Hx. lia. }
  by apply (sound_new_proposal s0 r s id p).
Qed.

(** ** What follows the proposal *)

Lemma good_schedule_expiry s0 pid e :
  preserves (good s0) (schedule_proposal_expiry pid e : RM W unit).
Proof. unfold schedule_proposal_expiry, push_expiry. solve_good. Qed.

Lemma good_created s0 pid k st e :
  preserves (good s0) (emit_proposal_created pid k st e : RM W unit).
Proof. unfold emit_proposal_created. solve_good. Qed.

Lemma good_bind_plan s0 pid plan : preserves (good s0) (bind_vote_plan pid plan : RM W unit).
Proof.
  unfold bind_vote_plan.
  solve_preserves_with ltac:(intros ? ?; apply good_modify; [reflexivity|assumption]).
Qed.

Lemma good_population s0 pid sc : preserves (good s0) (create_population_snapshot pid sc).
Proof. unfold create_population_snapshot. solve_good. Qed.

Lemma good_store_object s0 pid k d : preserves (good s0) (store_proposal_object pid k d).
Proof.
  unfold store_proposal_object.
  solve_preserves_with ltac:(intros ? ?; apply good_modify; [reflexivity|assumption]).
Qed.

Lemma fresh_role_voters s0 id pid subject l :
  preserves (fresh s0 id) (snapshot_role_voters pid subject l : RM W unit).
Proof.
  unfold snapshot_role_voters.
  solve_preserves_with ltac:(intros ? ?; apply fresh_modify; [reflexivity|assumption]).
Qed.

Lemma fresh_personal_admins s0 id pid a pending :
  preserves (fresh s0 id) (snapshot_personal_admins pid a pending).
Proof.
  unfold snapshot_personal_admins, write_admin_snapshot.
  solve_preserves_with ltac:(intros ? ?; apply fresh_modify; [reflexivity|assumption]).
Qed.

(** A transaction in the engine's own storage. *)
Lemma register_frame pid c a l o y (g : engine) :
  exists m1 m2 m3 m4, register_proposal_indexes pid c a l o y g =
    set_ProposalsByYear (fun _ => m1) (set_ProposalsByOwner (fun _ => m2)
      (set_ProposalsByCid (fun _ => m3) (set_ProposalsByCode (fun _ => m4) g))).
Proof.
  set (r := register_proposal_indexes pid c a l o y g).
  exists (ProposalsByYear r), (ProposalsByOwner r), (ProposalsByCid r), (ProposalsByCode r).
  subst r. destruct c, a, g; unfold register_proposal_indexes; norm_engine; reflexivity.
Qed.

Lemma holds_register s0 pid tag data now :
  holds (good s0) (register_proposal_data pid tag data now : RM W unit) (fun _ => good s0).
Proof.
  intros s [] s' Hs Hr. assert (Hw : world s' = world s).
  { unfold register_proposal_data in Hr. run_inv.
    match goal with H : match ProposalVotePlans (ve s) !! pid with _ => _ end _ = _ |- _ =>
      destruct (ProposalVotePlans (ve s) !! pid); by run_inv end. }
  revert Hs. apply good_quiet; [clear Hw s0|done]. intros s0 Hs.
  unfold register_proposal_data in Hr. run_inv.
  match goal with H : _ || _ = false |- _ => apply orb_false_iff in H as [Hn1 Hn2] end.
  run_inv. apply eq_None_not_Some in Hn1, Hn2.
  match goal with H : match ProposalVotePlans (ve s) !! pid with _ => _ end _ = (Ok tt, ?x) |- _ =>
    assert (x = s) as -> by (destruct (ProposalVotePlans (ve s) !! pid); by run_inv); clear H end.
  match goal with H : Proposals _ !! pid = Some ?x, H' : ProposalDisplayId _ !! pid = Some ?m |- _ =>
    rename x into p, m into meta, H into Hp, H' into Hd end.
  simpl in Hp, Hd. destruct Hs as ([Hsc Hpe Hmu Hix Hac Hid Hbe Hcl Hks] & He & Hn).
  match goal with H : bounded_module_tag _ = Ok ?o |- _ => rename o into owner; clear H end.
  match goal with H : bounded_bytes _ _ = Some ?b |- _ => rename b into body; clear H end.
  pose proof (registered_wf (ve s) pid p owner (insert pid body)
    (insert pid {| created_at := now; passed_at := None |}) meta Hp Hd Hn1
    (proj2 (Hbe pid p Hp)) Hix) as Hix'.
  match type of Hix' with index_wf (register_proposal_indexes ?a ?b ?c ?d ?e ?f ?g) =>
    destruct (register_frame a b c d e f g) as (m1 & m2 & m3 & m4 & Hf) end.
  match goal with |- sound s0 ?x => assert (Hx : x = set_ve (fun _ => ve x) s) by reflexivity end.
  rewrite Hx. clear Hx. cbn [ve set_ve] in *. rewrite Hf in Hix' |- *.
  split; [split|split]; simpl; try done.
  - by destruct Hsc.
  - by destruct Hpe.
  - by destruct Hmu.
  - by destruct Hid.
  - destruct He as [He1 He2 He3]. split; [|done..]. intros q x Hx. specialize (He1 q x Hx).
    simpl. destruct (_ !! q) in He1 |- *; [|done]. destruct He1 as (? & ? & Hd1 & Hd2).
    split_and!; [done..|]. split; intros y Hy; simpl.
    + apply Hd1 in Hy. rewrite lookup_insert_ne; [done|]. intros ->. congruence.
    + apply Hd2 in Hy. rewrite lookup_insert_ne; [done|]. intros ->. congruence.
Qed.
End Creation.

#[export] Hint Resolve good_schedule_expiry good_created good_bind_plan good_population
  good_store_object fresh_role_voters fresh_personal_admins : preserves.
(** [newborn] of the records the creations build. *)
Ltac solve_newborn :=
  split; [reflexivity|unfold stage_of_kind; simpl; tauto].
#[export] Hint Extern 1 (preserves (fresh _ _) (upd _)) =>
  apply fresh_upd; intros; reflexivity : preserves.
