(* ===== verification/Tally.v ===== *)
(** * Counting votes

    The pallets keep running tallies next to the votes themselves.
    [vote_sum w pid b m] is the reference they are compared with: the sum of
    the weights [w] of the keys of proposal [pid] whose recorded vote is [b]. *)
From S2P Require Import Prelude Cid Types State Interfaces.

Section VoteSum.
Context `{Countable K}.
Implicit Types (m : gmap (Z * K) bool) (w : K -> Z) (pid q : Z) (b v : bool).

Definition vote_sum w pid b m : Z :=
  map_fold (fun k v acc => (if decide (k.1 = pid /\ v = b) then w k.2 else 0) + acc) 0 m.

Lemma vote_sum_empty w pid b : vote_sum w pid b ∅ = 0.
Proof. apply map_fold_empty. Qed.

Lemma vote_sum_insert w pid b q k v m :
  m !! (q, k) = None ->
  vote_sum w pid b (<[(q, k) := v]> m) =
    (if decide (q = pid /\ v = b) then w k else 0) + vote_sum w pid b m.
Proof.
  intros Hk. unfold vote_sum. rewrite map_fold_insert_L; [done| |done]. intros. lia.
Qed.

(** The votes of one proposal decide its sum. *)
Lemma vote_sum_filter w pid b m :
  vote_sum w pid b m = vote_sum w pid b (filter (fun e => e.1.1 = pid) m).
Proof.
  induction m as [|[q k] v m Hk IH] using map_ind; [by rewrite map_filter_empty|].
  rewrite vote_sum_insert by done. destruct (decide (q = pid)) as [->|Hq].
  - rewrite map_filter_insert_True by done. rewrite vote_sum_insert.
    + by rewrite IH.
    + apply map_lookup_filter_None. by left.
  - rewrite decide_False by naive_solver. rewrite map_filter_insert_not.
    + rewrite IH. lia.
    + intros v'. simpl. done.
Qed.

Lemma vote_sum_ext w pid b m m' :
  (forall k, m' !! (pid, k) = m !! (pid, k)) -> vote_sum w pid b m' = vote_sum w pid b m.
Proof.
  intros Hm. rewrite (vote_sum_filter w pid b m), (vote_sum_filter w pid b m'). f_equal.
  apply map_eq. intros [q k]. apply option_eq. intros v. rewrite !map_lookup_filter_Some. simpl.
  split; intros [Hv ->]; (split; [|done]); congruence.
Qed.

Lemma vote_sum_blank w pid b m : (forall k, m !! (pid, k) = None) -> vote_sum w pid b m = 0.
Proof.
  intros Hm. rewrite <- (vote_sum_empty w pid b). apply vote_sum_ext. intros k.
  by rewrite Hm, lookup_empty.
Qed.

Lemma vote_sum_nonneg w pid b m : (forall k, 0 <= w k) -> 0 <= vote_sum w pid b m.
Proof.
  intros Hw. induction m as [|[q k] v m Hk IH] using map_ind; [by rewrite vote_sum_empty|].
  rewrite vote_sum_insert by done. specialize (Hw k). case_decide; lia.
Qed.

(** The same sum over a list of all who may vote. *)
Definition list_sum w pid b m (l : list K) : Z :=
  foldr (fun k acc => (if decide (m !! (pid, k) = Some b) then w k else 0) + acc) 0 l.

Lemma list_sum_insert w pid b k v m l :
  m !! (pid, k) = None -> NoDup l -> k ∈ l ->
  list_sum w pid b (<[(pid, k) := v]> m) l =
    (if decide (v = b) then w k else 0) + list_sum w pid b m l.
Proof.
  intros Hk. induction l as [|x l IH]; [by intros _ ?%elem_of_nil|].
  intros [Hx Hl]%NoDup_cons [->|Hin]%elem_of_cons; cbn [list_sum foldr].
  - rewrite lookup_insert_eq, (decide_False (P := m !! _ = _)) by congruence.
    assert (Hrest : list_sum w pid b (<[(pid, x) := v]> m) l = list_sum w pid b m l).
    { clear IH Hl. induction l as [|y l IH]; [done|]. cbn [list_sum foldr].
      apply not_elem_of_cons in Hx as [Hne Hx]. rewrite lookup_insert_ne by congruence.
      f_equal. by apply IH. }
    unfold list_sum in Hrest |- *. rewrite Hrest. repeat case_decide; naive_solver lia.
  - unfold list_sum in IH. rewrite IH by done.
    rewrite lookup_insert_ne; [lia|]. intros [= ->]. done.
Qed.

Lemma vote_sum_list w pid b m l :
  NoDup l -> (forall k v, m !! (pid, k) = Some v -> k ∈ l) ->
  vote_sum w pid b m = list_sum w pid b m l.
Proof.
  intros Hl. induction m as [|[q k] v m Hk IH] using map_ind; intros Hin.
  - rewrite vote_sum_empty. unfold list_sum. clear. induction l as [|x l IH]; [done|].
    simpl. rewrite lookup_empty, decide_False by done. lia.
  - assert (Hm : forall k' v', m !! (pid, k') = Some v' -> k' ∈ l).
    { intros k' v' Hv. apply (Hin k' v'). rewrite lookup_insert_ne; [done|]. congruence. }
    rewrite vote_sum_insert, IH by done. destruct (decide (q = pid)) as [->|Hq].
    + rewrite list_sum_insert; [|done..|apply (Hin k v), lookup_insert_eq].
      repeat case_decide; naive_solver.
    + rewrite decide_False by naive_solver. unfold list_sum.
      assert (Hf : forall l', foldr (fun x acc =>
        (if decide (<[(q, k) := v]> m !! (pid, x) = Some b) then w x else 0) + acc) 0 l' =
        foldr (fun x acc => (if decide (m !! (pid, x) = Some b) then w x else 0) + acc) 0 l').
      { induction l' as [|x l' IH']; [done|]. simpl. rewrite IH'.
        rewrite lookup_insert_ne by congruence. done. }
      rewrite Hf. lia.
Qed.

Definition total_weight w (l : list K) : Z := foldr (fun k acc => w k + acc) 0 l.

Lemma list_sum_bound w pid b m l :
  (forall k, 0 <= w k) -> list_sum w pid b m l <= total_weight w l.
Proof.
  intros Hw. induction l as [|x l IH]; [done|]. simpl. specialize (Hw x).
  unfold list_sum in *. simpl. case_decide; lia.
Qed.

(** The whole weight is reached only if everyone with a weight voted for it. *)
Lemma list_sum_total w pid b m l :
  (forall k, 0 <= w k) -> total_weight w l <= list_sum w pid b m l ->
  forall k, k ∈ l -> 0 < w k -> m !! (pid, k) = Some b.
Proof.
  intros Hw. induction l as [|x l IH]; [by intros _ k ?%elem_of_nil|].
  intros Ht k Hk Hpos. pose proof (list_sum_bound w pid b m l Hw) as Hb. pose proof (Hw x).
  unfold list_sum in Ht, Hb, IH. simpl in Ht.
  apply elem_of_cons in Hk as [->|Hk]; case_decide; try done; [lia| |]; apply IH; (done || lia).
Qed.

(** One vote for and one against for two keys of a list do not overlap. *)
Lemma list_sum_split w pid m l :
  (forall k, 0 <= w k) ->
  list_sum w pid true m l + list_sum w pid false m l <= total_weight w l.
Proof.
  intros Hw. induction l as [|x l IH]; [done|]. specialize (Hw x). unfold list_sum in *. simpl.
  repeat case_decide; simplify_eq; lia.
Qed.

(** Only keys with a weight count. *)
Lemma vote_sum_select w pid b m :
  vote_sum w pid b m = vote_sum w pid b (filter (fun e => w e.1.2 <> 0) m).
Proof.
  induction m as [|[q k] v m Hk IH] using map_ind; [by rewrite map_filter_empty|].
  rewrite vote_sum_insert by done. destruct (decide (w k = 0)) as [H0|H0].
  - rewrite map_filter_insert_not by (intros v'; simpl; auto). rewrite <- IH, H0.
    by case_decide.
  - rewrite map_filter_insert_True by done. rewrite vote_sum_insert; [by rewrite <- IH|].
    apply map_lookup_filter_None. by left.
Qed.

(** The votes for and against stay within the weight of those who may vote. *)
Lemma vote_sum_within w pid m l :
  (forall k, 0 <= w k) -> NoDup l ->
  (forall k v, m !! (pid, k) = Some v -> w k <> 0 -> k ∈ l) ->
  vote_sum w pid true m + vote_sum w pid false m <= total_weight w l.
Proof.
  intros Hw Hl Hin. rewrite (vote_sum_select w pid true m), (vote_sum_select w pid false m).
  rewrite !(vote_sum_list w pid _ _ l); [by apply list_sum_split|..]; try done;
    intros k v [Hk Hne]%map_lookup_filter_Some; by eapply Hin.
Qed.
End VoteSum.

Lemma total_weight_one {K} (l : list K) : total_weight (fun _ => 1) l = Z.of_nat (length l).
Proof. induction l; simpl; lia. Qed.

(** A running tally kept by [add_votes] saturates; it is the sum, cut at the
    largest value of its type. *)
Definition tallies (max sum_yes sum_no : Z) (t : VoteCount) : Prop :=
  yes t = Z.min max sum_yes /\ no t = Z.min max sum_no.

Lemma tallies_add max n (b : bool) y n' t :
  0 <= n -> tallies max y n' t ->
  tallies max (y + (if b then n else 0)) (n' + (if b then 0 else n)) (add_votes max n b t).
Proof.
  intros Hn [Hy Hno]. unfold tallies, add_votes, saturating_add.
  destruct b; simpl; rewrite ?Hy, ?Hno; split; lia.
Qed.

Lemma tallies_zero max : 0 <= max -> tallies max 0 0 vote_count_zero.
Proof. intros. unfold tallies, vote_count_zero. simpl. lia. Qed.
