(* ===== verification/Ballots.v ===== *)
(** * The engine keeps the invariants of the tracks

    A track keeps its ballots (votes, tallies, thresholds) in its own storage
    and relates them to the proposals of the engine. [TrackInvariant] says
    what such a relation must satisfy: it reads nothing but the ballots and
    the frozen voters of its proposal, and it does not mind the changes of
    status the engine makes. In exchange every operation of the engine keeps
    it for every proposal that is not being removed ([settled]). *)
From S2P Require Import Prelude Cid Types TrackTypes State Interfaces Runtime Ids Locks Data.
From S2P Require Import Cleanup Lifecycle Execution Expiry Maintenance Engine Invariant.
From S2P Require Import Safety Clients.

(** ** Ballots of one proposal *)

Record same_legislation (pid : Z) (g g' : legislation_store) : Prop := {
  sl_meta : RepresentativeMetas g' !! pid = RepresentativeMetas g !! pid;
  sl_law : LegislationMetas g' !! pid = LegislationMetas g !! pid;
  sl_tally : forall i, RepresentativeTallies g' !! (pid, i) = RepresentativeTallies g !! (pid, i);
  sl_votes : forall t, RepresentativeVotesByTicket g' !! (pid, t) = RepresentativeVotesByTicket g !! (pid, t);
  sl_ref_tally : LegReferendumTally g' !! pid = LegReferendumTally g !! pid;
  sl_ref_votes : forall c, LegReferendumVotesByCid g' !! (pid, c) = LegReferendumVotesByCid g !! (pid, c);
  sl_override : LegOverrideSigns g' !! pid = LegOverrideSigns g !! pid;
  sl_guard : LegGuardSigns g' !! pid = LegGuardSigns g !! pid;
}.

Record same_election (pid : Z) (g g' : election_store) : Prop := {
  se_meta : ElectionMetaStore g' !! pid = ElectionMetaStore g !! pid;
  se_candidates : ElectionCandidates g' !! pid = ElectionCandidates g !! pid;
  se_popular : forall c, PopularElectionVotesByCid g' !! (pid, c) = PopularElectionVotesByCid g !! (pid, c);
  se_mutual : forall t, MutualElectionVotesByTicket g' !! (pid, t) = MutualElectionVotesByTicket g !! (pid, t);
  se_votes : forall c, ElectionCandidateTallies g' !! (pid, c) = ElectionCandidateTallies g !! (pid, c);
  se_tally : ElectionTallyStore g' !! pid = ElectionTallyStore g !! pid;
  se_results : ElectionResults g' !! pid = ElectionResults g !! pid;
}.

Record same_ballots {W} (pid : Z) (s s' : rt W) : Prop := {
  sb_votes : forall t, InternalVotesByTicket (iv s') !! (pid, t) = InternalVotesByTicket (iv s) !! (pid, t);
  sb_tally : InternalTallies (iv s') !! pid = InternalTallies (iv s) !! pid;
  sb_threshold : InternalThresholdSnapshot (iv s') !! pid = InternalThresholdSnapshot (iv s) !! pid;
  sb_joint : forall t, JointVotesByTicket (jv s') !! (pid, t) = JointVotesByTicket (jv s) !! (pid, t);
  sb_inst_tally : forall c, JointInstitutionTallies (jv s') !! (pid, c) = JointInstitutionTallies (jv s) !! (pid, c);
  sb_inst_vote : forall c, JointVotesByInstitution (jv s') !! (pid, c) = JointVotesByInstitution (jv s) !! (pid, c);
  sb_joint_tally : JointTallies (jv s') !! pid = JointTallies (jv s) !! pid;
  sb_referendum : forall c, ReferendumVotesByCid (jv s') !! (pid, c) = ReferendumVotesByCid (jv s) !! (pid, c);
  sb_ref_tally : ReferendumTallies (jv s') !! pid = ReferendumTallies (jv s) !! pid;
  sb_legislation : same_legislation pid (lv s) (lv s');
  sb_election : same_election pid (el s) (el s');
}.

(** The voters and the population frozen for one proposal. *)
Record same_frozen (pid : Z) (g g' : engine) : Prop := {
  sf_admins : forall x, AdminSnapshot g' !! (pid, x) = AdminSnapshot g !! (pid, x);
  sf_voters : forall x, VoterSnapshot g' !! (pid, x) = VoterSnapshot g !! (pid, x);
  sf_tickets : forall c, InstitutionTicketCountSnapshot g' !! (pid, c) = InstitutionTicketCountSnapshot g !! (pid, c);
  sf_population : ProposalPopulationSnapshots g' !! pid = ProposalPopulationSnapshots g !! pid;
}.

(** No vote has been recorded. The other items of a proposal are written
    when it is created. *)
Record blank_legislation (pid : Z) (g : legislation_store) : Prop := {
  bll_tally : forall i, RepresentativeTallies g !! (pid, i) = None;
  bll_votes : forall t, RepresentativeVotesByTicket g !! (pid, t) = None;
  bll_ref_tally : LegReferendumTally g !! pid = None;
  bll_ref_votes : forall c, LegReferendumVotesByCid g !! (pid, c) = None;
  bll_override : LegOverrideSigns g !! pid = None;
  bll_guard : LegGuardSigns g !! pid = None;
}.

Record blank_election (pid : Z) (g : election_store) : Prop := {
  ble_popular : forall c, PopularElectionVotesByCid g !! (pid, c) = None;
  ble_mutual : forall t, MutualElectionVotesByTicket g !! (pid, t) = None;
  ble_votes : forall c, ElectionCandidateTallies g !! (pid, c) = None;
}.

Record blank {W} (pid : Z) (s : rt W) : Prop := {
  bl_votes : forall t, InternalVotesByTicket (iv s) !! (pid, t) = None;
  bl_tally : InternalTallies (iv s) !! pid = None;
  bl_joint : forall t, JointVotesByTicket (jv s) !! (pid, t) = None;
  bl_inst_tally : forall c, JointInstitutionTallies (jv s) !! (pid, c) = None;
  bl_inst_vote : forall c, JointVotesByInstitution (jv s) !! (pid, c) = None;
  bl_joint_tally : JointTallies (jv s) !! pid = None;
  bl_referendum : forall c, ReferendumVotesByCid (jv s) !! (pid, c) = None;
  bl_ref_tally : ReferendumTallies (jv s) !! pid = None;
  bl_legislation : blank_legislation pid (lv s);
  bl_election : blank_election pid (el s);
}.

Lemma same_legislation_refl pid g : same_legislation pid g g.
Proof. done. Qed.
Lemma same_legislation_trans pid g1 g2 g3 :
  same_legislation pid g1 g2 -> same_legislation pid g2 g3 -> same_legislation pid g1 g3.
Proof. intros [] []. split; intros; congruence. Qed.
Lemma blank_legislation_same pid g g' :
  same_legislation pid g g' -> blank_legislation pid g -> blank_legislation pid g'.
Proof. intros [] []. split; intros; congruence. Qed.
Lemma same_election_refl pid g : same_election pid g g.
Proof. done. Qed.
Lemma same_election_trans pid g1 g2 g3 :
  same_election pid g1 g2 -> same_election pid g2 g3 -> same_election pid g1 g3.
Proof. intros [] []. split; intros; congruence. Qed.
Lemma blank_election_same pid g g' :
  same_election pid g g' -> blank_election pid g -> blank_election pid g'.
Proof. intros [] []. split; intros; congruence. Qed.

Lemma same_ballots_refl {W} pid (s : rt W) : same_ballots pid s s.
Proof. done. Qed.

Lemma same_ballots_stores {W} pid (s s' : rt W) :
  iv s' = iv s -> jv s' = jv s -> lv s' = lv s -> el s' = el s -> same_ballots pid s s'.
Proof. by intros Hi Hj Hl He; split; intros; rewrite ?Hi, ?Hj, ?Hl, ?He. Qed.

Lemma same_frozen_refl pid g : same_frozen pid g g.
Proof. done. Qed.

Lemma blank_same {W} pid (s s' : rt W) : same_ballots pid s s' -> blank pid s -> blank pid s'.
Proof.
  intros [] []. split; intros; try congruence;
    [by eapply blank_legislation_same|by eapply blank_election_same].
Qed.

(** Nothing has been frozen. *)
Record unfrozen (pid : Z) (g : engine) : Prop := {
  uf_admins : forall x, AdminSnapshot g !! (pid, x) = None;
  uf_voters : forall x, VoterSnapshot g !! (pid, x) = None;
  uf_tickets : forall c, InstitutionTicketCountSnapshot g !! (pid, c) = None;
  uf_population : ProposalPopulationSnapshots g !! pid = None;
}.

Lemma unfrozen_same pid g g' : same_frozen pid g g' -> unfrozen pid g -> unfrozen pid g'.
Proof. intros [] []. split; intros; congruence. Qed.

(** An identifier that has not been handed out yet. *)
Definition unborn {W} (pid : Z) (s : rt W) : Prop := blank pid s /\ unfrozen pid (ve s).

Lemma unborn_same {W} pid (s s' : rt W) :
  same_ballots pid s s' -> same_frozen pid (ve s) (ve s') -> unborn pid s -> unborn pid s'.
Proof. intros Hb Hf [H1 H2]. split; [by eapply blank_same|by eapply unfrozen_same]. Qed.

(** The tickets of a proposal depend on its own frozen voters only. *)
Lemma tickets_of_filter pid c m :
  tickets_of pid c m = tickets_of pid c (filter (fun e => e.1.1 = pid) m).
Proof.
  induction m as [|[q k] v m Hk IH] using map_ind; [by rewrite map_filter_empty|].
  rewrite tickets_of_insert by done. destruct (decide (q = pid)) as [->|Hq].
  - rewrite map_filter_insert_True by done. rewrite tickets_of_insert.
    + by rewrite IH.
    + apply map_lookup_filter_None. by left.
  - rewrite map_filter_insert_not by done. rewrite IH. unfold ticket_weight. simpl.
    destruct k; [|done]. rewrite decide_False by naive_solver. lia.
Qed.

Lemma tickets_of_ext pid c m m' :
  (forall x, m' !! (pid, x) = m !! (pid, x)) -> tickets_of pid c m' = tickets_of pid c m.
Proof.
  intros Hm. rewrite (tickets_of_filter pid c m), (tickets_of_filter pid c m'). f_equal.
  apply map_eq. intros [q k]. apply option_eq. intros v. rewrite !map_lookup_filter_Some. simpl.
  split; intros [Hv ->]; (split; [|done]); congruence.
Qed.

Lemma tickets_of_none pid c m : (forall x, m !! (pid, x) = None) -> tickets_of pid c m = 0.
Proof.
  intros Hm. rewrite (tickets_of_ext pid c ∅); [apply map_fold_empty|].
  intros x. by rewrite Hm, lookup_empty.
Qed.

(** What the snapshots of one proposal satisfy. *)
Record frozen_wf `{Config} (pid : Z) (g : engine) : Prop := {
  fw_voters : forall x l, VoterSnapshot g !! (pid, x) = Some l ->
    l <> [] /\ NoDup l /\ Z.of_nat (length l) <= MaxAdminsPerInstitution;
  fw_admins : forall x l, AdminSnapshot g !! (pid, x) = Some l ->
    l <> [] /\ NoDup l /\ Z.of_nat (length l) <= MaxAdminsPerInstitution;
  fw_tickets : forall c, default 0 (InstitutionTicketCountSnapshot g !! (pid, c)) =
    tickets_of pid c (VoterSnapshot g);
  fw_bound : forall c n, InstitutionTicketCountSnapshot g !! (pid, c) = Some n -> 0 < n <= u32_max;
}.

Lemma frozen_wf_same `{Config} pid g g' :
  same_frozen pid g g' -> frozen_wf pid g -> frozen_wf pid g'.
Proof.
  intros [Ha Hv Ht _] [H1 H2 H3 H4]. split.
  - intros x l. rewrite Hv. apply H1.
  - intros x l. rewrite Ha. apply H2.
  - intros c. rewrite Ht, (tickets_of_ext pid c (VoterSnapshot g)); auto.
  - intros c n. rewrite Ht. apply H4.
Qed.

Lemma unfrozen_wf `{Config} pid g : unfrozen pid g -> frozen_wf pid g.
Proof.
  intros [Ha Hv Ht _]. split; intros *; rewrite ?Ha, ?Hv, ?Ht; try done.
  by rewrite tickets_of_none.
Qed.

(** ** The interface *)

Class TrackInvariant {W} (K : Z -> Proposal -> rt W -> Prop) : Prop := {
  ti_view : forall pid p s s', same_ballots pid s s' -> same_frozen pid (ve s) (ve s') ->
    K pid p s -> K pid p s';
  ti_status : forall pid p st s, valid_status_transition (status p) st = true ->
    st <> STATUS_PASSED -> st <> STATUS_REJECTED -> K pid p s -> K pid (set_status st p) s;
}.

(** The storage of the tracks is private to them: a business module reached
    by a callback does not write it. *)
Definition private_run {W A} (m : rt W -> A * rt W) : Prop :=
  forall s, iv (m s).2 = iv s /\ jv (m s).2 = jv s /\ lv (m s).2 = lv s /\ el (m s).2 = el s.

Record callback_private {W} (c : ResultCallback W) : Prop := {
  cp_finalized : forall pid b, private_run (on_vote_finalized c pid b);
  cp_cancel : forall pid, private_run (can_cancel_passed_proposal c pid);
  cp_terminal : forall pid, private_run (on_execution_failed_terminal c pid);
}.

Class PrivateCallbacks {W} (C : Callbacks W) : Prop := {
  internal_private : callback_private InternalVoteResultCallback;
  joint_private : callback_private JointVoteResultCallback;
  legislation_private : callback_private LegislationVoteResultCallback;
  election_private : callback_private ElectionVoteResultCallback;
}.

(** The hooks of a track keep all ballots; its removal functions may only
    touch those of the proposal they remove. *)
Class TrackBallots `{Weights} {W} (T : ProposalTracks W) : Prop := {
  tb_executed : forall kind pid q s, same_ballots q s (on_proposal_executed kind pid s).2;
  tb_terminal : forall kind pid st q s, same_ballots q s (on_proposal_terminal kind pid st s).2;
  tb_chunk : forall kind pid limit q s, q <> pid -> same_ballots q s (cleanup_chunk kind pid limit s).2;
  tb_cleanup : forall kind pid q s, q <> pid -> same_ballots q s (cleanup_terminal kind pid s).2;
}.

Record settled {W} (K : Z -> Proposal -> rt W -> Prop) (s : rt W) : Prop := {
  st_blank : forall pid, NextProposalId (ve s) <= pid -> unborn pid s;
  st_holds : forall pid p, Proposals (ve s) !! pid = Some p ->
    PendingProposalCleanups (ve s) !! pid = None -> K pid p s;
}.

Class TimeoutBallots {W} (K : Z -> Proposal -> rt W -> Prop) (FT : FinalizeTimeout W) : Prop :=
  timeout_settled : forall p pid s, Proposals (ve s) !! pid = Some p -> settled K s ->
    settled K (finalize_timeout p pid s).2.

(** The engine's storage [settled] reads. *)
Definition seen (g : engine) :=
  (Proposals g, NextProposalId g, PendingProposalCleanups g,
   (AdminSnapshot g, VoterSnapshot g, InstitutionTicketCountSnapshot g,
    ProposalPopulationSnapshots g)).

Lemma seen_frozen pid g g' : seen g' = seen g -> same_frozen pid g g'.
Proof. unfold seen. intros [=]. split; intros; congruence. Qed.

Section Settled.
Context `{Wt : Weights} `{Cfg : !Config} `{Ord : StorageOrder} {W : Type}
  `{Prov : !Providers W} `{Cb : !Callbacks W} `{Tr : !ProposalTracks W}
  `{CbL : !CallbackLaws Cb} `{TrL : !TrackLaws Tr}
  `{CbP : !PrivateCallbacks Cb} `{TrB : !TrackBallots Tr}.
Context (K : Z -> Proposal -> rt W -> Prop) `{KL : !TrackInvariant K}.
Implicit Types s : rt W.

Lemma settled_view s s' :
  seen (ve s') = seen (ve s) -> (forall q, same_ballots q s s') -> settled K s -> settled K s'.
Proof.
  intros Hv Hb [H1 H2]. pose proof (fun q => seen_frozen q _ _ Hv) as Hf.
  unfold seen in Hv. injection Hv as Hp Hn Hc _.
  split; [intros pid Hpid|intros pid p Hpid Hclean].
  - apply (unborn_same pid s); [done..|]. apply H1. lia.
  - apply (ti_view pid p s); [done..|]. apply H2; congruence.
Qed.

Lemma settled_set_ve s f :
  seen (f (ve s)) = seen (ve s) -> settled K s -> settled K (set_ve f s).
Proof. intros Hf. by apply settled_view. Qed.

Lemma settled_upd f : (forall g, seen (f g) = seen g) -> preserves (settled K) (upd f : RM W unit).
Proof. intros Hf s. by apply settled_set_ve. Qed.

Lemma settled_smodify f :
  (forall g, seen (f g) = seen g) -> preserves (settled K) (smodify (set_ve f) : RS W unit).
Proof. intros Hf s. by apply settled_set_ve. Qed.

Lemma settled_emit e : preserves (settled K) (emit e : RM W unit).
Proof. intros s. by apply settled_view. Qed.

Lemma settled_ballots {A} (m : rt W -> A * rt W) :
  engine_frame m -> (forall q s, same_ballots q s (m s).2) -> preserves (settled K) m.
Proof. intros Hf Hb s. destruct (engine_frame_eq m s Hf) as [Hv _]. apply settled_view; [by rewrite Hv|done]. Qed.

Lemma settled_private {A} (m : rt W -> A * rt W) :
  engine_frame m -> private_run m -> preserves (settled K) m.
Proof.
  intros Hf Hp. apply settled_ballots; [done|]. intros q s. destruct (Hp s) as (? & ? & ? & ?).
  by apply same_ballots_stores.
Qed.

(** One proposal changes; the ballots and the frozen voters stay. *)
Lemma settled_proposal s pid p' :
  (PendingProposalCleanups (ve s) !! pid = None -> K pid p' s) -> settled K s ->
  settled K (set_ve (set_Proposals (insert pid p')) s).
Proof.
  intros Hk [H1 H2]. split; [by intros q Hq; apply (unborn_same q s), H1|]. simpl. intros q p.
  rewrite lookup_insert_Some. intros [[<- <-]|[_ Hp]] Hc.
  - apply (ti_view pid p' s); [done..|]. auto.
  - apply (ti_view q p s); [done..|]. auto.
Qed.

Lemma settled_status s pid p st :
  Proposals (ve s) !! pid = Some p -> valid_status_transition (status p) st = true ->
  st <> STATUS_PASSED -> st <> STATUS_REJECTED -> settled K s ->
  settled K (set_ve (set_Proposals (insert pid (set_status st p))) s).
Proof.
  intros Hp Hv Hst Hst' Hs. apply settled_proposal; [|done]. intros Hc.
  apply ti_status; [done..|]. by apply Hs.
Qed.

Lemma settled_set_proposal_status pid st :
  st <> STATUS_PASSED -> st <> STATUS_REJECTED ->
  preserves (settled K) (set_proposal_status pid st : RM W unit).
Proof.
  intros Hst Hst' s Hs. destruct (set_proposal_status pid st s) as [[[]|e] s'] eqn:Hr; simpl.
  - apply set_proposal_status_Ok in Hr as (p & ? & ? & ->). by apply settled_status.
  - by apply set_proposal_status_Err in Hr as ->.
Qed.

Lemma settled_mutex pid :
  preserves (settled K) (upd (release_internal_proposal_mutexes pid) : RM W unit).
Proof.
  apply settled_upd. intros g. by destruct (release_mutex_frame pid g) as (? & ? & ->).
Qed.

Lemma settled_active subjects pid :
  preserves (settled K) (upd (remove_active_proposals subjects pid) : RM W unit).
Proof.
  apply settled_upd. intros g. by destruct (remove_active_frames subjects pid g) as [? ->].
Qed.

Lemma settled_mark pid n : preserves (settled K) (upd (mark_proposal_passed_at pid n) : RM W unit).
Proof. apply settled_upd. intros g. unfold mark_proposal_passed_at. by repeat case_match. Qed.

Lemma settled_schedule pid now :
  preserves (settled K) (on_ve (schedule_cleanup pid now) : RM W unit).
Proof.
  intros s. unfold on_ve.
  assert (Hs : seen (schedule_cleanup pid now (ve s)).2 = seen (ve s)).
  { unfold schedule_cleanup, checked_add. autorewrite with run.
    case_decide; by autorewrite with run. }
  destruct (schedule_cleanup pid now (ve s)) as [r g]. by apply settled_set_ve.
Qed.

(** ** Lifecycle *)

Hint Resolve settled_emit settled_mutex settled_active settled_mark settled_schedule : preserves.
Hint Extern 1 (preserves (settled _) (upd _)) =>
  apply settled_upd; intros; reflexivity : preserves.
Hint Extern 1 (preserves (settled _) (smodify _)) =>
  apply settled_smodify; intros; reflexivity : preserves.
Hint Extern 1 (preserves (settled _) (set_proposal_status _ _)) =>
  apply settled_set_proposal_status; discriminate : preserves.

Lemma callback_of_kind_private k c : callback_of_kind k = Some c -> callback_private c.
Proof.
  unfold callback_of_kind. destruct CbP. intros H. repeat case_decide; simplify_eq; done.
Qed.

Lemma settled_scope {A} pid (m : RM W A) :
  preserves (settled K) m -> preserves (settled K) (with_callback_execution_scope pid m).
Proof. intros Hm. unfold with_callback_execution_scope. solve_good. Qed.

Lemma settled_callback {A} k (f : ResultCallback W -> RM W A) e :
  (forall c, callback_framed c -> callback_private c -> engine_frame (f c) /\ private_run (f c)) ->
  preserves (settled K) (c ← ok_or (callback_of_kind k) e; f c).
Proof.
  intros Hf s Hs. destruct (callback_of_kind k) as [c|] eqn:Hk; autorewrite with run; [|done].
  destruct (Hf c) as [H1 H2]; [by eapply callback_of_kind_framed|by eapply callback_of_kind_private|].
  by apply settled_private.
Qed.

Lemma settled_invoke pid k b : preserves (settled K) (invoke_execution_callback pid k b).
Proof. apply settled_callback. intros c [] []. auto. Qed.

Lemma settled_notify pid k : preserves (settled K) (notify_execution_failed_terminal pid k).
Proof. apply settled_callback. intros c [] []. auto. Qed.

Lemma settled_can_cancel pid k : preserves (settled K) (can_cancel_passed_proposal_by_owner pid k).
Proof.
  apply settled_callback. intros c Hf Hp. split.
  - apply frame_bind; [apply Hf|]. intros d. by destruct (bool_decide _).
  - intros s. destruct (cp_cancel _ Hp pid s) as [H1 H2]. unfold mbind, M_bind.
    destruct (can_cancel_passed_proposal c pid s) as [[d|e] s1]; [|done].
    by destruct (bool_decide _).
Qed.

Lemma settled_hook (h : RS W (option (result DispatchError unit))) :
  track_frame h -> (forall q s, same_ballots q s (h s).2) ->
  preserves (settled K) (run_track_hook h).
Proof.
  intros Hf Hb. unfold run_track_hook.
  apply preserves_bind; [by apply preserves_lift, settled_ballots, Hb; apply track_frame_engine|intros].
  solve_good.
Qed.

Lemma settled_hook_terminal k pid st :
  preserves (settled K) (run_track_hook (on_proposal_terminal k pid st)).
Proof. apply settled_hook; [apply terminal_framed|apply tb_terminal]. Qed.

Lemma settled_hook_executed k pid :
  preserves (settled K) (run_track_hook (on_proposal_executed k pid)).
Proof. apply settled_hook; [apply executed_framed|apply tb_executed]. Qed.

Hint Resolve settled_scope settled_invoke settled_notify settled_can_cancel
  settled_hook_terminal settled_hook_executed : preserves.

Lemma settled_finish pid st : preserves (settled K) (finish_terminal_status pid st).
Proof.
  unfold finish_terminal_status, apply_terminal_side_effects,
    notify_execution_failed_terminal_or_queue, drop_terminal_cleanup, queue_terminal_cleanup.
  solve_good.
Qed.
Hint Resolve settled_finish : preserves.

Lemma settled_apply_terminal pid st : preserves (settled K) (apply_terminal_side_effects pid st).
Proof.
  unfold apply_terminal_side_effects, notify_execution_failed_terminal_or_queue,
    drop_terminal_cleanup, queue_terminal_cleanup. solve_good.
Qed.

Lemma settled_reschedule pid from :
  preserves (settled K) (reschedule_execution_retry_deadline pid from).
Proof.
  unfold reschedule_execution_retry_deadline, queue_execution_retry_deadline.
  generalize 100%nat as n. intros n. revert from.
  induction n as [|n IH]; intros from; simpl; [solve_good|].
  apply preserves_bind; [unfold queue_execution_retry_deadline; solve_good|intros].
  case_match; [solve_good|apply IH].
Qed.
Hint Resolve settled_reschedule : preserves.

Lemma settled_reschedule_or_queue pid from d :
  preserves (settled K) (reschedule_or_queue pid from d).
Proof. unfold reschedule_or_queue, queue_pending_retry_expiration. solve_good. Qed.
Hint Resolve settled_reschedule_or_queue : preserves.

(** A vote ends: what is owed is the proposal with its new status. *)
Lemma settled_mark_passed pid old st s :
  exists s1,
    ((if decide (old = STATUS_VOTING /\ st = STATUS_PASSED) then
        now ← gets block_number; upd (mark_proposal_passed_at pid now) : RM W unit
      else mret tt) s) = (Ok tt, s1) /\
    (settled K s -> settled K s1) /\ seen (ve s1) = seen (ve s) /\
    (forall q, same_ballots q s s1).
Proof.
  case_decide; [|by exists s]. eexists. split; [reflexivity|].
  split; [by apply settled_mark|]. split; [|done].
  simpl. unfold mark_proposal_passed_at. by repeat case_match.
Qed.
End Settled.

#[export] Hint Resolve settled_emit settled_mutex settled_active settled_mark settled_schedule
  settled_scope settled_invoke settled_notify settled_can_cancel settled_hook_terminal
  settled_hook_executed settled_finish settled_reschedule settled_reschedule_or_queue
  settled_apply_terminal : preserves.
#[export] Hint Extern 1 (preserves (settled _) (upd _)) =>
  apply settled_upd; [assumption|intros; reflexivity] : preserves.
#[export] Hint Extern 1 (preserves (settled _) (smodify _)) =>
  apply settled_smodify; [assumption|intros; reflexivity] : preserves.
#[export] Hint Extern 1 (preserves (settled _) (set_proposal_status _ _)) =>
  apply settled_set_proposal_status; [assumption|discriminate|discriminate] : preserves.

(** The invariant for every proposal but one. *)
Definition except {W} (pid : Z) (K : Z -> Proposal -> rt W -> Prop) : Z -> Proposal -> rt W -> Prop :=
  fun q p s => q <> pid -> K q p s.

#[export] Instance except_invariant {W} pid (K : Z -> Proposal -> rt W -> Prop) :
  TrackInvariant K -> TrackInvariant (except pid K).
Proof.
  intros HK. split; unfold except.
  - intros q p s s' H1 H2 H Hq. apply (ti_view q p s); auto.
  - intros q p st s H1 H2 H3 H Hq. apply ti_status; auto.
Qed.

Lemma settled_except {W} pid (K : Z -> Proposal -> rt W -> Prop) s :
  settled K s -> settled (except pid K) s.
Proof. intros [H1 H2]. split; [done|]. intros q p Hp Hc _. auto. Qed.

Section SettledStatus.
Context `{Wt : Weights} `{Cfg : !Config} `{Ord : StorageOrder} {W : Type}
  `{Prov : !Providers W} `{Cb : !Callbacks W} `{Tr : !ProposalTracks W}
  `{CbL : !CallbackLaws Cb} `{TrL : !TrackLaws Tr}
  `{CbP : !PrivateCallbacks Cb} `{TrB : !TrackBallots Tr}.
Context (K : Z -> Proposal -> rt W -> Prop) `{KL : !TrackInvariant K}.
Implicit Types s : rt W.

Lemma settled_set_status s pid st p :
  Proposals (ve s) !! pid = Some p -> settled (except pid K) s ->
  (valid_status_transition (status p) st = true ->
   PendingProposalCleanups (ve s) !! pid = None -> K pid (set_status st p) s) ->
  match set_status_and_emit pid st s with
  | (Ok _, s') => settled K s'
  | (Err _, s') => s' = s
  end.
Proof.
  intros Hp Hs Hk. unfold set_status_and_emit, transact.
  autorewrite with run. rewrite Hp. autorewrite with run.
  unfold ensure_valid_status_transition, guard_ok.
  destruct (valid_status_transition (status p) st) eqn:Hv; simpl; [|done].
  autorewrite with run.
  destruct (settled_mark_passed (except pid K) pid (status p) st s) as (s1 & Hr & Hs1 & Hv1 & Hb1).
  rewrite (bind_run _ _ _ _ _ Hr). clear Hr. rewrite bind_upd.
  assert (Hs2 : settled K (set_ve (set_Proposals (insert pid (set_status st p))) s1)).
  { destruct (Hs1 Hs) as [H1 H2].
    split; [by intros q Hq; apply (unborn_same q s1), H1|]. simpl. intros q x.
    rewrite lookup_insert_Some. intros [[<- <-]|[Hne Hx]] Hc.
    - apply (ti_view pid _ s); [pose proof (Hb1 pid) as []; by split| |].
      + pose proof (seen_frozen pid _ _ Hv1) as []. by split.
      + apply Hk; [done|]. unfold seen in Hv1. injection Hv1; congruence.
    - apply (ti_view q x s1); [done..|]. apply H2; auto. }
  match goal with |- match (match ?m (set_ve ?f s1) with _ => _ end) with _ => _ end =>
    assert (Hm : preserves (settled K) m); [|specialize (Hm _ Hs2); by destruct (m _) as [[]]] end.
  clear - CbL TrL CbP TrB KL. solve_good.
Qed.

(** A proposal is rejected, for a reason its track accepts. *)
Lemma settled_rejected pid p s :
  Proposals (ve s) !! pid = Some p -> settled K s ->
  (status p = STATUS_VOTING -> PendingProposalCleanups (ve s) !! pid = None ->
   K pid (set_status STATUS_REJECTED p) s) ->
  settled K (set_status_and_emit pid STATUS_REJECTED s).2.
Proof.
  intros Hp Hs Hk.
  pose proof (settled_set_status s pid STATUS_REJECTED p Hp (settled_except _ _ _ Hs)) as Hst.
  assert (Hv : valid_status_transition (status p) STATUS_REJECTED = true ->
    status p = STATUS_VOTING).
  { unfold valid_status_transition. intros H%bool_decide_eq_true.
    repeat (apply elem_of_cons in H as [H|H];
      [first [discriminate H|by injection H as ->]|]).
    by apply elem_of_nil in H. }
  destruct (set_status_and_emit pid STATUS_REJECTED s) as [r s1].
  destruct r; simpl; [|rewrite Hst; [done|]]; [apply Hst|]; intros; apply Hk; auto.
Qed.

Lemma holds_settled_passed pid p :
  holds (fun s => Proposals (ve s) !! pid = Some p /\ settled (except pid K) s /\
      (PendingProposalCleanups (ve s) !! pid = None -> K pid (set_status STATUS_PASSED p) s))
    (set_status_and_emit pid STATUS_PASSED) (fun _ => settled K).
Proof.
  intros s [] s' (Hp & Hs & Hk) Hr.
  pose proof (settled_set_status s pid STATUS_PASSED p Hp Hs) as Hst. rewrite Hr in Hst. auto.
Qed.

(** ** The queues of a block *)

Lemma settled_outcome pid k o : preserves (settled K) (apply_automatic_execution_outcome pid k o).
Proof.
  unfold apply_automatic_execution_outcome, schedule_execution_retry. destruct o; solve_good.
Qed.
Hint Resolve settled_outcome : preserves.

Lemma settled_process_executions now :
  preserves (settled K) (process_pending_proposal_executions now).
Proof.
  unfold process_pending_proposal_executions, execution_step, execute_pending,
    handle_automatic_execution_failure, dead_letter_execution, drop_pending_execution.
  case_match; [solve_good|]. apply preserves_sbind; [solve_good|intros].
  destruct (select_executions _ _ _ _ _ _). solve_good.
Qed.

Lemma settled_process_finalizations now :
  preserves (settled K) (process_pending_terminal_finalizations now).
Proof.
  unfold process_pending_terminal_finalizations, terminal_finalization_step,
    defer_terminal_finalization, drop_terminal_finalization. solve_good.
Qed.

Lemma settled_process_deadlines now :
  preserves (settled K) (process_execution_retry_deadlines now).
Proof.
  unfold process_execution_retry_deadlines, retry_deadline_step, drop_retry_state, expire_retry.
  solve_good.
Qed.

Lemma settled_process_expirations now :
  preserves (settled K) (process_pending_execution_retry_expirations now).
Proof.
  unfold process_pending_execution_retry_expirations, retry_expiration_step, drop_retry_state,
    drop_retry_expiration, expire_retry. solve_good.
Qed.

Lemma settled_terminal_cleanups : preserves (settled K) process_pending_terminal_cleanups.
Proof.
  unfold process_pending_terminal_cleanups, pending_terminal_cleanup_step,
    drop_terminal_cleanup. solve_good.
Qed.

Lemma settled_retry who pid : preserves (settled K) (retry_passed_proposal_inner who pid).
Proof. unfold retry_passed_proposal_inner, ensure_retry_admin. solve_good. Qed.

Lemma settled_cancel who pid : preserves (settled K) (cancel_passed_proposal_inner who pid).
Proof. unfold cancel_passed_proposal_inner, ensure_retry_admin. solve_good. Qed.
End SettledStatus.

#[export] Hint Resolve settled_process_executions settled_process_finalizations
  settled_process_deadlines settled_process_expirations settled_terminal_cleanups : preserves.

(** ** Expiry and removal *)

Section SettledHook.
Context `{Wt : Weights} `{Cfg : !Config} `{Ord : StorageOrder} {W : Type}
  `{Prov : !Providers W} `{Cb : !Callbacks W} `{Tr : !ProposalTracks W}
  `{FT : !FinalizeTimeout W}
  `{CbL : !CallbackLaws Cb} `{TrL : !TrackLaws Tr} `{FTL : !TimeoutLaws FT}
  `{CbP : !PrivateCallbacks Cb} `{TrB : !TrackBallots Tr}.
Context (K : Z -> Proposal -> rt W -> Prop) `{KL : !TrackInvariant K} `{KT : !TimeoutBallots K FT}.
Implicit Types s : rt W.

Lemma settled_finalize_step now w pid : preserves (settled K) (auto_finalize_step now w pid).
Proof.
  unfold auto_finalize_step. intros s Hs. rewrite sbind_run. cbn [sgets fst snd].
  assert (Hclear : forall w', preserves (settled K)
    (_ ← attempt (clear_auto_finalize pid); mret w' : RS W weight))
    by (intros; unfold clear_auto_finalize; solve_good).
  destruct (Proposals (ve s) !! pid) as [p|] eqn:Hp; [|by apply Hclear].
  case_match; [by apply Hclear|].
  rewrite sbind_run. pose proof (timeout_settled p pid s Hp Hs) as Hs1.
  destruct (finalize_timeout p pid s) as [r s1]. cbn [fst snd] in *.
  match goal with |- settled K (?m s1).2 => assert (Hm : preserves (settled K) m);
    [|by apply Hm] end.
  unfold clear_auto_finalize, defer_auto_finalize, push_expiry. solve_good.
Qed.
Hint Resolve settled_finalize_step : preserves.

Lemma settled_bucket expiry now max mw :
  preserves (settled K) (auto_finalize_expiry_bucket expiry now max mw).
Proof. unfold auto_finalize_expiry_bucket. solve_good. Qed.
Hint Resolve settled_bucket : preserves.

Lemma settled_expiry_buckets n : preserves (settled K) (process_expiry_buckets n).
Proof. unfold process_expiry_buckets. solve_good. Qed.

Lemma settled_process_scheduled s now mw :
  engine_inv s -> now = block_number s ->
  settled K s -> settled K (son_ve (process_scheduled_cleanups now mw) s).2.
Proof.
  intros [Hsc Hpe _ _ _ _ _ _] -> [H1 H2]. unfold son_ve.
  destruct (process_scheduled_cleanups _ _ _) as [w g'] eqn:Hrun.
  destruct (process_scheduled_post _ _ _ _ _ Hsc Hpe Hrun) as (w' & g1 & Hg & Hpost).
  pose proof (lp_kept _ _ _ _ _ _ _ _ _ Hpost) as Hkept.
  destruct (lp_frame _ _ _ _ _ _ _ _ _ Hpost) as (q & h & t & c & a & sc & Hf).
  assert (Hc : PendingProposalCleanups g' = PendingProposalCleanups g1) by (by rewrite Hg).
  rewrite Hf in Hg. simpl. clear Hpost Hf Hrun.
  split; simpl; intros pid; rewrite ?Hc, Hg; simpl.
  - intros Hpid. apply (unborn_same pid s); [done..|]. by apply H1.
  - intros p Hp Hn. apply (ti_view pid p s); [done|done|]. apply H2; [done|].
    destruct (PendingProposalCleanups (ve s) !! pid) eqn:Hq; [|done].
    rewrite Hkept in Hn by (by rewrite Hq). congruence.
Qed.

(** A proposal under removal may change; the others may not. *)
Lemma settled_cleaning s s' pid :
  NextProposalId (ve s') = NextProposalId (ve s) ->
  (forall q, q <> pid -> Proposals (ve s') !! q = Proposals (ve s) !! q /\
    PendingProposalCleanups (ve s') !! q = PendingProposalCleanups (ve s) !! q /\
    same_frozen q (ve s) (ve s') /\ same_ballots q s s') ->
  pid < NextProposalId (ve s) ->
  is_Some (PendingProposalCleanups (ve s') !! pid) \/ Proposals (ve s') !! pid = None ->
  settled K s -> settled K s'.
Proof.
  intros Hn Hq Hlow Hpid [H1 H2]. split.
  - intros q. rewrite Hn. intros Hle. destruct (Hq q) as (_ & _ & Hsf & Hsb); [lia|].
    by apply (unborn_same q s), H1.
  - intros q p Hp Hc. destruct (decide (q = pid)) as [->|Hne].
    { destruct Hpid as [[? Hx]|Hx]; congruence. }
    destruct (Hq q Hne) as (Hqp & Hqc & Hqf & Hqb). apply (ti_view q p s); [done..|].
    apply H2; congruence.
Qed.

Lemma clear_prefix_other {K'} `{Countable K'} {A} (pid limit q : Z) (k : K')
    (m : gmap (Z * K') A) :
  q <> pid -> (clear_prefix pid limit m).1 !! (q, k) = m !! (q, k).
Proof.
  intros Hne. unfold clear_prefix. simpl.
  assert (Hin : forall x, x ∈ take (Z.to_nat limit) (prefix_keys pid m) -> x.1 = pid).
  { intros x Hx%elem_of_take. unfold prefix_keys in Hx. destruct Hx as (i & Hi & _).
    apply list_elem_of_lookup_2 in Hi. rewrite hash_order_perm in Hi.
    by apply list_elem_of_filter in Hi as [? _]. }
  induction (take _ _) as [|x l IH]; [done|]. simpl.
  rewrite lookup_delete_ne.
  - apply IH. intros y Hy. apply Hin. by right.
  - intros ->. apply Hne. apply (Hin (q, k)). by left.
Qed.

Lemma clear_prefix_none {K'} `{Countable K'} {A} (pid limit : Z) (k : Z * K')
    (m : gmap (Z * K') A) :
  m !! k = None -> (clear_prefix pid limit m).1 !! k = None.
Proof.
  intros Hk. unfold clear_prefix. simpl. induction (take _ _) as [|x l IH]; [done|]. simpl.
  apply lookup_delete_None. by right.
Qed.

(** What is left of the storage [settled] reads after [remove_proposal]. *)
Lemma removed_view pid g :
  Proposals (remove_proposal pid g) = delete pid (Proposals g) /\
  NextProposalId (remove_proposal pid g) = NextProposalId g /\
  PendingProposalCleanups (remove_proposal pid g) = PendingProposalCleanups g /\
  forall q, q <> pid -> same_frozen q g (remove_proposal pid g).
Proof.
  unfold remove_proposal. destruct (release_mutex_frame pid g) as (a & b & ->).
  match goal with |- context [cleanup_proposal_indexes pid ?h] =>
    destruct (cleanup_indexes_frame pid h) as (x & y & z & t & ->) end.
  split_and!; [done..|]. intros q Hq. split; intros; simpl; [done..|].
  by rewrite lookup_delete_ne.
Qed.

Lemma settled_requeue p next w s :
  p < NextProposalId (ve s) -> (next = None -> Proposals (ve s) !! p = None) -> settled K s ->
  settled K (cleanup_requeue p next w s).2.
Proof.
  intros Hlow Hn Hs. destruct next as [st|].
  - destruct (requeue_run p st w s) as [Hv _].
    assert (Hb : forall q, same_ballots q s (cleanup_requeue p (Some st) w s).2).
    { intros q. unfold cleanup_requeue. rewrite !sbind_run. cbn [smodify snd fst].
      unfold attempt, on_ve. rewrite enqueue_run. simpl. by case_decide. }
    destruct (cleanup_requeue p (Some st) w s) as [r s']. cbn [snd] in *.
    apply (settled_cleaning s s' p); rewrite ?Hv; cbv zeta.
    + by case_decide.
    + intros q Hq. split_and!; [by case_decide| | |by apply Hb].
      * case_decide; simpl; by rewrite lookup_insert_ne.
      * by case_decide.
    + done.
    + left. case_decide; simpl; rewrite lookup_insert_eq; eauto.
    + done.
  - unfold cleanup_requeue. apply (settled_cleaning s _ p); simpl; [done| |done|right; auto|done].
    intros q Hq. split_and!; [done| |done..]. by rewrite lookup_delete_ne.
Qed.

(** One step of the removal: the ballots and snapshots of the other proposals
    stay, and the proposal is gone when its last step is done. *)
Lemma settled_cleanup_step pid st limit s :
  is_Some (PendingProposalCleanups (ve s) !! pid) -> pid < NextProposalId (ve s) ->
  settled K s ->
  let '((next, w), s') := process_pending_cleanup_step pid st limit s in
  settled K s' /\ NextProposalId (ve s') = NextProposalId (ve s) /\
  PendingProposalCleanups (ve s') = PendingProposalCleanups (ve s) /\
  (next = None -> Proposals (ve s') !! pid = None).
Proof.
  intros Hc Hlow Hs. destruct st; cbn [process_pending_cleanup_step].
  1-3: unfold clear_snapshot; rewrite sbind_run; cbn [sgets fst snd];
    match goal with |- context [clear_prefix ?i ?l ?m] =>
      pose proof (fun q k Hq => clear_prefix_other i l q k m Hq) as Ho;
      destruct (clear_prefix i l m) as [m' [r c]] end;
    simpl in *; (split; [|done]);
    (match goal with H : settled K ?s0, H' : is_Some (_ !! ?i) |- _ =>
       apply (settled_cleaning s0 _ i) end); simpl; [done| |done|by left|done];
    intros q Hq; (split_and!; [done..| |done]); split; simpl; auto.
  - rewrite sbind_run. cbn [sgets fst snd].
    destruct (Proposals (ve s) !! pid) as [p|] eqn:Hp; [|by simpl].
    rewrite sbind_run. destruct (track_frame_eq _ s (chunk_framed (kind p) pid limit)) as [Hf _].
    pose proof (fun q => tb_chunk (kind p) pid limit q s) as Hb.
    destruct (cleanup_chunk (kind p) pid limit s) as [[[r []]|] s1]; simpl in *;
      (split; [|by rewrite Hf]); apply (settled_cleaning s s1 pid); rewrite ?Hf; auto 7 using same_frozen_refl.
  - cbv beta iota zeta delta [smodify mbind mret St_bind St_ret]. split; [|done].
    by apply (settled_view K s).
  - rewrite sbind_run. cbn [sgets fst snd].
    destruct (Proposals (ve s) !! pid) as [p|] eqn:Hp.
    2: { cbv beta iota zeta delta [smodify mbind mret St_bind St_ret].
      split; [by apply (settled_view K s)|done]. }
    rewrite sbind_run. destruct (track_frame_eq _ s (cleanup_terminal_framed (kind p) pid)) as [Hf _].
    pose proof (fun q => tb_cleanup (kind p) pid q s) as Hb.
    destruct (cleanup_terminal (kind p) pid s) as [[] s1]; cbn [fst snd] in Hf, Hb;
      cbv beta iota zeta delta [smodify mbind mret St_bind St_ret negb fst snd];
      cbn [ve set_ve].
    + destruct (removed_view pid (ve s1)) as (R1 & R2 & R3 & R4). rewrite R3, R2, R1, Hf.
      split_and!; [|done|done|by rewrite lookup_delete_eq].
      apply (settled_cleaning s _ pid); cbn [ve set_ve]; rewrite ?R1, ?R2, ?R3, ?Hf;
        [done| |done|by left|done].
      intros q Hq. split_and!; [by rewrite lookup_delete_ne|done|rewrite <- Hf; by apply R4|].
      by destruct (Hb q Hq); split.
    + split; [|by rewrite Hf]. apply (settled_cleaning s s1 pid); rewrite ?Hf;
        auto 7 using same_frozen_refl.
Qed.

Lemma settled_cleanup_loop s0 n limit ub mw w s :
  good s0 s -> settled K s -> settled K (cleanup_steps_loop n limit ub mw w s).2.
Proof.
  revert w s. induction n as [|n IH]; intros w s Hs Hk; cbn [cleanup_steps_loop]; [done|].
  case_match; [done|]. rewrite sbind_run. cbn [sgets fst snd]. case_bool_decide as Hlt; [done|].
  rewrite sbind_run.
  destruct (proj2 (pend_dom _ (inv_pending _ (good_inv _ _ Hs)) (PendingCleanupQueueHead (ve s))))
    as [p Hp]; [lia|].
  assert (Hpop : (pop_cleanup_queue s).1 = Some p) by (by rewrite pop_cleanup_run).
  rewrite Hpop. rewrite sbind_run. cbn [sgets fst snd].
  destruct (pend_stage _ (inv_pending _ (good_inv _ _ Hs)) _ _ Hp) as [st Hst].
  assert (Hst' : PendingProposalCleanups (ve (pop_cleanup_queue s).2) !! p = Some st) by done.
  rewrite Hst'. rewrite sbind_run.
  pose proof (good_cleanup_iteration s0 s p st limit (w_add w (db_reads_writes 3 2)) Hs) as Hit.
  assert (Hk1 : settled K (pop_cleanup_queue s).2) by (by apply (settled_view K s)).
  assert (Hlow : p < NextProposalId (ve (pop_cleanup_queue s).2)).
  { apply (inv_cleanup _ (good_inv _ _ Hs)). left. by rewrite Hst. }
  pose proof (settled_cleanup_step p st limit _ (ex_intro _ _ Hst') Hlow Hk1) as Hstep.
  destruct (process_pending_cleanup_step p st limit (pop_cleanup_queue s).2) as [[next sw] s2].
  destruct Hstep as (Hk2 & Hn2 & Hc2 & Hnone). rewrite <- Hn2 in Hlow. cbn [fst snd]. rewrite sbind_run.
  assert (Hg : good s0 (cleanup_requeue p next (w_add (w_add w (db_reads_writes 3 2)) sw) s2).2)
    by (apply Hit; [lia|done]).
  pose proof (settled_requeue p next (w_add (w_add w (db_reads_writes 3 2)) sw) s2 Hlow Hnone Hk2) as Hr.
  destruct (cleanup_requeue _ _ _ s2) as [[w' stop] s3]. cbn [fst snd] in *.
  destruct stop; [done|]. by apply IH.
Qed.

Lemma settled_on_initialize s0 :
  engine_inv s0 -> settled K s0 -> settled K (on_initialize (block_number s0) s0).2.
Proof.
  intros Hi Hk. set (P s := good s0 s /\ settled K s).
  assert (HP : preserves P (on_initialize (block_number s0))).
  { assert (Hand : forall A (m : RS W A), preserves (good s0) m -> preserves (settled K) m ->
      preserves P m) by (intros A m H1 H2 s [? ?]; split; auto).
    unfold on_initialize. apply preserves_sbind.
    { apply Hand; [apply good_expiry_buckets|apply settled_expiry_buckets]. }
    intros. do 5 (apply preserves_sbind; [apply Hand; eauto with preserves|intros]).
    apply preserves_sbind.
    { intros s [Hg Hs]. split; [by apply good_process_scheduled|].
      apply settled_process_scheduled; [by apply good_inv in Hg as []| |done].
      destruct Hg as [(_ & _ & [= -> _] & _) _]. done. }
    intros. apply preserves_sbind; [|intros; apply preserves_sret].
    intros s [Hg Hs]. split; [by apply good_cleanup_steps|].
    unfold process_pending_cleanup_steps. case_match; [done|]. by apply (settled_cleanup_loop s0). }
  apply HP. split; [by apply good_refl|done].
Qed.

Lemma settled_finalize_proposal who pid : preserves (settled K) (finalize_proposal who pid).
Proof.
  unfold finalize_proposal. apply preserves_gets_bind. intros s Hs.
  destruct (Proposals (ve s) !! pid) as [p|] eqn:Hp; autorewrite with run; [|done].
  pose proof (timeout_settled p pid s Hp Hs) as Hs1. unfold mbind, M_bind, lift.
  destruct (finalize_timeout p pid s) as [[[[]|]|] s1]; exact Hs1.
Qed.
End SettledHook.

(** ** Creation of a proposal

    [growing K id s]: the identifier [id] has been handed out and its
    proposal is being built; every other proposal is settled. *)

Record growing `{Config} {W} (K : Z -> Proposal -> rt W -> Prop) (id : Z) (s : rt W) : Prop := {
  gr_blank : forall pid, NextProposalId (ve s) <= pid -> unborn pid s;
  gr_low : id < NextProposalId (ve s);
  gr_new : blank id s;
  gr_frozen : frozen_wf id (ve s);
  gr_others : forall pid p, pid <> id -> Proposals (ve s) !! pid = Some p ->
    PendingProposalCleanups (ve s) !! pid = None -> K pid p s;
}.

Section Growing.
Context `{Wt : Weights} `{Cfg : !Config} `{Ord : StorageOrder} {W : Type} `{Cb : !Callbacks W}
  `{Prov : !Providers W}.
Context (K : Z -> Proposal -> rt W -> Prop) `{KL : !TrackInvariant K}.
Implicit Types s : rt W.

Lemma growing_settled id s :
  growing K id s -> (forall p, Proposals (ve s) !! id = Some p -> K id p s) -> settled K s.
Proof.
  intros [H1 _ _ _ H4] Hk. split; [done|]. intros pid p Hp Hc.
  destruct (decide (pid = id)) as [->|]; auto.
Qed.

(** A step may change everything about [id], and nothing about the others. *)
Lemma growing_step id s s' :
  NextProposalId (ve s') = NextProposalId (ve s) ->
  (forall q, q <> id -> Proposals (ve s') !! q = Proposals (ve s) !! q /\
    PendingProposalCleanups (ve s') !! q = PendingProposalCleanups (ve s) !! q /\
    same_frozen q (ve s) (ve s') /\ same_ballots q s s') ->
  (blank id s -> blank id s') -> (frozen_wf id (ve s) -> frozen_wf id (ve s')) ->
  growing K id s -> growing K id s'.
Proof.
  intros Hn Hq Hb Hf [H1 H2 H3 H3' H4]. split; [| |auto|auto|].
  - intros pid. rewrite Hn. intros Hle. destruct (Hq pid) as (_ & _ & Hs' & Hs); [lia|].
    by apply (unborn_same pid s), H1.
  - lia.
  - intros pid p Hne Hp Hc. destruct (Hq pid Hne) as (Hqp & Hqc & Hqf & Hqb).
    apply (ti_view pid p s); [done..|]. apply H4; congruence.
Qed.

Lemma growing_set_ve id s f :
  seen (f (ve s)) = seen (ve s) -> growing K id s -> growing K id (set_ve f s).
Proof.
  intros Hf. pose proof (fun q => seen_frozen q _ _ Hf) as Hfr. unfold seen in Hf.
  injection Hf as Hp Hn Hc.
  apply growing_step; simpl; [done| |by apply blank_same|by apply frozen_wf_same].
  intros q _. by rewrite Hp, Hc.
Qed.

Lemma growing_upd id f :
  (forall g, seen (f g) = seen g) -> preserves (growing K id) (upd f : RM W unit).
Proof. intros Hf s. by apply growing_set_ve. Qed.

Lemma growing_emit id e : preserves (growing K id) (emit e : RM W unit).
Proof.
  intros s. apply growing_step; simpl; [done| |by apply blank_same|done]. intros q _. done.
Qed.

(** Writes to the storage of one proposal. *)
Lemma growing_own id s f :
  (forall q, q <> id -> Proposals (f (ve s)) !! q = Proposals (ve s) !! q /\
    same_frozen q (ve s) (f (ve s))) ->
  NextProposalId (f (ve s)) = NextProposalId (ve s) ->
  PendingProposalCleanups (f (ve s)) = PendingProposalCleanups (ve s) ->
  (frozen_wf id (ve s) -> frozen_wf id (f (ve s))) ->
  growing K id s -> growing K id (set_ve f s).
Proof.
  intros Hq Hn Hc Hf. apply growing_step; simpl; [done| |by apply blank_same|done].
  intros q Hne. destruct (Hq q Hne). by rewrite Hc.
Qed.

(** Writes to the storage of the tracks. *)
Lemma growing_stores id s s' :
  ve s' = ve s -> (forall q, q <> id -> same_ballots q s s') -> (blank id s -> blank id s') ->
  growing K id s -> growing K id s'.
Proof.
  intros Hv Hq Hb. apply growing_step; rewrite ?Hv; [done| |done|done].
  intros q Hne. split_and!; auto using same_frozen_refl.
Qed.

Lemma growing_iv id s f :
  (forall q, q <> id -> same_ballots q s (set_iv f s)) -> (blank id s -> blank id (set_iv f s)) ->
  growing K id s -> growing K id (set_iv f s).
Proof. by apply growing_stores. Qed.

Lemma allocate_private : private_run (allocate_proposal_id : RM W Z).
Proof.
  intros s.
  assert (H : preserves (fun s' : rt W => iv s' = iv s /\ jv s' = jv s /\
      lv s' = lv s /\ el s' = el s)
    (allocate_proposal_id : RM W Z)); [|by apply (H s)].
  unfold allocate_proposal_id. solve_preserves_with ltac:(by intros ? ?).
Qed.

Lemma holds_allocate_growing s0 :
  engine_inv s0 -> clock_ok s0 ->
  holds (fun s => good s0 s /\ settled K s) allocate_proposal_id
    (fun id s => fresh s0 id s /\ growing K id s).
Proof.
  intros Hi Hc s id s' [Hg Hk] Hr. pose proof (holds_allocate s0 Hi Hc s id s' Hg Hr) as Hf.
  split; [done|]. destruct (allocate_frame s) as (n & y & c & d & Hve & _ & Hle & _).
  destruct (allocate_private s) as (Hiv & Hjv & Hlv & Hel).
  pose proof (inv_ids _ (good_inv _ _ Hg)) as Hid.
  destruct (allocate_wf s Hid (clock_ok_good _ _ Hc Hg)) as [_ Hnew].
  destruct (Hnew _ _ Hr) as (-> & Hnext & _). rewrite Hr in Hve, Hiv, Hjv, Hlv, Hel. simpl in *.
  assert (Hb : forall q, same_ballots q s s') by (intros; by apply same_ballots_stores).
  destruct Hk as [H1 H2]. split.
  - intros pid. rewrite Hnext. intros Hle'. apply (unborn_same pid s); [done|by rewrite Hve|].
    apply H1. lia.
  - apply (fresh_range _ _ _ Hf).
  - apply (blank_same _ s); [done|]. apply H1. lia.
  - apply (frozen_wf_same _ (ve s)); [by rewrite Hve|]. apply unfrozen_wf, H1. lia.
  - intros pid p _ Hp Hcl. rewrite Hve in Hp, Hcl. simpl in *.
    apply (ti_view pid p s); [done|by rewrite Hve|auto].
Qed.

Lemma growing_try_add id subject :
  preserves (growing K id) (try_add_active_proposal subject id : RM W unit).
Proof.
  unfold try_add_active_proposal.
  solve_preserves_with ltac:(intros ? ?; by apply growing_set_ve).
Qed.

Lemma growing_acquire id subject kind :
  preserves (growing K id) (acquire_internal_proposal_mutex id subject kind : RM W unit).
Proof.
  unfold acquire_internal_proposal_mutex.
  solve_preserves_with ltac:(intros ? ?; by apply growing_set_ve).
Qed.

Lemma role_voters_Err pid subject l e s s' :
  snapshot_role_voters pid subject l s = (Err e, s') -> s' = s.
Proof.
  unfold snapshot_role_voters. destruct subject; autorewrite with run; [|by intros [= _ <-]].
  destruct (negb _); autorewrite with run; [|by intros [= _ <-]].
  destruct (ensure_valid_voter_snapshot _); simpl; autorewrite with run; [|by intros [= _ <-]].
  destruct (bounded_list _ _); autorewrite with run; [|by intros [= _ <-]].
  destruct (checked_add _ _ _); autorewrite with run; [done|by intros [= _ <-]].
Qed.

Lemma role_voters_bound pid subject l s s' :
  snapshot_role_voters pid subject l s = (Ok tt, s') -> forall c n,
  InstitutionTicketCountSnapshot (ve s') !! (pid, c) = Some n ->
  n <= u32_max \/ InstitutionTicketCountSnapshot (ve s) !! (pid, c) = Some n.
Proof.
  unfold snapshot_role_voters. destruct subject as [r|]; [|by intros ?; run_inv].
  intros H c n. run_inv. simpl.
  intros [[_ <-]|[_ Hn]]%lookup_insert_Some; [left; lia|by right].
Qed.

Lemma growing_role_voters id subject l :
  preserves (growing K id) (snapshot_role_voters id subject l : RM W unit).
Proof.
  intros s Hs. destruct (snapshot_role_voters id subject l s) as [[[]|e] s'] eqn:Hr; simpl.
  2: { by rewrite (role_voters_Err _ _ _ _ _ _ Hr). }
  pose proof (role_voters_bound _ _ _ _ _ Hr) as Hb.
  apply snapshot_role_voters_Ok in Hr as (r & -> & Hn & Hl1 & Hl2 & Hl3 & ->).
  apply growing_own; [|done..| |done].
  - intros q Hq. split; [done|]. split; intros; simpl; try done; rewrite lookup_insert_ne; congruence.
  - intros [H1 H2 H3 H4]. split; simpl; [|done| |].
    + intros x l' [[[= <-] <-]|[_ Hx]]%lookup_insert_Some; [done|by eapply H1].
    + intros c. rewrite tickets_of_insert, ticket_weight_role, <- H3 by done.
      case_decide as Hd; [rewrite <- Hd, lookup_insert_eq; simpl; lia|].
      by rewrite lookup_insert_ne.
    + intros c n Hc. pose proof (Hb c n Hc) as Hmax. revert Hc.
      intros [[[= <-] <-]|[_ Hx]]%lookup_insert_Some; [|by eapply H4].
      split; [|destruct Hmax as [|?%H4]; lia]. destruct l; [done|]. simpl length.
      destruct (InstitutionTicketCountSnapshot (ve s) !! _) as [k|] eqn:Hold; simpl; [|lia].
      apply H4 in Hold. lia.
Qed.

Lemma growing_admins id s a l :
  l <> [] -> NoDup l -> Z.of_nat (length l) <= MaxAdminsPerInstitution ->
  growing K id s -> growing K id (set_ve (set_AdminSnapshot (insert (id, a) l)) s).
Proof.
  intros Hl1 Hl2 Hl3. apply growing_own; [|done..|].
  - intros q Hq. split; [done|]. split; intros; simpl; try done; rewrite lookup_insert_ne; congruence.
  - intros [H1 H2 H3 H4]. split; simpl; [done| |done..].
    intros x l' [[_ <-]|[_ Hx]]%lookup_insert_Some; [done|by eapply H2].
Qed.

Lemma growing_personal_admins id a pending :
  preserves (growing K id) (snapshot_personal_admins id a pending).
Proof.
  intros s Hs. destruct (snapshot_personal_admins id a pending s) as [[[]|e] s'] eqn:Hr; simpl.
  - apply snapshot_personal_admins_Ok in Hr as (l & _ & ? & ? & ? & ->). by apply growing_admins.
  - assert (s' = s) as ->; [|done]. revert Hr.
    unfold snapshot_personal_admins, write_admin_snapshot. autorewrite with run.
    destruct (if pending then _ else _); autorewrite with run; [|by intros [= _ <-]].
    destruct (ensure_valid_admin_snapshot _); simpl; autorewrite with run; [|by intros [= _ <-]].
    by destruct (bounded_list _ _); [|intros [= _ <-]].
Qed.

Lemma growing_expiry id b : preserves (growing K id) (schedule_proposal_expiry id b : RM W unit).
Proof.
  unfold schedule_proposal_expiry, push_expiry, upd.
  solve_preserves_with ltac:(intros ? ?; by apply growing_set_ve).
Qed.

Lemma growing_bind_plan id plan : preserves (growing K id) (bind_vote_plan id plan : RM W unit).
Proof.
  unfold bind_vote_plan. solve_preserves_with ltac:(intros ? ?; by apply growing_set_ve).
Qed.

Lemma growing_population id sc : preserves (growing K id) (create_population_snapshot id sc).
Proof.
  unfold create_population_snapshot, upd. solve_preserves_with ltac:(intros ? ?; apply growing_own;
    [|done|done|by intros []|assumption]; intros q Hq; split; [done|]; split; intros; simpl;
    try done; rewrite lookup_insert_ne; congruence).
Qed.

Lemma growing_insert id p s :
  growing K id s -> growing K id (set_ve (set_Proposals (insert id p)) s).
Proof.
  apply growing_own; [|done|done|by intros []]. intros q Hq.
  split; [by simpl; rewrite lookup_insert_ne|done].
Qed.

(** Data and objects are registered for a settled proposal. *)
Lemma settled_register pid tag data now :
  preserves (settled K) (register_proposal_data pid tag data now : RM W unit).
Proof.
  unfold register_proposal_data.
  solve_preserves_with ltac:(intros s0 Hs0; apply settled_set_ve; [assumption| |assumption];
    try reflexivity;
    match goal with |- seen (register_proposal_indexes ?a ?b ?c ?d ?e ?f ?g) = _ =>
      by destruct (register_frame a b c d e f g) as (? & ? & ? & ? & ->) end).
Qed.

Lemma settled_bind_plan pid plan : preserves (settled K) (bind_vote_plan pid plan : RM W unit).
Proof.
  unfold bind_vote_plan. solve_preserves_with ltac:(intros ? ?; by apply settled_set_ve).
Qed.

Lemma settled_store_object pid k d : preserves (settled K) (store_proposal_object pid k d).
Proof.
  unfold store_proposal_object. solve_preserves_with ltac:(intros ? ?; by apply settled_set_ve).
Qed.
End Growing.

#[export] Hint Resolve settled_bind_plan settled_register settled_store_object
  growing_try_add growing_acquire growing_role_voters growing_personal_admins growing_expiry
  growing_bind_plan growing_emit : preserves.

(** ** A ballot is cast

    Between the record of a vote and its consequences everything is settled
    but the proposal voted on. *)
Section Casting.
Context `{Wt : Weights} `{Cfg : !Config} {W : Type}.
Context (K : Z -> Proposal -> rt W -> Prop) `{KL : !TrackInvariant K}.
Implicit Types s : rt W.

Lemma open_clean s pid p :
  engine_inv s -> Proposals (ve s) !! pid = Some p -> status p = STATUS_VOTING ->
  PendingProposalCleanups (ve s) !! pid = None.
Proof.
  intros Hi Hp Hv. apply eq_None_not_Some. intros Hc.
  destruct (inv_cleanup _ Hi pid) as [_ Ht]; [by left|]. apply Ht in Hp. by rewrite Hv in Hp.
Qed.

Lemma settled_cast_except pid s s' :
  seen (ve s') = seen (ve s) ->
  (NextProposalId (ve s) <= pid -> blank pid s -> blank pid s') ->
  (forall q, q <> pid -> same_ballots q s s') -> settled (except pid K) s ->
  settled (except pid K) s'.
Proof.
  intros Hv Hlow Hb [H1 H2]. pose proof (fun q => seen_frozen q _ _ Hv) as Hf.
  unfold seen in Hv. injection Hv as Hp Hn Hc _. split.
  - intros q Hq. rewrite Hn in Hq. destruct (decide (q = pid)) as [->|Hne].
    + destruct (H1 pid Hq) as [? Hu]. split; [by apply Hlow|by apply (unfrozen_same _ (ve s))].
    + apply (unborn_same q s); [by apply Hb|done|by apply H1].
  - intros q p Hq Hclean Hne. apply (ti_view q p s); [by apply Hb|done|]. apply H2; congruence.
Qed.

Lemma settled_cast pid s s' :
  seen (ve s') = seen (ve s) -> pid < NextProposalId (ve s) ->
  (forall q, q <> pid -> same_ballots q s s') -> settled K s -> settled (except pid K) s'.
Proof.
  intros Hv Hlow Hb Hs. apply (settled_cast_except pid s); [done|lia|done|].
  by apply settled_except.
Qed.

Lemma settled_cast_clean pid s :
  settled (except pid K) s ->
  (forall p, Proposals (ve s) !! pid = Some p -> PendingProposalCleanups (ve s) !! pid = None ->
    K pid p s) -> settled K s.
Proof.
  intros [H1 H2] Hk. split; [done|]. intros q p Hp Hc.
  destruct (decide (q = pid)) as [->|Hne]; [by apply Hk|by apply (H2 q p)].
Qed.

Lemma settled_cast_back pid s :
  settled (except pid K) s ->
  (forall p, Proposals (ve s) !! pid = Some p -> K pid p s) -> settled K s.
Proof. intros Hs Hk. apply (settled_cast_clean pid); auto. Qed.
End Casting.

(** ** The tickets of an institution, as a list *)

Lemma institution_tickets (pid : Z) (c : CidNumber) (m : gmap (Z * AuthorizationSubject) (list AccountId)) :
  (forall x l, m !! (pid, x) = Some l -> NoDup l) ->
  exists L : list InstitutionVoteTicket, NoDup L /\ Z.of_nat (length L) = tickets_of pid c m /\
    forall it, it ∈ L <-> role_cid_number (ticket_role_subject it) = c /\
      exists l, m !! (pid, Institution (ticket_role_subject it)) = Some l /\ voter_account_id it ∈ l.
Proof.
  induction m as [|[q x] v m Hk IH] using map_ind; intros Hnd.
  { exists []. split_and!; [by apply NoDup_nil_2|done|]. intros it. rewrite elem_of_nil.
    split; [done|]. intros (_ & l & Hl & _). by rewrite lookup_empty in Hl. }
  destruct IH as (L & HL & Hlen & Hin).
  { intros y l Hy. apply (Hnd y l). rewrite lookup_insert_ne; [done|]. congruence. }
  rewrite tickets_of_insert by done. unfold ticket_weight. simpl.
  assert (Hold : (forall r, x = Institution r -> ~ (q = pid /\ role_cid_number r = c)) ->
    forall it, it ∈ L <-> role_cid_number (ticket_role_subject it) = c /\
      exists l, <[(q, x) := v]> m !! (pid, Institution (ticket_role_subject it)) = Some l /\
        voter_account_id it ∈ l).
  { intros Hne it. rewrite Hin. destruct (decide (role_cid_number (ticket_role_subject it) = c));
      [|naive_solver]. rewrite lookup_insert_ne; [done|]. intros [= -> ->]. naive_solver. }
  destruct x as [r|a]; [case_decide as Hd|].
  2-3: exists L; split_and!; [done|lia|apply Hold; naive_solver].
  destruct Hd as [-> Hr]. set (mk := fun a => {| ticket_role_subject := r; voter_account_id := a |}).
  exists ((mk <$> v) ++ L). split_and!.
  - apply NoDup_app. split_and!; [|intros it Hit%list_elem_of_fmap|done].
    + apply NoDup_fmap_2; [intros ? ? [=]; done|]. apply (Hnd (Institution r)), lookup_insert_eq.
    + destruct Hit as (a & -> & _). rewrite Hin. intros (_ & l & Hl & _). simpl in Hl. congruence.
  - rewrite length_app, length_fmap. lia.
  - intros it. rewrite elem_of_app, Hin, list_elem_of_fmap.
    destruct (decide (ticket_role_subject it = r)) as [Hit|Hit].
    + rewrite Hit, lookup_insert_eq. split.
      * intros [(a & -> & Ha)|(_ & l & Hl & _)]; [eauto|congruence].
      * intros (_ & l & [= <-] & Ha). left. exists (voter_account_id it). split; [|done].
        unfold mk. rewrite <- Hit. by destruct it.
    + rewrite lookup_insert_ne by congruence. split; [|naive_solver].
      intros [(a & -> & _)|]; [by destruct Hit|done].
Qed.
