(* ===== verification/InternalVote.v ===== *)
(** * Internal votes ([votingengine/internal-vote/src])

    The vote inside one institution (tickets of frozen roles) or among the
    administrators of one personal multi-signature account: thresholds
    ([threshold.rs]), creation of proposals ([proposal.rs], [lib.rs]), voting
    and timeout ([vote.rs]), removal of the vote's data and the track handler
    registered with the engine ([cleanup.rs]). *)
From S2P Require Import Prelude Cid Types State Interfaces Runtime Ids Locks Data.
From S2P Require Import Cleanup Lifecycle Execution Expiry.

(** ** Thresholds *)

Definition internal_stage_duration : Z := saturated_into BlockNumber_max VOTING_DURATION_BLOCKS.

Definition ensure_all_admin_threshold (admins_len threshold : Z) : result DispatchError unit :=
  guard_ok ((0 <? admins_len) && (threshold =? admins_len)) (InternalErr InvalidThresholdSnapshot).

Definition ensure_dynamic_threshold (voter_count threshold : Z) : result DispatchError unit :=
  guard_ok (2 <=? voter_count) (InternalErr InvalidDynamicThreshold) ;;
  guard_ok ((0 <? threshold) && (threshold <=? voter_count)
            && (voter_count <? saturating_mul u64_max threshold 2))
    (InternalErr InvalidDynamicThreshold).

Definition is_valid_institution_context (code : InstitutionCode) (cid_number : string) : bool :=
  negb (is_personal_code code) && is_valid_governance_code code
  && bool_decide (institution_code_from_cid_number (utf8_or_default cid_number) = Some code).

Section InternalVote.
Context `{Wt : Weights} `{Cfg : !Config} `{Ord : StorageOrder} {W : Type}
  `{Prov : !Providers W} `{Cb : !Callbacks W} `{Tr : !ProposalTracks W}.

Definition upd_iv (f : internal_store -> internal_store) : RM W unit := modify (set_iv f).

Definition snapshot_admins_len_or_missing (proposal_id : Z) (subject : ProposalSubject)
    : RM W Z :=
  len ← gets (fun s => snapshot_admins_len (ve s) proposal_id subject);
  ok_or len (VotingErr MissingAdminSnapshot).

Definition proposal_personal_account (proposal_id : Z) : RM W AccountId :=
  proposal ← gets (fun s => Proposals (ve s) !! proposal_id);
  proposal ← ok_or proposal (VotingErr ProposalNotFound);
  ensure (bool_decide (internal_code proposal = Some PMUL)
          && bool_decide (actor_cid_number proposal = None)) (VotingErr InvalidInstitution) ;;
  ok_or (execution_account_id proposal) (VotingErr InvalidInstitution).

Definition apply_executed_threshold_side_effect (proposal_id : Z) : RM W unit :=
  role ← gets (fun s => InternalProposalRoles (iv s) !! proposal_id);
  match role with
  | Some PersonalCreate =>
      personal_account_id ← proposal_personal_account proposal_id;
      threshold ← gets (fun s => PendingPersonalThresholds (iv s) !! proposal_id);
      upd_iv (set_PendingPersonalThresholds (delete proposal_id)) ;;
      threshold ← ok_or threshold (InternalErr MissingDynamicThreshold);
      upd_iv (set_ActivePersonalThresholds (insert personal_account_id threshold))
  | Some PersonalClose =>
      personal_account_id ← proposal_personal_account proposal_id;
      upd_iv (set_ActivePersonalThresholds (delete personal_account_id))
  | Some PersonalAdminChange =>
      pending ← gets (fun s => PendingPersonalAdminChangeThresholds (iv s) !! proposal_id);
      upd_iv (set_PendingPersonalAdminChangeThresholds (delete proposal_id)) ;;
      match pending with
      | Some pending =>
          from_result (ensure_dynamic_threshold (new_admins_len pending)
            (new_threshold pending)) ;;
          upd_iv (set_ActivePersonalThresholds
            (insert (personal_account_id pending) (new_threshold pending)))
      | None => mret tt
      end
  | _ => mret tt
  end.

Definition apply_terminal_threshold_cleanup (proposal_id status : Z) : RM W unit :=
  role ← gets (fun s => InternalProposalRoles (iv s) !! proposal_id);
  let failed := bool_decide (status = STATUS_REJECTED)
    || bool_decide (status = STATUS_EXECUTION_FAILED) in
  match role with
  | Some PersonalCreate =>
      if failed then upd_iv (set_PendingPersonalThresholds (delete proposal_id)) else mret tt
  | Some PersonalAdminChange =>
      if failed then upd_iv (set_PendingPersonalAdminChangeThresholds (delete proposal_id))
      else mret tt
  | _ => mret tt
  end.

(** ** Voting *)

Definition ticket_claim_of (proposal : Proposal) (proposal_id : Z) (who : AccountId)
    (claim : InternalVoteTicketClaim) : RM W (InternalVoteTicket * option RoleCode * bool * Z) :=
  match actor_cid_number proposal with
  | Some actor_cid_number =>
      role_code ← (match claim with
        | ClaimInstitutionRole role_code => mret role_code
        | ClaimPersonal => throw (VotingErr NoPermission)
        end : RM W RoleCode);
      let role_subject := {| role_cid_number := actor_cid_number; role_code := role_code |} in
      let subject := Institution role_subject in
      voter_account_id ← gets (fun s => default who (resolve_subject_voter (world s) subject who));
      eligible ← gets (fun s => is_subject_voter_in_snapshot s proposal_id subject who);
      total ← gets (fun s => institution_ticket_count (ve s) proposal_id actor_cid_number);
      total ← ok_or total (VotingErr MissingVoterSnapshot);
      mret (TicketInstitution
        {| ticket_role_subject := role_subject; voter_account_id := voter_account_id |},
        Some role_code, eligible, total)
  | None =>
      ensure (match claim with ClaimPersonal => true | _ => false end)
        (VotingErr NoPermission) ;;
      personal_account_id ← ok_or (execution_account_id proposal) (VotingErr InvalidInstitution);
      let subject := PersonalAccount personal_account_id in
      eligible ← gets (fun s => is_admin_in_snapshot (ve s) proposal_id subject who);
      total ← gets (fun s => snapshot_admins_len (ve s) proposal_id subject);
      total ← ok_or total (VotingErr MissingAdminSnapshot);
      mret (TicketPersonal who, None, eligible, total)
  end.

Definition do_internal_vote (who : AccountId) (proposal_id : Z)
    (claim : InternalVoteTicketClaim) (approve : bool) : RM W unit :=
  proposal ← ensure_open_proposal proposal_id;
  ensure (bool_decide (kind proposal = PROPOSAL_KIND_INTERNAL)) (VotingErr InvalidProposalKind) ;;
  ensure (bool_decide (stage proposal = STAGE_INTERNAL)) (VotingErr InvalidProposalStage) ;;
  '(ticket, voter_role_code, eligible, eligible_total) ←
    ticket_claim_of proposal proposal_id who claim;
  ensure eligible (VotingErr NoPermission) ;;
  voted ← gets (fun s =>
    bool_decide (is_Some (InternalVotesByTicket (iv s) !! (proposal_id, ticket))));
  ensure (negb voted) (VotingErr AlreadyVoted) ;;
  upd_iv (set_InternalVotesByTicket (insert (proposal_id, ticket) approve)) ;;
  tally ← gets (fun s => add_votes u32_max 1 approve
    (default vote_count_zero (InternalTallies (iv s) !! proposal_id)));
  upd_iv (set_InternalTallies (insert proposal_id tally)) ;;
  emit (InternalVoteCast proposal_id who voter_role_code approve) ;;
  threshold ← gets (fun s => InternalThresholdSnapshot (iv s) !! proposal_id);
  threshold ← ok_or threshold (InternalErr MissingThresholdSnapshot);
  if threshold <=? yes tally then set_status_and_emit proposal_id STATUS_PASSED
  else
    let casted := saturating_add u32_max (yes tally) (no tally) in
    let remaining := saturating_sub eligible_total casted in
    if saturating_add u32_max (yes tally) remaining <? threshold
    then set_status_and_emit proposal_id STATUS_REJECTED
    else mret tt.

(** The extrinsic. *)
Definition internal_cast := do_internal_vote.

Definition do_finalize_internal_timeout (proposal : Proposal) (proposal_id : Z) : RM W unit :=
  ensure (bool_decide (stage proposal = STAGE_INTERNAL)) (VotingErr InvalidProposalStage) ;;
  ensure (bool_decide (status proposal = STATUS_VOTING)) (VotingErr ProposalAlreadyFinalized) ;;
  now ← gets block_number;
  ensure (end_block proposal <? now) (VotingErr VoteNotExpired) ;;
  set_status_and_emit proposal_id STATUS_REJECTED.

(** ** Creation *)

Definition ensure_institution_vote_plan (actor_cid_number : CidNumber) (who : AccountId)
    (vote_plan : VotePlan) : RM W unit :=
  ensure (bool_decide (voting_engine vote_plan = Internal)) (VotingErr InvalidVotePlan) ;;
  proposer_role ← (match proposer_subject vote_plan with
    | Institution role_subject => mret role_subject
    | PersonalMultisig _ => throw (VotingErr InvalidVotePlan)
    end : RM W RoleSubject);
  ensure (bool_decide (role_cid_number proposer_role = actor_cid_number))
    (VotingErr InvalidVotePlan) ;;
  active ← gets (fun s => is_active_assignment (world s) (role_cid_number proposer_role) who
    (role_code proposer_role));
  ensure active (VotingErr NoPermission) ;;
  for_each (fun subject =>
    ensure (match subject with
            | Institution role_subject =>
                bool_decide (role_cid_number role_subject = actor_cid_number)
            | PersonalMultisig _ => false
            end) (VotingErr InvalidVotePlan)) (voter_subjects vote_plan).

Definition allocate_and_lock (proposal : Proposal) (mutex_kind : InternalProposalMutexKind)
    : RM W Z :=
  id ← allocate_proposal_id;
  try_add_active_proposals (subject_keys proposal) id ;;
  for_each (fun subject => acquire_internal_proposal_mutex id subject mutex_kind)
    (subject_keys proposal) ;;
  mret id.

Definition finish_proposal_create (id : Z) (proposal : Proposal) (end_ threshold : Z)
    (role : InternalProposalRole) : RM W Z :=
  upd_iv (set_InternalThresholdSnapshot (insert id threshold)) ;;
  upd_iv (set_InternalProposalRoles (insert id role)) ;;
  upd (set_Proposals (insert id proposal)) ;;
  schedule_proposal_expiry id end_ ;;
  emit_proposal_created id PROPOSAL_KIND_INTERNAL STAGE_INTERNAL end_ ;;
  mret id.

(** The frozen voters of each role subject, read from the assignments. *)
Definition snapshot_plan_voters (id : Z) (vote_plan : VotePlan) : RM W unit :=
  for_each (fun subject =>
    match subject with
    | Institution role_subject =>
        voters ← gets (fun s => active_accounts_for_role (world s)
          (role_cid_number role_subject) (role_code role_subject));
        snapshot_role_voters id subject voters
    | PersonalMultisig _ => throw (VotingErr InvalidVotePlan)
    end) (voter_subjects vote_plan).

Definition do_create_institution_proposal_with_mutex (who : AccountId)
    (institution_code : InstitutionCode) (actor_cid_number : string)
    (execution_account_id : option AccountId) (subject_cid_numbers : list string)
    (mutex_kind : InternalProposalMutexKind) (role : InternalProposalRole)
    (vote_plan : VotePlan) : RM W Z :=
  ensure (is_valid_governance_code institution_code && negb (is_personal_code institution_code))
    (InternalErr InvalidInternalCode) ;;
  actor_cid_number ← ok_or (bounded_bytes CID_NUMBER_MAX_BYTES actor_cid_number)
    (VotingErr InvalidInstitution);
  ensure (is_valid_institution_context institution_code actor_cid_number)
    (VotingErr InvalidInstitution) ;;
  ensure_institution_vote_plan actor_cid_number who vote_plan ;;
  now ← gets block_number;
  let end_ := block_add now internal_stage_duration in
  subject_cid_numbers ← from_result (bound_subject_cid_numbers subject_cid_numbers);
  let proposal := {|
    kind := PROPOSAL_KIND_INTERNAL; stage := STAGE_INTERNAL; status := STATUS_VOTING;
    internal_code := Some institution_code; actor_cid_number := Some actor_cid_number;
    execution_account_id := execution_account_id; subject_cid_numbers := subject_cid_numbers;
    start_block := now; end_block := end_ |} in
  transact (
    id ← allocate_and_lock proposal mutex_kind;
    snapshot_plan_voters id vote_plan ;;
    snapshot_size ← gets (fun s => institution_ticket_count (ve s) id actor_cid_number);
    snapshot_size ← ok_or snapshot_size (VotingErr MissingVoterSnapshot);
    threshold ← gets (fun s => institution_threshold (world s) institution_code actor_cid_number);
    threshold ← ok_or threshold (InternalErr MissingDynamicThreshold);
    from_result (ensure_dynamic_threshold snapshot_size threshold) ;;
    finish_proposal_create id proposal end_ threshold role).

Definition do_create_institution_proposal (who : AccountId)
    (institution_code : InstitutionCode) (actor_cid_number : string)
    (execution_account_id : option AccountId) (subject_cid_numbers : list string)
    (vote_plan : VotePlan) : RM W Z :=
  do_create_institution_proposal_with_mutex who institution_code actor_cid_number
    execution_account_id subject_cid_numbers Regular General vote_plan.

(** The proposal of a personal account. *)
Definition personal_proposal (personal_account_id : AccountId) (now : Z) : Proposal := {|
  kind := PROPOSAL_KIND_INTERNAL; stage := STAGE_INTERNAL; status := STATUS_VOTING;
  internal_code := Some PMUL; actor_cid_number := None;
  execution_account_id := Some personal_account_id; subject_cid_numbers := [];
  start_block := now; end_block := block_add now internal_stage_duration |}.

Definition do_create_active_personal_proposal (who personal_account_id : AccountId)
    (mutex_kind : InternalProposalMutexKind) (role : InternalProposalRole)
    (force_all_admin_threshold : bool) : RM W Z :=
  now ← gets block_number;
  let proposal := personal_proposal personal_account_id now in
  transact (
    id ← allocate_and_lock proposal mutex_kind;
    snapshot_personal_admins id personal_account_id false ;;
    let subject := PersonalAccount personal_account_id in
    listed ← gets (fun s => is_admin_in_snapshot (ve s) id subject who);
    ensure listed (VotingErr NoPermission) ;;
    snapshot_size ← snapshot_admins_len_or_missing id subject;
    threshold ←
      (if force_all_admin_threshold then mret snapshot_size
       else
         active ← gets (fun s => ActivePersonalThresholds (iv s) !! personal_account_id);
         ok_or active (InternalErr MissingDynamicThreshold));
    from_result
      (if force_all_admin_threshold then ensure_all_admin_threshold snapshot_size threshold
       else ensure_dynamic_threshold snapshot_size threshold) ;;
    finish_proposal_create id proposal (end_block proposal) threshold role).

Definition ensure_personal_admin (personal_account_id who : AccountId) : RM W unit :=
  admin ← gets (fun s => is_personal_admin (world s) personal_account_id who);
  ensure admin (VotingErr NoPermission).

Definition do_create_personal_proposal (who personal_account_id : AccountId) : RM W Z :=
  ensure_personal_admin personal_account_id who ;;
  do_create_active_personal_proposal who personal_account_id Regular General false.

Definition do_create_personal_lifecycle_proposal (who personal_account_id : AccountId) : RM W Z :=
  ensure_personal_admin personal_account_id who ;;
  do_create_active_personal_proposal who personal_account_id Regular PersonalClose true.

Definition do_create_personal_admin_change_proposal (who personal_account_id : AccountId)
    (new_admins_len new_threshold : Z) : RM W Z :=
  from_result (ensure_dynamic_threshold new_admins_len new_threshold) ;;
  ensure_personal_admin personal_account_id who ;;
  proposal_id ← do_create_active_personal_proposal who personal_account_id
    AdminSetMutationExclusive PersonalAdminChange false;
  upd_iv (set_PendingPersonalAdminChangeThresholds (insert proposal_id
    {| personal_account_id := personal_account_id; new_admins_len := new_admins_len;
       new_threshold := new_threshold |})) ;;
  mret proposal_id.

Definition do_create_personal_account_create_proposal (who personal_account_id : AccountId)
    (admins : list AccountId) (dynamic_threshold : Z) : RM W Z :=
  ensure (negb (bool_decide (admins = []))) (VotingErr MissingAdminSnapshot) ;;
  ensure (existsb (fun admin => bool_decide (admin = who)) admins) (VotingErr NoPermission) ;;
  ensure (no_repeats admins) (VotingErr InvalidInstitution) ;;
  let admins_len := Z.of_nat (length admins) mod 2 ^ 32 in
  from_result (ensure_dynamic_threshold admins_len dynamic_threshold) ;;
  bounded_admins ← ok_or (bounded_list MaxAdminsPerInstitution admins)
    (VotingErr InvalidInstitution);
  now ← gets block_number;
  let proposal := personal_proposal personal_account_id now in
  transact (
    id ← allocate_and_lock proposal Regular;
    upd (set_AdminSnapshot (insert (id, PersonalAccount personal_account_id) bounded_admins)) ;;
    upd_iv (set_PendingPersonalThresholds (insert id dynamic_threshold)) ;;
    finish_proposal_create id proposal (end_block proposal) admins_len PersonalCreate).

(** ** Creation with data ([InternalVoteEngine]) *)

(** The ticket the proposer is entitled to, if it is a frozen voter. *)
Definition proposer_claim (proposal : Proposal) (proposal_id : Z) (who : AccountId)
    : RM W (option InternalVoteTicketClaim) :=
  if decide (actor_cid_number proposal <> None) then
    vote_plan ← gets (fun s => ProposalVotePlans (ve s) !! proposal_id);
    vote_plan ← ok_or vote_plan (VotingErr InvalidVotePlan);
    proposer_role ← (match proposer_subject vote_plan with
      | Institution role_subject => mret role_subject
      | PersonalMultisig _ => throw (VotingErr InvalidVotePlan)
      end : RM W RoleSubject);
    listed ← gets (fun s => is_subject_voter_in_snapshot s proposal_id
      (Institution proposer_role) who);
    mret (if (listed : bool) then Some (ClaimInstitutionRole (role_code proposer_role)) else None)
  else match execution_account_id proposal with
  | Some personal_account_id =>
      listed ← gets (fun s => is_admin_in_snapshot (ve s) proposal_id
        (PersonalAccount personal_account_id) who);
      mret (if (listed : bool) then Some ClaimPersonal else None)
  | None => mret None
  end.

Definition register_data_and_auto_approve (who : AccountId) (proposal_id : Z)
    (module_tag data : string) : RM W Z :=
  now ← gets block_number;
  register_proposal_data proposal_id module_tag data now ;;
  proposal ← gets (fun s => Proposals (ve s) !! proposal_id);
  proposal ← ok_or proposal (VotingErr ProposalNotFound);
  claim ← proposer_claim proposal proposal_id who;
  match claim with
  | Some claim => do_internal_vote who proposal_id claim true
  | None => mret tt
  end ;;
  mret proposal_id.

(** Bind the plan, register the data, cast the proposer's vote. *)
Definition bind_and_register (who : AccountId) (proposal_id : Z) (vote_plan : VotePlan)
    (data : string) : RM W Z :=
  bind_vote_plan proposal_id vote_plan ;;
  register_data_and_auto_approve who proposal_id (plan_owner vote_plan) data.

Definition create_institution_proposal_with_data (who : AccountId)
    (institution_code : InstitutionCode) (actor_cid_number : string)
    (execution_account_id : option AccountId) (subject_cid_numbers : list string)
    (vote_plan : VotePlan) (data : string) : RM W Z :=
  transact (
    ensure (bool_decide (hash_256 data = business_object_hash vote_plan))
      (VotingErr InvalidVotePlan) ;;
    proposal_id ← do_create_institution_proposal who institution_code actor_cid_number
      execution_account_id subject_cid_numbers vote_plan;
    bind_and_register who proposal_id vote_plan data).

Definition create_institution_admin_change_proposal_with_data (who : AccountId)
    (institution_code : InstitutionCode) (actor_cid_number : string)
    (vote_plan : VotePlan) (data : string) : RM W Z :=
  transact (
    ensure (bool_decide (hash_256 data = business_object_hash vote_plan))
      (VotingErr InvalidVotePlan) ;;
    proposal_id ← do_create_institution_proposal_with_mutex who institution_code
      actor_cid_number None [] AdminSetMutationExclusive InstitutionAdminChange vote_plan;
    bind_and_register who proposal_id vote_plan data).

Definition create_personal_proposal_with_data (who personal_account_id : AccountId)
    (module_tag data : string) : RM W Z :=
  transact (
    proposal_id ← do_create_personal_proposal who personal_account_id;
    register_data_and_auto_approve who proposal_id module_tag data).

Definition create_personal_lifecycle_proposal_with_data (who personal_account_id : AccountId)
    (module_tag data : string) : RM W Z :=
  transact (
    proposal_id ← do_create_personal_lifecycle_proposal who personal_account_id;
    register_data_and_auto_approve who proposal_id module_tag data).

Definition create_personal_account_create_proposal_with_data
    (who personal_account_id : AccountId) (admins : list AccountId) (dynamic_threshold : Z)
    (module_tag data : string) : RM W Z :=
  transact (
    proposal_id ← do_create_personal_account_create_proposal who personal_account_id admins
      dynamic_threshold;
    register_data_and_auto_approve who proposal_id module_tag data).

Definition create_personal_admin_change_proposal_with_data
    (who personal_account_id : AccountId) (new_admins_len new_threshold : Z)
    (module_tag data : string) : RM W Z :=
  transact (
    proposal_id ← do_create_personal_admin_change_proposal who personal_account_id
      new_admins_len new_threshold;
    register_data_and_auto_approve who proposal_id module_tag data).

Definition active_institution_threshold (w : W) (institution_code : InstitutionCode)
    (cid_number : string) : option Z :=
  cid_number ← bounded_bytes CID_NUMBER_MAX_BYTES cid_number;
  institution_threshold w institution_code cid_number.

Definition active_personal_threshold (s : rt W) (personal_account_id : AccountId) : option Z :=
  ActivePersonalThresholds (iv s) !! personal_account_id.

Definition configured_personal_threshold (s : rt W) (proposal_id : Z)
    (personal_account_id : AccountId) : option Z :=
  match PendingPersonalThresholds (iv s) !! proposal_id with
  | Some threshold => Some threshold
  | None => ActivePersonalThresholds (iv s) !! personal_account_id
  end.

(** ** Cleanup and the track handler *)

Definition cleanup_internal_votes_chunk (proposal_id limit : Z) : RS W (Z * bool) := fun s =>
  let '(m, r) := clear_prefix proposal_id limit (InternalVotesByTicket (iv s)) in
  (r, set_iv (set_InternalVotesByTicket (fun _ => m)) s).

Definition cleanup_internal_terminal (proposal_id : Z) : RS W unit :=
  smodify (set_iv (fun g =>
    set_InternalProposalRoles (delete proposal_id)
    (set_PendingPersonalAdminChangeThresholds (delete proposal_id)
    (set_PendingPersonalThresholds (delete proposal_id)
    (set_InternalThresholdSnapshot (delete proposal_id)
    (set_InternalTallies (delete proposal_id) g)))))).

Definition internal_handles (kind : Z) : bool := bool_decide (kind = PROPOSAL_KIND_INTERNAL).

Definition internal_finalize_timeout (proposal : Proposal) (proposal_id : Z)
    : RS W (option (result DispatchError unit)) :=
  if internal_handles (kind proposal) then
    r ← (if decide (stage proposal = STAGE_INTERNAL)
         then attempt (do_finalize_internal_timeout proposal proposal_id)
         else mret (Err (VotingErr InvalidProposalStage)));
    mret (Some r)
  else mret None.

(** [Self::handles(kind).then(|| m)]. *)
Definition when_handled {A} (b : bool) (m : RS W A) : RS W (option A) :=
  if b then (a ← m; mret (Some a)) else mret None.

Definition internal_track : TrackHandler W := {|
  handles := internal_handles;
  cleanup_chunk_of := fun kind proposal_id limit =>
    when_handled (internal_handles kind) (cleanup_internal_votes_chunk proposal_id limit);
  cleanup_terminal_of := fun kind proposal_id =>
    when_handled (internal_handles kind) (cleanup_internal_terminal proposal_id);
  timeout_weight_of := fun stage =>
    if decide (stage = STAGE_INTERNAL \/ stage = u8_max)
    then Some wi_finalize_internal_timeout else None;
  cleanup_chunk_weight_of := fun kind limit =>
    if decide (kind = PROPOSAL_KIND_INTERNAL \/ kind = u8_max) then
      let limit := Z.max limit 1 in
      Some (w_add (w_add (from_parts 8000000 3000) (w_mul (from_parts 1000000 2600) limit))
        (db_reads_writes limit limit))
    else None;
  cleanup_terminal_weight_of := fun kind =>
    if decide (kind = PROPOSAL_KIND_INTERNAL \/ kind = u8_max)
    then Some (w_add (from_parts 12000000 12000) (db_reads_writes 4 6)) else None;
  on_proposal_executed_of := fun kind proposal_id =>
    when_handled (internal_handles kind)
      (attempt (apply_executed_threshold_side_effect proposal_id));
  on_proposal_terminal_of := fun kind proposal_id status =>
    when_handled (internal_handles kind)
      (attempt (apply_terminal_threshold_cleanup proposal_id status));
|}.
End InternalVote.
