(* ===== verification/InternalSafety.v ===== *)
(** * Internal votes respect the engine

    Voting, timing out and creating internal proposals keep the engine's
    invariant; the track handler's hooks leave the engine's storage alone. *)
From S2P Require Import Prelude Cid Types State Interfaces Runtime Ids Locks Data.
From S2P Require Import Cleanup Lifecycle Execution Expiry Maintenance Engine Invariant.
From S2P Require Import Safety Clients InternalVote.

Section InternalFrames.
Context `{Wt : Weights} `{Cfg : !Config} `{Ord : StorageOrder} {W : Type}.

Lemma frame_upd_iv f : track_frame (upd_iv f : RM W unit).
Proof. done. Qed.
Lemma frame_executed_effect pid :
  track_frame (apply_executed_threshold_side_effect pid : RM W unit).
Proof.
  unfold apply_executed_threshold_side_effect, proposal_personal_account.
  repeat (apply frame_bind || apply frame_gets || apply frame_ok_or || apply frame_ensure
    || apply frame_from_result || apply frame_upd_iv || apply frame_ret || intros || case_match).
Qed.

Lemma frame_terminal_effect pid st :
  track_frame (apply_terminal_threshold_cleanup pid st : RM W unit).
Proof.
  unfold apply_terminal_threshold_cleanup.
  repeat (apply frame_bind || apply frame_gets || apply frame_upd_iv || apply frame_ret
    || intros || case_match).
Qed.

Lemma frame_when_handled {A} b (m : RS W A) : track_frame m -> track_frame (when_handled b m).
Proof. intros Hm. destruct b; [apply frame_sbind; [done|by intros]|done]. Qed.

(** The laws the engine asks of a track, for this one. *)
Record track_framed (T : TrackHandler W) : Prop := {
  tf_chunk : forall kind pid limit, track_frame (cleanup_chunk_of T kind pid limit);
  tf_cleanup : forall kind pid, track_frame (cleanup_terminal_of T kind pid);
  tf_executed : forall kind pid, track_frame (on_proposal_executed_of T kind pid);
  tf_terminal : forall kind pid st, track_frame (on_proposal_terminal_of T kind pid st);
}.

Lemma internal_track_framed : track_framed internal_track.
Proof.
  split; intros; simpl; apply frame_when_handled.
  - intros s. unfold cleanup_internal_votes_chunk. by destruct (clear_prefix _ _ _).
  - done.
  - apply frame_executed_effect.
  - apply frame_terminal_effect.
Qed.

(** A tuple of such tracks satisfies [TrackLaws]. *)
Lemma tracks_unit_laws : TrackLaws (tracks_unit : ProposalTracks W).
Proof. by split. Qed.

Lemma tracks_cons_laws (head : TrackHandler W) (tail : ProposalTracks W) :
  track_framed head -> TrackLaws tail -> TrackLaws (tracks_cons head tail).
Proof.
  intros [] []. split; intros; simpl; try by apply frame_or_else.
  apply frame_sbind; [done|]. intros []; [apply frame_sret|done].
Qed.
End InternalFrames.

#[export] Hint Extern 1 (preserves (good _) (upd_iv _)) =>
  apply good_framed, frame_upd_iv : preserves.
#[export] Hint Extern 1 (preserves (fresh _ _) (upd_iv _)) =>
  apply fresh_framed, frame_upd_iv : preserves.

Section InternalSafety.
Context `{Wt : Weights} `{Cfg : !Config} `{Ord : StorageOrder} {W : Type}
  `{Prov : !Providers W} `{Cb : !Callbacks W} `{Tr : !ProposalTracks W}
  `{CbL : !CallbackLaws Cb} `{TrL : !TrackLaws Tr}.

Lemma good_ensure_open s0 pid : preserves (good s0) (ensure_open_proposal pid : RM W Proposal).
Proof. unfold ensure_open_proposal. solve_good. Qed.
Hint Resolve good_ensure_open : preserves.

Lemma good_internal_vote s0 who pid claim b :
  preserves (good s0) (do_internal_vote who pid claim b).
Proof. unfold do_internal_vote, ticket_claim_of. solve_good. Qed.

Hint Resolve good_internal_vote : preserves.

Lemma good_internal_timeout s0 p pid :
  preserves (good s0) (do_finalize_internal_timeout p pid).
Proof. unfold do_finalize_internal_timeout. solve_good. Qed.

Lemma good_internal_finalize s0 p pid :
  preserves (good s0) (internal_finalize_timeout p pid).
Proof.
  unfold internal_finalize_timeout. case_match; [|solve_good].
  apply preserves_sbind; [|solve_good]. case_match; [|solve_good].
  apply preserves_attempt, good_internal_timeout.
Qed.

(** ** Creation *)

Lemma holds_allocate_and_lock s0 p k :
  engine_inv s0 -> clock_ok s0 ->
  holds (good s0) (allocate_and_lock p k : RM W Z) (fun id => fresh s0 id).
Proof.
  intros Hi Hc. unfold allocate_and_lock.
  eapply holds_bind; [by apply holds_allocate|]. intros id.
  eapply holds_bind; [apply holds_for_each; intros; apply holds_try_add|]. intros ?.
  eapply holds_bind; [apply holds_for_each; intros; apply holds_acquire|]. intros ?.
  by apply holds_ret.
Qed.

Lemma holds_insert_proposal s0 id p :
  newborn p ->
  holds (fresh s0 id) (upd (set_Proposals (insert id p)) : RM W unit) (fun _ => good s0).
Proof. intros Hp s [] s' Hs Hr. apply modify_Ok in Hr as ->. by apply good_new_proposal. Qed.

Lemma holds_finish s0 id p e t r :
  newborn p ->
  holds (fresh s0 id) (finish_proposal_create id p e t r : RM W Z) (fun _ => good s0).
Proof.
  intros Hp. unfold finish_proposal_create.
  do 2 (apply holds_keep; [auto with preserves|intros]).
  eapply holds_bind; [by apply holds_insert_proposal|]. intros ?.
  apply holds_preserves. solve_good.
Qed.

Lemma fresh_snapshot_plan s0 id pid plan :
  preserves (fresh s0 id) (snapshot_plan_voters pid plan : RM W unit).
Proof. unfold snapshot_plan_voters. solve_good. Qed.
Hint Resolve fresh_snapshot_plan : preserves.

Lemma good_ensure_plan s0 cid who plan :
  preserves (good s0) (ensure_institution_vote_plan cid who plan : RM W unit).
Proof. unfold ensure_institution_vote_plan. solve_good. Qed.
Hint Resolve good_ensure_plan : preserves.

Section Started.
Context (s0 : rt W) (Hi : engine_inv s0) (Hc : clock_ok s0).

Lemma holds_institution who code cid acct subs k r plan :
  holds (good s0) (do_create_institution_proposal_with_mutex who code cid acct subs k r plan)
    (fun _ => good s0).
Proof.
  unfold do_create_institution_proposal_with_mutex.
  do 6 (apply holds_keep; [solve_good|intros]). apply holds_transact.
  eapply holds_bind; [by apply holds_allocate_and_lock|]. intros id. cbn beta.
  do 6 (apply holds_keep; [solve_good|intros]).
  apply holds_finish. solve_newborn.
Qed.

Lemma holds_active_personal who a k r force :
  holds (good s0) (do_create_active_personal_proposal who a k r force) (fun _ => good s0).
Proof.
  unfold do_create_active_personal_proposal, snapshot_admins_len_or_missing.
  apply holds_keep; [solve_good|intros]. apply holds_transact.
  eapply holds_bind; [by apply holds_allocate_and_lock|]. intros id. cbn beta.
  do 6 (apply holds_keep; [solve_good|intros]).
  apply holds_finish. solve_newborn.
Qed.

Lemma holds_personal_account_create who a admins t :
  holds (good s0) (do_create_personal_account_create_proposal who a admins t)
    (fun _ => good s0).
Proof.
  unfold do_create_personal_account_create_proposal.
  do 6 (apply holds_keep; [solve_good|intros]). apply holds_transact.
  eapply holds_bind; [by apply holds_allocate_and_lock|]. intros id. cbn beta.
  do 2 (apply holds_keep; [solve_good|intros]).
  apply holds_finish. solve_newborn.
Qed.

Lemma holds_register_approve who pid tag data :
  holds (good s0) (register_data_and_auto_approve who pid tag data) (fun _ => good s0).
Proof.
  unfold register_data_and_auto_approve. apply holds_keep; [solve_good|intros].
  eapply holds_bind; [apply holds_register|]. intros ?.
  apply holds_preserves. unfold proposer_claim. solve_good.
Qed.

Lemma holds_bind_register who pid plan data :
  holds (good s0) (bind_and_register who pid plan data) (fun _ => good s0).
Proof.
  unfold bind_and_register. apply holds_keep; [solve_good|intros].
  apply holds_register_approve.
Qed.

(** Every creation, as the business modules call it. *)
Lemma good_create_institution who code cid acct subs plan data :
  preserves (good s0)
    (create_institution_proposal_with_data who code cid acct subs plan data).
Proof.
  apply preserves_transact_holds. apply holds_keep; [solve_good|intros].
  eapply holds_bind; [apply holds_institution|]. intros. apply holds_bind_register.
Qed.

Lemma good_create_institution_admin_change who code cid plan data :
  preserves (good s0)
    (create_institution_admin_change_proposal_with_data who code cid plan data).
Proof.
  apply preserves_transact_holds. apply holds_keep; [solve_good|intros].
  eapply holds_bind; [apply holds_institution|]. intros. apply holds_bind_register.
Qed.

Lemma holds_with_data (m : RM W Z) who tag data :
  holds (good s0) m (fun _ => good s0) ->
  preserves (good s0)
    (transact (pid ← m; register_data_and_auto_approve who pid tag data)).
Proof.
  intros Hm. apply preserves_transact_holds.
  eapply holds_bind; [apply Hm|]. intros. apply holds_register_approve.
Qed.

Lemma good_create_personal who a tag data :
  preserves (good s0) (create_personal_proposal_with_data who a tag data).
Proof.
  apply holds_with_data. unfold do_create_personal_proposal, ensure_personal_admin.
  apply holds_keep; [solve_good|intros]. apply holds_active_personal.
Qed.

Lemma good_create_personal_lifecycle who a tag data :
  preserves (good s0) (create_personal_lifecycle_proposal_with_data who a tag data).
Proof.
  apply holds_with_data. unfold do_create_personal_lifecycle_proposal, ensure_personal_admin.
  apply holds_keep; [solve_good|intros]. apply holds_active_personal.
Qed.

Lemma good_create_personal_account who a admins t tag data :
  preserves (good s0)
    (create_personal_account_create_proposal_with_data who a admins t tag data).
Proof. apply holds_with_data, holds_personal_account_create. Qed.

Lemma good_create_personal_admin_change who a n t tag data :
  preserves (good s0)
    (create_personal_admin_change_proposal_with_data who a n t tag data).
Proof.
  apply holds_with_data.
  unfold do_create_personal_admin_change_proposal, ensure_personal_admin.
  do 2 (apply holds_keep; [solve_good|intros]).
  eapply holds_bind; [apply holds_active_personal|]. intros id.
  apply holds_preserves. solve_good.
Qed.
End Started.
End InternalSafety.

#[export] Hint Resolve good_ensure_open fresh_snapshot_plan : preserves.
