(* ===== verification/InternalBallots.v ===== *)
(** * Internal votes: the result reflects the votes

    [internal_ok] relates an internal proposal to its ballots: the tally is
    the number of recorded votes, every vote belongs to a frozen voter, and
    the status is the one the votes and the threshold call for. Casting,
    timing out and creating internal proposals keep it. *)
From S2P Require Import Prelude Cid Types State Interfaces Runtime Ids Locks Data.
From S2P Require Import Cleanup Lifecycle Execution Expiry Maintenance Engine Invariant.
From S2P Require Import Safety Clients Tally Ballots InternalVote InternalSafety.

(** ** The invariant *)

(** A threshold is a majority of the tickets. *)
Definition majority (eligible threshold : Z) : Prop :=
  0 < threshold <= eligible /\ eligible < 2 * threshold /\ eligible <= u32_max.

Definition passed_status (st : Z) : Prop :=
  st = STATUS_PASSED \/ st = STATUS_EXECUTED \/ st = STATUS_EXECUTION_FAILED.

(** What a status says of the votes for and against. *)
Record verdict (st for_ against threshold eligible : Z) : Prop := {
  vd_open : st = STATUS_VOTING -> for_ < threshold <= eligible - against;
  vd_passed : passed_status st -> threshold <= for_;
  vd_rejected : st = STATUS_REJECTED -> for_ < threshold;
}.

Definition eligible_of (g : engine) (pid : Z) (p : Proposal) : option Z :=
  match actor_cid_number p with
  | Some c => institution_ticket_count g pid c
  | None =>
      match execution_account_id p with
      | Some a => snapshot_admins_len g pid (PersonalAccount a)
      | None => None
      end
  end.

(** The ticket belongs to a voter frozen for the proposal. *)
Definition frozen_ticket (g : engine) (pid : Z) (p : Proposal) (t : InternalVoteTicket) : Prop :=
  match actor_cid_number p, t with
  | Some c, TicketInstitution it =>
      role_cid_number (ticket_role_subject it) = c /\
      exists l, VoterSnapshot g !! (pid, Institution (ticket_role_subject it)) = Some l /\
        voter_account_id it ∈ l
  | None, TicketPersonal who =>
      exists a l, execution_account_id p = Some a /\
        AdminSnapshot g !! (pid, PersonalAccount a) = Some l /\ who ∈ l
  | _, _ => False
  end.

Section InternalOk.
Context `{Wt : Weights} `{Cfg : !Config} {W : Type}.
Implicit Types s : rt W.

Definition votes_for (pid : Z) (b : bool) s : Z :=
  vote_sum (fun _ => 1) pid b (InternalVotesByTicket (iv s)).

Record internal_ok (pid : Z) (p : Proposal) s : Prop := {
  io_tally : tallies u32_max (votes_for pid true s) (votes_for pid false s)
    (default vote_count_zero (InternalTallies (iv s) !! pid));
  io_tickets : forall t v, InternalVotesByTicket (iv s) !! (pid, t) = Some v ->
    frozen_ticket (ve s) pid p t;
  io_frozen : frozen_wf pid (ve s);
  io_verdict : exists t e, InternalThresholdSnapshot (iv s) !! pid = Some t /\
    eligible_of (ve s) pid p = Some e /\ majority e t /\
    verdict (status p) (votes_for pid true s) (votes_for pid false s) t e;
}.

Lemma votes_for_same pid b s s' : same_ballots pid s s' -> votes_for pid b s' = votes_for pid b s.
Proof. intros []. by apply vote_sum_ext. Qed.

Lemma votes_for_nonneg pid b s : 0 <= votes_for pid b s.
Proof. by apply vote_sum_nonneg. Qed.

Lemma frozen_ticket_same g g' pid p t :
  same_frozen pid g g' -> frozen_ticket g pid p t -> frozen_ticket g' pid p t.
Proof.
  intros [Ha Hv _ _]. unfold frozen_ticket. destruct (actor_cid_number p), t; try done.
  - intros (? & l & ? & ?). split; [done|]. exists l. by rewrite Hv.
  - intros (a & l & ? & ? & ?). exists a, l. by rewrite Ha.
Qed.

Lemma eligible_of_same g g' pid p :
  same_frozen pid g g' -> eligible_of g' pid p = eligible_of g pid p.
Proof.
  intros [Ha _ Ht _]. unfold eligible_of, institution_ticket_count, snapshot_admins_len.
  destruct (actor_cid_number p); [done|]. by destruct (execution_account_id p); [rewrite Ha|].
Qed.

Lemma verdict_step st st' y n t e :
  valid_status_transition st st' = true -> st' <> STATUS_PASSED ->
  verdict st y n t e -> verdict st' y n t e.
Proof.
  unfold valid_status_transition. intros Hv Hne [H1 H2 H3]. apply bool_decide_eq_true in Hv.
  repeat (apply elem_of_cons in Hv as [[= -> ->]|Hv]; [|]); [done| | | |by apply elem_of_nil in Hv].
  - split; [done|by intros [|[|]]|]. intros _. by apply H1.
  - split; [done| |done]. intros _. apply H2. by left.
  - split; [done| |done]. intros _. apply H2. by left.
Qed.

Lemma internal_ok_view pid p s s' :
  same_ballots pid s s' -> same_frozen pid (ve s) (ve s') -> internal_ok pid p s ->
  internal_ok pid p s'.
Proof.
  intros Hb Hf [H1 H2 H3 (t & e & Ht & He & Hm & Hv)]. pose proof Hb as [Hbv Hbt Hbth _ _ _ _ _ _ _ _].
  split.
  - by rewrite !(votes_for_same pid _ s s' Hb), Hbt.
  - intros x v. rewrite Hbv. intros Hx%H2. by eapply frozen_ticket_same.
  - by eapply frozen_wf_same.
  - exists t, e. by rewrite !(votes_for_same pid _ s s' Hb), Hbth, (eligible_of_same (ve s)).
Qed.

Lemma internal_ok_status pid p st s :
  valid_status_transition (status p) st = true -> st <> STATUS_PASSED ->
  internal_ok pid p s -> internal_ok pid (set_status st p) s.
Proof.
  intros Hv Hst [H1 H2 H3 (t & e & Ht & He & Hm & Hd)]. split; [done..|].
  exists t, e. split_and!; [done..|]. by eapply verdict_step.
Qed.
End InternalOk.

(** The running tally decides as the votes do. *)
Section Verdicts.
Context (y n t e : Z) (ta : VoteCount).
Hypothesis (Hta : tallies u32_max y n ta) (Hy : 0 <= y) (Hn : 0 <= n) (Hm : majority e t).

Lemma verdict_passed : t <= yes ta -> verdict STATUS_PASSED y n t e.
Proof. destruct Hta as [H1 _]. intros. split; [done|intros _; lia|done]. Qed.

Lemma verdict_rejected : yes ta < t -> verdict STATUS_REJECTED y n t e.
Proof.
  destruct Hta as [H1 _], Hm as (? & ? & ?). intros.
  split; [done|by intros [|[|]]|intros _; lia].
Qed.

Lemma verdict_open :
  yes ta < t ->
  ~ saturating_add u32_max (yes ta) (saturating_sub e (saturating_add u32_max (yes ta) (no ta))) < t ->
  verdict STATUS_VOTING y n t e.
Proof.
  destruct Hta as [H1 H2], Hm as (? & ? & ?). unfold saturating_add, saturating_sub. intros.
  split; [intros _|by intros [|[|]]|done]. unfold u32_max in *. lia.
Qed.
End Verdicts.

Section InternalBallots.
Context `{Wt : Weights} `{Cfg : !Config} `{Ord : StorageOrder} {W : Type}
  `{Prov : !Providers W} `{Cb : !Callbacks W} `{Tr : !ProposalTracks W}
  `{CbL : !CallbackLaws Cb} `{TrL : !TrackLaws Tr}
  `{CbP : !PrivateCallbacks Cb} `{TrB : !TrackBallots Tr}.
Context (K : Z -> Proposal -> rt W -> Prop) `{KL : !TrackInvariant K}.
(** [K] may say more about other kinds of proposals. *)
Hypothesis HK : forall pid p s, kind p = PROPOSAL_KIND_INTERNAL ->
  K pid p s <-> internal_ok pid p s.
Implicit Types s : rt W.

Definition sound s : Prop := engine_inv s /\ settled K s.

(** ** Casting *)

Lemma ticket_claim_Ok p pid who claim s t r el total s' :
  ticket_claim_of p pid who claim s = (Ok (t, r, el, total), s') ->
  s' = s /\ eligible_of (ve s) pid p = Some total /\
  (el = true -> frozen_ticket (ve s) pid p t).
Proof.
  unfold ticket_claim_of, eligible_of, frozen_ticket.
  destruct (actor_cid_number p) as [c|]; intros H.
  - destruct claim; run_inv. split_and!; [done..|]. unfold is_subject_voter_in_snapshot.
    intros Hel. split; [done|]. simpl. case_match; [|done]. eexists. split; [done|].
    simpl in *. destruct (resolve_institution_voter _ _ _); [|done]. simpl.
    apply existsb_exists in Hel as (? & Hx & ->%bool_decide_eq_true). by apply list_elem_of_In.
  - run_inv.
    match goal with H : execution_account_id p = Some ?a |- _ => rewrite H end.
    split_and!; [done..|]. unfold is_admin_in_snapshot. intros Hel. case_match; [|done].
    do 2 eexists. split_and!; [done..|].
    apply existsb_exists in Hel as (? & Hx & ->%bool_decide_eq_true). by apply list_elem_of_In.
Qed.

(** The state after the vote [b] with the ticket [t]. *)
Section Cast.
Context (pid : Z) (t : InternalVoteTicket) (b : bool) (s s1 : rt W).
Hypothesis Hve : ve s1 = ve s.
Hypothesis Hjv : jv s1 = jv s.
Hypothesis Hlv : lv s1 = lv s.
Hypothesis Hel : el s1 = el s.
Let tally := add_votes u32_max 1 b (default vote_count_zero (InternalTallies (iv s) !! pid)).
Hypothesis Hiv : iv s1 = set_InternalTallies (insert pid tally)
  (set_InternalVotesByTicket (insert (pid, t) b) (iv s)).

Lemma cast_other q : q <> pid -> same_ballots q s s1.
Proof.
  intros Hq. split; intros; rewrite ?Hjv, ?Hlv, ?Hel, ?Hiv; simpl; try done;
    rewrite lookup_insert_ne; congruence.
Qed.

Lemma cast_settled p :
  engine_inv s -> Proposals (ve s) !! pid = Some p -> settled K s -> settled (except pid K) s1.
Proof.
  intros Hi Hp. apply settled_cast; [done|by rewrite Hve| |apply cast_other].
  by eapply inv_below.
Qed.

Lemma cast_ok p st :
  internal_ok pid p s -> InternalVotesByTicket (iv s) !! (pid, t) = None ->
  frozen_ticket (ve s) pid p t ->
  (forall thr e y n, InternalThresholdSnapshot (iv s) !! pid = Some thr ->
    eligible_of (ve s) pid p = Some e -> majority e thr -> tallies u32_max y n tally ->
    0 <= y -> 0 <= n -> verdict st y n thr e) ->
  internal_ok pid (set_status st p) s1.
Proof.
  intros [H1 H2 H3 (thr & e & Hthr & He & Hm & _)] Hnew Hfz Hv.
  assert (Hsum : tallies u32_max (votes_for pid true s1) (votes_for pid false s1) tally).
  { unfold votes_for. rewrite Hiv. simpl. rewrite !vote_sum_insert by done.
    pose proof (tallies_add u32_max 1 b _ _ _ ltac:(lia) H1) as Ht. unfold votes_for in Ht.
    rewrite !(Z.add_comm (if decide _ then _ else _)).
    destruct b; rewrite ?(decide_True (P := pid = pid /\ true = true)),
      ?(decide_True (P := pid = pid /\ false = false)), ?(decide_False (P := pid = pid /\ _)); naive_solver. }
  split; rewrite ?Hve.
  - rewrite Hiv. simpl. by rewrite lookup_insert_eq.
  - intros t' v. rewrite Hiv. simpl. intros [[[= <-] <-]|[_ Hx]]%lookup_insert_Some; [done|].
    by eapply H2.
  - done.
  - exists thr, e. rewrite Hiv. split_and!; [done..|]. apply Hv; auto using votes_for_nonneg.
Qed.
End Cast.

Lemma holds_internal_vote who pid claim b :
  holds sound (do_internal_vote who pid claim b) (fun _ => settled K).
Proof.
  intros s [] s' [Hi Hk] Hr. unfold do_internal_vote, ensure_open_proposal in Hr. run_inv.
  destruct x1 as [[[ticket role] eligible] total].
  match goal with H : ticket_claim_of _ _ _ _ _ = _ |- _ =>
    apply ticket_claim_Ok in H as (-> & Htotal & Hticket) end.
  unfold upd_iv, emit in *. run_inv.
  match goal with H : InternalThresholdSnapshot _ !! _ = Some ?x |- _ => rename x into thr end.
  set (tally := add_votes _ _ _ _) in *.
  match goal with H : _ (deposit_event ?e ?s1) = (Ok tt, s') |- _ =>
    set (s2 := deposit_event e s1) in *; rename H into Hr end.
  match goal with H : Proposals _ !! pid = Some ?x |- _ => rename x into p, H into Hp end.
  match goal with H : status p = STATUS_VOTING |- _ => rename H into Hst end.
  assert (Hok : internal_ok pid p s).
  { apply HK; [done|]. apply Hk; [done|]. by apply (open_clean s pid p). }
  assert (Hs2 : settled (except pid K) s2) by by apply (cast_settled pid ticket b s s2 eq_refl eq_refl eq_refl eq_refl eq_refl p).
  assert (Hcast : forall st, (forall e y n, eligible_of (ve s) pid p = Some e -> majority e thr ->
      tallies u32_max y n tally -> 0 <= y -> 0 <= n -> verdict st y n thr e) ->
    K pid (set_status st p) s2).
  { intros st Hv. apply HK; [done|]. apply (cast_ok pid ticket b s s2 eq_refl eq_refl p st);
      [done|by apply eq_None_not_Some|by apply Hticket|]. intros thr' e y n Hthr'. simplify_eq. auto. }
  destruct (thr <=? yes tally) eqn:Hpass.
  { apply (holds_settled_passed K pid p s2 tt s'); [|exact Hr]. split_and!; [done..|].
    intros _. apply Hcast. intros e y n _ Hm Hta _ _.
    by apply (verdict_passed y n thr e tally); [..|apply Z.leb_le]. }
  match type of Hr with (if ?c then _ else _) _ = _ => destruct c eqn:Hlost end.
  - pose proof (settled_set_status K s2 pid STATUS_REJECTED p Hp Hs2) as Hf. rewrite Hr in Hf.
    apply Hf. intros _ _. apply Hcast. intros e y n _ Hm Hta _ _.
    apply (verdict_rejected y n thr e tally); [done..|]. lia.
  - run_inv. apply (settled_cast_back K pid); [done|]. intros p' Hp'.
    assert (p' = set_status STATUS_VOTING p) as ->.
    { change (Proposals (ve s) !! pid = Some p') in Hp'. rewrite Hp in Hp'. injection Hp' as <-.
      rewrite <- Hst. by destruct p. }
    apply Hcast. intros e y n He Hm Hta Hy Hn. assert (e = total) as -> by congruence.
    apply (verdict_open y n thr total tally); [done..|lia|lia].
Qed.

Lemma settled_internal_timeout p pid s :
  Proposals (ve s) !! pid = Some p -> kind p = PROPOSAL_KIND_INTERNAL -> settled K s ->
  settled K (do_finalize_internal_timeout p pid s).2.
Proof.
  intros Hp Hk Hs. unfold do_finalize_internal_timeout.
  destruct (bool_decide (stage p = _)); autorewrite with run; [|done].
  destruct (bool_decide (status p = _)); autorewrite with run; [|done].
  destruct (end_block p <? block_number s); autorewrite with run; [|done].
  apply (settled_rejected K pid p); [done|done|]. intros Hst Hc.
  apply HK; [done|]. apply internal_ok_status; [by rewrite Hst|done|]. apply HK; [done|].
  by apply Hs.
Qed.

Lemma settled_internal_finalize p pid s :
  Proposals (ve s) !! pid = Some p -> settled K s ->
  settled K (internal_finalize_timeout p pid s).2.
Proof.
  intros Hp Hs. unfold internal_finalize_timeout, internal_handles.
  destruct (bool_decide (kind p = _)) eqn:Hk; [|done]. apply bool_decide_eq_true in Hk.
  rewrite sbind_run. cbn [mret St_ret fst snd].
  destruct (decide (stage p = STAGE_INTERNAL)); [by apply settled_internal_timeout|done].
Qed.

(** ** Creation *)

Definition both s0 s : Prop := good s0 s /\ settled K s.

(** The two halves of [both] are established one by one. *)
Lemma holds_both {A} s0 (m : RM W A) :
  holds (good s0) m (fun _ => good s0) -> holds (both s0) m (fun _ => settled K) ->
  holds (both s0) m (fun _ => both s0).
Proof. intros H1 H2 s a s' [Hg Hk] Hr. split; [by eapply H1|by eapply H2]. Qed.

Lemma ensure_dynamic_Ok n t u :
  ensure_dynamic_threshold n t = Ok u -> n <= u32_max -> majority n t.
Proof.
  unfold ensure_dynamic_threshold, guard_ok. destruct (2 <=? n) eqn:H1; simpl; [|done].
  destruct ((0 <? t) && (t <=? n) && (n <? saturating_mul u64_max t 2)) eqn:H2; [|done].
  unfold saturating_mul in H2. intros _ Hn. unfold majority. lia.
Qed.

Lemma holds_lock_growing s0 p k :
  engine_inv s0 -> clock_ok s0 ->
  holds (both s0) (allocate_and_lock p k : RM W Z) (fun id => growing K id).
Proof.
  intros Hi Hc. unfold allocate_and_lock, try_add_active_proposals.
  eapply holds_bind; [exact (holds_allocate_growing K s0 Hi Hc)|]. intros id.
  apply (holds_weaken (growing K id)); [by intros s [_ ?]|].
  do 2 (apply holds_keep; [apply preserves_for_each; auto with preserves|intros _]).
  by apply holds_ret.
Qed.

Lemma growing_snapshot_plan id plan :
  preserves (growing K id) (snapshot_plan_voters id plan : RM W unit).
Proof.
  unfold snapshot_plan_voters. apply preserves_for_each. intros []; [|apply preserves_throw].
  apply preserves_bind; [apply preserves_gets|intros; by apply growing_role_voters].
Qed.

Lemma settled_schedule_expiry id e :
  preserves (settled K) (schedule_proposal_expiry id e : RM W unit).
Proof. unfold schedule_proposal_expiry, push_expiry. solve_good. Qed.

(** A proposal is complete: no vote, a majority of its tickets as threshold. *)
Lemma finish_ok id p t e s :
  kind p = PROPOSAL_KIND_INTERNAL -> status p = STATUS_VOTING -> blank id s ->
  frozen_wf id (ve s) -> InternalThresholdSnapshot (iv s) !! id = Some t ->
  eligible_of (ve s) id p = Some e -> majority e t -> K id p s.
Proof.
  intros Hk Hst [Hbv Hbt _ _ _ _ _ _ _ _] Hf Ht He Hm. apply HK; [done|].
  assert (Hz : forall b, votes_for id b s = 0) by (intros; by apply vote_sum_blank).
  split.
  - by rewrite !Hz, Hbt.
  - intros x v. by rewrite Hbv.
  - done.
  - exists t, e. split_and!; [done..|]. rewrite !Hz, Hst. destruct Hm as (? & ? & ?).
    split; [intros _; lia|by intros [|[|]]|done].
Qed.

Lemma holds_finish_settled id p end_ t r e :
  kind p = PROPOSAL_KIND_INTERNAL -> status p = STATUS_VOTING -> majority e t ->
  holds (fun s => growing K id s /\ eligible_of (ve s) id p = Some e)
    (finish_proposal_create id p end_ t r) (fun _ => settled K).
Proof.
  intros Hk Hst Hm. unfold finish_proposal_create. intros s i s' [Hg He] Hr.
  unfold upd_iv, upd in Hr. do 3 (apply bind_Ok in Hr as (? & ? & Hr' & Hr); apply modify_Ok in Hr'; subst).
  match type of Hr with _ ?s1 = _ => assert (Hs1 : settled K s1) end.
  { apply (growing_settled K id).
    - apply (growing_insert K). do 2 (apply (growing_iv K); [intros q Hq; split; intros; simpl; try done;
        by rewrite lookup_insert_ne|by intros []; split|]). done.
    - intros p' Hp'. simpl in Hp'. rewrite lookup_insert_eq in Hp'. injection Hp' as <-.
      apply (finish_ok id p t e); [done..| | | |done|done].
      + by destruct Hg as [_ _ [] _ _].
      + by destruct (gr_frozen _ _ _ Hg).
      + simpl. by rewrite lookup_insert_eq. }
  revert Hr. apply (holds_preserves (settled K)); [|done].
  pose proof settled_schedule_expiry. solve_good.
Qed.

Section Started.
Context (s0 : rt W) (Hi : engine_inv s0) (Hc : clock_ok s0).
(** [MaxAdminsPerInstitution] is a [u32]. *)
Hypothesis Hmax : MaxAdminsPerInstitution <= u32_max.

Lemma settled_institution who code cid acct subs k r plan :
  holds (both s0) (do_create_institution_proposal_with_mutex who code cid acct subs k r plan)
    (fun _ => settled K).
Proof.
  unfold do_create_institution_proposal_with_mutex, ensure_institution_vote_plan.
  do 6 (apply holds_keep; [solve_preserves_with fail|intros]). apply holds_transact.
  eapply holds_bind; [by apply holds_lock_growing|]. intros id. cbn beta.
  apply holds_keep; [apply growing_snapshot_plan|intros _].
  intros s i s' Hg Hr. run_inv.
  match goal with H : institution_ticket_count _ _ _ = Some ?n |- _ => rename n into e, H into He end.
  match goal with H : ensure_dynamic_threshold _ _ = Ok _ |- _ =>
    apply ensure_dynamic_Ok in H as Hm end.
  2: { by destruct (fw_bound _ _ (gr_frozen _ _ _ Hg) _ _ He). }
  match goal with H : finish_proposal_create _ _ _ _ _ _ = _ |- _ => rename H into Hfin end.
  eapply (holds_finish_settled id _ _ _ _ e); [..|exact Hfin]; [done..|]. by split.
Qed.

Lemma settled_active_personal who a k r force :
  holds (both s0) (do_create_active_personal_proposal who a k r force) (fun _ => settled K).
Proof.
  unfold do_create_active_personal_proposal, snapshot_admins_len_or_missing.
  apply holds_keep; [solve_preserves_with fail|intros now]. apply holds_transact.
  eapply holds_bind; [by apply holds_lock_growing|]. intros id. cbn beta.
  apply holds_keep; [by apply growing_personal_admins|intros _].
  intros s i s' Hg Hr. run_inv.
  match goal with H : snapshot_admins_len _ _ _ = Some ?n |- _ => rename n into e, H into He end.
  match goal with H : _ = (Ok ?t, ?s1) |- _ => rename t into thr;
    assert (s1 = s) as -> by (destruct force; by run_inv) end.
  assert (Hle : 0 < e <= u32_max).
  { unfold snapshot_admins_len in He. destruct (AdminSnapshot (ve s) !! _) as [l|] eqn:Hl; [|done].
    injection He as <-. destruct (fw_admins _ _ (gr_frozen _ _ _ Hg) _ _ Hl) as (Hn & _ & Hl3).
    destruct l; [done|]. split; [done|]. by etransitivity. }
  assert (Hm : majority e thr).
  { destruct force; [|by eapply ensure_dynamic_Ok; [eassumption|lia]].
    match goal with H : ensure_all_admin_threshold _ _ = Ok _ |- _ =>
      unfold ensure_all_admin_threshold, guard_ok in H;
      destruct ((0 <? e) && (thr =? e)) eqn:Heq; [|done] end. unfold majority. lia. }
  match goal with H : finish_proposal_create _ _ _ _ _ _ = _ |- _ => rename H into Hfin end.
  eapply (holds_finish_settled id _ _ _ _ e); [..|exact Hfin]; [done..|]. by split.
Qed.

Lemma settled_personal_account_create who a admins t :
  holds (both s0) (do_create_personal_account_create_proposal who a admins t)
    (fun _ => settled K).
Proof.
  unfold do_create_personal_account_create_proposal, upd, upd_iv. intros s i s' Hs Hr. run_inv.
  match goal with H : allocate_and_lock _ _ _ = (Ok ?x, ?s1) |- _ => rename x into id, s1 into s1;
    apply (holds_lock_growing s0 _ _ Hi Hc s id s1 Hs) in H as Hg end.
  match goal with H : bounded_list _ _ = Some _ |- _ => apply bounded_list_Some in H as [-> Hlen] end.
  assert (Hnd : NoDup admins) by by apply no_repeats_spec.
  assert (Hmod : Z.of_nat (length admins) mod 2 ^ 32 = Z.of_nat (length admins)).
  { apply Z.mod_small. split; [lia|]. change (2 ^ 32) with (u32_max + 1). clear - Hmax Hlen. lia. }
  rewrite Hmod in *.
  match goal with H : ensure_dynamic_threshold _ _ = _ |- _ =>
    apply ensure_dynamic_Ok in H as Hm; [|by etransitivity] end.
  match goal with H : finish_proposal_create _ _ _ _ _ _ = _ |- _ => rename H into Hfin end.
  eapply (holds_finish_settled id _ _ _ _ (Z.of_nat (length admins))); [..|exact Hfin]; [done..| |].
  { destruct Hm as [? [? ?]]. unfold majority. lia. }
  split.
  - apply (growing_iv K); [intros; by split|by intros []; split|].
    by apply (growing_admins K).
  - unfold eligible_of, snapshot_admins_len. simpl. by rewrite lookup_insert_eq.
Qed.

Lemma settled_register_approve who pid tag data :
  holds (both s0) (register_data_and_auto_approve who pid tag data) (fun _ => settled K).
Proof.
  unfold register_data_and_auto_approve.
  apply holds_keep; [solve_preserves_with fail|intros now].
  eapply holds_bind; [apply (holds_both s0 (register_proposal_data _ _ _ _))|].
  { apply holds_register. }
  { apply (holds_weaken (settled K)); [by intros s [_ ?]|].
    apply holds_preserves. by apply settled_register. }
  intros []. unfold proposer_claim. do 3 (apply holds_keep; [solve_preserves_with fail|intros]).
  apply (holds_bind _ _ _ (fun _ => settled K)).
  - case_match; [|by apply holds_ret; intros s [_ ?]].
    apply (holds_weaken sound); [intros s [Hg Hk]; split; [apply Hg|done]|].
    apply holds_internal_vote.
  - intros []. apply holds_preserves. apply preserves_ret.
Qed.

Lemma settled_bind_register who pid plan data :
  holds (both s0) (bind_and_register who pid plan data) (fun _ => settled K).
Proof.
  unfold bind_and_register.
  apply holds_keep; [|intros; apply settled_register_approve].
  intros s [Hg Hs]. split; [by apply good_bind_plan|by apply settled_bind_plan].
Qed.

(** Every creation, as the business modules call it. *)
Lemma settled_create (m : RM W Z) (f : Z -> RM W Z) :
  holds (good s0) m (fun _ => good s0) -> holds (both s0) m (fun _ => settled K) ->
  (forall id, holds (both s0) (f id) (fun _ => settled K)) ->
  holds (both s0) (m ≫= f) (fun _ => settled K).
Proof. intros Hg Hk Hf. eapply holds_bind; [by apply holds_both|done]. Qed.

Lemma settled_create_institution who code cid acct subs plan data :
  holds (both s0) (create_institution_proposal_with_data who code cid acct subs plan data)
    (fun _ => settled K).
Proof.
  apply holds_transact. apply holds_keep; [solve_preserves_with fail|intros _].
  apply settled_create; [by apply holds_institution|apply settled_institution|].
  intros. apply settled_bind_register.
Qed.

Lemma settled_create_institution_admin_change who code cid plan data :
  holds (both s0) (create_institution_admin_change_proposal_with_data who code cid plan data)
    (fun _ => settled K).
Proof.
  apply holds_transact. apply holds_keep; [solve_preserves_with fail|intros _].
  apply settled_create; [by apply holds_institution|apply settled_institution|].
  intros. apply settled_bind_register.
Qed.

Lemma settled_ensure_admin a who : preserves (both s0) (ensure_personal_admin a who).
Proof. unfold ensure_personal_admin. solve_preserves_with fail. Qed.
Lemma good_ensure_admin a who : preserves (good s0) (ensure_personal_admin a who).
Proof. unfold ensure_personal_admin. solve_preserves_with fail. Qed.

Lemma settled_create_personal who a tag data :
  holds (both s0) (create_personal_proposal_with_data who a tag data) (fun _ => settled K).
Proof.
  apply holds_transact. apply settled_create; [..|intros; apply settled_register_approve];
    unfold do_create_personal_proposal.
  - apply holds_keep; [apply good_ensure_admin|intros; by apply holds_active_personal].
  - apply holds_keep; [apply settled_ensure_admin|intros; apply settled_active_personal].
Qed.

Lemma settled_create_personal_lifecycle who a tag data :
  holds (both s0) (create_personal_lifecycle_proposal_with_data who a tag data)
    (fun _ => settled K).
Proof.
  apply holds_transact. apply settled_create; [..|intros; apply settled_register_approve];
    unfold do_create_personal_lifecycle_proposal.
  - apply holds_keep; [apply good_ensure_admin|intros; by apply holds_active_personal].
  - apply holds_keep; [apply settled_ensure_admin|intros; apply settled_active_personal].
Qed.

Lemma settled_create_personal_account who a admins t tag data :
  holds (both s0) (create_personal_account_create_proposal_with_data who a admins t tag data)
    (fun _ => settled K).
Proof.
  apply holds_transact. apply settled_create; [..|intros; apply settled_register_approve].
  - by apply holds_personal_account_create.
  - apply settled_personal_account_create.
Qed.

(** Only the thresholds of pending administrator changes are written. *)
Lemma settled_pending_change id x :
  preserves (settled K) (upd_iv (set_PendingPersonalAdminChangeThresholds (insert id x)) : RM W unit).
Proof. intros s Hs. by apply (settled_view K s). Qed.

Lemma settled_create_personal_admin_change who a n t tag data :
  holds (both s0) (create_personal_admin_change_proposal_with_data who a n t tag data)
    (fun _ => settled K).
Proof.
  apply holds_transact. apply settled_create; [..|intros; apply settled_register_approve];
    unfold do_create_personal_admin_change_proposal;
    (apply holds_keep; [solve_preserves_with fail|intros _]).
  - apply holds_keep; [apply good_ensure_admin|intros _].
    eapply holds_bind; [by apply holds_active_personal|]. intros. apply holds_preserves. solve_good.
  - apply holds_keep; [apply settled_ensure_admin|intros _].
    apply (holds_bind _ _ _ (fun _ => settled K)); [apply settled_active_personal|].
    intros id. apply holds_preserves. apply preserves_bind; [apply settled_pending_change|].
    intros. apply preserves_ret.
Qed.
End Started.
End InternalBallots.

(** ** The hooks of the track keep the ballots *)

Lemma same_ballots_trans {W} q (s1 s2 s3 : rt W) :
  same_ballots q s1 s2 -> same_ballots q s2 s3 -> same_ballots q s1 s3.
Proof.
  intros [] []. split; intros; try congruence;
    [by eapply same_legislation_trans|by eapply same_election_trans].
Qed.

Section TrackHooks.
Context `{Wt : Weights} `{Cfg : !Config} `{Ord : StorageOrder} {W : Type}.

(** What [TrackBallots] asks of one handler of a tuple. *)
Record track_ballots (T : TrackHandler W) : Prop := {
  tk_executed : forall kind pid q s, same_ballots q s (on_proposal_executed_of T kind pid s).2;
  tk_terminal : forall kind pid st q s, same_ballots q s (on_proposal_terminal_of T kind pid st s).2;
  tk_chunk : forall kind pid limit q s, q <> pid ->
    same_ballots q s (cleanup_chunk_of T kind pid limit s).2;
  tk_cleanup : forall kind pid q s, q <> pid ->
    same_ballots q s (cleanup_terminal_of T kind pid s).2;
}.

Lemma same_ballots_sbind {A B} q (m : RS W A) (f : A -> RS W B) :
  (forall s, same_ballots q s (m s).2) -> (forall a s, same_ballots q s (f a s).2) ->
  forall s, same_ballots q s ((m ≫= f) s).2.
Proof. intros Hm Hf s. rewrite sbind_run. eapply same_ballots_trans; [apply Hm|apply Hf]. Qed.

Lemma same_ballots_or_else {A} q (m1 m2 : RS W (option A)) :
  (forall s, same_ballots q s (m1 s).2) -> (forall s, same_ballots q s (m2 s).2) ->
  forall s, same_ballots q s (or_else m1 m2 s).2.
Proof. intros H1 H2. apply same_ballots_sbind; [done|]. by intros []. Qed.

Lemma same_ballots_when {A} q b (m : RS W A) :
  (forall s, same_ballots q s (m s).2) -> forall s, same_ballots q s (when_handled b m s).2.
Proof. intros Hm. destruct b; [by apply same_ballots_sbind|done]. Qed.

Lemma tracks_unit_ballots : TrackBallots (tracks_unit : ProposalTracks W).
Proof. by split. Qed.

Lemma tracks_cons_ballots (head : TrackHandler W) (tail : ProposalTracks W) :
  track_ballots head -> TrackBallots tail -> TrackBallots (tracks_cons head tail).
Proof.
  intros [H1 H2 H3 H4] [T1 T2 T3 T4].
  split; intros; simpl; try (apply same_ballots_or_else; auto).
  apply same_ballots_sbind; [auto|]. intros []; [done|auto].
Qed.

(** The thresholds of the accounts are not ballots. *)
Lemma ballots_upd_iv q s0 f :
  (forall g, InternalVotesByTicket (f g) = InternalVotesByTicket g /\
    InternalTallies (f g) = InternalTallies g /\
    InternalThresholdSnapshot (f g) = InternalThresholdSnapshot g) ->
  preserves (same_ballots q s0) (upd_iv f : RM W unit).
Proof.
  intros Hf s Hs. apply (same_ballots_trans q s0 s); [done|].
  destruct (Hf (iv s)) as (H1 & H2 & H3). split; intros; simpl; rewrite ?H1, ?H2, ?H3; done.
Qed.

Lemma internal_track_ballots : track_ballots (internal_track : TrackHandler W).
Proof.
  assert (Hp : forall q (m : RM W unit), (forall s0, preserves (same_ballots q s0) m) ->
    forall s, same_ballots q s (m s).2) by (intros q m Hm s; by apply (Hm s)).
  split; intros *; simpl; [| |intros Hq|intros Hq]; apply same_ballots_when; intros s1.
  - apply (Hp q (apply_executed_threshold_side_effect pid)). intros s0.
    unfold apply_executed_threshold_side_effect, proposal_personal_account.
    repeat (intros; first [solve_preserves_step fail|by apply ballots_upd_iv]).
  - apply (Hp q (apply_terminal_threshold_cleanup pid st)). intros s0.
    unfold apply_terminal_threshold_cleanup.
    repeat (intros; first [solve_preserves_step fail|by apply ballots_upd_iv]).
  - unfold cleanup_internal_votes_chunk.
    pose proof (fun k => clear_prefix_other pid limit q k (InternalVotesByTicket (iv s1)) Hq) as Ho.
    destruct (clear_prefix _ _ _) as [m r]. split; intros; simpl; [apply Ho|done..].
  - split; intros; simpl; try done; by rewrite lookup_delete_ne.
Qed.
End TrackHooks.

(** ** No more ballots than tickets *)

Section Within.
Context `{Wt : Weights} `{Cfg : !Config} {W : Type}.

Lemma frozen_tickets (s : rt W) pid p e :
  frozen_wf pid (ve s) -> eligible_of (ve s) pid p = Some e ->
  exists L : list InternalVoteTicket, NoDup L /\ Z.of_nat (length L) = e /\
    forall t, t ∈ L <-> frozen_ticket (ve s) pid p t.
Proof.
  intros [Hv Ha Ht _] He. unfold eligible_of, frozen_ticket in *.
  destruct (actor_cid_number p) as [c|].
  - destruct (institution_tickets pid c (VoterSnapshot (ve s))) as (L & HL & Hlen & Hin).
    { intros x l Hl. by apply (Hv x l). }
    exists (TicketInstitution <$> L). split_and!.
    + apply NoDup_fmap_2; [intros ? ? [=]; done|done].
    + rewrite length_fmap, Hlen, <- Ht. unfold institution_ticket_count in He. by rewrite He.
    + intros t. rewrite list_elem_of_fmap. destruct t as [a|it].
      * split; [by intros (? & ? & _)|done].
      * rewrite <- Hin. split; [by intros (? & [= ->] & ?)|by exists it].
  - destruct (execution_account_id p) as [a|]; [|done]. unfold snapshot_admins_len in He.
    destruct (AdminSnapshot (ve s) !! _) as [l|] eqn:Hl; [|done]. simplify_eq/=.
    exists (TicketPersonal <$> l). split_and!.
    + apply NoDup_fmap_2; [intros ? ? [=]; done|]. by apply (Ha _ _ Hl).
    + by rewrite length_fmap.
    + intros t. rewrite list_elem_of_fmap. destruct t as [b|it].
      * split; [intros (? & [= ->] & ?); eauto|]. intros (a' & l' & ? & ? & ?). simplify_eq. eauto.
      * split; [by intros (? & ? & _)|done].
Qed.

(** While fewer votes than tickets are recorded, some ticket is unused. *)
Lemma unused_ticket {A} `{Countable A} (m : gmap (Z * A) bool) pid (L : list A) :
  NoDup L -> (forall t v, m !! (pid, t) = Some v -> t ∈ L) ->
  vote_sum (fun _ => 1) pid true m + vote_sum (fun _ => 1) pid false m < Z.of_nat (length L) ->
  exists t, t ∈ L /\ m !! (pid, t) = None.
Proof.
  intros HL Hin. rewrite !(vote_sum_list _ pid _ m L) by done. clear Hin HL.
  induction L as [|t L IH]; [done|]. unfold list_sum in *. cbn [foldr length]. intros Hlt.
  destruct (m !! (pid, t)) as [v|] eqn:Hv; [|exists t; split; [by left|done]].
  destruct IH as (t' & ? & ?); [|exists t'; split; [by right|done]].
  destruct v; repeat case_decide; simplify_eq; lia.
Qed.
End Within.
