(* ===== verification/JointVote.v ===== *)
(** * Joint votes ([votingengine/joint-vote/src])

    The vote of the 87 founding institutions (one national committee of weight
    19, 43 provincial committees and 43 provincial banks of weight 1:
    [jointinternal.rs]) and the referendum of the citizens that follows unless
    all of them agree ([jointreferendum.rs]). *)
From S2P Require Import Prelude Cid Types State Interfaces Runtime Ids Locks Data.
From S2P Require Import Cleanup Lifecycle Execution Expiry InternalVote.

(** ** Weights and thresholds *)

Definition institution_info (cid_number : string) : option Z :=
  if match CHINA_CB with
     | n :: _ => bool_decide (cb_cid_number n = cid_number)
     | [] => false
     end
  then Some NRC_JOINT_VOTE_WEIGHT
  else if existsb (fun n => bool_decide (cb_cid_number n = cid_number)) (tail CHINA_CB)
  then Some PRC_JOINT_VOTE_WEIGHT
  else if existsb (fun n => bool_decide (ch_cid_number n = cid_number)) CHINA_CH
  then Some PRB_JOINT_VOTE_WEIGHT
  else None.

Definition institution_profile (cid_number : string) : option (InstitutionCode * Z) :=
  if match CHINA_CB with
     | n :: _ => bool_decide (cb_cid_number n = cid_number)
     | [] => false
     end
  then Some (NRC, NRC_JOINT_VOTE_WEIGHT)
  else if existsb (fun n => bool_decide (cb_cid_number n = cid_number)) (tail CHINA_CB)
  then Some (PRC, PRC_JOINT_VOTE_WEIGHT)
  else if existsb (fun n => bool_decide (ch_cid_number n = cid_number)) CHINA_CH
  then Some (PRB, PRB_JOINT_VOTE_WEIGHT)
  else None.

Definition is_joint_unanimous (yes_weight : Z) : bool := JOINT_VOTE_PASS_THRESHOLD <=? yes_weight.

Definition is_jointreferendum_vote_passed (yes_votes eligible_total : Z) : bool :=
  if decide (eligible_total = 0) then false
  else saturating_mul u128_max eligible_total 50 <? saturating_mul u128_max yes_votes 100.

Definition is_jointreferendum_vote_rejected (no_votes eligible_total : Z) : bool :=
  if decide (eligible_total = 0) then false
  else saturating_mul u128_max eligible_total 50 <=? saturating_mul u128_max no_votes 100.

Definition joint_stage_duration : Z := saturated_into BlockNumber_max VOTING_DURATION_BLOCKS.
Definition referendum_stage_duration : Z := saturated_into BlockNumber_max VOTING_DURATION_BLOCKS.

Definition joint_subject_cid_numbers : result DispatchError (list CidNumber) :=
  bound_subject_cid_numbers ((cb_cid_number <$> CHINA_CB) ++ (ch_cid_number <$> CHINA_CH)).

Section JointVote.
Context `{Wt : Weights} `{Cfg : !Config} `{Ord : StorageOrder} {W : Type}
  `{Prov : !Providers W} `{Cb : !Callbacks W} `{Tr : !ProposalTracks W}.

Definition upd_jv (f : joint_store -> joint_store) : RM W unit := modify (set_jv f).

(** ** Creation *)

Definition ensure_vote_plan (actor_cid_number : CidNumber) (who : AccountId)
    (vote_plan : VotePlan) : RM W unit :=
  ensure (bool_decide (voting_engine vote_plan = Joint)) (VotingErr InvalidVotePlan) ;;
  ensure (bool_decide (is_Some (institution_profile actor_cid_number)))
    (VotingErr InvalidInstitution) ;;
  proposer_role ← (match proposer_subject vote_plan with
    | Institution role_subject => mret role_subject
    | PersonalMultisig _ => throw (VotingErr InvalidVotePlan)
    end : RM W RoleSubject);
  ensure (bool_decide (role_cid_number proposer_role = actor_cid_number))
    (VotingErr InvalidVotePlan) ;;
  active ← gets (fun s => is_active_assignment (world s) (role_cid_number proposer_role) who
    (role_code proposer_role));
  ensure active (VotingErr NoPermission) ;;
  expected_cids ← from_result joint_subject_cid_numbers;
  for_each (fun expected_cid =>
    ensure (existsb (fun subject =>
      match subject with
      | Institution role_subject => bool_decide (role_cid_number role_subject = expected_cid)
      | PersonalMultisig _ => false
      end) (voter_subjects vote_plan)) (VotingErr InvalidVotePlan)) expected_cids ;;
  for_each (fun subject =>
    match subject with
    | Institution role_subject =>
        ensure (existsb (fun expected_cid =>
          bool_decide (expected_cid = role_cid_number role_subject)) expected_cids)
          (VotingErr InvalidVotePlan)
    | PersonalMultisig _ => throw (VotingErr InvalidVotePlan)
    end) (voter_subjects vote_plan).

Definition joint_proposal (actor_cid_number : CidNumber) (subjects : list CidNumber)
    (now : Z) : Proposal := {|
  kind := PROPOSAL_KIND_JOINT; stage := STAGE_JOINT; status := STATUS_VOTING;
  internal_code := None; actor_cid_number := Some actor_cid_number;
  execution_account_id := None; subject_cid_numbers := subjects;
  start_block := now; end_block := block_add now joint_stage_duration |}.

(** The first steps (identifier, open-proposal slot, [Regular] mutex, frozen
    voters) are the ones [InternalVote.allocate_and_lock] and
    [InternalVote.snapshot_plan_voters] name. *)
Definition do_create_joint_proposal (who : AccountId) (actor_cid_number : CidNumber)
    (vote_plan : VotePlan) : RM W Z :=
  ensure_vote_plan actor_cid_number who vote_plan ;;
  now ← gets block_number;
  subject_cid_numbers ← from_result joint_subject_cid_numbers;
  transact (
    let proposal := joint_proposal actor_cid_number subject_cid_numbers now in
    id ← allocate_and_lock proposal Regular;
    snapshot_plan_voters id vote_plan ;;
    upd (set_Proposals (insert id proposal)) ;;
    bind_vote_plan id vote_plan ;;
    total ← create_population_snapshot id ScopeCountry;
    ensure (negb (bool_decide (total = 0))) (JointErr CitizenEligibleTotalNotSet) ;;
    schedule_proposal_expiry id (end_block proposal) ;;
    emit_proposal_created id PROPOSAL_KIND_JOINT STAGE_JOINT (end_block proposal) ;;
    mret id).

Definition create_joint_proposal_with_data (who : AccountId) (actor_cid_number : string)
    (vote_plan : VotePlan) (data : string) : RM W Z :=
  transact (
    actor_cid_number ← ok_or (bounded_bytes CID_NUMBER_MAX_BYTES actor_cid_number)
      (VotingErr InvalidInstitution);
    ensure (bool_decide (hash_256 data = business_object_hash vote_plan))
      (VotingErr InvalidVotePlan) ;;
    proposal_id ← do_create_joint_proposal who actor_cid_number vote_plan;
    now ← gets block_number;
    register_proposal_data proposal_id (plan_owner vote_plan) data now ;;
    mret proposal_id).

Definition create_joint_proposal_with_data_and_object (who : AccountId)
    (actor_cid_number : string) (vote_plan : VotePlan) (data : string) (object_kind : Z)
    (object_data : string) : RM W Z :=
  transact (
    actor_cid_number ← ok_or (bounded_bytes CID_NUMBER_MAX_BYTES actor_cid_number)
      (VotingErr InvalidInstitution);
    ensure (bool_decide (hash_256 object_data = business_object_hash vote_plan))
      (VotingErr InvalidVotePlan) ;;
    proposal_id ← do_create_joint_proposal who actor_cid_number vote_plan;
    now ← gets block_number;
    register_proposal_data proposal_id (plan_owner vote_plan) data now ;;
    store_proposal_object proposal_id object_kind object_data ;;
    mret proposal_id).

(** ** The vote of the institutions *)

Definition to_referendum (now : Z) (p : Proposal) : Proposal := {|
  kind := kind p; stage := STAGE_REFERENDUM; status := status p;
  internal_code := internal_code p; actor_cid_number := actor_cid_number p;
  execution_account_id := execution_account_id p;
  subject_cid_numbers := subject_cid_numbers p;
  start_block := now; end_block := block_add now referendum_stage_duration |}.

Definition advance_joint_to_referendum (proposal_id : Z) : RM W unit :=
  now ← gets block_number;
  let referendum_end := block_add now referendum_stage_duration in
  transact (
    eligible_total ← gets (fun s => population_eligible_total_of (ve s) proposal_id);
    eligible_total ← ok_or eligible_total (JointErr CitizenEligibleTotalNotSet);
    proposal ← gets (fun s => Proposals (ve s) !! proposal_id);
    proposal ← ok_or proposal (VotingErr ProposalNotFound);
    upd (set_Proposals (insert proposal_id (to_referendum now proposal))) ;;
    let old_expiry := block_add (end_block proposal) 1 in
    upd (set_ProposalsByExpiry (fun m =>
      <[old_expiry := filter (fun id => id <> proposal_id) (default [] (m !! old_expiry))]> m)) ;;
    schedule_proposal_expiry proposal_id referendum_end ;;
    upd (release_internal_proposal_mutexes proposal_id) ;;
    emit_proposal_advanced_to_referendum proposal_id referendum_end eligible_total).

Definition finalize_joint_institution_vote (proposal_id : Z) (cid_number : CidNumber)
    (approved : bool) : RM W unit :=
  voted ← gets (fun s =>
    bool_decide (is_Some (JointVotesByInstitution (jv s) !! (proposal_id, cid_number))));
  ensure (negb voted) (VotingErr AlreadyVoted) ;;
  weight ← ok_or (institution_info cid_number) (VotingErr InvalidInstitution);
  upd_jv (set_JointVotesByInstitution (insert (proposal_id, cid_number) approved)) ;;
  tally ← gets (fun s => add_votes u32_max weight approved
    (default vote_count_zero (JointTallies (jv s) !! proposal_id)));
  upd_jv (set_JointTallies (insert proposal_id tally)) ;;
  emit (JointInstitutionVoteFinalized proposal_id cid_number approved) ;;
  if approved then
    if is_joint_unanimous (yes tally) then set_status_and_emit proposal_id STATUS_PASSED
    else if JOINT_VOTE_TOTAL <=? saturating_add u32_max (yes tally) (no tally)
    then advance_joint_to_referendum proposal_id
    else mret tt
  else advance_joint_to_referendum proposal_id.

Definition do_joint_vote (who : AccountId) (proposal_id : Z) (cid_number : CidNumber)
    (voter_role_code : RoleCode) (approve : bool) : RM W unit :=
  proposal ← ensure_open_proposal proposal_id;
  ensure (bool_decide (kind proposal = PROPOSAL_KIND_JOINT)) (VotingErr InvalidProposalKind) ;;
  ensure (bool_decide (stage proposal = STAGE_JOINT)) (VotingErr InvalidProposalStage) ;;
  finished ← gets (fun s =>
    bool_decide (is_Some (JointVotesByInstitution (jv s) !! (proposal_id, cid_number))));
  ensure (negb finished) (VotingErr AlreadyVoted) ;;
  '(institution_code, _) ← ok_or (institution_profile cid_number) (VotingErr InvalidInstitution);
  let role_subject := {| role_cid_number := cid_number; role_code := voter_role_code |} in
  let subject := Institution role_subject in
  eligible ← gets (fun s => is_subject_voter_in_snapshot s proposal_id subject who);
  ensure eligible (VotingErr NoPermission) ;;
  voter_account_id ← gets (fun s => default who (resolve_subject_voter (world s) subject who));
  let ticket :=
    {| ticket_role_subject := role_subject; voter_account_id := voter_account_id |} in
  voted ← gets (fun s =>
    bool_decide (is_Some (JointVotesByTicket (jv s) !! (proposal_id, ticket))));
  ensure (negb voted) (VotingErr AlreadyVoted) ;;
  upd_jv (set_JointVotesByTicket (insert (proposal_id, ticket) approve)) ;;
  tally ← gets (fun s => add_votes u32_max 1 approve
    (default vote_count_zero (JointInstitutionTallies (jv s) !! (proposal_id, cid_number))));
  upd_jv (set_JointInstitutionTallies (insert (proposal_id, cid_number) tally)) ;;
  emit (JointInstitutionTicketVoteCast proposal_id cid_number who voter_role_code approve) ;;
  threshold ← ok_or (fixed_governance_pass_threshold institution_code)
    (VotingErr InvalidInstitution);
  voters_len ← gets (fun s => institution_ticket_count (ve s) proposal_id cid_number);
  voters_len ← ok_or voters_len (VotingErr InvalidInstitution);
  if threshold <=? yes tally then finalize_joint_institution_vote proposal_id cid_number true
  else
    let casted_votes := saturating_add u32_max (yes tally) (no tally) in
    let remaining_voters := saturating_sub voters_len casted_votes in
    if saturating_add u32_max (yes tally) remaining_voters <? threshold
    then finalize_joint_institution_vote proposal_id cid_number false
    else mret tt.

Definition do_finalize_joint_timeout (proposal : Proposal) (proposal_id : Z) : RM W unit :=
  ensure (bool_decide (stage proposal = STAGE_JOINT)) (VotingErr InvalidProposalStage) ;;
  ensure (bool_decide (status proposal = STATUS_VOTING)) (VotingErr ProposalAlreadyFinalized) ;;
  now ← gets block_number;
  ensure (end_block proposal <? now) (VotingErr VoteNotExpired) ;;
  tally ← gets (fun s => default vote_count_zero (JointTallies (jv s) !! proposal_id));
  if is_joint_unanimous (yes tally) then set_status_and_emit proposal_id STATUS_PASSED
  else advance_joint_to_referendum proposal_id.

(** ** The referendum *)

Definition do_jointreferendum_vote (who : AccountId) (proposal_id : Z) (approve : bool)
    : RM W unit :=
  proposal ← ensure_open_proposal proposal_id;
  ensure (bool_decide (kind proposal = PROPOSAL_KIND_JOINT)) (VotingErr InvalidProposalKind) ;;
  ensure (bool_decide (stage proposal = STAGE_REFERENDUM)) (VotingErr InvalidProposalStage) ;;
  eligible_total ← gets (fun s => population_eligible_total_of (ve s) proposal_id);
  eligible_total ← ok_or eligible_total (JointErr CitizenEligibleTotalNotSet);
  ensure (0 <? eligible_total) (JointErr CitizenEligibleTotalNotSet) ;;
  voter_subject ← gets (fun s => voting_subject_at_population_snapshot s proposal_id who);
  voter_subject ← ok_or voter_subject (JointErr CitizenNotEligible);
  let voter_cid_number := citizen_cid_number voter_subject in
  voted ← gets (fun s =>
    bool_decide (is_Some (ReferendumVotesByCid (jv s) !! (proposal_id, voter_cid_number))));
  ensure (negb voted) (VotingErr AlreadyVoted) ;;
  current_tally ← gets (fun s =>
    default vote_count_zero (ReferendumTallies (jv s) !! proposal_id));
  ensure (saturating_add u64_max (yes current_tally) (no current_tally) <? eligible_total)
    (JointErr ReferendumSnapshotExhausted) ;;
  upd_jv (set_ReferendumVotesByCid (insert (proposal_id, voter_cid_number)
    {| voter_subject := voter_subject; ticket_approve := approve |})) ;;
  tally ← gets (fun s => add_votes u64_max 1 approve
    (default vote_count_zero (ReferendumTallies (jv s) !! proposal_id)));
  upd_jv (set_ReferendumTallies (insert proposal_id tally)) ;;
  emit (ReferendumVoteCast proposal_id voter_subject approve) ;;
  if is_jointreferendum_vote_passed (yes tally) eligible_total
  then set_status_and_emit proposal_id STATUS_PASSED
  else if is_jointreferendum_vote_rejected (no tally) eligible_total
  then set_status_and_emit proposal_id STATUS_REJECTED
  else mret tt.

Definition do_finalize_jointreferendum_timeout (proposal : Proposal) (proposal_id : Z)
    : RM W unit :=
  ensure (bool_decide (stage proposal = STAGE_REFERENDUM)) (VotingErr InvalidProposalStage) ;;
  ensure (bool_decide (status proposal = STATUS_VOTING)) (VotingErr ProposalAlreadyFinalized) ;;
  now ← gets block_number;
  ensure (end_block proposal <? now) (VotingErr VoteNotExpired) ;;
  tally ← gets (fun s => default vote_count_zero (ReferendumTallies (jv s) !! proposal_id));
  eligible_total ← gets (fun s => population_eligible_total_of (ve s) proposal_id);
  eligible_total ← ok_or eligible_total (JointErr CitizenEligibleTotalNotSet);
  set_status_and_emit proposal_id
    (if is_jointreferendum_vote_passed (yes tally) eligible_total
     then STATUS_PASSED else STATUS_REJECTED).

(** ** Cleanup and the track handler *)

Definition cleanup_joint_admin_votes_chunk (proposal_id limit : Z) : RS W (Z * bool) := fun s =>
  let '(m, r) := clear_prefix proposal_id limit (JointVotesByTicket (jv s)) in
  (r, set_jv (set_JointVotesByTicket (fun _ => m)) s).
Definition cleanup_joint_institution_votes_chunk (proposal_id limit : Z)
    : RS W (Z * bool) := fun s =>
  let '(m, r) := clear_prefix proposal_id limit (JointVotesByInstitution (jv s)) in
  (r, set_jv (set_JointVotesByInstitution (fun _ => m)) s).
Definition cleanup_joint_institution_tallies_chunk (proposal_id limit : Z)
    : RS W (Z * bool) := fun s =>
  let '(m, r) := clear_prefix proposal_id limit (JointInstitutionTallies (jv s)) in
  (r, set_jv (set_JointInstitutionTallies (fun _ => m)) s).
Definition cleanup_referendum_votes_chunk (proposal_id limit : Z) : RS W (Z * bool) := fun s =>
  let '(m, r) := clear_prefix proposal_id limit (ReferendumVotesByCid (jv s)) in
  (r, set_jv (set_ReferendumVotesByCid (fun _ => m)) s).

Definition cleanup_joint_terminal (proposal_id : Z) : RS W unit :=
  smodify (set_jv (fun g =>
    set_ReferendumTallies (delete proposal_id) (set_JointTallies (delete proposal_id) g))).

(** One table of the chunk after the tables before it removed [removed]
    keys: [Some] of the chunk's result, or [None] to go on. *)
Definition joint_chunk_step (table : Z -> Z -> RS W (Z * bool)) (proposal_id limit removed : Z)
    : RS W (Z * bool) :=
  '(unique, more) ← table proposal_id (saturating_sub limit removed);
  let removed := saturating_add u32_max removed unique in
  mret (removed, more || (limit <=? removed)).

Definition joint_cleanup_chunk (proposal_id limit : Z) : RS W (Z * bool) :=
  let limit := Z.max limit 1 in
  '(removed, stop) ← joint_chunk_step cleanup_joint_admin_votes_chunk proposal_id limit 0;
  if (stop : bool) then mret (removed, true) else
  '(removed, stop) ←
    joint_chunk_step cleanup_joint_institution_votes_chunk proposal_id limit removed;
  if (stop : bool) then mret (removed, true) else
  '(removed, stop) ←
    joint_chunk_step cleanup_joint_institution_tallies_chunk proposal_id limit removed;
  if (stop : bool) then mret (removed, true) else
  '(unique, more) ← cleanup_referendum_votes_chunk proposal_id (saturating_sub limit removed);
  mret (saturating_add u32_max removed unique, more).

Definition joint_handles (kind : Z) : bool := bool_decide (kind = PROPOSAL_KIND_JOINT).

Definition joint_finalize_timeout (proposal : Proposal) (proposal_id : Z)
    : RS W (option (result DispatchError unit)) :=
  if joint_handles (kind proposal) then
    r ← (if decide (stage proposal = STAGE_JOINT)
         then attempt (do_finalize_joint_timeout proposal proposal_id)
         else if decide (stage proposal = STAGE_REFERENDUM)
         then attempt (do_finalize_jointreferendum_timeout proposal proposal_id)
         else mret (Err (VotingErr InvalidProposalStage)));
    mret (Some r)
  else mret None.

Definition joint_track : TrackHandler W := {|
  handles := joint_handles;
  cleanup_chunk_of := fun kind proposal_id limit =>
    when_handled (joint_handles kind) (joint_cleanup_chunk proposal_id limit);
  cleanup_terminal_of := fun kind proposal_id =>
    when_handled (joint_handles kind) (cleanup_joint_terminal proposal_id);
  timeout_weight_of := fun stage =>
    if decide (stage = STAGE_JOINT) then Some wi_finalize_joint_timeout
    else if decide (stage = STAGE_REFERENDUM) then Some wi_finalize_referendum_timeout
    else if decide (stage = u8_max)
    then Some (w_max wi_finalize_joint_timeout wi_finalize_referendum_timeout)
    else None;
  cleanup_chunk_weight_of := fun kind limit =>
    if decide (kind = PROPOSAL_KIND_JOINT \/ kind = u8_max) then
      let limit := Z.max limit 1 in
      Some (w_add (w_add (from_parts 12000000 6000) (w_mul (from_parts 1200000 2700) limit))
        (db_reads_writes (saturating_add u64_max limit 4) limit))
    else None;
  cleanup_terminal_weight_of := fun kind =>
    if decide (kind = PROPOSAL_KIND_JOINT \/ kind = u8_max)
    then Some (w_add (from_parts 10000000 8000) (db_writes 3)) else None;
  (** The trait's default hooks. *)
  on_proposal_executed_of := fun kind _ =>
    mret (if joint_handles kind then Some (Ok tt) else None);
  on_proposal_terminal_of := fun kind _ _ =>
    mret (if joint_handles kind then Some (Ok tt) else None);
|}.
End JointVote.
