(* ===== verification/ElectionVote.v ===== *)
(** * Elections ([votingengine/election-vote/src])

    The general election by the citizens of a frozen population
    ([popular.rs]) and the mutual election inside an institution by the
    frozen holders of its roles ([mutual.rs]): creation and ballots
    ([lib.rs]), the snapshot of the candidates ([snapshot.rs]), the count
    ([tally.rs]), removal and the track handler ([cleanup.rs]). *)
From S2P Require Import Prelude Cid Types TrackTypes State Interfaces Runtime Ids Locks Data.
From S2P Require Import Cleanup Lifecycle Execution Expiry InternalVote.

(** The constants and weights of [election_vote::Config]. *)
Class ElectionConfig `{Weights} : Type := {
  MaxElectionCandidates : Z;
  wi_cast_popular_vote : Z -> weight;
  wi_cast_mutual_vote : Z -> weight;
}.

(** ** The count ([tally.rs]) *)

Abbreviation counted := (CitizenSubject * Z)%type.

(** [iter().map(votes).max()]. *)
Definition max_votes (remaining : list counted) : option Z :=
  match remaining with
  | [] => None
  | c :: rest => Some (foldr (fun d acc => Z.max d.2 acc) c.2 rest)
  end.

(** [enumerate().filter_map(..)]: the positions of the candidates with [max]
    votes, counted from [i]. *)
Fixpoint tied_from (i : nat) (max : Z) (remaining : list counted) : list nat :=
  match remaining with
  | [] => []
  | (_, votes) :: rest =>
      if decide (votes = max) then i :: tied_from (S i) max rest
      else tied_from (S i) max rest
  end.

(** [n as u16]. *)
Definition as_u16 (n : nat) : Z := Z.of_nat n mod 2 ^ 16.

(** The [for (offset, idx) in tied] loop; [None] is the panic of
    [Vec::remove] at a position the vector does not have. *)
Fixpoint elect_tied (tied : list nat) (offset : nat) (seat : Z) (remaining : list counted)
    (winners : list ElectionWinner) : option (list counted * list ElectionWinner) :=
  match tied with
  | [] => Some (remaining, winners)
  | idx :: tied =>
      match remaining !! (idx - offset)%nat with
      | None => None
      | Some (candidate_subject, votes) =>
          elect_tied tied (S offset) seat (delete (idx - offset)%nat remaining)
            (winners ++ [{| winner_subject := candidate_subject; winner_votes := votes;
                            seat_index := seat + as_u16 offset |}])
      end
  end.

(** The [while seat_index < seat_count] loop; [None] is a panic, or the fuel
    running out. *)
Fixpoint select_loop (fuel : nat) (seat_count seat : Z) (remaining : list counted)
    (winners : list ElectionWinner) : option (result unit (list ElectionWinner)) :=
  if decide (seat < seat_count) then
    match fuel with
    | O => None
    | S fuel =>
        match max_votes remaining with
        | None => Some (Err tt)
        | Some max =>
            if decide (max = 0) then Some (Err tt)
            else
              let tied := tied_from 0 max remaining in
              let remaining_seats := saturating_sub seat_count seat in
              if decide (remaining_seats < Z.of_nat (length tied)) then Some (Err tt)
              else
                match elect_tied tied 0 seat remaining winners with
                | None => None
                | Some (remaining, winners) =>
                    select_loop fuel seat_count
                      (saturating_add u16_max seat (as_u16 (length tied))) remaining winners
                end
        end
    end
  else Some (Ok winners).

(** Each round fills a seat: [seat_count] rounds are enough. *)
Definition select_winners (candidates : list counted) (seat_count : Z)
    : option (result unit (list ElectionWinner)) :=
  select_loop (Z.to_nat seat_count) seat_count 0 candidates [].

(** ** Candidates ([snapshot.rs]) *)

(** The loops over [i] and over the [j] after [i]. *)
Fixpoint ensure_unique_candidate_cids (candidates : list CitizenSubject)
    : result DispatchError unit :=
  match candidates with
  | [] => Ok tt
  | c :: rest =>
      guard_ok (forallb (fun d =>
        negb (bool_decide (citizen_cid_number c = citizen_cid_number d))) rest)
        (ElectionErr DuplicateCandidateCid) ;;
      ensure_unique_candidate_cids rest
  end.

Section ElectionVote.
Context `{Wt : Weights} `{Cfg : !Config} `{ECfg : !ElectionConfig} `{Ord : StorageOrder}
  {W : Type} `{Prov : !Providers W} `{Cb : !Callbacks W} `{Tr : !ProposalTracks W}.

Definition upd_el (f : election_store -> election_store) : RM W unit := modify (set_el f).

Definition election_stage_duration : Z := saturated_into BlockNumber_max VOTING_DURATION_BLOCKS.

Definition resolve_subject_cid_numbers (actor_cid_number : CidNumber) (vote_plan : VotePlan)
    : result DispatchError (list CidNumber) :=
  bound_subject_cid_numbers (actor_cid_number ::
    omap (fun subject =>
      match subject with
      | Institution role => Some (role_cid_number role)
      | PersonalMultisig _ => None
      end) (voter_subjects vote_plan)).

Definition bounded_candidates (candidates : list CitizenSubject) (scope : PopulationScope)
    : RM W (list CitizenSubject) :=
  ensure (negb (bool_decide (candidates = []))) (ElectionErr EmptyCandidateSnapshot) ;;
  from_result (ensure_unique_candidate_cids candidates) ;;
  valid ← gets (fun s => forallb (fun candidate => bool_decide
    (candidate_subject (world s) (citizen_account_id candidate) scope = Some candidate))
    candidates);
  ensure valid (ElectionErr CandidateSubjectInvalid) ;;
  ok_or (bounded_list MaxElectionCandidates candidates) (ElectionErr TooManyCandidates).

Definition candidate_exists (e : election_store) (proposal_id : Z) (candidate : CitizenSubject)
    : bool :=
  match ElectionCandidates e !! proposal_id with
  | Some items => existsb (fun item => bool_decide (item = candidate)) items
  | None => false
  end.

(** ** Creation *)

(** The population the candidates must belong to, with the shape of the plan
    each mode asks for. *)
Definition candidate_scope (mode : ElectionMode) (population_scope : option PopulationScope)
    (actor_cid_number : CidNumber) (vote_plan : VotePlan) : RM W PopulationScope :=
  match mode, population_scope with
  | Popular, Some scope =>
      ensure (bool_decide (voter_subjects vote_plan = [])) (ElectionErr ElectionInvalidVotePlan) ;;
      mret scope
  | Mutual, None =>
      ensure (negb (bool_decide (voter_subjects vote_plan = []))
        && forallb (fun subject =>
             match subject with
             | Institution role => bool_decide (role_cid_number role = actor_cid_number)
             | PersonalMultisig _ => false
             end) (voter_subjects vote_plan)) (ElectionErr ElectionInvalidVotePlan) ;;
      mret ScopeCountry
  | _, _ => throw (ElectionErr ElectionScopeMissing)
  end.

Definition election_proposal (mode : ElectionMode) (actor_code : InstitutionCode)
    (actor_cid_number : CidNumber) (subjects : list CidNumber) (now : Z) : Proposal := {|
  kind := PROPOSAL_KIND_ELECTION; stage := mode_stage mode; status := STATUS_VOTING;
  internal_code := Some actor_code; actor_cid_number := Some actor_cid_number;
  execution_account_id := None; subject_cid_numbers := subjects;
  start_block := now; end_block := block_add now election_stage_duration |}.

(** The voter list of every role subject, frozen as the roles are held now. *)
Definition snapshot_mutual_voters (id : Z) (vote_plan : VotePlan) : RM W unit :=
  for_each (fun subject =>
    match subject with
    | Institution role =>
        voters ← gets (fun s => active_accounts_for_role (world s)
          (role_cid_number role) (role_code role));
        snapshot_role_voters id subject voters
    | PersonalMultisig _ => throw (ElectionErr ElectionInvalidVotePlan)
    end) (voter_subjects vote_plan).

(** The transaction of [do_create_election]. *)
Definition store_election (proposal : Proposal) (meta : ElectionMeta)
    (candidates : list CitizenSubject) (vote_plan : VotePlan) : RM W Z :=
  let now := start_block proposal in
  id ← allocate_proposal_id;
  try_add_active_proposals (subject_keys proposal) id ;;
  upd (set_Proposals (insert id proposal)) ;;
  upd_el (set_ElectionMetaStore (insert id meta)) ;;
  upd_el (set_ElectionCandidates (insert id candidates)) ;;
  upd_el (set_ElectionTallyStore (insert id election_tally_default)) ;;
  (if decide (election_mode meta = Mutual) then snapshot_mutual_voters id vote_plan
   else mret tt) ;;
  match election_scope meta with
  | Some scope =>
      total ← create_population_snapshot id scope;
      ensure (negb (bool_decide (total = 0))) (ElectionErr EmptyVoterSnapshot)
  | None => mret tt
  end ;;
  bind_vote_plan id vote_plan ;;
  register_proposal_data id (plan_owner vote_plan) "" now ;;
  schedule_proposal_expiry id (end_block proposal) ;;
  emit_proposal_created id PROPOSAL_KIND_ELECTION (stage proposal) (end_block proposal) ;;
  emit (ElectionCreated id (election_mode meta) (election_actor meta) (election_role meta)
    (seat_count meta)) ;;
  mret id.

Definition do_create_election (who : AccountId) (vote_plan : VotePlan) (mode : ElectionMode)
    (actor_cid_number : CidNumber) (role : RoleCode) (seats start_day end_day : Z)
    (population_scope : option PopulationScope) (candidates : list CitizenSubject) : RM W Z :=
  ensure (negb (bool_decide (String.length role = 0%nat))) (ElectionErr EmptyRoleCode) ;;
  ensure (0 <? seats) (ElectionErr InvalidSeatCount) ;;
  ensure (start_day <=? end_day) (ElectionErr InvalidTerm) ;;
  ensure (utf8_valid actor_cid_number) (ElectionErr InvalidInstitutionCid) ;;
  actor_code ← ok_or (institution_code_from_cid_number actor_cid_number)
    (ElectionErr InvalidInstitutionCid);
  ensure (bool_decide (voting_engine vote_plan = Election))
    (ElectionErr ElectionInvalidVotePlan) ;;
  proposer_role ← (match proposer_subject vote_plan with
    | Institution role => mret role
    | PersonalMultisig _ => throw (ElectionErr ElectionInvalidVotePlan)
    end : RM W RoleSubject);
  organizer ← gets (fun s => bool_decide (role_cid_number proposer_role = actor_cid_number)
    && is_active_assignment (world s) actor_cid_number who (role_code proposer_role));
  ensure organizer (ElectionErr NotOrganizerAdmin) ;;
  scope ← candidate_scope mode population_scope actor_cid_number vote_plan;
  candidates ← bounded_candidates candidates scope;
  ensure (seats <=? Z.of_nat (length candidates)) (ElectionErr InvalidSeatCount) ;;
  now ← gets block_number;
  subject_cid_numbers ← from_result (resolve_subject_cid_numbers actor_cid_number vote_plan);
  transact (store_election
    (election_proposal mode actor_code actor_cid_number subject_cid_numbers now)
    {| election_mode := mode; election_scope := population_scope;
       election_actor := actor_cid_number; election_role := role; seat_count := seats;
       term_start := start_day; term_end := end_day |}
    candidates vote_plan).

Definition do_create_popular_election (who : AccountId) (vote_plan : VotePlan)
    (actor_cid_number : CidNumber) (role : RoleCode) (seats start_day end_day : Z)
    (population_scope : PopulationScope) (candidates : list CitizenSubject) : RM W Z :=
  do_create_election who vote_plan Popular actor_cid_number role seats start_day end_day
    (Some population_scope) candidates.

Definition do_create_mutual_election (who : AccountId) (vote_plan : VotePlan)
    (actor_cid_number : CidNumber) (role : RoleCode) (seats start_day end_day : Z)
    (candidates : list CitizenSubject) : RM W Z :=
  do_create_election who vote_plan Mutual actor_cid_number role seats start_day end_day
    None candidates.

(** ** The result *)

Definition candidate_votes (e : election_store) (proposal_id : Z)
    (candidates : list CitizenSubject) : list counted :=
  (fun c => (c, default 0 (ElectionCandidateTallies e !! (proposal_id, citizen_cid_number c))))
    <$> candidates.

Definition finalize_election_result (proposal_id : Z) : RM W unit :=
  meta ← gets (fun s => ElectionMetaStore (el s) !! proposal_id);
  meta ← ok_or meta (ElectionErr ElectionMetaMissing);
  candidates ← gets (fun s => ElectionCandidates (el s) !! proposal_id);
  candidates ← ok_or candidates (ElectionErr EmptyCandidateSnapshot);
  votes ← gets (fun s => candidate_votes (el s) proposal_id candidates);
  winners ← ok_or (select_winners votes (seat_count meta)) (Other "panic");
  match winners with
  | Ok winners =>
      bounded ← ok_or (bounded_list MaxElectionCandidates winners)
        (ElectionErr TooManyCandidates);
      upd_el (set_ElectionResults (insert proposal_id bounded)) ;;
      emit (ElectionResultReady proposal_id) ;;
      set_status_and_emit proposal_id STATUS_PASSED
  | Err _ =>
      emit (ElectionRejectedByTieOrNoVotes proposal_id) ;;
      set_status_and_emit proposal_id STATUS_REJECTED
  end.

(** ** Ballots *)

(** The record of one ballot: the voter proves a right to vote, and has not
    voted. *)
Definition record_popular_ballot (who : AccountId) (proposal_id : Z)
    (candidate : CitizenSubject) : RM W ElectionVoter :=
  voter_subject ← gets (fun s => voting_subject_at_population_snapshot s proposal_id who);
  voter_subject ← ok_or voter_subject (ElectionErr VoterNotEligible);
  let key := (proposal_id, citizen_cid_number voter_subject) in
  voted ← gets (fun s => bool_decide (is_Some (PopularElectionVotesByCid (el s) !! key)));
  ensure (negb voted) (VotingErr AlreadyVoted) ;;
  upd_el (set_PopularElectionVotesByCid (insert key
    {| ballot_voter := voter_subject; ballot_candidate := candidate |})) ;;
  mret (VoterCitizen voter_subject).

Definition record_mutual_ballot (who : AccountId) (proposal_id : Z) (role : RoleCode)
    (candidate : CitizenSubject) : RM W ElectionVoter :=
  meta ← gets (fun s => ElectionMetaStore (el s) !! proposal_id);
  meta ← ok_or meta (ElectionErr ElectionMetaMissing);
  let role_subject := {| role_cid_number := election_actor meta; role_code := role |} in
  let subject := Institution role_subject in
  eligible ← gets (fun s => is_subject_voter_in_snapshot s proposal_id subject who);
  ensure eligible (ElectionErr VoterNotInSnapshot) ;;
  voter_account_id ← gets (fun s => default who (resolve_subject_voter (world s) subject who));
  let ticket :=
    {| ticket_role_subject := role_subject; voter_account_id := voter_account_id |} in
  voted ← gets (fun s =>
    bool_decide (is_Some (MutualElectionVotesByTicket (el s) !! (proposal_id, ticket))));
  ensure (negb voted) (VotingErr AlreadyVoted) ;;
  upd_el (set_MutualElectionVotesByTicket (insert (proposal_id, ticket) candidate)) ;;
  mret (VoterInstitution ticket).

(** The number of ballots that ends the election early. *)
Definition election_eligible_total (proposal_id expected_stage : Z) : RM W Z :=
  if decide (expected_stage = STAGE_ELECTION_POPULAR) then
    total ← gets (fun s => population_eligible_total_of (ve s) proposal_id);
    ok_or total (ElectionErr EmptyVoterSnapshot)
  else
    meta ← gets (fun s => ElectionMetaStore (el s) !! proposal_id);
    meta ← ok_or meta (ElectionErr ElectionMetaMissing);
    total ← gets (fun s => institution_ticket_count (ve s) proposal_id (election_actor meta));
    ok_or total (ElectionErr EmptyVoterSnapshot).

Definition do_cast_election_vote (who : AccountId) (proposal_id expected_stage : Z)
    (voter_role_code : option RoleCode) (candidate : CitizenSubject) : RM W unit :=
  proposal ← ensure_open_proposal proposal_id;
  ensure (bool_decide (kind proposal = PROPOSAL_KIND_ELECTION)) (VotingErr InvalidProposalKind) ;;
  ensure (bool_decide (stage proposal = expected_stage)) (VotingErr InvalidProposalStage) ;;
  known ← gets (fun s => candidate_exists (el s) proposal_id candidate);
  ensure known (ElectionErr CandidateNotInSnapshot) ;;
  voter ← (if decide (expected_stage = STAGE_ELECTION_POPULAR) then
             ensure (bool_decide (voter_role_code = None)) (ElectionErr VoterNotInSnapshot) ;;
             record_popular_ballot who proposal_id candidate
           else
             role ← ok_or voter_role_code (ElectionErr VoterNotInSnapshot);
             record_mutual_ballot who proposal_id role candidate);
  let key := (proposal_id, citizen_cid_number candidate) in
  upd_el (fun g => set_ElectionCandidateTallies
    (insert key (saturating_add u32_max (default 0 (ElectionCandidateTallies g !! key)) 1)) g) ;;
  tally ← gets (fun s => {| casted := saturating_add u32_max
    (casted (default election_tally_default (ElectionTallyStore (el s) !! proposal_id))) 1 |});
  upd_el (set_ElectionTallyStore (insert proposal_id tally)) ;;
  emit (ElectionVoteCast proposal_id voter candidate) ;;
  eligible_total ← election_eligible_total proposal_id expected_stage;
  if eligible_total <=? casted tally then finalize_election_result proposal_id else mret tt.

Definition do_cast_popular_vote (who : AccountId) (proposal_id : Z)
    (candidate : CitizenSubject) : RM W unit :=
  do_cast_election_vote who proposal_id STAGE_ELECTION_POPULAR None candidate.

Definition do_cast_mutual_vote (who : AccountId) (proposal_id : Z) (role : RoleCode)
    (candidate : CitizenSubject) : RM W unit :=
  do_cast_election_vote who proposal_id STAGE_ELECTION_MUTUAL (Some role) candidate.

(** ** Timeouts and the callback *)

Definition finalize_election_popular_timeout (proposal : Proposal) (proposal_id : Z)
    : RM W unit :=
  now ← gets block_number;
  ensure (end_block proposal <? now) (VotingErr VoteNotExpired) ;;
  finalize_election_result proposal_id.

Definition finalize_election_mutual_timeout (proposal : Proposal) (proposal_id : Z)
    : RM W unit :=
  now ← gets block_number;
  ensure (end_block proposal <? now) (VotingErr VoteNotExpired) ;;
  finalize_election_result proposal_id.

Definition on_election_vote_finalized (vote_proposal_id : Z) (approved : bool)
    : RM W ProposalExecutionOutcome :=
  known ← gets (fun s => bool_decide (is_Some (ElectionMetaStore (el s) !! vote_proposal_id)));
  ready ← gets (fun s => bool_decide (is_Some (ElectionResults (el s) !! vote_proposal_id)));
  mret (if negb known then Ignored
        else if approved && negb ready then FatalFailed
        else Executed).

(** The other two functions of the callback are the trait's defaults. *)
Definition election_vote_callback : ResultCallback W := {|
  on_vote_finalized := on_election_vote_finalized;
  can_cancel_passed_proposal := fun _ => mret CancelIgnored;
  on_execution_failed_terminal := fun _ => mret tt;
|}.

(** ** Cleanup and the track handler *)

Definition cleanup_popular_chunk (proposal_id limit : Z) : RS W (Z * bool) := fun s =>
  let '(m, r) := clear_prefix proposal_id limit (PopularElectionVotesByCid (el s)) in
  (r, set_el (set_PopularElectionVotesByCid (fun _ => m)) s).
Definition cleanup_mutual_chunk (proposal_id limit : Z) : RS W (Z * bool) := fun s =>
  let '(m, r) := clear_prefix proposal_id limit (MutualElectionVotesByTicket (el s)) in
  (r, set_el (set_MutualElectionVotesByTicket (fun _ => m)) s).
Definition cleanup_candidate_tallies_chunk (proposal_id limit : Z) : RS W (Z * bool) := fun s =>
  let '(m, r) := clear_prefix proposal_id limit (ElectionCandidateTallies (el s)) in
  (r, set_el (set_ElectionCandidateTallies (fun _ => m)) s).

Definition cleanup_election_votes_chunk (proposal_id limit : Z) : RS W (Z * bool) :=
  '(unique, cursor) ← cleanup_popular_chunk proposal_id limit;
  if (cursor || (limit <=? unique) : bool) then mret (unique, true)
  else
    '(mutual, cursor) ← cleanup_mutual_chunk proposal_id (saturating_sub limit unique);
    mret (saturating_add u32_max unique mutual, cursor).

Definition cleanup_election_voters_chunk (proposal_id limit : Z) : RS W (Z * bool) :=
  mret (0, false).

Definition cleanup_election_tallies_chunk (proposal_id limit : Z) : RS W (Z * bool) :=
  '(unique, cursor) ← cleanup_candidate_tallies_chunk proposal_id limit;
  (if (cursor : bool) then mret tt
   else smodify (set_el (set_ElectionTallyStore (delete proposal_id)))) ;;
  mret (unique, cursor).

Definition cleanup_election_terminal (proposal_id : Z) : RS W unit :=
  smodify (set_el (fun g => set_ElectionResults (delete proposal_id)
    (set_ElectionCandidates (delete proposal_id)
      (set_ElectionMetaStore (delete proposal_id) g)))).

Definition election_handles (kind : Z) : bool := bool_decide (kind = PROPOSAL_KIND_ELECTION).

Definition election_cleanup_chunk (proposal_id limit : Z) : RS W (Z * bool) :=
  let limit := Z.max limit 1 in
  '(votes, votes_more) ← cleanup_election_votes_chunk proposal_id limit;
  if (votes_more || (limit <=? votes) : bool) then mret (votes, true) else
  '(voters, voters_more) ←
    cleanup_election_voters_chunk proposal_id (saturating_sub limit votes);
  let removed := saturating_add u32_max votes voters in
  if (voters_more || (limit <=? removed) : bool) then mret (removed, true) else
  '(tallies, tallies_more) ←
    cleanup_election_tallies_chunk proposal_id (saturating_sub limit removed);
  mret (saturating_add u32_max removed tallies, tallies_more).

Definition election_finalize_timeout (proposal : Proposal) (proposal_id : Z)
    : RS W (option (result DispatchError unit)) :=
  if election_handles (kind proposal) then
    r ← (if decide (stage proposal = STAGE_ELECTION_POPULAR)
         then attempt (finalize_election_popular_timeout proposal proposal_id)
         else if decide (stage proposal = STAGE_ELECTION_MUTUAL)
         then attempt (finalize_election_mutual_timeout proposal proposal_id)
         else mret (Err (VotingErr InvalidProposalStage)));
    mret (Some r)
  else mret None.

Definition election_track : TrackHandler W := {|
  handles := election_handles;
  cleanup_chunk_of := fun kind proposal_id limit =>
    when_handled (election_handles kind) (election_cleanup_chunk proposal_id limit);
  cleanup_terminal_of := fun kind proposal_id =>
    when_handled (election_handles kind) (cleanup_election_terminal proposal_id);
  timeout_weight_of := fun stage =>
    if decide (stage = STAGE_ELECTION_POPULAR)
    then Some (wi_cast_popular_vote MaxElectionCandidates)
    else if decide (stage = STAGE_ELECTION_MUTUAL)
    then Some (wi_cast_mutual_vote MaxElectionCandidates)
    else if decide (stage = u8_max)
    then Some (w_max (wi_cast_popular_vote MaxElectionCandidates)
      (wi_cast_mutual_vote MaxElectionCandidates))
    else None;
  cleanup_chunk_weight_of := fun kind limit =>
    if decide (kind = PROPOSAL_KIND_ELECTION \/ kind = u8_max) then
      let limit := Z.max limit 1 in
      Some (w_add (w_add (from_parts 12000000 6000) (w_mul (from_parts 1200000 2700) limit))
        (db_reads_writes (saturating_add u64_max limit 3) (saturating_add u64_max limit 1)))
    else None;
  cleanup_terminal_weight_of := fun kind =>
    if decide (kind = PROPOSAL_KIND_ELECTION \/ kind = u8_max)
    then Some (w_add (from_parts 10000000 10000) (db_writes 3)) else None;
  (** The trait's default hooks. *)
  on_proposal_executed_of := fun kind _ =>
    mret (if election_handles kind then Some (Ok tt) else None);
  on_proposal_terminal_of := fun kind _ _ =>
    mret (if election_handles kind then Some (Ok tt) else None);
|}.
End ElectionVote.

(** The runtime's bound on the candidates, with plain weights. *)
#[export] Instance runtime_election_config : ElectionConfig := {|
  MaxElectionCandidates := 256;
  wi_cast_popular_vote := fun c => ((36000000 + 1000000 * c, 105893) : weight);
  wi_cast_mutual_vote := fun c => ((36000000 + 1000000 * c, 105893) : weight);
|}.
