(* ===== verification/ElectionCount.v ===== *)
(** * The count of an election

    [select_winners] ([tally.rs]) takes the candidates with the most votes
    round by round. Here it is compared with a reference: sort the candidates
    once by votes, keep the order of the snapshot among equals, and take as
    many as there are seats, provided each of them has a vote and none of
    them is tied with a candidate left out. *)
From Stdlib Require Import Sorting.Sorted.
From S2P Require Import Prelude Cid Types TrackTypes State Interfaces Runtime Ids Locks Data.
From S2P Require Import Cleanup Lifecycle Execution Expiry InternalVote ElectionVote.

(** ** The reference *)

Fixpoint insert_ranked (c : counted) (l : list counted) : list counted :=
  match l with
  | [] => [c]
  | d :: rest => if decide (d.2 <= c.2) then c :: l else d :: insert_ranked c rest
  end.

(** Stable insertion sort, most votes first. *)
Definition rank (candidates : list counted) : list counted := foldr insert_ranked [] candidates.

(** The first [n] are elected without a doubt. *)
Definition clear_cut (n : nat) (ranked : list counted) : bool :=
  (n <=? length ranked)%nat &&
  forallb (fun c => (0 <? c.2) && forallb (fun d => d.2 <? c.2) (drop n ranked)) (take n ranked).

Fixpoint number_seats (i : Z) (elected : list counted) : list ElectionWinner :=
  match elected with
  | [] => []
  | (c, votes) :: rest =>
      {| winner_subject := c; winner_votes := votes; seat_index := i |} :: number_seats (i + 1) rest
  end.

Definition reference_winners (candidates : list counted) (seat_count : Z)
    : result unit (list ElectionWinner) :=
  let n := Z.to_nat seat_count in
  if clear_cut n (rank candidates) then Ok (number_seats 0 (take n (rank candidates)))
  else Err tt.

(** ** The sort *)

Abbreviation with_votes m := (filter (fun c : counted => c.2 = m)).
Abbreviation without_votes m := (filter (fun c : counted => c.2 <> m)).

Lemma insert_ranked_perm c l : insert_ranked c l ≡ₚ c :: l.
Proof.
  induction l as [|d l IH]; simpl; [done|]. case_decide; [done|].
  rewrite IH. apply Permutation_swap.
Qed.

Lemma rank_perm l : rank l ≡ₚ l.
Proof. induction l as [|c l IH]; simpl; [done|]. by rewrite insert_ranked_perm, IH. Qed.

Lemma insert_ranked_sorted c l :
  StronglySorted (fun c d : counted => d.2 <= c.2) l ->
  StronglySorted (fun c d : counted => d.2 <= c.2) (insert_ranked c l).
Proof.
  induction 1 as [|d l Hl IH Hd]; simpl; [by repeat constructor|]. case_decide as Hc.
  - constructor; [by constructor|]. constructor; [done|].
    eapply Forall_impl; [done|]. simpl. lia.
  - constructor; [done|]. rewrite insert_ranked_perm. constructor; [lia|done].
Qed.

Lemma rank_sorted l : StronglySorted (fun c d : counted => d.2 <= c.2) (rank l).
Proof. induction l as [|c l IH]; simpl; [constructor|]. by apply insert_ranked_sorted. Qed.

Lemma insert_ranked_front c l :
  Forall (fun d : counted => d.2 <= c.2) l -> insert_ranked c l = c :: l.
Proof. intros Hl. destruct Hl as [|d l Hd _]; simpl; [done|]. by rewrite decide_True. Qed.

Lemma insert_ranked_app c l1 l2 :
  Forall (fun d : counted => c.2 < d.2) l1 ->
  insert_ranked c (l1 ++ l2) = l1 ++ insert_ranked c l2.
Proof.
  induction 1 as [|d l1 Hd _ IH]; simpl; [done|]. rewrite decide_False by lia. by rewrite IH.
Qed.

(** The candidates with the most votes come first, in their old order. *)
Lemma rank_split m l :
  Forall (fun c : counted => c.2 <= m) l -> rank l = with_votes m l ++ rank (without_votes m l).
Proof.
  induction 1 as [|c l Hc Hl IH]; [done|].
  change (rank (c :: l)) with (insert_ranked c (rank l)). rewrite IH.
  assert (Hm : Forall (fun d : counted => d.2 = m) (with_votes m l)).
  { apply Forall_forall. by intros d [? _]%list_elem_of_filter. }
  destruct (decide (c.2 = m)) as [Hcm|Hcm].
  - rewrite filter_cons_True, filter_cons_False by naive_solver. simpl.
    apply insert_ranked_front. apply Forall_app. split.
    + eapply Forall_impl; [done|]. simpl. lia.
    + rewrite rank_perm. apply Forall_forall. intros d [_ Hd]%list_elem_of_filter.
      rewrite Forall_forall in Hl. specialize (Hl d Hd). lia.
  - rewrite filter_cons_False, filter_cons_True by naive_solver. simpl.
    apply insert_ranked_app. eapply Forall_impl; [done|]. simpl. lia.
Qed.

Lemma insert_ranked_stable v c l :
  with_votes v (insert_ranked c l) = with_votes v (c :: l).
Proof.
  induction l as [|d l IH]; simpl; [done|]. case_decide as Hd; [done|].
  rewrite !filter_cons in *. rewrite IH. repeat case_decide; try done. lia.
Qed.

(** The order of the snapshot decides among equals. *)
Lemma rank_stable v l : with_votes v (rank l) = with_votes v l.
Proof.
  induction l as [|c l IH]; [done|]. simpl. rewrite insert_ranked_stable.
  rewrite !filter_cons, IH. done.
Qed.

(** ** One round *)

Lemma number_seats_app i l1 l2 :
  number_seats i (l1 ++ l2) = number_seats i l1 ++ number_seats (i + Z.of_nat (length l1)) l2.
Proof.
  revert i. induction l1 as [|[c v] l1 IH]; intros i; simpl; [by rewrite Z.add_0_r|].
  rewrite IH. do 3 f_equal. lia.
Qed.

Lemma max_votes_None l : max_votes l = None <-> l = [].
Proof. by destruct l. Qed.

Lemma max_votes_Some l m :
  max_votes l = Some m -> Forall (fun c => c.2 <= m) l /\ with_votes m l <> [].
Proof.
  assert (H : forall l v, let m := foldr (fun d acc => Z.max d.2 acc) v l in
    v <= m /\ Forall (fun c : counted => c.2 <= m) l /\ (v = m \/ Exists (fun c => c.2 = m) l)).
  { clear. intros l v. induction l as [|d l (H1 & H2 & H3)]; simpl; [split_and!; [lia|constructor|by left]|].
    split_and!; [lia| |].
    - constructor; [lia|]. eapply Forall_impl; [done|]. simpl. lia.
    - destruct (Z.max_spec d.2 (foldr (fun d acc => Z.max d.2 acc) v l)) as [[? ->]|[? ->]];
        [|by right; constructor].
      destruct H3; [by left|right]. by apply Exists_cons_tl. }
  destruct l as [|c l]; [done|]. simpl. intros [= <-].
  destruct (H l c.2) as (H1 & H2 & H3). split; [by constructor|].
  assert (Hex : Exists (fun d => d.2 = foldr (fun d acc => Z.max d.2 acc) c.2 l) (c :: l))
    by (destruct H3; [by left|by right]).
  apply Exists_exists in Hex as (d & Hd & Hm). intros Hnil.
  assert (Hin : d ∈ with_votes (foldr (fun d acc => Z.max d.2 acc) c.2 l) (c :: l))
    by by apply list_elem_of_filter.
  rewrite Hnil in Hin. by apply elem_of_nil in Hin.
Qed.

Lemma tied_length i m l : length (tied_from i m l) = length (with_votes m l).
Proof.
  revert i. induction l as [|[c v] l IH]; intros i; [done|]. rewrite filter_cons. simpl.
  case_decide; simpl; by rewrite IH.
Qed.

Lemma elect_tied_run m l : forall j off seat p ws,
  length p = (j - off)%nat -> (off <= j)%nat ->
  Z.of_nat (off + length (with_votes m l)) <= u16_max ->
  elect_tied (tied_from j m l) off seat (p ++ l) ws =
    Some (p ++ without_votes m l, ws ++ number_seats (seat + Z.of_nat off) (with_votes m l)).
Proof.
  induction l as [|[c v] l IH]; intros j off seat p ws Hp Hoff Hlen; simpl.
  { by rewrite !app_nil_r. }
  rewrite !filter_cons in *. simpl in *. destruct (decide (v = m)) as [->|Hv]; simpl in *.
  - rewrite (decide_False (P := ~ m = m)) by naive_solver.
    rewrite lookup_app_r, Hp, Nat.sub_diag by lia. simpl.
    rewrite delete_take_drop, <- Hp, take_app_length, drop_app_ge by lia.
    replace (S (length p) - length p)%nat with 1%nat by lia. simpl. rewrite drop_0.
    rewrite IH by lia. do 2 f_equal. rewrite <- app_assoc. simpl. do 3 f_equal.
    + unfold as_u16. rewrite Z.mod_small; [done|]. unfold u16_max in Hlen. lia.
    + lia.
  - rewrite (decide_True (P := ~ v = m)) by done.
    replace (p ++ (c, v) :: l) with ((p ++ [(c, v)]) ++ l) by by rewrite <- app_assoc.
    rewrite IH; [by rewrite <- app_assoc|rewrite length_app; simpl; lia|lia|done].
Qed.

(** ** What a round leaves *)

Lemma clear_cut_spec n s :
  clear_cut n s = true <->
  (n <= length s)%nat /\ forall c, c ∈ take n s -> 0 < c.2 /\ forall d, d ∈ drop n s -> d.2 < c.2.
Proof.
  unfold clear_cut. rewrite andb_true_iff, Nat.leb_le, forallb_forall. apply and_iff_compat_l.
  split; intros H c Hc.
  - apply list_elem_of_In, H, andb_true_iff in Hc as [H1 H2]. split; [lia|].
    intros d Hd. rewrite forallb_forall in H2. apply list_elem_of_In, H2 in Hd. lia.
  - apply list_elem_of_In, H in Hc as [H1 H2]. apply andb_true_iff. split; [lia|].
    apply forallb_forall. intros d Hd%list_elem_of_In%H2. lia.
Qed.

Lemma clear_cut_false n s : clear_cut n s = false <-> ~ clear_cut n s = true.
Proof. by rewrite not_true_iff_false. Qed.

Section Round.
Context (m : Z) (T R : list counted) (n : nat).
Hypothesis HT : Forall (fun c : counted => c.2 = m) T.
Hypothesis HR : Forall (fun c : counted => c.2 < m) R.

Lemma clear_cut_round : 0 < m -> (length T <= n)%nat -> clear_cut n (T ++ R) = clear_cut (n - length T) R.
Proof.
  intros Hm Hn. apply eq_true_iff_eq. rewrite !clear_cut_spec, length_app.
  rewrite take_app, drop_app, (take_ge T), (drop_ge T) by lia. simpl.
  rewrite Forall_forall in HT, HR. split.
  - intros [Hl Hc]. split; [lia|]. intros c Hin. apply Hc. apply elem_of_app. by right.
  - intros [Hl Hc]. split; [lia|]. intros c [Hin|Hin]%elem_of_app; [|by apply Hc].
    rewrite (HT c Hin). split; [done|]. intros d Hd. apply HR.
    apply list_elem_of_lookup in Hd as [i Hi]. rewrite lookup_drop in Hi.
    by apply list_elem_of_lookup_2 in Hi.
Qed.

Lemma clear_cut_over : (0 < n < length T)%nat -> clear_cut n (T ++ R) = false.
Proof.
  intros Hn. apply clear_cut_false. rewrite clear_cut_spec. intros [_ Hc].
  rewrite take_app_le, drop_app_le in Hc by lia.
  rewrite Forall_forall in HT.
  destruct (take n T) as [|c l] eqn:Ht; [apply (f_equal length) in Ht; rewrite length_take in Ht; simpl in Ht; lia|].
  destruct (drop n T) as [|d l'] eqn:Hd; [apply (f_equal length) in Hd; rewrite length_drop in Hd; simpl in Hd; lia|].
  assert (H1 : c.2 = m) by (apply HT; rewrite <- (take_drop n T), Ht; by left).
  assert (H2 : d.2 = m) by (apply HT; rewrite <- (take_drop n T), Hd; apply elem_of_app; right; by left).
  destruct (Hc c) as [_ Hlt]; [by left|]. specialize (Hlt d). rewrite H1, H2 in Hlt.
  assert (m < m); [|lia]. apply Hlt. simpl. by left.
Qed.
End Round.

(** No vote at all elects nobody. *)
Lemma clear_cut_no_votes n s :
  (0 < n)%nat -> Forall (fun c : counted => c.2 <= 0) s -> clear_cut n s = false.
Proof.
  intros Hn Hs. apply clear_cut_false. rewrite clear_cut_spec. intros [Hl Hc].
  destruct s as [|c s]; simpl in Hl; [lia|]. destruct n as [|n]; [lia|]. simpl in Hc.
  destruct (Hc c) as [Hpos _]; [by left|]. inversion Hs; subst. lia.
Qed.

(** ** The rounds *)

Lemma without_votes_lt m l :
  Forall (fun c : counted => c.2 <= m) l -> Forall (fun c : counted => c.2 < m) (rank (without_votes m l)).
Proof.
  intros Hl. rewrite rank_perm. apply Forall_forall. intros c [Hne Hc]%list_elem_of_filter.
  rewrite Forall_forall in Hl. specialize (Hl c Hc). lia.
Qed.

Lemma with_votes_eq m l : Forall (fun c : counted => c.2 = m) (with_votes m l).
Proof. apply Forall_forall. by intros d [? _]%list_elem_of_filter. Qed.

Lemma select_loop_run n : n <= u16_max -> forall fuel i r ws,
  0 <= i <= n -> (Z.to_nat (n - i) <= fuel)%nat -> Forall (fun c : counted => 0 <= c.2) r ->
  select_loop fuel n i r ws = Some
    (let k := Z.to_nat (n - i) in
     if clear_cut k (rank r) then Ok (ws ++ number_seats i (take k (rank r))) else Err tt).
Proof.
  intros Hn. induction fuel as [|fuel IH]; intros i r ws Hi Hf Hr; cbv zeta; simpl.
  { rewrite decide_False by lia. replace (Z.to_nat (n - i)) with 0%nat by lia.
    unfold clear_cut. simpl. by rewrite app_nil_r. }
  case_decide as Hlt.
  2: { replace (Z.to_nat (n - i)) with 0%nat by lia. unfold clear_cut. simpl. by rewrite app_nil_r. }
  destruct (max_votes r) as [m|] eqn:Hm.
  2: { apply max_votes_None in Hm as ->. unfold clear_cut. simpl.
    destruct (Z.to_nat (n - i)) eqn:Hk; [lia|done]. }
  apply max_votes_Some in Hm as [Hmax Hne]. pose proof (rank_split m r Hmax) as Hsplit.
  pose proof (with_votes_eq m r) as HT. pose proof (without_votes_lt m r Hmax) as HR.
  destruct (decide (m = 0)) as [->|Hm0].
  { rewrite clear_cut_no_votes; [done|lia|]. by rewrite rank_perm. }
  assert (Hmpos : 0 < m).
  { destruct (with_votes m r) as [|c l] eqn:Hw; [done|].
    assert (Hc : c ∈ with_votes m r) by (rewrite Hw; by left).
    apply list_elem_of_filter in Hc as [Hc Hin]. rewrite Forall_forall in Hr.
    specialize (Hr c Hin). lia. }
  rewrite tied_length. unfold saturating_sub. rewrite Z.max_r by lia.
  assert (HTpos : (0 < length (with_votes m r))%nat) by (destruct (with_votes m r); [done|simpl; lia]).
  case_decide as Hover.
  { rewrite Hsplit, (clear_cut_over m _ _ _ HT); [done|lia]. }
  pose proof (elect_tied_run m r 0 0 i [] ws eq_refl (le_n _)) as He.
  simpl in He. rewrite He by lia. clear He.
  assert (Hu : as_u16 (length (with_votes m r)) = Z.of_nat (length (with_votes m r))).
  { unfold as_u16. apply Z.mod_small. unfold u16_max in Hn. lia. }
  rewrite Hu. unfold saturating_add. rewrite Z.min_r by lia. rewrite IH; [|lia|lia|].
  2: { apply Forall_forall. intros c [_ Hc]%list_elem_of_filter. rewrite Forall_forall in Hr. auto. }
  cbv zeta. rewrite Hsplit, (clear_cut_round m _ _ _ HT HR Hmpos) by lia.
  replace (Z.to_nat (n - (i + Z.of_nat (length (with_votes m r)))))
    with (Z.to_nat (n - i) - length (with_votes m r))%nat by lia.
  case_match; [|done]. do 2 f_equal.
  rewrite take_app, (take_ge (with_votes m r)) by lia.
  rewrite number_seats_app, Z.add_0_r, <- app_assoc. done.
Qed.

Lemma select_winners_run cs n :
  0 <= n <= u16_max -> Forall (fun c : counted => 0 <= c.2) cs ->
  select_winners cs n = Some (reference_winners cs n).
Proof.
  intros Hn Hcs. unfold select_winners. rewrite select_loop_run by (lia || done). cbv zeta.
  unfold reference_winners. by rewrite Z.sub_0_r.
Qed.

(** ** What is promised *)

(** C10: the count of an election terminates without a panic, for any
    candidates, votes and number of seats: it elects the candidates at the
    head of the stable ranking by votes, seats numbered from 0, exactly when
    there are enough candidates, all of the elected have a vote, and no
    candidate left out has as many votes as an elected one; otherwise it
    rejects the result. *)
Theorem election_count_reference (candidates : list counted) (n : Z)
    (Hn : 0 <= n <= u16_max) (Hc : Forall (fun c : counted => 0 <= c.2) candidates) :
  select_winners candidates n = Some (reference_winners candidates n) /\
  rank candidates ≡ₚ candidates /\
  StronglySorted (fun c d : counted => d.2 <= c.2) (rank candidates) /\
  (forall v, with_votes v (rank candidates) = with_votes v candidates).
Proof.
  split_and!; [by apply select_winners_run|apply rank_perm|apply rank_sorted|].
  intros v. apply rank_stable.
Qed.

Definition sample_candidate (i : Z) (cid : string) : CitizenSubject :=
  {| citizen_cid_number := cid; citizen_account_id := i |}.

Definition sample_count : list counted :=
  [(sample_candidate 1 "a", 7); (sample_candidate 2 "b", 9); (sample_candidate 3 "c", 7);
   (sample_candidate 4 "d", 2)].

(** Three seats: the tie for the second place fits; two seats: it does not. *)
Example sample_count_three :
  select_winners sample_count 3 =
    Some (Ok [ {| winner_subject := sample_candidate 2 "b"; winner_votes := 9; seat_index := 0 |};
               {| winner_subject := sample_candidate 1 "a"; winner_votes := 7; seat_index := 1 |};
               {| winner_subject := sample_candidate 3 "c"; winner_votes := 7; seat_index := 2 |} ]).
Proof. reflexivity. Qed.

Example sample_count_two : select_winners sample_count 2 = Some (Err tt).
Proof. reflexivity. Qed.

Lemma election_count_reference_witness :
  select_winners sample_count 3 = Some (reference_winners sample_count 3).
Proof.
  refine (proj1 (election_count_reference sample_count 3 _ _)).
  - vm_compute. split; congruence.
  - repeat constructor; vm_compute; congruence.
Defined.
