(* ===== verification/LegislationVote.v ===== *)
(** * Votes of the legislature ([votingengine/legislation-vote/src])

    One or several representative bodies vote in turn
    ([representative/mod.rs], thresholds in [rules.rs]); appointments and
    budgets end there, a law goes on to the referendum
    ([legislation/referendum.rs]) or to the executive's signature and the
    joint signatures that may override it ([legislation/signing.rs]), an
    amendment of the constitution last to its guards
    ([legislation/guard.rs]). Stage changes ([result.rs]), the engine
    interface ([lib.rs]), removal and the track handler ([cleanup.rs]). *)
From S2P Require Import Prelude CidNumber.
From S2P Require Import Cid Types TrackTypes State Interfaces Runtime Ids Locks Data.
From S2P Require Import Cleanup Lifecycle Execution Expiry InternalVote.

(** The weights of [legislation_vote::Config]. *)
Class LegislationConfig `{Weights} : Type := {
  wi_cast_representative_vote : weight;
  wi_cast_referendum_vote : weight;
  wi_executive_sign : weight;
  wi_override_sign : weight;
  wi_guard_vote : weight;
}.

Definition MAX_REPRESENTATIVE_BODIES : Z := 4.
Definition PROPOSAL_OBJECT_KIND_LAW_TEXT : Z := 2.
Definition CONSTITUTION_GUARD_MEMBERS : Z := 7.
Definition CONSTITUTION_GUARD_APPROVAL_THRESHOLD : Z := 4.

(** ** Thresholds ([rules.rs], [primitives/src/constitution.rs]) *)

(** The products are of [u64] values below 2^39. *)
Definition representative_final_passed (rule : RepresentativeVoteRule) (total yes no : Z) : bool :=
  let casted := saturating_add u32_max yes no in
  if decide (total = 0 \/ casted = 0) then false
  else match rule with
  | RegularRule => (total * 80 <? casted * 100) && (casted * 60 <=? yes * 100)
  | MajorRule => (total * 90 <? casted * 100) && (casted * 70 <=? yes * 100)
  | SpecialRule => bool_decide (casted = total) && (total * 70 <=? yes * 100)
  end.

Definition representative_decided (rule : RepresentativeVoteRule) (total yes no : Z)
    : option bool :=
  let casted := saturating_add u32_max yes no in
  if decide (total = 0) then Some false
  else if total <=? casted then Some (representative_final_passed rule total yes no)
  else
    let impossible := match rule with
      | RegularRule => total * 40 <? no * 100
      | MajorRule | SpecialRule => total * 30 <? no * 100
      end in
    if impossible then Some false else None.

Definition referendum_passed (eligible yes no : Z) : bool :=
  let casted := saturating_add u64_max yes no in
  if decide (eligible = 0 \/ casted = 0) then false
  else (saturating_mul u64_max eligible 70 <=? saturating_mul u64_max casted 100)
    && (saturating_mul u64_max casted 70 <=? saturating_mul u64_max yes 100).

(** [legislation::guard::decided] and [legislation::signing]. *)
Definition guard_decided (approve_or_reject : Z) : bool :=
  CONSTITUTION_GUARD_APPROVAL_THRESHOLD <=? approve_or_reject.
Definition is_expired (now end_ : Z) : bool := end_ <? now.
Definition override_approved (approvals : Z) : bool := 3 <=? approvals.

Definition approved_status : Z := STATUS_PASSED.

(** [signs.iter().filter(|(_, a)| *a).count()], and with [!a]. *)
Definition count_signs (approve : bool) (signs : list (AccountId * bool)) : Z :=
  Z.of_nat (length (filter (fun s => s.2 = approve) signs)).

(** ** Routes and institutions *)

Definition leg_stage_duration : Z := saturated_into BlockNumber_max VOTING_DURATION_BLOCKS.

Definition institution_code_for_cid (cid_number : CidNumber)
    : result DispatchError InstitutionCode :=
  guard_ok (utf8_valid cid_number) (LegErr LegInvalidInstitutionCid) ;;
  match institution_code_from_cid_number cid_number with
  | Some code => Ok code
  | None => Err (LegErr LegInvalidInstitutionCid)
  end.

(** The province and the city of a CID number, as bounded area codes. *)
Definition area_codes (cid_number : CidNumber) : result DispatchError (string * string) :=
  match cid_scope_codes cid_number with
  | Ok codes => Ok codes
  | Err _ => Err (LegErr LegInvalidInstitutionCid)
  end.

Definition area_code (code : string) : result DispatchError string :=
  match bounded_bytes 16 code with
  | Some code => Ok code
  | None => Err (LegErr LegInvalidInstitutionCid)
  end.

Definition population_scope_for_actor (actor_code : InstitutionCode)
    (actor_cid_number : CidNumber) : result DispatchError PopulationScope :=
  if decide (actor_code ∈ [code_bytes "NRP"; code_bytes "NED"]) then Ok ScopeCountry
  else if decide (actor_code = code_bytes "PRP") then
    codes ← area_codes actor_cid_number;
    province ← area_code codes.1;
    Ok (ScopeProvince province)
  else if decide (actor_code ∈ [code_bytes "CSLF"; code_bytes "CEDU"; code_bytes "CLEG"]) then
    codes ← area_codes actor_cid_number;
    province ← area_code codes.1;
    city ← area_code codes.2;
    Ok (ScopeCity province city)
  else Err (LegErr LegInvalidInstitutionCid).

Definition legislation_subject_cid_numbers (actor_cid_number : CidNumber)
    (route : RepresentativeRoute) (additional_subjects : list CidNumber)
    (additional_institutions : list RepresentativeBody) : result DispatchError (list CidNumber) :=
  bound_subject_cid_numbers (additional_subjects ++ [actor_cid_number]
    ++ (role_cid_number <$> route_bodies route)
    ++ (role_cid_number <$> additional_institutions)).

(** The loop over [bodies] that resolves every institution code. *)
Fixpoint codes_resolve (bodies : list RepresentativeBody) : result DispatchError unit :=
  match bodies with
  | [] => Ok tt
  | body :: bodies =>
      _ ← institution_code_for_cid (role_cid_number body);
      codes_resolve bodies
  end.

Definition validate_representative_route (route : RepresentativeRoute)
    : result DispatchError (InstitutionCode * RepresentativeBody) :=
  match route_bodies route with
  | [] => Err (LegErr InvalidRepresentativeRoute)
  | first_body :: _ =>
      match route with
      | Single _ => Ok tt
      | Sequential sequence =>
          guard_ok ((2 <=? Z.of_nat (length sequence))
            && (Z.of_nat (length sequence) <=? MAX_REPRESENTATIVE_BODIES))
            (LegErr InvalidRepresentativeRoute)
      end ;;
      guard_ok (no_repeats (route_bodies route)) (LegErr InvalidRepresentativeRoute) ;;
      codes_resolve (route_bodies route) ;;
      code ← institution_code_for_cid (role_cid_number first_body);
      Ok (code, first_body)
  end.

(** The bodies a law needs beside those of its route. *)
Definition additional_institutions (meta : option LegislationMeta) : list RepresentativeBody :=
  match meta with
  | None => []
  | Some meta => option_list (meta_executive meta) ++ override_signers meta
      ++ option_list (meta_guard meta)
  end.

Definition expected_voters (route : RepresentativeRoute) (meta : option LegislationMeta)
    : list AuthorizationSubject :=
  Institution <$> (route_bodies route ++ additional_institutions meta).

Section LegislationVote.
Context `{Wt : Weights} `{Cfg : !Config} `{LCfg : !LegislationConfig} `{Ord : StorageOrder}
  {W : Type} `{Prov : !Providers W} `{Cb : !Callbacks W} `{Tr : !ProposalTracks W}.

Definition upd_lv (f : legislation_store -> legislation_store) : RM W unit := modify (set_lv f).

(** ** Stages ([result.rs]) *)

(** A proposal in another stage, or before another body, with a new voting
    window. *)
Definition with_window (new_stage : Z) (code : option InstitutionCode) (now : Z) (p : Proposal)
    : Proposal := {|
  kind := kind p; stage := new_stage; status := status p; internal_code := code;
  actor_cid_number := actor_cid_number p; execution_account_id := execution_account_id p;
  subject_cid_numbers := subject_cid_numbers p;
  start_block := now; end_block := block_add now leg_stage_duration |}.

(** [Proposals::try_mutate] of a stage change, the removal of the proposal
    from its old expiry bucket, and its new entry. *)
Definition move_proposal (proposal_id : Z) (change : Proposal -> Proposal) : RM W unit :=
  now ← gets block_number;
  proposal ← gets (fun s => Proposals (ve s) !! proposal_id);
  proposal ← ok_or proposal (VotingErr ProposalNotFound);
  upd (set_Proposals (insert proposal_id (change proposal))) ;;
  let old_expiry := block_add (end_block proposal) 1 in
  upd (set_ProposalsByExpiry (fun m =>
    <[old_expiry := filter (fun id => id <> proposal_id) (default [] (m !! old_expiry))]> m)) ;;
  schedule_proposal_expiry proposal_id (block_add now leg_stage_duration).

Definition transition_stage (proposal_id new_stage : Z) : RM W unit :=
  now ← gets block_number;
  transact (move_proposal proposal_id (fun p => with_window new_stage (internal_code p) now p)).

Definition advance_to_sign (proposal_id : Z) : RM W unit :=
  transition_stage proposal_id STAGE_LEG_SIGN ;;
  upd (release_internal_proposal_mutexes proposal_id) ;;
  emit (LegislationAdvancedToSign proposal_id).

Definition advance_to_override (proposal_id : Z) : RM W unit :=
  upd_lv (set_LegOverrideSigns (delete proposal_id)) ;;
  transition_stage proposal_id STAGE_LEG_OVERRIDE ;;
  emit (LegislationAdvancedToOverride proposal_id).

Definition advance_to_guard (proposal_id : Z) : RM W unit :=
  upd_lv (set_LegGuardSigns (delete proposal_id)) ;;
  transition_stage proposal_id STAGE_LEG_CONSTITUTION_GUARD ;;
  emit (LegislationAdvancedToGuard proposal_id).

Definition finalize_or_guard (proposal_id : Z) (needs_guard : bool) : RM W unit :=
  if needs_guard then advance_to_guard proposal_id
  else set_status_and_emit proposal_id approved_status.

Definition advance_to_referendum (proposal_id : Z) : RM W unit :=
  now ← gets block_number;
  let end_ := block_add now leg_stage_duration in
  transact (
    eligible_total ← gets (fun s => population_eligible_total_of (ve s) proposal_id);
    eligible_total ← ok_or eligible_total (LegErr LegCitizenEligibleTotalNotSet);
    move_proposal proposal_id
      (fun p => with_window STAGE_LEG_REFERENDUM (internal_code p) now p) ;;
    upd (release_internal_proposal_mutexes proposal_id) ;;
    emit_proposal_advanced_to_referendum proposal_id end_ eligible_total ;;
    emit (LegislationAdvancedToReferendum proposal_id eligible_total)).

(** ** The representative bodies ([representative/mod.rs]) *)

Definition finish_representative_route (proposal_id : Z) : RM W unit :=
  meta ← gets (fun s => RepresentativeMetas (lv s) !! proposal_id);
  meta ← ok_or meta (LegErr ProposalMetaMissing);
  match meta_procedure meta with
  | RepresentativeOnly => set_status_and_emit proposal_id STATUS_PASSED
  | LegislationProcedure =>
      if decide (meta_rule meta = SpecialRule) then advance_to_referendum proposal_id
      else advance_to_sign proposal_id
  end.

Definition set_current_body (next : Z) (m : RepresentativeMeta) : RepresentativeMeta := {|
  meta_route := meta_route m; current_body := next; meta_rule := meta_rule m;
  meta_procedure := meta_procedure m |}.

Definition advance_representative_body_or_finish (proposal_id : Z) : RM W unit :=
  meta ← gets (fun s => RepresentativeMetas (lv s) !! proposal_id);
  meta ← ok_or meta (LegErr ProposalMetaMissing);
  let next := saturating_add u32_max (current_body meta) 1 in
  if next <? Z.of_nat (route_len (meta_route meta)) then
    next_body ← ok_or (route_body (meta_route meta) next) (LegErr InvalidRepresentativeRoute);
    next_code ← from_result (institution_code_for_cid (role_cid_number next_body));
    now ← gets block_number;
    transact (
      upd_lv (set_RepresentativeMetas (alter (set_current_body next) proposal_id)) ;;
      move_proposal proposal_id (fun p => with_window (stage p) (Some next_code) now p) ;;
      emit (RepresentativeBodyAdvanced proposal_id next))
  else finish_representative_route proposal_id.

(** [finish_single_representative_vote], [advance_sequential_representative_vote]. *)
Definition representative_body_passed (route : RepresentativeRoute) (proposal_id : Z)
    : RM W unit :=
  match route with
  | Single _ => finish_representative_route proposal_id
  | Sequential _ => advance_representative_body_or_finish proposal_id
  end.

Definition do_cast_representative_vote (who : AccountId) (proposal_id : Z)
    (voter_role_code : RoleCode) (approve : bool) : RM W unit :=
  proposal ← ensure_open_proposal proposal_id;
  ensure (bool_decide (kind proposal = PROPOSAL_KIND_LEGISLATION))
    (VotingErr InvalidProposalKind) ;;
  ensure (bool_decide (stage proposal = STAGE_LEG_REPRESENTATIVE))
    (VotingErr InvalidProposalStage) ;;
  meta ← gets (fun s => RepresentativeMetas (lv s) !! proposal_id);
  meta ← ok_or meta (LegErr ProposalMetaMissing);
  representative_body ← ok_or (route_body (meta_route meta) (current_body meta))
    (LegErr InvalidRepresentativeRoute);
  ensure (bool_decide (role_code representative_body = voter_role_code))
    (VotingErr NoPermission) ;;
  let representative_subject := Institution representative_body in
  voter_account_id ← gets (fun s =>
    default who (resolve_subject_voter (world s) representative_subject who));
  let ticket := {| ticket_role_subject := representative_body;
                   voter_account_id := voter_account_id |} in
  let key := (proposal_id, (current_body meta, ticket)) in
  voted ← gets (fun s => bool_decide (is_Some (RepresentativeVotesByTicket (lv s) !! key)));
  ensure (negb voted) (VotingErr AlreadyVoted) ;;
  eligible ← gets (fun s => is_subject_voter_in_snapshot s proposal_id representative_subject who);
  ensure eligible (VotingErr NoPermission) ;;
  upd_lv (set_RepresentativeVotesByTicket (insert key approve)) ;;
  tally ← gets (fun s => add_votes u32_max 1 approve
    (default vote_count_zero (RepresentativeTallies (lv s) !! (proposal_id, current_body meta))));
  upd_lv (set_RepresentativeTallies (insert (proposal_id, current_body meta) tally)) ;;
  emit (RepresentativeVoteCast proposal_id (current_body meta) who voter_role_code approve) ;;
  voters_len ← gets (fun s => subject_voters_len (ve s) proposal_id representative_subject);
  voters_len ← ok_or voters_len (VotingErr MissingVoterSnapshot);
  match representative_decided (meta_rule meta) voters_len (yes tally) (no tally) with
  | Some true => representative_body_passed (meta_route meta) proposal_id
  | Some false => set_status_and_emit proposal_id STATUS_REJECTED
  | None => mret tt
  end.

Definition do_finalize_representative_timeout (proposal : Proposal) (proposal_id : Z)
    : RM W unit :=
  ensure (bool_decide (stage proposal = STAGE_LEG_REPRESENTATIVE))
    (VotingErr InvalidProposalStage) ;;
  ensure (bool_decide (status proposal = STATUS_VOTING)) (VotingErr ProposalAlreadyFinalized) ;;
  now ← gets block_number;
  ensure (is_expired now (end_block proposal)) (VotingErr VoteNotExpired) ;;
  meta ← gets (fun s => RepresentativeMetas (lv s) !! proposal_id);
  meta ← ok_or meta (LegErr ProposalMetaMissing);
  representative_body ← ok_or (route_body (meta_route meta) (current_body meta))
    (LegErr InvalidRepresentativeRoute);
  voters_len ← gets (fun s =>
    subject_voters_len (ve s) proposal_id (Institution representative_body));
  voters_len ← ok_or voters_len (VotingErr MissingVoterSnapshot);
  tally ← gets (fun s =>
    default vote_count_zero (RepresentativeTallies (lv s) !! (proposal_id, current_body meta)));
  if representative_final_passed (meta_rule meta) voters_len (yes tally) (no tally)
  then representative_body_passed (meta_route meta) proposal_id
  else set_status_and_emit proposal_id STATUS_REJECTED.

(** ** The referendum ([legislation/referendum.rs]) *)

Definition do_cast_referendum_vote (who : AccountId) (proposal_id : Z) (approve : bool)
    : RM W unit :=
  proposal ← ensure_open_proposal proposal_id;
  ensure (bool_decide (kind proposal = PROPOSAL_KIND_LEGISLATION))
    (VotingErr InvalidProposalKind) ;;
  ensure (bool_decide (stage proposal = STAGE_LEG_REFERENDUM)) (VotingErr InvalidProposalStage) ;;
  eligible_total ← gets (fun s => population_eligible_total_of (ve s) proposal_id);
  eligible_total ← ok_or eligible_total (LegErr LegCitizenEligibleTotalNotSet);
  ensure (0 <? eligible_total) (LegErr LegCitizenEligibleTotalNotSet) ;;
  voter_subject ← gets (fun s => voting_subject_at_population_snapshot s proposal_id who);
  voter_subject ← ok_or voter_subject (LegErr LegCitizenNotEligible);
  let key := (proposal_id, citizen_cid_number voter_subject) in
  voted ← gets (fun s => bool_decide (is_Some (LegReferendumVotesByCid (lv s) !! key)));
  ensure (negb voted) (VotingErr AlreadyVoted) ;;
  current_tally ← gets (fun s =>
    default vote_count_zero (LegReferendumTally (lv s) !! proposal_id));
  ensure (saturating_add u64_max (yes current_tally) (no current_tally) <? eligible_total)
    (LegErr LegReferendumSnapshotExhausted) ;;
  upd_lv (set_LegReferendumVotesByCid (insert key
    {| voter_subject := voter_subject; ticket_approve := approve |})) ;;
  upd_lv (fun g => set_LegReferendumTally (insert proposal_id (add_votes u64_max 1 approve
    (default vote_count_zero (LegReferendumTally g !! proposal_id)))) g) ;;
  emit (LegislationReferendumVoteCast proposal_id voter_subject approve).

Definition do_finalize_referendum_timeout (proposal : Proposal) (proposal_id : Z) : RM W unit :=
  ensure (bool_decide (stage proposal = STAGE_LEG_REFERENDUM)) (VotingErr InvalidProposalStage) ;;
  ensure (bool_decide (status proposal = STATUS_VOTING)) (VotingErr ProposalAlreadyFinalized) ;;
  now ← gets block_number;
  ensure (is_expired now (end_block proposal)) (VotingErr VoteNotExpired) ;;
  tally ← gets (fun s => default vote_count_zero (LegReferendumTally (lv s) !! proposal_id));
  eligible_total ← gets (fun s => population_eligible_total_of (ve s) proposal_id);
  eligible_total ← ok_or eligible_total (LegErr LegCitizenEligibleTotalNotSet);
  if referendum_passed eligible_total (yes tally) (no tally) then
    meta ← gets (fun s => LegislationMetas (lv s) !! proposal_id);
    meta ← ok_or meta (LegErr ProposalMetaMissing);
    finalize_or_guard proposal_id (needs_guard meta)
  else set_status_and_emit proposal_id STATUS_REJECTED.

(** ** Signatures ([legislation/signing.rs]) *)

(** The first checks of the three signing functions. *)
Definition ensure_in_stage (proposal_id expected_stage : Z) : RM W LegislationMeta :=
  proposal ← gets (fun s => Proposals (ve s) !! proposal_id);
  proposal ← ok_or proposal (VotingErr ProposalNotFound);
  ensure (bool_decide (status proposal = STATUS_VOTING)) (LegErr NotInExpectedStage) ;;
  ensure (bool_decide (stage proposal = expected_stage)) (LegErr NotInExpectedStage) ;;
  meta ← gets (fun s => LegislationMetas (lv s) !! proposal_id);
  ok_or meta (LegErr ProposalMetaMissing).

Definition do_executive_sign (who : AccountId) (proposal_id : Z) (approve : bool) : RM W unit :=
  meta ← ensure_in_stage proposal_id STAGE_LEG_SIGN;
  executive ← ok_or (meta_executive meta) (LegErr NotLegalRepresentative);
  eligible ← gets (fun s =>
    is_subject_voter_in_snapshot s proposal_id (Institution executive) who);
  ensure eligible (LegErr NotLegalRepresentative) ;;
  emit (LegislationExecutiveSigned proposal_id who approve) ;;
  if approve then finalize_or_guard proposal_id (needs_guard meta)
  else if negb (bool_decide (override_signers meta = [])) then advance_to_override proposal_id
  else set_status_and_emit proposal_id STATUS_REJECTED.

Definition do_override_sign (who : AccountId) (proposal_id : Z) (approve : bool) : RM W unit :=
  meta ← ensure_in_stage proposal_id STAGE_LEG_OVERRIDE;
  eligible ← gets (fun s => existsb (fun subject =>
    is_subject_voter_in_snapshot s proposal_id (Institution subject) who)
    (override_signers meta));
  ensure eligible (LegErr NotOverrideSigner) ;;
  signs ← gets (fun s => default [] (LegOverrideSigns (lv s) !! proposal_id));
  ensure (negb (existsb (fun s => bool_decide (s.1 = who)) signs)) (LegErr AlreadySigned) ;;
  emit (LegislationOverrideSigned proposal_id who approve) ;;
  if negb approve then set_status_and_emit proposal_id STATUS_REJECTED
  else
    signs ← ok_or (try_push 3 (who, true) signs) (LegErr AlreadySigned);
    upd_lv (set_LegOverrideSigns (insert proposal_id signs)) ;;
    if override_approved (count_signs true signs)
    then finalize_or_guard proposal_id (needs_guard meta)
    else mret tt.

Definition do_finalize_sign_timeout (proposal : Proposal) (proposal_id : Z) : RM W unit :=
  ensure (bool_decide (stage proposal = STAGE_LEG_SIGN)) (VotingErr InvalidProposalStage) ;;
  ensure (bool_decide (status proposal = STATUS_VOTING)) (VotingErr ProposalAlreadyFinalized) ;;
  now ← gets block_number;
  ensure (is_expired now (end_block proposal)) (VotingErr VoteNotExpired) ;;
  meta ← gets (fun s => LegislationMetas (lv s) !! proposal_id);
  meta ← ok_or meta (LegErr ProposalMetaMissing);
  if negb (bool_decide (override_signers meta = [])) then advance_to_override proposal_id
  else finalize_or_guard proposal_id (needs_guard meta).

Definition do_finalize_override_timeout (proposal : Proposal) (proposal_id : Z) : RM W unit :=
  ensure (bool_decide (stage proposal = STAGE_LEG_OVERRIDE)) (VotingErr InvalidProposalStage) ;;
  ensure (bool_decide (status proposal = STATUS_VOTING)) (VotingErr ProposalAlreadyFinalized) ;;
  now ← gets block_number;
  ensure (is_expired now (end_block proposal)) (VotingErr VoteNotExpired) ;;
  set_status_and_emit proposal_id STATUS_REJECTED.

(** ** The guards of the constitution ([legislation/guard.rs]) *)

Definition do_guard_vote (who : AccountId) (proposal_id : Z) (approve : bool) : RM W unit :=
  meta ← ensure_in_stage proposal_id STAGE_LEG_CONSTITUTION_GUARD;
  guard_subject ← ok_or (meta_guard meta) (LegErr NotConstitutionGuard);
  let subject := Institution guard_subject in
  members_len ← gets (fun s => subject_voters_len (ve s) proposal_id subject);
  members_len ← ok_or members_len (LegErr InvalidGuardMembersLen);
  ensure (bool_decide (members_len = CONSTITUTION_GUARD_MEMBERS)) (LegErr InvalidGuardMembersLen) ;;
  eligible ← gets (fun s => is_subject_voter_in_snapshot s proposal_id subject who);
  ensure eligible (LegErr NotConstitutionGuard) ;;
  signs ← gets (fun s => default [] (LegGuardSigns (lv s) !! proposal_id));
  ensure (negb (existsb (fun s => bool_decide (s.1 = who)) signs)) (LegErr AlreadySigned) ;;
  emit (LegislationGuardVoted proposal_id who approve) ;;
  signs ← ok_or (try_push CONSTITUTION_GUARD_MEMBERS (who, approve) signs) (LegErr AlreadySigned);
  upd_lv (set_LegGuardSigns (insert proposal_id signs)) ;;
  if guard_decided (count_signs true signs) then set_status_and_emit proposal_id STATUS_PASSED
  else if guard_decided (count_signs false signs)
  then set_status_and_emit proposal_id STATUS_REJECTED
  else mret tt.

Definition do_finalize_guard_timeout (proposal : Proposal) (proposal_id : Z) : RM W unit :=
  ensure (bool_decide (stage proposal = STAGE_LEG_CONSTITUTION_GUARD))
    (VotingErr InvalidProposalStage) ;;
  ensure (bool_decide (status proposal = STATUS_VOTING)) (VotingErr ProposalAlreadyFinalized) ;;
  now ← gets block_number;
  ensure (is_expired now (end_block proposal)) (VotingErr VoteNotExpired) ;;
  set_status_and_emit proposal_id STATUS_REJECTED.

(** ** Creation *)

Definition legislation_proposal (first_code : InstitutionCode) (actor_cid_number : CidNumber)
    (subjects : list CidNumber) (now : Z) : Proposal := {|
  kind := PROPOSAL_KIND_LEGISLATION; stage := STAGE_LEG_REPRESENTATIVE;
  status := STATUS_VOTING; internal_code := Some first_code;
  actor_cid_number := Some actor_cid_number; execution_account_id := None;
  subject_cid_numbers := subjects;
  start_block := now; end_block := block_add now leg_stage_duration |}.

(** The holders of every role of the plan; the guards must be seven. *)
Definition snapshot_legislation_voters (id : Z) (meta : option LegislationMeta)
    (vote_plan : VotePlan) : RM W unit :=
  for_each (fun subject =>
    match subject with
    | PersonalMultisig _ => throw (VotingErr InvalidVotePlan)
    | Institution role_subject =>
        voters ← gets (fun s => active_accounts_for_role (world s)
          (role_cid_number role_subject) (role_code role_subject));
        (if bool_decide ((m ← meta; meta_guard m) = Some role_subject) then
           ensure (bool_decide (Z.of_nat (length voters) = CONSTITUTION_GUARD_MEMBERS)
             && no_repeats voters) (LegErr InvalidGuardMembersLen)
         else mret tt) ;;
        snapshot_role_voters id subject voters
    end) (voter_subjects vote_plan).

(** The transaction of [do_create_representative_proposal]. *)
Definition store_representative (proposal : Proposal) (meta : RepresentativeMeta)
    (legislation_meta : option LegislationMeta) (population_scope : option PopulationScope)
    (vote_plan : VotePlan) : RM W Z :=
  id ← allocate_and_lock proposal Regular;
  snapshot_legislation_voters id legislation_meta vote_plan ;;
  upd_lv (set_RepresentativeMetas (insert id meta)) ;;
  match legislation_meta with
  | Some meta => upd_lv (set_LegislationMetas (insert id meta))
  | None => mret tt
  end ;;
  upd (set_Proposals (insert id proposal)) ;;
  bind_vote_plan id vote_plan ;;
  match population_scope with
  | Some scope =>
      total ← create_population_snapshot id scope;
      ensure (negb (bool_decide (total = 0))) (LegErr LegCitizenEligibleTotalNotSet)
  | None => mret tt
  end ;;
  schedule_proposal_expiry id (end_block proposal) ;;
  emit_proposal_created id PROPOSAL_KIND_LEGISLATION STAGE_LEG_REPRESENTATIVE
    (end_block proposal) ;;
  bodies ← gets (fun s => match RepresentativeMetas (lv s) !! id with
    | Some meta => Z.of_nat (route_len (meta_route meta))
    | None => 0
    end);
  emit (RepresentativeProposalCreated id (meta_rule meta) bodies (meta_procedure meta)) ;;
  mret id.

Definition do_create_representative_proposal (who : AccountId) (actor_cid_number : CidNumber)
    (vote_plan : VotePlan) (route : RepresentativeRoute) (rule : RepresentativeVoteRule)
    (procedure : VoteProcedure) (additional_subjects : list CidNumber)
    (legislation_meta : option LegislationMeta) : RM W Z :=
  '(first_code, _) ← from_result (validate_representative_route route);
  actor_code ← from_result (institution_code_for_cid actor_cid_number);
  ensure (bool_decide (voting_engine vote_plan = Legislation)) (VotingErr InvalidVotePlan) ;;
  proposer_role ← (match proposer_subject vote_plan with
    | Institution role => mret role
    | PersonalMultisig _ => throw (VotingErr InvalidVotePlan)
    end : RM W RoleSubject);
  proposer ← gets (fun s => bool_decide (role_cid_number proposer_role = actor_cid_number)
    && is_active_assignment (world s) actor_cid_number who (role_code proposer_role));
  ensure proposer (VotingErr NoPermission) ;;
  ensure (negb (bool_decide (procedure = RepresentativeOnly /\ rule = SpecialRule)))
    (LegErr InvalidRepresentativeRule) ;;
  ensure (Bool.eqb (bool_decide (procedure = LegislationProcedure))
    (bool_decide (is_Some legislation_meta))) (LegErr ProposalMetaMissing) ;;
  let expected := expected_voters route legislation_meta in
  ensure (no_repeats expected) (VotingErr InvalidVotePlan) ;;
  ensure (bool_decide (length expected = length (voter_subjects vote_plan))
    && forallb (fun subject => bool_decide (subject ∈ voter_subjects vote_plan)) expected)
    (VotingErr InvalidVotePlan) ;;
  subject_cid_numbers ← from_result (legislation_subject_cid_numbers actor_cid_number route
    additional_subjects (additional_institutions legislation_meta));
  population_scope ← from_result (if decide (rule = SpecialRule)
    then scope ← population_scope_for_actor actor_code actor_cid_number; Ok (Some scope)
    else Ok None);
  now ← gets block_number;
  transact (store_representative
    (legislation_proposal first_code actor_cid_number subject_cid_numbers now)
    {| meta_route := route; current_body := 0; meta_rule := rule; meta_procedure := procedure |}
    legislation_meta population_scope vote_plan).

(** The proposer's own vote, when the first body is the proposer's. *)
Definition vote_as_proposer (who : AccountId) (id : Z) (first_body : RepresentativeBody)
    : RM W Z :=
  voter ← gets (fun s => is_subject_voter_in_snapshot s id (Institution first_body) who);
  (if (voter : bool) then do_cast_representative_vote who id (role_code first_body) true
   else mret tt) ;;
  mret id.

Definition create_representative_vote (who : AccountId) (actor_cid_number : CidNumber)
    (vote_plan : VotePlan) (route : RepresentativeRoute) (rule : RepresentativeVoteRule)
    (subject_cid_numbers : list CidNumber) (tag data : string) : RM W Z :=
  '(_, first_body) ← from_result (validate_representative_route route);
  transact (
    id ← do_create_representative_proposal who actor_cid_number vote_plan route rule
      RepresentativeOnly subject_cid_numbers None;
    now ← gets block_number;
    register_proposal_data id tag data now ;;
    vote_as_proposer who id first_body).

Definition create_legislation_vote (who : AccountId) (actor_cid_number : CidNumber)
    (vote_plan : VotePlan) (route : RepresentativeRoute) (rule : RepresentativeVoteRule)
    (procedure : LegislationProcedureConfig) (tag data object_data : string) : RM W Z :=
  '(_, first_body) ← from_result (validate_representative_route route);
  transact (
    id ← do_create_representative_proposal who actor_cid_number vote_plan route rule
      LegislationProcedure []
      (Some {| meta_executive := cfg_executive procedure;
               override_signers := cfg_override_signers procedure;
               needs_guard := cfg_needs_guard procedure; meta_guard := cfg_guard procedure |});
    now ← gets block_number;
    register_proposal_data id tag data now ;;
    store_proposal_object id PROPOSAL_OBJECT_KIND_LAW_TEXT object_data ;;
    vote_as_proposer who id first_body).

(** What the business modules and the node read back. *)
Definition referendum_result (s : rt W) (proposal_id : Z) : option (Z * Z * Z) :=
  eligible ← population_eligible_total_of (ve s) proposal_id;
  if decide (eligible = 0) then None
  else
    let tally := default vote_count_zero (LegReferendumTally (lv s) !! proposal_id) in
    Some (eligible, yes tally, no tally).

Definition guard_review_result (s : rt W) (proposal_id : Z) : option Z :=
  let signs := default [] (LegGuardSigns (lv s) !! proposal_id) in
  if bool_decide (signs = []) then None else Some (count_signs true signs mod 2 ^ 32).

(** ** Cleanup and the track handler ([cleanup.rs]) *)

Definition cleanup_representative_votes_chunk (proposal_id limit : Z)
    : RS W (Z * bool) := fun s =>
  let '(m, r) := clear_prefix proposal_id limit (RepresentativeVotesByTicket (lv s)) in
  (r, set_lv (set_RepresentativeVotesByTicket (fun _ => m)) s).
Definition cleanup_leg_referendum_votes_chunk (proposal_id limit : Z)
    : RS W (Z * bool) := fun s =>
  let '(m, r) := clear_prefix proposal_id limit (LegReferendumVotesByCid (lv s)) in
  (r, set_lv (set_LegReferendumVotesByCid (fun _ => m)) s).

Definition cleanup_legislation_terminal (proposal_id : Z) : RS W unit :=
  smodify (set_lv (fun g => set_LegGuardSigns (delete proposal_id)
    (set_LegOverrideSigns (delete proposal_id)
      (set_LegReferendumTally (delete proposal_id)
        (set_RepresentativeTallies
          (fun m => (clear_prefix proposal_id MAX_REPRESENTATIVE_BODIES m).1)
          (set_LegislationMetas (delete proposal_id)
            (set_RepresentativeMetas (delete proposal_id) g))))))).

Definition legislation_handles (kind : Z) : bool :=
  bool_decide (kind = PROPOSAL_KIND_LEGISLATION).

Definition legislation_cleanup_chunk (proposal_id limit : Z) : RS W (Z * bool) :=
  let limit := Z.max limit 1 in
  '(first, first_more) ← cleanup_representative_votes_chunk proposal_id limit;
  if (first_more || (limit <=? first) : bool) then mret (first, true) else
  '(second, second_more) ←
    cleanup_leg_referendum_votes_chunk proposal_id (saturating_sub limit first);
  mret (saturating_add u32_max first second, second_more).

Definition legislation_finalize_timeout (proposal : Proposal) (proposal_id : Z)
    : RS W (option (result DispatchError unit)) :=
  if legislation_handles (kind proposal) then
    r ← (if decide (stage proposal = STAGE_LEG_REPRESENTATIVE)
         then attempt (do_finalize_representative_timeout proposal proposal_id)
         else if decide (stage proposal = STAGE_LEG_REFERENDUM)
         then attempt (do_finalize_referendum_timeout proposal proposal_id)
         else if decide (stage proposal = STAGE_LEG_SIGN)
         then attempt (do_finalize_sign_timeout proposal proposal_id)
         else if decide (stage proposal = STAGE_LEG_OVERRIDE)
         then attempt (do_finalize_override_timeout proposal proposal_id)
         else if decide (stage proposal = STAGE_LEG_CONSTITUTION_GUARD)
         then attempt (do_finalize_guard_timeout proposal proposal_id)
         else mret (Err (VotingErr InvalidProposalStage)));
    mret (Some r)
  else mret None.

Definition legislation_timeout_weight (stage : Z) : option weight :=
  if decide (stage = STAGE_LEG_REPRESENTATIVE) then Some wi_cast_representative_vote
  else if decide (stage = STAGE_LEG_REFERENDUM) then Some wi_cast_referendum_vote
  else if decide (stage = STAGE_LEG_SIGN) then Some wi_executive_sign
  else if decide (stage = STAGE_LEG_OVERRIDE) then Some wi_override_sign
  else if decide (stage = STAGE_LEG_CONSTITUTION_GUARD) then Some wi_guard_vote
  else if decide (stage = u8_max) then
    Some (w_max (w_max (w_max (w_max wi_cast_representative_vote wi_cast_referendum_vote)
      wi_executive_sign) wi_override_sign) wi_guard_vote)
  else None.

Definition legislation_track : TrackHandler W := {|
  handles := legislation_handles;
  cleanup_chunk_of := fun kind proposal_id limit =>
    when_handled (legislation_handles kind) (legislation_cleanup_chunk proposal_id limit);
  cleanup_terminal_of := fun kind proposal_id =>
    when_handled (legislation_handles kind) (cleanup_legislation_terminal proposal_id);
  timeout_weight_of := legislation_timeout_weight;
  cleanup_chunk_weight_of := fun kind limit =>
    if decide (kind = PROPOSAL_KIND_LEGISLATION \/ kind = u8_max) then
      let limit := Z.max limit 1 in
      Some (w_add (w_add (from_parts 10000000 5000) (w_mul (from_parts 1100000 2600) limit))
        (db_reads_writes (saturating_add u64_max limit 2) limit))
    else None;
  cleanup_terminal_weight_of := fun kind =>
    if decide (kind = PROPOSAL_KIND_LEGISLATION \/ kind = u8_max)
    then Some (w_add (from_parts 16000000 18000) (db_reads_writes 1 8)) else None;
  (** The trait's default hooks. *)
  on_proposal_executed_of := fun kind _ =>
    mret (if legislation_handles kind then Some (Ok tt) else None);
  on_proposal_terminal_of := fun kind _ _ =>
    mret (if legislation_handles kind then Some (Ok tt) else None);
|}.
End LegislationVote.

(** Plain weights. *)
#[export] Instance runtime_legislation_config : LegislationConfig := {|
  wi_cast_representative_vote := ((36000000, 105893) : weight);
  wi_cast_referendum_vote := ((36000000, 105893) : weight);
  wi_executive_sign := ((36000000, 105893) : weight);
  wi_override_sign := ((36000000, 105893) : weight);
  wi_guard_vote := ((36000000, 105893) : weight);
|}.
