(* ===== verification/LegislationRules.v ===== *)
(** * The thresholds of the legislature

    [legislation-vote/src/rules.rs] decides a body's vote as soon as the
    votes allow: [representative_decided] against [representative_final_passed],
    the count when the vote closes. *)
From S2P Require Import Prelude Cid Types TrackTypes State Interfaces.
From S2P Require Import LegislationVote.

(** Votes of a body of [total] members; [total] is a [u32]. *)
Definition votes_of (total y n : Z) : Prop := 0 <= y /\ 0 <= n /\ y + n <= total /\ total <= u32_max.

(** Later votes only add to the earlier ones. *)
Definition extends (y n y' n' : Z) : Prop := y <= y' /\ n <= n'.

Lemma final_passed_spec rule total y n :
  votes_of total y n ->
  representative_final_passed rule total y n = true <-> 0 < y + n /\
  match rule with
  | RegularRule => total * 80 < (y + n) * 100 /\ (y + n) * 60 <= y * 100
  | MajorRule => total * 90 < (y + n) * 100 /\ (y + n) * 70 <= y * 100
  | SpecialRule => y + n = total /\ total * 70 <= y * 100
  end.
Proof.
  intros (Hy & Hn & Hle & Hmax). unfold representative_final_passed, saturating_add.
  rewrite Z.min_r by lia. case_decide; [split; [done|]; lia|].
  destruct rule; rewrite andb_true_iff, ?bool_decide_eq_true; lia.
Qed.

Lemma decided_spec rule total y n :
  votes_of total y n ->
  representative_decided rule total y n =
  if decide (total = 0) then Some false
  else if decide (y + n = total) then Some (representative_final_passed rule total y n)
  else if decide (match rule with RegularRule => total * 40 | _ => total * 30 end < n * 100)
  then Some false else None.
Proof.
  intros (Hy & Hn & Hle & Hmax). unfold representative_decided, saturating_add.
  rewrite Z.min_r by lia. case_decide; [done|].
  destruct (total <=? y + n) eqn:Hall; (case_decide; [|]); try done; try lia.
  destruct rule; case_decide; destruct (_ <? _) eqn:?; (done || lia).
Qed.

Lemma decided_true rule total y n :
  votes_of total y n -> representative_decided rule total y n = Some true ->
  y + n = total /\ representative_final_passed rule total y n = true.
Proof.
  intros Hv. rewrite decided_spec by done. repeat case_decide; try done. by intros [= ?].
Qed.

Lemma decided_false rule total y n y' n' :
  votes_of total y n -> representative_decided rule total y n = Some false ->
  extends y n y' n' -> votes_of total y' n' ->
  representative_final_passed rule total y' n' = false.
Proof.
  intros Hv Hd [Hy Hn] Hv'. apply not_true_iff_false. rewrite final_passed_spec by done.
  intros [Hpos Hf]. pose proof Hv as (? & ? & ? & ?). pose proof Hv' as (? & ? & ? & ?).
  revert Hd. rewrite decided_spec by done. repeat case_decide; try done.
  - destruct rule; lia.
  - intros [= Hd]. apply not_true_iff_false in Hd. apply Hd. rewrite final_passed_spec by done.
    assert (y' = y) as -> by lia. assert (n' = n) as -> by lia. done.
  - destruct rule; lia.
Qed.

Lemma decided_none rule total y n :
  votes_of total y n -> representative_decided rule total y n = None ->
  y + n < total /\ representative_final_passed rule total (total - n) n = true.
Proof.
  intros Hv. pose proof Hv as (? & ? & ? & ?). rewrite decided_spec by done.
  repeat case_decide; try done. intros _. split; [lia|].
  rewrite final_passed_spec by (unfold votes_of; lia). destruct rule; lia.
Qed.

(** A body that nobody has voted in is undecided. *)
Lemma decided_fresh rule total :
  0 < total <= u32_max -> representative_decided rule total 0 0 = None.
Proof.
  intros Ht. rewrite decided_spec by (unfold votes_of; lia).
  rewrite !decide_False by (destruct rule; lia). done.
Qed.

(** C9: the vote of a body ends exactly when its outcome is settled: it is
    passed when everybody has voted and the final count passes, rejected as
    soon as no further votes can make the final count pass, and goes on
    exactly while somebody has not voted and the final count can still
    pass. *)
Theorem representative_decided_exact rule total y n (Hv : votes_of total y n) :
  match representative_decided rule total y n with
  | Some true => y + n = total /\ representative_final_passed rule total y n = true
  | Some false => forall y' n', extends y n y' n' -> votes_of total y' n' ->
      representative_final_passed rule total y' n' = false
  | None => y + n < total /\ exists y' n', extends y n y' n' /\ votes_of total y' n' /\
      representative_final_passed rule total y' n' = true
  end.
Proof.
  destruct (representative_decided rule total y n) as [[]|] eqn:Hd.
  - by apply decided_true.
  - intros y' n'. by apply (decided_false rule total y n).
  - destruct (decided_none rule total y n Hv Hd) as [Hlt Hf]. split; [done|].
    exists (total - n), n. destruct Hv as (? & ? & ? & ?).
    split_and!; [unfold extends; lia|unfold votes_of; lia|done].
Qed.

(** Of ten members four are against: six in favour can still pass a regular
    bill, and no more than that. *)
Lemma representative_decided_exact_witness :
  representative_decided RegularRule 10 3 4 = None /\
  exists y' n', extends 3 4 y' n' /\ votes_of 10 y' n' /\
    representative_final_passed RegularRule 10 y' n' = true.
Proof.
  split; [reflexivity|].
  assert (Hv : votes_of 10 3 4) by (unfold votes_of, u32_max; lia).
  exact (proj2 (representative_decided_exact RegularRule 10 3 4 Hv)).
Defined.

(** The referendum without the saturation of its [u64] products. *)
Lemma referendum_passed_spec eligible y n :
  0 <= y -> 0 <= n -> y + n <= eligible -> eligible * 100 <= u64_max ->
  referendum_passed eligible y n = true <->
  0 < y + n /\ eligible * 70 <= (y + n) * 100 /\ (y + n) * 70 <= y * 100.
Proof.
  intros Hy Hn Hle Hmax. unfold referendum_passed, saturating_add, saturating_mul.
  rewrite !Z.min_r by lia. case_decide; [split; [done|lia]|].
  rewrite andb_true_iff. lia.
Qed.
