(* ===== verification/JointSafety.v ===== *)
(** * Joint votes respect the engine

    Voting, the step to the referendum, the timeouts and the creation of joint
    proposals keep the engine's invariant. *)
From S2P Require Import Prelude Cid Types State Interfaces Runtime Ids Locks Data.
From S2P Require Import Cleanup Lifecycle Execution Expiry Maintenance Engine Invariant.
From S2P Require Import Safety Clients InternalVote InternalSafety JointVote.

Section JointFrames.
Context `{Wt : Weights} `{Cfg : !Config} `{Ord : StorageOrder} {W : Type}.

Lemma frame_upd_jv f : track_frame (upd_jv f : RM W unit).
Proof. done. Qed.

Lemma frame_joint_step (table : Z -> Z -> RS W (Z * bool)) pid limit removed :
  (forall p l, track_frame (table p l)) ->
  track_frame (joint_chunk_step table pid limit removed).
Proof. intros Ht. apply frame_sbind; [done|]. by intros []. Qed.

Lemma frame_joint_chunk pid limit : track_frame (joint_cleanup_chunk pid limit : RS W (Z * bool)).
Proof.
  assert (H1 : forall p l, track_frame (cleanup_joint_admin_votes_chunk p l : RS W _)).
  { intros p l s. unfold cleanup_joint_admin_votes_chunk. by destruct (clear_prefix _ _ _). }
  assert (H2 : forall p l, track_frame (cleanup_joint_institution_votes_chunk p l : RS W _)).
  { intros p l s. unfold cleanup_joint_institution_votes_chunk. by destruct (clear_prefix _ _ _). }
  assert (H3 : forall p l, track_frame (cleanup_joint_institution_tallies_chunk p l : RS W _)).
  { intros p l s. unfold cleanup_joint_institution_tallies_chunk.
    by destruct (clear_prefix _ _ _). }
  assert (H4 : forall p l, track_frame (cleanup_referendum_votes_chunk p l : RS W _)).
  { intros p l s. unfold cleanup_referendum_votes_chunk. by destruct (clear_prefix _ _ _). }
  unfold joint_cleanup_chunk.
  repeat (apply frame_sbind; [first [by apply frame_joint_step|apply H4]|intros [? []]];
    try done).
Qed.

Lemma joint_track_framed : track_framed (joint_track : TrackHandler W).
Proof.
  split; intros; simpl; try done; apply frame_when_handled; [apply frame_joint_chunk|done].
Qed.
End JointFrames.

#[export] Hint Extern 1 (preserves (good _) (upd_jv _)) =>
  apply good_framed, frame_upd_jv : preserves.

Section JointSafety.
Context `{Wt : Weights} `{Cfg : !Config} `{Ord : StorageOrder} {W : Type}
  `{Prov : !Providers W} `{Cb : !Callbacks W} `{Tr : !ProposalTracks W}
  `{CbL : !CallbackLaws Cb} `{TrL : !TrackLaws Tr}.
Implicit Types s : rt W.

(** A change of a proposal that keeps what it is about and its status. *)
Lemma good_update_proposal s0 s pid p p' :
  Proposals (ve s) !! pid = Some p -> same_identity p p' -> status p' = status p ->
  good s0 s -> good s0 (set_ve (set_Proposals (insert pid p')) s).
Proof.
  intros Hp Hi Hst. apply good_quiet; [|done]. clear s0.
  intros s0 ([Hsc Hpe Hmu Hix Hac Hid Hbe Hcl Hks] & [He1 He2 He3] & Hn).
  split; [split|split; [split|done]]; simpl; try done.
  - by destruct Hsc.
  - by destruct Hpe.
  - by destruct Hmu.
  - destruct Hix as [H1 H2 H3 H4].
    split; simpl; try done; intros c q Hq.
    + destruct (H1 _ _ Hq) as [Hlt Hc]. split; [done|].
      intros x [[<- <-]|[_ Hx]]%lookup_insert_Some; [|by apply Hc]. intros Hk.
      destruct Hi as [Hk' [Hcode|?] _ _ _ _]; [|congruence].
      rewrite Hcode. apply Hc; congruence.
    + destruct (H2 _ _ Hq) as (x & Hx & Hc).
      destruct (decide (q = pid)) as [->|];
        [rewrite lookup_insert_eq|rewrite lookup_insert_ne by done; eauto].
      eexists; split; [done|]; assert (x = p) as -> by congruence; destruct Hi; congruence.
  - by destruct Hid.
  - intros q x [[<- <-]|[_ Hx]]%lookup_insert_Some; by eapply Hbe.
  - intros q Hq. destruct (Hcl q Hq) as [? Ht]. split; [done|].
    intros x [[<- <-]|[_ Hx]]%lookup_insert_Some; [|by apply Ht].
    rewrite Hst. by apply Ht.
  - intros q x [[<- <-]|[_ Hx]]%lookup_insert_Some; [|by eapply Hks].
    eapply same_identity_stage; [done|by eapply Hks].
  - intros q x Hx. specialize (He1 q x Hx). destruct (decide (q = pid)) as [->|].
    + rewrite lookup_insert_eq. rewrite Hp in He1. destruct He1 as (Hi' & Hr & Hd).
      rewrite Hst. split; [by eapply same_identity_trans|done].
    + by rewrite lookup_insert_ne.
  - intros q Hq Hnone. rewrite lookup_insert_ne; [by apply He3|]. intros ->.
    rewrite (He3 _ Hq Hnone) in Hp. done.
Qed.

Lemma to_referendum_identity now p :
  kind p = PROPOSAL_KIND_JOINT -> stage p = STAGE_JOINT -> same_identity p (to_referendum now p).
Proof. intros Hk Hs. split; try done; [by left|]. by right; left. Qed.

(** ** Runs that start in a known stage *)

(** A proposal of kind [k] that is in stage [st], or gone. *)
Definition at_stage pid k st s : Prop :=
  forall p, Proposals (ve s) !! pid = Some p -> kind p = k /\ stage p = st.

(** A run that may move the proposal out of the stage it finds it in. *)
Definition stage_run {A} s0 pid k st (m : rt W -> A * rt W) : Prop :=
  forall s, good s0 s -> at_stage pid k st s -> good s0 (m s).2.

Lemma at_stage_found pid k st s p :
  Proposals (ve s) !! pid = Some p -> kind p = k -> stage p = st -> at_stage pid k st s.
Proof. intros Hp Hk Hs q Hq. by simplify_eq. Qed.

Lemma stage_run_good {A} s0 pid k st (m : rt W -> A * rt W) :
  preserves (good s0) m -> stage_run s0 pid k st m.
Proof. intros Hm s Hs _. by apply Hm. Qed.

(** Steps that leave the engine alone keep the stage. *)
Lemma stage_run_framed {A B} s0 pid k st (m : RM W A) (f : A -> RM W B) :
  track_frame m -> (forall a, stage_run s0 pid k st (f a)) -> stage_run s0 pid k st (m ≫= f).
Proof.
  intros Hm Hf s Hs Hst. pose proof (good_framed s0 m Hm s Hs) as H1.
  assert (H2 : at_stage pid k st (m s).2).
  { intros p. destruct (track_frame_eq m s Hm) as [-> _]. apply Hst. }
  unfold mbind, M_bind. destruct (m s) as [[a|e] s1]; [by apply Hf|done].
Qed.

(** What follows the move need not know the stage. *)
Lemma stage_run_then {A B} s0 pid k st (m : RM W A) (f : A -> RM W B) :
  stage_run s0 pid k st m -> (forall a, preserves (good s0) (f a)) ->
  stage_run s0 pid k st (m ≫= f).
Proof.
  intros Hm Hf s Hs Hst. specialize (Hm s Hs Hst). unfold mbind, M_bind.
  destruct (m s) as [[a|e] s1]; [by apply Hf|done].
Qed.

Lemma stage_run_transact {A} s0 pid k st (m : RM W A) :
  stage_run s0 pid k st m -> stage_run s0 pid k st (transact m).
Proof.
  intros Hm s Hs Hst. specialize (Hm s Hs Hst). unfold transact.
  by destruct (m s) as [[] ?].
Qed.

(** ** The two stages of a joint vote *)

Notation joint_run s0 pid := (stage_run s0 pid PROPOSAL_KIND_JOINT STAGE_JOINT).

Lemma good_advance s0 pid : joint_run s0 pid (advance_joint_to_referendum pid).
Proof.
  unfold advance_joint_to_referendum. apply stage_run_framed; [done|intros now].
  apply stage_run_transact. apply stage_run_framed; [done|intros total].
  apply stage_run_framed; [apply frame_ok_or|intros eligible].
  intros s Hs Hj. autorewrite with run.
  destruct (Proposals (ve s) !! pid) as [p|] eqn:Hp; autorewrite with run; [|done].
  destruct (Hj p Hp) as [Hk Hst].
  match goal with |- good s0 (_ ?s1).2 => assert (Hs1 : good s0 s1) end.
  { match goal with |- good s0 (set_ve ?f ?s1) =>
      apply (good_upd s0 f (fun _ => eq_refl) s1) end.
    apply (good_update_proposal s0 s pid p); [done|by apply to_referendum_identity|done..]. }
  match goal with |- good s0 (?m _).2 =>
    assert (Hm : preserves (good s0) m); [|by apply Hm] end.
  unfold emit_proposal_advanced_to_referendum. solve_good.
Qed.

Lemma good_joint_institution s0 pid cid b :
  joint_run s0 pid (finalize_joint_institution_vote pid cid b).
Proof.
  unfold finalize_joint_institution_vote.
  do 7 (apply stage_run_framed; [first [done|apply frame_ok_or|apply frame_ensure]|intros ?]).
  repeat case_match; try apply good_advance; apply stage_run_good; solve_good.
Qed.

Lemma ensure_open_Ok pid s p s' :
  ensure_open_proposal pid s = (Ok p, s') ->
  s' = s /\ Proposals (ve s) !! pid = Some p /\ status p = STATUS_VOTING /\
  block_number s <= end_block p.
Proof. unfold ensure_open_proposal. intros H. by run_inv. Qed.

Lemma ensure_open_Err pid s e s' : ensure_open_proposal pid s = (Err e, s') -> s' = s.
Proof.
  unfold ensure_open_proposal. autorewrite with run.
  destruct (Proposals (ve s) !! pid) as [p|]; autorewrite with run; [|by intros [= _ <-]].
  case_bool_decide; autorewrite with run; [|by intros [= _ <-]].
  case_bool_decide; autorewrite with run; [done|by intros [= _ <-]].
Qed.

Lemma good_joint_vote s0 who pid cid role b :
  preserves (good s0) (do_joint_vote who pid cid role b).
Proof.
  intros s Hs. unfold do_joint_vote.
  destruct (ensure_open_proposal pid s) as [[p|e] s1] eqn:Hr.
  2: { rewrite (bind_run_Err _ _ _ _ _ Hr). by apply ensure_open_Err in Hr as ->. }
  rewrite (bind_run _ _ _ _ _ Hr). apply ensure_open_Ok in Hr as (-> & Hp & _ & _).
  destruct (bool_decide (kind p = PROPOSAL_KIND_JOINT)) eqn:Hk; autorewrite with run; [|done].
  destruct (bool_decide (stage p = STAGE_JOINT)) eqn:Hst; autorewrite with run; [|done].
  apply bool_decide_eq_true in Hk, Hst.
  match goal with |- good s0 (?m s).2 => cut (joint_run s0 pid m) end.
  { intros Hm. apply Hm; [done|by eapply at_stage_found]. }
  clear Hs Hp. apply stage_run_framed; [apply frame_ensure|intros _].
  apply stage_run_framed; [apply frame_ok_or|intros [code weight]].
  do 12 (apply stage_run_framed; [first [done|apply frame_ok_or|apply frame_ensure]|intros ?]).
  repeat case_match; try apply good_joint_institution; apply stage_run_good; solve_good.
Qed.

(** A timeout of a proposal as the storage has it. *)
Lemma good_joint_timeout s0 p pid s :
  Proposals (ve s) !! pid = Some p -> kind p = PROPOSAL_KIND_JOINT -> good s0 s ->
  good s0 (do_finalize_joint_timeout p pid s).2.
Proof.
  intros Hp Hk Hs. unfold do_finalize_joint_timeout.
  destruct (bool_decide (stage p = STAGE_JOINT)) eqn:Hst; autorewrite with run; [|done].
  apply bool_decide_eq_true in Hst.
  destruct (bool_decide (status p = STATUS_VOTING)); autorewrite with run; [|done].
  destruct (end_block p <? block_number s); autorewrite with run; [|done].
  case_match; [by apply good_set_status_and_emit|]. apply good_advance; [done|].
  by eapply at_stage_found.
Qed.

Lemma good_referendum_vote s0 who pid b :
  preserves (good s0) (do_jointreferendum_vote who pid b).
Proof. unfold do_jointreferendum_vote. solve_good. Qed.

Lemma good_referendum_timeout s0 p pid :
  preserves (good s0) (do_finalize_jointreferendum_timeout p pid).
Proof. unfold do_finalize_jointreferendum_timeout. solve_good. Qed.

Lemma good_joint_finalize s0 p pid s :
  Proposals (ve s) !! pid = Some p -> good s0 s ->
  good s0 (joint_finalize_timeout p pid s).2.
Proof.
  intros Hp Hs. unfold joint_finalize_timeout, joint_handles.
  case_bool_decide as Hk; [|done]. rewrite sbind_run.
  match goal with |- good s0 (mret _ ?x).2 => change (good s0 x) end.
  case_decide; [by apply good_joint_timeout|].
  case_decide; [by apply good_referendum_timeout|done].
Qed.

(** ** Creation *)

Lemma good_ensure_vote_plan s0 cid who plan :
  preserves (good s0) (ensure_vote_plan cid who plan : RM W unit).
Proof. unfold ensure_vote_plan. solve_good. Qed.

Section Started.
Context (s0 : rt W) (Hi : engine_inv s0) (Hc : clock_ok s0).

Lemma holds_joint_proposal who cid plan :
  holds (good s0) (do_create_joint_proposal who cid plan) (fun _ => good s0).
Proof.
  unfold do_create_joint_proposal. apply holds_keep; [apply good_ensure_vote_plan|intros].
  do 2 (apply holds_keep; [solve_good|intros]). apply holds_transact. cbv zeta.
  eapply holds_bind; [by apply holds_allocate_and_lock|]. intros id. cbn beta.
  apply holds_keep; [apply fresh_snapshot_plan|intros].
  eapply holds_bind; [apply holds_insert_proposal; solve_newborn|]. intros ?.
  apply holds_preserves. solve_good.
Qed.

Lemma good_create_joint who cid plan data :
  preserves (good s0) (create_joint_proposal_with_data who cid plan data).
Proof.
  apply preserves_transact_holds. do 2 (apply holds_keep; [solve_good|intros]).
  eapply holds_bind; [apply holds_joint_proposal|]. intros id.
  apply holds_keep; [solve_good|intros].
  eapply holds_bind; [apply holds_register|]. intros ?. by apply holds_ret.
Qed.

Lemma good_create_joint_object who cid plan data k obj :
  preserves (good s0)
    (create_joint_proposal_with_data_and_object who cid plan data k obj).
Proof.
  apply preserves_transact_holds. do 2 (apply holds_keep; [solve_good|intros]).
  eapply holds_bind; [apply holds_joint_proposal|]. intros id.
  apply holds_keep; [solve_good|intros].
  eapply holds_bind; [apply holds_register|]. intros ?.
  apply holds_preserves. solve_good.
Qed.
End Started.
End JointSafety.
