(* ===== verification/LegislationSafety.v ===== *)
(** * Votes of the legislature respect the engine

    The votes of the bodies, the stages a law goes through, their timeouts
    and the creation of the proposals keep the engine's invariant; the hooks
    of the track leave the engine's storage alone. *)
From S2P Require Import Prelude CidNumber.
From S2P Require Import Cid Types TrackTypes State Interfaces Runtime Ids Locks Data.
From S2P Require Import Cleanup Lifecycle Execution Expiry Maintenance Engine Invariant.
From S2P Require Import Safety Clients InternalVote InternalSafety JointVote JointSafety.
From S2P Require Import LegislationVote.

Section LegislationFrames.
Context `{Wt : Weights} `{Cfg : !Config} `{LCfg : !LegislationConfig} `{Ord : StorageOrder}
  {W : Type}.

Lemma frame_upd_lv f : track_frame (upd_lv f : RM W unit).
Proof. done. Qed.

Lemma frame_legislation_chunk pid limit :
  track_frame (legislation_cleanup_chunk pid limit : RS W (Z * bool)).
Proof.
  assert (H1 : forall p l, track_frame (cleanup_representative_votes_chunk p l : RS W _)).
  { intros p l s. unfold cleanup_representative_votes_chunk. by destruct (clear_prefix _ _ _). }
  assert (H2 : forall p l, track_frame (cleanup_leg_referendum_votes_chunk p l : RS W _)).
  { intros p l s. unfold cleanup_leg_referendum_votes_chunk. by destruct (clear_prefix _ _ _). }
  unfold legislation_cleanup_chunk. apply frame_sbind; [apply H1|intros [? ?]].
  case_match; [apply frame_sret|]. apply frame_sbind; [apply H2|intros [? ?]]. apply frame_sret.
Qed.

Lemma legislation_track_framed : track_framed (legislation_track : TrackHandler W).
Proof.
  split; intros; simpl; try done; apply frame_when_handled;
    [apply frame_legislation_chunk|done].
Qed.
End LegislationFrames.

#[export] Hint Extern 1 (preserves (good _) (upd_lv _)) =>
  apply good_framed, frame_upd_lv : preserves.
#[export] Hint Extern 1 (preserves (fresh _ _) (upd_lv _)) =>
  apply fresh_framed, frame_upd_lv : preserves.

(** Steps that read, check, or write outside the engine. *)
Ltac frame_step :=
  first [done | apply frame_ok_or | apply frame_ensure | apply frame_from_result
        | apply frame_upd_lv | apply frame_ret].

Section LegislationSafety.
Context `{Wt : Weights} `{Cfg : !Config} `{LCfg : !LegislationConfig} `{Ord : StorageOrder}
  {W : Type} `{Prov : !Providers W} `{Cb : !Callbacks W} `{Tr : !ProposalTracks W}
  `{CbL : !CallbackLaws Cb} `{TrL : !TrackLaws Tr}.
Implicit Types s : rt W.

Notation leg_run s0 pid st := (stage_run s0 pid PROPOSAL_KIND_LEGISLATION st).

(** ** Stages *)

Lemma with_window_identity new code now p :
  kind p = PROPOSAL_KIND_LEGISLATION -> rtc leg_stage_step (stage p) new ->
  same_identity p (with_window new code now p).
Proof. intros Hk Hs. split; try done; [by right|]. right; right. done. Qed.

Lemma good_move s0 pid st change :
  (forall p, kind p = PROPOSAL_KIND_LEGISLATION -> stage p = st ->
    same_identity p (change p) /\ status (change p) = status p) ->
  leg_run s0 pid st (move_proposal pid change).
Proof.
  intros Hch. unfold move_proposal. apply stage_run_framed; [done|intros now].
  intros s Hs Hst. autorewrite with run.
  destruct (Proposals (ve s) !! pid) as [p|] eqn:Hp; autorewrite with run; [|done].
  destruct (Hst p Hp) as [Hk Hstg]. destruct (Hch p Hk Hstg) as [Hid Hstatus].
  match goal with |- good s0 (_ ?s1).2 => assert (Hs1 : good s0 s1) end.
  { match goal with |- good s0 (set_ve ?f ?s1) =>
      apply (good_upd s0 f (fun _ => eq_refl) s1) end.
    by apply (good_update_proposal s0 s pid p). }
  by apply good_schedule_expiry.
Qed.

Lemma good_transition s0 pid st new :
  rtc leg_stage_step st new -> leg_run s0 pid st (transition_stage pid new).
Proof.
  intros Hst. unfold transition_stage. apply stage_run_framed; [done|intros now].
  apply stage_run_transact, good_move. intros p Hk <-.
  split; [by apply with_window_identity|done].
Qed.

Lemma good_advance_to_sign s0 pid : leg_run s0 pid STAGE_LEG_REPRESENTATIVE (advance_to_sign pid).
Proof.
  unfold advance_to_sign. apply stage_run_then; [|intros; solve_good].
  apply good_transition, rtc_once. constructor.
Qed.

Lemma good_advance_to_override s0 pid : leg_run s0 pid STAGE_LEG_SIGN (advance_to_override pid).
Proof.
  unfold advance_to_override. apply stage_run_framed; [done|intros _].
  apply stage_run_then; [|intros; solve_good]. apply good_transition, rtc_once. constructor.
Qed.

Lemma good_finalize_or_guard s0 pid st b :
  leg_stage_step st STAGE_LEG_CONSTITUTION_GUARD ->
  leg_run s0 pid st (finalize_or_guard pid b).
Proof.
  intros Hst. unfold finalize_or_guard.
  destruct b; [|apply stage_run_good, good_set_status_and_emit].
  unfold advance_to_guard. apply stage_run_framed; [done|intros _].
  apply stage_run_then; [|intros; solve_good]. by apply good_transition, rtc_once.
Qed.

Lemma good_advance_to_referendum s0 pid :
  leg_run s0 pid STAGE_LEG_REPRESENTATIVE (advance_to_referendum pid).
Proof.
  unfold advance_to_referendum. apply stage_run_framed; [done|intros now].
  apply stage_run_transact. do 2 (apply stage_run_framed; [frame_step|intros ?]).
  apply stage_run_then.
  - apply good_move. intros p Hk Hst. split; [|done].
    apply with_window_identity; [done|]. rewrite Hst. apply rtc_once. constructor.
  - intros _. unfold emit_proposal_advanced_to_referendum. solve_good.
Qed.

(** ** Bodies *)

Lemma good_finish_route s0 pid :
  leg_run s0 pid STAGE_LEG_REPRESENTATIVE (finish_representative_route pid).
Proof.
  unfold finish_representative_route. do 2 (apply stage_run_framed; [frame_step|intros ?]).
  case_match; [apply stage_run_good, good_set_status_and_emit|].
  case_decide; [apply good_advance_to_referendum|apply good_advance_to_sign].
Qed.

Lemma good_advance_body s0 pid :
  leg_run s0 pid STAGE_LEG_REPRESENTATIVE (advance_representative_body_or_finish pid).
Proof.
  unfold advance_representative_body_or_finish.
  do 2 (apply stage_run_framed; [frame_step|intros ?]). cbv zeta.
  case_match; [|apply good_finish_route].
  do 3 (apply stage_run_framed; [frame_step|intros ?]). apply stage_run_transact.
  apply stage_run_framed; [frame_step|intros _].
  apply stage_run_then; [|intros; solve_good].
  apply good_move. intros p Hk Hst. split; [|done]. by apply with_window_identity.
Qed.

Lemma good_body_passed s0 route pid :
  leg_run s0 pid STAGE_LEG_REPRESENTATIVE (representative_body_passed route pid).
Proof. destruct route; [apply good_finish_route|apply good_advance_body]. Qed.

Lemma good_representative_vote s0 who pid role b :
  preserves (good s0) (do_cast_representative_vote who pid role b).
Proof.
  intros s Hs. unfold do_cast_representative_vote.
  destruct (ensure_open_proposal pid s) as [[p|e] s1] eqn:Hr.
  2: { rewrite (bind_run_Err _ _ _ _ _ Hr). by apply ensure_open_Err in Hr as ->. }
  rewrite (bind_run _ _ _ _ _ Hr). apply ensure_open_Ok in Hr as (-> & Hp & _ & _).
  destruct (bool_decide (kind p = _)) eqn:Hk; autorewrite with run; [|done].
  destruct (bool_decide (stage p = _)) eqn:Hst; autorewrite with run; [|done].
  apply bool_decide_eq_true in Hk, Hst.
  match goal with |- good s0 (?m s).2 =>
    cut (leg_run s0 pid STAGE_LEG_REPRESENTATIVE m) end.
  { intros Hm. apply Hm; [done|by eapply at_stage_found]. }
  clear Hs Hp. do 14 (apply stage_run_framed; [frame_step|intros ?]).
  repeat case_match; try apply good_body_passed; apply stage_run_good; solve_good.
Qed.

(** ** Timeouts, of a proposal as the storage has it *)

(** The three checks every timeout starts with, and what follows them. *)
Lemma good_timeout_checks s0 pid p st s (m : RM W unit) :
  Proposals (ve s) !! pid = Some p -> kind p = PROPOSAL_KIND_LEGISLATION ->
  leg_run s0 pid st m -> good s0 s ->
  good s0 ((ensure (bool_decide (stage p = st)) (VotingErr InvalidProposalStage) ;;
    ensure (bool_decide (status p = STATUS_VOTING)) (VotingErr ProposalAlreadyFinalized) ;;
    now ← gets block_number;
    ensure (is_expired now (end_block p)) (VotingErr VoteNotExpired) ;; m) s).2.
Proof.
  intros Hp Hk Hm Hs. destruct (bool_decide (stage p = st)) eqn:Hst; autorewrite with run; [|done].
  apply bool_decide_eq_true in Hst.
  destruct (bool_decide (status p = STATUS_VOTING)); autorewrite with run; [|done].
  destruct (is_expired _ _); autorewrite with run; [|done].
  apply Hm; [done|by eapply at_stage_found].
Qed.

Lemma good_legislation_finalize s0 p pid s :
  Proposals (ve s) !! pid = Some p -> good s0 s ->
  good s0 (legislation_finalize_timeout p pid s).2.
Proof.
  intros Hp Hs. unfold legislation_finalize_timeout, legislation_handles.
  case_bool_decide as Hk; [|done]. rewrite sbind_run.
  match goal with |- good s0 (mret _ ?x).2 => change (good s0 x) end.
  repeat case_decide; try done; apply (good_timeout_checks s0 pid); try done.
  - do 6 (apply stage_run_framed; [frame_step|intros ?]).
    case_match; [apply good_body_passed|apply stage_run_good, good_set_status_and_emit].
  - do 3 (apply stage_run_framed; [frame_step|intros ?]).
    case_match; [|apply stage_run_good, good_set_status_and_emit].
    do 2 (apply stage_run_framed; [frame_step|intros ?]). apply good_finalize_or_guard. constructor.
  - do 2 (apply stage_run_framed; [frame_step|intros ?]).
    case_match; [apply good_advance_to_override|apply good_finalize_or_guard; constructor].
  - apply stage_run_good, good_set_status_and_emit.
  - apply stage_run_good, good_set_status_and_emit.
Qed.

(** ** The referendum and the signatures *)

Lemma good_leg_referendum_vote s0 who pid b :
  preserves (good s0) (do_cast_referendum_vote who pid b).
Proof. unfold do_cast_referendum_vote. solve_good. Qed.

Lemma ensure_in_stage_Ok pid st s meta s' :
  ensure_in_stage pid st s = (Ok meta, s') ->
  s' = s /\ LegislationMetas (lv s) !! pid = Some meta /\
  exists p, Proposals (ve s) !! pid = Some p /\ status p = STATUS_VOTING /\ stage p = st.
Proof. unfold ensure_in_stage. intros H. run_inv. split_and!; [done..|eauto]. Qed.

Lemma ensure_in_stage_Err pid st s e s' : ensure_in_stage pid st s = (Err e, s') -> s' = s.
Proof.
  unfold ensure_in_stage. autorewrite with run.
  destruct (Proposals (ve s) !! pid) as [p|]; autorewrite with run; [|by intros [= _ <-]].
  destruct (bool_decide (status p = _)); autorewrite with run; [|by intros [= _ <-]].
  destruct (bool_decide (stage p = _)); autorewrite with run; [|by intros [= _ <-]].
  by destruct (LegislationMetas (lv s) !! pid); autorewrite with run; [|intros [= _ <-]].
Qed.

(** Only proposals of the legislature are in its stages. *)
Lemma leg_stage_kind s pid p :
  engine_inv s -> Proposals (ve s) !! pid = Some p ->
  STAGE_LEG_REPRESENTATIVE <= stage p <= STAGE_LEG_CONSTITUTION_GUARD ->
  kind p = PROPOSAL_KIND_LEGISLATION.
Proof.
  intros Hi Hp Hr. revert Hr. unfold STAGE_LEG_REPRESENTATIVE, STAGE_LEG_CONSTITUTION_GUARD.
  destruct (inv_stage _ Hi _ _ Hp) as [[_ H]|[[_ H]|[[_ H]|[H _]]]]; [..|done];
    unfold STAGE_INTERNAL, STAGE_JOINT, STAGE_REFERENDUM, STAGE_ELECTION_POPULAR,
      STAGE_ELECTION_MUTUAL in H; lia.
Qed.

Lemma good_in_stage {A} s0 pid st (f : LegislationMeta -> RM W A) :
  STAGE_LEG_REPRESENTATIVE <= st <= STAGE_LEG_CONSTITUTION_GUARD ->
  (forall meta, leg_run s0 pid st (f meta)) ->
  preserves (good s0) (ensure_in_stage pid st ≫= f).
Proof.
  intros Hr Hf s Hs. destruct (ensure_in_stage pid st s) as [[meta|e] s1] eqn:Hrun.
  - rewrite (bind_run _ _ _ _ _ Hrun).
    apply ensure_in_stage_Ok in Hrun as (-> & _ & p & Hp & _ & Hst).
    apply Hf; [done|]. eapply at_stage_found; [done| |done].
    eapply leg_stage_kind; [by apply good_inv in Hs|done|by rewrite Hst].
  - rewrite (bind_run_Err _ _ _ _ _ Hrun). by apply ensure_in_stage_Err in Hrun as ->.
Qed.

Lemma good_executive_sign s0 who pid b : preserves (good s0) (do_executive_sign who pid b).
Proof.
  apply good_in_stage; [done|intros meta].
  do 4 (apply stage_run_framed; [frame_step|intros ?]).
  destruct b; [apply good_finalize_or_guard; constructor|].
  case_match; [apply good_advance_to_override|apply stage_run_good, good_set_status_and_emit].
Qed.

Lemma good_override_sign s0 who pid b : preserves (good s0) (do_override_sign who pid b).
Proof.
  apply good_in_stage; [done|intros meta].
  do 5 (apply stage_run_framed; [frame_step|intros ?]).
  destruct b; simpl; [|apply stage_run_good, good_set_status_and_emit].
  do 2 (apply stage_run_framed; [frame_step|intros ?]).
  case_match; [apply good_finalize_or_guard; constructor|apply stage_run_good; solve_good].
Qed.

Lemma good_guard_vote s0 who pid b : preserves (good s0) (do_guard_vote who pid b).
Proof.
  apply good_in_stage; [done|intros meta]. cbv zeta. apply stage_run_good. solve_good.
Qed.

(** ** Creation *)

Lemma fresh_legislation_voters s0 id pid meta plan :
  preserves (fresh s0 id) (snapshot_legislation_voters pid meta plan : RM W unit).
Proof. unfold snapshot_legislation_voters. solve_good. Qed.
Hint Resolve fresh_legislation_voters good_representative_vote : preserves.

Section Started.
Context (s0 : rt W) (Hi : engine_inv s0) (Hc : clock_ok s0).

Lemma holds_store_representative p meta lmeta scope plan :
  newborn p ->
  holds (good s0) (store_representative p meta lmeta scope plan) (fun _ => good s0).
Proof.
  intros Hp. unfold store_representative. eapply holds_bind; [by apply holds_allocate_and_lock|].
  intros id. cbn beta. do 2 (apply holds_keep; [solve_good|intros _]).
  apply holds_keep; [case_match; solve_good|intros _].
  eapply holds_bind; [by apply holds_insert_proposal|]. intros []. cbn beta.
  apply holds_preserves. solve_good.
Qed.

Lemma holds_create_representative who cid plan route rule proc subs lmeta :
  holds (good s0) (do_create_representative_proposal who cid plan route rule proc subs lmeta)
    (fun _ => good s0).
Proof.
  unfold do_create_representative_proposal.
  apply holds_keep; [solve_good|intros [code body]].
  do 12 (apply holds_keep; [solve_good|intros]). apply holds_transact.
  apply holds_store_representative. split; [done|]. do 3 right. by split.
Qed.

Lemma good_vote_as_proposer who id body : preserves (good s0) (vote_as_proposer who id body).
Proof. unfold vote_as_proposer. solve_good. Qed.

Lemma good_create_representative who cid plan route rule subs tag data :
  preserves (good s0) (create_representative_vote who cid plan route rule subs tag data).
Proof.
  unfold create_representative_vote. apply preserves_bind; [solve_good|intros [? body]].
  apply preserves_transact_holds.
  eapply holds_bind; [apply holds_create_representative|]. intros id. cbn beta.
  apply holds_keep; [solve_good|intros].
  eapply holds_bind; [apply holds_register|]. intros []. cbn beta.
  apply holds_preserves, good_vote_as_proposer.
Qed.

Lemma good_create_legislation who cid plan route rule proc tag data obj :
  preserves (good s0) (create_legislation_vote who cid plan route rule proc tag data obj).
Proof.
  unfold create_legislation_vote. apply preserves_bind; [solve_good|intros [? body]].
  apply preserves_transact_holds.
  eapply holds_bind; [apply holds_create_representative|]. intros id. cbn beta.
  apply holds_keep; [solve_good|intros].
  eapply holds_bind; [apply holds_register|]. intros []. cbn beta.
  apply holds_preserves. apply preserves_bind; [solve_good|intros].
  apply good_vote_as_proposer.
Qed.
End Started.
End LegislationSafety.
