(* ===== verification/JointBallots.v ===== *)
(** * Joint votes: the result reflects the votes

    [joint_ok] relates a joint proposal to its ballots: the tallies of every
    institution count its tickets, the weights of the deciding institutions
    add up to the joint tally, the referendum tally counts the citizens'
    ballots, and the stage and status are the ones these call for. *)
From S2P Require Import Prelude Cid Types State Interfaces Runtime Ids Locks Data.
From S2P Require Import Cleanup Lifecycle Execution Expiry Maintenance Engine Invariant.
From S2P Require Import Safety Clients Tally Ballots InternalVote InternalSafety.
From S2P Require Import InternalBallots JointVote JointSafety.

(** ** The founding institutions *)

Definition joint_institutions : list CidNumber :=
  (cb_cid_number <$> CHINA_CB) ++ (ch_cid_number <$> CHINA_CH).

Definition joint_weight (c : CidNumber) : Z := default 0 (institution_info c).

Lemma joint_institutions_NoDup : NoDup joint_institutions.
Proof. apply (bool_decide_unpack _). vm_compute. reflexivity. Qed.

Lemma joint_weight_nonneg c : 0 <= joint_weight c.
Proof. unfold joint_weight, institution_info. repeat case_match; vm_compute; congruence. Qed.

Lemma joint_weight_total : total_weight joint_weight joint_institutions = JOINT_VOTE_PASS_THRESHOLD.
Proof. vm_compute. reflexivity. Qed.

Lemma institution_info_profile c : institution_info c = snd <$> institution_profile c.
Proof. unfold institution_info, institution_profile. by repeat case_match. Qed.

Lemma profile_member c x : institution_profile c = Some x -> c ∈ joint_institutions.
Proof.
  assert (Hcb : forall l, existsb (fun n => bool_decide (cb_cid_number n = c)) l = true ->
    c ∈ cb_cid_number <$> l).
  { intros l (n & Hn & <-%bool_decide_eq_true)%existsb_exists.
    apply list_elem_of_fmap. exists n. by rewrite list_elem_of_In. }
  assert (Hch : forall l, existsb (fun n => bool_decide (ch_cid_number n = c)) l = true ->
    c ∈ ch_cid_number <$> l).
  { intros l (n & Hn & <-%bool_decide_eq_true)%existsb_exists.
    apply list_elem_of_fmap. exists n. by rewrite list_elem_of_In. }
  unfold institution_profile, joint_institutions. rewrite elem_of_app.
  destruct (match CHINA_CB with [] => false | _ => _ end) eqn:H1.
  { intros _. left. destruct CHINA_CB as [|n l]; [done|].
    apply bool_decide_eq_true in H1 as <-. by left. }
  clear H1. destruct (existsb _ (tail CHINA_CB)) eqn:H2.
  { intros _. left. destruct CHINA_CB as [|n l]; [done|]. right. by apply Hcb. }
  destruct (existsb _ CHINA_CH) eqn:H3; [|done]. intros _. right. by apply Hch.
Qed.

Lemma member_weight c : c ∈ joint_institutions -> 0 < joint_weight c.
Proof.
  revert c. apply Forall_forall. apply (bool_decide_unpack _). vm_compute. reflexivity.
Qed.

Lemma fixed_threshold_bounds code thr :
  fixed_governance_pass_threshold code = Some thr -> 0 < thr <= u32_max.
Proof. unfold fixed_governance_pass_threshold. repeat case_decide; intros [= <-]; by vm_compute. Qed.

(** The whole weight is in favour only when every institution is. *)
Lemma unanimous_all (pid : Z) (m : gmap (Z * CidNumber) bool) :
  (forall c v, m !! (pid, c) = Some v -> c ∈ joint_institutions) ->
  JOINT_VOTE_PASS_THRESHOLD <= vote_sum joint_weight pid true m ->
  forall c, c ∈ joint_institutions -> m !! (pid, c) = Some true.
Proof.
  intros Hin. rewrite (vote_sum_list _ pid true m joint_institutions) by
    eauto using joint_institutions_NoDup. rewrite <- joint_weight_total. intros Ht c Hc.
  apply (list_sum_total joint_weight pid true m joint_institutions); try done.
  - apply joint_weight_nonneg.
  - by apply member_weight.
Qed.

(** ** The invariant *)

(** What stage and status say: [wy] is the weight in favour, [y] and [n] the
    citizens for and against among [e]. *)
Record joint_outcome (stage st wy y n e : Z) : Prop := {
  jc_open : stage = STAGE_JOINT -> st = STATUS_VOTING -> wy < JOINT_VOTE_PASS_THRESHOLD;
  jc_passed : stage = STAGE_JOINT -> passed_status st -> JOINT_VOTE_PASS_THRESHOLD <= wy;
  jc_not_unanimous : stage = STAGE_REFERENDUM -> wy < JOINT_VOTE_PASS_THRESHOLD;
  jc_ref_open : stage = STAGE_REFERENDUM -> st = STATUS_VOTING -> 2 * y <= e /\ 2 * n < e;
  jc_ref_passed : stage = STAGE_REFERENDUM -> passed_status st -> e < 2 * y;
  jc_ref_rejected : stage = STAGE_REFERENDUM -> st = STATUS_REJECTED -> 2 * y <= e;
}.

Definition institution_ticket (g : engine) (pid : Z) (t : InstitutionVoteTicket) : Prop :=
  exists l, VoterSnapshot g !! (pid, Institution (ticket_role_subject t)) = Some l /\
    voter_account_id t ∈ l.

Definition of_institution (c : CidNumber) (t : InstitutionVoteTicket) : Z :=
  if decide (role_cid_number (ticket_role_subject t) = c) then 1 else 0.

Section JointOk.
Context `{Wt : Weights} `{Cfg : !Config} {W : Type}.
Implicit Types s : rt W.

Definition tickets_for (pid : Z) (c : CidNumber) (b : bool) s : Z :=
  vote_sum (of_institution c) pid b (JointVotesByTicket (jv s)).
Definition weight_for (pid : Z) (b : bool) s : Z :=
  vote_sum joint_weight pid b (JointVotesByInstitution (jv s)).
Definition citizens_for (pid : Z) (b : bool) s : Z :=
  vote_sum (fun _ => 1) pid b (ticket_approve <$> ReferendumVotesByCid (jv s)).

(** The decision of an institution follows from its tickets. *)
Definition institution_decided (pid : Z) s (c : CidNumber) (v : bool) : Prop :=
  exists code w thr, institution_profile c = Some (code, w) /\
    fixed_governance_pass_threshold code = Some thr /\
    if v then thr <= tickets_for pid c true s
    else exists n, institution_ticket_count (ve s) pid c = Some n /\
      tickets_for pid c true s < thr /\ n - tickets_for pid c false s < thr.

Record joint_ok (pid : Z) (p : Proposal) s : Prop := {
  jo_frozen : frozen_wf pid (ve s);
  jo_tickets : forall t v, JointVotesByTicket (jv s) !! (pid, t) = Some v ->
    institution_ticket (ve s) pid t;
  jo_inst_tally : forall c, tallies u32_max (tickets_for pid c true s) (tickets_for pid c false s)
    (default vote_count_zero (JointInstitutionTallies (jv s) !! (pid, c)));
  jo_decided : forall c v, JointVotesByInstitution (jv s) !! (pid, c) = Some v ->
    institution_decided pid s c v;
  jo_weights : tallies u32_max (weight_for pid true s) (weight_for pid false s)
    (default vote_count_zero (JointTallies (jv s) !! pid));
  jo_citizens : tallies u64_max (citizens_for pid true s) (citizens_for pid false s)
    (default vote_count_zero (ReferendumTallies (jv s) !! pid));
  jo_joint : stage p = STAGE_JOINT ->
    forall c, ReferendumVotesByCid (jv s) !! (pid, c) = None;
  jo_open : stage p = STAGE_JOINT -> status p = STATUS_VOTING ->
    forall c, JointVotesByInstitution (jv s) !! (pid, c) <> Some false;
  jo_outcome : exists e, population_eligible_total_of (ve s) pid = Some e /\ 0 < e <= u64_max /\
    citizens_for pid true s + citizens_for pid false s <= e /\
    joint_outcome (stage p) (status p) (weight_for pid true s)
      (citizens_for pid true s) (citizens_for pid false s) e;
}.

Lemma tickets_for_same pid c b s s' :
  same_ballots pid s s' -> tickets_for pid c b s' = tickets_for pid c b s.
Proof. intros []. by apply vote_sum_ext. Qed.
Lemma weight_for_same pid b s s' : same_ballots pid s s' -> weight_for pid b s' = weight_for pid b s.
Proof. intros []. by apply vote_sum_ext. Qed.
Lemma citizens_for_same pid b s s' :
  same_ballots pid s s' -> citizens_for pid b s' = citizens_for pid b s.
Proof. intros []. apply vote_sum_ext. intros k. rewrite !lookup_fmap. congruence. Qed.

Lemma decided_same pid s s' c v :
  same_ballots pid s s' -> same_frozen pid (ve s) (ve s') ->
  institution_decided pid s c v -> institution_decided pid s' c v.
Proof.
  intros Hb [_ _ Hf _] (code & w & thr & Hp & Ht & Hv). exists code, w, thr. split_and!; [done..|].
  rewrite !(tickets_for_same pid c _ s s' Hb). destruct v; [done|].
  destruct Hv as (n & Hn & ?). exists n. split; [|done]. unfold institution_ticket_count in *.
  by rewrite Hf.
Qed.

Lemma joint_ok_view pid p s s' :
  same_ballots pid s s' -> same_frozen pid (ve s) (ve s') -> joint_ok pid p s -> joint_ok pid p s'.
Proof.
  intros Hb Hf [H1 H2 H3 H4 H5 H6 H7 H8 (e & He & Hpos & Hle & Ho)].
  pose proof (fun b => weight_for_same pid b s s' Hb) as Hw.
  pose proof (fun b => citizens_for_same pid b s s' Hb) as Hc.
  pose proof (fun c b => tickets_for_same pid c b s s' Hb) as Ht.
  pose proof Hb as [_ _ _ B1 B2 B3 B4 B5 B6]. pose proof Hf as [_ F1 _ F2]. split.
  - by eapply frozen_wf_same.
  - intros t v. rewrite B1. intros (l & Hl & ?)%H2. exists l. by rewrite F1.
  - intros c. by rewrite !Ht, B2.
  - intros c v. rewrite B3. intros Hv%H4. by eapply decided_same.
  - by rewrite !Hw, B4.
  - by rewrite !Hc, B6.
  - intros Hs c. rewrite B5. by apply H7.
  - intros Hs Hst c. rewrite B3. by apply H8.
  - exists e. unfold population_eligible_total_of in *. by rewrite F2, !Hw, !Hc.
Qed.

Lemma joint_outcome_step stg st st' wy y n e :
  valid_status_transition st st' = true -> st' <> STATUS_PASSED ->
  joint_outcome stg st wy y n e -> joint_outcome stg st' wy y n e.
Proof.
  unfold valid_status_transition. intros Hv Hne [H1 H2 H3 H4 H5 H6].
  apply bool_decide_eq_true in Hv.
  repeat (apply elem_of_cons in Hv as [[= -> ->]|Hv]; [|]); [done| | | |by apply elem_of_nil in Hv].
  - split; intros Hs; [done|by intros [|[|]]|auto|done|by intros [|[|]]|]. intros _. by apply H4.
  - split; intros Hs; [done| |auto|done| |done]; intros _; [apply H2|apply H5]; try done; by left.
  - split; intros Hs; [done| |auto|done| |done]; intros _; [apply H2|apply H5]; try done; by left.
Qed.

Lemma joint_ok_status pid p st s :
  valid_status_transition (status p) st = true -> st <> STATUS_PASSED ->
  joint_ok pid p s -> joint_ok pid (set_status st p) s.
Proof.
  intros Hv Hst [H1 H2 H3 H4 H5 H6 H7 H8 (e & He & Hpos & Hle & Ho)]. split; try done.
  - intros _ Hx. simpl in Hx. subst st. unfold valid_status_transition in Hv.
    apply bool_decide_eq_true in Hv.
    repeat (apply elem_of_cons in Hv as [Hx|Hv]; [by injection Hx|]). by apply elem_of_nil in Hv.
  - exists e. do 3 (split; [done|]). by eapply joint_outcome_step.
Qed.
End JointOk.

(** ** Arithmetic of the referendum *)

Lemma referendum_passed_iff y e :
  0 < e <= u64_max -> 0 <= y <= u64_max ->
  is_jointreferendum_vote_passed y e = true <-> e < 2 * y.
Proof.
  intros He Hy. unfold is_jointreferendum_vote_passed, saturating_mul. rewrite decide_False by lia.
  unfold u64_max, u128_max in *. rewrite !Z.min_r by lia. rewrite Z.ltb_lt. lia.
Qed.

Lemma referendum_rejected_iff n e :
  0 < e <= u64_max -> 0 <= n <= u64_max ->
  is_jointreferendum_vote_rejected n e = true <-> e <= 2 * n.
Proof.
  intros He Hy. unfold is_jointreferendum_vote_rejected, saturating_mul. rewrite decide_False by lia.
  unfold u64_max, u128_max in *. rewrite !Z.min_r by lia. rewrite Z.leb_le. lia.
Qed.

(** ** One ballot *)

Section JointCast.
Context `{Wt : Weights} `{Cfg : !Config} {W : Type}.
Context (pid : Z) (s s1 : rt W).
Hypothesis Hve : ve s1 = ve s.
Hypothesis Hiv : iv s1 = iv s.
Hypothesis Hlv : lv s1 = lv s.
Hypothesis Hel : el s1 = el s.

(** A ticket of the institution [c]. *)
Section Ticket.
Context (t : InstitutionVoteTicket) (b : bool).
Let c := role_cid_number (ticket_role_subject t).
Let tally := add_votes u32_max 1 b
  (default vote_count_zero (JointInstitutionTallies (jv s) !! (pid, c))).
Hypothesis Hjv : jv s1 = set_JointInstitutionTallies (insert (pid, c) tally)
  (set_JointVotesByTicket (insert (pid, t) b) (jv s)).

Lemma ticket_other q : q <> pid -> same_ballots q s s1.
Proof.
  intros Hq. split; intros; rewrite ?Hjv, ?Hiv, ?Hlv, ?Hel; simpl; try done;
    rewrite lookup_insert_ne; congruence.
Qed.

Lemma tickets_for_cast c' b' :
  JointVotesByTicket (jv s) !! (pid, t) = None ->
  tickets_for pid c' b' s1 =
    tickets_for pid c' b' s + (if decide (c = c' /\ b = b') then 1 else 0).
Proof.
  intros Hn. unfold tickets_for. rewrite Hjv. simpl. rewrite vote_sum_insert by done.
  unfold of_institution. subst c. repeat case_decide; naive_solver lia.
Qed.

Lemma ticket_ok p :
  joint_ok pid p s -> JointVotesByTicket (jv s) !! (pid, t) = None ->
  JointVotesByInstitution (jv s) !! (pid, c) = None -> institution_ticket (ve s) pid t ->
  joint_ok pid p s1.
Proof.
  intros [H1 H2 H3 H4 H5 H6 H7 H8 H9] Hn Hdec Ht.
  split; unfold weight_for, citizens_for; rewrite ?Hve, ?Hjv; try done.
  - intros t' v. simpl. intros [[[= <-] <-]|[_ Hx]]%lookup_insert_Some; [done|by eapply H2].
  - intros c'. simpl. rewrite !tickets_for_cast by done. destruct (decide (c = c')) as [<-|Hne].
    + rewrite lookup_insert_eq. simpl.
      pose proof (tallies_add u32_max 1 b _ _ _ ltac:(lia) (H3 c)) as Hta.
      destruct b; repeat case_decide; first [exact Hta|exfalso; naive_solver].
    + rewrite lookup_insert_ne by congruence.
      rewrite !decide_False by naive_solver. rewrite !Z.add_0_r. apply H3.
  - intros c' v Hv. simpl in Hv. destruct (decide (c = c')) as [<-|Hne]; [congruence|].
    destruct (H4 _ _ Hv) as (code & w & thr & Hp & Hthr & Hd). exists code, w, thr.
    split_and!; [done..|]. rewrite Hve, !tickets_for_cast, !decide_False by naive_solver.
    by rewrite !Z.add_0_r.
Qed.
End Ticket.

(** The decision of the institution [c]. *)
Section Institution.
Context (c : CidNumber) (v : bool) (w : Z).
Let tally := add_votes u32_max w v (default vote_count_zero (JointTallies (jv s) !! pid)).
Hypothesis Hjv : jv s1 = set_JointTallies (insert pid tally)
  (set_JointVotesByInstitution (insert (pid, c) v) (jv s)).
Hypothesis Hw : institution_info c = Some w.
Hypothesis Hnew : JointVotesByInstitution (jv s) !! (pid, c) = None.

Lemma institution_other q : q <> pid -> same_ballots q s s1.
Proof.
  intros Hq. split; intros; rewrite ?Hjv, ?Hiv, ?Hlv, ?Hel; simpl; try done;
    rewrite lookup_insert_ne; congruence.
Qed.

Lemma weight_for_cast v' :
  weight_for pid v' s1 = weight_for pid v' s + (if decide (v = v') then w else 0).
Proof.
  unfold weight_for. rewrite Hjv. simpl. rewrite vote_sum_insert by done.
  unfold joint_weight. rewrite Hw. simpl. repeat case_decide; naive_solver lia.
Qed.

Lemma institution_tallies p : joint_ok pid p s ->
  tallies u32_max (weight_for pid true s1) (weight_for pid false s1) tally.
Proof.
  intros Hok. rewrite !weight_for_cast.
  assert (Hw0 : 0 <= w).
  { pose proof (joint_weight_nonneg c) as H. unfold joint_weight in H. by rewrite Hw in H. }
  pose proof (tallies_add u32_max w v _ _ _ Hw0 (jo_weights _ _ _ Hok)) as Hta.
  destruct v; repeat case_decide; first [exact Hta|done].
Qed.

Lemma institution_ok p p' :
  joint_ok pid p s -> institution_decided pid s c v -> stage p = STAGE_JOINT ->
  (stage p' = STAGE_JOINT -> status p' = STATUS_VOTING -> status p = STATUS_VOTING /\ v = true) ->
  (forall e, 0 < e -> joint_outcome (stage p') (status p') (weight_for pid true s1) 0 0 e) ->
  joint_ok pid p' s1.
Proof.
  intros Hok Hd Hst Hopen Hout. pose proof (institution_tallies p Hok) as Hta.
  destruct Hok as [H1 H2 H3 H4 H5 H6 H7 H8 (e & He & Hpos & Hle & Ho)].
  assert (Hz : forall b, citizens_for pid b s = 0).
  { intros b. apply vote_sum_blank. intros k. by rewrite lookup_fmap, (H7 Hst). }
  assert (Hz1 : forall b, citizens_for pid b s1 = 0) by
    (intros b; rewrite <- (Hz b); unfold citizens_for; by rewrite Hjv).
  assert (Ht : forall c' b, tickets_for pid c' b s1 = tickets_for pid c' b s) by
    (intros; unfold tickets_for; by rewrite Hjv).
  assert (Hdec : forall c' v', institution_decided pid s c' v' -> institution_decided pid s1 c' v').
  { intros c' v' (code & w' & thr & ? & ? & ?). exists code, w', thr. by rewrite Hve, !Ht. }
  split; rewrite ?Hve; try done.
  - rewrite Hjv. done.
  - intros c'. rewrite !Ht, Hjv. apply H3.
  - intros c' v'. rewrite Hjv. simpl. intros [[[= <-] <-]|[_ Hx]]%lookup_insert_Some; auto.
  - rewrite Hjv. simpl. by rewrite lookup_insert_eq.
  - rewrite !Hz in H6. rewrite !Hz1, Hjv. exact H6.
  - intros _. rewrite Hjv. by apply H7.
  - intros Hs' Hv' c'. rewrite Hjv. simpl. destruct (Hopen Hs' Hv') as [Hvp ->].
    intros [[_ [=]]|[_ Hx]]%lookup_insert_Some. by apply (H8 Hst Hvp c').
  - exists e. rewrite !Hz1. split_and!; try done; [lia..|]. apply Hout. lia.
Qed.
End Institution.

(** The ballot of a citizen. *)
Section Citizen.
Context (c : CidNumber) (x : CitizenReferendumTicket).
Let tally := add_votes u64_max 1 (ticket_approve x)
  (default vote_count_zero (ReferendumTallies (jv s) !! pid)).
Hypothesis Hjv : jv s1 = set_ReferendumTallies (insert pid tally)
  (set_ReferendumVotesByCid (insert (pid, c) x) (jv s)).
Hypothesis Hnew : ReferendumVotesByCid (jv s) !! (pid, c) = None.

Lemma citizen_other q : q <> pid -> same_ballots q s s1.
Proof.
  intros Hq. split; intros; rewrite ?Hjv, ?Hiv, ?Hlv, ?Hel; simpl; try done;
    rewrite lookup_insert_ne; congruence.
Qed.

Lemma citizens_for_cast b :
  citizens_for pid b s1 = citizens_for pid b s + (if decide (ticket_approve x = b) then 1 else 0).
Proof.
  unfold citizens_for. rewrite Hjv. simpl. rewrite fmap_insert, vote_sum_insert.
  - repeat case_decide; naive_solver lia.
  - by rewrite lookup_fmap, Hnew.
Qed.

Lemma citizens_for_nonneg b : 0 <= citizens_for pid b s.
Proof. by apply vote_sum_nonneg. Qed.

Lemma citizen_tallies p : joint_ok pid p s ->
  tallies u64_max (citizens_for pid true s1) (citizens_for pid false s1) tally.
Proof.
  intros Hok. rewrite !citizens_for_cast.
  pose proof (tallies_add u64_max 1 (ticket_approve x) _ _ _ ltac:(lia) (jo_citizens _ _ _ Hok)) as Hta.
  subst tally. destruct (ticket_approve x); repeat case_decide; first [exact Hta|done].
Qed.

Lemma citizen_ok p p' e :
  joint_ok pid p s -> stage p = STAGE_REFERENDUM -> stage p' = STAGE_REFERENDUM ->
  population_eligible_total_of (ve s) pid = Some e ->
  citizens_for pid true s + citizens_for pid false s < e ->
  joint_outcome STAGE_REFERENDUM (status p') (weight_for pid true s)
    (citizens_for pid true s1) (citizens_for pid false s1) e ->
  joint_ok pid p' s1.
Proof.
  intros Hok Hst Hst' He Hlt Hout. pose proof (citizen_tallies p Hok) as Hta.
  destruct Hok as [H1 H2 H3 H4 H5 H6 H7 H8 (e' & He' & Hpos & _ & _)].
  assert (e' = e) as -> by congruence.
  assert (Hwf : forall b, weight_for pid b s1 = weight_for pid b s) by
    (intros; unfold weight_for; by rewrite Hjv).
  assert (Ht : forall c' b, tickets_for pid c' b s1 = tickets_for pid c' b s) by
    (intros; unfold tickets_for; by rewrite Hjv).
  split; rewrite ?Hve; try done.
  - by rewrite Hjv.
  - intros c'. rewrite !Ht, Hjv. apply H3.
  - intros c' v. rewrite Hjv. intros (code & w' & thr & ? & ? & Hd)%H4. exists code, w', thr.
    by rewrite Hve, !Ht.
  - rewrite !Hwf, Hjv. exact H5.
  - rewrite Hjv. simpl. by rewrite lookup_insert_eq.
  - by rewrite Hst'.
  - by rewrite Hst'.
  - exists e. rewrite !Hwf, Hst'. do 2 (split; [done|]). split; [|done].
    rewrite !citizens_for_cast. destruct (ticket_approve x); repeat case_decide; try done; lia.
Qed.
End Citizen.
End JointCast.

Section JointBallots.
Context `{Wt : Weights} `{Cfg : !Config} `{Ord : StorageOrder} {W : Type}
  `{Prov : !Providers W} `{Cb : !Callbacks W} `{Tr : !ProposalTracks W}
  `{CbL : !CallbackLaws Cb} `{TrL : !TrackLaws Tr}
  `{CbP : !PrivateCallbacks Cb} `{TrB : !TrackBallots Tr}.
Context (K : Z -> Proposal -> rt W -> Prop) `{KL : !TrackInvariant K}.
Hypothesis HK : forall pid p s, kind p = PROPOSAL_KIND_JOINT -> K pid p s <-> joint_ok pid p s.
Implicit Types s : rt W.

(** ** The step to the referendum *)

Lemma settled_advance pid p s :
  Proposals (ve s) !! pid = Some p -> settled (except pid K) s ->
  (PendingProposalCleanups (ve s) !! pid = None -> K pid (to_referendum (block_number s) p) s) ->
  match advance_joint_to_referendum pid s with
  | (Ok _, s') => settled K s'
  | (Err _, s') => s' = s
  end.
Proof.
  intros Hp Hs Hk. unfold advance_joint_to_referendum. autorewrite with run. unfold transact.
  autorewrite with run.
  destruct (population_eligible_total_of _ _); autorewrite with run; [|done].
  rewrite Hp. autorewrite with run.
  match goal with |- match (match ?m ?s1 with _ => _ end) with _ => _ end =>
    assert (Hm : preserves (settled K) m); [|assert (Hs1 : settled K s1);
      [|specialize (Hm _ Hs1); by destruct (m _) as [[]]]] end.
  - unfold emit_proposal_advanced_to_referendum. pose proof (settled_schedule_expiry K).
    clear - CbL TrL CbP TrB KL H. solve_good.
  - apply (settled_view K (set_ve (set_Proposals (insert pid (to_referendum (block_number s) p))) s));
      [done|done|].
    destruct Hs as [H1 H2]. split; [by intros q Hq; apply (unborn_same q s), H1|]. simpl.
    intros q x. rewrite lookup_insert_Some. intros [[<- <-]|[Hne Hx]] Hc.
    + apply (ti_view pid _ s); [done..|]. by apply Hk.
    + apply (ti_view q x s); [done..|]. apply H2; auto.
Qed.

Lemma holds_advance pid p :
  holds (fun s => Proposals (ve s) !! pid = Some p /\ settled (except pid K) s /\
      K pid (to_referendum (block_number s) p) s)
    (advance_joint_to_referendum pid) (fun _ => settled K).
Proof.
  intros s [] s' (Hp & Hs & Hk) Hr. pose proof (settled_advance pid p s Hp Hs (fun _ => Hk)) as H.
  by rewrite Hr in H.
Qed.

(** ** The vote of the institutions *)

Lemma holds_institution_vote pid c v p s s' :
  finalize_joint_institution_vote pid c v s = (Ok tt, s') ->
  engine_inv s -> settled K s -> Proposals (ve s) !! pid = Some p ->
  kind p = PROPOSAL_KIND_JOINT -> stage p = STAGE_JOINT -> status p = STATUS_VOTING ->
  joint_ok pid p s -> institution_decided pid s c v -> settled K s'.
Proof.
  intros Hr Hi Hs Hp Hkind Hstage Hst Hok Hd.
  unfold finalize_joint_institution_vote, upd_jv, emit in Hr. run_inv.
  match goal with H : institution_info c = Some ?x |- _ => rename x into w, H into Hw end.
  match goal with H : ~ is_Some _ |- _ => apply eq_None_not_Some in H; rename H into Hnew end.
  set (tally := add_votes _ _ _ _) in *.
  match goal with H : _ (deposit_event ?e ?x) = (Ok tt, s') |- _ =>
    set (s1 := deposit_event e x) in *; rename H into Hr end.
  assert (Hs1 : settled (except pid K) s1).
  { apply (settled_cast K pid s); [done|by eapply inv_below| |done].
    by apply (institution_other pid s s1 eq_refl eq_refl eq_refl c v w). }
  pose proof (institution_tallies pid s s1 c v w eq_refl Hw Hnew p Hok) as [Hwt _].
  assert (Hfin : forall p', kind p' = PROPOSAL_KIND_JOINT ->
    (stage p' = STAGE_JOINT -> status p' = STATUS_VOTING -> v = true) ->
    (forall e, 0 < e -> joint_outcome (stage p') (status p') (weight_for pid true s1) 0 0 e) ->
    K pid p' s1).
  { intros p' Hk' Hv Hout. apply HK; [done|].
    apply (institution_ok pid s s1 eq_refl c v w eq_refl Hw Hnew p); auto. }
  assert (Hstay : weight_for pid true s1 < JOINT_VOTE_PASS_THRESHOLD -> forall e, 0 < e ->
    joint_outcome STAGE_REFERENDUM STATUS_VOTING (weight_for pid true s1) 0 0 e).
  { intros Hlt e He. split; intros Hs0; try done; [intros _; lia|by intros [|[|]]]. }
  change (yes tally = Z.min u32_max (weight_for pid true s1)) in Hwt.
  assert (Hadv : weight_for pid true s1 < JOINT_VOTE_PASS_THRESHOLD ->
    advance_joint_to_referendum pid s1 = (Ok tt, s') -> settled K s').
  { intros Hlt. apply (holds_advance pid p). split_and!; [done..|]. apply Hfin; [done..|].
    simpl. rewrite Hst. by apply Hstay. }
  assert (Hmin : yes tally < JOINT_VOTE_PASS_THRESHOLD ->
    weight_for pid true s1 < JOINT_VOTE_PASS_THRESHOLD).
  { rewrite Hwt. unfold JOINT_VOTE_PASS_THRESHOLD, u32_max. lia. }
  destruct v.
  - destruct (is_joint_unanimous (yes tally)) eqn:Hu; unfold is_joint_unanimous in Hu.
    + apply (holds_settled_passed K pid p s1 tt s'); [|exact Hr]. split_and!; [done..|].
      intros _. apply Hfin; [done..|]. intros e He. simpl. rewrite Hstage.
      assert (JOINT_VOTE_PASS_THRESHOLD <= weight_for pid true s1) by lia.
      by split; intros Hs0; try done.
    + apply Z.leb_gt in Hu. case_match; [by apply Hadv; [apply Hmin|]|]. run_inv.
      apply (settled_cast_back K pid); [done|]. intros p' Hp'.
      assert (p' = p) as -> by (change (Proposals (ve s) !! pid = Some p') in Hp'; congruence).
      apply Hfin; [done..|]. intros e He. rewrite Hstage, Hst.
      split; intros Hs0; try done; [by intros _; apply Hmin|by intros [|[|]]].
  - apply Hadv; [|done].
    rewrite (weight_for_cast pid s s1 c false w eq_refl Hw Hnew), decide_False, Z.add_0_r by done.
    destruct (jo_outcome _ _ _ Hok) as (e & _ & _ & _ & Ho). by apply (jc_open _ _ _ _ _ _ Ho).
Qed.

Lemma subject_voter_ticket s pid subject r who :
  subject = Institution r -> is_subject_voter_in_snapshot s pid subject who = true ->
  institution_ticket (ve s) pid {| ticket_role_subject := r;
    voter_account_id := default who (resolve_subject_voter (world s) subject who) |}.
Proof.
  intros ->. unfold is_subject_voter_in_snapshot, institution_ticket. simpl.
  destruct (VoterSnapshot (ve s) !! _) as [l|]; [|done]. exists l. split; [done|].
  destruct (resolve_institution_voter _ _ _) as [a|]; [|done]. simpl.
  apply existsb_exists in H as (? & Hx & ->%bool_decide_eq_true). by apply list_elem_of_In.
Qed.

Lemma joint_open_ok pid p s :
  engine_inv s -> settled K s -> Proposals (ve s) !! pid = Some p ->
  kind p = PROPOSAL_KIND_JOINT -> status p = STATUS_VOTING -> joint_ok pid p s.
Proof.
  intros Hi Hs Hp Hk Hst. apply HK; [done|]. apply Hs; [done|]. by apply (open_clean s pid p).
Qed.

Lemma holds_joint_vote who pid c r b :
  holds (fun s => engine_inv s /\ settled K s) (do_joint_vote who pid c r b) (fun _ => settled K).
Proof.
  intros s [] s' [Hi Hs] Hr. unfold do_joint_vote in Hr.
  apply bind_Ok in Hr as (p & s0 & Hopen & Hr).
  apply ensure_open_Ok in Hopen as (-> & Hp & Hst & _). unfold upd_jv, emit in Hr. run_inv.
  match goal with H : ~ is_Some (JointVotesByInstitution _ !! _) |- _ =>
    apply eq_None_not_Some in H; rename H into Hnew end.
  match goal with x : InstitutionCode * Z |- _ => destruct x as [code w] end. run_inv.
  match goal with H : is_subject_voter_in_snapshot _ _ _ _ = true |- _ =>
    apply (subject_voter_ticket _ _ _ _ _ eq_refl) in H; rename H into Hticket end.
  match goal with H : ~ is_Some (JointVotesByTicket _ !! _) |- _ =>
    apply eq_None_not_Some in H; rename H into Hfresh end.
  set (ticket := {| ticket_role_subject := _; voter_account_id := _ |}) in *.
  pose proof (joint_open_ok pid p s Hi Hs Hp ltac:(done) Hst) as Hok.
  set (tally := add_votes _ _ _ _) in *.
  match goal with H : _ (deposit_event ?e ?x) = (Ok tt, s') |- _ =>
    set (s1 := deposit_event e x) in *; rename H into Hr end.
  pose proof (ticket_ok pid s s1 eq_refl ticket b eq_refl p Hok Hfresh Hnew Hticket) as Hok1.
  match goal with H : fixed_governance_pass_threshold code = Some ?x |- _ =>
    rename x into thr, H into Hthr end.
  match goal with H : institution_ticket_count _ _ _ = Some ?x |- _ => rename x into n, H into Hn end.
  match goal with H : institution_profile c = _ |- _ => rename H into Hprof end.
  destruct (fixed_threshold_bounds _ _ Hthr) as [Hthr0 Hthr1].
  assert (Hi1 : engine_inv s1) by by destruct Hi.
  assert (Hs1 : settled K s1).
  { apply (settled_cast_back K pid).
    - apply (settled_cast K pid s); [done|by eapply inv_below| |done].
      by apply (ticket_other pid s s1 eq_refl eq_refl eq_refl ticket b).
    - intros p' Hp'. assert (p' = p) as -> by (change (Proposals (ve s) !! pid = Some p') in Hp'; congruence).
      by apply HK. }
  assert (Hta : tallies u32_max (tickets_for pid c true s1) (tickets_for pid c false s1) tally).
  { pose proof (jo_inst_tally _ _ _ Hok1 c) as Hx. simpl in Hx. by rewrite lookup_insert_eq in Hx. }
  destruct Hta as [Hy Hno]. destruct (thr <=? yes tally) eqn:Hyes.
  - apply (holds_institution_vote pid c true p s1 s'); try done.
    exists code, w, thr. split_and!; [done..|lia].
  - match type of Hr with (if ?x then _ else _) _ = _ => destruct x eqn:Hlost end; [|by run_inv].
    apply (holds_institution_vote pid c false p s1 s'); try done.
    exists code, w, thr. do 2 (split; [done|]). exists n. split; [done|].
    pose proof (fw_bound _ _ (jo_frozen _ _ _ Hok) _ _ Hn).
    unfold saturating_add, saturating_sub in Hlost. lia.
Qed.

(** ** Timeouts *)

Lemma kept_outcome (Q : rt W -> Prop) {A} (r : result DispatchError A * rt W) s :
  match r with (Ok _, s') => Q s' | (Err _, s') => s' = s end -> Q s -> Q r.2.
Proof. destruct r as [[]]; simpl; [done|]. by intros ->. Qed.

Lemma settled_joint_timeout p pid s :
  Proposals (ve s) !! pid = Some p -> kind p = PROPOSAL_KIND_JOINT ->
  settled K s -> settled K (do_finalize_joint_timeout p pid s).2.
Proof.
  intros Hp Hk Hs. unfold do_finalize_joint_timeout.
  destruct (bool_decide (stage p = _)) eqn:Hstage; autorewrite with run; [|done].
  destruct (bool_decide (status p = _)) eqn:Hst; autorewrite with run; [|done].
  apply bool_decide_eq_true in Hstage, Hst.
  destruct (end_block p <? block_number s); autorewrite with run; [|done].
  pose proof (settled_except pid K s Hs) as Hx.
  assert (Hok : PendingProposalCleanups (ve s) !! pid = None -> joint_ok pid p s).
  { intros Hc. apply HK; [done|]. by apply Hs. }
  destruct (is_joint_unanimous _) eqn:Hu; eapply kept_outcome; try done.
  - eapply settled_set_status; [done..|]. intros _ Hc. apply HK; [done|].
    destruct (Hok Hc) as [H1 H2 H3 H4 H5 H6 H7 H8 (e & He & Hpos & Hle & Ho)].
    exfalso. pose proof (jc_open _ _ _ _ _ _ Ho Hstage Hst) as Hlt.
    unfold is_joint_unanimous in Hu. destruct H5 as [H5 _]. rewrite H5 in Hu. lia.
  - eapply settled_advance; [done..|]. intros Hc. apply HK; [done|].
    destruct (Hok Hc) as [H1 H2 H3 H4 H5 H6 H7 H8 (e & He & Hpos & Hle & Ho)].
    assert (Hz : forall b, citizens_for pid b s = 0).
    { intros b. apply vote_sum_blank. intros k. by rewrite lookup_fmap, (H7 Hstage). }
    split; try done. exists e. rewrite !Hz in *. do 3 (split; [done|]).
    pose proof (jc_open _ _ _ _ _ _ Ho Hstage Hst).
    split; intros Hs0; try done; simpl; [intros _; lia|rewrite Hst; by intros [|[|]]].
Qed.

Lemma settled_referendum_timeout p pid s :
  Proposals (ve s) !! pid = Some p -> kind p = PROPOSAL_KIND_JOINT ->
  settled K s -> settled K (do_finalize_jointreferendum_timeout p pid s).2.
Proof.
  intros Hp Hk Hs. unfold do_finalize_jointreferendum_timeout.
  destruct (bool_decide (stage p = _)) eqn:Hstage; autorewrite with run; [|done].
  destruct (bool_decide (status p = _)) eqn:Hst; autorewrite with run; [|done].
  apply bool_decide_eq_true in Hstage, Hst.
  destruct (end_block p <? block_number s); autorewrite with run; [|done].
  destruct (population_eligible_total_of _ _) as [e|] eqn:He; autorewrite with run; [|done].
  pose proof (settled_except pid K s Hs) as Hx.
  eapply kept_outcome; [|done]. eapply settled_set_status; [done..|]. intros _ Hc.
  apply HK; [done|]. assert (Hok : joint_ok pid p s) by (apply HK; [done|]; by apply Hs).
  destruct Hok as [H1 H2 H3 H4 H5 H6 H7 H8 (e' & He' & Hpos & Hle & Ho)].
  assert (e' = e) as -> by congruence.
  destruct (jc_ref_open _ _ _ _ _ _ Ho Hstage Hst) as [Hy Hn].
  assert (Hout : is_jointreferendum_vote_passed
    (yes (default vote_count_zero (ReferendumTallies (jv s) !! pid))) e = false).
  { apply not_true_iff_false. rewrite referendum_passed_iff; [|done|].
    - destruct H6 as [-> _]. pose proof (citizens_for_nonneg pid s true). lia.
    - destruct H6 as [-> _]. pose proof (citizens_for_nonneg pid s true). lia. }
  rewrite Hout. split; try done. exists e. do 3 (split; [done|]).
  destruct Ho as [O1 O2 O3 O4 O5 O6].
  split; intros Hs0; [|by simpl in Hs0; rewrite Hstage in Hs0|by apply O3|done|by intros [|[|]]|done].
  done.
Qed.

Lemma settled_joint_finalize p pid s :
  Proposals (ve s) !! pid = Some p -> settled K s ->
  settled K (joint_finalize_timeout p pid s).2.
Proof.
  intros Hp Hs. unfold joint_finalize_timeout, joint_handles.
  destruct (bool_decide (kind p = _)) eqn:Hk; [|done]. apply bool_decide_eq_true in Hk.
  rewrite sbind_run. cbn [mret St_ret fst snd].
  destruct (decide (stage p = STAGE_JOINT)); [by apply settled_joint_timeout|].
  destruct (decide (stage p = STAGE_REFERENDUM)); [by apply settled_referendum_timeout|done].
Qed.

(** ** The referendum *)

Lemma holds_referendum_vote who pid b :
  holds (fun s => engine_inv s /\ settled K s) (do_jointreferendum_vote who pid b)
    (fun _ => settled K).
Proof.
  intros s [] s' [Hi Hs] Hr. unfold do_jointreferendum_vote in Hr.
  apply bind_Ok in Hr as (p & s0 & Hopen & Hr).
  apply ensure_open_Ok in Hopen as (-> & Hp & Hst & _). unfold upd_jv, emit in Hr. run_inv.
  match goal with H : ~ is_Some (ReferendumVotesByCid _ !! _) |- _ =>
    apply eq_None_not_Some in H; rename H into Hnew end.
  match goal with H : population_eligible_total_of _ _ = Some ?x |- _ =>
    rename x into e, H into He end.
  match goal with H : stage p = _ |- _ => rename H into Hstage end.
  match goal with H : kind p = _ |- _ => rename H into Hkind end.
  match goal with H : (_ <? e) = true |- _ => rename H into Hroom end.
  pose proof (joint_open_ok pid p s Hi Hs Hp Hkind Hst) as Hok.
  set (tally := add_votes _ _ _ _) in *.
  match goal with H : _ (deposit_event ?ev ?x) = (Ok tt, s') |- _ =>
    set (s1 := deposit_event ev x) in *; rename H into Hr end.
  match goal with x : CitizenSubject |- _ => rename x into who' end.
  set (ticket := {| voter_subject := who'; ticket_approve := b |}) in *.
  pose proof (citizen_tallies pid s s1 (citizen_cid_number who') ticket eq_refl Hnew p Hok) as [Hy Hn].
  change (yes tally = Z.min u64_max (citizens_for pid true s1)) in Hy.
  change (no tally = Z.min u64_max (citizens_for pid false s1)) in Hn.
  pose proof (jo_outcome _ _ _ Hok) as (e' & He' & Hpos & _ & Ho).
  assert (e' = e) as -> by congruence.
  assert (Hlt : citizens_for pid true s + citizens_for pid false s < e).
  { pose proof (jo_citizens _ _ _ Hok) as [Ht1 Ht2]. rewrite Ht1, Ht2 in Hroom.
    pose proof (citizens_for_nonneg pid s true). pose proof (citizens_for_nonneg pid s false).
    unfold saturating_add in Hroom. lia. }
  assert (Hfin : forall st, joint_outcome STAGE_REFERENDUM st (weight_for pid true s)
      (citizens_for pid true s1) (citizens_for pid false s1) e -> K pid (set_status st p) s1).
  { intros st Hout. apply HK; [done|].
    by apply (citizen_ok pid s s1 eq_refl (citizen_cid_number who') ticket eq_refl Hnew p _ e). }
  assert (Hnonneg : forall v, 0 <= citizens_for pid v s1) by (intros; apply citizens_for_nonneg).
  assert (Hpass : is_jointreferendum_vote_passed (yes tally) e = true <->
    e < 2 * citizens_for pid true s1).
  { pose proof (Hnonneg true). rewrite referendum_passed_iff by lia. lia. }
  assert (Hrej : is_jointreferendum_vote_rejected (no tally) e = true <->
    e <= 2 * citizens_for pid false s1).
  { pose proof (Hnonneg false). rewrite referendum_rejected_iff by lia. lia. }
  pose proof (jc_not_unanimous _ _ _ _ _ _ Ho Hstage) as Hnu.
  assert (Hs1 : settled (except pid K) s1).
  { apply (settled_cast K pid s); [done|by eapply inv_below| |done].
    by apply (citizen_other pid s s1 eq_refl eq_refl eq_refl (citizen_cid_number who') ticket). }
  destruct (is_jointreferendum_vote_passed (yes tally) e) eqn:Hp1;
    [|destruct (is_jointreferendum_vote_rejected (no tally) e) eqn:Hr1].
  - apply (holds_settled_passed K pid p s1 tt s'); [|exact Hr]. split_and!; [done..|].
    intros _. apply Hfin. split; intros Hs0; try done. intros _. by apply Hpass.
  - pose proof (settled_set_status K s1 pid STATUS_REJECTED p Hp Hs1) as Hf. rewrite Hr in Hf.
    apply Hf. intros _ _. apply Hfin.
    split; intros Hs0; try done; [by intros [|[|]]|]. intros _. apply Z.nlt_ge. by rewrite <- Hpass.
  - run_inv. apply (settled_cast_back K pid); [done|]. intros p' Hp'.
    assert (p' = set_status STATUS_VOTING p) as ->.
    { change (Proposals (ve s) !! pid = Some p') in Hp'. rewrite Hp in Hp'. injection Hp' as <-.
      rewrite <- Hst. by destruct p. }
    apply Hfin. split; intros Hs0; try done; [|by intros [|[|]]]. intros _. split.
    + apply Z.nlt_ge. by rewrite <- Hpass.
    + apply Z.nle_gt. by rewrite <- Hrej.
Qed.

(** ** Creation *)

Section Started.
Context (s0 : rt W) (Hi : engine_inv s0) (Hc : clock_ok s0).
(** [eligible_total] is a [u64]. *)
Hypothesis Hpop : forall w sc d, population_data_of w sc = Some d ->
  0 <= eligible_total d <= u64_max.

Lemma created_ok id c subs now e s :
  blank id s -> frozen_wf id (ve s) -> population_eligible_total_of (ve s) id = Some e ->
  0 < e <= u64_max -> K id (joint_proposal c subs now) s.
Proof.
  intros [_ _ B1 B2 B3 B4 B5 B6 _ _] Hf He Hpos. apply HK; [done|].
  assert (Hw : forall b, weight_for id b s = 0) by (intros; by apply vote_sum_blank).
  assert (Ht : forall c b, tickets_for id c b s = 0) by (intros; by apply vote_sum_blank).
  assert (Hz : forall b, citizens_for id b s = 0).
  { intros b. apply vote_sum_blank. intros k. by rewrite lookup_fmap, B5. }
  split; intros *; rewrite ?Hw, ?Ht, ?Hz, ?B1, ?B2, ?B3, ?B4, ?B5, ?B6; try done.
  - intros _ _ x. by rewrite B3.
  - exists e. split_and!; try done; [lia..|]. split; intros Hs0; try done; by intros [|[|]].
Qed.

Lemma settled_joint_proposal who c plan :
  holds (both K s0) (do_create_joint_proposal who c plan) (fun _ => settled K).
Proof.
  unfold do_create_joint_proposal, ensure_vote_plan.
  do 3 (apply holds_keep; [solve_preserves_with fail|intros]). apply holds_transact.
  eapply holds_bind; [by apply holds_lock_growing|]. intros id. cbn beta.
  apply holds_keep; [by apply growing_snapshot_plan|intros _].
  intros s i s' Hg Hr. unfold create_population_snapshot, bind_vote_plan, upd in Hr. run_inv.
  match goal with H : schedule_proposal_expiry _ _ ?x = (Ok tt, ?y) |- _ =>
    set (s1 := x) in *; rename H into Hsch; rename y into s2 end.
  match goal with H : population_data_of _ _ = Some ?x |- _ => rename x into d, H into Hd end.
  match goal with H : eligible_total d <> 0 |- _ => rename H into Hd0 end.
  assert (Hg1 : growing K i s1).
  { apply (growing_own K); [|done|done|by intros []|].
    - intros q Hq. split; [done|]. split; intros; simpl; try done. by rewrite lookup_insert_ne.
    - apply (growing_set_ve K); [done|]. by apply (growing_insert K). }
  assert (Hs1 : settled K s1).
  { apply (growing_settled K i); [done|]. intros p' Hp'. simpl in Hp'. rewrite lookup_insert_eq in Hp'.
    injection Hp' as <-. apply (created_ok i _ _ _ (eligible_total d)); try by destruct Hg1.
    - unfold population_eligible_total_of. simpl. by rewrite lookup_insert_eq.
    - pose proof (Hpop _ _ _ Hd). lia. }
  assert (Hs2 : settled K s2).
  { revert Hsch. apply (holds_preserves (settled K)); [by apply settled_schedule_expiry|done]. }
  match goal with H : emit_proposal_created _ _ _ _ _ = _ |- _ => revert H end.
  apply (holds_preserves (settled K)); [|done]. unfold emit_proposal_created. solve_good.
Qed.

Lemma holds_register_settled pid tag data now :
  holds (both K s0) (register_proposal_data pid tag data now : RM W unit) (fun _ => settled K).
Proof.
  apply (holds_weaken (settled K)); [by intros s [_ ?]|].
  apply holds_preserves. by apply settled_register.
Qed.

Lemma settled_create_joint who cid plan data :
  holds (both K s0) (create_joint_proposal_with_data who cid plan data) (fun _ => settled K).
Proof.
  apply holds_transact. do 2 (apply holds_keep; [solve_preserves_with fail|intros]).
  eapply holds_bind; [apply holds_both; [by apply holds_joint_proposal|apply settled_joint_proposal]|].
  intros id. cbn beta. apply holds_keep; [solve_preserves_with fail|intros].
  eapply holds_bind; [apply holds_register_settled|]. intros ?. by apply holds_ret.
Qed.

Lemma settled_create_joint_object who cid plan data k obj :
  holds (both K s0) (create_joint_proposal_with_data_and_object who cid plan data k obj)
    (fun _ => settled K).
Proof.
  apply holds_transact. do 2 (apply holds_keep; [solve_preserves_with fail|intros]).
  eapply holds_bind; [apply holds_both; [by apply holds_joint_proposal|apply settled_joint_proposal]|].
  intros id. cbn beta. apply holds_keep; [solve_preserves_with fail|intros].
  eapply holds_bind; [apply holds_register_settled|]. intros ?.
  apply holds_preserves. apply preserves_bind; [by apply settled_store_object|].
  intros. apply preserves_ret.
Qed.
End Started.
End JointBallots.

(** ** The hooks of the track *)

Section JointHooks.
Context `{Wt : Weights} `{Cfg : !Config} `{Ord : StorageOrder} {W : Type}.

Lemma ballots_table (table : Z -> Z -> RS W (Z * bool)) pid limit removed q :
  (forall l s, same_ballots q s (table pid l s).2) ->
  forall s, same_ballots q s (joint_chunk_step table pid limit removed s).2.
Proof. intros Ht. apply same_ballots_sbind; [apply Ht|]. by intros []. Qed.

Lemma joint_chunk_ballots pid limit q s :
  q <> pid -> same_ballots q s (joint_cleanup_chunk pid limit s : _ * rt W).2.
Proof.
  intros Hq. revert s.
  assert (H1 : forall l s, same_ballots q s (cleanup_joint_admin_votes_chunk pid l s : _ * rt W).2).
  { intros l s. unfold cleanup_joint_admin_votes_chunk.
    pose proof (fun k => clear_prefix_other pid l q k (JointVotesByTicket (jv s)) Hq) as Ho.
    destruct (clear_prefix _ _ _). by split. }
  assert (H2 : forall l s, same_ballots q s (cleanup_joint_institution_votes_chunk pid l s : _ * rt W).2).
  { intros l s. unfold cleanup_joint_institution_votes_chunk.
    pose proof (fun k => clear_prefix_other pid l q k (JointVotesByInstitution (jv s)) Hq) as Ho.
    destruct (clear_prefix _ _ _). by split. }
  assert (H3 : forall l s, same_ballots q s (cleanup_joint_institution_tallies_chunk pid l s : _ * rt W).2).
  { intros l s. unfold cleanup_joint_institution_tallies_chunk.
    pose proof (fun k => clear_prefix_other pid l q k (JointInstitutionTallies (jv s)) Hq) as Ho.
    destruct (clear_prefix _ _ _). by split. }
  assert (H4 : forall l s, same_ballots q s (cleanup_referendum_votes_chunk pid l s : _ * rt W).2).
  { intros l s. unfold cleanup_referendum_votes_chunk.
    pose proof (fun k => clear_prefix_other pid l q k (ReferendumVotesByCid (jv s)) Hq) as Ho.
    destruct (clear_prefix _ _ _). by split. }
  unfold joint_cleanup_chunk.
  repeat (apply same_ballots_sbind; [first [by apply ballots_table|apply H4]|intros [? []]];
    try done).
Qed.

Lemma joint_track_ballots : track_ballots (joint_track : TrackHandler W).
Proof.
  split; intros *; simpl; [done|done|intros Hq|intros Hq]; apply same_ballots_when; intros s1.
  - by apply joint_chunk_ballots.
  - split; intros; simpl; try done; by rewrite lookup_delete_ne.
Qed.
End JointHooks.
