(* ===== verification/ElectionSafety.v ===== *)
(** * Elections respect the engine

    Ballots, results, timeouts and the creation of elections keep the
    engine's invariant; the hooks of the track and the callback leave the
    engine's storage alone. *)
From S2P Require Import Prelude Cid Types TrackTypes State Interfaces Runtime Ids Locks Data.
From S2P Require Import Cleanup Lifecycle Execution Expiry Maintenance Engine Invariant.
From S2P Require Import Safety Clients InternalVote InternalSafety JointVote JointSafety.
From S2P Require Import ElectionVote.

Section ElectionFrames.
Context `{Wt : Weights} `{Cfg : !Config} `{ECfg : !ElectionConfig} `{Ord : StorageOrder} {W : Type}.

Lemma frame_upd_el f : track_frame (upd_el f : RM W unit).
Proof. done. Qed.

Lemma frame_popular_chunk pid limit : track_frame (cleanup_popular_chunk pid limit : RS W _).
Proof. intros s. unfold cleanup_popular_chunk. by destruct (clear_prefix _ _ _). Qed.
Lemma frame_mutual_chunk pid limit : track_frame (cleanup_mutual_chunk pid limit : RS W _).
Proof. intros s. unfold cleanup_mutual_chunk. by destruct (clear_prefix _ _ _). Qed.
Lemma frame_tallies_chunk pid limit :
  track_frame (cleanup_candidate_tallies_chunk pid limit : RS W _).
Proof. intros s. unfold cleanup_candidate_tallies_chunk. by destruct (clear_prefix _ _ _). Qed.

Lemma frame_election_chunk pid limit :
  track_frame (election_cleanup_chunk pid limit : RS W (Z * bool)).
Proof.
  unfold election_cleanup_chunk, cleanup_election_votes_chunk, cleanup_election_voters_chunk,
    cleanup_election_tallies_chunk.
  repeat first [apply frame_sbind; intros|apply frame_popular_chunk|apply frame_mutual_chunk
    |apply frame_tallies_chunk|apply frame_sret|done|case_match].
Qed.

Lemma election_track_framed : track_framed (election_track : TrackHandler W).
Proof.
  split; intros; simpl; try done; apply frame_when_handled; [apply frame_election_chunk|done].
Qed.

Lemma election_callback_framed : callback_framed (election_vote_callback : ResultCallback W).
Proof. by split. Qed.
End ElectionFrames.

#[export] Hint Extern 1 (preserves (good _) (upd_el _)) =>
  apply good_framed, frame_upd_el : preserves.
#[export] Hint Extern 1 (preserves (fresh _ _) (upd_el _)) =>
  apply fresh_framed, frame_upd_el : preserves.

Section ElectionSafety.
Context `{Wt : Weights} `{Cfg : !Config} `{ECfg : !ElectionConfig} `{Ord : StorageOrder} {W : Type}
  `{Prov : !Providers W} `{Cb : !Callbacks W} `{Tr : !ProposalTracks W}
  `{CbL : !CallbackLaws Cb} `{TrL : !TrackLaws Tr}.
Implicit Types s : rt W.

Lemma good_election_result s0 pid : preserves (good s0) (finalize_election_result pid).
Proof. unfold finalize_election_result. solve_good. Qed.
Hint Resolve good_election_result : preserves.

Lemma good_election_vote s0 who pid st role c :
  preserves (good s0) (do_cast_election_vote who pid st role c).
Proof.
  unfold do_cast_election_vote, ensure_open_proposal, record_popular_ballot,
    record_mutual_ballot, election_eligible_total. solve_good.
Qed.

Lemma good_election_finalize s0 p pid : preserves (good s0) (election_finalize_timeout p pid).
Proof.
  unfold election_finalize_timeout, finalize_election_popular_timeout,
    finalize_election_mutual_timeout. solve_good.
Qed.

(** ** Creation *)

Lemma good_role_voters s0 pid subject l :
  preserves (good s0) (snapshot_role_voters pid subject l : RM W unit).
Proof.
  unfold snapshot_role_voters.
  solve_preserves_with ltac:(intros ? ?; apply good_modify; [reflexivity|assumption]).
Qed.
Hint Resolve good_role_voters : preserves.

Lemma good_mutual_voters s0 pid plan :
  preserves (good s0) (snapshot_mutual_voters pid plan : RM W unit).
Proof. unfold snapshot_mutual_voters. solve_good. Qed.
Hint Resolve good_mutual_voters : preserves.

Section Started.
Context (s0 : rt W) (Hi : engine_inv s0) (Hc : clock_ok s0).

Lemma holds_store_election p meta cs plan :
  newborn p ->
  holds (good s0) (store_election p meta cs plan) (fun _ => good s0).
Proof.
  intros Hst. unfold store_election, try_add_active_proposals. cbv zeta.
  eapply holds_bind; [by apply holds_allocate|]. intros id. cbn beta.
  eapply holds_bind; [apply holds_for_each; intros; apply holds_try_add|]. intros []. cbn beta.
  eapply holds_bind; [by apply holds_insert_proposal|]. intros []. cbn beta.
  do 4 (apply holds_keep; [solve_good|intros _]).
  apply holds_keep; [case_match; solve_good|intros _].
  apply holds_keep; [solve_good|intros _].
  eapply holds_bind; [apply holds_register|]. intros []. cbn beta.
  apply holds_preserves. solve_good.
Qed.

Lemma good_create_election who plan mode cid role n d1 d2 sc cs :
  preserves (good s0) (do_create_election who plan mode cid role n d1 d2 sc cs).
Proof.
  unfold do_create_election, candidate_scope, bounded_candidates.
  do 14 (apply preserves_bind; [solve_good|intros]).
  apply preserves_transact_holds. apply holds_store_election.
  split; [reflexivity|]. unfold stage_of_kind. simpl. destruct mode; tauto.
Qed.
End Started.
End ElectionSafety.
