(* ===== verification/ElectionBallots.v ===== *)
(** * Elections: the result reflects the ballots

    [election_ok] relates an election to its ballots: each one belongs to a
    voter frozen for the proposal and names one of its candidates, the tally
    of a candidate and the turnout count the ballots, an open election still
    waits for somebody, and the stored winners are what the count of the
    ballots gives. *)
From S2P Require Import Prelude Cid Types TrackTypes State Interfaces Runtime Ids Locks Data.
From S2P Require Import Cleanup Lifecycle Execution Expiry Maintenance Engine Invariant.
From S2P Require Import Safety Clients Tally Ballots InternalVote InternalSafety.
From S2P Require Import InternalBallots JointVote JointSafety JointBallots.
From S2P Require Import ElectionVote ElectionCount ElectionSafety.

(** ** Counting ballots *)

Definition is_for (c : CidNumber) (candidate : CitizenSubject) : bool :=
  bool_decide (citizen_cid_number candidate = c).

(** The ballots of the election [pid] that satisfy [f]. *)
Definition ballots_where (f : CitizenSubject -> bool) (pid : Z) (e : election_store) : Z :=
  vote_sum (fun _ => 1) pid true ((fun b => f (ballot_candidate b)) <$> PopularElectionVotesByCid e)
  + vote_sum (fun _ => 1) pid true (f <$> MutualElectionVotesByTicket e).

(** The ballots for one candidate, and all of them. *)
Definition ballots_for (pid : Z) (c : CidNumber) : election_store -> Z := ballots_where (is_for c) pid.
Definition ballots_cast (pid : Z) : election_store -> Z := ballots_where (fun _ => true) pid.

(** Every candidate with the number of ballots cast for it. *)
Definition counted_ballots (pid : Z) (cs : list CitizenSubject) (e : election_store) : list counted :=
  (fun c => (c, Z.min u32_max (ballots_for pid (citizen_cid_number c) e))) <$> cs.

Lemma ballots_where_nonneg f pid e : 0 <= ballots_where f pid e.
Proof.
  pose proof (vote_sum_nonneg (fun _ : CidNumber => 1) pid true
    ((fun b => f (ballot_candidate b)) <$> PopularElectionVotesByCid e) ltac:(lia)).
  pose proof (vote_sum_nonneg (fun _ : InstitutionVoteTicket => 1) pid true
    (f <$> MutualElectionVotesByTicket e) ltac:(lia)).
  unfold ballots_where. lia.
Qed.

Lemma counted_nonneg pid cs e : Forall (fun c : counted => 0 <= c.2) (counted_ballots pid cs e).
Proof.
  apply Forall_fmap, Forall_true. intros c. simpl.
  pose proof (ballots_where_nonneg (is_for (citizen_cid_number c)) pid e). unfold ballots_for, u32_max.
  lia.
Qed.

Lemma ballots_where_same f pid e e' :
  same_election pid e e' -> ballots_where f pid e' = ballots_where f pid e.
Proof.
  intros [_ _ Hp Hm _ _ _]. unfold ballots_where.
  f_equal; apply vote_sum_ext; intros k; rewrite !lookup_fmap; [by rewrite Hp|by rewrite Hm].
Qed.

Lemma ballots_where_blank f pid e : blank_election pid e -> ballots_where f pid e = 0.
Proof.
  intros [Hp Hm _]. unfold ballots_where.
  rewrite !vote_sum_blank; [done|..]; intros k; rewrite lookup_fmap; [by rewrite Hm|by rewrite Hp].
Qed.

Lemma ballots_where_popular f pid e c b :
  PopularElectionVotesByCid e !! (pid, c) = None ->
  ballots_where f pid (set_PopularElectionVotesByCid (insert (pid, c) b) e) =
    ballots_where f pid e + (if f (ballot_candidate b) then 1 else 0).
Proof.
  intros Hn. unfold ballots_where. simpl. rewrite fmap_insert, vote_sum_insert.
  - destruct (f _); repeat case_decide; naive_solver lia.
  - by rewrite lookup_fmap, Hn.
Qed.

Lemma ballots_where_mutual f pid e t c :
  MutualElectionVotesByTicket e !! (pid, t) = None ->
  ballots_where f pid (set_MutualElectionVotesByTicket (insert (pid, t) c) e) =
    ballots_where f pid e + (if f c then 1 else 0).
Proof.
  intros Hn. unfold ballots_where. simpl. rewrite fmap_insert, vote_sum_insert.
  - destruct (f c); repeat case_decide; naive_solver lia.
  - by rewrite lookup_fmap, Hn.
Qed.

(** ** The invariant *)

(** How many may vote. *)
Definition electorate (g : engine) (pid : Z) (m : ElectionMeta) : option Z :=
  match election_mode m with
  | Popular => population_eligible_total_of g pid
  | Mutual => institution_ticket_count g pid (election_actor m)
  end.

(** The ballots of one proposal are of the kind its mode asks for. *)
Record ballots_valid (pid : Z) (m : ElectionMeta) (cs : list CitizenSubject) (g : engine)
    (e : election_store) : Prop := {
  bv_popular : forall c b, PopularElectionVotesByCid e !! (pid, c) = Some b ->
    election_mode m = Popular /\ citizen_cid_number (ballot_voter b) = c /\ ballot_candidate b ∈ cs;
  bv_mutual : forall t c, MutualElectionVotesByTicket e !! (pid, t) = Some c ->
    election_mode m = Mutual /\ role_cid_number (ticket_role_subject t) = election_actor m /\
    institution_ticket g pid t /\ c ∈ cs;
}.

(** What the status says of the count. *)
Record election_outcome (pid st : Z) (m : ElectionMeta) (cs : list CitizenSubject)
    (e : election_store) : Prop := {
  oc_passed : passed_status st -> exists ws, ElectionResults e !! pid = Some ws /\
    select_winners (candidate_votes e pid cs) (seat_count m) = Some (Ok ws);
  oc_rejected : st = STATUS_REJECTED ->
    select_winners (candidate_votes e pid cs) (seat_count m) = Some (Err tt);
}.

Section ElectionOk.
Context `{Wt : Weights} `{Cfg : !Config} `{ECfg : !ElectionConfig} {W : Type}.
Implicit Types s : rt W.

Record election_body (pid : Z) (p : Proposal) (m : ElectionMeta) (cs : list CitizenSubject) s
    : Prop := {
  eb_meta : ElectionMetaStore (el s) !! pid = Some m;
  eb_candidates : ElectionCandidates (el s) !! pid = Some cs;
  eb_stage : stage p = mode_stage (election_mode m);
  eb_distinct : NoDup (citizen_cid_number <$> cs);
  eb_seats : 0 < seat_count m <= Z.of_nat (length cs) /\ Z.of_nat (length cs) <= MaxElectionCandidates;
  eb_valid : ballots_valid pid m cs (ve s) (el s);
  eb_votes : forall c, default 0 (ElectionCandidateTallies (el s) !! (pid, c)) =
    Z.min u32_max (ballots_for pid c (el s));
  eb_casted : casted (default election_tally_default (ElectionTallyStore (el s) !! pid)) =
    Z.min u32_max (ballots_cast pid (el s));
  eb_turnout : exists n, electorate (ve s) pid m = Some n /\
    Z.min u32_max (ballots_cast pid (el s)) <= n;
  eb_outcome : election_outcome pid (status p) m cs (el s);
}.

(** An open election waits for at least one more ballot. *)
Definition awaits_ballot (pid : Z) (m : ElectionMeta) s : Prop :=
  exists n, electorate (ve s) pid m = Some n /\ Z.min u32_max (ballots_cast pid (el s)) < n.

Definition election_ok (pid : Z) (p : Proposal) s : Prop :=
  exists m cs, election_body pid p m cs s /\ (status p = STATUS_VOTING -> awaits_ballot pid m s).

Lemma candidate_votes_same pid e e' cs :
  same_election pid e e' -> candidate_votes e' pid cs = candidate_votes e pid cs.
Proof. intros [_ _ _ _ Hv _ _]. unfold candidate_votes. apply list_fmap_ext. intros. by rewrite Hv. Qed.

Lemma valid_same pid m cs g g' e e' :
  same_election pid e e' -> same_frozen pid g g' ->
  ballots_valid pid m cs g e -> ballots_valid pid m cs g' e'.
Proof.
  intros [_ _ Hp Hm _ _ _] [_ Hf _ _] [V1 V2]. split.
  - intros c b. rewrite Hp. apply V1.
  - intros t c. rewrite Hm. intros (? & ? & (l & Hl & ?) & ?)%V2. split_and!; [done..| |done].
    exists l. by rewrite Hf.
Qed.

Lemma outcome_same pid st m cs e e' :
  same_election pid e e' -> election_outcome pid st m cs e -> election_outcome pid st m cs e'.
Proof.
  intros Hs [H1 H2]. split; rewrite (candidate_votes_same pid e e') by done; [|done].
  intros (ws & ? & ?)%H1. exists ws. by rewrite (se_results _ _ _ Hs).
Qed.

Lemma electorate_same pid m g g' : same_frozen pid g g' -> electorate g' pid m = electorate g pid m.
Proof.
  intros [_ _ F1 F2]. unfold electorate, population_eligible_total_of, institution_ticket_count.
  by rewrite F1, F2.
Qed.

Lemma election_body_view pid p m cs s s' :
  same_ballots pid s s' -> same_frozen pid (ve s) (ve s') ->
  election_body pid p m cs s -> election_body pid p m cs s'.
Proof.
  intros Hb Hf [B1 B2 B3 B4 B5 B6 B7 B8 (n & Hn & Hle) B10].
  pose proof (sb_election _ _ _ Hb) as Hs. pose proof Hs as [S1 S2 S3 S4 S5 S6 S7].
  split; try done.
  - by rewrite S1.
  - by rewrite S2.
  - by eapply valid_same.
  - intros c. rewrite S5. unfold ballots_for. rewrite (ballots_where_same _ _ _ _ Hs). apply B7.
  - unfold ballots_cast. rewrite S6, (ballots_where_same _ _ _ _ Hs). apply B8.
  - exists n. unfold ballots_cast.
    by rewrite (ballots_where_same _ _ _ _ Hs), (electorate_same pid m (ve s)).
  - by eapply outcome_same.
Qed.

Lemma awaits_same pid m s s' :
  same_ballots pid s s' -> same_frozen pid (ve s) (ve s') -> awaits_ballot pid m s ->
  awaits_ballot pid m s'.
Proof.
  intros Hb%sb_election Hf (n & Hn & Hlt). exists n. unfold ballots_cast.
  by rewrite (ballots_where_same _ _ _ _ Hb), (electorate_same pid m (ve s)).
Qed.

Lemma election_ok_view pid p s s' :
  same_ballots pid s s' -> same_frozen pid (ve s) (ve s') ->
  election_ok pid p s -> election_ok pid p s'.
Proof.
  intros Hb Hf (m & cs & Hok & Hopen). exists m, cs. split; [by eapply election_body_view|].
  intros Hst. eapply awaits_same; eauto.
Qed.

Lemma outcome_step pid st st' m cs e :
  valid_status_transition st st' = true -> st' <> STATUS_PASSED -> st' <> STATUS_REJECTED ->
  election_outcome pid st m cs e -> election_outcome pid st' m cs e.
Proof.
  unfold valid_status_transition. intros Hv Hp Hr [H1 H2]. apply bool_decide_eq_true in Hv.
  split; [|done]. intros _.
  repeat (apply elem_of_cons in Hv as [[= -> ->]|Hv]; [first [done|apply H1; by left]|]).
  by apply elem_of_nil in Hv.
Qed.

Lemma election_ok_status pid p st s :
  valid_status_transition (status p) st = true -> st <> STATUS_PASSED -> st <> STATUS_REJECTED ->
  election_ok pid p s -> election_ok pid (set_status st p) s.
Proof.
  intros Hv Hp Hr (m & cs & [B1 B2 B3 B4 B5 B6 B7 B8 B9 B10] & _). exists m, cs.
  split; [split; try done; by eapply outcome_step|]. simpl. intros ->. exfalso.
  unfold valid_status_transition in Hv. apply bool_decide_eq_true in Hv.
  repeat (apply elem_of_cons in Hv as [Hx|Hv]; [by injection Hx|]). by apply elem_of_nil in Hv.
Qed.

(** The stored tallies are the count of the ballots. *)
Lemma body_votes pid p m cs s :
  election_body pid p m cs s -> candidate_votes (el s) pid cs = counted_ballots pid cs (el s).
Proof. intros Hb. apply list_fmap_ext. intros. f_equal. apply (eb_votes _ _ _ _ _ Hb). Qed.
End ElectionOk.

(** ** The count *)

Section ElectionResult.
Context `{Wt : Weights} `{Cfg : !Config} `{ECfg : !ElectionConfig} `{Ord : StorageOrder}
  {W : Type} `{Prov : !Providers W} `{Cb : !Callbacks W} `{Tr : !ProposalTracks W}
  `{CbL : !CallbackLaws Cb} `{TrL : !TrackLaws Tr}
  `{CbP : !PrivateCallbacks Cb} `{TrB : !TrackBallots Tr}.
Context (K : Z -> Proposal -> rt W -> Prop) `{KL : !TrackInvariant K}.
Hypothesis HK : forall pid p s, kind p = PROPOSAL_KIND_ELECTION -> K pid p s <-> election_ok pid p s.
Implicit Types s : rt W.

Definition with_results (pid : Z) (ws : list ElectionWinner) s : rt W :=
  set_el (set_ElectionResults (insert pid ws)) s.

Lemma results_other pid ws s q : q <> pid -> same_ballots q s (with_results pid ws s).
Proof. intros Hq. repeat split; intros; simpl; try done. by rewrite lookup_insert_ne. Qed.

Lemma results_settled_except pid ws s :
  settled (except pid K) s -> settled (except pid K) (with_results pid ws s).
Proof.
  apply (settled_cast_except K pid s); [done| |apply results_other].
  intros _ [? ? ? ? ? ? ? ? ? []]. by split.
Qed.

(** The winners are stored for a proposal that is not rejected. *)
Lemma results_body pid p p' m cs ws s :
  stage p' = stage p -> status p' <> STATUS_REJECTED ->
  select_winners (candidate_votes (el s) pid cs) (seat_count m) = Some (Ok ws) ->
  election_body pid p m cs s -> election_body pid p' m cs (with_results pid ws s).
Proof.
  intros Hst Hne Hws [B1 B2 B3 B4 B5 [V1 V2] B7 B8 B9 B10].
  split; try done; [by rewrite Hst|]. split; [|done].
  intros _. exists ws. split; [|done]. simpl. by rewrite lookup_insert_eq.
Qed.

Lemma rejected_body pid p m cs s :
  select_winners (candidate_votes (el s) pid cs) (seat_count m) = Some (Err tt) ->
  election_body pid p m cs s -> election_body pid (set_status STATUS_REJECTED p) m cs s.
Proof.
  intros Hws [B1 B2 B3 B4 B5 B6 B7 B8 B9 B10]. split; try done.
  split; [by intros [|[|]]|done].
Qed.

Lemma results_settled pid p m cs ws s :
  Proposals (ve s) !! pid = Some p -> kind p = PROPOSAL_KIND_ELECTION ->
  ElectionMetaStore (el s) !! pid = Some m ->
  ElectionCandidates (el s) !! pid = Some cs ->
  select_winners (candidate_votes (el s) pid cs) (seat_count m) = Some (Ok ws) ->
  settled K s -> settled K (with_results pid ws s).
Proof.
  intros Hp Hk Hm Hcs Hws Hs. apply (settled_cast_clean K pid).
  { apply results_settled_except. by apply settled_except. }
  intros p' Hp' Hc. simpl in Hp', Hc. assert (p' = p) as -> by congruence.
  apply HK; [done|].
  assert (Hok : election_ok pid p s) by (apply HK; [done|]; by apply Hs).
  destruct Hok as (m' & cs' & Hb & Hopen).
  assert (m' = m) as -> by (pose proof (eb_meta _ _ _ _ _ Hb); congruence).
  assert (cs' = cs) as -> by (pose proof (eb_candidates _ _ _ _ _ Hb); congruence).
  exists m, cs. split; [|by intros Hv; destruct (Hopen Hv) as (n & ? & ?); exists n].
  apply (results_body pid p); [done| |done..]. intros Hr.
  pose proof (oc_rejected _ _ _ _ _ (eb_outcome _ _ _ _ _ Hb) Hr). congruence.
Qed.

(** What the count leaves: the election is over, or, when the engine refuses
    the change of status, still settled. *)
Lemma settled_election_result pid p s :
  Proposals (ve s) !! pid = Some p -> kind p = PROPOSAL_KIND_ELECTION ->
  settled (except pid K) s ->
  (PendingProposalCleanups (ve s) !! pid = None -> exists m cs, election_body pid p m cs s) ->
  match finalize_election_result pid s with
  | (Ok _, s') => settled K s'
  | (Err _, s') => settled K s -> settled K s'
  end.
Proof.
  intros Hp Hk Hs Hok. unfold finalize_election_result. autorewrite with run.
  destruct (ElectionMetaStore (el s) !! pid) as [m|] eqn:Hm; autorewrite with run; [|done].
  destruct (ElectionCandidates (el s) !! pid) as [cs|] eqn:Hcs; autorewrite with run; [|done].
  destruct (select_winners _ _) as [[ws|[]]|] eqn:Hws; autorewrite with run; [| |done].
  - destruct (bounded_list MaxElectionCandidates ws) as [ws'|] eqn:Hb; autorewrite with run; [|done].
    apply bounded_list_Some in Hb as [-> _]. unfold upd_el, emit. autorewrite with run.
    change (set_el _ s) with (with_results pid ws s). set (s1 := deposit_event _ _).
    assert (Hs1 : settled (except pid K) s1).
    { apply (settled_view _ (with_results pid ws s)); [done..|].
      by apply results_settled_except. }
    pose proof (settled_set_status K s1 pid STATUS_PASSED p Hp Hs1) as H.
    match type of H with ?P -> _ => assert (HP : P); [|specialize (H HP)] end.
    { intros _ Hc. apply HK; [done|]. destruct (Hok Hc) as (m' & cs' & Hbody).
      assert (m' = m) as -> by (pose proof (eb_meta _ _ _ _ _ Hbody); congruence).
      assert (cs' = cs) as -> by (pose proof (eb_candidates _ _ _ _ _ Hbody); congruence).
      exists m, cs. split; [|done]. apply (election_body_view _ _ _ _ (with_results pid ws s)); [done..|].
      by apply (results_body pid p). }
    destruct (set_status_and_emit _ _ s1) as [[|] s2]; [done|]. subst s2. intros Hs0.
    apply (settled_view _ (with_results pid ws s)); [done..|]. by apply (results_settled pid p m cs).
  - unfold emit. autorewrite with run. set (s1 := deposit_event _ _).
    assert (Hs1 : settled (except pid K) s1) by by apply (settled_view _ s).
    pose proof (settled_set_status K s1 pid STATUS_REJECTED p Hp Hs1) as H.
    match type of H with ?P -> _ => assert (HP : P); [|specialize (H HP)] end.
    { intros _ Hc. apply HK; [done|]. destruct (Hok Hc) as (m' & cs' & Hbody).
      assert (m' = m) as -> by (pose proof (eb_meta _ _ _ _ _ Hbody); congruence).
      assert (cs' = cs) as -> by (pose proof (eb_candidates _ _ _ _ _ Hbody); congruence).
      exists m, cs. split; [|done]. apply rejected_body; [done|].
      by apply (election_body_view _ _ _ _ s). }
    destruct (set_status_and_emit _ _ s1) as [[|] s2]; [done|]. subst s2.
    by apply (settled_view _ s).
Qed.
End ElectionResult.

(** ** One ballot *)

(** The store [e1] holds one ballot more than [e], valid and for [cand]. *)
Record ballot_recorded (pid : Z) (cand : CitizenSubject) (g : engine) (e e1 : election_store)
    : Prop := {
  br_meta : ElectionMetaStore e1 = ElectionMetaStore e;
  br_candidates : ElectionCandidates e1 = ElectionCandidates e;
  br_votes : ElectionCandidateTallies e1 = ElectionCandidateTallies e;
  br_tally : ElectionTallyStore e1 = ElectionTallyStore e;
  br_results : ElectionResults e1 = ElectionResults e;
  br_other : forall q, q <> pid -> same_election q e e1;
  br_count : forall f, ballots_where f pid e1 = ballots_where f pid e + (if f cand then 1 else 0);
  br_valid : forall m cs, ElectionMetaStore e !! pid = Some m -> cand ∈ cs ->
    ballots_valid pid m cs g e -> ballots_valid pid m cs g e1;
}.

(** The two tallies after a ballot for [cand]. *)
Definition with_tallies (pid : Z) (cand : CitizenSubject) (e : election_store) : election_store :=
  let key := (pid, citizen_cid_number cand) in
  let e1 := set_ElectionCandidateTallies
    (insert key (saturating_add u32_max (default 0 (ElectionCandidateTallies e !! key)) 1)) e in
  set_ElectionTallyStore (insert pid {| casted := saturating_add u32_max
    (casted (default election_tally_default (ElectionTallyStore e1 !! pid))) 1 |}) e1.

Section ElectionCast.
Context `{Wt : Weights} `{Cfg : !Config} `{ECfg : !ElectionConfig} {W : Type}
  `{Prov : !Providers W}.
Implicit Types s : rt W.

Lemma candidate_exists_in e pid cand cs :
  ElectionCandidates e !! pid = Some cs -> candidate_exists e pid cand = true -> cand ∈ cs.
Proof.
  unfold candidate_exists. intros ->. intros (c & Hc & ->%bool_decide_eq_true)%existsb_exists.
  by apply list_elem_of_In.
Qed.

(** A citizen's ballot in a popular election. *)
Lemma popular_recorded pid cand voter g e m :
  ElectionMetaStore e !! pid = Some m -> election_mode m = Popular ->
  PopularElectionVotesByCid e !! (pid, citizen_cid_number voter) = None ->
  ballot_recorded pid cand g e (set_PopularElectionVotesByCid
    (insert (pid, citizen_cid_number voter) {| ballot_voter := voter; ballot_candidate := cand |}) e).
Proof.
  intros Hm Hmode Hn. split; try done.
  - intros q Hq. split; intros; simpl; try done. rewrite lookup_insert_ne; congruence.
  - intros f. by rewrite ballots_where_popular.
  - intros m' cs Hm' Hin [V1 V2]. split; [|done]. intros c b. simpl.
    intros [[[= <-] <-]|[_ Hx]]%lookup_insert_Some; [|by eapply V1]. split_and!; [congruence|done..].
Qed.

(** The ballot of a ticket in a mutual election. *)
Lemma mutual_recorded pid cand t g e m :
  ElectionMetaStore e !! pid = Some m -> election_mode m = Mutual ->
  role_cid_number (ticket_role_subject t) = election_actor m -> institution_ticket g pid t ->
  MutualElectionVotesByTicket e !! (pid, t) = None ->
  ballot_recorded pid cand g e (set_MutualElectionVotesByTicket (insert (pid, t) cand) e).
Proof.
  intros Hm Hmode Hr Ht Hn. split; try done.
  - intros q Hq. split; intros; simpl; try done. rewrite lookup_insert_ne; congruence.
  - intros f. by rewrite ballots_where_mutual.
  - intros m' cs Hm' Hin [V1 V2]. split; [done|]. intros t' c. simpl.
    intros [[[= <-] <-]|[_ Hx]]%lookup_insert_Some; [|by eapply V2]. split_and!; congruence || done.
Qed.

Section Ballot.
Context (pid : Z) (cand : CitizenSubject) (s s1 : rt W) (e1 : election_store).
Hypothesis Hve : ve s1 = ve s.
Hypothesis Hiv : iv s1 = iv s.
Hypothesis Hjv : jv s1 = jv s.
Hypothesis Hlv : lv s1 = lv s.
Hypothesis Hel : el s1 = with_tallies pid cand e1.
Hypothesis Hrec : ballot_recorded pid cand (ve s) (el s) e1.

Lemma ballot_other q : q <> pid -> same_ballots q s s1.
Proof.
  intros Hq. destruct (br_other _ _ _ _ _ Hrec q Hq).
  split; intros; rewrite ?Hjv, ?Hiv, ?Hlv; try done. rewrite Hel.
  split; intros; simpl; try done; rewrite lookup_insert_ne; congruence.
Qed.

Lemma ballot_where f : ballots_where f pid (el s1) = ballots_where f pid e1.
Proof. by rewrite Hel. Qed.

Lemma ballot_casted p m cs :
  election_body pid p m cs s ->
  saturating_add u32_max (casted (default election_tally_default (ElectionTallyStore e1 !! pid))) 1 =
    Z.min u32_max (ballots_cast pid (el s1)).
Proof.
  intros Hb. rewrite (br_tally _ _ _ _ _ Hrec), (eb_casted _ _ _ _ _ Hb). unfold ballots_cast.
  rewrite ballot_where, (br_count _ _ _ _ _ Hrec). unfold saturating_add. lia.
Qed.

Lemma ballot_body p m cs :
  status p = STATUS_VOTING -> election_body pid p m cs s -> awaits_ballot pid m s -> cand ∈ cs ->
  election_body pid p m cs s1.
Proof.
  intros Hst Hb (n & Hn & Hlt) Hin. pose proof (ballot_casted p m cs Hb) as Hcast.
  pose proof Hb as [B1 B2 B3 B4 B5 B6 B7 B8 _ B10].
  pose proof Hrec as [R1 R2 R3 R4 R5 _ R6 R7].
  split; rewrite ?Hve; try done.
  - rewrite Hel. simpl. by rewrite R1.
  - rewrite Hel. simpl. by rewrite R2.
  - destruct (R7 m cs B1 Hin B6) as [V1 V2]. by rewrite Hel.
  - intros c. unfold ballots_for. rewrite ballot_where, R6, Hel. simpl.
    unfold is_for at 2. case_bool_decide as Hc.
    + subst c. rewrite lookup_insert_eq. simpl. rewrite R3, B7. unfold ballots_for, saturating_add. lia.
    + rewrite lookup_insert_ne by congruence. rewrite R3, B7. unfold ballots_for. f_equal. lia.
  - rewrite <- Hcast, Hel. simpl. by rewrite lookup_insert_eq.
  - exists n. split; [done|]. rewrite <- Hcast, R4, B8. unfold saturating_add. lia.
  - rewrite Hst. split; [by intros [|[|]]|done].
Qed.
End Ballot.
End ElectionCast.

Section ElectionVoting.
Context `{Wt : Weights} `{Cfg : !Config} `{ECfg : !ElectionConfig} `{Ord : StorageOrder}
  {W : Type} `{Prov : !Providers W} `{Cb : !Callbacks W} `{Tr : !ProposalTracks W}
  `{CbL : !CallbackLaws Cb} `{TrL : !TrackLaws Tr}
  `{CbP : !PrivateCallbacks Cb} `{TrB : !TrackBallots Tr}.
Context (K : Z -> Proposal -> rt W -> Prop) `{KL : !TrackInvariant K}.
Hypothesis HK : forall pid p s, kind p = PROPOSAL_KIND_ELECTION -> K pid p s <-> election_ok pid p s.
Implicit Types s : rt W.

Lemma election_open_ok pid p s :
  engine_inv s -> settled K s -> Proposals (ve s) !! pid = Some p ->
  kind p = PROPOSAL_KIND_ELECTION -> status p = STATUS_VOTING ->
  exists m cs, election_body pid p m cs s /\ awaits_ballot pid m s.
Proof.
  intros Hi Hs Hp Hk Hst. assert (Hok : election_ok pid p s).
  { apply HK; [done|]. apply Hs; [done|]. by apply (open_clean s pid p). }
  destruct Hok as (m & cs & Hb & Ho). exists m, cs. auto.
Qed.

(** Whoever votes records a valid ballot, and nothing else. *)
Lemma popular_ballot_Ok who pid cand v s s' m :
  record_popular_ballot who pid cand s = (Ok v, s') ->
  ElectionMetaStore (el s) !! pid = Some m -> election_mode m = Popular ->
  exists e1, s' = set_el (fun _ => e1) s /\ ballot_recorded pid cand (ve s) (el s) e1.
Proof.
  unfold record_popular_ballot, upd_el. intros H Hm Hmode. run_inv.
  match goal with H : ~ is_Some _ |- _ => apply eq_None_not_Some in H end.
  eexists. split; [reflexivity|]. by eapply popular_recorded.
Qed.

Lemma mutual_ballot_Ok who pid role cand v s s' m :
  record_mutual_ballot who pid role cand s = (Ok v, s') ->
  ElectionMetaStore (el s) !! pid = Some m -> election_mode m = Mutual ->
  exists e1, s' = set_el (fun _ => e1) s /\ ballot_recorded pid cand (ve s) (el s) e1.
Proof.
  unfold record_mutual_ballot, upd_el. intros H Hm Hmode. run_inv.
  match goal with H : ~ is_Some _ |- _ => apply eq_None_not_Some in H end.
  match goal with H : is_subject_voter_in_snapshot _ _ _ _ = true |- _ =>
    apply (subject_voter_ticket _ _ _ _ _ eq_refl) in H end.
  eexists. split; [reflexivity|]. by eapply mutual_recorded.
Qed.

Lemma eligible_total_Ok pid st n s s' m :
  election_eligible_total pid st s = (Ok n, s') -> ElectionMetaStore (el s) !! pid = Some m ->
  st = mode_stage (election_mode m) -> s' = s /\ electorate (ve s) pid m = Some n.
Proof.
  unfold election_eligible_total, electorate. intros H Hm ->.
  destruct (election_mode m) eqn:Hmode; case_decide as Hd; try by vm_compute in Hd; run_inv.
Qed.

Lemma holds_election_vote who pid st role cand :
  holds (fun s => engine_inv s /\ settled K s) (do_cast_election_vote who pid st role cand)
    (fun _ => settled K).
Proof.
  intros s [] s' [Hi Hs] Hr. unfold do_cast_election_vote in Hr.
  apply bind_Ok in Hr as (p & s0 & Hopen & Hr).
  apply ensure_open_Ok in Hopen as (-> & Hp & Hst & _).
  do 4 (apply bind_Ok in Hr as (? & ? & ? & Hr); revert Hr; run_inv; intros Hr).
  apply bind_Ok in Hr as (v & s1 & Hrec & Hr).
  match goal with H : kind p = _ |- _ => rename H into Hkind end.
  destruct (election_open_ok pid p s Hi Hs Hp Hkind Hst) as (m & cs & Hb & Hawait).
  pose proof (eb_meta _ _ _ _ _ Hb) as Hm.
  assert (Hin : cand ∈ cs) by (eapply candidate_exists_in; [apply Hb|done]).
  assert (Hrec' : exists e1, s1 = set_el (fun _ => e1) s /\
    ballot_recorded pid cand (ve s) (el s) e1).
  { rewrite (eb_stage _ _ _ _ _ Hb) in Hrec.
    destruct (election_mode m) eqn:Hmode; cbn in Hrec; run_inv;
      [by eapply popular_ballot_Ok|by eapply mutual_ballot_Ok]. }
  destruct Hrec' as (e1 & -> & Hrec1). unfold upd_el, emit in Hr.
  repeat rewrite ?bind_modify, ?bind_gets in Hr. cbn [el set_el] in Hr.
  match type of Hr with _ (deposit_event ?ev ?x) = _ => set (s2 := deposit_event ev x) in * end.
  apply bind_Ok in Hr as (n & s3 & Htotal & Hr).
  assert (Hel : el s2 = with_tallies pid cand e1) by done.
  pose proof (ballot_body pid cand s s2 e1 eq_refl Hel Hrec1 p m cs Hst Hb Hawait Hin) as Hb2.
  pose proof (ballot_casted pid cand s s2 e1 Hel Hrec1 p m cs Hb) as Hcast.
  apply (eligible_total_Ok _ _ _ _ _ m) in Htotal as [-> Hn].
  2: { apply Hb2. }
  2: { by apply Hb. }
  assert (Hlow : pid < NextProposalId (ve s)) by by eapply inv_below.
  assert (Hs2 : settled (except pid K) s2).
  { apply (settled_cast K pid s); [done..| |done].
    by apply (ballot_other pid cand s s2 e1). }
  cbn [casted] in Hr.
  change (ElectionTallyStore (set_ElectionCandidateTallies _ e1)) with (ElectionTallyStore e1) in Hr.
  rewrite Hcast in Hr. destruct (n <=? _) eqn:Hend.
  - pose proof (settled_election_result K HK pid p s2 Hp Hkind Hs2 ltac:(eauto)) as Hf.
    by rewrite Hr in Hf.
  - run_inv. apply (settled_cast_back K pid); [done|]. intros p' Hp'.
    assert (p' = p) as -> by (change (Proposals (ve s) !! pid = Some p') in Hp'; congruence).
    apply HK; [done|]. exists m, cs. split; [done|]. intros _. exists n. split; [done|by apply Z.leb_gt].
Qed.

(** ** Timeouts *)

Lemma settled_election_finalize p pid s :
  Proposals (ve s) !! pid = Some p -> settled K s ->
  settled K (election_finalize_timeout p pid s).2.
Proof.
  intros Hp Hs. unfold election_finalize_timeout, election_handles.
  destruct (bool_decide (kind p = _)) eqn:Hk; [|done]. apply bool_decide_eq_true in Hk.
  assert (Hf : settled K (finalize_election_result pid s).2).
  { pose proof (settled_election_result K HK pid p s Hp Hk (settled_except _ _ _ Hs)) as Hf.
    assert (Hok : PendingProposalCleanups (ve s) !! pid = None ->
      exists m cs, election_body pid p m cs s).
    { intros Hc. assert (Hok : election_ok pid p s) by (apply HK; [done|]; by apply Hs).
      destruct Hok as (m & cs & Hb & _). eauto. }
    specialize (Hf Hok). by destruct (finalize_election_result pid s) as [[]]; [|apply Hf]. }
  rewrite sbind_run. cbn [mret St_ret fst snd].
  destruct (decide (stage p = STAGE_ELECTION_POPULAR)); [|destruct (decide (stage p = _))]; [..|done];
    unfold attempt, finalize_election_popular_timeout, finalize_election_mutual_timeout;
    autorewrite with run; by destruct (end_block p <? block_number s); autorewrite with run.
Qed.
End ElectionVoting.

(** ** Creation *)

Lemma unique_candidates_Ok cs :
  ensure_unique_candidate_cids cs = Ok tt -> NoDup (citizen_cid_number <$> cs).
Proof.
  induction cs as [|c cs IH]; [intros; by apply NoDup_nil_2|]. simpl. unfold guard_ok.
  destruct (forallb _ cs) eqn:Hall; [|done]. intros H. apply NoDup_cons. split; [|by apply IH].
  intros (d & Heq & Hd)%list_elem_of_fmap. rewrite forallb_forall in Hall.
  apply list_elem_of_In, Hall in Hd. by rewrite Heq, bool_decide_eq_true_2 in Hd.
Qed.

Section ElectionCreation.
Context `{Wt : Weights} `{Cfg : !Config} `{ECfg : !ElectionConfig} `{Ord : StorageOrder}
  {W : Type} `{Prov : !Providers W} `{Cb : !Callbacks W} `{Tr : !ProposalTracks W}.
Context (K : Z -> Proposal -> rt W -> Prop) `{KL : !TrackInvariant K}.
Hypothesis HK : forall pid p s, kind p = PROPOSAL_KIND_ELECTION -> K pid p s <-> election_ok pid p s.
Implicit Types s : rt W.

Lemma growing_el id s f :
  (forall q, q <> id -> same_election q (el s) (f (el s))) ->
  (blank_election id (el s) -> blank_election id (f (el s))) ->
  growing K id s -> growing K id (set_el f s).
Proof.
  intros Hq Hb. apply (growing_stores K); [done| |].
  - intros q Hne. split; try done. by apply Hq.
  - intros []. split; try done. by apply Hb.
Qed.

(** What the checks of [do_create_election] establish. *)
Record election_request (p : Proposal) (m : ElectionMeta) (cs : list CitizenSubject)
    (plan : VotePlan) : Prop := {
  rq_kind : kind p = PROPOSAL_KIND_ELECTION;
  rq_status : status p = STATUS_VOTING;
  rq_stage : stage p = mode_stage (election_mode m);
  rq_distinct : NoDup (citizen_cid_number <$> cs);
  rq_seats : 0 < seat_count m <= Z.of_nat (length cs) /\ Z.of_nat (length cs) <= MaxElectionCandidates;
  rq_scope : match election_mode m with
    | Popular => exists sc, election_scope m = Some sc
    | Mutual => election_scope m = None /\ exists r, Institution r ∈ voter_subjects plan /\
        role_cid_number r = election_actor m
    end;
}.

Lemma mutual_voters_Ok id plan s u s' :
  snapshot_mutual_voters id plan s = (Ok u, s') ->
  el s' = el s /\ Proposals (ve s') = Proposals (ve s) /\
  forall r, Institution r ∈ voter_subjects plan ->
    is_Some (InstitutionTicketCountSnapshot (ve s') !! (id, role_cid_number r)).
Proof.
  unfold snapshot_mutual_voters. generalize (voter_subjects plan) as l. clear plan.
  assert (Hkeep : forall l s s' u (k : Z * CidNumber),
    for_each (fun subject => match subject with
      | Institution role =>
          voters ← gets (fun s => active_accounts_for_role (world s)
            (role_cid_number role) (role_code role));
          snapshot_role_voters id subject voters
      | PersonalMultisig _ => throw (ElectionErr ElectionInvalidVotePlan)
      end : RM W unit) l s = (Ok u, s') ->
    is_Some (InstitutionTicketCountSnapshot (ve s) !! k) ->
    is_Some (InstitutionTicketCountSnapshot (ve s') !! k)).
  { intros l. induction l as [|x l IH]; intros s0 s1 u0 k; cbn [for_each]; intros H; run_inv; [done|].
    match goal with H : for_each _ _ _ = _ |- _ => intros Hk; eapply IH; [exact H|] end.
    destruct x; run_inv. match goal with H : snapshot_role_voters _ _ _ _ = _ |- _ =>
      apply snapshot_role_voters_Ok in H as (? & ? & _ & _ & _ & _ & ->) end.
    simpl. destruct (decide (k = (id, role_cid_number x))) as [->|Hne];
      [by rewrite lookup_insert_eq|by rewrite lookup_insert_ne by done]. }
  intros l. revert s. induction l as [|x l IH]; intros s; cbn [for_each]; intros H; run_inv.
  { split_and!; [done..|]. by intros r ?%elem_of_nil. }
  match goal with H : for_each _ _ _ = _ |- _ => pose proof H as Hrest;
    apply IH in H as (He & Hp & Hin) end.
  destruct x as [r0|]; run_inv. match goal with H : snapshot_role_voters _ _ _ _ = _ |- _ =>
    apply snapshot_role_voters_Ok in H as (r & [= <-] & _ & _ & _ & _ & ->) end.
  split_and!; [done..|]. intros r' [[= ->]|Hr]%elem_of_cons; [|by apply Hin].
  eapply Hkeep; [exact Hrest|]. simpl. by rewrite lookup_insert_eq.
Qed.

Lemma created_election_ok id p m cs plan n s :
  election_request p m cs plan -> blank id s -> frozen_wf id (ve s) ->
  ElectionMetaStore (el s) !! id = Some m -> ElectionCandidates (el s) !! id = Some cs ->
  ElectionTallyStore (el s) !! id = Some election_tally_default ->
  electorate (ve s) id m = Some n -> 0 < n -> K id p s.
Proof.
  intros [R1 R2 R3 R4 R5 R6] Hb Hf Hm Hcs Ht Hn Hpos. pose proof (bl_election _ _ Hb) as He.
  apply HK; [done|]. exists m, cs.
  assert (H0 : forall f, ballots_where f id (el s) = 0) by (intros; by apply ballots_where_blank).
  split; [split; try done|].
  - split; intros *; [by rewrite (ble_popular _ _ He)|by rewrite (ble_mutual _ _ He)].
  - intros c. unfold ballots_for. by rewrite H0, (ble_votes _ _ He).
  - unfold ballots_cast. by rewrite H0, Ht.
  - exists n. split; [done|]. unfold ballots_cast. rewrite H0. lia.
  - rewrite R2. split; [by intros [|[|]]|done].
  - intros _. exists n. split; [done|]. unfold ballots_cast. rewrite H0. unfold u32_max. lia.
Qed.

Section Started.
Context (s0 : rt W) (Hi : engine_inv s0) (Hc : clock_ok s0).
(** [eligible_total] is a [u64]. *)
Hypothesis Hpop : forall w sc d, population_data_of w sc = Some d ->
  0 <= eligible_total d <= u64_max.

Lemma settled_store_election p m cs plan :
  election_request p m cs plan ->
  holds (both K s0) (store_election p m cs plan) (fun _ => settled K).
Proof.
  intros Hrq. pose proof Hrq as [_ _ _ _ _ R6]. unfold store_election, try_add_active_proposals.
  eapply holds_bind; [exact (holds_allocate_growing K s0 Hi Hc)|]. intros id. cbn beta.
  apply (holds_weaken (growing K id)); [by intros s [_ ?]|].
  apply holds_keep; [apply preserves_for_each; auto with preserves|intros _].
  intros s i s' Hg Hr. unfold upd, upd_el in Hr.
  repeat rewrite ?bind_modify in Hr.
  match type of Hr with _ ?x = _ => set (s1 := x) in * end.
  assert (Hg1 : growing K id s1).
  { subst s1. do 3 (apply growing_el;
      [intros q Hq; split; intros; simpl; try done; by rewrite lookup_insert_ne
      |by intros []; split|]). by apply (growing_insert K). }
  apply bind_Ok in Hr as (u & s2 & Hvot & Hr). apply bind_Ok in Hr as (u' & s3 & Hpopu & Hr).
  assert (Hp1 : Proposals (ve s1) !! id = Some p) by (simpl; apply lookup_insert_eq).
  assert (Hel1 : ElectionMetaStore (el s1) !! id = Some m /\
    ElectionCandidates (el s1) !! id = Some cs /\
    ElectionTallyStore (el s1) !! id = Some election_tally_default)
    by (simpl; by rewrite !lookup_insert_eq).
  assert (Hs3 : growing K id s3 /\ Proposals (ve s3) !! id = Some p /\ el s3 = el s1 /\
    exists n, electorate (ve s3) id m = Some n /\ 0 < n).
  { clear Hr. unfold electorate. destruct (election_mode m); cbn in Hvot.
    - destruct R6 as [sc Hsc]. run_inv. rewrite Hsc in Hpopu.
      unfold create_population_snapshot, upd in Hpopu. run_inv.
      match goal with H : population_data_of _ _ = Some ?x |- _ => rename x into d, H into Hd end.
      split_and!; [|done..|].
      + apply (growing_own K); [|done|done|by intros []|done].
        intros q Hq. split; [done|]. split; intros; simpl; try done. by rewrite lookup_insert_ne.
      + unfold population_eligible_total_of. simpl. rewrite lookup_insert_eq. simpl.
        eexists. split; [done|]. pose proof (Hpop _ _ _ Hd). lia.
    - destruct R6 as [Hsc (r & Hr0 & Hact)]. rewrite Hsc in Hpopu. run_inv.
      assert (Hg2 : growing K id s2).
      { revert Hvot Hg1. unfold snapshot_mutual_voters. intros Hvot.
        assert (Hpr : preserves (growing K id) (snapshot_mutual_voters id plan : RM W unit)).
        { unfold snapshot_mutual_voters. apply preserves_for_each. intros []; [|apply preserves_throw].
          apply preserves_bind; [apply preserves_gets|intros; by apply growing_role_voters]. }
        intros Hg1. specialize (Hpr _ Hg1). unfold snapshot_mutual_voters in Hpr.
        by rewrite Hvot in Hpr. }
      apply mutual_voters_Ok in Hvot as (He & Hp & Hin). split_and!; [done|by rewrite Hp|done|].
      destruct (Hin r Hr0) as [n Hn]. exists n. rewrite <- Hact. split; [done|].
      by destruct (fw_bound _ _ (gr_frozen _ _ _ Hg2) _ _ Hn). }
  destruct Hs3 as (Hg3 & Hp3 & Hel3 & n & Hn & Hpos). destruct Hel1 as (E1 & E2 & E3).
  assert (Hs3 : settled K s3).
  { apply (growing_settled K id); [done|]. intros p' Hp'. assert (p' = p) as -> by congruence.
    apply (created_election_ok id p m cs plan n); try done; try (by destruct Hg3); by rewrite Hel3. }
  revert Hr. apply (holds_preserves (settled K)); [|done].
  unfold emit_proposal_created. pose proof (settled_schedule_expiry K). solve_good.
Qed.

Lemma candidate_scope_Ok md sc cid plan pop s s' :
  candidate_scope md sc cid plan s = (Ok pop, s') ->
  s' = s /\ match md with
    | Popular => exists x, sc = Some x
    | Mutual => sc = None /\ exists r, Institution r ∈ voter_subjects plan /\ role_cid_number r = cid
    end.
Proof.
  unfold candidate_scope. destruct md, sc; intros H; run_inv; try (by split; eauto).
  split_and!; [done..|]. destruct (voter_subjects plan) as [|[r|a] l] eqn:Hl; [done| |].
  - exists r. split; [by left|].
    match goal with H : forallb _ _ = true |- _ => simpl in H; run_inv end. done.
  - by match goal with H : forallb _ _ = true |- _ => simpl in H end.
Qed.

Lemma settled_create_election who plan md cid role n d1 d2 sc cs :
  holds (both K s0) (do_create_election who plan md cid role n d1 d2 sc cs) (fun _ => settled K).
Proof.
  intros s i s' Hs Hr. unfold do_create_election, bounded_candidates in Hr. run_inv.
  match goal with H : _ = (Ok ?r, ?x) |- _ =>
    assert (x = s) as -> by (destruct (proposer_subject plan); by run_inv); clear H end.
  run_inv.
  match goal with H : candidate_scope _ _ _ _ _ = _ |- _ =>
    apply candidate_scope_Ok in H as [-> Hscope] end.
  run_inv.
  match goal with H : bounded_list _ _ = Some _ |- _ => apply bounded_list_Some in H as [-> Hlen] end.
  match goal with H : ensure_unique_candidate_cids _ = _ |- _ => apply unique_candidates_Ok in H end.
  match goal with H : store_election _ _ _ _ _ = _ |- _ => revert H end.
  apply settled_store_election; [|done]. split; try done. simpl. lia.
Qed.
End Started.
End ElectionCreation.

(** ** The hooks of the track *)

Section ElectionHooks.
Context `{Wt : Weights} `{Cfg : !Config} `{ECfg : !ElectionConfig} `{Ord : StorageOrder} {W : Type}.

Lemma election_chunk_ballots pid limit q s :
  q <> pid -> same_ballots q s (election_cleanup_chunk pid limit s : _ * rt W).2.
Proof.
  intros Hq. revert s.
  assert (H1 : forall l s, same_ballots q s (cleanup_popular_chunk pid l s : _ * rt W).2).
  { intros l s. unfold cleanup_popular_chunk.
    pose proof (fun k => clear_prefix_other pid l q k (PopularElectionVotesByCid (el s)) Hq) as Ho.
    destruct (clear_prefix _ _ _). by repeat split. }
  assert (H2 : forall l s, same_ballots q s (cleanup_mutual_chunk pid l s : _ * rt W).2).
  { intros l s. unfold cleanup_mutual_chunk.
    pose proof (fun k => clear_prefix_other pid l q k (MutualElectionVotesByTicket (el s)) Hq) as Ho.
    destruct (clear_prefix _ _ _). by repeat split. }
  assert (H3 : forall l s, same_ballots q s (cleanup_candidate_tallies_chunk pid l s : _ * rt W).2).
  { intros l s. unfold cleanup_candidate_tallies_chunk.
    pose proof (fun k => clear_prefix_other pid l q k (ElectionCandidateTallies (el s)) Hq) as Ho.
    destruct (clear_prefix _ _ _). by repeat split. }
  unfold election_cleanup_chunk, cleanup_election_votes_chunk, cleanup_election_voters_chunk,
    cleanup_election_tallies_chunk.
  repeat first [done|apply same_ballots_sbind; [|intros]|apply H1|apply H2|apply H3|case_match].
  repeat split; intros; simpl; try done. by rewrite lookup_delete_ne.
Qed.

Lemma election_track_ballots : track_ballots (election_track : TrackHandler W).
Proof.
  split; intros *; simpl; [done|done|intros Hq|intros Hq]; apply same_ballots_when; intros s1.
  - by apply election_chunk_ballots.
  - repeat split; intros; simpl; try done; by rewrite lookup_delete_ne.
Qed.

Lemma election_callback_private : callback_private (election_vote_callback : ResultCallback W).
Proof. by split. Qed.
End ElectionHooks.
