(* ===== verification/LegislationBallots.v ===== *)
(** * Votes of the legislature: a law passes lawfully

    [leg_ok] relates a proposal of the legislature to its ballots: the tally
    of every body counts the tickets of its frozen members, every body before
    the current one has passed the bill, a proposal beyond the bodies was
    passed by all of them, and its stage and status are the ones the
    referendum, the joint signatures and the guards call for. *)
From S2P Require Import Prelude CidNumber.
From S2P Require Import Cid Types TrackTypes State Interfaces Runtime Ids Locks Data.
From S2P Require Import Cleanup Lifecycle Execution Expiry Maintenance Engine Invariant.
From S2P Require Import Safety Clients Tally Ballots InternalVote InternalSafety.
From S2P Require Import InternalBallots JointVote JointSafety JointBallots.
From S2P Require Import LegislationVote LegislationRules LegislationSafety.

(** ** Counting *)

Definition of_body (i : Z) (key : Z * InstitutionVoteTicket) : Z :=
  if decide (key.1 = i) then 1 else 0.

(** The tickets of the body [i] for or against, and the citizens'. *)
Definition body_tickets (pid i : Z) (b : bool) (g : legislation_store) : Z :=
  vote_sum (of_body i) pid b (RepresentativeVotesByTicket g).
Definition referendum_votes (pid : Z) (b : bool) (g : legislation_store) : Z :=
  vote_sum (fun _ => 1) pid b (ticket_approve <$> LegReferendumVotesByCid g).

(** The members of the body [i]. *)
Definition body_size (pid : Z) (m : RepresentativeMeta) (i : Z) (e : engine) : option Z :=
  body ← route_body (meta_route m) i; subject_voters_len e pid (Institution body).

(** The body [i] passed the bill: the final count of its tickets says so. *)
Definition body_passed (pid : Z) (m : RepresentativeMeta) (i : Z) (e : engine)
    (g : legislation_store) : Prop :=
  exists total, body_size pid m i e = Some total /\
    representative_final_passed (meta_rule m) total
      (body_tickets pid i true g) (body_tickets pid i false g) = true.

Definition body_undecided (pid : Z) (m : RepresentativeMeta) (i : Z) (e : engine)
    (g : legislation_store) : Prop :=
  exists total, body_size pid m i e = Some total /\
    representative_decided (meta_rule m) total
      (body_tickets pid i true g) (body_tickets pid i false g) = None.

(** The citizens accepted the law. *)
Definition referendum_accepted (pid : Z) (e : engine) (g : legislation_store) : Prop :=
  exists total, population_eligible_total_of e pid = Some total /\
    referendum_passed total (referendum_votes pid true g) (referendum_votes pid false g) = true.

Definition signatures (pid : Z) (g : legislation_store) : list (AccountId * bool) :=
  default [] (LegOverrideSigns g !! pid).
Definition reviews (pid : Z) (g : legislation_store) : list (AccountId * bool) :=
  default [] (LegGuardSigns g !! pid).

Definition route_length (m : RepresentativeMeta) : Z := Z.of_nat (route_len (meta_route m)).

Lemma body_tickets_nonneg pid i b g : 0 <= body_tickets pid i b g.
Proof. apply vote_sum_nonneg. intros k. unfold of_body. case_decide; lia. Qed.
Lemma referendum_votes_nonneg pid b g : 0 <= referendum_votes pid b g.
Proof. by apply vote_sum_nonneg. Qed.

Lemma body_tickets_same pid i b g g' :
  same_legislation pid g g' -> body_tickets pid i b g' = body_tickets pid i b g.
Proof. intros []. by apply vote_sum_ext. Qed.
Lemma referendum_votes_same pid b g g' :
  same_legislation pid g g' -> referendum_votes pid b g' = referendum_votes pid b g.
Proof. intros []. apply vote_sum_ext. intros k. rewrite !lookup_fmap. congruence. Qed.

Lemma body_tickets_blank pid i b g :
  (forall t, RepresentativeVotesByTicket g !! (pid, (i, t)) = None) -> body_tickets pid i b g = 0.
Proof.
  intros Hn. unfold body_tickets. rewrite vote_sum_select.
  rewrite vote_sum_blank; [done|]. intros [j t]. apply map_lookup_filter_None. right.
  intros v Hv. simpl. unfold of_body. simpl. case_decide; [|tauto]. subst. by rewrite Hn in Hv.
Qed.

(** ** The invariant *)

(** Which account signed, at some time, for which voter of a role: a person
    may have several wallets, and other pallets may replace them. *)
Class Wallets : Type := wallet_of : AuthorizationSubject -> AccountId -> AccountId -> Prop.

Section LegOk.
Context `{Wt : Weights} `{Cfg : !Config} `{Wal : Wallets}.

(** The account was a wallet of a frozen holder of the role. *)
Definition frozen_signer (pid : Z) (e : engine) (r : RoleSubject) (who : AccountId) : Prop :=
  exists voter roll, wallet_of (Institution r) who voter /\
    VoterSnapshot e !! (pid, Institution r) = Some roll /\ voter ∈ roll.

Definition guard_signer (pid : Z) (e : engine) (g : legislation_store) (who : AccountId) : Prop :=
  exists l r, LegislationMetas g !! pid = Some l /\ meta_guard l = Some r /\
    subject_voters_len e pid (Institution r) = Some CONSTITUTION_GUARD_MEMBERS /\
    frozen_signer pid e r who.
Definition override_signer (pid : Z) (e : engine) (g : legislation_store) (who : AccountId)
    : Prop :=
  exists l r, LegislationMetas g !! pid = Some l /\ r ∈ override_signers l /\
    frozen_signer pid e r who.

(** What holds in every stage. *)
Record leg_core (pid : Z) (m : RepresentativeMeta) (e : engine) (g : legislation_store) : Prop := {
  lc_meta : RepresentativeMetas g !! pid = Some m;
  lc_law : meta_procedure m = LegislationProcedure -> is_Some (LegislationMetas g !! pid);
  lc_rule : meta_procedure m = RepresentativeOnly -> meta_rule m <> SpecialRule;
  lc_distinct : NoDup (route_bodies (meta_route m));
  lc_current : 0 <= current_body m < route_length m;
  lc_length : route_length m <= MAX_REPRESENTATIVE_BODIES;
  lc_frozen : frozen_wf pid e;
  lc_voters : forall i r, route_body (meta_route m) i = Some r ->
    is_Some (VoterSnapshot e !! (pid, Institution r));
  lc_tickets : forall i t v, RepresentativeVotesByTicket g !! (pid, (i, t)) = Some v ->
    0 <= i <= current_body m /\ route_body (meta_route m) i = Some (ticket_role_subject t) /\
    institution_ticket e pid t;
  lc_tallies : forall i, tallies u32_max (body_tickets pid i true g) (body_tickets pid i false g)
    (default vote_count_zero (RepresentativeTallies g !! (pid, i)));
  lc_earlier : forall i, 0 <= i < current_body m -> body_passed pid m i e g;
  lc_referendum : tallies u64_max (referendum_votes pid true g) (referendum_votes pid false g)
    (default vote_count_zero (LegReferendumTally g !! pid));
  lc_population : meta_rule m = SpecialRule ->
    exists total, population_eligible_total_of e pid = Some total /\ 0 < total <= u64_max /\
      referendum_votes pid true g + referendum_votes pid false g <= total;
  lc_signatures : NoDup (signatures pid g).*1 /\ Forall (fun x => x.2 = true) (signatures pid g);
  lc_reviews : NoDup (reviews pid g).*1;
  lc_signers : forall x, x ∈ signatures pid g -> override_signer pid e g x.1;
  lc_guards : forall x, x ∈ reviews pid g -> guard_signer pid e g x.1;
}.

(** Beyond the bodies: the law with what its stage and status say. *)
Record law_outcome (pid stg st : Z) (rule : RepresentativeVoteRule) (l : LegislationMeta)
    (e : engine) (g : legislation_store) : Prop := {
  lo_referendum : stg = STAGE_LEG_REFERENDUM -> rule = SpecialRule /\
    (passed_status st -> needs_guard l = false /\ referendum_accepted pid e g) /\
    (st = STATUS_REJECTED -> ~ referendum_accepted pid e g);
  lo_sign : stg = STAGE_LEG_SIGN -> rule <> SpecialRule /\
    (passed_status st -> needs_guard l = false);
  lo_override : stg = STAGE_LEG_OVERRIDE -> rule <> SpecialRule /\
    (st = STATUS_VOTING -> count_signs true (signatures pid g) < 3) /\
    (passed_status st -> needs_guard l = false /\ 3 <= count_signs true (signatures pid g));
  lo_guard : stg = STAGE_LEG_CONSTITUTION_GUARD -> needs_guard l = true /\
    (rule = SpecialRule -> referendum_accepted pid e g) /\
    (st = STATUS_VOTING -> count_signs true (reviews pid g) < CONSTITUTION_GUARD_APPROVAL_THRESHOLD /\
      count_signs false (reviews pid g) < CONSTITUTION_GUARD_APPROVAL_THRESHOLD) /\
    (passed_status st -> CONSTITUTION_GUARD_APPROVAL_THRESHOLD <= count_signs true (reviews pid g)) /\
    (st = STATUS_REJECTED -> count_signs true (reviews pid g) < CONSTITUTION_GUARD_APPROVAL_THRESHOLD);
}.

(** Every body of the route passed the bill. *)
Definition all_passed (pid : Z) (m : RepresentativeMeta) (e : engine) (g : legislation_store)
    : Prop := current_body m + 1 = route_length m /\ body_passed pid m (current_body m) e g.

Record leg_outcome (pid stg st : Z) (m : RepresentativeMeta) (e : engine) (g : legislation_store)
    : Prop := {
  ls_open : stg = STAGE_LEG_REPRESENTATIVE -> st = STATUS_VOTING ->
    body_undecided pid m (current_body m) e g;
  ls_passed : stg = STAGE_LEG_REPRESENTATIVE -> passed_status st ->
    meta_procedure m = RepresentativeOnly /\ all_passed pid m e g;
  ls_rejected : stg = STAGE_LEG_REPRESENTATIVE -> st = STATUS_REJECTED ->
    ~ body_passed pid m (current_body m) e g;
  ls_law : stg <> STAGE_LEG_REPRESENTATIVE -> all_passed pid m e g /\
    exists l, LegislationMetas g !! pid = Some l /\ law_outcome pid stg st (meta_rule m) l e g;
}.

Definition leg_ok {W} (pid : Z) (p : Proposal) (s : rt W) : Prop :=
  exists m, leg_core pid m (ve s) (lv s) /\
    leg_outcome pid (stage p) (status p) m (ve s) (lv s).

(** ** It depends on the ballots and the frozen voters only *)

Section Same.
Context (pid : Z) (e e' : engine) (g g' : legislation_store).
Hypothesis Hb : same_legislation pid g g'.
Hypothesis Hf : same_frozen pid e e'.

Lemma body_size_same m i : body_size pid m i e' = body_size pid m i e.
Proof.
  unfold body_size, subject_voters_len. destruct (route_body _ _); simpl; [|done].
  by rewrite (sf_voters _ _ _ Hf).
Qed.
Lemma body_passed_same m i : body_passed pid m i e g <-> body_passed pid m i e' g'.
Proof. unfold body_passed. by rewrite body_size_same, !(body_tickets_same pid i _ g g' Hb). Qed.
Lemma body_undecided_same m i : body_undecided pid m i e g <-> body_undecided pid m i e' g'.
Proof. unfold body_undecided. by rewrite body_size_same, !(body_tickets_same pid i _ g g' Hb). Qed.
Lemma referendum_accepted_same : referendum_accepted pid e g <-> referendum_accepted pid e' g'.
Proof.
  unfold referendum_accepted, population_eligible_total_of.
  by rewrite (sf_population _ _ _ Hf), !(referendum_votes_same pid _ g g' Hb).
Qed.
Lemma all_passed_same m : all_passed pid m e g <-> all_passed pid m e' g'.
Proof. unfold all_passed. by rewrite body_passed_same. Qed.
Lemma signatures_same : signatures pid g' = signatures pid g.
Proof. unfold signatures. by rewrite (sl_override _ _ _ Hb). Qed.
Lemma reviews_same : reviews pid g' = reviews pid g.
Proof. unfold reviews. by rewrite (sl_guard _ _ _ Hb). Qed.

Lemma leg_core_same m : leg_core pid m e g -> leg_core pid m e' g'.
Proof.
  intros [L1 L2 L3 L4 L5 L6 L7 L8 L9 L10 L11 L12 L13 L14 L15 L16 L17].
  pose proof Hb as [B1 B2 B3 B4 B5 B6 B7 B8]. pose proof Hf as [F1 F2 F3 F4].
  split; rewrite ?signatures_same, ?reviews_same, ?B1, ?B2, ?B5; try done.
  - by eapply frozen_wf_same.
  - intros i r. rewrite F2. apply L8.
  - intros i t v. rewrite B4. intros (? & ? & l & Hl & ?)%L9. do 2 (split; [done|]).
    exists l. by rewrite F2.
  - intros i. by rewrite !(body_tickets_same pid i _ g g' Hb), B3.
  - intros i Hi. by apply body_passed_same, L11.
  - by rewrite !(referendum_votes_same pid _ g g' Hb).
  - intros Hr. unfold population_eligible_total_of.
    rewrite F4, !(referendum_votes_same pid _ g g' Hb). by apply L13.
  - intros x (l & r & ? & ? & ?)%L16. exists l, r. unfold frozen_signer. by rewrite B2, F2.
  - intros x (l & r & ? & ? & Hlen & ?)%L17. exists l, r. unfold frozen_signer.
    unfold subject_voters_len in *. by rewrite B2, !F2.
Qed.

Lemma law_outcome_same stg st rule l :
  law_outcome pid stg st rule l e g -> law_outcome pid stg st rule l e' g'.
Proof.
  intros [O1 O2 O3 O4]. split; rewrite <- ?referendum_accepted_same, ?signatures_same, ?reviews_same; done.
Qed.

Lemma leg_outcome_same stg st m : leg_outcome pid stg st m e g -> leg_outcome pid stg st m e' g'.
Proof.
  intros [O1 O2 O3 O4]. split; rewrite <- ?body_undecided_same, <- ?all_passed_same,
    <- ?body_passed_same; try done.
  intros Hs. destruct (O4 Hs) as (? & l & Hl & Ho). split; [done|]. exists l.
  rewrite (sl_law _ _ _ Hb). split; [done|]. by apply law_outcome_same.
Qed.
End Same.

Lemma leg_ok_view {W} pid p (s s' : rt W) :
  same_ballots pid s s' -> same_frozen pid (ve s) (ve s') -> leg_ok pid p s -> leg_ok pid p s'.
Proof.
  intros Hb%sb_legislation Hf (m & Hc & Ho). exists m.
  split; [by eapply leg_core_same|by eapply leg_outcome_same].
Qed.

(** ** The engine's changes of status *)

Lemma later_status st st' :
  valid_status_transition st st' = true -> st' <> STATUS_PASSED -> st' <> STATUS_REJECTED ->
  passed_status st /\ passed_status st' /\ st' <> STATUS_VOTING.
Proof.
  unfold valid_status_transition. intros Hv Hp Hr. apply bool_decide_eq_true in Hv.
  repeat (apply elem_of_cons in Hv as [[= -> ->]|Hv];
    [first [done|split_and!; [by left|by right; tauto|done]]|]).
  by apply elem_of_nil in Hv.
Qed.

Lemma leg_ok_status {W} pid p st (s : rt W) :
  valid_status_transition (status p) st = true -> st <> STATUS_PASSED -> st <> STATUS_REJECTED ->
  leg_ok pid p s -> leg_ok pid (set_status st p) s.
Proof.
  intros Hv Hp Hr (m & Hc & [O1 O2 O3 O4]). destruct (later_status _ _ Hv Hp Hr) as (Hq & Hq' & Ho).
  exists m. split; [done|]. simpl. split; [done|auto|done|].
  intros Hs. destruct (O4 Hs) as (Ha & l & Hl & [P1 P2 P3 P4]). split; [done|]. exists l.
  split; [done|]. split; intros Hstg.
  - destruct (P1 Hstg) as (? & H & _). split_and!; [done|auto|done].
  - destruct (P2 Hstg). split; auto.
  - destruct (P3 Hstg) as (? & _ & H). split_and!; [done..|auto].
  - destruct (P4 Hstg) as (? & ? & _ & H & _). split_and!; [done|done|done|auto|done].
Qed.
End LegOk.

(** More wallets may be known. *)
Lemma leg_ok_wallets `{Wt : Weights} `{Cfg : !Config} {W} (Wal Wal' : Wallets) pid p (s : rt W) :
  (forall subject who voter, @wallet_of Wal subject who voter -> @wallet_of Wal' subject who voter) ->
  leg_ok (Wal := Wal) pid p s -> leg_ok (Wal := Wal') pid p s.
Proof.
  intros Hw (m & [L1 L2 L3 L4 L5 L6 L7 L8 L9 L10 L11 L12 L13 L14 L15 L16 L17] & Ho). exists m. split; [|exact Ho].
  assert (Hf : forall r who, frozen_signer (Wal := Wal) pid (ve s) r who ->
    frozen_signer (Wal := Wal') pid (ve s) r who).
  { intros r who (v & roll & H & ?). exists v, roll. split; [by apply Hw|done]. }
  split; try done.
  - intros x (l & r & ? & ? & ?)%L16. exists l, r. auto.
  - intros x (l & r & ? & ? & ? & ?)%L17. exists l, r. auto.
Qed.

(** ** The members of a body vote at most once each *)

Lemma of_body_total i (r : RoleSubject) (l : list AccountId) :
  total_weight (of_body i) ((fun a => (i, {| ticket_role_subject := r; voter_account_id := a |})) <$> l)
  = Z.of_nat (length l).
Proof.
  induction l as [|a l IH]; [done|]. rewrite fmap_cons. cbn [total_weight foldr length].
  unfold total_weight in IH. rewrite IH. unfold of_body. simpl. rewrite decide_True by done. lia.
Qed.

Section Within.
Context `{Wt : Weights} `{Cfg : !Config} `{Wal : Wallets}.
(** [MaxAdminsPerInstitution] is a [u32]. *)
Hypothesis Hmax : MaxAdminsPerInstitution <= u32_max.

Lemma body_size_Some pid m i e total :
  body_size pid m i e = Some total -> exists r l, route_body (meta_route m) i = Some r /\
    VoterSnapshot e !! (pid, Institution r) = Some l /\ total = Z.of_nat (length l).
Proof.
  unfold body_size, subject_voters_len. destruct (route_body _ _) as [r|]; simpl; [|done].
  destruct (VoterSnapshot e !! _) as [l|] eqn:Hl; simpl; [|done]. intros [= <-]. by exists r, l.
Qed.

Lemma votes_within pid m i e g total :
  leg_core pid m e g -> body_size pid m i e = Some total ->
  votes_of total (body_tickets pid i true g) (body_tickets pid i false g).
Proof.
  intros Hc (r & l & Hr & Hl & ->)%body_size_Some.
  destruct (fw_voters _ _ (lc_frozen _ _ _ _ Hc) _ _ Hl) as (_ & Hnd & Hlen).
  pose proof (body_tickets_nonneg pid i true g). pose proof (body_tickets_nonneg pid i false g).
  unfold votes_of. split_and!; [done..| |lia]. rewrite <- (of_body_total i r l).
  apply vote_sum_within.
  - intros k. unfold of_body. case_decide; lia.
  - apply NoDup_fmap_2; [|done]. by intros a b [= ->].
  - intros [j t] v Hv Hne. unfold of_body in Hne. simpl in Hne. case_decide; [|done]. subst j.
    destruct (lc_tickets _ _ _ _ Hc _ _ _ Hv) as (_ & Hr' & l' & Hl' & Hin).
    assert (r = ticket_role_subject t) as -> by congruence. assert (l' = l) as -> by congruence.
    apply list_elem_of_fmap. exists (voter_account_id t). split; [by destruct t|done].
Qed.

Lemma body_size_pos pid m i e g r :
  leg_core pid m e g -> route_body (meta_route m) i = Some r ->
  exists total, body_size pid m i e = Some total /\ 0 < total <= u32_max.
Proof.
  intros Hc Hr. destruct (lc_voters _ _ _ _ Hc i r Hr) as [l Hl].
  destruct (fw_voters _ _ (lc_frozen _ _ _ _ Hc) _ _ Hl) as (Hne & _ & Hlen).
  exists (Z.of_nat (length l)). unfold body_size, subject_voters_len. rewrite Hr. simpl. rewrite Hl.
  split; [done|]. destruct l; [done|]. simpl in *. lia.
Qed.
End Within.

(** ** Writes of the track *)

Section Writes.
Context `{Wt : Weights} `{Cfg : !Config} `{Wal : Wallets}.
Context (pid : Z) (m : RepresentativeMeta) (e : engine) (g : legislation_store).

(** A ticket of the body [i]. *)
Section Ticket.
Context (i : Z) (t : InstitutionVoteTicket) (b : bool).
Definition with_ticket : legislation_store :=
  set_RepresentativeTallies (insert (pid, i) (add_votes u32_max 1 b
    (default vote_count_zero (RepresentativeTallies g !! (pid, i)))))
    (set_RepresentativeVotesByTicket (insert (pid, (i, t)) b) g).
Hypothesis Hnew : RepresentativeVotesByTicket g !! (pid, (i, t)) = None.

Lemma with_ticket_other q : q <> pid -> same_legislation q g with_ticket.
Proof. intros Hq. split; intros; simpl; try done; rewrite lookup_insert_ne; congruence. Qed.

Lemma body_tickets_cast j b' :
  body_tickets pid j b' with_ticket =
    body_tickets pid j b' g + (if decide (i = j /\ b = b') then 1 else 0).
Proof.
  unfold body_tickets, with_ticket. simpl. rewrite vote_sum_insert by done.
  unfold of_body. simpl. repeat case_decide; naive_solver lia.
Qed.

Lemma with_ticket_passed j : i <> j -> body_passed pid m j e g -> body_passed pid m j e with_ticket.
Proof.
  intros Hne (n & Hn & Hp). exists n. split; [done|].
  by rewrite !body_tickets_cast, !decide_False, !Z.add_0_r by naive_solver.
Qed.

Lemma with_ticket_core :
  leg_core pid m e g -> i = current_body m ->
  route_body (meta_route m) i = Some (ticket_role_subject t) -> institution_ticket e pid t ->
  leg_core pid m e with_ticket.
Proof.
  intros [L1 L2 L3 L4 L5 L6 L7 L8 L9 L10 L11 L12 L13 L14 L15 L16 L17] Hi Hr Ht. split; try done.
  - intros j t' v. simpl.
    intros [[[= <- <-] <-]|[_ Hx]]%lookup_insert_Some; [split; [lia|done]|by eapply L9].
  - intros j. rewrite !body_tickets_cast. simpl. destruct (decide (i = j)) as [<-|Hne].
    + rewrite lookup_insert_eq. simpl.
      pose proof (tallies_add u32_max 1 b _ _ _ ltac:(lia) (L10 i)) as Hta.
      destruct b; repeat case_decide; first [exact Hta|exfalso; naive_solver].
    + rewrite lookup_insert_ne by congruence.
      rewrite !decide_False by naive_solver. rewrite !Z.add_0_r. apply L10.
  - intros j Hj. apply with_ticket_passed; [lia|by apply L11].
Qed.
End Ticket.

(** The ballot of a citizen. *)
Section Citizen.
Context (c : CidNumber) (x : CitizenReferendumTicket).
Definition with_citizen : legislation_store :=
  set_LegReferendumTally (insert pid (add_votes u64_max 1 (ticket_approve x)
    (default vote_count_zero (LegReferendumTally g !! pid))))
    (set_LegReferendumVotesByCid (insert (pid, c) x) g).
Hypothesis Hnew : LegReferendumVotesByCid g !! (pid, c) = None.

Lemma with_citizen_other q : q <> pid -> same_legislation q g with_citizen.
Proof. intros Hq. split; intros; simpl; try done; rewrite lookup_insert_ne; congruence. Qed.

Lemma referendum_votes_cast b :
  referendum_votes pid b with_citizen =
    referendum_votes pid b g + (if decide (ticket_approve x = b) then 1 else 0).
Proof.
  unfold referendum_votes, with_citizen. simpl. rewrite fmap_insert, vote_sum_insert.
  - repeat case_decide; naive_solver lia.
  - by rewrite lookup_fmap, Hnew.
Qed.

Lemma with_citizen_core total :
  leg_core pid m e g -> population_eligible_total_of e pid = Some total ->
  referendum_votes pid true g + referendum_votes pid false g < total ->
  leg_core pid m e with_citizen.
Proof.
  intros [L1 L2 L3 L4 L5 L6 L7 L8 L9 L10 L11 L12 L13 L14 L15 L16 L17] He Hlt. split; try done.
  - rewrite !referendum_votes_cast. simpl. rewrite lookup_insert_eq. simpl.
    pose proof (tallies_add u64_max 1 (ticket_approve x) _ _ _ ltac:(lia) L12) as Hta.
    destruct (ticket_approve x); repeat case_decide; first [exact Hta|done].
  - intros Hr. destruct (L13 Hr) as (n & Hn & Hpos & _). exists n. do 2 (split; [done|]).
    assert (n = total) as -> by congruence.
    rewrite !referendum_votes_cast. destruct (ticket_approve x); repeat case_decide; try done; lia.
Qed.
End Citizen.

(** Signatures. *)
Lemma signatures_insert l : signatures pid (set_LegOverrideSigns (insert pid l) g) = l.
Proof. unfold signatures. simpl. by rewrite lookup_insert_eq. Qed.
Lemma reviews_insert l : reviews pid (set_LegGuardSigns (insert pid l) g) = l.
Proof. unfold reviews. simpl. by rewrite lookup_insert_eq. Qed.

Lemma with_signatures_core l :
  NoDup l.*1 -> Forall (fun x => x.2 = true) l ->
  (forall x, x ∈ l -> override_signer pid e g x.1) -> leg_core pid m e g ->
  leg_core pid m e (set_LegOverrideSigns (insert pid l) g).
Proof. intros H1 H2 H3 []. split; rewrite ?signatures_insert; done. Qed.
Lemma cleared_signatures_core :
  leg_core pid m e g -> leg_core pid m e (set_LegOverrideSigns (delete pid) g).
Proof.
  intros []. assert (Hn : signatures pid (set_LegOverrideSigns (delete pid) g) = [])
    by (unfold signatures; simpl; by rewrite lookup_delete_eq).
  split; rewrite ?Hn; try done; [split; constructor|by intros x ?%elem_of_nil].
Qed.
Lemma with_reviews_core l :
  NoDup l.*1 -> (forall x, x ∈ l -> guard_signer pid e g x.1) -> leg_core pid m e g ->
  leg_core pid m e (set_LegGuardSigns (insert pid l) g).
Proof. intros H1 H2 []. split; rewrite ?reviews_insert; done. Qed.
Lemma cleared_reviews_core :
  leg_core pid m e g -> leg_core pid m e (set_LegGuardSigns (delete pid) g).
Proof.
  intros []. assert (Hn : reviews pid (set_LegGuardSigns (delete pid) g) = [])
    by (unfold reviews; simpl; by rewrite lookup_delete_eq).
  split; rewrite ?Hn; try done; [constructor|by intros x ?%elem_of_nil].
Qed.

(** The next body. *)
Definition next_meta : RepresentativeMeta := set_current_body (current_body m + 1) m.
Definition with_next_body : legislation_store :=
  set_RepresentativeMetas (alter (set_current_body (current_body m + 1)) pid) g.

Lemma next_body_core :
  leg_core pid m e g -> current_body m + 1 < route_length m ->
  body_passed pid m (current_body m) e g -> leg_core pid next_meta e with_next_body.
Proof.
  intros [L1 L2 L3 L4 L5 L6 L7 L8 L9 L10 L11 L12 L13 L14 L15 L16 L17] Hlt Hp. split; try done.
  - simpl. by rewrite lookup_alter_eq, L1.
  - simpl. unfold route_length in *. simpl. lia.
  - intros i t v Hv. destruct (L9 i t v Hv) as (? & ? & ?). simpl. split; [lia|done].
  - intros i Hi. simpl in Hi. destruct (decide (i = current_body m)) as [->|]; [done|].
    apply L11. lia.
Qed.

(** Nobody has voted in it yet. *)
Lemma next_body_blank b :
  leg_core pid m e g -> body_tickets pid (current_body m + 1) b g = 0.
Proof.
  intros Hc. apply body_tickets_blank. intros t.
  destruct (RepresentativeVotesByTicket g !! _) as [v|] eqn:Hv; [|done].
  apply (lc_tickets _ _ _ _ Hc) in Hv as [? _]. lia.
Qed.
End Writes.

(** ** What a stage leads to *)

Section LegStages.
Context `{Wt : Weights} `{Cfg : !Config} `{LCfg : !LegislationConfig} `{Ord : StorageOrder}
  {W : Type} `{Prov : !Providers W} `{Cb : !Callbacks W} `{Tr : !ProposalTracks W}
  `{CbL : !CallbackLaws Cb} `{TrL : !TrackLaws Tr}
  `{CbP : !PrivateCallbacks Cb} `{TrB : !TrackBallots Tr}.
Context `{Wal : Wallets}.
Context (K : Z -> Proposal -> rt W -> Prop) `{KL : !TrackInvariant K}.
Hypothesis HK : forall pid p s, kind p = PROPOSAL_KIND_LEGISLATION -> K pid p s <-> leg_ok pid p s.
Hypothesis Hmax : MaxAdminsPerInstitution <= u32_max.
Implicit Types s : rt W.

(** A run that settles the proposal it started with, or fails, then leaving
    what was settled before. *)
Definition concludes (m : RM W unit) s : Prop :=
  match m s with
  | (Ok _, s') => settled K s'
  | (Err _, s') => settled K s -> settled K s'
  end.

Lemma concludes_then (m : RM W unit) (f : unit -> RM W unit) s :
  concludes m s -> preserves (settled K) (f tt) -> concludes (m ≫= f) s.
Proof.
  unfold concludes, mbind, M_bind. intros Hm Hf. destruct (m s) as [[[]|er] s1]; [|done].
  specialize (Hf _ Hm). destruct (f tt s1) as [[[]|er] s2]; [done|by intros _].
Qed.

Lemma concludes_transact (m : RM W unit) s :
  (forall u s', m s = (Ok u, s') -> settled K s') -> concludes (transact m) s.
Proof.
  intros Hm. unfold concludes, transact. destruct (m s) as [[u|er] s1] eqn:Hr; [|done].
  by eapply Hm.
Qed.

Lemma concludes_after f (m : RM W unit) s :
  (settled K s -> settled K (set_lv f s)) -> concludes m (set_lv f s) ->
  concludes (upd_lv f ;; m) s.
Proof.
  unfold concludes, upd_lv. rewrite bind_modify. intros H0 Hm.
  destruct (m (set_lv f s)) as [[[]|er] s1]; auto.
Qed.

Lemma concludes_keeps (m : RM W unit) s : concludes m s -> settled K s -> settled K (m s).2.
Proof. unfold concludes. intros Hm Hs. destruct (m s) as [[[]|er] s1]; simpl; auto. Qed.

(** The turn of the proposal [p]: the others are settled. *)
Record turn (pid : Z) (p : Proposal) s : Prop := {
  tn_proposal : Proposals (ve s) !! pid = Some p;
  tn_kind : kind p = PROPOSAL_KIND_LEGISLATION;
  tn_settled : settled (except pid K) s;
}.

(** What is known of the proposal, unless it is being removed. *)
Definition known (pid : Z) s (P : Prop) : Prop := PendingProposalCleanups (ve s) !! pid = None -> P.

Lemma turn_settled pid p s :
  Proposals (ve s) !! pid = Some p -> kind p = PROPOSAL_KIND_LEGISLATION -> settled K s ->
  turn pid p s /\ known pid s (leg_ok pid p s).
Proof.
  intros Hp Hk Hs. split; [split; [done..|by apply settled_except]|].
  intros Hc. apply HK; [done|]. by apply Hs.
Qed.

(** A write to the track's storage of the proposal. *)
Lemma turn_write pid p s f :
  (forall q, q <> pid -> same_legislation q (lv s) (f (lv s))) ->
  (blank_legislation pid (lv s) -> blank_legislation pid (f (lv s))) ->
  turn pid p s -> turn pid p (set_lv f s).
Proof.
  intros Hq Hb [Hp Hk Hs]. split; [done..|].
  apply (settled_cast_except K pid s); [done| | |done].
  - intros _ []. split; try done. by apply Hb.
  - intros q Hne. by split; try done; apply Hq.
Qed.

Lemma turn_back pid p s : turn pid p s -> known pid s (K pid p s) -> settled K s.
Proof.
  intros [Hp Hk Hs] Hc. apply (settled_cast_clean K pid); [done|].
  intros p' Hp' Hc'. assert (p' = p) as -> by congruence. by apply Hc.
Qed.

Lemma concludes_status pid p st s :
  turn pid p s -> known pid s (K pid (set_status st p) s) ->
  concludes (set_status_and_emit pid st) s.
Proof.
  intros [Hp _ Hs] Hk. pose proof (settled_set_status K s pid st p Hp Hs (fun _ => Hk)) as H.
  unfold concludes. destruct (set_status_and_emit pid st s) as [[[]|er] s1]; [done|by subst].
Qed.

Lemma holds_move pid p change :
  holds (fun s => turn pid p s /\ known pid s (K pid (change p) s)) (move_proposal pid change)
    (fun _ => settled K).
Proof.
  intros s [] s' [[Hp _ Hs] Hk] Hr. unfold move_proposal, upd in Hr. run_inv.
  match goal with H : schedule_proposal_expiry _ _ ?x = _ |- _ => rename H into Hsch; set (s1 := x) in * end.
  assert (Hs1 : settled K s1); [|pose proof (settled_schedule_expiry K pid
    (block_add (block_number s) leg_stage_duration) s1 Hs1) as H; by rewrite Hsch in H].
  apply (settled_view K (set_ve (set_Proposals (insert pid (change p))) s)); [done|done|].
  destruct Hs as [H1 H2]. split; [by intros q Hq; apply (unborn_same q s), H1|]. simpl.
  intros q x. rewrite lookup_insert_Some. intros [[<- <-]|[Hne Hx]] Hc.
  - apply (ti_view pid _ s); [done..|]. by apply Hk.
  - apply (ti_view q x s); [done..|]. apply H2; auto.
Qed.

Lemma concludes_transition pid p new s :
  turn pid p s ->
  known pid s (K pid (with_window new (internal_code p) (block_number s) p) s) ->
  concludes (transition_stage pid new) s.
Proof.
  intros Ht Hk. unfold transition_stage. unfold concludes at 1. autorewrite with run.
  apply concludes_transact. intros u s' Hr.
  exact (holds_move pid p (fun p => with_window new (internal_code p) (block_number s) p)
    s u s' (conj Ht Hk) Hr).
Qed.

(** ** Beyond the bodies *)

(** The record of a proposal that was just moved to a later stage. *)
Lemma moved_ok pid p m l new code now s :
  kind p = PROPOSAL_KIND_LEGISLATION -> status p = STATUS_VOTING ->
  leg_core pid m (ve s) (lv s) -> all_passed pid m (ve s) (lv s) ->
  new <> STAGE_LEG_REPRESENTATIVE -> LegislationMetas (lv s) !! pid = Some l ->
  law_outcome pid new STATUS_VOTING (meta_rule m) l (ve s) (lv s) ->
  K pid (with_window new code now p) s.
Proof.
  intros Hk Hst Hc Ha Hn Hl Ho. apply HK; [done|]. exists m. split; [done|]. simpl. rewrite Hst.
  split; [done..|]. intros _. split; [done|]. by exists l.
Qed.

Lemma not_final_passed {P : Prop} : passed_status STATUS_VOTING -> P.
Proof. by intros [|[|]]. Qed.
Lemma not_rejected_passed {P : Prop} : passed_status STATUS_REJECTED -> P.
Proof. by intros [|[|]]. Qed.
Hint Extern 1 => (by apply not_final_passed) : core.
Hint Extern 1 => (by apply not_rejected_passed) : core.

Lemma concludes_sign pid p m s :
  turn pid p s -> status p = STATUS_VOTING ->
  known pid s (leg_core pid m (ve s) (lv s) /\ all_passed pid m (ve s) (lv s) /\
    meta_rule m <> SpecialRule /\ is_Some (LegislationMetas (lv s) !! pid)) ->
  concludes (advance_to_sign pid) s.
Proof.
  intros Ht Hst Hk. unfold advance_to_sign. apply concludes_then.
  - apply (concludes_transition pid p); [done|]. intros Hc.
    destruct (Hk Hc) as (Hcore & Ha & Hr & l & Hl).
    apply (moved_ok pid p m l); try done; [by destruct Ht|].
    split; intros Hs; try done. split; [done|auto].
  - clear - CbL TrL CbP TrB KL. solve_good.
Qed.

Lemma concludes_override pid p m s :
  turn pid p s -> status p = STATUS_VOTING -> stage p = STAGE_LEG_SIGN ->
  known pid s (leg_core pid m (ve s) (lv s) /\ all_passed pid m (ve s) (lv s) /\
    meta_rule m <> SpecialRule /\ is_Some (LegislationMetas (lv s) !! pid)) ->
  concludes (advance_to_override pid) s.
Proof.
  intros Ht Hst Hstg Hk. unfold advance_to_override.
  match goal with |- concludes (upd_lv ?f ;; _) s => set (s1 := set_lv f s) end.
  assert (Ht1 : turn pid p s1).
  { apply turn_write; [|by intros []; split; try done; simpl; rewrite lookup_delete_eq|done].
    intros q Hq. split; try done. simpl. by rewrite lookup_delete_ne. }
  assert (H0 : settled K s -> settled K s1).
  { intros Hs. apply (turn_back pid p); [done|]. intros Hc. apply HK; [by destruct Ht|].
    destruct (turn_settled pid p s) as [_ (m' & Hc' & [O1 O2 O3 O4])]; [by destruct Ht..|done|done|].
    exists m'. split; [by apply cleared_signatures_core|]. split; try done.
    intros Hne. destruct (O4 Hne) as (? & l' & ? & [P1 P2 P3 P4]). split; [done|]. exists l'.
    split; [done|]. split; try done. by rewrite Hstg. }
  apply concludes_after; [exact H0|]. apply concludes_then.
  - apply (concludes_transition pid p); [done|]. intros Hc.
    destruct (Hk Hc) as (Hcore & Ha & Hr & l & Hl).
    apply (moved_ok pid p m l); try done; [by destruct Ht|by apply cleared_signatures_core|].
    split; intros Hs; try done. split_and!; [done| |auto].
    intros _. unfold signatures, s1. simpl. by rewrite lookup_delete_eq.
  - clear - CbL TrL CbP TrB KL. solve_good.
Qed.

(** A law that is done with its stage passes, or goes to the guards. *)
Lemma concludes_finalize pid p m l s :
  turn pid p s -> status p = STATUS_VOTING -> stage p <> STAGE_LEG_REPRESENTATIVE ->
  stage p <> STAGE_LEG_CONSTITUTION_GUARD ->
  known pid s (leg_core pid m (ve s) (lv s) /\ all_passed pid m (ve s) (lv s) /\
    LegislationMetas (lv s) !! pid = Some l /\
    (meta_rule m = SpecialRule -> referendum_accepted pid (ve s) (lv s)) /\
    (needs_guard l = false ->
      law_outcome pid (stage p) STATUS_PASSED (meta_rule m) l (ve s) (lv s))) ->
  concludes (finalize_or_guard pid (needs_guard l)) s.
Proof.
  intros Ht Hst Hrep Hstg Hk. unfold finalize_or_guard. destruct (needs_guard l) eqn:Hg.
  2: { apply (concludes_status pid p); [done|]. intros Hc.
    destruct (Hk Hc) as (Hcore & Ha & Hl & _ & Ho). apply HK; [by destruct Ht|].
    exists m. split; [done|]. simpl. split; [done..|]. intros _. split; [done|]. exists l. auto. }
  unfold advance_to_guard.
  match goal with |- concludes (upd_lv ?f ;; _) s => set (s1 := set_lv f s) end.
  assert (Ht1 : turn pid p s1).
  { apply turn_write; [|by intros []; split; try done; simpl; rewrite lookup_delete_eq|done].
    intros q Hq. split; try done. simpl. by rewrite lookup_delete_ne. }
  assert (H0 : settled K s -> settled K s1).
  { intros Hs. apply (turn_back pid p); [done|]. intros Hc. apply HK; [by destruct Ht|].
    destruct (turn_settled pid p s) as [_ (m' & Hc' & [O1 O2 O3 O4])]; [by destruct Ht..|done|done|].
    exists m'. split; [by apply cleared_reviews_core|]. split; try done.
    intros Hne. destruct (O4 Hne) as (? & l' & ? & [P1 P2 P3 P4]). split; [done|]. exists l'.
    split; [done|]. by split. }
  apply concludes_after; [exact H0|]. apply concludes_then.
  - apply (concludes_transition pid p); [done|]. intros Hc.
    destruct (Hk Hc) as (Hcore & Ha & Hl & Hr & _).
    apply (moved_ok pid p m l); try done; [by destruct Ht|by apply cleared_reviews_core|].
    split; intros Hs; try done. split_and!; [done|done| |auto|done].
    intros _. unfold reviews, s1. simpl. by rewrite lookup_delete_eq.
  - clear - CbL TrL CbP TrB KL. solve_good.
Qed.

Lemma concludes_to_referendum pid p m s :
  turn pid p s -> status p = STATUS_VOTING ->
  known pid s (leg_core pid m (ve s) (lv s) /\ all_passed pid m (ve s) (lv s) /\
    meta_rule m = SpecialRule /\ is_Some (LegislationMetas (lv s) !! pid)) ->
  concludes (advance_to_referendum pid) s.
Proof.
  intros Ht Hst Hk. unfold advance_to_referendum. unfold concludes at 1. autorewrite with run.
  apply concludes_transact. intros u s' Hr. revert Hr. autorewrite with run.
  destruct (population_eligible_total_of _ _) as [total|]; autorewrite with run; [|done].
  intros (u' & s1 & Hmove & Hr)%bind_Ok. revert Hr. apply (holds_preserves (settled K)).
  { unfold emit_proposal_advanced_to_referendum. clear - CbL TrL CbP TrB KL. solve_good. }
  revert Hmove. apply (holds_move pid p (fun p => with_window STAGE_LEG_REFERENDUM
    (internal_code p) (block_number s) p)). split; [done|]. intros Hc.
  destruct (Hk Hc) as (Hcore & Ha & Hsp & l & Hl). apply (moved_ok pid p m l); try done.
  { by destruct Ht. }
  split; intros Hs; try done. split_and!; [done|auto|done].
Qed.

(** ** The end of a body's vote *)

(** The current body has passed the bill, in a proposal that is still open. *)
Definition body_done (pid : Z) (p : Proposal) (m : RepresentativeMeta) s : Prop :=
  known pid s (leg_core pid m (ve s) (lv s) /\ body_passed pid m (current_body m) (ve s) (lv s)).

Lemma concludes_finish pid p m s :
  turn pid p s -> status p = STATUS_VOTING -> stage p = STAGE_LEG_REPRESENTATIVE ->
  RepresentativeMetas (lv s) !! pid = Some m -> body_done pid p m s ->
  known pid s (current_body m + 1 = route_length m) ->
  concludes (finish_representative_route pid) s.
Proof.
  intros Ht Hst Hstg Hm Hd Hlast. unfold finish_representative_route.
  unfold concludes at 1. autorewrite with run. rewrite Hm. autorewrite with run.
  destruct (meta_procedure m) eqn:Hproc.
  - apply (concludes_status pid p); [done|]. intros Hc. destruct (Hd Hc) as [Hcore Hp].
    apply HK; [by destruct Ht|]. exists m. split; [done|]. simpl. rewrite Hstg.
    split; try done. intros _ _. split; [done|]. split; [by apply Hlast|done].
  - assert (Hk : known pid s (leg_core pid m (ve s) (lv s) /\ all_passed pid m (ve s) (lv s) /\
      is_Some (LegislationMetas (lv s) !! pid))).
    { intros Hc. destruct (Hd Hc) as [Hcore Hp]. split_and!; [done| |by apply (lc_law _ _ _ _ Hcore)].
      split; [by apply Hlast|done]. }
    destruct (decide (meta_rule m = SpecialRule)).
    + apply (concludes_to_referendum pid p m); [done..|]. intros Hc.
      by destruct (Hk Hc) as (? & ? & ?).
    + apply (concludes_sign pid p m); [done..|]. intros Hc. by destruct (Hk Hc) as (? & ? & ?).
Qed.

Lemma concludes_advance_body pid p m s :
  turn pid p s -> status p = STATUS_VOTING -> stage p = STAGE_LEG_REPRESENTATIVE ->
  RepresentativeMetas (lv s) !! pid = Some m -> body_done pid p m s ->
  concludes (advance_representative_body_or_finish pid) s.
Proof.
  intros Ht Hst Hstg Hm Hd. unfold advance_representative_body_or_finish.
  unfold concludes at 1. autorewrite with run. rewrite Hm. autorewrite with run. cbv zeta.
  set (next := saturating_add u32_max (current_body m) 1).
  assert (Hnext : known pid s (next = current_body m + 1)).
  { intros Hc. destruct (Hd Hc) as [Hcore _].
    pose proof (lc_current _ _ _ _ Hcore). pose proof (lc_length _ _ _ _ Hcore).
    unfold next, saturating_add, MAX_REPRESENTATIVE_BODIES, u32_max in *. lia. }
  destruct (next <? Z.of_nat (route_len (meta_route m))) eqn:Hlt.
  2: { apply (concludes_finish pid p m); [done..|]. intros Hc. destruct (Hd Hc) as [Hcore _].
    pose proof (lc_current _ _ _ _ Hcore). pose proof (Hnext Hc). unfold route_length in *. lia. }
  destruct (route_body (meta_route m) next) as [body|] eqn:Hbody; autorewrite with run; [|done].
  destruct (institution_code_for_cid _) as [code|er]; simpl; autorewrite with run; [|done].
  apply concludes_transact. intros u s' Hr. unfold upd_lv in Hr. rewrite bind_modify in Hr.
  apply bind_Ok in Hr as (u' & s2 & Hmove & Hr). revert Hr.
  apply (holds_preserves (settled K)); [apply settled_emit; apply _|].
  revert Hmove. apply (holds_move pid p (fun p => with_window (stage p) (Some code) (block_number s) p)).
  set (s1 := set_lv _ s). split.
  { apply turn_write; [|by intros []; split|done]. intros q Hq. split; try done. simpl.
    by rewrite lookup_alter_ne. }
  intros Hc. pose proof (Hnext Hc) as Hn. destruct (Hd Hc) as [Hcore Hp].
  assert (Hlv : lv s1 = with_next_body pid m (lv s)) by (subst s1; simpl; by rewrite Hn).
  assert (Hcore1 : leg_core pid (next_meta m) (ve s) (lv s1)).
  { rewrite Hlv. apply next_body_core; [done| |done]. unfold route_length. lia. }
  apply HK; [by destruct Ht|]. exists (next_meta m). split; [done|]. simpl. rewrite Hstg, Hst.
  split; [|auto|done|done]. intros _ _.
  destruct (body_size_pos Hmax pid (next_meta m) next (ve s) (lv s1) body Hcore1 Hbody)
    as (total & Htotal & Hpos).
  exists total. simpl. split; [by rewrite <- Hn|].
  change (representative_decided (meta_rule m) total (body_tickets pid (current_body m + 1) true (lv s))
    (body_tickets pid (current_body m + 1) false (lv s)) = None).
  rewrite !(next_body_blank pid m (ve s) (lv s) _ Hcore). by apply decided_fresh.
Qed.

Lemma concludes_body_passed pid p m s :
  turn pid p s -> status p = STATUS_VOTING -> stage p = STAGE_LEG_REPRESENTATIVE ->
  RepresentativeMetas (lv s) !! pid = Some m -> body_done pid p m s ->
  concludes (representative_body_passed (meta_route m) pid) s.
Proof.
  intros Ht Hst Hstg Hm Hd. destruct (meta_route m) as [body|bodies] eqn:Hroute.
  - apply (concludes_finish pid p m); [done..|]. intros Hc. destruct (Hd Hc) as [Hcore _].
    pose proof (lc_current _ _ _ _ Hcore) as Hcur. unfold route_length in *.
    rewrite Hroute in *. simpl in *. lia.
  - by apply (concludes_advance_body pid p m).
Qed.

(** Its rejection. *)
Lemma concludes_body_rejected pid p m s :
  turn pid p s -> stage p = STAGE_LEG_REPRESENTATIVE ->
  known pid s (leg_core pid m (ve s) (lv s) /\
    ~ body_passed pid m (current_body m) (ve s) (lv s)) ->
  concludes (set_status_and_emit pid STATUS_REJECTED) s.
Proof.
  intros Ht Hstg Hk. apply (concludes_status pid p); [done|]. intros Hc.
  destruct (Hk Hc) as [Hcore Hn]. apply HK; [by destruct Ht|]. exists m. split; [done|].
  simpl. rewrite Hstg. split; [done|auto|done|done].
Qed.

(** ** A member votes *)

Lemma leg_open_ok pid p s :
  engine_inv s -> settled K s -> Proposals (ve s) !! pid = Some p ->
  kind p = PROPOSAL_KIND_LEGISLATION -> status p = STATUS_VOTING ->
  pid < NextProposalId (ve s) /\ leg_ok pid p s /\ turn pid p s.
Proof.
  intros Hi Hs Hp Hk Hst. split; [by eapply inv_below|].
  destruct (turn_settled pid p s Hp Hk Hs) as [? Hok]. split; [|done]. apply Hok.
  by apply (open_clean s pid p).
Qed.

(** The decision on the exact count of the tickets. *)
Lemma concludes_decision pid p m total s :
  turn pid p s -> status p = STATUS_VOTING -> stage p = STAGE_LEG_REPRESENTATIVE ->
  leg_core pid m (ve s) (lv s) -> body_size pid m (current_body m) (ve s) = Some total ->
  concludes (match representative_decided (meta_rule m) total
      (body_tickets pid (current_body m) true (lv s)) (body_tickets pid (current_body m) false (lv s)) with
    | Some true => representative_body_passed (meta_route m) pid
    | Some false => set_status_and_emit pid STATUS_REJECTED
    | None => mret tt
    end) s.
Proof.
  intros Ht Hst Hstg Hc Hn. pose proof (votes_within Hmax pid m _ _ _ total Hc Hn) as Hv.
  pose proof (lc_meta _ _ _ _ Hc) as Hm.
  destruct (representative_decided _ _ _ _) as [[]|] eqn:Hd.
  - apply (concludes_body_passed pid p m); [done..|]. intros _. split; [done|]. exists total.
    split; [done|]. by apply (decided_true _ _ _ _ Hv).
  - apply (concludes_body_rejected pid p m); [done..|]. intros _. split; [done|].
    intros (n & Hn' & Hp). assert (n = total) as -> by congruence.
    rewrite (decided_false _ _ _ _ _ _ Hv Hd) in Hp; [done|split; lia|done].
  - unfold concludes. simpl. apply (turn_back pid p); [done|]. intros _. apply HK; [by destruct Ht|].
    exists m. split; [done|]. rewrite Hstg, Hst. split; [|auto|done|done]. intros _ _. by exists total.
Qed.

Lemma holds_representative_vote who pid role b :
  holds (fun s => engine_inv s /\ settled K s) (do_cast_representative_vote who pid role b)
    (fun _ => settled K).
Proof.
  intros s [] s' [Hi Hs] Hr. unfold do_cast_representative_vote in Hr.
  apply bind_Ok in Hr as (p & s0 & Hopen & Hr).
  apply ensure_open_Ok in Hopen as (-> & Hp & Hst & _). unfold upd_lv, emit in Hr. run_inv.
  match goal with H : RepresentativeMetas _ !! pid = Some ?x |- _ => rename x into m, H into Hm end.
  match goal with H : route_body _ _ = Some ?x |- _ => rename x into r, H into Hbody end.
  match goal with H : is_subject_voter_in_snapshot _ _ _ _ = true |- _ =>
    apply (subject_voter_ticket _ _ _ _ _ eq_refl) in H; rename H into Hticket end.
  match goal with H : ~ is_Some (RepresentativeVotesByTicket _ !! _) |- _ =>
    apply eq_None_not_Some in H; rename H into Hnew end.
  match goal with H : kind p = _ |- _ => rename H into Hkind end.
  match goal with H : stage p = _ |- _ => rename H into Hstage end.
  set (ticket := {| ticket_role_subject := _; voter_account_id := _ |}) in *.
  match goal with H : subject_voters_len _ _ _ = Some ?x |- _ => rename x into total, H into Htotal end.
  destruct (leg_open_ok pid p s Hi Hs Hp Hkind Hst) as (Hlow & (m' & Hcore & _) & Ht).
  assert (m' = m) as -> by (pose proof (lc_meta _ _ _ _ Hcore); congruence).
  set (tally := add_votes _ _ _ _) in *.
  match goal with H : _ (deposit_event ?ev ?x) = (Ok tt, s') |- _ =>
    set (s1 := deposit_event ev x) in *; rename H into Hr end.
  pose proof (with_ticket_core pid m (ve s) (lv s) (current_body m) ticket b Hnew Hcore eq_refl
    Hbody Hticket) as Hcore1.
  change (with_ticket pid (lv s) (current_body m) ticket b) with (lv s1) in Hcore1.
  assert (Ht1 : turn pid p s1).
  { destruct Ht as [? ? Hx]. split; [done..|].
    apply (settled_cast K pid s); [done|done| |done]. intros q Hq. split; try done.
    by apply (with_ticket_other pid (lv s) (current_body m) ticket b). }
  assert (Hsize : body_size pid m (current_body m) (ve s1) = Some total)
    by (unfold body_size; by rewrite Hbody).
  pose proof (votes_within Hmax pid m _ _ _ total Hcore1 Hsize) as (Hv1 & Hv2 & Hv3 & Hv4).
  assert (Hta : yes tally = body_tickets pid (current_body m) true (lv s1) /\
    no tally = body_tickets pid (current_body m) false (lv s1)).
  { pose proof (lc_tallies _ _ _ _ Hcore1 (current_body m)) as Hx. simpl in Hx.
    rewrite lookup_insert_eq in Hx. destruct Hx as [Hx1 Hx2].
    change (yes tally = Z.min u32_max (body_tickets pid (current_body m) true (lv s1))) in Hx1.
    change (no tally = Z.min u32_max (body_tickets pid (current_body m) false (lv s1))) in Hx2.
    lia. }
  destruct Hta as [Hy Hn]. rewrite Hy, Hn in Hr.
  pose proof (concludes_decision pid p m total s1 Ht1 Hst Hstage Hcore1 Hsize) as Hcd.
  unfold concludes in Hcd. by rewrite Hr in Hcd.
Qed.

(** ** Citizens vote *)

Lemma holds_leg_referendum_vote who pid b :
  holds (fun s => engine_inv s /\ settled K s) (do_cast_referendum_vote who pid b)
    (fun _ => settled K).
Proof.
  intros s [] s' [Hi Hs] Hr. unfold do_cast_referendum_vote in Hr.
  apply bind_Ok in Hr as (p & s0 & Hopen & Hr).
  apply ensure_open_Ok in Hopen as (-> & Hp & Hst & _). unfold upd_lv, emit in Hr. run_inv.
  match goal with H : ~ is_Some (LegReferendumVotesByCid _ !! _) |- _ =>
    apply eq_None_not_Some in H; rename H into Hnew end.
  match goal with H : population_eligible_total_of _ _ = Some ?x |- _ =>
    rename x into total, H into Htotal end.
  match goal with H : kind p = _ |- _ => rename H into Hkind end.
  match goal with H : stage p = _ |- _ => rename H into Hstage end.
  match goal with H : (_ <? total) = true |- _ => rename H into Hroom end.
  match goal with x : CitizenSubject |- _ => rename x into who' end.
  destruct (leg_open_ok pid p s Hi Hs Hp Hkind Hst) as (Hlow & (m & Hcore & [_ _ _ Ho]) & Ht).
  destruct (Ho ltac:(by rewrite Hstage)) as (Ha & l & Hl & [O1 O2 O3 O4]).
  destruct (O1 Hstage) as (Hsp & _ & _).
  destruct (lc_population _ _ _ _ Hcore Hsp) as (n & Hn & Hpos & Hle).
  assert (n = total) as -> by congruence.
  assert (Hlt : referendum_votes pid true (lv s) + referendum_votes pid false (lv s) < total).
  { pose proof (lc_referendum _ _ _ _ Hcore) as [Ht1 Ht2]. rewrite Ht1, Ht2 in Hroom.
    pose proof (referendum_votes_nonneg pid true (lv s)).
    pose proof (referendum_votes_nonneg pid false (lv s)).
    unfold saturating_add in Hroom. lia. }
  set (ticket := {| voter_subject := who'; ticket_approve := b |}) in *.
  match goal with |- settled K ?x => set (s1 := x) end.
  pose proof (with_citizen_core pid m (ve s) (lv s) (citizen_cid_number who') ticket Hnew total
    Hcore Htotal Hlt) as Hcore1.
  change (with_citizen pid (lv s) (citizen_cid_number who') ticket) with (lv s1) in Hcore1.
  apply (turn_back pid p).
  - destruct Ht as [? ? Hx]. split; [done..|].
    apply (settled_cast K pid s); [done|done| |done]. intros q Hq. split; try done.
    by apply (with_citizen_other pid (lv s) (citizen_cid_number who') ticket).
  - intros _. apply HK; [done|]. exists m. split; [done|]. rewrite Hstage, Hst.
    split; try done. intros _. split; [done|]. exists l. split; [done|].
    split; intros Hs0; try done. split_and!; [done|auto|done].
Qed.

(** ** Signatures *)

Lemma existsb_signer (who : AccountId) (l : list (AccountId * bool)) :
  existsb (fun x => bool_decide (x.1 = who)) l = false -> who ∉ l.*1.
Proof.
  intros Hf (x & -> & Hx)%list_elem_of_fmap. apply not_true_iff_false in Hf. apply Hf.
  apply existsb_exists. exists x. split; [by apply list_elem_of_In|]. by apply bool_decide_eq_true.
Qed.

(** A stage beyond the bodies. *)
Lemma later_stage_ok pid p s meta st :
  engine_inv s -> settled K s -> Proposals (ve s) !! pid = Some p -> status p = STATUS_VOTING ->
  stage p = st -> STAGE_LEG_REPRESENTATIVE < st <= STAGE_LEG_CONSTITUTION_GUARD ->
  LegislationMetas (lv s) !! pid = Some meta ->
  pid < NextProposalId (ve s) /\ turn pid p s /\
  exists m, leg_core pid m (ve s) (lv s) /\ all_passed pid m (ve s) (lv s) /\
    law_outcome pid st STATUS_VOTING (meta_rule m) meta (ve s) (lv s).
Proof.
  intros Hi Hs Hp Hst Hstg Hr Hl.
  assert (Hk : kind p = PROPOSAL_KIND_LEGISLATION).
  { apply (leg_stage_kind s pid); [done..|]. rewrite Hstg. lia. }
  destruct (leg_open_ok pid p s Hi Hs Hp Hk Hst) as (Hlow & (m & Hcore & [_ _ _ Ho]) & Ht).
  split_and!; [done..|]. exists m. destruct Ho as (Ha & l & Hl' & Hlo).
  { rewrite Hstg. intros Hx. rewrite Hx in Hr. lia. }
  assert (l = meta) as -> by congruence. rewrite Hstg, Hst in Hlo. done.
Qed.

Lemma concludes_Ok (m : RM W unit) s u s' : concludes m s -> m s = (Ok u, s') -> settled K s'.
Proof. unfold concludes. intros Hm Hr. by rewrite Hr in Hm. Qed.

Lemma holds_executive_sign who pid b :
  holds (fun s => engine_inv s /\ settled K s) (do_executive_sign who pid b) (fun _ => settled K).
Proof.
  intros s [] s' [Hi Hs] Hr. unfold do_executive_sign in Hr.
  apply bind_Ok in Hr as (meta & s0 & Hin & Hr).
  apply ensure_in_stage_Ok in Hin as (-> & Hl & p & Hp & Hst & Hstg). unfold emit in Hr. run_inv.
  destruct (later_stage_ok pid p s meta STAGE_LEG_SIGN Hi Hs Hp Hst Hstg) as
    (Hlow & Ht & m & Hc & Ha & [_ O2 _ _]); [done..|].
  destruct (O2 eq_refl) as [Hr1 _].
  match goal with H : _ (deposit_event ?ev s) = (Ok tt, s') |- _ =>
    set (s1 := deposit_event ev s) in *; rename H into Hr end.
  assert (Ht1 : turn pid p s1).
  { destruct Ht as [? ? Hx]. split; [done..|]. by apply (settled_view (except pid K) s). }
  revert Hr. apply concludes_Ok. destruct b; [|destruct (negb _)].
  - apply (concludes_finalize pid p m meta); [done|done|by rewrite Hstg..|]. intros _.
    split_and!; try done. intros Hg. rewrite Hstg. split; intros Hs0; try done.
  - apply (concludes_override pid p m); [done..|]. intros _. split_and!; try done.
  - apply (concludes_status pid p); [done|]. intros _. apply HK; [by destruct Ht|]. exists m.
    split; [done|]. simpl. rewrite Hstg. split; [done|auto|done|]. intros _. split; [done|].
    exists meta. split; [done|]. split; intros Hs0; try done. split; [done|auto].
Qed.

(** The wallets of the state count. *)
Definition wallets_seen s : Prop := forall subject who voter,
  resolve_subject_voter (world s) subject who = Some voter -> wallet_of subject who voter.

Lemma voter_signer s pid r who : wallets_seen s ->
  is_subject_voter_in_snapshot s pid (Institution r) who = true -> frozen_signer pid (ve s) r who.
Proof.
  unfold is_subject_voter_in_snapshot. intros Hw Hv.
  destruct (VoterSnapshot _ !! _) as [roll|] eqn:Hroll; [|done].
  destruct (resolve_subject_voter _ _ _) as [voter|] eqn:Hres; [|done].
  apply existsb_exists in Hv as (x & Hx & Heq%bool_decide_eq_true). subst x.
  exists voter, roll. split_and!; [by apply Hw|done|by apply list_elem_of_In].
Qed.

Lemma holds_override_sign who pid b :
  holds (fun s => (engine_inv s /\ settled K s) /\ wallets_seen s) (do_override_sign who pid b)
    (fun _ => settled K).
Proof.
  intros s [] s' [[Hi Hs] Hw] Hr. unfold do_override_sign in Hr.
  apply bind_Ok in Hr as (meta & s0 & Hin & Hr).
  apply ensure_in_stage_Ok in Hin as (-> & Hl & p & Hp & Hst & Hstg). unfold emit in Hr. run_inv.
  destruct (later_stage_ok pid p s meta STAGE_LEG_OVERRIDE Hi Hs Hp Hst Hstg) as
    (Hlow & Ht & m & Hc & Ha & [_ _ O3 _]); [done..|].
  destruct (O3 eq_refl) as (Hr1 & Hopen & _).
  match goal with H : existsb _ _ = false |- _ => apply existsb_signer in H; rename H into Hnew end.
  assert (Hsigner : override_signer pid (ve s) (lv s) who).
  { match goal with H : existsb _ (override_signers meta) = true |- _ =>
      apply existsb_exists in H as (r & Hr0%list_elem_of_In & Hv) end.
    exists meta, r. split_and!; [done..|by apply voter_signer]. }
  match goal with H : context [deposit_event ?ev s] |- _ =>
    set (s1 := deposit_event ev s) in *; rename H into Hr end.
  assert (Ht1 : turn pid p s1).
  { destruct Ht as [? ? Hx]. split; [done..|]. by apply (settled_view (except pid K) s). }
  destruct b; simpl in Hr.
  2: { revert Hr. apply concludes_Ok. apply (concludes_status pid p); [done|]. intros _.
    apply HK; [by destruct Ht|]. exists m.
    split; [done|]. simpl. rewrite Hstg. split; [done|auto|done|]. intros _. split; [done|].
    exists meta. split; [done|]. split; intros Hs0; try done. split_and!; [done|done|auto]. }
  unfold upd_lv in Hr. run_inv.
  match goal with H : try_push _ _ _ = _ |- _ => apply try_push_Some in H as [_ ->] end.
  match goal with H : context [set_lv ?f s1] |- _ => set (s2 := set_lv f s1) in *; rename H into Hr end.
  set (signs := default [] (LegOverrideSigns (lv s) !! pid) ++ [(who, true)]) in *.
  assert (Ht2 : turn pid p s2).
  { destruct Ht1 as [? ? Hx]. split; [done..|].
    apply (settled_cast K pid s1); [done|done| |by apply (settled_view K s)]. intros q Hq.
    split; try done. split; try done. simpl. by rewrite lookup_insert_ne. }
  assert (Hc2 : leg_core pid m (ve s2) (lv s2)).
  { destruct (lc_signatures _ _ _ _ Hc) as [H1 H2]. apply with_signatures_core; [| | |done].
    - unfold signs. rewrite fmap_app. apply NoDup_app. split_and!; [done| |by apply NoDup_singleton].
      intros x Hx ->%list_elem_of_singleton. done.
    - unfold signs. apply Forall_app. split; [done|by apply Forall_singleton].
    - intros x [Hx| ->%list_elem_of_singleton]%elem_of_app; [|done].
      by apply (lc_signers _ _ _ _ Hc). }
  assert (Hsg : signatures pid (lv s2) = signs)
    by (unfold signatures; simpl; by rewrite lookup_insert_eq).
  destruct (override_approved (count_signs true signs)) eqn:Hov; unfold override_approved in Hov.
  - revert Hr. apply concludes_Ok.
    apply (concludes_finalize pid p m meta); [done|done|by rewrite Hstg..|]. intros _.
    split_and!; try done. intros Hg. rewrite Hstg. split; intros Hs0; try done.
    split_and!; [done|done|]. intros _. split; [done|]. rewrite Hsg. lia.
  - injection Hr as <-. apply (turn_back pid p); [done|]. intros _. apply HK; [by destruct Ht|]. exists m.
    split; [done|]. rewrite Hstg, Hst. split; try done. intros _. split; [done|]. exists meta.
    split; [done|]. split; intros Hs0; try done. split_and!; [done| |auto].
    intros _. rewrite Hsg. lia.
Qed.

(** ** The guards *)

Lemma holds_guard_vote who pid b :
  holds (fun s => (engine_inv s /\ settled K s) /\ wallets_seen s) (do_guard_vote who pid b)
    (fun _ => settled K).
Proof.
  intros s [] s' [[Hi Hs] Hw] Hr. unfold do_guard_vote in Hr.
  apply bind_Ok in Hr as (meta & s0 & Hin & Hr).
  apply ensure_in_stage_Ok in Hin as (-> & Hl & p & Hp & Hst & Hstg). unfold emit, upd_lv in Hr. run_inv.
  destruct (later_stage_ok pid p s meta STAGE_LEG_CONSTITUTION_GUARD Hi Hs Hp Hst Hstg) as
    (Hlow & Ht & m & Hc & Ha & [_ _ _ O4]); [done..|].
  destruct (O4 eq_refl) as (Hg & Href & Hopen & _ & _). destruct (Hopen eq_refl) as [Hop1 Hop2].
  match goal with H : existsb _ _ = false |- _ => apply existsb_signer in H; rename H into Hnew end.
  assert (Hsigner : guard_signer pid (ve s) (lv s) who).
  { match goal with H : meta_guard meta = Some ?r |- _ => exists meta, r end.
    split_and!; [done|done|congruence|by apply voter_signer]. }
  match goal with H : try_push _ _ _ = _ |- _ => apply try_push_Some in H as [_ ->] end.
  match goal with H : context [set_lv ?f (deposit_event ?ev s)] |- _ =>
    set (s1 := deposit_event ev s) in *; set (s2 := set_lv f s1) in *; rename H into Hr end.
  set (signs := default [] (LegGuardSigns (lv s) !! pid) ++ [(who, b)]) in *.
  assert (Ht2 : turn pid p s2).
  { destruct Ht as [? ? Hx]. split; [done..|].
    apply (settled_cast K pid s1); [done|done| |by apply (settled_view K s)]. intros q Hq.
    split; try done. split; try done. simpl. by rewrite lookup_insert_ne. }
  assert (Hc2 : leg_core pid m (ve s2) (lv s2)).
  { apply with_reviews_core; [| |done]; unfold signs.
    - rewrite fmap_app. apply NoDup_app. split_and!; [by destruct Hc| |by apply NoDup_singleton].
      intros y Hy ->%list_elem_of_singleton. done.
    - intros y [Hy| ->%list_elem_of_singleton]%elem_of_app; [|done].
      by apply (lc_guards _ _ _ _ Hc). }
  assert (Hrv : reviews pid (lv s2) = signs)
    by (unfold reviews; simpl; by rewrite lookup_insert_eq).
  assert (Hl2 : LegislationMetas (lv s2) !! pid = Some meta) by done.
  assert (Ha2 : all_passed pid m (ve s2) (lv s2)) by done.
  assert (Hrf2 : meta_rule m = SpecialRule -> referendum_accepted pid (ve s2) (lv s2)) by done.
  clearbody s2. clear Hc Ha Href Hl.
  assert (Hfin : forall st,
    (st = STATUS_VOTING -> count_signs true signs < CONSTITUTION_GUARD_APPROVAL_THRESHOLD /\
      count_signs false signs < CONSTITUTION_GUARD_APPROVAL_THRESHOLD) ->
    (passed_status st -> CONSTITUTION_GUARD_APPROVAL_THRESHOLD <= count_signs true signs) ->
    (st = STATUS_REJECTED -> count_signs true signs < CONSTITUTION_GUARD_APPROVAL_THRESHOLD) ->
    K pid (set_status st p) s2).
  { intros st F1 F2 F3. apply HK; [by destruct Ht|]. exists m. split; [done|]. simpl. rewrite Hstg.
    split; try done. intros _. split; [done|]. exists meta. split; [done|].
    split; intros Hs0; try done. rewrite Hrv. split_and!; done. }
  unfold guard_decided in Hr. destruct (_ <=? count_signs true signs) eqn:Hyes;
    [|destruct (_ <=? count_signs false signs) eqn:Hno].
  - revert Hr. apply concludes_Ok. apply (concludes_status pid p); [done|]. intros _.
    by apply Hfin; first [done|intros _; lia].
  - revert Hr. apply concludes_Ok. apply (concludes_status pid p); [done|]. intros _.
    by apply Hfin; first [done|by apply not_rejected_passed|intros _; lia].
  - injection Hr as <-. apply (turn_back pid p); [done|]. intros _.
    replace p with (set_status STATUS_VOTING p) by (rewrite <- Hst; by destruct p).
    by apply Hfin; first [done|by apply not_final_passed|intros _; lia].
Qed.

(** ** Timeouts *)

(** The checks every timeout starts with. *)
Lemma concludes_checks p st (m : RM W unit) s :
  (stage p = st -> status p = STATUS_VOTING -> concludes m s) ->
  concludes (ensure (bool_decide (stage p = st)) (VotingErr InvalidProposalStage) ;;
    ensure (bool_decide (status p = STATUS_VOTING)) (VotingErr ProposalAlreadyFinalized) ;;
    now ← gets block_number;
    ensure (is_expired now (end_block p)) (VotingErr VoteNotExpired) ;; m) s.
Proof.
  intros Hm. unfold concludes at 1.
  destruct (bool_decide (stage p = st)) eqn:H1; autorewrite with run; [|done].
  destruct (bool_decide (status p = STATUS_VOTING)) eqn:H2; autorewrite with run; [|done].
  destruct (is_expired _ _); autorewrite with run; [|done].
  apply bool_decide_eq_true in H1, H2. by apply Hm.
Qed.

Lemma concludes_representative_timeout pid p s :
  turn pid p s -> known pid s (leg_ok pid p s) ->
  concludes (do_finalize_representative_timeout p pid) s.
Proof.
  intros Ht Hk. apply concludes_checks. intros Hstg Hst.
  unfold concludes at 1. autorewrite with run.
  destruct (RepresentativeMetas (lv s) !! pid) as [m|] eqn:Hm; autorewrite with run; [|done].
  destruct (route_body _ _) as [r|] eqn:Hbody; autorewrite with run; [|done].
  destruct (subject_voters_len _ _ _) as [total|] eqn:Htotal; autorewrite with run; [|done].
  set (tally := default vote_count_zero _).
  assert (Hc : known pid s (leg_core pid m (ve s) (lv s) /\
    body_size pid m (current_body m) (ve s) = Some total /\
    yes tally = body_tickets pid (current_body m) true (lv s) /\
    no tally = body_tickets pid (current_body m) false (lv s))).
  { intros Hc. destruct (Hk Hc) as (m' & Hcore & _).
    assert (m' = m) as -> by (pose proof (lc_meta _ _ _ _ Hcore); congruence).
    assert (Hsize : body_size pid m (current_body m) (ve s) = Some total)
      by (unfold body_size; by rewrite Hbody).
    pose proof (votes_within Hmax pid m _ _ _ total Hcore Hsize) as (? & ? & ? & ?).
    destruct (lc_tallies _ _ _ _ Hcore (current_body m)) as [Hy Hn].
    change (yes tally = Z.min u32_max (body_tickets pid (current_body m) true (lv s))) in Hy.
    change (no tally = Z.min u32_max (body_tickets pid (current_body m) false (lv s))) in Hn.
    split_and!; try done; lia. }
  destruct (representative_final_passed _ _ _ _) eqn:Hf.
  - apply (concludes_body_passed pid p m); [done..|]. intros Hcl.
    destruct (Hc Hcl) as (? & ? & Hy & Hn). split; [done|]. exists total. by rewrite <- Hy, <- Hn.
  - apply (concludes_body_rejected pid p m); [done..|]. intros Hcl.
    destruct (Hc Hcl) as (? & Hsz & Hy & Hn). split; [done|]. intros (n & Hn' & Hp).
    assert (n = total) as -> by congruence. by rewrite <- Hy, <- Hn, Hf in Hp.
Qed.

(** The law of a proposal beyond the bodies. *)
Lemma known_law pid p s st meta :
  known pid s (leg_ok pid p s) -> stage p = st -> st <> STAGE_LEG_REPRESENTATIVE ->
  LegislationMetas (lv s) !! pid = Some meta -> status p = STATUS_VOTING ->
  exists m, known pid s (leg_core pid m (ve s) (lv s) /\ all_passed pid m (ve s) (lv s) /\
    law_outcome pid st STATUS_VOTING (meta_rule m) meta (ve s) (lv s)).
Proof.
  intros Hk Hstg Hne Hl Hst.
  destruct (PendingProposalCleanups (ve s) !! pid) eqn:Hc.
  { exists {| meta_route := Sequential []; current_body := 0; meta_rule := RegularRule;
      meta_procedure := RepresentativeOnly |}. intros Hn. congruence. }
  destruct (Hk Hc) as (m & Hcore & [_ _ _ Ho]). exists m. intros _.
  destruct Ho as (Ha & l & Hl' & Hlo); [by rewrite Hstg|].
  assert (l = meta) as -> by congruence. by rewrite Hstg, Hst in Hlo.
Qed.

Lemma concludes_referendum_timeout pid p s :
  turn pid p s -> known pid s (leg_ok pid p s) ->
  concludes (do_finalize_referendum_timeout p pid) s.
Proof.
  intros Ht Hk. apply concludes_checks. intros Hstg Hst.
  unfold concludes at 1. autorewrite with run.
  set (tally := default vote_count_zero _).
  destruct (population_eligible_total_of _ _) as [total|] eqn:Htotal; autorewrite with run; [|done].
  assert (Hc : known pid s (exists m, leg_core pid m (ve s) (lv s) /\ meta_rule m = SpecialRule /\
    (referendum_accepted pid (ve s) (lv s) <->
      referendum_passed total (yes tally) (no tally) = true))).
  { intros Hc. destruct (Hk Hc) as (m & Hcore & [_ _ _ Ho]). exists m.
    destruct (Ho ltac:(by rewrite Hstg)) as (_ & l & _ & [O1 _ _ _]).
    destruct (O1 Hstg) as (Hsp & _). split_and!; [done..|].
    destruct (lc_population _ _ _ _ Hcore Hsp) as (n & Hn & Hpos & Hle).
    assert (n = total) as -> by congruence.
    destruct (lc_referendum _ _ _ _ Hcore) as [Hy Hno].
    pose proof (referendum_votes_nonneg pid true (lv s)).
    pose proof (referendum_votes_nonneg pid false (lv s)).
    change (yes tally = Z.min u64_max (referendum_votes pid true (lv s))) in Hy.
    change (no tally = Z.min u64_max (referendum_votes pid false (lv s))) in Hno.
    rewrite Hy, Hno, !Z.min_r by lia. unfold referendum_accepted. rewrite Htotal. naive_solver. }
  destruct (referendum_passed _ _ _) eqn:Hf.
  - autorewrite with run.
    destruct (LegislationMetas (lv s) !! pid) as [meta|] eqn:Hl; autorewrite with run; [|done].
    destruct (known_law pid p s STAGE_LEG_REFERENDUM meta Hk Hstg ltac:(done) Hl Hst) as (m & Hm).
    apply (concludes_finalize pid p m meta); [done|done|by rewrite Hstg..|]. intros Hcl.
    destruct (Hm Hcl) as (Hcore & Ha & [O1 _ _ _]). destruct (O1 eq_refl) as (Hsp & _).
    destruct (Hc Hcl) as (_ & _ & _ & Hacc). split_and!; [done..| |].
    + intros _. by apply Hacc.
    + intros Hg. rewrite Hstg. split; intros Hs0; try done. split_and!; [done| |done].
      intros _. split; [done|by apply Hacc].
  - apply (concludes_status pid p); [done|]. intros Hcl. apply HK; [by destruct Ht|].
    destruct (Hk Hcl) as (m & Hcore & [_ _ _ Ho]). exists m. split; [done|]. simpl. rewrite Hstg.
    destruct (Ho ltac:(by rewrite Hstg)) as (Ha & l & Hl & [O1 _ _ _]).
    split; try done. intros _. split; [done|]. exists l. split; [done|].
    destruct (O1 Hstg) as (Hsp & _). destruct (Hc Hcl) as (_ & _ & _ & Hacc).
    split; intros Hs0; try done. split_and!; [done|auto|]. intros _ H. by apply Hacc in H.
Qed.

Lemma concludes_sign_timeout pid p s :
  turn pid p s -> known pid s (leg_ok pid p s) -> concludes (do_finalize_sign_timeout p pid) s.
Proof.
  intros Ht Hk. apply concludes_checks. intros Hstg Hst.
  unfold concludes at 1. autorewrite with run.
  destruct (LegislationMetas (lv s) !! pid) as [meta|] eqn:Hl; autorewrite with run; [|done].
  destruct (known_law pid p s STAGE_LEG_SIGN meta Hk Hstg ltac:(done) Hl Hst) as (m & Hm).
  destruct (negb _).
  - apply (concludes_override pid p m); [done..|]. intros Hcl.
    destruct (Hm Hcl) as (Hcore & Ha & [_ O2 _ _]). destruct (O2 eq_refl) as [Hr _].
    by split_and!.
  - apply (concludes_finalize pid p m meta); [done|done|by rewrite Hstg..|]. intros Hcl.
    destruct (Hm Hcl) as (Hcore & Ha & [_ O2 _ _]). destruct (O2 eq_refl) as [Hr _].
    split_and!; try done. intros Hg. rewrite Hstg. by split; intros Hs0.
Qed.

(** The joint signatures and the guards have run out of time. *)
Lemma concludes_expired pid p st s :
  turn pid p s -> known pid s (leg_ok pid p s) ->
  st = STAGE_LEG_OVERRIDE \/ st = STAGE_LEG_CONSTITUTION_GUARD ->
  stage p = st -> status p = STATUS_VOTING ->
  concludes (set_status_and_emit pid STATUS_REJECTED) s.
Proof.
  intros Ht Hk Hor Hstg Hst. apply (concludes_status pid p); [done|]. intros Hcl.
  apply HK; [by destruct Ht|]. destruct (Hk Hcl) as (m & Hcore & [_ _ _ Ho]). exists m.
  split; [done|]. simpl. destruct Ho as (Ha & l & Hl & [_ _ O3 O4]).
  { rewrite Hstg. by destruct Hor as [->| ->]. }
  split; try (intros Hx; rewrite Hstg in Hx; by destruct Hor; subst).
  intros _. split; [done|]. exists l. split; [done|].
  split; intros Hs0; try (rewrite Hstg in Hs0; by destruct Hor; subst).
  - destruct (O3 Hs0) as (? & _ & _). split_and!; [done|done|auto].
  - destruct (O4 Hs0) as (? & ? & Hop & _ & _). destruct (Hop Hst).
    split_and!; [done|done|done|auto|done].
Qed.

Lemma settled_legislation_finalize p pid s :
  Proposals (ve s) !! pid = Some p -> settled K s ->
  settled K (legislation_finalize_timeout p pid s).2.
Proof.
  intros Hp Hs. unfold legislation_finalize_timeout, legislation_handles.
  destruct (bool_decide (kind p = _)) eqn:Hk; [|done]. apply bool_decide_eq_true in Hk.
  destruct (turn_settled pid p s Hp Hk Hs) as [Ht Hok].
  rewrite sbind_run. cbn [mret St_ret fst snd].
  repeat (case_decide; [apply concludes_keeps; [|done]|]); [..|done].
  - by apply concludes_representative_timeout.
  - by apply concludes_referendum_timeout.
  - by apply concludes_sign_timeout.
  - apply concludes_checks. intros. by apply (concludes_expired pid p STAGE_LEG_OVERRIDE); [..|left| |].
  - apply concludes_checks. intros.
    by apply (concludes_expired pid p STAGE_LEG_CONSTITUTION_GUARD); [..|right| |].
Qed.
End LegStages.

(** ** Creation *)

Lemma validate_route_Ok route x :
  validate_representative_route route = Ok x ->
  NoDup (route_bodies route) /\ 0 < Z.of_nat (route_len route) <= MAX_REPRESENTATIVE_BODIES.
Proof.
  unfold validate_representative_route. intros Hr.
  destruct (route_bodies route) as [|r rest] eqn:Hb; [done|].
  assert (Hlen : exists u, (match route with
    | Single _ => Ok tt
    | Sequential sequence => guard_ok ((2 <=? Z.of_nat (length sequence))
        && (Z.of_nat (length sequence) <=? MAX_REPRESENTATIVE_BODIES))
        (LegErr InvalidRepresentativeRoute)
    end : result DispatchError unit) = Ok u /\ NoDup (r :: rest)).
  { destruct (match route with Single _ => _ | Sequential _ => _ end) as [u|er]; [|done].
    exists u. split; [done|]. unfold guard_ok in Hr. simpl in Hr.
    destruct (no_repeats (r :: rest)) eqn:Hnr; [by apply no_repeats_spec|].
    simpl in Hnr. by rewrite Hnr in Hr. }
  destruct Hlen as (u & Hlen & Hnd). split; [done|]. unfold route_len.
  destruct route as [b|bs]; [simpl; unfold MAX_REPRESENTATIVE_BODIES; lia|].
  unfold guard_ok in Hlen. destruct (_ && _) eqn:Hbounds; [|done].
  simpl in *. lia.
Qed.

Section LegCreation.
Context `{Wt : Weights} `{Cfg : !Config} `{LCfg : !LegislationConfig} `{Ord : StorageOrder}
  {W : Type} `{Prov : !Providers W} `{Cb : !Callbacks W} `{Tr : !ProposalTracks W}
  `{CbL : !CallbackLaws Cb} `{TrL : !TrackLaws Tr}
  `{CbP : !PrivateCallbacks Cb} `{TrB : !TrackBallots Tr}.
Context `{Wal : Wallets}.
Context (K : Z -> Proposal -> rt W -> Prop) `{KL : !TrackInvariant K}.
Hypothesis HK : forall pid p s, kind p = PROPOSAL_KIND_LEGISLATION -> K pid p s <-> leg_ok pid p s.
Hypothesis Hmax : MaxAdminsPerInstitution <= u32_max.
Implicit Types s : rt W.

(** What the checks of [do_create_representative_proposal] establish. *)
Record leg_request (p : Proposal) (m : RepresentativeMeta) (law : option LegislationMeta)
    (scope : option PopulationScope) (plan : VotePlan) : Prop := {
  lr_kind : kind p = PROPOSAL_KIND_LEGISLATION;
  lr_stage : stage p = STAGE_LEG_REPRESENTATIVE;
  lr_status : status p = STATUS_VOTING;
  lr_first : current_body m = 0;
  lr_distinct : NoDup (route_bodies (meta_route m));
  lr_length : 0 < route_length m <= MAX_REPRESENTATIVE_BODIES;
  lr_rule : meta_procedure m = RepresentativeOnly -> meta_rule m <> SpecialRule;
  lr_law : meta_procedure m = LegislationProcedure -> is_Some law;
  lr_scope : meta_rule m = SpecialRule -> is_Some scope;
  lr_bodies : forall r, r ∈ route_bodies (meta_route m) -> Institution r ∈ voter_subjects plan;
}.

Lemma route_body_elem route i r : route_body route i = Some r -> r ∈ route_bodies route.
Proof.
  unfold route_body. destruct route; simpl.
  - case_decide; [|done]. intros [= ->]. by left.
  - intros Hr. apply list_elem_of_lookup. eauto.
Qed.

Lemma created_leg_ok id p m law scope plan s :
  leg_request p m law scope plan -> blank id s -> frozen_wf id (ve s) ->
  RepresentativeMetas (lv s) !! id = Some m ->
  (is_Some law -> is_Some (LegislationMetas (lv s) !! id)) ->
  (forall r, Institution r ∈ voter_subjects plan -> is_Some (VoterSnapshot (ve s) !! (id, Institution r))) ->
  (is_Some scope -> exists total, population_eligible_total_of (ve s) id = Some total /\
    0 < total <= u64_max) ->
  leg_ok id p s.
Proof.
  intros [R1 R2 R3 R4 R5 R6 R7 R8 R9 R10] Hb Hf Hm Hl Hv Hp.
  pose proof (bl_legislation _ _ Hb) as [B1 B2 B3 B4 B5 B6].
  assert (Hz : forall i b, body_tickets id i b (lv s) = 0) by (intros; by apply body_tickets_blank).
  assert (Hr : forall b, referendum_votes id b (lv s) = 0).
  { intros b. apply vote_sum_blank. intros k. by rewrite lookup_fmap, B4. }
  assert (Hvot : forall i r, route_body (meta_route m) i = Some r ->
    is_Some (VoterSnapshot (ve s) !! (id, Institution r))).
  { intros i r Hi. by eapply Hv, R10, route_body_elem. }
  assert (Hcore : leg_core id m (ve s) (lv s)).
  { split; try done; auto.
    - rewrite R4. lia.
    - lia.
    - intros i t v. by rewrite B2.
    - intros i. rewrite !Hz, B1. by apply tallies_zero.
    - intros i Hi. lia.
    - rewrite !Hr, B3. by apply tallies_zero.
    - intros Hs. destruct (Hp (R9 Hs)) as (total & ? & ?). exists total. rewrite !Hr. split_and!; [done|lia..].
    - unfold signatures. rewrite B5. simpl. split; constructor.
    - unfold reviews. rewrite B6. simpl. constructor.
    - unfold signatures. rewrite B5. simpl. by intros x ?%elem_of_nil.
    - unfold reviews. rewrite B6. simpl. by intros x ?%elem_of_nil. }
  exists m. split; [done|]. rewrite R2, R3. split; [|by intros _ [|[|]]|done|done].
  intros _ _. rewrite R4. destruct (route_body (meta_route m) 0) as [r|] eqn:Hr0.
  - destruct (body_size_pos Hmax id m 0 (ve s) (lv s) r Hcore Hr0) as (total & Ht & Hpos).
    exists total. split; [done|]. rewrite !Hz. by apply decided_fresh.
  - exfalso. unfold route_length, route_len in R6. unfold route_body in Hr0.
    destruct (meta_route m) as [|[|]]; simpl in *; first [done|lia].
Qed.

(** The voters of every role of the plan are frozen. *)
Lemma legislation_voters_Ok id meta plan s u s' :
  snapshot_legislation_voters id meta plan s = (Ok u, s') ->
  lv s' = lv s /\
  forall r, Institution r ∈ voter_subjects plan ->
    is_Some (VoterSnapshot (ve s') !! (id, Institution r)).
Proof.
  unfold snapshot_legislation_voters. generalize (voter_subjects plan) as l. clear plan.
  set (f := fun subject : AuthorizationSubject => _).
  assert (Hf : forall x s u s', f x s = (Ok u, s') -> exists r l, x = Institution r /\
    lv s' = lv s /\ VoterSnapshot (ve s') = <[(id, x) := l]> (VoterSnapshot (ve s))).
  { intros x s1 [] s2. unfold f. destruct x as [r|a]; [|by intros ?; run_inv]. intros Hr. run_inv.
    match goal with H : snapshot_role_voters _ _ _ ?y = _ |- _ =>
      apply snapshot_role_voters_Ok in H as (r' & [= <-] & _ & _ & _ & _ & ->);
      assert (Hy : y = s1) by (match goal with H : _ s1 = (Ok _, y) |- _ => revert H end;
        case_match; intros; by run_inv) end.
    rewrite Hy. simpl. eauto. }
  intros l. revert s. induction l as [|x l IH]; intros s; cbn [for_each]; intros Hr; run_inv.
  { split; [done|]. by intros r ?%elem_of_nil. }
  match goal with H : f x s = (Ok ?u, ?y) |- _ => apply Hf in H as (r & lx & -> & Hlv & Hvs);
    rename y into s1 end.
  match goal with H : for_each f l s1 = _ |- _ => rename H into Hrest end.
  assert (Hkeep : forall l s1 s2 u k, for_each f l s1 = (Ok u, s2) ->
    is_Some (VoterSnapshot (ve s1) !! k) -> is_Some (VoterSnapshot (ve s2) !! k)).
  { clear -Hf. intros l. induction l as [|x l IH]; intros s1 s2 u k; cbn [for_each]; intros H; run_inv;
      [done|]. intros Hk. match goal with H : for_each f l _ = _ |- _ => eapply IH; [exact H|] end.
    match goal with H : f x s1 = _ |- _ => apply Hf in H as (r & lx & _ & _ & ->) end.
    apply lookup_insert_is_Some'. by right. }
  destruct (IH _ Hrest) as [Hlv' Hin]. split; [congruence|].
  intros r' [[= ->]|Hr]%elem_of_cons; [|by apply Hin].
  eapply Hkeep; [exact Hrest|]. rewrite Hvs. by rewrite lookup_insert_eq.
Qed.

Lemma growing_lv id s f :
  (forall q, q <> id -> same_legislation q (lv s) (f (lv s))) ->
  (blank_legislation id (lv s) -> blank_legislation id (f (lv s))) ->
  growing K id s -> growing K id (set_lv f s).
Proof.
  intros Hq Hb. apply (growing_stores K); [done| |].
  - intros q Hne. split; try done. by apply Hq.
  - intros []. split; try done. by apply Hb.
Qed.

Lemma growing_legislation_voters id meta plan :
  preserves (growing K id) (snapshot_legislation_voters id meta plan : RM W unit).
Proof.
  unfold snapshot_legislation_voters. apply preserves_for_each. intros []; [|apply preserves_throw].
  apply preserves_bind; [apply preserves_gets|intros voters].
  apply preserves_bind; [case_match; [apply preserves_ensure|apply preserves_ret]|intros _].
  by apply growing_role_voters.
Qed.

Section Started.
Context (s0 : rt W) (Hi : engine_inv s0) (Hc : clock_ok s0).
(** [eligible_total] is a [u64]. *)
Hypothesis Hpop : forall w sc d, population_data_of w sc = Some d ->
  0 <= eligible_total d <= u64_max.

(** The metadata are written. *)
Lemma write_metas id m law s u s' :
  (upd_lv (set_RepresentativeMetas (insert id m)) ;;
   match law with
   | Some l => upd_lv (set_LegislationMetas (insert id l))
   | None => mret tt
   end) s = (Ok u, s') -> growing K id s ->
  growing K id s' /\ ve s' = ve s /\ RepresentativeMetas (lv s') !! id = Some m /\
  (is_Some law -> is_Some (LegislationMetas (lv s') !! id)).
Proof.
  unfold upd_lv. rewrite bind_modify. intros Hr Hg.
  assert (Hg1 : growing K id (set_lv (set_RepresentativeMetas (insert id m)) s)).
  { apply growing_lv; [|by intros []; split|done].
    intros q Hq. split; try done. simpl. by rewrite lookup_insert_ne. }
  destruct law as [l|]; run_inv.
  - split_and!; [|done|by simpl; rewrite lookup_insert_eq|].
    + apply growing_lv; [|by intros []; split|done].
      intros q Hq. split; try done. simpl. by rewrite lookup_insert_ne.
    + intros _. simpl. rewrite lookup_insert_eq. by eexists.
  - split_and!; [done|done|by simpl; rewrite lookup_insert_eq|by intros [? ?]].
Qed.

(** The population of a referendum is frozen. *)
Lemma write_population id scope s u s' :
  match scope with
  | Some scope =>
      total ← create_population_snapshot id scope;
      ensure (negb (bool_decide (total = 0))) (LegErr LegCitizenEligibleTotalNotSet)
  | None => mret tt
  end s = (Ok u, s') -> growing K id s ->
  growing K id s' /\ lv s' = lv s /\ Proposals (ve s') = Proposals (ve s) /\
  VoterSnapshot (ve s') = VoterSnapshot (ve s) /\
  (is_Some scope -> exists total, population_eligible_total_of (ve s') id = Some total /\
    0 < total <= u64_max).
Proof.
  intros Hr Hg. destruct scope as [sc|]; [|run_inv; split_and!; [done..|by intros [? ?]]].
  unfold create_population_snapshot, upd in Hr. run_inv.
  match goal with H : population_data_of _ _ = Some ?x |- _ => rename x into d, H into Hd end.
  split_and!; [|done..|].
  - apply (growing_own K); [|done|done|by intros []|done].
    intros q Hq. split; [done|]. split; intros; simpl; try done. by rewrite lookup_insert_ne.
  - intros _. unfold population_eligible_total_of. simpl. rewrite lookup_insert_eq. simpl.
    eexists. split; [done|]. pose proof (Hpop _ _ _ Hd). lia.
Qed.

Lemma settled_store_representative p m law scope plan :
  leg_request p m law scope plan ->
  holds (both K s0) (store_representative p m law scope plan) (fun _ => settled K).
Proof.
  intros Hrq. unfold store_representative.
  eapply holds_bind; [by apply holds_lock_growing|]. intros id. cbn beta.
  intros s i s' Hg Hr.
  apply bind_Ok in Hr as (u1 & s1 & Hvot & Hr).
  pose proof (growing_legislation_voters id law plan s Hg) as Hg1. rewrite Hvot in Hg1. simpl in Hg1.
  apply legislation_voters_Ok in Hvot as [_ Hvoters].
  rewrite <- bind_assoc in Hr. apply bind_Ok in Hr as (u2 & s2 & Hmetas & Hr).
  destruct (write_metas id m law s1 u2 s2 Hmetas Hg1) as (Hg2 & Hve2 & Hm2 & Hl2).
  unfold upd at 1 in Hr. rewrite bind_modify in Hr.
  pose proof (growing_insert K id p s2 Hg2) as Hg3. set (s3 := set_ve _ s2) in *.
  apply bind_Ok in Hr as (u4 & s4 & Hplan & Hr).
  pose proof (growing_bind_plan K id plan s3 Hg3) as Hg4. rewrite Hplan in Hg4. simpl in Hg4.
  assert (H4 : lv s4 = lv s2 /\ Proposals (ve s4) !! id = Some p /\
    VoterSnapshot (ve s4) = VoterSnapshot (ve s1)).
  { unfold bind_vote_plan, upd in Hplan. run_inv. simpl. rewrite lookup_insert_eq, Hve2. done. }
  destruct H4 as (Hlv4 & Hp4 & Hvs4).
  apply bind_Ok in Hr as (u5 & s5 & Hpopu & Hr).
  destruct (write_population id scope s4 u5 s5 Hpopu Hg4) as (Hg5 & Hlv5 & Hp5 & Hvs5 & Hpop5).
  assert (Hs5 : settled K s5).
  { apply (growing_settled K id); [done|]. intros p' Hp'. rewrite Hp5 in Hp'.
    assert (p' = p) as -> by congruence. apply HK; [by destruct Hrq|].
    apply (created_leg_ok id p m law scope plan); try done; try (by destruct Hg5);
      rewrite ?Hlv5, ?Hlv4; try done. by rewrite Hvs5, Hvs4. }
  revert Hr. apply (holds_preserves (settled K)); [|done].
  unfold emit_proposal_created. pose proof (settled_schedule_expiry K).
  clear - KL H. solve_good.
Qed.

Lemma settled_representative_proposal who cid plan route rule proc subs law :
  holds (both K s0) (do_create_representative_proposal who cid plan route rule proc subs law)
    (fun _ => settled K).
Proof.
  intros s i s' Hs Hr. unfold do_create_representative_proposal in Hr. run_inv.
  match goal with H : validate_representative_route route = Ok ?x |- _ => destruct x as [code body] end.
  run_inv.
  match goal with H : _ s = (Ok ?r, ?y) |- _ =>
    assert (y = s) as -> by (destruct (proposer_subject plan); by run_inv); clear H end.
  run_inv.
  match goal with H : validate_representative_route route = _ |- _ =>
    apply validate_route_Ok in H as [Hnd Hlen] end.
  match goal with H : store_representative _ _ _ _ _ _ = _ |- _ => revert H end.
  apply settled_store_representative; [|done]. split; try done.
  - intros Hp Hsp. naive_solver.
  - intros Hp. match goal with H : Bool.eqb _ _ = true |- _ => apply Bool.eqb_prop in H;
      simpl in Hp; rewrite Hp, bool_decide_true in H by done; symmetry in H;
      by apply bool_decide_eq_true in H end.
  - simpl. intros ->. match goal with H : (if decide _ then _ else _) = Ok _ |- _ =>
      rewrite decide_True in H by done; destruct (population_scope_for_actor _ _); [|done];
      injection H as <- end. by eexists.
  - simpl. intros r Hr. match goal with H : forallb _ (expected_voters _ _) = true |- _ =>
      rewrite forallb_forall in H; specialize (H (Institution r)); rewrite bool_decide_eq_true in H;
      apply H end.
    apply list_elem_of_In, list_elem_of_fmap. exists r. split; [done|]. apply elem_of_app. by left.
Qed.

Lemma settled_vote_as_proposer who id body :
  holds (fun s => engine_inv s /\ settled K s) (vote_as_proposer who id body) (fun _ => settled K).
Proof.
  unfold vote_as_proposer. apply holds_keep; [apply preserves_gets|intros voter].
  eapply (holds_bind _ _ _ (fun _ => settled K)).
  - destruct voter; [by apply holds_representative_vote|].
    apply holds_ret. by intros s [_ ?].
  - intros []. by apply holds_ret.
Qed.

(** What follows the proposal: its data, perhaps its text, the first vote. *)
Lemma settled_with_data (m : RM W Z) (rest : Z -> RM W unit) who body tag data :
  holds (good s0) m (fun _ => good s0) -> holds (both K s0) m (fun _ => settled K) ->
  (forall id, preserves (good s0) (rest id)) -> (forall id, preserves (settled K) (rest id)) ->
  holds (both K s0) (id ← m; now ← gets block_number; register_proposal_data id tag data now ;;
    rest id ;; vote_as_proposer who id body) (fun _ => settled K).
Proof.
  intros Hg Hk Hrg Hrk. eapply holds_bind; [by apply holds_both|]. intros id. cbn beta.
  apply holds_keep; [apply preserves_gets|intros now].
  eapply holds_bind; [apply (holds_both K s0 (register_proposal_data _ _ _ _))|].
  { apply holds_register. }
  { apply (holds_weaken (settled K)); [by intros s [_ ?]|]. apply holds_preserves.
    by apply settled_register. }
  intros []. cbn beta. apply holds_keep; [intros s [H1 H2]; split; [by apply Hrg|by apply Hrk]|intros _].
  eapply holds_weaken; [|apply settled_vote_as_proposer]. intros s [Hgs Hs]. split; [apply Hgs|done].
Qed.

Lemma settled_create_representative who cid plan route rule subs tag data :
  holds (both K s0) (create_representative_vote who cid plan route rule subs tag data)
    (fun _ => settled K).
Proof.
  unfold create_representative_vote. apply holds_keep; [apply preserves_from_result|intros [code body]].
  apply holds_transact.
  pose proof (settled_with_data (do_create_representative_proposal who cid plan route rule
    RepresentativeOnly subs None) (fun _ => mret tt) who body tag data) as H.
  apply H; [by apply holds_create_representative|apply settled_representative_proposal|..];
    intros; apply preserves_ret.
Qed.

Lemma settled_create_legislation who cid plan route rule proc tag data obj :
  holds (both K s0) (create_legislation_vote who cid plan route rule proc tag data obj)
    (fun _ => settled K).
Proof.
  unfold create_legislation_vote. apply holds_keep; [apply preserves_from_result|intros [code body]].
  apply holds_transact.
  apply (settled_with_data (do_create_representative_proposal who cid plan route rule
    LegislationProcedure [] _) (fun id => store_proposal_object id PROPOSAL_OBJECT_KIND_LAW_TEXT obj));
    [by apply holds_create_representative|apply settled_representative_proposal|..]; intros.
  - apply good_store_object.
  - by apply settled_store_object.
Qed.
End Started.
End LegCreation.

(** ** The hooks of the track *)

Section LegHooks.
Context `{Wt : Weights} `{Cfg : !Config} `{LCfg : !LegislationConfig} `{Ord : StorageOrder} {W : Type}.

Lemma legislation_chunk_ballots pid limit q s :
  q <> pid -> same_ballots q s (legislation_cleanup_chunk pid limit s : _ * rt W).2.
Proof.
  intros Hq. revert s.
  assert (H1 : forall l s, same_ballots q s (cleanup_representative_votes_chunk pid l s : _ * rt W).2).
  { intros l s. unfold cleanup_representative_votes_chunk.
    pose proof (fun k => clear_prefix_other pid l q k (RepresentativeVotesByTicket (lv s)) Hq) as Ho.
    destruct (clear_prefix _ _ _). by repeat split. }
  assert (H2 : forall l s, same_ballots q s (cleanup_leg_referendum_votes_chunk pid l s : _ * rt W).2).
  { intros l s. unfold cleanup_leg_referendum_votes_chunk.
    pose proof (fun k => clear_prefix_other pid l q k (LegReferendumVotesByCid (lv s)) Hq) as Ho.
    destruct (clear_prefix _ _ _). by repeat split. }
  unfold legislation_cleanup_chunk. apply same_ballots_sbind; [apply H1|intros [? ?]].
  case_match; [done|]. apply same_ballots_sbind; [apply H2|by intros [? ?]].
Qed.

Lemma legislation_track_ballots : track_ballots (legislation_track : TrackHandler W).
Proof.
  split; intros *; simpl; [done|done|intros Hq|intros Hq]; apply same_ballots_when; intros s1.
  - by apply legislation_chunk_ballots.
  - pose proof (fun k => clear_prefix_other pid MAX_REPRESENTATIVE_BODIES q k
      (RepresentativeTallies (lv s1)) Hq) as Ho.
    split; try done. split; intros; simpl; try done; by rewrite lookup_delete_ne.
Qed.
End LegHooks.
