(* ===== verification/Chain.v ===== *)
(** * The chain

    The tracks the runtime registers ([runtime/src/configs.rs]: internal
    votes, joint votes, votes of the legislature and elections), the calls a block can hold, and the steps of the chain: a new
    block (whose hook runs the engine's queues), the block's time, a call, and
    whatever the other pallets do to their own storage or log as events. *)
From S2P Require Import Prelude CidNumber.
From S2P Require Import Cid Types TrackTypes State Interfaces Runtime Ids Locks Data.
From S2P Require Import Cleanup Lifecycle Execution Expiry Maintenance Engine Invariant.
From S2P Require Import Safety Clients InternalVote InternalSafety JointVote.
From S2P Require Import JointSafety ElectionVote ElectionSafety.
From S2P Require Import LegislationVote LegislationSafety.

Section Chain.
Context `{Wt : Weights} `{Cfg : !Config} `{ECfg : !ElectionConfig} `{LCfg : !LegislationConfig}
  `{Ord : StorageOrder} {W : Type} `{Prov : !Providers W} `{Cb : !Callbacks W}.

#[local] Instance TrackHandlers : ProposalTracks W :=
  tracks_cons internal_track (tracks_cons joint_track
    (tracks_cons legislation_track (tracks_cons election_track tracks_unit))).

(** [finalize_timeout] of the tuple. *)
Definition timeout_unit : FinalizeTimeout W := fun _ _ => mret None.
Definition timeout_cons (head tail : FinalizeTimeout W) : FinalizeTimeout W :=
  fun proposal proposal_id => or_else (head proposal proposal_id) (tail proposal proposal_id).

#[local] Instance tracks_finalize_timeout : FinalizeTimeout W :=
  timeout_cons internal_finalize_timeout (timeout_cons joint_finalize_timeout
    (timeout_cons legislation_finalize_timeout (timeout_cons election_finalize_timeout timeout_unit))).

(** ** Calls *)

Inductive call : Type :=
| Cast (who : AccountId) (pid : Z) (claim : InternalVoteTicketClaim) (approve : bool)
| CastAdmin (who : AccountId) (pid : Z) (cid : CidNumber) (role : RoleCode) (approve : bool)
| CastReferendum (who : AccountId) (pid : Z) (approve : bool)
| FinalizeProposal (who : AccountId) (pid : Z)
| RetryPassedProposal (who : AccountId) (pid : Z)
| CancelPassedProposal (who : AccountId) (pid : Z) (reason : string)
| CreateInstitution (who : AccountId) (code : InstitutionCode) (cid : string)
    (account : option AccountId) (subjects : list string) (plan : VotePlan) (data : string)
| CreateInstitutionAdminChange (who : AccountId) (code : InstitutionCode) (cid : string)
    (plan : VotePlan) (data : string)
| CreatePersonal (who account : AccountId) (tag data : string)
| CreatePersonalLifecycle (who account : AccountId) (tag data : string)
| CreatePersonalAccount (who account : AccountId) (admins : list AccountId) (threshold : Z)
    (tag data : string)
| CreatePersonalAdminChange (who account : AccountId) (len threshold : Z) (tag data : string)
| CreateJoint (who : AccountId) (cid : string) (plan : VotePlan) (data : string)
| CreateJointWithObject (who : AccountId) (cid : string) (plan : VotePlan) (data : string)
    (object_kind : Z) (object_data : string)
| CastPopular (who : AccountId) (pid : Z) (candidate : CitizenSubject)
| CastMutual (who : AccountId) (pid : Z) (role : RoleCode) (candidate : CitizenSubject)
| CreatePopularElection (who : AccountId) (plan : VotePlan) (cid : CidNumber) (role : RoleCode)
    (seats start_day end_day : Z) (population : PopulationScope) (candidates : list CitizenSubject)
| CreateMutualElection (who : AccountId) (plan : VotePlan) (cid : CidNumber) (role : RoleCode)
    (seats start_day end_day : Z) (candidates : list CitizenSubject)
| CastRepresentative (who : AccountId) (pid : Z) (role : RoleCode) (approve : bool)
| CastLegislationReferendum (who : AccountId) (pid : Z) (approve : bool)
| ExecutiveSign (who : AccountId) (pid : Z) (approve : bool)
| OverrideSign (who : AccountId) (pid : Z) (approve : bool)
| GuardVote (who : AccountId) (pid : Z) (approve : bool)
| CreateRepresentative (who : AccountId) (cid : CidNumber) (plan : VotePlan)
    (route : RepresentativeRoute) (rule : RepresentativeVoteRule) (subjects : list CidNumber)
    (tag data : string)
| CreateLegislation (who : AccountId) (cid : CidNumber) (plan : VotePlan)
    (route : RepresentativeRoute) (rule : RepresentativeVoteRule)
    (procedure : LegislationProcedureConfig) (tag data object_data : string).

Definition run_call (c : call) : RM W unit :=
  match c with
  | Cast who pid claim approve => internal_cast who pid claim approve
  | CastAdmin who pid cid role approve => do_joint_vote who pid cid role approve
  | CastReferendum who pid approve => do_jointreferendum_vote who pid approve
  | FinalizeProposal who pid => finalize_proposal who pid
  | RetryPassedProposal who pid => retry_passed_proposal who pid
  | CancelPassedProposal who pid reason => cancel_passed_proposal who pid reason
  | CreateInstitution who code cid account subjects plan data =>
      create_institution_proposal_with_data who code cid account subjects plan data ;; mret tt
  | CreateInstitutionAdminChange who code cid plan data =>
      create_institution_admin_change_proposal_with_data who code cid plan data ;; mret tt
  | CreatePersonal who account tag data =>
      create_personal_proposal_with_data who account tag data ;; mret tt
  | CreatePersonalLifecycle who account tag data =>
      create_personal_lifecycle_proposal_with_data who account tag data ;; mret tt
  | CreatePersonalAccount who account admins threshold tag data =>
      create_personal_account_create_proposal_with_data who account admins threshold tag data ;;
      mret tt
  | CreatePersonalAdminChange who account len threshold tag data =>
      create_personal_admin_change_proposal_with_data who account len threshold tag data ;;
      mret tt
  | CreateJoint who cid plan data => create_joint_proposal_with_data who cid plan data ;; mret tt
  | CreateJointWithObject who cid plan data object_kind object_data =>
      create_joint_proposal_with_data_and_object who cid plan data object_kind object_data ;;
      mret tt
  | CastPopular who pid candidate => do_cast_popular_vote who pid candidate
  | CastMutual who pid role candidate => do_cast_mutual_vote who pid role candidate
  | CreatePopularElection who plan cid role seats start_day end_day population candidates =>
      do_create_popular_election who plan cid role seats start_day end_day population candidates ;;
      mret tt
  | CreateMutualElection who plan cid role seats start_day end_day candidates =>
      do_create_mutual_election who plan cid role seats start_day end_day candidates ;; mret tt
  | CastRepresentative who pid role approve => do_cast_representative_vote who pid role approve
  | CastLegislationReferendum who pid approve => do_cast_referendum_vote who pid approve
  | ExecutiveSign who pid approve => do_executive_sign who pid approve
  | OverrideSign who pid approve => do_override_sign who pid approve
  | GuardVote who pid approve => do_guard_vote who pid approve
  | CreateRepresentative who cid plan route rule subjects tag data =>
      create_representative_vote who cid plan route rule subjects tag data ;; mret tt
  | CreateLegislation who cid plan route rule procedure tag data object_data =>
      create_legislation_vote who cid plan route rule procedure tag data object_data ;; mret tt
  end.

(** A call runs in a storage layer that an error discards. *)
Definition dispatch (c : call) : RM W unit := transact (run_call c).

(** ** Steps *)

Inductive step : rt W -> rt W -> Prop :=
| step_block n s :
    block_number s <= n ->
    step s (on_initialize n (set_block_number (fun _ => n) s)).2
| step_time ms s : now_ms s <= ms -> step s (set_now_ms (fun _ => ms) s)
| step_call c s : step s (dispatch c s).2
| step_world f s : step s (set_world f s)
| step_event e s : step s (deposit_event e s).

(** ** Laws of the parts *)

(** A handler that does not recognise a proposal does nothing. *)
Definition declines (f : FinalizeTimeout W) : Prop :=
  forall p pid s, (f p pid s).1 = None -> (f p pid s).2 = s.

Lemma timeout_cons_laws head tail :
  declines head -> TimeoutLaws head -> TimeoutLaws tail -> TimeoutLaws (timeout_cons head tail).
Proof.
  intros Hd Hh Ht s0 p pid s Hp Hs. unfold finalize_timeout, timeout_cons, or_else.
  rewrite sbind_run. pose proof (Hh s0 p pid s Hp Hs) as Hs1. pose proof (Hd p pid s) as Hn.
  unfold finalize_timeout in Hs1.
  destruct (head p pid s) as [[r|] s1]; simpl in *; [exact Hs1|]. rewrite Hn by done.
  by apply Ht.
Qed.

Lemma internal_declines : declines internal_finalize_timeout.
Proof.
  intros p pid s. unfold internal_finalize_timeout. destruct (internal_handles _); [|done].
  intros H. rewrite sbind_run in H. discriminate H.
Qed.
Lemma joint_declines : declines joint_finalize_timeout.
Proof.
  intros p pid s. unfold joint_finalize_timeout. destruct (joint_handles _); [|done].
  intros H. rewrite sbind_run in H. discriminate H.
Qed.
Lemma election_declines : declines election_finalize_timeout.
Proof.
  intros p pid s. unfold election_finalize_timeout. destruct (election_handles _); [|done].
  intros H. rewrite sbind_run in H. discriminate H.
Qed.
Lemma legislation_declines : declines legislation_finalize_timeout.
Proof.
  intros p pid s. unfold legislation_finalize_timeout.
  destruct (legislation_handles _); [|done]. intros H. rewrite sbind_run in H. discriminate H.
Qed.

Context {CbL : CallbackLaws Cb}.

#[local] Instance track_laws : TrackLaws TrackHandlers.
Proof.
  apply tracks_cons_laws; [apply internal_track_framed|].
  apply tracks_cons_laws; [apply joint_track_framed|].
  apply tracks_cons_laws; [apply legislation_track_framed|].
  apply tracks_cons_laws; [apply election_track_framed|apply tracks_unit_laws].
Qed.

#[local] Instance timeout_laws : TimeoutLaws tracks_finalize_timeout.
Proof.
  apply timeout_cons_laws; [apply internal_declines| |].
  { intros s0 p pid s Hp Hs. unfold finalize_timeout, internal_finalize_timeout.
    destruct (internal_handles (kind p)); [|done].
    rewrite sbind_run. cbn [fst snd mret St_ret]. case_match; [by apply good_internal_timeout|done]. }
  apply timeout_cons_laws; [apply joint_declines| |].
  { intros s0 p pid s. apply good_joint_finalize. }
  apply timeout_cons_laws; [apply legislation_declines| |].
  { intros s0 p pid s. apply good_legislation_finalize. }
  apply timeout_cons_laws; [apply election_declines| |].
  { intros s0 p pid s _. apply good_election_finalize. }
  by intros s0 p pid s _ Hs.
Qed.

(** ** Every step is safe *)

Record chain_inv (s : rt W) : Prop := {
  ci_engine : engine_inv s;
  ci_clock : clock_ok s;
  ci_time : 0 <= now_ms s;
}.

Lemma run_call_good s0 c :
  engine_inv s0 -> clock_ok s0 -> preserves (good s0) (run_call c).
Proof.
  intros Hi Hc. pose proof (good_create_institution s0 Hi Hc).
  pose proof (good_create_institution_admin_change s0 Hi Hc).
  pose proof (good_create_personal s0 Hi Hc).
  pose proof (good_create_personal_lifecycle s0 Hi Hc).
  pose proof (good_create_personal_account s0 Hi Hc).
  pose proof (good_create_personal_admin_change s0 Hi Hc).
  pose proof (good_create_joint s0 Hi Hc). pose proof (good_create_joint_object s0 Hi Hc).
  pose proof (good_create_election s0 Hi Hc).
  pose proof (good_create_representative s0 Hi Hc). pose proof (good_create_legislation s0 Hi Hc).
  destruct c; simpl; unfold do_create_popular_election, do_create_mutual_election;
    try (apply preserves_bind; [auto|intros; apply preserves_ret]);
    [apply good_internal_vote|apply good_joint_vote|apply good_referendum_vote
    |apply good_finalize_proposal|apply good_retry|apply good_cancel
    |apply good_election_vote|apply good_election_vote|apply good_representative_vote
    |apply good_leg_referendum_vote|apply good_executive_sign|apply good_override_sign
    |apply good_guard_vote].
Qed.

Lemma step_good s s' :
  chain_inv s -> step s s' -> chain_inv s' /\ evolves (ve s) (ve s').
Proof.
  intros Hs Hst. destruct Hst as [n s1 Hn|ms s1 Hms|c s1|f s1|e s1]; destruct Hs as [Hi Hc Ht].
  - pose proof (engine_inv_later _ n Hn Hi) as Hi1. set (s2 := set_block_number _ s1) in *.
    assert (Hc2 : clock_ok s2) by done.
    pose proof (good_on_initialize s2 s2 (good_refl s2 Hi1)) as Hg.
    change (block_number s2) with n in Hg.
    pose proof (clock_ok_good _ _ Hc2 Hg) as Hc3. destruct Hg as [(Hi3 & He & Hk & _) HJ].
    injection Hk as _ Hk. split; [split; [done..|by rewrite Hk]|exact He].
  - split; [|apply evolves_refl]. split; [by destruct Hi| |simpl; lia].
    intros y Hy. simpl in Hy.
    destruct (unix_seconds_to_year_mono (now_ms s1 / 1000) (ms / 1000) y) as (y0 & Hy0 & Hle);
      [split; [apply Z.div_pos; lia|apply Z.div_le_mono; lia]|done|].
    specialize (Hc y0 Hy0). simpl. lia.
  - unfold dispatch. pose proof (preserves_transact (good s1) (run_call c) (run_call_good s1 c Hi Hc) s1
      (good_refl s1 Hi)) as Hg.
    pose proof (clock_ok_good _ _ Hc Hg) as Hc3. destruct Hg as [(Hi3 & He & Hk & _) HJ].
    injection Hk as _ Hk. split; [split; [done..|by rewrite Hk]|exact He].
  - split; [|apply evolves_refl]. split; [by destruct Hi|done|done].
  - split; [|apply evolves_refl]. split; [by destruct Hi|done|done].
Qed.

Lemma steps_good s s' :
  chain_inv s -> rtc step s s' -> chain_inv s' /\ evolves (ve s) (ve s').
Proof.
  intros Hs Hr. induction Hr as [s|s s1 s2 H1 _ IH]; [split; [done|apply evolves_refl]|].
  destruct (step_good _ _ Hs H1) as [Hs1 He1]. destruct (IH Hs1) as [Hs2 He2].
  split; [done|]. eapply evolves_trans; [|done..]. apply engine_inv_bounds, Hs.
Qed.

Lemma chain_inv_genesis n ms (w : W) : 0 <= MaxActiveProposals -> 0 <= ms -> chain_inv (genesis_at n ms w).
Proof.
  intros Hmax Hms. split; [by apply engine_inv_genesis| |done]. intros y Hy. simpl in *.
  destruct (unix_seconds_to_year_mono 0 (ms / 1000) y) as (y0 & Hy0 & Hle);
    [split; [lia|apply Z.div_pos; lia]|done|].
  vm_compute in Hy0. injection Hy0 as <-. lia.
Qed.

(** ** What users rely on *)

(** The facts of [engine_inv] about every reachable state: open proposals
    stay within the quota, administrator changes are exclusive, nothing but
    a finished proposal is being removed, the indexes and display numbers
    lead back to the proposal they were made for (but the code index of the
    legislature's proposals), and every proposal is in a stage of its kind. *)
Definition consistent (s : rt W) : Prop :=
  (forall subject, active_proposal_count (ve s) subject <= MaxActiveProposals) /\
  (forall p q subject k,
    {| binding_subject := subject; binding_kind := AdminSetMutationExclusive |}
      ∈ mutex_bindings (ve s) p ->
    {| binding_subject := subject; binding_kind := k |} ∈ mutex_bindings (ve s) q -> p = q) /\
  (forall pid p, under_cleanup (ve s) pid -> Proposals (ve s) !! pid = Some p ->
    is_terminal_status (status p) = true) /\
  (forall code pid p, (code, pid) ∈ ProposalsByCode (ve s) ->
    Proposals (ve s) !! pid = Some p -> kind p <> PROPOSAL_KIND_LEGISLATION ->
    internal_code p = Some code) /\
  (forall id1 id2 m, ProposalDisplayId (ve s) !! id1 = Some m ->
    ProposalDisplayId (ve s) !! id2 = Some m -> id1 = id2) /\
  (forall pid p, Proposals (ve s) !! pid = Some p ->
    0 <= pid < NextProposalId (ve s) /\ stage_of_kind p).

(** C1: from genesis, after any blocks, calls and changes of other
    pallets, the storage of the voting engine is consistent. *)
Theorem reachable_consistent n ms (w : W) s
    (Hmax : 0 <= MaxActiveProposals) (Hms : 0 <= ms) (Hsteps : rtc step (genesis_at n ms w) s) : consistent s.
Proof.
  destruct (steps_good _ _ (chain_inv_genesis n ms w Hmax Hms) Hsteps)
    as [[[_ _ Hmu Hix Hac Hid Hbe Hcl Hks] _ _] _].
  split_and!; [exact Hac| | | |by apply ids_inj|].
  - intros p q subject k Hp Hq. by destruct (mutex_wf_conflict _ _ _ _ _ Hmu Hp Hq).
  - intros pid p Hu Hp. by apply (Hcl pid Hu).
  - intros code pid p Hin. by apply (code_wf _ Hix).
  - intros pid p Hp. split; [by eapply Hbe|by eapply Hks].
Qed.

(** C2: on a reachable chain a proposal keeps its kind, institution,
    account, subjects and voting window, but that a joint proposal may step to
    its referendum and one of the legislature through its bodies and stages in
    their order; the owner and the data registered for it stay as they are;
    its status only moves along the allowed transitions, a final status never
    changes, it disappears only after a final status, and its identifier is
    never given to another proposal. *)
Theorem proposals_evolve n ms (w : W) s s'
    (Hmax : 0 <= MaxActiveProposals) (Hms : 0 <= ms) (Hsteps : rtc step (genesis_at n ms w) s) (Hlater : rtc step s s') :
  (forall pid p, Proposals (ve s) !! pid = Some p ->
    match Proposals (ve s') !! pid with
    | Some p' =>
        same_identity p p' /\ rtc status_step (status p) (status p') /\
        same_data pid (ve s) (ve s') /\
        (is_terminal_status (status p) = true -> status p' = status p)
    | None => exists st, rtc status_step (status p) st /\ is_terminal_status st = true
    end) /\
  (forall pid, pid < NextProposalId (ve s) -> Proposals (ve s) !! pid = None ->
    Proposals (ve s') !! pid = None).
Proof.
  destruct (steps_good _ _ (chain_inv_genesis n ms w Hmax Hms) Hsteps) as [Hs _].
  destruct (steps_good _ _ Hs Hlater) as [_ [H1 _ H3]]. split; [|done].
  intros pid p Hp. specialize (H1 pid p Hp). destruct (Proposals (ve s') !! pid) as [p'|]; [|done].
  destruct H1 as (? & Hr & ?). split_and!; [done..|]. intros Ht. by apply status_reach_terminal.
Qed.
End Chain.

(** ** A concrete chain *)

Abbreviation sample_step := (step (W := sample_world)).
Abbreviation sample_dispatch := (dispatch (W := sample_world)).

(** Three administrators register the account 7; the next block executes it. *)
Definition demo_world : sample_world :=
  {| sw_roles := []; sw_personal := [(7, [1; 2; 3])]; sw_population := None; sw_citizens := [] |}.
Definition demo0 : rt sample_world := genesis_at 5 1767225600000 demo_world.
Definition demo1 := (sample_dispatch (CreatePersonalAccount 1 7 [1; 2; 3] 2 "tag" "data") demo0).2.
Definition demo2 := (sample_dispatch (Cast 2 0 ClaimPersonal true) demo1).2.
Definition demo3 := (sample_dispatch (Cast 3 0 ClaimPersonal true) demo2).2.
Definition demo_block (n : Z) (s : rt sample_world) : rt sample_world :=
  (@on_initialize _ _ _ _ _ TrackHandlers
     (tracks_finalize_timeout) n (set_block_number (fun _ => n) s)).2.
Definition demo4 := demo_block 6 demo3.

Lemma demo_steps : rtc sample_step demo0 demo4.
Proof.
  apply (rtc_l _ demo0 demo1); [exact (step_call (CreatePersonalAccount 1 7 [1; 2; 3] 2 "tag" "data") demo0)|].
  apply (rtc_l _ demo1 demo2); [exact (step_call (Cast 2 0 ClaimPersonal true) demo1)|].
  apply (rtc_l _ demo2 demo3); [exact (step_call (Cast 3 0 ClaimPersonal true) demo2)|].
  apply rtc_once. refine (step_block 6 demo3 _). vm_compute. congruence.
Qed.

Lemma demo_quota : 0 <= MaxActiveProposals.
Proof. vm_compute. congruence. Qed.
Lemma demo_time : 0 <= 1767225600000.
Proof. lia. Qed.

Lemma proposals_evolve_witness :
  (status <$> Proposals (ve demo4) !! 0) = Some STATUS_EXECUTED /\
  forall s', rtc sample_step demo4 s' ->
    match Proposals (ve s') !! 0 with
    | Some p' => status p' = STATUS_EXECUTED
    | None => True
    end.
Proof.
  assert (Hst : (status <$> Proposals (ve demo4) !! 0) = Some STATUS_EXECUTED)
    by (vm_compute; reflexivity).
  split; [exact Hst|]. intros s' Hs'.
  pose proof (proposals_evolve 5 1767225600000 demo_world demo4 s'
    demo_quota demo_time demo_steps Hs') as [H _].
  specialize (H 0). revert Hst H. generalize (Proposals (ve demo4) !! 0). intros [p|]; [|done].
  intros Hst H. specialize (H p eq_refl). destruct (Proposals (ve s') !! 0) as [p'|]; [|done].
  destruct H as (_ & _ & _ & H). injection Hst as Hst. rewrite <- Hst. apply H. by rewrite Hst.
Defined.

Lemma reachable_consistent_witness : consistent demo4.
Proof.
  exact (reachable_consistent 5 1767225600000 demo_world demo4
    demo_quota demo_time demo_steps).
Defined.
