(* ===== verification/Results.v ===== *)
(** * Results reflect votes

    The invariants of the tracks hold along every chain: in each reachable
    state the tallies count the recorded votes, every vote belongs to a voter
    frozen for the proposal, and a status is the one the votes call for. *)
From S2P Require Import Prelude CidNumber.
From S2P Require Import Cid Types TrackTypes State Interfaces Runtime Ids Locks Data.
From S2P Require Import Cleanup Lifecycle Execution Expiry Maintenance Engine Invariant.
From S2P Require Import Safety Clients Tally Ballots InternalVote InternalSafety.
From S2P Require Import InternalBallots JointVote JointSafety JointBallots.
From S2P Require Import ElectionVote ElectionCount ElectionSafety ElectionBallots.
From S2P Require Import LegislationVote LegislationRules LegislationSafety LegislationBallots Chain.

(** ** All tracks *)

Record ballots_ok `{Wt : Weights} `{Cfg : !Config} `{ECfg : !ElectionConfig} `{Wal : Wallets} {W} (pid : Z) (p : Proposal) (s : rt W) : Prop := {
  bo_internal : kind p = PROPOSAL_KIND_INTERNAL -> internal_ok pid p s;
  bo_joint : kind p = PROPOSAL_KIND_JOINT -> joint_ok pid p s;
  bo_election : kind p = PROPOSAL_KIND_ELECTION -> election_ok pid p s;
  bo_legislation : kind p = PROPOSAL_KIND_LEGISLATION -> leg_ok pid p s;
}.

#[export] Instance ballots_ok_invariant `{Wt : Weights} `{Cfg : !Config} `{ECfg : !ElectionConfig} `{Wal : Wallets} {W} :
  TrackInvariant (ballots_ok (W := W)).
Proof.
  split.
  - intros pid p s s' Hb Hf [H1 H2 H3 H4]. split; intros Hk.
    + eapply internal_ok_view; eauto.
    + eapply joint_ok_view; eauto.
    + eapply election_ok_view; eauto.
    + eapply leg_ok_view; eauto.
  - intros pid p st s Hv Hst Hst' [H1 H2 H3 H4]. split; intros Hk; simpl in Hk.
    + apply internal_ok_status; auto.
    + apply joint_ok_status; auto.
    + apply election_ok_status; auto.
    + apply leg_ok_status; auto.
Qed.

Section Results.
Context `{Wt : Weights} `{Cfg : !Config} `{ECfg : !ElectionConfig} `{LCfg : !LegislationConfig}
  `{Ord : StorageOrder} {W : Type} `{Prov : !Providers W} `{Cb : !Callbacks W}.
Context {CbL : CallbackLaws Cb}.
(** The callbacks keep to their own storage. *)
Context {CbP : PrivateCallbacks Cb}.
(** The types of the values the code reads: [MaxAdminsPerInstitution] is a
    [u32], [eligible_total] a [u64]. *)
Hypothesis Hmax : MaxAdminsPerInstitution <= u32_max.
Hypothesis Hpop : forall w sc d, population_data_of w sc = Some d ->
  0 <= eligible_total d <= u64_max.
Implicit Types s : rt W.

Section Settled.
Context `{Wal : Wallets}.

#[local] Instance all_tracks : ProposalTracks W := TrackHandlers.
#[local] Instance all_timeouts : FinalizeTimeout W := tracks_finalize_timeout.

Lemma internal_iff pid p s :
  kind p = PROPOSAL_KIND_INTERNAL -> ballots_ok pid p s <-> internal_ok pid p s.
Proof.
  intros Hk. split; [intros []; auto|].
  intros H. split; rewrite Hk; intros Hx; first [done|discriminate Hx].
Qed.

Lemma joint_iff pid p s :
  kind p = PROPOSAL_KIND_JOINT -> ballots_ok pid p s <-> joint_ok pid p s.
Proof.
  intros Hk. split; [intros []; auto|].
  intros H. split; rewrite Hk; intros Hx; first [done|discriminate Hx].
Qed.

Lemma election_iff pid p s :
  kind p = PROPOSAL_KIND_ELECTION -> ballots_ok pid p s <-> election_ok pid p s.
Proof.
  intros Hk. split; [intros []; auto|].
  intros H. split; rewrite Hk; intros Hx; first [done|discriminate Hx].
Qed.

Lemma legislation_iff pid p s :
  kind p = PROPOSAL_KIND_LEGISLATION -> ballots_ok pid p s <-> leg_ok pid p s.
Proof.
  intros Hk. split; [intros []; auto|].
  intros H. split; rewrite Hk; intros Hx; first [done|discriminate Hx].
Qed.

#[local] Instance track_handlers_ballots : TrackBallots all_tracks.
Proof.
  apply tracks_cons_ballots; [apply internal_track_ballots|].
  apply tracks_cons_ballots; [apply joint_track_ballots|].
  apply tracks_cons_ballots; [apply legislation_track_ballots|].
  apply tracks_cons_ballots; [apply election_track_ballots|apply tracks_unit_ballots].
Qed.

#[local] Instance track_handlers_laws : TrackLaws all_tracks.
Proof. by apply track_laws. Qed.

#[local] Instance timeouts_laws : TimeoutLaws all_timeouts.
Proof. by apply timeout_laws. Qed.

Lemma timeout_cons_ballots (K : Z -> Proposal -> rt W -> Prop) head tail :
  declines head -> TimeoutBallots K head -> TimeoutBallots K tail ->
  TimeoutBallots K (timeout_cons head tail).
Proof.
  intros Hd Hh Ht p pid s Hp Hs. unfold finalize_timeout, timeout_cons, or_else.
  rewrite sbind_run. pose proof (Hh p pid s Hp Hs) as Hs1. pose proof (Hd p pid s) as Hn.
  unfold finalize_timeout in Hs1.
  destruct (head p pid s) as [[r|] s1]; simpl in *; [exact Hs1|]. rewrite Hn by done.
  by apply Ht.
Qed.

#[local] Instance timeouts_ballots : TimeoutBallots (ballots_ok (W := W)) all_timeouts.
Proof.
  apply timeout_cons_ballots; [apply internal_declines| |].
  { intros p pid s. apply settled_internal_finalize; [apply _|apply internal_iff]. }
  apply timeout_cons_ballots; [apply joint_declines| |].
  { intros p pid s. apply settled_joint_finalize; [apply _|apply joint_iff]. }
  apply timeout_cons_ballots; [apply legislation_declines| |].
  { intros p pid s. apply settled_legislation_finalize; [apply _|apply legislation_iff|done]. }
  apply timeout_cons_ballots; [apply election_declines| |].
  { intros p pid s. apply settled_election_finalize; [apply _|apply election_iff]. }
  by intros p pid s _ Hs.
Qed.

(** ** Steps *)

Lemma run_call_settled s0 c :
  engine_inv s0 -> clock_ok s0 ->
  holds (fun s => both ballots_ok s0 s /\ wallets_seen s) (run_call c) (fun _ => settled ballots_ok).
Proof.
  intros Hi Hc.
  assert (Hboth : forall m : RM W unit, holds (both ballots_ok s0) m (fun _ => settled ballots_ok) ->
    holds (fun s => both ballots_ok s0 s /\ wallets_seen s) m (fun _ => settled ballots_ok))
    by (intros m; apply holds_weaken; by intros s [? _]).
  assert (Hw : forall m : RM W unit, preserves (settled ballots_ok) m ->
    holds (fun s => both ballots_ok s0 s /\ wallets_seen s) m (fun _ => settled ballots_ok)).
  { intros m Hm. apply Hboth, (holds_weaken (settled ballots_ok)); [by intros s [_ ?]|].
    by apply holds_preserves. }
  assert (Hs : forall m : RM W unit,
    holds (fun s => (engine_inv s /\ settled ballots_ok s) /\ wallets_seen s) m
      (fun _ => settled ballots_ok) ->
    holds (fun s => both ballots_ok s0 s /\ wallets_seen s) m (fun _ => settled ballots_ok)).
  { intros m. apply holds_weaken. intros s [[Hg Hs] ?]. split; [|done]. split; [apply Hg|done]. }
  assert (He : forall m : RM W unit,
    holds (fun s => engine_inv s /\ settled ballots_ok s) m (fun _ => settled ballots_ok) ->
    holds (fun s => both ballots_ok s0 s /\ wallets_seen s) m (fun _ => settled ballots_ok)).
  { intros m Hm. apply Hs. revert Hm. apply holds_weaken. by intros s [? _]. }
  assert (Hu : forall (m : RM W Z), holds (both ballots_ok s0) m (fun _ => settled ballots_ok) ->
    holds (fun s => both ballots_ok s0 s /\ wallets_seen s) (m ;; mret tt)
      (fun _ => settled ballots_ok)).
  { intros m Hm. apply Hboth. eapply holds_bind; [apply Hm|]. intros. by apply holds_ret. }
  destruct c; cbn [run_call].
  - apply He, holds_internal_vote; [apply _|apply internal_iff].
  - apply He, holds_joint_vote; [apply _|apply joint_iff].
  - apply He, holds_referendum_vote; [apply _|apply joint_iff].
  - apply Hw, settled_finalize_proposal; apply _.
  - apply Hw, settled_retry; apply _.
  - apply Hw, settled_cancel; apply _.
  - apply Hu, settled_create_institution; try apply _; try done; apply internal_iff.
  - apply Hu, settled_create_institution_admin_change; try apply _; try done; apply internal_iff.
  - apply Hu, settled_create_personal; try apply _; try done; apply internal_iff.
  - apply Hu, settled_create_personal_lifecycle; try apply _; try done; apply internal_iff.
  - apply Hu, settled_create_personal_account; try apply _; try done; apply internal_iff.
  - apply Hu, settled_create_personal_admin_change; try apply _; try done; apply internal_iff.
  - apply Hu, settled_create_joint; try apply _; try done; apply joint_iff.
  - apply Hu, settled_create_joint_object; try apply _; try done; apply joint_iff.
  - apply He, holds_election_vote; [apply _|apply election_iff].
  - apply He, holds_election_vote; [apply _|apply election_iff].
  - apply Hu, settled_create_election; try apply _; try done; apply election_iff.
  - apply Hu, settled_create_election; try apply _; try done; apply election_iff.
  - apply He, holds_representative_vote; [apply _|apply legislation_iff|done].
  - apply He, holds_leg_referendum_vote; [apply _|apply legislation_iff].
  - apply He, holds_executive_sign; [apply _|apply legislation_iff].
  - apply Hs, holds_override_sign; [apply _|apply legislation_iff].
  - apply Hs, holds_guard_vote; [apply _|apply legislation_iff].
  - apply Hu, settled_create_representative; try apply _; try done; apply legislation_iff.
  - apply Hu, settled_create_legislation; try apply _; try done; apply legislation_iff.
Qed.

End Settled.

#[local] Existing Instance all_tracks.
#[local] Existing Instance all_timeouts.
#[local] Existing Instance track_handlers_ballots.
#[local] Existing Instance track_handlers_laws.
#[local] Existing Instance timeouts_laws.
#[local] Existing Instance timeouts_ballots.

(** The wallets of the states between two states of a chain. *)
Definition wallets_between (s0 s : rt W) : Wallets := fun subject who voter =>
  exists s1, rtc step s0 s1 /\ rtc step s1 s /\
    resolve_subject_voter (world s1) subject who = Some voter.

(** What holds of a state reached from [s0]. *)
Record voted (s0 s : rt W) : Prop := {
  vt_reached : rtc step s0 s;
  vt_chain : chain_inv s;
  vt_settled : settled (ballots_ok (Wal := wallets_between s0 s)) s;
}.

Lemma step_settled `{Wal : Wallets} s s' : chain_inv s -> wallets_seen s -> settled ballots_ok s ->
  step s s' -> settled ballots_ok s'.
Proof.
  intros Hs Hw Hk Hst. destruct Hst as [n s1 Hn|ms s1 Hms|c s1|f s1|e s1].
  - pose proof (engine_inv_later _ n Hn (ci_engine _ Hs)) as Hi1.
    set (s2 := set_block_number (fun _ => n) s1) in *. change n with (block_number s2).
    apply settled_on_initialize; [apply _..|done|]. by apply (settled_view ballots_ok s1).
  - by apply (settled_view ballots_ok s1).
  - unfold dispatch. pose proof (run_call_settled s1 c (ci_engine _ Hs) (ci_clock _ Hs)) as Hc.
    unfold transact. destruct (run_call c s1) as [[u|e] s2] eqn:Hr; simpl; [|done].
    eapply (Hc s1 u s2); [|done]. do 2 (split; [|done]). apply good_refl, Hs.
  - by apply (settled_view ballots_ok s1).
  - by apply (settled_view ballots_ok s1).
Qed.

Lemma settled_wallets (Wal Wal' : Wallets) s :
  (forall subject who voter, @wallet_of Wal subject who voter -> @wallet_of Wal' subject who voter) ->
  settled (ballots_ok (Wal := Wal)) s -> settled (ballots_ok (Wal := Wal')) s.
Proof.
  intros Hw [H1 H2]. split; [done|]. intros pid p Hp Hc. destruct (H2 pid p Hp Hc). split; try done.
  intros Hk. apply (leg_ok_wallets Wal); auto.
Qed.

Lemma step_voted s0 s s' : voted s0 s -> step s s' -> voted s0 s'.
Proof.
  intros [Hr Hs Hk] Hst. destruct (step_good s s' Hs Hst) as [Hs' _].
  split; [by eapply rtc_r|done|]. apply (settled_wallets (wallets_between s0 s)).
  { intros subject who voter (s1 & H1 & H2 & ?). exists s1. split_and!; [done|by eapply rtc_r|done]. }
  apply (step_settled (Wal := wallets_between s0 s) s); [done| |done..].
  intros subject who voter Hres. by exists s.
Qed.

Lemma steps_voted s0 s s' : voted s0 s -> rtc step s s' -> voted s0 s'.
Proof. intros Hs Hr. induction Hr as [|? ? ? H1 _ IH]; [done|]. by apply IH, (step_voted _ _ _ Hs). Qed.

Lemma genesis_voted n ms (w : W) s : 0 <= MaxActiveProposals -> 0 <= ms ->
  rtc step (genesis_at n ms w) s -> voted (genesis_at n ms w) s.
Proof.
  intros Ha Hms. apply steps_voted. split; [done|by apply chain_inv_genesis|]. split.
  - intros pid _. by repeat split; intros; try apply lookup_empty.
  - intros pid p Hp. simpl in Hp. by rewrite lookup_empty in Hp.
Qed.

(** ** What users rely on *)

(** The votes recorded for and against add up to no more than the tickets. *)
Lemma within_tickets {A} `{Countable A} (m : gmap (Z * A) bool) (pid : Z) (L : list A) :
  NoDup L -> (forall t v, m !! (pid, t) = Some v -> t ∈ L) ->
  vote_sum (fun _ => 1) pid true m + vote_sum (fun _ => 1) pid false m <= Z.of_nat (length L).
Proof.
  intros HL Hin. rewrite !(vote_sum_list _ pid _ m L) by done.
  rewrite <- total_weight_one. by apply list_sum_split.
Qed.

Lemma internal_results_lemma s0 s pid p :
  voted s0 s -> Proposals (ve s) !! pid = Some p -> kind p = PROPOSAL_KIND_INTERNAL ->
  PendingProposalCleanups (ve s) !! pid = None ->
  exists threshold eligible, InternalThresholdSnapshot (iv s) !! pid = Some threshold /\
    eligible_of (ve s) pid p = Some eligible /\
    0 < threshold <= eligible /\ eligible < 2 * threshold /\
    let y := votes_for pid true s in let n := votes_for pid false s in
    default vote_count_zero (InternalTallies (iv s) !! pid) = {| yes := y; no := n |} /\
    y + n <= eligible /\ verdict (status p) y n threshold eligible /\
    (forall t v, InternalVotesByTicket (iv s) !! (pid, t) = Some v ->
      frozen_ticket (ve s) pid p t) /\
    (status p = STATUS_VOTING -> exists t, frozen_ticket (ve s) pid p t /\
      InternalVotesByTicket (iv s) !! (pid, t) = None).
Proof.
  intros [_ _ Hk] Hp Hkind Hc. pose proof (st_holds _ _ Hk _ _ Hp Hc) as Hok.
  apply internal_iff in Hok as [Hta Htk Hfz (t & e & Ht & He & Hm & Hv)]; [|done].
  destruct Hm as (Hm1 & Hm2 & Hm3).
  destruct (frozen_tickets s pid p e Hfz He) as (L & HL & Hlen & Hin).
  assert (HinL : forall x v, InternalVotesByTicket (iv s) !! (pid, x) = Some v -> x ∈ L).
  { intros x v Hx. apply Hin. by eapply Htk. }
  pose proof (within_tickets _ pid L HL HinL) as Hsum. rewrite Hlen in Hsum.
  exists t, e. do 4 (split; [done|]). cbv zeta. split_and!; [|done..|].
  - destruct Hta as [Hy Hn]. pose proof (votes_for_nonneg pid true s).
    pose proof (votes_for_nonneg pid false s). unfold votes_for in *.
    destruct (default _ _) as [y n]. simpl in *. f_equal; lia.
  - intros Hst. pose proof (vd_open _ _ _ _ _ Hv Hst).
    destruct (unused_ticket (InternalVotesByTicket (iv s)) pid L) as (x & Hx & Hnone); [done..| |].
    + rewrite Hlen. unfold votes_for in *. lia.
    + exists x. split; [by apply Hin|done].
Qed.

(** C3: on a reachable chain, for every internal proposal that is not
    being removed, the threshold is a strict majority of the frozen tickets;
    the stored tally is exactly the number of recorded votes for and against,
    each of them cast with a ticket frozen for the proposal, and no more than
    there are tickets; an open proposal has fewer votes than the threshold,
    can still reach it and has an unused ticket; a passed (or executed)
    proposal reached the threshold; a rejected one did not. *)
Theorem internal_results_reflect_votes n ms (w : W) s pid p
    (Ha : 0 <= MaxActiveProposals) (Hms : 0 <= ms)
    (Hsteps : rtc step (genesis_at n ms w) s)
    (Hp : Proposals (ve s) !! pid = Some p) (Hkind : kind p = PROPOSAL_KIND_INTERNAL)
    (Hc : PendingProposalCleanups (ve s) !! pid = None) :
  exists threshold eligible, InternalThresholdSnapshot (iv s) !! pid = Some threshold /\
    eligible_of (ve s) pid p = Some eligible /\
    0 < threshold <= eligible /\ eligible < 2 * threshold /\
    let y := votes_for pid true s in let n := votes_for pid false s in
    default vote_count_zero (InternalTallies (iv s) !! pid) = {| yes := y; no := n |} /\
    y + n <= eligible /\ verdict (status p) y n threshold eligible /\
    (forall t v, InternalVotesByTicket (iv s) !! (pid, t) = Some v ->
      frozen_ticket (ve s) pid p t) /\
    (status p = STATUS_VOTING -> exists t, frozen_ticket (ve s) pid p t /\
      InternalVotesByTicket (iv s) !! (pid, t) = None).
Proof.
  apply (internal_results_lemma (genesis_at n ms w)); [by apply genesis_voted|done..].
Qed.

Lemma joint_results_lemma s0 s pid p :
  voted s0 s -> Proposals (ve s) !! pid = Some p -> kind p = PROPOSAL_KIND_JOINT ->
  PendingProposalCleanups (ve s) !! pid = None ->
  (stage p = STAGE_JOINT -> passed_status (status p) -> forall c, c ∈ joint_institutions ->
    JointVotesByInstitution (jv s) !! (pid, c) = Some true /\
    exists code weight threshold, institution_profile c = Some (code, weight) /\
      fixed_governance_pass_threshold code = Some threshold /\
      threshold <= tickets_for pid c true s) /\
  (forall t v, JointVotesByTicket (jv s) !! (pid, t) = Some v ->
    institution_ticket (ve s) pid t) /\
  exists eligible, population_eligible_total_of (ve s) pid = Some eligible /\
    let y := citizens_for pid true s in let n := citizens_for pid false s in
    default vote_count_zero (ReferendumTallies (jv s) !! pid) = {| yes := y; no := n |} /\
    y + n <= eligible /\
    (stage p = STAGE_REFERENDUM ->
      (passed_status (status p) -> eligible < 2 * y) /\
      (status p = STATUS_REJECTED -> 2 * y <= eligible) /\
      (status p = STATUS_VOTING -> 2 * y <= eligible /\ 2 * n < eligible)).
Proof.
  intros [_ _ Hk] Hp Hkind Hc. pose proof (st_holds _ _ Hk _ _ Hp Hc) as Hok.
  apply joint_iff in Hok as [H1 H2 H3 H4 H5 H6 H7 H8 (e & He & Hpos & Hle & Ho)]; [|done].
  split; [|split; [done|]].
  - intros Hs Hpass c Hin. pose proof (jc_passed _ _ _ _ _ _ Ho Hs Hpass) as Hw.
    assert (Hyes : JointVotesByInstitution (jv s) !! (pid, c) = Some true).
    { apply (unanimous_all pid (JointVotesByInstitution (jv s))); [|exact Hw|done].
      intros c' v (code & w' & thr & Hpr & _)%H4. by eapply profile_member. }
    split; [done|]. destruct (H4 _ _ Hyes) as (code & w' & thr & ? & ? & ?). by exists code, w', thr.
  - exists e. split; [done|]. cbv zeta. split_and!; [|done|].
    + destruct H6 as [Hy Hn]. pose proof (citizens_for_nonneg pid s true).
      pose proof (citizens_for_nonneg pid s false).
      destruct (default vote_count_zero (ReferendumTallies _ !! _)) as [y n'].
      simpl in *. f_equal; lia.
    + intros Hs. destruct Ho as [_ _ _ O4 O5 O6]. split_and!; auto.
Qed.

(** C4: on a reachable chain, for every joint proposal that is not being
    removed: if it passed in the joint stage, every one of the founding
    institutions decided for it, each with at least its own threshold of
    tickets frozen for it; in the referendum the stored tally is exactly the
    number of citizens' ballots for and against, at most the frozen number of
    eligible citizens, a passed proposal has more than half of the eligible
    citizens, a rejected one does not, and an open one is undecided. *)
Theorem joint_results_reflect_votes n ms (w : W) s pid p
    (Ha : 0 <= MaxActiveProposals) (Hms : 0 <= ms)
    (Hsteps : rtc step (genesis_at n ms w) s)
    (Hp : Proposals (ve s) !! pid = Some p) (Hkind : kind p = PROPOSAL_KIND_JOINT)
    (Hc : PendingProposalCleanups (ve s) !! pid = None) :
  (stage p = STAGE_JOINT -> passed_status (status p) -> forall c, c ∈ joint_institutions ->
    JointVotesByInstitution (jv s) !! (pid, c) = Some true /\
    exists code weight threshold, institution_profile c = Some (code, weight) /\
      fixed_governance_pass_threshold code = Some threshold /\
      threshold <= tickets_for pid c true s) /\
  (forall t v, JointVotesByTicket (jv s) !! (pid, t) = Some v ->
    institution_ticket (ve s) pid t) /\
  exists eligible, population_eligible_total_of (ve s) pid = Some eligible /\
    let y := citizens_for pid true s in let n := citizens_for pid false s in
    default vote_count_zero (ReferendumTallies (jv s) !! pid) = {| yes := y; no := n |} /\
    y + n <= eligible /\
    (stage p = STAGE_REFERENDUM ->
      (passed_status (status p) -> eligible < 2 * y) /\
      (status p = STATUS_REJECTED -> 2 * y <= eligible) /\
      (status p = STATUS_VOTING -> 2 * y <= eligible /\ 2 * n < eligible)).
Proof.
  apply (joint_results_lemma (genesis_at n ms w)); [by apply genesis_voted|done..].
Qed.

(** C5: on a reachable chain, for every election that is not being removed:
    the candidates are distinct and enough for the seats; every recorded
    ballot names a candidate and belongs to a citizen, or to a ticket frozen
    for the roles of the organiser; every stored tally is the number of
    ballots for its candidate (cut at the largest [u32]); the turnout does not
    exceed the electorate, and an open election still waits for a ballot; a
    passed election has stored as winners exactly those the reference count of
    its ballots elects, and a rejected one has a tie or too few votes. *)
Theorem election_results_reflect_ballots n ms (w : W) s pid p
    (Ha : 0 <= MaxActiveProposals) (Hms : 0 <= ms) (Hce : MaxElectionCandidates <= u16_max)
    (Hsteps : rtc step (genesis_at n ms w) s)
    (Hp : Proposals (ve s) !! pid = Some p) (Hkind : kind p = PROPOSAL_KIND_ELECTION)
    (Hc : PendingProposalCleanups (ve s) !! pid = None) :
  exists m cs, ElectionMetaStore (el s) !! pid = Some m /\
    ElectionCandidates (el s) !! pid = Some cs /\
    NoDup (citizen_cid_number <$> cs) /\ 0 < seat_count m <= Z.of_nat (length cs) /\
    ballots_valid pid m cs (ve s) (el s) /\
    (forall c, default 0 (ElectionCandidateTallies (el s) !! (pid, c)) =
      Z.min u32_max (ballots_for pid c (el s))) /\
    (exists voters, electorate (ve s) pid m = Some voters /\
      Z.min u32_max (ballots_cast pid (el s)) <= voters /\
      (status p = STATUS_VOTING -> Z.min u32_max (ballots_cast pid (el s)) < voters)) /\
    (passed_status (status p) -> exists ws, ElectionResults (el s) !! pid = Some ws /\
      reference_winners (counted_ballots pid cs (el s)) (seat_count m) = Ok ws) /\
    (status p = STATUS_REJECTED ->
      reference_winners (counted_ballots pid cs (el s)) (seat_count m) = Err tt).
Proof.
  destruct (genesis_voted n ms w s Ha Hms Hsteps) as [_ _ Hk]. pose proof (st_holds _ _ Hk _ _ Hp Hc) as Hok.
  apply election_iff in Hok as (m & cs & Hb & Hopen); [|done].
  pose proof Hb as [B1 B2 B3 B4 [B5 B5'] B6 B7 B8 (v & Hv & Hle) [O1 O2]].
  rewrite (body_votes _ _ _ _ _ Hb) in O1, O2.
  assert (Hsel : select_winners (counted_ballots pid cs (el s)) (seat_count m) =
    Some (reference_winners (counted_ballots pid cs (el s)) (seat_count m))).
  { apply select_winners_run; [lia|]. by apply counted_nonneg. }
  rewrite Hsel in O1, O2. exists m, cs. split_and!; try done; try lia.
  - exists v. split_and!; [done..|]. intros Hst. destruct (Hopen Hst) as (v' & Hv' & Hlt). congruence.
  - intros (ws & ? & [= Hws])%O1. by exists ws.
  - intros Hr. by injection (O2 Hr).
Qed.

(** A passed proposal of the legislature, through whichever stage it went. *)
Lemma passed_law `{Wal : Wallets} s pid p m :
  stage_of_kind p -> kind p = PROPOSAL_KIND_LEGISLATION -> passed_status (status p) ->
  leg_core pid m (ve s) (lv s) -> leg_outcome pid (stage p) (status p) m (ve s) (lv s) ->
  all_passed pid m (ve s) (lv s) /\
  (meta_rule m = SpecialRule -> referendum_accepted pid (ve s) (lv s)) /\
  (stage p = STAGE_LEG_OVERRIDE -> 3 <= count_signs true (signatures pid (lv s))) /\
  (forall l, meta_procedure m = LegislationProcedure -> LegislationMetas (lv s) !! pid = Some l ->
    needs_guard l = true -> stage p = STAGE_LEG_CONSTITUTION_GUARD /\
      CONSTITUTION_GUARD_APPROVAL_THRESHOLD <= count_signs true (reviews pid (lv s))).
Proof.
  intros Hst Hk Hp Hc [O1 O2 O3 O4].
  destruct (decide (stage p = STAGE_LEG_REPRESENTATIVE)) as [Hr|Hr].
  { destruct (O2 Hr Hp) as [Hproc Ha]. pose proof (lc_rule _ _ _ _ Hc Hproc).
    split_and!; [done..| |]; [by rewrite Hr|]. intros l Hl. congruence. }
  destruct (O4 Hr) as (Ha & l & Hl & [L1 L2 L3 L4]). split; [done|].
  assert (Hcases : stage p = STAGE_LEG_REFERENDUM \/ stage p = STAGE_LEG_SIGN \/
    stage p = STAGE_LEG_OVERRIDE \/ stage p = STAGE_LEG_CONSTITUTION_GUARD).
  { destruct Hst as [[Hx _]|[[Hx _]|[[Hx _]|[_ Hst]]]]; try (rewrite Hk in Hx; discriminate Hx).
    revert Hr Hst. unfold STAGE_LEG_REPRESENTATIVE, STAGE_LEG_REFERENDUM, STAGE_LEG_SIGN,
      STAGE_LEG_OVERRIDE, STAGE_LEG_CONSTITUTION_GUARD. lia. }
  destruct Hcases as [Hs|[Hs|[Hs|Hs]]].
  - destruct (L1 Hs) as (_ & H & _). destruct (H Hp) as [Hg Hacc].
    split_and!; [done|by rewrite Hs|]. intros l' _ ? ?. congruence.
  - destruct (L2 Hs) as (? & H). specialize (H Hp).
    split_and!; [done|by rewrite Hs|]. intros l' _ ? ?. congruence.
  - destruct (L3 Hs) as (? & _ & H). destruct (H Hp).
    split_and!; [done|done|]. intros l' _ ? ?. congruence.
  - destruct (L4 Hs) as (Hg & Hacc & _ & H & _).
    split_and!; [done|by rewrite Hs|]. intros l' _ ? ?. split; [done|by apply H].
Qed.

End Results.

(** ** Concrete chains *)

#[export] Instance sample_callbacks_private {W} : PrivateCallbacks (@sample_callbacks W).
Proof. by split; split. Qed.

Lemma sample_admins_u32 : MaxAdminsPerInstitution <= u32_max.
Proof. vm_compute. congruence. Qed.

Lemma sample_population_u64 (w : sample_world) sc d :
  population_data_of w sc = Some d -> 0 <= eligible_total d <= u64_max.
Proof. simpl. destruct (sw_population w); simpl; [|done]. case_decide; [|done]. by intros [= <-]. Qed.

(** Two of the three administrators have voted for the account. *)
Lemma demo2_steps : rtc sample_step demo0 demo2.
Proof.
  apply (rtc_l _ demo0 demo1); [by apply step_call|]. apply rtc_once. by apply step_call.
Qed.

Lemma internal_results_reflect_votes_witness :
  (status <$> Proposals (ve demo2) !! 0) = Some STATUS_VOTING /\
  InternalTallies (iv demo2) !! 0 = Some {| yes := 2; no := 0 |} /\
  exists t, (exists p, Proposals (ve demo2) !! 0 = Some p /\ frozen_ticket (ve demo2) 0 p t) /\
    InternalVotesByTicket (iv demo2) !! (0, t) = None.
Proof.
  split; [vm_compute; reflexivity|]. split; [vm_compute; reflexivity|].
  destruct (Proposals (ve demo2) !! 0) as [p|] eqn:Hp; [|by vm_compute in Hp].
  assert (Hc : PendingProposalCleanups (ve demo2) !! 0 = None) by (vm_compute; reflexivity).
  assert (Hk : kind p = PROPOSAL_KIND_INTERNAL /\ status p = STATUS_VOTING).
  { vm_compute in Hp. injection Hp as <-. by split. }
  destruct Hk as [Hk Hst].
  destruct (internal_results_reflect_votes sample_admins_u32
    sample_population_u64 5 1767225600000 demo_world demo2 0 p demo_quota demo_time demo2_steps
    Hp Hk Hc) as (t & e & _ & _ & _ & _ & _ & _ & _ & _ & Hopen).
  destruct (Hopen Hst) as (x & Hx & Hnone). exists x. split; [|exact Hnone].
  exists p. split; [reflexivity|exact Hx].
Defined.

Definition demo_citizen (n : Z) : CitizenSubject :=
  {| citizen_cid_number := String (Ascii.ascii_of_N (Z.to_N (65 + n))) ""; citizen_account_id := n |}.

(** Every founding institution has one administrator, and the first proposes. *)
Definition demo_joint_world : sample_world := {|
  sw_roles := imap (fun i c => (c, "R"%string, Z.of_nat i)) joint_institutions;
  sw_personal := [];
  sw_population := Some {| scope := ScopeCountry; eligible_total := 3; eligibility_revision := 0;
    eligibility_date := 0 |};
  sw_citizens := [demo_citizen 1; demo_citizen 2; demo_citizen 3];
|}.

Definition demo_role (c : CidNumber) : AuthorizationSubject :=
  Institution {| role_cid_number := c; role_code := "R"%string |}.

Definition demo_plan : VotePlan := {|
  business_action_id := {| module_tag := "tag"%string; action_code := 1 |};
  plan_owner := "tag"%string; proposer_subject := demo_role (nth 0 joint_institutions ""%string);
  voter_subjects := demo_role <$> joint_institutions; voting_engine := Joint;
  business_object_hash := "data"%string |}.

(** The national committee votes against, which sends the proposal to the
    referendum; two of the three citizens vote for it. *)
Definition demo_calls : list call := [
  CreateJoint 0 (nth 0 joint_institutions ""%string) demo_plan "data";
  CastAdmin 0 0 (nth 0 joint_institutions ""%string) "R" false;
  CastReferendum 1 0 true; CastReferendum 2 0 true].

Lemma demo_calls_steps l s :
  rtc sample_step s (foldl (fun s c => (sample_dispatch c s).2) s l).
Proof.
  revert s. induction l as [|c l IH]; intros s; [done|].
  cbn [foldl]. eapply rtc_l; [exact (step_call c s)|apply IH].
Qed.

Definition demo_joint0 : rt sample_world := genesis_at 5 1767225600000 demo_joint_world.
Definition demo_joint : rt sample_world :=
  foldl (fun s c => (sample_dispatch c s).2) demo_joint0 demo_calls.

Lemma demo_joint_steps : rtc sample_step demo_joint0 demo_joint.
Proof. apply demo_calls_steps. Qed.

Definition joint_facts (s : rt sample_world) : option (Z * Z * Z) :=
  p ← Proposals (ve s) !! 0;
  if decide (PendingProposalCleanups (ve s) !! 0 = None)
  then Some (kind p, stage p, status p) else None.

Lemma demo_joint_facts :
  joint_facts demo_joint = Some (PROPOSAL_KIND_JOINT, STAGE_REFERENDUM, STATUS_PASSED).
Proof. vm_compute. reflexivity. Qed.

Lemma joint_facts_spec s k st x :
  joint_facts s = Some (k, st, x) -> exists p, Proposals (ve s) !! 0 = Some p /\
    PendingProposalCleanups (ve s) !! 0 = None /\ kind p = k /\ stage p = st /\ status p = x.
Proof.
  unfold joint_facts. destruct (Proposals (ve s) !! 0) as [p|]; [|done]. simpl. case_decide; [|done].
  intros [= <- <- <-]. eauto 10.
Qed.

Lemma joint_results_reflect_votes_witness :
  exists p eligible, Proposals (ve demo_joint) !! 0 = Some p /\ status p = STATUS_PASSED /\
    population_eligible_total_of (ve demo_joint) 0 = Some eligible /\
    eligible < 2 * citizens_for 0 true demo_joint.
Proof.
  destruct (joint_facts_spec _ _ _ _ demo_joint_facts) as (p & Hp & Hc & Hk & Hst & Hpass).
  destruct (joint_results_reflect_votes sample_admins_u32
    sample_population_u64 5 1767225600000 demo_joint_world demo_joint 0 p demo_quota demo_time
    demo_joint_steps Hp Hk Hc) as (_ & _ & e & He & _ & _ & Href).
  exists p, e. destruct (Href Hst) as (Hmaj & _ & _).
  split; [exact Hp|]. split; [exact Hpass|]. split; [exact He|].
  apply Hmaj. left. exact Hpass.
Defined.

(** The first of two candidates wins the seat with two of the three citizens'
    votes. *)
Definition demo_election_plan : VotePlan := {|
  business_action_id := {| module_tag := "tag"%string; action_code := 1 |};
  plan_owner := "tag"%string; proposer_subject := demo_role (nth 0 joint_institutions ""%string);
  voter_subjects := []; voting_engine := Election; business_object_hash := "data"%string |}.

Definition demo_election_calls : list call := [
  CreatePopularElection 0 demo_election_plan (nth 0 joint_institutions ""%string) "mayor" 1 10 20
    ScopeCountry [demo_citizen 1; demo_citizen 2];
  CastPopular 1 0 (demo_citizen 1); CastPopular 2 0 (demo_citizen 2);
  CastPopular 3 0 (demo_citizen 1)].

Definition demo_election : rt sample_world :=
  foldl (fun s c => (sample_dispatch c s).2) demo_joint0 demo_election_calls.

Lemma demo_election_facts :
  joint_facts demo_election = Some (PROPOSAL_KIND_ELECTION, STAGE_ELECTION_POPULAR, STATUS_PASSED).
Proof. vm_compute. reflexivity. Qed.

Lemma sample_candidates_u16 : MaxElectionCandidates <= u16_max.
Proof. vm_compute. congruence. Qed.

Lemma election_results_reflect_ballots_witness :
  (length <$> ElectionResults (el demo_election) !! 0) = Some 1%nat /\
  exists m cs ws, ElectionMetaStore (el demo_election) !! 0 = Some m /\
    ElectionResults (el demo_election) !! 0 = Some ws /\
    reference_winners (counted_ballots 0 cs (el demo_election)) (seat_count m) = Ok ws.
Proof.
  split; [vm_compute; reflexivity|].
  destruct (joint_facts_spec _ _ _ _ demo_election_facts) as (p & Hp & Hc & Hk & _ & Hpass).
  destruct (election_results_reflect_ballots sample_admins_u32 sample_population_u64 5 1767225600000
    demo_joint_world demo_election 0 p demo_quota demo_time sample_candidates_u16
    (demo_calls_steps demo_election_calls demo_joint0) Hp Hk Hc)
    as (m & cs & Hm & _ & _ & _ & _ & _ & _ & Hwin & _).
  destruct (Hwin (or_introl Hpass)) as (ws & Hws & Href).
  exists m, cs, ws. split; [exact Hm|]. split; [exact Hws|exact Href].
Defined.

(** An amendment of the constitution: two bodies vote, the president signs,
    and four of the seven guards approve. *)
Definition demo_body (c : CidNumber) (r : RoleCode) : RoleSubject :=
  {| role_cid_number := c; role_code := r |}.
Definition demo_cid : CidNumber := nth 0 joint_institutions ""%string.
Definition demo_guard : RoleSubject := demo_body demo_cid "guard".

Definition demo_law_world : sample_world := {|
  sw_roles := [(demo_cid, "house", 1); (demo_cid, "house", 2); (demo_cid, "senate", 3);
    (demo_cid, "president", 4)] ++
    ((fun i => (demo_cid, "guard"%string, i)) <$> [11; 12; 13; 14; 15; 16; 17]);
  sw_personal := []; sw_population := None; sw_citizens := [] |}.

Definition demo_law_plan : VotePlan := {|
  business_action_id := {| module_tag := "tag"%string; action_code := 1 |};
  plan_owner := "tag"%string; proposer_subject := Institution (demo_body demo_cid "house");
  voter_subjects := Institution <$> [demo_body demo_cid "house"; demo_body demo_cid "senate";
    demo_body demo_cid "president"; demo_guard];
  voting_engine := Legislation; business_object_hash := "data"%string |}.

Definition demo_law_calls : list call := [
  CreateLegislation 1 demo_cid demo_law_plan
    (Sequential [demo_body demo_cid "house"; demo_body demo_cid "senate"]) RegularRule
    {| cfg_executive := Some (demo_body demo_cid "president"); cfg_override_signers := [];
       cfg_needs_guard := true; cfg_guard := Some demo_guard |} "tag" "data" "text";
  CastRepresentative 2 0 "house" true; CastRepresentative 3 0 "senate" true;
  ExecutiveSign 4 0 true; GuardVote 11 0 true; GuardVote 12 0 false; GuardVote 13 0 true;
  GuardVote 14 0 true; GuardVote 17 0 true].

Definition demo_law0 : rt sample_world := genesis_at 5 1767225600000 demo_law_world.
Definition demo_law : rt sample_world :=
  foldl (fun s c => (sample_dispatch c s).2) demo_law0 demo_law_calls.

Lemma demo_law_facts :
  joint_facts demo_law =
  Some (PROPOSAL_KIND_LEGISLATION, STAGE_LEG_CONSTITUTION_GUARD, STATUS_PASSED).
Proof. vm_compute. reflexivity. Qed.

