(* ===== verification/LegislationLimits.v ===== *)
(** * What the votes of the legislature do not rule out

    Three reachable states that the comments of the code say cannot be: an
    amendment of the constitution that three guards pass, a refused law that
    the holders of one office sign jointly, and an index entry that outlives
    its proposal. *)
From S2P Require Import Prelude CidNumber.
From S2P Require Import Cid Types TrackTypes State Interfaces Runtime Ids Locks Data.
From S2P Require Import Cleanup Lifecycle Execution Expiry Maintenance Engine Invariant.
From S2P Require Import Safety Clients Tally Ballots InternalVote InternalBallots.
From S2P Require Import JointVote JointBallots ElectionVote LegislationVote LegislationBallots Chain Results.

(** ** A guard with two wallets *)

(** A world in which members may bind a new wallet: the new one then stands
    for the account in the roll, and the old one for nobody
    ([RuntimeInternalAdminProvider::resolve_institution_voter]). *)
Record wallet_world : Type := {
  base : sample_world;
  bound : list (AccountId * AccountId);
}.

Definition roll_account (w : wallet_world) (who : AccountId) : option AccountId :=
  match find (fun b => bool_decide (b.1 = who)) (bound w) with
  | Some b => Some b.2
  | None => if existsb (fun b => bool_decide (b.2 = who)) (bound w) then None else Some who
  end.

#[export] Instance wallet_providers : Providers wallet_world := {|
  resolve_institution_voter := fun w cid who =>
    account ← roll_account w who; resolve_institution_voter (base w) cid account;
  institution_threshold := fun w => institution_threshold (base w);
  is_personal_admin := fun w => is_personal_admin (base w);
  get_personal_admins := fun w => get_personal_admins (base w);
  get_pending_personal_admins := fun w => get_pending_personal_admins (base w);
  population_data_of := fun w => population_data_of (base w);
  voting_subject_at := fun w => voting_subject_at (base w);
  candidate_subject := fun w => candidate_subject (base w);
  is_active_assignment := fun w => is_active_assignment (base w);
  active_accounts_for_role := fun w => active_accounts_for_role (base w);
  hash_256 := fun s => s;
|}.

Abbreviation wallet_step := (step (W := wallet_world)).
Abbreviation wallet_dispatch := (dispatch (W := wallet_world)).

Lemma wallet_calls_steps l s :
  rtc wallet_step s (foldl (fun s c => (wallet_dispatch c s).2) s l).
Proof.
  revert s. induction l as [|c l IH]; intros s; [done|].
  cbn [foldl]. eapply rtc_l; [exact (step_call c s)|apply IH].
Qed.

Definition wallet0 : rt wallet_world :=
  genesis_at 5 1767225600000 {| base := demo_law_world; bound := [] |}.

Definition bind_99 (w : wallet_world) : wallet_world := {| base := base w; bound := [(99, 11)] |}.

(** The guard 11 votes, binds the wallet 99, and votes again. *)
Definition before_binding : list call :=
  [nth 0 demo_law_calls (FinalizeProposal 0 0); CastRepresentative 2 0 "house" true;
   CastRepresentative 3 0 "senate" true; ExecutiveSign 4 0 true; GuardVote 11 0 true].
Definition after_binding : list call :=
  [GuardVote 99 0 true; GuardVote 12 0 true; GuardVote 13 0 true].
Definition wallet1 : rt wallet_world :=
  foldl (fun s c => (wallet_dispatch c s).2) wallet0 before_binding.
Definition wallet2 : rt wallet_world :=
  set_world bind_99 wallet1.
Definition wallet3 : rt wallet_world :=
  foldl (fun s c => (wallet_dispatch c s).2) wallet2 after_binding.

Lemma wallet_steps : rtc wallet_step wallet0 wallet3.
Proof.
  transitivity wallet1; [exact (wallet_calls_steps before_binding wallet0)|].
  apply (rtc_l _ wallet1 wallet2); [exact (step_world bind_99 wallet1)|].
  exact (wallet_calls_steps after_binding wallet2).
Qed.

(** The accounts of the roll behind the votes in favour. *)
Definition guards_in_favour (s : rt wallet_world) : list AccountId :=
  remove_dups (omap (fun v : AccountId * bool => if v.2 then
    resolve_subject_voter (world s) (Institution demo_guard) v.1 else None)
    (reviews 0 (lv s))).

Definition proposal_facts {W} (s : rt W) : option (Z * Z) :=
  p ← Proposals (ve s) !! 0; Some (stage p, status p).

Lemma wallet_outcome :
  proposal_facts wallet3 = Some (STAGE_LEG_CONSTITUTION_GUARD, STATUS_PASSED).
Proof. vm_compute. reflexivity. Qed.
Lemma wallet_guards : guards_in_favour wallet3 = [11; 12; 13].
Proof. vm_compute. reflexivity. Qed.

(** Four approvals are required ([CONSTITUTION_GUARD_APPROVAL_THRESHOLD]);
    three guards give them, because [do_guard_vote] tells voters apart by
    their wallets while it admits them by the account of the roll. *)
Theorem three_guards_suffice : exists s, rtc wallet_step wallet0 s /\
  proposal_facts s = Some (STAGE_LEG_CONSTITUTION_GUARD, STATUS_PASSED) /\
  Z.of_nat (length (guards_in_favour s)) < CONSTITUTION_GUARD_APPROVAL_THRESHOLD.
Proof.
  exists wallet3. split; [exact wallet_steps|]. split; [exact wallet_outcome|].
  rewrite wallet_guards. reflexivity.
Qed.

(** ** One office signs for three *)

(** The speaker's office has three holders; the president refuses. *)
Definition override_world : sample_world := {|
  sw_roles := [(demo_cid, "house", 1); (demo_cid, "president", 4);
    (demo_cid, "speaker", 5); (demo_cid, "speaker", 6); (demo_cid, "speaker", 7)];
  sw_personal := []; sw_population := None; sw_citizens := [] |}.

Definition override_plan : VotePlan := {|
  business_action_id := {| module_tag := "tag"%string; action_code := 1 |};
  plan_owner := "tag"%string; proposer_subject := Institution (demo_body demo_cid "house");
  voter_subjects := Institution <$> [demo_body demo_cid "house"; demo_body demo_cid "president";
    demo_body demo_cid "speaker"];
  voting_engine := Legislation; business_object_hash := "data"%string |}.

Definition override_calls : list call := [
  CreateLegislation 1 demo_cid override_plan (Single (demo_body demo_cid "house")) RegularRule
    {| cfg_executive := Some (demo_body demo_cid "president");
       cfg_override_signers := [demo_body demo_cid "speaker"];
       cfg_needs_guard := false; cfg_guard := None |} "tag" "data" "text";
  ExecutiveSign 4 0 false; OverrideSign 5 0 true; OverrideSign 6 0 true; OverrideSign 7 0 true].

Definition override0 : rt sample_world := genesis_at 5 1767225600000 override_world.

Definition override_end : rt sample_world :=
  foldl (fun s c => (sample_dispatch c s).2) override0 override_calls.

Lemma override_outcome : proposal_facts override_end = Some (STAGE_LEG_OVERRIDE, STATUS_PASSED).
Proof. vm_compute. reflexivity. Qed.
Lemma override_offices :
  (override_signers <$> LegislationMetas (lv override_end) !! 0) =
  Some [demo_body demo_cid "speaker"].
Proof. vm_compute. reflexivity. Qed.

(** The joint signature asks for three accounts among the holders of the
    listed offices, not for the three offices. *)
Theorem one_office_overrides : exists s, rtc sample_step override0 s /\
  proposal_facts s = Some (STAGE_LEG_OVERRIDE, STATUS_PASSED) /\
  (override_signers <$> LegislationMetas (lv s) !! 0) = Some [demo_body demo_cid "speaker"].
Proof.
  exists override_end. split; [exact (demo_calls_steps override_calls override0)|].
  exact (conj override_outcome override_offices).
Qed.

(** ** An index entry that outlives its proposal *)

(** The second body belongs to another institution, with another code. *)
Definition senate_cid : CidNumber := nth 1 joint_institutions ""%string.

Definition two_codes_world : sample_world := {|
  sw_roles := [(demo_cid, "house", 1); (senate_cid, "senate", 3)];
  sw_personal := []; sw_population := None; sw_citizens := [] |}.

Definition two_codes_plan : VotePlan := {|
  business_action_id := {| module_tag := "tag"%string; action_code := 1 |};
  plan_owner := "tag"%string; proposer_subject := Institution (demo_body demo_cid "house");
  voter_subjects := Institution <$> [demo_body demo_cid "house"; demo_body senate_cid "senate"];
  voting_engine := Legislation; business_object_hash := "data"%string |}.

Definition two_codes0 : rt sample_world := genesis_at 5 1767225600000 two_codes_world.

Definition code_entry_kept (code : InstitutionCode) (g : engine) : bool :=
  bool_decide ((code, 0) ∈ ProposalsByCode g).

Definition two_codes_call : call := CreateRepresentative 1 demo_cid two_codes_plan
  (Sequential [demo_body demo_cid "house"; demo_body senate_cid "senate"]) RegularRule []
  "tag" "data".
Definition two_codes1 : rt sample_world := (sample_dispatch two_codes_call two_codes0).2.

Definition stranded (code : InstitutionCode) (s : rt sample_world) : bool :=
  bool_decide ((p ← Proposals (ve s) !! 0; internal_code p) <> Some code) &&
  code_entry_kept code (ve s) && code_entry_kept code (cleanup_proposal_indexes 0 (ve s)).

Lemma first_code : institution_code_for_cid demo_cid = Ok (code_bytes "NRC").
Proof. vm_compute. reflexivity. Qed.
Lemma two_codes_stranded : stranded (code_bytes "NRC") two_codes1 = true.
Proof. vm_compute. reflexivity. Qed.

(** [advance_representative_body_or_finish] changes the code of the proposal
    and not its entry in [ProposalsByCode]; [cleanup_proposal_indexes] then
    looks for the new code, and the entry of the first body stays. *)
Theorem first_body_code_stranded : exists s code, rtc sample_step two_codes0 s /\
  institution_code_for_cid demo_cid = Ok code /\
  stranded code s = true.
Proof.
  exists two_codes1, (code_bytes "NRC").
  split; [apply rtc_once; exact (step_call two_codes_call two_codes0)|].
  exact (conj first_code two_codes_stranded).
Qed.
