(* ===== verification/FeePolicy.v ===== *)
(** * Fees ([primitives/src/fee_policy.rs])

    The five routes a call's fee can take, the rates, and the formula of the
    on-chain fee in whole fen on [u128]. A [Perbill] is its number of parts
    per billion. *)
From S2P Require Import Prelude Cid Types.

(** ** Routes *)

Inductive OffchainFeePayer : Type := BatchItemPayers.

Inductive FeeRoute (AccountId Balance : Type) : Type :=
| Free
| Onchain (transaction_amount : Balance) (payer_account_id : AccountId)
| Offchain (fee_amount : Balance) (payer : OffchainFeePayer)
| Vote (payer_account_id : AccountId)
| Reject.
Arguments Free {AccountId Balance}.
Arguments Onchain {AccountId Balance}.
Arguments Offchain {AccountId Balance}.
Arguments Vote {AccountId Balance}.
Arguments Reject {AccountId Balance}.

(** ** Constants *)

Definition TRANSACTION_TIP : Z := 0.
Definition ONCHAIN_FEE_RATE : Z := 1000000.
Definition ONCHAIN_MIN_FEE : Z := 10.
Definition VOTE_FLAT_FEE : Z := 100.
Definition ONCHAIN_FEE_FULLNODE_PERCENT : Z := 80.
Definition ONCHAIN_FEE_NRC_PERCENT : Z := 10.
Definition ONCHAIN_FEE_SAFETY_FUND_PERCENT : Z := 10.
Definition OFFCHAIN_MIN_FEE : Z := 1.
Definition OFFCHAIN_FEE_RATE_MIN : Z := 100000.
Definition OFFCHAIN_FEE_RATE_MAX : Z := 1000000.

(** ** The formula *)

Definition PERBILL_DENOMINATOR : Z := 1000000000.

Definition mul_perbill_round (amount rate : Z) : Z :=
  let whole := amount / PERBILL_DENOMINATOR in
  let remainder := amount mod PERBILL_DENOMINATOR in
  let whole_component := saturating_mul u128_max whole rate in
  let remainder_component :=
    saturating_add u128_max (remainder * rate) (PERBILL_DENOMINATOR / 2) / PERBILL_DENOMINATOR in
  saturating_add u128_max whole_component remainder_component.

Definition calculate_onchain_fee (amount : Z) : Z :=
  Z.max (mul_perbill_round amount ONCHAIN_FEE_RATE) ONCHAIN_MIN_FEE.

(** ** Theorems *)

Lemma onchain_fee_nonzero amount : calculate_onchain_fee amount <> 0.
Proof. unfold calculate_onchain_fee, ONCHAIN_MIN_FEE. lia. Qed.

Lemma perbill_parts amount rate :
  amount * rate + PERBILL_DENOMINATOR / 2 =
  amount / PERBILL_DENOMINATOR * rate * PERBILL_DENOMINATOR
    + (amount mod PERBILL_DENOMINATOR * rate + PERBILL_DENOMINATOR / 2).
Proof.
  rewrite (Z.div_mod amount PERBILL_DENOMINATOR) at 1 by (vm_compute; congruence). ring.
Qed.

Lemma mul_perbill_round_rounds amount rate :
  0 <= amount <= u128_max -> 0 <= rate <= PERBILL_DENOMINATOR ->
  mul_perbill_round amount rate = (amount * rate + PERBILL_DENOMINATOR / 2) / PERBILL_DENOMINATOR /\
  0 <= mul_perbill_round amount rate <= amount.
Proof.
  intros Ha Hr. assert (HD : 0 < PERBILL_DENOMINATOR) by (vm_compute; congruence).
  assert (Hle : (amount * rate + PERBILL_DENOMINATOR / 2) / PERBILL_DENOMINATOR <= amount).
  { apply Z.lt_succ_r. apply Z.div_lt_upper_bound; [done|].
    assert (PERBILL_DENOMINATOR / 2 < PERBILL_DENOMINATOR) by (vm_compute; congruence). nia. }
  assert (Hge : 0 <= (amount * rate + PERBILL_DENOMINATOR / 2) / PERBILL_DENOMINATOR).
  { apply Z.div_pos; [|done]. assert (0 <= PERBILL_DENOMINATOR / 2) by (vm_compute; congruence). nia. }
  rewrite perbill_parts, Z.div_add_l in * by lia.
  pose proof (Z.div_pos amount PERBILL_DENOMINATOR ltac:(lia) HD).
  pose proof (Z.mod_pos_bound amount PERBILL_DENOMINATOR HD).
  set (w := amount / PERBILL_DENOMINATOR) in *. set (r := amount mod PERBILL_DENOMINATOR) in *.
  assert (Hrest : 0 <= (r * rate + PERBILL_DENOMINATOR / 2) / PERBILL_DENOMINATOR).
  { apply Z.div_pos; [|done]. assert (0 <= PERBILL_DENOMINATOR / 2) by (vm_compute; congruence). nia. }
  assert (Hsmall : r * rate + PERBILL_DENOMINATOR / 2 <= u128_max).
  { unfold PERBILL_DENOMINATOR, u128_max in *. change (1000000000 / 2) with 500000000. nia. }
  unfold mul_perbill_round, saturating_mul, saturating_add.
  fold w r. rewrite (Z.min_r u128_max (r * rate + _)) by done.
  rewrite (Z.min_r u128_max (w * rate)) by nia. rewrite Z.min_r by lia. split; [done|lia].
Qed.

(** Splitting the amount into whole billions and a rest loses
    nothing: for every [u128] amount and every rate up to one hundred percent
    the result is the exactly rounded product, no operation saturates, and the
    fee never exceeds the amount. *)
Theorem mul_perbill_round_exact amount rate
    (Ha : 0 <= amount <= u128_max) (Hr : 0 <= rate <= PERBILL_DENOMINATOR) :
  mul_perbill_round amount rate =
    (amount * rate + PERBILL_DENOMINATOR / 2) / PERBILL_DENOMINATOR /\
  0 <= mul_perbill_round amount rate <= amount.
Proof. by apply mul_perbill_round_rounds. Qed.

Lemma mul_perbill_round_exact_witness :
  mul_perbill_round u128_max PERBILL_DENOMINATOR =
    (u128_max * PERBILL_DENOMINATOR + PERBILL_DENOMINATOR / 2) / PERBILL_DENOMINATOR.
Proof. apply (mul_perbill_round_exact u128_max PERBILL_DENOMINATOR); vm_compute; split; congruence. Defined.

Lemma onchain_fee_thousandth amount :
  0 <= amount <= u128_max ->
  calculate_onchain_fee amount = Z.max ((amount + 500) / 1000) ONCHAIN_MIN_FEE.
Proof.
  intros Ha. unfold calculate_onchain_fee.
  destruct (mul_perbill_round_rounds amount ONCHAIN_FEE_RATE Ha) as [-> _];
    [vm_compute; split; congruence|].
  f_equal. unfold PERBILL_DENOMINATOR, ONCHAIN_FEE_RATE. change (1000000000 / 2) with (500 * 1000000).
  rewrite <- Z.mul_add_distr_r. change 1000000000 with (1000 * 1000000).
  by rewrite Z.div_mul_cancel_r.
Qed.

(** C31: the on-chain fee is a thousandth of the amount, rounded to the
    nearest fen, but at least ten fen; it never falls as the amount grows,
    and from ten fen on it is at most the amount. *)
Theorem onchain_fee_reference a b (Ha : 0 <= a) (Hab : a <= b) (Hb : b <= u128_max) :
  calculate_onchain_fee b = Z.max ((b + 500) / 1000) ONCHAIN_MIN_FEE /\
  ONCHAIN_MIN_FEE <= calculate_onchain_fee a <= calculate_onchain_fee b /\
  calculate_onchain_fee b <= Z.max b ONCHAIN_MIN_FEE /\
  (9500 <= b -> Z.abs (1000 * calculate_onchain_fee b - b) <= 500).
Proof.
  rewrite !onchain_fee_thousandth by lia. unfold ONCHAIN_MIN_FEE.
  split; [done|]. split; [|split].
  - split; [lia|]. apply Z.max_le_compat_r, Z.div_le_mono; lia.
  - apply Z.max_le_compat_r, Z.lt_succ_r, Z.div_lt_upper_bound; lia.
  - intros Hlow. assert (10 <= (b + 500) / 1000) by (apply Z.div_le_lower_bound; lia).
    rewrite Z.max_l by lia. pose proof (Z.div_mod (b + 500) 1000 ltac:(lia)).
    pose proof (Z.mod_pos_bound (b + 500) 1000 ltac:(lia)). lia.
Qed.

Lemma onchain_fee_reference_witness :
  calculate_onchain_fee 50000 = 50 /\ ONCHAIN_MIN_FEE <= calculate_onchain_fee 499 <= 50.
Proof.
  assert (H : 50000 <= u128_max) by (vm_compute; congruence).
  destruct (onchain_fee_reference 499 50000 ltac:(lia) ltac:(lia) H) as (E & Hm & _).
  assert (E' : calculate_onchain_fee 50000 = 50) by (rewrite E; reflexivity).
  split; [exact E'|]. rewrite E' in Hm. exact Hm.
Defined.
