(* ===== verification/Ledger.v ===== *)
(** * The balances pallet, as its clients see it

    Balances belong to [pallet-balances], which is not part of the repository:
    its operations are parameters here, with the documented behaviour its
    clients rely on as laws. [map_ledger] is a concrete ledger. *)
From S2P Require Import Prelude Cid Types.

Class Currency (L : Type) : Type := {
  free_balance : L -> AccountId -> Z;
  total_issuance : L -> Z;
  minimum_balance : Z;
  (** [Currency::deposit_creating]: mints, and opens the account if needed. *)
  deposit_creating : L -> AccountId -> Z -> L;
  (** [Currency::transfer] with [KeepAlive]. *)
  transfer : L -> AccountId -> AccountId -> Z -> option L;
  (** [Balanced::withdraw], exact and preserving: [None] leaves the ledger. *)
  withdraw : L -> AccountId -> Z -> option L;
  (** [Balanced::resolve]: [None] when the credit cannot be paid in. *)
  resolve : L -> AccountId -> Z -> option L;
  (** [Imbalance::ration(first, second)]: the two parts of an amount. *)
  ration : Z -> Z -> Z -> Z * Z;
}.

(** Documented behaviour. A deposit of at least the existential deposit is
    credited in full unless the issuance would overflow; a rationed amount is
    split without loss. *)
Class CurrencyLaws (L : Type) `{!Currency L} : Prop := {
  (** Balances are [u128]. *)
  minimum_nonneg : 0 <= minimum_balance;
  free_range : forall l a, 0 <= free_balance l a <= u128_max;
  deposit_credited : forall l a v, minimum_balance <= v -> total_issuance l + v <= u128_max ->
    free_balance (deposit_creating l a v) a = free_balance l a + v /\
    total_issuance (deposit_creating l a v) = total_issuance l + v;
  deposit_elsewhere : forall l a b v, a <> b ->
    free_balance (deposit_creating l a v) b = free_balance l b;
  resolve_credited : forall l a v l', resolve l a v = Some l' ->
    free_balance l' a = free_balance l a + v /\
    forall b, a <> b -> free_balance l' b = free_balance l b;
  withdraw_taken : forall l a v l', withdraw l a v = Some l' ->
    free_balance l' a = free_balance l a - v /\
    (v <> 0 -> minimum_balance <= free_balance l' a) /\
    forall b, a <> b -> free_balance l' b = free_balance l b;
  transfer_moved : forall l a b v l', transfer l a b v = Some l' -> a <> b ->
    free_balance l' a = free_balance l a - v /\ free_balance l' b = free_balance l b + v /\
    (v <> 0 -> minimum_balance <= free_balance l' a) /\
    forall c, c <> a -> c <> b -> free_balance l' c = free_balance l c;
  ration_split : forall v first second, 0 <= v -> 0 <= first -> 0 <= second ->
    0 < first + second ->
    0 <= (ration v first second).1 /\ 0 <= (ration v first second).2 /\
    (ration v first second).1 + (ration v first second).2 = v;
  ration_first : forall v first second, 0 <= v -> 0 <= first -> 0 <= second ->
    0 < first + second -> v * first <= u128_max ->
    (ration v first second).1 = v * first / (first + second);
}.

(** ** A concrete ledger *)

Abbreviation map_ledger := (gmap AccountId Z).

(** A balance out of the width reads as the nearest one in it. *)
Definition ml_norm (v : Z) : Z := Z.max 0 (Z.min u128_max v).
Definition ml_free (l : map_ledger) (a : AccountId) : Z := ml_norm (default 0 (l !! a)).
Definition ml_issuance (l : map_ledger) : Z := map_fold (fun _ v acc => ml_norm v + acc) 0 l.

(** A change that would leave the width is refused. *)
Definition ml_move (l : map_ledger) (a : AccountId) (v : Z) : option map_ledger :=
  if decide (0 <= ml_free l a + v <= u128_max) then Some (<[a := ml_free l a + v]> l) else None.
Definition ml_take (l : map_ledger) (a : AccountId) (v : Z) : option map_ledger :=
  if decide (0 <= v /\ 111 <= ml_free l a - v) then ml_move l a (- v) else None.

#[export] Instance map_currency : Currency map_ledger := {|
  free_balance := ml_free;
  total_issuance := ml_issuance;
  minimum_balance := 111;
  deposit_creating := fun l a v => default l (ml_move l a v);
  transfer := fun l a b v => l' ← ml_take l a v; ml_move l' b v;
  withdraw := ml_take;
  resolve := ml_move;
  ration := fun v first second =>
    let one := if decide (0 <= first /\ 0 < first + second /\ 0 <= second)
      then v * first / (first + second) else v in (one, v - one);
|}.

Lemma ml_norm_range v : 0 <= ml_norm v <= u128_max.
Proof. unfold ml_norm, u128_max. lia. Qed.

Lemma ml_issuance_insert l a v :
  l !! a = None -> ml_issuance (<[a := v]> l) = ml_norm v + ml_issuance l.
Proof. intros H. unfold ml_issuance. rewrite map_fold_insert_L; [done| |done]. intros. lia. Qed.

Lemma ml_issuance_set l a v :
  ml_issuance (<[a := v]> l) = ml_issuance l - ml_free l a + ml_norm v.
Proof.
  rewrite <- insert_delete_eq, ml_issuance_insert by apply lookup_delete_eq. unfold ml_free.
  destruct (l !! a) as [w|] eqn:Hw; simpl.
  - rewrite <- (insert_delete_id l a w Hw) at 2.
    rewrite ml_issuance_insert by apply lookup_delete_eq. lia.
  - rewrite delete_id by done. change (ml_norm 0) with 0. lia.
Qed.

Lemma ml_issuance_nonneg l : 0 <= ml_issuance l.
Proof.
  unfold ml_issuance. apply (map_fold_weak_ind (fun r _ => 0 <= r)); [done|].
  intros k v m r _ Hr. pose proof (ml_norm_range v). lia.
Qed.

Lemma ml_free_issuance l a : ml_free l a <= ml_issuance l.
Proof.
  pose proof (ml_issuance_set l a 0) as H. pose proof (ml_issuance_nonneg (<[a := 0]> l)).
  change (ml_norm 0) with 0 in H. lia.
Qed.

Lemma ml_move_Some l a v l' :
  ml_move l a v = Some l' ->
  ml_free l' a = ml_free l a + v /\ (forall b, a <> b -> ml_free l' b = ml_free l b) /\
  ml_issuance l' = ml_issuance l + v.
Proof.
  unfold ml_move. case_decide as Hr; [|done]. intros [= <-].
  assert (ml_norm (ml_free l a + v) = ml_free l a + v) as Hn by (unfold ml_norm; lia).
  split; [unfold ml_free at 1; rewrite lookup_insert_eq; exact Hn|].
  split; [intros b Hb; unfold ml_free; by rewrite lookup_insert_ne|].
  rewrite ml_issuance_set, Hn. lia.
Qed.

Lemma ml_take_Some l a v l' :
  ml_take l a v = Some l' ->
  ml_free l' a = ml_free l a - v /\ 111 <= ml_free l' a /\
  (forall b, a <> b -> ml_free l' b = ml_free l b).
Proof.
  unfold ml_take. case_decide as Ht; [|done]. intros (H1 & H2 & _)%ml_move_Some. split_and!; [lia|lia|done].
Qed.

#[export] Instance map_currency_laws : CurrencyLaws map_ledger.
Proof.
  split; simpl.
  - done.
  - intros l a. apply ml_norm_range.
  - intros l a v Hv Ht. pose proof (ml_free_issuance l a). pose proof (ml_norm_range (default 0 (l !! a))).
    assert (is_Some (ml_move l a v)) as [l' Hl'].
    { unfold ml_move. rewrite decide_True; [done|]. unfold ml_free in *. lia. }
    rewrite Hl'. simpl. apply ml_move_Some in Hl' as (? & _ & ?). done.
  - intros l a b v Hb. destruct (ml_move l a v) as [l'|] eqn:Hm; [|done].
    apply ml_move_Some in Hm as (_ & H & _). simpl. by apply H.
  - intros l a v l' (? & ? & _)%ml_move_Some. done.
  - intros l a v l' (? & ? & ?)%ml_take_Some. done.
  - intros l a b v l' Ht Hab. destruct (ml_take l a v) as [l1|] eqn:H1; [|done]. simpl in Ht.
    apply ml_take_Some in H1 as (A1 & A2 & A3). apply ml_move_Some in Ht as (B1 & B2 & _).
    rewrite (B2 a) by done. split; [done|]. split; [by rewrite B1, A3|]. split; [done|].
    intros c Hca Hcb. by rewrite B2, A3.
  - intros v first second Hv _ _ _. case_decide as Hd; [|simpl; lia]. simpl.
    pose proof (Z.div_pos (v * first) (first + second) ltac:(nia) ltac:(lia)).
    assert (v * first / (first + second) <= v) by (apply Z.div_le_upper_bound; nia). lia.
  - intros v first second Hv Hf Hs Ht _. by rewrite decide_True.
Qed.
