(* ===== verification/FullnodeIssuance.v ===== *)
(** * Full-node issuance ([issuance/fullnode-issuance/src/lib.rs])

    The reward of the author of each block from height 1 to 9,999,999: the
    binding of the account that receives it, the payment at the end of the
    block, and the audit counters. *)
From S2P Require Import Prelude Cid Types Ledger.

(** ** Constants ([primitives/src/pow_const.rs]) *)

Definition FULLNODE_BLOCK_REWARD : Z := 999900.
Definition FULLNODE_REWARD_START_BLOCK : Z := 1.
Definition FULLNODE_REWARD_END_BLOCK : Z := 9999999.
Definition FULLNODE_REWARD_BLOCK_COUNT : Z :=
  FULLNODE_REWARD_END_BLOCK - FULLNODE_REWARD_START_BLOCK + 1.
Definition FULLNODE_TOTAL_ISSUANCE : Z := FULLNODE_BLOCK_REWARD * FULLNODE_REWARD_BLOCK_COUNT.

(** ** Storage, events, errors *)

Inductive FullnodeEvent : Type :=
| RewardAccountBound (miner_account_id reward_account_id : AccountId)
| FullnodeIssuanceIssued (block : Z) (miner_account_id reward_account_id : AccountId) (amount : Z)
| FullnodeIssuanceSkippedNoAuthor (block : Z)
| RewardAccountRebound (miner_account_id new_reward_account_id : AccountId).

Inductive FullnodeError : Type :=
| RewardAccountAlreadyBound | RewardAccountNotBound | RewardAccountCannotBeMiner
| RewardAccountUnchanged.

Record fullnode (L : Type) : Type := {
  RewardAccountIdByMiner : gmap AccountId AccountId;
  LastAuthoredBlockByMiner : gmap AccountId Z;
  RewardedBlockCount : Z;
  TotalFullnodeIssued : Z;
  LastRewardAudit : option (Z * AccountId * AccountId * Z);
  fullnode_events : list FullnodeEvent;
  fullnode_ledger : L;
}.
Arguments RewardAccountIdByMiner {L}.
Arguments LastAuthoredBlockByMiner {L}.
Arguments RewardedBlockCount {L}.
Arguments TotalFullnodeIssued {L}.
Arguments LastRewardAudit {L}.
Arguments fullnode_events {L}.
Arguments fullnode_ledger {L}.

Section FullnodeIssuance.
Context {L : Type} `{Cur : !Currency L}.
Implicit Types s : fullnode L.

Definition bound (miner reward : AccountId) (e : FullnodeEvent) s : fullnode L := {|
  RewardAccountIdByMiner := <[miner := reward]> (RewardAccountIdByMiner s);
  LastAuthoredBlockByMiner := LastAuthoredBlockByMiner s;
  RewardedBlockCount := RewardedBlockCount s;
  TotalFullnodeIssued := TotalFullnodeIssued s;
  LastRewardAudit := LastRewardAudit s;
  fullnode_events := fullnode_events s ++ [e];
  fullnode_ledger := fullnode_ledger s |}.

(** ** Calls *)

Definition bind_reward_account (miner reward : AccountId) : M (fullnode L) FullnodeError unit :=
  taken ← gets (fun s => bool_decide (is_Some (RewardAccountIdByMiner s !! miner)));
  ensure (negb taken) RewardAccountAlreadyBound ;;
  ensure (negb (bool_decide (reward = miner))) RewardAccountCannotBeMiner ;;
  modify (bound miner reward (RewardAccountBound miner reward)).

Definition rebind_reward_account (miner new_reward : AccountId)
    : M (fullnode L) FullnodeError unit :=
  current ← gets (fun s => RewardAccountIdByMiner s !! miner);
  current ← ok_or current RewardAccountNotBound;
  ensure (negb (bool_decide (new_reward = miner))) RewardAccountCannotBeMiner ;;
  ensure (negb (bool_decide (new_reward = current))) RewardAccountUnchanged ;;
  modify (bound miner new_reward (RewardAccountRebound miner new_reward)).

(** ** The end of a block, whose author the consensus digest names *)

Definition skipped (n : Z) s : fullnode L := {|
  RewardAccountIdByMiner := RewardAccountIdByMiner s;
  LastAuthoredBlockByMiner := LastAuthoredBlockByMiner s;
  RewardedBlockCount := RewardedBlockCount s;
  TotalFullnodeIssued := TotalFullnodeIssued s;
  LastRewardAudit := LastRewardAudit s;
  fullnode_events := fullnode_events s ++ [FullnodeIssuanceSkippedNoAuthor n];
  fullnode_ledger := fullnode_ledger s |}.

Definition rewarded (n : Z) (author : AccountId) s : fullnode L :=
  let recipient := default author (RewardAccountIdByMiner s !! author) in
  let reward := FULLNODE_BLOCK_REWARD in {|
  RewardAccountIdByMiner := RewardAccountIdByMiner s;
  LastAuthoredBlockByMiner := <[author := n]> (LastAuthoredBlockByMiner s);
  RewardedBlockCount := saturating_add u32_max (RewardedBlockCount s) 1;
  TotalFullnodeIssued := saturating_add u128_max (TotalFullnodeIssued s) reward;
  LastRewardAudit := Some (n, author, recipient, reward);
  fullnode_events := fullnode_events s ++ [FullnodeIssuanceIssued n author recipient reward];
  fullnode_ledger := deposit_creating (fullnode_ledger s) recipient reward |}.

Definition fullnode_on_finalize (n : Z) (find_author : option AccountId) s : fullnode L :=
  if decide (n < FULLNODE_REWARD_START_BLOCK \/ n > FULLNODE_REWARD_END_BLOCK) then s
  else match find_author with
  | None => skipped n s
  | Some author => rewarded n author s
  end.

Definition fullnode_genesis (l : L) : fullnode L :=
  {| RewardAccountIdByMiner := ∅; LastAuthoredBlockByMiner := ∅; RewardedBlockCount := 0;
     TotalFullnodeIssued := 0; LastRewardAudit := None; fullnode_events := [];
     fullnode_ledger := l |}.

(** ** A chain of blocks: calls, then the end of the block *)

Inductive fullnode_call : Type :=
| BindRewardAccount (miner reward : AccountId)
| RebindRewardAccount (miner new_reward : AccountId).

Definition fullnode_dispatch (c : fullnode_call) s : fullnode L :=
  match c with
  | BindRewardAccount miner reward => (transact (bind_reward_account miner reward) s).2
  | RebindRewardAccount miner reward => (transact (rebind_reward_account miner reward) s).2
  end.

Definition fullnode_block : Type := list fullnode_call * option AccountId.

(** The blocks from height [n] on. *)
Fixpoint fullnode_run (n : Z) (blocks : list fullnode_block) s : fullnode L :=
  match blocks with
  | [] => s
  | (calls, author) :: rest =>
      fullnode_run (n + 1) rest
        (fullnode_on_finalize n author (foldl (fun s c => fullnode_dispatch c s) s calls))
  end.

(** The blocks that earn a reward: an author, and a height in the interval. *)
Fixpoint rewarded_blocks (n : Z) (blocks : list fullnode_block) : Z :=
  match blocks with
  | [] => 0
  | (_, author) :: rest =>
      (if decide (is_Some author /\ FULLNODE_REWARD_START_BLOCK <= n <= FULLNODE_REWARD_END_BLOCK)
       then 1 else 0) + rewarded_blocks (n + 1) rest
  end.

(** ** Lemmas *)

Lemma dispatch_keeps c s :
  RewardedBlockCount (fullnode_dispatch c s) = RewardedBlockCount s /\
  TotalFullnodeIssued (fullnode_dispatch c s) = TotalFullnodeIssued s /\
  fullnode_ledger (fullnode_dispatch c s) = fullnode_ledger s.
Proof.
  destruct c as [m r|m r]; simpl; unfold transact.
  - destruct (bind_reward_account m r s) as [[[]|] s'] eqn:Hr; [|done].
    unfold bind_reward_account in Hr. by run_inv.
  - destruct (rebind_reward_account m r s) as [[[]|] s'] eqn:Hr; [|done].
    unfold rebind_reward_account in Hr. by run_inv.
Qed.

Lemma calls_keep calls s :
  let s' := foldl (fun s c => fullnode_dispatch c s) s calls in
  RewardedBlockCount s' = RewardedBlockCount s /\
  TotalFullnodeIssued s' = TotalFullnodeIssued s /\ fullnode_ledger s' = fullnode_ledger s.
Proof.
  revert s. induction calls as [|c calls IH]; intros s; simpl; [done|].
  destruct (dispatch_keeps c s) as (? & ? & ?). destruct (IH (fullnode_dispatch c s)) as (? & ? & ?).
  by split_and!; etransitivity.
Qed.

Lemma rewarded_blocks_bounds n blocks :
  0 <= rewarded_blocks n blocks <=
    Z.max 0 (FULLNODE_REWARD_END_BLOCK + 1 - Z.max n FULLNODE_REWARD_START_BLOCK).
Proof.
  revert n. induction blocks as [|[calls a] rest IH]; intros n; simpl; [lia|].
  specialize (IH (n + 1)). case_decide as Hd; [destruct Hd as [_ Hd]|]; lia.
Qed.

Definition audited s : Prop :=
  TotalFullnodeIssued s = FULLNODE_BLOCK_REWARD * RewardedBlockCount s.

Lemma run_counts n blocks s :
  0 <= RewardedBlockCount s ->
  RewardedBlockCount s + rewarded_blocks n blocks <= FULLNODE_REWARD_BLOCK_COUNT -> audited s ->
  let s' := fullnode_run n blocks s in
  RewardedBlockCount s' = RewardedBlockCount s + rewarded_blocks n blocks /\ audited s'.
Proof.
  revert n s. induction blocks as [|[calls a] rest IH]; intros n s Hpos Hle Ha; simpl; [split; [lia|done]|].
  cbn [rewarded_blocks] in Hle. destruct (calls_keep calls s) as (Hc & Ht & _).
  set (s1 := foldl _ s calls) in *. pose proof (rewarded_blocks_bounds (n + 1) rest) as Hb.
  unfold fullnode_on_finalize.
  destruct (decide (n < FULLNODE_REWARD_START_BLOCK \/ n > FULLNODE_REWARD_END_BLOCK)) as [Hr|Hr].
  - rewrite decide_False in Hle |- * by (intros [_ ?]; lia).
    destruct (IH (n + 1) s1) as [IH1 IH2]; [lia|lia|unfold audited in *; congruence|].
    split; [lia|done].
  - destruct a as [author|].
    + rewrite decide_True in Hle |- * by (split; [done|lia]).
      assert (Hr1 : RewardedBlockCount (rewarded n author s1) = RewardedBlockCount s + 1).
      { simpl. unfold saturating_add. rewrite Hc. apply Z.min_r.
        change FULLNODE_REWARD_BLOCK_COUNT with 9999999 in Hle. unfold u32_max. lia. }
      destruct (IH (n + 1) (rewarded n author s1)) as [IH1 IH2]; rewrite ?Hr1 in *; [lia..| |].
      * unfold audited in *. rewrite Hr1. simpl. unfold saturating_add. rewrite Ht, Ha.
        change FULLNODE_REWARD_BLOCK_COUNT with 9999999 in Hle.
        unfold FULLNODE_BLOCK_REWARD, u128_max. lia.
      * split; [lia|done].
    + rewrite decide_False in Hle |- * by (by intros [[? ?] _]).
      destruct (IH (n + 1) (skipped n s1)) as [IH1 IH2]; simpl in *; [lia|lia| |].
      * unfold audited in *. simpl. congruence.
      * split; [lia|done].
Qed.

(** C30: along any chain from block 1 the number of rewarded blocks is
    exactly the number of blocks with a known author in the fixed interval of
    heights, the issued total is that number times the fixed reward (no
    counter ever saturates), and it never exceeds the planned issuance, so
    nothing is issued once all heights are used. *)
Theorem fullnode_issuance_exact blocks (l : L) :
  let s := fullnode_run 1 blocks (fullnode_genesis l) in
  RewardedBlockCount s = rewarded_blocks 1 blocks /\
  TotalFullnodeIssued s = FULLNODE_BLOCK_REWARD * rewarded_blocks 1 blocks /\
  0 <= TotalFullnodeIssued s <= FULLNODE_TOTAL_ISSUANCE.
Proof.
  pose proof (rewarded_blocks_bounds 1 blocks) as Hb.
  destruct (run_counts 1 blocks (fullnode_genesis l)) as [H1 H2]; [done| |done|].
  { simpl. change FULLNODE_REWARD_BLOCK_COUNT with 9999999.
    unfold FULLNODE_REWARD_END_BLOCK, FULLNODE_REWARD_START_BLOCK in Hb. lia. }
  simpl in H1. cbv zeta. unfold audited in H2. rewrite H2, H1. split; [done|]. split; [done|].
  unfold FULLNODE_TOTAL_ISSUANCE, FULLNODE_REWARD_BLOCK_COUNT, FULLNODE_BLOCK_REWARD,
    FULLNODE_REWARD_END_BLOCK, FULLNODE_REWARD_START_BLOCK in *. lia.
Qed.

(** The account bound to a miner is never the miner itself. *)
Definition bindings_wf s : Prop :=
  forall miner reward, RewardAccountIdByMiner s !! miner = Some reward -> reward <> miner.

(** A miner binds an account once and may then change it, never to
    its own account and never to the one already bound; a refused call changes
    nothing; and the reward of a block goes to the bound account, or to the
    author while none is bound, once and in full. *)
Theorem reward_account_calls miner reward n s :
  (bindings_wf s -> bindings_wf (fullnode_dispatch (BindRewardAccount miner reward) s) /\
     bindings_wf (fullnode_dispatch (RebindRewardAccount miner reward) s)) /\
  (transact (bind_reward_account miner reward) s =
     match RewardAccountIdByMiner s !! miner with
     | Some _ => (Err RewardAccountAlreadyBound, s)
     | None => if decide (reward = miner) then (Err RewardAccountCannotBeMiner, s)
               else (Ok tt, bound miner reward (RewardAccountBound miner reward) s)
     end) /\
  (transact (rebind_reward_account miner reward) s =
     match RewardAccountIdByMiner s !! miner with
     | None => (Err RewardAccountNotBound, s)
     | Some old => if decide (reward = miner) then (Err RewardAccountCannotBeMiner, s)
                   else if decide (reward = old) then (Err RewardAccountUnchanged, s)
                   else (Ok tt, bound miner reward (RewardAccountRebound miner reward) s)
     end) /\
  (FULLNODE_REWARD_START_BLOCK <= n <= FULLNODE_REWARD_END_BLOCK ->
   fullnode_ledger (fullnode_on_finalize n (Some miner) s) =
     deposit_creating (fullnode_ledger s) (default miner (RewardAccountIdByMiner s !! miner))
       FULLNODE_BLOCK_REWARD) /\
  (~ FULLNODE_REWARD_START_BLOCK <= n <= FULLNODE_REWARD_END_BLOCK ->
   fullnode_on_finalize n (Some miner) s = s).
Proof.
  assert (Hb : transact (bind_reward_account miner reward) s =
     match RewardAccountIdByMiner s !! miner with
     | Some _ => (Err RewardAccountAlreadyBound, s)
     | None => if decide (reward = miner) then (Err RewardAccountCannotBeMiner, s)
               else (Ok tt, bound miner reward (RewardAccountBound miner reward) s)
     end).
  { unfold transact, bind_reward_account. autorewrite with run.
    destruct (RewardAccountIdByMiner s !! miner); [done|].
    by case_bool_decide; case_decide. }
  assert (Hrb : transact (rebind_reward_account miner reward) s =
     match RewardAccountIdByMiner s !! miner with
     | None => (Err RewardAccountNotBound, s)
     | Some old => if decide (reward = miner) then (Err RewardAccountCannotBeMiner, s)
                   else if decide (reward = old) then (Err RewardAccountUnchanged, s)
                   else (Ok tt, bound miner reward (RewardAccountRebound miner reward) s)
     end).
  { unfold transact, rebind_reward_account. autorewrite with run.
    destruct (RewardAccountIdByMiner s !! miner); autorewrite with run; [|done].
    repeat (case_bool_decide || case_decide); done. }
  split; [|split; [exact Hb|split; [exact Hrb|]]].
  - intros Hwf. assert (Hnew : forall e, reward <> miner -> bindings_wf (bound miner reward e s)).
    { intros e Hne m r. simpl. intros [[<- <-]|[_ Hr]]%lookup_insert_Some; [done|by apply Hwf]. }
    unfold fullnode_dispatch. rewrite Hb, Hrb. split; repeat (case_match || case_decide); simpl; auto.
  - unfold fullnode_on_finalize. split; intros; [rewrite decide_False by lia|rewrite decide_True by lia]; done.
Qed.
End FullnodeIssuance.
