(* ===== verification/ProvincialBank.v ===== *)
(** * Interest of the provincial banks ([issuance/provincialbank-interest/src/lib.rs])

    At the last block of each of the first hundred years every provincial
    bank's main account receives interest on its stake: one percent in the
    first year, a hundredth of a percent less each year. A year is settled as
    a whole or not at all. *)
From S2P Require Import Prelude Cid Types Ledger.

(** ** Constants ([primitives/src/core_const.rs]) and banks ([china_ch.rs]) *)

Definition PROVINCIALBANK_INITIAL_INTEREST_BP : Z := 100.
Definition PROVINCIALBANK_INTEREST_DECREASE_BP : Z := 1.
Definition PROVINCIALBANK_INTEREST_DURATION_YEARS : Z := 100.
Definition BASIS_POINTS_DENOMINATOR : Z := 10000.

(** The fields of the bank table the settlement reads, in the order of the
    table; the 32 bytes of an account as one number. *)
Record bank : Type := { citizens_number : Z; stake_amount : Z; main_account : Z }.

Definition CHINA_CH_banks : list bank := [
  {| citizens_number := 10913902; stake_amount := 109139020000;
     main_account := 0xaf881a7feb5ea6653fcfc1e801308b4cc0aeedf85bd0674c992830a4e2ccfc46 |};
  {| citizens_number := 28157064; stake_amount := 281570640000;
     main_account := 0x86f1e88c787286ab371cef9ca4ada192f6d98e950cba5586de3280a0ad748c33 |};
  {| citizens_number := 106012864; stake_amount := 1060128640000;
     main_account := 0x46fb2dfc71054c9d5187772dd69f4097636454a679a14c73ff20409c000de1c8 |};
  {| citizens_number := 50126804; stake_amount := 501268040000;
     main_account := 0xaece89d4edcbc584933fc22f306dd855de67fbeb9bd13223bc7c9c4d8be490f8 |};
  {| citizens_number := 41540086; stake_amount := 415400860000;
     main_account := 0x329e53e43c1a68a6a31aa88705c576963e4ff230abbcea9a09be369f60af599e |};
  {| citizens_number := 10081232; stake_amount := 100812320000;
     main_account := 0xe5fbc89f5366aeb575380066fc4df33f3938d1376087108787f2549cbec4a779 |};
  {| citizens_number := 46821766; stake_amount := 468217660000;
     main_account := 0x5b2b6206e34cd3e0540b90fe44818c52ed4361e3425186889c29f186574b55aa |};
  {| citizens_number := 38562148; stake_amount := 385621480000;
     main_account := 0x155dcbfa1fe28f6a085db3373c5a30e2bfb796713feb8e624d4e63d229f8e079 |};
  {| citizens_number := 66444864; stake_amount := 664448640000;
     main_account := 0xd6b3115e4b1aae55f1c3601a7b0612c304b8d9699cc7a9993fd182382e77ad0c |};
  {| citizens_number := 45188635; stake_amount := 451886350000;
     main_account := 0xde3584a03bd971117b22a746b5ce1dcea73828d76e079882bd6e0b54db126bca |};
  {| citizens_number := 64567588; stake_amount := 645675880000;
     main_account := 0x4b05f4fd4e07fe55084d26a64ca7fa787681e5130dd02344851d5f1ea93e95e0 |};
  {| citizens_number := 84748016; stake_amount := 847480160000;
     main_account := 0x3f75ec35139fe076e006ebc8c0352dfbba3d1a7d484a0ff33a3984426932dd4e |};
  {| citizens_number := 101527453; stake_amount := 1015274530000;
     main_account := 0x85f850faf1f4ace6c3169a61fbe129e2486878dae1d6380a698c2a0fcd70a564 |};
  {| citizens_number := 34915616; stake_amount := 349156160000;
     main_account := 0x7cb015e5de047a799f66b33bef38f2ec28505d87ffa083e741dd498677cdf5d2 |};
  {| citizens_number := 99365519; stake_amount := 993655190000;
     main_account := 0x6efbdece0985faa711ad64f07bcce5e706bac2d127aedf413f8c8f577441d397 |};
  {| citizens_number := 56282021; stake_amount := 562820210000;
     main_account := 0x8794b9837ea3ea84b68af195ff5815bf260fc8f085dd8eec0646d3dd17a3eac4 |};
  {| citizens_number := 54543553; stake_amount := 545435530000;
     main_account := 0x0405200fc6a67d2b4a5b1602ccc55009bfa0148c7f4d7e4552a7ec6b8c561f96 |};
  {| citizens_number := 33824101; stake_amount := 338241010000;
     main_account := 0xd3d8e94d9dc2eb0457ebb871d551e46ba749cdfaae97e295ca20356add922fda |};
  {| citizens_number := 32054159; stake_amount := 320541590000;
     main_account := 0x8e7397e21e3c7d345b68fbeb3e479936bec8f697cb83cf90b81382d6ac5f7cab |};
  {| citizens_number := 80310245; stake_amount := 803102450000;
     main_account := 0x445832e057237b6c0ca00d9ed474e9fc01d28e3f6f4c7d8cc7c4a3d61785ae69 |};
  {| citizens_number := 20617465; stake_amount := 206174650000;
     main_account := 0xd36f42f0b356092a5bee8d0df2d8c44fef5e4130b543aeedb4b0a4171a0ebe10 |};
  {| citizens_number := 21893095; stake_amount := 218930950000;
     main_account := 0x5ecefffbb5c631d39618f08c952ad6bc34e0365c80ff3f73221e28bd4d6cdddf |};
  {| citizens_number := 24720871; stake_amount := 247208710000;
     main_account := 0x21723c4ffbdedfe3dc03f8f99f2be69d38974cefb8baaa5ae0dccb2aa19a2894 |};
  {| citizens_number := 24870895; stake_amount := 248708950000;
     main_account := 0x3e32836b01771c6e78ca0352f272a1c9a6f94a48c2fe43eb404ed12a28b0556f |};
  {| citizens_number := 22780354; stake_amount := 227803540000;
     main_account := 0x880a95a01195ecab49863ac2941da1b3e24d1498b975d8bf17fb658e27f7d355 |};
  {| citizens_number := 24073453; stake_amount := 240734530000;
     main_account := 0xcfd73254a825eda01cf08614205b4175d682613604e795982af1507a40b768af |};
  {| citizens_number := 42591407; stake_amount := 425914070000;
     main_account := 0xfe9782b1cb4961ee45717105db51d7f9dca16d87c3399125778a9140ee71b9b1 |};
  {| citizens_number := 7202654; stake_amount := 72026540000;
     main_account := 0x7e802a3dc6982cacc75bfa02e46bc8f1d074eb55f92acba831e5fbfdfa656627 |};
  {| citizens_number := 5030542; stake_amount := 50305420000;
     main_account := 0xe52d727901162c6e4cf6e03f2066e057399ad9292001820d436dabdec2ed0679 |};
  {| citizens_number := 61027171; stake_amount := 610271710000;
     main_account := 0x0003751d234a7a8afd21b2f5ec07f7bfc8232b20e38a7cd3f7b2c261bf164a7f |};
  {| citizens_number := 23561236; stake_amount := 235612360000;
     main_account := 0x6e52e744891abe902a42b039276cbf0593989d4ed4806fda54d19c69a73cda14 |};
  {| citizens_number := 2763853; stake_amount := 27638530000;
     main_account := 0xe84daa85a070ae64eb1b7f18f75223158039349276df7e697737ee19086fe34b |};
  {| citizens_number := 9880442; stake_amount := 98804420000;
     main_account := 0xe3e528582c58cb319c0941bef1354b8303d2c1a9865b18f73b107e2354cee5e6 |};
  {| citizens_number := 4513098; stake_amount := 45130980000;
     main_account := 0x0016695ce634d377fc5348f6e31bac12f89c275112bbf0683783a026e7d6e1bb |};
  {| citizens_number := 2627999; stake_amount := 26279990000;
     main_account := 0xcd15753c666a0604b68cf9a2af1626e17f0a259da8db94c3c54d4a092fbeac9c |};
  {| citizens_number := 7833021; stake_amount := 78330210000;
     main_account := 0x9f5bd94ff37a8d3f04c8e90560782f5c6f20477bf813059e4d8bb3c17ae2bcc6 |};
  {| citizens_number := 5634164; stake_amount := 56341640000;
     main_account := 0x0da105fd6917c7703b6f357eeb7e05c445c63200eaab80efa93a66b1b286f9b6 |};
  {| citizens_number := 4664727; stake_amount := 46647270000;
     main_account := 0x219a983e60a6e9f684632e0783374f4fec3325f46d5c7de3cb1d05dde7599193 |};
  {| citizens_number := 893415; stake_amount := 8934150000;
     main_account := 0xd2f1ca163d87fcc96546ebd5891c2487f21b6fd1702de8a1182da79651cc89a7 |};
  {| citizens_number := 12110780; stake_amount := 121107800000;
     main_account := 0x6c59fa9059358d7bf95f83b0c4eaaf6f2e4837a7151174e128ffd2acc8f23f39 |};
  {| citizens_number := 15489562; stake_amount := 154895620000;
     main_account := 0x8d59d4a31ab0cb729ce80b42d1d82f50d87a8557b1008a960a30892772a7d296 |};
  {| citizens_number := 3991080; stake_amount := 39910800000;
     main_account := 0x4123d536f6277e041f1b983274fa77ecb004e698e8195bf81263277a3e92a750 |};
  {| citizens_number := 8738458; stake_amount := 87384580000;
     main_account := 0xa2f41e35019070029a4fc5a56b379973d51c48a5dab940a010bdd8e28c4ec434 |}].


(** ** Storage *)

Record ProvincialBankInterestAudit : Type :=
  { year : Z; bank_count : Z; total_interest : Z }.

Inductive BankEvent : Type :=
| ProvincialBankInterestMinted (year : Z) (account_id : AccountId) (amount : Z)
| ProvincialBankYearSettled (year bank_count total_interest : Z).

Inductive SettlementError : Type :=
| InvalidBlocksPerYear | PreviousYearMismatch | AccountDecodeFailed
| InterestOverflow | TotalInterestOverflow.

Record bank_store (L : Type) : Type := {
  LastSettledYear : Z;
  TotalProvincialBankInterestIssued : Z;
  LastProvincialBankInterestAudit : option ProvincialBankInterestAudit;
  bank_events : list BankEvent;
  bank_ledger : L;
}.
Arguments LastSettledYear {L}.
Arguments TotalProvincialBankInterestIssued {L}.
Arguments LastProvincialBankInterestAudit {L}.
Arguments bank_events {L}.
Arguments bank_ledger {L}.

(** ** Interest *)

Definition interest_bp_for_year (year : Z) : Z :=
  let decay := saturating_mul u32_max (saturating_sub year 1) PROVINCIALBANK_INTEREST_DECREASE_BP in
  saturating_sub PROVINCIALBANK_INITIAL_INTEREST_BP decay.

Definition interest_for_principal (principal year : Z) : option Z :=
  (fun gross => gross / BASIS_POINTS_DENOMINATOR) <$>
    checked_mul u128_max principal (interest_bp_for_year year).

(** [try_fold] with [checked_add]. *)
Fixpoint total_of (f : bank -> option Z) (total : Z) (l : list bank) : option Z :=
  match l with
  | [] => Some total
  | b :: l => i ← f b; t ← checked_add u128_max total i; total_of f t l
  end.

Definition expected_audit (year : Z) : option ProvincialBankInterestAudit :=
  total ← total_of (fun b => interest_for_principal (stake_amount b) year) 0 CHINA_CH_banks;
  count ← bounded_uint u32_max (Z.of_nat (length CHINA_CH_banks));
  Some {| year := year; bank_count := count; total_interest := total |}.

(** The first years, one after the other ([expected_total_through_year]). *)
Fixpoint expected_total_through_year (last_year : nat) : option Z :=
  match last_year with
  | O => Some 0
  | S y =>
      total ← expected_total_through_year y;
      audit ← expected_audit (Z.of_nat (S y));
      checked_add u128_max total (total_interest audit)
  end.

Section ProvincialBank.
Context {L : Type} `{Cur : !Currency L}.
(** [BlocksPerYear] and [AccountId::decode] of the runtime. *)
Context (BlocksPerYear : Z) (decode : Z -> option AccountId).
Implicit Types s : bank_store L.

Definition settlement_year (n : Z) : option Z :=
  if decide (BlocksPerYear = 0 \/ n = 0 \/ n mod BlocksPerYear <> 0) then None
  else
    year ← bounded_uint u32_max (n / BlocksPerYear);
    if decide (year <= PROVINCIALBANK_INTEREST_DURATION_YEARS) then Some year else None.

(** ** Settlement *)

Definition credited (account : AccountId) (amount : Z) s : bank_store L := {|
  LastSettledYear := LastSettledYear s;
  TotalProvincialBankInterestIssued := TotalProvincialBankInterestIssued s;
  LastProvincialBankInterestAudit := LastProvincialBankInterestAudit s;
  bank_events := bank_events s;
  bank_ledger := deposit_creating (bank_ledger s) account amount |}.

Definition noted (e : BankEvent) s : bank_store L := {|
  LastSettledYear := LastSettledYear s;
  TotalProvincialBankInterestIssued := TotalProvincialBankInterestIssued s;
  LastProvincialBankInterestAudit := LastProvincialBankInterestAudit s;
  bank_events := bank_events s ++ [e];
  bank_ledger := bank_ledger s |}.

Definition settled_with (total y : Z) (audit : ProvincialBankInterestAudit) s : bank_store L := {|
  LastSettledYear := y;
  TotalProvincialBankInterestIssued := total;
  LastProvincialBankInterestAudit := Some audit;
  bank_events := bank_events s;
  bank_ledger := bank_ledger s |}.

(** The loop over the banks. *)
Fixpoint pay_banks (year issued : Z) (l : list bank) : M (bank_store L) SettlementError Z :=
  match l with
  | [] => mret issued
  | b :: l =>
      account ← ok_or (decode (main_account b)) AccountDecodeFailed;
      interest ← ok_or (interest_for_principal (stake_amount b) year) InterestOverflow;
      modify (credited account interest) ;;
      issued ← ok_or (checked_add u128_max issued interest) TotalInterestOverflow;
      modify (noted (ProvincialBankInterestMinted year account interest)) ;;
      pay_banks year issued l
  end.

Definition settle_year (y : Z) : M (bank_store L) SettlementError unit :=
  ensure (negb (bool_decide (BlocksPerYear = 0))) InvalidBlocksPerYear ;;
  last ← gets LastSettledYear;
  ensure (bool_decide (last = saturating_sub y 1)) PreviousYearMismatch ;;
  audit ← ok_or (expected_audit y) TotalInterestOverflow;
  issued ← pay_banks y 0 CHINA_CH_banks;
  ensure (bool_decide (issued = total_interest audit)) TotalInterestOverflow ;;
  issued_before ← gets TotalProvincialBankInterestIssued;
  total ← ok_or (checked_add u128_max issued_before issued) TotalInterestOverflow;
  modify (settled_with total y audit) ;;
  modify (noted (ProvincialBankYearSettled y (bank_count audit) (total_interest audit))).

(** A settlement that fails is rolled back and only logged. *)
Definition bank_on_finalize (n : Z) s : bank_store L :=
  match settlement_year n with
  | None => s
  | Some y => (transact (settle_year y) s).2
  end.

Definition bank_genesis (l : L) : bank_store L :=
  {| LastSettledYear := 0; TotalProvincialBankInterestIssued := 0;
     LastProvincialBankInterestAudit := None; bank_events := []; bank_ledger := l |}.

(** Blocks 1 to [n]. *)
Fixpoint bank_run (n : nat) s : bank_store L :=
  match n with
  | O => s
  | S n => bank_on_finalize (Z.of_nat (S n)) (bank_run n s)
  end.

(** ** Lemmas *)

(** Everyone is paid: the ledger after the loop. *)
Definition pay_all (y : Z) (l : list bank) (led : L) : L :=
  foldl (fun led b => deposit_creating led (default 0 (decode (main_account b)))
    (default 0 (interest_for_principal (stake_amount b) y))) led l.

Lemma pay_banks_run y l issued t s :
  (forall b, b ∈ l -> is_Some (decode (main_account b))) ->
  total_of (fun b => interest_for_principal (stake_amount b) y) issued l = Some t ->
  exists s', pay_banks y issued l s = (Ok t, s') /\
    LastSettledYear s' = LastSettledYear s /\
    TotalProvincialBankInterestIssued s' = TotalProvincialBankInterestIssued s /\
    bank_ledger s' = pay_all y l (bank_ledger s).
Proof.
  revert issued s. induction l as [|b l IH]; intros issued s Hdec Ht; simpl in *.
  { injection Ht as <-. by exists s. }
  destruct (Hdec b) as [a Ha]; [by left|]. rewrite Ha. autorewrite with run.
  destruct (interest_for_principal (stake_amount b) y) as [i|]; [|done]. simpl in Ht.
  autorewrite with run. destruct (checked_add u128_max issued i) as [t'|]; [|done]. simpl in Ht.
  autorewrite with run. destruct (IH t' (noted (ProvincialBankInterestMinted y a i) (credited a i s)))
    as (s' & Hr & H1 & H2 & H3); [intros; apply Hdec; by right|done|].
  exists s'. split_and!; [done..|]. rewrite H3. reflexivity.
Qed.

(** ** The amounts, in closed form *)

Definition citizens_of (l : list bank) : Z := foldr (fun b acc => citizens_number b + acc) 0 l.
Definition china_citizens : Z := citizens_of CHINA_CH_banks.

(** What a citizen's bank has received, in fen, after the first [y] years. *)
Fixpoint fen_per_citizen (y : nat) : Z :=
  match y with O => 0 | S y => fen_per_citizen y + (101 - Z.of_nat (S y)) end.

(** Every stake is ten thousand fen for each citizen of the province. *)
Definition stake_per_citizen (b : bank) : bool :=
  bool_decide (stake_amount b = citizens_number b * 10000)
  && bool_decide (0 < citizens_number b <= 10 ^ 9).

Lemma bank_stakes b :
  b ∈ CHINA_CH_banks ->
  stake_amount b = citizens_number b * 10000 /\ 0 < citizens_number b <= 10 ^ 9.
Proof.
  intros Hb. assert (forallb stake_per_citizen CHINA_CH_banks = true) as H by (vm_compute; reflexivity).
  pose proof (proj1 (forallb_forall _ _) H b (proj1 (list_elem_of_In _ _) Hb)) as Hs.
  unfold stake_per_citizen in Hs.
  apply andb_true_iff in Hs as [H1%bool_decide_eq_true H2%bool_decide_eq_true]. done.
Qed.

Lemma year_bp y : 1 <= y <= 100 -> interest_bp_for_year y = 101 - y.
Proof.
  intros Hy. unfold interest_bp_for_year, saturating_mul, saturating_sub,
    PROVINCIALBANK_INITIAL_INTEREST_BP, PROVINCIALBANK_INTEREST_DECREASE_BP, u32_max. lia.
Qed.

Lemma bank_citizens_min b : b ∈ CHINA_CH_banks -> 893415 <= citizens_number b.
Proof.
  intros Hb. assert (forallb (fun b => 893415 <=? citizens_number b) CHINA_CH_banks = true) as H
    by (vm_compute; reflexivity).
  apply Z.leb_le. exact (proj1 (forallb_forall _ _) H b (proj1 (list_elem_of_In _ _) Hb)).
Qed.

#[export] Instance bank_eq_dec : EqDecision bank.
Proof. solve_decision. Defined.

Lemma banks_distinct : NoDup CHINA_CH_banks.
Proof. apply (bool_decide_unpack _). vm_compute. exact I. Qed.

Lemma bank_main_accounts_inj b b' :
  b ∈ CHINA_CH_banks -> b' ∈ CHINA_CH_banks -> main_account b = main_account b' -> b = b'.
Proof.
  intros Hb Hb' He. assert (NoDup (main_account <$> CHINA_CH_banks)) as Hnd
    by (apply (bool_decide_unpack _); vm_compute; exact I).
  apply list_elem_of_lookup in Hb as [i Hi], Hb' as [j Hj].
  assert (i = j) as ->; [|congruence].
  apply (NoDup_lookup (main_account <$> CHINA_CH_banks) i j (main_account b)); [done|..];
    rewrite list_lookup_fmap; [by rewrite Hi|by rewrite Hj, He].
Qed.

Lemma bank_interest b y :
  b ∈ CHINA_CH_banks -> 1 <= y <= 100 ->
  interest_for_principal (stake_amount b) y = Some (citizens_number b * (101 - y)).
Proof.
  intros [-> Hc]%bank_stakes Hy. unfold interest_for_principal. rewrite year_bp by done.
  replace (checked_mul u128_max (citizens_number b * 10000) (101 - y))
    with (Some (citizens_number b * 10000 * (101 - y)))
    by (symmetry; apply checked_mul_Some; split; [done|unfold u128_max; nia]).
  simpl. f_equal. unfold BASIS_POINTS_DENOMINATOR.
  replace (citizens_number b * 10000 * (101 - y)) with (citizens_number b * (101 - y) * 10000) by lia.
  by apply Z.div_mul.
Qed.

Lemma citizens_of_nonneg l : l ⊆ CHINA_CH_banks -> 0 <= citizens_of l.
Proof.
  induction l as [|b l IH]; intros Hl; simpl; [lia|].
  destruct (bank_stakes b) as [_ ?]; [apply Hl; by left|].
  assert (0 <= citizens_of l) by (apply IH; intros x Hx; apply Hl; by right). lia.
Qed.

Lemma total_of_interest y l acc :
  1 <= y <= 100 -> l ⊆ CHINA_CH_banks -> acc + citizens_of l * (101 - y) <= u128_max ->
  total_of (fun b => interest_for_principal (stake_amount b) y) acc l
    = Some (acc + citizens_of l * (101 - y)).
Proof.
  intros Hy. revert acc. induction l as [|b l IH]; intros acc Hl Hb; simpl in *; [f_equal; lia|].
  assert (Hl' : l ⊆ CHINA_CH_banks) by (intros x Hx; apply Hl; by right).
  rewrite bank_interest by (done || apply Hl; by left). simpl.
  pose proof (citizens_of_nonneg l Hl').
  replace (checked_add _ _ _) with (Some (acc + citizens_number b * (101 - y)))
    by (symmetry; apply checked_add_Some; split; [done|nia]).
  simpl. rewrite IH by (done || nia). f_equal. nia.
Qed.

Lemma china_citizens_value : china_citizens = 1443497378.
Proof. vm_compute. reflexivity. Qed.

Lemma year_audit y :
  1 <= y <= 100 ->
  expected_audit y =
    Some {| year := y; bank_count := 43; total_interest := china_citizens * (101 - y) |}.
Proof.
  intros Hy. unfold expected_audit. pose proof china_citizens_value as Hc.
  unfold china_citizens in *. rewrite total_of_interest; [|done|done|unfold u128_max; nia].
  reflexivity.
Qed.

Lemma fen_per_citizen_closed y : 2 * fen_per_citizen y = Z.of_nat y * (201 - Z.of_nat y).
Proof. induction y as [|y IH]; cbn [fen_per_citizen]; lia. Qed.

Lemma year_total y :
  (y <= 100)%nat -> expected_total_through_year y = Some (china_citizens * fen_per_citizen y).
Proof.
  induction y as [|y IH]; intros Hy; [reflexivity|]. cbn [expected_total_through_year].
  rewrite IH by lia. cbn [mbind option_bind]. rewrite year_audit by lia.
  cbn [mbind option_bind total_interest fen_per_citizen].
  pose proof (fen_per_citizen_closed y). pose proof china_citizens_value as ->.
  apply checked_add_Some. split; [lia|unfold u128_max; nia].
Qed.

Lemma year_computable y :
  (1 <= y <= 100)%nat ->
  is_Some (expected_audit (Z.of_nat y)) /\ is_Some (expected_total_through_year y).
Proof. intros Hy. rewrite year_audit, year_total by lia. by split; eexists. Qed.

Lemma expected_audit_total y a :
  expected_audit y = Some a ->
  total_of (fun b => interest_for_principal (stake_amount b) y) 0 CHINA_CH_banks
    = Some (total_interest a).
Proof.
  unfold expected_audit. destruct (total_of _ 0 CHINA_CH_banks) as [total|]; [|done].
  cbn [mbind option_bind]. destruct (bounded_uint _ _) as [c|]; [|done].
  cbn [mbind option_bind]. by intros [= <-].
Qed.

(** The years completed by block [n]. *)
Definition years_done (n : nat) : nat := Nat.min (n / Z.to_nat BlocksPerYear) 100.

(** What [try_state] checks after block [n]. *)
Definition bank_state_ok (n : nat) s : Prop :=
  LastSettledYear s = Z.of_nat (years_done n) /\
  expected_total_through_year (years_done n) = Some (TotalProvincialBankInterestIssued s) /\
  LastProvincialBankInterestAudit s =
    match years_done n with O => None | S y => expected_audit (Z.of_nat (S y)) end.

Hypothesis Hper : 0 < BlocksPerYear.
(** [AccountId::decode] accepts the accounts of the table. *)
Hypothesis Hdec : forall b, b ∈ CHINA_CH_banks -> is_Some (decode (main_account b)).

Lemma settle_year_run y s :
  (1 <= y <= 100)%nat -> LastSettledYear s = Z.of_nat y - 1 ->
  expected_total_through_year (pred y) = Some (TotalProvincialBankInterestIssued s) ->
  exists s', transact (settle_year (Z.of_nat y)) s = (Ok tt, s') /\
    LastSettledYear s' = Z.of_nat y /\
    expected_total_through_year y = Some (TotalProvincialBankInterestIssued s') /\
    LastProvincialBankInterestAudit s' = expected_audit (Z.of_nat y) /\
    bank_ledger s' = pay_all (Z.of_nat y) CHINA_CH_banks (bank_ledger s).
Proof.
  intros Hy Hlast Htot. destruct (year_computable y Hy) as [[audit Ha] [t Ht]].
  destruct y as [|y]; [lia|]. cbn [pred] in Htot. cbn [expected_total_through_year] in Ht |- *.
  rewrite Htot, Ha in Ht |- *. cbn [mbind option_bind] in Ht |- *.
  unfold transact, settle_year. rewrite bool_decide_false by lia. autorewrite with run.
  rewrite bool_decide_true by (unfold saturating_sub; lia). autorewrite with run.
  rewrite Ha. autorewrite with run. apply expected_audit_total in Ha as Hsum.
  destruct (pay_banks_run _ _ 0 _ s Hdec Hsum) as (s1 & Hr & H1 & H2 & H3).
  rewrite (bind_run _ _ _ _ _ Hr).
  rewrite bool_decide_true by done. autorewrite with run. rewrite H2, Ht. autorewrite with run.
  eexists. split_and!; [reflexivity|done|done|done|exact H3].
Qed.

(** The last year settled by the end of block [n]. *)
Lemma settlement_year_step n :
  (settlement_year (Z.of_nat (S n)) = None /\ years_done (S n) = years_done n) \/
  (settlement_year (Z.of_nat (S n)) = Some (Z.of_nat (years_done (S n))) /\
   years_done (S n) = S (years_done n)).
Proof.
  unfold settlement_year, years_done. set (P := Z.to_nat BlocksPerYear).
  assert (HP : BlocksPerYear = Z.of_nat P) by lia. rewrite HP.
  rewrite <-Nat2Z.inj_mod, <-Nat2Z.inj_div.
  assert (P <> 0%nat) by lia.
  pose proof (Nat.div_mod_eq n P). pose proof (Nat.mod_upper_bound n P ltac:(lia)).
  pose proof (Nat.div_mod_eq (S n) P). pose proof (Nat.mod_upper_bound (S n) P ltac:(lia)).
  destruct (decide (_ \/ _)) as [Hno|Hyes].
  { left. split; [done|]. destruct Hno as [?|[?|?]]; [lia|lia|].
    assert ((S n / P = n / P)%nat) as -> by nia. done. }
  assert (S n mod P = 0)%nat by lia. assert ((S n / P = S (n / P))%nat) as -> by nia.
  unfold bounded_uint, PROVINCIALBANK_INTEREST_DURATION_YEARS, u32_max.
  destruct (decide (_ <= 2 ^ 32 - 1)); simpl.
  2: { left. split; [done|lia]. }
  destruct (decide (_ <= 100)); [right|left]; (split; [f_equal|]); lia.
Qed.

(** The ledger once the first [y] years are paid. *)
Fixpoint pay_years (y : nat) (led : L) : L :=
  match y with O => led | S y => pay_all (Z.of_nat (S y)) CHINA_CH_banks (pay_years y led) end.

Lemma bank_run_ok (l : L) n :
  bank_state_ok n (bank_run n (bank_genesis l)) /\
  bank_ledger (bank_run n (bank_genesis l)) = pay_years (years_done n) l.
Proof.
  induction n as [|n [(H1 & H2 & H3) H4]].
  { unfold bank_state_ok, years_done. rewrite Nat.Div0.div_0_l by lia. done. }
  cbn [bank_run]. unfold bank_state_ok in *. unfold bank_on_finalize.
  destruct (settlement_year_step n) as [[-> ->]|[-> Hy]]; [done|].
  assert (years_done (S n) <= 100)%nat by (unfold years_done; lia). rewrite Hy in *.
  destruct (settle_year_run (S (years_done n)) (bank_run n (bank_genesis l)))
    as (s' & -> & G1 & G2 & G3 & G4); [lia|lia|done|].
  simpl snd. rewrite G1, G2, G3, G4, H4. done.
Qed.

(** Every account of the table is one the runtime decodes, distinct from the others. *)
Hypothesis Hinj : forall b b', b ∈ CHINA_CH_banks -> b' ∈ CHINA_CH_banks ->
  decode (main_account b) = decode (main_account b') -> b = b'.
Context `{!CurrencyLaws L}.
Hypothesis Hmin : minimum_balance <= 893415.

Definition bank_account (b : bank) : AccountId := default 0 (decode (main_account b)).

Lemma bank_account_inj b b' :
  b ∈ CHINA_CH_banks -> b' ∈ CHINA_CH_banks -> bank_account b = bank_account b' -> b = b'.
Proof.
  intros Hb Hb' He. apply Hinj; [done..|]. unfold bank_account in He.
  destruct (Hdec b Hb) as [x Hx], (Hdec b' Hb') as [x' Hx']. rewrite Hx, Hx' in *. simpl in He.
  congruence.
Qed.

Lemma pay_all_cons y b l led :
  pay_all y (b :: l) led =
    pay_all y l (deposit_creating led (bank_account b)
      (default 0 (interest_for_principal (stake_amount b) y))).
Proof. reflexivity. Qed.

Lemma pay_all_effect y l led :
  1 <= y <= 100 -> NoDup l -> l ⊆ CHINA_CH_banks ->
  total_issuance led + citizens_of l * (101 - y) <= u128_max ->
  total_issuance (pay_all y l led) = total_issuance led + citizens_of l * (101 - y) /\
  forall b, b ∈ CHINA_CH_banks ->
    free_balance (pay_all y l led) (bank_account b)
      = free_balance led (bank_account b)
        + (if decide (b ∈ l) then citizens_number b * (101 - y) else 0).
Proof.
  intros Hy. revert led. induction l as [|b l IH]; intros led Hnd Hl Hb; [simpl in *|cbn [citizens_of foldr] in *; fold (citizens_of l) in *].
  { split; [lia|]. intros b _. lia. }
  apply NoDup_cons in Hnd as [Hnb Hnd].
  assert (Hl' : l ⊆ CHINA_CH_banks) by (intros x Hx; apply Hl; by right).
  assert (Hbc : b ∈ CHINA_CH_banks) by (apply Hl; by left).
  pose proof (citizens_of_nonneg l Hl'). pose proof (bank_citizens_min b Hbc).
  pose proof (bank_interest b y Hbc Hy) as Hi.
  rewrite (pay_all_cons y b l led), Hi. cbn [default].
  change (id (citizens_number b * (101 - y))) with (citizens_number b * (101 - y)).
  destruct (deposit_credited led (bank_account b) (citizens_number b * (101 - y)))
    as [Hf Ht]; [nia|nia|].
  destruct (IH (deposit_creating led (bank_account b) (citizens_number b * (101 - y))))
    as [IHt IHf]; [done|done|nia|].
  split; [rewrite IHt, Ht; lia|]. intros b' Hb'. rewrite IHf by done.
  destruct (decide (b' = b)) as [->|Hne].
  - rewrite Hf. rewrite (decide_False (P := b ∈ l)) by done.
    rewrite (decide_True (P := b ∈ b :: l)) by (by left). lia.
  - rewrite deposit_elsewhere by (intros He; by apply Hne, bank_account_inj).
    assert (b' ∈ b :: l <-> b' ∈ l) as Hiff by (rewrite elem_of_cons; naive_solver).
    by rewrite (decide_ext _ _ _ _ Hiff).
Qed.

Lemma pay_years_effect y led :
  (y <= 100)%nat ->
  total_issuance led + china_citizens * fen_per_citizen 100 <= u128_max ->
  total_issuance (pay_years y led) = total_issuance led + china_citizens * fen_per_citizen y /\
  forall b, b ∈ CHINA_CH_banks ->
    free_balance (pay_years y led) (bank_account b)
      = free_balance led (bank_account b) + citizens_number b * fen_per_citizen y.
Proof.
  intros Hy Hb. pose proof china_citizens_value as Hc.
  induction y as [|y IH]; [split; [simpl; lia|]; intros; simpl; lia|].
  destruct IH as [It If]; [lia|]. cbn [pay_years fen_per_citizen].
  pose proof (fen_per_citizen_closed y). pose proof (fen_per_citizen_closed 100).
  destruct (pay_all_effect (Z.of_nat (S y)) CHINA_CH_banks (pay_years y led)) as [Pt Pf];
    [lia|apply banks_distinct|done|rewrite It; fold china_citizens; nia|].
  split; [rewrite Pt, It; fold china_citizens; lia|]. intros b Hbc.
  rewrite Pf, If by done. rewrite decide_True by done. lia.
Qed.

(** C26: no settlement ever fails: after every block exactly the years that
    are over, the first hundred at most, are settled, the audit and the total
    are the ones [try_state] recomputes, and every bank has received one fen
    less per citizen and year, beginning with one hundred fen; 5050 fen per
    citizen after a hundred years and nothing after that. *)
Theorem bank_interest_schedule (l : L) n :
  total_issuance l + china_citizens * 5050 <= u128_max ->
  let s := bank_run n (bank_genesis l) in
  let y := years_done n in
  bank_state_ok n s /\
  TotalProvincialBankInterestIssued s = china_citizens * fen_per_citizen y /\
  total_issuance (bank_ledger s) = total_issuance l + TotalProvincialBankInterestIssued s /\
  2 * fen_per_citizen y = Z.of_nat y * (201 - Z.of_nat y) /\
  forall b, b ∈ CHINA_CH_banks ->
    free_balance (bank_ledger s) (bank_account b)
      = free_balance l (bank_account b) + citizens_number b * fen_per_citizen y.
Proof.
  intros Hb s y. destruct (bank_run_ok l n) as [Hok Hl]. fold s in Hok, Hl. fold y in Hl.
  assert (y <= 100)%nat by (unfold y, years_done; lia).
  destruct (pay_years_effect y l) as [Ht Hf]; [done|exact Hb|].
  assert (TotalProvincialBankInterestIssued s = china_citizens * fen_per_citizen y) as HT.
  { destruct Hok as (_ & Hok & _). fold y in Hok. rewrite year_total in Hok by done. congruence. }
  split; [done|]. split; [done|]. split; [by rewrite Hl, HT, Ht|].
  split; [apply fen_per_citizen_closed|]. intros b Hbc. rewrite Hl. by apply Hf.
Qed.
End ProvincialBank.

(** Blocks of a year of ten: the state after block 25. *)
Lemma bank_interest_schedule_witness :
  bank_state_ok 10 25 (bank_run 10 Some 25 (bank_genesis (∅ : map_ledger))).
Proof.
  refine (proj1 (bank_interest_schedule (L := map_ledger) 10 Some _ _ _ _ ∅ 25 _)).
  - lia.
  - intros b _. by eexists.
  - intros b b' Hb Hb' [= He]. by apply bank_main_accounts_inj.
  - vm_compute; discriminate.
  - vm_compute; discriminate.
Defined.
