(* ===== verification/CitizenIssuance.v ===== *)
(** * Citizen certification rewards ([issuance/citizen-issuance/src/lib.rs])

    The registration of a citizen's voting identity queues a reward; the end
    of the block pays the queue in order. The theorems relate the queue, its
    two temporary sets and the permanent sets to one list: the rewards in the
    order in which they were registered. *)
From S2P Require Import Prelude Cid Types Ledger.

(** ** Constants ([primitives/src/citizen_const.rs], [primitives/src/genesis.rs]) *)

Definition GENESIS_CITIZEN_MAX : Z := 1443497378.
Definition CITIZEN_ISSUANCE_MAX_COUNT : Z := GENESIS_CITIZEN_MAX.
Definition CITIZEN_ISSUANCE_HIGH_REWARD_COUNT : Z := 14436417.
Definition CITIZEN_ISSUANCE_HIGH_REWARD : Z := 999900.
Definition CITIZEN_ISSUANCE_NORMAL_REWARD : Z := 99900.

(** ** Storage and events *)

Record PendingCertificationReward : Type := { account_id : AccountId; cid_number : CidNumber }.

Inductive SkipReason : Type :=
| DuplicateCitizenIdentity | MaxCountReached | AccountAlreadyRewarded | ZeroRewardConfigured.

Inductive CitizenEvent : Type :=
| CertificationRewardIssued (account_id : AccountId) (cid_number : CidNumber) (reward : Z)
| CertificationRewardSkipped (account_id : AccountId) (cid_number : CidNumber)
    (reason : SkipReason).

(** A map to the unit type is the set of its keys. *)
Record citizen_issuance (L : Type) : Type := {
  RewardedCount : Z;
  IdentityRewardClaimed : gset CidNumber;
  AccountRewarded : gset AccountId;
  PendingRewardCount : Z;
  PendingRewards : gmap Z PendingCertificationReward;
  PendingIdentityRewardClaimed : gset CidNumber;
  PendingAccountRewarded : gset AccountId;
  citizen_events : list CitizenEvent;
  citizen_ledger : L;
}.
Arguments RewardedCount {L}.
Arguments IdentityRewardClaimed {L}.
Arguments AccountRewarded {L}.
Arguments PendingRewardCount {L}.
Arguments PendingRewards {L}.
Arguments PendingIdentityRewardClaimed {L}.
Arguments PendingAccountRewarded {L}.
Arguments citizen_events {L}.
Arguments citizen_ledger {L}.

Definition reward_amount_at (rewarded_count : Z) : Z :=
  if decide (rewarded_count < CITIZEN_ISSUANCE_HIGH_REWARD_COUNT)
  then CITIZEN_ISSUANCE_HIGH_REWARD else CITIZEN_ISSUANCE_NORMAL_REWARD.

Lemma two_sets `{Countable A} (x : A) (k l : list A) :
  x ∈ (list_to_set k : gset A) \/ x ∈ (list_to_set l : gset A) <-> x ∈ k ++ l.
Proof. rewrite !elem_of_list_to_set, elem_of_app. done. Qed.

Lemma set_without_head `{Countable A} (x : A) (l : list A) :
  x ∉ l -> ({[x]} ∪ list_to_set l) ∖ {[x]} = (list_to_set l : gset A).
Proof.
  intros Hx. rewrite <-(elem_of_list_to_set (C := gset A)) in Hx. set_solver.
Qed.

Section CitizenIssuance.
Context {L : Type} `{Cur : !Currency L}.
Implicit Types s : citizen_issuance L.

(** ** Registration *)

Definition queued (p : PendingCertificationReward) (index next : Z) s : citizen_issuance L := {|
  RewardedCount := RewardedCount s;
  IdentityRewardClaimed := IdentityRewardClaimed s;
  AccountRewarded := AccountRewarded s;
  PendingRewardCount := next;
  PendingRewards := <[index := p]> (PendingRewards s);
  PendingIdentityRewardClaimed := {[cid_number p]} ∪ PendingIdentityRewardClaimed s;
  PendingAccountRewarded := {[account_id p]} ∪ PendingAccountRewarded s;
  citizen_events := citizen_events s;
  citizen_ledger := citizen_ledger s |}.

Definition try_queue_certification_reward (p : PendingCertificationReward)
    : M (citizen_issuance L) SkipReason Z :=
  known ← gets (fun s => bool_decide (cid_number p ∈ IdentityRewardClaimed s)
    || bool_decide (cid_number p ∈ PendingIdentityRewardClaimed s));
  ensure (negb known) DuplicateCitizenIdentity ;;
  paid ← gets (fun s => bool_decide (account_id p ∈ AccountRewarded s)
    || bool_decide (account_id p ∈ PendingAccountRewarded s));
  ensure (negb paid) AccountAlreadyRewarded ;;
  rewarded_count ← gets RewardedCount;
  pending_count ← gets PendingRewardCount;
  let effective_count := saturating_add u64_max rewarded_count pending_count in
  ensure (negb (bool_decide (CITIZEN_ISSUANCE_MAX_COUNT <= effective_count))) MaxCountReached ;;
  let reward := reward_amount_at effective_count in
  ensure (negb (bool_decide (reward = 0))) ZeroRewardConfigured ;;
  next_pending_count ← ok_or (checked_add u32_max pending_count 1) MaxCountReached;
  modify (queued p pending_count next_pending_count) ;;
  mret reward.

Definition citizen_event (e : CitizenEvent) s : citizen_issuance L := {|
  RewardedCount := RewardedCount s;
  IdentityRewardClaimed := IdentityRewardClaimed s;
  AccountRewarded := AccountRewarded s;
  PendingRewardCount := PendingRewardCount s;
  PendingRewards := PendingRewards s;
  PendingIdentityRewardClaimed := PendingIdentityRewardClaimed s;
  PendingAccountRewarded := PendingAccountRewarded s;
  citizen_events := citizen_events s ++ [e];
  citizen_ledger := citizen_ledger s |}.

Definition on_voting_identity_registered (p : PendingCertificationReward) s
    : citizen_issuance L :=
  match try_queue_certification_reward p s with
  | (Ok _, s') => s'
  | (Err reason, s') =>
      citizen_event (CertificationRewardSkipped (account_id p) (cid_number p) reason) s'
  end.

(** ** The end of the block *)

(** One entry: the reward is the one of the running count, both permanent
    marks are set, both temporary ones removed. *)
Definition paid_out (index : Z) (p : PendingCertificationReward) s : citizen_issuance L :=
  let reward := reward_amount_at (RewardedCount s) in {|
  RewardedCount := saturating_add u64_max (RewardedCount s) 1;
  IdentityRewardClaimed := {[cid_number p]} ∪ IdentityRewardClaimed s;
  AccountRewarded := {[account_id p]} ∪ AccountRewarded s;
  PendingRewardCount := PendingRewardCount s;
  PendingRewards := delete index (PendingRewards s);
  PendingIdentityRewardClaimed := PendingIdentityRewardClaimed s ∖ {[cid_number p]};
  PendingAccountRewarded := PendingAccountRewarded s ∖ {[account_id p]};
  citizen_events := citizen_events s
    ++ [CertificationRewardIssued (account_id p) (cid_number p) reward];
  citizen_ledger := deposit_creating (citizen_ledger s) (account_id p) reward |}.

(** The loop over [0..pending_count]; a missing entry is passed over. *)
Fixpoint pay_pending (count : nat) (index : Z) s : citizen_issuance L :=
  match count with
  | O => s
  | S count =>
      pay_pending count (index + 1)
        match PendingRewards s !! index with
        | None => s
        | Some pending => paid_out index pending s
        end
  end.

Definition count_taken s : citizen_issuance L := {|
  RewardedCount := RewardedCount s;
  IdentityRewardClaimed := IdentityRewardClaimed s;
  AccountRewarded := AccountRewarded s;
  PendingRewardCount := 0;
  PendingRewards := PendingRewards s;
  PendingIdentityRewardClaimed := PendingIdentityRewardClaimed s;
  PendingAccountRewarded := PendingAccountRewarded s;
  citizen_events := citizen_events s;
  citizen_ledger := citizen_ledger s |}.

Definition citizen_on_finalize s : citizen_issuance L :=
  pay_pending (Z.to_nat (PendingRewardCount s)) 0 (count_taken s).

Definition citizen_genesis (l : L) : citizen_issuance L :=
  {| RewardedCount := 0; IdentityRewardClaimed := ∅; AccountRewarded := ∅;
     PendingRewardCount := 0; PendingRewards := ∅; PendingIdentityRewardClaimed := ∅;
     PendingAccountRewarded := ∅; citizen_events := []; citizen_ledger := l |}.

(** A block registers some identities, then ends. *)
Definition citizen_block (s : citizen_issuance L) (registrations : list PendingCertificationReward)
    : citizen_issuance L :=
  citizen_on_finalize (foldl (fun s p => on_voting_identity_registered p s) s registrations).

Definition citizen_run (blocks : list (list PendingCertificationReward)) s : citizen_issuance L :=
  foldl citizen_block s blocks.

(** ** Specification: one list of rewards *)

(** The rewards in the order of registration, and the refused registrations. *)
Record rewards : Type :=
  { granted : list PendingCertificationReward;
    refused : list (PendingCertificationReward * SkipReason) }.

(** One registration, judged against everything registered before it. *)
Definition judge (g : list PendingCertificationReward) (p : PendingCertificationReward)
    : option SkipReason :=
  if decide (cid_number p ∈ cid_number <$> g) then Some DuplicateCitizenIdentity
  else if decide (account_id p ∈ account_id <$> g) then Some AccountAlreadyRewarded
  else if decide (CITIZEN_ISSUANCE_MAX_COUNT <= Z.of_nat (length g)) then Some MaxCountReached
  else None.

Definition grant (r : rewards) (p : PendingCertificationReward) : rewards :=
  match judge (granted r) p with
  | None => {| granted := granted r ++ [p]; refused := refused r |}
  | Some reason => {| granted := granted r; refused := refused r ++ [(p, reason)] |}
  end.

Definition grant_all (registrations : list PendingCertificationReward) : rewards :=
  foldl grant {| granted := []; refused := [] |} registrations.

(** What the events of the pallet say was paid, and refused. *)
Definition issued_of (e : CitizenEvent) : option (AccountId * CidNumber * Z) :=
  match e with CertificationRewardIssued a c r => Some (a, c, r) | _ => None end.
Definition skipped_of (e : CitizenEvent) : option (AccountId * CidNumber * SkipReason) :=
  match e with CertificationRewardSkipped a c r => Some (a, c, r) | _ => None end.

Definition grants_wf (g : list PendingCertificationReward) : Prop :=
  NoDup (cid_number <$> g) /\ NoDup (account_id <$> g) /\
  Z.of_nat (length g) <= CITIZEN_ISSUANCE_MAX_COUNT.

(** The [k]-th reward onwards, as events and as deposits. *)
Fixpoint issues (k : Z) (g : list PendingCertificationReward) : list (AccountId * CidNumber * Z) :=
  match g with
  | [] => []
  | p :: g => (account_id p, cid_number p, reward_amount_at k) :: issues (k + 1) g
  end.
Fixpoint deposits (k : Z) (g : list PendingCertificationReward) (l : L) : L :=
  match g with
  | [] => l
  | p :: g => deposits (k + 1) g (deposit_creating l (account_id p) (reward_amount_at k))
  end.

(** The state while the block runs: [paid] rewards are permanent, those of
    [waiting] wait in the queue from index [k] on. *)
Record queue_state (l : L) (r : rewards) (paid waiting : list PendingCertificationReward) (k : Z)
    s : Prop := {
  qs_all : granted r = paid ++ waiting;
  qs_wf : grants_wf (granted r);
  qs_count : RewardedCount s = Z.of_nat (length paid);
  qs_cids : IdentityRewardClaimed s = list_to_set (cid_number <$> paid);
  qs_accounts : AccountRewarded s = list_to_set (account_id <$> paid);
  qs_queue : forall i, PendingRewards s !! i =
    if decide (k <= i) then waiting !! Z.to_nat (i - k) else None;
  qs_pending_cids : PendingIdentityRewardClaimed s = list_to_set (cid_number <$> waiting);
  qs_pending_accounts : PendingAccountRewarded s = list_to_set (account_id <$> waiting);
  qs_issued : omap issued_of (citizen_events s) = issues 0 paid;
  qs_skipped : omap skipped_of (citizen_events s)
    = (fun '(p, reason) => (account_id p, cid_number p, reason)) <$> refused r;
  qs_ledger : citizen_ledger s = deposits 0 paid l;
}.

(** ** Lemmas *)

Lemma reward_nonzero k : reward_amount_at k <> 0.
Proof. unfold reward_amount_at. by case_decide. Qed.

Lemma issues_app k g g' :
  issues k (g ++ g') = issues k g ++ issues (k + Z.of_nat (length g)) g'.
Proof.
  revert k. induction g as [|p g IH]; intros k; simpl; [by rewrite Z.add_0_r|].
  rewrite IH. do 3 f_equal. lia.
Qed.

Lemma deposits_app k g g' (l : L) :
  deposits k (g ++ g') l = deposits (k + Z.of_nat (length g)) g' (deposits k g l).
Proof.
  revert k l. induction g as [|p g IH]; intros k l; simpl; [by rewrite Z.add_0_r|].
  rewrite IH. f_equal. lia.
Qed.

Lemma grants_judge g p : judge g p = None -> grants_wf g -> grants_wf (g ++ [p]).
Proof.
  unfold judge, grants_wf. repeat case_decide; try done. intros _ (Hc & Ha & Hl).
  rewrite !fmap_app, length_app. split_and!; [apply NoDup_app..|simpl; lia].
  - split; [done|]. split; [set_solver|apply NoDup_singleton].
  - split; [done|]. split; [set_solver|apply NoDup_singleton].
Qed.

Lemma queue_judged l r paid waiting s p :
  queue_state l r paid waiting 0 s -> PendingRewardCount s = Z.of_nat (length waiting) ->
  exists reward, try_queue_certification_reward p s =
    match judge (granted r) p with
    | Some reason => (Err reason, s)
    | None => (Ok reward, queued p (Z.of_nat (length waiting)) (Z.of_nat (length waiting) + 1) s)
    end.
Proof.
  intros Q Hc. pose proof (qs_wf _ _ _ _ _ _ Q) as (_ & _ & Hmax).
  unfold try_queue_certification_reward, judge. rewrite (qs_all _ _ _ _ _ _ Q) in *.
  autorewrite with run. rewrite length_app in Hmax.
  rewrite (qs_cids _ _ _ _ _ _ Q), (qs_pending_cids _ _ _ _ _ _ Q), !fmap_app, length_app.
  eexists. destruct (decide (cid_number p ∈ _)) as [Hin|Hin].
  { rewrite <-bool_decide_or, bool_decide_true by (by apply two_sets). done. }
  rewrite <-bool_decide_or, bool_decide_false by (by rewrite two_sets). autorewrite with run.
  rewrite (qs_accounts _ _ _ _ _ _ Q), (qs_pending_accounts _ _ _ _ _ _ Q).
  destruct (decide (account_id p ∈ _)) as [Hia|Hia].
  { rewrite <-bool_decide_or, bool_decide_true by (by apply two_sets). done. }
  rewrite <-bool_decide_or, bool_decide_false by (by rewrite two_sets). autorewrite with run.
  rewrite (qs_count _ _ _ _ _ _ Q), Hc. cbv zeta.
  assert (saturating_add u64_max (Z.of_nat (length paid)) (Z.of_nat (length waiting))
    = Z.of_nat (length paid + length waiting)) as ->.
  { unfold saturating_add, CITIZEN_ISSUANCE_MAX_COUNT, GENESIS_CITIZEN_MAX, u64_max in *. lia. }
  destruct (decide (CITIZEN_ISSUANCE_MAX_COUNT <= _)) as [Hm|Hm].
  { by rewrite (bool_decide_true _ Hm). }
  rewrite (bool_decide_false _ Hm). autorewrite with run.
  rewrite bool_decide_false by apply reward_nonzero. autorewrite with run.
  replace (checked_add _ _ 1) with (Some (Z.of_nat (length waiting) + 1)); [by autorewrite with run|].
  symmetry. apply checked_add_Some. split; [done|].
  unfold CITIZEN_ISSUANCE_MAX_COUNT, GENESIS_CITIZEN_MAX, u32_max in *. lia.
Qed.

Lemma register_step l r paid waiting s p :
  queue_state l r paid waiting 0 s -> PendingRewardCount s = Z.of_nat (length waiting) ->
  exists waiting',
    queue_state l (grant r p) paid waiting' 0 (on_voting_identity_registered p s) /\
    PendingRewardCount (on_voting_identity_registered p s) = Z.of_nat (length waiting').
Proof.
  intros Q Hc. destruct (queue_judged l r paid waiting s p Q Hc) as [reward Hr].
  unfold on_voting_identity_registered, grant. rewrite Hr.
  destruct (judge (granted r) p) as [reason|] eqn:Hj.
  { exists waiting. split; [|done]. destruct Q. split; simpl; try done.
    - rewrite omap_app. simpl. by rewrite app_nil_r.
    - rewrite omap_app, fmap_app, qs_skipped0. done. }
  exists (waiting ++ [p]). split; [|simpl; rewrite length_app; simpl; lia].
  pose proof (grants_judge _ _ Hj (qs_wf _ _ _ _ _ _ Q)) as Hwf.
  destruct Q. split; simpl; try done.
  - by rewrite qs_all0, app_assoc.
  - intros i. destruct (decide (i = Z.of_nat (length waiting))) as [->|Hne].
    + rewrite lookup_insert, decide_True by done. rewrite decide_True by lia.
      rewrite Z.sub_0_r, Nat2Z.id, lookup_app_r by lia. by rewrite Nat.sub_diag.
    + rewrite lookup_insert_ne, qs_queue0 by done. case_decide; [|done].
      destruct (decide (i < Z.of_nat (length waiting))).
      * rewrite lookup_app_l by lia. done.
      * rewrite !lookup_ge_None_2; rewrite ?length_app; simpl; [done|lia|lia].
  - rewrite qs_pending_cids0, fmap_app, list_to_set_app_L. simpl. set_solver.
  - rewrite qs_pending_accounts0, fmap_app, list_to_set_app_L. simpl. set_solver.
Qed.

(** One entry leaves the queue. *)
Lemma pay_one l r paid p waiting k s :
  queue_state l r paid (p :: waiting) k s ->
  PendingRewards s !! k = Some p /\ queue_state l r (paid ++ [p]) waiting (k + 1) (paid_out k p s).
Proof.
  intros Q. pose proof (qs_wf _ _ _ _ _ _ Q) as (Hc & Ha & Hmax).
  rewrite (qs_all _ _ _ _ _ _ Q) in Hc, Ha, Hmax. rewrite length_app in Hmax.
  rewrite !fmap_app, !fmap_cons, NoDup_app in Hc. rewrite !fmap_app, !fmap_cons, NoDup_app in Ha.
  destruct Hc as (_ & Hc1 & [Hc2 _]%NoDup_cons), Ha as (_ & Ha1 & [Ha2 _]%NoDup_cons).
  split; [rewrite (qs_queue _ _ _ _ _ _ Q), decide_True, Z.sub_diag by lia; done|].
  destruct Q. split; simpl in *; try done.
  - by rewrite qs_all0, <-app_assoc.
  - rewrite qs_count0, length_app. unfold saturating_add. simpl.
    unfold CITIZEN_ISSUANCE_MAX_COUNT, GENESIS_CITIZEN_MAX, u64_max in *. lia.
  - rewrite qs_cids0, fmap_app, list_to_set_app_L. simpl. set_solver.
  - rewrite qs_accounts0, fmap_app, list_to_set_app_L. simpl. set_solver.
  - intros i. destruct (decide (i = k)) as [->|Hne].
    { rewrite lookup_delete, decide_True by done. by rewrite decide_False by lia. }
    rewrite lookup_delete_ne, qs_queue0 by done.
    destruct (decide (k <= i)); [rewrite decide_True by lia|by rewrite decide_False by lia].
    replace (Z.to_nat (i - k)) with (S (Z.to_nat (i - (k + 1)))) by lia. done.
  - rewrite qs_pending_cids0. by apply set_without_head.
  - rewrite qs_pending_accounts0. by apply set_without_head.
  - rewrite omap_app, qs_issued0, issues_app, qs_count0. done.
  - rewrite omap_app, qs_skipped0. simpl. by rewrite app_nil_r.
  - by rewrite deposits_app, qs_ledger0, qs_count0.
Qed.

Lemma pay_queue l r paid waiting k s :
  queue_state l r paid waiting k s ->
  queue_state l r (paid ++ waiting) [] (k + Z.of_nat (length waiting))
    (pay_pending (length waiting) k s) /\
  PendingRewardCount (pay_pending (length waiting) k s) = PendingRewardCount s.
Proof.
  revert paid k s. induction waiting as [|p waiting IH]; intros paid k s Q.
  { simpl. by rewrite app_nil_r, Z.add_0_r. }
  cbn [length pay_pending].
  destruct (pay_one _ _ _ _ _ _ _ Q) as [-> Q']. destruct (IH _ _ _ Q') as [Q2 Hc].
  split; [|by rewrite Hc]. rewrite <-app_assoc in Q2.
  replace (k + Z.of_nat (S _)) with (k + 1 + Z.of_nat (length waiting)) by lia. exact Q2.
Qed.

(** Between blocks nothing waits. *)
Definition settled_rewards (l : L) (r : rewards) s : Prop :=
  queue_state l r (granted r) [] 0 s /\ PendingRewardCount s = 0.

Lemma queue_empty_base l r paid k k' s :
  queue_state l r paid [] k s -> queue_state l r paid [] k' s.
Proof. intros []. split; try done. intros i. rewrite qs_queue0. by repeat case_decide. Qed.

Lemma block_settles l r s registrations :
  settled_rewards l r s -> settled_rewards l (foldl grant r registrations)
    (citizen_block s registrations).
Proof.
  intros [Q Hc]. unfold citizen_block.
  assert (exists paid waiting, queue_state l r paid waiting 0 s /\
    PendingRewardCount s = Z.of_nat (length waiting)) as Hq by (by exists (granted r), []).
  clear Q Hc. revert r s Hq. induction registrations as [|p regs IH];
    intros r s (paid & waiting & Q & Hc); simpl.
  - unfold citizen_on_finalize. rewrite Hc, Nat2Z.id.
    assert (queue_state l r paid waiting 0 (count_taken s)) as Q' by (by destruct Q).
    destruct (pay_queue _ _ _ _ _ _ Q') as [Q2 Hc2]. split; [|by rewrite Hc2].
    rewrite (qs_all _ _ _ _ _ _ Q). by eapply queue_empty_base.
  - apply IH. destruct (register_step l r paid waiting s p Q Hc) as (waiting' & Q' & Hc').
    by exists paid, waiting'.
Qed.

Lemma genesis_settled l :
  settled_rewards l {| granted := []; refused := [] |} (citizen_genesis l).
Proof.
  split; [|done]. split; simpl; try done.
  - split_and!; [constructor|constructor|done].
  - intros i. rewrite lookup_empty. by case_decide.
Qed.

Lemma grant_all_app a b : grant_all (a ++ b) = foldl grant (grant_all a) b.
Proof. unfold grant_all. by rewrite foldl_app. Qed.

Lemma run_settles l blocks :
  settled_rewards l (grant_all (concat blocks)) (citizen_run blocks (citizen_genesis l)).
Proof.
  unfold citizen_run. induction blocks as [|b blocks IH] using rev_ind; [apply genesis_settled|].
  rewrite foldl_app, concat_app, grant_all_app. simpl. rewrite app_nil_r.
  by apply block_settles.
Qed.

(** C24: queueing and paying at the end of the block is the same as
    judging every registration at once against all those before it: along any
    chain of blocks the rewards paid are the granted registrations in their
    order, the [k]-th one with the amount of the [k]-th reward; each is paid
    once; no identity and no account is paid twice; the number never exceeds
    the maximum; every other registration is reported with the reason the
    specification gives; and nothing is left waiting after a block. *)
Theorem citizen_rewards_refine (l : L) blocks :
  let s := citizen_run blocks (citizen_genesis l) in
  let r := grant_all (concat blocks) in
  grants_wf (granted r) /\
  omap issued_of (citizen_events s) = issues 0 (granted r) /\
  omap skipped_of (citizen_events s)
    = (fun '(p, reason) => (account_id p, cid_number p, reason)) <$> refused r /\
  citizen_ledger s = deposits 0 (granted r) l /\
  RewardedCount s = Z.of_nat (length (granted r)) /\
  IdentityRewardClaimed s = list_to_set (cid_number <$> granted r) /\
  AccountRewarded s = list_to_set (account_id <$> granted r) /\
  PendingRewardCount s = 0 /\ PendingRewards s = ∅ /\
  PendingIdentityRewardClaimed s = ∅ /\ PendingAccountRewarded s = ∅.
Proof.
  intros s r. destruct (run_settles l blocks) as [Q Hc]. fold s in Q, Hc. fold r in Q.
  destruct Q.
  split_and!; try done. apply map_eq. intros i. rewrite qs_queue0, lookup_empty. by case_decide.
Qed.

(** ** The amount issued *)

Context `{!CurrencyLaws L}.
Hypothesis Hmin : minimum_balance <= CITIZEN_ISSUANCE_NORMAL_REWARD.

(** What [n] rewards amount to. *)
Definition rewards_total (n : Z) : Z :=
  Z.min n CITIZEN_ISSUANCE_HIGH_REWARD_COUNT * CITIZEN_ISSUANCE_HIGH_REWARD
  + Z.max 0 (n - CITIZEN_ISSUANCE_HIGH_REWARD_COUNT) * CITIZEN_ISSUANCE_NORMAL_REWARD.

Lemma rewards_total_step n :
  0 <= n -> rewards_total (n + 1) = rewards_total n + reward_amount_at n.
Proof.
  intros Hn. unfold rewards_total, reward_amount_at, CITIZEN_ISSUANCE_HIGH_REWARD_COUNT,
    CITIZEN_ISSUANCE_HIGH_REWARD, CITIZEN_ISSUANCE_NORMAL_REWARD. case_decide; lia.
Qed.

Lemma rewards_total_mono n m : 0 <= n <= m -> rewards_total n <= rewards_total m.
Proof.
  intros Hn. unfold rewards_total, CITIZEN_ISSUANCE_HIGH_REWARD_COUNT,
    CITIZEN_ISSUANCE_HIGH_REWARD, CITIZEN_ISSUANCE_NORMAL_REWARD. lia.
Qed.

Lemma deposits_total k g (l : L) base :
  0 <= k -> total_issuance l = base + rewards_total k ->
  base + rewards_total (k + Z.of_nat (length g)) <= u128_max ->
  total_issuance (deposits k g l) = base + rewards_total (k + Z.of_nat (length g)).
Proof.
  revert k l. induction g as [|p g IH]; intros k l Hk Hl Hb.
  { simpl. by rewrite Z.add_0_r. }
  cbn [length deposits] in *.
  pose proof (rewards_total_step k Hk) as Hs.
  pose proof (rewards_total_mono (k + 1) (k + Z.of_nat (S (length g))) ltac:(lia)).
  destruct (deposit_credited l (account_id p) (reward_amount_at k)) as [_ Ht].
  { etransitivity; [apply Hmin|]. unfold reward_amount_at, CITIZEN_ISSUANCE_HIGH_REWARD,
      CITIZEN_ISSUANCE_NORMAL_REWARD. case_decide; lia. }
  { lia. }
  replace (k + Z.of_nat (S _)) with (k + 1 + Z.of_nat (length g)) in Hb |- * by lia.
  apply IH; [lia|lia|done].
Qed.

(** C29: the issuance of the whole scheme: after any chain of
    blocks the ledger holds exactly the high reward for the first 14,436,417
    rewards and the normal one for the others, at most the amount of
    1,443,497,378 rewards, if the total issuance leaves room for it. *)
Theorem citizen_issuance_total (l : L) blocks :
  total_issuance l + rewards_total CITIZEN_ISSUANCE_MAX_COUNT <= u128_max ->
  let s := citizen_run blocks (citizen_genesis l) in
  total_issuance (citizen_ledger s) = total_issuance l + rewards_total (RewardedCount s) /\
  0 <= RewardedCount s <= CITIZEN_ISSUANCE_MAX_COUNT /\
  0 <= rewards_total (RewardedCount s) <= 157198163362200.
Proof.
  intros Hb s. destruct (run_settles l blocks) as [Q Hc]. fold s in Q.
  pose proof (qs_wf _ _ _ _ _ _ Q) as (_ & _ & Hmax).
  rewrite (qs_ledger _ _ _ _ _ _ Q), (qs_count _ _ _ _ _ _ Q).
  set (n := length _) in *.
  pose proof (rewards_total_mono (Z.of_nat n) CITIZEN_ISSUANCE_MAX_COUNT ltac:(lia)) as Hm.
  pose proof (rewards_total_mono 0 (Z.of_nat n) ltac:(lia)) as H0.
  split; [|split; [lia|]].
  - apply (deposits_total 0 _ l (total_issuance l)); [done| |fold n; rewrite Z.add_0_l; lia].
    change (rewards_total 0) with 0. lia.
  - change (rewards_total 0) with 0 in H0.
    change (rewards_total CITIZEN_ISSUANCE_MAX_COUNT) with 157198163362200 in Hm. lia.
Qed.
End CitizenIssuance.

(** Two blocks; the third registration repeats an identity, the fourth an account. *)
Lemma citizen_issuance_total_witness :
  let p := Build_PendingCertificationReward in
  let s := citizen_run [[p 1 "a"; p 2 "b"]; [p 3 "a"; p 1 "c"; p 4 "d"]]%string
    (citizen_genesis (∅ : map_ledger)) in
  RewardedCount s = 3 /\ total_issuance (citizen_ledger s) = 2999700.
Proof.
  split; [vm_compute; reflexivity|].
  refine (eq_trans (proj1 (citizen_issuance_total (L := map_ledger) _ ∅ _ _)) _).
  - vm_compute; discriminate.
  - vm_compute; discriminate.
  - vm_compute; reflexivity.
Defined.
