(* ===== verification/PowDifficulty.v ===== *)
(** * Difficulty of the proof of work ([misc/pow-difficulty/src/lib.rs])

    The difficulty is adjusted once per window of blocks, in proportion to the
    time the window took; parameters are replaced by a runtime upgrade that
    stages them for a later block. The end of a block may panic
    ([None]: the block is refused). *)
From S2P Require Import Prelude.

(** ** Constants ([primitives/src/pow_const.rs]) *)

Definition POW_INITIAL_DIFFICULTY : Z := 100.
Definition POW_PARAMS_VERSION : Z := 1.
Definition POW_ALGORITHM_VERSION : Z := 1.
Definition POW_TARGET_BLOCK_TIME_MS : Z := 6 * 60 * 1000.
Definition DIFFICULTY_ADJUSTMENT_INTERVAL : Z := 600.
Definition DIFFICULTY_MAX_ADJUST_FACTOR : Z := 4.
Definition DIFFICULTY_MIN_ADJUST_FACTOR : Z := 4.

(** ** Parameters *)

Record PowDifficultyParams : Type := {
  params_version : Z;
  algorithm_version : Z;
  target_block_time_ms : Z;
  adjustment_interval : Z;
  max_adjust_up_factor : Z;
  max_adjust_down_divisor : Z;
}.

#[export] Instance PowDifficultyParams_eq_dec : EqDecision PowDifficultyParams.
Proof. solve_decision. Defined.

Definition genesis_default : PowDifficultyParams := {|
  params_version := POW_PARAMS_VERSION;
  algorithm_version := POW_ALGORITHM_VERSION;
  target_block_time_ms := POW_TARGET_BLOCK_TIME_MS;
  adjustment_interval := DIFFICULTY_ADJUSTMENT_INTERVAL;
  max_adjust_up_factor := DIFFICULTY_MAX_ADJUST_FACTOR;
  max_adjust_down_divisor := DIFFICULTY_MIN_ADJUST_FACTOR |}.

Inductive ParamsError : Type :=
| VersionZero | AlgorithmZero | TargetZero | IntervalZero | FactorZero | WindowOverflow.

Definition target_window_ms (p : PowDifficultyParams) : option Z :=
  checked_mul u64_max (target_block_time_ms p) (adjustment_interval p).

Definition validate (p : PowDifficultyParams) : result ParamsError unit :=
  guard_ok (negb (bool_decide (params_version p = 0))) VersionZero ;;
  guard_ok (negb (bool_decide (algorithm_version p = 0))) AlgorithmZero ;;
  guard_ok (negb (bool_decide (target_block_time_ms p = 0))) TargetZero ;;
  guard_ok (negb (bool_decide (adjustment_interval p = 0))) IntervalZero ;;
  guard_ok (negb (bool_decide (max_adjust_up_factor p = 0)
    || bool_decide (max_adjust_down_divisor p = 0))) FactorZero ;;
  opt_ok (checked_mul u64_max (target_block_time_ms p) (adjustment_interval p)) WindowOverflow ;;
  mret tt.

Definition same_values_except_version (p q : PowDifficultyParams) : bool :=
  bool_decide (algorithm_version p = algorithm_version q)
  && bool_decide (target_block_time_ms p = target_block_time_ms q)
  && bool_decide (adjustment_interval p = adjustment_interval q)
  && bool_decide (max_adjust_up_factor p = max_adjust_up_factor q)
  && bool_decide (max_adjust_down_divisor p = max_adjust_down_divisor q).

(** ** Storage and events *)

Record PendingPowDifficultyParams : Type :=
  { pending_params : PowDifficultyParams; activate_at : Z }.

Record DifficultyAdjustmentAudit : Type := {
  audit_block : Z;
  audit_params_version : Z;
  old_difficulty : Z;
  new_difficulty : Z;
  window_start_block : Z;
  actual_window_ms : Z;
}.

Inductive PowEvent : Type :=
| DifficultyAdjusted (block old_difficulty new_difficulty actual_window_ms target_window_ms : Z)
| PowParamsUnhealthy (block : Z)
| PowWindowReset (block : Z).

Record pow : Type := {
  CurrentDifficulty : Z;
  WindowStartMs : option Z;
  WindowStartBlock : option Z;
  ActiveParams : PowDifficultyParams;
  PendingParams : option PendingPowDifficultyParams;
  LastAdjustment : option DifficultyAdjustmentAudit;
  pow_events : list PowEvent;
}.

(** The genesis configuration is refused by an assertion unless it is valid. *)
Definition pow_genesis (params : PowDifficultyParams) (initial_difficulty : Z) : option pow :=
  if decide (is_ok (validate params) = true /\ 0 < initial_difficulty) then
    Some {| CurrentDifficulty := initial_difficulty; WindowStartMs := None;
            WindowStartBlock := None; ActiveParams := params; PendingParams := None;
            LastAdjustment := None; pow_events := [] |}
  else None.

Definition pow_event (e : PowEvent) (s : pow) : pow := {|
  CurrentDifficulty := CurrentDifficulty s; WindowStartMs := WindowStartMs s;
  WindowStartBlock := WindowStartBlock s; ActiveParams := ActiveParams s;
  PendingParams := PendingParams s; LastAdjustment := LastAdjustment s;
  pow_events := pow_events s ++ [e] |}.

Definition window_started (now_ms block_num : Z) (s : pow) : pow := {|
  CurrentDifficulty := CurrentDifficulty s; WindowStartMs := Some now_ms;
  WindowStartBlock := Some block_num; ActiveParams := ActiveParams s;
  PendingParams := PendingParams s; LastAdjustment := LastAdjustment s;
  pow_events := pow_events s |}.

Definition params_activated (p : PowDifficultyParams) (s : pow) : pow := {|
  CurrentDifficulty := CurrentDifficulty s; WindowStartMs := None;
  WindowStartBlock := None; ActiveParams := p;
  PendingParams := None; LastAdjustment := LastAdjustment s;
  pow_events := pow_events s |}.

Definition params_staged (p : PendingPowDifficultyParams) (s : pow) : pow := {|
  CurrentDifficulty := CurrentDifficulty s; WindowStartMs := WindowStartMs s;
  WindowStartBlock := WindowStartBlock s; ActiveParams := ActiveParams s;
  PendingParams := Some p; LastAdjustment := LastAdjustment s;
  pow_events := pow_events s |}.

Definition difficulty_set (d : Z) (a : DifficultyAdjustmentAudit) (s : pow) : pow := {|
  CurrentDifficulty := d; WindowStartMs := WindowStartMs s;
  WindowStartBlock := WindowStartBlock s; ActiveParams := ActiveParams s;
  PendingParams := PendingParams s; LastAdjustment := Some a;
  pow_events := pow_events s |}.

(** ** The beginning and the end of a block *)

Definition pow_on_initialize (n : Z) (s : pow) : pow :=
  let block_num := saturated_into u32_max n in
  if decide (block_num = 0) then s
  else match PendingParams s with
  | Some pending =>
      if decide (activate_at pending <= block_num)
      then params_activated (pending_params pending) s else s
  | None => s
  end.

(** [Ord::clamp] panics when the bounds are reversed. *)
Definition clamp (x low high : Z) : option Z :=
  if decide (low <= high) then Some (Z.max low (Z.min x high)) else None.

Definition adjusted (params : PowDifficultyParams) (old target actual : Z) : option Z :=
  let calc_difficulty := Z.max old 1 in
  let new_diff_u128 := saturating_mul u128_max calc_difficulty target / actual in
  let max_diff := saturating_mul u64_max calc_difficulty (max_adjust_up_factor params) in
  let min_diff := Z.max (calc_difficulty / max_adjust_down_divisor params) 1 in
  clamp (saturated_into u64_max new_diff_u128) min_diff max_diff.

Definition adjust (n block_num now_ms target start_ms : Z) (start_block : option Z) (s : pow)
    : option pow :=
  let params := ActiveParams s in
  let actual := Z.max (saturating_sub now_ms start_ms) 1 in
  let old := CurrentDifficulty s in
  new ← adjusted params old target actual;
  Some (pow_event (DifficultyAdjusted n old new actual target)
    (difficulty_set new {|
       audit_block := block_num; audit_params_version := params_version params;
       old_difficulty := old; new_difficulty := new;
       window_start_block := default block_num start_block; actual_window_ms := actual |} s)).

Definition params_healthy (params : PowDifficultyParams) : bool :=
  is_ok (validate params) && bool_decide (algorithm_version params = POW_ALGORITHM_VERSION).

Definition pow_on_finalize (n now_ms extrinsic_count : Z) (s : pow) : option pow :=
  let block_num := saturated_into u32_max n in
  if decide (now_ms = 0) then Some s
  else if decide (extrinsic_count > 1) then
    let params := ActiveParams s in
    match (if params_healthy params then target_window_ms params else None) with
    | None => Some (pow_event (PowParamsUnhealthy n) s)
    | Some target =>
        let elapsed := (fun start => saturating_sub block_num start) <$> WindowStartBlock s in
        if default false ((fun e => bool_decide (adjustment_interval params < e)) <$> elapsed)
        then Some (window_started now_ms block_num (pow_event (PowWindowReset n) s))
        else if decide (elapsed = Some (adjustment_interval params)) then
          s ← match WindowStartMs s with
              | Some start_ms => adjust n block_num now_ms target start_ms (WindowStartBlock s) s
              | None => Some s
              end;
          Some (window_started now_ms block_num s)
        else if decide (WindowStartMs s = None \/ WindowStartBlock s = None)
        then Some (window_started now_ms block_num s) else Some s
    end
  else None.

(** ** Staging of new parameters by a runtime upgrade *)

Inductive StageError : Type :=
| InvalidParams | UnsupportedAlgorithm | PendingExists | VersionChanged | VersionNotNext.

Definition stage_params (new_params : PowDifficultyParams) (at_block : Z) : M pow StageError unit :=
  ensure (is_ok (validate new_params)) InvalidParams ;;
  ensure (bool_decide (algorithm_version new_params = POW_ALGORITHM_VERSION))
    UnsupportedAlgorithm ;;
  none ← gets (fun s => bool_decide (PendingParams s = None));
  ensure none PendingExists ;;
  active ← gets ActiveParams;
  if same_values_except_version active new_params then
    ensure (bool_decide (params_version new_params = params_version active)) VersionChanged
  else
    ensure (bool_decide (params_version new_params
      = saturating_add u32_max (params_version active) 1)) VersionNotNext ;;
    modify (params_staged {| pending_params := new_params; activate_at := at_block |}).

(** ** A chain: each block may stage parameters, then ends *)

Record pow_block : Type := {
  staged : list (PowDifficultyParams * Z);
  now_ms : Z;
  extrinsic_count : Z;
}.

Definition stage_all (l : list (PowDifficultyParams * Z)) (s : pow) : pow :=
  foldl (fun s '(p, at_block) => (transact (stage_params p at_block) s).2) s l.

Definition pow_step (n : Z) (b : pow_block) (s : pow) : option pow :=
  pow_on_finalize n (now_ms b) (extrinsic_count b) (stage_all (staged b) (pow_on_initialize n s)).

(** The blocks from height [n] on. *)
Fixpoint pow_run (n : Z) (blocks : list pow_block) (s : pow) : option pow :=
  match blocks with
  | [] => Some s
  | b :: blocks => s ← pow_step n b s; pow_run (n + 1) blocks s
  end.

(** ** Well-formed states *)

Definition params_u64 (p : PowDifficultyParams) : Prop :=
  in_range u32_max (params_version p) /\ in_range u16_max (algorithm_version p) /\
  in_range u64_max (target_block_time_ms p) /\ in_range u32_max (adjustment_interval p) /\
  in_range u64_max (max_adjust_up_factor p) /\ in_range u64_max (max_adjust_down_divisor p).

(** What [try_state] checks, and the widths of the fields. *)
Record pow_wf (s : pow) : Prop := {
  wf_difficulty : 0 < CurrentDifficulty s <= u64_max;
  wf_active : params_healthy (ActiveParams s) = true;
  wf_active_widths : params_u64 (ActiveParams s);
  wf_pending : forall p, PendingParams s = Some p ->
    params_healthy (pending_params p) = true /\ params_u64 (pending_params p) /\
    params_version (pending_params p)
      = saturating_add u32_max (params_version (ActiveParams s)) 1;
}.

Definition is_adjustment (e : PowEvent) : bool :=
  match e with DifficultyAdjusted _ _ _ _ _ => true | _ => false end.

(** Once the window is open it holds the block, and it is never skipped. *)
Definition window_ok (n : Z) (s : pow) : Prop :=
  (forall b, WindowStartBlock s = Some b ->
     0 < b <= n /\ n - b < adjustment_interval (ActiveParams s)) /\
  (WindowStartBlock s = None <-> WindowStartMs s = None).

(** ** Lemmas *)

Lemma guard_zero {E A} (x : Z) (e : E) (k : unit -> result E A) :
  is_ok (guard_ok (negb (bool_decide (x = 0))) e ≫= k) = true <-> x <> 0 /\ is_ok (k tt) = true.
Proof. case_bool_decide; simpl; naive_solver. Qed.

Lemma validate_ok p : is_ok (validate p) = true <->
  params_version p <> 0 /\ algorithm_version p <> 0 /\ target_block_time_ms p <> 0 /\
  adjustment_interval p <> 0 /\ max_adjust_up_factor p <> 0 /\ max_adjust_down_divisor p <> 0 /\
  target_block_time_ms p * adjustment_interval p <= u64_max.
Proof.
  unfold validate. rewrite !guard_zero. do 4 (apply and_iff_compat_l).
  unfold guard_ok, checked_mul.
  destruct (decide (max_adjust_up_factor p = 0)); [rewrite bool_decide_true by done; simpl; naive_solver|].
  destruct (decide (max_adjust_down_divisor p = 0)); [rewrite orb_comm, bool_decide_true by done; simpl; naive_solver|].
  rewrite !bool_decide_false by done. simpl. destruct (decide (_ <= _)); simpl; naive_solver.
Qed.

Lemma healthy_spec p :
  params_healthy p = true -> params_u64 p ->
  algorithm_version p = POW_ALGORITHM_VERSION /\ 0 < params_version p <= u32_max /\
  0 < target_block_time_ms p /\ 0 < adjustment_interval p <= u32_max /\
  0 < max_adjust_up_factor p <= u64_max /\ 0 < max_adjust_down_divisor p <= u64_max /\
  0 < target_block_time_ms p * adjustment_interval p <= u64_max /\
  target_window_ms p = Some (target_block_time_ms p * adjustment_interval p).
Proof.
  unfold params_healthy, params_u64, in_range.
  intros [(H1 & H2 & H3 & H4 & H5 & H6 & H7)%validate_ok Ha%bool_decide_eq_true]%andb_true_iff.
  intros (W1 & W2 & W3 & W4 & W5 & W6). split; [done|]. do 5 (split; [lia|]).
  split; [nia|]. unfold target_window_ms. by apply checked_mul_Some.
Qed.

(** The adjustment, when the parameters are healthy: the proportional value
    brought into the interval the factors allow; the clamp never panics. *)
Lemma adjusted_spec p old target actual :
  params_healthy p = true -> params_u64 p -> 0 < old <= u64_max -> 0 <= target <= u64_max ->
  1 <= actual ->
  let low := Z.max (old / max_adjust_down_divisor p) 1 in
  let high := Z.min u64_max (old * max_adjust_up_factor p) in
  adjusted p old target actual = Some (Z.max low (Z.min (old * target / actual) high)) /\
  1 <= low <= old /\ old <= high <= u64_max.
Proof.
  intros Hh Hw Ho Ht Ha low high. destruct (healthy_spec p Hh Hw) as (_ & _ & _ & _ & Hu & Hd & _).
  assert (Hlow : 1 <= low <= old).
  { unfold low. split; [lia|]. apply Z.max_lub; [|lia]. apply Z.div_le_upper_bound; nia. }
  assert (Hhigh : old <= high <= u64_max).
  { unfold high. split; [|lia]. apply Z.min_glb; nia. }
  split; [|done]. unfold adjusted, saturating_mul, saturated_into.
  rewrite (Z.max_l old 1) by lia. fold low high.
  rewrite (Z.min_r u128_max) by (unfold u64_max, u128_max in *; nia).
  unfold clamp. rewrite decide_True by lia. f_equal. unfold high. lia.
Qed.

(** The state inside block [n], before its end. *)
Record pow_mid (n : Z) (s : pow) : Prop := {
  pm_wf : pow_wf s;
  pm_window : forall b, WindowStartBlock s = Some b ->
    0 < b < n /\ n - b <= adjustment_interval (ActiveParams s);
  pm_both : WindowStartBlock s = None <-> WindowStartMs s = None;
}.

Definition pow_ok (n : Z) (s : pow) : Prop := pow_wf s /\ window_ok n s.

(** The new state of a block in which the difficulty is adjusted. *)
Definition readjusted (n now_ms start_ms b : Z) (s : pow) : pow :=
  let p := ActiveParams s in
  let target := target_block_time_ms p * adjustment_interval p in
  let actual := Z.max (saturating_sub now_ms start_ms) 1 in
  let old := CurrentDifficulty s in
  let new := Z.max (Z.max (old / max_adjust_down_divisor p) 1)
    (Z.min (old * target / actual) (Z.min u64_max (old * max_adjust_up_factor p))) in
  window_started now_ms n (pow_event (DifficultyAdjusted n old new actual target)
    (difficulty_set new {|
       audit_block := n; audit_params_version := params_version p; old_difficulty := old;
       new_difficulty := new; window_start_block := b; actual_window_ms := actual |} s)).

Lemma finalize_cases n now count s :
  pow_mid n s -> 0 < n <= u32_max -> 0 < now -> 1 < count ->
  pow_on_finalize n now count s =
    match WindowStartBlock s, WindowStartMs s with
    | Some b, Some ms =>
        if decide (n - b = adjustment_interval (ActiveParams s))
        then Some (readjusted n now ms b s) else Some s
    | _, _ => Some (window_started now n s)
    end.
Proof.
  intros [[Hd Ha Hw _] Hwin Hboth] Hn Hnow Hc. unfold pow_on_finalize. cbv zeta.
  rewrite (decide_False (P := now = 0)), (decide_True (P := count > 1)) by lia. rewrite Ha.
  destruct (healthy_spec _ Ha Hw) as (_ & _ & _ & Hi & _ & _ & Ht & ->).
  assert (saturated_into u32_max n = n) as -> by (unfold saturated_into; lia).
  destruct (WindowStartBlock s) as [b|] eqn:Hb, (WindowStartMs s) as [ms|] eqn:Hms;
    [|naive_solver|naive_solver|].
  2: { done. }
  specialize (Hwin b eq_refl). cbn [option_fmap option_map fmap default].
  assert (saturating_sub n b = n - b) as -> by (unfold saturating_sub; lia).
  rewrite bool_decide_false by lia. destruct (decide (n - b = _)) as [He|He].
  - rewrite decide_True by congruence. unfold adjust.
    destruct (adjusted_spec (ActiveParams s) (CurrentDifficulty s)
      (target_block_time_ms (ActiveParams s) * adjustment_interval (ActiveParams s))
      (Z.max (saturating_sub now ms) 1)) as [-> _]; [done|done|done|lia|lia|]. done.
  - rewrite decide_False by congruence. by rewrite decide_False by (by intros [|]).
Qed.

Lemma finalize_ok n now count s :
  pow_mid n s -> 0 < n <= u32_max -> 0 < now -> 1 < count ->
  exists s', pow_on_finalize n now count s = Some s' /\ pow_ok n s'.
Proof.
  intros Hm Hn Hnow Hc. rewrite (finalize_cases n now count s) by done.
  destruct Hm as [Hwf Hwin Hboth]. pose proof Hwf as [Hd Ha Hw Hp].
  destruct (healthy_spec _ Ha Hw) as (_ & _ & _ & Hi & _ & _ & Ht & _).
  assert (Hstart : pow_ok n (window_started now n s)).
  { split; [by destruct Hwf|]. split; [|done]. intros b [= <-]. simpl. lia. }
  destruct (WindowStartBlock s) as [b|] eqn:Hb, (WindowStartMs s) as [ms|] eqn:Hms; eauto.
  specialize (Hwin b eq_refl). destruct (decide _) as [He|He]; eexists; (split; [reflexivity|]).
  - destruct (adjusted_spec (ActiveParams s) (CurrentDifficulty s)
      (target_block_time_ms (ActiveParams s) * adjustment_interval (ActiveParams s))
      (Z.max (saturating_sub now ms) 1)) as (_ & ? & ?); [done|done|done|lia|lia|].
    split; [split; [|done..]|]; simpl; [lia|]. split; [|done]. intros b' [= <-]. simpl. lia.
  - split; [done|]. split; [|by rewrite Hb, Hms]. rewrite Hb. intros b' [= <-]. lia.
Qed.

Lemma initialize_mid n s :
  pow_ok n s -> 0 <= n < u32_max -> pow_mid (n + 1) (pow_on_initialize (n + 1) s).
Proof.
  intros [[Hd Ha Hw Hp] [Hwin Hboth]] Hn.
  assert (Hkeep : pow_mid (n + 1) s).
  { split; [by split| |done]. intros b Hb. specialize (Hwin b Hb). lia. }
  unfold pow_on_initialize. case_decide; [done|].
  destruct (PendingParams s) as [p|] eqn:Hpend; [|done]. case_decide; [|done].
  destruct (Hp p eq_refl) as (Hh & Hu & _). split; [by split|done|done].
Qed.

(** What a staging does: it is refused without effect, changes nothing, or
    fills the empty slot. *)
Lemma stage_run p at_block s :
  (exists e, stage_params p at_block s = (Err e, s)) \/
  (stage_params p at_block s = (Ok tt, s) /\ p = ActiveParams s) \/
  (stage_params p at_block s
     = (Ok tt, params_staged {| pending_params := p; activate_at := at_block |} s) /\
   params_healthy p = true /\ PendingParams s = None /\
   params_version p = saturating_add u32_max (params_version (ActiveParams s)) 1).
Proof.
  unfold stage_params, params_healthy.
  destruct (is_ok (validate p)); [|left; by eexists]. rewrite bind_ensure_true. simpl.
  destruct (decide (algorithm_version p = POW_ALGORITHM_VERSION)) as [Ha|Ha].
  2: { left. rewrite bool_decide_false by done. by eexists. }
  rewrite bool_decide_true by done. rewrite bind_ensure_true, bind_gets.
  destruct (PendingParams s) eqn:Hp; [left; by eexists|].
  rewrite bool_decide_true, bind_ensure_true, bind_gets by done.
  destruct (same_values_except_version (ActiveParams s) p) eqn:Hs.
  - destruct (decide (params_version p = params_version (ActiveParams s))) as [Hv|Hv].
    + right; left. rewrite bool_decide_true by done. split; [done|].
      unfold same_values_except_version in Hs.
      rewrite !andb_true_iff, !bool_decide_eq_true in Hs.
      destruct p, (ActiveParams s); simpl in *. naive_solver.
    + left. rewrite bool_decide_false by done. by eexists.
  - destruct (decide (params_version p = saturating_add u32_max (params_version (ActiveParams s)) 1)).
    + right; right. by rewrite bool_decide_true by done.
    + left. rewrite bool_decide_false by done. by eexists.
Qed.

Lemma stage_mid n p at_block s :
  params_u64 p -> pow_mid n s -> pow_mid n (transact (stage_params p at_block) s).2.
Proof.
  intros Hu Hm. unfold transact.
  destruct (stage_run p at_block s) as [[e ->]|[[-> _]|(-> & Hh & Hn & Hv)]]; simpl; try done.
  destruct Hm as [[] ? ?]. split; [|done..]. split; try done. intros q [= <-]. done.
Qed.

(** What staging and the beginning of a block leave alone. *)
Lemma stage_keeps p at_block s :
  let s' := (transact (stage_params p at_block) s).2 in
  CurrentDifficulty s' = CurrentDifficulty s /\ WindowStartBlock s' = WindowStartBlock s /\
  WindowStartMs s' = WindowStartMs s /\ ActiveParams s' = ActiveParams s /\
  pow_events s' = pow_events s.
Proof.
  unfold transact.
  destruct (stage_run p at_block s) as [[e ->]|[[-> _]|(-> & _)]]; done.
Qed.

Definition stage_typed (l : list (PowDifficultyParams * Z)) : Prop :=
  Forall (fun x => params_u64 x.1) l.

Lemma stage_all_mid n l s : stage_typed l -> pow_mid n s -> pow_mid n (stage_all l s).
Proof.
  intros Hl. revert s. induction Hl as [|[p a] l Hp _ IH]; intros s Hm; simpl; [done|].
  apply IH. by apply stage_mid.
Qed.

Lemma stage_all_keeps l s :
  CurrentDifficulty (stage_all l s) = CurrentDifficulty s /\
  WindowStartBlock (stage_all l s) = WindowStartBlock s /\
  WindowStartMs (stage_all l s) = WindowStartMs s /\
  ActiveParams (stage_all l s) = ActiveParams s /\ pow_events (stage_all l s) = pow_events s.
Proof.
  revert s. induction l as [|[p a] l IH]; intros s; simpl; [done|].
  destruct (stage_keeps p a s) as (? & ? & ? & ? & ?).
  destruct (IH (transact (stage_params p a) s).2) as (? & ? & ? & ? & ?).
  split_and!; etransitivity; eassumption.
Qed.

(** A block as the timestamp pallet and the node deliver it: a positive time,
    a transaction besides the timestamp. *)
Definition regular (b : pow_block) : Prop :=
  stage_typed (staged b) /\ 0 < now_ms b /\ 1 < extrinsic_count b.

(** Every event announces an adjustment, and the difficulty it announces lies
    within the factors of the parameters. *)
Definition only_adjustments (l : list PowEvent) : Prop := Forall (fun e => is_adjustment e = true) l.

Lemma finalize_events n now count s s' :
  pow_mid n s -> 0 < n <= u32_max -> 0 < now -> 1 < count ->
  pow_on_finalize n now count s = Some s' -> only_adjustments (pow_events s) ->
  only_adjustments (pow_events s').
Proof.
  intros Hm Hn Hnow Hc. rewrite (finalize_cases n now count s) by done. intros Hr He.
  repeat case_match; simplify_eq; try done.
  simpl. apply Forall_app. split; [done|]. by constructor.
Qed.

Lemma step_ok n b s :
  regular b -> 0 <= n < u32_max -> pow_ok n s ->
  exists s', pow_step (n + 1) b s = Some s' /\ pow_ok (n + 1) s' /\
    (only_adjustments (pow_events s) -> only_adjustments (pow_events s')).
Proof.
  intros (Ht & Hnow & Hc) Hn Hok. unfold pow_step.
  pose proof (stage_all_mid _ _ _ Ht (initialize_mid n s Hok Hn)) as Hm.
  destruct (finalize_ok (n + 1) (now_ms b) (extrinsic_count b) _ Hm) as (s' & Hr & Hok'); [lia..|].
  exists s'. split; [done|]. split; [done|]. intros He.
  eapply finalize_events; [exact Hm|lia|done|done|exact Hr|].
  destruct (stage_all_keeps (staged b) (pow_on_initialize (n + 1) s)) as (_ & _ & _ & _ & ->).
  unfold pow_on_initialize. repeat case_decide || case_match; done.
Qed.

Lemma run_ok n blocks s :
  Forall regular blocks -> 0 <= n -> n + Z.of_nat (length blocks) <= u32_max -> pow_ok n s ->
  exists s', pow_run (n + 1) blocks s = Some s' /\ pow_ok (n + Z.of_nat (length blocks)) s' /\
    (only_adjustments (pow_events s) -> only_adjustments (pow_events s')).
Proof.
  intros Hr. revert n s. induction Hr as [|b blocks Hb _ IH]; intros n s Hn Hlen Hok.
  { exists s. simpl. by rewrite Z.add_0_r. }
  cbn [length pow_run] in *. destruct (step_ok n b s Hb) as (s1 & -> & Hok1 & He1); [lia|done|].
  destruct (IH (n + 1) s1) as (s2 & Hrun & Hok2 & He2); [lia|lia|done|].
  exists s2. split; [exact Hrun|]. split; [|auto].
  by replace (n + Z.of_nat (S (length blocks))) with (n + 1 + Z.of_nat (length blocks)) by lia.
Qed.

Lemma genesis_ok params d s :
  pow_genesis params d = Some s -> algorithm_version params = POW_ALGORITHM_VERSION ->
  params_u64 params -> d <= u64_max -> pow_ok 0 s /\ only_adjustments (pow_events s).
Proof.
  unfold pow_genesis. case_decide as Hd; [|done]. intros [= <-] Ha Hu Hm.
  split; [|constructor]. split; [|done]. split; simpl; try done; [lia|].
  unfold params_healthy. destruct Hd as [-> _]. by rewrite bool_decide_true.
Qed.

(** C25: from a valid genesis no sequence of regular blocks and runtime
    upgrades is ever refused by the difficulty pallet: the end of a block
    never panics, the state stays the one [try_state] accepts (a positive
    difficulty, valid parameters of the supported algorithm, a staged
    successor with the next version), the adjustment window always holds the
    last block, so none is ever skipped and no fault event is ever emitted. *)
Theorem difficulty_never_stalls params d blocks s :
  pow_genesis params d = Some s -> algorithm_version params = POW_ALGORITHM_VERSION ->
  params_u64 params -> d <= u64_max ->
  Forall regular blocks -> Z.of_nat (length blocks) <= u32_max ->
  exists s', pow_run 1 blocks s = Some s' /\ pow_wf s' /\
    window_ok (Z.of_nat (length blocks)) s' /\ only_adjustments (pow_events s').
Proof.
  intros Hg Ha Hu Hd Hr Hlen. destruct (genesis_ok params d s) as [Hok He]; [done..|].
  destruct (run_ok 0 blocks s) as (s' & Hrun & [Hwf Hwin] & He'); [done..|].
  exists s'. split_and!; [exact Hrun|done|done|auto].
Qed.

(** The end of a block with a timestamp: an empty block is refused
    whatever the state; otherwise the first block of a window records it, the
    blocks inside it change nothing, and the last one sets the difficulty to
    the old one times the ratio of the target time to the time the window
    took, rounded down, brought between the old difficulty divided by the one
    factor (at least 1) and multiplied by the other (at most the width), and
    opens the next window at this very block. *)
Theorem difficulty_adjustment n now count s :
  pow_mid n s -> 0 < n <= u32_max -> 0 < now ->
  (count <= 1 -> pow_on_finalize n now count s = None) /\
  (1 < count ->
   pow_on_finalize n now count s =
     match WindowStartBlock s, WindowStartMs s with
     | Some b, Some ms =>
         if decide (n - b = adjustment_interval (ActiveParams s))
         then Some (readjusted n now ms b s) else Some s
     | _, _ => Some (window_started now n s)
     end) /\
  (forall b ms, WindowStartBlock s = Some b -> WindowStartMs s = Some ms ->
   let old := CurrentDifficulty s in
   let new := CurrentDifficulty (readjusted n now ms b s) in
   Z.max 1 (old / max_adjust_down_divisor (ActiveParams s)) <= new /\
   new <= Z.min u64_max (old * max_adjust_up_factor (ActiveParams s)) /\
   (now - ms = target_block_time_ms (ActiveParams s) * adjustment_interval (ActiveParams s) ->
    new = old)).
Proof.
  intros Hm Hn Hnow. split; [|split].
  - intros Hc. unfold pow_on_finalize. cbv zeta.
    by rewrite (decide_False (P := now = 0)), (decide_False (P := count > 1)) by lia.
  - by apply finalize_cases.
  - intros b ms _ _. destruct Hm as [[Hd Ha Hw _] _ _].
    destruct (healthy_spec _ Ha Hw) as (_ & _ & _ & _ & _ & _ & Ht & _).
    destruct (adjusted_spec (ActiveParams s) (CurrentDifficulty s)
      (target_block_time_ms (ActiveParams s) * adjustment_interval (ActiveParams s))
      (Z.max (saturating_sub now ms) 1)) as (_ & Hl & Hh); [done|done|done|lia|lia|].
    cbv zeta. simpl. split; [lia|]. split; [lia|]. intros Ht'.
    assert (Z.max (saturating_sub now ms) 1
      = target_block_time_ms (ActiveParams s) * adjustment_interval (ActiveParams s)) as ->
      by (unfold saturating_sub; lia).
    rewrite Z.div_mul by lia. lia.
Qed.

(** ** The schedule, while no parameters are staged *)

Record on_schedule (params : PowDifficultyParams) (n : Z) (s : pow) : Prop := {
  os_active : ActiveParams s = params;
  os_pending : PendingParams s = None;
  os_start : WindowStartBlock s = if decide (n = 0) then None
    else Some (1 + adjustment_interval params * Z.of_nat (length (pow_events s)));
  os_none : n = 0 -> pow_events s = [];
}.

Lemma schedule_step params n b s s' :
  regular b -> staged b = [] -> 0 <= n < u32_max -> pow_ok n s -> on_schedule params n s ->
  pow_step (n + 1) b s = Some s' -> on_schedule params (n + 1) s'.
Proof.
  intros (Ht & Hnow & Hc) Hs Hn Hok [Ha Hp Hst H0]. unfold pow_step. rewrite Hs. simpl stage_all.
  pose proof (initialize_mid n s Hok Hn) as Hm.
  assert (pow_on_initialize (n + 1) s = s) as Hi.
  { unfold pow_on_initialize. rewrite Hp. cbv zeta. by destruct (decide (saturated_into u32_max (n + 1) = 0)). }
  rewrite Hi in *. rewrite (finalize_cases (n + 1) _ _ s) by (done || lia).
  pose proof (pm_both _ _ Hm) as Hboth. rewrite Hst in *.
  destruct (decide (n = 0)) as [->|Hne].
  { intros [= <-]. specialize (H0 eq_refl). split; simpl; try done.
    rewrite H0. simpl. by rewrite Z.mul_0_r. }
  destruct (WindowStartMs s) as [ms|]; [|naive_solver]. rewrite Ha.
  destruct (decide (_ = adjustment_interval params)) as [He|He]; intros [= <-];
    (split; [done|done| |lia]); simpl; rewrite decide_False by lia; [|done].
  rewrite length_app. simpl. f_equal. lia.
Qed.

Lemma schedule_run params n blocks s s' :
  Forall regular blocks -> Forall (fun b => staged b = []) blocks ->
  0 <= n -> n + Z.of_nat (length blocks) <= u32_max -> pow_ok n s -> on_schedule params n s ->
  pow_run (n + 1) blocks s = Some s' -> on_schedule params (n + Z.of_nat (length blocks)) s'.
Proof.
  intros Hr. revert n s. induction Hr as [|b blocks Hb _ IH]; intros n s Hs Hn Hlen Hok Hos.
  { intros [= <-]. simpl. by rewrite Z.add_0_r. }
  apply Forall_cons in Hs as [Hsb Hs]. cbn [length pow_run] in *.
  destruct (step_ok n b s Hb) as (s1 & Hstep & Hok1 & _); [lia|done|].
  pose proof (schedule_step params n b s s1 Hb Hsb ltac:(lia) Hok Hos Hstep) as Hos1.
  rewrite Hstep. cbn [mbind option_bind]. intros Hrun.
  replace (n + Z.of_nat (S (length blocks))) with (n + 1 + Z.of_nat (length blocks)) by lia.
  apply (IH (n + 1) s1); [done|lia|lia|done|done|exact Hrun].
Qed.

(** C28: adjustments come on schedule: after [n] regular blocks without
    an upgrade the difficulty has been adjusted exactly [(n - 1) / interval]
    times, and the open window began [(n - 1) mod interval] blocks ago. *)
Theorem adjustments_on_schedule params d blocks s :
  pow_genesis params d = Some s -> algorithm_version params = POW_ALGORITHM_VERSION ->
  params_u64 params -> d <= u64_max ->
  Forall regular blocks -> Forall (fun b => staged b = []) blocks ->
  let n := Z.of_nat (length blocks) in
  0 < n <= u32_max ->
  exists s', pow_run 1 blocks s = Some s' /\
    Z.of_nat (length (pow_events s')) = (n - 1) / adjustment_interval params /\
    WindowStartBlock s' = Some (n - (n - 1) mod adjustment_interval params).
Proof.
  intros Hg Ha Hu Hd Hr Hs n Hn. destruct (genesis_ok params d s) as [Hok _]; [done..|].
  destruct (run_ok 0 blocks s) as (s' & Hrun & [Hwf Hwin] & _); [done|lia|lia|done|].
  exists s'. split; [exact Hrun|].
  destruct (schedule_run params 0 blocks s s') as [Ha' _ Hst _]; [done|done|lia|lia|done| |exact Hrun|].
  { unfold pow_genesis in Hg. case_decide; [|done]. by simplify_eq. }
  rewrite Z.add_0_l in *. fold n in Hst, Hwin. rewrite decide_False in Hst by lia.
  destruct Hwin as [Hwin _]. specialize (Hwin _ Hst). rewrite Ha' in Hwin.
  rewrite Hst. clearbody n. set (k := Z.of_nat (length (pow_events s'))) in *. set (i := adjustment_interval params) in *.
  assert (0 < i) by lia.
  assert ((n - 1) / i = k) as Hk by (symmetry; apply (Z.div_unique_pos _ _ _ (n - 1 - i * k)); lia).
  split; [done|]. rewrite Z.mod_eq, Hk by lia. f_equal. lia.
Qed.

(** ** Activation of staged parameters *)

Lemma staged_while_pending l s :
  is_Some (PendingParams s) -> stage_all l s = s.
Proof.
  intros Hp. revert s Hp. induction l as [|[p a] l IH]; intros s Hp; simpl; [done|].
  assert ((transact (stage_params p a) s).2 = s) as ->; [|by apply IH].
  unfold transact.
  destruct (stage_run p a s) as [[e ->]|[[-> _]|(_ & _ & Hn & _)]]; [done|done|].
  rewrite Hn in Hp. by destruct Hp.
Qed.

Lemma finalize_keeps_params n now count s s' :
  pow_mid n s -> 0 < n <= u32_max -> 0 < now -> 1 < count ->
  pow_on_finalize n now count s = Some s' ->
  ActiveParams s' = ActiveParams s /\ PendingParams s' = PendingParams s.
Proof.
  intros Hm Hn Hnow Hc. rewrite (finalize_cases n now count s) by done. intros Hr.
  repeat case_match; simplify_eq; done.
Qed.

(** Before the block of activation nothing changes; in it they are replaced. *)
Lemma pending_step n b s s' p :
  regular b -> 0 <= n < u32_max -> pow_ok n s -> PendingParams s = Some p ->
  pow_step (n + 1) b s = Some s' ->
  (n + 1 < activate_at p -> ActiveParams s' = ActiveParams s /\ PendingParams s' = Some p) /\
  (activate_at p <= n + 1 -> ActiveParams s' = pending_params p /\
     CurrentDifficulty s' = CurrentDifficulty s /\ WindowStartBlock s' = Some (n + 1) /\
     WindowStartMs s' = Some (now_ms b)).
Proof.
  intros (Ht & Hnow & Hc) Hn Hok Hp. unfold pow_step.
  pose proof (stage_all_mid _ _ _ Ht (initialize_mid n s Hok Hn)) as Hm.
  assert (saturated_into u32_max (n + 1) = n + 1) as Hsat by (unfold saturated_into; lia).
  assert (Hinit : pow_on_initialize (n + 1) s =
    if decide (activate_at p <= n + 1) then params_activated (pending_params p) s else s).
  { unfold pow_on_initialize. rewrite Hp, Hsat. cbv zeta. by rewrite decide_False by lia. }
  rewrite Hinit in *. destruct (decide (activate_at p <= n + 1)) as [Ha|Ha]; intros Hr.
  - split; [lia|]. intros _.
    destruct (stage_all_keeps (staged b) (params_activated (pending_params p) s))
      as (Kd & Kb & Km & Ka & _).
    destruct (finalize_keeps_params _ _ _ _ _ Hm ltac:(lia) Hnow Hc Hr) as [-> _].
    rewrite (finalize_cases (n + 1) _ _ _ Hm) in Hr by (done || lia). rewrite Kb in Hr.
    simpl in Hr. injection Hr as <-. by rewrite Ka.
  - split; [|lia]. intros _. rewrite staged_while_pending in * by (by eexists).
    destruct (finalize_keeps_params _ _ _ _ _ Hm ltac:(lia) Hnow Hc Hr) as [-> ->]. done.
Qed.

(** A runtime upgrade that stages valid parameters with the next
    version is accepted only while none are staged; later stagings are
    refused until the activation; the parameters stay the old ones in every
    regular block before the block [activate_at] and are the staged ones from
    that block on (or from the next block, when it has passed already), where
    the window restarts and the difficulty is carried over. *)
Theorem staged_parameters_activate m p at_block s blocks b s1 :
  pow_ok m s -> 0 <= m -> PendingParams s = None -> params_u64 p ->
  stage_params p at_block s = (Ok tt, s1) -> p <> ActiveParams s ->
  Forall regular blocks -> regular b ->
  let n := m + Z.of_nat (length blocks) in
  n < u32_max -> (blocks = [] \/ n < at_block) -> at_block <= n + 1 ->
  exists s2 s3, pow_run (m + 1) blocks s1 = Some s2 /\ pow_step (n + 1) b s2 = Some s3 /\
    ActiveParams s2 = ActiveParams s /\
    (forall q a, stage_all [(q, a)] s2 = s2) /\
    ActiveParams s3 = p /\ CurrentDifficulty s3 = CurrentDifficulty s2 /\
    WindowStartBlock s3 = Some (n + 1) /\ WindowStartMs s3 = Some (now_ms b).
Proof.
  intros Hok Hm Hnone Hu Hst Hne Hr Hb n Hn Hbefore Hat.
  set (q := {| pending_params := p; activate_at := at_block |}).
  assert (Hs1 : pow_ok m s1 /\ PendingParams s1 = Some q /\ ActiveParams s1 = ActiveParams s).
  { destruct (stage_run p at_block s) as [[e He]|[[He Hp]|(He & Hh & _ & Hv)]]; [congruence|done|].
    rewrite He in Hst. injection Hst as <-. split; [|done].
    destruct Hok as [[] Hwin]. split; [|done]. split; try done. intros q' [= <-]. done. }
  clear Hst. destruct Hs1 as (Hok1 & Hq & Hact).
  assert (exists s2, pow_run (m + 1) blocks s1 = Some s2 /\ pow_ok n s2 /\
    PendingParams s2 = Some q /\ ActiveParams s2 = ActiveParams s) as (s2 & Hrun & Hok2 & Hq2 & Ha2).
  { clear Hok Hne Hat. revert m s1 n Hm Hn Hbefore Hok1 Hq Hact.
    induction Hr as [|b1 blocks Hb1 _ IH]; intros m s1 n Hm Hn Hbefore Hok1 Hq Hact.
    { exists s1. unfold n. simpl. rewrite Z.add_0_r. done. }
    cbn [length pow_run] in *. destruct Hbefore as [?|Hbefore]; [done|].
    destruct (step_ok m b1 s1 Hb1) as (t & Hstep & Hokt & _); [lia|done|].
    destruct (pending_step m b1 s1 t q Hb1) as [Hkeep _]; [lia|done|done|done|].
    destruct Hkeep as [Hat' Hqt]; [simpl; lia|].
    destruct (IH (m + 1) t) as (s2 & Hrun & Hok2 & Hq2 & Ha2);
      [lia|lia|right; lia|done|done|congruence|].
    exists s2. rewrite Hstep. split; [exact Hrun|]. split; [|done].
    replace n with (m + 1 + Z.of_nat (length blocks)) by (unfold n; lia). done. }
  destruct (step_ok n b s2 Hb) as (s3 & Hstep & _); [lia|done|].
  destruct (pending_step n b s2 s3 q Hb) as [_ Hact3]; [lia|done|done|done|].
  destruct Hact3 as (? & ? & ? & ?); [done|].
  exists s2, s3. split_and!; try done. intros q' a. apply staged_while_pending. by eexists.
Qed.

(** ** A chain of blocks five minutes apart, with a window of three blocks *)

Definition demo_params : PowDifficultyParams := {|
  params_version := 1; algorithm_version := 1; target_block_time_ms := 360000;
  adjustment_interval := 3; max_adjust_up_factor := 4; max_adjust_down_divisor := 4 |}.
Definition demo_state : pow := {|
  CurrentDifficulty := 100; WindowStartMs := None; WindowStartBlock := None;
  ActiveParams := demo_params; PendingParams := None; LastAdjustment := None; pow_events := [] |}.
Definition demo_blocks (n : nat) : list pow_block :=
  (fun k => {| staged := []; now_ms := 1000 + 300000 * Z.of_nat k; extrinsic_count := 2 |})
    <$> seq 1 n.
Definition demo_params2 : PowDifficultyParams := {|
  params_version := 2; algorithm_version := 1; target_block_time_ms := 360000;
  adjustment_interval := 5; max_adjust_up_factor := 4; max_adjust_down_divisor := 4 |}.

Lemma demo_regular n : Forall regular (demo_blocks n) /\ Forall (fun b => staged b = []) (demo_blocks n).
Proof.
  unfold demo_blocks. rewrite !Forall_fmap. split; apply Forall_forall; intros k _; [|done].
  split; [constructor|]. simpl. lia.
Qed.

Lemma demo_typed : params_u64 demo_params /\ params_u64 demo_params2.
Proof. split; repeat split; vm_compute; discriminate. Qed.

Lemma demo_ok : pow_ok 0 demo_state.
Proof.
  apply (genesis_ok demo_params 100); [reflexivity|reflexivity|apply demo_typed|].
  vm_compute; discriminate.
Qed.

Lemma difficulty_never_stalls_witness :
  exists s', pow_run 1 (demo_blocks 10) demo_state = Some s' /\ pow_wf s' /\
    window_ok (Z.of_nat (length (demo_blocks 10))) s' /\ only_adjustments (pow_events s').
Proof.
  apply (difficulty_never_stalls demo_params 100).
  - reflexivity.
  - reflexivity.
  - apply demo_typed.
  - vm_compute; discriminate.
  - apply demo_regular.
  - vm_compute; discriminate.
Defined.

Lemma difficulty_adjustment_witness :
  pow_on_finalize 1 5 1 demo_state = None /\
  pow_on_finalize 1 5 2 demo_state = Some (window_started 5 1 demo_state).
Proof.
  assert (Hm : pow_mid 1 demo_state) by (split; [apply demo_ok|done|done]).
  split.
  - apply (difficulty_adjustment 1 5 1 demo_state Hm); [vm_compute; split; congruence|lia|lia].
  - apply (difficulty_adjustment 1 5 2 demo_state Hm); [vm_compute; split; congruence|lia|lia].
Defined.

Lemma adjustments_on_schedule_witness :
  exists s', pow_run 1 (demo_blocks 10) demo_state = Some s' /\
    Z.of_nat (length (pow_events s')) = 3 /\ WindowStartBlock s' = Some 10.
Proof.
  refine (adjustments_on_schedule demo_params 100 (demo_blocks 10) demo_state _ _ _ _ _ _ _).
  - reflexivity.
  - reflexivity.
  - apply demo_typed.
  - vm_compute; discriminate.
  - apply demo_regular.
  - apply demo_regular.
  - vm_compute; split; congruence.
Defined.

(** Staged in block 0 for block 3: two blocks with the old parameters, then the new ones. *)
Lemma staged_parameters_activate_witness :
  exists s1 s2 s3, stage_params demo_params2 3 demo_state = (Ok tt, s1) /\
    pow_run 1 (demo_blocks 2) s1 = Some s2 /\
    pow_step 3 (Build_pow_block [] 7 2) s2 = Some s3 /\
    ActiveParams s2 = demo_params /\ ActiveParams s3 = demo_params2.
Proof.
  eexists.
  destruct (staged_parameters_activate 0 demo_params2 3 demo_state (demo_blocks 2)
    (Build_pow_block [] 7 2) _ demo_ok ltac:(lia) eq_refl (proj2 demo_typed) eq_refl
    ltac:(discriminate) (proj1 (demo_regular 2)) ltac:(split; [constructor|simpl; lia])
    ltac:(vm_compute; congruence) ltac:(right; vm_compute; reflexivity)
    ltac:(vm_compute; congruence)) as (s2 & s3 & H1 & H2 & H3 & _ & H4 & _).
  exists s2, s3. split; [reflexivity|]. split; [exact H1|]. split; [exact H2|].
  split; [exact H3|exact H4].
Defined.
