(* ===== verification/Business.v ===== *)
(** * The business modules of joint votes

    What [issuance/resolution-issuance] and [governance/runtime-upgrade] share:
    the storage of the pallets they write ([business_world]; [R] stands for the
    storage of all others), the questions they ask of other pallets
    ([OtherPallets]) and the fixed vote plan of the founding institutions. *)
From S2P Require Import Prelude Encoding PowDifficulty.
From S2P Require Import Cid Types BusinessTypes State Interfaces Runtime Ids Locks Data.
From S2P Require Import Cleanup Lifecycle Execution Expiry InternalVote JointVote Ledger.

(** ** Errors *)

(** [Result::map_err]. *)
Definition map_err {S E A} (e : E) (m : M S E A) : M S E A := fun s =>
  match m s with (Ok a, s1) => (Ok a, s1) | (Err _, s1) => (Err e, s1) end.

Lemma map_err_Ok {S E A} (e : E) (m : M S E A) s a s' :
  map_err e m s = (Ok a, s') <-> m s = (Ok a, s').
Proof. unfold map_err. destruct (m s) as [[]]; naive_solver. Qed.

(** [f().is_ok()]: the step runs, its error is dropped. *)
Definition succeeds {S E A} (m : M S E A) : M S E bool :=
  r ← lift (attempt m); mret (is_ok r).

(** ** Storage *)

(** [issuance/resolution-issuance/src/lib.rs]. *)
Record issuance_store : Type := {
  AllowedRecipients : list AccountId;
  VotingProposalCount : Z;
  IssuanceExecuted : gmap Z Z;
  EverExecuted : gset Z;
  TotalIssued : Z;
}.

(** [genesis/src/lib.rs]: the phase of the chain and the developers' switch. *)
Inductive ChainPhase : Type := Genesis | Operation.

#[export] Instance ChainPhase_eq_dec : EqDecision ChainPhase.
Proof. solve_decision. Defined.

Record genesis_store : Type := { Phase : ChainPhase; DeveloperUpgradeEnabled : bool }.

Definition developer_upgrade_is_enabled (g : genesis_store) : bool :=
  DeveloperUpgradeEnabled g && negb (bool_decide (Phase g = Operation)).

Record business_world (L R : Type) : Type := {
  ledger : L;
  issuance : issuance_store;
  difficulty : pow;
  LastRuntimeUpgradeAudit : option RuntimeUpgradeAudit;
  chain_genesis : genesis_store;
  others : R;
}.
Arguments ledger {L R}.
Arguments issuance {L R}.
Arguments difficulty {L R}.
Arguments LastRuntimeUpgradeAudit {L R}.
Arguments chain_genesis {L R}.
Arguments others {L R}.
Arguments Build_business_world {L R}.

Definition set_ledger {L R} (f : L -> L) (w : business_world L R) : business_world L R :=
  Build_business_world (f (ledger w)) (issuance w) (difficulty w) (LastRuntimeUpgradeAudit w)
    (chain_genesis w) (others w).
Definition set_issuance {L R} (f : issuance_store -> issuance_store) (w : business_world L R)
    : business_world L R :=
  Build_business_world (ledger w) (f (issuance w)) (difficulty w) (LastRuntimeUpgradeAudit w)
    (chain_genesis w) (others w).
Definition set_difficulty {L R} (f : pow -> pow) (w : business_world L R) : business_world L R :=
  Build_business_world (ledger w) (issuance w) (f (difficulty w)) (LastRuntimeUpgradeAudit w)
    (chain_genesis w) (others w).
Definition set_audit {L R} (a : RuntimeUpgradeAudit) (w : business_world L R)
    : business_world L R :=
  Build_business_world (ledger w) (issuance w) (difficulty w) (Some a) (chain_genesis w) (others w).
Definition set_others {L R} (f : R -> R) (w : business_world L R) : business_world L R :=
  Build_business_world (ledger w) (issuance w) (difficulty w) (LastRuntimeUpgradeAudit w)
    (chain_genesis w) (f (others w)).

(** ** The other pallets *)

Inductive RolePermissionOperation : Type := Propose | Vote.

#[export] Instance RolePermissionOperation_eq_dec : EqDecision RolePermissionOperation.
Proof. solve_decision. Defined.

Class OtherPallets (R : Type) : Type := {
  (** [InstitutionRoleAuthorizationQuery::is_authorized]. *)
  is_authorized : R -> AccountId -> RoleSubject -> BusinessActionId ->
    RolePermissionOperation -> bool;
  (** [RuntimeInstitutionAdminQuery::is_institution_admin]. *)
  is_institution_admin : R -> InstitutionCode -> CidNumber -> AccountId -> bool;
  (** The code of the runtime, and [frame_system::set_code], which may refuse. *)
  runtime_code : R -> string;
  set_code : string -> R -> result DispatchError R;
}.

(** [set_code] replaces the code and nothing the other questions are about. *)
Class OtherPalletsLaws (R : Type) `{!OtherPallets R} : Prop :=
  set_code_sets : forall c r r', set_code c r = Ok r' -> runtime_code r' = c.

(** ** The vote plan of the founding institutions *)

Definition INSTITUTION_ROLE_CODE_MAX_BYTES : Z := 64.
Definition BUSINESS_MODULE_TAG_MAX_BYTES : Z := 32.
Definition ROLE_CODE_COMMITTEE_MEMBER : RoleCode := "COMMITTEE_MEMBER".
Definition ROLE_CODE_DIRECTOR : RoleCode := "DIRECTOR".

Definition bounded_role_subject (invalid : DispatchError) (cid_number role : string)
    : result DispatchError RoleSubject :=
  cid ← opt_ok (bounded_bytes CID_NUMBER_MAX_BYTES cid_number) invalid;
  role ← opt_ok (bounded_bytes INSTITUTION_ROLE_CODE_MAX_BYTES role) invalid;
  mret {| role_cid_number := cid; role_code := role |}.

Lemma bounded_role_subject_Ok invalid cid role r :
  bounded_role_subject invalid cid role = Ok r ->
  r = {| role_cid_number := cid; role_code := role |}.
Proof.
  unfold bounded_role_subject, bounded_bytes, opt_ok.
  destruct (decide (Z.of_nat (String.length cid) <= _)), (decide (Z.of_nat (String.length role) <= _));
    cbn; intros [= <-]; done.
Qed.

(** [voters.push(AuthorizationSubject::Institution(..))] over a table. *)
Fixpoint role_voters (invalid : DispatchError) (role : RoleCode) (cids : list string)
    : result DispatchError (list AuthorizationSubject) :=
  match cids with
  | [] => mret []
  | cid :: cids =>
      subject ← bounded_role_subject invalid cid role;
      rest ← role_voters invalid role cids;
      mret (Institution subject :: rest)
  end.

Definition joint_voters (invalid : DispatchError)
    : result DispatchError (list AuthorizationSubject) :=
  committees ← role_voters invalid ROLE_CODE_COMMITTEE_MEMBER (cb_cid_number <$> CHINA_CB);
  banks ← role_voters invalid ROLE_CODE_DIRECTOR (ch_cid_number <$> CHINA_CH);
  mret (committees ++ banks).

(** The common tail of the two [build_vote_plan] functions. *)
Definition joint_vote_plan (invalid failed : DispatchError) (tag : string) (action : Z)
    (proposer_role : RoleSubject) (object_hash : string) : result DispatchError VotePlan :=
  voters ← joint_voters invalid;
  module_tag ← opt_ok (bounded_bytes BUSINESS_MODULE_TAG_MAX_BYTES tag) failed;
  match try_new {| module_tag := module_tag; action_code := action |} module_tag
    (Institution proposer_role) voters Joint object_hash with
  | Ok plan => mret plan
  | Err _ => Err failed
  end.

(** The institutions that may propose: the national and provincial committees. *)
Definition committee_code (actor_cid_number : CidNumber) : option InstitutionCode :=
  if utf8_valid actor_cid_number
  then institution_code_from_cid_number actor_cid_number else None.

(** ** The plan never fails for the institutions of the tables *)

Lemma role_voters_ok invalid role cids :
  bounded_bytes INSTITUTION_ROLE_CODE_MAX_BYTES role = Some role ->
  Forall (fun c => bounded_bytes CID_NUMBER_MAX_BYTES c = Some c) cids ->
  role_voters invalid role cids =
    Ok ((fun c => Institution {| role_cid_number := c; role_code := role |}) <$> cids).
Proof.
  intros Hr. induction 1 as [|c cids Hc _ IH]; [done|]. simpl.
  unfold bounded_role_subject. rewrite Hc, Hr. simpl. by rewrite IH.
Qed.

Definition committee_voters : list AuthorizationSubject :=
  (fun c => Institution {| role_cid_number := c; role_code := ROLE_CODE_COMMITTEE_MEMBER |}) <$>
    (cb_cid_number <$> CHINA_CB).
Definition bank_voters : list AuthorizationSubject :=
  (fun c => Institution {| role_cid_number := c; role_code := ROLE_CODE_DIRECTOR |}) <$>
    (ch_cid_number <$> CHINA_CH).

Definition fits_cid (c : string) : bool :=
  bool_decide (bounded_bytes CID_NUMBER_MAX_BYTES c = Some c).

Lemma cids_fit cids : forallb fits_cid cids = true ->
  Forall (fun c => bounded_bytes CID_NUMBER_MAX_BYTES c = Some c) cids.
Proof.
  induction cids as [|c cids IH]; [done|]. simpl. intros [Hc Hcs]%andb_true_iff.
  constructor; [by apply bool_decide_eq_true in Hc|by apply IH].
Qed.

Lemma joint_voters_ok invalid : joint_voters invalid = Ok (committee_voters ++ bank_voters).
Proof.
  unfold joint_voters. rewrite !role_voters_ok; [done|reflexivity| |reflexivity|].
  - apply cids_fit. vm_compute. reflexivity.
  - apply cids_fit. vm_compute. reflexivity.
Qed.

Lemma try_new_institutions tag action proposer voters hash :
  voters <> [] -> has_duplicate [] voters = false ->
  existsb (fun s => negb (is_institution s)) voters = false ->
  bounded_list MAX_VOTE_PLAN_SUBJECTS voters = Some voters ->
  try_new {| module_tag := tag; action_code := action |} tag (Institution proposer) voters Joint hash
  = Ok {| business_action_id := {| module_tag := tag; action_code := action |};
          plan_owner := tag; proposer_subject := Institution proposer;
          voter_subjects := voters; voting_engine := Joint; business_object_hash := hash |}.
Proof.
  intros Hne Hdup Hin Hlen. unfold try_new. simpl module_tag.
  rewrite bool_decide_true, (bool_decide_false (voters = [])), Hdup, Hin, Hlen by done. done.
Qed.

(** The plan a module builds for a committee member names every founding
    institution once, with the role that votes for it. *)
Lemma joint_vote_plan_ok invalid failed tag action proposer hash :
  bounded_bytes BUSINESS_MODULE_TAG_MAX_BYTES tag = Some tag ->
  joint_vote_plan invalid failed tag action proposer hash = Ok {|
    business_action_id := {| module_tag := tag; action_code := action |};
    plan_owner := tag; proposer_subject := Institution proposer;
    voter_subjects := committee_voters ++ bank_voters; voting_engine := Joint;
    business_object_hash := hash |}.
Proof.
  intros Ht. unfold joint_vote_plan. rewrite joint_voters_ok. unfold opt_ok. rewrite Ht.
  cbn [mbind result_bind]. rewrite try_new_institutions; [done|..]; vm_compute; done.
Qed.

(** ** What a created joint proposal carries *)

Section Created.
Context `{Wt : Weights} `{Cfg : !Config} `{Ord : StorageOrder} {W : Type}
  `{Prov : !Providers W} `{Cb : !Callbacks W} `{Tr : !ProposalTracks W}.
Implicit Types s : rt W.

Lemma register_proposal_data_Ok pid tag data now s s' :
  register_proposal_data pid tag data now s = (Ok tt, s') ->
  ProposalData (ve s') !! pid = Some data /\ is_proposal_owner (ve s') pid tag = true /\
  NextProposalId (ve s') = NextProposalId (ve s) /\ Proposals (ve s') = Proposals (ve s).
Proof.
  unfold register_proposal_data. intros H. run_inv.
  match goal with H : match ProposalVotePlans _ !! _ with _ => _ end s = (_, ?x) |- _ =>
    assert (x = s) as -> by (destruct (ProposalVotePlans (ve s) !! pid); by run_inv); clear H end.
  match goal with H : bounded_bytes _ _ = Some _ |- _ => unfold bounded_bytes in H;
    case_decide; [|done]; injection H as <- end.
  unfold is_proposal_owner.
  match goal with H : bounded_module_tag tag = Ok _ |- _ => rewrite H end.
  unfold register_proposal_indexes.
  split_and!; repeat case_match; simpl in *; rewrite ?lookup_insert_eq in *; simplify_eq; try done;
    by apply bool_decide_eq_true.
Qed.

#[local] Opaque joint_subject_cid_numbers institution_profile.

(** A check that writes nothing. *)
Lemma unchanged {A} (m : RM W A) s r s' :
  preserves (fun x => x = s) m -> m s = (r, s') -> s' = s.
Proof. intros Hm Hr. specialize (Hm s eq_refl). by rewrite Hr in Hm. Qed.

(** The proposal gets the next identifier. *)
Lemma do_create_joint_proposal_id who cid plan s id s' :
  do_create_joint_proposal who cid plan s = (Ok id, s') -> id = NextProposalId (ve s).
Proof.
  unfold do_create_joint_proposal. intros H. apply bind_Ok in H as ([] & s1 & H1 & H).
  apply unchanged in H1 as ->; [|unfold ensure_vote_plan; solve_preserves_with fail].
  rewrite bind_gets in H. apply bind_Ok in H as (cids & s2 & H1 & H).
  apply from_result_Ok in H1 as [_ ->]. apply (proj1 (transact_Ok _ _ _ _)) in H.
  apply bind_Ok in H as (i & s2 & H1 & H).
  assert (id = i) as ->.
  { repeat (apply bind_Ok in H as (? & ? & _ & H)). by apply ret_Ok in H as [-> _]. }
  unfold allocate_and_lock in H1. apply bind_Ok in H1 as (j & s3 & Ha & H1).
  apply allocate_Ok in Ha as (y & _ & -> & _).
  repeat (apply bind_Ok in H1 as (? & ? & _ & H1)). by apply ret_Ok in H1 as [-> _].
Qed.

(** Nothing outside the voting pallets changes. *)
Lemma joint_proposal_world w who cid plan :
  preserves (fun s : rt W => world s = w) (do_create_joint_proposal who cid plan).
Proof.
  unfold do_create_joint_proposal, ensure_vote_plan, allocate_and_lock, allocate_proposal_id,
    try_add_active_proposals, acquire_internal_proposal_mutex, snapshot_plan_voters, bind_vote_plan,
    create_population_snapshot, schedule_proposal_expiry, emit_proposal_created,
    try_add_active_proposal, snapshot_role_voters, push_expiry, upd, emit.
  solve_preserves_with ltac:(done).
Qed.

Lemma register_world w pid tag data now :
  preserves (fun s : rt W => world s = w) (register_proposal_data pid tag data now).
Proof. unfold register_proposal_data. solve_preserves_with ltac:(done). Qed.

(** The holders of every role of a plan are frozen. *)
Lemma plan_voters_Ok id plan s s' :
  snapshot_plan_voters id plan s = (Ok tt, s') ->
  world s' = world s /\
  forall r, Institution r ∈ voter_subjects plan -> VoterSnapshot (ve s') !! (id, Institution r) =
    Some (active_accounts_for_role (world s) (role_cid_number r) (role_code r)).
Proof.
  unfold snapshot_plan_voters. set (f := fun subject : AuthorizationSubject => _).
  assert (Hf : forall x s1 s2, f x s1 = (Ok tt, s2) -> exists r, x = Institution r /\
    VoterSnapshot (ve s1) !! (id, x) = None /\ world s2 = world s1 /\
    VoterSnapshot (ve s2) = <[(id, x) :=
      active_accounts_for_role (world s1) (role_cid_number r) (role_code r)]> (VoterSnapshot (ve s1))).
  { intros x s1 s2 H. unfold f in H. destruct x as [r|a]; [|by run_inv].
    rewrite bind_gets in H. apply snapshot_role_voters_Ok in H as (r' & [= <-] & Hn & _ & _ & _ & ->).
    by exists r. }
  assert (Hkeep : forall l s1 s2, for_each f l s1 = (Ok tt, s2) ->
    world s2 = world s1 /\ forall k v, VoterSnapshot (ve s1) !! k = Some v ->
      VoterSnapshot (ve s2) !! k = Some v).
  { clear s s'. intros l. induction l as [|x l IH]; intros s1 s2; cbn [for_each]; intros H;
      [by apply ret_Ok in H as [_ ->]|].
    apply bind_Ok in H as ([] & s3 & H1 & H). apply Hf in H1 as (r & -> & Hn & Hw & Hv).
    destruct (IH _ _ H) as [Hw' Hk]. split; [congruence|]. intros k v Hkv. apply Hk. rewrite Hv.
    rewrite lookup_insert_ne; [done|]. intros <-. congruence. }
  generalize (voter_subjects plan) as l. clear plan. intros l. revert s.
  induction l as [|x l IH]; intros s; cbn [for_each]; intros H.
  - apply ret_Ok in H as [_ ->]. split; [done|]. by intros r ?%elem_of_nil.
  - apply bind_Ok in H as ([] & s3 & H1 & H). apply Hf in H1 as (r & -> & _ & Hw & Hv).
    destruct (IH _ H) as [Hw' Hin]. split; [congruence|]. intros r' [[= ->]|Hr]%elem_of_cons.
    + apply (proj2 (Hkeep l s3 s' H)). by rewrite Hv, lookup_insert_eq.
    + rewrite <- Hw. by apply Hin.
Qed.

Lemma bind_vote_plan_Ok id plan s s' :
  bind_vote_plan id plan s = (Ok tt, s') -> s' = set_ve (set_ProposalVotePlans (insert id plan)) s.
Proof. unfold bind_vote_plan. intros H. by run_inv. Qed.

(** A proposal with its plan and the voters frozen for it. *)
Definition opened (id : Z) (plan : VotePlan) (p : Proposal)
    (voters : gmap (Z * AuthorizationSubject) (list AccountId)) s : Prop :=
  ProposalVotePlans (ve s) !! id = Some plan /\ Proposals (ve s) !! id = Some p /\
  VoterSnapshot (ve s) = voters.

Lemma do_create_joint_proposal_opened who cid plan s id s' :
  do_create_joint_proposal who cid plan s = (Ok id, s') ->
  exists subjects voters, joint_subject_cid_numbers = Ok subjects /\
    opened id plan (joint_proposal cid subjects (block_number s)) voters s' /\
    forall r, Institution r ∈ voter_subjects plan -> voters !! (id, Institution r) =
      Some (active_accounts_for_role (world s) (role_cid_number r) (role_code r)).
Proof.
  unfold do_create_joint_proposal. intros H. apply bind_Ok in H as ([] & s1 & H1 & H).
  apply unchanged in H1 as ->; [|unfold ensure_vote_plan; solve_preserves_with fail].
  rewrite bind_gets in H. apply bind_Ok in H as (subjects & s2 & H1 & H).
  apply from_result_Ok in H1 as [Hs ->]. apply (proj1 (transact_Ok _ _ _ _)) in H.
  cbv zeta in H. set (p := joint_proposal cid subjects (block_number s)) in *.
  apply bind_Ok in H as (i & s2 & H1 & H).
  assert (Hw : world s2 = world s).
  { assert (Hk : preserves (fun x : rt W => world x = world s) (allocate_and_lock p Regular : RM W Z)).
    { unfold allocate_and_lock, allocate_proposal_id, try_add_active_proposals,
        acquire_internal_proposal_mutex, try_add_active_proposal, upd, emit.
      solve_preserves_with ltac:(done). }
    specialize (Hk s eq_refl). by rewrite H1 in Hk. }
  apply bind_Ok in H as ([] & s3 & H2 & H). apply plan_voters_Ok in H2 as [_ Hv]. rewrite Hw in Hv.
  unfold upd at 1 in H. rewrite bind_modify in H.
  apply bind_Ok in H as ([] & s4 & H3 & H).
  assert (Ho : opened i plan p (VoterSnapshot (ve s3)) s4).
  { apply bind_vote_plan_Ok in H3 as ->. unfold opened. simpl. rewrite !lookup_insert_eq.
    split_and!; reflexivity. }
  match type of H with ?m s4 = _ => set (rest := m) in H end.
  assert (Hrest : preserves (opened i plan p (VoterSnapshot (ve s3))) rest).
  { unfold rest, create_population_snapshot, schedule_proposal_expiry, emit_proposal_created,
      push_expiry, upd, emit. solve_preserves_with ltac:(done). }
  assert (id = i) as ->.
  { unfold rest in H. repeat (apply bind_Ok in H as (? & ? & _ & H)). by apply ret_Ok in H as [-> _]. }
  specialize (Hrest s4 Ho). rewrite H in Hrest. exists subjects, (VoterSnapshot (ve s3)).
  split_and!; [exact Hs|exact Hrest|exact Hv].
Qed.

Lemma register_opened id plan p voters pid tag data now :
  preserves (opened id plan p voters) (register_proposal_data pid tag data now : RM W unit).
Proof.
  unfold register_proposal_data, opened, register_proposal_indexes.
  solve_preserves_with ltac:(simpl in *; repeat case_match; done).
Qed.

(** What a successful creation with the data of a module leaves behind: the
    proposal is open under the plan, whose roles' holders are frozen. *)
Record joint_created (cid : string) (plan : VotePlan) (data : string) s (id : Z) s' : Prop := {
  jc_id : id = NextProposalId (ve s);
  jc_plan : ProposalVotePlans (ve s') !! id = Some plan;
  jc_proposal : exists subjects, joint_subject_cid_numbers = Ok subjects /\
    Proposals (ve s') !! id = Some (joint_proposal cid subjects (block_number s));
  jc_voters : forall r, Institution r ∈ voter_subjects plan ->
    VoterSnapshot (ve s') !! (id, Institution r) =
      Some (active_accounts_for_role (world s) (role_cid_number r) (role_code r));
  jc_data : ProposalData (ve s') !! id = Some data;
  jc_owner : is_proposal_owner (ve s') id (plan_owner plan) = true;
  jc_world : world s' = world s;
}.

(** The proposal [id] is open for the vote of the institutions under [plan]:
    the plan is bound to it, and the holders that every role of the plan had
    when it was made are frozen as its voters. *)
Definition open_joint_vote (id : Z) (cid : string) (plan : VotePlan) s s' : Prop :=
  ProposalVotePlans (ve s') !! id = Some plan /\
  (exists subjects, joint_subject_cid_numbers = Ok subjects /\
    Proposals (ve s') !! id = Some (joint_proposal cid subjects (block_number s))) /\
  forall r, Institution r ∈ voter_subjects plan -> VoterSnapshot (ve s') !! (id, Institution r) =
    Some (active_accounts_for_role (world s) (role_cid_number r) (role_code r)).

(** What follows the creation in the calls of the modules leaves the engine
    as it is. *)
Lemma created_open cid plan data s id s1 s' :
  joint_created cid plan data s id s1 -> ve s' = ve s1 -> open_joint_vote id cid plan s s'.
Proof. intros [] Hv. unfold open_joint_vote. rewrite Hv. split_and!; assumption. Qed.

Lemma joint_registered who cid plan data now s id s1 s2 :
  do_create_joint_proposal who cid plan s = (Ok id, s1) ->
  register_proposal_data id (plan_owner plan) data now s1 = (Ok tt, s2) ->
  joint_created cid plan data s id s2.
Proof.
  intros H1 H2. pose proof (joint_proposal_world (world s) who cid plan s eq_refl) as Hw1.
  rewrite H1 in Hw1. simpl in Hw1.
  pose proof (register_world (world s) id (plan_owner plan) data now s1 Hw1) as Hw2.
  rewrite H2 in Hw2. pose proof (do_create_joint_proposal_id _ _ _ _ _ _ H1) as Hid.
  apply do_create_joint_proposal_opened in H1 as (subjects & voters & Hsub & Ho & Hv).
  apply (register_opened id plan _ voters id (plan_owner plan) data now) in Ho.
  rewrite H2 in Ho. destruct Ho as (Hp & Hpr & Hvo). simpl in Hp, Hpr, Hvo.
  apply register_proposal_data_Ok in H2 as (Hd & Hown & _).
  split; [exact Hid|exact Hp|exists subjects; by split|by rewrite Hvo|exact Hd|exact Hown|exact Hw2].
Qed.

Lemma create_joint_created who cid plan data s id s' :
  create_joint_proposal_with_data who cid plan data s = (Ok id, s') ->
  joint_created cid plan data s id s' /\ hash_256 data = business_object_hash plan.
Proof.
  unfold create_joint_proposal_with_data. intros H. apply (proj1 (transact_Ok _ _ _ _)) in H.
  apply bind_Ok in H as (c & s1 & H1 & H). apply ok_or_Ok in H1 as [Hcid ->].
  unfold bounded_bytes in Hcid. case_decide; [|done]. injection Hcid as <-.
  apply bind_Ok in H as ([] & s1 & H1 & H). apply ensure_Ok in H1 as [Hh ->].
  apply bool_decide_eq_true in Hh.
  apply bind_Ok in H as (i & s1 & H1 & H). rewrite bind_gets in H.
  apply bind_Ok in H as ([] & s2 & H2 & H). apply ret_Ok in H as [<- ->].
  split; [by eapply joint_registered|done].
Qed.

Lemma create_joint_object_created who cid plan data k object s id s' :
  create_joint_proposal_with_data_and_object who cid plan data k object s = (Ok id, s') ->
  joint_created cid plan data s id s' /\ hash_256 object = business_object_hash plan /\
  ProposalObject (ve s') !! id = Some object /\
  ProposalObjectMeta (ve s') !! id = Some {| object_kind := k;
    object_len := Z.of_nat (String.length object); object_hash := hash_256 object |}.
Proof.
  unfold create_joint_proposal_with_data_and_object, store_proposal_object. intros H.
  apply (proj1 (transact_Ok _ _ _ _)) in H.
  apply bind_Ok in H as (c & s1 & H1 & H). apply ok_or_Ok in H1 as [Hcid ->].
  unfold bounded_bytes in Hcid. case_decide; [|done]. injection Hcid as <-.
  apply bind_Ok in H as ([] & s1 & H1 & H). apply ensure_Ok in H1 as [Hh ->].
  apply bool_decide_eq_true in Hh.
  apply bind_Ok in H as (i & s1 & H1 & H). rewrite bind_gets in H.
  apply bind_Ok in H as ([] & s2 & H2 & H).
  pose proof (joint_registered _ _ _ _ _ _ _ _ _ H1 H2) as Hc. clear H1 H2. run_inv.
  match goal with H : bounded_bytes _ _ = Some _ |- _ => unfold bounded_bytes in H;
    case_decide; [|done]; injection H as <- end.
  destruct Hc. split_and!; [by split|done|by rewrite lookup_insert_eq..].
Qed.
End Created.

(** ** A sample environment *)

Record sample_others : Type := { so_world : sample_world; so_code : string }.

#[export] Instance sample_other_pallets : OtherPallets sample_others := {|
  is_authorized := fun r who role action op =>
    existsb (fun x => bool_decide (x = (role_cid_number role, role_code role, who)))
      (sw_roles (so_world r));
  is_institution_admin := fun r code cid who =>
    existsb (fun x => bool_decide (x.1.1 = cid /\ x.2 = who)) (sw_roles (so_world r));
  runtime_code := so_code;
  set_code := fun c r => Ok {| so_world := so_world r; so_code := c |};
|}.

#[export] Instance sample_other_laws : OtherPalletsLaws sample_others.
Proof. by intros c r r' [= <-]. Qed.

(** What the voting engine asks is answered by the sample world. *)
#[export] Instance business_providers {L} : Providers (business_world L sample_others) :=
  let on {A} (f : sample_world -> A) (w : business_world L sample_others) := f (so_world (others w)) in {|
  resolve_institution_voter := on resolve_institution_voter;
  institution_threshold := on institution_threshold;
  is_personal_admin := on is_personal_admin;
  get_personal_admins := on get_personal_admins;
  get_pending_personal_admins := on get_pending_personal_admins;
  population_data_of := on population_data_of;
  voting_subject_at := on voting_subject_at;
  candidate_subject := on candidate_subject;
  is_active_assignment := on is_active_assignment;
  active_accounts_for_role := on active_accounts_for_role;
  hash_256 := fun s => s;
|}.

(** Every founding institution has one administrator, numbered in the order of
    the tables, in the role its plan names; three citizens may vote. *)
Definition sample_committee : CidNumber := "LN001-NRC0G-944805165-2026".

Definition business_people : sample_world := {|
  sw_roles :=
    imap (fun i n => (cb_cid_number n, ROLE_CODE_COMMITTEE_MEMBER, Z.of_nat i)) CHINA_CB
    ++ imap (fun i n => (ch_cid_number n, ROLE_CODE_DIRECTOR, 44 + Z.of_nat i)) CHINA_CH;
  sw_personal := [];
  sw_population := Some {| scope := ScopeCountry; eligible_total := 3; eligibility_revision := 0;
    eligibility_date := 0 |};
  sw_citizens := (fun n => {| citizen_cid_number := String (Ascii.ascii_of_N (Z.to_N (65 + n))) "";
    citizen_account_id := n |}) <$> [1; 2; 3];
|}.

#[export] Instance sample_Z_codec : Codec Z := countable_codec.
#[export] Instance sample_string_codec : Codec string := countable_codec.
#[export] Instance sample_Z_codec_laws : CodecLaws Z := countable_codec_laws.
#[export] Instance sample_string_codec_laws : CodecLaws string := countable_codec_laws.
