(* ===== verification/ResolutionIssuance.v ===== *)
(** * Issuance by resolution ([issuance/resolution-issuance/src])

    The national and provincial committees propose to create money and share
    it among the provincial committees; the founding institutions and, if they
    do not agree, the citizens vote; the passed proposal is executed once, as
    a whole, from inside the callback of the voting engine. *)
From S2P Require Import Prelude Encoding PowDifficulty.
From S2P Require Import Cid Types BusinessTypes State Interfaces Runtime Data Lifecycle InternalVote.
From S2P Require Import JointVote Ledger Business.

(** ** Constants ([lib.rs], [runtime/src/configs.rs]) *)

Definition ISSUANCE_TAG : string := "res-iss".
Definition ACTION_RESOLUTION_ISSUANCE : Z := 0.
Definition RESOLUTION_ISSUANCE_MAX_REASON_LEN : Z := 1024.
Definition RESOLUTION_ISSUANCE_MAX_ALLOCATIONS : Z := PRC_COUNT.
Definition MaxTotalIssuance : Z := u128_max.
Definition MaxSingleIssuance : Z := 14434973780000.

Abbreviation iss e := (BusinessErr (IssuanceErr e)).
Abbreviation emit_issuance e := (modify (deposit_event (Business (IssuanceEv e)))).

Definition set_AllowedRecipients (l : list AccountId) (s : issuance_store) : issuance_store :=
  Build_issuance_store l (VotingProposalCount s) (IssuanceExecuted s) (EverExecuted s)
    (TotalIssued s).
Definition set_VotingProposalCount (c : Z) (s : issuance_store) : issuance_store :=
  Build_issuance_store (AllowedRecipients s) c (IssuanceExecuted s) (EverExecuted s)
    (TotalIssued s).
Definition executed_at_block (pid n total : Z) (s : issuance_store) : issuance_store :=
  Build_issuance_store (AllowedRecipients s) (VotingProposalCount s)
    (<[pid := n]> (IssuanceExecuted s)) ({[ pid ]} ∪ EverExecuted s) total.

(** ** Validation ([validation.rs]) *)

Definition ensure_nonzero_total (total_amount : Z) : result IssuanceError unit :=
  guard_ok (negb (bool_decide (total_amount = 0))) ZeroAmount.

(** The loop over the items; the result is the set of accounts and the sum. *)
Fixpoint allocation_loop (expected_set seen : gset AccountId) (sum : Z)
    (allocations : list RecipientAmount) : result IssuanceError (gset AccountId * Z) :=
  match allocations with
  | [] => mret (seen, sum)
  | item :: rest =>
      ensure_nonzero_total (amount item) ;;
      guard_ok (negb (bool_decide (recipient_account_id item ∈ seen))) DuplicateRecipient ;;
      guard_ok (bool_decide (recipient_account_id item ∈ expected_set)) InvalidRecipientSet ;;
      sum ← opt_ok (checked_add u128_max sum (amount item)) AllocationOverflow;
      allocation_loop expected_set ({[ recipient_account_id item ]} ∪ seen) sum rest
  end.

Definition validate_proposal_allocations (expected : list AccountId) (total_amount : Z)
    (allocations : list RecipientAmount) : result IssuanceError unit :=
  guard_ok (negb (bool_decide (allocations = []))) EmptyAllocations ;;
  ensure_nonzero_total total_amount ;;
  guard_ok (negb (bool_decide (expected = []))) RecipientsNotConfigured ;;
  let expected_set := list_to_set expected : gset AccountId in
  guard_ok (bool_decide (size expected_set = length expected)) DuplicateAllowedRecipient ;;
  guard_ok (bool_decide (length allocations = size expected_set)) InvalidAllocationCount ;;
  '(seen, sum) ← allocation_loop expected_set ∅ 0 allocations;
  guard_ok (bool_decide (seen = expected_set)) InvalidRecipientSet ;;
  guard_ok (bool_decide (sum = total_amount)) TotalMismatch ;;
  mret tt.

Fixpoint ensure_unique_recipients (seen : gset AccountId) (recipients : list AccountId)
    : result IssuanceError unit :=
  match recipients with
  | [] => mret tt
  | r :: rest =>
      guard_ok (negb (bool_decide (r ∈ seen))) DuplicateAllowedRecipient ;;
      ensure_unique_recipients ({[ r ]} ∪ seen) rest
  end.

Definition ensure_recipients_in_china_cb (recipients : list AccountId)
    : result IssuanceError unit :=
  let valid_set := list_to_set (cb_main_account <$> tail CHINA_CB) : gset AccountId in
  guard_ok (forallb (fun r => bool_decide (r ∈ valid_set)) recipients) RecipientNotInChinaCb.

(** ** Genesis ([lib.rs]): an [expect] that fails panics ([None]) *)

Definition default_recipients : list AccountId := cb_main_account <$> tail CHINA_CB.

Definition issuance_genesis (allowed_recipients : list AccountId) : option issuance_store :=
  bounded ← bounded_list RESOLUTION_ISSUANCE_MAX_ALLOCATIONS allowed_recipients;
  if is_ok (ensure_unique_recipients ∅ bounded) && is_ok (ensure_recipients_in_china_cb bounded)
  then Some (Build_issuance_store bounded 0 ∅ ∅ 0) else None.

Inductive FinalizeOutcome : Type :=
| ApprovedExecutionSucceeded | ApprovedExecutionFailed | IssuanceRejected.

Section Issuance.
Context `{Wt : Weights} `{Cfg : !Config} `{Ord : StorageOrder} {L R : Type}
  `{Cur : !Currency L} `{Oth : !OtherPallets R}.
#[local] Abbreviation W := (business_world L R).
Context `{Prov : !Providers W} `{Cb : !Callbacks W} `{Tr : !ProposalTracks W}
  `{CodD : !Codec IssuanceProposalData} `{CodA : !Codec (list RecipientAmount)}.
Implicit Types s : rt (business_world L R).

Definition allowed_recipients s : list AccountId := AllowedRecipients (issuance (world s)).
Definition upd_issuance (f : issuance_store -> issuance_store) : RM W unit :=
  modify (set_world (set_issuance f)).

(** ** Proposal ([proposal.rs]) *)

Definition issuance_vote_plan (actor_cid_number : CidNumber) (proposer_role_code : RoleCode)
    (business_object_hash : string) : result DispatchError VotePlan :=
  proposer_role ← bounded_role_subject (iss InvalidActorCid) actor_cid_number proposer_role_code;
  joint_vote_plan (iss InvalidActorCid) (iss JointVoteCreateFailed) ISSUANCE_TAG
    ACTION_RESOLUTION_ISSUANCE proposer_role business_object_hash.

Definition increment_voting_proposal_count : RM W unit :=
  count ← gets (fun s => VotingProposalCount (issuance (world s)));
  count ← ok_or (checked_add u32_max count 1) (iss VotingProposalCountOverflow);
  upd_issuance (set_VotingProposalCount count).

Definition decrement_voting_proposal_count : RM W unit :=
  count ← gets (fun s => VotingProposalCount (issuance (world s)));
  ensure (1 <=? count) (iss VotingProposalCountUnderflow) ;;
  upd_issuance (set_VotingProposalCount (count - 1)).

(** [Err] of a check that reads no storage, as a [DispatchError]. *)
Definition checked {A} (r : result IssuanceError A) : RM W A :=
  match r with Ok a => mret a | Err e => throw (iss e) end.

Definition create_resolution_issuance_proposal (proposer_account_id : AccountId)
    (actor_cid_number : CidNumber) (proposer_role_code : RoleCode) (reason : string)
    (total_amount : Z) (allocations : list RecipientAmount) : RM W unit :=
  ensure (negb (bool_decide (reason = EmptyString))) (iss EmptyReason) ;;
  actor_code ← ok_or (committee_code actor_cid_number) (iss InvalidActorCid);
  ensure (bool_decide (actor_code = NRC) || bool_decide (actor_code = PRC))
    (iss InvalidActorCid) ;;
  let proposer_role :=
    {| role_cid_number := actor_cid_number; role_code := proposer_role_code |} in
  let business_action :=
    {| module_tag := ISSUANCE_TAG; action_code := ACTION_RESOLUTION_ISSUANCE |} in
  authorized ← gets (fun s => is_authorized (others (world s)) proposer_account_id proposer_role
    business_action Propose);
  ensure authorized (iss UnauthorizedActorRole) ;;
  expected ← gets allowed_recipients;
  checked (validate_proposal_allocations expected total_amount allocations) ;;
  transact (
    let data := {| issuance_actor := actor_cid_number; issuance_role_code := proposer_role_code;
      issuance_proposer := proposer_account_id; reason := reason;
      total_amount := total_amount; allocations := allocations |} in
    let encoded := (ISSUANCE_TAG ++ scale_encode data)%string in
    vote_plan ← from_result
      (issuance_vote_plan actor_cid_number proposer_role_code (hash_256 encoded));
    proposal_id ← map_err (iss JointVoteCreateFailed)
      (create_joint_proposal_with_data proposer_account_id actor_cid_number vote_plan encoded);
    increment_voting_proposal_count ;;
    emit_issuance (ResolutionIssuanceProposed proposal_id actor_cid_number proposer_role_code
      proposer_account_id total_amount (Z.of_nat (length allocations)))).

Definition decode_tagged_data (raw : string) : option IssuanceProposalData :=
  rest ← strip_tag ISSUANCE_TAG raw; decode_all rest.

Definition load_issuance_data (g : engine) (proposal_id : Z) : option IssuanceProposalData :=
  raw ← get_proposal_data g proposal_id; decode_tagged_data raw.

Definition issuance_owns_proposal (g : engine) (proposal_id : Z) : bool :=
  is_proposal_owner g proposal_id ISSUANCE_TAG.

(** ** Execution ([execution.rs]) *)

(** [deposit_creating] returns the imbalance: what it credited. *)
Fixpoint deposit_all (allocations : list RecipientAmount) : RM W unit :=
  match allocations with
  | [] => mret tt
  | item :: rest =>
      before ← gets (fun s => free_balance (ledger (world s)) (recipient_account_id item));
      modify (set_world (set_ledger
        (fun l => deposit_creating l (recipient_account_id item) (amount item)))) ;;
      after ← gets (fun s => free_balance (ledger (world s)) (recipient_account_id item));
      ensure (bool_decide (after - before = amount item)) (iss DepositFailed) ;;
      deposit_all rest
  end.

Definition do_execute_inner (proposal_id : Z) (reason : string) (total_amount : Z)
    (allocations : list RecipientAmount) : RM W unit :=
  ever ← gets (fun s => bool_decide (proposal_id ∈ EverExecuted (issuance (world s))));
  ensure (negb ever) (iss AlreadyExecuted) ;;
  ensure (negb (bool_decide (reason = EmptyString))) (iss EmptyReason) ;;
  ensure (Z.of_nat (String.length reason) <=? RESOLUTION_ISSUANCE_MAX_REASON_LEN)
    (iss ReasonTooLong) ;;
  expected ← gets allowed_recipients;
  checked (validate_proposal_allocations expected total_amount allocations) ;;
  for_each (fun item => ensure (minimum_balance <=? amount item) (iss BelowExistentialDeposit))
    allocations ;;
  ensure (total_amount <=? MaxSingleIssuance) (iss ExceedsSingleIssuanceCap) ;;
  issued ← gets (fun s => TotalIssued (issuance (world s)));
  new_total ← ok_or (checked_add u128_max issued total_amount) (iss TotalIssuedOverflow);
  ensure (new_total <=? MaxTotalIssuance) (iss ExceedsTotalIssuanceCap) ;;
  deposit_all allocations ;;
  current_block ← gets block_number;
  upd_issuance (executed_at_block proposal_id current_block new_total) ;;
  emit_issuance (ResolutionIssuanceExecuted proposal_id total_amount
    (Z.of_nat (length allocations)) (hash_256 reason) (hash_256 (scale_encode allocations))).

(** [with_storage_layer]. *)
Definition execute_approved_issuance (proposal_id : Z) (reason : string) (total_amount : Z)
    (allocations : list RecipientAmount) : RM W unit :=
  transact (do_execute_inner proposal_id reason total_amount allocations).

(** ** The callback ([proposal.rs], [lib.rs]) *)

Definition ensure_vote_engine_callback_context (proposal_id : Z) (approved : bool) : RM W unit :=
  scope ← gets (fun s => bool_decide (proposal_id ∈ CallbackExecutionScopes (ve s)));
  ensure scope (iss ProposalNotFinalizable) ;;
  proposal ← gets (fun s => Proposals (ve s) !! proposal_id);
  proposal ← ok_or proposal (iss IssuanceProposalNotFound);
  owner ← gets (fun s => is_proposal_owner (ve s) proposal_id ISSUANCE_TAG);
  ensure owner (iss ProposalNotFinalizable) ;;
  ensure (bool_decide (kind proposal = PROPOSAL_KIND_JOINT)
    && (bool_decide (stage proposal = STAGE_JOINT)
        || bool_decide (stage proposal = STAGE_REFERENDUM))) (iss ProposalNotFinalizable) ;;
  let expected_status := if approved then STATUS_PASSED else STATUS_REJECTED in
  ensure (bool_decide (status proposal = expected_status)) (iss ProposalNotFinalizable).

Definition issuance_apply_joint_vote_result (proposal_id : Z) (approved : bool)
    : RM W FinalizeOutcome :=
  transact (
    ensure_vote_engine_callback_context proposal_id approved ;;
    data ← gets (fun s => load_issuance_data (ve s) proposal_id);
    data ← ok_or data (iss IssuanceProposalNotFound);
    if approved then
      execute_reason ← ok_or (bounded_bytes RESOLUTION_ISSUANCE_MAX_REASON_LEN (reason data))
        (iss ReasonTooLong);
      execute_allocations ← ok_or
        (bounded_list RESOLUTION_ISSUANCE_MAX_ALLOCATIONS (allocations data))
        (iss InvalidAllocationCount);
      executed ← succeeds (execute_approved_issuance proposal_id execute_reason
        (total_amount data) execute_allocations);
      decrement_voting_proposal_count ;;
      emit_issuance (IssuanceVoteFinalized proposal_id true) ;;
      if (executed : bool) then
        emit_issuance (IssuanceExecutionTriggered proposal_id (total_amount data)) ;;
        mret ApprovedExecutionSucceeded
      else
        emit_issuance (IssuanceExecutionFailed proposal_id) ;;
        mret ApprovedExecutionFailed
    else
      decrement_voting_proposal_count ;;
      emit_issuance (IssuanceVoteFinalized proposal_id false) ;;
      mret IssuanceRejected).

Definition issuance_on_joint_vote_finalized (vote_proposal_id : Z) (approved : bool)
    : RM W ProposalExecutionOutcome :=
  outcome ← issuance_apply_joint_vote_result vote_proposal_id approved;
  mret (match outcome with
        | ApprovedExecutionSucceeded => Executed
        | ApprovedExecutionFailed => FatalFailed
        | IssuanceRejected => Executed
        end).

(** The extrinsic [propose_issuance]; any signed account may call it. *)
Definition propose_issuance (who : AccountId) (actor_cid_number : CidNumber)
    (proposer_role_code : RoleCode) (reason : string) (total_amount : Z)
    (allocations : list RecipientAmount) : RM W unit :=
  create_resolution_issuance_proposal who actor_cid_number proposer_role_code reason
    total_amount allocations.
End Issuance.

(** ** What the checks accept *)

Definition total_of (allocations : list RecipientAmount) : Z :=
  foldr (fun item sum => amount item + sum) 0 allocations.

(** The accounts are the allowed ones, each once; the amounts are positive and
    add up to the total. *)
Record valid_allocations (expected : list AccountId) (total_amount : Z)
    (allocations : list RecipientAmount) : Prop := {
  va_expected : expected <> [];
  va_nodup : NoDup expected;
  va_recipients : (recipient_account_id <$> allocations) ≡ₚ expected;
  va_positive : Forall (fun item => 0 < amount item) allocations;
  va_total : total_of allocations = total_amount;
  va_width : total_amount <= u128_max;
}.

Lemma total_of_nonneg allocations :
  Forall (fun item => 0 <= amount item) allocations -> 0 <= total_of allocations.
Proof. induction 1; simpl; lia. Qed.

Lemma guard_Ok {E} b (e : E) (k : unit -> result E unit) u :
  (guard_ok b e ≫= k) = Ok u <-> b = true /\ k tt = Ok u.
Proof. destruct b; simpl; naive_solver. Qed.

(** What the loop over the items accepts, and what it computes. *)
Lemma allocation_loop_spec E allocations seen sum r :
  0 <= sum -> Forall (fun item => 0 <= amount item) allocations ->
  let accounts := recipient_account_id <$> allocations in
  allocation_loop E seen sum allocations = Ok r <->
  Forall (fun item => 0 < amount item) allocations /\ NoDup accounts /\
  (forall a, a ∈ accounts -> a ∉ seen /\ a ∈ E) /\
  (allocations <> [] -> sum + total_of allocations <= u128_max) /\
  r = (list_to_set accounts ∪ seen, sum + total_of allocations).
Proof.
  intros Hsum Hpos. revert seen sum Hsum. induction Hpos as [|item l Hi Hl IH];
    intros seen sum Hsum; cbv zeta; simpl.
  { split.
    - intros [= <-]. split_and!; [done|constructor|intros a Ha; by apply elem_of_nil in Ha|done|].
      f_equal; [set_solver|lia].
    - intros (_ & _ & _ & _ & ->). unfold mret, result_ret. do 2 f_equal; [set_solver|lia]. }
  unfold ensure_nonzero_total, guard_ok, opt_ok. pose proof (total_of_nonneg l Hl) as Ht.
  rewrite Forall_cons, NoDup_cons.
  destruct (decide (amount item = 0)) as [Hz|Hz].
  { rewrite (bool_decide_true (amount item = 0)) by done. simpl. split; [done|].
    intros ([? _] & _). lia. }
  rewrite (bool_decide_false (amount item = 0)) by done. simpl.
  destruct (decide (recipient_account_id item ∈ seen)) as [Hs|Hs].
  { rewrite (bool_decide_true (_ ∈ seen)) by done. simpl. split; [done|]. intros (_ & _ & H & _).
    destruct (H (recipient_account_id item)); [by left|done]. }
  rewrite (bool_decide_false (_ ∈ seen)) by done. simpl.
  destruct (decide (recipient_account_id item ∈ E)) as [He|He];
    [rewrite bool_decide_true by done|rewrite bool_decide_false by done]; simpl; [|split; [done|]].
  2:{ intros (_ & _ & H & _). destruct (H (recipient_account_id item)); [by left|done]. }
  destruct (checked_add u128_max sum (amount item)) as [sum'|] eqn:Hc; simpl.
  - apply checked_add_Some in Hc as [-> Hle]. rewrite IH by lia. cbv zeta. split.
    + intros (Hp & Hnd & Ha & Hw & ->). split_and!; [lia|done| |done| | |].
      * intros Hin. destruct (Ha _ Hin) as [Hn _]. set_solver.
      * intros a [->|Hin]%elem_of_cons; [done|]. destruct (Ha a Hin) as [Hn ?]. set_solver.
      * intros _. destruct l; [simpl in *; lia|]. specialize (Hw ltac:(done)). lia.
      * f_equal; [set_solver|lia].
    + intros ([_ Hp] & [Hni Hnd] & Ha & Hw & ->). split_and!; [done|done| | |].
      * intros a Hin. destruct (Ha a) as [H1 H2]; [by right|]. set_solver.
      * intros _. specialize (Hw ltac:(done)). lia.
      * f_equal; [set_solver|lia].
  - split; [done|]. intros (_ & _ & _ & Hw & _). specialize (Hw ltac:(done)).
    unfold checked_add in Hc. case_decide; [done|lia].
Qed.

Lemma size_list_to_set_bound (l : list AccountId) :
  (size (list_to_set l : gset AccountId) <= length l)%nat.
Proof.
  induction l as [|x l IH]; [done|]. simpl.
  pose proof (size_union_alt ({[x]} : gset AccountId) (list_to_set l)) as H.
  rewrite size_singleton in H.
  pose proof (subseteq_size (list_to_set l ∖ {[x]} : gset AccountId) (list_to_set l) ltac:(set_solver)).
  lia.
Qed.

Lemma size_list_to_set_NoDup (l : list AccountId) :
  size (list_to_set l : gset AccountId) = length l <-> NoDup l.
Proof.
  split; [|by intros ?; rewrite size_list_to_set].
  induction l as [|x l IH]; [constructor|]. simpl. intros Hs.
  destruct (decide (x ∈ l)) as [Hin|Hin].
  - exfalso. rewrite subseteq_union_1_L in Hs
      by (apply singleton_subseteq_l; by apply elem_of_list_to_set).
    pose proof (size_list_to_set_bound l). lia.
  - constructor; [done|]. apply IH. rewrite size_union, size_singleton in Hs by set_solver. lia.
Qed.

(** The validation accepts exactly the valid allocations (amounts are [u128]). *)
Lemma validate_spec expected total_amount allocations :
  Forall (fun item => 0 <= amount item) allocations ->
  validate_proposal_allocations expected total_amount allocations = Ok tt <->
  valid_allocations expected total_amount allocations.
Proof.
  intros Hpos. unfold validate_proposal_allocations, ensure_nonzero_total. rewrite !guard_Ok.
  rewrite !negb_true_iff, !bool_decide_eq_false, !bool_decide_eq_true, size_list_to_set_NoDup.
  split.
  - intros (Ha & Ht & He & Hnd & Hlen & Hl).
    destruct (allocation_loop _ ∅ 0 allocations) as [[seen sum]|e] eqn:Hloop; [|done].
    apply allocation_loop_spec in Hloop as (Hp & Hna & Hin & Hw & [= -> ->]); [|lia|done].
    cbn [mbind result_bind] in Hl. rewrite !guard_Ok, !bool_decide_eq_true in Hl.
    destruct Hl as (Hset & <- & _). rewrite union_empty_r_L in Hset.
    split; try done; [|specialize (Hw Ha); lia].
    apply NoDup_Permutation; [done..|]. intros a.
    rewrite <- (elem_of_list_to_set (C := gset AccountId) a expected), <- Hset.
    by rewrite elem_of_list_to_set.
  - intros [He Hnd Hperm Hp Ht Hw]. subst total_amount.
    assert (Hne : allocations <> []).
    { intros ->. apply He. by apply Permutation_nil in Hperm. }
    assert (Hna : NoDup (recipient_account_id <$> allocations)) by by rewrite Hperm.
    split_and!; [done| |done|done| |].
    + destruct Hp as [|x l Hx Hl]; [done|]. simpl.
      pose proof (total_of_nonneg l) as H. rewrite Forall_forall in Hl.
      assert (Forall (fun item => 0 <= amount item) l) by (apply Forall_forall; intros y Hy; specialize (Hl y Hy); lia).
      specialize (H ltac:(done)). lia.
    + rewrite size_list_to_set by done. rewrite <- Hperm. by rewrite length_fmap.
    + rewrite (proj2 (allocation_loop_spec (list_to_set expected) allocations ∅ 0
        (list_to_set (recipient_account_id <$> allocations) ∪ ∅, 0 + total_of allocations)
        ltac:(lia) Hpos)).
      * cbn [mbind result_bind]. rewrite !guard_Ok, !bool_decide_eq_true.
        split_and!; [|lia|done]. rewrite union_empty_r_L. by rewrite Hperm.
      * split_and!; [done|done| |intros _; lia|done].
        intros a Ha. split; [set_solver|]. rewrite <- Hperm. by apply elem_of_list_to_set.
Qed.

(** ** Genesis *)

Lemma ensure_unique_spec seen l :
  ensure_unique_recipients seen l = Ok tt <-> NoDup l /\ forall a, a ∈ l -> a ∉ seen.
Proof.
  revert seen. induction l as [|x l IH]; intros seen; simpl.
  { split; [|done]. intros _. split; [constructor|]. intros a Ha. by apply elem_of_nil in Ha. }
  rewrite guard_Ok, IH, negb_true_iff, bool_decide_eq_false, NoDup_cons. split.
  - intros (Hx & Hnd & Ha). split_and!; [|done|].
    + intros Hin. specialize (Ha x Hin). set_solver.
    + intros a [->|Hin]%elem_of_cons; [done|]. specialize (Ha a Hin). set_solver.
  - intros ([Hni Hnd] & Ha). split_and!; [apply Ha; by left|done|].
    intros a Hin. specialize (Ha a ltac:(by right)). set_solver.
Qed.

(** What genesis accepts as the recipients: distinct provincial committees. *)
Lemma issuance_genesis_spec l st :
  issuance_genesis l = Some st ->
  st = Build_issuance_store l 0 ∅ ∅ 0 /\ NoDup l /\ l ⊆ default_recipients.
Proof.
  unfold issuance_genesis. destruct (bounded_list _ l) as [b|] eqn:Hb; [|done]. simpl.
  unfold bounded_list in Hb. case_decide; [|done]. injection Hb as <-.
  destruct (ensure_unique_recipients ∅ l) as [[]|] eqn:Hu; [|done].
  apply ensure_unique_spec in Hu as [Hnd _].
  unfold ensure_recipients_in_china_cb, guard_ok.
  destruct (forallb _ l) eqn:Hf; [|done]. simpl. intros [= <-]. split_and!; [done..|].
  intros a Ha. rewrite forallb_forall in Hf. apply list_elem_of_In in Ha. specialize (Hf a Ha).
  apply bool_decide_eq_true in Hf. by apply elem_of_list_to_set in Hf.
Qed.

(** ** Execution *)

(** The ledger after the deposits. *)
Definition credited {L} `{!Currency L} (allocations : list RecipientAmount) (l : L) : L :=
  foldl (fun l item => deposit_creating l (recipient_account_id item) (amount item)) l allocations.

Section Execution.
Context `{Wt : Weights} `{Cfg : !Config} `{Ord : StorageOrder} {L R : Type}
  `{Cur : !Currency L} `{CurL : !CurrencyLaws L} `{Oth : !OtherPallets R}.
#[local] Abbreviation W := (business_world L R).
Context `{Prov : !Providers W} `{Cb : !Callbacks W} `{Tr : !ProposalTracks W}
  `{CodD : !Codec IssuanceProposalData} `{CodA : !Codec (list RecipientAmount)}.
Implicit Types s : rt (business_world L R).

Lemma credited_elsewhere allocations (l : L) a :
  a ∉ recipient_account_id <$> allocations -> free_balance (credited allocations l) a = free_balance l a.
Proof.
  revert l. induction allocations as [|item rest IH]; intros l Ha; [done|]. simpl in *.
  apply not_elem_of_cons in Ha as [Ha1 Ha2]. unfold credited in *. simpl. rewrite IH by done.
  by apply deposit_elsewhere.
Qed.

Lemma credited_spec allocations (l : L) :
  Forall (fun item => minimum_balance <= amount item /\ 0 <= amount item) allocations ->
  NoDup (recipient_account_id <$> allocations) ->
  total_issuance l + total_of allocations <= u128_max ->
  (forall item, item ∈ allocations ->
    free_balance (credited allocations l) (recipient_account_id item)
      = free_balance l (recipient_account_id item) + amount item) /\
  total_issuance (credited allocations l) = total_issuance l + total_of allocations.
Proof.
  intros Hf. revert l. induction Hf as [|item rest [Hm Hp] Hf IH]; intros l Hnd Ht; simpl in *.
  { split; [intros i Hi; by apply elem_of_nil in Hi|unfold credited; simpl; lia]. }
  apply NoDup_cons in Hnd as [Hni Hnd].
  assert (0 <= total_of rest) by (apply total_of_nonneg; by eapply Forall_impl; [done|intros ? []]).
  destruct (deposit_credited l (recipient_account_id item) (amount item)) as [Hc Hi]; [done|lia|].
  change (credited (item :: rest) l)
    with (credited rest (deposit_creating l (recipient_account_id item) (amount item))).
  destruct (IH (deposit_creating l (recipient_account_id item) (amount item))) as [H1 H2];
    [done|lia|].
  split; [|lia]. intros i [->|Hin]%elem_of_cons.
  - rewrite credited_elsewhere by done. exact Hc.
  - rewrite H1 by done. rewrite deposit_elsewhere; [done|]. intros Heq. apply Hni. rewrite Heq.
    apply list_elem_of_fmap. eauto.
Qed.

(** Deposits of distinct accounts that the ledger can hold all succeed. *)
Lemma deposit_all_run allocations s :
  Forall (fun item => minimum_balance <= amount item /\ 0 <= amount item) allocations ->
  total_issuance (ledger (world s)) + total_of allocations <= u128_max ->
  deposit_all allocations s = (Ok tt, set_world (set_ledger (credited allocations)) s).
Proof.
  intros Hf. revert s. induction Hf as [|item rest [Hm Hp] Hf IH]; intros s Ht; simpl in *.
  { by destruct s as [? ? ? ? ? ? ? ? []]. }
  assert (0 <= total_of rest) by (apply total_of_nonneg; by eapply Forall_impl; [done|intros ? []]).
  destruct (deposit_credited (ledger (world s)) (recipient_account_id item) (amount item))
    as [Hc Hi]; [done|lia|].
  autorewrite with run. simpl. rewrite bool_decide_true by (rewrite Hc; lia). autorewrite with run.
  rewrite IH by (simpl; lia). done.
Qed.

(** Deposits only change the ledger; when they succeed every account has
    received its amount. *)
Lemma deposit_all_ledger allocations s r s' :
  deposit_all allocations s = (r, s') ->
  exists led, s' = set_world (set_ledger (fun _ => led)) s /\
  (is_ok r = true -> led = credited allocations (ledger (world s))).
Proof.
  revert s. induction allocations as [|item rest IH]; intros s; simpl.
  { intros [= <- <-]. exists (ledger (world s)). split; [by destruct s as [? ? ? ? ? ? ? ? []]|done]. }
  autorewrite with run. case_bool_decide; autorewrite with run.
  - intros (led & -> & Hled)%IH. exists led. split; [reflexivity|exact Hled].
  - intros [= <- <-]. eexists. split; [reflexivity|done].
Qed.

(** ** Executing a passed proposal *)

(** What an execution demands of the storage, but for the ledger. *)
Record executable s (pid : Z) (reason : string) (total : Z) (items : list RecipientAmount)
    : Prop := {
  ex_new : pid ∉ EverExecuted (issuance (world s));
  ex_reason : reason <> EmptyString;
  ex_reason_len : Z.of_nat (String.length reason) <= RESOLUTION_ISSUANCE_MAX_REASON_LEN;
  ex_valid : valid_allocations (allowed_recipients s) total items;
  ex_deposit : Forall (fun item => minimum_balance <= amount item) items;
  ex_single : total <= MaxSingleIssuance;
  ex_total : TotalIssued (issuance (world s)) + total <= MaxTotalIssuance;
}.

(** The storage after it. *)
Definition issued pid total items s : rt W :=
  set_world (set_issuance (executed_at_block pid (block_number s)
    (TotalIssued (issuance (world s)) + total)))
    (set_world (set_ledger (credited items)) s).

Definition issued_event pid (reason : string) total items : Event :=
  Business (IssuanceEv (ResolutionIssuanceExecuted pid total (Z.of_nat (length items))
    (hash_256 reason) (hash_256 (scale_encode items)))).

Lemma for_each_ensure {A} (f : A -> bool) (e : DispatchError) l s s' :
  for_each (fun x => ensure (f x) e : RM W unit) l s = (Ok tt, s') <->
  Forall (fun x => f x = true) l /\ s' = s.
Proof.
  induction l as [|x l IH]; simpl; [rewrite ret_Ok; naive_solver|].
  rewrite Forall_cons. destruct (f x); autorewrite with run; [rewrite IH; naive_solver|naive_solver].
Qed.

Lemma checked_Ok {A} (r : result IssuanceError A) s a s' :
  (checked r : RM W A) s = (Ok a, s') <-> r = Ok a /\ s' = s.
Proof. destruct r; unfold checked, mret, M_ret, throw; naive_solver. Qed.

(** The execution succeeds exactly when the demands are met and the ledger
    takes the deposits; then the accounts are credited, the identifier is
    marked and the total counted. *)
Lemma do_execute_inner_inv pid reason total items s s' :
  do_execute_inner pid reason total items s = (Ok tt, s') ->
  executable s pid reason total items /\
  s' = deposit_event (issued_event pid reason total items) (issued pid total items s).
Proof.
  pose proof minimum_nonneg as Hmin.
  unfold do_execute_inner, upd_issuance. intros H. run_inv.
  match goal with H : checked _ _ = _ |- _ => apply checked_Ok in H as [Hv ->] end.
  match goal with H : for_each _ _ _ = _ |- _ => apply for_each_ensure in H as [Hm ->] end.
  match goal with H : deposit_all _ _ = _ |- _ => apply deposit_all_ledger in H as (led & -> & Hled) end.
  specialize (Hled eq_refl). subst led.
  assert (Hb : Forall (fun item => minimum_balance <= amount item) items).
  { eapply Forall_impl; [exact Hm|]. intros item Hi. simpl in Hi. lia. }
  assert (Hp : Forall (fun item => 0 <= amount item) items).
  { eapply Forall_impl; [exact Hb|]. intros item Hi. simpl in Hi. lia. }
  split; [|reflexivity]. apply (validate_spec _ _ _ Hp) in Hv. split; try done; lia.
Qed.

Lemma do_execute_inner_run pid reason total items s :
  executable s pid reason total items ->
  total_issuance (ledger (world s)) + total <= u128_max ->
  do_execute_inner pid reason total items s =
    (Ok tt, deposit_event (issued_event pid reason total items) (issued pid total items s)).
Proof.
  pose proof minimum_nonneg as Hmin.
  intros [H1 H2 H3 H4 H5 H6 H7] Ht. unfold do_execute_inner, upd_issuance.
  autorewrite with run. rewrite (bool_decide_false (pid ∈ _)) by done.
  rewrite (bool_decide_false (reason = _)) by done. cbn [negb]. autorewrite with run.
  rewrite (proj2 (Z.leb_le _ _) H3). autorewrite with run.
  assert (Hp : Forall (fun item => minimum_balance <= amount item /\ 0 <= amount item) items).
  { eapply Forall_impl; [exact H5|]. intros item Hi. simpl in Hi. lia. }
  rewrite (bind_run _ _ _ tt s).
  2:{ apply checked_Ok. split; [|done]. apply validate_spec; [|done].
      eapply Forall_impl; [exact Hp|]. by intros item []. }
  rewrite (bind_run _ _ _ tt s).
  2:{ apply for_each_ensure. split; [|done]. eapply Forall_impl; [exact H5|].
      intros item Hi. simpl in *. by apply Z.leb_le. }
  rewrite (proj2 (Z.leb_le _ _) H6). autorewrite with run.
  unfold checked_add. unfold MaxTotalIssuance in *. rewrite decide_True by done.
  autorewrite with run. rewrite (proj2 (Z.leb_le _ _) H7). autorewrite with run.
  erewrite bind_run; [|apply deposit_all_run; [done|]].
  2:{ rewrite (va_total _ _ _ H4). exact Ht. }
  reflexivity.
Qed.
(** ** The callback *)

(** The context in which the voting engine calls back when a vote of this
    module ended, with the data of the proposal in their bounds. *)
Record issuance_called s (pid : Z) (approved : bool) (data : IssuanceProposalData) : Prop := {
  ic_scope : pid ∈ CallbackExecutionScopes (ve s);
  ic_owner : is_proposal_owner (ve s) pid ISSUANCE_TAG = true;
  ic_proposal : exists p, Proposals (ve s) !! pid = Some p /\ kind p = PROPOSAL_KIND_JOINT /\
    (stage p = STAGE_JOINT \/ stage p = STAGE_REFERENDUM) /\
    status p = if approved then STATUS_PASSED else STATUS_REJECTED;
  ic_data : load_issuance_data (ve s) pid = Some data;
  ic_reason : Z.of_nat (String.length (reason data)) <= RESOLUTION_ISSUANCE_MAX_REASON_LEN;
  ic_items : Z.of_nat (length (allocations data)) <= RESOLUTION_ISSUANCE_MAX_ALLOCATIONS;
  ic_count : 1 <= VotingProposalCount (issuance (world s));
}.

Lemma succeeds_run {A} (m : RM W A) s : succeeds m s = (Ok (is_ok (m s).1), (m s).2).
Proof. unfold succeeds, lift, attempt, mbind, M_bind. by destruct (m s). Qed.

Lemma execute_run pid reason total items s :
  succeeds (execute_approved_issuance pid reason total items) s =
  match do_execute_inner pid reason total items s with
  | (Ok tt, s1) => (Ok true, s1)
  | (Err _, _) => (Ok false, s)
  end.
Proof.
  rewrite succeeds_run. unfold execute_approved_issuance, transact.
  by destruct (do_execute_inner pid reason total items s) as [[[]|] ?].
Qed.

Lemma context_run pid approved data s :
  issuance_called s pid approved data ->
  ensure_vote_engine_callback_context pid approved s = (Ok tt, s).
Proof.
  intros [H1 H2 (p & Hp & Hk & Hst & Hs) _ _ _ _]. unfold ensure_vote_engine_callback_context.
  autorewrite with run. rewrite bool_decide_true by done. autorewrite with run.
  rewrite Hp. autorewrite with run. rewrite H2. autorewrite with run.
  rewrite (bool_decide_true (kind p = _)) by done.
  assert (Hb : bool_decide (stage p = STAGE_JOINT) || bool_decide (stage p = STAGE_REFERENDUM) = true).
  { apply orb_true_iff. by rewrite !bool_decide_eq_true. }
  rewrite Hb. cbn [andb]. autorewrite with run. by rewrite bool_decide_true.
Qed.

Lemma context_inv pid approved s s' :
  ensure_vote_engine_callback_context pid approved s = (Ok tt, s') ->
  s' = s /\ is_proposal_owner (ve s) pid ISSUANCE_TAG = true /\
  exists p, Proposals (ve s) !! pid = Some p /\ kind p = PROPOSAL_KIND_JOINT /\
    status p = if approved then STATUS_PASSED else STATUS_REJECTED.
Proof.
  unfold ensure_vote_engine_callback_context. intros H. run_inv. split_and!; [done..|]. eauto.
Qed.

(** One proposal less is being voted on. *)
Definition vote_ended s : rt W :=
  set_world (set_issuance (set_VotingProposalCount
    (VotingProposalCount (issuance (world s)) - 1))) s.
Definition finalized_event pid approved : Event :=
  Business (IssuanceEv (IssuanceVoteFinalized pid approved)).
Definition after_success pid data s : rt W :=
  deposit_event (Business (IssuanceEv (IssuanceExecutionTriggered pid (total_amount data))))
    (deposit_event (finalized_event pid true) (vote_ended
      (deposit_event (issued_event pid (reason data) (total_amount data) (allocations data))
        (issued pid (total_amount data) (allocations data) s)))).
Definition after_failure pid s : rt W :=
  deposit_event (Business (IssuanceEv (IssuanceExecutionFailed pid)))
    (deposit_event (finalized_event pid true) (vote_ended s)).

Lemma decrement_run s :
  1 <= VotingProposalCount (issuance (world s)) ->
  decrement_voting_proposal_count s = (Ok tt, vote_ended s).
Proof.
  intros Hn. unfold decrement_voting_proposal_count, upd_issuance. autorewrite with run.
  by rewrite (proj2 (Z.leb_le _ _) Hn).
Qed.

(** What a call back does, for every result of the execution. *)
Lemma callback_approved pid data s :
  issuance_called s pid true data ->
  issuance_on_joint_vote_finalized pid true s =
  match do_execute_inner pid (reason data) (total_amount data) (allocations data) s with
  | (Ok tt, s1) => (Ok Executed,
      deposit_event (Business (IssuanceEv (IssuanceExecutionTriggered pid (total_amount data))))
        (deposit_event (finalized_event pid true) (vote_ended s1)))
  | (Err _, _) => (Ok FatalFailed, after_failure pid s)
  end.
Proof.
  intros Hc. pose proof Hc as [_ _ _ Hd Hr Hi Hn].
  unfold issuance_on_joint_vote_finalized, issuance_apply_joint_vote_result.
  match goal with |- (transact ?m ≫= _) s = _ => set (body := m) end.
  assert (Hb : body s =
    match do_execute_inner pid (reason data) (total_amount data) (allocations data) s with
    | (Ok tt, s1) => (Ok ApprovedExecutionSucceeded,
        deposit_event (Business (IssuanceEv (IssuanceExecutionTriggered pid (total_amount data))))
          (deposit_event (finalized_event pid true) (vote_ended s1)))
    | (Err _, _) => (Ok ApprovedExecutionFailed, after_failure pid s)
    end).
  { subst body. rewrite (bind_run _ _ _ _ _ (context_run _ _ _ _ Hc)). autorewrite with run.
    rewrite Hd. autorewrite with run. unfold bounded_bytes, bounded_list.
    rewrite !decide_True by done. autorewrite with run.
    pose proof (execute_run pid (reason data) (total_amount data) (allocations data) s) as He.
    destruct (do_execute_inner _ _ _ _ s) as [[[]|e] s1] eqn:Hx;
      rewrite (bind_run _ _ _ _ _ He).
    - assert (Hn1 : 1 <= VotingProposalCount (issuance (world s1))).
      { revert Hx. unfold do_execute_inner, upd_issuance. intros Hx. run_inv.
        match goal with H : checked _ _ = _ |- _ => apply checked_Ok in H as [_ ->] end.
        match goal with H : for_each _ _ _ = _ |- _ => apply for_each_ensure in H as [_ ->] end.
        match goal with H : deposit_all _ _ = _ |- _ =>
          apply deposit_all_ledger in H as (led & -> & _) end. exact Hn. }
      rewrite (bind_run _ _ _ _ _ (decrement_run s1 Hn1)). reflexivity.
    - rewrite (bind_run _ _ _ _ _ (decrement_run s Hn)). reflexivity. }
  unfold transact. unfold mbind at 1, M_bind. rewrite Hb.
  by destruct (do_execute_inner _ _ _ _ s) as [[[]|e] s1].
Qed.

Lemma callback_rejected pid data s :
  issuance_called s pid false data ->
  issuance_on_joint_vote_finalized pid false s =
    (Ok Executed, deposit_event (finalized_event pid false) (vote_ended s)).
Proof.
  intros Hc. pose proof Hc as [_ _ _ Hd _ _ Hn].
  unfold issuance_on_joint_vote_finalized, issuance_apply_joint_vote_result, transact.
  unfold mbind at 1, M_bind.
  rewrite (bind_run _ _ _ _ _ (context_run _ _ _ _ Hc)). autorewrite with run.
  rewrite Hd. autorewrite with run. rewrite (bind_run _ _ _ _ _ (decrement_run s Hn)). reflexivity.
Qed.
End Execution.

Section Properties.
Context `{Wt : Weights} `{Cfg : !Config} `{Ord : StorageOrder} {L R : Type}
  `{Cur : !Currency L} `{CurL : !CurrencyLaws L} `{Oth : !OtherPallets R}.
#[local] Abbreviation W := (business_world L R).
Context `{Prov : !Providers W} `{Cb : !Callbacks W} `{Tr : !ProposalTracks W}
  `{CodD : !Codec IssuanceProposalData} `{CodDL : !CodecLaws IssuanceProposalData}
  `{CodA : !Codec (list RecipientAmount)}.
Implicit Types s : rt (business_world L R).

(** What is stored for the proposal is read back as it was proposed. *)
Lemma load_stored g pid (d : IssuanceProposalData) :
  ProposalData g !! pid = Some (ISSUANCE_TAG ++ scale_encode d)%string ->
  load_issuance_data g pid = Some d.
Proof.
  intros Hd. unfold load_issuance_data, get_proposal_data. rewrite Hd. simpl.
  unfold decode_tagged_data. rewrite strip_tag_app. simpl. by rewrite decode_all_encode.
Qed.

Lemma issuance_plan_owner cid role hash plan :
  issuance_vote_plan cid role hash = Ok plan -> plan = {|
    business_action_id :=
      {| module_tag := ISSUANCE_TAG; action_code := ACTION_RESOLUTION_ISSUANCE |};
    plan_owner := ISSUANCE_TAG;
    proposer_subject := Institution {| role_cid_number := cid; role_code := role |};
    voter_subjects := committee_voters ++ bank_voters; voting_engine := Joint;
    business_object_hash := hash |}.
Proof.
  unfold issuance_vote_plan. destruct (bounded_role_subject _ cid role) as [r|] eqn:Hr; [|done].
  apply bounded_role_subject_Ok in Hr as ->.
  cbn [mbind result_bind]. rewrite joint_vote_plan_ok by done. by intros [= <-].
Qed.

Definition proposed_data cid role who reason total items : IssuanceProposalData :=
  {| issuance_actor := cid; issuance_role_code := role; issuance_proposer := who;
     reason := reason; total_amount := total; allocations := items |}.

(** A proposal that succeeds is one creation in the voting engine, one more
    open proposal counted, and one event. *)
Lemma propose_issuance_inv who cid role reason total items s s' :
  propose_issuance who cid role reason total items s = (Ok tt, s') ->
  let data := (ISSUANCE_TAG ++ scale_encode (proposed_data cid role who reason total items))%string in
  exists plan id s1,
    issuance_vote_plan cid role (hash_256 data) = Ok plan /\
    create_joint_proposal_with_data who cid plan data s = (Ok id, s1) /\
    VotingProposalCount (issuance (world s)) + 1 <= u32_max /\
    s' = deposit_event (Business (IssuanceEv (ResolutionIssuanceProposed id cid role who total
           (Z.of_nat (length items)))))
         (set_world (set_issuance (set_VotingProposalCount
           (VotingProposalCount (issuance (world s)) + 1))) s1) /\
    (committee_code cid = Some NRC \/ committee_code cid = Some PRC) /\
    is_authorized (others (world s)) who {| role_cid_number := cid; role_code := role |}
      {| module_tag := ISSUANCE_TAG; action_code := ACTION_RESOLUTION_ISSUANCE |} Propose = true /\
    reason <> EmptyString /\
    validate_proposal_allocations (allowed_recipients s) total items = Ok tt.
Proof.
  cbv zeta. unfold propose_issuance, create_resolution_issuance_proposal. intros H.
  apply bind_Ok in H as ([] & s1 & H1 & H). apply ensure_Ok in H1 as [Hr ->].
  apply bind_Ok in H as (code & s1 & H1 & H). apply ok_or_Ok in H1 as [Hcode ->].
  apply bind_Ok in H as ([] & s1 & H1 & H). apply ensure_Ok in H1 as [Hc ->].
  rewrite bind_gets in H.
  apply bind_Ok in H as ([] & s1 & H1 & H). apply ensure_Ok in H1 as [Ha ->].
  rewrite bind_gets in H.
  apply bind_Ok in H as ([] & s1 & H1 & H). apply checked_Ok in H1 as [Hv ->].
  apply (proj1 (transact_Ok _ _ _ _)) in H.
  apply bind_Ok in H as (plan & s1 & H1 & H). apply from_result_Ok in H1 as [Hp ->].
  apply bind_Ok in H as (id & s1 & H1 & H). apply map_err_Ok in H1.
  pose proof (create_joint_created _ _ _ _ _ _ _ H1) as [[_ _ _ _ _ _ Hw] _].
  exists plan, id, s1. unfold increment_voting_proposal_count, upd_issuance in H. run_inv.
  rewrite Hw in *. apply orb_true_iff in Hc. rewrite !bool_decide_eq_true in Hc.
  split_and!; try done. destruct Hc as [->| ->]; auto.
Qed.

(** Whatever the call back finds, either nothing is issued or a passed proposal
    of the module is executed as its data say. *)
Lemma issuance_callback_world pid approved s :
  let s' := (issuance_on_joint_vote_finalized pid approved s).2 in
  world s' = world s \/ world s' = world (vote_ended s) \/
  exists data p, issuance_owns_proposal (ve s) pid = true /\
    Proposals (ve s) !! pid = Some p /\ kind p = PROPOSAL_KIND_JOINT /\
    status p = STATUS_PASSED /\ load_issuance_data (ve s) pid = Some data /\
    executable s pid (reason data) (total_amount data) (allocations data) /\
    world s' = world (vote_ended (issued pid (total_amount data) (allocations data) s)).
Proof.
  cbv zeta. unfold issuance_on_joint_vote_finalized, issuance_apply_joint_vote_result.
  match goal with |- context [transact ?m] => set (body := m) end.
  destruct (transact body s) as [r s'] eqn:Ht.
  assert (Hr : ((transact body ≫= (fun outcome => mret (match outcome with
    | ApprovedExecutionSucceeded => Executed | ApprovedExecutionFailed => FatalFailed
    | IssuanceRejected => Executed end))) s).2 = s').
  { unfold mbind, M_bind. rewrite Ht. by destruct r. }
  rewrite Hr. clear Hr. destruct r as [o|e]; [|apply transact_Err in Ht as ->; by left].
  apply (proj1 (transact_Ok _ _ _ _)) in Ht. subst body.
  apply bind_Ok in Ht as ([] & s1 & H1 & H). apply context_inv in H1 as (-> & Ho & p & Hp & Hk & Hst).
  rewrite bind_gets in H. apply bind_Ok in H as (data & s1 & H1 & H).
  apply ok_or_Ok in H1 as [Hd ->].
  assert (Hdec : forall s1 s2, decrement_voting_proposal_count s1 = (Ok tt, s2) -> s2 = vote_ended s1).
  { unfold decrement_voting_proposal_count, upd_issuance. intros s1 s2 Hx. by run_inv. }
  destruct approved.
  - apply bind_Ok in H as (er & s1 & H1 & H). apply ok_or_Ok in H1 as [Her ->].
    apply bind_Ok in H as (ea & s1 & H1 & H). apply ok_or_Ok in H1 as [Hea ->].
    unfold bounded_bytes, bounded_list in Her, Hea. case_decide; [|done]. case_decide; [|done].
    injection Her as <-. injection Hea as <-.
    pose proof (execute_run pid (reason data) (total_amount data) (allocations data) s) as He.
    destruct (do_execute_inner _ _ _ _ s) as [[[]|e] s1] eqn:Hx;
      rewrite (bind_run _ _ _ _ _ He) in H;
      apply bind_Ok in H as ([] & s2 & H2 & H); apply Hdec in H2 as ->; right; [right|left].
    + apply do_execute_inner_inv in Hx as [Hex ->]. run_inv.
      exists data, p. done.
    + by run_inv.
  - apply bind_Ok in H as ([] & s2 & H2 & H). apply Hdec in H2 as ->. right. left. by run_inv.
Qed.

(** The data of the new proposal are read back. *)
Lemma proposed_issuance_loads who cid role reason total items s s' :
  Forall (fun item => 0 <= amount item) items ->
  propose_issuance who cid role reason total items s = (Ok tt, s') ->
  load_issuance_data (ve s') (NextProposalId (ve s)) =
    Some (proposed_data cid role who reason total items).
Proof.
  intros Hu (plan & id & s1 & Hp & Hc & Hn & -> & Hcode & Ha & Hr & Hv)%propose_issuance_inv.
  apply issuance_plan_owner in Hp as ->. apply create_joint_created in Hc as [[-> _ _ _ Hd Ho Hw] _].
  simpl. by apply load_stored.
Qed.

(** C17: a proposal to issue money that the chain accepts is made by a
    role holder of the national or a provincial committee with the permission
    to propose, names exactly the allowed recipients, with positive amounts
    that add up to the total, and is open under the next identifier: the plan
    bound to it in the engine lets the members of every founding committee and
    the directors of every founding bank vote on the hash of its data, and the
    holders of these offices are frozen as its voters; the data the engine
    stores are read back as they were proposed. *)
Theorem issuance_proposal_recorded who cid role reason total items s s'
    (Hu : Forall (fun item => 0 <= amount item) items)
    (Hrun : propose_issuance who cid role reason total items s = (Ok tt, s')) :
  let pid := NextProposalId (ve s) in
  let data := proposed_data cid role who reason total items in
  load_issuance_data (ve s') pid = Some data /\
  issuance_owns_proposal (ve s') pid = true /\
  VotingProposalCount (issuance (world s')) = VotingProposalCount (issuance (world s)) + 1 /\
  ledger (world s') = ledger (world s) /\
  (committee_code cid = Some NRC \/ committee_code cid = Some PRC) /\
  is_authorized (others (world s)) who {| role_cid_number := cid; role_code := role |}
    {| module_tag := ISSUANCE_TAG; action_code := ACTION_RESOLUTION_ISSUANCE |} Propose = true /\
  open_joint_vote pid cid {|
    business_action_id :=
      {| module_tag := ISSUANCE_TAG; action_code := ACTION_RESOLUTION_ISSUANCE |};
    plan_owner := ISSUANCE_TAG;
    proposer_subject := Institution {| role_cid_number := cid; role_code := role |};
    voter_subjects := committee_voters ++ bank_voters; voting_engine := Joint;
    business_object_hash := hash_256 (ISSUANCE_TAG ++ scale_encode data) |} s s' /\
  valid_allocations (allowed_recipients s) total items.
Proof.
  cbv zeta. pose proof (proposed_issuance_loads _ _ _ _ _ _ _ _ Hu Hrun) as Hload.
  apply propose_issuance_inv in Hrun
    as (plan & id & s1 & Hp & Hc & Hn & -> & Hcode & Ha & Hr & Hv).
  apply issuance_plan_owner in Hp as ->. apply create_joint_created in Hc as [Hc _].
  pose proof Hc as [-> _ _ _ Hd Ho Hw]. simpl.
  split_and!; [exact Hload|exact Ho|by rewrite ?Hw|by rewrite ?Hw|done|done| |].
  - by apply (created_open _ _ _ _ _ s1 _ Hc).
  - by apply validate_spec.
Qed.

(** C14: when the engine calls back for a passed proposal of this module, the
    issue is executed exactly as proposed if all its demands are met and the
    ledger can hold it: every recipient receives its amount, nobody else
    anything, the total is counted and the identifier marked for good. If a
    demand is not met, nothing is issued and the execution is final as failed;
    for a rejected proposal nothing is issued either. *)
Theorem issuance_executes pid approved data s
    (Hc : issuance_called s pid approved data) :
  let demands := executable s pid (reason data) (total_amount data) (allocations data) in
  let run := issuance_on_joint_vote_finalized pid approved s in
  let st := issuance (world s) in
  (approved = true -> demands ->
    total_issuance (ledger (world s)) + total_amount data <= u128_max ->
    run.1 = Ok Executed /\ ve run.2 = ve s /\
    (forall item, item ∈ allocations data ->
      free_balance (ledger (world run.2)) (recipient_account_id item) =
      free_balance (ledger (world s)) (recipient_account_id item) + amount item) /\
    (forall a, a ∉ allowed_recipients s ->
      free_balance (ledger (world run.2)) a = free_balance (ledger (world s)) a) /\
    total_issuance (ledger (world run.2)) =
      total_issuance (ledger (world s)) + total_amount data /\
    issuance (world run.2) = {|
      AllowedRecipients := AllowedRecipients st;
      VotingProposalCount := VotingProposalCount st - 1;
      IssuanceExecuted := <[pid := block_number s]> (IssuanceExecuted st);
      EverExecuted := {[ pid ]} ∪ EverExecuted st;
      TotalIssued := TotalIssued st + total_amount data |}) /\
  (approved = true -> ~ demands ->
    run = (Ok FatalFailed, after_failure pid s) /\
    ledger (world run.2) = ledger (world s) /\ TotalIssued (issuance (world run.2)) = TotalIssued st) /\
  (approved = false ->
    run.1 = Ok Executed /\ world run.2 = world (vote_ended s)).
Proof.
  cbv zeta. split_and!.
  - intros -> Hd Ht. rewrite (callback_approved _ _ _ Hc), (do_execute_inner_run _ _ _ _ _ Hd Ht).
    pose proof minimum_nonneg as Hmin. pose proof Hd as [_ _ _ Hv Hm _ _].
    destruct (credited_spec (allocations data) (ledger (world s))) as [Hcr Hti].
    + eapply Forall_impl; [exact Hm|]. intros item Hi. simpl in Hi. lia.
    + rewrite (va_recipients _ _ _ Hv). apply Hv.
    + by rewrite (va_total _ _ _ Hv).
    + cbn. split_and!; [done|done|exact Hcr| |by rewrite Hti, (va_total _ _ _ Hv)|done].
      intros a Ha. apply credited_elsewhere. by rewrite (va_recipients _ _ _ Hv).
  - intros -> Hd. rewrite (callback_approved _ _ _ Hc).
    destruct (do_execute_inner _ _ _ _ s) as [[[]|e] s1] eqn:Hr; [|done].
    exfalso. apply Hd. by apply (do_execute_inner_inv _ _ _ _ _ _ Hr).
  - intros ->. by rewrite (callback_rejected _ _ _ Hc).
Qed.
End Properties.
