(* ===== verification/RuntimeUpgrade.v ===== *)
(** * Upgrades of the runtime ([governance/runtime-upgrade/src/lib.rs])

    The code of the chain is replaced by a joint vote, or, while the chain is
    in its genesis phase, directly by an administrator of the national
    committee. Code and parameters of the proof of work are replaced together
    or not at all. [genesis/src/lib.rs] decides whether the direct path is
    open; [RuntimeSetCodeExecutor] of [runtime/src/configs.rs] stages the
    parameters ([PowDifficulty.stage_params]) and sets the code. *)
From S2P Require Import Prelude Encoding PowDifficulty.
From S2P Require Import Cid Types BusinessTypes State Interfaces Runtime Data Lifecycle InternalVote.
From S2P Require Import JointVote Ledger Business ResolutionIssuance.

(** ** Constants and data *)

Definition UPGRADE_TAG : string := "rt-upg".
Definition ACTION_RUNTIME_UPGRADE : Z := 0.
Definition PROPOSAL_OBJECT_KIND_RUNTIME_WASM : Z := 1.
Definition RuntimeUpgradeMaxCodeSize : Z := 5 * 1024 * 1024.

(** The summary kept by the voting engine; the code is its object. *)
Record UpgradeProposal : Type := {
  upgrade_actor : CidNumber;
  upgrade_role_code : RoleCode;
  upgrade_proposer : AccountId;
  upgrade_reason : string;
  code_hash : string;
  expected_pow_params_hash : string;
  new_pow_params : PowDifficultyParams;
}.

Abbreviation upg e := (BusinessErr (UpgradeErr e)).
Abbreviation emit_upgrade e := (modify (deposit_event (Business (UpgradeEv e)))).

(** The texts of the errors of [stage_params]. *)
Definition stage_error (e : StageError) : DispatchError :=
  Other (match e with
    | InvalidParams => "invalid pow difficulty params"
    | UnsupportedAlgorithm => "当前 runtime 不支持该 PoW 算法版本"
    | PendingExists => "已有待生效 PoW 参数"
    | VersionChanged => "参数未变时版本不得变化"
    | VersionNotNext => "PoW 参数版本必须精确加一"
    end).

Section Upgrade.
Context `{Wt : Weights} `{Cfg : !Config} `{Ord : StorageOrder} {L R : Type}
  `{Oth : !OtherPallets R}.
#[local] Abbreviation W := (business_world L R).
Context `{Prov : !Providers W} `{Cb : !Callbacks W} `{Tr : !ProposalTracks W}
  `{CodP : !Codec PowDifficultyParams} `{CodU : !Codec UpgradeProposal}.
Implicit Types s : rt (business_world L R).

Definition hash_params (p : PowDifficultyParams) : string := hash_256 (scale_encode p).
Definition active_params s : PowDifficultyParams := ActiveParams (difficulty (world s)).

(** ** Proposal *)

Definition upgrade_vote_plan (actor_cid_number : CidNumber) (business_object_hash : string)
    : result DispatchError VotePlan :=
  proposer_role ← bounded_role_subject (upg UpgradeInvalidActorCid) actor_cid_number
    ROLE_CODE_COMMITTEE_MEMBER;
  joint_vote_plan (upg UpgradeInvalidActorCid) (upg UpgradeJointVoteCreateFailed) UPGRADE_TAG
    ACTION_RUNTIME_UPGRADE proposer_role business_object_hash.

Definition upgrade_action : BusinessActionId :=
  {| module_tag := UPGRADE_TAG; action_code := ACTION_RUNTIME_UPGRADE |}.

Definition propose_runtime_upgrade (who : AccountId) (actor_cid_number : CidNumber)
    (actor_role_code : RoleCode) (reason code : string) (params : PowDifficultyParams)
    : RM W unit :=
  actor_code ← ok_or (committee_code actor_cid_number) (upg UpgradeInvalidActorCid);
  ensure (bool_decide (actor_code = NRC) || bool_decide (actor_code = PRC))
    (upg UpgradeInvalidActorCid) ;;
  authorized ← gets (fun s => is_authorized (others (world s)) who
    {| role_cid_number := actor_cid_number; role_code := actor_role_code |} upgrade_action Propose);
  ensure authorized (upg UpgradeUnauthorizedActorRole) ;;
  ensure (negb (bool_decide (reason = EmptyString))) (upg UpgradeEmptyReason) ;;
  ensure (negb (bool_decide (code = EmptyString))) (upg EmptyRuntimeCode) ;;
  ensure (is_ok (validate params)) (Other "invalid pow difficulty params") ;;
  expected ← gets (fun s => hash_params (active_params s));
  let proposal := {| upgrade_actor := actor_cid_number; upgrade_role_code := actor_role_code;
    upgrade_proposer := who; upgrade_reason := reason; code_hash := hash_256 code;
    expected_pow_params_hash := expected; new_pow_params := params |} in
  let encoded := (UPGRADE_TAG ++ scale_encode proposal)%string in
  vote_plan ← from_result (upgrade_vote_plan actor_cid_number (hash_256 code));
  proposal_id ← map_err (upg UpgradeJointVoteCreateFailed)
    (create_joint_proposal_with_data_and_object who actor_cid_number vote_plan encoded
       PROPOSAL_OBJECT_KIND_RUNTIME_WASM code);
  emit_upgrade (RuntimeUpgradeProposed proposal_id actor_cid_number actor_role_code who
    (hash_256 code) (hash_params params)).

(** ** Execution *)

(** [PowDifficulty::stage_params] on the storage of that pallet. *)
Definition stage_in_world (params : PowDifficultyParams) (at_block : Z) : RM W unit := fun s =>
  let '(r, d) := stage_params params at_block (difficulty (world s)) in
  (match r with Ok u => Ok u | Err e => Err (stage_error e) end,
   set_world (set_difficulty (fun _ => d)) s).

(** [frame_system::Call::set_code] dispatched as root. *)
Definition set_code_in_world (code : string) : RM W unit := fun s =>
  match set_code code (others (world s)) with
  | Ok r => (Ok tt, set_world (set_others (fun _ => r)) s)
  | Err e => (Err e, s)
  end.

(** [RuntimeSetCodeExecutor]. *)
Definition execute_runtime_code (code : string) (params : PowDifficultyParams) (at_block : Z)
    : RM W unit :=
  stage_in_world params at_block ;; set_code_in_world code.

Definition execute_upgrade_bundle (code : string) (params : PowDifficultyParams)
    (proposal_id : option Z) (path : UpgradeExecutionPath) (developer : option AccountId)
    : RM W unit :=
  transact (
    active ← gets active_params;
    executed_at ← gets (fun s => saturated_into u32_max (block_number s));
    activate_at ← ok_or (checked_add u32_max executed_at 1)
      (Other "pow params activation overflow");
    execute_runtime_code code params activate_at ;;
    modify (set_world (set_audit {|
      audit_proposal_id := proposal_id; execution_path := path;
      audit_code_hash := hash_256 code; old_pow_params_hash := hash_params active;
      new_pow_params_hash := hash_params params; executed_at := executed_at;
      audit_activate_at := activate_at; developer := developer |}))).

(** [runtime/src/configs.rs]: [is_nrc_admin]; a table without the national
    committee would panic. *)
Definition is_nrc_admin (r : R) (who : AccountId) : bool :=
  match CHINA_CB with
  | n :: _ => is_institution_admin r NRC (cb_cid_number n) who
  | [] => false
  end.

Definition developer_direct_upgrade (who : AccountId) (actor_cid_number : CidNumber)
    (actor_role_code : RoleCode) (code : string) (params : PowDifficultyParams) : RM W unit :=
  admin ← gets (fun s => is_nrc_admin (others (world s)) who);
  ensure admin BadOrigin ;;
  actor_code ← ok_or (committee_code actor_cid_number) (upg UpgradeInvalidActorCid);
  ensure (bool_decide (actor_code = NRC)) (upg UpgradeInvalidActorCid) ;;
  authorized ← gets (fun s => is_authorized (others (world s)) who
    {| role_cid_number := actor_cid_number; role_code := actor_role_code |} upgrade_action Propose);
  ensure authorized (upg UpgradeUnauthorizedActorRole) ;;
  enabled ← gets (fun s => developer_upgrade_is_enabled (chain_genesis (world s)));
  ensure enabled (upg DeveloperUpgradeDisabled) ;;
  ensure (negb (bool_decide (code = EmptyString))) (upg EmptyRuntimeCode) ;;
  ensure (is_ok (validate params)) (Other "invalid pow difficulty params") ;;
  execute_upgrade_bundle code params None DeveloperDirect (Some who) ;;
  emit_upgrade (DeveloperDirectUpgradeExecuted who (hash_256 code)).

(** ** The callback *)

Definition upgrade_owns_proposal (g : engine) (proposal_id : Z) : bool :=
  is_proposal_owner g proposal_id UPGRADE_TAG.

(** Bytes after the decoded value are not looked at. *)
Definition decode_upgrade (raw : string) : option UpgradeProposal :=
  rest ← strip_tag UPGRADE_TAG raw; fst <$> scale_decode rest.

Definition load_proposal (g : engine) (proposal_id : Z) : option UpgradeProposal :=
  raw ← get_proposal_data g proposal_id; decode_upgrade raw.

Definition load_runtime_code (g : engine) (proposal_id : Z) : option string :=
  meta ← get_proposal_object_meta g proposal_id;
  if bool_decide (object_kind meta = PROPOSAL_OBJECT_KIND_RUNTIME_WASM) then
    raw ← get_proposal_object g proposal_id; bounded_bytes RuntimeUpgradeMaxCodeSize raw
  else None.

Definition upgrade_apply_joint_vote_result (proposal_id : Z) (approved : bool)
    : RM W ProposalExecutionOutcome :=
  proposal ← gets (fun s => load_proposal (ve s) proposal_id);
  proposal ← ok_or proposal (upg UpgradeProposalNotFound);
  engine_proposal ← gets (fun s => Proposals (ve s) !! proposal_id);
  engine_proposal ← ok_or engine_proposal (upg UpgradeProposalNotFound);
  called ← gets (fun s =>
    bool_decide (proposal_id ∈ CallbackExecutionScopes (ve s))
    && is_proposal_owner (ve s) proposal_id UPGRADE_TAG
    && bool_decide (kind engine_proposal = PROPOSAL_KIND_JOINT)
    && (bool_decide (stage engine_proposal = STAGE_JOINT)
        || bool_decide (stage engine_proposal = STAGE_REFERENDUM)));
  ensure called (upg ProposalNotVoting) ;;
  let expected_status := if approved then STATUS_PASSED else STATUS_REJECTED in
  ensure (bool_decide (status engine_proposal = expected_status)) (upg ProposalNotVoting) ;;
  if approved then
    code ← gets (fun s => load_runtime_code (ve s) proposal_id);
    code_to_execute ← ok_or code (upg RuntimeCodeMissing);
    ensure (bool_decide (hash_256 code_to_execute = code_hash proposal))
      (upg RuntimeCodeMissing) ;;
    current_params_hash ← gets (fun s => hash_params (active_params s));
    ensure (bool_decide (current_params_hash = expected_pow_params_hash proposal))
      (Other "pow params changed while upgrade vote was open") ;;
    exec_ok ← succeeds (execute_upgrade_bundle code_to_execute (new_pow_params proposal)
      (Some proposal_id) JointVotePath None);
    emit_upgrade (UpgradeVoteFinalized proposal_id true) ;;
    if (exec_ok : bool) then
      emit_upgrade (RuntimeUpgradeExecuted proposal_id (code_hash proposal)) ;;
      mret Executed
    else
      emit_upgrade (RuntimeUpgradeExecutionFailed proposal_id (code_hash proposal)) ;;
      mret FatalFailed
  else
    emit_upgrade (UpgradeVoteFinalized proposal_id false) ;;
    mret Executed.
End Upgrade.

(** ** Properties *)

Section UpgradeProperties.
Context `{Wt : Weights} `{Cfg : !Config} `{Ord : StorageOrder} {L R : Type}
  `{Oth : !OtherPallets R} `{OthL : !OtherPalletsLaws R}.
#[local] Abbreviation W := (business_world L R).
Context `{Prov : !Providers W} `{Cb : !Callbacks W} `{Tr : !ProposalTracks W}
  `{CodP : !Codec PowDifficultyParams} `{CodU : !Codec UpgradeProposal}.
Implicit Types s : rt (business_world L R).

(** The block after the current one, at which new parameters take effect. *)
Definition next_block s : Z := saturated_into u32_max (block_number s) + 1.

Definition upgrade_audit s code params pid path dev : RuntimeUpgradeAudit := {|
  audit_proposal_id := pid; execution_path := path; audit_code_hash := hash_256 code;
  old_pow_params_hash := hash_params (active_params s);
  new_pow_params_hash := hash_params params;
  executed_at := saturated_into u32_max (block_number s);
  audit_activate_at := next_block s; developer := dev |}.

(** The storage after an upgrade with the storage [d] of the difficulty and
    [r] of the other pallets. *)
Definition upgraded code params pid path dev (d : pow) (r : R) s : rt W :=
  set_world (fun w => set_audit (upgrade_audit s code params pid path dev)
    (set_others (fun _ => r) (set_difficulty (fun _ => d) w))) s.

(** An upgrade replaces parameters and code together, or changes nothing. *)
Lemma bundle_run code params pid path dev s :
  execute_upgrade_bundle code params pid path dev s =
  match checked_add u32_max (saturated_into u32_max (block_number s)) 1 with
  | None => (Err (Other "pow params activation overflow"), s)
  | Some at_block =>
      match stage_params params at_block (difficulty (world s)) with
      | (Err e, _) => (Err (stage_error e), s)
      | (Ok _, d) =>
          match set_code code (others (world s)) with
          | Err e => (Err e, s)
          | Ok r => (Ok tt, upgraded code params pid path dev d r s)
          end
      end
  end.
Proof.
  unfold execute_upgrade_bundle, transact. autorewrite with run.
  destruct (checked_add _ _ 1) as [at_block|] eqn:Ha; autorewrite with run; [|done].
  apply checked_add_Some in Ha as [-> _].
  unfold execute_runtime_code, stage_in_world, set_code_in_world, mbind, M_bind.
  destruct (stage_params params _ (difficulty (world s))) as [[[]|e] d]; [|done]. cbn.
  by destruct (set_code code (others (world s))).
Qed.

Lemma bundle_Ok code params pid path dev s s' :
  execute_upgrade_bundle code params pid path dev s = (Ok tt, s') ->
  exists d r, stage_params params (next_block s) (difficulty (world s)) = (Ok tt, d) /\
    set_code code (others (world s)) = Ok r /\ next_block s <= u32_max /\
    s' = upgraded code params pid path dev d r s.
Proof.
  rewrite bundle_run. destruct (checked_add _ _ 1) as [at_block|] eqn:Ha; [|done].
  apply checked_add_Some in Ha as [-> Hle].
  destruct (stage_params params _ (difficulty (world s))) as [[[]|e] d] eqn:Hd; [|done].
  destruct (set_code code (others (world s))) as [r|] eqn:Hr; [|done].
  intros [= <-]. exists d, r. done.
Qed.

Lemma bundle_Err code params pid path dev s e s' :
  execute_upgrade_bundle code params pid path dev s = (Err e, s') -> s' = s.
Proof. apply transact_Err. Qed.

(** What staging does when it succeeds. *)
Lemma stage_params_Ok params at_block d d' :
  stage_params params at_block d = (Ok tt, d') ->
  PendingParams d = None /\ is_ok (validate params) = true /\
  ((d' = d /\ same_values_except_version (ActiveParams d) params = true /\
    params_version params = params_version (ActiveParams d)) \/
   (d' = params_staged {| pending_params := params; activate_at := at_block |} d /\
    params_version params = saturating_add u32_max (params_version (ActiveParams d)) 1)).
Proof.
  unfold stage_params. intros H.
  apply bind_Ok in H as ([] & d1 & H1 & H). apply ensure_Ok in H1 as [Hv ->].
  apply bind_Ok in H as ([] & d1 & H1 & H). apply ensure_Ok in H1 as [_ ->].
  rewrite bind_gets in H.
  apply bind_Ok in H as ([] & d1 & H1 & H). apply ensure_Ok in H1 as [Hp ->].
  apply bool_decide_eq_true in Hp. rewrite bind_gets in H.
  split_and!; [done..|].
  destruct (same_values_except_version (ActiveParams d) params) eqn:Hs; run_inv; auto.
Qed.

(** ** The callback *)

Record upgrade_called s (pid : Z) (approved : bool) (u : UpgradeProposal) : Prop := {
  uc_scope : pid ∈ CallbackExecutionScopes (ve s);
  uc_owner : is_proposal_owner (ve s) pid UPGRADE_TAG = true;
  uc_proposal : exists p, Proposals (ve s) !! pid = Some p /\ kind p = PROPOSAL_KIND_JOINT /\
    (stage p = STAGE_JOINT \/ stage p = STAGE_REFERENDUM) /\
    status p = if approved then STATUS_PASSED else STATUS_REJECTED;
  uc_data : load_proposal (ve s) pid = Some u;
}.

(** The approved code is at hand, and the parameters are those of the day the
    proposal was made. *)
Definition upgrade_ready s pid (u : UpgradeProposal) (code : string) : Prop :=
  load_runtime_code (ve s) pid = Some code /\ hash_256 code = code_hash u /\
  hash_params (active_params s) = expected_pow_params_hash u.

Definition upgrade_event (e : UpgradeEvent) s : rt W := deposit_event (Business (UpgradeEv e)) s.

Lemma upgrade_callback_run pid approved u s :
  upgrade_called s pid approved u ->
  upgrade_apply_joint_vote_result pid approved s =
  (if approved then
    code ← ok_or (load_runtime_code (ve s) pid) (upg RuntimeCodeMissing);
    ensure (bool_decide (hash_256 code = code_hash u)) (upg RuntimeCodeMissing) ;;
    current_params_hash ← gets (fun s => hash_params (active_params s));
    ensure (bool_decide (current_params_hash = expected_pow_params_hash u))
      (Other "pow params changed while upgrade vote was open") ;;
    exec_ok ← succeeds (execute_upgrade_bundle code (new_pow_params u)
      (Some pid) JointVotePath None);
    emit_upgrade (UpgradeVoteFinalized pid true) ;;
    if (exec_ok : bool) then
      emit_upgrade (RuntimeUpgradeExecuted pid (code_hash u)) ;; mret Executed
    else
      emit_upgrade (RuntimeUpgradeExecutionFailed pid (code_hash u)) ;; mret FatalFailed
  else emit_upgrade (UpgradeVoteFinalized pid false) ;; mret Executed) s.
Proof.
  intros [H1 H2 (p & Hp & Hk & Hst & Hs) Hu]. unfold upgrade_apply_joint_vote_result.
  autorewrite with run. rewrite Hu. autorewrite with run. rewrite Hp. autorewrite with run.
  assert (Hb : bool_decide (stage p = STAGE_JOINT) || bool_decide (stage p = STAGE_REFERENDUM) = true).
  { apply orb_true_iff. by rewrite !bool_decide_eq_true. }
  rewrite H2, Hb, (bool_decide_true (pid ∈ _)), (bool_decide_true (kind p = _)) by done.
  cbn [andb]. autorewrite with run. rewrite (bool_decide_true (status p = _)) by done.
  autorewrite with run. destruct approved; [|done]. by autorewrite with run.
Qed.

Lemma upgrade_ready_run pid u code s :
  upgrade_called s pid true u -> upgrade_ready s pid u code ->
  upgrade_apply_joint_vote_result pid true s =
  match execute_upgrade_bundle code (new_pow_params u) (Some pid) JointVotePath None s with
  | (Ok _, s1) => (Ok Executed, upgrade_event (RuntimeUpgradeExecuted pid (code_hash u))
      (upgrade_event (UpgradeVoteFinalized pid true) s1))
  | (Err _, _) => (Ok FatalFailed, upgrade_event (RuntimeUpgradeExecutionFailed pid (code_hash u))
      (upgrade_event (UpgradeVoteFinalized pid true) s))
  end.
Proof.
  intros Hc (Hcode & Hh & Hp). rewrite (upgrade_callback_run _ _ _ _ Hc), Hcode.
  autorewrite with run. rewrite (bool_decide_true (hash_256 code = _)) by done.
  autorewrite with run. rewrite bool_decide_true by done. autorewrite with run.
  unfold succeeds, lift, attempt. rewrite bind_assoc.
  destruct (execute_upgrade_bundle _ _ _ _ _ s) as [[[]|e] s1] eqn:He.
  - unfold mbind at 1, M_bind. by rewrite He.
  - apply bundle_Err in He as Hs1. subst s1. unfold mbind at 1, M_bind. by rewrite He.
Qed.

Lemma upgrade_ready_dec s pid u :
  (exists code, upgrade_ready s pid u code) \/ ~ (exists code, upgrade_ready s pid u code).
Proof.
  unfold upgrade_ready. destruct (load_runtime_code (ve s) pid) as [code|];
    [|right; intros (c & ? & _); done].
  destruct (decide (hash_256 code = code_hash u /\
    hash_params (active_params s) = expected_pow_params_hash u)) as [[H1 H2]|Hn].
  - left. by exists code.
  - right. intros (c & [= <-] & H1 & H2). by apply Hn.
Qed.

Lemma upgrade_not_ready_run pid u s :
  upgrade_called s pid true u -> ~ (exists code, upgrade_ready s pid u code) ->
  exists e, upgrade_apply_joint_vote_result pid true s = (Err e, s).
Proof.
  intros Hc Hn. rewrite (upgrade_callback_run _ _ _ _ Hc).
  destruct (load_runtime_code (ve s) pid) as [code|] eqn:Hcode; autorewrite with run; [|by eexists].
  case_bool_decide as Hh; autorewrite with run; [|by eexists].
  case_bool_decide as Hp; autorewrite with run; [|by eexists].
  exfalso. apply Hn. by exists code.
Qed.

(** Whatever the call back finds, either nothing changes or a passed proposal
    of the module is carried out as its data say. *)
Lemma upgrade_callback_world pid approved s :
  let s' := (upgrade_apply_joint_vote_result pid approved s).2 in
  world s' = world s \/
  exists u p code d r, upgrade_owns_proposal (ve s) pid = true /\
    Proposals (ve s) !! pid = Some p /\ kind p = PROPOSAL_KIND_JOINT /\
    status p = STATUS_PASSED /\ load_proposal (ve s) pid = Some u /\ upgrade_ready s pid u code /\
    set_code code (others (world s)) = Ok r /\
    world s' = world (upgraded code (new_pow_params u) (Some pid) JointVotePath None d r s).
Proof.
  cbv zeta.
  destruct (load_proposal (ve s) pid) as [u|] eqn:Hu;
    [|left; unfold upgrade_apply_joint_vote_result; autorewrite with run; by rewrite Hu].
  destruct (Proposals (ve s) !! pid) as [p|] eqn:Hp;
    [|left; unfold upgrade_apply_joint_vote_result; autorewrite with run; rewrite Hu;
      autorewrite with run; by rewrite Hp].
  destruct (decide (pid ∈ CallbackExecutionScopes (ve s) /\
    is_proposal_owner (ve s) pid UPGRADE_TAG = true /\ kind p = PROPOSAL_KIND_JOINT /\
    (stage p = STAGE_JOINT \/ stage p = STAGE_REFERENDUM) /\
    status p = if approved then STATUS_PASSED else STATUS_REJECTED))
    as [(Hs & Ho & Hk & Hst & Hstat)|Hn].
  - assert (Hc : upgrade_called s pid approved u) by (split; [done|done|by exists p|done]).
    destruct approved; [|left; by rewrite (upgrade_callback_run _ _ _ _ Hc)].
    destruct (upgrade_ready_dec s pid u) as [[code Hr]|Hnr].
    + rewrite (upgrade_ready_run _ _ _ _ Hc Hr).
      destruct (execute_upgrade_bundle _ _ _ _ _ s) as [[[]|e] s1] eqn:He; [|by left].
      apply bundle_Ok in He as (d & r & _ & Hset & _ & ->). right.
      by exists u, p, code, d, r.
    + left. by destruct (upgrade_not_ready_run _ _ _ Hc Hnr) as [e ->].
  - left. unfold upgrade_apply_joint_vote_result. autorewrite with run. rewrite Hu.
    autorewrite with run. rewrite Hp. autorewrite with run.
    match goal with |- context [(ensure ?b _ ≫= _) s] => destruct b eqn:Hb end;
      autorewrite with run; [|done].
    match goal with |- context [(ensure ?b _ ≫= _) s] => destruct b eqn:Hx end;
      autorewrite with run; [|done].
    exfalso. apply Hn. run_inv.
    match goal with H : _ || _ = true |- _ => apply orb_true_iff in H;
      rewrite !bool_decide_eq_true in H end. done.
Qed.

(** C15: when the engine calls back for a passed upgrade whose code is the one
    voted on and whose parameters have not been replaced since, then either
    the code and the parameters are both taken over (the parameters at the next
    block, unless they stay as they are) and the audit names the proposal, or
    nothing but the failure is recorded; balances and issuance are not touched.
    If the code or the parameters are not those of the proposal, or the
    proposal was rejected, storage stays as it is. *)
Theorem upgrade_executes pid approved u s (Hc : upgrade_called s pid approved u) :
  let run := upgrade_apply_joint_vote_result pid approved s in
  let params := new_pow_params u in
  (forall code, approved = true -> upgrade_ready s pid u code ->
    (exists d r, run.1 = Ok Executed /\
      world run.2 = world (upgraded code params (Some pid) JointVotePath None d r s) /\
      runtime_code (others (world run.2)) = code /\
      ActiveParams (difficulty (world run.2)) = active_params s /\
      (difficulty (world run.2) = difficulty (world s) /\ params = active_params s \/
       PendingParams (difficulty (world run.2)) =
         Some {| pending_params := params; activate_at := next_block s |})) \/
    (run.1 = Ok FatalFailed /\ world run.2 = world s)) /\
  (approved = true -> ~ (exists code, upgrade_ready s pid u code) ->
    exists e, run = (Err e, s)) /\
  (approved = false -> run.1 = Ok Executed /\ world run.2 = world s) /\
  ve run.2 = ve s /\ ledger (world run.2) = ledger (world s) /\
  issuance (world run.2) = issuance (world s).
Proof.
  cbv zeta. split; [|split; [|split]].
  - intros code -> Hr. rewrite (upgrade_ready_run _ _ _ _ Hc Hr).
    destruct (execute_upgrade_bundle _ _ _ _ _ s) as [[[]|e] s1] eqn:He; [left|by right].
    apply bundle_Ok in He as (d & r & Hd & Hset & _ & ->). exists d, r. simpl.
    apply stage_params_Ok in Hd as (_ & _ & Hd). apply set_code_sets in Hset.
    split_and!; [done|done|done|by destruct Hd as [[-> _]|[-> _]]|].
    destruct Hd as [(-> & Hsame & Hv)|[-> _]]; [left|by right]. split; [done|].
    unfold active_params in *. destruct (ActiveParams (difficulty (world s))), (new_pow_params u).
    unfold same_values_except_version in Hsame. simpl in *.
    rewrite !andb_true_iff, !bool_decide_eq_true in Hsame. intuition congruence.
  - intros ->. by apply upgrade_not_ready_run.
  - intros ->. by rewrite (upgrade_callback_run _ _ _ _ Hc).
  - destruct approved; [|by rewrite (upgrade_callback_run _ _ _ _ Hc)].
    destruct (upgrade_ready_dec s pid u) as [[code Hr]|Hn].
    + rewrite (upgrade_ready_run _ _ _ _ Hc Hr).
      destruct (execute_upgrade_bundle _ _ _ _ _ s) as [[[]|e] s1] eqn:He; [|done].
      by apply bundle_Ok in He as (d & r & _ & _ & _ & ->).
    + by destruct (upgrade_not_ready_run _ _ _ Hc Hn) as [e ->].
Qed.

(** ** The developers' path *)

Lemma developer_upgrade_inv who cid role code params s s' :
  developer_direct_upgrade who cid role code params s = (Ok tt, s') ->
  is_nrc_admin (others (world s)) who = true /\ committee_code cid = Some NRC /\
  is_authorized (others (world s)) who {| role_cid_number := cid; role_code := role |}
    upgrade_action Propose = true /\
  developer_upgrade_is_enabled (chain_genesis (world s)) = true /\
  code <> EmptyString /\
  exists d r, set_code code (others (world s)) = Ok r /\
    stage_params params (next_block s) (difficulty (world s)) = (Ok tt, d) /\
    s' = upgrade_event (DeveloperDirectUpgradeExecuted who (hash_256 code))
      (upgraded code params None DeveloperDirect (Some who) d r s).
Proof.
  unfold developer_direct_upgrade. intros H. rewrite bind_gets in H.
  apply bind_Ok in H as ([] & s1 & H1 & H). apply ensure_Ok in H1 as [Ha ->].
  apply bind_Ok in H as (c & s1 & H1 & H). apply ok_or_Ok in H1 as [Hc ->].
  apply bind_Ok in H as ([] & s1 & H1 & H). apply ensure_Ok in H1 as [Hn ->].
  apply bool_decide_eq_true in Hn as ->. rewrite bind_gets in H.
  apply bind_Ok in H as ([] & s1 & H1 & H). apply ensure_Ok in H1 as [Hau ->].
  rewrite bind_gets in H.
  apply bind_Ok in H as ([] & s1 & H1 & H). apply ensure_Ok in H1 as [He ->].
  apply bind_Ok in H as ([] & s1 & H1 & H). apply ensure_Ok in H1 as [Hcode ->].
  apply negb_true_iff, bool_decide_eq_false in Hcode.
  apply bind_Ok in H as ([] & s1 & H1 & H). apply ensure_Ok in H1 as [_ ->].
  apply bind_Ok in H as ([] & s1 & H1 & H). apply bundle_Ok in H1 as (d & r & Hd & Hr & _ & ->).
  apply modify_Ok in H as ->. split_and!; try done. by exists d, r.
Qed.

(** A step that writes nothing, whatever follows it. *)
Lemma check_first {A B} (m : RM W A) (k : A -> RM W B) s e s' :
  (forall r x, m s = (r, x) -> x = s) -> (m ≫= k) s = (Err e, s') ->
  s' = s \/ exists a, m s = (Ok a, s) /\ k a s = (Err e, s').
Proof.
  intros Hm. unfold mbind, M_bind. destruct (m s) as [[a|e'] s1] eqn:Hr.
  - pose proof (Hm _ _ eq_refl) as ->. intros H. right. by exists a.
  - pose proof (Hm _ _ eq_refl) as ->. intros [= _ <-]. by left.
Qed.

Lemma developer_upgrade_Err who cid role code params s e s' :
  developer_direct_upgrade who cid role code params s = (Err e, s') -> s' = s.
Proof.
  unfold developer_direct_upgrade. intros H.
  repeat (apply check_first in H as [->|(? & _ & H)];
    [done| |solve [intros ? ?; apply unchanged; solve_preserves_with fail]]).
  apply bind_Err in H as [H|([] & s1 & _ & H)]; [|discriminate H].
  by apply bundle_Err in H.
Qed.

(** C16: the developers' path changes the code only in the genesis phase
    with its switch on, for an administrator of the national committee who
    holds the permission; then the audit names the developer and the new code.
    In the operation phase, and whenever a check fails, nothing changes. *)
Theorem developer_path_guarded who cid role code params s :
  let run := developer_direct_upgrade who cid role code params s in
  (Phase (chain_genesis (world s)) = Operation -> exists e, run = (Err e, s)) /\
  (forall e, run.1 = Err e -> run.2 = s) /\
  (run.1 = Ok tt ->
    Phase (chain_genesis (world s)) = Genesis /\
    DeveloperUpgradeEnabled (chain_genesis (world s)) = true /\
    is_nrc_admin (others (world s)) who = true /\ committee_code cid = Some NRC /\
    is_authorized (others (world s)) who {| role_cid_number := cid; role_code := role |}
      upgrade_action Propose = true /\
    runtime_code (others (world run.2)) = code /\
    LastRuntimeUpgradeAudit (world run.2) =
      Some (upgrade_audit s code params None DeveloperDirect (Some who)) /\
    ve run.2 = ve s /\ ledger (world run.2) = ledger (world s)).
Proof.
  cbv zeta. destruct (developer_direct_upgrade who cid role code params s) as [[[]|e] s'] eqn:Hr.
  - apply developer_upgrade_inv in Hr as (H1 & H2 & H3 & H4 & _ & d & r & Hset & _ & ->).
    apply set_code_sets in Hset. unfold developer_upgrade_is_enabled in H4.
    apply andb_true_iff in H4 as [H4 H5]. apply negb_true_iff, bool_decide_eq_false in H5.
    split; [done|]. split; [done|]. intros _. split_and!; try done.
    by destruct (Phase (chain_genesis (world s))).
  - apply developer_upgrade_Err in Hr as ->. split_and!; [by eexists|done|done].
Qed.

(** ** Proposals *)

Definition upgrade_proposed s cid role who reason code params : UpgradeProposal := {|
  upgrade_actor := cid; upgrade_role_code := role; upgrade_proposer := who;
  upgrade_reason := reason; code_hash := hash_256 code;
  expected_pow_params_hash := hash_params (active_params s); new_pow_params := params |}.

Lemma upgrade_plan_owner cid hash plan :
  upgrade_vote_plan cid hash = Ok plan -> plan = {|
    business_action_id := upgrade_action; plan_owner := UPGRADE_TAG;
    proposer_subject :=
      Institution {| role_cid_number := cid; role_code := ROLE_CODE_COMMITTEE_MEMBER |};
    voter_subjects := committee_voters ++ bank_voters; voting_engine := Joint;
    business_object_hash := hash |}.
Proof.
  unfold upgrade_vote_plan.
  destruct (bounded_role_subject _ cid ROLE_CODE_COMMITTEE_MEMBER) as [r|] eqn:Hr; [|done].
  apply bounded_role_subject_Ok in Hr as ->.
  cbn [mbind result_bind]. rewrite joint_vote_plan_ok by done. by intros [= <-].
Qed.

Lemma propose_upgrade_inv who cid role reason code params s s' :
  propose_runtime_upgrade who cid role reason code params s = (Ok tt, s') ->
  let data := (UPGRADE_TAG ++ scale_encode (upgrade_proposed s cid role who reason code params))%string in
  exists plan id s1,
    upgrade_vote_plan cid (hash_256 code) = Ok plan /\
    create_joint_proposal_with_data_and_object who cid plan data
      PROPOSAL_OBJECT_KIND_RUNTIME_WASM code s = (Ok id, s1) /\
    s' = upgrade_event (RuntimeUpgradeProposed id cid role who (hash_256 code) (hash_params params)) s1 /\
    (committee_code cid = Some NRC \/ committee_code cid = Some PRC) /\
    is_authorized (others (world s)) who {| role_cid_number := cid; role_code := role |}
      upgrade_action Propose = true /\
    code <> EmptyString /\ is_ok (validate params) = true.
Proof.
  cbv zeta. unfold propose_runtime_upgrade. intros H.
  apply bind_Ok in H as (c & s1 & H1 & H). apply ok_or_Ok in H1 as [Hcode ->].
  apply bind_Ok in H as ([] & s1 & H1 & H). apply ensure_Ok in H1 as [Hc ->].
  rewrite bind_gets in H.
  apply bind_Ok in H as ([] & s1 & H1 & H). apply ensure_Ok in H1 as [Ha ->].
  apply bind_Ok in H as ([] & s1 & H1 & H). apply ensure_Ok in H1 as [Hr ->].
  apply bind_Ok in H as ([] & s1 & H1 & H). apply ensure_Ok in H1 as [He ->].
  apply bind_Ok in H as ([] & s1 & H1 & H). apply ensure_Ok in H1 as [Hv ->].
  rewrite bind_gets in H.
  apply bind_Ok in H as (plan & s1 & H1 & H). apply from_result_Ok in H1 as [Hp ->].
  apply bind_Ok in H as (id & s1 & H1 & H). apply map_err_Ok in H1. apply modify_Ok in H as ->.
  exists plan, id, s1. apply negb_true_iff, bool_decide_eq_false in He.
  apply orb_true_iff in Hc. rewrite !bool_decide_eq_true in Hc.
  split_and!; try done. destruct Hc as [->| ->]; auto.
Qed.

Context `{CodUL : !CodecLaws UpgradeProposal}.

Lemma load_upgrade_stored g pid (u : UpgradeProposal) :
  ProposalData g !! pid = Some (UPGRADE_TAG ++ scale_encode u)%string -> load_proposal g pid = Some u.
Proof.
  intros Hd. unfold load_proposal, get_proposal_data. rewrite Hd. cbn [mbind option_bind].
  unfold decode_upgrade. rewrite strip_tag_app. cbn [mbind option_bind].
  by rewrite <- (string_app_nil (scale_encode u)), scale_round_trip.
Qed.

(** The summary and the code of the new proposal are read back. *)
Lemma proposed_upgrade_loads who cid role reason code params s s' :
  Z.of_nat (String.length code) <= RuntimeUpgradeMaxCodeSize ->
  propose_runtime_upgrade who cid role reason code params s = (Ok tt, s') ->
  let u := upgrade_proposed s cid role who reason code params in
  load_proposal (ve s') (NextProposalId (ve s)) = Some u /\
  upgrade_ready s' (NextProposalId (ve s)) u code.
Proof.
  cbv zeta. intros Hlen (plan & id & s1 & Hp & Hc & -> & Hcode & Ha & _ & _)%propose_upgrade_inv.
  apply upgrade_plan_owner in Hp as ->.
  apply create_joint_object_created in Hc as ([-> _ _ _ Hd Ho Hw] & _ & Hobj & Hmeta). split.
  - by apply load_upgrade_stored.
  - unfold upgrade_ready, load_runtime_code, get_proposal_object_meta, get_proposal_object. simpl.
    rewrite Hmeta, Hobj. simpl. unfold bounded_bytes. rewrite decide_True by done.
    split_and!; [done..|]. unfold active_params. simpl. by rewrite Hw.
Qed.

(** C18: an accepted upgrade proposal is made by a role holder of the
    national or a provincial committee with the permission to propose; it keeps
    the code whole as its object, and its summary is read back as it was made,
    with the parameters in force at that time. It is open under the next
    identifier: the plan bound to it in the engine lets the members of every
    founding committee and the directors of every founding bank vote on the
    hash of the code, the holders of these offices are frozen as its voters,
    and the plan names the office of committee member as proposer, whatever
    role the account acted in. *)
Theorem upgrade_proposal_recorded who cid role reason code params s s'
    (Hlen : Z.of_nat (String.length code) <= RuntimeUpgradeMaxCodeSize)
    (Hrun : propose_runtime_upgrade who cid role reason code params s = (Ok tt, s')) :
  let pid := NextProposalId (ve s) in
  let u := upgrade_proposed s cid role who reason code params in
  load_proposal (ve s') pid = Some u /\ upgrade_ready s' pid u code /\
  upgrade_owns_proposal (ve s') pid = true /\ world s' = world s /\
  open_joint_vote pid cid {|
    business_action_id := upgrade_action; plan_owner := UPGRADE_TAG;
    proposer_subject :=
      Institution {| role_cid_number := cid; role_code := ROLE_CODE_COMMITTEE_MEMBER |};
    voter_subjects := committee_voters ++ bank_voters; voting_engine := Joint;
    business_object_hash := hash_256 code |} s s' /\
  (committee_code cid = Some NRC \/ committee_code cid = Some PRC) /\
  is_authorized (others (world s)) who {| role_cid_number := cid; role_code := role |}
    upgrade_action Propose = true.
Proof.
  cbv zeta. destruct (proposed_upgrade_loads _ _ _ _ _ _ _ _ Hlen Hrun) as [Hload Hready].
  apply propose_upgrade_inv in Hrun as (plan & id & s1 & Hp & Hc & -> & Hcode & Ha & _ & _).
  apply upgrade_plan_owner in Hp as ->. apply create_joint_object_created in Hc as (Hc & _).
  pose proof Hc as [-> _ _ _ Hd Ho Hw].
  split_and!; try done. by apply (created_open _ _ _ _ _ s1 _ Hc).
Qed.
End UpgradeProperties.
