(* ===== verification/JointBusiness.v ===== *)
(** * The chain with the business modules of joint votes

    [RuntimeJointVoteResultCallback] ([runtime/src/configs.rs]) hands the end
    of a joint vote to the module that owns the proposal. The modules of this
    library, their extrinsics and the voting engine form one chain
    ([business_step]); its runs are runs of [Chain.step], and its invariants
    tie what was issued and which code runs to the votes. *)
From S2P Require Import Prelude Encoding PowDifficulty.
From S2P Require Import Cid Types BusinessTypes TrackTypes State Interfaces Runtime Ids Locks Data.
From S2P Require Import Cleanup Lifecycle Execution Expiry Maintenance Engine Invariant.
From S2P Require Import Safety Clients Tally Ballots InternalVote InternalBallots JointVote JointBallots.
From S2P Require Import ElectionVote ElectionBallots LegislationVote LegislationBallots Chain Results.
From S2P Require Import Ledger Business ResolutionIssuance RuntimeUpgrade.

(** ** The callbacks of the other kinds of votes *)

(** The modules called back by the other tracks are parameters; they keep to
    their own storage, and none of them issues by resolution, writes the audit
    of the upgrades or sets the code. *)
Class OtherCallbacks (W : Type) : Type := {
  other_internal : ResultCallback W;
  other_legislation : ResultCallback W;
  other_election : ResultCallback W;
}.

Definition protected {L R} `{!OtherPallets R} (w : business_world L R) :=
  (issuance w, LastRuntimeUpgradeAudit w, runtime_code (others w)).

Record keeps_protected {L R} `{!OtherPallets R} (c : ResultCallback (business_world L R)) : Prop := {
  kp_finalized : forall pid b s, protected (world (on_vote_finalized c pid b s).2) = protected (world s);
  kp_cancel : forall pid s, protected (world (can_cancel_passed_proposal c pid s).2) = protected (world s);
  kp_terminal : forall pid s, protected (world (on_execution_failed_terminal c pid s).2) = protected (world s);
}.

Record own_storage {L R} `{!OtherPallets R} (c : ResultCallback (business_world L R)) : Prop := {
  os_framed : callback_framed c;
  os_private : callback_private c;
  os_protected : keeps_protected c;
}.

Class OtherCallbacksLaws {L R} `{!OtherPallets R} (C : OtherCallbacks (business_world L R)) : Prop := {
  ol_internal : own_storage other_internal;
  ol_legislation : own_storage other_legislation;
  ol_election : own_storage other_election;
}.

Section JointBusiness.
Context `{Wt : Weights} `{Cfg : !Config} `{ECfg : !ElectionConfig} `{LCfg : !LegislationConfig}
  `{Ord : StorageOrder} {L R : Type}
  `{Cur : !Currency L} `{CurL : !CurrencyLaws L} `{Oth : !OtherPallets R} `{OthL : !OtherPalletsLaws R}.
#[local] Abbreviation W := (business_world L R).
Context `{Prov : !Providers W} `{OC : !OtherCallbacks W} `{OCL : !OtherCallbacksLaws OC}
  `{CodD : !Codec IssuanceProposalData} `{CodA : !Codec (list RecipientAmount)}
  `{CodP : !Codec PowDifficultyParams} `{CodU : !Codec UpgradeProposal}.
Implicit Types s : rt (business_world L R).

Definition on_joint_vote_finalized (vote_proposal_id : Z) (approved : bool)
    : RM W ProposalExecutionOutcome :=
  issuance_owned ← gets (fun s => issuance_owns_proposal (ve s) vote_proposal_id);
  if (issuance_owned : bool) then issuance_on_joint_vote_finalized vote_proposal_id approved
  else
    upgrade_owned ← gets (fun s => upgrade_owns_proposal (ve s) vote_proposal_id);
    if (upgrade_owned : bool) then upgrade_apply_joint_vote_result vote_proposal_id approved
    else throw (Other "joint vote proposal not found in any module").

(** The defaults of the trait for the other two functions. *)
Definition RuntimeJointVoteResultCallback : ResultCallback W := {|
  on_vote_finalized := on_joint_vote_finalized;
  can_cancel_passed_proposal := fun _ => mret CancelIgnored;
  on_execution_failed_terminal := fun _ => mret tt;
|}.

#[local] Instance runtime_callbacks : Callbacks W := {|
  InternalVoteResultCallback := other_internal;
  JointVoteResultCallback := RuntimeJointVoteResultCallback;
  LegislationVoteResultCallback := other_legislation;
  ElectionVoteResultCallback := other_election;
|}.

(** ** The modules keep to their storage *)

(** All but the storage of the business modules and the events. *)
Definition outside s := (ve s, clock s, (iv s, jv s, lv s, el s)).

Lemma deposit_all_outside x items : preserves (fun s => outside s = x) (deposit_all items).
Proof. induction items; simpl; solve_preserves_with ltac:(done). Qed.

Lemma checked_outside x {A} (r : result IssuanceError A) :
  preserves (fun s => outside s = x) (checked r : RM W A).
Proof. destruct r; [apply preserves_ret|apply preserves_throw]. Qed.

Lemma stage_outside x p n : preserves (fun s => outside s = x) (stage_in_world p n).
Proof. intros s Hs. unfold stage_in_world. by destruct (stage_params p n _). Qed.

Lemma set_code_outside x c : preserves (fun s => outside s = x) (set_code_in_world c).
Proof. intros s Hs. unfold set_code_in_world. by destruct (set_code c _). Qed.

#[local] Hint Resolve deposit_all_outside checked_outside stage_outside set_code_outside : preserves.

Lemma joint_callback_outside x pid b :
  preserves (fun s => outside s = x) (on_joint_vote_finalized pid b).
Proof.
  unfold on_joint_vote_finalized, issuance_on_joint_vote_finalized,
    issuance_apply_joint_vote_result, upgrade_apply_joint_vote_result,
    ensure_vote_engine_callback_context, decrement_voting_proposal_count, succeeds,
    execute_approved_issuance, do_execute_inner, execute_upgrade_bundle, execute_runtime_code,
    upd_issuance.
  solve_preserves_with ltac:(done).
Qed.

Lemma joint_callback_own : callback_framed RuntimeJointVoteResultCallback /\
  callback_private RuntimeJointVoteResultCallback.
Proof.
  assert (H : forall pid b s, outside (on_joint_vote_finalized pid b s).2 = outside s).
  { intros pid b s. by apply joint_callback_outside. }
  split; split; try done; intros pid b s; specialize (H pid b s); unfold outside in H.
  - exact (f_equal fst H).
  - apply (f_equal snd) in H. injection H as H1 H2 H3 H4.
    exact (conj H1 (conj H2 (conj H3 H4))).
Qed.

#[local] Instance runtime_callback_laws : CallbackLaws runtime_callbacks.
Proof. destruct OCL as [[] [] []]. split; try done. apply joint_callback_own. Qed.

#[local] Instance runtime_callbacks_private : PrivateCallbacks runtime_callbacks.
Proof. destruct OCL as [[] [] []]. split; try done. apply joint_callback_own. Qed.

(** ** The chain *)

#[local] Instance business_tracks : ProposalTracks W := TrackHandlers.
#[local] Instance business_timeouts : FinalizeTimeout W := tracks_finalize_timeout.
#[local] Instance business_tracks_laws : TrackLaws business_tracks.
Proof. by apply track_laws. Qed.
#[local] Instance business_timeouts_laws : TimeoutLaws business_timeouts.
Proof. by apply timeout_laws. Qed.

Inductive business_call : Type :=
| ProposeIssuance (who : AccountId) (cid : CidNumber) (role : RoleCode) (reason : string)
    (total : Z) (items : list RecipientAmount)
| ProposeRuntimeUpgrade (who : AccountId) (cid : CidNumber) (role : RoleCode)
    (reason code : string) (params : PowDifficultyParams)
| DeveloperDirectUpgrade (who : AccountId) (cid : CidNumber) (role : RoleCode) (code : string)
    (params : PowDifficultyParams)
| VotingCall (c : call).

Definition run_business_call (c : business_call) : RM W unit :=
  match c with
  | ProposeIssuance who cid role reason total items =>
      propose_issuance who cid role reason total items
  | ProposeRuntimeUpgrade who cid role reason code params =>
      propose_runtime_upgrade who cid role reason code params
  | DeveloperDirectUpgrade who cid role code params =>
      developer_direct_upgrade who cid role code params
  | VotingCall c => run_call c
  end.

Definition business_dispatch (c : business_call) : RM W unit := transact (run_business_call c).

Definition business_block (n : Z) s : rt W :=
  (on_initialize n (set_block_number (fun _ => n) s)).2.

(** A block, its time, a call, or what the other pallets do to their storage
    and log as events. *)
Inductive business_step : rt W -> rt W -> Prop :=
| bstep_block n s :
    block_number s <= n ->
    business_step s (business_block n s)
| bstep_time ms s : now_ms s <= ms -> business_step s (set_now_ms (fun _ => ms) s)
| bstep_call c s : business_step s (business_dispatch c s).2
| bstep_world f s : (forall w, protected (f w) = protected w) -> business_step s (set_world f s)
| bstep_event e s : business_step s (deposit_event e s).

Lemma dispatch_Ok c s s' : run_call c s = (Ok tt, s') -> step s s'.
Proof.
  intros Hr. replace s' with (dispatch c s).2; [apply step_call|].
  unfold dispatch, transact. by rewrite Hr.
Qed.

(** Every run of this chain is a run of the engine's chain. *)
Lemma business_step_simulated s s' : business_step s s' -> rtc step s s'.
Proof.
  destruct 1 as [n s Hn|ms s Hms|c s|f s Hf|e s]; try (apply rtc_once; by constructor).
  unfold business_dispatch, transact.
  destruct (run_business_call c s) as [[[]|e] s'] eqn:Hr; [|done].
  destruct c as [who cid role reason total items|who cid role reason code params
    |who cid role code params|c]; simpl in *.
  - apply propose_issuance_inv in Hr as (plan & id & s1 & _ & Hc & _ & -> & _).
    assert (Hs1 : step s s1).
    { eapply (dispatch_Ok (CreateJoint who cid plan _)). cbn [run_call].
      rewrite (bind_run _ _ _ _ _ Hc). done. }
    eapply rtc_l; [exact Hs1|]. eapply rtc_l; [apply step_world|]. apply rtc_once, step_event.
  - apply propose_upgrade_inv in Hr as (plan & id & s1 & _ & Hc & -> & _).
    assert (Hs1 : step s s1).
    { eapply (dispatch_Ok (CreateJointWithObject who cid plan _ _ _)). cbn [run_call].
      rewrite (bind_run _ _ _ _ _ Hc). done. }
    eapply rtc_l; [exact Hs1|]. apply rtc_once, step_event.
  - apply developer_upgrade_inv in Hr as (_ & _ & _ & _ & _ & d & r & _ & _ & ->).
    eapply rtc_l; [apply step_world|]. apply rtc_once, step_event.
  - apply rtc_once. by eapply dispatch_Ok.
Qed.

Lemma business_steps_simulated s s' : rtc business_step s s' -> rtc step s s'.
Proof.
  induction 1 as [|s s1 s2 H1 _ IH]; [done|]. etrans; [by apply business_step_simulated|done].
Qed.

(** ** What a passed proposal leaves *)

(** Proposal [pid] was passed for the module with the tag [tag], with the data
    [raw]; nothing is said once the engine has removed it. *)
Definition passed_proposal (g : engine) (tag : string) (pid : Z) (raw : string) : Prop :=
  pid < NextProposalId g /\
  forall p, Proposals g !! pid = Some p ->
    kind p = PROPOSAL_KIND_JOINT /\ passed_status (status p) /\
    is_proposal_owner g pid tag = true /\ ProposalData g !! pid = Some raw.

Lemma passed_status_step a b : passed_status a -> rtc status_step a b -> passed_status b.
Proof.
  intros Ha Hr. revert Ha. induction Hr as [|a b c Hab _ IH]; [done|]. intros Ha. apply IH. clear IH.
  destruct (decide (is_terminal_status a = true)) as [Ht|Ht];
    [by apply (status_step_terminal a b) in Hab|].
  unfold passed_status in *. destruct Ha as [->|[->| ->]]; [|by destruct Ht..].
  unfold status_step, valid_status_transition in Hab. apply bool_decide_eq_true in Hab.
  rewrite !elem_of_cons, elem_of_nil in Hab.
  destruct Hab as [H|[H|[H|[H|[]]]]]; first [discriminate H|injection H as ->]; auto.
Qed.

Lemma owner_kept g g' pid tag :
  same_data pid g g' -> is_proposal_owner g pid tag = true -> is_proposal_owner g' pid tag = true.
Proof.
  intros [_ Ho]. unfold is_proposal_owner. destruct (ProposalOwner g !! pid) as [o|] eqn:Hp; [|done].
  by rewrite (Ho o).
Qed.

Lemma passed_proposal_evolves g g' tag pid raw :
  evolves g g' -> passed_proposal g tag pid raw -> passed_proposal g' tag pid raw.
Proof.
  intros [H1 H2 H3] [Hlt Hp]. split; [lia|]. intros p' Hp'.
  destruct (Proposals g !! pid) as [p|] eqn:Hg; [|by rewrite (H3 pid) in Hp'].
  specialize (H1 pid p Hg). rewrite Hp' in H1. destruct H1 as ([Hk _ _ _ _ _] & Hr & Hd).
  destruct (Hp p eq_refl) as (K1 & K2 & K3 & K4).
  split_and!; [congruence|by eapply passed_status_step|by eapply owner_kept|by apply Hd].
Qed.

Lemma passed_proposal_intro g tag pid raw p (Hlt : pid < NextProposalId g) :
  Proposals g !! pid = Some p -> kind p = PROPOSAL_KIND_JOINT -> status p = STATUS_PASSED ->
  is_proposal_owner g pid tag = true -> ProposalData g !! pid = Some raw ->
  passed_proposal g tag pid raw.
Proof.
  intros Hp Hk Hs Ho Hd. split; [done|]. intros q Hq. rewrite Hp in Hq. injection Hq as <-.
  split_and!; [done|by left|done..].
Qed.

(** ** What was issued *)

(** [H] lists the executed proposals with their data: each once, each passed
    for this module, each sharing its total among the recipients [l] of the
    genesis; the total issued is their sum. *)
Record issuance_history (l : list AccountId) (H : list (Z * IssuanceProposalData)) (g : engine)
    (st : issuance_store) : Prop := {
  ih_recipients : AllowedRecipients st = l;
  ih_once : NoDup H.*1;
  ih_ever : forall pid, pid ∈ EverExecuted st <-> pid ∈ H.*1;
  ih_total : TotalIssued st = foldr (fun x sum => total_amount x.2 + sum) 0 H;
  ih_cap : TotalIssued st <= MaxTotalIssuance;
  ih_each : forall pid d, (pid, d) ∈ H ->
    valid_allocations l (total_amount d) (allocations d) /\
    total_amount d <= MaxSingleIssuance /\
    exists raw, passed_proposal g ISSUANCE_TAG pid raw /\ decode_tagged_data raw = Some d;
}.

Lemma history_evolves l H g g' st :
  evolves g g' -> issuance_history l H g st -> issuance_history l H g' st.
Proof.
  intros He [H0 H1 H2 H3 H4 H5]. split; try done. intros pid d Hin.
  destruct (H5 pid d Hin) as (? & ? & raw & Hp & ?). split_and!; [done..|].
  exists raw. split; [by eapply passed_proposal_evolves|done].
Qed.

(** The number of open proposals plays no part. *)
Lemma history_count l H g st c :
  issuance_history l H g st -> issuance_history l H g (set_VotingProposalCount c st).
Proof. intros [? ? ? ? ? ?]. by split. Qed.

Lemma history_executed l H g st pid d n raw :
  issuance_history l H g st -> pid ∉ EverExecuted st ->
  valid_allocations (AllowedRecipients st) (total_amount d) (allocations d) ->
  total_amount d <= MaxSingleIssuance -> TotalIssued st + total_amount d <= MaxTotalIssuance ->
  passed_proposal g ISSUANCE_TAG pid raw -> decode_tagged_data raw = Some d ->
  issuance_history l ((pid, d) :: H) g (executed_at_block pid n (TotalIssued st + total_amount d) st).
Proof.
  intros [<- H1 H2 H3 H4 H5] Hn Hv Hs Ht Hp Hd. split; simpl.
  - done.
  - constructor; [by rewrite <- H2|done].
  - intros q. rewrite elem_of_union, elem_of_singleton, elem_of_cons, H2. done.
  - lia.
  - done.
  - intros q x [[= -> ->]|Hin]%elem_of_cons; [|by apply H5]. split_and!; [done..|by exists raw].
Qed.

Definition issued_lawfully (l : list AccountId) (g : engine) (w : W) : Prop :=
  exists H, issuance_history l H g (issuance w).

(** ** Which code runs *)

(** The code is the one of the genesis, or the one the last audit names; an
    upgrade by vote was passed with exactly this code and its parameters. *)
Definition code_lawful (code0 : string) (g : engine) (w : W) : Prop :=
  match LastRuntimeUpgradeAudit w with
  | None => runtime_code (others w) = code0
  | Some a =>
      audit_code_hash a = hash_256 (runtime_code (others w)) /\
      match execution_path a with
      | JointVotePath => exists pid raw u, audit_proposal_id a = Some pid /\
          passed_proposal g UPGRADE_TAG pid raw /\ decode_upgrade raw = Some u /\
          code_hash u = audit_code_hash a /\
          hash_params (new_pow_params u) = new_pow_params_hash a /\
          expected_pow_params_hash u = old_pow_params_hash a
      | DeveloperDirect => exists who, developer a = Some who /\ audit_proposal_id a = None
      end
  end.

Lemma code_lawful_evolves code0 g g' w : evolves g g' -> code_lawful code0 g w -> code_lawful code0 g' w.
Proof.
  intros He. unfold code_lawful. destruct (LastRuntimeUpgradeAudit w) as [a|]; [|done].
  intros [Hh Hp]. split; [done|]. destruct (execution_path a); [|done].
  destruct Hp as (pid & raw & u & H1 & H2 & H3). exists pid, raw, u. split; [done|].
  split; [by eapply passed_proposal_evolves|done].
Qed.

Definition lawful (l : list AccountId) (code0 : string) (g : engine) (w : W) : Prop :=
  issued_lawfully l g w /\ code_lawful code0 g w.

Lemma lawful_protected l code0 g w w' :
  protected w' = protected w -> lawful l code0 g w -> lawful l code0 g w'.
Proof.
  unfold protected, lawful, issued_lawfully, code_lawful. intros [= -> -> Hc] [H1 H2].
  split; [done|]. by rewrite Hc.
Qed.

Lemma lawful_called l code0 pid b s :
  engine_inv s -> lawful l code0 (ve s) (world s) ->
  lawful l code0 (ve s) (world (on_joint_vote_finalized pid b s).2).
Proof.
  intros Hi HJ. unfold on_joint_vote_finalized. autorewrite with run.
  assert (Hpass : forall tag p raw, Proposals (ve s) !! pid = Some p -> kind p = PROPOSAL_KIND_JOINT ->
    status p = STATUS_PASSED -> is_proposal_owner (ve s) pid tag = true ->
    ProposalData (ve s) !! pid = Some raw -> passed_proposal (ve s) tag pid raw).
  { intros tag p raw Hp. apply passed_proposal_intro; [|done]. by eapply (inv_below _ Hi). }
  destruct (issuance_owns_proposal (ve s) pid).
  { destruct (issuance_callback_world pid b s) as [->|[->|(d & p & Ho & Hp & Hk & Hst & Hd & Hex & ->)]];
      [done| |].
    - destruct HJ as [[H HH] Hc]. split; [exists H; by apply history_count|done].
    - destruct HJ as [[H HH] Hc]. split; [|done]. destruct Hex as [E1 _ _ E4 _ E6 E7].
      pose proof (ih_recipients _ _ _ _ HH) as Hl.
      unfold load_issuance_data, get_proposal_data in Hd.
      destruct (ProposalData (ve s) !! pid) as [raw|] eqn:Hraw; [|done]. simpl in Hd.
      exists ((pid, d) :: H). simpl. apply history_count. eapply history_executed; eauto. }
  autorewrite with run. destruct (upgrade_owns_proposal (ve s) pid); [|done].
  destruct (upgrade_callback_world pid b s)
    as [->|(u & p & code & d & r & Ho & Hp & Hk & Hst & Hu & (_ & Hh & Hpar) & Hset & ->)]; [done|].
  destruct HJ as [HH _]. split; [done|]. apply set_code_sets in Hset.
  unfold load_proposal, get_proposal_data in Hu.
  destruct (ProposalData (ve s) !! pid) as [raw|] eqn:Hraw; [|done]. simpl in Hu.
  unfold code_lawful. simpl. rewrite Hset. split; [done|].
  exists pid, raw, u. split_and!; eauto.
Qed.

Lemma lawful_business l code0 : business (lawful l code0).
Proof.
  split.
  - intros g g' w He [[H HH] Hc]. split; [exists H; by eapply history_evolves|].
    by eapply code_lawful_evolves.
  - assert (Hother : forall c : ResultCallback W, own_storage c -> called_keeps (lawful l code0) c).
    { intros c [_ _ [K1 K2 K3]] s _ HJ. split_and!; intros;
        (apply (lawful_protected _ _ _ (world s)); [|done]); auto. }
    destruct OCL as [O1 O2 O3].
    intros k c Hk. unfold callback_of_kind in Hk.
    repeat case_decide; simplify_eq; try (by apply Hother).
    intros s Hi HJ. split_and!; [|done..]. intros pid b. by apply lawful_called.
Qed.

(** ** Every step is lawful *)

Lemma business_step_lawful l code0 s s' :
  chain_inv s -> business_step s s' -> lawful l code0 (ve s) (world s) ->
  lawful l code0 (ve s') (world s').
Proof.
  intros Hci Hst HJ. pose proof (lawful_business l code0) as HB.
  destruct Hst as [n s Hn|ms s Hms|c s|f s Hf|e s]; 
    [|done| |apply (lawful_protected _ _ _ (world s)); [apply Hf|done]|done].
  - pose proof (engine_inv_later _ n Hn (ci_engine _ Hci)) as Hi.
    set (s1 := set_block_number (fun _ => n) s) in *.
    pose proof (good_on_initialize s1 s1 (good_refl s1 Hi)) as [_ Hg].
    exact (Hg _ HB HJ).
  - destruct (steps_good _ _ Hci (business_step_simulated _ _ (bstep_call c s))) as [_ He].
    apply (biz_evolves _ HB _ _ _ He) in HJ as HJ'. clear He. revert HJ'.
    unfold business_dispatch, transact.
    destruct (run_business_call c s) as [[[]|e] s'] eqn:Hr; [|done]. cbn [snd].
    destruct c as [who cid role reason total items|who cid role reason code params
      |who cid role code params|c]; cbn [run_business_call] in Hr.
    + apply propose_issuance_inv in Hr as (plan & id & s1 & _ & Hc & _ & -> & _).
      apply create_joint_created in Hc as [[_ _ _ _ _ _ Hw] _]. simpl. rewrite Hw.
      intros [[H HH] Hcode]. split; [|done]. exists H. simpl. by apply history_count.
    + apply propose_upgrade_inv in Hr as (plan & id & s1 & _ & Hc & -> & _).
      apply create_joint_object_created in Hc as [[_ _ _ _ _ _ Hw] _]. simpl. by rewrite Hw.
    + apply developer_upgrade_inv in Hr as (_ & _ & _ & _ & _ & d & r & Hset & _ & ->).
      apply set_code_sets in Hset. intros [HH _]. split; [done|].
      unfold code_lawful. simpl. rewrite Hset. split; [done|]. by exists who.
    + intros _. pose proof (run_call_good s c (ci_engine _ Hci) (ci_clock _ Hci)
        s (good_refl s (ci_engine _ Hci))) as [_ Hg]. rewrite Hr in Hg. exact (Hg _ HB HJ).
Qed.

Lemma business_steps_lawful l code0 s s' :
  chain_inv s -> rtc business_step s s' -> lawful l code0 (ve s) (world s) ->
  lawful l code0 (ve s') (world s').
Proof.
  intros Hci Hr. induction Hr as [s|s s1 s2 H1 _ IH]; [done|]. intros HJ. apply IH.
  - by apply (steps_good s s1 Hci), business_step_simulated.
  - by apply (business_step_lawful _ _ s).
Qed.

(** A genesis block: no upgrade yet, and the recipients it accepted. *)
Record business_genesis (l : list AccountId) (w : W) : Prop := {
  bg_issuance : issuance_genesis l = Some (issuance w);
  bg_audit : LastRuntimeUpgradeAudit w = None;
}.

Lemma lawful_genesis l n ms w :
  business_genesis l w -> lawful l (runtime_code (others w)) (ve (genesis_at n ms w)) w.
Proof.
  intros [Hi Ha]. apply issuance_genesis_spec in Hi as (Hi & _ & _). split.
  - exists []. rewrite Hi. split; simpl; try done; [by apply NoDup_nil_2|set_solver|].
    intros pid d Hin. by apply elem_of_nil in Hin.
  - unfold code_lawful. by rewrite Ha.
Qed.

(** ** What users rely on *)

Hypothesis Hmax : MaxAdminsPerInstitution <= u32_max.
Hypothesis Hpop : forall (w : W) sc d, population_data_of w sc = Some d ->
  0 <= eligible_total d <= u64_max.

(** The founding institutions agreed without exception, or more than half of
    all eligible citizens voted for the proposal. *)
Definition carried s (pid : Z) (p : Proposal) : Prop :=
  (stage p = STAGE_JOINT /\ forall c, c ∈ joint_institutions ->
    JointVotesByInstitution (jv s) !! (pid, c) = Some true) \/
  (stage p = STAGE_REFERENDUM /\ exists eligible,
    population_eligible_total_of (ve s) pid = Some eligible /\
    eligible < 2 * citizens_for pid true s).

Lemma passed_carried s0 s pid p :
  voted s0 s -> Proposals (ve s) !! pid = Some p -> kind p = PROPOSAL_KIND_JOINT ->
  passed_status (status p) -> PendingProposalCleanups (ve s) !! pid = None -> carried s pid p.
Proof.
  intros Hv Hp Hk Hst Hc.
  destruct (joint_results_lemma s0 s pid p Hv Hp Hk Hc) as (Hj & _ & e & He & _ & _ & Hr).
  assert (Hs : stage p = STAGE_JOINT \/ stage p = STAGE_REFERENDUM).
  { pose proof (inv_stage _ (ci_engine _ (vt_chain _ _ Hv)) pid p Hp) as Hs.
    unfold stage_of_kind in Hs. rewrite Hk in Hs.
    destruct Hs as [[H _]|[[_ H]|[[H _]|[H _]]]]; [discriminate H|exact H|discriminate H..]. }
  destruct Hs as [Hs|Hs]; [left|right]; (split; [done|]).
  - intros c Hin. by apply Hj.
  - exists e. split; [done|]. by apply Hr.
Qed.

Lemma business_steps_voted n ms w s :
  0 <= MaxActiveProposals -> 0 <= ms -> rtc business_step (genesis_at n ms w) s ->
  voted (genesis_at n ms w) s.
Proof. intros Ha Hms Hr. by apply genesis_voted, business_steps_simulated. Qed.

(** C7: along any chain from a genesis block the money issued by resolution
    is exactly the sum of a list of proposals, in which each stands once; each
    shared its whole total, within the cap for one issue, among exactly the
    recipients fixed at genesis, which are provincial committees. As long as
    the engine keeps such a proposal, it is a passed joint proposal of this
    module, its stored data are those that were executed, and its ballots show
    that all founding institutions or a majority of all citizens wanted it. *)
Theorem issuance_lawful n ms w recipients s
    (Ha : 0 <= MaxActiveProposals) (Hms : 0 <= ms) (Hgen : business_genesis recipients w)
    (Hsteps : rtc business_step (genesis_at n ms w) s) :
  AllowedRecipients (issuance (world s)) = recipients /\ recipients ⊆ default_recipients /\
  exists H : list (Z * IssuanceProposalData),
    NoDup H.*1 /\ (forall pid, pid ∈ EverExecuted (issuance (world s)) <-> pid ∈ H.*1) /\
    TotalIssued (issuance (world s)) = foldr (fun x sum => total_amount x.2 + sum) 0 H /\
    TotalIssued (issuance (world s)) <= u128_max /\
    forall pid d, (pid, d) ∈ H ->
      valid_allocations recipients (total_amount d) (allocations d) /\
      total_amount d <= MaxSingleIssuance /\ pid < NextProposalId (ve s) /\
      forall p, Proposals (ve s) !! pid = Some p ->
        kind p = PROPOSAL_KIND_JOINT /\ passed_status (status p) /\
        issuance_owns_proposal (ve s) pid = true /\ load_issuance_data (ve s) pid = Some d /\
        (PendingProposalCleanups (ve s) !! pid = None -> carried s pid p).
Proof.
  pose proof (business_steps_voted _ _ _ _ Ha Hms Hsteps) as Hv.
  pose proof (chain_inv_genesis n ms w Ha Hms) as Hci.
  destruct (business_steps_lawful _ _ _ _ Hci Hsteps (lawful_genesis _ n ms w Hgen))
    as [[H [H0 H1 H2 H3 H4 H5]] _].
  destruct Hgen as [Hgen _]. apply issuance_genesis_spec in Hgen as (_ & _ & Hsub).
  split; [done|]. split; [done|]. exists H. split_and!; [done..|]. intros pid d Hin.
  destruct (H5 pid d Hin) as (Hva & Hcap & raw & [Hlt Hp] & Hd). split_and!; [done..|].
  intros p Hpid. destruct (Hp p Hpid) as (Hk & Hst & Ho & Hraw). split_and!; try done.
  - unfold load_issuance_data, get_proposal_data. by rewrite Hraw.
  - intros Hc. by eapply passed_carried.
Qed.

(** C8: along any chain from a genesis block the running code is the code of
    the genesis until the first upgrade, and from then on the code whose hash
    the last audit names: set either by a developer on the direct path, or by
    the execution of a proposal for exactly this code and these parameters, on
    top of the parameters then in force. As long as the engine keeps that
    proposal, it is a passed joint proposal of this module, its stored summary
    is the one that was executed, and its ballots show that all founding
    institutions or a majority of all citizens wanted it. *)
Theorem running_code_lawful n ms w recipients s
    (Ha : 0 <= MaxActiveProposals) (Hms : 0 <= ms) (Hgen : business_genesis recipients w)
    (Hsteps : rtc business_step (genesis_at n ms w) s) :
  match LastRuntimeUpgradeAudit (world s) with
  | None => runtime_code (others (world s)) = runtime_code (others w)
  | Some a =>
      audit_code_hash a = hash_256 (runtime_code (others (world s))) /\
      match execution_path a with
      | DeveloperDirect => exists who, developer a = Some who /\ audit_proposal_id a = None
      | JointVotePath => exists pid u, audit_proposal_id a = Some pid /\
          code_hash u = audit_code_hash a /\
          hash_params (new_pow_params u) = new_pow_params_hash a /\
          expected_pow_params_hash u = old_pow_params_hash a /\
          forall p, Proposals (ve s) !! pid = Some p ->
            kind p = PROPOSAL_KIND_JOINT /\ passed_status (status p) /\
            upgrade_owns_proposal (ve s) pid = true /\ load_proposal (ve s) pid = Some u /\
            (PendingProposalCleanups (ve s) !! pid = None -> carried s pid p)
      end
  end.
Proof.
  pose proof (business_steps_voted _ _ _ _ Ha Hms Hsteps) as Hv.
  pose proof (chain_inv_genesis n ms w Ha Hms) as Hci.
  destruct (business_steps_lawful _ _ _ _ Hci Hsteps (lawful_genesis _ n ms w Hgen)) as [_ Hcode].
  unfold code_lawful in Hcode. destruct (LastRuntimeUpgradeAudit (world s)) as [a|]; [|done].
  destruct Hcode as [Hh Hpath]. split; [done|]. destruct (execution_path a); [|done].
  destruct Hpath as (pid & raw & u & H1 & [Hlt Hp] & Hu & H2 & H3 & H4). exists pid, u.
  split_and!; [done..|]. intros p Hpid. destruct (Hp p Hpid) as (Hk & Hst & Ho & Hraw).
  split_and!; try done.
  - unfold load_proposal, get_proposal_data. by rewrite Hraw.
  - intros Hc. by eapply passed_carried.
Qed.
End JointBusiness.
