(* ===== verification/BusinessExamples.v ===== *)
(** * The business modules on concrete chains

    Encodings built from parts, a world in which every founding institution
    has one administrator, and runs of the modules there: a proposal to issue
    money and an upgrade, from their creation to their execution. *)
From S2P Require Import Prelude Encoding PowDifficulty.
From S2P Require Import Cid Types BusinessTypes TrackTypes State Interfaces Runtime Ids Locks Data.
From S2P Require Import Cleanup Lifecycle Execution Expiry Maintenance Engine Invariant.
From S2P Require Import Safety Clients Tally Ballots InternalVote InternalBallots JointVote JointBallots.
From S2P Require Import ElectionVote ElectionBallots LegislationVote LegislationBallots Chain Results.
From S2P Require Import Ledger Business ResolutionIssuance RuntimeUpgrade JointBusiness.

(** ** Encodings *)

Definition item_codec : Codec RecipientAmount :=
  @iso_codec _ pair_codec RecipientAmount (fun i => (recipient_account_id i, amount i))
    (fun p => {| recipient_account_id := p.1; amount := p.2 |}).

#[export] Instance sample_items_codec : Codec (list RecipientAmount) := @list_codec _ item_codec.

Lemma item_codec_laws : @CodecLaws _ item_codec.
Proof. apply @iso_codec_laws; [apply pair_codec_laws|by intros []]. Qed.

#[export] Instance sample_items_codec_laws : CodecLaws (list RecipientAmount).
Proof. apply @list_codec_laws, item_codec_laws. Qed.

Definition data_codec : Codec IssuanceProposalData :=
  @iso_codec (string * (string * (Z * (string * (Z * list RecipientAmount)))))
    (@pair_codec _ _ _ (@pair_codec _ _ _ (@pair_codec _ _ _ (@pair_codec _ _ _ pair_codec)))) _
    (fun d => (issuance_actor d, (issuance_role_code d, (issuance_proposer d,
      (reason d, (total_amount d, allocations d))))))
    (fun p => {| issuance_actor := p.1; issuance_role_code := p.2.1; issuance_proposer := p.2.2.1;
      reason := p.2.2.2.1; total_amount := p.2.2.2.2.1; allocations := p.2.2.2.2.2 |}).

#[export] Instance sample_data_codec : Codec IssuanceProposalData := data_codec.
#[export] Instance sample_data_codec_laws : CodecLaws IssuanceProposalData.
Proof.
  apply @iso_codec_laws; [|by intros []]. repeat apply @pair_codec_laws; apply _.
Qed.

(** Two of the provincial committees are the recipients. *)
Definition sample_recipients : list AccountId := take 2 default_recipients.

Definition sample_issuance_store : issuance_store :=
  Build_issuance_store sample_recipients 0 ∅ ∅ 0.

Definition sample_business : business_world map_ledger sample_others := {|
  ledger := ∅; issuance := sample_issuance_store;
  difficulty := {| CurrentDifficulty := POW_INITIAL_DIFFICULTY; WindowStartMs := None;
    WindowStartBlock := None; ActiveParams := genesis_default; PendingParams := None;
    LastAdjustment := None; pow_events := [] |};
  LastRuntimeUpgradeAudit := None;
  chain_genesis := {| Phase := Genesis; DeveloperUpgradeEnabled := true |};
  others := {| so_world := business_people; so_code := "code 1" |} |}.

Definition sample_allocations : list RecipientAmount :=
  (fun a => {| recipient_account_id := a; amount := 500 |}) <$> sample_recipients.

Definition sample_start : rt (business_world map_ledger sample_others) :=
  genesis_at 5 1767225600000 sample_business.
Abbreviation sample_propose := (propose_issuance (L := map_ledger) (R := sample_others) 0
  sample_committee ROLE_CODE_COMMITTEE_MEMBER "schools" 1000 sample_allocations).
Definition sample_proposed := (sample_propose sample_start).2.

Lemma run_pair {A B} (x : A * B) a : x.1 = a -> x = (a, x.2).
Proof. destruct x. by intros [= <-]. Qed.

Lemma sample_propose_fst : (sample_propose sample_start).1 = Ok tt.
Proof. vm_compute. reflexivity. Qed.

Lemma sample_propose_run : sample_propose sample_start = (Ok tt, sample_proposed).
Proof. exact (run_pair _ _ sample_propose_fst). Qed.

(** The states are not to be evaluated by unification. *)
#[local] Opaque sample_proposed.

Definition sample_data : IssuanceProposalData :=
  proposed_data sample_committee ROLE_CODE_COMMITTEE_MEMBER 0 "schools" 1000 sample_allocations.

Lemma sample_amounts : Forall (fun item => 0 <= amount item) sample_allocations.
Proof. repeat constructor; simpl; lia. Qed.

(** The plan bound to the first proposal and the voters frozen for the national
    committee. *)
Lemma issuance_proposal_recorded_witness :
  load_issuance_data (ve sample_proposed) 0 = Some sample_data /\
  (voter_subjects <$> ProposalVotePlans (ve sample_proposed) !! 0) =
    Some (committee_voters ++ bank_voters).
Proof.
  destruct (issuance_proposal_recorded 0 sample_committee ROLE_CODE_COMMITTEE_MEMBER "schools" 1000
    sample_allocations sample_start sample_proposed sample_amounts sample_propose_run)
    as (Hd & _ & _ & _ & _ & _ & (Hp & _) & _).
  split; [exact Hd|]. exact (f_equal (fmap voter_subjects) Hp).
Defined.

Lemma sample_loads : load_issuance_data (ve sample_proposed) 0 = Some sample_data.
Proof. exact (proposed_issuance_loads _ _ _ _ _ _ _ _ sample_amounts sample_propose_run). Qed.

Lemma sample_world_proposed :
  world sample_proposed = set_issuance (set_VotingProposalCount 1) sample_business.
Proof.
  pose proof (propose_issuance_inv _ _ _ _ _ _ _ _ sample_propose_run)
    as (plan & id & s1 & _ & Hc & _ & Hs & _).
  apply create_joint_created in Hc as [[_ _ _ _ _ _ Hw] _]. rewrite Hs. cbn [world deposit_event set_events set_world].
  rewrite Hw. reflexivity.
Qed.

(** The vote has passed, and the engine calls back. *)
Definition called (s : rt (business_world map_ledger sample_others)) :=
  set_ve (set_CallbackExecutionScopes (union {[ 0 ]}))
    (set_ve (set_Proposals (alter (set_status STATUS_PASSED) 0)) s).

Lemma called_world s : world (called s) = world s.
Proof. reflexivity. Qed.

Definition called_facts (s : rt (business_world map_ledger sample_others))
    : option (Z * Z * Z * bool) :=
  p ← Proposals (ve s) !! 0;
  Some (kind p, stage p, status p, is_proposal_owner (ve s) 0 ISSUANCE_TAG).

Lemma sample_called_facts : called_facts (called sample_proposed) =
  Some (PROPOSAL_KIND_JOINT, STAGE_JOINT, STATUS_PASSED, true).
Proof. vm_compute. reflexivity. Qed.

Lemma called_ok s data :
  called_facts (called s) = Some (PROPOSAL_KIND_JOINT, STAGE_JOINT, STATUS_PASSED, true) ->
  load_issuance_data (ve s) 0 = Some data -> 1 <= VotingProposalCount (issuance (world s)) ->
  Z.of_nat (String.length (reason data)) <= RESOLUTION_ISSUANCE_MAX_REASON_LEN ->
  Z.of_nat (length (allocations data)) <= RESOLUTION_ISSUANCE_MAX_ALLOCATIONS ->
  issuance_called (called s) 0 true data.
Proof.
  intros Hf Hd Hn Hr Ha. unfold called_facts in Hf.
  destruct (Proposals (ve (called s)) !! 0) as [p|] eqn:Hp; [|done].
  injection Hf as Hk Hst Hs Ho. split; try done; [simpl; set_solver|].
  exists p. split_and!; [done|done|by left|done].
Qed.

Lemma sample_called_ok : issuance_called (called sample_proposed) 0 true sample_data.
Proof.
  apply (called_ok _ _ sample_called_facts sample_loads); rewrite ?sample_world_proposed;
    vm_compute; congruence.
Qed.

Lemma sample_executable :
  executable (called sample_proposed) 0 (reason sample_data) (total_amount sample_data)
    (allocations sample_data).
Proof.
  assert (Hw : world (called sample_proposed) =
    set_issuance (set_VotingProposalCount 1) sample_business)
    by exact (eq_trans (called_world _) sample_world_proposed).
  assert (Hr : allowed_recipients (called sample_proposed) = sample_recipients).
  { unfold allowed_recipients. rewrite Hw. vm_compute. reflexivity. }
  split; rewrite ?Hw, ?Hr; try (vm_compute; congruence).
  - apply validate_spec; [exact sample_amounts|]. vm_compute. reflexivity.
  - repeat constructor; simpl; lia.
Qed.

Lemma issuance_executes_witness :
  (issuance_on_joint_vote_finalized 0 true (called sample_proposed)).1 = Ok Executed /\
  TotalIssued (issuance (world
    (issuance_on_joint_vote_finalized 0 true (called sample_proposed)).2)) = 1000.
Proof.
  destruct (issuance_executes 0 true sample_data (called sample_proposed) sample_called_ok) as [H _].
  assert (Hfits : total_issuance (ledger (world (called sample_proposed)))
    + total_amount sample_data <= u128_max) by (vm_compute; congruence).
  destruct (H eq_refl sample_executable Hfits) as (Hr & _ & _ & _ & _ & Hs).
  split; [exact Hr|]. rewrite Hs. vm_compute. reflexivity.
Defined.

(** ** A whole chain: an issue and an upgrade are proposed, voted on, executed *)

#[export] Instance sample_params_codec : Codec PowDifficultyParams :=
  @iso_codec (Z * (Z * (Z * (Z * (Z * Z)))))
    (@pair_codec _ _ _ (@pair_codec _ _ _ (@pair_codec _ _ _ (@pair_codec _ _ _ pair_codec)))) _
    (fun p => (params_version p, (algorithm_version p, (target_block_time_ms p,
      (adjustment_interval p, (max_adjust_up_factor p, max_adjust_down_divisor p))))))
    (fun p => {| params_version := p.1; algorithm_version := p.2.1;
      target_block_time_ms := p.2.2.1; adjustment_interval := p.2.2.2.1;
      max_adjust_up_factor := p.2.2.2.2.1; max_adjust_down_divisor := p.2.2.2.2.2 |}).

#[export] Instance sample_params_codec_laws : CodecLaws PowDifficultyParams.
Proof. apply @iso_codec_laws; [|by intros []]. repeat apply @pair_codec_laws; apply _. Qed.

#[export] Instance sample_upgrade_codec : Codec UpgradeProposal :=
  @iso_codec (string * (string * (Z * (string * (string * (string * PowDifficultyParams))))))
    (@pair_codec _ _ _ (@pair_codec _ _ _ (@pair_codec _ _ _ (@pair_codec _ _ _
      (@pair_codec _ _ _ pair_codec))))) _
    (fun u => (upgrade_actor u, (upgrade_role_code u, (upgrade_proposer u, (upgrade_reason u,
      (code_hash u, (expected_pow_params_hash u, new_pow_params u)))))))
    (fun p => {| upgrade_actor := p.1; upgrade_role_code := p.2.1; upgrade_proposer := p.2.2.1;
      upgrade_reason := p.2.2.2.1; code_hash := p.2.2.2.2.1;
      expected_pow_params_hash := p.2.2.2.2.2.1; new_pow_params := p.2.2.2.2.2.2 |}).

#[export] Instance sample_upgrade_codec_laws : CodecLaws UpgradeProposal.
Proof. apply @iso_codec_laws; [|by intros []]. repeat apply @pair_codec_laws; apply _. Qed.

#[export] Instance sample_other_callbacks {W} : OtherCallbacks W :=
  {| other_internal := always_executed; other_legislation := always_executed;
     other_election := always_executed |}.

#[export] Instance sample_other_callbacks_laws {L} :
  OtherCallbacksLaws (L := L) (R := sample_others) sample_other_callbacks.
Proof. split; split; split; done. Qed.

(** Windows of 300 blocks from the next version of the parameters on. *)
Definition sample_params : PowDifficultyParams := {|
  params_version := 2; algorithm_version := POW_ALGORITHM_VERSION;
  target_block_time_ms := POW_TARGET_BLOCK_TIME_MS; adjustment_interval := 300;
  max_adjust_up_factor := DIFFICULTY_MAX_ADJUST_FACTOR;
  max_adjust_down_divisor := DIFFICULTY_MIN_ADJUST_FACTOR |}.

(** ** An upgrade *)

Abbreviation sample_propose_upgrade := (propose_runtime_upgrade (L := map_ledger)
  (R := sample_others) 0 sample_committee ROLE_CODE_COMMITTEE_MEMBER "faster" "code 2" sample_params).
Definition sample_upgrade_open := (sample_propose_upgrade sample_start).2.

Lemma sample_upgrade_fst : (sample_propose_upgrade sample_start).1 = Ok tt.
Proof. vm_compute. reflexivity. Qed.

Lemma sample_upgrade_run : sample_propose_upgrade sample_start = (Ok tt, sample_upgrade_open).
Proof. exact (run_pair _ _ sample_upgrade_fst). Qed.

Lemma sample_upgrade_executed :
  (upgrade_apply_joint_vote_result (L := map_ledger) (R := sample_others) 0 true
    (called sample_upgrade_open)).1 = Ok Executed.
Proof. vm_compute. reflexivity. Qed.

Definition upgrade_facts (s : rt (business_world map_ledger sample_others))
    : option (Z * Z * Z * bool) :=
  p ← Proposals (ve s) !! 0;
  Some (kind p, stage p, status p, is_proposal_owner (ve s) 0 UPGRADE_TAG).

Lemma sample_upgrade_facts : upgrade_facts (called sample_upgrade_open) =
  Some (PROPOSAL_KIND_JOINT, STAGE_JOINT, STATUS_PASSED, true).
Proof. vm_compute. reflexivity. Qed.

#[local] Opaque sample_upgrade_open.

Definition sample_upgrade : UpgradeProposal :=
  upgrade_proposed sample_start sample_committee ROLE_CODE_COMMITTEE_MEMBER 0 "faster" "code 2"
    sample_params.

Lemma sample_code_fits : Z.of_nat (String.length "code 2") <= RuntimeUpgradeMaxCodeSize.
Proof. vm_compute. congruence. Qed.

Lemma upgrade_proposal_recorded_witness :
  load_proposal (ve sample_upgrade_open) 0 = Some sample_upgrade /\
  (business_object_hash <$> ProposalVotePlans (ve sample_upgrade_open) !! 0) =
    Some (hash_256 (W := business_world map_ledger sample_others) "code 2").
Proof.
  destruct (upgrade_proposal_recorded 0 sample_committee ROLE_CODE_COMMITTEE_MEMBER "faster" "code 2"
    sample_params sample_start sample_upgrade_open sample_code_fits sample_upgrade_run)
    as (Hd & _ & _ & _ & (Hp & _) & _).
  split; [exact Hd|]. exact (f_equal (fmap business_object_hash) Hp).
Defined.

Lemma sample_upgrade_loads :
  load_proposal (ve sample_upgrade_open) 0 = Some sample_upgrade /\
  upgrade_ready sample_upgrade_open 0 sample_upgrade "code 2".
Proof. exact (proposed_upgrade_loads _ _ _ _ _ _ _ _ sample_code_fits sample_upgrade_run). Qed.

Lemma upgrade_called_ok s u :
  upgrade_facts (called s) = Some (PROPOSAL_KIND_JOINT, STAGE_JOINT, STATUS_PASSED, true) ->
  load_proposal (ve s) 0 = Some u -> upgrade_called (called s) 0 true u.
Proof.
  intros Hf Hd. unfold upgrade_facts in Hf.
  destruct (Proposals (ve (called s)) !! 0) as [p|] eqn:Hp; [|done].
  injection Hf as Hk Hst Hs Ho. split; try done; [simpl; set_solver|].
  exists p. split_and!; [done|done|by left|done].
Qed.

(** The parameters in force when the vote ends are those of the proposal. *)
Lemma called_ready s u code : upgrade_ready s 0 u code -> upgrade_ready (called s) 0 u code.
Proof. intros H. exact H. Qed.

Lemma upgrade_executes_witness :
  runtime_code (others (world (upgrade_apply_joint_vote_result (L := map_ledger)
    (R := sample_others) 0 true (called sample_upgrade_open)).2)) = "code 2"%string.
Proof.
  destruct sample_upgrade_loads as [Hd Hr].
  destruct (upgrade_executes 0 true sample_upgrade (called sample_upgrade_open)
    (upgrade_called_ok _ _ sample_upgrade_facts Hd)) as [H _].
  destruct (H "code 2"%string eq_refl (called_ready _ _ _ Hr))
    as [(d & r & _ & _ & Hc & _)|[Hf _]]; [exact Hc|].
  rewrite sample_upgrade_executed in Hf. discriminate Hf.
Defined.

(** A developer replaces the code in the genesis phase. *)
Abbreviation sample_direct := (developer_direct_upgrade (L := map_ledger) (R := sample_others) 0
  sample_committee ROLE_CODE_COMMITTEE_MEMBER "code 3" sample_params).

Lemma sample_direct_ok : (sample_direct sample_start).1 = Ok tt.
Proof. vm_compute. reflexivity. Qed.

Lemma developer_path_guarded_witness :
  runtime_code (others (world (sample_direct sample_start).2)) = "code 3"%string /\
  ve (sample_direct sample_start).2 = ve sample_start.
Proof.
  destruct (developer_path_guarded 0 sample_committee ROLE_CODE_COMMITTEE_MEMBER "code 3"
    sample_params sample_start) as (_ & _ & H).
  destruct (H sample_direct_ok) as (_ & _ & _ & _ & _ & Hc & _ & Hv & _).
  exact (conj Hc Hv).
Defined.

Abbreviation bstate := (rt (business_world map_ledger sample_others)).
Abbreviation bstep := (business_step (L := map_ledger) (R := sample_others)).
Abbreviation bdispatch := (business_dispatch (L := map_ledger) (R := sample_others)).

(** The national committee votes against both, which sends them to the
    referendum; two of the three citizens vote for both. *)
Definition business_calls : list business_call := [
  ProposeIssuance 0 sample_committee ROLE_CODE_COMMITTEE_MEMBER "schools" 1000 sample_allocations;
  ProposeRuntimeUpgrade 0 sample_committee ROLE_CODE_COMMITTEE_MEMBER "faster" "code 2" sample_params;
  VotingCall (CastAdmin 0 0 sample_committee ROLE_CODE_COMMITTEE_MEMBER false);
  VotingCall (CastAdmin 0 1 sample_committee ROLE_CODE_COMMITTEE_MEMBER false);
  VotingCall (CastReferendum 1 0 true); VotingCall (CastReferendum 2 0 true);
  VotingCall (CastReferendum 1 1 true); VotingCall (CastReferendum 2 1 true)].

Definition run_calls (l : list business_call) (s : bstate) : bstate :=
  foldl (fun s c => (bdispatch c s).2) s l.

Definition business_voted : bstate := run_calls business_calls sample_start.
Definition business_end : bstate := business_block 6 business_voted.

Definition end_facts (s : bstate) :=
  (TotalIssued (issuance (world s)), elements (EverExecuted (issuance (world s))),
   free_balance (ledger (world s)) (nth 0 sample_recipients 0), so_code (others (world s)),
   (execution_path <$> LastRuntimeUpgradeAudit (world s),
    audit_proposal_id <$> LastRuntimeUpgradeAudit (world s)),
   (status <$> Proposals (ve s) !! 0, status <$> Proposals (ve s) !! 1)).

Definition cleanups_of (s : bstate) :=
  (PendingProposalCleanups (ve s) !! 0, PendingProposalCleanups (ve s) !! 1).

Lemma business_run_facts :
  (end_facts business_end, cleanups_of business_end, block_number business_voted) =
  ((1000, [0], 500, "code 2"%string, (Some JointVotePath, Some (Some 1)),
    (Some STATUS_EXECUTED, Some STATUS_EXECUTED)), (None, None), 5).
Proof. vm_compute. reflexivity. Qed.

(** The facts one by one, over any state. *)
Lemma end_facts_spec s n ids b code a st :
  end_facts s = (n, ids, b, code, a, st) ->
  elements (EverExecuted (issuance (world s))) = ids /\ so_code (others (world s)) = code /\
  (execution_path <$> LastRuntimeUpgradeAudit (world s),
   audit_proposal_id <$> LastRuntimeUpgradeAudit (world s)) = a /\
  (status <$> Proposals (ve s) !! 0, status <$> Proposals (ve s) !! 1) = st.
Proof. intros H. injection H. intros. done. Qed.

Lemma pair_parts {A B} (a a' : A) (b b' : B) : (a, b) = (a', b') -> a = a' /\ b = b'.
Proof. by intros [= -> ->]. Qed.

Lemma business_end_facts : end_facts business_end =
  (1000, [0], 500, "code 2"%string, (Some JointVotePath, Some (Some 1)),
   (Some STATUS_EXECUTED, Some STATUS_EXECUTED)).
Proof. exact (proj1 (pair_parts _ _ _ _ (proj1 (pair_parts _ _ _ _ business_run_facts)))). Qed.

Lemma business_end_cleanups : cleanups_of business_end = (None, None).
Proof. exact (proj2 (pair_parts _ _ _ _ (proj1 (pair_parts _ _ _ _ business_run_facts)))). Qed.

Lemma business_voted_number : block_number business_voted = 5.
Proof. exact (proj2 (pair_parts _ _ _ _ business_run_facts)). Qed.

Lemma run_calls_steps l s : rtc bstep s (run_calls l s).
Proof.
  revert s. induction l as [|c l IH]; intros s; [done|].
  eapply rtc_l; [exact (bstep_call c s)|apply IH].
Qed.

Lemma business_voted_steps : rtc bstep sample_start business_voted.
Proof. exact (run_calls_steps business_calls sample_start). Qed.

#[local] Opaque business_voted.

Lemma block_steps n s s' : rtc bstep s s' -> block_number s' <= n -> rtc bstep s (business_block n s').
Proof. intros H Hn. etrans; [exact H|]. apply rtc_once, bstep_block, Hn. Qed.

Lemma business_end_steps : rtc bstep sample_start business_end.
Proof.
  refine (block_steps 6 _ _ business_voted_steps _). rewrite business_voted_number. lia.
Qed.

#[local] Opaque business_end.

Lemma business_genesis_sample : business_genesis sample_recipients sample_business.
Proof. split; [|reflexivity]. vm_compute. reflexivity. Qed.

Lemma business_population (w : business_world map_ledger sample_others) sc d :
  population_data_of w sc = Some d -> 0 <= eligible_total d <= u64_max.
Proof. exact (sample_population_u64 (so_world (others w)) sc d). Qed.

Lemma issuance_lawful_witness :
  exists d p, Proposals (ve business_end) !! 0 = Some p /\
    load_issuance_data (ve business_end) 0 = Some d /\
    valid_allocations sample_recipients (total_amount d) (allocations d) /\
    carried business_end 0 p.
Proof.
  destruct (end_facts_spec _ _ _ _ _ _ _ business_end_facts) as (Hev & _ & _ & Hp).
  apply pair_parts in Hp as [Hp _]. destruct (pair_parts _ _ _ _ business_end_cleanups) as [Hc _].
  destruct (issuance_lawful sample_admins_u32 business_population 5 1767225600000 sample_business
    sample_recipients business_end demo_quota demo_time business_genesis_sample business_end_steps)
    as (_ & _ & H & _ & Hin & _ & _ & Heach).
  assert (H0 : 0 ∈ EverExecuted (issuance (world business_end))).
  { apply elem_of_elements. rewrite Hev. by left. }
  apply Hin, list_elem_of_fmap in H0 as ([pid d] & Hpid & Hd). simpl in Hpid. subst pid.
  destruct (Heach 0 d Hd) as (Hv & _ & _ & Hp0).
  destruct (Proposals (ve business_end) !! 0) as [p|]; [|discriminate Hp].
  destruct (Hp0 p eq_refl) as (_ & _ & _ & Hload & Hcar).
  exists d, p. exact (conj eq_refl (conj Hload (conj Hv (Hcar Hc)))).
Defined.

Lemma running_code_lawful_witness :
  exists u p, Proposals (ve business_end) !! 1 = Some p /\
    load_proposal (ve business_end) 1 = Some u /\ code_hash u = "code 2"%string /\
    carried business_end 1 p.
Proof.
  destruct (end_facts_spec _ _ _ _ _ _ _ business_end_facts) as (_ & Hcode & Ha & Hp).
  apply pair_parts in Ha as [Hpath Hid]. apply pair_parts in Hp as [_ Hp].
  destruct (pair_parts _ _ _ _ business_end_cleanups) as [_ Hc].
  pose proof (running_code_lawful sample_admins_u32 business_population 5 1767225600000
    sample_business sample_recipients business_end demo_quota demo_time business_genesis_sample
    business_end_steps) as H.
  destruct (LastRuntimeUpgradeAudit (world business_end)) as [a|]; [|discriminate Hpath].
  simpl in Hpath, Hid. injection Hpath as Hpath. injection Hid as Hid. destruct H as [Hh H].
  rewrite Hpath in H. destruct H as (pid & u & Hpid & Hu & _ & _ & H).
  rewrite Hid in Hpid. injection Hpid as <-.
  destruct (Proposals (ve business_end) !! 1) as [p|]; [|discriminate Hp].
  destruct (H p eq_refl) as (_ & _ & _ & Hload & Hcar).
  exists u, p. refine (conj eq_refl (conj Hload (conj _ (Hcar Hc)))).
  rewrite Hu, Hh. exact Hcode.
Defined.
