(* ===== verification/OnchainFee.v ===== *)
(** * On-chain transactions and their fees ([transaction/onchain/src/lib.rs])

    The fee of a call is taken before it runs, from the account its route
    names, and shared out after it between the author of the block, the
    national reserve council and the safety fund; a share that cannot be paid
    in is burnt and reported. Also the transfer with a remark, and the fee of
    an approved proposal's execution. *)
From S2P Require Import Prelude Cid Types Ledger FeePolicy.

(** ** Events, errors and state *)

Inductive BurnReason : Type :=
| AuthorMissing | RewardAccountUnbound | FullnodeResolveFailed | NrcMissing | NrcResolveFailed
| SafetyFundResolveFailed.

Inductive OnchainEvent : Type :=
| FeePaid (account_id : AccountId) (fee : Z)
| FeeShareBurnt (reason : BurnReason) (amount : Z)
| TransferWithRemark (from_account_id beneficiary_account_id : AccountId) (amount : Z)
    (remark : string).

Inductive OnchainError : Type := ZeroAmount | SelfTransferNotAllowed | TransferFailed.

(** The answers of [TransactionValidityError] the adapter gives. *)
Inductive InvalidTransaction : Type := Payment | CallRefused.

Record onchain (L : Type) : Type := { onchain_ledger : L; onchain_events : list OnchainEvent }.
Arguments Build_onchain {L}.
Arguments onchain_ledger {L}.
Arguments onchain_events {L}.

Definition EXPECTED_FEE_PERCENT_TOTAL : Z := 100.

(** What the runtime supplies: the author of the block, the accounts the
    authors bound ([RewardAccountIdByMiner] of the full-node issuance), the
    council's fee account and the safety fund. *)
Record fee_recipients : Type := {
  find_author : option AccountId;
  reward_accounts : gmap AccountId AccountId;
  nrc_account : option AccountId;
  safety_fund_account : AccountId;
}.

Section OnchainFee.
Context {L : Type} `{Cur : !Currency L}.
Implicit Types s : onchain L.

Definition onchain_event (e : OnchainEvent) s : onchain L :=
  Build_onchain (onchain_ledger s) (onchain_events s ++ [e]).
Definition onchain_with (l : L) s : onchain L := Build_onchain l (onchain_events s).

(** ** Transfers *)

Definition transfer_with_remark (from beneficiary : AccountId) (amount : Z) (remark : string)
    : M (onchain L) OnchainError unit :=
  ensure (negb (bool_decide (amount = 0))) ZeroAmount ;;
  ensure (negb (bool_decide (from = beneficiary))) SelfTransferNotAllowed ;;
  moved ← gets (fun s => transfer (onchain_ledger s) from beneficiary amount);
  l ← ok_or moved TransferFailed;
  modify (onchain_with l) ;;
  modify (onchain_event (TransferWithRemark from beneficiary amount remark)).

(** ** Sharing a fee out *)

Definition emit_fee_share_burn (reason : BurnReason) (amount : Z) s : onchain L :=
  if decide (amount = 0) then s else onchain_event (FeeShareBurnt reason amount) s.

(** A share is paid in, or what is left of it is burnt. *)
Definition resolve_or_burn (account : AccountId) (share : Z) (reason : BurnReason) s : onchain L :=
  match resolve (onchain_ledger s) account share with
  | Some l => onchain_with l s
  | None => emit_fee_share_burn reason share s
  end.

Definition pay_fullnode (r : fee_recipients) (share : Z) s : onchain L :=
  match find_author r with
  | Some miner =>
      match reward_accounts r !! miner with
      | Some reward => resolve_or_burn reward share FullnodeResolveFailed s
      | None => emit_fee_share_burn RewardAccountUnbound share s
      end
  | None => emit_fee_share_burn AuthorMissing share s
  end.

Definition pay_nrc (r : fee_recipients) (share : Z) s : onchain L :=
  match nrc_account r with
  | Some account => resolve_or_burn account share NrcResolveFailed s
  | None => emit_fee_share_burn NrcMissing share s
  end.

Definition on_nonzero_unbalanced (r : fee_recipients) (amount : Z) s : onchain L :=
  let total_percent :=
    saturating_add u32_max (saturating_add u32_max ONCHAIN_FEE_FULLNODE_PERCENT
      ONCHAIN_FEE_NRC_PERCENT) ONCHAIN_FEE_SAFETY_FUND_PERCENT in
  if decide (total_percent <> EXPECTED_FEE_PERCENT_TOTAL) then s
  else
    let first := ration amount ONCHAIN_FEE_FULLNODE_PERCENT
      (saturating_sub total_percent ONCHAIN_FEE_FULLNODE_PERCENT) in
    let second := ration first.2 ONCHAIN_FEE_NRC_PERCENT ONCHAIN_FEE_SAFETY_FUND_PERCENT in
    resolve_or_burn (safety_fund_account r) second.2 SafetyFundResolveFailed
      (pay_nrc r second.1 (pay_fullnode r first.1 s)).

(** [OnUnbalanced::on_unbalanced] drops an empty credit. *)
Definition on_unbalanced (r : fee_recipients) (amount : Z) s : onchain L :=
  if decide (amount = 0) then s else on_nonzero_unbalanced r amount s.

(** ** The fee of a transaction *)

(** The account that pays and the fee, by the route of the call. *)
Definition charge_details (route : FeeRoute AccountId Z) (tip : Z)
    : result InvalidTransaction (option (AccountId * Z)) :=
  guard_ok (bool_decide (tip = 0)) Payment ;;
  match route with
  | Onchain amount payer => mret (Some (payer, calculate_onchain_fee amount))
  | Vote payer => mret (Some (payer, VOTE_FLAT_FEE))
  | Offchain _ _ => mret None
  | Free => mret None
  | Reject => Err CallRefused
  end.

(** The liquidity information is the credit taken, if any. *)
Definition withdraw_fee (route : FeeRoute AccountId Z) (tip : Z)
    : M (onchain L) InvalidTransaction (option Z) :=
  details ← from_result (charge_details route tip);
  match details with
  | None => mret None
  | Some (payer, fee) =>
      taken ← gets (fun s => withdraw (onchain_ledger s) payer fee);
      l ← ok_or taken Payment;
      modify (onchain_with l) ;;
      modify (onchain_event (FeePaid payer fee)) ;;
      mret (Some fee)
  end.

(** [can_withdraw] is the balance pallet's: does it answer [Success]? *)
Definition can_withdraw_fee (can_withdraw : L -> AccountId -> Z -> bool)
    (route : FeeRoute AccountId Z) (tip : Z) s : result InvalidTransaction unit :=
  details ← charge_details route tip;
  match details with
  | None => mret tt
  | Some (payer, fee) => guard_ok (can_withdraw (onchain_ledger s) payer fee) Payment
  end.

Definition correct_and_deposit_fee (r : fee_recipients) (liquidity_info : option Z) s : onchain L :=
  match liquidity_info with
  | Some credit => on_unbalanced r credit s
  | None => s
  end.

(** A signed transaction: the fee, the call, the sharing out. A call that
    fails keeps the fee: [call] is whatever it leaves. *)
Definition charged (r : fee_recipients) (route : FeeRoute AccountId Z) (tip : Z)
    (call : onchain L -> onchain L) : M (onchain L) InvalidTransaction unit :=
  liquidity ← withdraw_fee route tip;
  modify call ;;
  modify (correct_and_deposit_fee r liquidity).

(** ** The fee of an execution without an outer transaction *)

Definition execution_charge (r : fee_recipients) (payer : AccountId) (amount : Z)
    : M (onchain L) unit Z :=
  let fee := calculate_onchain_fee amount in
  taken ← gets (fun s => withdraw (onchain_ledger s) payer fee);
  l ← ok_or taken tt;
  modify (onchain_with l) ;;
  modify (on_unbalanced r fee) ;;
  modify (onchain_event (FeePaid payer fee)) ;;
  mret fee.

(** ** What is paid and what is burnt *)

Definition paid_to (b : AccountId) (paid : list (AccountId * Z)) : Z :=
  foldr (fun x acc => (if decide (x.1 = b) then x.2 else 0) + acc) 0 paid.
Definition paid_sum (paid : list (AccountId * Z)) : Z := foldr (fun x acc => x.2 + acc) 0 paid.
Definition burnt_by (e : OnchainEvent) : Z :=
  match e with FeeShareBurnt _ amount => amount | _ => 0 end.
Definition burnt_sum (l : list OnchainEvent) : Z := foldr (fun e acc => burnt_by e + acc) 0 l.

(** From [s] to [s'] exactly [paid] was paid in and [burns] reported. *)
Record shared (paid : list (AccountId * Z)) (burns : list OnchainEvent) s s' : Prop := {
  sh_events : onchain_events s' = onchain_events s ++ burns;
  sh_balance : forall b,
    free_balance (onchain_ledger s') b = free_balance (onchain_ledger s) b + paid_to b paid;
}.

Definition fullnode_share (amount : Z) : Z := amount * 80 / 100.
Definition nrc_share (amount : Z) : Z := (amount - fullnode_share amount) * 10 / 20.
Definition safety_fund_share (amount : Z) : Z :=
  amount - fullnode_share amount - nrc_share amount.

Definition recipients (r : fee_recipients) : option AccountId * option AccountId * AccountId :=
  (find_author r ≫= fun m => reward_accounts r !! m, nrc_account r, safety_fund_account r).

Lemma paid_to_app b p q : paid_to b (p ++ q) = paid_to b p + paid_to b q.
Proof. induction p as [|[a v] p IH]; simpl in *; [done|]. rewrite IH. lia. Qed.
Lemma paid_sum_app p q : paid_sum (p ++ q) = paid_sum p + paid_sum q.
Proof. induction p as [|[a v] p IH]; simpl in *; [done|]. rewrite IH. lia. Qed.
Lemma burnt_sum_app p q : burnt_sum (p ++ q) = burnt_sum p + burnt_sum q.
Proof. induction p as [|e p IH]; simpl in *; [done|]. rewrite IH. lia. Qed.

Lemma shared_trans p b s1 p' b' s2 s3 :
  shared p b s1 s2 -> shared p' b' s2 s3 -> shared (p ++ p') (b ++ b') s1 s3.
Proof.
  intros [He Hb] [He' Hb']. split; [by rewrite He', He, app_assoc|].
  intros a. rewrite Hb', Hb, paid_to_app. lia.
Qed.

Context `{!CurrencyLaws L}.

(** One share goes to its account or is burnt, whole. *)
Definition one_share (account : option AccountId) (share : Z) s s' : Prop :=
  exists paid burns, shared paid burns s s' /\
    paid_sum paid + burnt_sum burns = share /\
    ((exists a, account = Some a /\ paid = [(a, share)] /\ burns = []) \/
     (paid = [] /\ (account = None \/ exists a, account = Some a /\
        resolve (onchain_ledger s) a share = None))).

Lemma burn_share account share reason s :
  (account = None \/ exists a, account = Some a /\ resolve (onchain_ledger s) a share = None) ->
  one_share account share s (emit_fee_share_burn reason share s).
Proof.
  intros Ha. exists []. unfold emit_fee_share_burn. case_decide as H0.
  - exists []. split; [split; [by rewrite app_nil_r|intros; simpl; lia]|]. split; [done|by right].
  - exists [FeeShareBurnt reason share]. split; [split; [done|intros; simpl; lia]|].
    split; [simpl; lia|by right].
Qed.

Lemma resolve_share a share reason s :
  one_share (Some a) share s (resolve_or_burn a share reason s).
Proof.
  unfold resolve_or_burn. destruct (resolve _ a share) as [l|] eqn:Hr.
  - destruct (resolve_credited _ _ _ _ Hr) as [H1 H2]. exists [(a, share)], []. split.
    + split; [by rewrite app_nil_r|]. intros b. simpl. case_decide as Hd; [subst; lia|].
      rewrite H2 by done. lia.
    + split; [simpl; lia|]. left. by exists a.
  - apply burn_share. right. by exists a.
Qed.

Lemma pay_fullnode_share r share s :
  one_share (recipients r).1.1 share s (pay_fullnode r share s).
Proof.
  unfold pay_fullnode, recipients. simpl. destruct (find_author r) as [m|]; simpl.
  - destruct (reward_accounts r !! m); [apply resolve_share|by apply burn_share; left].
  - by apply burn_share; left.
Qed.

Lemma pay_nrc_share r share s : one_share (recipients r).1.2 share s (pay_nrc r share s).
Proof.
  unfold pay_nrc, recipients. simpl.
  destruct (nrc_account r); [apply resolve_share|by apply burn_share; left].
Qed.

Lemma rations amount :
  0 <= amount -> amount * 100 <= u128_max ->
  let first := ration amount 80 20 in
  let second := ration first.2 10 10 in
  first.1 = fullnode_share amount /\ second.1 = nrc_share amount /\
  second.2 = safety_fund_share amount /\
  0 <= fullnode_share amount /\ 0 <= nrc_share amount /\ 0 <= safety_fund_share amount.
Proof.
  intros H0 Hm first second. destruct (ration_split amount 80 20 H0 ltac:(lia) ltac:(lia) ltac:(lia)) as (F1 & F2 & Fs).
  fold first in F1, F2, Fs. destruct (ration_split first.2 10 10 F2 ltac:(lia) ltac:(lia) ltac:(lia)) as (S1 & S2 & Ss).
  fold second in S1, S2, Ss.
  assert (first.1 = fullnode_share amount) as E1 by (apply ration_first; lia).
  assert (second.1 = nrc_share amount) as E2.
  { unfold nrc_share. rewrite <-E1. replace (amount - first.1) with first.2 by lia.
    apply (ration_first first.2 10 10); lia. }
  unfold safety_fund_share. rewrite <-E1, <-E2. split_and!; lia.
Qed.

(** C27: a fee is shared out exactly once and without loss: four fifths to
    the account the author of the block bound, half of the rest to the
    national reserve council, what remains to the safety fund; a share whose
    account is missing or cannot be credited is burnt and reported instead,
    and goes to nobody else; what is paid and what is burnt add up to the fee,
    and no other balance changes. *)
Theorem fee_shared_out r amount s :
  0 < amount -> amount * 100 <= u128_max ->
  let s' := on_unbalanced r amount s in
  let '(reward, nrc, safety) := recipients r in
  exists s1 s2,
    one_share reward (fullnode_share amount) s s1 /\
    one_share nrc (nrc_share amount) s1 s2 /\
    one_share (Some safety) (safety_fund_share amount) s2 s' /\
    exists paid burns, shared paid burns s s' /\ paid_sum paid + burnt_sum burns = amount.
Proof.
  intros Ha Hm s'. destruct (recipients r) as [[reward nrc] safety] eqn:Hrec.
  destruct (rations amount ltac:(lia) Hm) as (E1 & E2 & E3 & _).
  unfold s', on_unbalanced, on_nonzero_unbalanced. rewrite decide_False by lia.
  change (saturating_add u32_max _ _) with 100. cbv zeta. rewrite decide_False by (by intros []).
  change (saturating_sub 100 ONCHAIN_FEE_FULLNODE_PERCENT) with 20.
  change ONCHAIN_FEE_FULLNODE_PERCENT with 80. change ONCHAIN_FEE_NRC_PERCENT with 10.
  change ONCHAIN_FEE_SAFETY_FUND_PERCENT with 10. rewrite E1, E2, E3.
  set (s1 := pay_fullnode r (fullnode_share amount) s). set (s2 := pay_nrc r (nrc_share amount) s1).
  pose proof (pay_fullnode_share r (fullnode_share amount) s) as O1. fold s1 in O1.
  pose proof (pay_nrc_share r (nrc_share amount) s1) as O2. fold s2 in O2.
  rewrite Hrec in O1, O2. simpl in O1, O2. injection Hrec as Hrw Hnrc Hsf. rewrite Hsf.
  pose proof (resolve_share safety (safety_fund_share amount) SafetyFundResolveFailed s2) as O3.
  exists s1, s2. split; [exact O1|]. split; [exact O2|]. split; [exact O3|].
  destruct O1 as (p1 & b1 & T1 & S1 & _), O2 as (p2 & b2 & T2 & S2 & _), O3 as (p3 & b3 & T3 & S3 & _).
  exists (p1 ++ p2 ++ p3), (b1 ++ b2 ++ b3).
  split; [eapply shared_trans; [exact T1|by eapply shared_trans]|].
  rewrite !paid_sum_app, !burnt_sum_app. unfold safety_fund_share in *. lia.
Qed.

(** Sharing a fee out takes from nobody. *)
Lemma resolve_or_burn_grows a share reason s b :
  0 <= share -> free_balance (onchain_ledger s) b
    <= free_balance (onchain_ledger (resolve_or_burn a share reason s)) b.
Proof.
  intros Hs. unfold resolve_or_burn, emit_fee_share_burn.
  destruct (resolve _ a share) as [l|] eqn:Hr; [|by case_decide].
  destruct (resolve_credited _ _ _ _ Hr) as [H1 H2]. simpl.
  destruct (decide (a = b)) as [<-|Hne]; [lia|by rewrite H2].
Qed.

Lemma on_unbalanced_grows r amount s b :
  0 <= amount -> free_balance (onchain_ledger s) b
    <= free_balance (onchain_ledger (on_unbalanced r amount s)) b.
Proof.
  intros Ha. unfold on_unbalanced, on_nonzero_unbalanced. case_decide; [done|].
  cbv zeta. destruct (decide (_ <> _)); [done|].
  set (first := ration amount _ _). set (second := ration first.2 _ _).
  destruct (ration_split amount ONCHAIN_FEE_FULLNODE_PERCENT
    (saturating_sub (saturating_add u32_max (saturating_add u32_max ONCHAIN_FEE_FULLNODE_PERCENT
      ONCHAIN_FEE_NRC_PERCENT) ONCHAIN_FEE_SAFETY_FUND_PERCENT) ONCHAIN_FEE_FULLNODE_PERCENT) Ha
    ltac:(vm_compute; congruence) ltac:(vm_compute; congruence) ltac:(vm_compute; congruence))
    as (F1 & F2 & _). fold first in F1, F2.
  destruct (ration_split first.2 ONCHAIN_FEE_NRC_PERCENT ONCHAIN_FEE_SAFETY_FUND_PERCENT F2
    ltac:(vm_compute; congruence) ltac:(vm_compute; congruence) ltac:(vm_compute; congruence))
    as (S1 & S2 & _). fold second in S1, S2.
  etransitivity; [|by apply resolve_or_burn_grows].
  etransitivity; [|unfold pay_nrc; destruct (nrc_account r); [by apply resolve_or_burn_grows|
    unfold emit_fee_share_burn; by case_decide]].
  unfold pay_fullnode. destruct (find_author r); [|unfold emit_fee_share_burn; by case_decide].
  destruct (reward_accounts r !! _); [by apply resolve_or_burn_grows|].
  unfold emit_fee_share_burn; by case_decide.
Qed.

Lemma execution_charge_Ok r payer amount s fee s' :
  execution_charge r payer amount s = (Ok fee, s') ->
  fee = calculate_onchain_fee amount /\
  exists l, withdraw (onchain_ledger s) payer fee = Some l /\
    s' = onchain_event (FeePaid payer fee) (on_unbalanced r fee (onchain_with l s)).
Proof.
  unfold execution_charge. cbv zeta. intros Hr. run_inv. eauto.
Qed.

Lemma withdraw_fee_run route payer fee s :
  charge_details route 0 = Ok (Some (payer, fee)) ->
  withdraw_fee route 0 s =
    match withdraw (onchain_ledger s) payer fee with
    | None => (Err Payment, s)
    | Some l => (Ok (Some fee), onchain_event (FeePaid payer fee) (onchain_with l s))
    end.
Proof.
  intros Hd. unfold withdraw_fee. rewrite Hd. unfold from_result.
  rewrite bind_ret, bind_gets. by destruct (withdraw (onchain_ledger s) payer fee).
Qed.

(** Every signed transaction pays exactly the fee of its route, once:
    a tip or a refused route stops it, in the pool and in the block, before
    anything happens; a free call and
    an off-chain settlement take nothing here; otherwise the fee (the rate
    with its minimum, or the flat fee of a vote) leaves the payer in full,
    whose balance stays above the minimum, or the transaction is refused
    without effect; and exactly that fee is shared out after the call. *)
Theorem transaction_charged_once r route tip call s :
  let fee_of := match route with
    | Onchain amount payer => Some (payer, calculate_onchain_fee amount)
    | Vote payer => Some (payer, VOTE_FLAT_FEE)
    | _ => None
    end in
  (tip <> 0 -> charged r route tip call s = (Err Payment, s) /\
     forall cw, can_withdraw_fee cw route tip s = Err Payment) /\
  (tip = 0 -> route = Reject -> charged r route tip call s = (Err CallRefused, s) /\
     forall cw, can_withdraw_fee cw route tip s = Err CallRefused) /\
  (tip = 0 -> route <> Reject -> fee_of = None -> charged r route tip call s = (Ok tt, call s)) /\
  (forall payer fee, tip = 0 -> fee_of = Some (payer, fee) ->
     match withdraw (onchain_ledger s) payer fee with
     | None => charged r route tip call s = (Err Payment, s)
     | Some l =>
         charged r route tip call s =
           (Ok tt, on_unbalanced r fee (call (onchain_event (FeePaid payer fee) (onchain_with l s)))) /\
         free_balance l payer = free_balance (onchain_ledger s) payer - fee /\
         minimum_balance <= free_balance l payer /\
         forall b, payer <> b -> free_balance l b = free_balance (onchain_ledger s) b
     end).
Proof.
  intros fee_of. split; [|split; [|split]].
  - intros Ht. unfold charged, withdraw_fee, can_withdraw_fee, charge_details.
    by rewrite (bool_decide_false _ Ht).
  - by intros -> ->.
  - intros -> Hr Hf. unfold fee_of in Hf. by destruct route.
  - intros payer fee -> Hf.
    assert (charge_details route 0 = Ok (Some (payer, fee))) as Hd
      by (unfold fee_of in Hf; destruct route; simplify_eq; done).
    pose proof (withdraw_fee_run route payer fee s Hd) as Hr. unfold charged.
    destruct (withdraw (onchain_ledger s) payer fee) as [l|] eqn:Hw.
    + rewrite (bind_run _ _ _ _ _ Hr). split; [done|].
      destruct (withdraw_taken _ _ _ _ Hw) as (? & Hmin & ?). split_and!; [done| |done].
      apply Hmin. unfold fee_of in Hf. destruct route; simplify_eq; [apply onchain_fee_nonzero|done].
    + by rewrite (bind_run_Err _ _ _ _ _ Hr).
Qed.

(** A transfer with a remark moves exactly the amount and reports
    it with the remark, and is refused without effect when the amount is zero,
    the beneficiary is the sender or the sender cannot keep the minimum. *)
Theorem transfer_with_remark_effect from beneficiary amount remark s :
  let res := transact (transfer_with_remark from beneficiary amount remark) s in
  (amount = 0 -> res = (Err ZeroAmount, s)) /\
  (amount <> 0 -> from = beneficiary -> res = (Err SelfTransferNotAllowed, s)) /\
  (amount <> 0 -> from <> beneficiary ->
   match transfer (onchain_ledger s) from beneficiary amount with
   | None => res = (Err TransferFailed, s)
   | Some l =>
       res = (Ok tt, onchain_event (TransferWithRemark from beneficiary amount remark)
                (onchain_with l s)) /\
       free_balance l from = free_balance (onchain_ledger s) from - amount /\
       free_balance l beneficiary = free_balance (onchain_ledger s) beneficiary + amount /\
       minimum_balance <= free_balance l from /\
       forall c, c <> from -> c <> beneficiary ->
         free_balance l c = free_balance (onchain_ledger s) c
   end).
Proof.
  unfold transact, transfer_with_remark. split; [|split].
  - by intros ->.
  - intros H0 ->. rewrite (bool_decide_false _ H0). by rewrite bool_decide_true by done.
  - intros H0 Hne. rewrite !bool_decide_false by done. autorewrite with run.
    destruct (transfer (onchain_ledger s) from beneficiary amount) as [l|] eqn:Ht; [|done].
    split; [done|]. destruct (transfer_moved _ _ _ _ _ Ht Hne) as (? & ? & Hmin & ?).
    split_and!; auto.
Qed.

(** The execution of an approved proposal pays the same
    formula from the account named, shared out in the same way, or fails
    without effect. *)
Theorem execution_fee_charged r payer amount s :
  let fee := calculate_onchain_fee amount in
  match withdraw (onchain_ledger s) payer fee with
  | None => execution_charge r payer amount s = (Err tt, s)
  | Some l =>
      execution_charge r payer amount s =
        (Ok fee, onchain_event (FeePaid payer fee) (on_unbalanced r fee (onchain_with l s))) /\
      free_balance l payer = free_balance (onchain_ledger s) payer - fee /\
      minimum_balance <= free_balance l payer
  end.
Proof.
  intros fee. unfold execution_charge. cbv zeta. rewrite bind_gets. fold fee.
  destruct (withdraw (onchain_ledger s) payer fee) as [l|] eqn:Hw; [|done].
  split; [done|]. destruct (withdraw_taken _ _ _ _ Hw) as (? & Hmin & _). split; [done|].
  apply Hmin, onchain_fee_nonzero.
Qed.
End OnchainFee.

(** A vote by account 7: the author's account, the council and the fund get 80, 10 and 10. *)
Lemma fee_shared_out_witness :
  let r := {| find_author := Some 1; reward_accounts := {[1 := 2]}; nrc_account := None;
              safety_fund_account := 4 |} in
  let s := Build_onchain (∅ : map_ledger) [] in
  exists s1 s2, one_share (Some 2) 80 s s1 /\ one_share None 10 s1 s2 /\
    one_share (Some 4) 10 s2 (on_unbalanced r 100 s).
Proof.
  intros r s.
  destruct (fee_shared_out r 100 s) as (s1 & s2 & H1 & H2 & H3 & _).
  - vm_compute; reflexivity.
  - vm_compute; discriminate.
  - exists s1, s2. split; [exact H1|]. split; [exact H2|exact H3].
Defined.

Definition demo_recipients : fee_recipients :=
  {| find_author := Some 1; reward_accounts := {[1 := 2]}; nrc_account := Some 3;
     safety_fund_account := 4 |}.
Definition demo_onchain : onchain map_ledger := Build_onchain {[7 := 100000]} [].

Lemma transaction_charged_once_witness :
  exists l, charged demo_recipients (Vote 7) 0 id demo_onchain =
    (Ok tt, on_unbalanced demo_recipients 100
       (onchain_event (FeePaid 7 100) (onchain_with l demo_onchain))) /\
    free_balance l 7 = 99900.
Proof.
  destruct (transaction_charged_once demo_recipients (Vote 7) 0 id demo_onchain)
    as (_ & _ & _ & H). specialize (H 7 100 eq_refl eq_refl).
  destruct (withdraw (onchain_ledger demo_onchain) 7 100) as [l|] eqn:Hw.
  - exists l. split; [exact (proj1 H)|]. exact (proj1 (proj2 H)).
  - exfalso. vm_compute in Hw. discriminate.
Defined.

Lemma transfer_with_remark_effect_witness :
  transact (transfer_with_remark 7 7 5 "x") demo_onchain
    = (Err SelfTransferNotAllowed, demo_onchain) /\
  transact (transfer_with_remark 8 7 5 "x") demo_onchain = (Err TransferFailed, demo_onchain).
Proof.
  split.
  - apply (transfer_with_remark_effect 7 7 5 "x" demo_onchain); [discriminate|reflexivity].
  - exact (proj2 (proj2 (transfer_with_remark_effect 8 7 5 "x" demo_onchain))
      ltac:(discriminate) ltac:(discriminate)).
Defined.

Lemma execution_fee_charged_witness :
  exists l, execution_charge demo_recipients 7 50000 demo_onchain =
    (Ok 50, onchain_event (FeePaid 7 50) (on_unbalanced demo_recipients 50
       (onchain_with l demo_onchain))) /\
    free_balance l 7 = 99950.
Proof.
  pose proof (execution_fee_charged demo_recipients 7 50000 demo_onchain) as H. cbv zeta in H.
  change (calculate_onchain_fee 50000) with 50 in H.
  destruct (withdraw (onchain_ledger demo_onchain) 7 50) as [l|] eqn:Hw.
  - exists l. split; [exact (proj1 H)|]. exact (proj1 (proj2 H)).
  - exfalso. vm_compute in Hw. discriminate.
Defined.
