(* ===== verification/Clearing.v ===== *)
(** * Off-chain clearing ([transaction/offchain/src])

    Citizens keep deposits at clearing banks; a bank settles its customers'
    signed payments in batches. The deposits are a ledger of the pallet, the
    money behind them lies on the clearing account of the bank. Also the fee
    rates of the banks and the registration of their nodes. *)
From S2P Require Import Prelude Encoding Cid Types Interfaces Ledger FeePolicy OnchainFee.

(** ** Data *)

Record ClearingBankNodeInfo : Type := {
  peer_id : string;
  rpc_domain : string;
  rpc_port : Z;
  registered_at : Z;
  registrar_account_id : AccountId;
}.

(** A payment of a batch ([batch_item.rs]); [sig] is its [payer_sig]. *)
Record OffchainBatchItem : Type := {
  tx_id : Z;
  payer_account_id : AccountId;
  payer_bank_cid : CidNumber;
  recipient_account_id : AccountId;
  recipient_bank_cid : CidNumber;
  transfer_amount : Z;
  fee_amount : Z;
  payer_sig : string;
  payer_nonce : Z;
  expires_at : Z;
}.

(** What the payer signs. *)
Record PaymentIntent : Type := {
  pi_tx_id : Z;
  pi_payer_account_id : AccountId;
  pi_payer_bank_cid : CidNumber;
  pi_recipient_account_id : AccountId;
  pi_recipient_bank_cid : CidNumber;
  pi_amount : Z;
  pi_fee : Z;
  pi_nonce : Z;
  pi_expires_at : Z;
}.

Definition to_intent (item : OffchainBatchItem) : PaymentIntent := {|
  pi_tx_id := tx_id item;
  pi_payer_account_id := payer_account_id item;
  pi_payer_bank_cid := payer_bank_cid item;
  pi_recipient_account_id := recipient_account_id item;
  pi_recipient_bank_cid := recipient_bank_cid item;
  pi_amount := transfer_amount item;
  pi_fee := fee_amount item;
  pi_nonce := payer_nonce item;
  pi_expires_at := expires_at item |}.

Inductive ClearingEvent : Type :=
| BankBound (user : AccountId) (bank_cid : CidNumber)
| Deposited (user : AccountId) (bank_cid : CidNumber) (amount : Z)
| Withdrawn (user : AccountId) (bank_cid : CidNumber) (amount : Z)
| BankSwitched (user : AccountId) (old_bank_cid new_bank_cid : CidNumber)
| EvL2FeeRateProposed (bank_cid : CidNumber) (new_rate_bp effective_at : Z)
| L2FeeRateActivated (bank_cid : CidNumber) (rate_bp : Z)
| MaxL2FeeRateUpdated (new_max : Z)
| PaymentSettled (tx_id : Z) (payer_account_id : AccountId) (payer_bank_cid : CidNumber)
    (recipient_account_id : AccountId) (recipient_bank_cid : CidNumber)
    (transfer_amount fee_amount : Z)
| ClearingBankBatchSettled (bank_cid : CidNumber) (submitter : AccountId)
    (item_count total_debit : Z)
| ClearingBankRegistered (cid_number : CidNumber) (peer_id rpc_domain : string) (rpc_port : Z)
    (registrar_account_id : AccountId)
| ClearingBankEndpointUpdated (cid_number : CidNumber) (new_domain : string) (new_port : Z)
    (updated_by : AccountId)
| ClearingBankUnregistered (cid_number : CidNumber) (unregistered_by : AccountId).

(** The errors of the pallet the code returns; [TransferRefused] is the one
    of the balances pallet, passed on unchanged. *)
Inductive ClearingError : Type :=
| InvalidTransferAmount | InvalidFeeAmount | SelfTransfer | TransferAmountTooLarge | EmptyBatch
| InstitutionMismatch | UnauthorizedAdmin | ExpiredIntent | L2FeeRateNotConfigured
| InvalidL3Signature | InvalidL2FeeRate | SolvencyProtected | TxAlreadyProcessed
| InvalidBatchSignature | InvalidBatchSeq | UserBankMismatch | NotRegisteredClearingBank
| NotMainAccount | NotPrivateInstitution | ClearingBankAccountNotFound | FeeAccountNotFound
| ClearingAccountNotFound | AlreadyHasBank | NoOpenedBank | NewBankSameAsCurrent
| MustClearBalanceFirst | DepositAmountTooSmall | WithdrawAmountTooSmall
| InsufficientDepositBalance | InsufficientBankLiquidity | DepositForbidden | WithdrawForbidden
| ClearingDebitForbidden | L3NonceOverflow | InvalidL3Nonce | EmptyActorCidNumber | EmptyPeerId
| InvalidPeerIdFormat | EmptyRpcDomain | InvalidRpcDomainFormat | InvalidRpcPort
| NotEligibleForClearingBank | ClearingBankAlreadyRegistered | ClearingBankNodeNotFound
| PeerIdAlreadyRegistered | ClearingBankNotRegisteredAsNode | ClearingBatchOnchainFeeUnpaid
| TransferRefused.

(** ** Storage *)

(** The storage of the pallet, its events, and the ledger with the fee events. *)
Record clearing (L : Type) : Type := {
  UserBank : gmap AccountId CidNumber;
  DepositBalance : gmap (CidNumber * AccountId) Z;
  BankTotalDeposits : gmap CidNumber Z;
  L3PaymentNonce : gmap AccountId Z;
  L2FeeRateBp : gmap CidNumber Z;
  L2FeeRateProposed : gmap CidNumber (Z * Z);
  MaxL2FeeRateBp : Z;
  ProcessedOffchainTx : gset (string * Z);
  ProcessedOffchainTxAt : gmap (string * Z) Z;
  LastClearingBatchSeq : gmap CidNumber Z;
  ClearingBankNodes : gmap CidNumber ClearingBankNodeInfo;
  NodePeerToInstitution : gmap string CidNumber;
  clearing_events : list ClearingEvent;
  chain : onchain L;
}.
Arguments UserBank {L}.
Arguments DepositBalance {L}.
Arguments BankTotalDeposits {L}.
Arguments L3PaymentNonce {L}.
Arguments L2FeeRateBp {L}.
Arguments L2FeeRateProposed {L}.
Arguments MaxL2FeeRateBp {L}.
Arguments ProcessedOffchainTx {L}.
Arguments ProcessedOffchainTxAt {L}.
Arguments LastClearingBatchSeq {L}.
Arguments ClearingBankNodes {L}.
Arguments NodePeerToInstitution {L}.
Arguments clearing_events {L}.
Arguments chain {L}.

Section Setters.
Context {L : Type}.

Definition clearing_eta (r : clearing L) : clearing L :=
  Build_clearing L (r.(UserBank)) (r.(DepositBalance)) (r.(BankTotalDeposits)) (r.(L3PaymentNonce)) (r.(L2FeeRateBp)) (r.(L2FeeRateProposed)) (r.(MaxL2FeeRateBp)) (r.(ProcessedOffchainTx)) (r.(ProcessedOffchainTxAt)) (r.(LastClearingBatchSeq)) (r.(ClearingBankNodes)) (r.(NodePeerToInstitution)) (r.(clearing_events)) (r.(chain)).

Definition set_UserBank (g : gmap AccountId CidNumber -> gmap AccountId CidNumber) (r : clearing L) : clearing L :=
  ltac:(field_setter clearing_eta (@UserBank L) g r).
Definition set_DepositBalance (g : gmap (CidNumber * AccountId) Z -> gmap (CidNumber * AccountId) Z) (r : clearing L) : clearing L :=
  ltac:(field_setter clearing_eta (@DepositBalance L) g r).
Definition set_BankTotalDeposits (g : gmap CidNumber Z -> gmap CidNumber Z) (r : clearing L) : clearing L :=
  ltac:(field_setter clearing_eta (@BankTotalDeposits L) g r).
Definition set_L3PaymentNonce (g : gmap AccountId Z -> gmap AccountId Z) (r : clearing L) : clearing L :=
  ltac:(field_setter clearing_eta (@L3PaymentNonce L) g r).
Definition set_L2FeeRateBp (g : gmap CidNumber Z -> gmap CidNumber Z) (r : clearing L) : clearing L :=
  ltac:(field_setter clearing_eta (@L2FeeRateBp L) g r).
Definition set_L2FeeRateProposed (g : gmap CidNumber (Z * Z) -> gmap CidNumber (Z * Z)) (r : clearing L) : clearing L :=
  ltac:(field_setter clearing_eta (@L2FeeRateProposed L) g r).
Definition set_MaxL2FeeRateBp (g : Z -> Z) (r : clearing L) : clearing L :=
  ltac:(field_setter clearing_eta (@MaxL2FeeRateBp L) g r).
Definition set_ProcessedOffchainTx (g : gset (string * Z) -> gset (string * Z)) (r : clearing L) : clearing L :=
  ltac:(field_setter clearing_eta (@ProcessedOffchainTx L) g r).
Definition set_ProcessedOffchainTxAt (g : gmap (string * Z) Z -> gmap (string * Z) Z) (r : clearing L) : clearing L :=
  ltac:(field_setter clearing_eta (@ProcessedOffchainTxAt L) g r).
Definition set_LastClearingBatchSeq (g : gmap CidNumber Z -> gmap CidNumber Z) (r : clearing L) : clearing L :=
  ltac:(field_setter clearing_eta (@LastClearingBatchSeq L) g r).
Definition set_ClearingBankNodes (g : gmap CidNumber ClearingBankNodeInfo -> gmap CidNumber ClearingBankNodeInfo) (r : clearing L) : clearing L :=
  ltac:(field_setter clearing_eta (@ClearingBankNodes L) g r).
Definition set_NodePeerToInstitution (g : gmap string CidNumber -> gmap string CidNumber) (r : clearing L) : clearing L :=
  ltac:(field_setter clearing_eta (@NodePeerToInstitution L) g r).
Definition set_clearing_events (g : list ClearingEvent -> list ClearingEvent) (r : clearing L) : clearing L :=
  ltac:(field_setter clearing_eta (@clearing_events L) g r).
Definition set_chain (g : onchain L -> onchain L) (r : clearing L) : clearing L :=
  ltac:(field_setter clearing_eta (@chain L) g r).

Definition clearing_empty (c : onchain L) : clearing L :=
  Build_clearing L ∅ ∅ ∅ ∅ ∅ ∅ 0 ∅ ∅ ∅ ∅ ∅ [] c.
End Setters.

(** ** Constants ([fee_config.rs], [primitives/src/sign.rs]) *)

Definition PERBILL_PARTS_PER_BP : Z := 100000.
Definition L2_FEE_RATE_BP_MIN : Z := OFFCHAIN_FEE_RATE_MIN / PERBILL_PARTS_PER_BP.
Definition L2_FEE_RATE_BP_MAX : Z := OFFCHAIN_FEE_RATE_MAX / PERBILL_PARTS_PER_BP.
Definition RATE_CHANGE_DELAY_BLOCKS : Z := 7 * BLOCKS_PER_DAY.
Definition MAX_L2_FEE_ACTIVATIONS_PER_BLOCK : nat := 32.

(** The actions a role may be entitled to, by their codes
    ([entity-primitives/src/business_action.rs]). *)
Definition ACTION_OFFCHAIN_SUBMIT_BATCH : Z := 34.
Definition ACTION_OFFCHAIN_PROPOSE_FEE_RATE : Z := 40.
Definition ACTION_OFFCHAIN_REGISTER_BANK : Z := 50.
Definition ACTION_OFFCHAIN_UPDATE_BANK_ENDPOINT : Z := 51.
Definition ACTION_OFFCHAIN_UNREGISTER_BANK : Z := 52.

(** The names of the accounts of an institution
    ([primitives/src/account_derive.rs]), in UTF-8. *)
Definition ACCOUNT_NAME_MAIN : string := "主账户".
Definition ACCOUNT_NAME_FEE : string := "费用账户".
Definition ACCOUNT_NAME_CLEARING : string := "清算账户".

(** The actions of [InstitutionAssetAction] this pallet asks about. *)
Inductive InstitutionAssetAction : Type := L3DepositIn | L3WithdrawOut | L2ClearingDebit.

Definition OP_SIGN_L3_PAY : ascii := "021".
Definition OP_SIGN_OFFCHAIN_BATCH : ascii := "022".

(** ** What the pallet reads elsewhere

    The registry of institutions ([CidAccountQuery]), the spending whitelist,
    and the cryptography and the codec of the framework. *)
Class ClearingConfig : Type := {
  account_info : AccountId -> option (CidNumber * string);
  find_account : CidNumber -> string -> option AccountId;
  account_exists : AccountId -> bool;
  is_institution_role_authorized : CidNumber -> string -> AccountId -> Z -> bool;
  is_clearing_bank_eligible : AccountId -> bool;
  can_spend : AccountId -> InstitutionAssetAction -> bool;
  blake2_256 : string -> string;
  sr25519_verify : string -> string -> AccountId -> bool;
  encode_intent : PaymentIntent -> string;
  encode_bytes : string -> string;
  encode_account : AccountId -> string;
  encode_u64 : Z -> string;
  encode_batch : list OffchainBatchItem -> string;
}.

Definition signing_hash `{ClearingConfig} (intent : PaymentIntent) : string :=
  signing_message blake2_256 OP_SIGN_L3_PAY (encode_intent intent).

Definition batch_signing_hash `{ClearingConfig} (actor_cid_number actor_role_code : string)
    (institution_account_id : AccountId) (batch_seq : Z) (batch_bytes : string) : string :=
  signing_message blake2_256 OP_SIGN_OFFCHAIN_BATCH
    (encode_bytes actor_cid_number +:+ encode_bytes actor_role_code
     +:+ encode_account institution_account_id +:+ encode_u64 batch_seq +:+ batch_bytes).

Section Clearing.
Context {L : Type} `{Cur : !Currency L} `{Cfg : !ClearingConfig} `{Ord : StorageOrder}.
Notation C := (M (clearing L) ClearingError).
Implicit Types s : clearing L.

Definition cl_event (e : ClearingEvent) : clearing L -> clearing L :=
  set_clearing_events (fun l => l ++ [e]).

(** [Currency::transfer], refused with the error given. *)
Definition move_money (from to : AccountId) (amount : Z) (e : ClearingError) : C unit :=
  moved ← gets (fun s => transfer (onchain_ledger (chain s)) from to amount);
  l ← ok_or moved e;
  modify (set_chain (onchain_with l)).

Definition deposit_of (s : clearing L) (bank : CidNumber) (user : AccountId) : Z :=
  default 0 (DepositBalance s !! (bank, user)).
Definition bank_total (s : clearing L) (bank : CidNumber) : Z :=
  default 0 (BankTotalDeposits s !! bank).

Definition upd_deposit (bank : CidNumber) (user : AccountId) (f : Z -> Z) s : clearing L :=
  set_DepositBalance (fun m => <[(bank, user) := f (default 0 (m !! (bank, user)))]> m) s.
Definition upd_total (bank : CidNumber) (f : Z -> Z) s : clearing L :=
  set_BankTotalDeposits (fun m => <[bank := f (default 0 (m !! bank))]> m) s.

(** ** Legitimacy of a bank ([bank_check.rs]) *)

Definition CID_K1_INDEX : nat := 6.
Definition CID_R5_SEPARATOR_INDEX : nat := 5.

Definition subject_property_is_private_institution (cid : CidNumber) : bool :=
  if decide (String.length cid <= CID_K1_INDEX \/
             String.get CID_R5_SEPARATOR_INDEX cid <> Some "-"%char)%nat then false
  else bool_decide (String.get CID_K1_INDEX cid = Some "S"%char)
       || bool_decide (String.get CID_K1_INDEX cid = Some "F"%char).

(** [CidAccountQuery::is_registered_clearing_node] ([runtime/src/configs.rs]). *)
Definition is_registered_clearing_node s (bank : AccountId) : bool :=
  match account_info bank with
  | None => false
  | Some (cid, _) => bool_decide (is_Some (ClearingBankNodes s !! cid))
  end.

Definition fee_account_of (cid : CidNumber) : option AccountId := find_account cid ACCOUNT_NAME_FEE.
Definition clearing_account_of (cid : CidNumber) : option AccountId :=
  find_account cid ACCOUNT_NAME_CLEARING.

Definition is_clearing_bank_account (addr : AccountId) : bool :=
  match account_info addr with
  | Some (cid, _) => subject_property_is_private_institution cid && account_exists addr
  | None => false
  end.

Definition ensure_can_be_bound (cid : CidNumber) : C unit :=
  ensure (subject_property_is_private_institution cid) NotPrivateInstitution ;;
  main ← ok_or (find_account cid ACCOUNT_NAME_MAIN) NotRegisteredClearingBank;
  ensure (account_exists main) ClearingBankAccountNotFound ;;
  ensure (is_clearing_bank_eligible main) NotEligibleForClearingBank ;;
  declared ← gets (fun s => is_registered_clearing_node s main);
  ensure declared ClearingBankNotRegisteredAsNode ;;
  ok_or (clearing_account_of cid) ClearingAccountNotFound ;;
  mret tt.

Definition ensure_institution_account (actor_cid_number : CidNumber)
    (institution_account_id : AccountId) (required_account_name : string) : C unit :=
  info ← ok_or (account_info institution_account_id) NotRegisteredClearingBank;
  ensure (bool_decide (info.1 = actor_cid_number)) InstitutionMismatch ;;
  ensure (bool_decide (info.2 = required_account_name)) NotMainAccount ;;
  ensure (account_exists institution_account_id) ClearingBankAccountNotFound.

(** ** Accounts of the citizens ([deposit.rs]) *)

Definition do_bind_clearing_bank (user : AccountId) (bank_cid : CidNumber) : C unit :=
  bound ← gets (fun s => bool_decide (is_Some (UserBank s !! user)));
  ensure (negb bound) AlreadyHasBank ;;
  ensure_can_be_bound bank_cid ;;
  modify (set_UserBank <[user := bank_cid]>) ;;
  modify (set_DepositBalance <[(bank_cid, user) := 0]>) ;;
  modify (cl_event (BankBound user bank_cid)).

Definition do_deposit (user : AccountId) (amount : Z) : C unit :=
  ensure (bool_decide (0 < amount)) DepositAmountTooSmall ;;
  bank ← gets (fun s => UserBank s !! user);
  bank_cid ← ok_or bank NoOpenedBank;
  bank_clearing ← ok_or (clearing_account_of bank_cid) ClearingAccountNotFound;
  ensure (can_spend user L3DepositIn) DepositForbidden ;;
  move_money user bank_clearing amount TransferRefused ;;
  modify (upd_deposit bank_cid user (fun b => saturating_add u128_max b amount)) ;;
  modify (upd_total bank_cid (fun t => saturating_add u128_max t amount)) ;;
  modify (cl_event (Deposited user bank_cid amount)).

Definition do_withdraw (user : AccountId) (amount : Z) : C unit :=
  ensure (bool_decide (0 < amount)) WithdrawAmountTooSmall ;;
  bank ← gets (fun s => UserBank s !! user);
  bank_cid ← ok_or bank NoOpenedBank;
  current ← gets (fun s => deposit_of s bank_cid user);
  ensure (bool_decide (amount <= current)) InsufficientDepositBalance ;;
  bank_clearing ← ok_or (clearing_account_of bank_cid) ClearingAccountNotFound;
  ensure (can_spend bank_clearing L3WithdrawOut) WithdrawForbidden ;;
  move_money bank_clearing user amount InsufficientBankLiquidity ;;
  modify (upd_deposit bank_cid user (fun b => saturating_sub b amount)) ;;
  modify (upd_total bank_cid (fun t => saturating_sub t amount)) ;;
  modify (cl_event (Withdrawn user bank_cid amount)).

Definition do_switch_bank (user : AccountId) (new_bank_cid : CidNumber) : C unit :=
  bank ← gets (fun s => UserBank s !! user);
  old_bank_cid ← ok_or bank NoOpenedBank;
  ensure (negb (bool_decide (old_bank_cid = new_bank_cid))) NewBankSameAsCurrent ;;
  left_over ← gets (fun s => deposit_of s old_bank_cid user);
  ensure (bool_decide (left_over = 0)) MustClearBalanceFirst ;;
  ensure_can_be_bound new_bank_cid ;;
  modify (set_DepositBalance (delete (old_bank_cid, user))) ;;
  modify (set_UserBank <[user := new_bank_cid]>) ;;
  modify (set_DepositBalance <[(new_bank_cid, user) := 0]>) ;;
  modify (cl_event (BankSwitched user old_bank_cid new_bank_cid)).

(** ** Fee rates ([fee_config.rs]) *)

Definition do_propose_l2_fee_rate (now : Z) (who : AccountId) (actor_cid_number : CidNumber)
    (actor_role_code : string) (institution_account_id : AccountId) (new_rate_bp : Z) : C unit :=
  ensure_institution_account actor_cid_number institution_account_id ACCOUNT_NAME_MAIN ;;
  ensure_can_be_bound actor_cid_number ;;
  ensure (is_institution_role_authorized actor_cid_number actor_role_code who
    ACTION_OFFCHAIN_PROPOSE_FEE_RATE) UnauthorizedAdmin ;;
  global ← gets MaxL2FeeRateBp;
  let max := Z.max global L2_FEE_RATE_BP_MAX in
  ensure (bool_decide (L2_FEE_RATE_BP_MIN <= new_rate_bp /\ new_rate_bp <= max))
    InvalidL2FeeRate ;;
  let effective_at := saturating_add u32_max now RATE_CHANGE_DELAY_BLOCKS in
  modify (set_L2FeeRateProposed <[actor_cid_number := (new_rate_bp, effective_at)]>) ;;
  modify (cl_event (EvL2FeeRateProposed actor_cid_number new_rate_bp effective_at)).

(** The first due proposals in the order of the storage, at most 32. *)
Fixpoint due_rates (now : Z) (room : nat) (l : list (CidNumber * (Z * Z)))
    : list (CidNumber * Z) :=
  match l, room with
  | [], _ => []
  | _, O => []
  | (bank, (rate, effective_at)) :: l, S room' =>
      if decide (effective_at <= now) then (bank, rate) :: due_rates now room' l
      else due_rates now room l
  end.

Definition activate_rate s (r : CidNumber * Z) : clearing L :=
  cl_event (L2FeeRateActivated r.1 r.2)
    (set_L2FeeRateProposed (delete r.1) (set_L2FeeRateBp <[r.1 := r.2]> s)).

Definition activate_pending_rates (now : Z) s : clearing L :=
  foldl activate_rate s
    (due_rates now MAX_L2_FEE_ACTIVATIONS_PER_BLOCK
       (hash_order _ (map_to_list (L2FeeRateProposed s)))).

Definition do_set_max_l2_fee_rate (new_max : Z) : C unit :=
  ensure (bool_decide (L2_FEE_RATE_BP_MIN <= new_max /\ new_max <= L2_FEE_RATE_BP_MAX))
    InvalidL2FeeRate ;;
  modify (set_MaxL2FeeRateBp (fun _ => new_max)) ;;
  modify (cl_event (MaxL2FeeRateUpdated new_max)).

Definition current_rate_bp s (bank_cid : CidNumber) : Z := default 0 (L2FeeRateBp s !! bank_cid).

(** ** Nonces and solvency ([nonce.rs], [solvency.rs]) *)

Definition nonce_of s (payer : AccountId) : Z := default 0 (L3PaymentNonce s !! payer).

Definition consume_nonce (payer : AccountId) (submitted_nonce : Z) : C unit :=
  current ← gets (fun s => nonce_of s payer);
  expected ← ok_or (checked_add u64_max current 1) L3NonceOverflow;
  ensure (bool_decide (submitted_nonce = expected)) InvalidL3Nonce ;;
  modify (set_L3PaymentNonce <[payer := submitted_nonce]>).

Definition ensure_can_debit (bank_cid : CidNumber) (debit_fen : Z) : C unit :=
  bank_clearing ← ok_or (clearing_account_of bank_cid) ClearingAccountNotFound;
  onchain_balance ← gets (fun s => free_balance (onchain_ledger (chain s)) bank_clearing);
  total_deposits ← gets (fun s => bank_total s bank_cid);
  ensure (bool_decide (debit_fen <= onchain_balance)) InsufficientBankLiquidity ;;
  ensure (bool_decide (total_deposits <= onchain_balance - debit_fen)) SolvencyProtected.

(** What a wallet asks for before it signs. *)
Definition next_nonce s (payer : AccountId) : Z := saturating_add u64_max (nonce_of s payer) 1.

(** The ratio of the clearing account to the deposits, in basis points. *)
Definition solvency_ratio_bp s (bank_cid : CidNumber) : Z :=
  match clearing_account_of bank_cid with
  | None => 0
  | Some bank_clearing =>
      if decide (bank_total s bank_cid = 0) then u32_max
      else Z.min (saturating_mul u128_max
        (free_balance (onchain_ledger (chain s)) bank_clearing) 10000 / bank_total s bank_cid) u32_max
  end.

(** ** Settlement of a batch ([settlement.rs]) *)

Definition calc_fee (transfer_amount rate_bp : Z) : option Z :=
  numerator ← checked_mul u128_max transfer_amount rate_bp;
  let quotient := numerator / 10000 in
  let remainder := numerator mod 10000 in
  let rounded := if decide (5000 <= remainder) then quotient + 1 else quotient in
  Some (Z.max rounded OFFCHAIN_MIN_FEE).

Definition province_shard_from_cid (cid : CidNumber) : option string :=
  if decide (2 <= String.length cid)%nat then Some (String.substring 0 2 cid) else None.

(** The [BTreeMap] of the projected debits: sorted by its keys. *)
Fixpoint add_debit (bank : CidNumber) (v : Z) (l : list (CidNumber * Z)) : list (CidNumber * Z) :=
  match l with
  | [] => [(bank, saturating_add u128_max 0 v)]
  | (b, w) :: l' =>
      match String.compare bank b with
      | Eq => (b, saturating_add u128_max w v) :: l'
      | Lt => (bank, saturating_add u128_max 0 v) :: l
      | Gt => (b, w) :: add_debit bank v l'
      end
  end.

Definition item_debit (item : OffchainBatchItem) : Z :=
  if decide (payer_bank_cid item = recipient_bank_cid item) then fee_amount item
  else saturating_add u128_max (transfer_amount item) (fee_amount item).

(** The checks of one item before anything is moved. *)
Definition check_item (now : Z) (actor_cid_number : CidNumber) (item : OffchainBatchItem)
    : C unit :=
  ensure (bool_decide (recipient_bank_cid item = actor_cid_number)) InstitutionMismatch ;;
  ensure (bool_decide (0 < transfer_amount item)) InvalidTransferAmount ;;
  ensure (negb (bool_decide (payer_account_id item = recipient_account_id item))) SelfTransfer ;;
  ensure (bool_decide (now <= expires_at item)) ExpiredIntent ;;
  payer_bank ← gets (fun s => UserBank s !! payer_account_id item);
  ensure (bool_decide (payer_bank = Some (payer_bank_cid item))) UserBankMismatch ;;
  recipient_bank ← gets (fun s => UserBank s !! recipient_account_id item);
  ensure (bool_decide (recipient_bank = Some (recipient_bank_cid item))) UserBankMismatch ;;
  (if decide (payer_bank_cid item = recipient_bank_cid item) then mret tt
   else ensure_can_be_bound (payer_bank_cid item)) ;;
  rate_bp ← gets (fun s => current_rate_bp s (recipient_bank_cid item));
  ensure (bool_decide (0 < rate_bp)) L2FeeRateNotConfigured ;;
  expected_fee ← ok_or (calc_fee (transfer_amount item) rate_bp) TransferAmountTooLarge;
  ensure (bool_decide (fee_amount item = expected_fee)) InvalidFeeAmount.

Fixpoint check_items (now : Z) (actor_cid_number : CidNumber) (batch : list OffchainBatchItem)
    (debits : list (CidNumber * Z)) (total_fee : Z) : C (list (CidNumber * Z) * Z) :=
  match batch with
  | [] => mret (debits, total_fee)
  | item :: batch =>
      check_item now actor_cid_number item ;;
      check_items now actor_cid_number batch (add_debit (payer_bank_cid item) (item_debit item) debits)
        (saturating_add u128_max total_fee (fee_amount item))
  end.

Fixpoint check_debits (debits : list (CidNumber * Z)) (total : Z) : C Z :=
  match debits with
  | [] => mret total
  | (bank, debit) :: debits =>
      ensure_can_debit bank debit ;;
      check_debits debits (saturating_add u128_max total debit)
  end.

(** The money and the deposits of one payment. *)
Definition settle_same_bank (item : OffchainBatchItem) (payer_clearing fee_account : AccountId)
    : C unit :=
  let bank := payer_bank_cid item in
  let total_debit := saturating_add u128_max (transfer_amount item) (fee_amount item) in
  modify (upd_deposit bank (payer_account_id item) (fun b => saturating_sub b total_debit)) ;;
  modify (upd_deposit bank (recipient_account_id item)
    (fun b => saturating_add u128_max b (transfer_amount item))) ;;
  modify (upd_total bank (fun t => saturating_sub t (fee_amount item))) ;;
  move_money payer_clearing fee_account (fee_amount item) TransferRefused.

Definition settle_across (item : OffchainBatchItem) (payer_clearing fee_account : AccountId)
    : C unit :=
  let total_debit := saturating_add u128_max (transfer_amount item) (fee_amount item) in
  recipient_clearing ← ok_or (clearing_account_of (recipient_bank_cid item))
    ClearingAccountNotFound;
  move_money payer_clearing recipient_clearing (transfer_amount item) TransferRefused ;;
  move_money payer_clearing fee_account (fee_amount item) TransferRefused ;;
  modify (upd_deposit (payer_bank_cid item) (payer_account_id item)
    (fun b => saturating_sub b total_debit)) ;;
  modify (upd_deposit (recipient_bank_cid item) (recipient_account_id item)
    (fun b => saturating_add u128_max b (transfer_amount item))) ;;
  modify (upd_total (payer_bank_cid item) (fun t => saturating_sub t total_debit)) ;;
  modify (upd_total (recipient_bank_cid item)
    (fun t => saturating_add u128_max t (transfer_amount item))).

Definition settled_event (item : OffchainBatchItem) : ClearingEvent :=
  PaymentSettled (tx_id item) (payer_account_id item) (payer_bank_cid item)
    (recipient_account_id item) (recipient_bank_cid item) (transfer_amount item)
    (fee_amount item).

Definition execute_single_item (now : Z) (item : OffchainBatchItem) : C unit :=
  ensure (sr25519_verify (payer_sig item) (signing_hash (to_intent item)) (payer_account_id item))
    InvalidL3Signature ;;
  consume_nonce (payer_account_id item) (payer_nonce item) ;;
  province_shard ← ok_or (province_shard_from_cid (payer_bank_cid item)) InstitutionMismatch;
  processed ← gets (fun s => bool_decide ((province_shard, tx_id item) ∈ ProcessedOffchainTx s));
  ensure (negb processed) TxAlreadyProcessed ;;
  payer_clearing ← ok_or (clearing_account_of (payer_bank_cid item)) ClearingAccountNotFound;
  fee_account ← ok_or (fee_account_of (recipient_bank_cid item)) FeeAccountNotFound;
  ensure (can_spend payer_clearing L2ClearingDebit) ClearingDebitForbidden ;;
  payer_balance ← gets (fun s => deposit_of s (payer_bank_cid item) (payer_account_id item));
  let total_debit := saturating_add u128_max (transfer_amount item) (fee_amount item) in
  ensure (bool_decide (total_debit <= payer_balance)) InsufficientDepositBalance ;;
  (if decide (payer_bank_cid item = recipient_bank_cid item)
   then settle_same_bank item payer_clearing fee_account
   else settle_across item payer_clearing fee_account) ;;
  modify (set_ProcessedOffchainTx (fun m => {[(province_shard, tx_id item)]} ∪ m)) ;;
  modify (set_ProcessedOffchainTxAt <[(province_shard, tx_id item) := now]>) ;;
  modify (cl_event (settled_event item)).

(** The on-chain fee on the fees of the batch, by the same charger as every
    other execution. *)
Definition charge_batch (r : fee_recipients) (payer : AccountId) (basis : Z) : C Z := fun s =>
  match execution_charge r payer basis (chain s) with
  | (Ok fee, c) => (Ok fee, set_chain (fun _ => c) s)
  | (Err _, c) => (Err ClearingBatchOnchainFeeUnpaid, set_chain (fun _ => c) s)
  end.

Definition execute_clearing_bank_batch (now : Z) (r : fee_recipients) (submitter : AccountId)
    (actor_cid_number : CidNumber) (actor_role_code : string)
    (institution_account_id : AccountId) (batch : list OffchainBatchItem) : C unit :=
  ensure_institution_account actor_cid_number institution_account_id ACCOUNT_NAME_MAIN ;;
  ensure (is_institution_role_authorized actor_cid_number actor_role_code submitter
    ACTION_OFFCHAIN_SUBMIT_BATCH) UnauthorizedAdmin ;;
  '(projected_debits, total_batch_fee) ← check_items now actor_cid_number batch [] 0;
  total_batch_debit ← check_debits projected_debits 0;
  for_each (execute_single_item now) batch ;;
  fee_account ← ok_or (fee_account_of actor_cid_number) FeeAccountNotFound;
  charge_batch r fee_account total_batch_fee ;;
  modify (cl_event (ClearingBankBatchSettled actor_cid_number submitter
    (Z.of_nat (length batch) `mod` (u32_max + 1)) total_batch_debit)).

Definition verify_batch_signature (submitter : AccountId) (actor_cid_number actor_role_code : string)
    (institution_account_id : AccountId) (batch_seq : Z) (batch : list OffchainBatchItem)
    (batch_signature : string) : C unit :=
  ensure (bool_decide (String.length batch_signature = 64%nat)) InvalidBatchSignature ;;
  ensure (sr25519_verify batch_signature
    (batch_signing_hash actor_cid_number actor_role_code institution_account_id batch_seq
       (encode_batch batch)) submitter) InvalidBatchSignature.

Definition submit_offchain_batch (now : Z) (r : fee_recipients) (submitter : AccountId)
    (actor_cid_number : CidNumber) (actor_role_code : string)
    (institution_account_id : AccountId) (batch_seq : Z) (batch : list OffchainBatchItem)
    (batch_signature : string) : C unit :=
  ensure (negb (bool_decide (batch = []))) EmptyBatch ;;
  ensure_institution_account actor_cid_number institution_account_id ACCOUNT_NAME_MAIN ;;
  ensure (is_institution_role_authorized actor_cid_number actor_role_code submitter
    ACTION_OFFCHAIN_SUBMIT_BATCH) UnauthorizedAdmin ;;
  verify_batch_signature submitter actor_cid_number actor_role_code institution_account_id
    batch_seq batch batch_signature ;;
  last ← gets (fun s => default 0 (LastClearingBatchSeq s !! actor_cid_number));
  ensure (bool_decide (batch_seq = saturating_add u64_max last 1)) InvalidBatchSeq ;;
  transact (
    execute_clearing_bank_batch now r submitter actor_cid_number actor_role_code
      institution_account_id batch ;;
    modify (set_LastClearingBatchSeq <[actor_cid_number := batch_seq]>)).

(** ** Nodes of the banks ([lib.rs]) *)

Definition ascii_between (lo hi c : ascii) : bool :=
  bool_decide (nat_of_ascii lo <= nat_of_ascii c /\ nat_of_ascii c <= nat_of_ascii hi)%nat.
Definition is_ascii_lowercase := ascii_between "a" "z".
Definition is_ascii_digit := ascii_between "0" "9".
Definition is_ascii_alphanumeric (c : ascii) : bool :=
  ascii_between "A" "Z" c || is_ascii_lowercase c || is_ascii_digit c.

Definition validate_peer_id_bytes (peer_id : string) : result ClearingError unit :=
  guard_ok (bool_decide (46 <= String.length peer_id)%nat) InvalidPeerIdFormat ;;
  guard_ok (String.prefix "12D3KooW" peer_id) InvalidPeerIdFormat ;;
  guard_ok (forallb is_ascii_alphanumeric (String.list_ascii_of_string peer_id)) InvalidPeerIdFormat.

Definition validate_rpc_domain_bytes (domain : string) : result ClearingError unit :=
  guard_ok (negb (bool_decide (domain = ""))) EmptyRpcDomain ;;
  guard_ok (forallb (fun c => is_ascii_lowercase c || is_ascii_digit c
      || bool_decide (c = ".") || bool_decide (c = "-"))%char (String.list_ascii_of_string domain))
    InvalidRpcDomainFormat.

Definition do_register_clearing_bank (now : Z) (who : AccountId) (actor_cid_number : CidNumber)
    (actor_role_code peer domain : string) (port : Z) : C unit :=
  ensure (negb (bool_decide (actor_cid_number = ""))) EmptyActorCidNumber ;;
  ensure (negb (bool_decide (peer = ""))) EmptyPeerId ;;
  ensure (bool_decide (1024 <= port)) InvalidRpcPort ;;
  from_result (validate_peer_id_bytes peer) ;;
  from_result (validate_rpc_domain_bytes domain) ;;
  bank_main ← ok_or (find_account actor_cid_number ACCOUNT_NAME_MAIN) NotRegisteredClearingBank;
  ensure (account_exists bank_main) ClearingBankAccountNotFound ;;
  ensure (is_institution_role_authorized actor_cid_number actor_role_code who
    ACTION_OFFCHAIN_REGISTER_BANK) UnauthorizedAdmin ;;
  ensure (is_clearing_bank_eligible bank_main) NotEligibleForClearingBank ;;
  taken ← gets (fun s => bool_decide (is_Some (ClearingBankNodes s !! actor_cid_number)));
  ensure (negb taken) ClearingBankAlreadyRegistered ;;
  used ← gets (fun s => bool_decide (is_Some (NodePeerToInstitution s !! peer)));
  ensure (negb used) PeerIdAlreadyRegistered ;;
  modify (set_ClearingBankNodes <[actor_cid_number := {|
    peer_id := peer; rpc_domain := domain; rpc_port := port; registered_at := now;
    registrar_account_id := who |}]>) ;;
  modify (set_NodePeerToInstitution <[peer := actor_cid_number]>) ;;
  modify (cl_event (ClearingBankRegistered actor_cid_number peer domain port who)).

Definition do_update_clearing_bank_endpoint (who : AccountId) (actor_cid_number : CidNumber)
    (actor_role_code new_domain : string) (new_port : Z) : C unit :=
  ensure (negb (bool_decide (actor_cid_number = ""))) EmptyActorCidNumber ;;
  ensure (bool_decide (1024 <= new_port)) InvalidRpcPort ;;
  from_result (validate_rpc_domain_bytes new_domain) ;;
  info ← gets (fun s => ClearingBankNodes s !! actor_cid_number);
  info ← ok_or info ClearingBankNodeNotFound;
  ensure (is_institution_role_authorized actor_cid_number actor_role_code who
    ACTION_OFFCHAIN_UPDATE_BANK_ENDPOINT) UnauthorizedAdmin ;;
  modify (set_ClearingBankNodes <[actor_cid_number := {|
    peer_id := peer_id info; rpc_domain := new_domain; rpc_port := new_port;
    registered_at := registered_at info;
    registrar_account_id := registrar_account_id info |}]>) ;;
  modify (cl_event (ClearingBankEndpointUpdated actor_cid_number new_domain new_port who)).

Definition do_unregister_clearing_bank (who : AccountId) (actor_cid_number : CidNumber)
    (actor_role_code : string) : C unit :=
  ensure (negb (bool_decide (actor_cid_number = ""))) EmptyActorCidNumber ;;
  info ← gets (fun s => ClearingBankNodes s !! actor_cid_number);
  info ← ok_or info ClearingBankNodeNotFound;
  ensure (is_institution_role_authorized actor_cid_number actor_role_code who
    ACTION_OFFCHAIN_UNREGISTER_BANK) UnauthorizedAdmin ;;
  modify (set_ClearingBankNodes (delete actor_cid_number)) ;;
  modify (set_NodePeerToInstitution (delete (peer_id info))) ;;
  modify (cl_event (ClearingBankUnregistered actor_cid_number who)).

(** ** Calls *)

Inductive clearing_call : Type :=
| BindClearingBank (user : AccountId) (bank_cid : CidNumber)
| Deposit (user : AccountId) (amount : Z)
| Withdraw (user : AccountId) (amount : Z)
| SwitchBank (user : AccountId) (bank_cid : CidNumber)
| SubmitOffchainBatch (submitter : AccountId) (actor_cid_number : CidNumber)
    (actor_role_code : string) (institution_account_id : AccountId) (batch_seq : Z)
    (batch : list OffchainBatchItem) (batch_signature : string)
| ProposeL2FeeRate (who : AccountId) (actor_cid_number : CidNumber) (actor_role_code : string)
    (institution_account_id : AccountId) (new_rate_bp : Z)
| SetMaxL2FeeRate (new_max : Z)
| RegisterClearingBank (who : AccountId) (actor_cid_number : CidNumber)
    (actor_role_code peer_id rpc_domain : string) (rpc_port : Z)
| UpdateClearingBankEndpoint (who : AccountId) (actor_cid_number : CidNumber)
    (actor_role_code new_domain : string) (new_port : Z)
| UnregisterClearingBank (who : AccountId) (actor_cid_number : CidNumber)
    (actor_role_code : string).

Definition clearing_body (now : Z) (r : fee_recipients) (c : clearing_call) : C unit :=
  match c with
  | BindClearingBank user bank => do_bind_clearing_bank user bank
  | Deposit user amount => do_deposit user amount
  | Withdraw user amount => do_withdraw user amount
  | SwitchBank user bank => do_switch_bank user bank
  | SubmitOffchainBatch submitter cid role account seq batch signature =>
      submit_offchain_batch now r submitter cid role account seq batch signature
  | ProposeL2FeeRate who cid role account rate =>
      do_propose_l2_fee_rate now who cid role account rate
  | SetMaxL2FeeRate new_max => do_set_max_l2_fee_rate new_max
  | RegisterClearingBank who cid role peer domain port =>
      do_register_clearing_bank now who cid role peer domain port
  | UpdateClearingBankEndpoint who cid role domain port =>
      do_update_clearing_bank_endpoint who cid role domain port
  | UnregisterClearingBank who cid role => do_unregister_clearing_bank who cid role
  end.

(** An extrinsic that fails is rolled back. *)
Definition clearing_dispatch (now : Z) (r : fee_recipients) (c : clearing_call) : C unit :=
  transact (clearing_body now r c).
End Clearing.
