(* ===== verification/ClearingSafety.v ===== *)
(** * Clearing banks hold what they owe

    The deposits of every bank add up to its recorded total and its clearing
    account covers that total, whatever calls are made; payments are settled
    once, in the order of their nonces. *)
From S2P Require Import Prelude Cid Types Interfaces Ledger FeePolicy OnchainFee Clearing.

(** ** Sums over the book of deposits *)

Abbreviation book := (gmap (CidNumber * AccountId) Z).

Definition entry (m : book) (bank : CidNumber) (user : AccountId) : Z :=
  default 0 (m !! (bank, user)).
Definition bank_sum (m : book) (bank : CidNumber) : Z :=
  map_fold (fun k v acc => (if decide (k.1 = bank) then v else 0) + acc) 0 m.
Definition book_nonneg (m : book) : Prop := forall k v, m !! k = Some v -> 0 <= v.

Lemma bank_sum_fresh m k v bank :
  m !! k = None -> bank_sum (<[k := v]> m) bank = (if decide (k.1 = bank) then v else 0) + bank_sum m bank.
Proof.
  intros Hk. unfold bank_sum. rewrite map_fold_insert_L; [done| |done]. intros. lia.
Qed.

Lemma bank_sum_delete m b u bank :
  bank_sum (delete (b, u) m) bank
    = bank_sum m bank - (if decide (b = bank) then entry m b u else 0).
Proof.
  unfold entry. destruct (m !! (b, u)) as [w|] eqn:Hw; simpl.
  - rewrite <-(insert_delete_id m (b, u) w Hw) at 2.
    rewrite bank_sum_fresh by apply lookup_delete_eq. simpl. lia.
  - rewrite delete_id by done. case_decide; lia.
Qed.

Lemma bank_sum_insert m b u v bank :
  bank_sum (<[(b, u) := v]> m) bank
    = bank_sum m bank + (if decide (b = bank) then v - entry m b u else 0).
Proof.
  rewrite <-insert_delete_eq, bank_sum_fresh by apply lookup_delete_eq.
  rewrite bank_sum_delete. simpl. case_decide; lia.
Qed.

Lemma bank_sum_nonneg m bank : book_nonneg m -> 0 <= bank_sum m bank.
Proof.
  induction m as [|k v m Hk IH] using map_ind; intros Hm; [done|].
  rewrite bank_sum_fresh by done.
  assert (0 <= v) by (apply (Hm k); apply lookup_insert_eq).
  assert (0 <= bank_sum m bank); [|case_decide; lia].
  apply IH. intros k' v' Hk'. apply (Hm k'). rewrite lookup_insert_ne by congruence. done.
Qed.

Lemma book_nonneg_insert m k v : book_nonneg m -> 0 <= v -> book_nonneg (<[k := v]> m).
Proof. intros Hm Hv k' v' [[_ <-]|[_ H]]%lookup_insert_Some; [done|by eapply Hm]. Qed.
Lemma book_nonneg_delete m k : book_nonneg m -> book_nonneg (delete k m).
Proof. intros Hm k' v' [_ H]%lookup_delete_Some. by eapply Hm. Qed.

Lemma entry_nonneg m b u : book_nonneg m -> 0 <= entry m b u.
Proof. intros Hm. unfold entry. destruct (m !! (b, u)) eqn:Hl; simpl; [by eapply Hm|done]. Qed.

Lemma entry_le m b u : book_nonneg m -> entry m b u <= bank_sum m b.
Proof.
  intros Hm. pose proof (bank_sum_delete m b u b) as Hd. rewrite decide_True in Hd by done.
  pose proof (bank_sum_nonneg _ b (book_nonneg_delete m (b, u) Hm)). lia.
Qed.

Lemma entry_insert m b u v b' u' :
  entry (<[(b, u) := v]> m) b' u' = if decide ((b, u) = (b', u')) then v else entry m b' u'.
Proof.
  unfold entry. case_decide as H; [injection H as -> ->; by rewrite lookup_insert_eq|].
  by rewrite lookup_insert_ne.
Qed.

(** ** The invariant of the money *)

Section Safety.
Context {L : Type} `{Cur : !Currency L} `{Cfg : !ClearingConfig} `{Ord : StorageOrder}.
Implicit Types s : clearing L.

Definition ledger_of s : L := onchain_ledger (chain s).

Record money_ok s : Prop := {
  mo_nonneg : book_nonneg (DepositBalance s);
  mo_bound : forall bank user v, DepositBalance s !! (bank, user) = Some v ->
    UserBank s !! user = Some bank;
  mo_total : forall bank, bank_total s bank = bank_sum (DepositBalance s) bank;
  mo_reserve : forall bank a, clearing_account_of bank = Some a ->
    bank_total s bank <= free_balance (ledger_of s) a;
}.

(** The invariant looks at four items only. *)
Lemma money_ok_view s s' :
  UserBank s' = UserBank s -> DepositBalance s' = DepositBalance s ->
  BankTotalDeposits s' = BankTotalDeposits s -> ledger_of s' = ledger_of s ->
  money_ok s -> money_ok s'.
Proof.
  intros H1 H2 H3 H4 [A B C D]. split; unfold bank_total in *; rewrite ?H1, ?H2, ?H3, ?H4; done.
Qed.

Lemma bank_total_upd bank f s bank' :
  bank_total (upd_total bank f s) bank'
    = if decide (bank = bank') then f (bank_total s bank) else bank_total s bank'.
Proof.
  unfold bank_total, upd_total. simpl. case_decide as H; [subst; by rewrite lookup_insert_eq|].
  by rewrite lookup_insert_ne.
Qed.

Context `{!CurrencyLaws L}.
(** An account belongs to one institution under one name: its address is the
    hash of both. *)
Hypothesis Hregistry : forall cid name cid' name' a,
  find_account cid name = Some a -> find_account cid' name' = Some a -> cid = cid' /\ name = name'.

(** A user signs, so is none of the accounts of an institution. *)
Definition is_user (a : AccountId) : Prop := forall cid name, find_account cid name <> Some a.

Lemma money_total_range bank a s :
  money_ok s -> clearing_account_of bank = Some a -> 0 <= bank_total s bank <= u128_max.
Proof.
  intros [A _ C D] Ha. pose proof (D bank a Ha). pose proof (free_range (ledger_of s) a).
  rewrite C in *. pose proof (bank_sum_nonneg _ bank A). lia.
Qed.

(** Deposits and withdrawals: the book, the total and the clearing account
    move by the same amount. *)
Lemma money_moved s s' bank user delta a :
  money_ok s -> clearing_account_of bank = Some a ->
  UserBank s !! user = Some bank -> UserBank s' = UserBank s ->
  0 <= entry (DepositBalance s) bank user + delta ->
  DepositBalance s' = <[(bank, user) := entry (DepositBalance s) bank user + delta]> (DepositBalance s) ->
  (forall bank', bank_total s' bank'
     = bank_total s bank' + (if decide (bank = bank') then delta else 0)) ->
  free_balance (ledger_of s') a = free_balance (ledger_of s) a + delta ->
  (forall bank' a', bank' <> bank -> clearing_account_of bank' = Some a' ->
     free_balance (ledger_of s) a' <= free_balance (ledger_of s') a') ->
  money_ok s'.
Proof.
  intros [A B C D] Ha Hu HU Hpos HD HT Hfree Hothers. split.
  - rewrite HD. by apply book_nonneg_insert.
  - intros bank' user' v. rewrite HD, HU.
    intros [[[= <- <-] _]|[_ Hl]]%lookup_insert_Some; [done|by eapply B].
  - intros bank'. rewrite HT, HD, C, bank_sum_insert. case_decide; lia.
  - intros bank' a' Ha'. rewrite HT. destruct (decide (bank = bank')) as [<-|Hne].
    + assert (a' = a) as -> by congruence. rewrite Hfree. specialize (D bank a Ha). lia.
    + specialize (D bank' a' Ha'). specialize (Hothers bank' a' ltac:(done) Ha'). lia.
Qed.

Lemma move_money_Ok from to amount e s s' :
  move_money from to amount e s = (Ok tt, s') <->
  exists l, transfer (ledger_of s) from to amount = Some l /\ s' = set_chain (onchain_with l) s.
Proof.
  unfold move_money, ledger_of. split.
  - intros Hr. run_inv. eauto.
  - intros (l & Hl & ->). rewrite bind_gets, Hl. done.
Qed.

Lemma clearing_transfer_in from bank a amount l l' :
  clearing_account_of bank = Some a -> is_user from -> transfer l from a amount = Some l' ->
  free_balance l' a = free_balance l a + amount /\
  forall bank' a', bank' <> bank -> clearing_account_of bank' = Some a' ->
    free_balance l a' <= free_balance l' a'.
Proof.
  intros Ha Hu Ht. assert (Hne : from <> a) by (intros ->; by eapply Hu).
  destruct (transfer_moved _ _ _ _ _ Ht Hne) as (_ & H2 & _ & H4). split; [done|].
  intros bank' a' Hb Ha'. rewrite H4; [done|intros ->; by eapply Hu|].
  intros ->. by destruct (Hregistry _ _ _ _ _ Ha Ha').
Qed.

Lemma clearing_transfer_out to bank a amount l l' :
  clearing_account_of bank = Some a -> is_user to -> transfer l a to amount = Some l' ->
  free_balance l' a = free_balance l a - amount /\
  forall bank' a', bank' <> bank -> clearing_account_of bank' = Some a' ->
    free_balance l a' <= free_balance l' a'.
Proof.
  intros Ha Hu Ht. assert (Hne : a <> to) by (intros <-; by eapply Hu).
  destruct (transfer_moved _ _ _ _ _ Ht Hne) as (H1 & _ & _ & H4). split; [done|].
  intros bank' a' Hb Ha'. rewrite H4; [done| |intros ->; by eapply Hu].
  intros ->. by destruct (Hregistry _ _ _ _ _ Ha Ha').
Qed.

Lemma ensure_can_be_bound_Ok bank s u s' :
  ensure_can_be_bound bank s = (Ok u, s') -> s' = s /\ is_Some (clearing_account_of bank).
Proof. unfold ensure_can_be_bound. intros Hr. run_inv. split; [done|]. by eexists. Qed.

Lemma ensure_institution_account_Ok cid a name s u s' :
  ensure_institution_account cid a name s = (Ok u, s') -> s' = s.
Proof. unfold ensure_institution_account. intros Hr. by run_inv. Qed.

Lemma deposit_money user amount s s' :
  is_user user -> do_deposit user amount s = (Ok tt, s') -> money_ok s -> money_ok s'.
Proof.
  intros Hu Hr Hm. unfold do_deposit in Hr. run_inv.
  match goal with H : move_money _ _ _ _ _ = _ |- _ => apply move_money_Ok in H as (l & Ht & ->) end.
  match goal with H : UserBank s !! user = Some ?b, Ha : clearing_account_of ?b = Some ?a |- _ =>
    rename b into bank; rename a into acct; rename H into Hbank; rename Ha into Hacct end.
  destruct (clearing_transfer_in user bank acct amount _ _ Hacct Hu Ht) as [Hfree Hothers].
  pose proof (mo_reserve s Hm bank acct Hacct) as Hres. pose proof (mo_total s Hm bank) as Htot.
  pose proof (entry_le _ bank user (mo_nonneg s Hm)).
  pose proof (entry_nonneg _ bank user (mo_nonneg s Hm)).
  pose proof (free_range l acct).
  apply (money_moved s _ bank user amount acct); simpl; try done.
  - lia.
  - f_equal. unfold saturating_add, entry in *. lia.
  - intros bank'. unfold bank_total at 1. simpl. fold (bank_total s bank').
    destruct (decide (bank = bank')) as [<-|Hne].
    + rewrite lookup_insert_eq. simpl. fold (bank_total s bank). unfold saturating_add. lia.
    + rewrite lookup_insert_ne by done. fold (bank_total s bank'). lia.
Qed.

Lemma withdraw_money user amount s s' :
  is_user user -> do_withdraw user amount s = (Ok tt, s') -> money_ok s -> money_ok s'.
Proof.
  intros Hu Hr Hm. unfold do_withdraw in Hr. run_inv.
  match goal with H : move_money _ _ _ _ _ = _ |- _ => apply move_money_Ok in H as (l & Ht & ->) end.
  match goal with H : UserBank s !! user = Some ?b, Ha : clearing_account_of ?b = Some ?a |- _ =>
    rename b into bank; rename a into acct; rename H into Hbank; rename Ha into Hacct end.
  destruct (clearing_transfer_out user bank acct amount _ _ Hacct Hu Ht) as [Hfree Hothers].
  pose proof (mo_total s Hm bank) as Htot. pose proof (entry_le _ bank user (mo_nonneg s Hm)).
  match goal with H : amount <= deposit_of s bank user |- _ => rename H into Hle end.
  unfold deposit_of in Hle. fold (entry (DepositBalance s) bank user) in Hle.
  apply (money_moved s _ bank user (- amount) acct); simpl; try done.
  - lia.
  - f_equal. unfold saturating_sub, entry in *. lia.
  - intros bank'. unfold bank_total at 1. simpl.
    destruct (decide (bank = bank')) as [<-|Hne].
    + rewrite lookup_insert_eq. simpl. fold (bank_total s bank). unfold saturating_sub. lia.
    + rewrite lookup_insert_ne by done. fold (bank_total s bank'). lia.
Qed.

Lemma bind_money user bank s s' :
  do_bind_clearing_bank user bank s = (Ok tt, s') -> money_ok s -> money_ok s'.
Proof.
  intros Hr [A B C D]. unfold do_bind_clearing_bank in Hr. run_inv.
  match goal with H : ensure_can_be_bound _ _ = _ |- _ => apply ensure_can_be_bound_Ok in H as [-> _] end.
  match goal with H : ~ is_Some _ |- _ => rename H into Hnone end.
  apply eq_None_not_Some in Hnone.
  assert (Hfresh : entry (DepositBalance s) bank user = 0).
  { unfold entry. destruct (DepositBalance s !! (bank, user)) eqn:Hl; [|done].
    apply B in Hl. congruence. }
  split; simpl.
  - by apply book_nonneg_insert.
  - intros bank' user' v [[[= <- <-] _]|[Hne Hl]]%lookup_insert_Some; [by rewrite lookup_insert_eq|].
    apply B in Hl. rewrite lookup_insert_ne; [done|congruence].
  - intros bank'. unfold bank_total. simpl. fold (bank_total s bank').
    rewrite C, bank_sum_insert, Hfresh. case_decide; lia.
  - exact D.
Qed.

Lemma switch_money user bank s s' :
  do_switch_bank user bank s = (Ok tt, s') -> money_ok s -> money_ok s'.
Proof.
  intros Hr [A B C D]. unfold do_switch_bank in Hr. run_inv.
  match goal with H : ensure_can_be_bound _ _ = _ |- _ => apply ensure_can_be_bound_Ok in H as [-> _] end.
  match goal with H : UserBank s !! user = Some ?b |- _ => rename b into old; rename H into Hold end.
  match goal with H : deposit_of s old user = 0 |- _ => rename H into Hzero end.
  assert (Hfresh : entry (DepositBalance s) bank user = 0).
  { unfold entry. destruct (DepositBalance s !! (bank, user)) eqn:Hl; [|done].
    apply B in Hl. congruence. }
  split; simpl.
  - apply book_nonneg_insert; [|done]. by apply book_nonneg_delete.
  - intros bank' user' v [[[= <- <-] _]|[Hne [Hnd Hl]%lookup_delete_Some]]%lookup_insert_Some;
      [by rewrite lookup_insert_eq|].
    apply B in Hl. rewrite lookup_insert_ne; [done|]. intros <-. congruence.
  - intros bank'. unfold bank_total. simpl. fold (bank_total s bank').
    rewrite C, bank_sum_insert, bank_sum_delete. unfold deposit_of in Hzero.
    fold (entry (DepositBalance s) old user) in Hzero. rewrite Hzero.
    assert (entry (delete (old, user) (DepositBalance s)) bank user = 0) as ->.
    { unfold entry. rewrite lookup_delete_ne by congruence. exact Hfresh. }
    repeat case_decide; lia.
  - exact D.
Qed.

(** ** Batches *)

(** What the first pass has checked of an item. *)
Record item_checked (now : Z) (actor : CidNumber) s (item : OffchainBatchItem) : Prop := {
  ic_recipient : recipient_bank_cid item = actor;
  ic_positive : 0 < transfer_amount item;
  ic_distinct : payer_account_id item <> recipient_account_id item;
  ic_open : now <= expires_at item;
  ic_payer_bank : UserBank s !! payer_account_id item = Some (payer_bank_cid item);
  ic_recipient_bank : UserBank s !! recipient_account_id item = Some (recipient_bank_cid item);
  ic_fee : calc_fee (transfer_amount item) (current_rate_bp s actor) = Some (fee_amount item);
  ic_fee_positive : OFFCHAIN_MIN_FEE <= fee_amount item;
}.

Lemma calc_fee_min amount rate fee : calc_fee amount rate = Some fee -> OFFCHAIN_MIN_FEE <= fee.
Proof.
  unfold calc_fee. destruct (checked_mul _ _ _); [|done]. simpl. intros [= <-]. lia.
Qed.

Lemma check_item_Ok now actor item s u s' :
  check_item now actor item s = (Ok u, s') -> s' = s /\ item_checked now actor s item.
Proof.
  unfold check_item. intros Hr. run_inv.
  match goal with H : (if decide ?P then _ else _) s = (Ok _, ?s1) |- _ =>
    assert (s1 = s) as ->; [destruct (decide P) as [Hsame|Hsame]; [by run_inv|]|] end.
  { match goal with H : ensure_can_be_bound _ _ = _ |- _ => by apply ensure_can_be_bound_Ok in H as [-> _] end. }
  run_inv. split; [done|]. split; try done. by eapply calc_fee_min.
Qed.

Lemma check_items_Ok now actor batch debits fee s r s' :
  check_items now actor batch debits fee s = (Ok r, s') ->
  s' = s /\ Forall (item_checked now actor s) batch.
Proof.
  revert debits fee. induction batch as [|item batch IH]; intros debits fee; simpl; intros Hr.
  { by run_inv. }
  apply bind_Ok in Hr as (u & s1 & [-> Hi]%check_item_Ok & Hr).
  apply IH in Hr as [-> Hf]. by split; [|constructor].
Qed.

Lemma check_items_total now actor batch debits fee s r s' :
  check_items now actor batch debits fee s = (Ok r, s') ->
  r.2 = foldl (fun f item => saturating_add u128_max f (fee_amount item)) fee batch.
Proof.
  revert debits fee s. induction batch as [|item batch IH]; intros debits fee s; simpl; intros Hr.
  { by run_inv. }
  apply bind_Ok in Hr as (u & s1 & _ & Hr). by apply IH in Hr.
Qed.

Lemma check_debits_Ok debits total s r s' : check_debits debits total s = (Ok r, s') -> s' = s.
Proof.
  revert total. induction debits as [|[bank d] debits IH]; intros total; simpl; intros Hr.
  { by run_inv. }
  apply bind_Ok in Hr as (u & s1 & Hd & Hr). unfold ensure_can_debit in Hd. run_inv. by eapply IH.
Qed.

(** The amounts of an item fit the width together. *)
Definition amounts_ok (item : OffchainBatchItem) : Prop :=
  transfer_amount item + fee_amount item <= u128_max.

Definition item_total (item : OffchainBatchItem) : Z := transfer_amount item + fee_amount item.

(** The book after one payment. *)
Definition paid_book (item : OffchainBatchItem) (m : book) : book :=
  let m1 := <[(payer_bank_cid item, payer_account_id item)
    := entry m (payer_bank_cid item) (payer_account_id item) - item_total item]> m in
  <[(recipient_bank_cid item, recipient_account_id item)
    := entry m1 (recipient_bank_cid item) (recipient_account_id item) + transfer_amount item]> m1.

Lemma paid_book_sum item m bank :
  payer_account_id item <> recipient_account_id item ->
  bank_sum (paid_book item m) bank = bank_sum m bank
    - (if decide (payer_bank_cid item = bank) then item_total item else 0)
    + (if decide (recipient_bank_cid item = bank) then transfer_amount item else 0).
Proof.
  intros Hne. unfold paid_book. rewrite !bank_sum_insert. repeat case_decide; lia.
Qed.

Lemma paid_book_nonneg item m :
  book_nonneg m -> item_total item <= entry m (payer_bank_cid item) (payer_account_id item) ->
  0 <= transfer_amount item -> book_nonneg (paid_book item m).
Proof.
  intros Hm Hle Ht. unfold paid_book.
  assert (H1 : book_nonneg (<[(payer_bank_cid item, payer_account_id item)
    := entry m (payer_bank_cid item) (payer_account_id item) - item_total item]> m))
    by (apply book_nonneg_insert; [done|lia]).
  apply book_nonneg_insert; [done|].
  pose proof (entry_nonneg _ (recipient_bank_cid item) (recipient_account_id item) H1). lia.
Qed.

(** What one payment does to the four items of the invariant. *)
Record paid (item : OffchainBatchItem) s s' : Prop := {
  pd_users : UserBank s' = UserBank s;
  pd_rates : L2FeeRateBp s' = L2FeeRateBp s;
  pd_book : DepositBalance s' = paid_book item (DepositBalance s);
  pd_totals : forall bank, bank_total s' bank = bank_total s bank
    - (if decide (payer_bank_cid item = bank) then item_total item else 0)
    + (if decide (recipient_bank_cid item = bank) then transfer_amount item else 0);
  pd_covered : item_total item
    <= entry (DepositBalance s) (payer_bank_cid item) (payer_account_id item);
  pd_money : forall bank a, clearing_account_of bank = Some a ->
    free_balance (ledger_of s') a = free_balance (ledger_of s) a
      - (if decide (payer_bank_cid item = bank) then item_total item else 0)
      + (if decide (recipient_bank_cid item = bank) then transfer_amount item else 0);
}.

Lemma paid_money now actor item s s' :
  item_checked now actor s item -> paid item s s' -> money_ok s -> money_ok s'.
Proof.
  intros Hi [P1 _ P2 P3 P4 P5] [A B C D]. destruct Hi as [_ Hpos Hne _ Hpb Hrb _ _]. split.
  - rewrite P2. apply paid_book_nonneg; [done|done|lia].
  - intros bank user v. rewrite P1, P2. unfold paid_book.
    intros [[[= <- <-] _]|[_ [[[= <- <-] _]|[_ Hl]]%lookup_insert_Some]]%lookup_insert_Some;
      [done|done|by eapply B].
  - intros bank. rewrite P3, P2, C, paid_book_sum by done. done.
  - intros bank a Ha. rewrite P3, (P5 bank a Ha). specialize (D bank a Ha). lia.
Qed.

(** The two updates of the book, when nothing saturates. *)
Lemma deposits_updated item s :
  book_nonneg (DepositBalance s) ->
  item_total item <= entry (DepositBalance s) (payer_bank_cid item) (payer_account_id item) ->
  payer_account_id item <> recipient_account_id item -> 0 <= transfer_amount item ->
  bank_sum (DepositBalance s) (recipient_bank_cid item) + transfer_amount item
    - (if decide (payer_bank_cid item = recipient_bank_cid item) then item_total item else 0)
    <= u128_max ->
  upd_deposit (recipient_bank_cid item) (recipient_account_id item)
    (fun b => saturating_add u128_max b (transfer_amount item))
    (upd_deposit (payer_bank_cid item) (payer_account_id item)
       (fun b => saturating_sub b (item_total item)) s)
  = set_DepositBalance (fun _ => paid_book item (DepositBalance s)) s.
Proof.
  intros Hm Hle Hne Ht Hmax. unfold upd_deposit, set_DepositBalance, paid_book. simpl. f_equal.
  assert (saturating_sub (default 0 (DepositBalance s !! (payer_bank_cid item, payer_account_id item)))
      (item_total item)
    = entry (DepositBalance s) (payer_bank_cid item) (payer_account_id item) - item_total item) as ->
    by (unfold saturating_sub, entry in *; lia).
  set (m1 := <[(payer_bank_cid item, payer_account_id item) := _]> (DepositBalance s)).
  f_equal. fold (entry m1 (recipient_bank_cid item) (recipient_account_id item)).
  assert (H1 : book_nonneg m1) by (apply book_nonneg_insert; [done|lia]).
  pose proof (entry_le m1 (recipient_bank_cid item) (recipient_account_id item) H1) as He.
  unfold m1 in He at 2. rewrite bank_sum_insert in He.
  unfold saturating_add. case_decide; lia.
Qed.

(** An account of one name is never one of another, nor another institution's. *)
Lemma clearing_not_fee bank a cid : clearing_account_of bank = Some a -> fee_account_of cid <> Some a.
Proof. intros Ha Hf. by destruct (Hregistry _ _ _ _ _ Ha Hf). Qed.

Lemma clearing_inj bank bank' a :
  clearing_account_of bank = Some a -> clearing_account_of bank' = Some a -> bank = bank'.
Proof. intros Ha Ha'. by destruct (Hregistry _ _ _ _ _ Ha Ha'). Qed.

(** Out of the clearing account of a bank, into the fee account of another. *)
Lemma fee_transfer bank a cid fee_acct fee l l' :
  clearing_account_of bank = Some a -> fee_account_of cid = Some fee_acct ->
  transfer l a fee_acct fee = Some l' ->
  forall bank' a', clearing_account_of bank' = Some a' ->
    free_balance l' a' = free_balance l a' - (if decide (bank = bank') then fee else 0).
Proof.
  intros Ha Hf Ht bank' a' Ha'.
  assert (Hne : a <> fee_acct) by (intros ->; exact (clearing_not_fee _ _ _ Ha Hf)).
  destruct (transfer_moved _ _ _ _ _ Ht Hne) as (H1 & _ & _ & H4).
  destruct (decide (bank = bank')) as [<-|Hb].
  - assert (a' = a) as -> by congruence. lia.
  - rewrite H4; [lia|intros ->; exact (Hb (clearing_inj _ _ _ Ha Ha'))|
      intros ->; exact (clearing_not_fee _ _ _ Ha' Hf)].
Qed.

(** From the clearing account of one bank to that of another. *)
Lemma principal_transfer bank a cid b amount l l' :
  clearing_account_of bank = Some a -> clearing_account_of cid = Some b -> bank <> cid ->
  transfer l a b amount = Some l' ->
  forall bank' a', clearing_account_of bank' = Some a' ->
    free_balance l' a' = free_balance l a' - (if decide (bank = bank') then amount else 0)
      + (if decide (cid = bank') then amount else 0).
Proof.
  intros Ha Hb Hbc Ht bank' a' Ha'.
  assert (Hne : a <> b) by (intros ->; exact (Hbc (clearing_inj _ _ _ Ha Hb))).
  destruct (transfer_moved _ _ _ _ _ Ht Hne) as (H1 & H2 & _ & H4).
  destruct (decide (bank = bank')) as [<-|Hb1]; [|destruct (decide (cid = bank')) as [<-|Hb2]].
  - assert (a' = a) as -> by congruence. rewrite decide_False by congruence. lia.
  - assert (a' = b) as -> by congruence. lia.
  - rewrite H4; [lia|intros ->; exact (Hb1 (clearing_inj _ _ _ Ha Ha'))|
      intros ->; exact (Hb2 (clearing_inj _ _ _ Hb Ha'))].
Qed.

Lemma same_bank_paid now actor item payer_clearing fee_account s s' :
  item_checked now actor s item -> amounts_ok item -> money_ok s ->
  payer_bank_cid item = recipient_bank_cid item ->
  clearing_account_of (payer_bank_cid item) = Some payer_clearing ->
  fee_account_of (recipient_bank_cid item) = Some fee_account ->
  item_total item <= entry (DepositBalance s) (payer_bank_cid item) (payer_account_id item) ->
  settle_same_bank item payer_clearing fee_account s = (Ok tt, s') -> paid item s s'.
Proof.
  intros Hi Ha Hm Hsame Hpc Hfa Hle Hr. unfold settle_same_bank in Hr.
  destruct Hi as [_ Hpos Hne _ _ _ _ Hfee]. unfold OFFCHAIN_MIN_FEE in Hfee.
  replace (saturating_add u128_max (transfer_amount item) (fee_amount item)) with (item_total item)
    in Hr by (unfold saturating_add, item_total, amounts_ok in *; lia).
  pose proof (entry_le _ (payer_bank_cid item) (payer_account_id item) (mo_nonneg s Hm)) as Hent.
  pose proof (mo_total s Hm (payer_bank_cid item)) as Htot.
  pose proof (money_total_range _ _ _ Hm Hpc) as Hrange.
  assert (Hd := deposits_updated item s (mo_nonneg s Hm) Hle Hne ltac:(lia)).
  rewrite <-Hsame, decide_True in Hd by done.
  rewrite !bind_modify, Hd in Hr by (unfold item_total; lia).
  apply move_money_Ok in Hr as (l & Ht & ->). unfold ledger_of in Ht. simpl in Ht.
  split; simpl; try done.
  - intros bank. unfold bank_total at 1. simpl. unfold item_total in *. rewrite <-Hsame.
    destruct (decide (payer_bank_cid item = bank)) as [<-|Hb].
    + rewrite lookup_insert_eq. simpl. fold (bank_total s (payer_bank_cid item)).
      unfold saturating_sub. lia.
    + rewrite lookup_insert_ne by done. fold (bank_total s bank). lia.
  - intros bank a Hba. unfold ledger_of. simpl.
    rewrite (fee_transfer _ _ _ _ _ _ _ Hpc Hfa Ht bank a Hba).
    unfold item_total. rewrite <-Hsame. case_decide; lia.
Qed.

Lemma across_paid now actor item payer_clearing fee_account s s' :
  item_checked now actor s item -> amounts_ok item -> money_ok s ->
  payer_bank_cid item <> recipient_bank_cid item ->
  clearing_account_of (payer_bank_cid item) = Some payer_clearing ->
  fee_account_of (recipient_bank_cid item) = Some fee_account ->
  item_total item <= entry (DepositBalance s) (payer_bank_cid item) (payer_account_id item) ->
  settle_across item payer_clearing fee_account s = (Ok tt, s') -> paid item s s'.
Proof.
  intros Hi Ha Hm Hdiff Hpc Hfa Hle Hr. unfold settle_across in Hr.
  destruct Hi as [_ Hpos Hne _ _ _ _ Hfee]. unfold OFFCHAIN_MIN_FEE in Hfee.
  replace (saturating_add u128_max (transfer_amount item) (fee_amount item)) with (item_total item)
    in Hr by (unfold saturating_add, item_total, amounts_ok in *; lia).
  apply bind_Ok in Hr as (rc & s0 & [Hrc ->]%ok_or_Ok & Hr).
  apply bind_Ok in Hr as ([] & s1 & (l1 & Ht1 & ->)%move_money_Ok & Hr).
  apply bind_Ok in Hr as ([] & s2 & (l2 & Ht2 & ->)%move_money_Ok & Hr).
  unfold ledger_of in Ht2. simpl in Ht2.
  pose proof (principal_transfer _ _ _ _ _ _ _ Hpc Hrc Hdiff Ht1) as M1.
  pose proof (fee_transfer _ _ _ _ _ _ _ Hpc Hfa Ht2) as M2.
  pose proof (entry_le _ (payer_bank_cid item) (payer_account_id item) (mo_nonneg s Hm)) as Hent.
  pose proof (mo_total s Hm (payer_bank_cid item)) as Htp.
  pose proof (mo_total s Hm (recipient_bank_cid item)) as Htr.
  pose proof (mo_reserve s Hm _ _ Hrc) as Hres.
  pose proof (M1 _ _ Hrc) as M1r. rewrite decide_False, decide_True in M1r by done.
  pose proof (free_range l1 rc).
  rewrite !bind_modify in Hr. rewrite deposits_updated in Hr;
    [|apply Hm|done|done|lia|rewrite decide_False by done; simpl; unfold ledger_of in *; lia].
  apply modify_Ok in Hr as ->. split; simpl; try done.
  - intros bank. rewrite !bank_total_upd. unfold bank_total at 1 2 3 4. simpl.
    fold (bank_total s (recipient_bank_cid item)) (bank_total s (payer_bank_cid item)) (bank_total s bank).
    destruct (decide (recipient_bank_cid item = bank)) as [<-|Hb];
      [rewrite !(decide_False (P := payer_bank_cid item = _)) by done|].
    + unfold saturating_add. lia.
    + case_decide; [subst; unfold saturating_sub; lia|lia].
  - intros bank a Hba. unfold ledger_of. simpl. rewrite (M2 _ _ Hba), (M1 _ _ Hba).
    unfold ledger_of, item_total. repeat case_decide; lia.
Qed.

(** The items no settlement touches. *)
Definition same_registry s s' : Prop :=
  NodePeerToInstitution s' = NodePeerToInstitution s /\ ClearingBankNodes s' = ClearingBankNodes s /\
  L2FeeRateBp s' = L2FeeRateBp s /\ L2FeeRateProposed s' = L2FeeRateProposed s /\
  MaxL2FeeRateBp s' = MaxL2FeeRateBp s.

(** What is recorded of a settled payment. *)
Record settled_now (now : Z) (item : OffchainBatchItem) s s' : Prop := {
  sn_signed : sr25519_verify (payer_sig item) (signing_hash (to_intent item))
    (payer_account_id item) = true;
  sn_allowed : exists a, clearing_account_of (payer_bank_cid item) = Some a /\
    can_spend a L2ClearingDebit = true;
  sn_nonce : payer_nonce item = nonce_of s (payer_account_id item) + 1;
  sn_nonces : L3PaymentNonce s' = <[payer_account_id item := payer_nonce item]> (L3PaymentNonce s);
  sn_processed : exists shard, province_shard_from_cid (payer_bank_cid item) = Some shard /\
    (shard, tx_id item) ∉ ProcessedOffchainTx s /\
    ProcessedOffchainTx s' = {[(shard, tx_id item)]} ∪ ProcessedOffchainTx s /\
    ProcessedOffchainTxAt s' = <[(shard, tx_id item) := now]> (ProcessedOffchainTxAt s);
  sn_events : clearing_events s' = clearing_events s ++ [settled_event item];
  sn_rest : same_registry s s';
}.

Lemma settle_same_bank_keeps item pc fa s u s' :
  settle_same_bank item pc fa s = (Ok u, s') ->
  L3PaymentNonce s' = L3PaymentNonce s /\ ProcessedOffchainTx s' = ProcessedOffchainTx s /\
  ProcessedOffchainTxAt s' = ProcessedOffchainTxAt s /\ clearing_events s' = clearing_events s /\
  same_registry s s'.
Proof.
  unfold settle_same_bank, move_money. intros Hr. by run_inv.
Qed.

Lemma settle_across_keeps item pc fa s u s' :
  settle_across item pc fa s = (Ok u, s') ->
  L3PaymentNonce s' = L3PaymentNonce s /\ ProcessedOffchainTx s' = ProcessedOffchainTx s /\
  ProcessedOffchainTxAt s' = ProcessedOffchainTxAt s /\ clearing_events s' = clearing_events s /\
  same_registry s s'.
Proof.
  unfold settle_across, move_money. intros Hr. by run_inv.
Qed.

Lemma paid_ext item s1 s2 s1' s2' :
  UserBank s1 = UserBank s2 -> L2FeeRateBp s1 = L2FeeRateBp s2 ->
  DepositBalance s1 = DepositBalance s2 -> BankTotalDeposits s1 = BankTotalDeposits s2 ->
  chain s1 = chain s2 ->
  UserBank s1' = UserBank s2' -> L2FeeRateBp s1' = L2FeeRateBp s2' ->
  DepositBalance s1' = DepositBalance s2' -> BankTotalDeposits s1' = BankTotalDeposits s2' ->
  chain s1' = chain s2' -> paid item s1 s1' -> paid item s2 s2'.
Proof.
  intros A1 A2 A3 A4 A5 B1 B2 B3 B4 B5 [P1 P2 P3 P4 P5 P6].
  unfold bank_total, ledger_of in *. rewrite A1, A2, A3, A4, A5, B1, B2, B3, B4, B5 in *.
  by split.
Qed.

Lemma item_checked_ext now actor item s1 s2 :
  UserBank s1 = UserBank s2 -> L2FeeRateBp s1 = L2FeeRateBp s2 ->
  item_checked now actor s1 item -> item_checked now actor s2 item.
Proof.
  intros A B []. unfold current_rate_bp in *. rewrite A, B in *. by split.
Qed.

Lemma execute_single_item_Ok now actor item s s' :
  item_checked now actor s item -> amounts_ok item -> money_ok s ->
  execute_single_item now item s = (Ok tt, s') -> paid item s s' /\ settled_now now item s s'.
Proof.
  intros Hi Ha Hm Hr. unfold execute_single_item in Hr.
  apply bind_Ok in Hr as ([] & s0 & [Hsig ->]%ensure_Ok & Hr).
  apply bind_Ok in Hr as ([] & s1 & Hn & Hr).
  assert (s1 = set_L3PaymentNonce <[payer_account_id item := payer_nonce item]> s /\
    payer_nonce item = nonce_of s (payer_account_id item) + 1) as [-> Hnonce].
  { unfold consume_nonce in Hn. by run_inv. }
  clear Hn. set (s1 := set_L3PaymentNonce _ s) in *.
  apply bind_Ok in Hr as (shard & s2 & [Hshard ->]%ok_or_Ok & Hr).
  rewrite bind_gets in Hr. apply bind_Ok in Hr as ([] & s2 & [Hproc ->]%ensure_Ok & Hr).
  apply bind_Ok in Hr as (pc & s2 & [Hpc ->]%ok_or_Ok & Hr).
  apply bind_Ok in Hr as (fa & s2 & [Hfa ->]%ok_or_Ok & Hr).
  apply bind_Ok in Hr as ([] & s2 & [Hspend ->]%ensure_Ok & Hr).
  rewrite bind_gets in Hr. cbv zeta in Hr.
  apply bind_Ok in Hr as ([] & s2 & [Hle%bool_decide_eq_true ->]%ensure_Ok & Hr).
  apply bind_Ok in Hr as ([] & s2 & Hsettle & Hr). rewrite !bind_modify in Hr.
  apply modify_Ok in Hr as ->.
  apply negb_true_iff, bool_decide_eq_false in Hproc.
  assert (Hm1 : money_ok s1) by (by apply (money_ok_view s)).
  assert (Hi1 : item_checked now actor s1 item) by (by apply (item_checked_ext _ _ _ s)).
  assert (Hle' : item_total item
    <= entry (DepositBalance s1) (payer_bank_cid item) (payer_account_id item)).
  { unfold deposit_of in Hle. unfold entry, item_total, amounts_ok, saturating_add in *. lia. }
  assert (paid item s1 s2 /\ L3PaymentNonce s2 = L3PaymentNonce s1 /\
    ProcessedOffchainTx s2 = ProcessedOffchainTx s1 /\
    ProcessedOffchainTxAt s2 = ProcessedOffchainTxAt s1 /\
    clearing_events s2 = clearing_events s1 /\ same_registry s1 s2) as (Hpaid & K1 & K2 & K3 & K4 & K5).
  { destruct (decide (payer_bank_cid item = recipient_bank_cid item)) as [Hsame|Hdiff].
    - split; [by apply (same_bank_paid now actor item pc fa)|by eapply settle_same_bank_keeps].
    - split; [by apply (across_paid now actor item pc fa)|by eapply settle_across_keeps]. }
  split; [by apply (paid_ext item s1 s s2)|]. split; simpl.
  - done.
  - by exists pc.
  - done.
  - by rewrite K1.
  - exists shard. split; [done|]. split; [done|]. by rewrite K2, K3.
  - by rewrite K4.
  - exact K5.
Qed.

(** All items of a batch, one after the other. *)
Inductive settled_all (now : Z) : list OffchainBatchItem -> clearing L -> clearing L -> Prop :=
| settled_nil s : settled_all now [] s s
| settled_cons item batch s s1 s' :
    paid item s s1 -> settled_now now item s s1 -> settled_all now batch s1 s' ->
    settled_all now (item :: batch) s s'.

Lemma execute_items_Ok now actor batch s s' :
  Forall (item_checked now actor s) batch -> Forall amounts_ok batch -> money_ok s ->
  for_each (execute_single_item now) batch s = (Ok tt, s') ->
  settled_all now batch s s' /\ money_ok s'.
Proof.
  revert s. induction batch as [|item batch IH]; intros s Hi Ha Hm Hr; simpl in Hr.
  { apply ret_Ok in Hr as [_ ->]. split; [constructor|done]. }
  apply Forall_cons in Hi as [Hi Hi'], Ha as [Ha Ha'].
  apply bind_Ok in Hr as ([] & s1 & H1 & Hr).
  destruct (execute_single_item_Ok now actor item s s1) as [Hp Hs]; [done..|].
  pose proof (paid_money now actor item s s1 Hi Hp Hm) as Hm1.
  destruct (IH s1) as [Hall Hm']; [|done|done|done|].
  { eapply Forall_impl; [exact Hi'|]. intros x Hx.
    apply (item_checked_ext _ _ _ s); [by rewrite (pd_users _ _ _ Hp)|by rewrite (pd_rates _ _ _ Hp)|done]. }
  split; [by econstructor|done].
Qed.

(** ** Calls *)

Lemma charge_batch_Ok r payer basis s fee s' :
  charge_batch r payer basis s = (Ok fee, s') ->
  exists c, s' = set_chain (fun _ => c) s /\
    execution_charge r payer basis (chain s) = (Ok fee, c).
Proof.
  unfold charge_batch. destruct (execution_charge r payer basis (chain s)) as [[f|] c];
    intros Hr; simplify_eq. eauto.
Qed.

Lemma charge_money r cid payer basis s fee s' :
  fee_account_of cid = Some payer -> charge_batch r payer basis s = (Ok fee, s') ->
  money_ok s -> money_ok s'.
Proof.
  intros Hf (c & -> & (Hfee & l & Hw & ->)%execution_charge_Ok)%charge_batch_Ok [A B C D].
  split; try done. intros bank a Ha. specialize (D bank a Ha).
  assert (Hne : payer <> a) by (intros ->; exact (clearing_not_fee _ _ _ Ha Hf)).
  destruct (withdraw_taken _ _ _ _ Hw) as (_ & _ & Hother). unfold ledger_of, bank_total in *. simpl.
  etransitivity; [exact D|]. rewrite <-(Hother a Hne).
  apply (on_unbalanced_grows r fee (onchain_with l (chain s)) a).
  rewrite Hfee. unfold calculate_onchain_fee, ONCHAIN_MIN_FEE. lia.
Qed.

(** A batch that is settled: what was checked, what was done. *)
Lemma submit_Ok now r submitter cid role account seq batch signature s s' :
  Forall amounts_ok batch -> money_ok s ->
  submit_offchain_batch now r submitter cid role account seq batch signature s = (Ok tt, s') ->
  exists s1 c fee_account fee debit,
    Forall (item_checked now cid s) batch /\ settled_all now batch s s1 /\ money_ok s1 /\
    fee_account_of cid = Some fee_account /\
    execution_charge r fee_account (foldl (fun f item => saturating_add u128_max f (fee_amount item))
      0 batch) (chain s1) = (Ok fee, c) /\
    seq = saturating_add u64_max (default 0 (LastClearingBatchSeq s !! cid)) 1 /\
    s' = set_LastClearingBatchSeq <[cid := seq]> (cl_event (ClearingBankBatchSettled cid submitter
      (Z.of_nat (length batch) `mod` (u32_max + 1)) debit) (set_chain (fun _ => c) s1)).
Proof.
  intros Ha Hm Hr. unfold submit_offchain_batch in Hr.
  apply bind_Ok in Hr as ([] & s0 & [_ ->]%ensure_Ok & Hr).
  apply bind_Ok in Hr as ([] & s0 & ->%ensure_institution_account_Ok & Hr).
  apply bind_Ok in Hr as ([] & s0 & [_ ->]%ensure_Ok & Hr).
  apply bind_Ok in Hr as ([] & s0 & Hv & Hr).
  assert (s0 = s) as -> by (unfold verify_batch_signature in Hv; by run_inv). clear Hv.
  rewrite bind_gets in Hr.
  apply bind_Ok in Hr as ([] & s0 & [Hseq%bool_decide_eq_true ->]%ensure_Ok & Hr).
  apply (proj1 (transact_Ok _ _ _ _)) in Hr. apply bind_Ok in Hr as ([] & s2 & Hr & ->%modify_Ok).
  unfold execute_clearing_bank_batch in Hr.
  apply bind_Ok in Hr as ([] & s0 & ->%ensure_institution_account_Ok & Hr).
  apply bind_Ok in Hr as ([] & s0 & [_ ->]%ensure_Ok & Hr).
  apply bind_Ok in Hr as ([debits total] & s0 & Hci & Hr).
  pose proof (check_items_total _ _ _ _ _ _ _ _ Hci) as Htot. simpl in Htot.
  apply check_items_Ok in Hci as [-> Hi].
  apply bind_Ok in Hr as (debit & s0 & ->%check_debits_Ok & Hr).
  apply bind_Ok in Hr as ([] & s1 & Hall & Hr).
  destruct (execute_items_Ok now cid batch s s1 Hi Ha Hm Hall) as [Hs1 Hm1].
  apply bind_Ok in Hr as (fa & s3 & [Hfa ->]%ok_or_Ok & Hr).
  apply bind_Ok in Hr as (fee & s3 & (c & -> & Hc)%charge_batch_Ok & ->%modify_Ok).
  subst total. exists s1, c, fa, fee, debit. split_and!; done.
Qed.

(** ** The history of payments *)

Definition settled_key (e : ClearingEvent) : option (string * Z) :=
  match e with
  | PaymentSettled tx _ payer_bank _ _ _ _ => (fun shard => (shard, tx)) <$> province_shard_from_cid payer_bank
  | _ => None
  end.
Definition settled_payer (e : ClearingEvent) : option AccountId :=
  match e with PaymentSettled _ payer _ _ _ _ _ => Some payer | _ => None end.

(** How many payments of [user] were settled. *)
Definition payments_by (user : AccountId) (l : list ClearingEvent) : nat :=
  length (filter (fun u => u = user) (omap settled_payer l)).

Record history_ok s : Prop := {
  hi_once : NoDup (omap settled_key (clearing_events s));
  hi_processed : ProcessedOffchainTx s = list_to_set (omap settled_key (clearing_events s));
  hi_nonce : forall user, nonce_of s user = Z.of_nat (payments_by user (clearing_events s));
}.

(** Other events are no payments. *)
Lemma history_ok_view s s' l :
  ProcessedOffchainTx s' = ProcessedOffchainTx s -> L3PaymentNonce s' = L3PaymentNonce s ->
  clearing_events s' = clearing_events s ++ l -> omap settled_payer l = [] ->
  omap settled_key l = [] -> history_ok s -> history_ok s'.
Proof.
  intros H1 H2 H3 Hp Hk [A B C]. split; unfold nonce_of, payments_by in *.
  - by rewrite H3, omap_app, Hk, app_nil_r.
  - by rewrite H1, H3, omap_app, Hk, app_nil_r.
  - intros user. by rewrite H2, H3, omap_app, Hp, app_nil_r.
Qed.

Lemma settled_history now item s s' : settled_now now item s s' -> history_ok s -> history_ok s'.
Proof.
  intros [_ _ Hn Hns (shard & Hsh & Hnew & Hpr & _) He] [A B C].
  assert (Hk : omap settled_key (clearing_events s')
    = omap settled_key (clearing_events s) ++ [(shard, tx_id item)])
    by (rewrite He, omap_app; simpl; by rewrite Hsh).
  rewrite B in Hnew, Hpr. rewrite not_elem_of_list_to_set in Hnew. split.
  - rewrite Hk. apply NoDup_app. split; [done|]. split; [|apply NoDup_singleton].
    intros x Hx ->%list_elem_of_singleton. done.
  - rewrite Hpr, Hk, list_to_set_app_L. simpl. set_solver.
  - intros user. unfold nonce_of, payments_by in *. rewrite Hns, He, omap_app. simpl.
    rewrite filter_app, length_app.
    destruct (decide (payer_account_id item = user)) as [<-|Hne].
    + rewrite lookup_insert_eq. simpl. rewrite Hn, C.
      rewrite filter_cons_True by done. simpl. lia.
    + rewrite lookup_insert_ne by done. rewrite C, filter_cons_False by done. simpl. lia.
Qed.

Lemma settled_all_history now batch s s' : settled_all now batch s s' -> history_ok s -> history_ok s'.
Proof. induction 1; [done|]. intros. by apply IHsettled_all, (settled_history now item s). Qed.

(** ** Nodes and rates *)

Record registry_ok s : Prop := {
  ro_peers : forall peer cid, NodePeerToInstitution s !! peer = Some cid <->
    exists info, ClearingBankNodes s !! cid = Some info /\ peer_id info = peer;
  ro_rates : forall bank rate, L2FeeRateBp s !! bank = Some rate ->
    L2_FEE_RATE_BP_MIN <= rate <= L2_FEE_RATE_BP_MAX;
  ro_proposed : forall bank rate at_block, L2FeeRateProposed s !! bank = Some (rate, at_block) ->
    L2_FEE_RATE_BP_MIN <= rate <= L2_FEE_RATE_BP_MAX;
  ro_max : MaxL2FeeRateBp s <= L2_FEE_RATE_BP_MAX;
}.

Lemma registry_ok_view s s' :
  NodePeerToInstitution s' = NodePeerToInstitution s -> ClearingBankNodes s' = ClearingBankNodes s ->
  L2FeeRateBp s' = L2FeeRateBp s -> L2FeeRateProposed s' = L2FeeRateProposed s ->
  MaxL2FeeRateBp s' = MaxL2FeeRateBp s -> registry_ok s -> registry_ok s'.
Proof. intros H1 H2 H3 H4 H5 []. split; rewrite ?H1, ?H2, ?H3, ?H4, ?H5; done. Qed.


Lemma settled_all_registry now batch s s' : settled_all now batch s s' -> registry_ok s -> registry_ok s'.
Proof.
  induction 1 as [|item batch s s1 s' _ Hs _ IH]; [done|]. intros Hr. apply IH.
  destruct (sn_rest _ _ _ _ Hs) as (? & ? & ? & ? & ?). by apply (registry_ok_view s).
Qed.

(** ** Every call keeps the three *)

Record clearing_ok s : Prop := {
  co_money : money_ok s;
  co_history : history_ok s;
  co_registry : registry_ok s;
}.

(** The calls of users, and the widths of the amounts of a batch. *)
Definition call_typed (c : clearing_call) : Prop :=
  match c with
  | Deposit user _ | Withdraw user _ => is_user user
  | SubmitOffchainBatch _ _ _ _ _ batch _ => Forall amounts_ok batch
  | _ => True
  end.

(** A call that changes neither the payments nor the registry. *)
Lemma plain_call_ok s s' e :
  same_registry s s' -> ProcessedOffchainTx s' = ProcessedOffchainTx s ->
  L3PaymentNonce s' = L3PaymentNonce s -> clearing_events s' = clearing_events s ++ [e] ->
  settled_payer e = None -> settled_key e = None -> money_ok s' -> clearing_ok s -> clearing_ok s'.
Proof.
  intros (R1 & R2 & R3 & R4 & R5) H1 H2 H3 Hp Hk Hm [_ Hh Hr]. split; [done| |by apply (registry_ok_view s)].
  apply (history_ok_view s _ [e]); simpl; rewrite ?Hp, ?Hk; done.
Qed.

(** A call that touches the registry only. *)
Lemma registry_call_ok s s' e :
  UserBank s' = UserBank s -> DepositBalance s' = DepositBalance s ->
  BankTotalDeposits s' = BankTotalDeposits s -> ledger_of s' = ledger_of s ->
  ProcessedOffchainTx s' = ProcessedOffchainTx s ->
  L3PaymentNonce s' = L3PaymentNonce s -> clearing_events s' = clearing_events s ++ [e] ->
  settled_payer e = None -> settled_key e = None -> registry_ok s' -> clearing_ok s -> clearing_ok s'.
Proof.
  intros H1 H2 H3 H4 H5 H6 H7 Hp Hk Hr [Hm Hh _]. split; [by apply (money_ok_view s)| |done].
  apply (history_ok_view s _ [e]); simpl; rewrite ?Hp, ?Hk; done.
Qed.

Lemma propose_ok now who cid role account rate s s' :
  do_propose_l2_fee_rate now who cid role account rate s = (Ok tt, s') ->
  clearing_ok s -> clearing_ok s'.
Proof.
  intros Hr Hok. unfold do_propose_l2_fee_rate in Hr.
  apply bind_Ok in Hr as ([] & s0 & ->%ensure_institution_account_Ok & Hr).
  apply bind_Ok in Hr as ([] & s0 & [-> _]%ensure_can_be_bound_Ok & Hr). run_inv.
  pose proof (co_registry s Hok) as [A B C D].
  eapply (registry_call_ok s); [..|exact Hok]; try done. split; simpl; try done.
  intros bank r at_block [[_ [= <- _]]|[_ Hl]]%lookup_insert_Some; [lia|by eapply C].
Qed.

Lemma set_max_ok new_max s s' :
  do_set_max_l2_fee_rate new_max s = (Ok tt, s') -> clearing_ok s -> clearing_ok s'.
Proof.
  intros Hr Hok. unfold do_set_max_l2_fee_rate in Hr. run_inv.
  pose proof (co_registry s Hok) as [A B C D].
  eapply (registry_call_ok s); [..|exact Hok]; try done. split; simpl; try done. lia.
Qed.

Lemma register_ok now who cid role peer domain port s s' :
  do_register_clearing_bank now who cid role peer domain port s = (Ok tt, s') ->
  clearing_ok s -> clearing_ok s'.
Proof.
  intros Hr Hok. unfold do_register_clearing_bank in Hr. run_inv.
  pose proof (co_registry s Hok) as [A B C D].
  repeat match goal with H : ~ is_Some _ |- _ => apply eq_None_not_Some in H end.
  eapply (registry_call_ok s); [..|exact Hok]; try done. split; simpl; try done.
  intros peer' cid'. rewrite lookup_insert_Some, A. split.
  - intros [[<- <-]|(Hne & info & Hi & Hp)]; [eexists; by rewrite lookup_insert_eq|].
    exists info. rewrite lookup_insert_ne by congruence. done.
  - intros (info & [[<- <-]|[Hne Hi]]%lookup_insert_Some & Hp); simpl in *; [by left|].
    right. split; [|by exists info]. intros <-.
    assert (NodePeerToInstitution s !! peer = Some cid') by (apply A; by exists info). congruence.
Qed.

Lemma update_ok who cid role domain port s s' :
  do_update_clearing_bank_endpoint who cid role domain port s = (Ok tt, s') ->
  clearing_ok s -> clearing_ok s'.
Proof.
  intros Hr Hok. unfold do_update_clearing_bank_endpoint in Hr. run_inv.
  pose proof (co_registry s Hok) as [A B C D].
  eapply (registry_call_ok s); [..|exact Hok]; try done. split; simpl; try done.
  intros peer' cid'. rewrite A.
  match goal with H : ClearingBankNodes s !! cid = Some ?i |- _ => rename i into old; rename H into Hold end.
  destruct (decide (cid = cid')) as [<-|Hne].
  - rewrite lookup_insert_eq, Hold. naive_solver.
  - by rewrite lookup_insert_ne.
Qed.

Lemma unregister_ok who cid role s s' :
  do_unregister_clearing_bank who cid role s = (Ok tt, s') -> clearing_ok s -> clearing_ok s'.
Proof.
  intros Hr Hok. unfold do_unregister_clearing_bank in Hr. run_inv.
  pose proof (co_registry s Hok) as [A B C D].
  match goal with H : ClearingBankNodes s !! cid = Some ?i |- _ => rename i into old; rename H into Hold end.
  eapply (registry_call_ok s); [..|exact Hok]; try done. split; simpl; try done.
  intros peer' cid'. rewrite lookup_delete_Some, A. split.
  - intros (Hne & info & Hi & Hp). exists info. split; [|done].
    rewrite lookup_delete_ne; [done|]. intros <-. congruence.
  - intros (info & [Hne Hi]%lookup_delete_Some & Hp). split; [|by exists info]. intros He.
    assert (NodePeerToInstitution s !! peer_id old = Some cid) by (apply A; by exists old).
    assert (NodePeerToInstitution s !! peer' = Some cid') by (apply A; by exists info). congruence.
Qed.

Lemma deposit_ok user amount s s' :
  is_user user -> do_deposit user amount s = (Ok tt, s') -> clearing_ok s -> clearing_ok s'.
Proof.
  intros Hu Hr Hok. pose proof (deposit_money user amount s s' Hu Hr (co_money s Hok)) as Hm.
  unfold do_deposit, move_money in Hr. run_inv. by eapply (plain_call_ok s); [..|exact Hm|exact Hok].
Qed.

Lemma withdraw_ok user amount s s' :
  is_user user -> do_withdraw user amount s = (Ok tt, s') -> clearing_ok s -> clearing_ok s'.
Proof.
  intros Hu Hr Hok. pose proof (withdraw_money user amount s s' Hu Hr (co_money s Hok)) as Hm.
  unfold do_withdraw, move_money in Hr. run_inv. by eapply (plain_call_ok s); [..|exact Hm|exact Hok].
Qed.

Lemma bind_ok user bank s s' :
  do_bind_clearing_bank user bank s = (Ok tt, s') -> clearing_ok s -> clearing_ok s'.
Proof.
  intros Hr Hok. pose proof (bind_money user bank s s' Hr (co_money s Hok)) as Hm.
  unfold do_bind_clearing_bank in Hr. run_inv.
  match goal with H : ensure_can_be_bound _ _ = _ |- _ => apply ensure_can_be_bound_Ok in H as [-> _] end.
  by eapply (plain_call_ok s); [..|exact Hm|exact Hok].
Qed.

Lemma switch_ok user bank s s' :
  do_switch_bank user bank s = (Ok tt, s') -> clearing_ok s -> clearing_ok s'.
Proof.
  intros Hr Hok. pose proof (switch_money user bank s s' Hr (co_money s Hok)) as Hm.
  unfold do_switch_bank in Hr. run_inv.
  match goal with H : ensure_can_be_bound _ _ = _ |- _ => apply ensure_can_be_bound_Ok in H as [-> _] end.
  by eapply (plain_call_ok s); [..|exact Hm|exact Hok].
Qed.

Lemma submit_ok now r submitter cid role account seq batch signature s s' :
  Forall amounts_ok batch ->
  submit_offchain_batch now r submitter cid role account seq batch signature s = (Ok tt, s') ->
  clearing_ok s -> clearing_ok s'.
Proof.
  intros Ha Hr Hok.
  destruct (submit_Ok _ _ _ _ _ _ _ _ _ _ _ Ha (co_money s Hok) Hr)
    as (s1 & c & fa & fee & debit & _ & Hall & Hm1 & Hfa & Hc & _ & ->).
  pose proof (settled_all_history _ _ _ _ Hall (co_history s Hok)) as Hh1.
  pose proof (settled_all_registry _ _ _ _ Hall (co_registry s Hok)) as Hr1.
  assert (Hm2 : money_ok (set_chain (fun _ => c) s1)).
  { eapply (charge_money r cid fa _ s1 fee _ Hfa); [|done]. unfold charge_batch. by rewrite Hc. }
  split.
  - by apply (money_ok_view (set_chain (fun _ => c) s1)).
  - by eapply (history_ok_view s1 _ [_]).
  - by apply (registry_ok_view s1).
Qed.

Lemma activate_rate_ok s bank rate :
  L2_FEE_RATE_BP_MIN <= rate <= L2_FEE_RATE_BP_MAX -> clearing_ok s ->
  clearing_ok (activate_rate s (bank, rate)).
Proof.
  intros Hrate Hok. pose proof (co_registry s Hok) as [A B C D].
  eapply (registry_call_ok s); [..|exact Hok]; try done. split; simpl; try done.
  - intros bank' r [[_ <-]|[_ Hl]]%lookup_insert_Some; [done|by eapply B].
  - intros bank' r t [_ Hl]%lookup_delete_Some. by eapply C.
Qed.

Lemma due_rates_in now room l bank rate :
  (bank, rate) ∈ due_rates now room l -> exists t, (bank, (rate, t)) ∈ l.
Proof.
  revert room. induction l as [|[b [x t]] l IH]; intros room; simpl; [by intros ?%elem_of_nil|].
  destruct room as [|room]; [by intros ?%elem_of_nil|]. case_decide.
  - intros [[= <- <-]|H']%elem_of_cons; [exists t; by left|].
    destruct (IH _ H') as [t' ?]. exists t'. by right.
  - intros H'. destruct (IH _ H') as [t' ?]. exists t'. by right.
Qed.

Lemma activate_pending_ok now s : clearing_ok s -> clearing_ok (activate_pending_rates now s).
Proof.
  intros Hok. unfold activate_pending_rates.
  assert (Hin : Forall (fun r => L2_FEE_RATE_BP_MIN <= r.2 <= L2_FEE_RATE_BP_MAX)
    (due_rates now MAX_L2_FEE_ACTIVATIONS_PER_BLOCK
       (hash_order _ (map_to_list (L2FeeRateProposed s))))).
  { apply Forall_forall. intros [bank rate] (t & Hin)%due_rates_in.
    rewrite hash_order_perm, elem_of_map_to_list in Hin. by eapply (ro_proposed s (co_registry s Hok)). }
  revert Hin. generalize (due_rates now MAX_L2_FEE_ACTIVATIONS_PER_BLOCK
    (hash_order _ (map_to_list (L2FeeRateProposed s)))) as l. intros l Hin.
  revert s Hok. induction Hin as [|[bank rate] l Hrate _ IH]; intros s Hok; simpl; [done|].
  by apply IH, activate_rate_ok.
Qed.

Lemma dispatch_ok now r c s res s' :
  call_typed c -> clearing_dispatch now r c s = (res, s') -> clearing_ok s -> clearing_ok s'.
Proof.
  intros Ht Hr Hok. unfold clearing_dispatch in Hr. destruct res as [[]|e].
  2: { apply transact_Err in Hr as ->. done. }
  apply (proj1 (transact_Ok _ _ _ _)) in Hr. destruct c; simpl in Hr, Ht.
  - by eapply bind_ok.
  - by eapply deposit_ok.
  - by eapply withdraw_ok.
  - by eapply switch_ok.
  - by eapply submit_ok.
  - by eapply propose_ok.
  - by eapply set_max_ok.
  - by eapply register_ok.
  - by eapply update_ok.
  - by eapply unregister_ok.
Qed.

(** ** The chain *)

(** A call, the start of a block, or a change of balances elsewhere, which
    takes nothing from a clearing account. *)
Inductive clearing_step : clearing L -> clearing L -> Prop :=
| step_clearing_call now r c s res s' :
    call_typed c -> clearing_dispatch now r c s = (res, s') -> clearing_step s s'
| step_clearing_block now s : clearing_step s (activate_pending_rates now s)
| step_balances l s :
    (forall bank a, clearing_account_of bank = Some a ->
       free_balance (ledger_of s) a <= free_balance l a) ->
    clearing_step s (set_chain (onchain_with l) s).

Lemma empty_ok c : clearing_ok (clearing_empty c).
Proof.
  split; [split|split|split]; simpl; try done.
  - intros bank a _. unfold bank_total. simpl. apply free_range.
  - constructor.
  - intros peer cid. split; [done|]. by intros (info & Hi & _).
Qed.

Lemma clearing_step_ok s s' : clearing_step s s' -> clearing_ok s -> clearing_ok s'.
Proof.
  intros [now r c t res t' Ht Hr|now t|l t Hl] Hok; [by eapply dispatch_ok|by apply activate_pending_ok|].
  destruct Hok as [[A B C D] Hh Hr]. split; [|by apply (history_ok_view t _ []); rewrite ?app_nil_r|by apply (registry_ok_view t)].
  split; try done. intros bank a Ha. etransitivity; [by eapply D|by eapply Hl].
Qed.

Lemma reachable_ok c s : rtc clearing_step (clearing_empty c) s -> clearing_ok s.
Proof. intros Hs. eapply (rtc_preserves clearing_step clearing_ok clearing_step_ok); [exact Hs|apply empty_ok]. Qed.

Lemma solvency_ratio_full s bank :
  money_ok s -> is_Some (clearing_account_of bank) -> bank_total s bank * 10000 <= u128_max ->
  10000 <= solvency_ratio_bp s bank.
Proof.
  intros Hm [a Ha] Hw. pose proof (mo_reserve s Hm bank a Ha). pose proof (money_total_range bank a s Hm Ha).
  unfold solvency_ratio_bp. rewrite Ha. case_decide; [by vm_compute|]. unfold ledger_of in *.
  apply Z.min_glb; [|by vm_compute]. apply Z.div_le_lower_bound; [lia|].
  unfold saturating_mul. lia.
Qed.

(** C32: whatever calls are made, in whatever order, the clearing account
    of every bank holds at least the deposits of all its customers, which add
    up to the total the pallet records; only customers of the bank have a
    deposit there, and no deposit is negative. The ratio the pallet reports is
    at least 100%, as long as the deposits times 10000 fit its width. The chain
    is any sequence of calls of the pallet, starts of blocks and other changes
    of balances, under what the rest of the runtime provides: nothing else
    takes money from a clearing account ([can_spend] of [configs.rs]), the
    accounts of institutions do not change, differ from one another, and are
    nobody's personal account, and the amounts of calls fit [u128]. *)
Theorem clearing_banks_solvent c s :
  rtc clearing_step (clearing_empty c) s ->
  (forall bank a, clearing_account_of bank = Some a ->
     bank_sum (DepositBalance s) bank <= free_balance (ledger_of s) a) /\
  (forall bank, bank_total s bank = bank_sum (DepositBalance s) bank) /\
  (forall bank user, 0 <= entry (DepositBalance s) bank user <= bank_total s bank) /\
  (forall bank user, entry (DepositBalance s) bank user <> 0 -> UserBank s !! user = Some bank) /\
  (forall bank, is_Some (clearing_account_of bank) -> bank_total s bank * 10000 <= u128_max ->
     10000 <= solvency_ratio_bp s bank).
Proof.
  intros Hs. pose proof (co_money s (reachable_ok c s Hs)) as Hm. destruct Hm as [A B C D].
  split_and!; [| | | |intros; by apply solvency_ratio_full].
  - intros bank a Ha. rewrite <-C. by apply D.
  - exact C.
  - intros bank user. rewrite C. split; [by apply entry_nonneg|by apply entry_le].
  - intros bank user. unfold entry. destruct (_ !! _) eqn:Hl; simpl; [intros _; by eapply B|done].
Qed.

(** C33: no payment is settled twice: along any chain the settled
    payments have distinct identifiers within the province of the payer's
    bank, exactly these identifiers are marked as processed, and the nonce of
    every payer is the number of its settled payments, so each signed intent
    is used at most once and in the order of the nonces; the rates and the
    node registry stay consistent. *)
Theorem payments_settled_once c s :
  rtc clearing_step (clearing_empty c) s ->
  NoDup (omap settled_key (clearing_events s)) /\
  ProcessedOffchainTx s = list_to_set (omap settled_key (clearing_events s)) /\
  (forall user, nonce_of s user = Z.of_nat (payments_by user (clearing_events s))) /\
  (forall peer cid, NodePeerToInstitution s !! peer = Some cid <->
     exists info, ClearingBankNodes s !! cid = Some info /\ peer_id info = peer) /\
  (forall bank, current_rate_bp s bank = 0 \/
     L2_FEE_RATE_BP_MIN <= current_rate_bp s bank <= L2_FEE_RATE_BP_MAX).
Proof.
  intros Hs. destruct (reachable_ok c s Hs) as [_ [A B C] [D E F G]]. split_and!; try done.
  intros bank. unfold current_rate_bp. destruct (_ !! bank) eqn:Hl; simpl; [right; by eapply E|by left].
Qed.

(** C34: a batch is settled as a whole or not at all. When it is, every
    item names the submitting bank as the recipient's, is not expired, carries
    the fee of the formula and the payer's signature over exactly this payment
    with the payer's next nonce, and is covered by the payer's deposit; the
    payer's deposit falls by amount and fee, the recipient's rises by the
    amount, and the clearing accounts move with the totals of their banks;
    the batch number is the next one, and the bank pays the on-chain fee on
    the fees it earned. *)
Theorem batch_settlement now r submitter cid role account seq batch signature s :
  Forall amounts_ok batch -> clearing_ok s ->
  match clearing_dispatch now r
    (SubmitOffchainBatch submitter cid role account seq batch signature) s with
  | (Err _, s') => s' = s
  | (Ok _, s') =>
      exists s1 c fee_account fee debit,
        Forall (item_checked now cid s) batch /\ settled_all now batch s s1 /\
        clearing_ok s1 /\ fee_account_of cid = Some fee_account /\
        execution_charge r fee_account (foldl (fun f item =>
          saturating_add u128_max f (fee_amount item)) 0 batch) (chain s1) = (Ok fee, c) /\
        seq = saturating_add u64_max (default 0 (LastClearingBatchSeq s !! cid)) 1 /\
        s' = set_LastClearingBatchSeq <[cid := seq]> (cl_event (ClearingBankBatchSettled cid
          submitter (Z.of_nat (length batch) `mod` (u32_max + 1)) debit)
          (set_chain (fun _ => c) s1))
  end.
Proof.
  intros Ha Hok. destruct (clearing_dispatch _ _ _ s) as [[[]|e] s'] eqn:Hr.
  2: { unfold clearing_dispatch in Hr. by apply transact_Err in Hr. }
  apply (proj1 (transact_Ok _ _ _ _)) in Hr. simpl in Hr.
  destruct (submit_Ok _ _ _ _ _ _ _ _ _ _ _ Ha (co_money s Hok) Hr)
    as (s1 & c & fa & fee & debit & H1 & H2 & H3 & H4 & H5 & H6 & H7).
  exists s1, c, fa, fee, debit. split_and!; try done. split; [done|..].
  - exact (settled_all_history _ _ _ _ H2 (co_history s Hok)).
  - exact (settled_all_registry _ _ _ _ H2 (co_registry s Hok)).
Qed.

(** ** Two checks that do not do what they are for *)

Lemma ensure_institution_account_same cid a name (s t : clearing L) :
  exists res, ensure_institution_account cid a name s = (res, s) /\
    ensure_institution_account cid a name t = (res, t).
Proof.
  unfold ensure_institution_account. destruct (account_info a) as [[c n]|]; [|by eexists].
  rewrite !bind_ok_or_Some. simpl. destruct (bool_decide (c = cid)); [|by eexists].
  rewrite !bind_ensure_true. destruct (bool_decide (n = name)); [|by eexists].
  rewrite !bind_ensure_true. destruct (account_exists a); by eexists.
Qed.

Lemma ensure_can_be_bound_same cid (s t : clearing L) :
  ClearingBankNodes s = ClearingBankNodes t ->
  exists res, ensure_can_be_bound cid s = (res, s) /\ ensure_can_be_bound cid t = (res, t).
Proof.
  intros Hn. unfold ensure_can_be_bound, is_registered_clearing_node.
  destruct (subject_property_is_private_institution cid); [|by eexists]. rewrite !bind_ensure_true.
  destruct (find_account cid ACCOUNT_NAME_MAIN) as [main|]; [|by eexists]. rewrite !bind_ok_or_Some.
  destruct (account_exists main); [|by eexists]. rewrite !bind_ensure_true.
  destruct (is_clearing_bank_eligible main); [|by eexists]. rewrite !bind_ensure_true, !bind_gets, Hn.
  match goal with |- context [ensure ?b] => destruct b; [|by eexists] end. rewrite !bind_ensure_true.
  destruct (clearing_account_of cid); by eexists.
Qed.

(** C35: the global cap on the rates of the banks has no effect: a bank's
    proposal of a rate is accepted or refused alike whatever cap is set, and
    a rate above the cap is accepted like any other. *)
Theorem fee_rate_cap_ignored now who cid role account rate cap s :
  MaxL2FeeRateBp s <= L2_FEE_RATE_BP_MAX -> cap <= L2_FEE_RATE_BP_MAX ->
  (do_propose_l2_fee_rate now who cid role account rate s).1
    = (do_propose_l2_fee_rate now who cid role account rate (set_MaxL2FeeRateBp (fun _ => cap) s)).1.
Proof.
  intros Hmax Hcap. set (t := set_MaxL2FeeRateBp (fun _ => cap) s). unfold do_propose_l2_fee_rate.
  destruct (ensure_institution_account_same cid account ACCOUNT_NAME_MAIN s t) as ([[]|e] & H1 & H2).
  2: { by rewrite (bind_run_Err _ _ _ _ _ H1), (bind_run_Err _ _ _ _ _ H2). }
  rewrite (bind_run _ _ _ _ _ H1), (bind_run _ _ _ _ _ H2).
  destruct (ensure_can_be_bound_same cid s t eq_refl) as ([[]|e] & G1 & G2).
  2: { by rewrite (bind_run_Err _ _ _ _ _ G1), (bind_run_Err _ _ _ _ _ G2). }
  rewrite (bind_run _ _ _ _ _ G1), (bind_run _ _ _ _ _ G2).
  destruct (is_institution_role_authorized cid role who ACTION_OFFCHAIN_PROPOSE_FEE_RATE); [|done].
  rewrite !bind_ensure_true, !bind_gets. cbv zeta.
  assert (Z.max (MaxL2FeeRateBp t) L2_FEE_RATE_BP_MAX = L2_FEE_RATE_BP_MAX) as -> by (simpl; lia).
  assert (Z.max (MaxL2FeeRateBp s) L2_FEE_RATE_BP_MAX = L2_FEE_RATE_BP_MAX) as -> by lia.
  by destruct (bool_decide _).
Qed.

(** The projected debits only grow, and cover every item. *)
Definition debits_typed (l : list (CidNumber * Z)) : Prop := Forall (fun x => 0 <= x.2 <= u128_max) l.

Lemma add_debit_typed bank v l : 0 <= v -> debits_typed l -> debits_typed (add_debit bank v l).
Proof.
  intros Hv. induction 1 as [|[b w] l Hw Hl IH]; simpl.
  - constructor; [simpl; unfold saturating_add, u128_max; lia|constructor].
  - destruct (String.compare bank b); repeat constructor; simpl in *;
      unfold saturating_add, u128_max in *; try done; lia.
Qed.

Lemma add_debit_grows bank v l b w :
  0 <= v -> debits_typed l -> (b, w) ∈ l -> exists w', w <= w' /\ (b, w') ∈ add_debit bank v l.
Proof.
  intros Hv. induction 1 as [|[b' w'] l Hw Hl IH]; simpl; [by intros ?%elem_of_nil|].
  intros [[= -> ->]|Hin]%elem_of_cons.
  - destruct (String.compare bank b').
    + exists (saturating_add u128_max w' v). split; [|by left].
      simpl in Hw. unfold saturating_add. lia.
    + exists w'. split; [lia|]. right. by left.
    + exists w'. split; [lia|]. by left.
  - destruct (String.compare bank b').
    + exists w. split; [lia|]. by right.
    + exists w. split; [lia|]. right. by right.
    + destruct (IH Hin) as (w2 & Hle & Hin2). exists w2. split; [done|]. by right.
Qed.

Lemma add_debit_covers bank v l :
  0 <= v <= u128_max -> debits_typed l -> exists w, v <= w /\ (bank, w) ∈ add_debit bank v l.
Proof.
  intros Hv. induction 1 as [|[b w] l Hw Hl IH]; simpl.
  - exists (saturating_add u128_max 0 v). split; [unfold saturating_add; lia|]. by left.
  - destruct (String.compare bank b) eqn:Hc.
    + apply String.compare_eq_iff in Hc as ->. exists (saturating_add u128_max w v).
      split; [simpl in Hw; unfold saturating_add; lia|]. by left.
    + exists (saturating_add u128_max 0 v). split; [unfold saturating_add; lia|]. by left.
    + destruct IH as (w2 & Hle & Hin). exists w2. split; [done|]. by right.
Qed.

Lemma check_items_debits now actor batch debits fee s r s' :
  Forall amounts_ok batch -> debits_typed debits ->
  check_items now actor batch debits fee s = (Ok r, s') ->
  (forall b w, (b, w) ∈ debits -> exists w', w <= w' /\ (b, w') ∈ r.1) /\
  Forall (fun item => exists w, item_debit item <= w /\ (payer_bank_cid item, w) ∈ r.1) batch.
Proof.
  intros Ha. revert debits fee s.
  induction Ha as [|item batch Hi _ IH]; intros debits fee s Hd; simpl; intros Hr.
  { run_inv. split; [|constructor]. intros b w Hin. exists w. split; [lia|done]. }
  apply bind_Ok in Hr as (u & s1 & [-> Hc]%check_item_Ok & Hr).
  assert (Hdeb : 0 <= item_debit item <= u128_max).
  { destruct Hc as [_ Hpos _ _ _ _ _ Hfee]. unfold OFFCHAIN_MIN_FEE in Hfee.
    unfold item_debit, saturating_add, amounts_ok in *. case_decide; lia. }
  destruct (IH _ _ _ (add_debit_typed (payer_bank_cid item) (item_debit item) debits ltac:(lia) Hd) Hr)
    as [IH1 IH2]. split.
  - intros b w Hin.
    destruct (add_debit_grows (payer_bank_cid item) (item_debit item) debits b w ltac:(lia) Hd Hin)
      as (w1 & H1 & Hin1). destruct (IH1 _ _ Hin1) as (w2 & H2 & Hin2). exists w2. split; [lia|done].
  - constructor; [|done].
    destruct (add_debit_covers (payer_bank_cid item) (item_debit item) debits Hdeb Hd)
      as (w1 & H1 & Hin1). destruct (IH1 _ _ Hin1) as (w2 & H2 & Hin2). exists w2. split; [lia|done].
Qed.

Lemma check_debits_covered debits total s r s' :
  check_debits debits total s = (Ok r, s') ->
  Forall (fun x => exists a, clearing_account_of x.1 = Some a /\
    bank_total s x.1 + x.2 <= free_balance (ledger_of s) a) debits.
Proof.
  revert total. induction debits as [|[bank d] debits IH]; intros total; simpl; intros Hr; [constructor|].
  apply bind_Ok in Hr as (u & s1 & Hd & Hr). unfold ensure_can_debit in Hd. run_inv.
  constructor; [|by eapply IH]. simpl. eexists. split; [done|]. unfold ledger_of. lia.
Qed.

(** C36: the solvency check compares the balance after the debit with the
    deposits before it, although a settlement lowers both: a batch is settled
    only if the clearing account of every payer's bank holds, on top of all
    deposits, what leaves it; so a bank whose reserve is exactly its deposits
    (all it ever gets from its customers) cannot have a single payment of its
    customers settled. *)
Theorem settlement_needs_surplus now r submitter cid role account seq batch signature s s' :
  Forall amounts_ok batch ->
  clearing_dispatch now r (SubmitOffchainBatch submitter cid role account seq batch signature) s
    = (Ok tt, s') ->
  Forall (fun item => exists a, clearing_account_of (payer_bank_cid item) = Some a /\
    0 < item_debit item /\
    bank_total s (payer_bank_cid item) + item_debit item <= free_balance (ledger_of s) a) batch.
Proof.
  intros Ha Hr. apply (proj1 (transact_Ok _ _ _ _)) in Hr. simpl in Hr. unfold submit_offchain_batch in Hr.
  apply bind_Ok in Hr as ([] & s0 & [_ ->]%ensure_Ok & Hr).
  apply bind_Ok in Hr as ([] & s0 & ->%ensure_institution_account_Ok & Hr).
  apply bind_Ok in Hr as ([] & s0 & [_ ->]%ensure_Ok & Hr).
  apply bind_Ok in Hr as ([] & s0 & Hv & Hr).
  assert (s0 = s) as -> by (unfold verify_batch_signature in Hv; by run_inv). clear Hv.
  rewrite bind_gets in Hr. apply bind_Ok in Hr as ([] & s0 & [_ ->]%ensure_Ok & Hr).
  apply (proj1 (transact_Ok _ _ _ _)) in Hr. apply bind_Ok in Hr as ([] & s2 & Hr & _).
  unfold execute_clearing_bank_batch in Hr.
  apply bind_Ok in Hr as ([] & s0 & ->%ensure_institution_account_Ok & Hr).
  apply bind_Ok in Hr as ([] & s0 & [_ ->]%ensure_Ok & Hr).
  apply bind_Ok in Hr as ([debits total] & s0 & Hci & Hr).
  destruct (check_items_debits _ _ _ _ _ _ _ _ Ha (Forall_nil_2 _) Hci) as [_ Hcov].
  apply check_items_Ok in Hci as [-> Hi]. apply bind_Ok in Hr as (debit & s0 & Hcd & _).
  apply check_debits_covered in Hcd. rewrite Forall_forall in Hcd.
  apply Forall_forall. intros item Hin. rewrite Forall_forall in Hcov, Hi.
  destruct (Hcov item Hin) as (w & Hw & Hinw). destruct (Hcd _ Hinw) as (a & Ha' & Hle). simpl in *.
  exists a. split; [done|]. destruct (Hi item Hin) as [_ Hpos _ _ _ _ _ Hfee].
  unfold OFFCHAIN_MIN_FEE in Hfee. split; [|lia].
  unfold item_debit, saturating_add, u128_max. case_decide; lia.
Qed.
End Safety.

(** ** A concrete chain *)

Definition bank_a : CidNumber := "LN001-SFGF0-A".
Definition bank_b : CidNumber := "GD001-SFGF0-B".

Definition demo_account (cid : CidNumber) (name : string) : option AccountId :=
  base ← (if decide (cid = bank_a) then Some 10 else if decide (cid = bank_b) then Some 20 else None);
  offset ← (if decide (name = ACCOUNT_NAME_MAIN) then Some 1
    else if decide (name = ACCOUNT_NAME_FEE) then Some 2
    else if decide (name = ACCOUNT_NAME_CLEARING) then Some 3 else None);
  Some (base + offset).

Definition demo_info (a : AccountId) : option (CidNumber * string) :=
  match a with
  | 11 => Some (bank_a, ACCOUNT_NAME_MAIN) | 21 => Some (bank_b, ACCOUNT_NAME_MAIN)
  | _ => None
  end.

#[local] Instance demo_clearing_config : ClearingConfig := {|
  account_info := demo_info;
  find_account := demo_account;
  account_exists := fun _ => true;
  is_institution_role_authorized := fun _ _ _ _ => true;
  is_clearing_bank_eligible := fun _ => true;
  can_spend := fun _ _ => true;
  blake2_256 := id;
  sr25519_verify := fun _ _ _ => true;
  encode_intent := fun _ => "";
  encode_bytes := id;
  encode_account := fun _ => "";
  encode_u64 := fun _ => "";
  encode_batch := fun _ => "";
|}.

#[local] Instance demo_order : StorageOrder := {|
  hash_order := fun _ l => l; hash_order_perm := fun _ l => reflexivity l |}.

Lemma demo_registry cid name cid' name' a :
  find_account cid name = Some a -> find_account cid' name' = Some a -> cid = cid' /\ name = name'.
Proof. simpl. unfold demo_account. repeat case_decide; simpl; intros; simplify_eq; done. Qed.

Lemma demo_users a : a = 101 \/ a = 102 -> is_user a.
Proof.
  intros Ha cid name. simpl. unfold demo_account.
  repeat case_decide; simpl; intros [=]; lia.
Qed.

Definition demo_chain : onchain map_ledger :=
  Build_onchain (<[12 := 5000]> (<[13 := 9000]> (<[22 := 5000]> (<[23 := 9000]>
    (<[101 := 50000]> (<[102 := 50000]> ∅)))))) [].

Definition demo_peer (c : ascii) : string :=
  "12D3KooWABCDEFGHIJKLMNOPQRSTUVWXYZabcdefghijklmno" +:+ String c "".

(** Two banks with a node each, two customers with deposits, and the rates. *)
Definition demo_opening : list clearing_call :=
  [RegisterClearingBank 201 bank_a "R" (demo_peer "a") "a.example" 9944;
   RegisterClearingBank 202 bank_b "R" (demo_peer "b") "b.example" 9944;
   BindClearingBank 101 bank_a; BindClearingBank 102 bank_b;
   Deposit 101 20000; Deposit 102 3000;
   ProposeL2FeeRate 201 bank_a "R" 11 8; ProposeL2FeeRate 202 bank_b "R" 21 8].

Definition demo_run (cs : list clearing_call) (s : clearing map_ledger) : clearing map_ledger :=
  foldl (fun s c => (clearing_dispatch 10 demo_recipients c s).2) s cs.

Definition demo_open : clearing map_ledger :=
  activate_pending_rates 1690 (demo_run demo_opening (clearing_empty demo_chain)).

Definition demo_payment : OffchainBatchItem := {|
  tx_id := 77; payer_account_id := 101; payer_bank_cid := bank_a;
  recipient_account_id := 102; recipient_bank_cid := bank_b;
  transfer_amount := 5000; fee_amount := 4; payer_sig := ""; payer_nonce := 1; expires_at := 2000 |}.

Definition demo_batch : clearing_call :=
  SubmitOffchainBatch 202 bank_b "R" 21 1 [demo_payment] (String.concat "" (repeat "x" 64)).
Definition demo_settled : clearing map_ledger :=
  (clearing_dispatch 1700 demo_recipients demo_batch demo_open).2.

Lemma demo_run_steps cs s : Forall call_typed cs -> rtc clearing_step s (demo_run cs s).
Proof.
  revert s. induction cs as [|c cs IH]; intros s; [done|]. intros [Hc Hcs]%Forall_cons.
  eapply rtc_l; [|by apply IH].
  apply (step_clearing_call 10 demo_recipients c _ _ _ Hc (surjective_pairing _)).
Qed.

Lemma demo_payment_amounts : Forall amounts_ok [demo_payment].
Proof. repeat constructor; vm_compute; discriminate. Qed.

Lemma demo_open_reached : rtc clearing_step (clearing_empty demo_chain) demo_open.
Proof.
  apply (rtc_r _ (demo_run demo_opening (clearing_empty demo_chain))); [|apply step_clearing_block].
  apply demo_run_steps. repeat constructor; apply demo_users; lia.
Qed.

Lemma demo_settled_reached : rtc clearing_step (clearing_empty demo_chain) demo_settled.
Proof.
  apply (rtc_r _ demo_open); [exact demo_open_reached|].
  exact (step_clearing_call 1700 demo_recipients demo_batch demo_open _ _ demo_payment_amounts
    (surjective_pairing _)).
Qed.

Lemma clearing_banks_solvent_witness :
  bank_sum (DepositBalance demo_settled) bank_a <= free_balance (ledger_of demo_settled) 13 /\
  bank_total demo_settled bank_a = 14996 /\ bank_total demo_settled bank_b = 8000.
Proof.
  split; [|by split; vm_compute].
  exact (proj1 (clearing_banks_solvent demo_registry demo_chain demo_settled demo_settled_reached)
    bank_a 13 eq_refl).
Defined.

Lemma payments_settled_once_witness :
  ProcessedOffchainTx demo_settled = list_to_set (omap settled_key (clearing_events demo_settled)) /\
  nonce_of demo_settled 101 = 1.
Proof.
  split; [|by vm_compute].
  exact (proj1 (proj2 (payments_settled_once demo_registry demo_chain demo_settled
    demo_settled_reached))).
Defined.

Lemma batch_settlement_witness :
  exists s1, Forall (item_checked 1700 bank_b demo_open) [demo_payment] /\
    settled_all 1700 [demo_payment] demo_open s1.
Proof.
  pose proof (batch_settlement demo_registry 1700 demo_recipients 202 bank_b "R" 21 1 [demo_payment]
    (String.concat "" (repeat "x" 64)) demo_open demo_payment_amounts
    (reachable_ok demo_registry demo_chain demo_open demo_open_reached)) as H.
  destruct (clearing_dispatch _ _ _ demo_open) as [[u|e] s'] eqn:Hr.
  - destruct H as (s1 & c & fa & fee & debit & H1 & H2 & _). exists s1. exact (conj H1 H2).
  - exfalso. apply (f_equal fst) in Hr. vm_compute in Hr. discriminate Hr.
Defined.

Lemma fee_rate_cap_ignored_witness :
  (do_propose_l2_fee_rate 10 201 bank_a "R" 11 8
     (set_MaxL2FeeRateBp (fun _ => 1) demo_open)).1 = Ok tt.
Proof.
  rewrite <-(fee_rate_cap_ignored 10 201 bank_a "R" 11 8 1 demo_open) by (vm_compute; discriminate).
  by vm_compute.
Defined.

Lemma settlement_needs_surplus_witness :
  Forall (fun item => exists a, clearing_account_of (payer_bank_cid item) = Some a /\
    0 < item_debit item /\
    bank_total demo_open (payer_bank_cid item) + item_debit item
      <= free_balance (ledger_of demo_open) a) [demo_payment].
Proof.
  apply (settlement_needs_surplus 1700 demo_recipients 202 bank_b "R" 21 1 [demo_payment]
    (String.concat "" (repeat "x" 64)) demo_open demo_settled demo_payment_amounts).
  assert ((clearing_dispatch 1700 demo_recipients demo_batch demo_open).1 = Ok tt) as Hr by by vm_compute.
  unfold demo_settled, demo_batch in *. destruct (clearing_dispatch _ _ _ _). simpl in *. by subst.
Defined.
