(* ===== verification/CidFormat.v ===== *)
(** * The format of CID numbers

    The parser accepts exactly the renderings of well-formed parts, and the
    generator issues exactly such numbers. *)
From S2P Require Import Prelude Cid CidNumber.

(** ** Text *)

Lemma string_forallb_app f a b :
  string_forallb f (a +:+ b) = string_forallb f a && string_forallb f b.
Proof. induction a as [|c a IH]; simpl; [done|]. by rewrite IH, andb_assoc. Qed.

Lemma string_forallb_impl (f g : ascii -> bool) s :
  (forall c, f c = true -> g c = true) -> string_forallb f s = true -> string_forallb g s = true.
Proof. intros H. induction s; simpl; [done|]. rewrite !andb_true_iff. naive_solver. Qed.

Lemma string_forallb_list f s :
  string_forallb f s = true -> Forall (fun c => f c = true) (String.list_ascii_of_string s).
Proof. induction s; simpl; [by constructor|]. rewrite andb_true_iff. naive_solver. Qed.

Lemma length_append (a b : string) :
  String.length (a +:+ b) = (String.length a + String.length b)%nat.
Proof. induction a as [|c a IH]; simpl; [done|]. by rewrite IH. Qed.

Lemma append_assoc (a b c : string) : (a +:+ b) +:+ c = a +:+ (b +:+ c).
Proof. induction a as [|x a IH]; [done|]. exact (f_equal (String x) IH). Qed.

Lemma append_empty (a : string) : a +:+ "" = a.
Proof. induction a as [|x a IH]; [done|]. exact (f_equal (String x) IH). Qed.

Lemma byte_in_spec lo hi c : byte_in lo hi c = true <-> (lo <= nat_of_ascii c <= hi)%nat.
Proof. unfold byte_in. rewrite andb_true_iff, !Nat.leb_le. done. Qed.

(** Characters that are neither white space nor a byte of some. *)
Definition plain (c : ascii) : bool := byte_in 33 127 c.

Lemma upper_or_digit_plain c : upper_or_digit c = true -> plain c = true.
Proof.
  unfold upper_or_digit, is_ascii_uppercase, is_ascii_digit, plain.
  rewrite orb_true_iff, !byte_in_spec. lia.
Qed.

Lemma digit_upper_or_digit c : is_ascii_digit c = true -> upper_or_digit c = true.
Proof. intros H. unfold upper_or_digit. by rewrite H, orb_true_r. Qed.

Definition starts_foreign (w : list nat) : bool :=
  match w with [] => false | n :: _ => (n <? 33)%nat || (127 <? n)%nat end.

Lemma strip_all_plain ws fuel l :
  forallb starts_foreign ws = true -> (forall c l', l = c :: l' -> plain c = true) ->
  strip_all ws fuel l = l.
Proof.
  intros Hws Hl. destruct fuel as [|fuel]; [done|]. simpl.
  assert (omap (fun w => strip_prefix w l) ws = []) as ->; [|done].
  induction ws as [|w ws IH]; [done|]. simpl in Hws. apply andb_true_iff in Hws as [Hw Hws].
  simpl. destruct w as [|n w]; [done|]. destruct l as [|c l]; simpl; [by apply IH|].
  specialize (Hl c l eq_refl). unfold plain in Hl. apply byte_in_spec in Hl.
  simpl in Hw. apply orb_true_iff in Hw. rewrite !Nat.ltb_lt in Hw.
  destruct (Nat.eqb_spec n (nat_of_ascii c)); [lia|]. by apply IH.
Qed.

Lemma trim_plain s : string_forallb plain s = true -> trim s = s.
Proof.
  intros Hs. apply string_forallb_list in Hs. unfold trim.
  rewrite (strip_all_plain whitespace); [|by vm_compute|].
  2: { intros c l' Hl. rewrite Hl in Hs. by apply Forall_cons in Hs as [? _]. }
  rewrite strip_all_plain; [|by vm_compute|].
  2: { intros c l' Hl. apply Forall_reverse in Hs. rewrite Hl in Hs. by apply Forall_cons in Hs as [? _]. }
  rewrite reverse_involutive. apply String.string_of_list_ascii_of_string.
Qed.

(** ** Splitting *)

Definition free_of (sep : ascii) (s : string) : bool :=
  string_forallb (fun c => negb (bool_decide (c = sep))) s.

Lemma split_on_free sep s : free_of sep s = true -> split_on sep s = [s].
Proof.
  unfold free_of. induction s as [|c s IH]; simpl; [done|].
  rewrite andb_true_iff. intros [Hc Hs]. rewrite (IH Hs).
  by destruct (bool_decide (c = sep)).
Qed.

Lemma split_on_nonempty sep s : split_on sep s <> [].
Proof.
  induction s as [|c s IH]; simpl; [done|]. destruct (split_on sep s); [done|].
  by destruct (bool_decide _).
Qed.

Lemma split_on_app sep a b :
  free_of sep a = true -> split_on sep (a +:+ String sep b) = a :: split_on sep b.
Proof.
  unfold free_of. induction a as [|c a IH]; simpl.
  - intros _. rewrite bool_decide_eq_true_2 by done.
    by destruct (split_on sep b) eqn:Hb; [apply split_on_nonempty in Hb|].
  - rewrite andb_true_iff. intros [Hc Ha]. rewrite (IH Ha). by destruct (bool_decide (c = sep)).
Qed.

(** The segments joined again, and none of them holds the separator. *)
Fixpoint join (sep : ascii) (segs : list string) : string :=
  match segs with
  | [] => ""
  | [s] => s
  | s :: segs => s +:+ String sep (join sep segs)
  end.

Lemma join_cons sep s segs : segs <> [] -> join sep (s :: segs) = s +:+ String sep (join sep segs).
Proof. by destruct segs. Qed.

Lemma join_split sep s : join sep (split_on sep s) = s.
Proof.
  induction s as [|c s IH]; [done|]. simpl. pose proof (split_on_nonempty sep s).
  destruct (split_on sep s) as [|seg segs]; [done|]. case_bool_decide as Hc.
  - rewrite join_cons, IH, Hc by done. done.
  - destruct segs as [|seg2 segs]; exact (f_equal (String c) IH).
Qed.

(** ** The table of the codes *)

Definition info_ok (info : InstitutionCodeInfo) : bool :=
  let text := institution_code_text_of info in
  string_forallb is_ascii_uppercase text
  && bool_decide (institution_code_len (institution_code info) = Some (String.length text))
  && bool_decide (institution_code_text (institution_code info) = Some text)
  && bool_decide (institution_code_from_str text = Some (institution_code info))
  && bool_decide (institution_code info = code_bytes text)
  && negb (string_forallb is_ascii (institution_code_label_of info))
  && (bool_decide (String.length text = 3%nat) || bool_decide (String.length text = 4%nat)).

Lemma table_ok : Forall (fun info => info_ok info = true) INSTITUTION_CODE_INFOS.
Proof.
  apply Forall_forall. intros info Hin. apply list_elem_of_In in Hin.
  revert info Hin. apply forallb_forall. by vm_compute.
Qed.

Record code_text (code : InstitutionCode) (text : string) : Prop := {
  ct_upper : string_forallb is_ascii_uppercase text = true;
  ct_len : is_three_char_code code = bool_decide (String.length text = 3%nat);
  ct_from : institution_code_from_str text = Some code;
  ct_bytes : code = code_bytes text;
  ct_sizes : String.length text = 3%nat \/ String.length text = 4%nat;
}.

Lemma table_entry info :
  info ∈ INSTITUTION_CODE_INFOS ->
  institution_code_text (institution_code info) = Some (institution_code_text_of info) /\
  string_forallb is_ascii (institution_code_label_of info) = false /\
  code_text (institution_code info) (institution_code_text_of info).
Proof.
  intros Hin. pose proof table_ok as Ht. rewrite Forall_forall in Ht. specialize (Ht _ Hin).
  unfold info_ok in Ht. rewrite !andb_true_iff, orb_true_iff, negb_true_iff, !bool_decide_eq_true in Ht.
  destruct Ht as ((((((H1 & H2) & H3) & H4) & Hb) & H5) & H6). split; [done|]. split; [done|].
  split; try done. unfold is_three_char_code. rewrite H2. apply bool_decide_ext. naive_solver.
Qed.

Lemma institution_code_text_table code text :
  institution_code_text code = Some text -> code_text code text.
Proof.
  unfold institution_code_text, institution_info. intros (info & Hf & ->)%fmap_Some.
  apply List.find_some in Hf as [Hin Hc]. apply bool_decide_eq_true in Hc. subst code.
  by apply list_elem_of_In, table_entry in Hin as (_ & _ & ?).
Qed.

Lemma institution_code_from_plain s code :
  string_forallb upper_or_digit s = true -> institution_code_from_str s = Some code ->
  institution_code_text code = Some s.
Proof.
  intros Hs. unfold institution_code_from_str.
  rewrite trim_plain by (eapply string_forallb_impl; [exact upper_or_digit_plain|done]).
  intros (info & Hf & ->)%fmap_Some. apply List.find_some in Hf as [Hin Hc].
  apply list_elem_of_In, table_entry in Hin as (Ht & Hl & _).
  apply orb_true_iff in Hc. rewrite !bool_decide_eq_true in Hc. destruct Hc as [<-|<-]; [done|].
  exfalso. apply not_true_iff_false in Hl. apply Hl. eapply string_forallb_impl; [|done].
  intros c Hu%upper_or_digit_plain. unfold plain, is_ascii in *. rewrite byte_in_spec in *. lia.
Qed.

(** ** Well-formed parts *)

Definition profit_mark (profit : bool) : string := if profit then "1" else "0".

Definition core_payload (p : CidNumberParts) : string :=
  if is_three_char_code (institution p)
  then institution_code_text_part p +:+ profit_mark (profit p) else institution_code_text_part p.

Definition expected_checksum (p : CidNumberParts) : ascii :=
  let payload := r5 p +:+ core_payload p +:+ n9 p +:+ d4 p in
  if is_three_char_code (institution p) then checksum_char_mod36 payload
  else checksum_char_m1 payload (profit p).

(** The text of a number. *)
Definition render (p : CidNumberParts) : string :=
  r5 p +:+ "-" +:+ core_payload p +:+ String (checksum p) ("-" +:+ n9 p +:+ "-" +:+ d4 p).

Record well_formed (p : CidNumberParts) : Prop := {
  wf_r5 : segment_ok CID_NUMBER_SEGMENT_R5_LEN upper_or_digit (r5 p) = true;
  wf_code : institution_code_text (institution p) = Some (institution_code_text_part p);
  wf_profit : check_profit_policy (institution p) (profit p) = Ok tt;
  wf_checksum : checksum p = expected_checksum p;
  wf_n9 : segment_ok CID_NUMBER_SEGMENT_N9_LEN is_ascii_digit (n9 p) = true;
  wf_d4 : segment_ok CID_NUMBER_SEGMENT_D4_LEN is_ascii_digit (d4 p) = true;
}.

(** ** The parser *)

Section Results.
Context {E A B : Type}.
Lemma guard_bind_Ok (b : bool) (e : E) (k : result E A) x :
  (guard_ok b e ;; k) = Ok x <-> b = true /\ k = Ok x.
Proof. destruct b; simpl; naive_solver. Qed.
Lemma result_bind_Ok (m : result E A) (f : A -> result E B) x :
  (m ≫= f) = Ok x <-> exists a, m = Ok a /\ f a = Ok x.
Proof. destruct m; simpl; naive_solver. Qed.
Lemma opt_ok_Ok (o : option A) (e : E) x : opt_ok o e = Ok x <-> o = Some x.
Proof. destruct o; simpl; naive_solver. Qed.
End Results.

Ltac result_inv := repeat
  match goal with
  | H : (guard_ok _ _ ;; _) = Ok _ |- _ => apply guard_bind_Ok in H as [? H]
  | H : (_ ≫= _) = Ok _ |- _ => apply result_bind_Ok in H as (? & ? & H)
  | H : opt_ok _ _ = Ok _ |- _ => apply opt_ok_Ok in H
  | H : bool_decide _ = true |- _ => apply bool_decide_eq_true in H
  | H : negb _ = true |- _ => apply negb_true_iff in H
  | H : Ok _ = Ok _ |- _ => injection H as H
  end.

Lemma check_profit_policy_unit code profit u :
  check_profit_policy code profit = Ok u -> check_profit_policy code profit = Ok tt.
Proof. by destruct u. Qed.

(** The core segment of parts, and its two layouts. *)
Definition core_segment (p : CidNumberParts) : string :=
  core_payload p +:+ String (checksum p) "".

(** ** Checksum characters *)

Lemma checksum_char_mod36_upper payload : upper_or_digit (checksum_char_mod36 payload) = true.
Proof.
  unfold checksum_char_mod36.
  pose proof (Z.mod_pos_bound (checksum_acc payload) 36 ltac:(lia)) as Hb.
  remember (Z.to_nat (checksum_acc payload mod 36)) as n.
  assert (n < 36)%nat as Hn by lia. clear -Hn.
  do 36 (destruct n as [|n]; [by vm_compute|]). lia.
Qed.

Lemma checksum_char_m1_digit payload profit :
  is_ascii_digit (checksum_char_m1 payload profit) = profit.
Proof.
  unfold checksum_char_m1, is_ascii_digit.
  pose proof (Z.mod_pos_bound (checksum_acc payload) 10 ltac:(lia)).
  pose proof (Z.mod_pos_bound (checksum_acc payload) 26 ltac:(lia)).
  destruct profit; [apply byte_in_spec|apply not_true_iff_false; rewrite byte_in_spec];
    rewrite nat_ascii_embedding by lia; lia.
Qed.

Lemma checksum_char_m1_upper payload profit :
  upper_or_digit (checksum_char_m1 payload profit) = true.
Proof.
  unfold upper_or_digit. rewrite checksum_char_m1_digit, orb_true_iff. destruct profit; [by right|].
  left. unfold checksum_char_m1, is_ascii_uppercase. apply byte_in_spec.
  pose proof (Z.mod_pos_bound (checksum_acc payload) 26 ltac:(lia)).
  rewrite nat_ascii_embedding by lia. lia.
Qed.

#[local] Opaque INSTITUTION_CODE_INFOS institution_code_from_str is_three_char_code profit_policy
  checksum_char_mod36 checksum_char_m1 institution_code_text.

(** What the parser asks of the code, the profit mark and the checksum. *)
Record core_ok (p : CidNumberParts) : Prop := {
  core_code : institution_code_text (institution p) = Some (institution_code_text_part p);
  core_profit : check_profit_policy (institution p) (profit p) = Ok tt;
  core_checksum : checksum p = expected_checksum p;
}.

Definition parts_of (s0 s2 s3 : string) (r : InstitutionCode * string * bool * ascii)
    : CidNumberParts :=
  let '(institution, code, profit, checksum) := r in
  {| r5 := s0; institution := institution; institution_code_text_part := code;
     profit := profit; checksum := checksum; n9 := s2; d4 := s3 |}.

Lemma three_char_parsed s0 s1 s2 s3 r :
  String.length s1 = 5%nat -> string_forallb upper_or_digit s1 = true ->
  parse_three_char s0 s1 s2 s3 = Ok r ->
  core_ok (parts_of s0 s2 s3 r) /\ core_segment (parts_of s0 s2 s3 r) = s1.
Proof.
  intros Hlen Hs Hp. destruct s1 as [|c0 [|c1 [|c2 [|c3 [|c4 [|]]]]]]; try done. clear Hlen.
  unfold parse_three_char in Hp. simpl in Hp. result_inv. subst r.
  match goal with H : institution_code_from_str _ = Some ?i |- _ => rename i into inst, H into Hi end.
  match goal with H : is_three_char_code inst = true |- _ => rename H into Hthree end.
  match goal with H : _ = Ok ?b |- _ => lazymatch type of b with bool => rename b into prof, H into Hb end end.
  assert (String c3 "" = profit_mark prof) as Hmark.
  { repeat case_decide; simplify_eq; done. }
  apply institution_code_from_plain in Hi.
  2: { simpl in *. rewrite !andb_true_iff in *. naive_solver. }
  match goal with H : check_profit_policy _ _ = Ok _ |- _ => apply check_profit_policy_unit in H end.
  split; [split; simpl; try done|]; unfold expected_checksum, core_segment, core_payload; simpl;
    rewrite Hthree.
  - rewrite <-Hmark, append_assoc. congruence.
  - rewrite <-Hmark. done.
Qed.

Lemma four_char_parsed s0 s1 s2 s3 r :
  String.length s1 = 5%nat -> string_forallb upper_or_digit s1 = true ->
  parse_four_char s0 s1 s2 s3 = Ok r ->
  core_ok (parts_of s0 s2 s3 r) /\ core_segment (parts_of s0 s2 s3 r) = s1.
Proof.
  intros Hlen Hs Hp. destruct s1 as [|c0 [|c1 [|c2 [|c3 [|c4 [|]]]]]]; try done. clear Hlen.
  unfold parse_four_char in Hp. simpl in Hp. result_inv. subst r.
  match goal with H : institution_code_from_str _ = Some ?i |- _ => rename i into inst, H into Hi end.
  match goal with H : is_three_char_code inst = false |- _ => rename H into Hfour end.
  apply institution_code_from_plain in Hi.
  2: { simpl in *. rewrite !andb_true_iff in *. naive_solver. }
  match goal with H : check_profit_policy _ _ = Ok _ |- _ => apply check_profit_policy_unit in H end.
  split; [split; simpl; try done|]; unfold expected_checksum, core_segment, core_payload; simpl;
    by rewrite Hfour.
Qed.

(** Conversely the layouts accept what they should. *)
Lemma policy_mark profit :
  (if decide (profit_mark profit = "0") then Ok false
   else if decide (profit_mark profit = "1") then Ok true
   else Err "cid_number 3-char layout profit must be 0/1") = (Ok profit : parsed bool).
Proof. by destruct profit. Qed.

Lemma three_char_accepted p :
  core_ok p -> is_three_char_code (institution p) = true ->
  parse_three_char (r5 p) (core_segment p) (n9 p) (d4 p)
    = Ok (institution p, institution_code_text_part p, profit p, checksum p).
Proof.
  destruct p as [s0 code text prof c s2 s3]. intros [Hc Hp Hx] H3. simpl in *.
  destruct (institution_code_text_table _ _ Hc) as [_ Hlen Hfrom _ _].
  rewrite H3 in Hlen. symmetry in Hlen. apply bool_decide_eq_true in Hlen.
  unfold expected_checksum, core_payload in Hx. simpl in Hx. rewrite H3 in Hx.
  unfold core_segment, core_payload. simpl. rewrite H3.
  destruct text as [|c0 [|c1 [|c2 [|]]]]; try done.
  assert (exists m, profit_mark prof = String m "") as [m Hm] by (destruct prof; by eexists).
  rewrite Hm in *. unfold parse_three_char. simpl. rewrite Hfrom. simpl. rewrite H3. simpl.
  rewrite <-Hm. rewrite policy_mark. simpl. rewrite Hp. simpl.
  rewrite Hm, Hx, bool_decide_eq_true_2; done.
Qed.

Lemma four_char_accepted p :
  core_ok p -> is_three_char_code (institution p) = false ->
  parse_four_char (r5 p) (core_segment p) (n9 p) (d4 p)
    = Ok (institution p, institution_code_text_part p, profit p, checksum p).
Proof.
  destruct p as [s0 code text prof c s2 s3]. intros [Hc Hp Hx] H3. simpl in *.
  destruct (institution_code_text_table _ _ Hc) as [_ Hlen Hfrom _ Hsize].
  rewrite H3 in Hlen. symmetry in Hlen. apply bool_decide_eq_false in Hlen.
  unfold expected_checksum, core_payload in Hx. simpl in Hx. rewrite H3 in Hx.
  unfold core_segment, core_payload. simpl. rewrite H3.
  destruct text as [|c0 [|c1 [|c2 [|c3 [|]]]]]; try (simpl in *; lia).
  unfold parse_four_char. simpl. rewrite Hfrom. simpl. rewrite H3. simpl.
  rewrite Hx, checksum_char_m1_digit, Hp. simpl. by rewrite bool_decide_eq_true_2.
Qed.

(** The layout is read off the fourth character. *)
Lemma layout_three p :
  core_ok p ->
  is_ascii_digit (default zero_char (String.get 3 (core_segment p)))
    = is_three_char_code (institution p).
Proof.
  destruct p as [s0 code text prof c s2 s3]. intros [Hc _ _]. simpl in *.
  destruct (institution_code_text_table _ _ Hc) as [Hup -> _ _ Hsize].
  pose proof (ct_len _ _ (institution_code_text_table _ _ Hc)) as H3.
  unfold core_segment, core_payload. simpl. rewrite H3. clear H3 Hc.
  destruct text as [|c0 [|c1 [|c2 [|c3 [|]]]]]; try (simpl in *; lia); simpl in *.
  - by destruct prof.
  - rewrite !andb_true_iff in Hup. destruct Hup as (_ & _ & _ & Hup & _).
    unfold is_ascii_uppercase, is_ascii_digit in *. apply byte_in_spec in Hup.
    apply not_true_iff_false. rewrite byte_in_spec. lia.
Qed.

Lemma core_segment_ok p :
  core_ok p -> segment_ok CID_NUMBER_SEGMENT_K3P1C1_LEN upper_or_digit (core_segment p) = true.
Proof.
  destruct p as [s0 code text prof c s2 s3]. intros [Hc _ Hx]. simpl in *.
  destruct (institution_code_text_table _ _ Hc) as [Hup H3 _ _ Hsize].
  unfold segment_ok, core_segment, core_payload, expected_checksum in *. simpl in *.
  assert (upper_or_digit c = true) as Hcu.
  { rewrite Hx. destruct (is_three_char_code code); [apply checksum_char_mod36_upper|apply checksum_char_m1_upper]. }
  assert (string_forallb upper_or_digit text = true) as Htu.
  { eapply string_forallb_impl; [|exact Hup]. intros d Hd. unfold upper_or_digit. by rewrite Hd. }
  rewrite H3. apply andb_true_iff. rewrite bool_decide_eq_true, string_forallb_app, length_append.
  case_bool_decide as Hl.
  - rewrite length_append, string_forallb_app, Htu. simpl. rewrite Hcu.
    rewrite Hl. by destruct prof.
  - rewrite Htu. simpl. rewrite Hcu. split; [unfold CID_NUMBER_SEGMENT_K3P1C1_LEN; lia|done].
Qed.

Lemma parse_segments_Ok s0 s1 s2 s3 p :
  parse_segments s0 s1 s2 s3 = Ok p ->
  well_formed p /\ r5 p = s0 /\ core_segment p = s1 /\ n9 p = s2 /\ d4 p = s3.
Proof.
  unfold parse_segments. intros Hparse. result_inv. destruct x as [[[i t] f] c]. result_inv.
  assert (core_ok p /\ core_segment p = s1) as [[K1 K2 K3] K4].
  { subst p. change {| r5 := s0; institution := i; institution_code_text_part := t; profit := f;
      checksum := c; n9 := s2; d4 := s3 |} with (parts_of s0 s2 s3 (i, t, f, c)).
    match goal with H : segment_ok _ _ s1 = true |- _ =>
      unfold segment_ok in H; apply andb_true_iff in H as [Hl%bool_decide_eq_true Hf] end.
    destruct (is_ascii_digit _); [by apply three_char_parsed|by apply four_char_parsed]. }
  subst p. simpl in *. by split.
Qed.

Lemma parse_segments_render p :
  well_formed p -> parse_segments (r5 p) (core_segment p) (n9 p) (d4 p) = Ok p.
Proof.
  intros [H1 H2 H3 H4 H5 H6]. pose proof (Build_core_ok p H2 H3 H4) as Hc.
  unfold parse_segments. rewrite H1, (core_segment_ok p Hc), H5, H6. simpl.
  rewrite (layout_three p Hc). destruct (is_three_char_code (institution p)) eqn:Hl.
  - rewrite three_char_accepted by done. by destruct p.
  - rewrite four_char_accepted by done. by destruct p.
Qed.

(** ** Whole numbers *)

Lemma render_join p : render p = join "-" [r5 p; core_segment p; n9 p; d4 p].
Proof. unfold render, core_segment. simpl. by rewrite append_assoc. Qed.

Lemma segment_upper len s :
  segment_ok len upper_or_digit s = true -> string_forallb upper_or_digit s = true.
Proof. unfold segment_ok. rewrite andb_true_iff. by intros [_ ?]. Qed.
Lemma segment_digits len s :
  segment_ok len is_ascii_digit s = true -> string_forallb upper_or_digit s = true.
Proof.
  unfold segment_ok. rewrite andb_true_iff. intros [_ H]. eapply string_forallb_impl; [|exact H].
  apply digit_upper_or_digit.
Qed.
Lemma segment_len len f s : segment_ok len f s = true -> String.length s = len.
Proof. unfold segment_ok. rewrite andb_true_iff, bool_decide_eq_true. by intros [? _]. Qed.

Lemma upper_free s : string_forallb upper_or_digit s = true -> free_of "-" s = true.
Proof.
  apply string_forallb_impl. intros c Hc. rewrite negb_true_iff, bool_decide_eq_false.
  by intros ->.
Qed.

Definition cid_char (c : ascii) : bool := upper_or_digit c || bool_decide (c = "-"%char).

Record number_text (s : string) (s0 s1 s2 s3 : string) : Prop := {
  nt_chars : string_forallb cid_char s = true;
  nt_split : split_on "-" s = [s0; s1; s2; s3];
  nt_len : String.length s = (String.length s0 + String.length s1 + String.length s2
    + String.length s3 + 3)%nat;
}.

Lemma joined_text s0 s1 s2 s3 :
  Forall (fun s => string_forallb upper_or_digit s = true) [s0; s1; s2; s3] ->
  number_text (join "-" [s0; s1; s2; s3]) s0 s1 s2 s3.
Proof.
  rewrite !Forall_cons. intros (H0 & H1 & H2 & H3 & _).
  assert (Himpl : forall s, string_forallb upper_or_digit s = true -> string_forallb cid_char s = true).
  { intros s. apply string_forallb_impl. intros c Hc. unfold cid_char. by rewrite Hc. }
  split; simpl.
  - rewrite !string_forallb_app. simpl. rewrite !string_forallb_app. simpl.
    rewrite !string_forallb_app. simpl. by rewrite !Himpl.
  - rewrite !split_on_app, split_on_free by (by apply upper_free). done.
  - repeat (rewrite length_append; simpl). lia.
Qed.

Lemma render_text p :
  well_formed p -> number_text (render p) (r5 p) (core_segment p) (n9 p) (d4 p) /\
  String.length (render p) = 26%nat.
Proof.
  intros [H1 H2 H3 H4 H5 H6]. pose proof (core_segment_ok p (Build_core_ok p H2 H3 H4)) as Hc.
  assert (number_text (render p) (r5 p) (core_segment p) (n9 p) (d4 p)) as Ht.
  { rewrite render_join. apply joined_text. rewrite !Forall_cons. split_and!; try done;
      [by eapply segment_upper|by eapply segment_upper|by eapply segment_digits|by eapply segment_digits]. }
  split; [done|]. rewrite (nt_len _ _ _ _ _ Ht).
  rewrite (segment_len _ _ _ H1), (segment_len _ _ _ H5), (segment_len _ _ _ H6), (segment_len _ _ _ Hc).
  done.
Qed.

Lemma cid_char_plain c : cid_char c = true -> plain c = true.
Proof.
  unfold cid_char. rewrite orb_true_iff, bool_decide_eq_true.
  intros [H| ->]; [by apply upper_or_digit_plain|by vm_compute].
Qed.
Lemma plain_ascii c : plain c = true -> is_ascii c = true.
Proof. unfold plain, is_ascii. rewrite !byte_in_spec. lia. Qed.

Lemma render_plain p : well_formed p -> string_forallb plain (render p) = true.
Proof.
  intros Hp. destruct (render_text p Hp) as [[Hc _ _] _].
  eapply string_forallb_impl; [exact cid_char_plain|exact Hc].
Qed.

Lemma parse_Ok raw p : parse_cid_number_parts raw = Ok p -> well_formed p /\ trim raw = render p.
Proof.
  unfold parse_cid_number_parts. intros Hparse. result_inv.
  destruct (split_on "-" (trim raw)) as [|s0 [|s1 [|s2 [|s3 [|]]]]] eqn:Hs; try done.
  apply parse_segments_Ok in Hparse as (Hp & <- & <- & <- & <-). split; [done|].
  by rewrite render_join, <-Hs, join_split.
Qed.

Lemma parse_render raw p :
  well_formed p -> trim raw = render p -> parse_cid_number_parts raw = Ok p.
Proof.
  intros Hp Ht. destruct (render_text p Hp) as [[Hc Hs _] Hl].
  pose proof (render_plain p Hp) as Hplain. unfold parse_cid_number_parts. rewrite Ht, Hl, Hs.
  rewrite (bool_decide_eq_false_2 (render p = "")) by (intros Heq; by rewrite Heq in Hl). simpl.
  rewrite (string_forallb_impl _ _ _ plain_ascii Hplain). simpl.
  fold cid_char.
  rewrite Hc. simpl. by apply parse_segments_render.
Qed.

(** C37: the parser accepts exactly the texts of well-formed parts, white
    space around them ignored: the area segment is five capital letters or
    digits, the code is one of the table and written as the table says, the
    profit mark agrees with the policy of the code, the checksum is the one of
    the layout, and the last segments are nine and four digits. So a number has
    one reading, and an accepted number is the text of what was read. *)
Theorem parse_accepts_exactly raw p :
  parse_cid_number_parts raw = Ok p <-> well_formed p /\ trim raw = render p.
Proof. split; [apply parse_Ok|intros [H1 H2]; by apply parse_render]. Qed.

(** ** The generator *)

Lemma decimal_length w n : String.length (decimal w n) = w.
Proof. revert n. induction w as [|w IH]; intros n; simpl; [done|]. by rewrite IH. Qed.

Lemma decimal_digits w n : string_forallb is_ascii_digit (decimal w n) = true.
Proof.
  revert n. induction w as [|w IH]; intros n; [done|]. cbn [decimal string_forallb]. rewrite IH, andb_true_r.
  unfold digit, is_ascii_digit. apply byte_in_spec.
  pose proof (Z.mod_pos_bound (n / 10 ^ Z.of_nat w) 10 ltac:(lia)).
  rewrite nat_ascii_embedding; lia.
Qed.

Lemma decimal_segment w n : segment_ok w is_ascii_digit (decimal w n) = true.
Proof. unfold segment_ok. by rewrite decimal_length, bool_decide_eq_true_2, decimal_digits. Qed.

#[local] Opaque decimal.

Lemma ascii_utf8_bytes fuel l :
  Forall (fun n => n <= 127)%nat l -> utf8_valid_bytes fuel l = true.
Proof.
  revert l. induction fuel as [|fuel IH]; intros l Hl; [done|].
  destruct Hl as [|n l Hn Hl]; [done|]. simpl.
  destruct (Nat.leb_spec n 127); [by apply IH|lia].
Qed.

Lemma ascii_utf8_valid s : string_forallb is_ascii s = true -> utf8_valid s = true.
Proof.
  intros Hs%string_forallb_list. unfold utf8_valid. apply ascii_utf8_bytes.
  apply Forall_fmap. eapply Forall_impl; [exact Hs|]. intros c Hc. simpl.
  apply byte_in_spec in Hc. lia.
Qed.

Section Generated.
Variable blake2_256 : string -> string.

(** The area segment of a number that was issued. *)
Definition issued_area (input : GenerateCidNumberInput) (code : InstitutionCode) (area : string) : Prop :=
  if is_person_code code then String.substring 0 2 area = COUNTRY_CN
  else area = in_province_code input +:+ in_city_code input /\
    String.length (in_province_code input) = 2%nat /\ String.length (in_city_code input) = 3%nat.

Lemma generated_segments_Ok input code text area n :
  generated_segments blake2_256 input code text = Ok (area, n) ->
  segment_ok CID_NUMBER_SEGMENT_R5_LEN upper_or_digit area = true /\
  segment_ok CID_NUMBER_SEGMENT_N9_LEN is_ascii_digit n = true /\ issued_area input code area.
Proof.
  unfold generated_segments, issued_area. destruct (is_person_code code).
  - intros [= <- <-]. split; [|split; [apply decimal_segment|]].
    + unfold segment_ok. rewrite length_append, decimal_length, string_forallb_app.
      rewrite (string_forallb_impl _ _ _ digit_upper_or_digit (decimal_digits 3 _)). done.
    + destruct (decimal 3 _) as [|? [|? [|? [|]]]] eqn:Hd; try done;
        apply (f_equal String.length) in Hd; by rewrite decimal_length in Hd.
  - intros Hg. result_inv. simplify_eq. split; [|split; [apply decimal_segment|]].
    + unfold valid_ascii_code in *. rewrite !andb_true_iff, !bool_decide_eq_true in *. destruct_and!.
      unfold segment_ok. rewrite length_append, string_forallb_app, andb_true_iff, bool_decide_eq_true.
      split; [|by apply andb_true_iff]. unfold CID_NUMBER_SEGMENT_R5_LEN. lia.
    + unfold valid_ascii_code in *. rewrite !andb_true_iff, !bool_decide_eq_true in *. by destruct_and!.
Qed.

Lemma generated_profit_allowed code p1 b :
  generated_profit code p1 = Ok b -> check_profit_policy code b = Ok tt.
Proof.
  unfold generated_profit, check_profit_policy. destruct (profit_policy code) as [[]|]; try done.
  - by intros [= <-].
  - by intros [= <-].
Qed.

(** The parts of the number the input stands for. *)
Record issued (input : GenerateCidNumberInput) (p : CidNumberParts) : Prop := {
  is_wf : well_formed p;
  is_code : institution_code_from_str (in_institution input) = Some (institution p);
  is_not_pmul : institution p <> PMUL;
  is_profit : generated_profit (institution p) (p1 input) = Ok (profit p);
  is_area : issued_area input (institution p) (r5 p);
  is_year : d4 p = year input;
}.

Lemma generate_Ok input n :
  generate_cid_number blake2_256 input = Ok n -> exists p, issued input p /\ n = render p.
Proof.
  unfold generate_cid_number. intros Hg. apply guard_bind_Ok in Hg as [Hreq Hg].
  apply guard_bind_Ok in Hg as [Hyear Hg]. apply result_bind_Ok in Hg as (code & Hcode%opt_ok_Ok & Hg).
  apply guard_bind_Ok in Hg as [Hpmul%negb_true_iff%bool_decide_eq_false Hg].
  apply result_bind_Ok in Hg as (b & Hb & Hg). apply result_bind_Ok in Hg as (text & Ht%opt_ok_Ok & Hg).
  apply result_bind_Ok in Hg as ([area n9] & Hs & Hg). apply generated_segments_Ok in Hs as (Ha & Hn & Hi).
  set (p := {| r5 := area; institution := code; institution_code_text_part := text; profit := b;
    checksum := expected_checksum {| r5 := area; institution := code; institution_code_text_part := text;
      profit := b; checksum := "0"; n9 := n9; d4 := year input |}; n9 := n9; d4 := year input |}).
  exists p. split.
  - split; try done. split; try done. by eapply generated_profit_allowed.
  - unfold render, core_payload, p, expected_checksum, core_payload. simpl.
    destruct (is_three_char_code code); injection Hg as <-; [|done]. by rewrite !append_assoc.
Qed.

(** What the generator asks of its input. *)
Record input_valid (input : GenerateCidNumberInput) : Prop := {
  iv_key : trim (public_key input) <> "";
  iv_year : String.length (year input) = 4%nat;
  iv_year_digits : string_forallb is_ascii_digit (year input) = true;
  iv_code : exists code, institution_code_from_str (in_institution input) = Some code /\ code <> PMUL /\
    (profit_policy code = Some Variable_ \/ profit_policy code = Some InheritParent ->
       exists b, resolve_profit (p1 input) = Ok b) /\
    (is_person_code code = false ->
       valid_ascii_code (in_province_code input) 2 = true /\ valid_ascii_code (in_city_code input) 3 = true /\
       trim (in_province_name input) <> "" /\ trim (in_city_name input) <> "");
}.

Lemma trim_upper s n : string_forallb upper_or_digit s = true -> String.length s = S n -> trim s <> "".
Proof.
  intros Hs Hl. rewrite trim_plain by (eapply string_forallb_impl; [exact upper_or_digit_plain|done]).
  by intros ->.
Qed.

Lemma from_str_registered s code :
  institution_code_from_str s = Some code ->
  trim s <> "" /\ is_Some (institution_code_text code) /\ is_Some (profit_policy code).
Proof.
  Local Transparent institution_code_from_str profit_policy.
  intros Hs. split.
  - intros Ht. unfold institution_code_from_str in Hs. rewrite Ht in Hs. by vm_compute in Hs.
  - unfold institution_code_from_str in Hs. apply fmap_Some in Hs as (info & Hf & ->).
    apply List.find_some in Hf as [Hin _]. apply list_elem_of_In, table_entry in Hin as (Ht & _ & _).
    split; [by eexists|]. unfold profit_policy. rewrite Ht. by eexists.
Qed.
#[local] Opaque institution_code_from_str profit_policy.

Lemma generate_total input :
  input_valid input -> exists n, generate_cid_number blake2_256 input = Ok n.
Proof.
  intros [Hk Hy Hyd (code & Hcode & Hpmul & Hprofit & Harea)]. unfold generate_cid_number.
  destruct (from_str_registered _ _ Hcode) as (Hi & [text Ht] & [policy Hp]).
  assert (trim (year input) <> "") as Hty.
  { eapply (trim_upper _ 3); [|done]. eapply string_forallb_impl; [exact digit_upper_or_digit|done]. }
  rewrite (bool_decide_eq_false_2 (trim (public_key input) = "" \/ _)) by tauto. simpl.
  rewrite Hy, bool_decide_eq_true_2, Hyd by done. simpl. rewrite Hcode. simpl.
  rewrite (bool_decide_eq_false_2 (code = PMUL)) by done. simpl.
  assert (exists b, generated_profit code (p1 input) = Ok b) as [b ->].
  { unfold generated_profit. rewrite Hp in *. destruct policy; eauto. }
  simpl. rewrite Ht. simpl.
  assert (exists r, generated_segments blake2_256 input code text = Ok r) as [[area n9] ->].
  { unfold generated_segments. destruct (is_person_code code); [by eexists|].
    destruct (Harea eq_refl) as (H1 & H2 & H3 & H4). rewrite H1, H2.
    rewrite bool_decide_eq_false_2; [by eexists|].
    unfold valid_ascii_code in H1. rewrite andb_true_iff, bool_decide_eq_true in H1. destruct H1 as [H1 H1'].
    pose proof (trim_upper _ 1 H1' H1). tauto. }
  simpl. destruct (is_three_char_code code); by eexists.
Qed.

Lemma generate_valid input n :
  generate_cid_number blake2_256 input = Ok n -> input_valid input.
Proof.
  unfold generate_cid_number. intros Hg.
  apply guard_bind_Ok in Hg as [Hreq%negb_true_iff%bool_decide_eq_false Hg].
  apply guard_bind_Ok in Hg as [[Hy%bool_decide_eq_true Hyd]%andb_true_iff Hg].
  apply result_bind_Ok in Hg as (code & Hcode%opt_ok_Ok & Hg).
  apply guard_bind_Ok in Hg as [Hpmul%negb_true_iff%bool_decide_eq_false Hg].
  apply result_bind_Ok in Hg as (b & Hb & Hg). apply result_bind_Ok in Hg as (text & Ht%opt_ok_Ok & Hg).
  apply result_bind_Ok in Hg as (r & Hs & _).
  split; [tauto|done|done|]. exists code. split_and!; try done.
  - intros Hp. exists b. unfold generated_profit in Hb. by destruct Hp as [Hp|Hp]; rewrite Hp in Hb.
  - intros Hperson. unfold generated_segments in Hs. rewrite Hperson in Hs. result_inv.
    match goal with H : bool_decide _ = false |- _ => apply bool_decide_eq_false in H end. tauto.
Qed.

Lemma issued_scope input p :
  issued input p ->
  cid_scope_codes (render p) =
    if is_person_code (institution p) then Err "person cid has no province/city scope"
    else Ok (in_province_code input, in_city_code input).
Proof.
  intros [Hp _ _ _ Ha _]. unfold cid_scope_codes, parse_cid_number_parts_bytes.
  pose proof (render_plain p Hp) as Hplain.
  rewrite ascii_utf8_valid by (eapply string_forallb_impl; [exact plain_ascii|done]). simpl.
  rewrite (parse_render (render p) p Hp (trim_plain _ Hplain)). simpl.
  destruct (is_person_code (institution p)) eqn:Hperson; [done|]. simpl.
  rewrite (segment_len _ _ _ (wf_r5 p Hp)), bool_decide_eq_true_2 by done. simpl.
  unfold issued_area in Ha. rewrite Hperson in Ha. destruct Ha as (-> & Hl1 & Hl2).
  destruct (in_province_code input) as [|a [|b [|]]]; try done.
  destruct (in_city_code input) as [|c [|d [|e [|]]]]; done.
Qed.

(** The quick reading of the code agrees with the parser. *)
Lemma quick_code p : well_formed p -> institution_code_from_cid_number (render p) = Some (institution p).
Proof.
  intros Hp. destruct (render_text p Hp) as [[_ Hs _] _]. unfold institution_code_from_cid_number.
  rewrite Hs. simpl. destruct Hp as [_ Hc Hpr Hx _ _]. destruct p as [s0 code text prof c s2 s3]. simpl in *.
  destruct (institution_code_text_table _ _ Hc) as [Hup H3 _ Hb Hsize].
  unfold core_segment, core_payload. simpl. rewrite H3, Hb. clear H3 Hb Hx Hc.
  destruct text as [|c0 [|c1 [|c2 [|c3 [|]]]]]; try (simpl in *; lia); simpl in *.
  - by destruct prof.
  - rewrite !andb_true_iff in Hup. destruct Hup as (_ & _ & _ & Hup & _).
    unfold is_ascii_uppercase in Hup. apply byte_in_spec in Hup. unfold is_ascii_alphabetic.
    destruct (Nat.leb_spec 65 (nat_of_ascii c3)), (Nat.leb_spec (nat_of_ascii c3) 90); try lia. done.
Qed.

(** C38: a number is issued exactly for valid input: a key, a year of four
    digits, a registered code other than the personal multisig, a choice of the
    profit mark where the code leaves one, and, for an institution, the names
    and codes of its area. The number has 26 characters, the parser reads back
    what was put in (the code, the profit mark, the area, the year), the quick
    reading of the code used by the pallets agrees, and the area of an
    institution, but of no person, is recovered from it. *)
Theorem generated_number_parses input :
  (input_valid input <-> exists n, generate_cid_number blake2_256 input = Ok n) /\
  forall n, generate_cid_number blake2_256 input = Ok n ->
    exists p, parse_cid_number_parts n = Ok p /\ issued input p /\
      String.length n = 26%nat /\ validate_cid_number_format n = Ok n /\
      institution_code_from_cid_number n = Some (institution p) /\
      cid_scope_codes n =
        (if is_person_code (institution p) then Err "person cid has no province/city scope"
         else Ok (in_province_code input, in_city_code input)).
Proof.
  split; [split; [apply generate_total|intros [n Hn]; by eapply generate_valid]|].
  intros n Hn. destruct (generate_Ok _ _ Hn) as (p & Hi & ->). pose proof (is_wf _ _ Hi) as Hp.
  pose proof (trim_plain _ (render_plain p Hp)) as Ht. pose proof (parse_render _ p Hp Ht) as Hparse.
  exists p. split_and!; try done.
  - exact (proj2 (render_text p Hp)).
  - unfold validate_cid_number_format. rewrite Hparse. simpl. by rewrite Ht.
  - by apply quick_code.
  - by apply issued_scope.
Qed.
End Generated.

(** ** A concrete number *)

Definition demo_input : GenerateCidNumberInput := {|
  public_key := "0xabcd"; p1 := "0"; in_province_code := "GD"; in_province_name := "广东省";
  in_city_code := "001"; in_city_name := "荔湾市"; year := "2026"; in_institution := " NRC" |}.

Lemma parse_accepts_exactly_witness :
  exists p, parse_cid_number_parts " LN001-NRC0G-944805165-2026" = Ok p /\ well_formed p.
Proof.
  destruct (parse_cid_number_parts " LN001-NRC0G-944805165-2026") as [p|e] eqn:Hp.
  - exists p. split; [reflexivity|]. exact (proj1 (proj1 (parse_accepts_exactly _ p) Hp)).
  - exfalso. vm_compute in Hp. discriminate Hp.
Defined.

Lemma generated_number_parses_witness :
  exists n, generate_cid_number id demo_input = Ok n /\ cid_scope_codes n = Ok ("GD", "001").
Proof.
  destruct (generate_cid_number id demo_input) as [n|e] eqn:Hn.
  - exists n. split; [reflexivity|].
    destruct (proj2 (generated_number_parses id demo_input) n Hn) as (p & Hp & Hi & _ & _ & _ & Hs).
    rewrite Hs. pose proof (is_code _ _ Hi) as Hc.
    assert (institution_code_from_str (in_institution demo_input) = Some NRC) as Hnrc
      by (vm_compute; reflexivity).
    rewrite Hnrc in Hc. injection Hc as Hc. rewrite <-Hc. vm_compute. reflexivity.
  - exfalso. vm_compute in Hn. discriminate Hn.
Defined.

(** The parser accepts the code of personal multisigs, which the generator
    never issues. *)
Example personal_multisig_number_accepted :
  exists p, parse_cid_number_parts "GD001-PMULE-000000000-2026" = Ok p /\ institution p = PMUL.
Proof. eexists. split; [vm_compute; reflexivity|reflexivity]. Qed.
