(* ===== verification/AreaData.v ===== *)
(** * Areas and the official institutions derived from them

    [primitives/cid/china/area.rs], [official_template.rs], [official_derive.rs]
    and [seed.rs]: the binary table of provinces, cities and towns, and the
    institutions the genesis block creates for every province and city. *)
From S2P Require Import Prelude Cid CidNumber.

(** ** Reading the table ([area.rs])

    The table is a file of the repository; it is an argument here. A read past
    its end or a name that is not UTF-8 panics: [None]. The cursor is the list
    of the bytes still to be read. *)

Abbreviation bytes := (list ascii).
Definition reader (A : Type) : Type := bytes -> option (A * bytes).
#[export] Instance reader_ret : MRet reader := fun A a l => Some (a, l).
#[export] Instance reader_bind : MBind reader := fun A B f m l =>
  match m l with Some (a, l) => f a l | None => None end.
#[global] Typeclasses Opaque reader.

Definition byte_value (c : ascii) : Z := Z.of_nat (nat_of_ascii c).

Definition read_u16 : reader Z := fun l =>
  match l with
  | a :: b :: l => Some (byte_value a + 256 * byte_value b, l)
  | _ => None
  end.

Definition read_slice (n : nat) : reader string := fun l =>
  if decide (n <= length l)%nat then
    let s := String.string_of_list_ascii (take n l) in
    if utf8_valid s then Some (s, drop n l) else None
  else None.

Definition fixed (n : nat) : reader string := read_slice n.

Definition var : reader string := fun l =>
  match l with
  | n :: l => read_slice (nat_of_ascii n) l
  | [] => None
  end.

Record CityArea : Type := {
  ca_province_code : string; ca_province_name : string; ca_city_code : string; ca_city_name : string }.
Record TownArea : Type := {
  ta_province_code : string; ta_province_name : string; ta_city_code : string; ta_city_name : string;
  ta_town_code : string; ta_town_name : string }.

(** The items of the traversal; the towns of a city are not used further. *)
Inductive AreaItem : Type :=
| AreaProvince (province_code province_name home_city_code home_city_name : string)
| AreaCity (city : CityArea)
| AreaTown (town : TownArea).

Fixpoint read_towns (pc pn cc cn : string) (n : nat) : reader (list AreaItem) :=
  match n with
  | O => mret []
  | S n =>
      town_code ← fixed 3;
      town_name ← var;
      items ← read_towns pc pn cc cn n;
      mret (AreaTown {| ta_province_code := pc; ta_province_name := pn; ta_city_code := cc;
        ta_city_name := cn; ta_town_code := town_code; ta_town_name := town_name |} :: items)
  end.

(** The city with the code [001], or else the first. *)
Definition next_home (home : option (string * string)) (code name : string)
    : option (string * string) :=
  if decide (home = None \/ code = "001") then Some (code, name) else home.

Fixpoint read_cities (pc pn : string) (home : option (string * string)) (n : nat)
    : reader (list AreaItem * option (string * string)) :=
  match n with
  | O => mret ([], home)
  | S n =>
      city_code ← fixed 3;
      city_name ← var;
      let home := next_home home city_code city_name in
      town_count ← read_u16;
      towns ← read_towns pc pn city_code city_name (Z.to_nat town_count);
      '(items, home) ← read_cities pc pn home n;
      mret (AreaCity {| ca_province_code := pc; ca_province_name := pn; ca_city_code := city_code;
        ca_city_name := city_name |} :: towns ++ items, home)
  end.

Fixpoint read_provinces (n : nat) : reader (list AreaItem) :=
  match n with
  | O => mret []
  | S n =>
      province_code ← fixed 2;
      province_name ← var;
      city_count ← read_u16;
      '(items, home_city) ← read_cities province_code province_name None (Z.to_nat city_count);
      rest ← read_provinces n;
      mret (items ++ (match home_city with
        | Some (home_code, home_name) =>
            [AreaProvince province_code province_name home_code home_name]
        | None => [] end) ++ rest)
  end.

(** The items [for_each_area] hands to its callback, in order. *)
Definition for_each_area (AREA_DATA : bytes) : option (list AreaItem) :=
  fst <$> (province_count ← read_u16; read_provinces (Z.to_nat province_count)) AREA_DATA.

Definition count_item (counts : Z * Z * Z) (item : AreaItem) : Z * Z * Z :=
  let '(provinces, cities, towns) := counts in
  match item with
  | AreaProvince _ _ _ _ => (provinces + 1, cities, towns)
  | AreaCity _ => (provinces, cities + 1, towns)
  | AreaTown _ => (provinces, cities, towns + 1)
  end.

Definition area_counts (AREA_DATA : bytes) : option (Z * Z * Z) :=
  foldl count_item (0, 0, 0) <$> for_each_area AREA_DATA.

(** ** Templates ([official_template.rs]) *)

Record OfficialOrgTemplate : Type := {
  template_code : string;
  cid_short_name_suffix : string;
  cid_full_name_suffix : string;
}.

Definition org_template (code short full : string) : OfficialOrgTemplate :=
  {| template_code := code; cid_short_name_suffix := short; cid_full_name_suffix := full |}.

Definition cid_short_name (t : OfficialOrgTemplate) (display_area_name : string) : string :=
  display_area_name +:+ cid_short_name_suffix t.
Definition cid_full_name (t : OfficialOrgTemplate) (display_area_name : string) : string :=
  display_area_name +:+ cid_full_name_suffix t.

Definition PROVINCE_DEPARTMENT_TEMPLATES : list OfficialOrgTemplate :=
  [org_template "PDF" "国防厅" "国家防务厅";
   org_template "PHS" "国安厅" "国土安全厅";
   org_template "PCW" "民生厅" "公民生活保障厅";
   org_template "PHU" "住建厅" "住房与城镇建设厅";
   org_template "PAG" "农业厅" "农业与农村发展厅";
   org_template "PCM" "商贸厅" "商务与市场贸易厅";
   org_template "PFT" "财税厅" "财政与税务厅";
   org_template "PEN" "能源厅" "能源与环保发展厅";
   org_template "PTR" "交通厅" "交通运输厅";
   org_template "PSN" "参议会" "联邦立法院参议会";
   org_template "PRP" "众议会" "联邦立法院众议会"].

Definition CITY_TEMPLATES : list OfficialOrgTemplate :=
  [org_template "CGOV" "政府" "自治政府";
   org_template "CLEG" "立法会" "公民立法委员会";
   org_template "CSUP" "监察院" "自治监察院";
   org_template "CJUD" "司法院" "自治司法院";
   org_template "CEDU" "教委会" "公民教育委员会";
   org_template "CSLF" "自治会" "公民自治委员会";
   org_template "CDEF" "国防局" "国家防务局";
   org_template "CHSC" "国安局" "国土安全局";
   org_template "CPOL" "公安局" "公民安全局";
   org_template "CCWF" "民生局" "公民生活保障局";
   org_template "CHUD" "住建局" "住房与城镇建设局";
   org_template "CAGR" "农业局" "农业与农村发展局";
   org_template "CCOM" "商贸局" "商务与市场贸易局";
   org_template "CFIN" "财税局" "财政与税务局";
   org_template "CENR" "能源局" "能源与环保发展局";
   org_template "CTRN" "交通局" "交通运输局";
   org_template "CREG" "注册局" "身份注册局"].

Definition TOWN_TEMPLATES : list OfficialOrgTemplate :=
  [org_template "TGOV" "政府" "自治政府";
   org_template "TCWF" "民生科" "公民生活保障科";
   org_template "THUD" "住建科" "住房与城镇建设科";
   org_template "TAGR" "农业科" "农业与农村发展科";
   org_template "TFIN" "财税科" "财政与税务科";
   org_template "TDEF" "国防科" "国家防务科";
   org_template "THSC" "国安科" "国土安全科";
   org_template "TCOM" "商贸科" "商务与市场贸易科";
   org_template "TENR" "能源科" "能源与环保发展科";
   org_template "TTRN" "交通科" "交通运输科";
   org_template "TPOL" "公安科" "公民安全科";
   org_template "TSLF" "自治会" "公民自治委员会";
   org_template "TSUP" "监察院" "自治监察院";
   org_template "TJUD" "司法院" "自治司法院"].

(** ** Derivation ([seed.rs], [official_derive.rs]) *)

Definition official_institution_account_seed (scope province_code city_code town_code
    institution_code : string) : string :=
  "GOV-" +:+ scope +:+ "-" +:+ province_code +:+ "-" +:+ city_code +:+ "-" +:+ town_code +:+ "-"
  +:+ institution_code.

Definition GENESIS_INSTITUTION_YEAR : string := "2026".

Record DerivedInstitutionItem : Type := {
  di_scope : string;
  di_province_code : string;
  di_city_code : string;
  di_town_code : string;
  di_province_name : string;
  di_city_name : string;
  di_display_area_name : string;
  di_template : OfficialOrgTemplate;
  di_cid_number : string;
  di_cid_full_name : string;
  di_cid_short_name : string;
}.

Section Derive.
Variable blake2_256 : string -> string.

Definition template_input (scope province_code city_code town_code : string)
    (template : OfficialOrgTemplate) (province_name city_name : string) : GenerateCidNumberInput := {|
  public_key := official_institution_account_seed scope province_code city_code town_code
    (template_code template);
  p1 := "0";
  in_province_code := province_code;
  in_province_name := province_name;
  in_city_code := city_code;
  in_city_name := city_name;
  year := GENESIS_INSTITUTION_YEAR;
  in_institution := template_code template |}.

(** Panics when the number cannot be issued. *)
Definition derive_template_cid (scope province_code city_code town_code : string)
    (template : OfficialOrgTemplate) (province_name city_name : string) : option string :=
  match generate_cid_number blake2_256
    (template_input scope province_code city_code town_code template province_name city_name) with
  | Ok cid => Some cid
  | Err _ => None
  end.

Definition emit (scope province_code city_code town_code : string) (province_name city_name
    display_area_name : string) (template : OfficialOrgTemplate) : option DerivedInstitutionItem :=
  cid ← derive_template_cid scope province_code city_code town_code template province_name city_name;
  Some {| di_scope := scope; di_province_code := province_code; di_city_code := city_code;
    di_town_code := town_code; di_province_name := province_name; di_city_name := city_name;
    di_display_area_name := display_area_name; di_template := template; di_cid_number := cid;
    di_cid_full_name := cid_full_name template display_area_name;
    di_cid_short_name := cid_short_name template display_area_name |}.

Definition derive_area (item : AreaItem) : option (list DerivedInstitutionItem) :=
  match item with
  | AreaProvince pc pn hc hn => mapM (emit "PROVINCE" pc hc "" pn hn pn) PROVINCE_DEPARTMENT_TEMPLATES
  | AreaCity c =>
      mapM (emit "CITY" (ca_province_code c) (ca_city_code c) "" (ca_province_name c) (ca_city_name c)
        (ca_city_name c)) CITY_TEMPLATES
  | AreaTown _ => Some []
  end.

(** The institutions handed to the callback, in order. *)
Definition for_each_public_institution_detailed (AREA_DATA : bytes)
    : option (list DerivedInstitutionItem) :=
  items ← for_each_area AREA_DATA;
  (@concat _) <$> mapM derive_area items.

Definition for_each_public_institution (AREA_DATA : bytes) : option (list (string * string * string)) :=
  match for_each_public_institution_detailed AREA_DATA with
  | Some items =>
      Some (map (fun i => (di_cid_number i, di_cid_full_name i, di_cid_short_name i)) items)
  | None => None
  end.
End Derive.

Definition public_institution_derived_count (AREA_DATA : bytes) : option Z :=
  '(provinces, cities, _) ← area_counts AREA_DATA;
  Some (Z.of_nat (length PROVINCE_DEPARTMENT_TEMPLATES) * provinces
    + Z.of_nat (length CITY_TEMPLATES) * cities).
