(* ===== verification/AreaFacts.v ===== *)
(** * The area table and its institutions

    Reading the table gives back every table that was written, and every
    institution of the genesis block gets a valid number. *)
From S2P Require Import Prelude Cid CidNumber CidFormat AreaData.

(** ** Tables *)

Record town : Type := { t_code : string; t_name : string }.
Record city : Type := { c_code : string; c_name : string; c_towns : list town }.
Record province : Type := { v_code : string; v_name : string; v_cities : list city }.

Definition to_bytes (s : string) : bytes := String.list_ascii_of_string s.
Definition write_u16 (n : nat) : bytes := [ascii_of_nat (n mod 256); ascii_of_nat (n / 256)].
Definition write_var (s : string) : bytes := ascii_of_nat (String.length s) :: to_bytes s.

Definition write_list {A} (f : A -> bytes) (l : list A) : bytes := write_u16 (length l) ++ concat (f <$> l).
Definition write_town (t : town) : bytes := to_bytes (t_code t) ++ write_var (t_name t).
Definition write_city (c : city) : bytes :=
  to_bytes (c_code c) ++ write_var (c_name c) ++ write_list write_town (c_towns c).
Definition write_province (v : province) : bytes :=
  to_bytes (v_code v) ++ write_var (v_name v) ++ write_list write_city (v_cities v).
Definition write_areas (vs : list province) : bytes := write_list write_province vs.

Definition code_fits (n : nat) (s : string) : Prop := String.length s = n /\ utf8_valid s = true.
Definition name_fits (s : string) : Prop := (String.length s < 256)%nat /\ utf8_valid s = true.
Definition count_fits {A} (l : list A) : Prop := Z.of_nat (length l) <= u16_max.

Definition town_fits (t : town) : Prop := code_fits 3 (t_code t) /\ name_fits (t_name t).
Definition city_fits (c : city) : Prop :=
  code_fits 3 (c_code c) /\ name_fits (c_name c) /\ count_fits (c_towns c) /\ Forall town_fits (c_towns c).
Definition province_fits (v : province) : Prop :=
  code_fits 2 (v_code v) /\ name_fits (v_name v) /\ count_fits (v_cities v) /\ Forall city_fits (v_cities v).
Definition areas_fit (vs : list province) : Prop := count_fits vs /\ Forall province_fits vs.

(** The items of a table: the towns after their city, the province last with
    its home city. *)
Definition home_city (v : province) : option city :=
  match List.find (fun c => bool_decide (c_code c = "001")) (reverse (v_cities v)) with
  | Some c => Some c
  | None => head (v_cities v)
  end.
Definition city_items (v : province) (c : city) : list AreaItem :=
  AreaCity {| ca_province_code := v_code v; ca_province_name := v_name v; ca_city_code := c_code c;
    ca_city_name := c_name c |} ::
  ((fun t => AreaTown {| ta_province_code := v_code v; ta_province_name := v_name v;
    ta_city_code := c_code c; ta_city_name := c_name c; ta_town_code := t_code t;
    ta_town_name := t_name t |}) <$> c_towns c).
Definition province_items (v : province) : list AreaItem :=
  concat (city_items v <$> v_cities v) ++
  match home_city v with Some c => [AreaProvince (v_code v) (v_name v) (c_code c) (c_name c)] | None => [] end.
Definition area_items (vs : list province) : list AreaItem := concat (province_items <$> vs).

(** ** Reading what was written *)

Lemma bind_reader {A B} (m : reader A) (f : A -> reader B) l a l' :
  m l = Some (a, l') -> (m ≫= f) l = f a l'.
Proof. unfold mbind, reader_bind. by intros ->. Qed.

Lemma read_u16_write n l : Z.of_nat n <= u16_max -> read_u16 (write_u16 n ++ l) = Some (Z.of_nat n, l).
Proof.
  unfold u16_max. intros Hn. unfold write_u16. cbn [app read_u16]. unfold read_u16, byte_value.
  pose proof (Nat.mod_upper_bound n 256 ltac:(lia)).
  assert (n / 256 < 256)%nat by (apply Nat.Div0.div_lt_upper_bound; lia).
  rewrite !nat_ascii_embedding by lia. do 2 f_equal. pose proof (Nat.div_mod n 256 ltac:(lia)). lia.
Qed.

Lemma length_to_bytes s : length (to_bytes s) = String.length s.
Proof. unfold to_bytes. induction s; simpl; congruence. Qed.

Lemma read_slice_write s l :
  utf8_valid s = true -> read_slice (String.length s) (to_bytes s ++ l) = Some (s, l).
Proof.
  intros Hs. unfold read_slice. rewrite decide_True by (rewrite length_app, length_to_bytes; lia).
  rewrite take_app_length', drop_app_length' by (symmetry; apply length_to_bytes).
  unfold to_bytes. by rewrite String.string_of_list_ascii_of_string, Hs.
Qed.

Lemma fixed_write n s l : code_fits n s -> fixed n (to_bytes s ++ l) = Some (s, l).
Proof. intros [<- Hs]. by apply read_slice_write. Qed.

Lemma var_write s l : name_fits s -> var (write_var s ++ l) = Some (s, l).
Proof.
  intros [Hn Hs]. unfold var, write_var. simpl. rewrite nat_ascii_embedding by lia.
  by apply read_slice_write.
Qed.

Lemma read_towns_write v c ts l :
  Forall town_fits ts ->
  read_towns (v_code v) (v_name v) (c_code c) (c_name c) (length ts) (concat (write_town <$> ts) ++ l)
    = Some ((fun t => AreaTown {| ta_province_code := v_code v; ta_province_name := v_name v;
        ta_city_code := c_code c; ta_city_name := c_name c; ta_town_code := t_code t;
        ta_town_name := t_name t |}) <$> ts, l).
Proof.
  induction 1 as [|t ts [Hc Hn] _ IH]; [done|]. simpl. unfold write_town at 1. rewrite <-!app_assoc.
  erewrite bind_reader by by apply fixed_write. erewrite bind_reader by by apply var_write.
  by erewrite bind_reader by exact IH.
Qed.

Lemma read_cities_write v home cs l :
  Forall city_fits cs ->
  read_cities (v_code v) (v_name v) home (length cs) (concat (write_city <$> cs) ++ l)
    = Some ((concat (city_items v <$> cs), foldl (fun h c => next_home h (c_code c) (c_name c)) home cs), l).
Proof.
  intros Hcs. revert home. induction Hcs as [|c cs (Hc & Hn & Hl & Ht) _ IH]; intros home; [done|].
  simpl. unfold write_city at 1, write_list. rewrite <-!app_assoc.
  erewrite bind_reader by by apply fixed_write. erewrite bind_reader by by apply var_write.
  erewrite bind_reader by by apply read_u16_write. rewrite Nat2Z.id.
  erewrite bind_reader by by apply read_towns_write. by erewrite bind_reader by apply IH.
Qed.

Lemma foldl_home_some cs x :
  foldl (fun h c => next_home h (c_code c) (c_name c)) (Some x) cs =
    match List.find (fun c => bool_decide (c_code c = "001")) (reverse cs) with
    | Some c => Some (c_code c, c_name c)
    | None => Some x
    end.
Proof.
  revert x. induction cs as [|c cs IH] using rev_ind; intros x; [done|].
  rewrite foldl_app, reverse_app. simpl. unfold next_home at 1.
  case_bool_decide as Hc; [rewrite decide_True by (by right); done|].
  rewrite decide_False; [apply IH|]. rewrite IH. destruct (List.find _ _); intros [?|?]; done.
Qed.

Lemma home_city_read v :
  foldl (fun h c => next_home h (c_code c) (c_name c)) None (v_cities v)
    = (fun c => (c_code c, c_name c)) <$> home_city v.
Proof.
  unfold home_city. destruct (v_cities v) as [|c cs]; [done|]. simpl.
  unfold next_home at 2. rewrite decide_True by (by left). rewrite foldl_home_some.
  rewrite reverse_cons. induction (reverse cs) as [|d ds IH]; simpl.
  - by case_bool_decide.
  - by case_bool_decide.
Qed.

Lemma read_provinces_write vs l :
  Forall province_fits vs ->
  read_provinces (length vs) (concat (write_province <$> vs) ++ l) = Some (area_items vs, l).
Proof.
  induction 1 as [|v vs (Hc & Hn & Hl & Hcs) _ IH]; [done|].
  simpl. unfold write_province at 1, write_list. rewrite <-!app_assoc.
  erewrite bind_reader by by apply fixed_write. erewrite bind_reader by by apply var_write.
  erewrite bind_reader by by apply read_u16_write. rewrite Nat2Z.id.
  erewrite bind_reader by by apply read_cities_write. cbv beta iota.
  erewrite bind_reader by apply IH.
  rewrite home_city_read. unfold area_items. simpl. unfold province_items at 2. rewrite <-app_assoc.
  by destruct (home_city v).
Qed.

Lemma for_each_area_write vs l :
  areas_fit vs -> for_each_area (write_areas vs ++ l) = Some (area_items vs).
Proof.
  intros [Hn Hv]. unfold for_each_area, write_areas, write_list. rewrite <-app_assoc.
  erewrite bind_reader by by apply read_u16_write. rewrite Nat2Z.id.
  by rewrite read_provinces_write.
Qed.

Definition sum_list (l : list nat) : nat := foldr Nat.add 0%nat l.

Ltac triple := apply f_equal2; [apply f_equal2|]; lia.

Lemma count_towns pc pn cc cn ts p c t :
  foldl count_item (p, c, t) ((fun x => AreaTown {| ta_province_code := pc; ta_province_name := pn;
    ta_city_code := cc; ta_city_name := cn; ta_town_code := t_code x; ta_town_name := t_name x |}) <$> ts)
    = (p, c, t + Z.of_nat (length ts)).
Proof. revert t. induction ts as [|x ts IH]; intros t; simpl; [triple|]. rewrite IH. triple. Qed.

Lemma count_cities v cs p c t :
  foldl count_item (p, c, t) (concat (city_items v <$> cs))
    = (p, c + Z.of_nat (length cs), t + Z.of_nat (sum_list (length ∘ c_towns <$> cs))).
Proof.
  revert c t. induction cs as [|x cs IH]; intros c t; csimpl; [triple|].
  rewrite foldl_app, count_towns, IH. triple.
Qed.

Definition has_city (v : province) : bool := match v_cities v with [] => false | _ => true end.

Lemma home_city_some v : is_Some (home_city v) <-> has_city v = true.
Proof.
  unfold home_city, has_city. destruct (v_cities v) as [|c cs] eqn:Hv; simpl.
  - split; [by intros []|done].
  - split; [done|]. intros _. destruct (List.find _ _); by eexists.
Qed.

Lemma count_provinces vs p c t :
  foldl count_item (p, c, t) (area_items vs)
    = (p + Z.of_nat (length (filter (fun v => has_city v = true) vs)),
       c + Z.of_nat (sum_list (length ∘ v_cities <$> vs)),
       t + Z.of_nat (sum_list ((fun v => sum_list (length ∘ c_towns <$> v_cities v)) <$> vs))).
Proof.
  revert p c t. induction vs as [|v vs IH]; intros p c t; csimpl; [triple|].
  unfold area_items in *. csimpl. rewrite foldl_app. unfold province_items at 1.
  rewrite foldl_app, count_cities. destruct (home_city v) as [h|] eqn:Hh; simpl; rewrite IH.
  - rewrite filter_cons_True by (apply home_city_some; by eexists). csimpl. triple.
  - rewrite filter_cons_False by (rewrite <-home_city_some, Hh; by intros []). triple.
Qed.

(** C39: the table of areas is read back as it was written, whatever comes
    after it in the file: the traversal yields the cities of each province in
    order, each followed by its towns, and then the province with its home city
    (the last with the code 001, or else the first); a province without cities
    is left out. The counts are those of the table. *)
Theorem area_table_roundtrip vs rest :
  areas_fit vs ->
  for_each_area (write_areas vs ++ rest) = Some (area_items vs) /\
  area_counts (write_areas vs ++ rest) =
    Some (Z.of_nat (length (filter (fun v => has_city v = true) vs)),
          Z.of_nat (sum_list (length ∘ v_cities <$> vs)),
          Z.of_nat (sum_list ((fun v => sum_list (length ∘ c_towns <$> v_cities v)) <$> vs))).
Proof.
  intros Hv. pose proof (for_each_area_write vs rest Hv) as Hr. split; [done|].
  unfold area_counts. rewrite Hr. simpl. by rewrite count_provinces.
Qed.

#[export] Instance ProfitPolicy_eq_dec : EqDecision ProfitPolicy.
Proof. solve_decision. Defined.

(** ** The derived institutions *)

(** A name that a number can be issued for. *)
Definition area_named (v : province) : Prop :=
  string_forallb upper_or_digit (v_code v) = true /\ trim (v_name v) <> "" /\
  Forall (fun c => string_forallb upper_or_digit (c_code c) = true /\ trim (c_name c) <> "") (v_cities v).

(** Official templates name public bodies that make no profit. *)
Definition template_ok (t : OfficialOrgTemplate) : bool :=
  match institution_code_from_str (template_code t) with
  | Some code => negb (bool_decide (code = PMUL)) && negb (is_person_code code)
      && is_public_legal_code code && bool_decide (profit_policy code = Some NonProfit)
  | None => false
  end.

Lemma templates_ok :
  Forall (fun t => template_ok t = true) (PROVINCE_DEPARTMENT_TEMPLATES ++ CITY_TEMPLATES ++ TOWN_TEMPLATES).
Proof.
  apply Forall_forall. intros t Hin. apply list_elem_of_In in Hin.
  revert t Hin. apply forallb_forall. by vm_compute.
Qed.

Lemma template_registered t :
  template_ok t = true ->
  exists code, institution_code_from_str (template_code t) = Some code /\ code <> PMUL /\
    is_person_code code = false /\ profit_policy code = Some NonProfit.
Proof.
  unfold template_ok. destruct (institution_code_from_str _) as [code|]; [|done].
  rewrite !andb_true_iff, !negb_true_iff, bool_decide_eq_false, bool_decide_eq_true.
  intros (((H1 & H2) & _) & H3). by exists code.
Qed.

Lemma mapM_results {A B} (f : A -> option B) (P : A -> B -> Prop) l :
  Forall (fun a => exists b, f a = Some b /\ P a b) l -> exists k, mapM f l = Some k /\ Forall2 P l k.
Proof.
  induction 1 as [|a l (b & Hb & Hp) _ (k & Hk & Hf)]; [by exists []|].
  exists (b :: k). simpl. rewrite Hb. simpl. rewrite Hk. split; [done|by constructor].
Qed.

Section Derived.
Variable blake2_256 : string -> string.

(** What an institution of the genesis block has. *)
Record derived_ok (i : DerivedInstitutionItem) : Prop := {
  dk_parsed : exists p, parse_cid_number_parts (di_cid_number i) = Ok p /\
    institution_code_from_str (template_code (di_template i)) = Some (institution p) /\
    profit p = false /\ d4 p = GENESIS_INSTITUTION_YEAR;
  dk_scope : cid_scope_codes (di_cid_number i) = Ok (di_province_code i, di_city_code i);
  dk_full : di_cid_full_name i = cid_full_name (di_template i) (di_display_area_name i);
  dk_short : di_cid_short_name i = cid_short_name (di_template i) (di_display_area_name i);
}.

(** The arguments an institution is derived from. *)
Record emit_args (scope pc cc pn cn : string) : Prop := {
  ea_scope : string_forallb plain scope = true;
  ea_pc : valid_ascii_code pc 2 = true;
  ea_cc : valid_ascii_code cc 3 = true;
  ea_pn : trim pn <> "";
  ea_cn : trim cn <> "";
}.

Lemma valid_ascii_plain s n : valid_ascii_code s n = true -> string_forallb plain s = true.
Proof.
  unfold valid_ascii_code. rewrite andb_true_iff. intros [_ H].
  eapply string_forallb_impl; [exact upper_or_digit_plain|exact H].
Qed.

Lemma emit_ok scope pc cc pn cn shown t :
  emit_args scope pc cc pn cn -> template_ok t = true -> string_forallb plain (template_code t) = true ->
  exists i, emit blake2_256 scope pc cc "" pn cn shown t = Some i /\ derived_ok i.
Proof.
  intros [Hs Hpc Hcc Hpn Hcn] Ht Htp. destruct (template_registered t Ht) as (code & Hc & Hpm & Hper & Hpol).
  set (input := template_input scope pc cc "" t pn cn).
  assert (Hv : input_valid input).
  { split; simpl.
    - rewrite trim_plain; [done|]. unfold official_institution_account_seed.
      repeat (rewrite string_forallb_app; simpl). by rewrite Hs, (valid_ascii_plain _ _ Hpc),
        (valid_ascii_plain _ _ Hcc), Htp.
    - done.
    - by vm_compute.
    - exists code. split; [done|]. split; [done|]. split; [by rewrite Hpol; intros [?|?]|]. by intros _. }
  destruct (generate_total blake2_256 input Hv) as [n Hn].
  destruct (generate_Ok _ _ _ Hn) as (p & Hi & ->). pose proof (is_wf _ _ Hi) as Hwf.
  pose proof (parse_render _ p Hwf (trim_plain _ (render_plain p Hwf))) as Hp.
  unfold emit, derive_template_cid. fold input. rewrite Hn. simpl. eexists. split; [done|].
  pose proof (is_code _ _ Hi) as Hcode. simpl in Hcode. rewrite Hc in Hcode. injection Hcode as Hcode.
  split; simpl; try done.
  - exists p. split; [done|]. split; [by rewrite Hc, Hcode|]. split; [|exact (is_year _ _ Hi)].
    pose proof (is_profit _ _ Hi) as Hpr. unfold generated_profit in Hpr.
    rewrite <-Hcode, Hpol in Hpr. by injection Hpr.
  - by rewrite (issued_scope input p Hi), <-Hcode, Hper.
Qed.

Definition item_named (i : AreaItem) : Prop :=
  match i with
  | AreaProvince pc pn cc cn => emit_args "PROVINCE" pc cc pn cn
  | AreaCity c => emit_args "CITY" (ca_province_code c) (ca_city_code c) (ca_province_name c) (ca_city_name c)
  | AreaTown _ => True
  end.
Definition item_count (i : AreaItem) : nat :=
  match i with
  | AreaProvince _ _ _ _ => length PROVINCE_DEPARTMENT_TEMPLATES
  | AreaCity _ => length CITY_TEMPLATES
  | AreaTown _ => 0
  end.

Lemma derive_templates scope pc cc pn cn shown ts :
  emit_args scope pc cc pn cn ->
  Forall (fun t => template_ok t = true /\ string_forallb plain (template_code t) = true) ts ->
  exists l, mapM (emit blake2_256 scope pc cc "" pn cn shown) ts = Some l /\
    Forall derived_ok l /\ length l = length ts.
Proof.
  intros Ha Hts.
  destruct (mapM_results (emit blake2_256 scope pc cc "" pn cn shown) (fun _ i => derived_ok i) ts)
    as (l & Hl & Hok).
  - eapply Forall_impl; [exact Hts|]. intros t [H1 H2]. by apply emit_ok.
  - exists l. split; [done|]. split; [by eapply Forall2_Forall_r; [exact Hok|]; apply Forall_true|].
    symmetry. by eapply Forall2_length.
Qed.

Lemma templates_plain :
  Forall (fun t => template_ok t = true /\ string_forallb plain (template_code t) = true)
    (PROVINCE_DEPARTMENT_TEMPLATES ++ CITY_TEMPLATES).
Proof.
  apply Forall_forall. intros t Hin. apply list_elem_of_In in Hin.
  rewrite <-andb_true_iff. revert t Hin. apply forallb_forall. by vm_compute.
Qed.

Lemma derive_area_ok i :
  item_named i -> exists l, derive_area blake2_256 i = Some l /\ Forall derived_ok l /\ length l = item_count i.
Proof.
  pose proof templates_plain as [Hp Hc]%Forall_app. destruct i; intros Hn.
  - by apply derive_templates.
  - by apply derive_templates.
  - by exists [].
Qed.

Lemma derive_areas_ok items :
  Forall item_named items ->
  exists l, mapM (derive_area blake2_256) items = Some l /\ Forall derived_ok (concat l) /\
    length (concat l) = sum_list (item_count <$> items).
Proof.
  intros Hi.
  destruct (mapM_results (derive_area blake2_256)
    (fun i l => Forall derived_ok l /\ length l = item_count i) items) as (k & Hk & Hok).
  { eapply Forall_impl; [exact Hi|]. intros i Hn. by apply derive_area_ok. }
  exists k. split; [done|]. clear Hi Hk. induction Hok as [|i l items k [H1 H2] _ [IH1 IH2]]; [done|].
  csimpl. rewrite length_app. split; [by apply Forall_app|]. congruence.
Qed.

Lemma item_counts items p c t :
  let '(p', c', _) := foldl count_item (p, c, t) items in
  11 * p' + 17 * c' = 11 * p + 17 * c + Z.of_nat (sum_list (item_count <$> items)).
Proof.
  revert p c t. induction items as [|i items IH]; intros p c t; csimpl; [lia|].
  destruct i; simpl; [specialize (IH (p + 1) c t)|specialize (IH p (c + 1) t)|specialize (IH p c (t + 1))];
    destruct (foldl _ _ _) as [[p' c'] t']; rewrite IH; simpl; lia.
Qed.

Lemma valid_code n s : code_fits n s -> string_forallb upper_or_digit s = true -> valid_ascii_code s n = true.
Proof. intros [Hl _] Hs. unfold valid_ascii_code. by rewrite Hl, bool_decide_eq_true_2, Hs. Qed.

Lemma items_named vs :
  areas_fit vs -> Forall area_named vs -> Forall item_named (area_items vs).
Proof.
  intros [_ Hf] Hn. unfold area_items. induction Hf as [|v vs (Hvc & _ & _ & Hcs) _ IH]; [done|].
  apply Forall_cons in Hn as [(Hu & Hpn & Hcn) Hn]. csimpl. apply Forall_app. split; [|by apply IH].
  assert (Hcity : forall c, c ∈ v_cities v -> forall scope, string_forallb plain scope = true ->
    emit_args scope (v_code v) (c_code c) (v_name v) (c_name c)).
  { intros c Hc scope Hs. rewrite Forall_forall in Hcs, Hcn. destruct (Hcs c Hc) as (Hcc & _).
    destruct (Hcn c Hc) as [Hcu Hcnn]. split; try done; by apply valid_code. }
  unfold province_items. apply Forall_app. split.
  - apply Forall_concat, Forall_fmap, Forall_forall. intros c Hc. simpl. constructor.
    + by apply Hcity.
    + apply Forall_fmap, Forall_forall. by intros t _.
  - destruct (home_city v) as [h|] eqn:Hh; [|done]. constructor; [|done]. apply Hcity; [|done].
    unfold home_city in Hh. destruct (List.find _ _) as [c|] eqn:Hfind.
    + apply List.find_some in Hfind as [Hin _]. injection Hh as <-. apply list_elem_of_In in Hin. by apply elem_of_reverse.
    + destruct (v_cities v); [done|]. injection Hh as <-. by left.
Qed.

(** C40: for every table of areas whose codes are capital letters or
    digits and whose names are not blank, the derivation of the genesis
    institutions does not panic: it yields as many institutions as announced
    (11 for each province with a city, 17 for each city), each with a number the
    parser accepts, of the code of its template, not for profit, of the genesis
    year, from which its province and its city are recovered. *)
Theorem derived_institutions_valid vs rest :
  areas_fit vs -> Forall area_named vs ->
  exists items,
    for_each_public_institution_detailed blake2_256 (write_areas vs ++ rest) = Some items /\
    public_institution_derived_count (write_areas vs ++ rest) = Some (Z.of_nat (length items)) /\
    Forall derived_ok items.
Proof.
  intros Hf Hn. destruct (derive_areas_ok _ (items_named vs Hf Hn)) as (l & Hl & Hok & Hlen).
  exists (concat l). unfold for_each_public_institution_detailed, public_institution_derived_count, area_counts.
  rewrite for_each_area_write by done. simpl. rewrite Hl. split; [done|]. split; [|done].
  pose proof (item_counts (area_items vs) 0 0 0) as Hc.
  destruct (foldl count_item _ _) as [[p c] t]. simpl in *. f_equal. lia.
Qed.
End Derived.

(** ** A concrete table *)

Definition demo_areas : list province :=
  [{| v_code := "GD"; v_name := "广东省"; v_cities :=
      [{| c_code := "002"; c_name := "B"; c_towns := [] |};
       {| c_code := "001"; c_name := "荔湾市"; c_towns := [{| t_code := "001"; t_name := "T" |}] |}] |};
   {| v_code := "ZS"; v_name := "中枢省"; v_cities := [] |}].

Lemma demo_areas_fit : areas_fit demo_areas.
Proof.
  unfold demo_areas. repeat (simpl; match goal with
  | |- areas_fit _ => split
  | |- Forall _ [] => constructor
  | |- Forall _ (_ :: _) => constructor
  | |- _ /\ _ => split
  | |- province_fits _ => split
  | |- city_fits _ => split
  | |- town_fits _ => split
  | |- code_fits _ _ => split
  | |- name_fits _ => split
  | |- _ => vm_compute; (reflexivity || discriminate || lia)
  end).
Qed.

Lemma demo_areas_named : Forall area_named demo_areas.
Proof.
  unfold demo_areas. repeat (simpl; match goal with
  | |- Forall _ [] => constructor
  | |- Forall _ (_ :: _) => constructor
  | |- area_named _ => split
  | |- _ /\ _ => split
  | |- _ => vm_compute; (reflexivity || discriminate)
  end).
Qed.

Lemma area_table_roundtrip_witness :
  area_counts (write_areas demo_areas ++ to_bytes "more") = Some (1, 2, 1) /\
  for_each_area (write_areas demo_areas ++ to_bytes "more") = Some (area_items demo_areas).
Proof.
  split; [vm_compute; reflexivity|].
  exact (proj1 (area_table_roundtrip demo_areas (to_bytes "more") demo_areas_fit)).
Defined.

Lemma derived_institutions_valid_witness :
  public_institution_derived_count (write_areas demo_areas) = Some 45 /\
  exists items, for_each_public_institution_detailed id (write_areas demo_areas ++ []) = Some items /\
    Forall derived_ok items.
Proof.
  split; [vm_compute; reflexivity|].
  destruct (derived_institutions_valid id demo_areas [] demo_areas_fit demo_areas_named)
    as (items & H1 & _ & H2).
  exists items. exact (conj H1 H2).
Defined.
